(* ===== verification/_CoqProject ===== *)
-Q . S2P
Prelude.v
OdbcConst.v
Digits.v
Memory.v
Utf8.v
Utf8Checked.v
Utf8Iter.v
Widechar.v
OdbcUtils.v
Diagnostic.v
DiagApi.v
Interval.v
ApiInfo.v
Descriptor.v
DescApi.v
Params.v
Calendar.v
DateText.v
TimeText.v
IntegerText.v
Hugeint.v
HugeText.v
IntervalText.v
Weeks.v
Precision.v
Fetch.v
GetData.v
Stmt.v
Sha256.v
SessionInit.v
Connect.v
Attributes.v
ColumnInfo.v
MetadataApi.v
InfoConst.v
InfoApi.v
DescTypes.v
Cupola.v
Handles.v
HandleCalls.v
Stubs.v
Independent.v
Frames.v
Reading.v
Batch.v
Session.v
BatchSession.v
