(* ===== verification/Prelude.v ===== *)
(** * A verification development for the Haybarn (DuckDB) ODBC driver

    The repository is an ODBC driver around a vendored copy of the DuckDB engine.
    This development models the driver itself, [src/src/odbc_driver] and
    [src/src/odbc_api] with their headers in [src/include], and of the code they
    call the UTF-8 library, SHA-256 and, of the engine, the calendar and the numbers,
    dates and times it prints and reads. Paths below are under [src/].

    ** How the program is put together, and where each part is modelled

    An application holds handles: an environment, connections, statements and
    descriptors. Each entry point [SQLXxx] has a wide twin [SQLXxxW]; both call
    one internal function, a template over the character type. A handle carries
    its diagnostics, which each call clears and adds to.

    - Support. [Prelude]: machine integers as [Z] with [wrap_u] and [wrap_s],
      bytes, lists. [OdbcConst], [InfoConst]: the macros of the ODBC headers.
      [Memory]: the client's memory, a finite map from addresses to bytes, with
      [store] and [load_u]/[load_s] for the C integers.
    - Text. [Utf8], [Utf8Checked], [Utf8Iter]: [third_party/utf8], the functions the
      driver calls, the ones that check, and the iterators. [Widechar]: [widechar/widechar.cpp], the
      lenient conversions and [utf16_conv]. [OdbcUtils]: [common/odbc_utils.cpp],
      among them [WriteStringUtf8] and [WriteStringUtf16], through which every
      text reaches the client.
    - Diagnostics. [Diagnostic]: [common/odbc_diagnostic.cpp], records and the
      position of reading. [DiagApi]: [SQLGetDiagRec], [SQLGetDiagField].
    - Descriptors. [Descriptor]: [descriptor.cpp], [row_descriptor.cpp].
      [DescApi]: [odbc_api/descriptor_api.cpp]. [DescTypes]: the types of fields.
      [ApiInfo]: the type tables of [api_info.cpp]. [Interval]:
      [common/odbc_interval.cpp].
    - Statements. [Params]: [parameter_descriptor.cpp], from bound memory to
      values. [Fetch]: the state of a statement and its cursor,
      [common/odbc_fetch.cpp]. [GetData]: [GetDataStmtResult] of
      [statement/statement_functions.cpp], from a value to the client's buffer;
      it rests on the engine's part below. [Stmt]: preparing, executing, binding, closing, and the
      end of a transaction ([statement_functions.cpp], [duckdb_odbc.cpp] and the
      entry points of [odbc_api/]).
    - The engine, [src/duckdb/src/common/types] and the headers. [Digits]: integers
      and decimals as digits ([cast_helpers.hpp], [decimal.cpp]). [Calendar]: days and
      civil dates, [date.cpp], [time.cpp], [timestamp.cpp]. [DateText], [TimeText]: the
      texts of dates, times and timestamps. [IntegerText]: integers read from a text,
      with a fraction or an exponent, [operator/integer_cast_operator.hpp].
      [Hugeint], [HugeText]: the arithmetic of 128-bit integers on two words,
      [hugeint.cpp], and their texts and those of the widest decimals.
      [IntervalText]: the texts of intervals, [interval.cpp]. [Weeks]: the other parts of a date.
      [Precision]: timestamps in seconds, milliseconds and nanoseconds, and their casts
      ([operator/cast_operators.cpp]).
    - Connections. [Sha256]: [third_party/picosha2.h]. [SessionInit]: the script
      at the start of a session, [connect/session_init.cpp]. [Connect]:
      [connect/connect.cpp], the connection string, the options and the entry
      points. [Cupola]: [connect/cupola_connection.cpp], the registry of
      connections, the credential and the statements of one. [Attributes]:
      [attribute_api.cpp], for all handles.
    - Metadata. [ColumnInfo]: [column_info_api.cpp]. [MetadataApi]:
      [metadata_api.cpp]. [InfoApi]: [info_api.cpp]. [Stubs]:
      [empty_api_stubs.cpp], the functions that are not implemented.
    - Handles. [Handles]: the heap of the objects behind the handles with the
      pointers between them, and allocating and freeing ([handle_api.cpp],
      [driver.cpp], the constructors and destructors of [duckdb_odbc.cpp]).
      [HandleCalls]: sequences of calls on that heap. The files above work on one
      statement with its descriptors, or one connection with its statements, as
      values; [Handles.load_stmt] and [Handles.store_stmt] take them out of the
      heap and put them back, and so bring in what descriptors share.
      [Independent]: pairs of calls on different statements.
    - Sessions, the parts together. [Frames]: what every entry point on a
      statement leaves alone, as rules of a logic over the results the entry
      points have. [Reading]: a statement between preparing and the end of its
      rows. [Batch]: a statement with an array of parameters. [Session]: heap,
      engine and memory as one state, the entry points on a statement as one type
      of calls, and the query of a column from [SQLAllocHandle] to
      [SQLFreeHandle]. [BatchSession]: the same for an array of parameters.

    The layers call each other as the list has them. [Fetch] needs the conversion
    of a cell and [GetData] works on the statement that [Fetch] defines; the class
    [GetDataOp] is the contract between the two, with the law that a conversion
    leaves the cursor alone, and [GetData] has the instance that discharges it.

    ** Conventions

    A function of the source is a function of the same name over the state it
    reads and writes, in explicit state passing. [None], or the inner [None] of an
    [option (option _)], is undefined behaviour (a null or dangling pointer, an
    index out of a vector) or an exception that leaves the driver; the outer
    [None] is fuel that ran out. Handles that are not valid pointers are outside
    of the model but where a function tests for null, and in [Handles], where
    they are undefined behaviour. There a statement has two different current
    application descriptors: one explicit descriptor that is both for the same
    statement is not represented. Two spots of memory the
    driver allocates are arguments: the buffers of [SQLPutData] and of the
    keywords.

    Fuel. Texts that end with a NUL take the bound on their length as an argument
    of the entry point. The parser of connection strings has the length of its
    input and one as fuel, which [Connect.ParseInputStr_total] shows to be enough;
    the search for a year in [Calendar] has [year_fuel], enough by
    [Calendar.Date_Convert_total]. The loops over parameter sets, statements and
    fetches, which depend on the engine, have theirs as an argument:
    [Stmt.batch_runs_every_set] and [Fetch.Materialize_scrollable] say how much is
    enough, [Stmt.second_commit_hangs] that none is. Decoding a text takes its length as
    fuel, since every round takes a unit or more; printing an integer of 64 bits takes
    fewer than the ten rounds it has, one of 128 bits is a word after two divisions by
    10^17 and has 39 digits at most.

    ** Parameters

    What is not under [src/], or is behind the interface of the engine, is a type
    class: [Stmt.EngineOps] (preparing, executing, transactions),
    [GetData.CellOps] (the values of a result and the casts between them; a text is cast by
    the functions of the engine part), [GetData.TimeZone] (the C library),
    [SessionInit.FileOps] (the file system), [SessionInit.QueryOps] (statements of
    the script), [Connect.OpenOps] (options and opening of a database; its
    Cupola connection is given by [Cupola.with_cupola]),
    [Cupola.CupolaOps] (the system, the JSON library, statements),
    [Handles.Allocator] ([new]: any address that is free). Theorems hold for all their instances; the witnesses use
    concrete ones.

    ** What the theorems show

    - Sessions: whatever else is on the heap, an application reads the rows the
      engine delivers, all and in order ([Session.query_session]), and the engine
      executes what the application has bound ([BatchSession.array_session]);
      each of the entry points on a statement keeps the heap well formed
      ([Session.statement_calls_safe]).
    - Texts: the checked conversions accept well-formed text and nothing else
      ([Utf8Checked.checked_conversions_exact]) and an iterator is a cursor in the code
      points ([Utf8Iter.iterator_refines_cursor]); the driver's conversions are inverse on well-formed text, always end, and stay
      within the buffer ([Widechar], [OdbcUtils], [Attributes], [InfoApi]);
      a message or a value read in pieces arrives whole or loses exactly what the
      code loses ([DiagApi.fetch_message_pieces], [GetData.pieces_reassemble]).
    - Values: what is bound reaches the engine ([Stmt.bound_integer_reaches_engine]),
      and what the engine has reaches the client ([GetData.timestamp_delivered_exact],
      [GetData.decimal_delivered], through the text the engine prints), as a value or
      as its text ([GetData.text_cells_delivered]);
      the calendar is a bijection ([Calendar.date_fields_bijection]).
    - The engine's texts: integers and decimals are printed as their digits
      ([Digits.FormatSigned_prints], [Digits.Decimal_ToString_prints]); dates, times and
      timestamps are read back as what they were ([DateText.date_text_roundtrip],
      [TimeText.time_printed], [TimeText.timestamp_text_roundtrip]), and reading
      stays within the text but for one form ([TimeText.time_reads_within_text]). Integers
      are read back too ([IntegerText.integer_text_roundtrip]), and a number with a fraction
      is rounded, half away from zero, or refused out of range
      ([IntegerText.text_rounds_to_integer]). The words of a 128-bit integer compute as the integer
      does ([Hugeint.huge_arithmetic_exact]), and come back from their text
      ([HugeText.huge_text_roundtrip]). Intervals are read back up to a
      billion hours ([IntervalText.interval_text_roundtrip]). The
      week of a date is the ISO week ([Weeks.iso_week_is_thursdays]); a cast to a finer
      precision and back loses nothing ([Precision.precision_roundtrip],
      [Precision.nanosecond_parts]).
    - The cursor: fetching refines reading a list of rows
      ([Fetch.Fetch_refines_list]) and delivers them in order.
    - Sequences of calls: batches execute every set of parameters; and misuse, as
      executing or committing again, has the outcome the code has for it.
    - Descriptors: writes touch one record ([Descriptor.SetDescField_frame]), keep
      the types ([DescTypes.SetDescField_typed]) and are read back
      ([DescApi.desc_field_roundtrip]).
    - Connecting: a printed connection string parses to its options; a Cupola
      connection stands alone; the script and its digest cannot come from the
      string; success means connected ([Connect]); a script runs only with its
      digest ([SessionInit.digest_pins_script], [Sha256.hash256_standard]). The
      Cupola connection succeeds exactly when the registry, the credential and
      every statement are good, its texts read back as one literal each, and no
      error shows a secret ([Cupola]).
    - Handles: calls that pass live handles are never undefined, in any order
      ([HandleCalls.handles_safe], over the reachable heaps); what a call does to
      a statement is seen by the others through shared descriptors and nowhere
      else; calls on statements that share nothing commute
      ([Independent.independent_calls_commute]); freeing takes what is owned and resets what referred to it; and the
      conditions on the caller are needed.
    - Attributes are read back, and change what they name and nothing else.
    - Metadata: [SQLDescribeCol] and [SQLColAttribute] agree; the types asked of
      [SQLTables] reach the engine; [SQLGetInfo] delivers each value in its width.

    ** Not modelled

    The engine but for the functions above: its results are parameters. Of its numbers
    and dates: unsigned 128-bit integers, floating point, names of time zones (an extension) and
    the current time. The engine is third-party code of half a million lines; the driver
    sees it through the classes. Branches for Windows, but for the ones of the Cupola
    connection. Calls from several threads: the driver has no locks of its own. The
    overloads of the UTF-8 library for other string types. Build scripts, installers, tests. *)

From stdpp Require Export base gmap list strings numbers.
From Stdlib Require Export ZArith Lia.
From coqutil Require Export Datatypes.RecordSetters.
Export TriangleBracketNotations.
#[global] Open Scope Z_scope.

#[global] Arguments constant {E} newValue _ /.

(** ** Machine integers

    Every integer of the driver is a [Z] in the range of its C type; the
    conversions ([static_cast], implicit narrowing, wrap-around of unsigned
    arithmetic) are written out with [wrap_u] and [wrap_s]. The widths are the
    ones of the 64-bit unixODBC build: SQLSMALLINT/SQLRETURN 16 bits signed,
    SQLUSMALLINT and SQLWCHAR 16 bits unsigned, SQLINTEGER 32, SQLLEN 64,
    SQLULEN and size_t 64 unsigned. *)
Definition wrap_u (w : Z) (z : Z) : Z := z mod 2 ^ w.
Definition wrap_s (w : Z) (z : Z) : Z := (z + 2 ^ (w - 1)) mod 2 ^ w - 2 ^ (w - 1).

Definition in_u (w z : Z) : Prop := 0 <= z < 2 ^ w.
Definition in_s (w z : Z) : Prop := - 2 ^ (w - 1) <= z < 2 ^ (w - 1).

#[global] Instance in_u_dec w z : Decision (in_u w z).
Proof. unfold in_u. apply _. Defined.
#[global] Instance in_s_dec w z : Decision (in_s w z).
Proof. unfold in_s. apply _. Defined.

Abbreviation u8 := (wrap_u 8).
Abbreviation u16 := (wrap_u 16).
Abbreviation u32 := (wrap_u 32).
Abbreviation u64 := (wrap_u 64).
Abbreviation s8 := (wrap_s 8).
Abbreviation s16 := (wrap_s 16).
Abbreviation s32 := (wrap_s 32).
Abbreviation s64 := (wrap_s 64).

Lemma wrap_u_range w z : 0 <= w -> in_u w (wrap_u w z).
Proof. intros Hw. unfold in_u, wrap_u. apply Z.mod_pos_bound. lia. Qed.

Lemma wrap_u_small w z : in_u w z -> wrap_u w z = z.
Proof. intros H. apply Z.mod_small, H. Qed.

Lemma wrap_s_range w z : 0 < w -> in_s w (wrap_s w z).
Proof.
  intros Hw. unfold in_s, wrap_s.
  assert (2 ^ w = 2 * 2 ^ (w - 1)) as E.
  { rewrite <- Z.pow_succ_r by lia. f_equal. lia. }
  pose proof (Z.mod_pos_bound (z + 2 ^ (w - 1)) (2 ^ w)). lia.
Qed.

Lemma wrap_s_small w z : 0 < w -> in_s w z -> wrap_s w z = z.
Proof.
  intros Hw H. unfold in_s, wrap_s in *.
  assert (2 ^ w = 2 * 2 ^ (w - 1)) as E.
  { rewrite <- Z.pow_succ_r by lia. f_equal. lia. }
  rewrite Z.mod_small; lia.
Qed.

Create HintDb odbc.
Create Rewrite HintDb odbc.
#[export] Hint Resolve wrap_u_range wrap_s_range wrap_u_small wrap_s_small : odbc.

(** Rewriting a conversion away when the value is in range, with the bounds
    left to [lia]. *)
Ltac wrap_small :=
  repeat first
    [ rewrite wrap_u_small by (unfold in_u; lia)
    | rewrite wrap_s_small by (unfold in_s; lia) ].

(** ** Byte strings

    [std::string] and the byte buffers of the driver are lists of [Z] values
    between 0 and 255; string literals of the source are written [B"..."]. *)
Abbreviation bytes := (list Z).

Definition is_byte (b : Z) : Prop := 0 <= b < 256.
Definition is_u16 (c : Z) : Prop := 0 <= c < 65536.

#[global] Instance is_byte_dec b : Decision (is_byte b).
Proof. unfold is_byte. apply _. Defined.
#[global] Instance is_u16_dec c : Decision (is_u16 c).
Proof. unfold is_u16. apply _. Defined.

Definition bytes_of_string (s : string) : bytes :=
  (fun a => Z.of_N (Ascii.N_of_ascii a)) <$> String.list_ascii_of_string s.

Notation "'B' s" := (bytes_of_string s%string) (at level 5, s at level 0).

(** The code of a character literal, ['c'] in the source. *)
Definition chr (s : string) : Z := default 0 (head (bytes_of_string s)).

(** [std::to_string] on an integer. *)
Definition to_string (z : Z) : bytes := bytes_of_string (pretty.pretty z).

(** ** Lists *)
Definition zlen {A} (l : list A) : Z := Z.of_nat (length l).

Lemma zlen_nonneg {A} (l : list A) : 0 <= zlen l.
Proof. unfold zlen. lia. Qed.
Lemma zlen_app {A} (l k : list A) : zlen (l ++ k) = zlen l + zlen k.
Proof. unfold zlen. rewrite length_app. lia. Qed.
Lemma zlen_cons {A} (x : A) l : zlen (x :: l) = 1 + zlen l.
Proof. unfold zlen. cbn [length]. lia. Qed.
Lemma zlen_nil {A} : zlen (@nil A) = 0.
Proof. reflexivity. Qed.
#[export] Hint Rewrite @zlen_app @zlen_cons @zlen_nil : odbc.
#[export] Hint Resolve zlen_nonneg : odbc.

(** [substr(pos)] and the first [n] elements, with a [Z] count as the code
    computes it. *)
Definition ztake {A} (n : Z) (l : list A) : list A := take (Z.to_nat n) l.
Definition zdrop {A} (n : Z) (l : list A) : list A := drop (Z.to_nat n) l.

Lemma zlen_ztake {A} n (l : list A) : 0 <= n -> zlen (ztake n l) = Z.min n (zlen l).
Proof. intros. unfold zlen, ztake. rewrite length_take. lia. Qed.
Lemma zlen_zdrop {A} n (l : list A) : 0 <= n -> zlen (zdrop n l) = Z.max 0 (zlen l - n).
Proof. intros. unfold zlen, zdrop. rewrite length_drop. lia. Qed.
Lemma ztake_zdrop {A} n (l : list A) : ztake n l ++ zdrop n l = l.
Proof. apply take_drop. Qed.
Lemma ztake_ge {A} n (l : list A) : zlen l <= n -> ztake n l = l.
Proof. intros. apply take_ge. unfold zlen in *. lia. Qed.
Lemma zdrop_ge {A} n (l : list A) : zlen l <= n -> zdrop n l = [].
Proof. intros. apply drop_ge. unfold zlen in *. lia. Qed.
Lemma zdrop_zdrop {A} n m (l : list A) : 0 <= n -> 0 <= m -> zdrop n (zdrop m l) = zdrop (m + n) l.
Proof. intros. unfold zdrop. rewrite drop_drop. f_equal. lia. Qed.
Lemma ztake_zdrop_app {A} n m (l : list A) :
  0 <= n -> 0 <= m -> ztake n l ++ ztake m (zdrop n l) = ztake (n + m) l.
Proof.
  intros. unfold ztake, zdrop. rewrite <- (take_drop (Z.to_nat n) (take (Z.to_nat (n + m)) l)).
  rewrite take_take, take_drop_commute. do 2 f_equal; [lia|]. f_equal. lia.
Qed.

(** The text a C string function sees: up to the first NUL. *)
Fixpoint until_nul (s : bytes) : bytes :=
  match s with [] => [] | c :: s' => if c =? 0 then [] else c :: until_nul s' end.

(** [s.find(c)] as a split: what is before the first [c], and the rest from it. *)
Fixpoint split_at_byte (c : Z) (s : bytes) : bytes * bytes :=
  match s with
  | [] => ([], [])
  | x :: s' => if x =? c then ([], s) else let '(a, b) := split_at_byte c s' in (x :: a, b)
  end.

Lemma split_at_byte_found c s t : Forall (fun x => x <> c) s -> split_at_byte c (s ++ c :: t) = (s, c :: t).
Proof.
  induction 1 as [|x s Hx _ IH]; cbn [app split_at_byte]; [by rewrite Z.eqb_refl|].
  rewrite (proj2 (Z.eqb_neq x c)) by done. by rewrite IH.
Qed.
Lemma split_at_byte_absent c s : Forall (fun x => x <> c) s -> split_at_byte c s = (s, []).
Proof. induction 1 as [|x s Hx _ IH]; cbn [split_at_byte]; [done|]. rewrite (proj2 (Z.eqb_neq x c)) by done. by rewrite IH. Qed.
Lemma split_at_byte_app c s : (split_at_byte c s).1 ++ (split_at_byte c s).2 = s.
Proof.
  induction s as [|x s IH]; cbn [split_at_byte]; [done|]. destruct (x =? c); [done|].
  destruct (split_at_byte c s). cbn in *. by rewrite IH.
Qed.

Fixpoint drop_while (p : Z -> bool) (s : bytes) : bytes :=
  match s with [] => [] | x :: s' => if p x then drop_while p s' else s end.

Lemma length_drop_while p s : (length (drop_while p s) <= length s)%nat.
Proof. induction s as [|x s IH]; cbn; [lia|]. destruct (p x); cbn; lia. Qed.

(** [std::vector::resize]: truncate, or pad with a default. *)
Definition vec_resize {A} (n : nat) (d : A) (l : list A) : list A :=
  take n l ++ replicate (n - length l) d.

Lemma length_vec_resize {A} n (d : A) l : length (vec_resize n d l) = n.
Proof. unfold vec_resize. rewrite length_app, length_take, length_replicate. lia. Qed.
Lemma lookup_vec_resize_lt {A} n (d : A) l i :
  (i < n)%nat -> (i < length l)%nat -> vec_resize n d l !! i = l !! i.
Proof.
  intros Hn Hl. unfold vec_resize.
  rewrite lookup_app_l by (rewrite length_take; lia). by rewrite lookup_take_lt.
Qed.
#[export] Hint Rewrite @length_vec_resize : odbc.

(** A test of every integer of a range. *)
Lemma forallb_seqZ (P : Z -> bool) a n x :
  forallb P (seqZ a n) = true -> a <= x < a + n -> P x = true.
Proof. intros H Hx. rewrite forallb_forall in H. apply H, list_elem_of_In, elem_of_seqZ. lia. Qed.

(** ** Tactics *)

(** Case analysis on every [match] and every decided test of the goal, closing
    the goals that computation or contradiction settles. *)
Ltac split_matches :=
  repeat (case_match || case_decide); simplify_eq/=; try done.

(** Turns the boolean comparisons among the hypotheses into propositions. *)
Ltac zbool :=
  repeat match goal with
  | H : (_ =? _) = true |- _ => apply Z.eqb_eq in H
  | H : (_ =? _) = false |- _ => apply Z.eqb_neq in H
  | H : (_ <=? _) = true |- _ => apply Z.leb_le in H
  | H : (_ <=? _) = false |- _ => apply Z.leb_gt in H
  | H : (_ <? _) = true |- _ => apply Z.ltb_lt in H
  | H : (_ <? _) = false |- _ => apply Z.ltb_ge in H
  | H : (_ && _)%bool = true |- _ => apply andb_prop in H as [? ?]
  | H : (_ || _)%bool = false |- _ => apply orb_false_elim in H as [? ?]
  | H : negb _ = true |- _ => apply negb_true_iff in H
  | H : negb _ = false |- _ => apply negb_false_iff in H
  end.

Ltac zlia := zbool; unfold zlen, is_byte, is_u16, in_u, in_s in *; lia.

(** [lia] for goals with divisions and remainders by constants. *)
Ltac dlia := Z.to_euclidean_division_equations; lia.

(** Equality of two list literals of integers, element by element. *)
Ltac list_lia := repeat match goal with |- _ :: _ = _ :: _ => apply (f_equal2 cons); [try lia; dlia|] end; try done.
