(* ===== verification/OdbcConst.v ===== *)
(** * The constants of the ODBC interface

    The driver is compiled against the unixODBC headers [sql.h] and [sqlext.h],
    which are not part of the repository. Their macros have the values the
    ODBC 3.x standard fixes for the binary interface; they are abbreviations
    here so that tests on them compute and [lia] sees them. Several macros
    share a value ([SQL_C_CHAR] and [SQL_CHAR], the interval SQL types and
    their C types), which the driver relies on. *)

From S2P Require Import Prelude.

(** ** Return codes (SQLRETURN) *)
Abbreviation SQL_SUCCESS := 0.
Abbreviation SQL_SUCCESS_WITH_INFO := 1.
Abbreviation SQL_STILL_EXECUTING := 2.
Abbreviation SQL_ERROR := (-1).
Abbreviation SQL_INVALID_HANDLE := (-2).
Abbreviation SQL_NEED_DATA := 99.
Abbreviation SQL_NO_DATA := 100.
Abbreviation SQL_PARAM_SUCCESS := 0.
Abbreviation SQL_PARAM_ERROR := 5.
Abbreviation SQL_PARAM_SUCCESS_WITH_INFO := 6.
Abbreviation SQL_PARAM_UNUSED := 7.

(** ** Length and indicator values *)
Abbreviation SQL_NULL_DATA := (-1).
Abbreviation SQL_DATA_AT_EXEC := (-2).
Abbreviation SQL_NTS := (-3).
Abbreviation SQL_NO_TOTAL := (-4).
Abbreviation SQL_LEN_DATA_AT_EXEC_OFFSET := (-100).
Abbreviation SQL_IS_POINTER := (-4).
Abbreviation SQL_MAX_NUMERIC_LEN := 16.

(** ** Truth values and row numbers *)
Abbreviation SQL_FALSE := 0.
Abbreviation SQL_TRUE := 1.
Abbreviation SQL_NO_ROW_NUMBER := (-1).
Abbreviation SQL_NO_COLUMN_NUMBER := (-1).

(** ** Handle types *)
Abbreviation SQL_HANDLE_ENV := 1.
Abbreviation SQL_HANDLE_DBC := 2.
Abbreviation SQL_HANDLE_STMT := 3.
Abbreviation SQL_HANDLE_DESC := 4.

(** ** SQL types *)
Abbreviation SQL_UNKNOWN_TYPE := 0.
Abbreviation SQL_CHAR := 1.
Abbreviation SQL_NUMERIC := 2.
Abbreviation SQL_DECIMAL := 3.
Abbreviation SQL_INTEGER := 4.
Abbreviation SQL_SMALLINT := 5.
Abbreviation SQL_FLOAT := 6.
Abbreviation SQL_REAL := 7.
Abbreviation SQL_DOUBLE := 8.
Abbreviation SQL_VARCHAR := 12.
Abbreviation SQL_TYPE_DATE := 91.
Abbreviation SQL_TYPE_TIME := 92.
Abbreviation SQL_TYPE_TIMESTAMP := 93.
Abbreviation SQL_INTERVAL := 10.
Abbreviation SQL_LONGVARCHAR := (-1).
Abbreviation SQL_BINARY := (-2).
Abbreviation SQL_VARBINARY := (-3).
Abbreviation SQL_LONGVARBINARY := (-4).
Abbreviation SQL_BIGINT := (-5).
Abbreviation SQL_TINYINT := (-6).
Abbreviation SQL_BIT := (-7).
Abbreviation SQL_WCHAR := (-8).
Abbreviation SQL_WVARCHAR := (-9).
Abbreviation SQL_WLONGVARCHAR := (-10).
Abbreviation SQL_GUID := (-11).

(** ** Datetime and interval codes *)
Abbreviation SQL_CODE_DATE := 1.
Abbreviation SQL_CODE_TIME := 2.
Abbreviation SQL_CODE_TIMESTAMP := 3.
Abbreviation SQL_CODE_YEAR := 1.
Abbreviation SQL_CODE_MONTH := 2.
Abbreviation SQL_CODE_DAY := 3.
Abbreviation SQL_CODE_HOUR := 4.
Abbreviation SQL_CODE_MINUTE := 5.
Abbreviation SQL_CODE_SECOND := 6.
Abbreviation SQL_CODE_YEAR_TO_MONTH := 7.
Abbreviation SQL_CODE_DAY_TO_HOUR := 8.
Abbreviation SQL_CODE_DAY_TO_MINUTE := 9.
Abbreviation SQL_CODE_DAY_TO_SECOND := 10.
Abbreviation SQL_CODE_HOUR_TO_MINUTE := 11.
Abbreviation SQL_CODE_HOUR_TO_SECOND := 12.
Abbreviation SQL_CODE_MINUTE_TO_SECOND := 13.

(** ** Interval types, their C types and the tags of SQL_INTERVAL_STRUCT *)
Abbreviation SQL_INTERVAL_YEAR := 101.
Abbreviation SQL_INTERVAL_MONTH := 102.
Abbreviation SQL_INTERVAL_DAY := 103.
Abbreviation SQL_INTERVAL_HOUR := 104.
Abbreviation SQL_INTERVAL_MINUTE := 105.
Abbreviation SQL_INTERVAL_SECOND := 106.
Abbreviation SQL_INTERVAL_YEAR_TO_MONTH := 107.
Abbreviation SQL_INTERVAL_DAY_TO_HOUR := 108.
Abbreviation SQL_INTERVAL_DAY_TO_MINUTE := 109.
Abbreviation SQL_INTERVAL_DAY_TO_SECOND := 110.
Abbreviation SQL_INTERVAL_HOUR_TO_MINUTE := 111.
Abbreviation SQL_INTERVAL_HOUR_TO_SECOND := 112.
Abbreviation SQL_INTERVAL_MINUTE_TO_SECOND := 113.
Abbreviation SQL_C_INTERVAL_YEAR := 101.
Abbreviation SQL_C_INTERVAL_MONTH := 102.
Abbreviation SQL_C_INTERVAL_DAY := 103.
Abbreviation SQL_C_INTERVAL_HOUR := 104.
Abbreviation SQL_C_INTERVAL_MINUTE := 105.
Abbreviation SQL_C_INTERVAL_SECOND := 106.
Abbreviation SQL_C_INTERVAL_YEAR_TO_MONTH := 107.
Abbreviation SQL_C_INTERVAL_DAY_TO_HOUR := 108.
Abbreviation SQL_C_INTERVAL_DAY_TO_MINUTE := 109.
Abbreviation SQL_C_INTERVAL_DAY_TO_SECOND := 110.
Abbreviation SQL_C_INTERVAL_HOUR_TO_MINUTE := 111.
Abbreviation SQL_C_INTERVAL_HOUR_TO_SECOND := 112.
Abbreviation SQL_C_INTERVAL_MINUTE_TO_SECOND := 113.
Abbreviation SQL_IS_YEAR := 1.
Abbreviation SQL_IS_MONTH := 2.
Abbreviation SQL_IS_DAY := 3.
Abbreviation SQL_IS_HOUR := 4.
Abbreviation SQL_IS_MINUTE := 5.
Abbreviation SQL_IS_SECOND := 6.
Abbreviation SQL_IS_YEAR_TO_MONTH := 7.
Abbreviation SQL_IS_DAY_TO_HOUR := 8.
Abbreviation SQL_IS_DAY_TO_MINUTE := 9.
Abbreviation SQL_IS_DAY_TO_SECOND := 10.
Abbreviation SQL_IS_HOUR_TO_MINUTE := 11.
Abbreviation SQL_IS_HOUR_TO_SECOND := 12.
Abbreviation SQL_IS_MINUTE_TO_SECOND := 13.

(** ** C types *)
Abbreviation SQL_C_CHAR := 1.
Abbreviation SQL_C_LONG := 4.
Abbreviation SQL_C_SHORT := 5.
Abbreviation SQL_C_FLOAT := 7.
Abbreviation SQL_C_DOUBLE := 8.
Abbreviation SQL_C_NUMERIC := 2.
Abbreviation SQL_C_DEFAULT := 99.
Abbreviation SQL_C_TYPE_DATE := 91.
Abbreviation SQL_C_TYPE_TIME := 92.
Abbreviation SQL_C_TYPE_TIMESTAMP := 93.
Abbreviation SQL_C_BINARY := (-2).
Abbreviation SQL_C_BIT := (-7).
Abbreviation SQL_C_TINYINT := (-6).
Abbreviation SQL_C_WCHAR := (-8).
Abbreviation SQL_C_GUID := (-11).
Abbreviation SQL_C_SBIGINT := (-25).
Abbreviation SQL_C_UBIGINT := (-27).
Abbreviation SQL_C_SLONG := (-16).
Abbreviation SQL_C_SSHORT := (-15).
Abbreviation SQL_C_STINYINT := (-26).
Abbreviation SQL_C_ULONG := (-18).
Abbreviation SQL_C_USHORT := (-17).
Abbreviation SQL_C_UTINYINT := (-28).

(** ** Diagnostic fields *)
Abbreviation SQL_DIAG_RETURNCODE := 1.
Abbreviation SQL_DIAG_NUMBER := 2.
Abbreviation SQL_DIAG_ROW_COUNT := 3.
Abbreviation SQL_DIAG_SQLSTATE := 4.
Abbreviation SQL_DIAG_NATIVE := 5.
Abbreviation SQL_DIAG_MESSAGE_TEXT := 6.
Abbreviation SQL_DIAG_DYNAMIC_FUNCTION := 7.
Abbreviation SQL_DIAG_CLASS_ORIGIN := 8.
Abbreviation SQL_DIAG_SUBCLASS_ORIGIN := 9.
Abbreviation SQL_DIAG_CONNECTION_NAME := 10.
Abbreviation SQL_DIAG_SERVER_NAME := 11.
Abbreviation SQL_DIAG_DYNAMIC_FUNCTION_CODE := 12.
Abbreviation SQL_DIAG_CURSOR_ROW_COUNT := (-1249).
Abbreviation SQL_DIAG_ROW_NUMBER := (-1248).
Abbreviation SQL_DIAG_COLUMN_NUMBER := (-1247).

(** ** Dynamic function codes *)
Abbreviation SQL_DIAG_ALTER_DOMAIN := 3.
Abbreviation SQL_DIAG_ALTER_TABLE := 4.
Abbreviation SQL_DIAG_CALL := 7.
Abbreviation SQL_DIAG_CREATE_ASSERTION := 6.
Abbreviation SQL_DIAG_CREATE_CHARACTER_SET := 8.
Abbreviation SQL_DIAG_CREATE_COLLATION := 10.
Abbreviation SQL_DIAG_CREATE_DOMAIN := 23.
Abbreviation SQL_DIAG_CREATE_INDEX := (-1).
Abbreviation SQL_DIAG_CREATE_SCHEMA := 64.
Abbreviation SQL_DIAG_CREATE_TABLE := 77.
Abbreviation SQL_DIAG_CREATE_TRANSLATION := 79.
Abbreviation SQL_DIAG_CREATE_VIEW := 84.
Abbreviation SQL_DIAG_DELETE_WHERE := 19.
Abbreviation SQL_DIAG_DROP_ASSERTION := 24.
Abbreviation SQL_DIAG_DROP_CHARACTER_SET := 25.
Abbreviation SQL_DIAG_DROP_COLLATION := 26.
Abbreviation SQL_DIAG_DROP_DOMAIN := 27.
Abbreviation SQL_DIAG_DROP_INDEX := (-2).
Abbreviation SQL_DIAG_DROP_SCHEMA := 31.
Abbreviation SQL_DIAG_DROP_TABLE := 32.
Abbreviation SQL_DIAG_DROP_TRANSLATION := 33.
Abbreviation SQL_DIAG_DROP_VIEW := 36.
Abbreviation SQL_DIAG_DYNAMIC_DELETE_CURSOR := 38.
Abbreviation SQL_DIAG_DYNAMIC_UPDATE_CURSOR := 81.
Abbreviation SQL_DIAG_GRANT := 48.
Abbreviation SQL_DIAG_INSERT := 50.
Abbreviation SQL_DIAG_REVOKE := 59.
Abbreviation SQL_DIAG_SELECT_CURSOR := 85.
Abbreviation SQL_DIAG_UNKNOWN_STATEMENT := 0.
Abbreviation SQL_DIAG_UPDATE_WHERE := 82.

(** ** Descriptor fields *)
Abbreviation SQL_DESC_COUNT := 1001.
Abbreviation SQL_DESC_TYPE := 1002.
Abbreviation SQL_DESC_LENGTH := 1003.
Abbreviation SQL_DESC_OCTET_LENGTH_PTR := 1004.
Abbreviation SQL_DESC_PRECISION := 1005.
Abbreviation SQL_DESC_SCALE := 1006.
Abbreviation SQL_DESC_DATETIME_INTERVAL_CODE := 1007.
Abbreviation SQL_DESC_NULLABLE := 1008.
Abbreviation SQL_DESC_INDICATOR_PTR := 1009.
Abbreviation SQL_DESC_DATA_PTR := 1010.
Abbreviation SQL_DESC_NAME := 1011.
Abbreviation SQL_DESC_UNNAMED := 1012.
Abbreviation SQL_DESC_OCTET_LENGTH := 1013.
Abbreviation SQL_DESC_ALLOC_TYPE := 1099.
Abbreviation SQL_DESC_ARRAY_SIZE := 20.
Abbreviation SQL_DESC_ARRAY_STATUS_PTR := 21.
Abbreviation SQL_DESC_AUTO_UNIQUE_VALUE := 11.
Abbreviation SQL_DESC_BASE_COLUMN_NAME := 22.
Abbreviation SQL_DESC_BASE_TABLE_NAME := 23.
Abbreviation SQL_DESC_BIND_OFFSET_PTR := 24.
Abbreviation SQL_DESC_BIND_TYPE := 25.
Abbreviation SQL_DESC_CASE_SENSITIVE := 12.
Abbreviation SQL_DESC_CATALOG_NAME := 17.
Abbreviation SQL_DESC_CONCISE_TYPE := 2.
Abbreviation SQL_DESC_DATETIME_INTERVAL_PRECISION := 26.
Abbreviation SQL_DESC_DISPLAY_SIZE := 6.
Abbreviation SQL_DESC_FIXED_PREC_SCALE := 9.
Abbreviation SQL_DESC_LABEL := 18.
Abbreviation SQL_DESC_LITERAL_PREFIX := 27.
Abbreviation SQL_DESC_LITERAL_SUFFIX := 28.
Abbreviation SQL_DESC_LOCAL_TYPE_NAME := 29.
Abbreviation SQL_DESC_NUM_PREC_RADIX := 32.
Abbreviation SQL_DESC_PARAMETER_TYPE := 33.
Abbreviation SQL_DESC_ROWS_PROCESSED_PTR := 34.
Abbreviation SQL_DESC_ROWVER := 35.
Abbreviation SQL_DESC_SCHEMA_NAME := 16.
Abbreviation SQL_DESC_SEARCHABLE := 13.
Abbreviation SQL_DESC_TYPE_NAME := 14.
Abbreviation SQL_DESC_TABLE_NAME := 15.
Abbreviation SQL_DESC_UNSIGNED := 8.
Abbreviation SQL_DESC_UPDATABLE := 10.
(** The ODBC 2 names of column attributes. *)
Abbreviation SQL_COLUMN_COUNT := 0.
Abbreviation SQL_COLUMN_NAME := 1.
Abbreviation SQL_COLUMN_LENGTH := 3.
Abbreviation SQL_COLUMN_PRECISION := 4.
Abbreviation SQL_COLUMN_SCALE := 5.
Abbreviation SQL_COLUMN_NULLABLE := 7.
Abbreviation SQL_DESC_ALLOC_AUTO := 1.
Abbreviation SQL_DESC_ALLOC_USER := 2.
Abbreviation SQL_BIND_TYPE_DEFAULT := 0.
Abbreviation SQL_DATETIME := 9.
Abbreviation SQL_NAMED := 0.
Abbreviation SQL_UNNAMED := 1.
Abbreviation SQL_NO_NULLS := 0.
Abbreviation SQL_NULLABLE := 1.
Abbreviation SQL_NULLABLE_UNKNOWN := 2.
Abbreviation SQL_ATTR_READONLY := 0.
Abbreviation SQL_SEARCHABLE := 3.
Abbreviation SQL_PRED_BASIC := 2.
Abbreviation SQL_PARAM_INPUT := 1.

(** ** Statement attributes and their values *)
Abbreviation SQL_ATTR_QUERY_TIMEOUT := 0.
Abbreviation SQL_ATTR_MAX_ROWS := 1.
Abbreviation SQL_ATTR_NOSCAN := 2.
Abbreviation SQL_ATTR_MAX_LENGTH := 3.
Abbreviation SQL_ATTR_ASYNC_ENABLE := 4.
Abbreviation SQL_ATTR_ROW_BIND_TYPE := 5.
Abbreviation SQL_ATTR_CURSOR_TYPE := 6.
Abbreviation SQL_ATTR_CONCURRENCY := 7.
Abbreviation SQL_ATTR_KEYSET_SIZE := 8.
Abbreviation SQL_ATTR_SIMULATE_CURSOR := 10.
Abbreviation SQL_ATTR_RETRIEVE_DATA := 11.
Abbreviation SQL_ATTR_USE_BOOKMARKS := 12.
Abbreviation SQL_ATTR_ROW_NUMBER := 14.
Abbreviation SQL_ATTR_ENABLE_AUTO_IPD := 15.
Abbreviation SQL_ATTR_FETCH_BOOKMARK_PTR := 16.
Abbreviation SQL_ATTR_PARAM_BIND_OFFSET_PTR := 17.
Abbreviation SQL_ATTR_PARAM_BIND_TYPE := 18.
Abbreviation SQL_ATTR_PARAM_OPERATION_PTR := 19.
Abbreviation SQL_ATTR_PARAM_STATUS_PTR := 20.
Abbreviation SQL_ATTR_PARAMS_PROCESSED_PTR := 21.
Abbreviation SQL_ATTR_PARAMSET_SIZE := 22.
Abbreviation SQL_ATTR_ROW_BIND_OFFSET_PTR := 23.
Abbreviation SQL_ATTR_ROW_OPERATION_PTR := 24.
Abbreviation SQL_ATTR_ROW_STATUS_PTR := 25.
Abbreviation SQL_ATTR_ROWS_FETCHED_PTR := 26.
Abbreviation SQL_ATTR_ROW_ARRAY_SIZE := 27.
Abbreviation SQL_ATTR_CURSOR_SCROLLABLE := (-1).
Abbreviation SQL_ATTR_CURSOR_SENSITIVITY := (-2).
Abbreviation SQL_ATTR_APP_ROW_DESC := 10010.
Abbreviation SQL_ATTR_APP_PARAM_DESC := 10011.
Abbreviation SQL_ATTR_IMP_ROW_DESC := 10012.
Abbreviation SQL_ATTR_IMP_PARAM_DESC := 10013.
Abbreviation SQL_ATTR_METADATA_ID := 10014.
Abbreviation SQL_CURSOR_FORWARD_ONLY := 0.
Abbreviation SQL_CURSOR_KEYSET_DRIVEN := 1.
Abbreviation SQL_CURSOR_DYNAMIC := 2.
Abbreviation SQL_CURSOR_STATIC := 3.
Abbreviation SQL_NONSCROLLABLE := 0.
Abbreviation SQL_SCROLLABLE := 1.
Abbreviation SQL_CONCUR_READ_ONLY := 1.
Abbreviation SQL_CONCUR_LOCK := 2.
Abbreviation SQL_RD_OFF := 0.
Abbreviation SQL_RD_ON := 1.
Abbreviation SQL_BIND_BY_COLUMN := 0.

(** ** Connection and environment attributes and their values *)
Abbreviation SQL_ATTR_ACCESS_MODE := 101.
Abbreviation SQL_ATTR_AUTOCOMMIT := 102.
Abbreviation SQL_ATTR_LOGIN_TIMEOUT := 103.
Abbreviation SQL_ATTR_TRACE := 104.
Abbreviation SQL_ATTR_TRACEFILE := 105.
Abbreviation SQL_ATTR_TRANSLATE_LIB := 106.
Abbreviation SQL_ATTR_TRANSLATE_OPTION := 107.
Abbreviation SQL_ATTR_TXN_ISOLATION := 108.
Abbreviation SQL_ATTR_CURRENT_CATALOG := 109.
Abbreviation SQL_ATTR_ODBC_CURSORS := 110.
Abbreviation SQL_ATTR_QUIET_MODE := 111.
Abbreviation SQL_ATTR_PACKET_SIZE := 112.
Abbreviation SQL_ATTR_CONNECTION_TIMEOUT := 113.
Abbreviation SQL_ATTR_ASYNC_DBC_FUNCTIONS_ENABLE := 117.
Abbreviation SQL_ATTR_DBC_INFO_TOKEN := 118.
Abbreviation SQL_ATTR_ASYNC_DBC_EVENT := 119.
Abbreviation SQL_ATTR_ASYNC_DBC_PCALLBACK := 120.
Abbreviation SQL_ATTR_ASYNC_DBC_PCONTEXT := 121.
Abbreviation SQL_ATTR_ENLIST_IN_DTC := 1207.
Abbreviation SQL_ATTR_CONNECTION_DEAD := 1209.
Abbreviation SQL_ATTR_AUTO_IPD := 10001.
Abbreviation SQL_ATTR_OUTPUT_NTS := 10001.
Abbreviation SQL_ATTR_ODBC_VERSION := 200.
Abbreviation SQL_ATTR_CONNECTION_POOLING := 201.
Abbreviation SQL_ATTR_CP_MATCH := 202.
Abbreviation SQL_OV_ODBC2 := 2.
Abbreviation SQL_OV_ODBC3 := 3.
Abbreviation SQL_CP_OFF := 0.
Abbreviation SQL_CP_ONE_PER_DRIVER := 1.
Abbreviation SQL_CP_ONE_PER_HENV := 2.
Abbreviation SQL_AUTOCOMMIT_OFF := 0.
Abbreviation SQL_AUTOCOMMIT_ON := 1.
Abbreviation SQL_MODE_READ_WRITE := 0.
Abbreviation SQL_MODE_READ_ONLY := 1.
Abbreviation SQL_TXN_SERIALIZABLE := 8.

(** ** Fetching, closing, ending transactions *)
Abbreviation SQL_FETCH_NEXT := 1.
Abbreviation SQL_FETCH_FIRST := 2.
Abbreviation SQL_FETCH_LAST := 3.
Abbreviation SQL_FETCH_PRIOR := 4.
Abbreviation SQL_FETCH_ABSOLUTE := 5.
Abbreviation SQL_FETCH_RELATIVE := 6.
Abbreviation SQL_ROW_SUCCESS := 0.
Abbreviation SQL_ROW_NOROW := 3.
Abbreviation SQL_ROW_ERROR := 5.
Abbreviation SQL_COMMIT := 0.
Abbreviation SQL_ROLLBACK := 1.
Abbreviation SQL_CLOSE := 0.
Abbreviation SQL_DROP := 1.
Abbreviation SQL_UNBIND := 2.
Abbreviation SQL_RESET_PARAMS := 3.

(** ** Function identifiers *)
Abbreviation SQL_API_ALL_FUNCTIONS := 0.
Abbreviation SQL_API_ODBC3_ALL_FUNCTIONS := 999.
Abbreviation SQL_API_ODBC3_ALL_FUNCTIONS_SIZE := 250.
Abbreviation SQL_API_SQLBINDCOL := 4.
Abbreviation SQL_API_SQLCANCEL := 5.
Abbreviation SQL_API_SQLCOLATTRIBUTES := 6.
Abbreviation SQL_API_SQLCONNECT := 7.
Abbreviation SQL_API_SQLDESCRIBECOL := 8.
Abbreviation SQL_API_SQLDISCONNECT := 9.
Abbreviation SQL_API_SQLEXECDIRECT := 11.
Abbreviation SQL_API_SQLEXECUTE := 12.
Abbreviation SQL_API_SQLFETCH := 13.
Abbreviation SQL_API_SQLFREESTMT := 16.
Abbreviation SQL_API_SQLGETCURSORNAME := 17.
Abbreviation SQL_API_SQLNUMRESULTCOLS := 18.
Abbreviation SQL_API_SQLPREPARE := 19.
Abbreviation SQL_API_SQLROWCOUNT := 20.
Abbreviation SQL_API_SQLSETCURSORNAME := 21.
Abbreviation SQL_API_SQLBULKOPERATIONS := 24.
Abbreviation SQL_API_SQLCOLUMNS := 40.
Abbreviation SQL_API_SQLDRIVERCONNECT := 41.
Abbreviation SQL_API_SQLGETDATA := 43.
Abbreviation SQL_API_SQLGETFUNCTIONS := 44.
Abbreviation SQL_API_SQLGETINFO := 45.
Abbreviation SQL_API_SQLGETTYPEINFO := 47.
Abbreviation SQL_API_SQLPARAMDATA := 48.
Abbreviation SQL_API_SQLPUTDATA := 49.
Abbreviation SQL_API_SQLSPECIALCOLUMNS := 52.
Abbreviation SQL_API_SQLSTATISTICS := 53.
Abbreviation SQL_API_SQLTABLES := 54.
Abbreviation SQL_API_SQLBROWSECONNECT := 55.
Abbreviation SQL_API_SQLCOLUMNPRIVILEGES := 56.
Abbreviation SQL_API_SQLDATASOURCES := 57.
Abbreviation SQL_API_SQLDESCRIBEPARAM := 58.
Abbreviation SQL_API_SQLFOREIGNKEYS := 60.
Abbreviation SQL_API_SQLMORERESULTS := 61.
Abbreviation SQL_API_SQLNATIVESQL := 62.
Abbreviation SQL_API_SQLNUMPARAMS := 63.
Abbreviation SQL_API_SQLPRIMARYKEYS := 65.
Abbreviation SQL_API_SQLPROCEDURECOLUMNS := 66.
Abbreviation SQL_API_SQLPROCEDURES := 67.
Abbreviation SQL_API_SQLSETPOS := 68.
Abbreviation SQL_API_SQLTABLEPRIVILEGES := 70.
Abbreviation SQL_API_SQLDRIVERS := 71.
Abbreviation SQL_API_SQLBINDPARAMETER := 72.
Abbreviation SQL_API_SQLALLOCHANDLE := 1001.
Abbreviation SQL_API_SQLCLOSECURSOR := 1003.
Abbreviation SQL_API_SQLCOPYDESC := 1004.
Abbreviation SQL_API_SQLENDTRAN := 1005.
Abbreviation SQL_API_SQLFREEHANDLE := 1006.
Abbreviation SQL_API_SQLGETCONNECTATTR := 1007.
Abbreviation SQL_API_SQLGETDESCFIELD := 1008.
Abbreviation SQL_API_SQLGETDESCREC := 1009.
Abbreviation SQL_API_SQLGETDIAGFIELD := 1010.
Abbreviation SQL_API_SQLGETDIAGREC := 1011.
Abbreviation SQL_API_SQLGETENVATTR := 1012.
Abbreviation SQL_API_SQLGETSTMTATTR := 1014.
Abbreviation SQL_API_SQLSETCONNECTATTR := 1016.
Abbreviation SQL_API_SQLSETDESCFIELD := 1017.
Abbreviation SQL_API_SQLSETDESCREC := 1018.
Abbreviation SQL_API_SQLSETENVATTR := 1019.
Abbreviation SQL_API_SQLSETSTMTATTR := 1020.
Abbreviation SQL_API_SQLFETCHSCROLL := 1021.

(** [SQL_SUCCEEDED(ret)] *)
Definition SQL_SUCCEEDED (ret : Z) : bool := (ret =? SQL_SUCCESS) || (ret =? SQL_SUCCESS_WITH_INFO).

(** [SQL_LEN_DATA_AT_EXEC(length)] *)
Definition SQL_LEN_DATA_AT_EXEC (len : Z) : Z := - len + SQL_LEN_DATA_AT_EXEC_OFFSET.
