(* ===== verification/Digits.v ===== *)
(** * Numbers as decimal digits
    ([duckdb/src/include/duckdb/common/types/cast_helpers.hpp], [cast_helpers.cpp])

    The engine prints an integer from its end, two digits at a time from a table, into a
    buffer whose size it has computed before. The model of [FormatUnsigned] puts the
    digits in front of what is already in the buffer; [None] is an index out of the table,
    or a text that does not fill its buffer exactly. The first part is about texts of
    digits in general. *)

From S2P Require Import Prelude.

(** ** Texts of digits *)
Definition is_digit (c : Z) : Prop := 48 <= c <= 57.

(** The number a text of digits stands for. *)
Definition digits_value (s : bytes) : Z := fold_left (fun n c => 10 * n + (c - 48)) s 0.

Lemma digits_fold s n : fold_left (fun n c => 10 * n + (c - 48)) s n = n * 10 ^ zlen s + digits_value s.
Proof.
  unfold digits_value. revert n. induction s as [|c s IH]; intros n; cbn [fold_left].
  - rewrite zlen_nil. lia.
  - rewrite IH, (IH (10 * 0 + (c - 48))), zlen_cons, Z.pow_add_r by (lia || apply zlen_nonneg). lia.
Qed.

Lemma digits_value_app s t : digits_value (s ++ t) = digits_value s * 10 ^ zlen t + digits_value t.
Proof. unfold digits_value at 1. by rewrite fold_left_app, digits_fold. Qed.

Lemma digits_value_zeros s : forallb (fun c => c =? 48) s = true -> digits_value s = 0.
Proof.
  induction s as [|c s IH]; [done|]. cbn [forallb]. intros [Hc Hs]%andb_prop. change (c :: s) with ([c] ++ s).
  rewrite digits_value_app, IH by done. zbool. subst c. reflexivity.
Qed.

Lemma digits_value_range s : Forall is_digit s -> 0 <= digits_value s < 10 ^ zlen s.
Proof.
  induction 1 as [|c s Hc _ IH]; [by split|]. change (c :: s) with ([c] ++ s).
  rewrite digits_value_app, zlen_app. change (digits_value [c]) with (10 * 0 + (c - 48)). change (zlen [c]) with 1.
  unfold is_digit in Hc. rewrite Z.pow_add_r by (lia || apply zlen_nonneg). pose proof (zlen_nonneg s). nia.
Qed.


Lemma digits_value_cons c s : digits_value (c :: s) = (c - 48) * 10 ^ zlen s + digits_value s.
Proof. change (c :: s) with ([c] ++ s). rewrite digits_value_app. change (digits_value [c]) with (10 * 0 + (c - 48)). lia. Qed.

Lemma digits_value_replicate n s : digits_value (replicate n 48 ++ s) = digits_value s.
Proof. induction n as [|n IH]; [done|]. cbn [replicate app]. by rewrite digits_value_cons, IH. Qed.

Lemma replicate_digits n : Forall is_digit (replicate n 48).
Proof. by apply Forall_replicate. Qed.

(** The text a number is printed as, without zeros in front. *)
Record prints (v : Z) (s : bytes) : Prop := {
  prints_digits : Forall is_digit s;
  prints_value : digits_value s = v;
  prints_zero : v = 0 -> zlen s = 1;
  prints_least : 0 < v -> 0 < zlen s /\ 10 ^ (zlen s - 1) <= v
}.

Lemma prints_nonneg v s : prints v s -> 0 <= v.
Proof. intros [Hd <- _ _]. by apply digits_value_range. Qed.

Lemma prints_pos v s : prints v s -> 0 < zlen s.
Proof. intros P. pose proof (prints_nonneg v s P). destruct P as [_ _ H0 H1]. destruct (decide (v = 0)) as [E|]; [specialize (H0 E); lia|]. apply H1. lia. Qed.

(** Its length is the number of digits. *)
Lemma prints_length v s n : prints v s -> 0 < n -> (v = 0 -> n = 1) -> (0 < v -> 10 ^ (n - 1) <= v) -> v < 10 ^ n -> zlen s = n.
Proof.
  intros P Hn H0 Hl Hu. pose proof (prints_nonneg v s P). destruct P as [Hd Hv Z0 Z1]. pose proof (digits_value_range s Hd) as R. rewrite Hv in R.
  destruct (decide (v = 0)) as [E|]; [by rewrite (Z0 E), (H0 E)|]. destruct (Z1 ltac:(lia)) as [Hp Hm]. specialize (Hl ltac:(lia)).
  destruct (Z.lt_trichotomy (zlen s) n) as [Hlt|[?|Hgt]]; [|done|].
  - pose proof (Z.pow_le_mono_r 10 (zlen s) (n - 1) ltac:(lia) ltac:(lia)). lia.
  - pose proof (Z.pow_le_mono_r 10 n (zlen s - 1) ltac:(lia) ltac:(lia)). lia.
Qed.

Lemma prints_short v s n : prints v s -> 0 < n -> v < 10 ^ n -> zlen s <= n.
Proof.
  intros P Hn Hv. destruct (decide (v = 0)) as [E|E]; [rewrite (prints_zero _ _ P E); lia|]. pose proof (prints_nonneg _ _ P).
  destruct (prints_least _ _ P ltac:(lia)) as [Hp Hle]. destruct (Z.le_gt_cases (zlen s) n); [done|].
  pose proof (Z.pow_le_mono_r 10 n (zlen s - 1) ltac:(lia) ltac:(lia)). lia.
Qed.

(** ** Printing *)

(** [basic_data::digits] *)
Definition digits : bytes :=
  B"0001020304050607080910111213141516171819" ++ B"2021222324252627282930313233343536373839"
  ++ B"4041424344454647484950515253545556575859" ++ B"6061626364656667686970717273747576777879"
  ++ B"8081828384858687888990919293949596979899".

Definition digits_at (i : Z) : option Z := if i <? 0 then None else digits !! Z.to_nat i.

(** Two digits in front of [ptr]. *)
Definition put_pair (index : Z) (ptr : bytes) : option bytes :=
  low ← digits_at (index + 1);
  high ← digits_at index;
  Some (high :: low :: ptr).

(** [NumericHelper::FormatUnsigned]; a 64-bit number takes fewer than ten rounds. *)
Fixpoint format_unsigned (fuel : nat) (value : Z) (ptr : bytes) : option bytes :=
  if 100 <=? value then
    match fuel with
    | O => None
    | S f => ptr ← put_pair (Z.rem value 100 * 2) ptr; format_unsigned f (Z.quot value 100) ptr
    end
  else if value <? 10 then Some (u8 (48 + value) :: ptr)
  else put_pair (value * 2) ptr.

Definition FormatUnsigned (value : Z) (ptr : bytes) : option bytes := format_unsigned 10 value ptr.

(** [NumericHelper::UnsignedLength], for each width. *)
Definition UnsignedLength8 (value : Z) : Z := 1 + Z.b2z (10 <=? value) + Z.b2z (100 <=? value).

Definition UnsignedLength16 (value : Z) : Z :=
  1 + Z.b2z (10 <=? value) + Z.b2z (100 <=? value) + Z.b2z (1000 <=? value) + Z.b2z (10000 <=? value).

Definition UnsignedLength32 (value : Z) : Z :=
  if 10000 <=? value then
    5 + Z.b2z (100000 <=? value) + Z.b2z (1000000 <=? value) + Z.b2z (10000000 <=? value) + Z.b2z (100000000 <=? value)
      + Z.b2z (1000000000 <=? value)
  else 1 + Z.b2z (10 <=? value) + Z.b2z (100 <=? value) + Z.b2z (1000 <=? value).

Definition UnsignedLength64 (value : Z) : Z :=
  if 10000000000 <=? value then
    if 1000000000000000 <=? value then
      16 + Z.b2z (10000000000000000 <=? value) + Z.b2z (100000000000000000 <=? value) + Z.b2z (1000000000000000000 <=? value)
         + Z.b2z (10000000000000000000 <=? value)
    else
      11 + Z.b2z (100000000000 <=? value) + Z.b2z (1000000000000 <=? value) + Z.b2z (10000000000000 <=? value)
         + Z.b2z (100000000000000 <=? value)
  else if 100000 <=? value then
    6 + Z.b2z (1000000 <=? value) + Z.b2z (10000000 <=? value) + Z.b2z (100000000 <=? value) + Z.b2z (1000000000 <=? value)
  else 1 + Z.b2z (10 <=? value) + Z.b2z (100 <=? value) + Z.b2z (1000 <=? value) + Z.b2z (10000 <=? value).

Definition UnsignedLength (w value : Z) : Z :=
  if w =? 8 then UnsignedLength8 value else if w =? 16 then UnsignedLength16 value
  else if w =? 32 then UnsignedLength32 value else UnsignedLength64 value.

(** [NumericHelper::SignedLength]; [w] is the width of the type in bits. *)
Definition SignedLength (w value : Z) : Z :=
  let sign := if value <? 0 then -1 else 0 in
  UnsignedLength w (wrap_u w (Z.lxor value sign - sign)) - sign.

(** What is written from the end of a buffer of [len] bytes has to reach its start. *)
Definition fill (len : Z) (s : bytes) : option bytes := if zlen s =? len then Some s else None.

(** [NumericHelper::FormatSigned] *)
Definition FormatSigned (w value : Z) : option bytes :=
  let sign := if value <? 0 then -1 else 0 in
  let unsigned_value := wrap_u w (wrap_u w (Z.lxor value sign) + Z.abs sign) in
  let length := UnsignedLength w unsigned_value + Z.abs sign in
  s ← FormatUnsigned unsigned_value [];
  fill length (if sign =? 0 then s else chr "-" :: s).

(** ** Decimals *)

(** [NumericHelper::POWERS_OF_TEN] *)
Definition POWERS_OF_TEN : list Z :=
  [1; 10; 100; 1000; 10000; 100000; 1000000; 10000000; 100000000; 1000000000; 10000000000; 100000000000; 1000000000000;
   10000000000000; 100000000000000; 1000000000000000; 10000000000000000; 100000000000000000; 1000000000000000000].

Definition DecimalLength (w value width scale : Z) : Z :=
  if scale =? 0 then SignedLength w value
  else
    let extra_characters := if scale <? width then 2 else 1 in
    Z.max (scale + extra_characters + (if value <? 0 then 1 else 0)) (SignedLength w value + 1).

(** [DecimalToString::FormatDecimal]: the digits after the point, padded with zeros, the
    point, and the digits before it unless the type has none. *)
Definition FormatDecimal (w value width scale len : Z) : option bytes :=
  let sign := if value <? 0 then [chr "-"] else [] in
  let value := if value <? 0 then - value else value in
  if scale =? 0 then s ← FormatUnsigned (wrap_u w value) []; fill len (sign ++ s)
  else
    power ← POWERS_OF_TEN !! Z.to_nat scale;
    let minor := wrap_u w value mod wrap_u w power in
    let major := wrap_u w value / wrap_u w power in
    dst ← FormatUnsigned minor [];
    let dst := chr "." :: replicate (Z.to_nat (scale - zlen dst)) 48 ++ dst in
    dst ← (if scale <? width then FormatUnsigned major dst else Some dst);
    fill len (sign ++ dst).

(** [TemplatedDecimalToString] *)
Definition Decimal_ToString (w value width scale : Z) : option bytes :=
  FormatDecimal w value width scale (DecimalLength w value width scale).

Example decimal_fraction : Decimal_ToString 32 (-5) 9 2 = Some (B"-0.05").
Proof. vm_compute. reflexivity. Qed.
Example decimal_no_whole_part : Decimal_ToString 16 25 3 3 = Some (B".025").
Proof. vm_compute. reflexivity. Qed.
Example signed_minimum : FormatSigned 64 (- 2 ^ 63) = Some (B"-9223372036854775808").
Proof. vm_compute. reflexivity. Qed.

(** ** What is printed *)
Definition pair_ok (n : Z) : bool :=
  match put_pair (n * 2) [] with Some s => bool_decide (s = [48 + n / 10; 48 + n mod 10]) | None => false end.

Lemma pair_table : forallb pair_ok (seqZ 0 100) = true.
Proof. vm_compute. reflexivity. Qed.

Lemma put_pair_spec n ptr : 0 <= n < 100 -> put_pair (n * 2) ptr = Some (48 + n / 10 :: 48 + n mod 10 :: ptr).
Proof.
  intros Hn. pose proof (forallb_seqZ _ _ _ n pair_table ltac:(lia)) as H.
  unfold pair_ok, put_pair in *. destruct (digits_at (n * 2 + 1)) as [low|]; [|done]. destruct (digits_at (n * 2)) as [high|]; [|done].
  cbn [mbind option_bind] in *. apply bool_decide_eq_true in H. injection H as -> ->. done.
Qed.

Lemma pair_prints n : 10 <= n < 100 -> prints n [48 + n / 10; 48 + n mod 10].
Proof.
  intros Hn. split; [repeat constructor; unfold is_digit; dlia| |lia|].
  - rewrite !digits_value_cons. change (digits_value []) with 0. change (zlen [48 + n mod 10]) with 1. change (zlen (@nil Z)) with 0. dlia.
  - intros _. change (zlen [48 + n / 10; 48 + n mod 10]) with 2. lia.
Qed.

Lemma digit_prints n : 0 <= n < 10 -> prints n [48 + n].
Proof.
  intros Hn. split; [repeat constructor; unfold is_digit; lia| |done|].
  - rewrite digits_value_cons. change (digits_value []) with 0. change (zlen (@nil Z)) with 0. lia.
  - intros H. change (zlen [48 + n]) with 1. lia.
Qed.

(** Two more digits behind a number. *)
Lemma prints_pair v s n : prints v s -> 0 < v -> 0 <= n < 100 -> prints (v * 100 + n) (s ++ [48 + n / 10; 48 + n mod 10]).
Proof.
  intros [Hd Hv _ Hl] Hp Hn. specialize (Hl Hp) as [Hz Hl]. split; [apply Forall_app; split; [done|]; repeat constructor; unfold is_digit; dlia| |lia|].
  - rewrite digits_value_app, Hv, !digits_value_cons. change (digits_value []) with 0.
    change (zlen [48 + n / 10; 48 + n mod 10]) with 2. change (zlen [48 + n mod 10]) with 1. change (zlen (@nil Z)) with 0. dlia.
  - intros _. rewrite zlen_app. change (zlen [48 + n / 10; 48 + n mod 10]) with 2. split; [lia|].
    replace (zlen s + 2 - 1) with (zlen s - 1 + 2) by lia. rewrite Z.pow_add_r by lia. lia.
Qed.

Lemma format_unsigned_prints fuel : forall v ptr, 0 <= v < 100 * 100 ^ Z.of_nat fuel ->
  exists s, format_unsigned fuel v ptr = Some (s ++ ptr) /\ prints v s.
Proof.
  induction fuel as [|fuel IH]; intros v ptr Hv; cbn [format_unsigned].
  - change (100 * 100 ^ Z.of_nat 0) with 100 in Hv. rewrite (proj2 (Z.leb_gt 100 v)) by lia. destruct (Z.ltb_spec v 10).
    + exists [48 + v]. wrap_small. split; [done|]. apply digit_prints. lia.
    + eexists. rewrite put_pair_spec by lia. split; [|apply pair_prints; lia]. done.
  - destruct (Z.leb_spec 100 v).
    + rewrite Z.rem_mod_nonneg, Z.quot_div_nonneg, put_pair_spec by (lia || dlia). cbn [mbind option_bind].
      replace (Z.of_nat (S fuel)) with (Z.of_nat fuel + 1) in Hv by lia. rewrite Z.pow_add_r in Hv by lia.
      destruct (IH (v / 100) (48 + v mod 100 / 10 :: 48 + (v mod 100) mod 10 :: ptr) ltac:(dlia)) as (s & E & P). rewrite E.
      exists (s ++ [48 + v mod 100 / 10; 48 + (v mod 100) mod 10]). rewrite <- app_assoc. split; [done|].
      replace v with (v / 100 * 100 + v mod 100) at 1 by dlia. apply prints_pair; [done|dlia|dlia].
    + destruct (Z.ltb_spec v 10).
      * exists [48 + v]. wrap_small. split; [done|]. apply digit_prints. lia.
      * eexists. rewrite put_pair_spec by lia. split; [|apply pair_prints; lia]. done.
Qed.

Lemma FormatUnsigned_prints v ptr : 0 <= v < 2 ^ 64 -> exists s, FormatUnsigned v ptr = Some (s ++ ptr) /\ prints v s.
Proof. intros Hv. apply format_unsigned_prints. change (100 * 100 ^ Z.of_nat 10) with (100 ^ 11). lia. Qed.

(** ** How long it is *)
Ltac eval_pow := repeat match goal with |- context [10 ^ ?e] => let x := eval vm_compute in (10 ^ e) in change (10 ^ e) with x end.

(** The bounds of a length, with every comparison decided. *)
Ltac length_cases := repeat (match goal with |- context [(?a <=? ?v)%Z] => destruct (Z.leb_spec a v) end; try lia); cbn [Z.b2z]; eval_pow; repeat split; lia.

Definition length_of (v n : Z) : Prop := 0 < n /\ (v = 0 -> n = 1) /\ (0 < v -> 10 ^ (n - 1) <= v) /\ v < 10 ^ n.

Lemma length_of_prints v n s : length_of v n -> prints v s -> zlen s = n.
Proof. intros (? & ? & ? & ?) P. by apply (prints_length v s n P). Qed.

Lemma UnsignedLength8_length v : 0 <= v < 2 ^ 8 -> length_of v (UnsignedLength8 v).
Proof. intros Hv. unfold length_of, UnsignedLength8. length_cases. Qed.
Lemma UnsignedLength16_length v : 0 <= v < 2 ^ 16 -> length_of v (UnsignedLength16 v).
Proof. intros Hv. unfold length_of, UnsignedLength16. length_cases. Qed.
Lemma UnsignedLength32_length v : 0 <= v < 2 ^ 32 -> length_of v (UnsignedLength32 v).
Proof. intros Hv. unfold length_of, UnsignedLength32. length_cases. Qed.
Lemma UnsignedLength64_length v : 0 <= v < 2 ^ 64 -> length_of v (UnsignedLength64 v).
Proof. intros Hv. unfold length_of, UnsignedLength64. length_cases. Qed.

(** The widths of the integer types. *)
Definition int_width (w : Z) : Prop := w = 8 \/ w = 16 \/ w = 32 \/ w = 64.

Lemma UnsignedLength_length w v : int_width w -> 0 <= v < 2 ^ w -> length_of v (UnsignedLength w v).
Proof.
  intros [->|[->|[->| ->]]] Hv; unfold UnsignedLength; cbn [Z.eqb Pos.eqb].
  - by apply UnsignedLength8_length.
  - by apply UnsignedLength16_length.
  - by apply UnsignedLength32_length.
  - by apply UnsignedLength64_length.
Qed.

Lemma int_width_range w : int_width w -> 0 < w /\ 2 ^ w <= 2 ^ 64 /\ 2 ^ w = 2 * 2 ^ (w - 1).
Proof. by intros [->|[->|[->| ->]]]. Qed.

(** The complement and one is the negation. *)
Lemma complement v : Z.lxor v (-1) = - v - 1.
Proof. rewrite Z.lxor_m1_r. unfold Z.lnot. lia. Qed.

Lemma magnitude w v : int_width w -> in_s w v -> 0 <= Z.abs v < 2 ^ w.
Proof. intros Hw Hv. apply int_width_range in Hw. unfold in_s in Hv. lia. Qed.

Lemma SignedLength_length w v : int_width w -> in_s w v -> exists n, length_of (Z.abs v) n /\ SignedLength w v = n + (if v <? 0 then 1 else 0).
Proof.
  intros Hw Hv. exists (UnsignedLength w (Z.abs v)). pose proof (magnitude w v Hw Hv) as Hm. split; [by apply UnsignedLength_length|]. unfold SignedLength.
  assert (wrap_u w (Z.lxor v (if v <? 0 then -1 else 0) - (if v <? 0 then -1 else 0)) = Z.abs v) as ->; [|destruct (v <? 0); lia].
  destruct (Z.ltb_spec v 0); rewrite ?complement, ?Z.lxor_0_r, wrap_u_small by (unfold in_u; lia); lia.
Qed.

Definition sign_text (v : Z) : bytes := if v <? 0 then [chr "-"] else [].

(** Every signed integer of 8, 16, 32 or 64 bits is printed as the decimal digits of
    its magnitude without zeros in front, after a sign when it is negative, the smallest one
    included, and the text fills exactly the buffer whose size was computed before. *)
Theorem FormatSigned_prints w v : int_width w -> in_s w v -> exists s, FormatSigned w v = Some (sign_text v ++ s) /\ prints (Z.abs v) s.
Proof.
  intros Hw Hv. pose proof (magnitude w v Hw Hv) as Hm. pose proof (int_width_range w Hw) as (? & ? & ?). unfold FormatSigned, sign_text.
  assert (wrap_u w (wrap_u w (Z.lxor v (if v <? 0 then -1 else 0)) + Z.abs (if v <? 0 then -1 else 0)) = Z.abs v) as ->.
  { unfold in_s in Hv. destruct (Z.ltb_spec v 0).
    - rewrite complement, (wrap_u_small w (- v - 1)) by (unfold in_u; lia). rewrite wrap_u_small by (unfold in_u; lia). lia.
    - rewrite Z.lxor_0_r, (wrap_u_small w v) by (unfold in_u; lia). rewrite wrap_u_small by (unfold in_u; lia). lia. }
  destruct (FormatUnsigned_prints (Z.abs v) [] ltac:(lia)) as (s & E & P). rewrite app_nil_r in E. rewrite E. cbn [mbind option_bind].
  pose proof (length_of_prints _ _ _ (UnsignedLength_length w (Z.abs v) Hw Hm) P) as Hl. exists s. split; [|done]. unfold fill.
  destruct (v <? 0); cbn [Z.eqb Z.abs app]; rewrite ?zlen_cons, <- Hl; by rewrite (proj2 (Z.eqb_eq _ _)) by lia.
Qed.

(** The text of a decimal: a sign, the digits before and after the point. *)
Definition decimal_text (negative : bool) (ip fp : bytes) : bytes :=
  (if negative then [chr "-"] else []) ++ ip ++ chr "." :: fp.

(** The widths of decimals that are held in an integer of [w] bits. *)
Definition decimal_width (w width : Z) : Prop := (w = 16 /\ width <= 4) \/ (w = 32 /\ width <= 9) \/ (w = 64 /\ width <= 18).

Lemma decimal_width_range w width v : decimal_width w width -> 0 <= width -> Z.abs v < 10 ^ width -> int_width w /\ in_s w v /\ width <= 18 /\ 10 ^ width < 2 ^ w.
Proof.
  intros Hw H0 Hv. unfold in_s, int_width. destruct Hw as [[-> Hw]|[[-> Hw]|[-> Hw]]].
  - pose proof (Z.pow_le_mono_r 10 width 4 ltac:(lia) Hw). change (10 ^ 4) with 10000 in *. change (2 ^ 16) with 65536. change (2 ^ (16 - 1)) with 32768. lia.
  - pose proof (Z.pow_le_mono_r 10 width 9 ltac:(lia) Hw). change (10 ^ 9) with 1000000000 in *. change (2 ^ 32) with 4294967296. change (2 ^ (32 - 1)) with 2147483648. lia.
  - pose proof (Z.pow_le_mono_r 10 width 18 ltac:(lia) Hw). change (10 ^ 18) with 1000000000000000000 in *. change (2 ^ 64) with 18446744073709551616.
    change (2 ^ (64 - 1)) with 9223372036854775808. lia.
Qed.

Lemma POWERS_OF_TEN_power k : 0 <= k <= 18 -> POWERS_OF_TEN !! Z.to_nat k = Some (10 ^ k).
Proof.
  intros Hk. assert (forallb (fun i => bool_decide (POWERS_OF_TEN !! Z.to_nat i = Some (10 ^ i))) (seqZ 0 19) = true) as H by (vm_compute; reflexivity).
  apply (bool_decide_unpack _). by rewrite (forallb_seqZ _ _ _ k H) by lia.
Qed.

(** The fraction is padded to the scale. *)
Lemma padded_fraction minor scale s : prints minor s -> 0 < scale -> minor < 10 ^ scale ->
  let fp := replicate (Z.to_nat (scale - zlen s)) 48 ++ s in Forall is_digit fp /\ zlen fp = scale /\ digits_value fp = minor.
Proof.
  intros P Hs Hm fp. subst fp. pose proof (prints_short _ _ _ P Hs Hm) as Hl.
  split; [apply Forall_app; split; [apply replicate_digits|apply P]|]. rewrite digits_value_replicate, zlen_app.
  split; [|apply P]. unfold zlen at 1. rewrite length_replicate. lia.
Qed.

(** The number of digits before the point. *)
Lemma whole_length v n scale : length_of v n -> 0 < scale -> 0 <= v ->
  length_of (v / 10 ^ scale) (if v <? 10 ^ scale then 1 else n - scale) /\ (if v <? 10 ^ scale then n <= scale else scale < n).
Proof.
  intros (Hn & H0 & Hl & Hu) Hs Hv. destruct (Z.ltb_spec v (10 ^ scale)) as [Hlt|Hge].
  - rewrite Z.div_small by lia. split; [split; [lia|]; split; [done|]; split; [lia|done]|]. destruct (decide (v = 0)) as [E|E]; [specialize (H0 E); lia|].
    specialize (Hl ltac:(lia)). destruct (Z.le_gt_cases n scale); [done|]. pose proof (Z.pow_le_mono_r 10 scale (n - 1) ltac:(lia) ltac:(lia)). lia.
  - assert (scale < n) as Hsn by (destruct (Z.lt_ge_cases scale n); [done|pose proof (Z.pow_le_mono_r 10 n scale ltac:(lia) ltac:(lia)); lia]).
    assert (0 < 10 ^ scale) as Hp by lia. specialize (Hl ltac:(lia)). split; [|done]. split; [lia|].
    assert (10 ^ (n - scale - 1) <= v / 10 ^ scale) as Hlow.
    { apply Z.div_le_lower_bound; [lia|]. rewrite <- Z.pow_add_r by lia. by replace (scale + (n - scale - 1)) with (n - 1) by lia. }
    split; [|split; [done|]].
    + intros E. assert (0 < 10 ^ (n - scale - 1)) by lia. lia.
    + apply Z.div_lt_upper_bound; [lia|]. rewrite <- Z.pow_add_r by lia. by replace (scale + (n - scale)) with n by lia.
Qed.

(** A DECIMAL held in 16, 32 or 64 bits is printed with exactly as many digits after
    the point as its scale, and the whole part without zeros in front; the digits on both
    sides of the point are the magnitude, and the text fills its buffer exactly. *)
Theorem Decimal_ToString_prints w v width scale : decimal_width w width -> 0 < scale < width -> Z.abs v < 10 ^ width ->
  exists ip fp, Decimal_ToString w v width scale = Some (decimal_text (v <? 0) ip fp) /\ prints (Z.abs v / 10 ^ scale) ip
    /\ Forall is_digit fp /\ zlen fp = scale /\ digits_value fp = Z.abs v mod 10 ^ scale.
Proof.
  intros Hd Hs Hv. destruct (decimal_width_range w width v Hd ltac:(lia) Hv) as (Hw & Hin & Hwidth & Hpw).
  pose proof (int_width_range w Hw) as (H0 & H64 & _). destruct (SignedLength_length w v Hw Hin) as (n & Hn & Hsl).
  assert (0 < 10 ^ scale) as Hp by lia. pose proof (Z.pow_lt_mono_r 10 scale width ltac:(lia) ltac:(lia) ltac:(lia)) as Hlt.
  unfold Decimal_ToString, FormatDecimal, DecimalLength. rewrite (proj2 (Z.eqb_neq scale 0)), (proj2 (Z.ltb_lt scale width)), Hsl by lia.
  rewrite POWERS_OF_TEN_power by lia. cbn [mbind option_bind].
  replace (if v <? 0 then - v else v) with (Z.abs v) by (destruct (Z.ltb_spec v 0); lia).
  rewrite (wrap_u_small w (Z.abs v)), (wrap_u_small w (10 ^ scale)) by (unfold in_u; lia).
  pose proof (Z.mod_pos_bound (Z.abs v) (10 ^ scale) Hp) as Hm. assert (0 <= Z.abs v / 10 ^ scale <= Z.abs v) as Hq.
  { split; [by apply Z.div_pos; lia|]. apply Z.div_le_upper_bound; [lia|]. nia. }
  destruct (FormatUnsigned_prints (Z.abs v mod 10 ^ scale) [] ltac:(lia)) as (s & E & P). rewrite app_nil_r in E. rewrite E. cbn [mbind option_bind].
  destruct (padded_fraction _ scale s P ltac:(lia) ltac:(lia)) as (F1 & F2 & F3). set (fp := replicate _ 48 ++ s) in *.
  destruct (FormatUnsigned_prints (Z.abs v / 10 ^ scale) (chr "." :: fp) ltac:(lia)) as (ip & E2 & P2). rewrite E2. cbn [mbind option_bind].
  exists ip, fp. split; [|by split]. destruct (whole_length (Z.abs v) n scale Hn ltac:(lia) ltac:(lia)) as [Hwl Hc].
  pose proof (length_of_prints _ _ _ Hwl P2) as Hip. unfold fill, decimal_text. rewrite !zlen_app, zlen_cons, F2, Hip.
  rewrite (proj2 (Z.eqb_eq _ _)); [done|]. destruct (v <? 0), (Z.abs v <? 10 ^ scale); rewrite ?zlen_cons, ?zlen_nil; lia.
Qed.
