(* ===== verification/Memory.v ===== *)
(** * Client memory

    The application hands the driver raw pointers: buffers to fill, length and
    indicator cells, status arrays. Memory is a map from addresses to bytes; a
    pointer is an address, the null pointer is [0], and typed stores and loads
    ([duckdb::Store], [duckdb::Load], [*ptr = v], [memcpy]) are little-endian
    byte sequences at the C type's width. The frame lemmas say which addresses
    a write leaves alone: they are what the buffer-bound theorems of the other
    files rest on. *)

From S2P Require Import Prelude.

Abbreviation mem := (gmap Z Z).
Abbreviation ptr := Z.
Abbreviation nullptr := 0.

(** [memcpy(a, l, |l|)] *)
Fixpoint write_bytes (m : mem) (a : ptr) (l : bytes) : mem :=
  match l with
  | [] => m
  | b :: l' => <[a := b]> (write_bytes m (a + 1) l')
  end.

Definition read_byte (m : mem) (a : ptr) : Z := default 0 (m !! a).

Fixpoint read_bytes (m : mem) (a : ptr) (n : nat) : bytes :=
  match n with
  | O => []
  | S n' => read_byte m a :: read_bytes m (a + 1) n'
  end.

Fixpoint le_split (n : nat) (z : Z) : bytes :=
  match n with
  | O => []
  | S n' => z mod 256 :: le_split n' (z / 256)
  end.

Fixpoint le_combine (l : bytes) : Z :=
  match l with
  | [] => 0
  | b :: l' => b + 256 * le_combine l'
  end.

(** [duckdb::Store<T>(z, a)] and [duckdb::Load<T>(a)] for an integer type [T]
    of [n] bytes, unsigned and signed. *)
Definition store (n : nat) (m : mem) (a : ptr) (z : Z) : mem := write_bytes m a (le_split n z).
Definition load_u (n : nat) (m : mem) (a : ptr) : Z := le_combine (read_bytes m a n).
Definition load_s (n : nat) (m : mem) (a : ptr) : Z := wrap_s (8 * Z.of_nat n) (load_u n m a).

(** A write through a pointer the caller may leave null:
    [if (p) { *p = z; }]. *)
Definition store_opt (n : nat) (m : mem) (a : ptr) (z : Z) : mem :=
  if a =? nullptr then m else store n m a z.

(** ** Which addresses a write touches *)
Lemma length_le_split n z : length (le_split n z) = n.
Proof. revert z. induction n as [|n IH]; intros z; cbn; [done|]. by rewrite IH. Qed.

Lemma write_bytes_outside m a l a' :
  a' < a \/ a + zlen l <= a' -> write_bytes m a l !! a' = m !! a'.
Proof.
  revert a. induction l as [|b l IH]; intros a H; cbn [write_bytes]; [done|].
  rewrite zlen_cons in H. pose proof (zlen_nonneg l).
  rewrite lookup_insert_ne by lia. apply IH. lia.
Qed.

Lemma write_bytes_inside m a l (i : nat) :
  (i < length l)%nat -> write_bytes m a l !! (a + Z.of_nat i) = l !! i.
Proof.
  revert a i. induction l as [|b l IH]; intros a i H; cbn [write_bytes length] in *; [lia|].
  destruct i as [|i].
  - rewrite Z.add_0_r. by rewrite lookup_insert_eq.
  - rewrite lookup_insert_ne by lia.
    replace (a + Z.of_nat (S i)) with (a + 1 + Z.of_nat i) by lia.
    apply IH. lia.
Qed.

Lemma write_bytes_app m a l k :
  write_bytes m a (l ++ k) = write_bytes (write_bytes m (a + zlen l) k) a l.
Proof.
  revert a. induction l as [|b l IH]; intros a; cbn [write_bytes app].
  - by rewrite zlen_nil, Z.add_0_r.
  - rewrite IH, zlen_cons. do 3 f_equal. lia.
Qed.

Lemma store_outside n m a z a' :
  a' < a \/ a + Z.of_nat n <= a' -> store n m a z !! a' = m !! a'.
Proof.
  intros H. apply write_bytes_outside. unfold zlen. rewrite length_le_split. lia.
Qed.

Lemma store_opt_null n m z : store_opt n m nullptr z = m.
Proof. done. Qed.

Lemma store_opt_outside n m a z a' :
  a' < a \/ a + Z.of_nat n <= a' -> store_opt n m a z !! a' = m !! a'.
Proof. intros H. unfold store_opt. case_match; [done|]. by apply store_outside. Qed.

Lemma read_bytes_ext m m' a n :
  (forall a', a <= a' < a + Z.of_nat n -> m !! a' = m' !! a') ->
  read_bytes m a n = read_bytes m' a n.
Proof.
  revert a. induction n as [|n IH]; intros a H; cbn [read_bytes]; [done|].
  unfold read_byte. rewrite (H a) by lia. f_equal. apply IH. intros a' Ha. apply H. lia.
Qed.

Lemma length_read_bytes m a n : length (read_bytes m a n) = n.
Proof. revert a. induction n as [|n IH]; intros a; cbn; [done|]. by rewrite IH. Qed.

(** What was written is what is read back. *)
Lemma read_write_bytes m a l : read_bytes (write_bytes m a l) a (length l) = l.
Proof.
  revert m a. induction l as [|b l IH]; intros m a; cbn [read_bytes write_bytes length]; [done|].
  unfold read_byte. rewrite lookup_insert_eq. cbn. f_equal.
  transitivity (read_bytes (write_bytes m (a + 1) l) (a + 1) (length l)); [|apply IH].
  apply read_bytes_ext. intros a' Ha. by rewrite lookup_insert_ne by lia.
Qed.

Lemma read_write_bytes_outside m a l b n :
  b + Z.of_nat n <= a \/ a + zlen l <= b ->
  read_bytes (write_bytes m a l) b n = read_bytes m b n.
Proof. intros H. apply read_bytes_ext. intros. apply write_bytes_outside. lia. Qed.

Lemma read_bytes_app m a n k :
  read_bytes m a (n + k) = read_bytes m a n ++ read_bytes m (a + Z.of_nat n) k.
Proof.
  revert a. induction n as [|n IH]; intros a; cbn [read_bytes app Nat.add].
  - by rewrite Z.add_0_r.
  - rewrite IH. do 2 f_equal. f_equal. lia.
Qed.

(** ** Little-endian encoding *)
Lemma le_combine_split n z : le_combine (le_split n z) = z mod 256 ^ Z.of_nat n.
Proof.
  revert z. induction n as [|n IH]; intros z; cbn [le_split le_combine].
  - by rewrite Z.mod_1_r.
  - rewrite IH. replace (Z.of_nat (S n)) with (1 + Z.of_nat n) by lia.
    rewrite Z.pow_add_r, Z.pow_1_r, Z.rem_mul_r by lia. lia.
Qed.

Lemma le_split_bytes n z : Forall is_byte (le_split n z).
Proof.
  revert z. induction n as [|n IH]; intros z; cbn [le_split]; constructor; [|apply IH].
  unfold is_byte. apply Z.mod_pos_bound. lia.
Qed.

Lemma le_split_combine l : Forall is_byte l -> le_split (length l) (le_combine l) = l.
Proof.
  induction 1 as [|b l Hb _ IH]; cbn [le_split le_combine length]; [done|].
  unfold is_byte in Hb.
  replace ((b + 256 * le_combine l) mod 256) with b.
  2: { rewrite (Z.mul_comm 256), Z.mod_add, Z.mod_small; lia. }
  replace ((b + 256 * le_combine l) / 256) with (le_combine l).
  2: { rewrite (Z.mul_comm 256), Z.div_add, Z.div_small; lia. }
  by rewrite IH.
Qed.

Lemma pow256 n : 256 ^ Z.of_nat n = 2 ^ (8 * Z.of_nat n).
Proof. rewrite Z.pow_mul_r by lia. by replace (2 ^ 8) with 256 by reflexivity. Qed.

(** Loading what was stored gives the value at the width of the cell. *)
Lemma load_u_store n m a z : load_u n (store n m a z) a = wrap_u (8 * Z.of_nat n) z.
Proof.
  unfold load_u, store, wrap_u.
  pose proof (read_write_bytes m a (le_split n z)) as E. rewrite length_le_split in E.
  by rewrite E, le_combine_split, pow256.
Qed.

Lemma load_s_store n m a z :
  (0 < n)%nat -> load_s n (store n m a z) a = wrap_s (8 * Z.of_nat n) z.
Proof.
  intros Hn. unfold load_s. rewrite load_u_store. unfold wrap_s, wrap_u.
  rewrite Zplus_mod_idemp_l. done.
Qed.

Lemma load_u_store_in n m a z :
  in_u (8 * Z.of_nat n) z -> load_u n (store n m a z) a = z.
Proof. intros H. rewrite load_u_store. by apply wrap_u_small. Qed.

Lemma load_s_store_in n m a z :
  (0 < n)%nat -> in_s (8 * Z.of_nat n) z -> load_s n (store n m a z) a = z.
Proof. intros Hn H. rewrite load_s_store by done. apply wrap_s_small; [lia|done]. Qed.

Lemma load_u_ext n m m' a :
  (forall a', a <= a' < a + Z.of_nat n -> m !! a' = m' !! a') -> load_u n m a = load_u n m' a.
Proof. intros H. unfold load_u. f_equal. by apply read_bytes_ext. Qed.

#[export] Hint Resolve write_bytes_outside store_outside store_opt_outside : odbc.

(** ** Strings in memory *)

(** [strlen(a)]: the bytes up to the first NUL, read with a bound on how far
    the terminator can be. *)
Fixpoint c_string (m : mem) (a : ptr) (fuel : nat) : bytes :=
  match fuel with
  | O => []
  | S f => let b := read_byte m a in if b =? 0 then [] else b :: c_string m (a + 1) f
  end.

Lemma c_string_write m a l f :
  Forall (fun b => b <> 0) l -> (length l < f)%nat ->
  c_string (write_bytes m a (l ++ [0])) a f = l.
Proof.
  revert m a f. induction l as [|b l IH]; intros m a f Hl Hf.
  - destruct f as [|f]; [cbn in Hf; lia|]. cbn. unfold read_byte. by rewrite lookup_insert_eq.
  - destruct f as [|f]; [cbn in Hf; lia|]. inversion Hl as [|? ? Hb Hl']; subst.
    cbn [c_string app write_bytes]. unfold read_byte. rewrite lookup_insert_eq. cbn.
    destruct (Z.eqb_spec b 0); [done|]. f_equal.
    transitivity (c_string (write_bytes m (a + 1) (l ++ [0])) (a + 1) f);
      [|apply IH; [done|cbn in Hf; lia]].
    clear. generalize (write_bytes m (a + 1) (l ++ [0])) as w. intros w.
    assert (forall k x, a < x -> c_string (<[a:=b]> w) x k = c_string w x k) as E.
    { induction k as [|k IHk]; intros x Hx; cbn; [done|].
      unfold read_byte. rewrite lookup_insert_ne by lia. case_match; [done|].
      f_equal. apply IHk. lia. }
    apply E. lia.
Qed.
