(* ===== verification/Utf8.v ===== *)
(** * UTF-8 and UTF-16 coding ([third_party/utf8])

    The UTF-8 library the driver vendors: sequence classification, checked
    decoding of one sequence ([validate_next]), encoding of one code point
    ([append], [append16]), the scans [find_invalid] and [replace_invalid] and
    the unchecked conversions between UTF-8 and UTF-16. An iterator pair is the
    list of the remaining units; advancing an iterator is taking the tail, and
    dereferencing past the end is [None].

    The lemmas relate the coders to the abstract text they code, a list of
    Unicode code points. *)

From S2P Require Import Prelude.

Definition mask8 (oc : Z) : Z := u8 (Z.land 0xff oc).
Definition mask16 (oc : Z) : Z := u16 (Z.land 0xffff oc).
Definition is_trail (oc : Z) : bool := Z.shiftr (mask8 oc) 6 =? 0x2.
Definition is_lead_surrogate (cp : Z) : bool := (0xd800 <=? cp) && (cp <=? 0xdbff).
Definition is_trail_surrogate (cp : Z) : bool := (0xdc00 <=? cp) && (cp <=? 0xdfff).
Definition is_surrogate (cp : Z) : bool := (0xd800 <=? cp) && (cp <=? 0xdfff).
Definition is_code_point_valid (cp : Z) : bool := (cp <=? 0x10ffff) && negb (is_surrogate cp).
Definition LEAD_OFFSET : Z := 0xd7c0.
Definition SURROGATE_OFFSET : Z := 0xfca02400.

(** [sequence_length] of the sequence the lead octet opens; 0 is an invalid
    lead. *)
Definition sequence_length (oc : Z) : Z :=
  let lead := mask8 oc in
  if lead <? 0x80 then 1
  else if Z.shiftr lead 5 =? 0x6 then 2
  else if Z.shiftr lead 4 =? 0xe then 3
  else if Z.shiftr lead 3 =? 0x1e then 4
  else 0.

Definition is_overlong_sequence (cp length : Z) : bool :=
  if cp <? 0x80 then negb (length =? 1)
  else if cp <? 0x800 then negb (length =? 2)
  else if cp <? 0x10000 then negb (length =? 3)
  else false.

Inductive utf_error :=
  UTF8_OK | NOT_ENOUGH_ROOM | INVALID_LEAD | INCOMPLETE_SEQUENCE | OVERLONG_SEQUENCE | INVALID_CODE_POINT.
#[global] Instance utf_error_eq_dec : EqDecision utf_error.
Proof. solve_decision. Defined.

(** [increase_safely]: the next octet and the iterator on it, or the error. *)
Definition increase_safely (it : bytes) : utf_error + (Z * bytes) :=
  match tail it with
  | [] => inl NOT_ENOUGH_ROOM
  | (b :: _) as it' => if is_trail b then inr (b, it') else inl INCOMPLETE_SEQUENCE
  end.

(** [get_sequence_1] to [get_sequence_4]: the code point and the iterator left
    on the last octet of the sequence. *)
Definition get_sequence_1 (it : bytes) : utf_error + (Z * bytes) :=
  match it with [] => inl NOT_ENOUGH_ROOM | b :: _ => inr (mask8 b, it) end.

Definition get_sequence_2 (it : bytes) : utf_error + (Z * bytes) :=
  match it with
  | [] => inl NOT_ENOUGH_ROOM
  | b0 :: _ =>
      match increase_safely it with
      | inl e => inl e
      | inr (b1, it1) =>
          inr (Z.land (Z.shiftl (mask8 b0) 6) 0x7ff + Z.land b1 0x3f, it1)
      end
  end.

Definition get_sequence_3 (it : bytes) : utf_error + (Z * bytes) :=
  match it with
  | [] => inl NOT_ENOUGH_ROOM
  | b0 :: _ =>
      match increase_safely it with
      | inl e => inl e
      | inr (b1, it1) =>
          let cp := Z.land (Z.shiftl (mask8 b0) 12) 0xffff + Z.land (Z.shiftl (mask8 b1) 6) 0xfff in
          match increase_safely it1 with
          | inl e => inl e
          | inr (b2, it2) => inr (cp + Z.land b2 0x3f, it2)
          end
      end
  end.

Definition get_sequence_4 (it : bytes) : utf_error + (Z * bytes) :=
  match it with
  | [] => inl NOT_ENOUGH_ROOM
  | b0 :: _ =>
      match increase_safely it with
      | inl e => inl e
      | inr (b1, it1) =>
          let cp := Z.land (Z.shiftl (mask8 b0) 18) 0x1fffff + Z.land (Z.shiftl (mask8 b1) 12) 0x3ffff in
          match increase_safely it1 with
          | inl e => inl e
          | inr (b2, it2) =>
              let cp := cp + Z.land (Z.shiftl (mask8 b2) 6) 0xfff in
              match increase_safely it2 with
              | inl e => inl e
              | inr (b3, it3) => inr (cp + Z.land b3 0x3f, it3)
              end
          end
      end
  end.

(** [validate_next]: decode one sequence. On success the code point and the
    iterator past the sequence; on failure the iterator stays where it was. *)
Definition validate_next (it : bytes) : utf_error + (Z * bytes) :=
  match it with
  | [] => inl NOT_ENOUGH_ROOM
  | b :: _ =>
      let length := sequence_length b in
      let decoded :=
        if length =? 0 then inl INVALID_LEAD
        else if length =? 1 then get_sequence_1 it
        else if length =? 2 then get_sequence_2 it
        else if length =? 3 then get_sequence_3 it
        else get_sequence_4 it in
      match decoded with
      | inl e => inl e
      | inr (cp, it') =>
          if is_code_point_valid cp then
            if negb (is_overlong_sequence cp length) then inr (cp, tail it')
            else inl OVERLONG_SEQUENCE
          else inl INVALID_CODE_POINT
      end
  end.

(** [internal::append]: the UTF-8 octets of a code point. *)
Definition append (cp : Z) : bytes :=
  if cp <? 0x80 then [u8 cp]
  else if cp <? 0x800 then
    [u8 (Z.lor (Z.shiftr cp 6) 0xc0); u8 (Z.lor (Z.land cp 0x3f) 0x80)]
  else if cp <? 0x10000 then
    [u8 (Z.lor (Z.shiftr cp 12) 0xe0); u8 (Z.lor (Z.land (Z.shiftr cp 6) 0x3f) 0x80);
     u8 (Z.lor (Z.land cp 0x3f) 0x80)]
  else
    [u8 (Z.lor (Z.shiftr cp 18) 0xf0); u8 (Z.lor (Z.land (Z.shiftr cp 12) 0x3f) 0x80);
     u8 (Z.lor (Z.land (Z.shiftr cp 6) 0x3f) 0x80); u8 (Z.lor (Z.land cp 0x3f) 0x80)].

(** [utf8::find_invalid]: the iterator on the first invalid sequence, the end
    when there is none. Each round consumes an octet, so the length of the text
    bounds the rounds. *)
Fixpoint find_invalid_loop (fuel : nat) (it : bytes) : bytes :=
  match fuel with
  | O => it
  | S f => match it with
           | [] => []
           | _ => match validate_next it with
                  | inl _ => it
                  | inr (_, it') => find_invalid_loop f it'
                  end
           end
  end.
Definition find_invalid (it : bytes) : bytes := find_invalid_loop (length it) it.

Fixpoint skip_trail (it : bytes) : bytes :=
  match it with
  | [] => []
  | b :: it' => if is_trail b then skip_trail it' else it
  end.

(** [utf8::replace_invalid]: the text with one replacement mark for each
    invalid sequence. *)
Fixpoint replace_invalid_loop (fuel : nat) (it : bytes) (replacement : Z) : bytes :=
  match fuel with
  | O => []
  | S f =>
      match it with
      | [] => []
      | _ =>
          match validate_next it with
          | inr (_, it') =>
              take (length it - length it') it ++ replace_invalid_loop f it' replacement
          | inl NOT_ENOUGH_ROOM => append replacement
          | inl INVALID_LEAD => append replacement ++ replace_invalid_loop f (tail it) replacement
          | inl _ =>
              append replacement ++ replace_invalid_loop f (skip_trail (tail it)) replacement
          end
      end
  end.
Definition replace_invalid (it : bytes) (replacement : Z) : bytes :=
  replace_invalid_loop (length it) it replacement.

(** [unchecked::next]: decode without checks; [None] reads past the end. *)
Definition next (it : bytes) : option (Z * bytes) :=
  match it with
  | [] => None
  | b0 :: _ =>
      let cp := mask8 b0 in
      let length := sequence_length b0 in
      if length =? 2 then
        b1 ← it !! 1%nat;
        Some (Z.land (Z.shiftl cp 6) 0x7ff + Z.land b1 0x3f, drop 2 it)
      else if length =? 3 then
        b1 ← it !! 1%nat; b2 ← it !! 2%nat;
        Some (Z.land (Z.shiftl cp 12) 0xffff + Z.land (Z.shiftl (mask8 b1) 6) 0xfff
              + Z.land b2 0x3f, drop 3 it)
      else if length =? 4 then
        b1 ← it !! 1%nat; b2 ← it !! 2%nat; b3 ← it !! 3%nat;
        Some (Z.land (Z.shiftl cp 18) 0x1fffff + Z.land (Z.shiftl (mask8 b1) 12) 0x3ffff
              + Z.land (Z.shiftl (mask8 b2) 6) 0xfff + Z.land b3 0x3f, drop 4 it)
      else Some (cp, tail it)
  end.

(** The words [unchecked::utf8to16] writes for one code point. *)
Definition append16 (cp : Z) : list Z :=
  if 0xffff <? cp then [u16 (Z.shiftr cp 10 + LEAD_OFFSET); u16 (Z.land cp 0x3ff + 0xdc00)]
  else [u16 cp].

(** [unchecked::utf8to16] *)
Fixpoint utf8to16_loop (fuel : nat) (it : bytes) : option (list Z) :=
  match fuel with
  | O => Some []
  | S f => match it with
           | [] => Some []
           | _ => '(cp, it') ← next it; rest ← utf8to16_loop f it'; Some (append16 cp ++ rest)
           end
  end.
Definition utf8to16 (it : bytes) : option (list Z) := utf8to16_loop (length it) it.

(** [unchecked::utf16to8] *)
Fixpoint utf16to8 (it : list Z) : bytes :=
  match it with
  | [] => []
  | w :: it' =>
      let cp := mask16 w in
      if is_lead_surrogate cp then
        match it' with
        | [] => []
        | w2 :: it'' =>
            append (u32 (Z.shiftl cp 10 + mask16 w2 + SURROGATE_OFFSET)) ++ utf16to8 it''
        end
      else append cp ++ utf16to8 it'
  end.

(** ** Bit operations as arithmetic *)

(** A property of all the numbers below a bound, by running through them. *)
Lemma forall_below (n : nat) (P : Z -> bool) :
  forallb P (seqZ 0 (Z.of_nat n)) = true -> forall x, 0 <= x < Z.of_nat n -> P x = true.
Proof.
  intros H x Hx. rewrite forallb_forall in H. apply H.
  apply list_elem_of_In, elem_of_seqZ. lia.
Qed.

Lemma lor_tag tag (n : nat) :
  forallb (fun x => Z.lor x tag =? x + tag) (seqZ 0 (Z.of_nat n)) = true ->
  forall x, 0 <= x < Z.of_nat n -> Z.lor x tag = x + tag.
Proof. intros H x Hx. apply Z.eqb_eq. revert x Hx. by apply forall_below. Qed.

Lemma lor_80 x : 0 <= x < 64 -> Z.lor x 0x80 = x + 0x80.
Proof. apply (lor_tag 0x80 64). by vm_compute. Qed.
Lemma lor_c0 x : 0 <= x < 32 -> Z.lor x 0xc0 = x + 0xc0.
Proof. apply (lor_tag 0xc0 32). by vm_compute. Qed.
Lemma lor_e0 x : 0 <= x < 16 -> Z.lor x 0xe0 = x + 0xe0.
Proof. apply (lor_tag 0xe0 16). by vm_compute. Qed.
Lemma lor_f0 x : 0 <= x < 8 -> Z.lor x 0xf0 = x + 0xf0.
Proof. apply (lor_tag 0xf0 8). by vm_compute. Qed.

Lemma land_mask k x : 0 <= k -> Z.land x (Z.ones k) = x mod 2 ^ k.
Proof. apply Z.land_ones. Qed.
Lemma land_3f x : Z.land x 0x3f = x mod 64.
Proof. by rewrite <- (land_mask 6). Qed.
Lemma land_3ff x : Z.land x 0x3ff = x mod 1024.
Proof. by rewrite <- (land_mask 10). Qed.
Lemma land_7ff x : Z.land x 0x7ff = x mod 2048.
Proof. by rewrite <- (land_mask 11). Qed.
Lemma land_fff x : Z.land x 0xfff = x mod 4096.
Proof. by rewrite <- (land_mask 12). Qed.
Lemma land_ffff x : Z.land x 0xffff = x mod 65536.
Proof. by rewrite <- (land_mask 16). Qed.
Lemma land_3ffff x : Z.land x 0x3ffff = x mod 262144.
Proof. by rewrite <- (land_mask 18). Qed.
Lemma land_1fffff x : Z.land x 0x1fffff = x mod 2097152.
Proof. by rewrite <- (land_mask 21). Qed.

Lemma mask8_byte b : is_byte b -> mask8 b = b.
Proof.
  intros Hb. unfold mask8, is_byte in *. rewrite Z.land_comm.
  rewrite (land_mask 8) by lia. rewrite Z.mod_small by lia. by wrap_small.
Qed.
Lemma mask16_u16 w : is_u16 w -> mask16 w = w.
Proof.
  intros Hw. unfold mask16, is_u16 in *. rewrite Z.land_comm, land_ffff, Z.mod_small by lia.
  by wrap_small.
Qed.

Lemma shiftr_div k x : 0 <= k -> Z.shiftr x k = x / 2 ^ k.
Proof. apply Z.shiftr_div_pow2. Qed.
Lemma shiftl_mul k x : 0 <= k -> Z.shiftl x k = x * 2 ^ k.
Proof. apply Z.shiftl_mul_pow2. Qed.

(** All the bit operations of the coders as [+], [*], [/] and [mod]. *)
Ltac bits :=
  rewrite ?land_3f, ?land_3ff, ?land_7ff, ?land_fff, ?land_ffff, ?land_3ffff, ?land_1fffff;
  rewrite ?shiftr_div, ?shiftl_mul by lia;
  repeat match goal with |- context [2 ^ ?k] =>
    let v := eval vm_compute in (2 ^ k) in change (2 ^ k) with v end.

(** ** The octets of a sequence *)
Lemma is_trail_spec b : is_byte b -> is_trail b = true <-> 0x80 <= b < 0xc0.
Proof.
  intros Hb. unfold is_trail. rewrite mask8_byte by done. bits.
  rewrite Z.eqb_eq. unfold is_byte in Hb. split; dlia.
Qed.
Lemma is_trail_intro b : 0x80 <= b < 0xc0 -> is_trail b = true.
Proof. intros H. apply is_trail_spec; [unfold is_byte|]; lia. Qed.

Lemma sequence_length_spec b : is_byte b ->
  sequence_length b = if decide (b < 0x80) then 1
                      else if decide (b < 0xc0) then 0
                      else if decide (b < 0xe0) then 2
                      else if decide (b < 0xf0) then 3
                      else if decide (b < 0xf8) then 4 else 0.
Proof.
  intros Hb. unfold sequence_length. rewrite mask8_byte by done. bits. unfold is_byte in Hb.
  repeat (case_match; zbool); repeat case_decide; try lia; exfalso; dlia.
Qed.

(** The encoding of a code point, with the octets as arithmetic. *)
Lemma append_spec cp : 0 <= cp <= 0x1fffff ->
  append cp =
    if decide (cp < 0x80) then [cp]
    else if decide (cp < 0x800) then [0xc0 + cp / 64; 0x80 + cp mod 64]
    else if decide (cp < 0x10000) then [0xe0 + cp / 4096; 0x80 + cp / 64 mod 64; 0x80 + cp mod 64]
    else [0xf0 + cp / 262144; 0x80 + cp / 4096 mod 64; 0x80 + cp / 64 mod 64; 0x80 + cp mod 64].
Proof.
  intros Hcp. unfold append. bits.
  repeat (case_match; zbool); repeat case_decide; try lia;
    rewrite ?lor_80, ?lor_c0, ?lor_e0, ?lor_f0 by dlia;
    repeat rewrite wrap_u_small by (unfold in_u; dlia); list_lia.
Qed.

Lemma append_bytes cp : 0 <= cp <= 0x1fffff -> Forall is_byte (append cp).
Proof.
  intros Hcp. rewrite append_spec by done. unfold is_byte.
  repeat case_decide; repeat constructor; dlia.
Qed.

(** Decoding the octets of an encoded code point gives it back. *)
Lemma increase_safely_trail b t rest :
  0x80 <= t < 0xc0 -> increase_safely (b :: t :: rest) = inr (t, t :: rest).
Proof. intros H. unfold increase_safely. cbn. by rewrite is_trail_intro. Qed.

Lemma valid_range cp : is_code_point_valid cp = true -> cp <= 0x10ffff.
Proof. unfold is_code_point_valid. intros H. apply andb_prop in H as [H _]. zbool. lia. Qed.

Lemma land_3f_trail x : 0 <= x < 64 -> Z.land (0x80 + x) 0x3f = x.
Proof. intros. rewrite land_3f. dlia. Qed.

Ltac decode_step :=
  rewrite ?mask8_byte by (unfold is_byte; dlia);
  rewrite ?increase_safely_trail by dlia; cbn -[Z.mul Z.add Z.div Z.modulo Z.land Z.shiftl].

Lemma seq_len_2 x : 0 <= x < 32 -> sequence_length (0xc0 + x) = 2.
Proof. intros. rewrite sequence_length_spec by (unfold is_byte; lia). repeat case_decide; lia. Qed.
Lemma seq_len_3 x : 0 <= x < 16 -> sequence_length (0xe0 + x) = 3.
Proof. intros. rewrite sequence_length_spec by (unfold is_byte; lia). repeat case_decide; lia. Qed.
Lemma seq_len_4 x : 0 <= x < 8 -> sequence_length (0xf0 + x) = 4.
Proof. intros. rewrite sequence_length_spec by (unfold is_byte; lia). repeat case_decide; lia. Qed.
Lemma seq_len_1 x : 0 <= x < 0x80 -> sequence_length x = 1.
Proof. intros. rewrite sequence_length_spec by (unfold is_byte; lia). repeat case_decide; lia. Qed.

Lemma next_append cp rest : 0 <= cp <= 0x1fffff -> next (append cp ++ rest) = Some (cp, rest).
Proof.
  intros Hcp. rewrite append_spec by done. unfold next.
  repeat case_decide; cbn [app].
  - rewrite seq_len_1 by lia. cbn -[mask8]. by rewrite mask8_byte by (unfold is_byte; lia).
  - rewrite seq_len_2 by dlia. cbn -[mask8 Z.mul Z.add Z.div Z.modulo Z.land Z.shiftl].
    rewrite mask8_byte by (unfold is_byte; dlia). bits. do 2 f_equal. dlia.
  - rewrite seq_len_3 by dlia. cbn -[mask8 Z.mul Z.add Z.div Z.modulo Z.land Z.shiftl].
    rewrite !mask8_byte by (unfold is_byte; dlia). bits. do 2 f_equal. dlia.
  - rewrite seq_len_4 by dlia. cbn -[mask8 Z.mul Z.add Z.div Z.modulo Z.land Z.shiftl].
    rewrite !mask8_byte by (unfold is_byte; dlia). bits. do 2 f_equal. dlia.
Qed.

Lemma not_overlong cp :
  is_overlong_sequence cp (if decide (cp < 0x80) then 1 else if decide (cp < 0x800) then 2
                           else if decide (cp < 0x10000) then 3 else 4) = false.
Proof. unfold is_overlong_sequence. repeat case_decide; repeat (case_match; zbool); try lia; done. Qed.

Lemma validate_next_append cp rest :
  0 <= cp -> is_code_point_valid cp = true -> validate_next (append cp ++ rest) = inr (cp, rest).
Proof.
  intros H0 Hv. pose proof (valid_range _ Hv) as Hr. pose proof (not_overlong cp) as Ho.
  rewrite append_spec by lia. unfold validate_next.
  repeat case_decide; cbn [app].
  - rewrite seq_len_1 by lia. cbn [Z.eqb Pos.eqb get_sequence_1].
    rewrite mask8_byte by (unfold is_byte; lia). by rewrite Hv, Ho.
  - rewrite seq_len_2 by dlia. cbn [Z.eqb Pos.eqb get_sequence_2]. decode_step. bits.
    match goal with |- context [is_code_point_valid ?x] => replace x with cp by dlia end.
    by rewrite Hv, Ho.
  - rewrite seq_len_3 by dlia. cbn [Z.eqb Pos.eqb get_sequence_3]. decode_step. decode_step. bits.
    match goal with |- context [is_code_point_valid ?x] => replace x with cp by dlia end.
    by rewrite Hv, Ho.
  - rewrite seq_len_4 by dlia. cbn [Z.eqb Pos.eqb get_sequence_4].
    do 3 decode_step. bits.
    match goal with |- context [is_code_point_valid ?x] => replace x with cp by dlia end.
    by rewrite Hv, Ho.
Qed.

(** Conversely, what [validate_next] accepts is the encoding of the code point
    it returns. *)
Lemma increase_safely_inv b rest c it :
  Forall is_byte rest -> increase_safely (b :: rest) = inr (c, it) ->
  0x80 <= c < 0xc0 /\ exists rest', rest = c :: rest' /\ it = c :: rest' /\ Forall is_byte rest'.
Proof.
  unfold increase_safely. cbn [tail]. intros Hb H.
  destruct rest as [|c' rest']; [done|]. inversion Hb as [|? ? Hc Hb']; subst.
  destruct (is_trail c') eqn:Et; simplify_eq. apply is_trail_spec in Et; [|done].
  split; [done|]. by exists rest'.
Qed.

Lemma overlong_length cp len :
  is_overlong_sequence cp len = false ->
  (cp < 0x80 -> len = 1) /\ (0x80 <= cp < 0x800 -> len = 2) /\ (0x800 <= cp < 0x10000 -> len = 3).
Proof. unfold is_overlong_sequence. intros H. repeat (case_match; zbool); lia. Qed.

Definition scalar_value (cp : Z) : Prop := 0 <= cp /\ is_code_point_valid cp = true.
#[global] Instance scalar_value_dec cp : Decision (scalar_value cp).
Proof. unfold scalar_value. apply _. Defined.

Ltac sequence_inv :=
  match goal with
  | H : increase_safely _ = inr (?c, ?it) |- _ =>
      apply increase_safely_inv in H as (? & ? & ? & ? & ?); [subst|done]
  end.

Lemma accept_inv (d1 : Z) (d2 : bytes) len cp rest :
  (if is_code_point_valid d1 then
     if negb (is_overlong_sequence d1 len) then inr (d1, tail d2) else inl OVERLONG_SEQUENCE
   else inl INVALID_CODE_POINT) = inr (cp, rest) ->
  d1 = cp /\ is_code_point_valid cp = true /\ is_overlong_sequence cp len = false /\ tail d2 = rest.
Proof.
  intros H. destruct (is_code_point_valid d1) eqn:Ev; [|done].
  destruct (is_overlong_sequence d1 len) eqn:Eo; [done|]. cbn in H. by simplify_eq.
Qed.

Lemma validate_next_inv it cp rest :
  Forall is_byte it -> validate_next it = inr (cp, rest) ->
  scalar_value cp /\ it = append cp ++ rest.
Proof.
  intros Hit H. destruct it as [|b it]; [done|].
  inversion Hit as [|? ? Hb Hbs]; subst. unfold validate_next in H.
  rewrite sequence_length_spec in H by done. unfold is_byte in Hb.
  repeat case_decide; cbn [Z.eqb Pos.eqb] in H; simplify_eq.
  - cbn [get_sequence_1] in H. apply accept_inv in H as (E & Hv & Ho & Et). cbn in Et. subst.
    rewrite mask8_byte in Hv |- * by (unfold is_byte; lia).
    split; [split; [lia|done]|]. rewrite append_spec by lia. by rewrite decide_True by lia.
  - cbn [get_sequence_2] in H. destruct (increase_safely _) as [|[c1 it1]] eqn:E1; [done|].
    apply accept_inv in H as (E & Hv & Ho & Et). sequence_inv. cbn [tail] in *. subst.
    rewrite mask8_byte in Hv, Ho |- * by (unfold is_byte; lia).
    revert Hv Ho. bits. intros Hv Ho. apply overlong_length in Ho.
    split; [split; [dlia|done]|]. rewrite append_spec by dlia.
    rewrite decide_False, decide_True by dlia. cbn [app]. list_lia.
  - cbn [get_sequence_3] in H. destruct (increase_safely _) as [|[c1 it1]] eqn:E1; [done|].
    sequence_inv. destruct (increase_safely _) as [|[c2 it2]] eqn:E2; [done|].
    apply accept_inv in H as (E & Hv & Ho & Et). sequence_inv. cbn [tail] in *. subst.
    rewrite !mask8_byte in Hv, Ho |- * by (unfold is_byte; lia).
    revert Hv Ho. bits. intros Hv Ho. apply overlong_length in Ho.
    split; [split; [dlia|done]|]. rewrite append_spec by dlia.
    rewrite decide_False, decide_False, decide_True by dlia. cbn [app]. list_lia.
  - cbn [get_sequence_4] in H. destruct (increase_safely _) as [|[c1 it1]] eqn:E1; [done|].
    sequence_inv. destruct (increase_safely _) as [|[c2 it2]] eqn:E2; [done|].
    sequence_inv. destruct (increase_safely _) as [|[c3 it3]] eqn:E3; [done|].
    apply accept_inv in H as (E & Hv & Ho & Et). sequence_inv. cbn [tail] in *. subst.
    rewrite !mask8_byte in Hv, Ho |- * by (unfold is_byte; lia).
    revert Hv Ho. bits. intros Hv Ho. apply overlong_length in Ho.
    split; [split; [dlia|done]|]. rewrite append_spec by dlia.
    rewrite decide_False, decide_False, decide_False by dlia. cbn [app]. list_lia.
Qed.

(** ** Text: lists of code points and their encodings *)
Definition utf8_encode (cps : list Z) : bytes := mjoin (append <$> cps).
Definition utf16_encode (cps : list Z) : list Z := mjoin (append16 <$> cps).

(** A byte (word) sequence that is the encoding of some text. *)
Definition utf8_wf (s : bytes) : Prop := exists cps, Forall scalar_value cps /\ s = utf8_encode cps.
Definition utf16_wf (s : list Z) : Prop := exists cps, Forall scalar_value cps /\ s = utf16_encode cps.

Lemma scalar_range cp : scalar_value cp -> 0 <= cp <= 0x10ffff.
Proof. intros [H0 Hv]. apply valid_range in Hv. lia. Qed.

Lemma validate_next_scalar cp rest : scalar_value cp -> validate_next (append cp ++ rest) = inr (cp, rest).
Proof. intros [H0 Hv]. by apply validate_next_append. Qed.

Lemma append_length_pos cp : (0 < length (append cp))%nat.
Proof. unfold append. repeat case_match; cbn; lia. Qed.

Lemma append_not_nil cp rest : append cp ++ rest <> [].
Proof. intros H. apply (f_equal length) in H. rewrite length_app in H. pose proof (append_length_pos cp). cbn in H. lia. Qed.

Lemma utf8_encode_cons cp cps : utf8_encode (cp :: cps) = append cp ++ utf8_encode cps.
Proof. done. Qed.
Lemma utf16_encode_cons cp cps : utf16_encode (cp :: cps) = append16 cp ++ utf16_encode cps.
Proof. done. Qed.

Lemma utf8_encode_bytes cps : Forall scalar_value cps -> Forall is_byte (utf8_encode cps).
Proof.
  induction 1 as [|cp cps Hcp _ IH]; [constructor|]. rewrite utf8_encode_cons.
  apply Forall_app. split; [|done]. apply append_bytes. apply scalar_range in Hcp. lia.
Qed.

Lemma utf8_wf_app cp s : scalar_value cp -> utf8_wf s -> utf8_wf (append cp ++ s).
Proof. intros Hcp (cps & Hcps & ->). exists (cp :: cps). split; [by constructor|done]. Qed.
Lemma utf8_wf_nil : utf8_wf [].
Proof. by exists []. Qed.
#[export] Hint Resolve utf8_wf_app utf8_wf_nil : odbc.

(** The scan finds nothing exactly on well-formed text. *)
Lemma find_invalid_loop_nil fuel it :
  Forall is_byte it -> (length it <= fuel)%nat -> find_invalid_loop fuel it = [] <-> utf8_wf it.
Proof.
  revert it. induction fuel as [|f IH]; intros it Hb Hf.
  - destruct it; [|cbn in Hf; lia]. split; [intros _; apply utf8_wf_nil|done].
  - destruct it as [|b it]; [split; [intros _; apply utf8_wf_nil|done]|].
    cbn [find_invalid_loop]. destruct (validate_next (b :: it)) as [e|[cp it']] eqn:E.
    + split; [done|]. intros (cps & Hcps & Ecps).
      destruct Hcps as [|cp cps Hcp Hcps]; [done|]. rewrite utf8_encode_cons in Ecps.
      rewrite Ecps, validate_next_scalar in E by done. done.
    + pose proof E as E'. apply validate_next_inv in E' as [Hcp Eit]; [|done].
      pose proof (append_length_pos cp) as Hl.
      assert (length it' <= f)%nat as Hf'.
      { apply (f_equal length) in Eit. rewrite length_app in Eit. cbn in Eit, Hf. lia. }
      assert (Forall is_byte it') as Hb'. { rewrite Eit in Hb. by apply Forall_app in Hb as [_ ?]. }
      rewrite IH by done. rewrite Eit. split; [by auto with odbc|].
      intros (cps & Hcps & Ecps). destruct Hcps as [|cp' cps Hcp' Hcps].
      { by apply append_not_nil in Ecps. }
      rewrite Eit, Ecps, utf8_encode_cons, validate_next_scalar in E by done.
      exists cps. split; [done|]. by simplify_eq.
Qed.

Lemma find_invalid_nil it : Forall is_byte it -> find_invalid it = [] <-> utf8_wf it.
Proof. intros Hb. by apply find_invalid_loop_nil. Qed.

Lemma skip_trail_suffix it : exists pre, it = pre ++ skip_trail it.
Proof.
  induction it as [|b it [pre IH]]; cbn; [by exists []|].
  destruct (is_trail b); [|by exists []]. exists (b :: pre). cbn. by f_equal.
Qed.

(** Replacing the invalid sequences always leaves well-formed text. *)
Lemma replace_invalid_loop_wf fuel it r :
  Forall is_byte it -> scalar_value r -> utf8_wf (replace_invalid_loop fuel it r).
Proof.
  intros Hb Hr. revert it Hb. induction fuel as [|f IH]; intros it Hb; cbn; auto with odbc.
  destruct it as [|b it]; auto with odbc.
  destruct (validate_next (b :: it)) as [e|[cp it']] eqn:E.
  - assert (Forall is_byte it) as Hb' by by inversion Hb.
    assert (Forall is_byte (skip_trail it)) as Hs.
    { destruct (skip_trail_suffix it) as [pre Epre]. rewrite Epre in Hb'. by apply Forall_app in Hb' as [_ ?]. }
    destruct e; cbn [tail]; auto with odbc. rewrite <- (app_nil_r (append r)); auto with odbc.
  - apply validate_next_inv in E as [Hcp Eit]; [|done].
    assert (Forall is_byte it') as Hb'. { rewrite Eit in Hb. by apply Forall_app in Hb as [_ ?]. }
    rewrite Eit. rewrite length_app.
    replace (length (append cp) + length it' - length it')%nat with (length (append cp)) by lia.
    rewrite take_app_length. auto with odbc.
Qed.

Lemma replace_invalid_wf it r : Forall is_byte it -> scalar_value r -> utf8_wf (replace_invalid it r).
Proof. apply replace_invalid_loop_wf. Qed.

(** Well-formed text converts to the UTF-16 encoding of the same code points,
    without ever reading past the end. *)
Lemma utf8to16_loop_encode fuel cps :
  Forall scalar_value cps -> (length (utf8_encode cps) <= fuel)%nat ->
  utf8to16_loop fuel (utf8_encode cps) = Some (utf16_encode cps).
Proof.
  revert cps. induction fuel as [|f IH]; intros cps Hcps Hf.
  - destruct Hcps as [|cp cps Hcp Hcps]; [done|]. rewrite utf8_encode_cons, length_app in Hf.
    pose proof (append_length_pos cp). lia.
  - destruct Hcps as [|cp cps Hcp Hcps]; [done|].
    rewrite utf8_encode_cons, length_app in *. rewrite utf16_encode_cons.
    cbn [utf8to16_loop]. pose proof (append_length_pos cp).
    destruct (append cp ++ utf8_encode cps) as [|b t] eqn:E; [by apply append_not_nil in E|].
    rewrite <- E, next_append by (apply scalar_range in Hcp; lia). cbn.
    rewrite IH by (done || lia). done.
Qed.

Lemma utf8to16_encode cps :
  Forall scalar_value cps -> utf8to16 (utf8_encode cps) = Some (utf16_encode cps).
Proof. intros H. by apply utf8to16_loop_encode. Qed.

(** The words of a code point, as arithmetic. *)
Lemma append16_spec cp : 0 <= cp <= 0x10ffff ->
  append16 cp = if decide (cp < 0x10000) then [cp]
                else [0xd7c0 + cp / 1024; 0xdc00 + cp mod 1024].
Proof.
  intros Hcp. unfold append16, LEAD_OFFSET. bits.
  case_match; zbool; case_decide; try lia; rewrite !wrap_u_small by (unfold in_u; dlia); list_lia.
Qed.

Lemma append16_words cp : 0 <= cp <= 0x10ffff -> Forall is_u16 (append16 cp).
Proof.
  intros Hcp. rewrite append16_spec by done. unfold is_u16.
  case_decide; repeat constructor; dlia.
Qed.

(** ** UTF-16 to UTF-8 *)
Lemma not_lead_scalar cp : scalar_value cp -> cp < 0x10000 -> is_lead_surrogate cp = false.
Proof.
  intros [H0 Hv] Hlt. unfold is_code_point_valid, is_surrogate in Hv. unfold is_lead_surrogate.
  apply andb_prop in Hv as [_ Hv]. apply negb_true_iff, andb_false_iff in Hv.
  apply andb_false_iff. rewrite !Z.leb_gt in *. lia.
Qed.

Lemma lead_in_range w : 0xd800 <= w < 0xdc00 -> is_lead_surrogate w = true.
Proof. intros H. unfold is_lead_surrogate. apply andb_true_intro. split; apply Z.leb_le; lia. Qed.
Lemma trail_in_range w : 0xdc00 <= w < 0xe000 -> is_trail_surrogate w = true.
Proof. intros H. unfold is_trail_surrogate. apply andb_true_intro. split; apply Z.leb_le; lia. Qed.

(** A surrogate pair as the code point it codes; the 32-bit sum of the source
    wraps around to it. *)
Lemma surrogate_pair_sum h l :
  0 <= h < 1024 -> 0 <= l < 1024 ->
  u32 (Z.shiftl (0xd800 + h) 10 + (0xdc00 + l) + SURROGATE_OFFSET) = 0x10000 + h * 1024 + l.
Proof. intros Hh Hl. unfold SURROGATE_OFFSET, wrap_u. bits. dlia. Qed.

Lemma utf16to8_append16 cp rest :
  scalar_value cp -> utf16to8 (append16 cp ++ rest) = append cp ++ utf16to8 rest.
Proof.
  intros Hcp. pose proof (scalar_range _ Hcp) as Hr. rewrite append16_spec by done.
  case_decide; cbn [app utf16to8].
  - rewrite mask16_u16 by (unfold is_u16; lia). by rewrite not_lead_scalar by done.
  - rewrite !mask16_u16 by (unfold is_u16; dlia). rewrite lead_in_range by dlia.
    replace (0xd7c0 + cp / 1024) with (0xd800 + (cp / 1024 - 64)) by lia.
    rewrite surrogate_pair_sum by dlia. do 2 f_equal. dlia.
Qed.

Lemma utf16to8_encode cps :
  Forall scalar_value cps -> utf16to8 (utf16_encode cps) = utf8_encode cps.
Proof.
  induction 1 as [|cp cps Hcp _ IH]; [done|].
  by rewrite utf16_encode_cons, utf16to8_append16, IH, utf8_encode_cons.
Qed.

Lemma utf16_encode_words cps : Forall scalar_value cps -> Forall is_u16 (utf16_encode cps).
Proof.
  induction 1 as [|cp cps Hcp _ IH]; [constructor|]. rewrite utf16_encode_cons.
  apply Forall_app. split; [|done]. by apply append16_words, scalar_range.
Qed.

(** Text that is already well formed is left alone by the replacement scan. *)
Lemma replace_invalid_loop_id fuel cps r :
  Forall scalar_value cps -> (length (utf8_encode cps) <= fuel)%nat ->
  replace_invalid_loop fuel (utf8_encode cps) r = utf8_encode cps.
Proof.
  revert cps. induction fuel as [|f IH]; intros cps Hcps Hf.
  - destruct (utf8_encode cps); [done|cbn in Hf; lia].
  - destruct Hcps as [|cp cps Hcp Hcps]; [done|]. rewrite utf8_encode_cons, length_app in *.
    cbn [replace_invalid_loop]. pose proof (append_length_pos cp).
    destruct (append cp ++ utf8_encode cps) as [|b t] eqn:E; [by apply append_not_nil in E|].
    rewrite <- E, validate_next_scalar, length_app by done.
    replace (length (append cp) + length (utf8_encode cps) - length (utf8_encode cps))%nat
      with (length (append cp)) by lia.
    rewrite take_app_length, IH by (done || lia). done.
Qed.

Lemma replace_invalid_id cps r :
  Forall scalar_value cps -> replace_invalid (utf8_encode cps) r = utf8_encode cps.
Proof. intros H. by apply replace_invalid_loop_id. Qed.

(** The length in units never grows from UTF-8 to UTF-16, and grows at most
    threefold the other way. *)
Lemma append_length_bounds cp : 0 <= cp <= 0x10ffff ->
  (length (append16 cp) <= length (append cp) <= 3 * length (append16 cp))%nat.
Proof.
  intros Hcp. rewrite append16_spec, append_spec by lia. repeat case_decide; cbn; lia.
Qed.

Lemma encode_length_bounds cps : Forall scalar_value cps ->
  (length (utf16_encode cps) <= length (utf8_encode cps) <= 3 * length (utf16_encode cps))%nat.
Proof.
  induction 1 as [|cp cps Hcp _ IH]; [cbn; lia|].
  rewrite utf8_encode_cons, utf16_encode_cons, !length_app.
  pose proof (append_length_bounds cp). apply scalar_range in Hcp. lia.
Qed.
