(* ===== verification/Utf8Checked.v ===== *)
(** * The checked functions of the UTF-8 library
    ([third_party/utf8/checked.h], [core.h], [unchecked.h])

    The part of the library the driver does not call: the functions that throw on
    ill-formed text, moving a position in both directions, and UTF-32. As in [Utf8] an
    iterator is the list of the remaining units; one that moves backwards is the pair of what
    is before it, last unit first, and what is behind it. *)

From S2P Require Import Prelude Utf8.

(** The exceptions, with the unit or the code point they carry. *)
Inductive utf8_exception := not_enough_room | invalid_utf8 (octet : Z) | invalid_utf16 (word : Z) | invalid_code_point (cp : Z).

Definition bind_checked {A C} (r : utf8_exception + A) (k : A -> utf8_exception + C) : utf8_exception + C :=
  match r with inl e => inl e | inr a => k a end.

(** ** Units *)

(** [internal::append16] *)
Definition TRAIL_SURROGATE_MIN : Z := 0xdc00.
Definition is_in_bmp (cp : Z) : bool := cp <? 0x10000.
Definition internal_append16 (cp : Z) : list Z :=
  if is_in_bmp cp then [u16 cp] else [u16 (LEAD_OFFSET + Z.shiftr cp 10); u16 (TRAIL_SURROGATE_MIN + Z.land cp 0x3FF)].

(** [internal::validate_next16] *)
Definition validate_next16 (it : list Z) : utf_error + (Z * list Z) :=
  match it with
  | [] => inl NOT_ENOUGH_ROOM
  | first_word :: it =>
      if negb (is_surrogate first_word) then inr (first_word, it)
      else match it with
      | [] => inl NOT_ENOUGH_ROOM
      | second_word :: it =>
          if is_lead_surrogate first_word then
            if is_trail_surrogate second_word then inr (u32 (Z.shiftl first_word 10 + second_word + SURROGATE_OFFSET), it)
            else inl INCOMPLETE_SEQUENCE
          else inl INVALID_LEAD
      end
  end.

Definition is_valid (s : bytes) : bool := bool_decide (find_invalid s = []).

Definition bom : bytes := [0xef; 0xbb; 0xbf].
Definition starts_with_bom (s : bytes) : bool :=
  match s with a :: b :: c :: _ => (mask8 a =? 0xef) && (mask8 b =? 0xbb) && (mask8 c =? 0xbf) | _ => false end.

Definition append_checked (cp : Z) : utf8_exception + bytes :=
  if negb (is_code_point_valid cp) then inl (invalid_code_point cp) else inr (append cp).
Definition append16_checked (cp : Z) : utf8_exception + list Z :=
  if negb (is_code_point_valid cp) then inl (invalid_code_point cp) else inr (internal_append16 cp).

(** ** One code point *)

(** [utf8::next]; the exception of an invalid code point carries 0, the initial value. *)
Definition next_checked (it : bytes) : utf8_exception + (Z * bytes) :=
  match validate_next it with
  | inr r => inr r
  | inl NOT_ENOUGH_ROOM => inl not_enough_room
  | inl INVALID_CODE_POINT => inl (invalid_code_point 0)
  | inl _ => inl (invalid_utf8 (u8 (default 0 (head it))))
  end.

(** [utf8::next16] throws at the end of the text only; at any other ill-formed place it
    delivers 0 and stays where it is. *)
Definition next16_checked (it : list Z) : utf8_exception + (Z * list Z) :=
  match validate_next16 it with
  | inr r => inr r
  | inl NOT_ENOUGH_ROOM => inl not_enough_room
  | inl _ => inr (0, it)
  end.

(** [unchecked::next16]; [None] reads past the end. *)
Definition next16 (it : list Z) : option (Z * list Z) :=
  match it with
  | [] => None
  | w :: it =>
      let cp := mask16 w in
      if is_lead_surrogate cp then match it with w2 :: it => Some (u32 (Z.shiftl cp 10 + w2 + SURROGATE_OFFSET), it) | [] => None end
      else Some (cp, it)
  end.

(** The loop of [prior]: back over the trail octets, to a lead octet. *)
Fixpoint back (before behind : bytes) : utf8_exception + (bytes * bytes) :=
  match before with
  | [] => inl not_enough_room
  | b :: before' =>
      if is_trail b then if bool_decide (before' = []) then inl (invalid_utf8 b) else back before' (b :: behind)
      else inr (before', b :: behind)
  end.

(** [utf8::prior]: the code point before the iterator, and the iterator on it. *)
Definition prior (it : bytes * bytes) : utf8_exception + (Z * (bytes * bytes)) :=
  bind_checked (back it.1 []) (fun '(before, sequence) =>
  bind_checked (next_checked sequence) (fun '(cp, _) => inr (cp, (before, sequence ++ it.2)))).

(** ** Many *)

(** [utf8::advance] forwards. *)
Fixpoint advance (n : nat) (it : bytes) : utf8_exception + bytes :=
  match n with O => inr it | S n' => bind_checked (next_checked it) (fun '(_, it) => advance n' it) end.

(** The loops that decode a text; each round takes an octet or more. *)
Fixpoint utf8to32_loop (fuel : nat) (it : bytes) : utf8_exception + list Z :=
  match fuel with
  | O => inr []
  | S f =>
      match it with
      | [] => inr []
      | _ => bind_checked (next_checked it) (fun '(cp, it) => bind_checked (utf8to32_loop f it) (fun cps => inr (cp :: cps)))
      end
  end.
Definition utf8to32 (it : bytes) : utf8_exception + list Z := utf8to32_loop (length it) it.

Fixpoint distance_loop (fuel : nat) (it : bytes) (dist : Z) : utf8_exception + Z :=
  match fuel with
  | O => inr dist
  | S f => match it with [] => inr dist | _ => bind_checked (next_checked it) (fun '(_, it) => distance_loop f it (dist + 1)) end
  end.
Definition distance (it : bytes) : utf8_exception + Z := distance_loop (length it) it 0.

Fixpoint utf8to16_checked_loop (fuel : nat) (it : bytes) : utf8_exception + list Z :=
  match fuel with
  | O => inr []
  | S f =>
      match it with
      | [] => inr []
      | _ => bind_checked (next_checked it) (fun '(cp, it) => bind_checked (utf8to16_checked_loop f it) (fun ws => inr (append16 cp ++ ws)))
      end
  end.
Definition utf8to16_checked (it : bytes) : utf8_exception + list Z := utf8to16_checked_loop (length it) it.

Fixpoint utf32to8 (cps : list Z) : utf8_exception + bytes :=
  match cps with
  | [] => inr []
  | cp :: cps => bind_checked (append_checked cp) (fun s => bind_checked (utf32to8 cps) (fun t => inr (s ++ t)))
  end.

Fixpoint utf16to8_checked (it : list Z) : utf8_exception + bytes :=
  match it with
  | [] => inr []
  | w :: it =>
      let cp := mask16 w in
      if is_lead_surrogate cp then
        match it with
        | w2 :: it =>
            let trail_surrogate := mask16 w2 in
            if is_trail_surrogate trail_surrogate then
              bind_checked (append_checked (u32 (Z.shiftl cp 10 + trail_surrogate + SURROGATE_OFFSET))) (fun s =>
              bind_checked (utf16to8_checked it) (fun t => inr (s ++ t)))
            else inl (invalid_utf16 (u16 trail_surrogate))
        | [] => inl (invalid_utf16 (u16 cp))
        end
      else if is_trail_surrogate cp then inl (invalid_utf16 (u16 cp))
      else bind_checked (append_checked cp) (fun s => bind_checked (utf16to8_checked it) (fun t => inr (s ++ t)))
  end.

(** [unchecked::utf32to8], [unchecked::utf8to32]. *)
Fixpoint unchecked_utf32to8 (cps : list Z) : bytes := match cps with [] => [] | cp :: cps => append cp ++ unchecked_utf32to8 cps end.

Fixpoint unchecked_utf8to32_loop (fuel : nat) (it : bytes) : option (list Z) :=
  match fuel with
  | O => Some []
  | S f => match it with [] => Some [] | _ => '(cp, it) ← next it; cps ← unchecked_utf8to32_loop f it; Some (cp :: cps) end
  end.
Definition unchecked_utf8to32 (it : bytes) : option (list Z) := unchecked_utf8to32_loop (length it) it.

Example lone_surrogate : next16_checked [0xd83d; 0x41] = inr (0, [0xd83d; 0x41]).
Proof. reflexivity. Qed.
Example euro_back : prior (reverse (B"a" ++ [0xe2; 0x82; 0xac]), []) = inr (0x20ac, ([97], [0xe2; 0x82; 0xac])).
Proof. vm_compute. reflexivity. Qed.
Example overlong : utf8to32 [0xc0; 0x80] = inl (invalid_utf8 0xc0).
Proof. vm_compute. reflexivity. Qed.

(** ** One code point *)
Lemma next_checked_ok it cp rest : next_checked it = inr (cp, rest) <-> validate_next it = inr (cp, rest).
Proof. unfold next_checked. destruct (validate_next it) as [[]|r]; split; congruence. Qed.

Lemma next_checked_append cp rest : scalar_value cp -> next_checked (append cp ++ rest) = inr (cp, rest).
Proof. intros Hcp. by apply next_checked_ok, validate_next_scalar. Qed.

Lemma next_checked_inv it cp rest : Forall is_byte it -> next_checked it = inr (cp, rest) -> scalar_value cp /\ it = append cp ++ rest.
Proof. intros Hb E%next_checked_ok. by apply validate_next_inv. Qed.

Lemma append_checked_scalar cp s : 0 <= cp -> append_checked cp = inr s <-> scalar_value cp /\ s = append cp.
Proof.
  intros H0. unfold append_checked, scalar_value. destruct (is_code_point_valid cp); cbn [negb]; [split|].
  - by intros [= <-].
  - by intros [_ ->].
  - split; [done|]. by intros [[_ ?] _].
Qed.

(** Code points and pairs of surrogates. *)
Lemma internal_append16_same cp : internal_append16 cp = append16 cp.
Proof.
  unfold internal_append16, append16, is_in_bmp, TRAIL_SURROGATE_MIN. destruct (Z.ltb_spec cp 0x10000), (Z.ltb_spec 0xffff cp); try lia; [done|].
  by rewrite (Z.add_comm LEAD_OFFSET), (Z.add_comm 0xdc00).
Qed.

Lemma bind_checked_inr {A C} (r : utf8_exception + A) (k : A -> utf8_exception + C) c :
  bind_checked r k = inr c <-> exists a, r = inr a /\ k a = inr c.
Proof. destruct r as [e|a]; cbn; split; [done|by intros (? & [=] & _)|eauto|by intros (? & [= ->] & ?)]. Qed.

(** ** A text is accepted exactly when it is well formed *)
Lemma utf8to32_loop_spec fuel : forall s cps, (length s <= fuel)%nat -> Forall is_byte s ->
  utf8to32_loop fuel s = inr cps <-> Forall scalar_value cps /\ s = utf8_encode cps.
Proof.
  induction fuel as [|fuel IH]; intros s cps Hl Hb; (destruct s as [|b s]; [split; [intros [= <-]; by split|]; intros [_ E]; destruct cps as [|cp cps];
    [done|symmetry in E; by apply append_not_nil in E]|]); [cbn in Hl; lia|].
  cbn [utf8to32_loop]. rewrite bind_checked_inr. split.
  - intros ([cp rest] & En & (cps' & El & [= <-])%bind_checked_inr). destruct (next_checked_inv _ _ _ Hb En) as [Hcp Es]. rewrite Es in Hb, Hl |- *.
    apply Forall_app in Hb as [_ Hb]. pose proof (append_length_pos cp). rewrite length_app in Hl. apply IH in El as [Hf ->]; [|lia|done].
    split; [by constructor|done].
  - intros [Hf Es]. destruct cps as [|cp cps]; [done|]. inversion Hf as [|? ? Hcp Hf']; subst. rewrite Es in Hb, Hl |- *. rewrite utf8_encode_cons in *.
    exists (cp, utf8_encode cps). split; [by apply next_checked_append|]. apply bind_checked_inr. exists cps. split; [|done].
    pose proof (append_length_pos cp). rewrite length_app in Hl. apply Forall_app in Hb as [_ Hb]. apply IH; [lia|done|done].
Qed.

(** UTF-16 is what UTF-32 gives, coded. *)
Lemma utf8to16_checked_loop_map fuel : forall s, utf8to16_checked_loop fuel s = bind_checked (utf8to32_loop fuel s) (fun cps => inr (utf16_encode cps)).
Proof.
  induction fuel as [|fuel IH]; intros s; [done|]. cbn [utf8to16_checked_loop utf8to32_loop]. destruct s as [|b s]; [done|].
  destruct (next_checked (b :: s)) as [e|[cp rest]]; [done|]. cbn [bind_checked]. rewrite IH. by destruct (utf8to32_loop fuel rest).
Qed.

Lemma distance_loop_count fuel : forall s n, distance_loop fuel s n = bind_checked (utf8to32_loop fuel s) (fun cps => inr (n + zlen cps)).
Proof.
  induction fuel as [|fuel IH]; intros s n; cbn [distance_loop utf8to32_loop]; [by rewrite <- (Z.add_0_r n) at 1|]. destruct s as [|b s]; [cbn; by rewrite zlen_nil, Z.add_0_r|].
  destruct (next_checked (b :: s)) as [e|[cp rest]]; [done|]. cbn [bind_checked]. rewrite IH. destruct (utf8to32_loop fuel rest) as [e|cps]; [done|].
  cbn [bind_checked]. rewrite zlen_cons. f_equal. lia.
Qed.

Lemma utf32to8_spec cps s : Forall (fun cp => 0 <= cp) cps -> utf32to8 cps = inr s <-> Forall scalar_value cps /\ s = utf8_encode cps.
Proof.
  intros H0. revert s. induction H0 as [|cp cps H0 _ IH]; intros s; cbn [utf32to8]; [split; [by intros [= <-]|by intros [_ ->]]|].
  rewrite bind_checked_inr. split.
  - intros (a & [Hcp ->]%append_checked_scalar & (t & [Hf ->]%IH & [= <-])%bind_checked_inr); [|done]. by split; [constructor|].
  - intros [Hf ->]. inversion Hf as [|? ? Hcp Hf']; subst. exists (append cp). split; [by apply append_checked_scalar|]. apply bind_checked_inr.
    exists (utf8_encode cps). split; [by apply IH|done].
Qed.

(** A word that is no surrogate, or a pair of surrogates, codes one code point. *)
Lemma word_scalar w : is_u16 w -> is_lead_surrogate w = false -> is_trail_surrogate w = false -> scalar_value w /\ append16 w = [w].
Proof.
  unfold is_u16, is_lead_surrogate, is_trail_surrogate, scalar_value, is_code_point_valid, is_surrogate. intros Hw Hl Ht. rewrite append16_spec by lia.
  rewrite decide_True by lia. split; [|done]. split; [lia|]. rewrite !andb_false_iff, !Z.leb_gt in *. apply andb_true_intro. rewrite Z.leb_le, negb_true_iff, andb_false_iff, !Z.leb_gt. lia.
Qed.

Lemma surrogates_scalar w w2 : is_lead_surrogate w = true -> is_trail_surrogate w2 = true ->
  let cp := u32 (Z.shiftl w 10 + w2 + SURROGATE_OFFSET) in scalar_value cp /\ append16 cp = [w; w2].
Proof.
  intros Hw Hw2 cp. unfold is_lead_surrogate in Hw. unfold is_trail_surrogate in Hw2. rewrite andb_true_iff, !Z.leb_le in Hw, Hw2.
  assert (cp = 0x10000 + (w - 0xd800) * 1024 + (w2 - 0xdc00)) as E.
  { subst cp. rewrite <- surrogate_pair_sum by lia. do 3 f_equal; [f_equal|]; lia. }
  clearbody cp. rewrite append16_spec by lia. rewrite decide_False by lia. split.
  - split; [lia|]. unfold is_code_point_valid, is_surrogate. rewrite andb_true_iff, negb_true_iff, andb_false_iff, Z.leb_le, !Z.leb_gt. lia.
  - list_lia.
Qed.

Lemma append16_cases cp : scalar_value cp -> (append16 cp = [cp] /\ is_u16 cp /\ is_lead_surrogate cp = false /\ is_trail_surrogate cp = false)
  \/ exists w w2, append16 cp = [w; w2] /\ is_u16 w /\ is_u16 w2 /\ is_lead_surrogate w = true /\ is_trail_surrogate w2 = true
     /\ u32 (Z.shiftl w 10 + w2 + SURROGATE_OFFSET) = cp.
Proof.
  intros Hcp. pose proof (scalar_range _ Hcp) as Hr. rewrite append16_spec by done. destruct (decide (cp < 0x10000)).
  - left. split; [done|]. split; [unfold is_u16; lia|]. split; [by apply not_lead_scalar|]. destruct Hcp as [_ Hv].
    unfold is_code_point_valid, is_surrogate in Hv. apply andb_prop in Hv as [_ Hv]. apply negb_true_iff, andb_false_iff in Hv.
    unfold is_trail_surrogate. apply andb_false_iff. rewrite !Z.leb_gt in *. lia.
  - right. exists (0xd7c0 + cp / 1024), (0xdc00 + cp mod 1024). split; [done|]. split; [unfold is_u16; dlia|]. split; [unfold is_u16; dlia|].
    split; [apply lead_in_range; dlia|]. split; [apply trail_in_range; dlia|].
    replace (0xd7c0 + cp / 1024) with (0xd800 + (cp / 1024 - 64)) by lia. rewrite surrogate_pair_sum by dlia. dlia.
Qed.

Lemma utf16to8_checked_spec n : forall ws s, (length ws <= n)%nat -> Forall is_u16 ws ->
  utf16to8_checked ws = inr s <-> exists cps, Forall scalar_value cps /\ ws = utf16_encode cps /\ s = utf8_encode cps.
Proof.
  induction n as [|n IH]; intros ws s Hl Hw; (destruct ws as [|w ws]; [split; [intros [= <-]; by exists []|]; intros (cps & Hf & E & ->); destruct cps as [|cp cps];
    [done|]; inversion Hf; subst; destruct (append16_cases cp) as [[E2 _]|(? & ? & E2 & _)]; [done| |]; rewrite utf16_encode_cons, E2 in E; done|]); [cbn in Hl; lia|].
  inversion Hw as [|? ? Hw1 Hws]; subst. cbn [utf16to8_checked]. rewrite (mask16_u16 w Hw1). split.
  - destruct (is_lead_surrogate w) eqn:Elead.
    + destruct ws as [|w2 ws]; [done|]. inversion Hws as [|? ? Hw2 Hws']; subst. rewrite (mask16_u16 w2 Hw2). destruct (is_trail_surrogate w2) eqn:Et; [|done].
      destruct (surrogates_scalar w w2 Elead Et) as [Hcp E16]. set (cp := u32 _) in *. rewrite bind_checked_inr.
      intros (a & [_ ->]%append_checked_scalar & (t & Er & [= <-])%bind_checked_inr); [|by apply Hcp].
      apply IH in Er as (cps & Hf & -> & ->); [|cbn in Hl; lia|done]. exists (cp :: cps). split; [by constructor|]. by rewrite utf16_encode_cons, E16.
    + destruct (is_trail_surrogate w) eqn:Et; [done|]. destruct (word_scalar w Hw1 Elead Et) as [Hcp E16]. rewrite bind_checked_inr.
      intros (a & [_ ->]%append_checked_scalar & (t & Er & [= <-])%bind_checked_inr); [|by apply Hcp].
      apply IH in Er as (cps & Hf & -> & ->); [|cbn in Hl; lia|done]. exists (w :: cps). split; [by constructor|]. by rewrite utf16_encode_cons, E16.
  - intros (cps & Hf & E & ->). destruct cps as [|cp cps]; [done|]. inversion Hf as [|? ? Hcp Hf']; subst. rewrite utf16_encode_cons in E. rewrite utf8_encode_cons.
    pose proof (proj1 (scalar_range _ Hcp)) as H0.
    destruct (append16_cases cp Hcp) as [(E2 & _ & H1 & H2)|(w1 & w2 & E2 & _ & Hw2 & H1 & H2 & Ecp)]; rewrite E2 in E.
    + injection E as -> ->. rewrite H1, H2, (proj2 (append_checked_scalar cp _ H0)) by done. cbn [bind_checked].
      rewrite (proj2 (IH (utf16_encode cps) (utf8_encode cps) ltac:(cbn in Hl; lia) Hws)) by eauto. done.
    + injection E as -> ->. inversion Hws as [|? ? _ Hws']; subst. rewrite H1, (mask16_u16 w2 Hw2), H2.
      rewrite (proj2 (append_checked_scalar _ _ H0)) by done. cbn [bind_checked].
      rewrite (proj2 (IH (utf16_encode cps) (utf8_encode cps) ltac:(cbn in Hl; lia) Hws')) by eauto. done.
Qed.

(** C39: The checked conversions accept a text exactly when it is well formed, and are then
    inverse to each other: a sequence of bytes decodes to code points, or to UTF-16, when it
    is the encoding of those code points, each valid and in its shortest form, and a
    sequence of words when it is theirs; encoding gives back the text. Every other
    text is an exception. *)
Theorem checked_conversions_exact s ws : Forall is_byte s -> Forall is_u16 ws ->
  (forall cps, utf8to32 s = inr cps <-> Forall scalar_value cps /\ s = utf8_encode cps)
  /\ (forall out, utf8to16_checked s = inr out <-> exists cps, Forall scalar_value cps /\ s = utf8_encode cps /\ out = utf16_encode cps)
  /\ (forall out, utf16to8_checked ws = inr out <-> exists cps, Forall scalar_value cps /\ ws = utf16_encode cps /\ out = utf8_encode cps)
  /\ (is_valid s = true <-> exists cps, utf8to32 s = inr cps /\ utf32to8 cps = inr s /\ distance s = inr (zlen cps)).
Proof.
  intros Hs Hw. assert (forall cps, utf8to32 s = inr cps <-> Forall scalar_value cps /\ s = utf8_encode cps) as H32 by (intros cps; by apply utf8to32_loop_spec).
  split; [exact H32|]. split; [|split].
  - intros out. unfold utf8to16_checked. rewrite utf8to16_checked_loop_map, bind_checked_inr. split.
    + intros (cps & [Hf E]%H32 & [= <-]). eauto.
    + intros (cps & Hf & E & ->). exists cps. split; [by apply H32|done].
  - intros out. by apply (utf16to8_checked_spec (length ws)).
  - unfold is_valid. rewrite bool_decide_eq_true, find_invalid_nil by done. split.
    + intros (cps & Hf & E). exists cps. split; [by apply H32|]. split.
      * apply utf32to8_spec; [|done]. rewrite list.Forall_forall in Hf |- *. intros cp Hin. by destruct (Hf cp Hin).
      * unfold distance. rewrite distance_loop_count. change (utf8to32_loop (length s) s) with (utf8to32 s). by rewrite (proj2 (H32 cps)).
    + intros (cps & [Hf E]%H32 & _). by exists cps.
Qed.

(** ** Backwards *)
Lemma trail_byte x : 0 <= x < 64 -> is_trail (0x80 + x) = true.
Proof. intros Hx. apply is_trail_intro. lia. Qed.

Lemma no_trail b : is_byte b -> b < 0x80 \/ 0xc0 <= b -> is_trail b = false.
Proof. intros Hb Hr. destruct (is_trail b) eqn:E; [|done]. apply is_trail_spec in E; [lia|done]. Qed.

(** The octets of a code point: one that leads, and the ones that trail. *)
Lemma append_shape cp : scalar_value cp -> exists b trail, append cp = b :: trail /\ is_trail b = false /\ Forall (fun x => is_trail x = true) trail.
Proof.
  intros Hcp. pose proof (scalar_range _ Hcp) as Hr. rewrite append_spec by lia. repeat case_decide; eexists _, _; (split; [reflexivity|]);
    (split; [apply no_trail; [unfold is_byte; dlia|dlia]|]); repeat constructor; apply is_trail_intro; dlia.
Qed.

Lemma back_trail trail : Forall (fun x => is_trail x = true) trail -> forall b before behind, is_trail b = false ->
  back (reverse trail ++ b :: before) behind = inr (before, b :: trail ++ behind).
Proof.
  intros Ht b. induction trail as [|x trail IH] using rev_ind; intros before behind Hb.
  - rewrite reverse_nil. cbn [app back]. by rewrite Hb.
  - apply Forall_app in Ht as [Ht Hx]. inversion Hx as [|? ? Hx' _]; subst. rewrite reverse_snoc. cbn [app back].
    rewrite Hx', bool_decide_eq_false_2 by (by destruct (reverse trail)). rewrite IH by done. by rewrite <- app_assoc.
Qed.

(** Going back over a code point is the inverse of reading it. *)
Lemma prior_append before cp behind : scalar_value cp -> prior (reverse (append cp) ++ before, behind) = inr (cp, (before, append cp ++ behind)).
Proof.
  intros Hcp. destruct (append_shape cp Hcp) as (b & trail & E & Hb & Ht). unfold prior. cbn [fst snd]. rewrite E, reverse_cons, <- app_assoc. cbn [app].
  rewrite back_trail by done. cbn [bind_checked]. rewrite app_nil_r, <- E. pose proof (next_checked_append cp [] Hcp) as En. rewrite app_nil_r in En. rewrite En, E. done.
Qed.

Lemma advance_encode cps n : Forall scalar_value cps -> (n <= length cps)%nat -> advance n (utf8_encode cps) = inr (utf8_encode (drop n cps)).
Proof.
  intros Hf. revert n. induction Hf as [|cp cps Hcp _ IH]; intros [|n] Hn; try done; [cbn in Hn; lia|]. cbn [advance]. rewrite utf8_encode_cons, next_checked_append by done.
  cbn [bind_checked drop]. apply IH. cbn in Hn. lia.
Qed.

(** An ill-formed place stops [next16] without an exception: going on from there does not
    move. *)
Lemma next16_stuck it e : validate_next16 it = inl e -> e <> NOT_ENOUGH_ROOM -> next16_checked it = inr (0, it).
Proof. unfold next16_checked. intros ->. by destruct e. Qed.

Lemma checked_conversions_exact_witness : utf16to8_checked [0x20ac; 0xd83d; 0xde00] = inr [0xe2; 0x82; 0xac; 0xf0; 0x9f; 0x98; 0x80].
Proof.
  apply (checked_conversions_exact [0xe2; 0x82; 0xac] [0x20ac; 0xd83d; 0xde00]); [repeat constructor; unfold is_byte; lia|repeat constructor; unfold is_u16; lia|].
  exists [0x20ac; 0x1f600]. split; [|split; by vm_compute]. repeat constructor; unfold scalar_value; by vm_compute.
Defined.
