(* ===== verification/Utf8Iter.v ===== *)
(** * The iterators of the UTF-8 library
    ([third_party/utf8/checked.h], [unchecked.h])

    Iterators over code points, and moving over several of them. An octet iterator is a
    position in a text; as in [Utf8Checked] the functions that go back see the octets before it,
    last one first, and the ones behind it. On well-formed text an iterator is a cursor in
    the list of its code points. *)

From S2P Require Import Prelude Utf8 Utf8Checked.

(** ** The checked iterator *)

(** What the methods throw: an exception of the library or one of the standard library. *)
Inductive iterator_exception := utf8_error (e : utf8_exception) | out_of_range | logic_error.

(** [utf8::iterator]: positions in the text the pointers point into. *)
Record iterator := MkIterator { it_text : bytes; it_it : Z; range_start : Z; range_end : Z }.

(** The octets between two positions. *)
Definition segment (s : bytes) (first last : Z) : bytes := ztake (last - first) (zdrop first s).

Definition make_iterator (text : bytes) (octet_it rangestart rangeend : Z) : iterator_exception + iterator :=
  if (octet_it <? rangestart) || (rangeend <? octet_it) then inl out_of_range else inr (MkIterator text octet_it rangestart rangeend).

Definition lift_utf8 {A} (r : utf8_exception + A) : iterator_exception + A := match r with inr a => inr a | inl e => inl (utf8_error e) end.

Definition behind (i : iterator) : bytes := segment (it_text i) (it_it i) (range_end i).
Definition before (i : iterator) : bytes := reverse (segment (it_text i) (range_start i) (it_it i)).
Definition move_to (i : iterator) (it : Z) : iterator := MkIterator (it_text i) it (range_start i) (range_end i).

Definition deref (i : iterator) : iterator_exception + Z :=
  lift_utf8 (bind_checked (next_checked (behind i)) (fun '(cp, _) => inr cp)).

Definition increment (i : iterator) : iterator_exception + iterator :=
  lift_utf8 (bind_checked (next_checked (behind i)) (fun '(_, rest) => inr (move_to i (range_end i - zlen rest)))).

Definition decrement (i : iterator) : iterator_exception + iterator :=
  lift_utf8 (bind_checked (prior (before i, [])) (fun '(_, (before, _)) => inr (move_to i (range_start i + zlen before)))).

(** [operator ==], on iterators into the same text. *)
Definition equal (i j : iterator) : iterator_exception + bool :=
  if negb (range_start i =? range_start j) || negb (range_end i =? range_end j) then inl logic_error else inr (it_it i =? it_it j).

(** [utf8::advance]; with a negative number [end] is the start of the text. *)
Fixpoint advance_back (n : nat) (it : bytes * bytes) : utf8_exception + (bytes * bytes) :=
  match n with O => inr it | S n' => bind_checked (prior it) (fun '(_, it) => advance_back n' it) end.

(** ** The unchecked functions; [None] reads outside of the text *)
Fixpoint unchecked_back (before behind : bytes) : option (bytes * bytes) :=
  match before with
  | [] => None
  | b :: before' => if is_trail b then unchecked_back before' (b :: behind) else Some (before', b :: behind)
  end.

Definition unchecked_prior (it : bytes * bytes) : option (Z * (bytes * bytes)) :=
  '(before, behind) ← unchecked_back it.1 it.2;
  '(cp, _) ← next behind;
  Some (cp, (before, behind)).

Fixpoint unchecked_advance (n : nat) (it : bytes) : option bytes :=
  match n with O => Some it | S n' => '(_, it) ← next it; unchecked_advance n' it end.

Fixpoint unchecked_advance_back (n : nat) (it : bytes * bytes) : option (bytes * bytes) :=
  match n with O => Some it | S n' => '(_, it) ← unchecked_prior it; unchecked_advance_back n' it end.

Fixpoint unchecked_distance_loop (fuel : nat) (it : bytes) (dist : Z) : option Z :=
  match fuel with
  | O => Some dist
  | S f => match it with [] => Some dist | _ => '(_, it) ← next it; unchecked_distance_loop f it (dist + 1) end
  end.
Definition unchecked_distance (it : bytes) : option Z := unchecked_distance_loop (length it) it 0.

(** [unchecked::iterator::operator ++] goes by the length of the sequence, without reading
    the code point; with an invalid lead octet the length is 0. *)
Definition unchecked_increment (it : bytes) : option bytes :=
  match it with [] => None | b :: _ => let n := sequence_length b in if zlen it <? n then None else Some (zdrop n it) end.

Example walk :
  match make_iterator (B"a" ++ [0xe2; 0x82; 0xac]) 1 0 4 with
  | inr i => (deref i, decrement i, increment i) = (inr 0x20ac, inr (move_to i 0), inr (move_to i 4))
  | inl _ => False
  end.
Proof. vm_compute. reflexivity. Qed.
Example stuck : unchecked_increment [0x80; 0x41] = Some [0x80; 0x41].
Proof. vm_compute. reflexivity. Qed.

(** ** Cursors *)
Inductive move := Forward | Backward.

Definition iter_move (m : move) (i : iterator) : iterator_exception + iterator :=
  match m with Forward => increment i | Backward => decrement i end.

Fixpoint iter_run (ms : list move) (i : iterator) : iterator_exception + iterator :=
  match ms with
  | [] => inr i
  | m :: ms => match iter_move m i with inr i => iter_run ms i | inl e => inl e end
  end.

(** A cursor in a list of [len] elements does not leave it. *)
Definition cursor_move (len : nat) (m : move) (n : nat) : option nat :=
  match m with
  | Forward => if decide (n < len)%nat then Some (S n) else None
  | Backward => match n with S n' => Some n' | O => None end
  end.

Fixpoint cursor_run (len : nat) (ms : list move) (n : nat) : option nat :=
  match ms with [] => Some n | m :: ms => n ← cursor_move len m n; cursor_run len ms n end.

(** The iterator is at the [n]th of the code points that its range encodes. *)
Record points (cps : list Z) (n : nat) (i : iterator) : Prop := {
  points_le : (n <= length cps)%nat;
  points_text : exists front rest, it_text i = front ++ utf8_encode cps ++ rest /\ zlen front = range_start i;
  points_end : range_end i = range_start i + zlen (utf8_encode cps);
  points_it : it_it i = range_start i + zlen (utf8_encode (take n cps))
}.

Lemma segment_mid (a b c : bytes) first last : first = zlen a -> last = zlen a + zlen b -> segment (a ++ b ++ c) first last = b.
Proof.
  intros -> ->. unfold segment, ztake, zdrop, zlen. rewrite Nat2Z.id, drop_app_length.
  replace (Z.to_nat (Z.of_nat (length a) + Z.of_nat (length b) - Z.of_nat (length a))) with (length b) by lia. apply take_app_length.
Qed.

Lemma utf8_encode_app cps cps' : utf8_encode (cps ++ cps') = utf8_encode cps ++ utf8_encode cps'.
Proof. induction cps as [|cp cps IH]; [done|]. cbn [app]. by rewrite !utf8_encode_cons, IH, app_assoc. Qed.

Lemma encode_split cps n : utf8_encode cps = utf8_encode (take n cps) ++ utf8_encode (drop n cps).
Proof. by rewrite <- utf8_encode_app, take_drop. Qed.

Lemma points_behind cps n i : points cps n i -> behind i = utf8_encode (drop n cps).
Proof.
  intros [_ (front & rest & Et & Hf) He Hi]. unfold behind. rewrite Et, (encode_split cps n), <- app_assoc, app_assoc.
  rewrite (encode_split cps n), zlen_app in He. apply segment_mid; rewrite zlen_app; lia.
Qed.

Lemma points_before cps n i : points cps n i -> before i = reverse (utf8_encode (take n cps)).
Proof.
  intros [_ (front & rest & Et & Hf) He Hi]. unfold before. rewrite Et, (encode_split cps n), <- app_assoc. f_equal. apply segment_mid; lia.
Qed.

Lemma points_move cps n i n' : points cps n i -> (n' <= length cps)%nat -> points cps n' (move_to i (range_start i + zlen (utf8_encode (take n' cps)))).
Proof. intros [_ Ht He _] Hn. by split. Qed.

Lemma encode_next cps n cp : cps !! n = Some cp -> utf8_encode (drop n cps) = append cp ++ utf8_encode (drop (S n) cps).
Proof. intros E. by rewrite (drop_S _ _ _ E), utf8_encode_cons. Qed.

Lemma encode_prev cps n cp : cps !! n = Some cp -> utf8_encode (take (S n) cps) = utf8_encode (take n cps) ++ append cp.
Proof. intros E. rewrite (take_S_r _ _ _ E), utf8_encode_app, utf8_encode_cons. by rewrite app_nil_r. Qed.

Lemma points_deref cps n i : Forall scalar_value cps -> points cps n i ->
  deref i = match cps !! n with Some cp => inr cp | None => inl (utf8_error not_enough_room) end.
Proof.
  intros Hs P. unfold deref. rewrite (points_behind _ _ _ P). destruct (cps !! n) as [cp|] eqn:E.
  - rewrite (encode_next _ _ _ E), next_checked_append by (by eapply Forall_lookup_1). done.
  - apply lookup_ge_None in E. by rewrite drop_ge by done.
Qed.

Lemma points_forward cps n i : Forall scalar_value cps -> points cps n i ->
  if decide (n < length cps)%nat then exists i', increment i = inr i' /\ points cps (S n) i' else increment i = inl (utf8_error not_enough_room).
Proof.
  intros Hs P. unfold increment. rewrite (points_behind _ _ _ P). case_decide as Hn.
  - destruct (lookup_lt_is_Some_2 cps n Hn) as [cp E]. rewrite (encode_next _ _ _ E), next_checked_append by (by eapply Forall_lookup_1).
    cbn [bind_checked lift_utf8]. eexists. split; [reflexivity|]. pose proof (points_move _ _ _ (S n) P ltac:(lia)) as P'.
    destruct P as [_ _ He _]. rewrite (encode_split cps (S n)), zlen_app in He. rewrite He.
    by replace (range_start i + (zlen (utf8_encode (take (S n) cps)) + zlen (utf8_encode (drop (S n) cps))) - zlen (utf8_encode (drop (S n) cps)))
      with (range_start i + zlen (utf8_encode (take (S n) cps))) by lia.
  - by rewrite drop_ge by lia.
Qed.

Lemma points_backward cps n i : Forall scalar_value cps -> points cps n i ->
  match n with S n' => exists i', decrement i = inr i' /\ points cps n' i' | O => decrement i = inl (utf8_error not_enough_room) end.
Proof.
  intros Hs P. unfold decrement. rewrite (points_before _ _ _ P). destruct n as [|n]; [done|].
  destruct (lookup_lt_is_Some_2 cps n (points_le _ _ _ P)) as [cp E]. rewrite (encode_prev _ _ _ E), reverse_app, prior_append by (by eapply Forall_lookup_1).
  cbn [bind_checked lift_utf8]. eexists. split; [reflexivity|]. pose proof (points_le _ _ _ P). pose proof (points_move _ _ _ n P ltac:(lia)) as P'.
  replace (zlen (reverse (utf8_encode (take n cps)))) with (zlen (utf8_encode (take n cps))) by (unfold zlen; by rewrite length_reverse). done.
Qed.

(** Going back over several code points. *)
Lemma advance_back_encode cps n m : Forall scalar_value cps -> (n <= m <= length cps)%nat ->
  advance_back n (reverse (utf8_encode (take m cps)), utf8_encode (drop m cps)) = inr (reverse (utf8_encode (take (m - n) cps)), utf8_encode (drop (m - n) cps)).
Proof.
  intros Hs. revert m. induction n as [|n IH]; intros m Hm; cbn [advance_back]; [by rewrite Nat.sub_0_r|]. destruct m as [|m]; [lia|].
  destruct (lookup_lt_is_Some_2 cps m ltac:(lia)) as [cp E]. rewrite (encode_prev _ _ _ E), reverse_app, prior_append by (by eapply Forall_lookup_1).
  cbn [bind_checked]. rewrite <- (encode_next _ _ _ E). apply IH. lia.
Qed.

(** ** Well-formed text needs no checks *)
Lemma unchecked_back_trail trail : Forall (fun x => is_trail x = true) trail -> forall b before behind, is_trail b = false ->
  unchecked_back (reverse trail ++ b :: before) behind = Some (before, b :: trail ++ behind).
Proof.
  intros Ht b. induction trail as [|x trail IH] using rev_ind; intros before behind Hb.
  - rewrite reverse_nil. cbn [app unchecked_back]. by rewrite Hb.
  - apply Forall_app in Ht as [Ht Hx]. inversion Hx as [|? ? Hx' _]; subst. rewrite reverse_snoc. cbn [app unchecked_back].
    rewrite Hx', IH by done. by rewrite <- app_assoc.
Qed.

Lemma unchecked_next_scalar cp rest : scalar_value cp -> next (append cp ++ rest) = Some (cp, rest).
Proof. intros Hcp%scalar_range. apply next_append. lia. Qed.

Lemma unchecked_prior_append before cp behind : scalar_value cp -> unchecked_prior (reverse (append cp) ++ before, behind) = Some (cp, (before, append cp ++ behind)).
Proof.
  intros Hcp. destruct (append_shape cp Hcp) as (b & trail & E & Hb & Ht). unfold unchecked_prior. cbn [fst snd]. rewrite E, reverse_cons, <- app_assoc. cbn [app].
  rewrite unchecked_back_trail by done. cbn [mbind option_bind]. change (b :: trail ++ behind) with ((b :: trail) ++ behind). by rewrite <- E, unchecked_next_scalar.
Qed.

Lemma unchecked_advance_encode cps n : Forall scalar_value cps -> (n <= length cps)%nat -> unchecked_advance n (utf8_encode cps) = Some (utf8_encode (drop n cps)).
Proof.
  intros Hs. revert n. induction Hs as [|cp cps Hcp _ IH]; intros [|n] Hn; try done; [cbn in Hn; lia|]. cbn [unchecked_advance]. rewrite utf8_encode_cons, unchecked_next_scalar by done.
  cbn [mbind option_bind drop]. apply IH. cbn in Hn. lia.
Qed.

Lemma unchecked_advance_back_encode cps n m : Forall scalar_value cps -> (n <= m <= length cps)%nat ->
  unchecked_advance_back n (reverse (utf8_encode (take m cps)), utf8_encode (drop m cps))
  = Some (reverse (utf8_encode (take (m - n) cps)), utf8_encode (drop (m - n) cps)).
Proof.
  intros Hs. revert m. induction n as [|n IH]; intros m Hm; cbn [unchecked_advance_back]; [by rewrite Nat.sub_0_r|]. destruct m as [|m]; [lia|].
  destruct (lookup_lt_is_Some_2 cps m ltac:(lia)) as [cp E]. rewrite (encode_prev _ _ _ E), reverse_app, unchecked_prior_append by (by eapply Forall_lookup_1).
  cbn [mbind option_bind]. rewrite <- (encode_next _ _ _ E). apply IH. lia.
Qed.

Lemma unchecked_distance_loop_encode cps : Forall scalar_value cps -> forall fuel n, (length (utf8_encode cps) <= fuel)%nat ->
  unchecked_distance_loop fuel (utf8_encode cps) n = Some (n + zlen cps).
Proof.
  induction 1 as [|cp cps Hcp _ IH]; intros fuel n Hf.
  - rewrite zlen_nil, Z.add_0_r. by destruct fuel.
  - rewrite utf8_encode_cons in *. pose proof (append_length_pos cp). rewrite length_app in Hf. destruct fuel as [|fuel]; [lia|]. cbn [unchecked_distance_loop].
    destruct (append cp ++ utf8_encode cps) eqn:E; [by apply append_not_nil in E|]. rewrite <- E, unchecked_next_scalar by done. cbn [mbind option_bind].
    rewrite IH by lia. rewrite zlen_cons. f_equal. lia.
Qed.

Lemma unchecked_distance_encode cps : Forall scalar_value cps -> unchecked_distance (utf8_encode cps) = Some (zlen cps).
Proof. intros Hs. unfold unchecked_distance. by rewrite unchecked_distance_loop_encode. Qed.

(** On a well-formed text the checked iterator is a cursor in the list of code points:
    whatever moves are made, forwards and backwards, the iterator is where the cursor is and
    reads the code point there, and the first move out of the text, and reading at its end,
    throw [not_enough_room]. *)
Theorem iterator_refines_cursor cps n i ms : Forall scalar_value cps -> points cps n i ->
  match iter_run ms i, cursor_run (length cps) ms n with
  | inr i', Some n' => points cps n' i' /\ deref i' = match cps !! n' with Some cp => inr cp | None => inl (utf8_error not_enough_room) end
  | inl e, None => e = utf8_error not_enough_room
  | _, _ => False
  end.
Proof.
  intros Hs. revert n i. induction ms as [|m ms IH]; intros n i P; cbn [iter_run cursor_run]; [split; [done|by apply points_deref]|].
  destruct m; cbn [iter_move cursor_move].
  - pose proof (points_forward _ _ _ Hs P) as F. case_decide as Hn; [|by rewrite F]. destruct F as (i' & -> & P'). by apply IH.
  - pose proof (points_backward _ _ _ Hs P) as F. destruct n as [|n]; [by rewrite F|]. destruct F as (i' & -> & P'). by apply IH.
Qed.

Definition euro_text : iterator := MkIterator (B"(" ++ utf8_encode [0x61; 0x20ac; 0x1f600] ++ B")") 2 1 9.

Lemma iterator_refines_cursor_witness :
  match iter_run [Forward; Forward; Backward] euro_text with inr i' => points [0x61; 0x20ac; 0x1f600] 2 i' /\ deref i' = inr 0x1f600 | inl _ => False end.
Proof.
  assert (points [0x61; 0x20ac; 0x1f600] 1 euro_text) as P.
  { split; [cbn; lia|by exists (B"("), (B")")|by vm_compute|by vm_compute]. }
  apply (iterator_refines_cursor [0x61; 0x20ac; 0x1f600] 1 euro_text [Forward; Forward; Backward]); [|done].
  repeat constructor; unfold scalar_value; by vm_compute.
Defined.
