(* ===== verification/Widechar.v ===== *)
(** * Wide-character conversion ([odbc_driver/widechar])

    The driver stores text as UTF-8 and exchanges it with the application in
    UTF-16 through the [...W] entry points. This file models [widechar.cpp] and
    [widechar_utf16.hpp]: the scans for lone surrogates, the lenient
    conversions in both directions and the buffers of the wide entry points.
    [utf16_conv], the adaptor that turns a UTF-16 argument into a UTF-8 one, is
    the record of its fields. *)

From S2P Require Import Prelude OdbcConst Memory Utf8.

Definition invalid_char_replacement : Z := 0xfffd.
Definition utf8_byte_len_coef : Z := 3.

(** [utf16_find_invalid]: the iterator the scan returns, as the units left. *)
Fixpoint utf16_find_invalid (it : list Z) : list Z :=
  match it with
  | [] => []
  | w :: it1 =>
      let cp := mask16 w in
      if is_lead_surrogate cp then
        match it1 with
        | [] => it
        | w2 :: it2 => if negb (is_trail_surrogate (mask16 w2)) then it1 else utf16_find_invalid it2
        end
      else if is_trail_surrogate cp then it1
      else utf16_find_invalid it1
  end.

(** [utf16_replace_invalid]: the output is a vector of 16-bit units. *)
Fixpoint utf16_replace_invalid (it : list Z) (replacement : Z) : list Z :=
  match it with
  | [] => []
  | char1 :: it1 =>
      let cp := mask16 char1 in
      if is_lead_surrogate cp then
        match it1 with
        | [] => [u16 replacement]
        | char2 :: it2 =>
            (if is_trail_surrogate (mask16 char2) then [char1; char2] else [u16 replacement; char2])
              ++ utf16_replace_invalid it2 replacement
        end
      else if is_trail_surrogate cp then u16 replacement :: utf16_replace_invalid it1 replacement
      else char1 :: utf16_replace_invalid it1 replacement
  end.

(** [utf16_to_utf8_lenient]: the UTF-8 text and the index of the first invalid
    unit the scan reports ([*first_invalid_char], null when it reports none). *)
Definition utf16_to_utf8_lenient (in_buf : list Z) : bytes * option nat :=
  let first_invalid_found := utf16_find_invalid in_buf in
  match first_invalid_found with
  | [] => (utf16to8 in_buf, None)
  | _ => (utf16to8 (utf16_replace_invalid in_buf invalid_char_replacement),
          Some (length in_buf - length first_invalid_found)%nat)
  end.

(** [utf8_to_utf16_lenient]; [None] would be a read past the end of a buffer. *)
Definition utf8_to_utf16_lenient_opt (in_buf : bytes) : option (list Z) * option nat :=
  let first_invalid_found := find_invalid in_buf in
  match first_invalid_found with
  | [] => (utf8to16 in_buf, None)
  | _ => (utf8to16 (replace_invalid in_buf invalid_char_replacement),
          Some (length in_buf - length first_invalid_found)%nat)
  end.

Definition utf8_to_utf16_lenient (in_buf : bytes) : list Z :=
  default [] (utf8_to_utf16_lenient_opt in_buf).1.

(** UTF-16 strings in client memory: a unit is two bytes. *)
Definition read_word (m : mem) (a : ptr) : Z := load_u 2 m a.
Definition words_to_bytes (ws : list Z) : bytes := mjoin (le_split 2 <$> ws).
Definition write_words (m : mem) (a : ptr) (ws : list Z) : mem := write_bytes m a (words_to_bytes ws).
Fixpoint read_words (m : mem) (a : ptr) (n : nat) : list Z :=
  match n with O => [] | S n' => read_word m a :: read_words m (a + 2) n' end.

(** [utf16_length(const SQLWCHAR *buf)]: the units before the terminator, which has
    to be within [fuel] units. *)
Fixpoint utf16_length_loop (fuel : nat) (m : mem) (p : ptr) : Z :=
  match fuel with
  | O => 0
  | S f => if read_word m p =? 0 then 0 else 1 + utf16_length_loop f m (p + 2)
  end.
Definition utf16_length (fuel : nat) (m : mem) (buf : ptr) : Z :=
  if buf =? nullptr then 0 else utf16_length_loop fuel m buf.

(** [utf16_length(const std::string &)] *)
Definition utf16_length_str (utf8_str : bytes) : Z :=
  if zlen utf8_str =? 0 then 0 else zlen (utf8_to_utf16_lenient utf8_str).

(** [utf8_alloc_out_vec]: the size of the intermediate UTF-8 buffer for an
    output buffer of [utf16_len] units; [size_t] arithmetic wraps. *)
Definition utf8_alloc_out_vec (utf16_len : Z) : bytes :=
  let utf8_len_sizet := u64 (u64 utf16_len * utf8_byte_len_coef) in
  let utf8_len_max := 2 ^ 15 - 1 in
  replicate (Z.to_nat (Z.min utf8_len_sizet utf8_len_max)) 0.

(** [strlen] on the vector: the bytes before the first NUL; a vector without
    one is read past its end. *)
Fixpoint strlen_vec (v : bytes) : option Z :=
  match v with
  | [] => None
  | b :: v' => if b =? 0 then Some 0 else n ← strlen_vec v'; Some (1 + n)
  end.

(** [utf16_write_str]: the number of units returned and what is written. *)
Definition utf16_write_str (ret : Z) (utf8_vec : bytes) (m : mem) (utf16_str_out : ptr)
    (buffer_len_chars : Z) : option (Z * mem) :=
  if negb (SQL_SUCCEEDED ret) then Some (0, m)
  else if (zlen utf8_vec =? 0) || (buffer_len_chars <=? 0) then Some (0, m)
  else
    len_utf8 ← strlen_vec utf8_vec;
    if (len_utf8 =? 0) || (buffer_len_chars =? 1) then
      Some (0, if utf16_str_out =? nullptr then m else store 2 m utf16_str_out 0)
    else
      let utf16_vec := utf8_to_utf16_lenient (ztake len_utf8 utf8_vec) in
      let len_chars := Z.min (zlen utf16_vec) (buffer_len_chars - 1) in
      Some (len_chars,
       if utf16_str_out =? nullptr then m
       else store 2 (write_words m utf16_str_out (ztake len_chars utf16_vec))
              (utf16_str_out + 2 * len_chars) 0).

(** [utf16_conv] *)
Record utf16_conv := Utf16Conv {
  utf16_str : ptr;
  utf16_len : Z;
  utf8_vec : bytes;       (* with the terminating NUL *)
  utf8_str_null : bool    (* utf8_str == nullptr *)
}.

Definition make_utf16_conv (fuel : nat) (m : mem) (str : ptr) (str_len : Z) : utf16_conv :=
  let len := if str_len =? SQL_NTS then utf16_length fuel m str else u64 str_len in
  if str =? nullptr then Utf16Conv str len [0] true
  else Utf16Conv str len ((utf16_to_utf8_lenient (read_words m str (Z.to_nat len))).1 ++ [0]) false.

Definition utf8_len (c : utf16_conv) : Z := zlen (utf8_vec c) - 1.
Definition utf16_conv_utf8_len_internal (max : Z) (c : utf16_conv) : Z :=
  let len := utf8_len c in if max <? len then max else len.
Definition utf8_len_smallint (c : utf16_conv) : Z := utf16_conv_utf8_len_internal (2 ^ 15 - 1) c.
Definition utf8_len_int (c : utf16_conv) : Z := utf16_conv_utf8_len_internal (2 ^ 31 - 1) c.
(** The text the narrow function gets from a converted one. *)
Definition conv_text (w : utf16_conv) : bytes :=
  if utf8_str_null w then [] else ztake (utf8_len_smallint w) (utf8_vec w).
Definition to_utf8_str (c : utf16_conv) : bytes := ztake (zlen (utf8_vec c) - 1) (utf8_vec c).

(** ** Well-formed UTF-16 and the scan for lone surrogates *)
Lemma words_to_bytes_cons w ws : words_to_bytes (w :: ws) = le_split 2 w ++ words_to_bytes ws.
Proof. done. Qed.
Lemma words_to_bytes_length ws : zlen (words_to_bytes ws) = 2 * zlen ws.
Proof.
  induction ws as [|w ws IH]; [done|]. rewrite words_to_bytes_cons, zlen_app, zlen_cons, IH.
  change (zlen (le_split 2 w)) with 2. lia.
Qed.

Lemma utf16_wf_nil : utf16_wf [].
Proof. by exists []. Qed.
Lemma utf16_wf_app cp s : scalar_value cp -> utf16_wf s -> utf16_wf (append16 cp ++ s).
Proof. intros Hcp (cps & Hcps & ->). exists (cp :: cps). split; [by constructor|done]. Qed.

Lemma is_lead_spec w : is_lead_surrogate w = true <-> 0xd800 <= w <= 0xdbff.
Proof. unfold is_lead_surrogate. rewrite andb_true_iff, !Z.leb_le. done. Qed.
Lemma is_trail_surr_spec w : is_trail_surrogate w = true <-> 0xdc00 <= w <= 0xdfff.
Proof. unfold is_trail_surrogate. rewrite andb_true_iff, !Z.leb_le. done. Qed.
Lemma not_lead_spec w : is_lead_surrogate w = false <-> w < 0xd800 \/ 0xdbff < w.
Proof. unfold is_lead_surrogate. rewrite andb_false_iff, !Z.leb_gt. done. Qed.
Lemma not_trail_surr_spec w : is_trail_surrogate w = false <-> w < 0xdc00 \/ 0xdfff < w.
Proof. unfold is_trail_surrogate. rewrite andb_false_iff, !Z.leb_gt. done. Qed.

Lemma scalar_value_spec cp :
  scalar_value cp <-> 0 <= cp <= 0x10ffff /\ (cp < 0xd800 \/ 0xdfff < cp).
Proof.
  unfold scalar_value, is_code_point_valid, is_surrogate.
  rewrite andb_true_iff, negb_true_iff, andb_false_iff, !Z.leb_gt, Z.leb_le. lia.
Qed.

(** A single unit outside the surrogate range, and a surrogate pair, are the
    encodings of one code point. *)
Lemma append16_bmp w : is_u16 w -> w < 0xd800 \/ 0xdfff < w -> append16 w = [w] /\ scalar_value w.
Proof.
  unfold is_u16. intros Hw Hs. rewrite append16_spec, decide_True by lia.
  split; [done|]. apply scalar_value_spec. lia.
Qed.
Lemma append16_pair w1 w2 : 0xd800 <= w1 <= 0xdbff -> 0xdc00 <= w2 <= 0xdfff ->
  let cp := 0x10000 + (w1 - 0xd800) * 1024 + (w2 - 0xdc00) in
  append16 cp = [w1; w2] /\ scalar_value cp.
Proof.
  intros H1 H2 cp. rewrite append16_spec, decide_False by (unfold cp; lia).
  split; [unfold cp; list_lia|]. apply scalar_value_spec. unfold cp. lia.
Qed.

(** The scan passes over the units of a code point, hence over well-formed
    text. *)
Lemma utf16_find_invalid_append16 cp s :
  scalar_value cp -> utf16_find_invalid (append16 cp ++ s) = utf16_find_invalid s.
Proof.
  intros Hcp. pose proof (scalar_range _ Hcp) as Hr. rewrite append16_spec by done.
  apply scalar_value_spec in Hcp. case_decide; cbn [app utf16_find_invalid].
  - rewrite mask16_u16 by (unfold is_u16; lia).
    rewrite (proj2 (not_lead_spec _)), (proj2 (not_trail_surr_spec _)) by lia. done.
  - rewrite !mask16_u16 by (unfold is_u16; dlia).
    rewrite lead_in_range, trail_in_range by dlia. done.
Qed.

Lemma utf16_find_invalid_wf p s : utf16_wf p -> utf16_find_invalid (p ++ s) = utf16_find_invalid s.
Proof.
  intros (cps & Hcps & ->). induction Hcps as [|cp cps Hcp _ IH]; [done|].
  by rewrite utf16_encode_cons, <- app_assoc, utf16_find_invalid_append16.
Qed.

(** Text that ends in one lone trail surrogate. *)
Definition ends_in_lone_trail (s : list Z) : Prop :=
  exists p t, utf16_wf p /\ is_trail_surrogate t = true /\ s = p ++ [t].

Lemma find_nil_cons cp s :
  scalar_value cp -> utf16_wf s \/ ends_in_lone_trail s ->
  utf16_wf (append16 cp ++ s) \/ ends_in_lone_trail (append16 cp ++ s).
Proof.
  intros Hcp [H|(p & t & Hp & Ht & ->)]; [left; by apply utf16_wf_app|right].
  exists (append16 cp ++ p), t. rewrite app_assoc. split; [by apply utf16_wf_app|done].
Qed.

Lemma utf16_find_invalid_nil_ind n s :
  (length s <= n)%nat -> Forall is_u16 s -> utf16_find_invalid s = [] ->
  utf16_wf s \/ ends_in_lone_trail s.
Proof.
  revert s. induction n as [|n IH]; intros s Hn Hs Hf.
  { destruct s; [|cbn in Hn; lia]. left. apply utf16_wf_nil. }
  destruct Hs as [|w s Hw Hs]; [left; apply utf16_wf_nil|].
  cbn [utf16_find_invalid length] in *. rewrite mask16_u16 in Hf by done.
  destruct (is_lead_surrogate w) eqn:El.
  - destruct Hs as [|w2 s Hw2 Hs]; [done|]. rewrite mask16_u16 in Hf by done. cbn [length] in Hn.
    destruct (is_trail_surrogate w2) eqn:Et; [|done]. cbn [negb] in Hf.
    apply is_lead_spec in El. apply is_trail_surr_spec in Et.
    destruct (append16_pair w w2 El Et) as [Ea Hc].
    pose proof (find_nil_cons _ s Hc) as H. rewrite Ea in H. apply H, IH; (lia || done).
  - destruct (is_trail_surrogate w) eqn:Et.
    + right. subst. exists [], w. split; [apply utf16_wf_nil|done].
    + apply not_lead_spec in El. apply not_trail_surr_spec in Et.
      destruct (append16_bmp w Hw) as [Ea Hc]; [lia|].
      pose proof (find_nil_cons _ s Hc) as H. rewrite Ea in H. apply H, IH; (lia || done).
Qed.

(** The scan returns the end exactly on well-formed text and on well-formed
    text followed by one lone trail surrogate. *)
Lemma utf16_find_invalid_nil s :
  Forall is_u16 s -> utf16_find_invalid s = [] <-> utf16_wf s \/ ends_in_lone_trail s.
Proof.
  intros Hs. split; [by apply (utf16_find_invalid_nil_ind (length s))|].
  intros [H|(p & t & Hp & Ht & ->)].
  - rewrite <- (app_nil_r s), utf16_find_invalid_wf by done. done.
  - rewrite utf16_find_invalid_wf by done. cbn.
    apply Forall_app in Hs as [_ Hs]. inversion Hs as [|? ? Hw _]; subst.
    rewrite mask16_u16, Ht by done. apply is_trail_surr_spec in Ht.
    by rewrite (proj2 (not_lead_spec _)) by lia.
Qed.

(** ** The lenient conversions *)
Lemma replacement_scalar : scalar_value invalid_char_replacement.
Proof. by vm_compute. Qed.

Lemma utf8_to_utf16_lenient_encode cps : Forall scalar_value cps ->
  utf8_to_utf16_lenient_opt (utf8_encode cps) = (Some (utf16_encode cps), None).
Proof.
  intros Hcps. unfold utf8_to_utf16_lenient_opt.
  rewrite (proj2 (find_invalid_nil _ (utf8_encode_bytes _ Hcps))) by by exists cps.
  by rewrite utf8to16_encode.
Qed.

Lemma utf16_to_utf8_lenient_encode cps : Forall scalar_value cps ->
  utf16_to_utf8_lenient (utf16_encode cps) = (utf8_encode cps, None).
Proof.
  intros Hcps. unfold utf16_to_utf8_lenient.
  rewrite (proj2 (utf16_find_invalid_nil _ (utf16_encode_words _ Hcps))) by (left; by exists cps).
  by rewrite utf16to8_encode.
Qed.

Lemma utf8_to_utf16_lenient_some s : Forall is_byte s ->
  exists cps, Forall scalar_value cps /\
    (utf8_to_utf16_lenient_opt s).1 = Some (utf16_encode cps).
Proof.
  intros Hs. unfold utf8_to_utf16_lenient_opt.
  destruct (find_invalid s) as [|b t] eqn:E.
  - apply find_invalid_nil in E as (cps & Hcps & ->); [|done].
    exists cps. by rewrite utf8to16_encode.
  - destruct (replace_invalid_wf s invalid_char_replacement Hs replacement_scalar) as (cps & Hcps & E').
    exists cps. rewrite E'. cbn. by rewrite utf8to16_encode.
Qed.

Lemma utf8_to_utf16_lenient_words s : Forall is_byte s -> Forall is_u16 (utf8_to_utf16_lenient s).
Proof.
  intros Hs. destruct (utf8_to_utf16_lenient_some s Hs) as (cps & Hcps & E).
  unfold utf8_to_utf16_lenient. rewrite E. by apply utf16_encode_words.
Qed.

Lemma utf8_to_utf16_lenient_length s : Forall is_byte s ->
  utf8_wf s -> zlen (utf8_to_utf16_lenient s) <= zlen s.
Proof.
  intros _ (cps & Hcps & ->). unfold utf8_to_utf16_lenient.
  rewrite utf8_to_utf16_lenient_encode by done. cbn.
  pose proof (encode_length_bounds cps Hcps). unfold zlen. lia.
Qed.

Lemma read_words_ext m m' a n :
  (forall a', a <= a' < a + 2 * Z.of_nat n -> m !! a' = m' !! a') -> read_words m a n = read_words m' a n.
Proof.
  revert a. induction n as [|n IH]; intros a H; [done|]. cbn [read_words]. f_equal.
  - apply load_u_ext. intros. apply H. lia.
  - apply IH. intros. apply H. lia.
Qed.

(** The [n]-unit string written at [a] is read back. *)
Lemma read_words_write ws m a : Forall is_u16 ws ->
  read_words (write_words m a ws) a (length ws) = ws.
Proof.
  intros Hws. revert m a. unfold write_words.
  induction Hws as [|w ws Hw _ IH]; intros m a; [done|].
  cbn [length read_words]. rewrite words_to_bytes_cons, write_bytes_app; change (zlen (le_split 2 w)) with 2.
  f_equal; [|etransitivity; [|apply (IH m)]; apply read_words_ext; intros; apply write_bytes_outside;
    rewrite ?Nat2Z.inj_succ; change (zlen (le_split 2 w)) with 2; lia]. unfold read_word.
  apply (load_u_store_in 2). unfold in_u, is_u16 in *. lia.
Qed.

Lemma strlen_vec_app s rest : Forall (fun b => b <> 0) s -> strlen_vec (s ++ 0 :: rest) = Some (zlen s).
Proof.
  induction 1 as [|b s Hb _ IH]; [done|]. cbn. rewrite (proj2 (Z.eqb_neq b 0)) by done.
  rewrite IH. cbn. by rewrite zlen_cons.
Qed.
Lemma ztake_app_exact {A} (s t : list A) : ztake (zlen s) (s ++ t) = s.
Proof. unfold ztake, zlen. rewrite Nat2Z.id. apply take_app_length. Qed.

(** ** Properties *)

(** C38: Text that is valid UTF-8 survives the trip through the wide API:
    converting it to UTF-16 and back gives the same bytes, and neither
    conversion reports an invalid character. *)
Theorem utf8_utf16_roundtrip s : utf8_wf s ->
  (utf8_to_utf16_lenient_opt s).2 = None
  /\ utf16_to_utf8_lenient (utf8_to_utf16_lenient s) = (s, None).
Proof.
  intros (cps & Hcps & ->). unfold utf8_to_utf16_lenient.
  rewrite utf8_to_utf16_lenient_encode by done. split; [done|].
  by apply utf16_to_utf8_lenient_encode.
Qed.

Lemma utf8_utf16_roundtrip_witness :
  utf16_to_utf8_lenient (utf8_to_utf16_lenient [0x61; 0xe2; 0x82; 0xac; 0xf0; 0x9f; 0x98; 0x80])
  = ([0x61; 0xe2; 0x82; 0xac; 0xf0; 0x9f; 0x98; 0x80], None).
Proof.
  apply utf8_utf16_roundtrip. exists [0x61; 0x20ac; 0x1f600].
  split; [|by vm_compute]. repeat constructor; vm_compute; congruence.
Defined.

(** Well-formed UTF-16 survives the trip through UTF-8, the trip that a
    wide string argument of the application makes when the driver returns it. *)
Theorem utf16_utf8_roundtrip ws : utf16_wf ws ->
  (utf16_to_utf8_lenient ws).2 = None
  /\ utf8_wf (utf16_to_utf8_lenient ws).1
  /\ utf8_to_utf16_lenient (utf16_to_utf8_lenient ws).1 = ws.
Proof.
  intros (cps & Hcps & ->). rewrite utf16_to_utf8_lenient_encode by done. cbn.
  split; [done|]. split; [by exists cps|]. unfold utf8_to_utf16_lenient.
  by rewrite utf8_to_utf16_lenient_encode.
Qed.

Lemma utf16_utf8_roundtrip_witness :
  utf8_to_utf16_lenient (utf16_to_utf8_lenient [0x20ac; 0xd83d; 0xde00]).1 = [0x20ac; 0xd83d; 0xde00].
Proof.
  apply utf16_utf8_roundtrip. exists [0x20ac; 0x1f600].
  split; [|by vm_compute]. repeat constructor; vm_compute; congruence.
Defined.

(** The lenient conversion to UTF-16 is total on arbitrary bytes: it never
    reads past the end of its buffers, its result is well-formed UTF-16, and it
    reports no invalid character exactly when the input is valid UTF-8. *)
Theorem utf8_to_utf16_lenient_total s : Forall is_byte s ->
  is_Some (utf8_to_utf16_lenient_opt s).1
  /\ utf16_wf (utf8_to_utf16_lenient s)
  /\ ((utf8_to_utf16_lenient_opt s).2 = None <-> utf8_wf s).
Proof.
  intros Hs. destruct (utf8_to_utf16_lenient_some s Hs) as (cps & Hcps & E).
  unfold utf8_to_utf16_lenient. rewrite E. split; [by eexists|]. split; [by exists cps|].
  rewrite <- find_invalid_nil by done. unfold utf8_to_utf16_lenient_opt.
  destruct (find_invalid s); by split.
Qed.

Lemma utf8_to_utf16_lenient_total_witness :
  utf16_wf (utf8_to_utf16_lenient [0x61; 0xff; 0xe2; 0x82]).
Proof. apply utf8_to_utf16_lenient_total. repeat constructor; vm_compute; congruence. Defined.

(** The scan of a UTF-16 argument reports no invalid unit exactly when the
    text is well formed or is well formed up to one lone trail surrogate at its
    very end; the second case is a text the scan should have reported. *)
Theorem utf16_find_invalid_characterised ws : Forall is_u16 ws ->
  ((utf16_to_utf8_lenient ws).2 = None <-> utf16_wf ws \/ ends_in_lone_trail ws)
  /\ ~ (utf16_wf [0xdc00]) /\ (utf16_to_utf8_lenient [0xdc00]).2 = None.
Proof.
  intros Hws. split; [|split; [|done]].
  - rewrite <- utf16_find_invalid_nil by done. unfold utf16_to_utf8_lenient.
    destruct (utf16_find_invalid ws); by split.
  - intros (cps & Hcps & E). destruct Hcps as [|cp cps Hcp _]; [done|].
    rewrite utf16_encode_cons, append16_spec in E by by apply scalar_range.
    apply scalar_value_spec in Hcp. case_decide; cbn in E; injection E; [lia|].
    intros _. clear E. intros. dlia.
Qed.

Lemma utf16_find_invalid_characterised_witness :
  (utf16_to_utf8_lenient [0x61; 0xdc00]).2 = None <-> utf16_wf [0x61; 0xdc00] \/ ends_in_lone_trail [0x61; 0xdc00].
Proof. apply utf16_find_invalid_characterised. repeat constructor; vm_compute; congruence. Defined.

(** A lone trail surrogate in final position reaches the unchecked converter,
    whose output is not UTF-8. *)
Lemma lone_trail_not_utf8 : ~ utf8_wf (utf16_to_utf8_lenient [0x61; 0xdc00]).1.
Proof.
  intros H. apply find_invalid_nil in H; [by vm_compute in H|].
  vm_compute. repeat constructor; congruence.
Qed.

(** Replacing in the lead surrogates that a lead precedes leaves ill-formed text. *)
Lemma replace_invalid_lead_lead :
  utf16_replace_invalid [0xd800; 0xd83d; 0xde00] invalid_char_replacement = [0xfffd; 0xd83d; 0xfffd].
Proof. by vm_compute. Qed.

(** [utf16_write_str] writes the longest prefix of the converted text that
    fits in [buffer_len_chars] units with its terminator: it returns the number
    of units, stays inside the client's buffer, terminates the text, and the
    client reads back that prefix. *)
Theorem utf16_write_str_fits ret s rest m out n len m' :
  SQL_SUCCEEDED ret = true -> Forall is_byte s -> Forall (fun b => b <> 0) s ->
  out <> nullptr -> 0 < n ->
  utf16_write_str ret (s ++ 0 :: rest) m out n = Some (len, m') ->
  len = Z.min (zlen (utf8_to_utf16_lenient s)) (n - 1)
  /\ read_words m' out (Z.to_nat len) = ztake len (utf8_to_utf16_lenient s)
  /\ read_word m' (out + 2 * len) = 0
  /\ (forall a, a < out \/ out + 2 * n <= a -> m' !! a = m !! a).
Proof.
  intros Hret Hb Hnz Hout Hn. unfold utf16_write_str.
  rewrite Hret, strlen_vec_app by done. cbn [negb mbind option_bind]. rewrite ztake_app_exact.
  rewrite (proj2 (Z.eqb_neq out nullptr)) by done.
  pose proof (zlen_nonneg s). pose proof (zlen_nonneg rest).
  rewrite zlen_app, zlen_cons.
  rewrite (proj2 (Z.eqb_neq (zlen s + _) 0)), (proj2 (Z.leb_gt n 0)) by lia. cbn [orb].
  intros Hw. assert (exists ws, ws = ztake len (utf8_to_utf16_lenient s)
    /\ len = Z.min (zlen (utf8_to_utf16_lenient s)) (n - 1)
    /\ m' = store 2 (write_words m out ws) (out + 2 * len) 0) as (ws & Ews & El & Em).
  { destruct (_ || _) eqn:E in Hw; injection Hw as <- <-; [|by eexists].
    exists []. rewrite Z.mul_0_r, Z.add_0_r. split; [done|]. split; [|done].
    apply orb_prop in E as [E|E]; apply Z.eqb_eq in E; [|pose proof (zlen_nonneg (utf8_to_utf16_lenient s)); lia].
    assert (s = []) as -> by (destruct s; [done|rewrite zlen_cons in E; pose proof (zlen_nonneg s); lia]).
    cbn. lia. }
  pose proof (zlen_nonneg (utf8_to_utf16_lenient s)).
  assert (zlen ws = len) as Hlen by (rewrite Ews, zlen_ztake; lia).
  split; [done|]. split; [|split].
  - rewrite Em, <- Ews, <- Hlen. unfold zlen at 2. rewrite Nat2Z.id.
    transitivity (read_words (write_words m out ws) out (length ws)).
    + apply read_words_ext. intros. apply store_outside. unfold zlen in *. lia.
    + apply read_words_write. rewrite Ews. by apply Forall_take, utf8_to_utf16_lenient_words.
  - rewrite Em. apply (load_u_store_in 2). by vm_compute.
  - intros a Ha. rewrite Em, store_outside by lia. apply write_bytes_outside.
    rewrite words_to_bytes_length. lia.
Qed.

Lemma utf16_write_str_fits_witness :
  let r := utf16_write_str SQL_SUCCESS [0x61; 0xe2; 0x82; 0xac; 0x62; 0; 0] ∅ 1000 3 in
  exists len m', r = Some (len, m') /\ len = 2 /\ read_words m' 1000 2 = [0x61; 0x20ac].
Proof.
  intros r. eexists _, _. split; [reflexivity|].
  pose proof (utf16_write_str_fits SQL_SUCCESS [0x61; 0xe2; 0x82; 0xac; 0x62] [0] ∅ 1000 3
    2 (store 2 (write_words ∅ 1000 [0x61; 0x20ac]) 1004 0)) as H.
  assert (2 = 2) by done. split; [done|].
  apply H; [done|..|reflexivity]; [repeat constructor; vm_compute; congruence|
    repeat constructor; vm_compute; congruence|done|done].
Defined.
