(* ===== verification/OdbcUtils.v ===== *)
(** * Utility functions ([odbc_driver/common/odbc_utils.cpp], [odbc_utils.hpp])

    The string helpers every part of the driver calls: writing a string or an
    integer to a client buffer, reading string arguments, trimming, and the text
    of the catalog queries. *)

From S2P Require Import Prelude OdbcConst Memory Utf8 Widechar.

(** A SQL text of the source, with a back quote for each double quote. *)
Definition sql_text (s : string) : bytes :=
  (fun c => if c =? 96 then 34 else c) <$> bytes_of_string s.

Definition SetStringValueLength (val_str : bytes) (str_len_or_ind_ptr : ptr) (m : mem) : Z * mem :=
  if negb (str_len_or_ind_ptr =? nullptr) then
    (SQL_SUCCESS, store 8 m str_len_or_ind_ptr (zlen val_str))
  else (SQL_ERROR, m).

Definition IsCharType (type : Z) : bool :=
  (type =? SQL_CHAR) || (type =? SQL_WCHAR) || (type =? SQL_VARCHAR) || (type =? SQL_WVARCHAR)
  || (type =? SQL_LONGVARCHAR) || (type =? SQL_WLONGVARCHAR) || (type =? SQL_BINARY).

(** [StoreWithLength]: [w] is [sizeof] of the value type, [lw] of the length
    type. *)
Definition StoreWithLength (w lw : nat) (val : Z) (p length_ptr : ptr) (m : mem) : mem :=
  store_opt lw (store_opt w m p val) length_ptr (Z.of_nat w).

Definition IsValidPtrForSpecificedField (value_ptr : ptr) (target_field : Z) (vec_field_ids : list Z) : Z :=
  if existsb (fun field_id => (field_id =? target_field) && (value_ptr =? nullptr)) vec_field_ids
  then SQL_ERROR else SQL_SUCCESS.

(** The text is in quotes of one kind and has no line terminator inside, which
    is what the regular expression of [GetStringAsIdentifier] matches. *)
Definition is_quoted (str : bytes) : bool :=
  match str with
  | q :: rest =>
      ((q =? 34) || (q =? 39)) && (List.last rest 0 =? q)
      && forallb (fun c => negb ((c =? 10) || (c =? 13))) (removelast rest)
  | [] => false
  end.

(** The replacement of the runs of blanks: a run at the end disappears and
    another run of two or more becomes one blank. *)
Fixpoint collapse_blanks (pending : nat) (str : bytes) : bytes :=
  match str with
  | [] => []
  | c :: str' =>
      if c =? 32 then collapse_blanks (S pending) str'
      else (match pending with O => [] | _ => [32] end) ++ c :: collapse_blanks 0 str'
  end.

(** [StringUtil::Upper] is ASCII. *)
Definition ascii_upper (c : Z) : Z := if (97 <=? c) && (c <=? 122) then c - 32 else c.
Definition ascii_lower (c : Z) : Z := if (65 <=? c) && (c <=? 90) then c + 32 else c.

(** [GetStringAsIdentifier]: the quoted branch takes [substr(1, ...)] of a
    string that is still empty, which throws [std::out_of_range]. *)
Definition GetStringAsIdentifier (str : bytes) : option bytes :=
  if is_quoted str then None else Some (ascii_upper <$> collapse_blanks 0 str).

Definition ParseStringFilter (filter_name filter_value : bytes) (sql_attr_metadata_id : Z)
    (coalesce_str : bytes) : option bytes :=
  filter ←
    (if bool_decide (filter_value = []) then
       if bool_decide (coalesce_str = []) then
         Some (B"COALESCE(" ++ filter_name ++ B",'') LIKE  '%'")
       else
         Some (B"COALESCE(" ++ filter_name ++ B",'" ++ coalesce_str ++ B"') LIKE '" ++ coalesce_str ++ B"'")
     else if sql_attr_metadata_id =? SQL_TRUE then
       ident ← GetStringAsIdentifier filter_value; Some (filter_name ++ B"=" ++ ident)
     else Some (filter_name ++ B" LIKE '" ++ filter_value ++ B"'"));
  Some (filter ++ B" ESCAPE '\'").

Definition duckdb_columns_select : bytes := sql_text "
        SELECT * EXCLUDE (mapping, data_type_no_typmod)
        FROM (
            SELECT NULL::VARCHAR AS `TABLE_CAT`,
            SCHEMA_NAME AS `TABLE_SCHEM`,
            TABLE_NAME AS `TABLE_NAME`,
            COLUMN_NAME AS `COLUMN_NAME`,
            MAP {
                'BOOLEAN': 1, -- SQL_CHAR
                'TINYINT': -6, -- SQL_TINYINT
                'UTINYINT': -6, -- SQL_TINYINT
                'SMALLINT': 5, -- SQL_SMALLINT
                'USMALLINT': 5, -- SQL_SMALLINT
                'INTEGER': 4, -- SQL_INTEGER
                'UINTEGER': 4, -- SQL_INTEGER
                'BIGINT': -5, -- SQL_BIGINT
                'UBIGINT': -5, -- SQL_BIGINT
                'HUGEINT': 2, -- SQL_NUMERIC
                'UHUGEINT': 2, -- SQL_NUMERIC
                'FLOAT': 6, -- SQL_FLOAT
                'DOUBLE': 8, -- SQL_DOUBLE
                'DATE': 91, -- SQL_TYPE_DATE
                'TIME': 92, -- SQL_TYPE_TIME
                'VARCHAR': 12, -- SQL_VARCHAR
                'BLOB': -3, -- SQL_VARBINARY
                'INTERVAL': 10, -- SQL_INTERVAL
                'DECIMAL': 2, -- SQL_NUMERIC
                'BIT': -7, -- SQL_BIT
                'LIST': 12 -- SQL_VARCHAR
            } AS mapping,
            STRING_SPLIT(data_type, '(')[1] AS data_type_no_typmod,
            CASE
                -- value 93 is SQL_TIMESTAMP
                -- TODO: investigate why map key with spaces and regexes don't work
                WHEN data_type LIKE 'TIMESTAMP%' THEN 93::SMALLINT
                WHEN mapping[data_type_no_typmod] IS NOT NULL THEN mapping[data_type_no_typmod]::SMALLINT
                ELSE data_type_id::SMALLINT
            END AS `DATA_TYPE`,
            CASE
                WHEN data_type_no_typmod = 'DECIMAL' THEN 'NUMERIC'
                WHEN data_type LIKE 'TIMESTAMP%' THEN 'TIMESTAMP'
                ELSE data_type_no_typmod
            END AS `TYPE_NAME`,
            CASE
                WHEN data_type='DATE' THEN 12
                WHEN data_type='TIME' THEN 15
                WHEN data_type LIKE 'TIMESTAMP%' THEN 26
                WHEN data_type='CHAR'
                    OR data_type='BOOLEAN' THEN 1
                WHEN data_type='VARCHAR'
                    OR data_type='BLOB' THEN character_maximum_length
                WHEN data_type LIKE '%INT%' THEN numeric_precision
                WHEN data_type like 'DECIMAL%' THEN numeric_precision
                WHEN data_type='FLOAT'
                    OR data_type='DOUBLE' THEN numeric_precision
                ELSE NULL
            END AS `COLUMN_SIZE`,
            CASE
                WHEN data_type='DATE' THEN 4
                WHEN data_type LIKE 'TIMESTAMP%' THEN 8
                WHEN data_type LIKE 'TIME%' THEN 8 
                WHEN data_type='CHAR'
                    OR data_type='BOOLEAN' THEN 1
                WHEN data_type='VARCHAR'
                    OR data_type='BLOB' THEN 16
                WHEN data_type LIKE '%TINYINT' THEN 1
                WHEN data_type LIKE '%SMALLINT' THEN 2
                WHEN data_type LIKE '%INTEGER' THEN 4
                WHEN data_type LIKE '%BIGINT' THEN 8
                WHEN data_type='HUGEINT' THEN 16
                WHEN data_type like 'DECIMAL%' THEN 16
                WHEN data_type='FLOAT' THEN 4
                WHEN data_type='DOUBLE' THEN 8
                ELSE NULL
            END AS `BUFFER_LENGTH`,
            numeric_scale::SMALLINT AS `DECIMAL_DIGITS`,
            numeric_precision_radix::SMALLINT `NUM_PREC_RADIX`,
            CASE is_nullable
                WHEN FALSE THEN 0::SMALLINT
                WHEN TRUE THEN 1::SMALLINT
                ELSE 2::SMALLINT
            END AS `NULLABLE`,
            '' AS `REMARKS`,
            column_default AS `COLUMN_DEF`,
            CASE
                WHEN data_type LIKE 'TIMESTAMP%' THEN 93::SMALLINT
                WHEN mapping[data_type_no_typmod] IS NOT NULL THEN mapping[data_type_no_typmod]::SMALLINT
                ELSE data_type_id::SMALLINT
            END AS `SQL_DATA_TYPE`,
            CASE
                WHEN data_type='DATE' then 1::SMALLINT
                WHEN data_type LIKE 'TIMESTAMP%' THEN 3::SMALLINT
                WHEN data_type LIKE 'TIME%' THEN 2::SMALLINT
                ELSE NULL::SMALLINT
            END AS `SQL_DATETIME_SUB`,
            CASE
                WHEN data_type='%CHAR'
                     OR data_type='BLOB' THEN character_maximum_length
                ELSE NULL
            END AS `CHAR_OCTET_LENGTH`,
            column_index AS `ORDINAL_POSITION`,
            CASE is_nullable
                WHEN FALSE THEN 'NO'
                WHEN TRUE THEN 'YES'
                ELSE ''
            END AS `IS_NULLABLE`
            FROM duckdb_columns
        )
	".

Definition duckdb_columns_order : bytes := sql_text "
		ORDER BY
			`TABLE_CAT`,
			`TABLE_SCHEM`,
			`TABLE_NAME`,
			`ORDINAL_POSITION`
	".

Definition GetQueryDuckdbColumns (catalog_filter schema_filter table_filter column_filter : bytes) : bytes :=
  let conj f := if bool_decide (f = []) then [] else f ++ B" AND " in
  duckdb_columns_select ++ B" WHERE " ++ conj catalog_filter ++ conj schema_filter ++ conj table_filter
    ++ column_filter ++ duckdb_columns_order.

Definition duckdb_tables_select : bytes := sql_text "
		SELECT
			table_catalog::VARCHAR `TABLE_CAT`,
			table_schema::VARCHAR `TABLE_SCHEM`,
			table_name::VARCHAR `TABLE_NAME`,
			CASE
				WHEN table_type='BASE TABLE'
				THEN 'TABLE'::VARCHAR
				ELSE table_type::VARCHAR
			END `TABLE_TYPE`,
			''::VARCHAR `REMARKS`
			FROM information_schema.tables
	".

Definition GetQueryDuckdbTables (catalog_filter schema_filter table_filter table_type_filter : bytes) : bytes :=
  duckdb_tables_select ++ B" WHERE " ++ catalog_filter ++ [10] ++ B" AND " ++ schema_filter
    ++ [10] ++ B" AND " ++ table_filter
    ++ (if bool_decide (table_type_filter = []) then []
        else if bool_decide (table_type_filter = B"'%'") then []
        else [10] ++ B" AND table_type IN (" ++ table_type_filter ++ B") ")
    ++ [10] ++ B" AND table_catalog NOT LIKE '__ducklake_%' "
    ++ [10] ++ B" ORDER BY TABLE_TYPE, TABLE_CATALOG, TABLE_SCHEMA, TABLE_NAME".

Definition SQLPointerToSQLUInteger (value : ptr) : Z := u32 (u64 value).

(** [ConvertSQLCHARToString]: a NUL-terminated string has to end within [fuel]
    bytes. *)
Definition ConvertSQLCHARToString (fuel : nat) (m : mem) (str : ptr) (str_len : Z) : bytes :=
  if str =? nullptr then []
  else if str_len =? SQL_NTS then c_string m str fuel
  else read_bytes m str (Z.to_nat (if 0 <? str_len then str_len else 0)).

(** [WriteStringUtf8]: the bytes written and the memory after. *)
Definition WriteStringUtf8 (str : bytes) (out_buf : ptr) (buf_len : Z) (m : mem) : Z * mem :=
  if negb (out_buf =? nullptr) then
    let len_bytes := Z.min (zlen str) (u64 (buf_len - 1)) in
    (len_bytes, store 1 (write_bytes m out_buf (ztake len_bytes str)) (out_buf + len_bytes) 0)
  else (0, m).

(** [WriteStringUtf16]: the units written, the converted text and the memory. *)
Definition WriteStringUtf16 (utf8_str : bytes) (out_buf : ptr) (buf_len_bytes : Z) (m : mem)
    : Z * list Z * mem :=
  let utf16_vec := utf8_to_utf16_lenient utf8_str in
  if negb (out_buf =? nullptr) then
    let buf_len_even := if negb (buf_len_bytes mod 2 =? 0) then u64 (buf_len_bytes - 1) else buf_len_bytes in
    if buf_len_even <=? 2 then
      (0, utf16_vec, if buf_len_even =? 2 then store 2 m out_buf 0 else m)
    else
      let len_bytes := Z.min (zlen utf16_vec * 2) (buf_len_even - 2) in
      let len_chars := len_bytes / 2 in
      (len_chars, utf16_vec,
       store 2 (write_words m out_buf (ztake len_chars utf16_vec)) (out_buf + 2 * len_chars) 0)
  else (0, utf16_vec, m).

Definition IsSpace (c : Z) : bool :=
  (c =? 32) || (c =? 9) || (c =? 10) || (c =? 13) || (c =? 12) || (c =? 11).

Fixpoint count_while (p : Z -> bool) (s : bytes) : nat :=
  match s with
  | [] => 0
  | c :: s' => if p c then S (count_while p s') else 0
  end%nat.

(** [TrimString]: the positions of the two [find_if_not] scans. *)
Definition TrimString (str : bytes) : bytes :=
  let front := count_while IsSpace str in
  let back := (length str - count_while IsSpace (reverse str))%nat in
  if (back <=? front)%nat then [] else take (back - front) (drop front str).

(** ** Writing strings *)
Lemma WriteStringUtf8_inside str out n m :
  out <> nullptr -> 0 < n < 2 ^ 64 ->
  WriteStringUtf8 str out n m =
    let len := Z.min (zlen str) (n - 1) in
    (len, store 1 (write_bytes m out (ztake len str)) (out + len) 0).
Proof.
  intros Hout Hn. unfold WriteStringUtf8. rewrite (proj2 (Z.eqb_neq out nullptr)) by done.
  cbn [negb]. by rewrite (wrap_u_small 64 (n - 1)) by (unfold in_u; lia).
Qed.

Lemma read_bytes_store_after n m a k b z :
  a + Z.of_nat k <= b -> read_bytes (store n m b z) a k = read_bytes m a k.
Proof. intros H. apply read_bytes_ext. intros. apply store_outside. lia. Qed.

Lemma read_write_prefix m a l k : zlen l = k -> read_bytes (write_bytes m a l) a (Z.to_nat k) = l.
Proof. intros <-. unfold zlen. rewrite Nat2Z.id. apply read_write_bytes. Qed.

Lemma read_byte_store1 m a z : read_byte (store 1 m a z) a = u8 z.
Proof. unfold store. cbn [write_bytes le_split]. unfold read_byte. by rewrite lookup_insert_eq. Qed.

Lemma WriteStringUtf8_outside str out n m a :
  0 < n < 2 ^ 64 -> a < out \/ out + n <= a -> (WriteStringUtf8 str out n m).2 !! a = m !! a.
Proof.
  intros Hn Ha. destruct (decide (out = nullptr)) as [->|Hout]; [done|].
  rewrite WriteStringUtf8_inside by done. cbn [snd]. pose proof (zlen_nonneg str).
  rewrite store_outside by lia. apply write_bytes_outside. rewrite zlen_ztake by lia. lia.
Qed.

(** A UTF-8 string result is cut to the client's buffer: with a buffer of
    [n > 0] bytes exactly [min (length, n - 1)] bytes are delivered, followed by
    a NUL, and no byte outside the buffer changes. *)
Theorem WriteStringUtf8_fits str out n m len m' :
  out <> nullptr -> 0 < n < 2 ^ 64 -> WriteStringUtf8 str out n m = (len, m') ->
  len = Z.min (zlen str) (n - 1)
  /\ read_bytes m' out (Z.to_nat len) = ztake len str
  /\ read_byte m' (out + len) = 0
  /\ (forall a, a < out \/ out + n <= a -> m' !! a = m !! a).
Proof.
  intros Hout Hn E. split; [|split; [|split]].
  4: { intros a Ha. rewrite <- (WriteStringUtf8_outside str out n m a) by done. by rewrite E. }
  all: rewrite WriteStringUtf8_inside in E by done; injection E as <- <-; pose proof (zlen_nonneg str).
  - done.
  - rewrite read_bytes_store_after by lia. apply read_write_prefix. rewrite zlen_ztake; lia.
  - by rewrite read_byte_store1.
Qed.

Lemma WriteStringUtf8_fits_witness :
  let r := WriteStringUtf8 (B"duckdb") 100 4 ∅ in
  read_bytes r.2 100 3 = B"duc" /\ r.1 = 3.
Proof.
  intros r. destruct (WriteStringUtf8_fits (B"duckdb") 100 4 ∅ 3 r.2) as (_ & H & _);
    [done|done|reflexivity|]. split; [exact H|reflexivity].
Defined.

(** With an empty buffer the bound wraps and the whole string is written. *)
Lemma WriteStringUtf8_empty_buffer m :
  (WriteStringUtf8 (B"duckdb") 100 0 m).1 = 6.
Proof. done. Qed.

(** A wide string result never leaves the client's buffer, whatever its
    size in bytes (zero, one, odd): the units delivered are the longest prefix
    of the converted text that fits with its terminator, the text is terminated
    as soon as there is room for one unit, and the length reported to the client
    is that of the whole text. *)
Theorem WriteStringUtf16_fits str out n m len vec m' :
  out <> nullptr -> 0 <= n < 2 ^ 64 -> Forall is_byte str ->
  WriteStringUtf16 str out n m = (len, vec, m') ->
  vec = utf8_to_utf16_lenient str
  /\ len = Z.max 0 (Z.min (zlen vec) (n / 2 - 1))
  /\ read_words m' out (Z.to_nat len) = ztake len vec
  /\ (2 <= n -> read_word m' (out + 2 * len) = 0)
  /\ (forall a, a < out \/ out + n <= a -> m' !! a = m !! a).
Proof.
  intros Hout Hn Hstr. unfold WriteStringUtf16. rewrite (proj2 (Z.eqb_neq out nullptr)) by done.
  cbn [negb]. pose proof (utf8_to_utf16_lenient_words str Hstr) as Hws.
  set (ws := utf8_to_utf16_lenient str) in *. pose proof (zlen_nonneg ws).
  set (even := if negb (n mod 2 =? 0) then u64 (n - 1) else n).
  assert (even = 2 * (n / 2)) as Ee.
  { unfold even. destruct (Z.eqb_spec (n mod 2) 0) as [E|E]; cbn [negb]; [dlia|].
    rewrite wrap_u_small by (unfold in_u; dlia). dlia. }
  clearbody even. subst even. assert (0 <= n / 2 /\ 2 * (n / 2) <= n) as [??] by dlia.
  destruct (Z.leb_spec (2 * (n / 2)) 2) as [Hle|Hgt]; intros E; injection E as <- <- <-;
    (split; [done|]).
  - split; [lia|]. split; [done|]. rewrite Z.mul_0_r, Z.add_0_r.
    destruct (Z.eqb_spec (2 * (n / 2)) 2).
    + split; [intros _; by apply (load_u_store_in 2)|]. intros. apply store_outside. lia.
    + split; [dlia|done].
  - assert (Z.min (zlen ws * 2) (2 * (n / 2) - 2) / 2 = Z.min (zlen ws) (n / 2 - 1)) as -> by dlia.
    set (k := Z.min (zlen ws) (n / 2 - 1)). assert (0 <= k) by lia.
    assert (zlen (ztake k ws) = k) as Hk by (rewrite zlen_ztake; lia).
    split; [lia|]. split; [|split].
    + transitivity (read_words (write_words m out (ztake k ws)) out (Z.to_nat k)).
      { apply read_words_ext. intros. apply store_outside. lia. }
      rewrite <- Hk at 2. unfold zlen at 1. rewrite Nat2Z.id. apply read_words_write, Forall_take, Hws.
    + intros _. by apply (load_u_store_in 2).
    + intros a Ha. rewrite store_outside by lia. apply write_bytes_outside.
      rewrite words_to_bytes_length. lia.
Qed.

Lemma WriteStringUtf16_fits_witness :
  let '(len, vec, m') := WriteStringUtf16 [0x61; 0xe2; 0x82; 0xac; 0x62] 100 7 ∅ in
  read_words m' 100 2 = [0x61; 0x20ac].
Proof.
  destruct (WriteStringUtf16 [0x61; 0xe2; 0x82; 0xac; 0x62] 100 7 ∅) as [[len vec] m'] eqn:E.
  assert (Forall is_byte [0x61; 0xe2; 0x82; 0xac; 0x62]) as Hb by (repeat constructor; vm_compute; congruence).
  assert (100 <> nullptr /\ 0 <= 7 < 2 ^ 64) as [H1 H2] by (split; vm_compute; intuition congruence).
  destruct (WriteStringUtf16_fits _ _ _ _ _ _ _ H1 H2 Hb E) as (E1 & E2 & E3 & _).
  subst vec. assert (len = 2) as -> by (rewrite E2; by vm_compute). exact E3.
Defined.

(** ** Trimming *)
Lemma count_while_spec p s :
  exists k, s = take (count_while p s) s ++ k /\ k = drop (count_while p s) s
    /\ Forall (fun c => p c = true) (take (count_while p s) s)
    /\ (forall c, head k = Some c -> p c = false).
Proof.
  induction s as [|c s (k & E & Ek & Hf & Hh)]; cbn.
  - by exists [].
  - destruct (p c) eqn:Hp; cbn.
    + exists k. rewrite <- Ek, <- E. split; [done|]. split; [done|]. split; [by constructor|done].
    + exists (c :: s). split; [done|]. split; [done|]. split; [constructor|].
      cbn. intros ? [=]. by subst.
Qed.

Lemma count_while_le p s : (count_while p s <= length s)%nat.
Proof. induction s as [|c s IH]; cbn; [lia|]. destruct (p c); lia. Qed.
Lemma count_while_head p c s : p c = false -> count_while p (c :: s) = 0%nat.
Proof. intros H. cbn. by rewrite H. Qed.
Lemma count_while_app_all p s t :
  Forall (fun c => p c = true) s -> count_while p (s ++ t) = (length s + count_while p t)%nat.
Proof. induction 1 as [|c s H _ IH]; cbn; [done|]. by rewrite H, IH. Qed.

Definition space (c : Z) : Prop := IsSpace c = true.

(** Trimming removes the outer blanks and nothing else. *)
Lemma TrimString_core l s r :
  Forall space l -> Forall space r ->
  (forall c, head s = Some c -> IsSpace c = false) ->
  (forall c, head (reverse s) = Some c -> IsSpace c = false) ->
  TrimString (l ++ s ++ r) = s.
Proof.
  intros Hl Hr Hh Ht. unfold TrimString. destruct s as [|c s].
  - rewrite app_nil_l. assert (Forall space (l ++ r)) as Hlr by by apply Forall_app.
    assert (forall u, Forall space u -> count_while IsSpace u = length u) as Hall.
    { intros u Hu. rewrite <- (app_nil_r u) at 1. rewrite count_while_app_all by done. cbn. lia. }
    rewrite !Hall by (try apply Forall_reverse; done). by rewrite length_reverse, (proj2 (Nat.leb_le _ _)) by lia.
  - rewrite count_while_app_all by done. rewrite <- app_comm_cons, count_while_head by by apply Hh.
    rewrite app_comm_cons, !reverse_app, <- app_assoc, count_while_app_all by by apply Forall_reverse.
    destruct (reverse (c :: s)) as [|d t] eqn:E.
    { apply (f_equal length) in E. rewrite length_reverse in E. done. }
    change ((d :: t) ++ reverse l) with (d :: (t ++ reverse l)).
    rewrite count_while_head by by apply Ht.
    rewrite !length_app, length_reverse. rewrite (proj2 (Nat.leb_gt _ _)) by (cbn; lia).
    rewrite drop_app_length' by lia. rewrite take_app_length' by (cbn [length]; lia). done.
Qed.

(** ** The character type of an entry point

    The internal functions behind [SQLXxx] and [SQLXxxW] are templates over
    [CHAR_TYPE], and overloads are resolved by it. *)
Inductive CharType := SQLCHAR_T | SQLWCHAR_T.
#[global] Instance CharType_eq_dec : EqDecision CharType.
Proof. solve_decision. Defined.

Definition char_size (c : CharType) : Z := match c with SQLCHAR_T => 1 | SQLWCHAR_T => 2 end.

(** [duckdb::Store<T>]: a [memcpy], undefined through a null pointer. *)
Definition Store (n : nat) (val : Z) (p : ptr) (m : mem) : option mem :=
  if p =? nullptr then None else Some (store n m p val).
