(* ===== verification/Diagnostic.v ===== *)
(** * Diagnostics ([odbc_driver/common/odbc_diagnostic.cpp])

    Every handle owns an [OdbcDiagnostic]: a header, the status records and a
    vector of indices into them. A record keeps a stack of offsets, the
    positions in its message from which the next pieces are delivered when the
    application reads it in buffers that are too short. The [std::stack] is a
    list with its top at the head. *)

From S2P Require Import Prelude OdbcConst Memory.

Inductive SQLStateType :=
  | ST_01000 | ST_01001 | ST_01002 | ST_01003 | ST_01004 | ST_01006 | ST_01007 | ST_01S00
  | ST_01S01 | ST_01S02 | ST_01S06 | ST_01S07 | ST_01S08 | ST_01S09 | ST_07002 | ST_07005
  | ST_07006 | ST_07007 | ST_07009 | ST_07S01 | ST_08001 | ST_08002 | ST_08003 | ST_08004
  | ST_08007 | ST_08S01 | ST_0A000 | ST_21S01 | ST_21S02 | ST_22001 | ST_22002 | ST_22003
  | ST_22007 | ST_22008 | ST_22012 | ST_22015 | ST_22018 | ST_22019 | ST_22025 | ST_22026
  | ST_23000 | ST_24000 | ST_25000 | ST_25S01 | ST_25S02 | ST_25S03 | ST_28000 | ST_34000
  | ST_3C000 | ST_3D000 | ST_3F000 | ST_40001 | ST_40002 | ST_40003 | ST_42000 | ST_42S01
  | ST_42S02 | ST_42S11 | ST_42S12 | ST_42S21 | ST_42S22 | ST_44000 | ST_HY000 | ST_HY001
  | ST_HY003 | ST_HY004 | ST_HY007 | ST_HY008 | ST_HY009 | ST_HY010 | ST_HY011 | ST_HY012
  | ST_HY013 | ST_HY014 | ST_HY015 | ST_HY016 | ST_HY017 | ST_HY018 | ST_HY019 | ST_HY020
  | ST_HY021 | ST_HY024 | ST_HY090 | ST_HY091 | ST_HY092 | ST_HY095 | ST_HY096 | ST_HY097
  | ST_HY098 | ST_HY099 | ST_HY100 | ST_HY101 | ST_HY103 | ST_HY104 | ST_HY105 | ST_HY106
  | ST_HY107 | ST_HY109 | ST_HY110 | ST_HY111 | ST_HY114 | ST_HY115 | ST_HY117 | ST_HY121
  | ST_HYC00 | ST_HYT00 | ST_HYT01 | ST_IM001 | ST_IM002 | ST_IM003 | ST_IM004 | ST_IM005
  | ST_IM006 | ST_IM007 | ST_IM008 | ST_IM009 | ST_IM010 | ST_IM011 | ST_IM012 | ST_IM014
  | ST_IM015 | ST_IM017 | ST_IM018 | ST_S1118.

(** The value of the enumerator ([enum class SQLStateType : uint8_t]). *)
Definition SQLStateType_value (s : SQLStateType) : Z :=
  match s with
  | ST_01000 => 0 | ST_01001 => 1 | ST_01002 => 2 | ST_01003 => 3 | ST_01004 => 4 | ST_01006 => 5
  | ST_01007 => 6 | ST_01S00 => 7 | ST_01S01 => 8 | ST_01S02 => 9 | ST_01S06 => 10 | ST_01S07 => 11
  | ST_01S08 => 12 | ST_01S09 => 13 | ST_07002 => 14 | ST_07005 => 15 | ST_07006 => 16
  | ST_07007 => 17 | ST_07009 => 18 | ST_07S01 => 19 | ST_08001 => 20 | ST_08002 => 21
  | ST_08003 => 22 | ST_08004 => 23 | ST_08007 => 24 | ST_08S01 => 25 | ST_0A000 => 26
  | ST_21S01 => 27 | ST_21S02 => 28 | ST_22001 => 29 | ST_22002 => 30 | ST_22003 => 31
  | ST_22007 => 32 | ST_22008 => 33 | ST_22012 => 34 | ST_22015 => 35 | ST_22018 => 36
  | ST_22019 => 37 | ST_22025 => 38 | ST_22026 => 39 | ST_23000 => 40 | ST_24000 => 41
  | ST_25000 => 42 | ST_25S01 => 43 | ST_25S02 => 44 | ST_25S03 => 45 | ST_28000 => 46
  | ST_34000 => 47 | ST_3C000 => 48 | ST_3D000 => 49 | ST_3F000 => 50 | ST_40001 => 51
  | ST_40002 => 52 | ST_40003 => 53 | ST_42000 => 54 | ST_42S01 => 55 | ST_42S02 => 56
  | ST_42S11 => 57 | ST_42S12 => 58 | ST_42S21 => 59 | ST_42S22 => 60 | ST_44000 => 61
  | ST_HY000 => 62 | ST_HY001 => 63 | ST_HY003 => 64 | ST_HY004 => 65 | ST_HY007 => 66
  | ST_HY008 => 67 | ST_HY009 => 68 | ST_HY010 => 69 | ST_HY011 => 70 | ST_HY012 => 71
  | ST_HY013 => 72 | ST_HY014 => 73 | ST_HY015 => 74 | ST_HY016 => 75 | ST_HY017 => 76
  | ST_HY018 => 77 | ST_HY019 => 78 | ST_HY020 => 79 | ST_HY021 => 80 | ST_HY024 => 81
  | ST_HY090 => 82 | ST_HY091 => 83 | ST_HY092 => 84 | ST_HY095 => 85 | ST_HY096 => 86
  | ST_HY097 => 87 | ST_HY098 => 88 | ST_HY099 => 89 | ST_HY100 => 90 | ST_HY101 => 91
  | ST_HY103 => 92 | ST_HY104 => 93 | ST_HY105 => 94 | ST_HY106 => 95 | ST_HY107 => 96
  | ST_HY109 => 97 | ST_HY110 => 98 | ST_HY111 => 99 | ST_HY114 => 100 | ST_HY115 => 101
  | ST_HY117 => 102 | ST_HY121 => 103 | ST_HYC00 => 104 | ST_HYT00 => 105 | ST_HYT01 => 106
  | ST_IM001 => 107 | ST_IM002 => 108 | ST_IM003 => 109 | ST_IM004 => 110 | ST_IM005 => 111
  | ST_IM006 => 112 | ST_IM007 => 113 | ST_IM008 => 114 | ST_IM009 => 115 | ST_IM010 => 116
  | ST_IM011 => 117 | ST_IM012 => 118 | ST_IM014 => 119 | ST_IM015 => 120 | ST_IM017 => 121
  | ST_IM018 => 122 | ST_S1118 => 123
  end.

Definition all_SQLStateType : list SQLStateType :=
  [ST_01000; ST_01001; ST_01002; ST_01003; ST_01004; ST_01006; ST_01007; ST_01S00; ST_01S01;
   ST_01S02; ST_01S06; ST_01S07; ST_01S08; ST_01S09; ST_07002; ST_07005; ST_07006; ST_07007;
   ST_07009; ST_07S01; ST_08001; ST_08002; ST_08003; ST_08004; ST_08007; ST_08S01; ST_0A000;
   ST_21S01; ST_21S02; ST_22001; ST_22002; ST_22003; ST_22007; ST_22008; ST_22012; ST_22015;
   ST_22018; ST_22019; ST_22025; ST_22026; ST_23000; ST_24000; ST_25000; ST_25S01; ST_25S02;
   ST_25S03; ST_28000; ST_34000; ST_3C000; ST_3D000; ST_3F000; ST_40001; ST_40002; ST_40003;
   ST_42000; ST_42S01; ST_42S02; ST_42S11; ST_42S12; ST_42S21; ST_42S22; ST_44000; ST_HY000;
   ST_HY001; ST_HY003; ST_HY004; ST_HY007; ST_HY008; ST_HY009; ST_HY010; ST_HY011; ST_HY012;
   ST_HY013; ST_HY014; ST_HY015; ST_HY016; ST_HY017; ST_HY018; ST_HY019; ST_HY020; ST_HY021;
   ST_HY024; ST_HY090; ST_HY091; ST_HY092; ST_HY095; ST_HY096; ST_HY097; ST_HY098; ST_HY099;
   ST_HY100; ST_HY101; ST_HY103; ST_HY104; ST_HY105; ST_HY106; ST_HY107; ST_HY109; ST_HY110;
   ST_HY111; ST_HY114; ST_HY115; ST_HY117; ST_HY121; ST_HYC00; ST_HYT00; ST_HYT01; ST_IM001;
   ST_IM002; ST_IM003; ST_IM004; ST_IM005; ST_IM006; ST_IM007; ST_IM008; ST_IM009; ST_IM010;
   ST_IM011; ST_IM012; ST_IM014; ST_IM015; ST_IM017; ST_IM018; ST_S1118].

Record SQLState := MkSQLState { code : bytes; error_msg : bytes }.

#[global] Instance SQLStateType_eq_dec : EqDecision SQLStateType.
Proof.
  refine (fun a b => cast_if (decide (SQLStateType_value a = SQLStateType_value b))); [|congruence].
  transitivity (default a (all_SQLStateType !! Z.to_nat (SQLStateType_value a))).
  - by destruct a.
  - rewrite e. by destruct b.
Defined.

Definition MAP_ODBC_SQL_STATES : list (SQLStateType * SQLState) := [
  (ST_01000, MkSQLState (B"01000") (B"General warning"));
  (ST_01001, MkSQLState (B"01001") (B"Cursor operation conflict"));
  (ST_01002, MkSQLState (B"01002") (B"Disconnect error"));
  (ST_01003, MkSQLState (B"01003") (B"NULL value eliminated in set function"));
  (ST_01004, MkSQLState (B"01004") (B"String data, right truncated"));
  (ST_01006, MkSQLState (B"01006") (B"Privilege not revoked"));
  (ST_01007, MkSQLState (B"01007") (B"Privilege not granted"));
  (ST_01S00, MkSQLState (B"01S00") (B"Invalid connection string attribute"));
  (ST_01S01, MkSQLState (B"01S01") (B"Error in row"));
  (ST_01S02, MkSQLState (B"01S02") (B"Option value changed"));
  (ST_01S06, MkSQLState (B"01S06") (B"Attempt to fetch before the result set returned the first rowset"));
  (ST_01S07, MkSQLState (B"01S07") (B"Fractional truncation"));
  (ST_01S08, MkSQLState (B"01S08") (B"Error saving file DSN"));
  (ST_01S09, MkSQLState (B"01S09") (B"Invalid keyword"));
  (ST_07002, MkSQLState (B"07002") (B"COUNT field incorrect"));
  (ST_07005, MkSQLState (B"07005") (B"Prepared statement not a cursor-specification"));
  (ST_07006, MkSQLState (B"07006") (B"Restricted data type attribute violation"));
  (ST_07007, MkSQLState (B"07007") (B"Restricted parameter value violation"));
  (ST_07009, MkSQLState (B"07009") (B"Invalid descriptor index"));
  (ST_07S01, MkSQLState (B"07S01") (B"Invalid use of default parameter"));
  (ST_08001, MkSQLState (B"08001") (B"Client unable to establish connection"));
  (ST_08002, MkSQLState (B"08002") (B"Connection name in use"));
  (ST_08003, MkSQLState (B"08003") (B"Connection not open"));
  (ST_08004, MkSQLState (B"08004") (B"Server rejected the connection"));
  (ST_08007, MkSQLState (B"08007") (B"Connection failure during transaction"));
  (ST_08S01, MkSQLState (B"08S01") (B"Communication link failure"));
  (ST_0A000, MkSQLState (B"0A000") (B"Feature not supported"));
  (ST_21S01, MkSQLState (B"21S01") (B"Insert value list does not match column list"));
  (ST_21S02, MkSQLState (B"21S02") (B"Degree of derived table does not match column list"));
  (ST_22001, MkSQLState (B"22001") (B"String data, right truncated"));
  (ST_22002, MkSQLState (B"22002") (B"Indicator variable required but not supplied"));
  (ST_22003, MkSQLState (B"22003") (B"Numeric value out of range"));
  (ST_22007, MkSQLState (B"22007") (B"Invalid datetime format"));
  (ST_22008, MkSQLState (B"22008") (B"Datetime field overflow"));
  (ST_22012, MkSQLState (B"22012") (B"Division by zero"));
  (ST_22015, MkSQLState (B"22015") (B"Interval field overflow"));
  (ST_22018, MkSQLState (B"22018") (B"Invalid character value for cast specification"));
  (ST_22019, MkSQLState (B"22019") (B"Invalid escape character"));
  (ST_22025, MkSQLState (B"22025") (B"Invalid escape sequence"));
  (ST_22026, MkSQLState (B"22026") (B"String data, length mismatch"));
  (ST_23000, MkSQLState (B"23000") (B"Integrity constraint violation"));
  (ST_24000, MkSQLState (B"24000") (B"Invalid cursor state"));
  (ST_25000, MkSQLState (B"25000") (B"Invalid transaction state"));
  (ST_25S01, MkSQLState (B"25S01") (B"Transaction state unknown"));
  (ST_25S02, MkSQLState (B"25S02") (B"Transaction is still active"));
  (ST_25S03, MkSQLState (B"25S03") (B"Transaction is rolled back"));
  (ST_28000, MkSQLState (B"28000") (B"Invalid authorization specification"));
  (ST_34000, MkSQLState (B"34000") (B"Invalid cursor name"));
  (ST_3C000, MkSQLState (B"3C000") (B"Duplicate cursor name"));
  (ST_3D000, MkSQLState (B"3D000") (B"Invalid catalog name"));
  (ST_3F000, MkSQLState (B"3F000") (B"Invalid schema name"));
  (ST_40001, MkSQLState (B"40001") (B"Serialization failure"));
  (ST_40002, MkSQLState (B"40002") (B"Integrity constraint violation"));
  (ST_40003, MkSQLState (B"40003") (B"Statement completion unknown"));
  (ST_42000, MkSQLState (B"42000") (B"Syntax error or access violation"));
  (ST_42S01, MkSQLState (B"42S01") (B"Base table or view already exists"));
  (ST_42S02, MkSQLState (B"42S02") (B"Base table or view not found"));
  (ST_42S11, MkSQLState (B"42S11") (B"Index already exists"));
  (ST_42S12, MkSQLState (B"42S12") (B"Index not found"));
  (ST_42S21, MkSQLState (B"42S21") (B"Column already exists"));
  (ST_42S22, MkSQLState (B"42S22") (B"Column not found"));
  (ST_44000, MkSQLState (B"44000") (B"WITH CHECK OPTION violation"));
  (ST_HY000, MkSQLState (B"HY000") (B"General error"));
  (ST_HY001, MkSQLState (B"HY001") (B"Memory allocation error"));
  (ST_HY003, MkSQLState (B"HY003") (B"Invalid application buffer type"));
  (ST_HY004, MkSQLState (B"HY004") (B"Invalid SQL data type"));
  (ST_HY007, MkSQLState (B"HY007") (B"Associated statement is not prepared"));
  (ST_HY008, MkSQLState (B"HY008") (B"Operation canceled"));
  (ST_HY009, MkSQLState (B"HY009") (B"Invalid argument value"));
  (ST_HY010, MkSQLState (B"HY010") (B"Function sequence error"));
  (ST_HY011, MkSQLState (B"HY011") (B"Attribute cannot be set now"));
  (ST_HY012, MkSQLState (B"HY012") (B"Invalid transaction operation code"));
  (ST_HY013, MkSQLState (B"HY013") (B"Memory management error"));
  (ST_HY014, MkSQLState (B"HY014") (B"Limit on the number of handles exceeded"));
  (ST_HY015, MkSQLState (B"HY015") (B"No cursor name available"));
  (ST_HY016, MkSQLState (B"HY016") (B"Cannot modify an implementation row descriptor"));
  (ST_HY017, MkSQLState (B"HY017") (B"Invalid use of an automatically allocated descriptor handle"));
  (ST_HY018, MkSQLState (B"HY018") (B"Server declined cancel request"));
  (ST_HY019, MkSQLState (B"HY019") (B"Non-character and non-binary data sent in pieces"));
  (ST_HY020, MkSQLState (B"HY020") (B"Attempt to concatenate a null value"));
  (ST_HY021, MkSQLState (B"HY021") (B"Inconsistent descriptor information"));
  (ST_HY024, MkSQLState (B"HY024") (B"Invalid attribute value"));
  (ST_HY090, MkSQLState (B"HY090") (B"Invalid string or buffer length"));
  (ST_HY091, MkSQLState (B"HY091") (B"Invalid descriptor field identifier"));
  (ST_HY092, MkSQLState (B"HY092") (B"Invalid attribute/option identifier"));
  (ST_HY095, MkSQLState (B"HY095") (B"Function type out of range"));
  (ST_HY096, MkSQLState (B"HY096") (B"Information type out of range"));
  (ST_HY097, MkSQLState (B"HY097") (B"Column type out of range"));
  (ST_HY098, MkSQLState (B"HY098") (B"Scope type out of range"));
  (ST_HY099, MkSQLState (B"HY099") (B"Nullable type out of range"));
  (ST_HY100, MkSQLState (B"HY100") (B"Uniqueness option type out of range"));
  (ST_HY101, MkSQLState (B"HY101") (B"Accuracy option type out of range"));
  (ST_HY103, MkSQLState (B"HY103") (B"Invalid retrieval code"));
  (ST_HY104, MkSQLState (B"HY104") (B"Invalid precision or scale value"));
  (ST_HY105, MkSQLState (B"HY105") (B"Invalid parameter type"));
  (ST_HY106, MkSQLState (B"HY106") (B"Fetch type out of range"));
  (ST_HY107, MkSQLState (B"HY107") (B"Row value out of range"));
  (ST_HY109, MkSQLState (B"HY109") (B"Invalid cursor position"));
  (ST_HY110, MkSQLState (B"HY110") (B"Invalid driver completion"));
  (ST_HY111, MkSQLState (B"HY111") (B"Invalid bookmark value"));
  (ST_HY114, MkSQLState (B"HY114") (B"Driver does not support connection-level asynchronous function execution"));
  (ST_HY115, MkSQLState (B"HY115") (B"SQLEndTran is not allowed for an environment that contains a connection with asynchronous function execution enabled"));
  (ST_HY117, MkSQLState (B"HY117") (B"Connection is suspended due to unknown transaction state. Only disconnect and read-only functions are allowed."));
  (ST_HY121, MkSQLState (B"HY121") (B"Cursor Library and Driver-Aware Pooling cannot be enabled at the same time"));
  (ST_HYC00, MkSQLState (B"HYC00") (B"Optional feature not implemented"));
  (ST_HYT00, MkSQLState (B"HYT00") (B"Timeout expired"));
  (ST_HYT01, MkSQLState (B"HYT01") (B"Connection timeout expired"));
  (ST_IM001, MkSQLState (B"IM001") (B"Driver does not support this function"));
  (ST_IM002, MkSQLState (B"IM002") (B"Data source not found and no default driver specified"));
  (ST_IM003, MkSQLState (B"IM003") (B"Specified driver could not be connected to"));
  (ST_IM004, MkSQLState (B"IM004") (B"Driver's SQLAllocHandle on SQL_HANDLE_ENV failed"));
  (ST_IM005, MkSQLState (B"IM005") (B"Driver's SQLAllocHandle on SQL_HANDLE_DBC failed"));
  (ST_IM006, MkSQLState (B"IM006") (B"Driver's SQLSetConnectAttr failed"));
  (ST_IM007, MkSQLState (B"IM007") (B"No data source or driver specified; dialog prohibited"));
  (ST_IM008, MkSQLState (B"IM008") (B"Dialog failed"));
  (ST_IM009, MkSQLState (B"IM009") (B"Unable to connect to translation DLL"));
  (ST_IM010, MkSQLState (B"IM010") (B"Data source name too long"));
  (ST_IM011, MkSQLState (B"IM011") (B"Driver name too long"));
  (ST_IM012, MkSQLState (B"IM012") (B"DRIVER keyword syntax error"));
  (ST_IM014, MkSQLState (B"IM014") (B"The specified DSN contains an architecture mismatch between the Driver and Application"));
  (ST_IM015, MkSQLState (B"IM015") (B"Driver's SQLConnect on SQL_HANDLE_DBC_INFO_HANDLE failed"));
  (ST_IM017, MkSQLState (B"IM017") (B"Polling is disabled in asynchronous notification mode"));
  (ST_IM018, MkSQLState (B"IM018") (B"SQLCompleteAsync has not been called to complete the previous asynchronous operation on this handle."));
  (ST_S1118, MkSQLState (B"S1118") (B"Driver does not support asynchronous notification"))].

Definition MAP_DYNAMIC_FUNCTION : list (Z * bytes) := [
  (SQL_DIAG_ALTER_DOMAIN, B"ALTER DOMAIN");
  (SQL_DIAG_ALTER_TABLE, B"ALTER TABLE");
  (SQL_DIAG_CREATE_ASSERTION, B"CREATE ASSERTION");
  (SQL_DIAG_CREATE_CHARACTER_SET, B"CREATE CHARACTER SET");
  (SQL_DIAG_CREATE_COLLATION, B"CREATE COLLATION");
  (SQL_DIAG_CREATE_DOMAIN, B"CREATE DOMAIN");
  (SQL_DIAG_CREATE_INDEX, B"CREATE INDEX");
  (SQL_DIAG_CREATE_TABLE, B"CREATE TABLE");
  (SQL_DIAG_CREATE_VIEW, B"CREATE VIEW");
  (SQL_DIAG_SELECT_CURSOR, B"SELECT CURSOR");
  (SQL_DIAG_DYNAMIC_DELETE_CURSOR, B"DYNAMIC DELETE CURSOR");
  (SQL_DIAG_DELETE_WHERE, B"DELETE WHERE");
  (SQL_DIAG_DROP_ASSERTION, B"DROP ASSERTION");
  (SQL_DIAG_DROP_CHARACTER_SET, B"DROP CHARACTER SET");
  (SQL_DIAG_DROP_COLLATION, B"DROP COLLATION");
  (SQL_DIAG_DROP_DOMAIN, B"DROP DOMAIN");
  (SQL_DIAG_DROP_INDEX, B"DROP INDEX");
  (SQL_DIAG_DROP_SCHEMA, B"DROP SCHEMA");
  (SQL_DIAG_DROP_TABLE, B"DROP TABLE");
  (SQL_DIAG_DROP_TRANSLATION, B"DROP TRANSLATION");
  (SQL_DIAG_DROP_VIEW, B"DROP VIEW");
  (SQL_DIAG_GRANT, B"GRANT");
  (SQL_DIAG_INSERT, B"INSERT");
  (SQL_DIAG_CALL, B"CALL");
  (SQL_DIAG_REVOKE, B"REVOKE");
  (SQL_DIAG_CREATE_SCHEMA, B"CREATE SCHEMA");
  (SQL_DIAG_CREATE_TRANSLATION, B"CREATE TRANSLATION");
  (SQL_DIAG_DYNAMIC_UPDATE_CURSOR, B"DYNAMIC UPDATE CURSOR");
  (SQL_DIAG_UPDATE_WHERE, B"UPDATE WHERE");
  (SQL_DIAG_UNKNOWN_STATEMENT, [])].

Definition SET_ODBC3_SUBCLASS_ORIGIN : list bytes :=
  [B"01S00"; B"01S01"; B"01S02"; B"01S06"; B"01S07"; B"07S01"; B"08S01"; B"21S01"; B"21S02";
   B"25S01"; B"25S02"; B"25S03"; B"42S01"; B"42S02"; B"42S11"; B"42S12"; B"42S21"; B"42S22";
   B"HY095"; B"HY097"; B"HY098"; B"HY099"; B"HY100"; B"HY101"; B"HY105"; B"HY107"; B"HY109";
   B"HY110"; B"HY111"; B"HYT00"; B"HYT01"; B"IM001"; B"IM002"; B"IM003"; B"IM004"; B"IM005";
   B"IM006"; B"IM007"; B"IM008"; B"IM010"; B"IM011"; B"IM012"].

(** [find] on a map. *)
Fixpoint assoc_find {K V} `{EqDecision K} (l : list (K * V)) (k : K) : option V :=
  match l with
  | [] => None
  | (k', v) :: l' => if decide (k = k') then Some v else assoc_find l' k
  end.

Record DiagRecord := MkDiagRecord {
  sql_diag_column_number : Z;
  sql_diag_native : Z;
  sql_diag_row_number : Z;
  sql_diag_server_name : bytes;
  sql_diag_sqlstate : bytes;
  sql_diag_message_text : bytes;
  stack_msg_offset : list Z
}.

Record DiagHeader := MkDiagHeader {
  sql_diag_cursor_row_count : Z;
  sql_diag_dynamic_function_code : Z;
  sql_diag_number : Z;
  sql_diag_return_code : Z;
  sql_diag_row_count : Z
}.

(** [DiagHeader()] zero-initialises the fields without an initialiser. *)
Definition default_DiagHeader : DiagHeader := MkDiagHeader 0 SQL_DIAG_UNKNOWN_STATEMENT 0 0 0.

Record OdbcDiagnostic := MkOdbcDiagnostic {
  header : DiagHeader;
  diag_records : list DiagRecord;
  vec_record_idx : list Z
}.

Definition new_OdbcDiagnostic : OdbcDiagnostic := MkOdbcDiagnostic default_DiagHeader [] [].

(** ** [DiagRecord] *)
Definition make_DiagRecord (msg : bytes) (sqlstate_type : SQLStateType) (server_name : bytes)
    (col_number sql_native row_number : Z) : DiagRecord :=
  MkDiagRecord col_number sql_native row_number server_name
    (match assoc_find MAP_ODBC_SQL_STATES sqlstate_type with Some entry => code entry | None => [] end)
    msg [0].

Definition GetOriginalMessage (r : DiagRecord) : bytes := sql_diag_message_text r.

(** The pops of [ClearStackMsgOffset]. *)
Fixpoint clear_stack (s : list Z) : list Z :=
  match s with
  | [] => []
  | top :: s' => if negb (top =? 0) then clear_stack s' else s
  end.
Definition ClearStackMsgOffset (r : DiagRecord) : DiagRecord := r <| stack_msg_offset ::= clear_stack |>.

(** [GetMessage]: [top] of an empty stack is undefined and [substr] beyond the
    end throws; both are [None]. [buff_length] is added as a [uint64_t]. *)
Definition GetMessage (buff_length : Z) (r : DiagRecord) : option (bytes * DiagRecord) :=
  last_offset ← head (stack_msg_offset r);
  let new_offset := u64 (last_offset + buff_length) in
  let r' :=
    if zlen (sql_diag_message_text r) <=? new_offset then ClearStackMsgOffset r
    else r <| stack_msg_offset ::= cons new_offset |> in
  if zlen (sql_diag_message_text r) <? last_offset then None
  else Some (zdrop last_offset (sql_diag_message_text r), r').

Definition SetMessage (new_msg : bytes) (r : DiagRecord) : DiagRecord :=
  ClearStackMsgOffset (r <| sql_diag_message_text := new_msg |>).

(** ** [OdbcDiagnostic] *)
Definition IsDiagRecordField (rec_field : Z) : bool :=
  (rec_field =? SQL_DIAG_CLASS_ORIGIN) || (rec_field =? SQL_DIAG_COLUMN_NUMBER)
  || (rec_field =? SQL_DIAG_CONNECTION_NAME) || (rec_field =? SQL_DIAG_MESSAGE_TEXT)
  || (rec_field =? SQL_DIAG_NATIVE) || (rec_field =? SQL_DIAG_ROW_NUMBER)
  || (rec_field =? SQL_DIAG_SERVER_NAME) || (rec_field =? SQL_DIAG_SQLSTATE)
  || (rec_field =? SQL_DIAG_SUBCLASS_ORIGIN).

Definition FormatDiagnosticMessage (diag_record : DiagRecord) (data_source component : bytes) : DiagRecord :=
  let error_msg := GetOriginalMessage diag_record in
  let msg := B"ODBC_Haybarn" in
  let msg := if bool_decide (data_source = []) then msg else msg ++ B"->" ++ data_source in
  let msg := if bool_decide (component = []) then msg else msg ++ B"->" ++ component in
  SetMessage (msg ++ [10] ++ error_msg) diag_record.

Definition AddDiagRecord (diag_record : DiagRecord) (d : OdbcDiagnostic) : OdbcDiagnostic :=
  let rec_idx := s16 (zlen (diag_records d)) in
  d <| diag_records ::= fun l => l ++ [diag_record] |> <| vec_record_idx ::= fun l => l ++ [rec_idx] |>.

(** The element of a vector at an index, [None] out of its bounds. *)
Definition vec_at {A} (l : list A) (i : Z) : option A := if i <? 0 then None else l !! Z.to_nat i.

Definition AddNewRecIdx (rec_idx : Z) (d : OdbcDiagnostic) : option OdbcDiagnostic :=
  origin_idx ← vec_at (vec_record_idx d) rec_idx;
  Some (d <| vec_record_idx ::= fun l => ztake (rec_idx + 1) l ++ origin_idx :: zdrop (rec_idx + 1) l |>).

Definition GetTotalRecords (d : OdbcDiagnostic) : Z := zlen (vec_record_idx d).

Definition Clean (d : OdbcDiagnostic) : OdbcDiagnostic :=
  d <| header := default_DiagHeader |> <| diag_records := [] |> <| vec_record_idx := [] |>.

Definition GetDiagDynamicFunction (d : OdbcDiagnostic) : bytes :=
  default [] (assoc_find MAP_DYNAMIC_FUNCTION (sql_diag_dynamic_function_code (header d))).

Definition VerifyRecordIndex (rec_idx : Z) (d : OdbcDiagnostic) : bool :=
  (rec_idx <? s32 (zlen (diag_records d))) && (0 <=? rec_idx).

(** The loop of [GetDiagRecord] that restores the indices to the identity. *)
Definition reset_record_idx (d : OdbcDiagnostic) : OdbcDiagnostic :=
  d <| vec_record_idx := (fun i => s16 (Z.of_nat i)) <$> seq 0 (length (diag_records d)) |>
    <| diag_records ::= fmap ClearStackMsgOffset |>.

(** [GetDiagRecord]: the index of the record in [diag_records] (the reference
    it returns) and the new state. *)
Definition GetDiagRecord (rec_idx : Z) (d : OdbcDiagnostic) : option (Z * OdbcDiagnostic) :=
  origin_idx ← vec_at (vec_record_idx d) rec_idx;
  _ ← vec_at (diag_records d) origin_idx;
  Some (origin_idx, if rec_idx =? 0 then reset_record_idx d else d).

(** [find("IM") != npos] *)
Fixpoint contains_IM (s : bytes) : bool :=
  match s with
  | a :: ((b :: _) as s') => ((a =? 73) && (b =? 77)) || contains_IM s'
  | _ => false
  end.

Definition GetDiagClassOrigin (rec_idx : Z) (d : OdbcDiagnostic) : option bytes :=
  r ← vec_at (diag_records d) rec_idx;
  Some (if contains_IM (sql_diag_sqlstate r) then B"ODBC 3.0" else B"ISO 9075").

Definition GetDiagSubclassOrigin (rec_idx : Z) (d : OdbcDiagnostic) : option bytes :=
  r ← vec_at (diag_records d) rec_idx;
  Some (if bool_decide (sql_diag_sqlstate r ∈ SET_ODBC3_SUBCLASS_ORIGIN) then B"ODBC 3.0" else B"ISO 9075").

(** [SetDiagnosticRecord] on the diagnostics of a handle; it returns [ret]. *)
Definition SetDiagnosticRecord (ret : Z) (component msg : bytes) (sqlstate_type : SQLStateType)
    (server_name : bytes) (d : OdbcDiagnostic) : Z * OdbcDiagnostic :=
  let diag_rec := make_DiagRecord msg sqlstate_type server_name SQL_NO_COLUMN_NUMBER 0 SQL_NO_ROW_NUMBER in
  let diag_rec := FormatDiagnosticMessage diag_rec server_name component in
  (ret, AddDiagRecord diag_rec d).

(** ** The invariant

    Every index names a record, the indices are a sequence of the records in
    order with repetitions, and the offsets of a record are positions of its
    message above a bottom offset 0. *)
Definition offsets_wf (r : DiagRecord) : Prop :=
  exists s, stack_msg_offset r = s ++ [0] /\ Forall (fun o => 0 <= o < zlen (sql_diag_message_text r)) s.

Record diag_wf (d : OdbcDiagnostic) : Prop := {
  dwf_small : zlen (diag_records d) < 2 ^ 15;
  dwf_idx : Forall (fun i => 0 <= i < zlen (diag_records d)) (vec_record_idx d);
  dwf_len : (length (diag_records d) <= length (vec_record_idx d))%nat;
  dwf_first : head (vec_record_idx d) = if decide (diag_records d = []) then None else Some 0;
  dwf_off : Forall offsets_wf (diag_records d)
}.

Lemma clear_stack_wf (P : Z -> Prop) s : Forall P s ->
  exists s', clear_stack (s ++ [0]) = s' ++ [0] /\ Forall P s' /\ head (s' ++ [0]) = Some 0.
Proof.
  induction 1 as [|o s Ho Hs IH]; [by exists []|]. cbn.
  destruct (Z.eqb_spec o 0) as [->|]; [|done]. cbn. exists (0 :: s). split; [done|].
  split; [by constructor|done].
Qed.
Lemma ClearStackMsgOffset_wf r : offsets_wf r ->
  offsets_wf (ClearStackMsgOffset r) /\ head (stack_msg_offset (ClearStackMsgOffset r)) = Some 0.
Proof.
  intros (s & E & Hs). destruct (clear_stack_wf _ s Hs) as (s' & E' & Hs' & Hh).
  rewrite <- E in E'. rewrite <- E' in Hh. split; [by exists s'|exact Hh].
Qed.
Lemma offsets_wf_bottom r : stack_msg_offset r = [0] -> offsets_wf r.
Proof. intros E. by exists []. Qed.
Lemma ClearStackMsgOffset_offsets r : offsets_wf r -> offsets_wf (ClearStackMsgOffset r).
Proof. intros H. by apply ClearStackMsgOffset_wf. Qed.
#[export] Hint Resolve offsets_wf_bottom ClearStackMsgOffset_offsets : odbc.

(** A message longer than 2^63 characters cannot exist. *)
Lemma GetMessage_wf b r :
  offsets_wf r -> 0 <= b < 2 ^ 15 -> zlen (sql_diag_message_text r) < 2 ^ 63 ->
  exists o r', head (stack_msg_offset r) = Some o /\ 0 <= o <= zlen (sql_diag_message_text r)
    /\ GetMessage b r = Some (zdrop o (sql_diag_message_text r), r') /\ offsets_wf r'
    /\ sql_diag_message_text r' = sql_diag_message_text r
    /\ head (stack_msg_offset r') =
         Some (if o + b <? zlen (sql_diag_message_text r) then o + b else 0).
Proof.
  intros (s & E & Hs) Hb Hlen. pose proof (zlen_nonneg (sql_diag_message_text r)).
  assert (exists o, head (stack_msg_offset r) = Some o /\ 0 <= o <= zlen (sql_diag_message_text r))
    as (o & Ho & Hr).
  { rewrite E. destruct Hs as [|o s Ho _]; cbn; eexists; (split; [done|lia]). }
  unfold GetMessage. rewrite Ho. cbn [option_bind mbind].
  rewrite wrap_u_small by (unfold in_u; lia). rewrite (proj2 (Z.ltb_ge _ o)) by lia.
  exists o. eexists. split; [done|]. split; [done|]. split; [done|].
  destruct (Z.leb_spec (zlen (sql_diag_message_text r)) (o + b)).
  - rewrite (proj2 (Z.ltb_ge _ _)) by lia.
    assert (offsets_wf r) as Hwf by by exists s.
    split; [by apply ClearStackMsgOffset_offsets|]. split; [done|].
    by apply ClearStackMsgOffset_wf.
  - rewrite (proj2 (Z.ltb_lt _ _)) by lia. split; [|done].
    exists (o + b :: s). split; [change (o + b :: stack_msg_offset r = (o + b :: s) ++ [0]); by rewrite E|].
    constructor; [|done]. change (0 <= o + b < zlen (sql_diag_message_text r)). lia.
Qed.

Lemma new_diag_wf : diag_wf new_OdbcDiagnostic.
Proof. by split. Qed.
Lemma Clean_wf d : diag_wf (Clean d).
Proof. by split. Qed.

Lemma vec_at_Some {A} (l : list A) i : 0 <= i < zlen l -> is_Some (vec_at l i).
Proof.
  intros Hi. unfold vec_at. rewrite (proj2 (Z.ltb_ge i 0)) by lia.
  apply lookup_lt_is_Some. unfold zlen in Hi. lia.
Qed.
Lemma vec_at_range {A} (l : list A) i x : vec_at l i = Some x -> 0 <= i < zlen l.
Proof.
  unfold vec_at. destruct (Z.ltb_spec i 0); [done|]. intros Hl%lookup_lt_Some. unfold zlen. lia.
Qed.
Lemma vec_at_Forall {A} (P : A -> Prop) l i x : Forall P l -> vec_at l i = Some x -> P x.
Proof. intros Hl. unfold vec_at. destruct (i <? 0); [done|]. by apply Forall_lookup_1. Qed.

Lemma AddDiagRecord_wf r d :
  diag_wf d -> offsets_wf r -> zlen (diag_records d) + 1 < 2 ^ 15 -> diag_wf (AddDiagRecord r d).
Proof.
  destruct d as [h recs idx]. intros [H1 H2 H3 H4 H5] Hr Hlen. cbn in H1, H2, H3, H4, H5, Hlen.
  unfold AddDiagRecord. pose proof (zlen_nonneg recs). cbn.
  rewrite wrap_s_small by (unfold in_s; lia). split; cbn.
  - rewrite zlen_app. change (zlen [r]) with 1. exact Hlen.
  - apply Forall_app. split.
    + eapply Forall_impl; [|exact H2]. intros x Hx. cbn in Hx |- *. rewrite zlen_app. change (zlen [r]) with 1. lia.
    + constructor; [|done]. rewrite zlen_app. change (zlen [r]) with 1. lia.
  - rewrite !length_app. cbn. lia.
  - rewrite decide_False by (intros E; by apply app_eq_nil in E as [_ ?]).
    destruct idx, recs; cbn in *; try done; lia.
  - apply Forall_app. by repeat constructor.
Qed.

Lemma AddNewRecIdx_wf i d :
  diag_wf d -> 0 <= i < GetTotalRecords d ->
  exists d', AddNewRecIdx i d = Some d' /\ diag_wf d'
    /\ diag_records d' = diag_records d /\ GetTotalRecords d' = GetTotalRecords d + 1.
Proof.
  destruct d as [h recs idx]. intros [H1 H2 H3 H4 H5] Hi. cbn in H1, H2, H3, H4, H5.
  unfold AddNewRecIdx, GetTotalRecords in *. cbn in Hi |- *.
  destruct (vec_at_Some idx i Hi) as [o Ho]. rewrite Ho. cbn.
  eexists. split; [done|]. split; [split; cbn|split; [done|]].
  - done.
  - apply Forall_app. split; [by apply Forall_take|]. constructor.
    + by apply (vec_at_Forall _ _ _ _ H2 Ho).
    + by apply Forall_drop.
  - unfold ztake, zdrop. rewrite length_app, length_take. cbn. rewrite length_drop. lia.
  - unfold ztake. replace (Z.to_nat (i + 1)) with (S (Z.to_nat i)) by lia.
    destruct idx; [cbn in Hi; unfold zlen in Hi; cbn in Hi; lia|]. exact H4.
  - done.
  - cbn. rewrite zlen_app, zlen_cons, zlen_ztake, zlen_zdrop by lia. lia.
Qed.

Lemma reset_record_idx_wf d : diag_wf d -> diag_wf (reset_record_idx d).
Proof.
  destruct d as [h recs idx]. intros [H1 H2 H3 H4 H5]. cbn in H1, H2, H3, H4, H5.
  unfold reset_record_idx. split; cbn.
  - unfold zlen. by rewrite length_fmap.
  - apply Forall_fmap, Forall_forall. intros k Hk%in_seq. cbn.
    unfold zlen in *. rewrite length_fmap. rewrite wrap_s_small by (unfold in_s; lia). lia.
  - rewrite !length_fmap, length_seq. done.
  - by destruct recs.
  - apply Forall_fmap. eapply Forall_impl; [|exact H5]. exact ClearStackMsgOffset_offsets.
Qed.

Lemma GetDiagRecord_wf i d :
  diag_wf d -> 0 <= i < GetTotalRecords d ->
  exists o d' r, GetDiagRecord i d = Some (o, d') /\ diag_wf d'
    /\ vec_at (vec_record_idx d) i = Some o /\ vec_at (diag_records d') o = Some r.
Proof.
  intros Hwf Hi. unfold GetDiagRecord.
  destruct (vec_at_Some (vec_record_idx d) i Hi) as [o Ho]. rewrite Ho. cbn.
  pose proof (vec_at_Forall _ _ _ _ (dwf_idx d Hwf) Ho) as Hor. cbn in Hor.
  destruct (vec_at_Some (diag_records d) o Hor) as [r Hr]. rewrite Hr. cbn.
  destruct (Z.eqb_spec i 0).
  - exists o, (reset_record_idx d), (ClearStackMsgOffset r). split; [done|].
    split; [by apply reset_record_idx_wf|]. split; [done|].
    change (diag_records (reset_record_idx d)) with (ClearStackMsgOffset <$> diag_records d).
    unfold vec_at in *. destruct (o <? 0); [done|]. by rewrite list_lookup_fmap, Hr.
  - by exists o, d, r.
Qed.

(** ** Handles as far as diagnostics go *)
Inductive OdbcHandleType := ENV | DBC | STMT | DESC.
#[global] Instance OdbcHandleType_eq_dec : EqDecision OdbcHandleType.
Proof. solve_decision. Defined.

Definition OdbcHandleTypeToString (type : OdbcHandleType) : bytes :=
  match type with ENV => B"ENV" | DBC => B"DBC" | STMT => B"STMT" | DESC => B"DESC" end.

(** The base class of the handles. A copied handle has no diagnostics. *)
Record OdbcHandle := MkOdbcHandle {
  type : OdbcHandleType;
  odbc_diagnostic : option OdbcDiagnostic
}.
Definition new_OdbcHandle (t : OdbcHandleType) : OdbcHandle := MkOdbcHandle t (Some new_OdbcDiagnostic).

(** ** Properties of the tables *)
Definition sqlstate_code (s : SQLStateType) : bytes :=
  match assoc_find MAP_ODBC_SQL_STATES s with Some e => code e | None => [] end.

Definition code_is (s : SQLStateType) (c : bytes) : bool := bool_decide (sqlstate_code s = c).

Lemma all_SQLStateType_complete s : In s all_SQLStateType.
Proof.
  assert (all_SQLStateType !! Z.to_nat (SQLStateType_value s) = Some s) as E by by destruct s.
  apply list_elem_of_In. by eapply list_elem_of_lookup_2.
Qed.

Lemma sqlstate_table_checked :
  forallb (fun s => bool_decide (is_Some (assoc_find MAP_ODBC_SQL_STATES s))
    && (zlen (sqlstate_code s) =? 5)
    && forallb (fun s' => implb (bool_decide (sqlstate_code s = sqlstate_code s')) (bool_decide (s = s')))
         all_SQLStateType) all_SQLStateType = true.
Proof. vm_compute. reflexivity. Qed.

(** The table of SQLSTATEs is total and injective: every enumerator the
    driver can post has an entry, its code has five characters, and two
    enumerators never share a code. *)
Theorem sqlstate_table s :
  is_Some (assoc_find MAP_ODBC_SQL_STATES s)
  /\ zlen (sqlstate_code s) = 5
  /\ forall s', sqlstate_code s = sqlstate_code s' <-> s = s'.
Proof.
  pose proof (proj1 (forallb_forall _ _) sqlstate_table_checked s (all_SQLStateType_complete s)) as H.
  apply andb_prop in H as [[H1 H2]%andb_prop H3].
  apply bool_decide_eq_true in H1. apply Z.eqb_eq in H2. split; [done|]. split; [done|].
  intros s'. split; [|by intros ->]. intros E.
  pose proof (proj1 (forallb_forall _ _) H3 s' (all_SQLStateType_complete s')) as H. cbn in H.
  rewrite (bool_decide_eq_true_2 _ E) in H. by apply bool_decide_eq_true in H.
Qed.
