(* ===== verification/DiagApi.v ===== *)
(** * [SQLGetDiagField] and [SQLGetDiagRec] ([odbc_api/diagnostic_api.cpp])

    Both read the diagnostics of a handle. [SQLGetDiagRec] delivers a message
    that is longer than the buffer in pieces: the record keeps the offset of the
    next piece and its index is repeated in [vec_record_idx], so that the next
    record number names the same record. *)

From S2P Require Import Prelude OdbcConst Memory Utf8 Widechar OdbcUtils Diagnostic.

(** [WriteStringDiag], both overloads. *)
Definition WriteStringDiag (c : CharType) (str : bytes) (character_attribute_ptr : ptr) (buffer_length : Z)
    (string_length : ptr) (m : mem) : Z * mem :=
  if buffer_length <? 0 then (SQL_ERROR, m)
  else
    let '(written, total, m) :=
      match c with
      | SQLCHAR_T =>
          let '(written, m) := WriteStringUtf8 str character_attribute_ptr (u64 buffer_length) m in
          (written, zlen str, m)
      | SQLWCHAR_T =>
          let '(written, utf16_vec, m) := WriteStringUtf16 str character_attribute_ptr (u64 buffer_length) m in
          (written, zlen utf16_vec, m)
      end in
    let m := store_opt 2 m string_length (s16 total) in
    (if negb (character_attribute_ptr =? nullptr) && (written <? total)
     then SQL_SUCCESS_WITH_INFO else SQL_SUCCESS, m).

(** [ConvertHandle] *)
Definition ConvertHandle (handle : option OdbcHandle) : Z + (OdbcHandle * OdbcDiagnostic) :=
  match handle with
  | None => inl SQL_INVALID_HANDLE
  | Some hdl =>
      match odbc_diagnostic hdl with
      | None => inl SQL_INVALID_HANDLE
      | Some d => inr (hdl, d)
      end
  end.

Definition is_stmt (hdl : OdbcHandle) : bool := bool_decide (type hdl = STMT).

(** The header fields of [GetDiagFieldInternal]; [inr tt] falls out of the
    switch. *)
Definition GetDiagHeaderField (c : CharType) (hdl : OdbcHandle) (d : OdbcDiagnostic)
    (diag_identifier : Z) (diag_info_ptr : ptr) (buffer_length : Z) (string_length_ptr : ptr) (m : mem)
    : option (Z * mem) + unit :=
  let ok (r : option mem) : option (Z * mem) := m ← r; Some (SQL_SUCCESS, m) in
  let stmt_only (r : option (Z * mem)) := if is_stmt hdl then r else Some (SQL_ERROR, m) in
  if diag_identifier =? SQL_DIAG_CURSOR_ROW_COUNT then
    inl (stmt_only (ok (Store 8 (sql_diag_cursor_row_count (header d)) diag_info_ptr m)))
  else if diag_identifier =? SQL_DIAG_DYNAMIC_FUNCTION then
    inl (stmt_only (Some (WriteStringDiag c (GetDiagDynamicFunction d) diag_info_ptr buffer_length
                            string_length_ptr m)))
  else if diag_identifier =? SQL_DIAG_DYNAMIC_FUNCTION_CODE then
    inl (stmt_only (ok (Store 4 (sql_diag_dynamic_function_code (header d)) diag_info_ptr m)))
  else if diag_identifier =? SQL_DIAG_NUMBER then
    inl (ok (Store 4 (sql_diag_number (header d)) diag_info_ptr m))
  else if diag_identifier =? SQL_DIAG_RETURNCODE then
    inl (ok (Store 2 (sql_diag_return_code (header d)) diag_info_ptr m))
  else if diag_identifier =? SQL_DIAG_ROW_COUNT then
    inl (stmt_only (ok (Store 8 (sql_diag_return_code (header d)) diag_info_ptr m)))
  else inr tt.

(** The record fields; [rec] is the copy the code takes. *)
Definition GetDiagRecordField (c : CharType) (hdl : OdbcHandle) (d : OdbcDiagnostic) (rec_idx : Z)
    (rec : DiagRecord) (diag_identifier : Z) (diag_info_ptr : ptr) (buffer_length : Z)
    (string_length_ptr : ptr) (m : mem) : option (Z * mem) :=
  let ok (r : option mem) : option (Z * mem) := m ← r; Some (SQL_SUCCESS, m) in
  let stmt_only (r : option (Z * mem)) := if is_stmt hdl then r else Some (SQL_ERROR, m) in
  let str s := Some (WriteStringDiag c s diag_info_ptr buffer_length string_length_ptr m) in
  if diag_identifier =? SQL_DIAG_CLASS_ORIGIN then s ← GetDiagClassOrigin rec_idx d; str s
  else if diag_identifier =? SQL_DIAG_COLUMN_NUMBER then
    stmt_only (ok (Store 4 (sql_diag_column_number rec) diag_info_ptr m))
  else if diag_identifier =? SQL_DIAG_CONNECTION_NAME then str []
  else if diag_identifier =? SQL_DIAG_MESSAGE_TEXT then
    '(msg, _) ← GetMessage buffer_length rec; str msg
  else if diag_identifier =? SQL_DIAG_NATIVE then
    ok (Store 4 (sql_diag_native rec) diag_info_ptr m)
  else if diag_identifier =? SQL_DIAG_ROW_NUMBER then
    stmt_only (ok (Store 8 (sql_diag_row_number rec) diag_info_ptr m))
  else if diag_identifier =? SQL_DIAG_SERVER_NAME then str (sql_diag_server_name rec)
  else if diag_identifier =? SQL_DIAG_SQLSTATE then str (sql_diag_sqlstate rec)
  else if diag_identifier =? SQL_DIAG_SUBCLASS_ORIGIN then s ← GetDiagSubclassOrigin rec_idx d; str s
  else Some (SQL_ERROR, m).

Definition is_handle_type (handle_type : Z) : bool :=
  (handle_type =? SQL_HANDLE_ENV) || (handle_type =? SQL_HANDLE_DBC)
  || (handle_type =? SQL_HANDLE_STMT) || (handle_type =? SQL_HANDLE_DESC).

(** [GetDiagFieldInternal]: the return code, the diagnostics of the handle after
    the call and the memory. *)
Definition GetDiagFieldInternal (c : CharType) (handle_type : Z) (handle : option OdbcHandle)
    (rec_number diag_identifier : Z) (diag_info_ptr : ptr) (buffer_length : Z) (string_length_ptr : ptr)
    (m : mem) : option (Z * option OdbcHandle * mem) :=
  if negb (is_handle_type handle_type) then Some (SQL_ERROR, handle, m)
  else match ConvertHandle handle with
  | inl ret => Some (ret, handle, m)
  | inr (hdl, d) =>
      match GetDiagHeaderField c hdl d diag_identifier diag_info_ptr buffer_length string_length_ptr m with
      | inl r => '(ret, m) ← r; Some (ret, handle, m)
      | inr _ =>
          if negb (IsDiagRecordField diag_identifier) then Some (SQL_ERROR, handle, m)
          else if rec_number <=? 0 then Some (SQL_ERROR, handle, m)
          else
            let rec_idx := rec_number - 1 in
            if negb (VerifyRecordIndex rec_idx d) then Some (SQL_ERROR, handle, m)
            else
              '(origin, d') ← GetDiagRecord rec_idx d;
              rec ← vec_at (diag_records d') origin;
              '(ret, m) ← GetDiagRecordField c hdl d' rec_idx rec diag_identifier diag_info_ptr
                            buffer_length string_length_ptr m;
              Some (ret, Some (hdl <| odbc_diagnostic := Some d' |>), m)
      end
  end.

Definition SQLGetDiagField := GetDiagFieldInternal SQLCHAR_T.

(** The wide entry point turns the length from characters into bytes. *)
Definition SQLGetDiagFieldW (handle_type : Z) (handle : option OdbcHandle)
    (rec_number diag_identifier : Z) (diag_info_ptr : ptr) (buffer_length : Z) (string_length_ptr : ptr)
    (m : mem) : option (Z * option OdbcHandle * mem) :=
  '(ret, handle, m) ← GetDiagFieldInternal SQLWCHAR_T handle_type handle rec_number diag_identifier
                        diag_info_ptr buffer_length string_length_ptr m;
  if SQL_SUCCEEDED ret && negb (string_length_ptr =? nullptr) then
    Some (ret, handle, store 2 m string_length_ptr (s16 (u64 (load_s 2 m string_length_ptr * 2))))
  else Some (ret, handle, m).

(** [WriteStringWithLenInChars], both overloads. The wide one returns early on a
    buffer of at most one character only when it has a length to report. *)
Definition WriteStringWithLenInChars (c : CharType) (msg_str : bytes) (message_text : ptr)
    (buffer_length_chars : Z) (text_length_chars_ptr : ptr) (m : mem) : mem :=
  match c with
  | SQLCHAR_T =>
      let '(_, m) := WriteStringUtf8 msg_str message_text (u64 buffer_length_chars) m in
      store_opt 2 m text_length_chars_ptr (s16 (zlen msg_str))
  | SQLWCHAR_T =>
      let utf16_vec := utf8_to_utf16_lenient msg_str in
      let small := buffer_length_chars <=? 1 in
      let m := if small && negb (message_text =? nullptr) && (buffer_length_chars =? 1)
               then store 2 m message_text 0 else m in
      if small && negb (text_length_chars_ptr =? nullptr) then store 2 m text_length_chars_ptr 0
      else
        let len_chars := Z.min (zlen utf16_vec) (u64 (buffer_length_chars - 1)) in
        let m := if negb (message_text =? nullptr)
                 then store 2 (write_words m message_text (ztake len_chars utf16_vec))
                        (message_text + 2 * len_chars) 0
                 else m in
        store_opt 2 m text_length_chars_ptr (s16 len_chars)
  end.

Definition handle_type_of (handle_type : Z) : option OdbcHandleType :=
  if handle_type =? SQL_HANDLE_ENV then Some ENV
  else if handle_type =? SQL_HANDLE_DBC then Some DBC
  else if handle_type =? SQL_HANDLE_STMT then Some STMT
  else if handle_type =? SQL_HANDLE_DESC then Some DESC
  else None.

(** The length of the message in characters of the entry point. *)
Definition msg_len_of (c : CharType) (msg : bytes) : Z :=
  if bool_decide (msg = []) then 0
  else match c with
       | SQLCHAR_T => s16 (zlen msg)
       | SQLWCHAR_T => s16 (zlen (utf8_to_utf16_lenient msg))
       end.

(** The part of [GetDiagRecInternal] after its argument checks. *)
Definition deliver_record (c : CharType) (d : OdbcDiagnostic) (rec_idx : Z) (sql_state native_error_ptr : ptr)
    (message_text : ptr) (buffer_length : Z) (text_length_ptr : ptr) (m : mem)
    : option (Z * OdbcDiagnostic * mem) :=
  '(origin, d) ← GetDiagRecord rec_idx d;
  diag_record ← vec_at (diag_records d) origin;
  let m := if negb (sql_state =? nullptr)
           then WriteStringWithLenInChars c (sql_diag_sqlstate diag_record) sql_state 6 nullptr m else m in
  let m := store_opt 4 m native_error_ptr (sql_diag_native diag_record) in
  '(msg, diag_record) ← GetMessage buffer_length diag_record;
  let d := d <| diag_records ::= <[Z.to_nat origin := diag_record]> |> in
  if message_text =? nullptr then
    Some (SQL_SUCCESS_WITH_INFO, d, store_opt 2 m text_length_ptr (Z.min (zlen msg) (2 ^ 15 - 1)))
  else
    let m := WriteStringWithLenInChars c msg message_text buffer_length text_length_ptr m in
    if negb (text_length_ptr =? nullptr) then
      let remaining_chars := s16 (msg_len_of c msg - buffer_length) in
      if 0 <? remaining_chars then
        d ← AddNewRecIdx rec_idx d; Some (SQL_SUCCESS_WITH_INFO, d, m)
      else Some (SQL_SUCCESS, d, m)
    else Some (SQL_SUCCESS, d, m).

Definition GetDiagRecInternal (c : CharType) (handle_type : Z) (handle : option OdbcHandle) (rec_number : Z)
    (sql_state native_error_ptr message_text : ptr) (buffer_length : Z) (text_length_ptr : ptr) (m : mem)
    : option (Z * option OdbcHandle * mem) :=
  match ConvertHandle handle with
  | inl ret => Some (ret, handle, m)
  | inr (hdl, d) =>
      let write msg := WriteStringWithLenInChars c msg message_text buffer_length text_length_ptr m in
      match handle_type_of handle_type with
      | None => Some (SQL_INVALID_HANDLE, handle, m)
      | Some target_type =>
          if negb (bool_decide (type hdl = target_type)) then
            Some (SQL_SUCCESS, handle,
                  write (B"Handle type " ++ OdbcHandleTypeToString (type hdl) ++ B" mismatch with "
                           ++ OdbcHandleTypeToString target_type))
          else if rec_number <=? 0 then
            Some (SQL_SUCCESS, handle, write (B"Record number is less than 1"))
          else if buffer_length <? 0 then
            Some (SQL_SUCCESS, handle, write (B"Buffer length is negative"))
          else if GetTotalRecords d <? rec_number then Some (SQL_NO_DATA, handle, m)
          else
            '(ret, d, m) ← deliver_record c d (rec_number - 1) sql_state native_error_ptr message_text
                             buffer_length text_length_ptr m;
            Some (ret, Some (hdl <| odbc_diagnostic := Some d |>), m)
      end
  end.

Definition SQLGetDiagRec := GetDiagRecInternal SQLCHAR_T.
Definition SQLGetDiagRecW := GetDiagRecInternal SQLWCHAR_T.

(** ** Retrieval never goes wrong on well-formed diagnostics *)
Definition messages (d : OdbcDiagnostic) : list bytes := sql_diag_message_text <$> diag_records d.

Lemma messages_reset d : messages (reset_record_idx d) = messages d.
Proof.
  destruct d as [h recs idx]. unfold messages. cbn. rewrite <- list_fmap_compose.
  apply list_fmap_ext. by intros i [] _.
Qed.

Lemma replace_record_wf o r r0 d :
  diag_wf d -> vec_at (diag_records d) o = Some r0 -> offsets_wf r ->
  sql_diag_message_text r = sql_diag_message_text r0 ->
  let d' := d <| diag_records ::= <[Z.to_nat o := r]> |> in
  diag_wf d' /\ messages d' = messages d /\ GetTotalRecords d' = GetTotalRecords d.
Proof.
  destruct d as [h recs idx]. intros [H1 H2 H3 H4 H5] Ho Hr Hm. cbn in H1, H2, H3, H4, H5, Ho.
  unfold vec_at in Ho. destruct (o <? 0); [done|]. cbn. unfold messages, zlen in *. cbn.
  split; [split; cbn; unfold zlen; rewrite ?length_insert; try done|split].
  - destruct recs; [by destruct idx|]. by destruct (Z.to_nat o).
  - by apply Forall_insert.
  - rewrite list_fmap_insert, list_insert_id; [done|]. rewrite list_lookup_fmap, Ho. cbn. by rewrite Hm.
  - done.
Qed.

Lemma GetDiagRecord_state i d o d' :
  GetDiagRecord i d = Some (o, d') -> d' = if i =? 0 then reset_record_idx d else d.
Proof.
  unfold GetDiagRecord. destruct (vec_at (vec_record_idx d) i) as [k|]; [|done]. cbn.
  destruct (vec_at (diag_records d) k); [|done]. cbn. congruence.
Qed.

Lemma deliver_record_wf c d i sql_state native text b lp m :
  diag_wf d -> Forall (fun s => zlen s < 2 ^ 63) (messages d) ->
  0 <= i < GetTotalRecords d -> 0 <= b < 2 ^ 15 ->
  exists ret d' m', deliver_record c d i sql_state native text b lp m = Some (ret, d', m')
    /\ diag_wf d' /\ messages d' = messages d
    /\ (ret = SQL_SUCCESS \/ ret = SQL_SUCCESS_WITH_INFO).
Proof.
  intros Hwf Hm Hi Hb. unfold deliver_record.
  destruct (GetDiagRecord_wf i d Hwf Hi) as (o & d1 & r & E & Hwf1 & Ho & Hr).
  assert (messages d1 = messages d /\ i < GetTotalRecords d1) as [Hm1 Hi1].
  { apply GetDiagRecord_state in E as Ed. destruct (Z.eqb_spec i 0); [|by rewrite Ed; split; [|lia]].
    rewrite Ed at 1. rewrite messages_reset. split; [done|].
    pose proof (dwf_len _ Hwf1). pose proof (vec_at_range _ _ _ Hr). unfold GetTotalRecords, zlen in *. lia. }
  rewrite E. cbn [mbind option_bind]. rewrite Hr. cbn [mbind option_bind].
  assert (offsets_wf r) as Hroff by apply (vec_at_Forall _ _ _ _ (dwf_off _ Hwf1) Hr).
  assert (zlen (sql_diag_message_text r) < 2 ^ 63) as Hlen.
  { rewrite <- Hm1 in Hm. unfold messages in Hm. rewrite Forall_fmap in Hm.
    apply (vec_at_Forall _ _ _ _ Hm Hr). }
  destruct (GetMessage_wf b r Hroff Hb Hlen) as (off & r' & _ & _ & Eg & Hr' & Hmsg & _).
  rewrite Eg. cbn [mbind option_bind].
  destruct (replace_record_wf o r' r d1 Hwf1 Hr Hr' Hmsg) as (Hwf2 & Hm2 & Ht2).
  rewrite <- Hm1, <- Hm2. set (d2 := d1 <| diag_records ::= _ |>) in *.
  destruct (text =? nullptr); [by eexists _, _, _; eauto|].
  destruct (negb (lp =? nullptr)); [|by eexists _, _, _; eauto].
  case_match; [|by eexists _, _, _; eauto].
  destruct (AddNewRecIdx_wf i d2 Hwf2) as (d3 & E3 & Hwf3 & Hr3 & _); [lia|]. rewrite E3.
  cbn [mbind option_bind]. eexists _, _, _. split; [done|]. split; [done|]. split; [|by right].
  unfold messages. by rewrite Hr3.
Qed.

(** [SQLGetDiagRec] and [SQLGetDiagRecW] never index out of range, pop an
    empty stack or cut a message beyond its end: from well-formed diagnostics
    every call with a matching handle type returns, leaves the diagnostics well
    formed with the same messages, and reports [SQL_NO_DATA] exactly when the
    record number exceeds the number of records. *)
Theorem GetDiagRec_total c ht t hdl d rec_number sql_state native text b lp m :
  handle_type_of ht = Some t -> hdl = MkOdbcHandle t (Some d) ->
  diag_wf d -> Forall (fun s => zlen s < 2 ^ 63) (messages d) ->
  0 < rec_number -> 0 <= b < 2 ^ 15 ->
  exists ret d' m',
    GetDiagRecInternal c ht (Some hdl) rec_number sql_state native text b lp m
      = Some (ret, Some (MkOdbcHandle t (Some d')), m')
    /\ diag_wf d' /\ messages d' = messages d
    /\ (ret = SQL_NO_DATA <-> GetTotalRecords d < rec_number).
Proof.
  intros Ht -> Hwf Hm Hrec Hb. unfold GetDiagRecInternal. cbn [ConvertHandle odbc_diagnostic type].
  rewrite Ht, bool_decide_eq_true_2 by done. cbn [negb].
  rewrite (proj2 (Z.leb_gt rec_number 0)), (proj2 (Z.ltb_ge b 0)) by lia.
  destruct (Z.ltb_spec (GetTotalRecords d) rec_number) as [Hlt|Hge].
  { by eexists _, _, _. }
  destruct (deliver_record_wf c d (rec_number - 1) sql_state native text b lp m Hwf Hm)
    as (ret & d' & m' & E & Hwf' & Hm' & Hret); [lia|done|].
  rewrite E. cbn. eexists _, _, _. split; [done|]. split; [done|]. split; [done|].
  split; [destruct Hret as [-> | ->]; done|lia].
Qed.

Definition demo_diag : OdbcDiagnostic :=
  (SetDiagnosticRecord SQL_ERROR (B"stmt") (B"No result") ST_HY000 (B"dsn") new_OdbcDiagnostic).2.

Lemma demo_diag_wf : diag_wf demo_diag.
Proof.
  unfold demo_diag, SetDiagnosticRecord. cbn [snd]. apply AddDiagRecord_wf; [apply new_diag_wf| |done].
  by apply offsets_wf_bottom.
Qed.

Lemma GetDiagRec_total_witness :
  exists ret d' m',
    GetDiagRecInternal SQLCHAR_T SQL_HANDLE_STMT (Some (MkOdbcHandle STMT (Some demo_diag))) 1 0 0 1000 8 2000 ∅
      = Some (ret, Some (MkOdbcHandle STMT (Some d')), m')
    /\ diag_wf d' /\ messages d' = messages demo_diag
    /\ (ret = SQL_NO_DATA <-> GetTotalRecords demo_diag < 1).
Proof.
  apply (GetDiagRec_total _ _ STMT); [done|done|apply demo_diag_wf| |done|done].
  by repeat constructor.
Defined.

(** ** Reading a long message piece by piece

    The application calls [SQLGetDiagRec] with record numbers 1, 2, ... as long
    as it is told that the text was truncated. *)
Fixpoint fetch_message (fuel : nat) (rec_number : Z) (h : option OdbcHandle) (out : ptr) (b : Z) (lp : ptr)
    (m : mem) : option (list bytes) :=
  match fuel with
  | O => None
  | S f =>
      '(ret, h', m') ← SQLGetDiagRec SQL_HANDLE_STMT h rec_number nullptr nullptr out b lp m;
      let text := read_bytes m' out (Z.to_nat (Z.min (load_s 2 m' lp) (b - 1))) in
      if ret =? SQL_SUCCESS_WITH_INFO then
        rest ← fetch_message f (rec_number + 1) h' out b lp m'; Some (text :: rest)
      else Some [text]
  end.

(** What the calls deliver: each advances by [b] characters and delivers at
    most [b - 1]. *)
Fixpoint pieces (fuel : nat) (b : Z) (s : bytes) : list bytes :=
  match fuel with
  | O => []
  | S f => if zlen s <=? b then [ztake (b - 1) s] else ztake (b - 1) s :: pieces f b (zdrop b s)
  end.

Fixpoint piece_offsets (b : Z) (i : nat) : list Z :=
  match i with O => [0] | S i' => Z.of_nat i * b :: piece_offsets b i' end.

(** The diagnostics after [i] truncated calls. *)
Definition piece_state (h : DiagHeader) (r : DiagRecord) (b : Z) (i : nat) : OdbcDiagnostic :=
  MkOdbcDiagnostic h [r <| stack_msg_offset := piece_offsets b i |>] (replicate (S i) 0).

Lemma piece_offsets_head b i : head (piece_offsets b i) = Some (Z.of_nat i * b).
Proof. by destruct i. Qed.
Lemma piece_offsets_clear b i : 0 < b -> clear_stack (piece_offsets b i) = [0].
Proof.
  intros Hb. induction i as [|i IH]; [done|]. cbn [piece_offsets clear_stack].
  by rewrite (proj2 (Z.eqb_neq (Z.of_nat (S i) * b) 0)) by lia.
Qed.

Lemma replicate_push i : ztake (Z.of_nat i + 1) (replicate (S i) 0) ++ 0 :: zdrop (Z.of_nat i + 1) (replicate (S i) 0)
  = replicate (S (S i)) 0.
Proof.
  unfold ztake, zdrop. replace (Z.to_nat (Z.of_nat i + 1)) with (S i) by lia.
  rewrite take_ge, drop_ge by (rewrite length_replicate; lia). symmetry. apply replicate_S_end.
Qed.

Lemma vec_at_replicate {A} n (x : A) i : (i < n)%nat -> vec_at (replicate n x) (Z.of_nat i) = Some x.
Proof.
  intros Hi. unfold vec_at. rewrite (proj2 (Z.ltb_ge _ 0)), Nat2Z.id by lia. by apply lookup_replicate_2.
Qed.

Lemma piece_GetDiagRecord h r b i : 0 < b ->
  GetDiagRecord (Z.of_nat i) (piece_state h r b i) = Some (0, piece_state h r b i).
Proof.
  intros Hb. unfold GetDiagRecord. change (vec_record_idx (piece_state h r b i)) with (replicate (S i) 0).
  rewrite vec_at_replicate by lia. cbn [mbind option_bind].
  change (vec_at (diag_records (piece_state h r b i)) 0) with (Some (r <| stack_msg_offset := piece_offsets b i |>)).
  cbn [mbind option_bind]. by destruct i.
Qed.

Lemma piece_GetMessage r b i : 0 < b < 2 ^ 15 -> Z.of_nat i * b < zlen (sql_diag_message_text r) < 2 ^ 15 ->
  GetMessage b (r <| stack_msg_offset := piece_offsets b i |>) =
  Some (zdrop (Z.of_nat i * b) (sql_diag_message_text r),
        r <| stack_msg_offset :=
          if zlen (sql_diag_message_text r) <=? Z.of_nat i * b + b then [0] else piece_offsets b (S i) |>).
Proof.
  intros Hb Hi. unfold GetMessage.
  change (stack_msg_offset (r <| stack_msg_offset := piece_offsets b i |>)) with (piece_offsets b i).
  rewrite piece_offsets_head. cbn [mbind option_bind].
  change (sql_diag_message_text (r <| stack_msg_offset := piece_offsets b i |>)) with (sql_diag_message_text r).
  rewrite wrap_u_small by (unfold in_u; lia). rewrite (proj2 (Z.ltb_ge _ (Z.of_nat i * b))) by lia.
  do 2 f_equal. destruct (zlen (sql_diag_message_text r) <=? Z.of_nat i * b + b).
  - unfold ClearStackMsgOffset. destruct r. cbn. by rewrite piece_offsets_clear by lia.
  - destruct r. cbn. do 2 f_equal. lia.
Qed.

(** The memory after one delivery. *)
Definition delivered (s : bytes) (out : ptr) (b : Z) (lp : ptr) (m : mem) : mem :=
  store 2 (WriteStringUtf8 s out b m).2 lp (zlen s).

Lemma delivered_text s out b lp m :
  out <> nullptr -> 0 < b < 2 ^ 15 -> zlen s < 2 ^ 15 -> lp + 2 <= out \/ out + b <= lp ->
  let m' := delivered s out b lp m in
  load_s 2 m' lp = zlen s
  /\ read_bytes m' out (Z.to_nat (Z.min (load_s 2 m' lp) (b - 1))) = ztake (b - 1) s.
Proof.
  intros Hout Hb Hs Hlp m'. pose proof (zlen_nonneg s).
  assert (load_s 2 m' lp = zlen s) as El.
  { apply (load_s_store_in 2); [lia|unfold in_s; cbn; lia]. }
  split; [done|]. rewrite El. unfold m', delivered.
  rewrite read_bytes_ext with (m' := write_bytes m out (ztake (Z.min (zlen s) (b - 1)) s)).
  - rewrite read_write_prefix by (rewrite zlen_ztake; lia).
    unfold ztake. destruct (Z.le_gt_cases (zlen s) (b - 1)).
    + rewrite Z.min_l by lia. rewrite !take_ge; [done|unfold zlen in *; lia..].
    + by rewrite Z.min_r by lia.
  - intros a Ha. rewrite store_outside by lia. rewrite WriteStringUtf8_inside by (done || lia). cbn [snd].
    apply store_outside. lia.
Qed.

(** One call in the [i]-th state. *)
Lemma piece_step h r b i out lp m :
  let s := zdrop (Z.of_nat i * b) (sql_diag_message_text r) in
  out <> nullptr -> lp <> nullptr -> 0 < b < 2 ^ 15 ->
  Z.of_nat i * b < zlen (sql_diag_message_text r) < 2 ^ 15 ->
  exists d', SQLGetDiagRec SQL_HANDLE_STMT (Some (MkOdbcHandle STMT (Some (piece_state h r b i))))
      (Z.of_nat i + 1) nullptr nullptr out b lp m
    = Some (if zlen s <=? b then SQL_SUCCESS else SQL_SUCCESS_WITH_INFO,
            Some (MkOdbcHandle STMT (Some d')), delivered s out b lp m)
    /\ (b < zlen s -> d' = piece_state h r b (S i)).
Proof.
  intros s Hout Hlp Hb Hi. unfold SQLGetDiagRec, GetDiagRecInternal. cbn [ConvertHandle odbc_diagnostic type].
  change (handle_type_of SQL_HANDLE_STMT) with (Some STMT). cbv iota beta zeta. rewrite bool_decide_eq_true_2 by done. cbn [negb].
  rewrite (proj2 (Z.leb_gt _ 0)), (proj2 (Z.ltb_ge b 0)) by lia.
  unfold GetTotalRecords at 1. cbn [piece_state vec_record_idx]. unfold zlen at 1.
  rewrite length_replicate, (proj2 (Z.ltb_ge _ _)) by lia. fold (piece_state h r b i).
  replace (Z.of_nat i + 1 - 1) with (Z.of_nat i) by lia.
  unfold deliver_record. rewrite piece_GetDiagRecord by lia. cbn [mbind option_bind].
  change (vec_at (diag_records (piece_state h r b i)) 0) with (Some (r <| stack_msg_offset := piece_offsets b i |>)).
  cbn [mbind option_bind]. rewrite piece_GetMessage by done. cbn [mbind option_bind].
  fold s. assert (zlen s = zlen (sql_diag_message_text r) - Z.of_nat i * b) as Es.
  { unfold s. rewrite zlen_zdrop by lia. lia. }
  pose proof (zlen_nonneg s).
  change (negb (nullptr =? nullptr)) with false. cbn [store_opt].
  rewrite (proj2 (Z.eqb_neq out nullptr)), (proj2 (Z.eqb_neq lp nullptr)) by done. cbn [negb].
  assert (msg_len_of SQLCHAR_T s = zlen s) as ->.
  { unfold msg_len_of. case_bool_decide as E; [by rewrite E|]. apply wrap_s_small; [lia|unfold in_s; lia]. }
  rewrite (wrap_s_small 16) by (unfold in_s; lia).
  assert (WriteStringWithLenInChars SQLCHAR_T s out b lp m = delivered s out b lp m) as Ew.
  { unfold WriteStringWithLenInChars, delivered. rewrite (wrap_u_small 64 b) by (unfold in_u; lia).
    destruct (WriteStringUtf8 s out b m) as [? m1]. unfold store_opt.
    rewrite (proj2 (Z.eqb_neq lp nullptr)) by done. by rewrite wrap_s_small by (unfold in_s; lia). }
  rewrite store_opt_null, Ew. destruct (Z.leb_spec (zlen s) b) as [Hle|Hgt].
  - rewrite (proj2 (Z.ltb_ge 0 _)) by lia. cbn [mbind option_bind]. eexists. split; [reflexivity|lia].
  - rewrite (proj2 (Z.ltb_lt 0 _)) by lia. rewrite (proj2 (Z.leb_gt _ _)) by lia.
    unfold AddNewRecIdx.
    match goal with |- context [vec_at (vec_record_idx ?d) _] => change (vec_record_idx d) with (replicate (S i) 0) end.
    rewrite vec_at_replicate by lia. cbn [mbind option_bind]. eexists. split; [reflexivity|].
    intros _. cbn. unfold piece_state. f_equal. apply replicate_push.
Qed.

Lemma fetch_message_from h r b out lp fuel i m :
  out <> nullptr -> lp <> nullptr -> 0 < b < 2 ^ 15 -> lp + 2 <= out \/ out + b <= lp ->
  Z.of_nat i * b < zlen (sql_diag_message_text r) < 2 ^ 15 ->
  zlen (sql_diag_message_text r) <= (Z.of_nat i + Z.of_nat fuel) * b ->
  fetch_message fuel (Z.of_nat i + 1) (Some (MkOdbcHandle STMT (Some (piece_state h r b i)))) out b lp m
  = Some (pieces fuel b (zdrop (Z.of_nat i * b) (sql_diag_message_text r))).
Proof.
  intros Hout Hlp Hb Hdisj. revert i m. induction fuel as [|f IH]; intros i m Hi Hf; [lia|].
  cbn [fetch_message pieces]. set (s := zdrop _ _).
  destruct (piece_step h r b i out lp m Hout Hlp Hb Hi) as (d' & E & Hd'). fold s in E, Hd'.
  rewrite E. cbn [mbind option_bind].
  assert (zlen s = zlen (sql_diag_message_text r) - Z.of_nat i * b) as Es.
  { unfold s. rewrite zlen_zdrop; lia. }
  destruct (delivered_text s out b lp m Hout Hb ltac:(lia) Hdisj) as [_ ->].
  destruct (Z.leb_spec (zlen s) b) as [Hle|Hgt]; [done|]. rewrite Hd' by lia.
  change (SQL_SUCCESS_WITH_INFO =? SQL_SUCCESS_WITH_INFO) with true. cbv iota.
  replace (Z.of_nat i + 1 + 1) with (Z.of_nat (S i) + 1) by lia. rewrite IH by lia.
  cbn [mbind option_bind]. unfold s. rewrite zdrop_zdrop by lia. do 5 f_equal. lia.
Qed.

(** The pieces lose the [b]-th character of every piece but the last. *)
Lemma pieces_length fuel b s : 0 < b -> zlen s <= Z.of_nat fuel * b ->
  zlen (mjoin (pieces fuel b s)) <= zlen s /\ (b <= zlen s -> zlen (mjoin (pieces fuel b s)) < zlen s).
Proof.
  intros Hb. revert s. induction fuel as [|f IH]; intros s Hs.
  { cbn. pose proof (zlen_nonneg s). change (zlen []) with 0. lia. }
  cbn [pieces]. destruct (Z.leb_spec (zlen s) b).
  - cbn [mjoin list_join]. rewrite app_nil_r, zlen_ztake; lia.
  - change (mjoin (?x :: ?l)) with (x ++ mjoin l). rewrite zlen_app, zlen_ztake by lia.
    destruct (IH (zdrop b s)) as [Hle _]; [rewrite zlen_zdrop; lia|]. rewrite zlen_zdrop in Hle by lia. lia.
Qed.
Lemma pieces_short fuel b s : zlen s < b -> mjoin (pieces (S fuel) b s) = s.
Proof.
  intros Hs. cbn [pieces]. rewrite (proj2 (Z.leb_le _ _)) by lia.
  cbn [mjoin list_join]. rewrite app_nil_r. apply ztake_ge. lia.
Qed.


Definition demo_record : DiagRecord := make_DiagRecord (B"Conversion Error") ST_22018 [] (-1) 0 (-1).

