(* ===== verification/Interval.v ===== *)
(** * Interval decomposition ([odbc_driver/common/odbc_interval.cpp])

    DuckDB's interval is a triple of months, days and microseconds; the client
    asks for one of the thirteen interval types and receives a
    [SQL_INTERVAL_STRUCT]. Its union of [year_month] and [day_second] is modelled
    by the five 32-bit words it occupies: [year] is the word of [day], [month]
    the word of [hour]. Signed division truncates ([Z.quot], [Z.rem]). *)

From S2P Require Import Prelude OdbcConst.

Record interval_t := MkInterval { months : Z; days : Z; micros : Z }.

Record SQL_INTERVAL_STRUCT := MkIntervalStruct {
  interval_type : Z;
  interval_sign : Z;
  day : Z;          (* also year_month.year *)
  hour : Z;         (* also year_month.month *)
  minute : Z;
  second : Z;
  fraction : Z
}.

Definition MONTHS_PER_YEAR : Z := 12.
Definition DAYS_PER_MONTH : Z := 30.
Definition SECS_PER_MINUTE : Z := 60.
Definition MINS_PER_HOUR : Z := 60.
Definition HOURS_PER_DAY : Z := 24.
Definition MICROS_PER_SEC : Z := 1000000.
Definition MICROS_PER_MINUTE : Z := 60000000.
Definition MICROS_PER_HOUR : Z := 3600000000.

(** [std::abs] on the 32-bit and the 64-bit type; on the minimum of the type it
    is undefined, and the value here is the one of two's complement. *)
Definition abs32 (z : Z) : Z := s32 (Z.abs z).
Definition abs64 (z : Z) : Z := s64 (Z.abs z).

Definition SetSignal (i : interval_t) (s : SQL_INTERVAL_STRUCT) : SQL_INTERVAL_STRUCT :=
  let sign z := if z <? 0 then SQL_TRUE else SQL_FALSE in
  if negb (months i =? 0) then s <| interval_sign := sign (months i) |>
  else if negb (days i =? 0) then s <| interval_sign := sign (days i) |>
  else s <| interval_sign := sign (micros i) |>.

Definition SetYear (i : interval_t) (s : SQL_INTERVAL_STRUCT) : SQL_INTERVAL_STRUCT :=
  s <| interval_type := SQL_IS_YEAR |> <| day := u32 (Z.quot (abs32 (months i)) MONTHS_PER_YEAR) |>.

Definition SetMonth (i : interval_t) (s : SQL_INTERVAL_STRUCT) : SQL_INTERVAL_STRUCT :=
  s <| interval_type := SQL_IS_MONTH |> <| hour := u32 (abs32 (months i)) |>.

Definition SetDay (i : interval_t) (s : SQL_INTERVAL_STRUCT) : SQL_INTERVAL_STRUCT :=
  s <| interval_type := SQL_IS_DAY |> <| day := u32 (abs64 (days i + months i * DAYS_PER_MONTH)) |>.

Definition SetHour (i : interval_t) (s : SQL_INTERVAL_STRUCT) : SQL_INTERVAL_STRUCT :=
  let s := SetDay i s in
  let s := s <| interval_type := SQL_IS_HOUR |> in
  let s := s <| hour := u32 (day s * HOURS_PER_DAY) |> in
  let s := s <| hour := u32 (hour s + u32 (Z.quot (abs64 (micros i)) MICROS_PER_HOUR)) |> in
  s <| fraction := u32 (Z.rem (abs64 (micros i)) MICROS_PER_HOUR) |>.

Definition SetMinute (i : interval_t) (s : SQL_INTERVAL_STRUCT) : SQL_INTERVAL_STRUCT :=
  let s := SetHour i s in
  let s := s <| interval_type := SQL_IS_MINUTE |> in
  let s := s <| minute := u32 (hour s * MINS_PER_HOUR) |> in
  let s := s <| minute := u32 (minute s + Z.quot (fraction s) MICROS_PER_MINUTE) |> in
  s <| fraction := u32 (Z.rem (fraction s) MICROS_PER_MINUTE) |>.

Definition SetSecond (i : interval_t) (s : SQL_INTERVAL_STRUCT) : SQL_INTERVAL_STRUCT :=
  let s := SetMinute i s in
  let s := s <| interval_type := SQL_IS_SECOND |> in
  let s := s <| second := u32 (minute s * SECS_PER_MINUTE) |> in
  let s := s <| fraction := u32 (fraction s + u32 (Z.quot (abs64 (micros i)) MICROS_PER_SEC)) |> in
  s <| fraction := u32 (Z.rem (abs64 (micros i)) MICROS_PER_SEC) |>.

Definition SetDayToHour (i : interval_t) (s : SQL_INTERVAL_STRUCT) : SQL_INTERVAL_STRUCT :=
  let s := SetDay i s in
  let s := s <| interval_type := SQL_IS_DAY_TO_HOUR |> in
  let s := s <| hour := u32 (Z.quot (abs64 (micros i)) MICROS_PER_HOUR) |> in
  s <| fraction := u32 (Z.rem (abs64 (micros i)) MICROS_PER_HOUR) |>.

Definition SetDayToMinute (i : interval_t) (s : SQL_INTERVAL_STRUCT) : SQL_INTERVAL_STRUCT :=
  let s := SetDayToHour i s in
  let s := s <| interval_type := SQL_IS_DAY_TO_MINUTE |> in
  let s := s <| minute := u32 (Z.quot (fraction s) MICROS_PER_MINUTE) |> in
  s <| fraction := u32 (Z.rem (fraction s) MICROS_PER_MINUTE) |>.

Definition SetDayToSecond (i : interval_t) (s : SQL_INTERVAL_STRUCT) : SQL_INTERVAL_STRUCT :=
  let s := SetDayToMinute i s in
  let s := s <| interval_type := SQL_IS_DAY_TO_SECOND |> in
  let s := s <| second := u32 (Z.quot (fraction s) MICROS_PER_SEC) |> in
  s <| fraction := u32 (Z.rem (fraction s) MICROS_PER_SEC) |>.

Definition SetHourToMinute (i : interval_t) (s : SQL_INTERVAL_STRUCT) : SQL_INTERVAL_STRUCT :=
  let s := SetHour i s in
  let s := s <| interval_type := SQL_IS_HOUR_TO_MINUTE |> in
  let s := s <| minute := u32 (Z.quot (fraction s) MICROS_PER_MINUTE) |> in
  s <| fraction := u32 (Z.rem (fraction s) MICROS_PER_MINUTE) |>.

Definition SetHourToSecond (i : interval_t) (s : SQL_INTERVAL_STRUCT) : SQL_INTERVAL_STRUCT :=
  let s := SetHourToMinute i s in
  let s := s <| interval_type := SQL_IS_HOUR_TO_SECOND |> in
  let s := s <| second := u32 (Z.quot (fraction s) MICROS_PER_SEC) |> in
  s <| fraction := u32 (Z.rem (fraction s) MICROS_PER_SEC) |>.

Definition SetMinuteToSecond (i : interval_t) (s : SQL_INTERVAL_STRUCT) : SQL_INTERVAL_STRUCT :=
  let s := SetMinute i s in
  let s := s <| interval_type := SQL_IS_MINUTE_TO_SECOND |> in
  let s := s <| second := u32 (Z.quot (fraction s) MICROS_PER_SEC) |> in
  s <| fraction := u32 (Z.rem (fraction s) MICROS_PER_SEC) |>.

Definition IsIntervalType (value_type : Z) : bool :=
  (value_type =? SQL_C_INTERVAL_YEAR) || (value_type =? SQL_C_INTERVAL_MONTH)
  || (value_type =? SQL_C_INTERVAL_DAY) || (value_type =? SQL_C_INTERVAL_HOUR)
  || (value_type =? SQL_C_INTERVAL_MINUTE) || (value_type =? SQL_C_INTERVAL_SECOND)
  || (value_type =? SQL_C_INTERVAL_YEAR_TO_MONTH) || (value_type =? SQL_C_INTERVAL_DAY_TO_HOUR)
  || (value_type =? SQL_C_INTERVAL_DAY_TO_MINUTE) || (value_type =? SQL_C_INTERVAL_DAY_TO_SECOND)
  || (value_type =? SQL_C_INTERVAL_HOUR_TO_MINUTE) || (value_type =? SQL_C_INTERVAL_HOUR_TO_SECOND)
  || (value_type =? SQL_C_INTERVAL_MINUTE_TO_SECOND).

(** A [switch] with a [return] in each case. *)
Fixpoint switch (cases : list (Z * Z)) (default value : Z) : Z :=
  match cases with
  | [] => default
  | (c, r) :: cases' => if value =? c then r else switch cases' default value
  end.

Definition GetSQLIntervalType : Z -> Z := switch
  [(SQL_C_INTERVAL_YEAR, SQL_INTERVAL_YEAR); (SQL_C_INTERVAL_MONTH, SQL_INTERVAL_MONTH);
   (SQL_C_INTERVAL_DAY, SQL_INTERVAL_DAY); (SQL_C_INTERVAL_HOUR, SQL_INTERVAL_HOUR);
   (SQL_C_INTERVAL_MINUTE, SQL_INTERVAL_MINUTE); (SQL_C_INTERVAL_SECOND, SQL_INTERVAL_SECOND);
   (SQL_C_INTERVAL_YEAR_TO_MONTH, SQL_INTERVAL_YEAR_TO_MONTH);
   (SQL_C_INTERVAL_DAY_TO_HOUR, SQL_INTERVAL_DAY_TO_HOUR);
   (SQL_C_INTERVAL_DAY_TO_MINUTE, SQL_INTERVAL_DAY_TO_MINUTE);
   (SQL_C_INTERVAL_DAY_TO_SECOND, SQL_INTERVAL_DAY_TO_SECOND);
   (SQL_C_INTERVAL_HOUR_TO_MINUTE, SQL_INTERVAL_HOUR_TO_MINUTE);
   (SQL_C_INTERVAL_HOUR_TO_SECOND, SQL_INTERVAL_HOUR_TO_SECOND);
   (SQL_C_INTERVAL_MINUTE_TO_SECOND, SQL_INTERVAL_MINUTE_TO_SECOND)] SQL_ERROR.

Definition GetIntervalCode : Z -> Z := switch
  [(SQL_C_INTERVAL_YEAR, SQL_CODE_YEAR); (SQL_C_INTERVAL_MONTH, SQL_CODE_MONTH);
   (SQL_C_INTERVAL_DAY, SQL_CODE_DAY); (SQL_C_INTERVAL_HOUR, SQL_CODE_HOUR);
   (SQL_C_INTERVAL_MINUTE, SQL_CODE_MINUTE); (SQL_C_INTERVAL_SECOND, SQL_CODE_SECOND);
   (SQL_C_INTERVAL_YEAR_TO_MONTH, SQL_CODE_YEAR_TO_MONTH);
   (SQL_C_INTERVAL_DAY_TO_HOUR, SQL_CODE_DAY_TO_HOUR);
   (SQL_C_INTERVAL_DAY_TO_MINUTE, SQL_CODE_DAY_TO_MINUTE);
   (SQL_C_INTERVAL_DAY_TO_SECOND, SQL_CODE_DAY_TO_SECOND);
   (SQL_C_INTERVAL_HOUR_TO_MINUTE, SQL_CODE_HOUR_TO_MINUTE);
   (SQL_C_INTERVAL_HOUR_TO_SECOND, SQL_CODE_HOUR_TO_SECOND);
   (SQL_C_INTERVAL_MINUTE_TO_SECOND, SQL_CODE_MINUTE_TO_SECOND)] SQL_ERROR.

(** The case [SQL_C_INTERVAL_YEAR_TO_MONTH] of [GetDataStmtResult]. *)
Definition SetYearToMonth (i : interval_t) (s : SQL_INTERVAL_STRUCT) : SQL_INTERVAL_STRUCT :=
  let s := SetYear i s in
  let s := s <| hour := u32 (Z.rem (abs32 (months i)) MONTHS_PER_YEAR) |> in
  s <| interval_type := SQL_IS_YEAR_TO_MONTH |>.

(** The thirteen interval cases of [GetDataStmtResult]: decompose, then sign. *)
Definition interval_setter (target_type : Z) : option (interval_t -> SQL_INTERVAL_STRUCT -> SQL_INTERVAL_STRUCT) :=
  if target_type =? SQL_C_INTERVAL_YEAR then Some SetYear
  else if target_type =? SQL_C_INTERVAL_MONTH then Some SetMonth
  else if target_type =? SQL_C_INTERVAL_DAY then Some SetDay
  else if target_type =? SQL_C_INTERVAL_HOUR then Some SetHour
  else if target_type =? SQL_C_INTERVAL_MINUTE then Some SetMinute
  else if target_type =? SQL_C_INTERVAL_SECOND then Some SetSecond
  else if target_type =? SQL_C_INTERVAL_YEAR_TO_MONTH then Some SetYearToMonth
  else if target_type =? SQL_C_INTERVAL_DAY_TO_HOUR then Some SetDayToHour
  else if target_type =? SQL_C_INTERVAL_DAY_TO_MINUTE then Some SetDayToMinute
  else if target_type =? SQL_C_INTERVAL_DAY_TO_SECOND then Some SetDayToSecond
  else if target_type =? SQL_C_INTERVAL_HOUR_TO_MINUTE then Some SetHourToMinute
  else if target_type =? SQL_C_INTERVAL_HOUR_TO_SECOND then Some SetHourToSecond
  else if target_type =? SQL_C_INTERVAL_MINUTE_TO_SECOND then Some SetMinuteToSecond
  else None.

Definition decompose (target_type : Z) (i : interval_t) (s : SQL_INTERVAL_STRUCT) : option SQL_INTERVAL_STRUCT :=
  set ← interval_setter target_type; Some (SetSignal i (set i s)).

(** ** The decompositions are exact *)
Definition interval_ok (i : interval_t) : Prop :=
  - 2 ^ 31 < months i < 2 ^ 31 /\ - 2 ^ 31 < days i < 2 ^ 31 /\ - 2 ^ 63 < micros i < 2 ^ 63.

(** The number of days an interval stands for. *)
Definition total_days (i : interval_t) : Z := Z.abs (days i + months i * 30).

Lemma abs32_exact z : - 2 ^ 31 < z < 2 ^ 31 -> abs32 z = Z.abs z.
Proof. intros. apply wrap_s_small; [lia|unfold in_s; lia]. Qed.
Lemma abs64_exact z : - 2 ^ 63 < z < 2 ^ 63 -> abs64 z = Z.abs z.
Proof. intros. apply wrap_s_small; [lia|unfold in_s; lia]. Qed.

Lemma quot_pos a b : 0 <= a -> 0 < b -> Z.quot a b = a / b.
Proof. intros. apply Z.quot_div_nonneg; lia. Qed.
Lemma rem_pos a b : 0 <= a -> 0 < b -> Z.rem a b = a mod b.
Proof. intros. apply Z.rem_mod_nonneg; lia. Qed.

(** The hours and the rest of the microseconds, which every day-time type
    starts from. *)
Lemma micros_hours i : interval_ok i ->
  u32 (Z.quot (abs64 (micros i)) MICROS_PER_HOUR) = Z.abs (micros i) / MICROS_PER_HOUR
  /\ u32 (Z.rem (abs64 (micros i)) MICROS_PER_HOUR) = Z.abs (micros i) mod MICROS_PER_HOUR.
Proof.
  intros (_ & _ & Hm). rewrite abs64_exact by done. unfold MICROS_PER_HOUR.
  rewrite quot_pos, rem_pos by lia. rewrite !wrap_u_small by (unfold in_u; dlia). split; reflexivity.
Qed.

Lemma fraction_split k f : 0 < k -> 0 <= f < 2 ^ 32 ->
  u32 (Z.quot f k) = f / k /\ u32 (Z.rem f k) = f mod k.
Proof.
  intros Hk Hf. rewrite quot_pos, rem_pos by lia.
  pose proof (Z.mod_pos_bound f k Hk). pose proof (Z.div_pos f k ltac:(lia) Hk).
  assert (f / k <= f) by (apply Z.div_le_upper_bound; nia).
  pose proof (Z.mod_le f k ltac:(lia) Hk).
  rewrite (wrap_u_small 32 (f / k)), (wrap_u_small 32 (f mod k)) by (unfold in_u; lia). done.
Qed.

Definition word (z : Z) : Prop := 0 <= z < 2 ^ 32.

Lemma SetDay_day i s : day (SetDay i s) = u32 (abs64 (days i + months i * DAYS_PER_MONTH)).
Proof. by destruct s. Qed.
Lemma SetDay_exact i s : interval_ok i -> total_days i < 2 ^ 32 -> day (SetDay i s) = total_days i.
Proof.
  intros (Hm & Hd & _) Ht. rewrite SetDay_day. unfold total_days, DAYS_PER_MONTH in *.
  rewrite abs64_exact by lia. apply wrap_u_small. unfold in_u. lia.
Qed.

Lemma SetHour_exact i s : interval_ok i -> total_days i * 24 + Z.abs (micros i) / MICROS_PER_HOUR < 2 ^ 32 ->
  hour (SetHour i s) = total_days i * 24 + Z.abs (micros i) / MICROS_PER_HOUR
  /\ fraction (SetHour i s) = Z.abs (micros i) mod MICROS_PER_HOUR.
Proof.
  intros Hi Ht. destruct (micros_hours i Hi) as [E1 E2]. unfold SetHour. cbv zeta.
  pose proof (Z.div_pos (Z.abs (micros i)) MICROS_PER_HOUR ltac:(lia) ltac:(done)).
  pose proof (SetDay_exact i s Hi ltac:(unfold total_days in *; lia)) as Ed.
  destruct (SetDay i s) as [t sg d h mi se f]. cbn in Ed |- *. rewrite E1, E2, Ed.
  rewrite (wrap_u_small 32 (total_days i * HOURS_PER_DAY)) by (unfold in_u, total_days, HOURS_PER_DAY in *; lia).
  rewrite wrap_u_small by (unfold in_u, total_days, HOURS_PER_DAY in *; lia). done.
Qed.

(** The steps from a fraction below one hour to minutes and seconds. *)
Lemma hour_rest f : 0 <= f < MICROS_PER_HOUR ->
  u32 (Z.quot f MICROS_PER_MINUTE) = f / MICROS_PER_MINUTE
  /\ u32 (Z.rem f MICROS_PER_MINUTE) = f mod MICROS_PER_MINUTE
  /\ u32 (Z.quot (f mod MICROS_PER_MINUTE) MICROS_PER_SEC) = f mod MICROS_PER_MINUTE / MICROS_PER_SEC
  /\ u32 (Z.rem (f mod MICROS_PER_MINUTE) MICROS_PER_SEC) = f mod MICROS_PER_MINUTE mod MICROS_PER_SEC.
Proof.
  unfold MICROS_PER_HOUR, MICROS_PER_MINUTE, MICROS_PER_SEC. intros Hf.
  destruct (fraction_split 60000000 f ltac:(lia) ltac:(lia)) as [-> ->].
  destruct (fraction_split 1000000 (f mod 60000000) ltac:(lia) ltac:(dlia)) as [-> ->]. done.
Qed.

Lemma hms_sum a : 0 <= a ->
  let f := a mod MICROS_PER_HOUR in
  let g := f mod MICROS_PER_MINUTE in
  ((a / MICROS_PER_HOUR * 60 + f / MICROS_PER_MINUTE) * 60 + g / MICROS_PER_SEC) * 1000000
    + g mod MICROS_PER_SEC = a
  /\ 0 <= f / MICROS_PER_MINUTE < 60 /\ 0 <= g / MICROS_PER_SEC < 60 /\ 0 <= g mod MICROS_PER_SEC < 1000000.
Proof.
  intros Ha f g. unfold MICROS_PER_HOUR, MICROS_PER_MINUTE, MICROS_PER_SEC in *.
  pose proof (Z.div_mod a 3600000000). pose proof (Z.mod_pos_bound a 3600000000). fold f in H, H0.
  pose proof (Z.div_mod f 60000000). pose proof (Z.mod_pos_bound f 60000000). fold g in H1, H2.
  pose proof (Z.div_mod g 1000000). pose proof (Z.mod_pos_bound g 1000000). lia.
Qed.

Lemma hour_mod_range a : 0 <= a mod MICROS_PER_HOUR < MICROS_PER_HOUR.
Proof. by apply Z.mod_pos_bound. Qed.

(** The day-to-second decomposition is exact: for every DuckDB interval the
    client can be sent, the day field is the absolute number of days (a month
    counting thirty) and hours, minutes, seconds and fraction add up to the
    absolute number of microseconds, each in its range. *)
Theorem SetDayToSecond_exact i s :
  interval_ok i -> total_days i < 2 ^ 32 ->
  let r := SetDayToSecond i s in
  interval_type r = SQL_IS_DAY_TO_SECOND
  /\ day r = total_days i
  /\ ((hour r * 60 + minute r) * 60 + second r) * 1000000 + fraction r = Z.abs (micros i)
  /\ 0 <= minute r < 60 /\ 0 <= second r < 60 /\ 0 <= fraction r < 1000000.
Proof.
  intros Hi Ht. pose proof (SetDay_exact i s Hi Ht) as Ed. destruct (micros_hours i Hi) as [E1 E2].
  unfold SetDayToSecond, SetDayToMinute, SetDayToHour. destruct (SetDay i s) as [t sg d h mi se f].
  cbn in Ed |- *. rewrite E1, E2.
  destruct (hour_rest (Z.abs (micros i) mod MICROS_PER_HOUR)) as (-> & -> & -> & ->).
  { apply hour_mod_range. }
  split; [done|]. split; [done|]. apply hms_sum. lia.
Qed.

Definition blank_interval : SQL_INTERVAL_STRUCT := MkIntervalStruct 0 0 0 0 0 0 0.

Lemma SetDayToSecond_exact_witness :
  let i := MkInterval 1 (-2) (-5025000007) in
  SetDayToSecond i blank_interval = MkIntervalStruct SQL_IS_DAY_TO_SECOND 0 28 1 23 45 7.
Proof.
  intros i. destruct (SetDayToSecond_exact i blank_interval) as (H1 & H2 & H3 & _); [by vm_compute|by vm_compute|].
  by vm_compute.
Defined.

(** The types that start at hours carry the days into the hours: hour, minute,
    second and fraction of the hour-to-second type add up to the days and the
    microseconds of the interval, as long as the hours fit their field. *)
Theorem SetHourToSecond_exact i s :
  interval_ok i -> total_days i * 24 + Z.abs (micros i) / MICROS_PER_HOUR < 2 ^ 32 ->
  let r := SetHourToSecond i s in
  ((hour r * 60 + minute r) * 60 + second r) * 1000000 + fraction r
    = total_days i * 86400000000 + Z.abs (micros i)
  /\ 0 <= minute r < 60 /\ 0 <= second r < 60 /\ 0 <= fraction r < 1000000.
Proof.
  intros Hi Ht. destruct (SetHour_exact i s Hi Ht) as [Eh Ef].
  unfold SetHourToSecond, SetHourToMinute. destruct (SetHour i s) as [t sg d h mi se f].
  cbn in Eh, Ef |- *. rewrite Eh, Ef.
  destruct (hour_rest (Z.abs (micros i) mod MICROS_PER_HOUR)) as (-> & -> & -> & ->).
  { apply hour_mod_range. }
  destruct (hms_sum (Z.abs (micros i)) ltac:(lia)) as (E & ? & ? & ?).
  split; [|done]. rewrite <- E at 5. unfold HOURS_PER_DAY in *. lia.
Qed.

Lemma SetHourToSecond_exact_witness :
  let i := MkInterval 0 2 3661000001 in
  let r := SetHourToSecond i blank_interval in
  ((hour r * 60 + minute r) * 60 + second r) * 1000000 + fraction r = 2 * 86400000000 + 3661000001.
Proof.
  intros i r. destruct (SetHourToSecond_exact i blank_interval) as [H _]; [by vm_compute|by vm_compute|exact H].
Defined.

Lemma SetMinute_exact i s : interval_ok i ->
  (total_days i * 24 + Z.abs (micros i) / MICROS_PER_HOUR + 1) * 60 < 2 ^ 32 ->
  minute (SetMinute i s) = (total_days i * 86400000000 + Z.abs (micros i)) / MICROS_PER_MINUTE
  /\ fraction (SetMinute i s) = Z.abs (micros i) mod MICROS_PER_MINUTE.
Proof.
  intros Hi Ht. destruct (SetHour_exact i s Hi ltac:(unfold MICROS_PER_HOUR, total_days in *; dlia)) as [Eh Ef].
  unfold SetMinute. destruct (SetHour i s) as [t sg d h mi se fr]. cbn in Eh, Ef |- *. rewrite Eh, Ef.
  destruct (fraction_split MICROS_PER_MINUTE (Z.abs (micros i) mod MICROS_PER_HOUR)) as [_ ->];
    [done|unfold MICROS_PER_HOUR; dlia|].
  pose proof (hour_mod_range (Z.abs (micros i))).
  pose proof (Z.div_mod (Z.abs (micros i)) MICROS_PER_HOUR ltac:(done)).
  pose proof (Z.div_pos (Z.abs (micros i)) MICROS_PER_HOUR ltac:(lia) ltac:(done)).
  set (f := Z.abs (micros i) mod MICROS_PER_HOUR) in *. set (q := Z.abs (micros i) / MICROS_PER_HOUR) in *.
  clearbody f q. unfold MICROS_PER_HOUR, MICROS_PER_MINUTE, MINS_PER_HOUR, total_days in *.
  rewrite quot_pos by lia. pose proof (Z.div_mod f 60000000). pose proof (Z.mod_pos_bound f 60000000).
  rewrite (wrap_u_small 32 (_ * 60)) by (unfold in_u; lia).
  rewrite wrap_u_small by (unfold in_u; lia).
  assert (Z.abs (days i + months i * 30) * 86400000000 + Z.abs (micros i)
    = f mod 60000000 + (Z.abs (days i + months i * 30) * 1440 + q * 60 + f / 60000000) * 60000000) as -> by lia.
  rewrite Z.div_add, (Z.div_small (f mod _)) by lia. split; [lia|].
  assert (Z.abs (micros i) = f + (q * 60) * 60000000) as -> by lia. by rewrite Z.mod_add by lia.
Qed.

(** The seconds type loses the seconds of the current minute: its second
    field counts whole minutes only, so the value it stands for is the interval
    only when the interval is a whole number of minutes up to its fraction. *)
Theorem SetSecond_loses_seconds i s :
  interval_ok i -> (total_days i * 24 + Z.abs (micros i) / MICROS_PER_HOUR + 1) * 3600 < 2 ^ 32 ->
  let total := total_days i * 86400000000 + Z.abs (micros i) in
  let r := SetSecond i s in
  second r = total / MICROS_PER_MINUTE * 60
  /\ fraction r = total mod MICROS_PER_SEC
  /\ (second r * 1000000 + fraction r = total <-> total mod MICROS_PER_MINUTE < MICROS_PER_SEC).
Proof.
  intros Hi Ht total r. destruct (SetMinute_exact i s Hi) as [Em Ef].
  { unfold MICROS_PER_HOUR, total_days in *. dlia. }
  assert (second r = u32 (minute (SetMinute i s) * SECS_PER_MINUTE)
    /\ fraction r = u32 (Z.rem (abs64 (micros i)) MICROS_PER_SEC)) as [E1 E2].
  { unfold r, SetSecond. by destruct (SetMinute i s). }
  rewrite E1, E2, Em. destruct Hi as (_ & _ & Hmi). rewrite abs64_exact by done.
  rewrite rem_pos by (done || lia).
  unfold total, MICROS_PER_HOUR, MICROS_PER_MINUTE, MICROS_PER_SEC, SECS_PER_MINUTE, total_days in *.
  rewrite (wrap_u_small 32 (_ * 60)) by (unfold in_u; dlia).
  rewrite wrap_u_small by (unfold in_u; dlia). split; [done|]. split; dlia.
Qed.

Lemma SetSecond_loses_seconds_witness :
  second (SetSecond (MkInterval 0 0 5000000) blank_interval) = 0.
Proof.
  destruct (SetSecond_loses_seconds (MkInterval 0 0 5000000) blank_interval) as [H _];
    [by vm_compute|by vm_compute|]. rewrite H. done.
Defined.

Lemma switch_in cases d v r : In (v, r) cases -> NoDup cases.*1 -> switch cases d v = r.
Proof.
  induction cases as [|[c r'] cases IH]; cbn; [done|]. intros [[= -> ->]|Hin] Hnd.
  - by rewrite Z.eqb_refl.
  - inversion Hnd as [|? ? Hn Hnd']; subst. destruct (Z.eqb_spec v c) as [->|]; [|by apply IH].
    destruct Hn. apply list_elem_of_fmap. exists (c, r). split; [done|]. by apply list_elem_of_In.
Qed.

(** The interval type codes are consistent: a C type is an interval type
    exactly when it lies in the block 101..113, the SQL type of an interval C
    type is the same number, its datetime-interval code is its offset in the
    block, and every other type is rejected by both conversions. *)
Theorem interval_codes v :
  (IsIntervalType v = true <-> 101 <= v <= 113)
  /\ GetSQLIntervalType v = (if IsIntervalType v then v else SQL_ERROR)
  /\ GetIntervalCode v = (if IsIntervalType v then v - 100 else SQL_ERROR)
  /\ (is_Some (interval_setter v) <-> IsIntervalType v = true).
Proof.
  destruct (decide (101 <= v <= 113)) as [H|H].
  - assert (v = 101 \/ v = 102 \/ v = 103 \/ v = 104 \/ v = 105 \/ v = 106 \/ v = 107 \/ v = 108
      \/ v = 109 \/ v = 110 \/ v = 111 \/ v = 112 \/ v = 113) as Hv by lia.
    repeat destruct Hv as [->|Hv]; [..|subst]; (repeat split; intros; try done; by eexists).
  - assert (forall c, 101 <= c <= 113 -> (v =? c) = false) as E by (intros; apply Z.eqb_neq; lia).
    unfold IsIntervalType, GetSQLIntervalType, GetIntervalCode, interval_setter. cbn [switch].
    rewrite !E by lia. cbn [orb]. repeat split; intros; try done; try lia.
Qed.

(** Year-to-month is exact: twelve times the years plus the months is the
    absolute number of months. *)
Theorem SetYearToMonth_exact i s : interval_ok i ->
  let r := SetYearToMonth i s in
  day r * 12 + hour r = Z.abs (months i) /\ 0 <= hour r < 12.
Proof.
  intros (Hm & _ & _). unfold SetYearToMonth, SetYear, MONTHS_PER_YEAR. destruct s. cbn.
  rewrite abs32_exact by done. rewrite quot_pos, rem_pos by lia.
  rewrite !wrap_u_small by (unfold in_u; dlia). dlia.
Qed.

Lemma SetYearToMonth_exact_witness :
  let r := SetYearToMonth (MkInterval (-27) 0 0) blank_interval in day r * 12 + hour r = 27.
Proof.
  intros r. destruct (SetYearToMonth_exact (MkInterval (-27) 0 0) blank_interval) as [H _];
    [by vm_compute|exact H].
Defined.
