(* ===== verification/ApiInfo.v ===== *)
(** * Type and function information ([odbc_driver/api_info.cpp])

    The table of supported SQL types and the search in it, the relation between
    the engine's logical types and SQL types, column and display sizes, the size
    of C types, and the bitmap of supported functions. *)

From S2P Require Import Prelude OdbcConst Memory.

(** The type identifiers of the engine, with their values. *)
Inductive LogicalTypeId :=
  | LT_INVALID | LT_SQLNULL | LT_UNKNOWN | LT_ANY | LT_UNBOUND | LT_TEMPLATE | LT_TYPE | LT_BOOLEAN
  | LT_TINYINT | LT_SMALLINT | LT_INTEGER | LT_BIGINT | LT_DATE | LT_TIME | LT_TIMESTAMP_SEC
  | LT_TIMESTAMP_MS | LT_TIMESTAMP | LT_TIMESTAMP_NS | LT_DECIMAL | LT_FLOAT | LT_DOUBLE | LT_CHAR
  | LT_VARCHAR | LT_BLOB | LT_INTERVAL | LT_UTINYINT | LT_USMALLINT | LT_UINTEGER | LT_UBIGINT
  | LT_TIMESTAMP_TZ | LT_TIME_TZ | LT_TIME_NS | LT_BIT | LT_STRING_LITERAL | LT_INTEGER_LITERAL
  | LT_BIGNUM | LT_UHUGEINT | LT_HUGEINT | LT_POINTER | LT_VALIDITY | LT_UUID | LT_GEOMETRY
  | LT_STRUCT | LT_LIST | LT_MAP | LT_TABLE | LT_ENUM | LT_AGGREGATE_STATE | LT_LAMBDA | LT_UNION
  | LT_ARRAY | LT_VARIANT.

Definition LogicalTypeId_value (t : LogicalTypeId) : Z :=
  match t with
  | LT_INVALID => 0 | LT_SQLNULL => 1 | LT_UNKNOWN => 2 | LT_ANY => 3 | LT_UNBOUND => 4
  | LT_TEMPLATE => 5 | LT_TYPE => 6 | LT_BOOLEAN => 10 | LT_TINYINT => 11 | LT_SMALLINT => 12
  | LT_INTEGER => 13 | LT_BIGINT => 14 | LT_DATE => 15 | LT_TIME => 16 | LT_TIMESTAMP_SEC => 17
  | LT_TIMESTAMP_MS => 18 | LT_TIMESTAMP => 19 | LT_TIMESTAMP_NS => 20 | LT_DECIMAL => 21
  | LT_FLOAT => 22 | LT_DOUBLE => 23 | LT_CHAR => 24 | LT_VARCHAR => 25 | LT_BLOB => 26
  | LT_INTERVAL => 27 | LT_UTINYINT => 28 | LT_USMALLINT => 29 | LT_UINTEGER => 30
  | LT_UBIGINT => 31 | LT_TIMESTAMP_TZ => 32 | LT_TIME_TZ => 34 | LT_TIME_NS => 35 | LT_BIT => 36
  | LT_STRING_LITERAL => 37 | LT_INTEGER_LITERAL => 38 | LT_BIGNUM => 39 | LT_UHUGEINT => 49
  | LT_HUGEINT => 50 | LT_POINTER => 51 | LT_VALIDITY => 53 | LT_UUID => 54 | LT_GEOMETRY => 60
  | LT_STRUCT => 100 | LT_LIST => 101 | LT_MAP => 102 | LT_TABLE => 103 | LT_ENUM => 104
  | LT_AGGREGATE_STATE => 105 | LT_LAMBDA => 106 | LT_UNION => 107 | LT_ARRAY => 108
  | LT_VARIANT => 109
  end.

#[global] Instance LogicalTypeId_eq_dec : EqDecision LogicalTypeId.
Proof.
  refine (fun a b => cast_if (decide (LogicalTypeId_value a = LogicalTypeId_value b))); [|congruence].
  destruct a; cbn in e; destruct b; (reflexivity || discriminate e).
Defined.

(** A logical type: its identifier and the width and scale of a decimal. *)
Record LogicalType := MkLogicalType { id : LogicalTypeId; GetWidth : Z; GetScale : Z }.

(** [LogicalType::IsUnsigned] *)
Definition IsUnsigned (t : LogicalType) : bool :=
  match id t with
  | LT_UTINYINT | LT_USMALLINT | LT_UINTEGER | LT_UBIGINT | LT_UHUGEINT => true
  | _ => false
  end.

Definition MAX_COLUMN_SIZE : Z := 2 ^ 31 - 1.
Definition MAX_VARCHAR_COLUMN_SIZE : Z := 8000.
Definition MAX_VARBINARY_COLUMN_SIZE : Z := MAX_VARCHAR_COLUMN_SIZE.

Record OdbcTypeInfo := MkOdbcTypeInfo {
  ti_type_name : bytes;
  ti_data_type : Z;
  ti_column_size : Z;
  ti_literal_prefix : bytes;
  ti_literal_suffix : bytes;
  ti_create_params : bytes;
  ti_nullable : Z;
  ti_case_sensitive : Z;
  ti_searchable : Z;
  ti_unsigned_attribute : Z;
  ti_fixed_prec_scale : Z;
  ti_auto_unique_value : Z;
  ti_local_type_name : bytes;
  ti_minimum_scale : Z;
  ti_maximum_scale : Z;
  ti_sql_data_type : Z;
  ti_sql_datetime_sub : Z;
  ti_num_prec_radix : Z;
  ti_interval_precision : Z
}.

Definition BASE_SUPPORTED_FUNCTIONS : list Z :=
  [SQL_API_SQLALLOCHANDLE; SQL_API_SQLFREEHANDLE; SQL_API_SQLGETCONNECTATTR; SQL_API_SQLSETENVATTR;
   SQL_API_SQLSETCONNECTATTR; SQL_API_SQLSETSTMTATTR; SQL_API_SQLDRIVERCONNECT; SQL_API_SQLCONNECT;
   SQL_API_SQLGETINFO; SQL_API_SQLENDTRAN; SQL_API_SQLDISCONNECT; SQL_API_SQLTABLES;
   SQL_API_SQLCOLUMNS; SQL_API_SQLPREPARE; SQL_API_SQLEXECDIRECT; SQL_API_SQLFREESTMT;
   SQL_API_SQLDESCRIBEPARAM; SQL_API_SQLDESCRIBECOL; SQL_API_SQLCOLATTRIBUTES;
   SQL_API_SQLFETCHSCROLL; SQL_API_SQLROWCOUNT; SQL_API_SQLGETDIAGFIELD; SQL_API_SQLGETDIAGREC;
   SQL_API_SQLGETFUNCTIONS; SQL_API_SQLBINDPARAMETER; SQL_API_SQLGETDATA; SQL_API_SQLFETCH;
   SQL_API_SQLEXECUTE; SQL_API_SQLNUMRESULTCOLS; SQL_API_SQLGETTYPEINFO; SQL_API_SQLBINDCOL;
   SQL_API_SQLCANCEL; SQL_API_SQLNUMPARAMS; SQL_API_SQLPARAMDATA; SQL_API_SQLPUTDATA;
   SQL_API_SQLMORERESULTS; SQL_API_SQLGETSTMTATTR].

Definition ODBC3_EXTRA_SUPPORTED_FUNCTIONS : list Z :=
  [SQL_API_SQLCLOSECURSOR; SQL_API_SQLCOPYDESC; SQL_API_SQLDATASOURCES; SQL_API_SQLDRIVERS;
   SQL_API_SQLGETCURSORNAME; SQL_API_SQLGETDESCFIELD; SQL_API_SQLGETENVATTR; SQL_API_SQLNATIVESQL;
   SQL_API_SQLSETCURSORNAME; SQL_API_SQLSETDESCFIELD; SQL_API_SQLSPECIALCOLUMNS;
   SQL_API_SQLSTATISTICS; SQL_API_SQLBROWSECONNECT; SQL_API_SQLBULKOPERATIONS;
   SQL_API_SQLCOLUMNPRIVILEGES; SQL_API_SQLFOREIGNKEYS; SQL_API_SQLGETDESCREC;
   SQL_API_SQLPRIMARYKEYS; SQL_API_SQLPROCEDURECOLUMNS; SQL_API_SQLPROCEDURES;
   SQL_API_SQLSETDESCREC; SQL_API_SQLSETPOS; SQL_API_SQLTABLEPRIVILEGES].

Definition ODBC_SUPPORTED_SQL_TYPES : list OdbcTypeInfo := [
  MkOdbcTypeInfo (B"'CHAR'") SQL_CHAR MAX_COLUMN_SIZE (B"''''") (B"''''") (B"'length'") SQL_NULLABLE
    SQL_TRUE SQL_SEARCHABLE (-1) SQL_FALSE SQL_FALSE (B"NULL") (-1) (-1) SQL_CHAR (-1) (-1) (-1);
  MkOdbcTypeInfo (B"'BOOLEAN'") SQL_BIT 1 (B"NULL") (B"NULL") (B"NULL") SQL_NULLABLE
    SQL_FALSE SQL_PRED_BASIC SQL_TRUE SQL_TRUE SQL_FALSE (B"'boolean'") (-1) (-1) SQL_BIT (-1) (-1) (-1);
  MkOdbcTypeInfo (B"'TINYINT'") SQL_TINYINT 3 (B"NULL") (B"NULL") (B"NULL") SQL_NULLABLE
    SQL_FALSE SQL_PRED_BASIC SQL_FALSE SQL_FALSE SQL_FALSE (B"NULL") 0 0 SQL_TINYINT (-1) 2 (-1);
  MkOdbcTypeInfo (B"'SMALLINT'") SQL_SMALLINT 5 (B"NULL") (B"NULL") (B"NULL") SQL_NULLABLE
    SQL_FALSE SQL_PRED_BASIC SQL_FALSE SQL_FALSE SQL_FALSE (B"NULL") 0 0 SQL_SMALLINT (-1) 2 (-1);
  MkOdbcTypeInfo (B"'INTEGER'") SQL_INTEGER 10 (B"NULL") (B"NULL") (B"NULL") SQL_NULLABLE
    SQL_FALSE SQL_PRED_BASIC SQL_FALSE SQL_FALSE SQL_FALSE (B"NULL") 0 0 SQL_INTEGER (-1) 2 (-1);
  MkOdbcTypeInfo (B"'BIGINT'") SQL_BIGINT 19 (B"NULL") (B"NULL") (B"NULL") SQL_NULLABLE
    SQL_FALSE SQL_PRED_BASIC SQL_FALSE SQL_FALSE SQL_FALSE (B"NULL") 0 0 SQL_BIGINT (-1) 2 (-1);
  MkOdbcTypeInfo (B"'DATE'") SQL_TYPE_DATE 10 (B"''''") (B"''''") (B"NULL") SQL_NULLABLE
    SQL_FALSE SQL_PRED_BASIC (-1) SQL_FALSE SQL_FALSE (B"NULL") (-1) (-1) SQL_TYPE_DATE SQL_CODE_DATE (-1) (-1);
  MkOdbcTypeInfo (B"'TIME'") SQL_TYPE_TIME 8 (B"''''") (B"''''") (B"NULL") SQL_NULLABLE
    SQL_FALSE SQL_PRED_BASIC (-1) SQL_FALSE SQL_FALSE (B"NULL") 0 0 SQL_TYPE_TIME SQL_CODE_TIME (-1) (-1);
  MkOdbcTypeInfo (B"'TIMESTAMP'") SQL_TYPE_TIMESTAMP 26 (B"''''") (B"''''") (B"NULL") SQL_NULLABLE
    SQL_FALSE SQL_PRED_BASIC (-1) SQL_FALSE SQL_FALSE (B"NULL") 0 0 SQL_TYPE_TIMESTAMP SQL_CODE_TIMESTAMP (-1) (-1);
  MkOdbcTypeInfo (B"'DECIMAL'") SQL_DECIMAL 38 (B"''''") (B"''''") (B"'precision,scale'") SQL_NULLABLE
    SQL_FALSE SQL_PRED_BASIC (-1) SQL_FALSE SQL_FALSE (B"NULL") 0 38 SQL_DECIMAL (-1) 10 (-1);
  MkOdbcTypeInfo (B"'NUMERIC'") SQL_NUMERIC 38 (B"''''") (B"''''") (B"'precision,scale'") SQL_NULLABLE
    SQL_FALSE SQL_PRED_BASIC (-1) SQL_FALSE SQL_FALSE (B"NULL") 0 38 SQL_NUMERIC (-1) 10 (-1);
  MkOdbcTypeInfo (B"'FLOAT'") SQL_FLOAT 24 (B"NULL") (B"NULL") (B"NULL") SQL_NULLABLE
    SQL_FALSE SQL_PRED_BASIC SQL_FALSE SQL_FALSE SQL_FALSE (B"NULL") 0 0 SQL_FLOAT (-1) 2 (-1);
  MkOdbcTypeInfo (B"'DOUBLE'") SQL_DOUBLE 53 (B"NULL") (B"NULL") (B"NULL") SQL_NULLABLE
    SQL_FALSE SQL_PRED_BASIC SQL_FALSE SQL_FALSE SQL_FALSE (B"NULL") 0 0 SQL_DOUBLE (-1) 2 (-1);
  MkOdbcTypeInfo (B"'VARCHAR'") SQL_VARCHAR MAX_COLUMN_SIZE (B"''''") (B"''''") (B"'length'") SQL_NULLABLE
    SQL_TRUE SQL_SEARCHABLE (-1) SQL_FALSE (-1) (B"NULL") (-1) (-1) SQL_VARCHAR (-1) (-1) (-1);
  MkOdbcTypeInfo (B"'VARCHAR'") SQL_WVARCHAR MAX_COLUMN_SIZE (B"''''") (B"''''") (B"'length'") SQL_NULLABLE
    SQL_TRUE SQL_SEARCHABLE (-1) SQL_FALSE (-1) (B"NULL") (-1) (-1) SQL_WVARCHAR (-1) (-1) (-1);
  MkOdbcTypeInfo (B"'BLOB'") SQL_VARBINARY MAX_COLUMN_SIZE (B"'x'''") (B"''''") (B"'length'") SQL_NULLABLE
    SQL_TRUE SQL_PRED_BASIC (-1) SQL_FALSE SQL_FALSE (B"NULL") (-1) (-1) SQL_VARBINARY (-1) (-1) (-1);
  MkOdbcTypeInfo (B"'UUID'") SQL_UNKNOWN_TYPE MAX_COLUMN_SIZE (B"''''") (B"''''") (B"'length'") SQL_NULLABLE
    SQL_TRUE SQL_PRED_BASIC (-1) SQL_FALSE SQL_FALSE (B"NULL") (-1) (-1) SQL_VARCHAR (-1) (-1) (-1);
  MkOdbcTypeInfo (B"'INTERVAL YEAR'") SQL_INTERVAL_YEAR 9 (B"''''") (B"''''") (B"NULL") SQL_NULLABLE
    SQL_FALSE SQL_PRED_BASIC (-1) SQL_FALSE (-1) (B"NULL") 0 0 SQL_VARCHAR SQL_CODE_YEAR (-1) (-1);
  MkOdbcTypeInfo (B"'INTERVAL MONTH'") SQL_INTERVAL_MONTH 10 (B"''''") (B"''''") (B"NULL") SQL_NULLABLE
    SQL_FALSE SQL_PRED_BASIC (-1) SQL_FALSE (-1) (B"NULL") 0 0 SQL_VARCHAR SQL_CODE_MONTH (-1) (-1);
  MkOdbcTypeInfo (B"'INTERVAL DAY'") SQL_INTERVAL_DAY 5 (B"''''") (B"''''") (B"NULL") SQL_NULLABLE
    SQL_FALSE SQL_PRED_BASIC (-1) SQL_FALSE (-1) (B"NULL") 0 0 SQL_VARCHAR SQL_CODE_DAY (-1) (-1);
  MkOdbcTypeInfo (B"'INTERVAL HOUR'") SQL_INTERVAL_HOUR 6 (B"''''") (B"''''") (B"NULL") SQL_NULLABLE
    SQL_FALSE SQL_PRED_BASIC (-1) SQL_FALSE (-1) (B"NULL") 0 0 SQL_VARCHAR SQL_CODE_HOUR (-1) (-1);
  MkOdbcTypeInfo (B"'INTERVAL MINUTE'") SQL_INTERVAL_MINUTE 8 (B"''''") (B"''''") (B"NULL") SQL_NULLABLE
    SQL_FALSE SQL_PRED_BASIC (-1) SQL_FALSE (-1) (B"NULL") 0 0 SQL_VARCHAR SQL_CODE_MINUTE (-1) (-1);
  MkOdbcTypeInfo (B"'INTERVAL SECOND'") SQL_INTERVAL_SECOND 10 (B"''''") (B"''''") (B"NULL") SQL_NULLABLE
    SQL_FALSE SQL_PRED_BASIC (-1) SQL_FALSE (-1) (B"NULL") 0 0 SQL_VARCHAR SQL_CODE_SECOND (-1) (-1);
  MkOdbcTypeInfo (B"'INTERVAL YEAR TO MONTH'") SQL_INTERVAL_YEAR_TO_MONTH 12 (B"''''") (B"''''") (B"NULL") SQL_NULLABLE
    SQL_FALSE SQL_PRED_BASIC (-1) SQL_FALSE (-1) (B"NULL") 0 0 SQL_VARCHAR SQL_CODE_YEAR_TO_MONTH (-1) (-1);
  MkOdbcTypeInfo (B"'INTERVAL DAY TO HOUR'") SQL_INTERVAL_DAY_TO_HOUR 8 (B"''''") (B"''''") (B"NULL") SQL_NULLABLE
    SQL_FALSE SQL_PRED_BASIC (-1) SQL_FALSE (-1) (B"NULL") 0 0 SQL_VARCHAR SQL_CODE_DAY_TO_HOUR (-1) (-1);
  MkOdbcTypeInfo (B"'INTERVAL DAY TO MINUTE'") SQL_INTERVAL_DAY_TO_MINUTE 11 (B"''''") (B"''''") (B"NULL") SQL_NULLABLE
    SQL_FALSE SQL_PRED_BASIC (-1) SQL_FALSE (-1) (B"NULL") 0 0 SQL_VARCHAR SQL_CODE_DAY_TO_MINUTE (-1) (-1);
  MkOdbcTypeInfo (B"'INTERVAL DAY TO SECOND'") SQL_INTERVAL_DAY_TO_SECOND 14 (B"''''") (B"''''") (B"NULL") SQL_NULLABLE
    SQL_FALSE SQL_PRED_BASIC (-1) SQL_FALSE (-1) (B"NULL") 0 0 SQL_VARCHAR SQL_CODE_DAY_TO_SECOND (-1) (-1);
  MkOdbcTypeInfo (B"'INTERVAL HOUR TO MINUTE'") SQL_INTERVAL_HOUR_TO_MINUTE 9 (B"''''") (B"''''") (B"NULL") SQL_NULLABLE
    SQL_FALSE SQL_PRED_BASIC (-1) SQL_FALSE (-1) (B"NULL") 0 0 SQL_VARCHAR SQL_CODE_HOUR_TO_MINUTE (-1) (-1);
  MkOdbcTypeInfo (B"'INTERVAL HOUR TO SECOND'") SQL_INTERVAL_HOUR_TO_SECOND 12 (B"''''") (B"''''") (B"NULL") SQL_NULLABLE
    SQL_FALSE SQL_PRED_BASIC (-1) SQL_FALSE (-1) (B"NULL") 0 0 SQL_VARCHAR SQL_CODE_HOUR_TO_SECOND (-1) (-1);
  MkOdbcTypeInfo (B"'INTERVAL MINUTE TO SECOND'") SQL_INTERVAL_MINUTE_TO_SECOND 12 (B"''''") (B"''''") (B"NULL") SQL_NULLABLE
    SQL_FALSE SQL_PRED_BASIC (-1) SQL_FALSE (-1) (B"NULL") 0 0 SQL_VARCHAR SQL_CODE_MINUTE_TO_SECOND (-1) (-1)].

(** The two loops of [FindDataType]: skip to the first row of the type, then take
    the rows of the same type that follow it. *)
Fixpoint take_same_type (data_type : Z) (types : list OdbcTypeInfo) : list OdbcTypeInfo :=
  match types with
  | [] => []
  | t :: types' => if ti_data_type t =? data_type then t :: take_same_type data_type types' else []
  end.
Fixpoint FindDataType_in (data_type : Z) (types : list OdbcTypeInfo) : list OdbcTypeInfo :=
  match types with
  | [] => []
  | t :: types' =>
      if ti_data_type t =? data_type then take_same_type data_type types else FindDataType_in data_type types'
  end.
Definition FindDataType (data_type : Z) : list OdbcTypeInfo := FindDataType_in data_type ODBC_SUPPORTED_SQL_TYPES.

(** One row of the VALUES list of [SQLGetTypeInfo]. *)
Definition cast_as (v type : bytes) : bytes := B"CAST(" ++ v ++ B" AS " ++ type ++ B")".
Definition type_info_row (t : OdbcTypeInfo) : bytes :=
  let str v := cast_as v (B"VARCHAR") ++ B"," in
  let small v := cast_as (to_string v) (B"SMALLINT") ++ B"," in
  B"(" ++ str (ti_type_name t) ++ small (ti_data_type t)
    ++ cast_as (to_string (ti_column_size t)) (B"INTEGER") ++ B","
    ++ str (ti_literal_prefix t) ++ str (ti_literal_suffix t) ++ str (ti_create_params t)
    ++ small (ti_nullable t) ++ small (ti_case_sensitive t) ++ small (ti_searchable t)
    ++ small (ti_unsigned_attribute t) ++ small (ti_fixed_prec_scale t) ++ small (ti_auto_unique_value t)
    ++ str (ti_local_type_name t) ++ small (ti_minimum_scale t) ++ small (ti_maximum_scale t)
    ++ small (ti_sql_data_type t) ++ small (ti_sql_datetime_sub t)
    ++ cast_as (to_string (ti_num_prec_radix t)) (B"integer") ++ B","
    ++ cast_as (to_string (ti_interval_precision t)) (B"SMALLINT") ++ B")".

Fixpoint WriteInfoTypesToQueryString (vec_types : list OdbcTypeInfo) (query : bytes) : bytes :=
  match vec_types with
  | [] => query
  | t :: vec_types' =>
      WriteInfoTypesToQueryString vec_types'
        (query ++ type_info_row t ++ match vec_types' with [] => [] | _ => B"," end)
  end.

(** ** Functions *)
Definition SetFunctionSupported (flags : ptr) (function_id : Z) (m : mem) : mem :=
  let a := flags + 2 * Z.shiftr function_id 4 in
  store 2 m a (Z.lor (load_u 2 m a) (Z.shiftl 1 (Z.land function_id 0xF))).

Definition NUM_FUNC_SUPPORTED : Z := 4000.
Definition SQL_API_ODBC3_ALL_FUNCTIONS_SIZE : Z := 250.

(** The standard's test of a bit of the map, [SQL_FUNC_EXISTS]. *)
Definition SQL_FUNC_EXISTS (m : mem) (flags : ptr) (function_id : Z) : bool :=
  Z.testbit (load_u 2 m (flags + 2 * Z.shiftr function_id 4)) (Z.land function_id 0xF).

Definition GetFunctions30 (supported_ptr : ptr) (m : mem) : mem :=
  let m := write_bytes m supported_ptr (replicate (Z.to_nat (2 * SQL_API_ODBC3_ALL_FUNCTIONS_SIZE)) 0) in
  let m := fold_left (fun m f => SetFunctionSupported supported_ptr f m) BASE_SUPPORTED_FUNCTIONS m in
  fold_left (fun m f => SetFunctionSupported supported_ptr f m) ODBC3_EXTRA_SUPPORTED_FUNCTIONS m.

Definition GetFunctions (function_id : Z) (supported_ptr : ptr) (m : mem) : mem :=
  if function_id =? SQL_API_ALL_FUNCTIONS then
    let m := write_bytes m supported_ptr (replicate (Z.to_nat (2 * NUM_FUNC_SUPPORTED)) 0) in
    fold_left (fun m f => store 2 m (supported_ptr + 2 * f) SQL_TRUE) BASE_SUPPORTED_FUNCTIONS m
  else
    store 2 m supported_ptr (if bool_decide (function_id ∈ BASE_SUPPORTED_FUNCTIONS) then SQL_TRUE else SQL_FALSE).

(** ** Types *)
Definition FindRelatedSQLType (type_id : LogicalTypeId) : Z :=
  match type_id with
  | LT_BOOLEAN => SQL_CHAR
  | LT_TINYINT => SQL_TINYINT
  | LT_UTINYINT => SQL_TINYINT
  | LT_SMALLINT => SQL_SMALLINT
  | LT_USMALLINT => SQL_SMALLINT
  | LT_INTEGER => SQL_INTEGER
  | LT_UINTEGER => SQL_INTEGER
  | LT_BIGINT => SQL_BIGINT
  | LT_UBIGINT => SQL_BIGINT
  | LT_HUGEINT => SQL_NUMERIC
  | LT_UHUGEINT => SQL_NUMERIC
  | LT_FLOAT => SQL_FLOAT
  | LT_DOUBLE => SQL_DOUBLE
  | LT_DATE => SQL_TYPE_DATE
  | LT_TIMESTAMP => SQL_TYPE_TIMESTAMP
  | LT_TIMESTAMP_MS => SQL_TYPE_TIMESTAMP
  | LT_TIMESTAMP_SEC => SQL_TYPE_TIMESTAMP
  | LT_TIMESTAMP_NS => SQL_TYPE_TIMESTAMP
  | LT_TIMESTAMP_TZ => SQL_TYPE_TIMESTAMP
  | LT_TIME => SQL_TYPE_TIME
  | LT_VARCHAR => SQL_VARCHAR
  | LT_BLOB | LT_GEOMETRY => SQL_VARBINARY
  | LT_INTERVAL => SQL_INTERVAL
  | LT_DECIMAL => SQL_DECIMAL
  | LT_LIST => SQL_VARCHAR
  | LT_BIT => SQL_BIT
  | _ => SQL_UNKNOWN_TYPE
  end.

Definition sizeof_SQL_NUMERIC_STRUCT : Z := 19.
Definition sizeof_SQL_DATE_STRUCT : Z := 6.
Definition sizeof_SQL_TIME_STRUCT : Z := 6.
Definition sizeof_SQL_TIMESTAMP_STRUCT : Z := 16.
Definition sizeof_SQL_INTERVAL_STRUCT : Z := 28.

(** The thirteen interval types are consecutive numbers. *)
Definition PointerSizeOf (sql_type : Z) : Z :=
  if sql_type =? SQL_C_SSHORT then 2
  else if sql_type =? SQL_C_USHORT then 2
  else if (sql_type =? SQL_C_LONG) || (sql_type =? SQL_C_SLONG) then 4
  else if sql_type =? SQL_C_ULONG then 4
  else if sql_type =? SQL_C_FLOAT then 4
  else if sql_type =? SQL_C_DOUBLE then 8
  else if sql_type =? SQL_C_STINYINT then 1
  else if sql_type =? SQL_C_UTINYINT then 1
  else if sql_type =? SQL_C_SBIGINT then 8
  else if sql_type =? SQL_C_UBIGINT then 8
  else if sql_type =? SQL_C_NUMERIC then sizeof_SQL_NUMERIC_STRUCT
  else if sql_type =? SQL_C_TYPE_DATE then sizeof_SQL_DATE_STRUCT
  else if sql_type =? SQL_C_TYPE_TIME then sizeof_SQL_TIME_STRUCT
  else if sql_type =? SQL_C_TYPE_TIMESTAMP then sizeof_SQL_TIMESTAMP_STRUCT
  else if (SQL_C_INTERVAL_YEAR <=? sql_type) && (sql_type <=? SQL_C_INTERVAL_MINUTE_TO_SECOND)
       then sizeof_SQL_INTERVAL_STRUCT
  else if sql_type =? SQL_C_BIT then 1
  else -1.

Definition IsNumericDescriptorField (field_identifier : Z) : bool :=
  bool_decide (field_identifier ∈
    [SQL_DESC_ALLOC_TYPE; SQL_DESC_ARRAY_SIZE; SQL_DESC_BIND_TYPE; SQL_DESC_COUNT; SQL_DESC_AUTO_UNIQUE_VALUE;
     SQL_DESC_CASE_SENSITIVE; SQL_DESC_CONCISE_TYPE; SQL_DESC_DATETIME_INTERVAL_CODE;
     SQL_DESC_DATETIME_INTERVAL_PRECISION; SQL_DESC_DISPLAY_SIZE; SQL_DESC_FIXED_PREC_SCALE; SQL_DESC_LENGTH;
     SQL_DESC_NULLABLE; SQL_DESC_NUM_PREC_RADIX; SQL_DESC_OCTET_LENGTH; SQL_DESC_PARAMETER_TYPE;
     SQL_DESC_PRECISION; SQL_DESC_ROWVER; SQL_DESC_SCALE; SQL_DESC_SEARCHABLE; SQL_DESC_TYPE; SQL_DESC_UNNAMED;
     SQL_DESC_UNSIGNED; SQL_DESC_UPDATABLE]).

Definition GetTemporalPrecision (type_id : LogicalTypeId) : Z :=
  match type_id with
  | LT_TIME | LT_TIMESTAMP | LT_TIMESTAMP_TZ => 6
  | LT_TIMESTAMP_MS => 3
  | LT_TIMESTAMP_SEC => 0
  | LT_TIMESTAMP_NS => 9
  | _ => 0
  end.

Definition is_hugeint (t : LogicalTypeId) : bool :=
  match t with LT_HUGEINT | LT_UHUGEINT => true | _ => false end.

Definition GetColumnSize (t : LogicalType) : Z :=
  let sql_type := FindRelatedSQLType (id t) in
  let precision := GetTemporalPrecision (id t) in
  if (sql_type =? SQL_DECIMAL) || (sql_type =? SQL_NUMERIC) then
    if is_hugeint (id t) then 38 else GetWidth t
  else if sql_type =? SQL_BIT then 1
  else if sql_type =? SQL_TINYINT then 3
  else if sql_type =? SQL_SMALLINT then 5
  else if sql_type =? SQL_INTEGER then 10
  else if sql_type =? SQL_BIGINT then if IsUnsigned t then 20 else 19
  else if sql_type =? SQL_REAL then 7
  else if (sql_type =? SQL_FLOAT) || (sql_type =? SQL_DOUBLE) then 15
  else if sql_type =? SQL_TYPE_DATE then 10
  else if sql_type =? SQL_TYPE_TIME then if 0 <? precision then 9 + precision else 8
  else if sql_type =? SQL_TYPE_TIMESTAMP then if 0 <? precision then 20 + precision else 19
  else if sql_type =? SQL_VARCHAR then MAX_VARCHAR_COLUMN_SIZE
  else if sql_type =? SQL_VARBINARY then MAX_VARBINARY_COLUMN_SIZE
  else 0.

Definition GetDisplaySize (t : LogicalType) : Z :=
  let sql_type := FindRelatedSQLType (id t) in
  let precision := GetTemporalPrecision (id t) in
  if (sql_type =? SQL_DECIMAL) || (sql_type =? SQL_NUMERIC) then
    if is_hugeint (id t) then 40 else GetWidth t + 2
  else if sql_type =? SQL_BIT then 1
  else if sql_type =? SQL_TINYINT then if IsUnsigned t then 3 else 4
  else if sql_type =? SQL_SMALLINT then if IsUnsigned t then 5 else 6
  else if sql_type =? SQL_INTEGER then if IsUnsigned t then 10 else 11
  else if sql_type =? SQL_BIGINT then 20
  else if sql_type =? SQL_REAL then 14
  else if (sql_type =? SQL_FLOAT) || (sql_type =? SQL_DOUBLE) then 24
  else if sql_type =? SQL_TYPE_DATE then 10
  else if sql_type =? SQL_TYPE_TIME then if 0 <? precision then 9 + precision else 8
  else if sql_type =? SQL_TYPE_TIMESTAMP then if 0 <? precision then 20 + precision else 19
  else if sql_type =? SQL_VARCHAR then MAX_VARCHAR_COLUMN_SIZE
  else if sql_type =? SQL_VARBINARY then MAX_VARBINARY_COLUMN_SIZE
  else 0.

(** ** The bitmap of functions *)
Lemma testbit_wrap_u w x i : 0 <= i < w -> Z.testbit (wrap_u w x) i = Z.testbit x i.
Proof. intros Hi. unfold wrap_u. apply Z.mod_pow2_bits_low. lia. Qed.

Lemma land_15 f : 0 <= f -> Z.land f 0xF = f mod 16.
Proof. intros. change 0xF with (Z.ones 4). rewrite Z.land_ones by lia. done. Qed.

Lemma SetFunctionSupported_exists p f g m : 0 <= f -> 0 <= g ->
  SQL_FUNC_EXISTS (SetFunctionSupported p f m) p g = (f =? g) || SQL_FUNC_EXISTS m p g.
Proof.
  intros Hf Hg. unfold SQL_FUNC_EXISTS, SetFunctionSupported.
  rewrite !land_15, !Z.shiftr_div_pow2 by lia. change (2 ^ 4) with 16.
  destruct (Z.eq_dec (f / 16) (g / 16)) as [E|E].
  - rewrite E, load_u_store. change (8 * Z.of_nat 2) with 16.
    rewrite testbit_wrap_u by (apply Z.mod_pos_bound; lia).
    rewrite Z.lor_spec, Z.shiftl_spec, orb_comm by (apply Z.mod_pos_bound; lia). f_equal.
    destruct (Z.eqb_spec f g) as [->|Hne]; [by rewrite Z.sub_diag|].
    destruct (Z.lt_trichotomy (g mod 16 - f mod 16) 0) as [Hlt|[Heq|Hgt]].
    + by apply Z.testbit_neg_r.
    + dlia.
    + apply (Z.bits_above_log2 1); [lia|done].
  - assert ((f =? g) = false) as -> by (apply Z.eqb_neq; congruence). cbn [orb]. f_equal.
    apply load_u_ext. intros a Ha. apply store_outside. lia.
Qed.

Lemma SetFunctionsSupported_exists p fs g m : Forall (fun f => 0 <= f) fs -> 0 <= g ->
  SQL_FUNC_EXISTS (fold_left (fun m f => SetFunctionSupported p f m) fs m) p g
  = bool_decide (g ∈ fs) || SQL_FUNC_EXISTS m p g.
Proof.
  intros Hfs Hg. revert m. induction Hfs as [|f fs Hf _ IH]; intros m; cbn [fold_left].
  - by rewrite bool_decide_false by by apply not_elem_of_nil.
  - rewrite IH, SetFunctionSupported_exists by done.
    rewrite (bool_decide_ext (g ∈ f :: fs) (g = f \/ g ∈ fs)) by apply elem_of_cons.
    rewrite bool_decide_or, (bool_decide_ext (g = f) (f = g)) by done.
    destruct (Z.eqb_spec f g); [rewrite (bool_decide_true (f = g)) by done|rewrite (bool_decide_false (f = g)) by done].
    + by rewrite orb_true_r.
    + done.
Qed.

Lemma SetFunctionsSupported_outside p n fs m a : Forall (fun f => 0 <= f < 16 * n) fs ->
  a < p \/ p + 2 * n <= a -> fold_left (fun m f => SetFunctionSupported p f m) fs m !! a = m !! a.
Proof.
  intros Hfs Ha. revert m. induction Hfs as [|f fs Hf _ IH]; intros m; [done|]. cbn [fold_left].
  rewrite IH. apply store_outside. rewrite Z.shiftr_div_pow2 by lia. change (2 ^ 4) with 16. dlia.
Qed.

Lemma load_zeroed m p n k : 0 <= k -> k + 2 <= Z.of_nat n ->
  load_u 2 (write_bytes m p (replicate n 0)) (p + k) = 0.
Proof.
  intros Hk Hn. assert (forall i, k <= i < k + 2 -> read_byte (write_bytes m p (replicate n 0)) (p + i) = 0) as H.
  { intros i Hi. unfold read_byte. replace (p + i) with (p + Z.of_nat (Z.to_nat i)) by lia.
    rewrite write_bytes_inside with (i := Z.to_nat i) by (rewrite length_replicate; lia).
    by rewrite lookup_replicate_2 by lia. }
  unfold load_u. cbn [read_bytes]. rewrite H by lia. replace (p + k + 1) with (p + (k + 1)) by lia.
  by rewrite H by lia.
Qed.

Lemma functions_in_range : Forall (fun f => 0 <= f < 16 * 250) (BASE_SUPPORTED_FUNCTIONS ++ ODBC3_EXTRA_SUPPORTED_FUNCTIONS).
Proof. repeat constructor; done. Qed.

(** [SQLGetFunctions] reports exactly the functions of the two tables: the
    bit of a function identifier is set in the map the client gets if and only
    if the identifier is in the base or the ODBC 3 table, and only the 500 bytes
    of the map change. *)
Theorem GetFunctions30_bitmap p m g : 0 <= g < 4000 ->
  SQL_FUNC_EXISTS (GetFunctions30 p m) p g
    = bool_decide (g ∈ BASE_SUPPORTED_FUNCTIONS ++ ODBC3_EXTRA_SUPPORTED_FUNCTIONS)
  /\ (forall a, a < p \/ p + 500 <= a -> GetFunctions30 p m !! a = m !! a).
Proof.
  intros Hg. pose proof functions_in_range as [HB HE]%Forall_app. unfold GetFunctions30. split.
  - assert (forall fs, Forall (fun f => 0 <= f < 16 * 250) fs -> Forall (fun f => 0 <= f) fs) as Hpos.
    { intros fs. apply Forall_impl. intros f Hf. lia. }
    rewrite (SetFunctionsSupported_exists p ODBC3_EXTRA_SUPPORTED_FUNCTIONS) by (by apply Hpos || lia).
    rewrite (SetFunctionsSupported_exists p BASE_SUPPORTED_FUNCTIONS) by (by apply Hpos || lia).
    assert (bool_decide (g ∈ BASE_SUPPORTED_FUNCTIONS ++ ODBC3_EXTRA_SUPPORTED_FUNCTIONS)
      = bool_decide (g ∈ ODBC3_EXTRA_SUPPORTED_FUNCTIONS) || bool_decide (g ∈ BASE_SUPPORTED_FUNCTIONS)) as ->.
    { rewrite <- bool_decide_or. apply bool_decide_ext. rewrite elem_of_app. tauto. }
    f_equal. rewrite <- (orb_false_r (bool_decide (g ∈ BASE_SUPPORTED_FUNCTIONS))) at 2. f_equal.
    unfold SQL_FUNC_EXISTS. rewrite Z.shiftr_div_pow2 by lia. change (2 ^ 4) with 16.
    rewrite load_zeroed by (unfold SQL_API_ODBC3_ALL_FUNCTIONS_SIZE; dlia).
    apply Z.bits_0.
  - intros a Ha. rewrite !(SetFunctionsSupported_outside p 250) by (done || lia).
    apply write_bytes_outside. change (zlen _) with 500. lia.
Qed.

Lemma GetFunctions30_bitmap_witness :
  SQL_FUNC_EXISTS (GetFunctions30 100 ∅) 100 SQL_API_SQLGETDATA = true.
Proof. rewrite (proj1 (GetFunctions30_bitmap 100 ∅ SQL_API_SQLGETDATA ltac:(lia))). by vm_compute. Defined.

(** [SQLGetFunctions] with [SQL_API_ALL_FUNCTIONS] clears 8000 bytes of a client
    array that the standard sizes at 100 elements. *)
Lemma GetFunctions_all_overflow m : GetFunctions SQL_API_ALL_FUNCTIONS 0 (<[600 := 1]> m) !! 600 = Some 0.
Proof.
  unfold GetFunctions. cbn [Z.eqb]. cbv zeta iota.
  assert (forall fs m0, Forall (fun f => 2 * f + 2 <= 600 \/ 600 < 2 * f) fs ->
    fold_left (fun m f => store 2 m (0 + 2 * f) SQL_TRUE) fs m0 !! 600 = m0 !! 600) as H.
  { intros fs. induction fs as [|f fs IH]; intros m0 Hfs; [done|]. inversion Hfs; subst. cbn [fold_left].
    rewrite IH by done. apply store_outside. lia. }
  rewrite H by (apply (bool_decide_unpack _); by vm_compute).
  rewrite (write_bytes_inside _ 0 _ 600) by (rewrite length_replicate; vm_compute; lia).
  apply lookup_replicate_2. vm_compute. lia.
Qed.

(** ** The table of types *)

(** The search for a type returns exactly the rows of the table with that
    SQL type, in the order of the table, although it stops at the first row of
    another type: the rows of a type are contiguous. *)
Theorem FindDataType_rows t :
  FindDataType t = filter (fun r => ti_data_type r = t) ODBC_SUPPORTED_SQL_TYPES.
Proof.
  destruct (decide (t ∈ ti_data_type <$> ODBC_SUPPORTED_SQL_TYPES)) as [Hin|Hout].
  - repeat (apply elem_of_cons in Hin as [->|Hin]; [by vm_compute|]). by apply not_elem_of_nil in Hin.
  - unfold FindDataType. induction ODBC_SUPPORTED_SQL_TYPES as [|r rs IH]; [done|].
    rewrite fmap_cons, not_elem_of_cons in Hout. destruct Hout as [Hne Hout].
    rewrite filter_cons_False by congruence. cbn [FindDataType_in].
    by rewrite (proj2 (Z.eqb_neq _ _)) by congruence; apply IH.
Qed.

(** Every column type of the engine can be described: the SQL type an engine
    type maps to has a row in the table, except the generic interval type, for
    which the driver substitutes day-to-second, which has one. *)
Theorem related_type_described lt :
  FindDataType (FindRelatedSQLType lt) <> [] \/ lt = LT_INTERVAL /\ FindDataType SQL_INTERVAL_DAY_TO_SECOND <> [].
Proof. destruct lt; (left; by vm_compute) || (right; by vm_compute). Qed.

(** The fixed-size C types [SQL_C_SHORT] and [SQL_C_TINYINT] count as variable,
    and a boolean column has size 0. *)
Lemma PointerSizeOf_short : PointerSizeOf SQL_C_SHORT = -1 /\ PointerSizeOf SQL_C_TINYINT = -1.
Proof. done. Qed.
Lemma boolean_column_size w s : GetColumnSize (MkLogicalType LT_BOOLEAN w s) = 0.
Proof. done. Qed.
