(* ===== verification/Descriptor.v ===== *)
(** * Descriptors ([odbc_driver/descriptor.cpp], [row_descriptor.cpp])

    A descriptor is a header and a vector of records. It belongs to a statement
    (an implementation descriptor) or to none (an application descriptor); the
    tests [IsIRD] and [IsIPD] compare the object with the implementation
    descriptors of its statement, so that a descriptor has an identity here. The
    constructors leave some integer fields indeterminate; the model takes 0. *)

From S2P Require Import Prelude OdbcConst Memory Utf8 Widechar OdbcUtils Diagnostic Interval ApiInfo.

Record DescRecord := MkDescRecord {
  sql_desc_auto_unique_value : Z;
  sql_desc_base_column_name : bytes;
  sql_desc_base_table_name : bytes;
  sql_desc_case_sensitive : Z;
  sql_desc_catalog_name : bytes;
  sql_desc_concise_type : Z;
  sql_desc_data_ptr : ptr;
  sql_desc_datetime_interval_code : Z;
  sql_desc_datetime_interval_precision : Z;
  sql_desc_display_size : Z;
  sql_desc_fixed_prec_scale : Z;
  sql_desc_indicator_ptr : ptr;
  sql_desc_label : bytes;
  sql_desc_length : Z;
  sql_desc_literal_prefix : bytes;
  sql_desc_literal_suffix : bytes;
  sql_desc_local_type_name : bytes;
  sql_desc_name : bytes;
  sql_desc_nullable : Z;
  sql_desc_num_prec_radix : Z;
  sql_desc_octet_length : Z;
  sql_desc_octet_length_ptr : ptr;
  sql_desc_parameter_type : Z;
  sql_desc_precision : Z;
  sql_desc_rowver : Z;
  sql_desc_scale : Z;
  sql_desc_schema_name : bytes;
  sql_desc_searchable : Z;
  sql_desc_table_name : bytes;
  sql_desc_type : Z;
  sql_desc_type_name : bytes;
  sql_desc_unnamed : Z;
  sql_desc_unsigned : Z;
  sql_desc_updatable : Z
}.

Definition default_DescRecord : DescRecord := {|
  sql_desc_auto_unique_value := SQL_FALSE;
  sql_desc_base_column_name := [];
  sql_desc_base_table_name := [];
  sql_desc_case_sensitive := SQL_FALSE;
  sql_desc_catalog_name := [];
  sql_desc_concise_type := 0;
  sql_desc_data_ptr := 0;
  sql_desc_datetime_interval_code := 0;
  sql_desc_datetime_interval_precision := 0;
  sql_desc_display_size := 0;
  sql_desc_fixed_prec_scale := 0;
  sql_desc_indicator_ptr := 0;
  sql_desc_label := [];
  sql_desc_length := 0;
  sql_desc_literal_prefix := [];
  sql_desc_literal_suffix := [];
  sql_desc_local_type_name := [];
  sql_desc_name := [];
  sql_desc_nullable := SQL_NULLABLE_UNKNOWN;
  sql_desc_num_prec_radix := 0;
  sql_desc_octet_length := 0;
  sql_desc_octet_length_ptr := 0;
  sql_desc_parameter_type := 0;
  sql_desc_precision := 0;
  sql_desc_rowver := 0;
  sql_desc_scale := 0;
  sql_desc_schema_name := [];
  sql_desc_searchable := 0;
  sql_desc_table_name := [];
  sql_desc_type := 0;
  sql_desc_type_name := [];
  sql_desc_unnamed := 0;
  sql_desc_unsigned := 0;
  sql_desc_updatable := SQL_ATTR_READONLY
|}.

(** The copy constructor copies every field but [sql_desc_auto_unique_value],
    which keeps its initialiser. *)
Definition copy_DescRecord (other : DescRecord) : DescRecord :=
  other <| sql_desc_auto_unique_value := SQL_FALSE |>.

Record DescHeader := MkDescHeader {
  sql_desc_alloc_type : Z;
  sql_desc_array_size : Z;
  sql_desc_array_status_ptr : ptr;
  sql_desc_bind_offset_ptr : ptr;
  sql_desc_bind_type : Z;
  sql_desc_count : Z;
  sql_desc_rows_processed_ptr : ptr
}.

Definition DescHeader_Reset (h : DescHeader) : DescHeader :=
  h <| sql_desc_array_size := 1 |> <| sql_desc_array_status_ptr := nullptr |>
    <| sql_desc_count := 0 |> <| sql_desc_rows_processed_ptr := nullptr |>.

Definition new_DescHeader : DescHeader :=
  DescHeader_Reset (MkDescHeader 0 1 nullptr nullptr SQL_BIND_TYPE_DEFAULT 0 nullptr).

(** A reference to the statement of a descriptor: the identities of its
    implementation descriptors and whether it has a prepared statement. *)
Record stmt_ref := MkStmtRef { ird_id : nat; ipd_id : nat; is_prepared : bool }.

Record OdbcHandleDesc := MkOdbcHandleDesc {
  desc_id : nat;
  desc_diagnostic : OdbcDiagnostic;
  desc_header : DescHeader;
  records : list DescRecord;
  desc_dsn : bytes;            (* dbc->GetDataSourceName() *)
  desc_stmt : option stmt_ref  (* stmt *)
}.

Definition new_OdbcHandleDesc (i : nat) (dsn : bytes) (stmt : option stmt_ref) (explicit_desc : bool)
    : OdbcHandleDesc :=
  MkOdbcHandleDesc i new_OdbcDiagnostic
    (new_DescHeader <| sql_desc_alloc_type :=
       if explicit_desc then SQL_DESC_ALLOC_USER else SQL_DESC_ALLOC_AUTO |>)
    [] dsn stmt.

(** ** Which descriptor it is *)
Definition IsID (d : OdbcHandleDesc) : bool := bool_decide (is_Some (desc_stmt d)).
Definition IsAD (d : OdbcHandleDesc) : bool := bool_decide (desc_stmt d = None).
Definition IsIRD (d : OdbcHandleDesc) : bool :=
  match desc_stmt d with Some s => bool_decide (ird_id s = desc_id d) | None => false end.
Definition IsIPD (d : OdbcHandleDesc) : bool :=
  match desc_stmt d with Some s => bool_decide (ipd_id s = desc_id d) | None => false end.

#[global] Instance stmt_ref_eq_dec : EqDecision stmt_ref.
Proof. solve_decision. Defined.

(** ** Records *)
Definition SetSqlDataType (type : Z) (r : DescRecord) : Z * DescRecord :=
  let r := r <| sql_desc_concise_type := type |> in
  let r := r <| sql_desc_type := type |> in
  if IsIntervalType type then
    let r := r <| sql_desc_type := SQL_INTERVAL |> in
    let r := r <| sql_desc_concise_type := type |> in
    let interval_code := GetIntervalCode type in
    if interval_code =? SQL_ERROR then (SQL_ERROR, r)
    else (SQL_SUCCESS, r <| sql_desc_datetime_interval_code := interval_code |>)
  else (SQL_SUCCESS, r).

Definition SetSqlDescType (type : Z) (r : DescRecord) : Z * DescRecord :=
  match FindDataType type with
  | [] => (SQL_ERROR, r)
  | type_info :: _ =>
      let r := (SetSqlDataType (s16 (ti_sql_data_type type_info)) r).2 in
      let r := r <| sql_desc_datetime_interval_code := s16 (ti_sql_datetime_sub type_info) |> in
      let r := r <| sql_desc_precision := s16 (ti_column_size type_info) |> in
      let r := r <| sql_desc_datetime_interval_precision := ti_interval_precision type_info |> in
      let r := r <| sql_desc_length := u64 (ti_column_size type_info) |> in
      let r := r <| sql_desc_literal_prefix := ti_literal_prefix type_info |> in
      let r := r <| sql_desc_literal_suffix := ti_literal_suffix type_info |> in
      let r := r <| sql_desc_local_type_name :=
        if bool_decide (ti_local_type_name type_info = B"NULL") then [] else ti_local_type_name type_info |> in
      let r := r <| sql_desc_nullable := s16 (ti_nullable type_info) |> in
      let r := r <| sql_desc_case_sensitive := ti_case_sensitive type_info |> in
      let r := r <| sql_desc_scale := s16 (ti_minimum_scale type_info) |> in
      let r := r <| sql_desc_searchable := s16 (ti_searchable type_info) |> in
      let r := r <| sql_desc_fixed_prec_scale := s16 (ti_fixed_prec_scale type_info) |> in
      let r := r <| sql_desc_num_prec_radix :=
        if ti_num_prec_radix type_info =? -1 then 0 else ti_num_prec_radix type_info |> in
      let r := r <| sql_desc_unsigned := s16 (ti_unsigned_attribute type_info) |> in
      (SQL_SUCCESS, r)
  end.

Definition SetDescUnsignedField (type : LogicalTypeId) (r : DescRecord) : DescRecord :=
  if (sql_desc_unsigned r =? -1)
     || ((LogicalTypeId_value LT_UTINYINT <=? LogicalTypeId_value type)
         && (LogicalTypeId_value type <=? LogicalTypeId_value LT_UBIGINT))
  then r <| sql_desc_unsigned := SQL_TRUE |> else r.

(** ** The vector of records *)

(** [GetDescRecord]: grows the vector up to the index. *)
Definition GetDescRecord (param_idx : Z) (d : OdbcHandleDesc) : OdbcHandleDesc :=
  if zlen (records d) <=? param_idx then
    let d := d <| records ::= vec_resize (Z.to_nat (param_idx + 1)) default_DescRecord |> in
    d <| desc_header ::= fun h => h <| sql_desc_count := s16 (zlen (records d)) |> |>
  else d.

Definition AddMoreRecords (new_size : Z) (d : OdbcHandleDesc) : OdbcHandleDesc :=
  let d := d <| records ::= vec_resize (Z.to_nat new_size) default_DescRecord |> in
  d <| desc_header ::= fun h => h <| sql_desc_count := new_size |> |>.

Definition OdbcHandleDesc_Reset (d : OdbcHandleDesc) : OdbcHandleDesc := d <| records := [] |>.

Definition desc_error (ret : Z) (component msg : bytes) (state : SQLStateType) (server : bytes) (d : OdbcHandleDesc)
    : Z * OdbcHandleDesc :=
  let '(ret, diag) := SetDiagnosticRecord ret component msg state server (desc_diagnostic d) in
  (ret, d <| desc_diagnostic := diag |>).

Definition ReturnInvalidFieldIdentifier (is_readonly : bool) (d : OdbcHandleDesc) : Z * OdbcHandleDesc :=
  let msg := B"Invalid descriptor field identifier" in
  let msg := if is_readonly then msg ++ B" (read-only field)" else msg in
  desc_error SQL_ERROR (B"SQLSetDescField") msg ST_HY092 (desc_dsn d) d.

(** [CopyOnlyOdbcFields]: the header is assigned as a whole, allocation type
    included, and the records of the source are appended ([back_inserter]). *)
Definition CopyOnlyOdbcFields (other d : OdbcHandleDesc) : OdbcHandleDesc :=
  d <| desc_header := desc_header other |>
    <| records ::= fun l => l ++ (copy_DescRecord <$> records other) |>.

(** ** [SetDescField] *)

(** A read through a client pointer, undefined for a null one. *)
Definition deref_s (n : nat) (m : mem) (p : ptr) : option Z := if p =? nullptr then None else Some (load_s n m p).
Definition deref_u (n : nat) (m : mem) (p : ptr) : option Z := if p =? nullptr then None else Some (load_u n m p).

(** The header fields; [inr tt] falls out of the switch. *)
Definition SetDescHeaderField (m : mem) (field_identifier : Z) (value_ptr : ptr) (d : OdbcHandleDesc)
    : option (Z * OdbcHandleDesc) + unit :=
  let invalid b := Some (ReturnInvalidFieldIdentifier b d) in
  let set f := Some (SQL_SUCCESS, d <| desc_header ::= f |>) in
  if field_identifier =? SQL_DESC_ALLOC_TYPE then inl (invalid true)
  else if field_identifier =? SQL_DESC_ARRAY_SIZE then inl (
    if IsID d then invalid false
    else
      size ← deref_u 8 m value_ptr;
      if size <=? 0 then
        Some (desc_error SQL_ERROR (B"SQLSetDescField") (B"Invalid attribute/option identifier.") ST_HY092
                (desc_dsn d) d)
      else set (fun h => h <| sql_desc_array_size := size |>))
  else if field_identifier =? SQL_DESC_ARRAY_STATUS_PTR then
    inl (set (fun h => h <| sql_desc_array_status_ptr := value_ptr |>))
  else if field_identifier =? SQL_DESC_BIND_OFFSET_PTR then inl (
    if IsID d then invalid false else set (fun h => h <| sql_desc_bind_offset_ptr := value_ptr |>))
  else if field_identifier =? SQL_DESC_BIND_TYPE then inl (
    if IsID d then invalid false
    else v ← deref_s 4 m value_ptr; set (fun h => h <| sql_desc_bind_type := v |>))
  else if field_identifier =? SQL_DESC_COUNT then inl (
    if IsIRD d then invalid false
    else v ← deref_s 2 m value_ptr; set (fun h => h <| sql_desc_count := v |>))
  else if field_identifier =? SQL_DESC_ROWS_PROCESSED_PTR then inl (
    if IsAD d then invalid false
    else
      v ← deref_u 8 m value_ptr;
      if v <? 0 then
        Some (desc_error SQL_ERROR (B"SQLSetDescField") (B"Invalid descriptor index.") ST_07009 (desc_dsn d) d)
      else set (fun h => h <| sql_desc_rows_processed_ptr := value_ptr |>))
  else inr tt.

(** The fields the driver rejects as read-only. *)
Definition is_readonly_field (f : Z) : bool :=
  (f =? SQL_DESC_AUTO_UNIQUE_VALUE) || (f =? SQL_DESC_BASE_COLUMN_NAME) || (f =? SQL_DESC_BASE_TABLE_NAME)
  || (f =? SQL_DESC_CASE_SENSITIVE) || (f =? SQL_DESC_CATALOG_NAME) || (f =? SQL_DESC_DISPLAY_SIZE)
  || (f =? SQL_DESC_FIXED_PREC_SCALE) || (f =? SQL_DESC_LABEL) || (f =? SQL_DESC_LITERAL_PREFIX)
  || (f =? SQL_DESC_LITERAL_SUFFIX) || (f =? SQL_DESC_LOCAL_TYPE_NAME) || (f =? SQL_DESC_NULLABLE)
  || (f =? SQL_DESC_ROWVER) || (f =? SQL_DESC_SCHEMA_NAME) || (f =? SQL_DESC_SEARCHABLE)
  || (f =? SQL_DESC_TABLE_NAME) || (f =? SQL_DESC_TYPE_NAME) || (f =? SQL_DESC_UNSIGNED)
  || (f =? SQL_DESC_UPDATABLE).

(** The record fields, on the record at [rec_idx]. [fuel] bounds the length of a
    NUL-terminated name. *)
Definition SetDescRecordField (fuel : nat) (m : mem) (rec_idx : Z) (f : Z) (value_ptr : ptr) (buffer_length : Z)
    (d : OdbcHandleDesc) : option (Z * OdbcHandleDesc) :=
  let readonly := Some (ReturnInvalidFieldIdentifier true d) in
  let update g d := d <| records ::= alter g (Z.to_nat rec_idx) |> in
  let set g := Some (SQL_SUCCESS, update g d) in
  let set_type type :=
    desc_record ← records d !! Z.to_nat rec_idx;
    let '(ret, desc_record) := SetSqlDescType type desc_record in
    let d := update (fun _ => desc_record) d in
    if negb (ret =? 0) then
      Some (desc_error SQL_ERROR (B"SQLSetDescField") (B"Inconsistent descriptor information.") ST_HY021
              (desc_dsn d) d)
    else Some (SQL_SUCCESS, d) in
  if is_readonly_field f then readonly
  else if f =? SQL_DESC_CONCISE_TYPE then
    if IsIRD d then readonly
    else v ← deref_s 2 m value_ptr; set (fun r => r <| sql_desc_concise_type := v |>)
  else if f =? SQL_DESC_DATA_PTR then
    if IsID d then readonly else set (fun r => r <| sql_desc_data_ptr := value_ptr |>)
  else if f =? SQL_DESC_DATETIME_INTERVAL_CODE then
    if IsIRD d then readonly
    else desc_record ← records d !! Z.to_nat rec_idx; set_type (sql_desc_type desc_record)
  else if f =? SQL_DESC_DATETIME_INTERVAL_PRECISION then
    if IsIRD d then readonly
    else v ← deref_s 4 m value_ptr; set (fun r => r <| sql_desc_datetime_interval_precision := v |>)
  else if f =? SQL_DESC_INDICATOR_PTR then
    if IsID d then readonly else set (fun r => r <| sql_desc_indicator_ptr := value_ptr |>)
  else if f =? SQL_DESC_LENGTH then
    if IsIRD d then readonly
    else v ← deref_u 8 m value_ptr; set (fun r => r <| sql_desc_length := v |>)
  else if f =? SQL_DESC_NAME then
    if negb (IsIPD d) then readonly
    else set (fun r => r <| sql_desc_name := ConvertSQLCHARToString fuel m value_ptr buffer_length |>)
  else if f =? SQL_DESC_NUM_PREC_RADIX then
    if IsIRD d then readonly
    else v ← deref_s 4 m value_ptr; set (fun r => r <| sql_desc_num_prec_radix := v |>)
  else if f =? SQL_DESC_OCTET_LENGTH then
    if IsIRD d then readonly
    else v ← deref_s 8 m value_ptr; set (fun r => r <| sql_desc_octet_length := v |>)
  else if f =? SQL_DESC_OCTET_LENGTH_PTR then
    if IsID d then readonly else set (fun r => r <| sql_desc_octet_length_ptr := value_ptr |>)
  else if f =? SQL_DESC_PARAMETER_TYPE then
    if negb (IsIPD d) then readonly
    else v ← deref_s 2 m value_ptr; set (fun r => r <| sql_desc_parameter_type := v |>)
  else if f =? SQL_DESC_PRECISION then
    if IsIRD d then readonly
    else v ← deref_s 2 m value_ptr; set (fun r => r <| sql_desc_precision := v |>)
  else if f =? SQL_DESC_SCALE then
    if IsIRD d then readonly
    else v ← deref_s 2 m value_ptr; set (fun r => r <| sql_desc_scale := v |>)
  else if f =? SQL_DESC_TYPE then
    if IsIRD d then readonly else v ← deref_s 2 m value_ptr; set_type v
  else if f =? SQL_DESC_UNNAMED then
    if negb (IsIPD d) then readonly
    else v ← deref_s 2 m value_ptr; set (fun r => r <| sql_desc_unnamed := v |>)
  else Some (ReturnInvalidFieldIdentifier false d).

Definition SetDescField (fuel : nat) (m : mem) (rec_number field_identifier : Z) (value_ptr : ptr)
    (buffer_length : Z) (d : OdbcHandleDesc) : option (Z * OdbcHandleDesc) :=
  match SetDescHeaderField m field_identifier value_ptr d with
  | inl r => r
  | inr _ =>
      if rec_number <=? 0 then
        Some (desc_error SQL_ERROR (B"SQLSetDescField") (B"Invalid descriptor index.") ST_07009 (desc_dsn d) d)
      else
        let rec_idx := rec_number - 1 in
        SetDescRecordField fuel m rec_idx field_identifier value_ptr buffer_length (GetDescRecord rec_idx d)
  end.

(** ** The implicit descriptors of a statement

    [RowDescriptor] makes its implementation descriptor with the statement,
    [ParameterDescriptor] makes both of its descriptors without it. *)
Record RowDescriptor := MkRowDescriptor {
  ard : OdbcHandleDesc;
  ird : OdbcHandleDesc;
  cur_explicit_ard : option OdbcHandleDesc  (* [cur_ard], when it is not [ard] *)
}.

Definition make_RowDescriptor (ard_id : nat) (dsn : bytes) (stmt : stmt_ref) : RowDescriptor :=
  MkRowDescriptor (new_OdbcHandleDesc ard_id dsn None false)
    (new_OdbcHandleDesc (ird_id stmt) dsn (Some stmt) false) None.

Definition GetIRD (rd : RowDescriptor) : OdbcHandleDesc := ird rd.
Definition GetARD (rd : RowDescriptor) : OdbcHandleDesc := default (ard rd) (cur_explicit_ard rd).

(** A write through [cur_ard]. *)
Definition update_cur_ard (f : OdbcHandleDesc -> OdbcHandleDesc) (rd : RowDescriptor) : RowDescriptor :=
  match cur_explicit_ard rd with
  | Some d => rd <| cur_explicit_ard := Some (f d) |>
  | None => rd <| ard ::= f |>
  end.

Definition set_count_0 (d : OdbcHandleDesc) : OdbcHandleDesc :=
  d <| desc_header ::= fun h => h <| sql_desc_count := 0 |> |>.

Definition RowDescriptor_Reset (rd : RowDescriptor) : RowDescriptor :=
  update_cur_ard set_count_0 (rd <| ird ::= set_count_0 |>).

Definition RowDescriptor_Clear (rd : RowDescriptor) : RowDescriptor :=
  let rd := rd <| ird ::= fun d => d <| records := [] |> |> in
  let rd := update_cur_ard (fun d => d <| records := [] |>) rd in
  RowDescriptor_Reset rd.

Definition SetCurrentARD (new_ard : OdbcHandleDesc) (rd : RowDescriptor) : RowDescriptor :=
  let rd := rd <| cur_explicit_ard := if bool_decide (desc_id new_ard = desc_id (ard rd)) then None
                                      else Some new_ard |> in
  update_cur_ard (fun d => d <| desc_header ::= fun h => h <| sql_desc_alloc_type := SQL_DESC_ALLOC_USER |> |>) rd.

Definition ResetCurrentARD (rd : RowDescriptor) : RowDescriptor := rd <| cur_explicit_ard := None |>.

Definition make_ipd (dsn : bytes) (stmt : stmt_ref) : OdbcHandleDesc :=
  new_OdbcHandleDesc (ipd_id stmt) dsn None false.
Definition make_apd (apd_id : nat) (dsn : bytes) : OdbcHandleDesc := new_OdbcHandleDesc apd_id dsn None false.

(** ** What an operation leaves alone

    [desc_frame idx d d']: the same object, with every record but the one at
    [idx] as it was, reading a record past the end as the default one. *)
Definition record_at (d : OdbcHandleDesc) (i : nat) : DescRecord := default default_DescRecord (records d !! i).

Definition same_object (d d' : OdbcHandleDesc) : Prop :=
  desc_id d' = desc_id d /\ desc_dsn d' = desc_dsn d /\ desc_stmt d' = desc_stmt d.

Definition desc_frame (idx : Z) (d d' : OdbcHandleDesc) : Prop :=
  same_object d d' /\ forall i, i <> Z.to_nat idx -> record_at d' i = record_at d i.

#[global] Instance same_object_refl : Reflexive same_object.
Proof. by repeat split. Qed.
#[global] Instance same_object_trans : Transitive same_object.
Proof. intros d d' d'' (?&?&?) (?&?&?). repeat split; congruence. Qed.
#[global] Instance desc_frame_refl idx : Reflexive (desc_frame idx).
Proof. by split. Qed.
#[global] Instance desc_frame_trans idx : Transitive (desc_frame idx).
Proof.
  intros d d' d'' [Ho Hr] [Ho' Hr']. split; [by etrans|]. intros i Hi. by rewrite Hr', Hr.
Qed.

Lemma same_object_kind d d' : same_object d d' ->
  IsID d' = IsID d /\ IsAD d' = IsAD d /\ IsIRD d' = IsIRD d /\ IsIPD d' = IsIPD d.
Proof. intros (Hi & _ & Hs). unfold IsID, IsAD, IsIRD, IsIPD. by rewrite Hs, Hi. Qed.

Lemma desc_error_eq ret c msg st srv d :
  exists diag, desc_error ret c msg st srv d = (ret, d <| desc_diagnostic := diag |>).
Proof. by eexists. Qed.

Lemma desc_error_frame idx ret c msg st srv d : desc_frame idx d (desc_error ret c msg st srv d).2.
Proof. by repeat split. Qed.

(** *** Records of a vector *)
Lemma lookup_default_resize (l : list DescRecord) n i : (length l <= n)%nat ->
  default default_DescRecord (vec_resize n default_DescRecord l !! i) = default default_DescRecord (l !! i).
Proof.
  intros Hn. unfold vec_resize. rewrite take_ge by lia. destruct (decide (i < length l)%nat).
  - by rewrite lookup_app_l by lia.
  - rewrite lookup_app_r, (lookup_ge_None_2 l) by lia.
    destruct (decide (i - length l < n - length l)%nat).
    + by rewrite lookup_replicate_2 by lia.
    + by rewrite lookup_ge_None_2 by (rewrite length_replicate; lia).
Qed.

Lemma GetDescRecord_spec idx d : 0 <= idx ->
  let d' := GetDescRecord idx d in
  same_object d d' /\ (forall i, record_at d' i = record_at d i)
  /\ length (records d') = Nat.max (length (records d)) (Z.to_nat (idx + 1))
  /\ desc_diagnostic d' = desc_diagnostic d
  /\ desc_header d' = (desc_header d)
     <| sql_desc_count := if zlen (records d) <=? idx then s16 (idx + 1) else sql_desc_count (desc_header d) |>.
Proof.
  intros Hi. unfold GetDescRecord. cbv zeta. case_match; zbool; unfold zlen in *.
  - destruct d as [i di h rs dsn st]; cbn in *. split; [by repeat split|].
    split; [|split; [|split; [done|]]].
    + intros j. unfold record_at. cbn. apply lookup_default_resize. lia.
    + cbn. rewrite length_vec_resize. lia.
    + cbn. rewrite length_vec_resize. do 3 f_equal. lia.
  - split; [by repeat split|]. split; [done|]. split; [lia|]. split; [done|]. by destruct d as [? ? [] ? ? ?].
Qed.

Lemma record_at_alter g n d i :
  (n < length (records d))%nat ->
  record_at (d <| records ::= alter g n |>) i = if decide (i = n) then g (record_at d n) else record_at d i.
Proof.
  intros Hn. unfold record_at. destruct d as [? ? ? rs ? ?]. cbn in *. case_decide as Hi.
  - subst. rewrite list_lookup_alter_eq. apply lookup_lt_is_Some in Hn as [r Hr]. by rewrite Hr.
  - by rewrite list_lookup_alter_ne by done.
Qed.

Lemma alter_frame g idx d : desc_frame idx d (d <| records ::= alter g (Z.to_nat idx) |>).
Proof.
  split; [by destruct d|]. intros i Hi. unfold record_at. destruct d; cbn. by rewrite list_lookup_alter_ne by done.
Qed.

(** *** The record fields *)

(** The possible outcomes of the record switch: the descriptor is unchanged but
    for a diagnostic, or one record is altered, possibly with a diagnostic. *)
Definition record_outcome (idx : Z) (d : OdbcHandleDesc) (r : Z * OdbcHandleDesc) : Prop :=
  (r.1 = SQL_ERROR /\ exists diag, r.2 = d <| desc_diagnostic := diag |>)
  \/ ((IsIRD d = false \/ IsIPD d = true)
      /\ (r.1 = SQL_ERROR \/ r.1 = SQL_SUCCESS)
      /\ exists g diag, r.2 = d <| records ::= alter g (Z.to_nat idx) |> <| desc_diagnostic := diag |>).

Lemma readonly_outcome idx b d : record_outcome idx d (ReturnInvalidFieldIdentifier b d).
Proof. left. split; [done|]. by eexists. Qed.

Lemma alter_outcome idx d g : IsIRD d = false \/ IsIPD d = true ->
  record_outcome idx d (SQL_SUCCESS, d <| records ::= alter g (Z.to_nat idx) |>).
Proof. intros H. right. split; [done|]. split; [by right|]. exists g, (desc_diagnostic d). by destruct d. Qed.

Lemma IsIRD_IsID d : IsIRD d = true -> IsID d = true.
Proof. unfold IsIRD, IsID. by destruct (desc_stmt d). Qed.

Lemma SetDescRecordField_outcome fuel m idx f p n d r :
  SetDescRecordField fuel m idx f p n d = Some r -> record_outcome idx d r.
Proof.
  intros H. unfold SetDescRecordField in H.
  assert (IsID d = false -> IsIRD d = false) as HID.
  { intros HD. destruct (IsIRD d) eqn:E; [|done]. by rewrite IsIRD_IsID in HD. }
  repeat (case_match; [simplify_eq; first [apply readonly_outcome | idtac]|]); try (by simplify_eq; apply readonly_outcome).
  all: try (unfold deref_s, deref_u in H; case_match; [done|]; cbn in H).
  all: simplify_eq; try (apply alter_outcome; zbool; naive_solver).
  all: destruct (records d !! Z.to_nat idx) as [r0|]; [|done];
    unfold mbind, option_bind in H; cbv beta iota in H; destruct (SetSqlDescType _ r0) as [ret r1];
    destruct (negb (ret =? 0)); injection H as <-; [|by apply alter_outcome; left].
  all: right; split; [by left|]; split; [by left|]; eexists _, _; reflexivity.
Qed.

Lemma record_outcome_frame idx d r : record_outcome idx d r ->
  desc_frame idx d r.2 /\ desc_header r.2 = desc_header d /\ length (records r.2) = length (records d).
Proof.
  intros [(_ & diag & ->)|(_ & _ & g & diag & ->)]; [by destruct d|].
  split; [|destruct d; cbn; by rewrite length_alter].
  etrans; [apply (alter_frame g)|]. by destruct d.
Qed.

(** *** The header fields *)
Definition header_outcome (d : OdbcHandleDesc) (r : Z * OdbcHandleDesc) : Prop :=
  (r.1 = SQL_ERROR /\ exists diag, r.2 = d <| desc_diagnostic := diag |>)
  \/ (r.1 = SQL_SUCCESS /\ exists h, r.2 = d <| desc_header := h |>).

Lemma SetDescHeaderField_outcome m f p d r : SetDescHeaderField m f p d = inl (Some r) -> header_outcome d r.
Proof.
  intros H. unfold SetDescHeaderField in H.
  repeat (case_match; [simplify_eq; first [by left; split; [|eexists] | idtac]|]); try done.
  all: try (unfold deref_s, deref_u in H; case_match; [done|]; cbn in H; try case_match).
  all: simplify_eq; first [by left; split; [|eexists] | right; split; [done|]; by eexists].
Qed.

(** [SetDescField] on record [rec_number] of a descriptor never touches
    another descriptor's identity, its statement or any record but the one
    addressed; it never shrinks the vector of records, and the fields it rejects
    leave the header as it was but for the record count. *)
Theorem SetDescField_frame fuel m rec_number f p n d ret d' :
  SetDescField fuel m rec_number f p n d = Some (ret, d') ->
  desc_frame (rec_number - 1) d d'
  /\ (length (records d) <= length (records d'))%nat
  /\ (ret = SQL_ERROR \/ ret = SQL_SUCCESS)
  /\ (ret = SQL_ERROR -> forall c, (desc_header d') <| sql_desc_count := c |> = (desc_header d) <| sql_desc_count := c |>).
Proof.
  unfold SetDescField. destruct (SetDescHeaderField m f p d) as [[r|]|[]] eqn:E; intros H; simplify_eq.
  - apply SetDescHeaderField_outcome in E as [(? & diag & ?)|(? & h & ?)]; simplify_eq/=; (split; [by destruct d|]); destruct d; cbn in *; (split; [done|]); (split; [auto|]); intros; done.
  - case_match; zbool.
    + injection H as <- <-. split; [by destruct d|]. destruct d; auto.
    + pose proof (GetDescRecord_spec (rec_number - 1) d ltac:(lia)) as (Ho & Hr & Hl & _ & Hh).
      apply SetDescRecordField_outcome in H. pose proof (record_outcome_frame _ _ _ H) as (Hf & Hhd & Hlen).
      cbn in *. split; [|split; [lia|split]].
      * etrans; [|exact Hf]. by split.
      * destruct H as [(?&_)|(_ & [?|?] & _)]; cbn in *; auto.
      * intros _ c. rewrite Hhd, Hh. by destruct d as [? ? [] ? ? ?].
Qed.

(** A name set on a fresh application descriptor of two records: the write goes
    to the second record and the first keeps its default. *)
Definition example_ard : OdbcHandleDesc := new_OdbcHandleDesc 7 [] None true.

Lemma SetDescField_frame_witness :
  exists d', SetDescField 10 (store 2 ∅ 100 5) 2 SQL_DESC_PRECISION 100 0 example_ard = Some (SQL_SUCCESS, d')
  /\ desc_frame 1 example_ard d' /\ length (records d') = 2%nat
  /\ sql_desc_precision (record_at d' 1) = 5.
Proof.
  eexists. split; [reflexivity|]. split; [|by vm_compute].
  eapply (SetDescField_frame 10 (store 2 ∅ 100 5) 2 SQL_DESC_PRECISION 100 0 example_ard). reflexivity.
Defined.

(** An implementation row descriptor cannot be written through
    [SetDescField]: a call that succeeds wrote one of the two header pointers
    the standard lets an application set, and no call changes the contents of a
    record. *)
Theorem IRD_records_readonly fuel m rec_number f p n d ret d' :
  IsIRD d = true -> IsIPD d = false ->
  SetDescField fuel m rec_number f p n d = Some (ret, d') ->
  (forall i, record_at d' i = record_at d i)
  /\ (ret = SQL_SUCCESS -> f = SQL_DESC_ARRAY_STATUS_PTR \/ f = SQL_DESC_ROWS_PROCESSED_PTR).
Proof.
  intros Hird Hipd H. pose proof (IsIRD_IsID _ Hird) as HID. unfold SetDescField in H.
  destruct (SetDescHeaderField m f p d) as [[r|]|[]] eqn:E; simplify_eq.
  - split.
    + apply SetDescHeaderField_outcome in E as [(? & diag & ?)|(? & h & ?)]; simplify_eq/=; by destruct d.
    + intros ->. unfold SetDescHeaderField in E. rewrite Hird, HID in E.
      repeat (case_match; [first [injection E as E; discriminate E | zbool; by auto]|]); done.
  - case_match; zbool; [by injection H as <- <-; destruct d|].
    pose proof (GetDescRecord_spec (rec_number - 1) d ltac:(lia)) as (Ho & Hr & _).
    apply same_object_kind in Ho as (_ & _ & Hi & Hp).
    apply SetDescRecordField_outcome in H as [(Hret & diag & Hd)|([?|?] & _)]; [|congruence..].
    cbn in Hret, Hd. subst. split; [|done]. intros i. rewrite <- Hr. done.
Qed.

Definition example_ird : OdbcHandleDesc := new_OdbcHandleDesc 3 [] (Some (MkStmtRef 3 4 true)) false.

Lemma IRD_records_readonly_witness : IsIRD example_ird = true /\
  forall i d' ret, SetDescField 10 (store 2 ∅ 100 5) 1 SQL_DESC_PRECISION 100 0 example_ird = Some (ret, d') ->
  record_at d' i = record_at example_ird i.
Proof.
  split; [done|]. intros i d' ret H.
  by apply (IRD_records_readonly 10 (store 2 ∅ 100 5) 1 SQL_DESC_PRECISION 100 0 example_ird ret d').
Defined.

(** The implementation parameter descriptor a statement is created with is
    not recognised as one: it has no statement, so that the three fields the
    driver accepts only on it (name, parameter type, unnamed) are rejected as
    read-only, while the fields reserved to application descriptors (the data
    pointer here) are accepted. *)
Theorem ipd_not_recognised fuel m rec_number f p n dsn stmt : 0 < rec_number ->
  let ipd := make_ipd dsn stmt in
  (f ∈ [SQL_DESC_NAME; SQL_DESC_PARAMETER_TYPE; SQL_DESC_UNNAMED] ->
     fst <$> SetDescField fuel m rec_number f p n ipd = Some SQL_ERROR)
  /\ (exists ipd', SetDescField fuel m rec_number SQL_DESC_DATA_PTR p n ipd = Some (SQL_SUCCESS, ipd')
        /\ sql_desc_data_ptr (record_at ipd' (Z.to_nat (rec_number - 1))) = p).
Proof.
  intros Hrec. cbv zeta.
  pose proof (GetDescRecord_spec (rec_number - 1) (make_ipd dsn stmt) ltac:(lia)) as (Ho & _ & Hl & _).
  apply same_object_kind in Ho as (HID & _ & _ & Hipd).
  assert ((rec_number <=? 0) = false) as E by (apply Z.leb_gt; lia).
  split.
  - intros Hf. unfold SetDescField. rewrite E.
    assert (SetDescHeaderField m f p (make_ipd dsn stmt) = inr tt) as ->
      by (repeat (apply elem_of_cons in Hf as [->|Hf]; [done|]); by apply not_elem_of_nil in Hf).
    unfold SetDescRecordField. rewrite Hipd. change (IsIPD (make_ipd dsn stmt)) with false.
    repeat (apply elem_of_cons in Hf as [->|Hf]; [done|]). by apply not_elem_of_nil in Hf.
  - unfold SetDescField. change (SetDescHeaderField m SQL_DESC_DATA_PTR p (make_ipd dsn stmt)) with
      (@inr (option (Z * OdbcHandleDesc)) unit tt). cbv iota beta zeta. rewrite E.
    unfold SetDescRecordField. rewrite HID.
    change (IsID (make_ipd dsn stmt)) with false. eexists. split; [reflexivity|].
    rewrite record_at_alter by lia. rewrite decide_True by done. by destruct (record_at _ _).
Qed.

Lemma ipd_not_recognised_witness :
  fst <$> SetDescField 5 ∅ 1 SQL_DESC_NAME 100 4 (make_ipd [] (MkStmtRef 3 4 true)) = Some SQL_ERROR.
Proof. apply (ipd_not_recognised 5 ∅ 1); [lia|]. apply (bool_decide_unpack _). by vm_compute. Defined.

Lemma FindDataType_nil type : FindDataType type = [] <-> ~ type ∈ ti_data_type <$> ODBC_SUPPORTED_SQL_TYPES.
Proof.
  unfold FindDataType. induction ODBC_SUPPORTED_SQL_TYPES as [|t ts IH]; [by split; [intros _ []%not_elem_of_nil|]|].
  cbn [FindDataType_in]. rewrite fmap_cons, not_elem_of_cons. destruct (Z.eqb_spec (ti_data_type t) type) as [<-|].
  - cbn [take_same_type]. rewrite Z.eqb_refl. split; [done|]. by intros [].
  - rewrite IH. split; [by intros; split|by intros []].
Qed.

Lemma SetSqlDescType_success type r : type ∈ ti_data_type <$> ODBC_SUPPORTED_SQL_TYPES ->
  exists r', SetSqlDescType type r = (SQL_SUCCESS, r').
Proof.
  intros Hin. unfold SetSqlDescType. destruct (FindDataType type) eqn:E; [|by eexists].
  by apply FindDataType_nil in E.
Qed.

(** [SetSqlDescType] succeeds exactly on the SQL types of the driver's
    table and then leaves a consistent record: an interval type splits into the
    verbose type [SQL_INTERVAL] and the interval's concise code, every other
    type has equal concise and verbose types; the application's pointers and the
    length in octets are untouched. *)
Theorem SetSqlDescType_consistent type r :
  let '(ret, r') := SetSqlDescType type r in
  (ret = SQL_SUCCESS <-> type ∈ ti_data_type <$> ODBC_SUPPORTED_SQL_TYPES)
  /\ (ret <> SQL_SUCCESS -> ret = SQL_ERROR /\ r' = r)
  /\ (ret = SQL_SUCCESS ->
        sql_desc_type r' = (if IsIntervalType (sql_desc_concise_type r') then SQL_INTERVAL
                            else sql_desc_concise_type r')
        /\ sql_desc_data_ptr r' = sql_desc_data_ptr r
        /\ sql_desc_indicator_ptr r' = sql_desc_indicator_ptr r
        /\ sql_desc_octet_length_ptr r' = sql_desc_octet_length_ptr r
        /\ sql_desc_octet_length r' = sql_desc_octet_length r
        /\ sql_desc_name r' = sql_desc_name r).
Proof.
  pose proof (FindDataType_nil type) as Hfind.
  unfold SetSqlDescType. destruct (FindDataType type) as [|t ts] eqn:E.
  - split; [|naive_solver]. split; [done|]. intros Hin. by destruct (proj1 Hfind eq_refl).
  - assert (type ∈ ti_data_type <$> ODBC_SUPPORTED_SQL_TYPES) as Hin.
    { destruct (decide (type ∈ ti_data_type <$> ODBC_SUPPORTED_SQL_TYPES)) as [|n]; [done|]. by apply Hfind in n. }
    split; [by split|]. split; [done|]. intros _. unfold SetSqlDataType.
    destruct r. set (c := s16 (ti_sql_data_type t)). cbv zeta.
    destruct (IsIntervalType c) eqn:Ei; [destruct (GetIntervalCode c =? SQL_ERROR)|]; cbn; by rewrite Ei.
Qed.
