(* ===== verification/DescApi.v ===== *)
(** * The descriptor API ([odbc_api/descriptor_api.cpp])

    [SQLGetDescField], [SQLSetDescField], [SQLGetDescRec], [SQLSetDescRec] and
    [SQLCopyDesc] on the descriptors of [Descriptor]. A handle argument is the
    descriptor it points to, or none for a null handle. *)

From S2P Require Import Prelude OdbcConst Memory Utf8 Widechar OdbcUtils Diagnostic Interval ApiInfo Descriptor.

(** [WriteStringDesc], both overloads; [lw] is the size of [INT_TYPE]. *)
Definition WriteStringDesc (c : CharType) (lw : nat) (caller_name : bytes) (desc : OdbcHandleDesc) (str : bytes)
    (character_attribute_ptr : ptr) (buffer_length : Z) (string_length : ptr) (m : mem)
    : Z * OdbcHandleDesc * mem :=
  if buffer_length <? 0 then
    (desc_error SQL_ERROR caller_name (B"Invalid string or buffer length") ST_HY090 [] desc, m)
  else
    let '(written, total, m) :=
      match c with
      | SQLCHAR_T =>
          let '(written, m) := WriteStringUtf8 str character_attribute_ptr (u64 buffer_length) m in
          (written, zlen str, m)
      | SQLWCHAR_T =>
          let '(written, utf16_vec, m) := WriteStringUtf16 str character_attribute_ptr (u64 buffer_length) m in
          (written, zlen utf16_vec, m)
      end in
    let m := store_opt lw m string_length total in
    if negb (character_attribute_ptr =? nullptr) && (written <? total) then
      (desc_error SQL_SUCCESS_WITH_INFO caller_name (B"String data, right truncated") ST_01004 [] desc, m)
    else (SQL_SUCCESS, desc, m).

(** Which descriptors a record field can be read from, as the code tests it. *)
Inductive desc_guard := AnyDesc | NotID | OnlyIRD | NotAD | OnlyAD | OnlyIPD.
Definition guard_ok (g : desc_guard) (d : OdbcHandleDesc) : bool :=
  match g with
  | AnyDesc => true
  | NotID => negb (IsID d)
  | OnlyIRD => IsIRD d
  | NotAD => negb (IsAD d)
  | OnlyAD => IsAD d
  | OnlyIPD => IsIPD d
  end.

(** What a record field delivers: an integer of [n] bytes, a string, or nothing
    ([SQL_DESC_DATA_PTR] assigns the local variable). *)
Inductive field_value := FInt (n : nat) (v : Z) | FStr (s : bytes) | FNothing.

(** The second switch of [GetDescFieldInternal], in two halves. *)
Definition desc_record_field_1 (f : Z) (r : DescRecord) : option (desc_guard * field_value) :=
  if f =? SQL_DESC_AUTO_UNIQUE_VALUE then Some (OnlyIRD, FInt 4 SQL_FALSE)
  else if f =? SQL_DESC_BASE_COLUMN_NAME then Some (OnlyIRD, FStr (sql_desc_base_column_name r))
  else if f =? SQL_DESC_BASE_TABLE_NAME then Some (OnlyIRD, FStr (sql_desc_base_table_name r))
  else if f =? SQL_DESC_CASE_SENSITIVE then Some (OnlyIRD, FInt 4 (sql_desc_case_sensitive r))
  else if f =? SQL_DESC_CATALOG_NAME then Some (OnlyIRD, FStr (sql_desc_catalog_name r))
  else if f =? SQL_DESC_CONCISE_TYPE then Some (AnyDesc, FInt 2 (sql_desc_concise_type r))
  else if f =? SQL_DESC_DATA_PTR then Some (NotID, FNothing)
  else if f =? SQL_DESC_DATETIME_INTERVAL_CODE then Some (AnyDesc, FInt 2 (sql_desc_datetime_interval_code r))
  else if f =? SQL_DESC_DATETIME_INTERVAL_PRECISION then
    Some (AnyDesc, FInt 4 (sql_desc_datetime_interval_precision r))
  else if f =? SQL_DESC_DISPLAY_SIZE then Some (OnlyIRD, FInt 8 (sql_desc_display_size r))
  else if f =? SQL_DESC_FIXED_PREC_SCALE then Some (OnlyIRD, FInt 2 (sql_desc_fixed_prec_scale r))
  else if f =? SQL_DESC_INDICATOR_PTR then Some (NotID, FInt 8 (sql_desc_indicator_ptr r))
  else if f =? SQL_DESC_LABEL then Some (OnlyIRD, FStr (sql_desc_label r))
  else if f =? SQL_DESC_LENGTH then Some (AnyDesc, FInt 8 (sql_desc_length r))
  else if f =? SQL_DESC_LITERAL_PREFIX then Some (OnlyIRD, FStr (sql_desc_literal_prefix r))
  else if f =? SQL_DESC_LITERAL_SUFFIX then Some (OnlyIRD, FStr (sql_desc_literal_suffix r))
  else if f =? SQL_DESC_LOCAL_TYPE_NAME then Some (NotAD, FStr (sql_desc_local_type_name r))
  else if f =? SQL_DESC_NAME then Some (NotAD, FStr (sql_desc_name r))
  else if f =? SQL_DESC_NULLABLE then Some (OnlyAD, FInt 2 (sql_desc_nullable r))
  else None.

Definition desc_record_field_2 (f : Z) (r : DescRecord) : option (desc_guard * field_value) :=
  if f =? SQL_DESC_NUM_PREC_RADIX then Some (AnyDesc, FInt 4 (sql_desc_num_prec_radix r))
  else if f =? SQL_DESC_OCTET_LENGTH then Some (AnyDesc, FInt 8 (sql_desc_octet_length r))
  else if f =? SQL_DESC_OCTET_LENGTH_PTR then Some (NotID, FInt 8 (sql_desc_octet_length_ptr r))
  else if f =? SQL_DESC_PARAMETER_TYPE then Some (OnlyIPD, FInt 2 (sql_desc_parameter_type r))
  else if f =? SQL_DESC_PRECISION then Some (AnyDesc, FInt 2 (sql_desc_precision r))
  else if f =? SQL_DESC_ROWVER then Some (OnlyAD, FInt 2 (sql_desc_rowver r))
  else if f =? SQL_DESC_SCALE then Some (AnyDesc, FInt 2 (sql_desc_scale r))
  else if f =? SQL_DESC_SCHEMA_NAME then Some (OnlyIRD, FStr (sql_desc_schema_name r))
  else if f =? SQL_DESC_SEARCHABLE then Some (OnlyIRD, FInt 2 (sql_desc_searchable r))
  else if f =? SQL_DESC_TABLE_NAME then Some (OnlyIRD, FStr (sql_desc_table_name r))
  else if f =? SQL_DESC_TYPE then Some (AnyDesc, FInt 2 (sql_desc_type r))
  else if f =? SQL_DESC_TYPE_NAME then Some (NotAD, FStr (sql_desc_type_name r))
  else if f =? SQL_DESC_UNNAMED then Some (OnlyAD, FInt 2 (sql_desc_unnamed r))
  else if f =? SQL_DESC_UNSIGNED then Some (OnlyAD, FInt 2 (sql_desc_unsigned r))
  else if f =? SQL_DESC_UPDATABLE then Some (OnlyIRD, FInt 2 (sql_desc_updatable r))
  else None.

Definition desc_record_field (f : Z) (r : DescRecord) : option (desc_guard * field_value) :=
  match desc_record_field_1 f r with Some gv => Some gv | None => desc_record_field_2 f r end.

(** The first switch of [GetDescFieldInternal]. *)
Definition desc_header_field (f : Z) (h : DescHeader) : option (desc_guard * field_value) :=
  if f =? SQL_DESC_ALLOC_TYPE then Some (AnyDesc, FInt 2 (sql_desc_alloc_type h))
  else if f =? SQL_DESC_ARRAY_SIZE then Some (NotID, FInt 8 (sql_desc_array_size h))
  else if f =? SQL_DESC_ARRAY_STATUS_PTR then Some (AnyDesc, FInt 8 (sql_desc_array_status_ptr h))
  else if f =? SQL_DESC_BIND_OFFSET_PTR then Some (NotID, FInt 8 (sql_desc_bind_offset_ptr h))
  else if f =? SQL_DESC_BIND_TYPE then Some (NotID, FInt 4 (sql_desc_bind_type h))
  else if f =? SQL_DESC_COUNT then Some (AnyDesc, FInt 2 (sql_desc_count h))
  else if f =? SQL_DESC_ROWS_PROCESSED_PTR then Some (NotAD, FInt 8 (sql_desc_rows_processed_ptr h))
  else None.

(** A case of either switch: the test of the descriptor, then the value;
    [None] is a write through a null pointer. *)
Definition deliver_field (c : CharType) (desc : OdbcHandleDesc) (value_ptr : ptr) (buffer_length : Z)
    (string_length_ptr : ptr) (m : mem) (gv : desc_guard * field_value) : option (Z * option OdbcHandleDesc * mem) :=
  let '(g, v) := gv in
  if negb (guard_ok g desc) then
    let '(ret, desc) := ReturnInvalidFieldIdentifier false desc in Some (ret, Some desc, m)
  else match v with
       | FInt n z => m ← Store n z value_ptr m; Some (SQL_SUCCESS, Some desc, m)
       | FStr s =>
           let '(ret, desc, m) := WriteStringDesc c 4 (B"SQLGetDescField") desc s value_ptr buffer_length
                                    string_length_ptr m in
           Some (ret, Some desc, m)
       | FNothing => Some (SQL_SUCCESS, Some desc, m)
       end.

Definition GetDescFieldInternal (c : CharType) (descriptor_handle : option OdbcHandleDesc)
    (rec_number field_identifier : Z) (value_ptr : ptr) (buffer_length : Z) (string_length_ptr : ptr) (m : mem)
    : option (Z * option OdbcHandleDesc * mem) :=
  match descriptor_handle with
  | None => Some (SQL_INVALID_HANDLE, None, m)
  | Some desc =>
      let ret r := let '(ret, desc) := (r : Z * OdbcHandleDesc) in Some (ret, Some desc, m) in
      let deliver := deliver_field c desc value_ptr buffer_length string_length_ptr m in
      if IsNumericDescriptorField field_identifier && (value_ptr =? nullptr) then
        ret (desc_error SQL_ERROR (B"SQLGetDescField") (B"Invalid null value pointer for descriptor numeric field")
               ST_HY009 (desc_dsn desc) desc)
      else match desc_header_field field_identifier (desc_header desc) with
      | Some gv => deliver gv
      | None =>
          if (rec_number <=? 0) || (s16 (zlen (records desc)) <? rec_number) then
            ret (desc_error SQL_ERROR (B"SQLGetDescField") (B"Invalid descriptor index") ST_07009 (desc_dsn desc) desc)
          else
            r ← records desc !! Z.to_nat (rec_number - 1);
            match desc_record_field field_identifier r with
            | Some gv => deliver gv
            | None => ret (ReturnInvalidFieldIdentifier false desc)
            end
      end
  end.

Definition SQLGetDescField := GetDescFieldInternal SQLCHAR_T.

Definition SQLGetDescFieldW (descriptor_handle : option OdbcHandleDesc) (rec_number field_identifier : Z)
    (value_ptr : ptr) (buffer_length : Z) (string_length_ptr : ptr) (m : mem)
    : option (Z * option OdbcHandleDesc * mem) :=
  '(ret, desc, m) ← GetDescFieldInternal SQLWCHAR_T descriptor_handle rec_number field_identifier value_ptr
                      buffer_length string_length_ptr m;
  if SQL_SUCCEEDED ret && negb (string_length_ptr =? nullptr) then
    Some (ret, desc, store 4 m string_length_ptr (s32 (u64 (load_s 4 m string_length_ptr * 2))))
  else Some (ret, desc, m).

Definition SQLSetDescField (fuel : nat) (descriptor_handle : option OdbcHandleDesc)
    (rec_number field_identifier : Z) (value_ptr : ptr) (buffer_length : Z) (m : mem)
    : option (Z * option OdbcHandleDesc) :=
  match descriptor_handle with
  | None => Some (SQL_INVALID_HANDLE, None)
  | Some desc =>
      '(ret, desc) ← SetDescField fuel m rec_number field_identifier value_ptr buffer_length desc;
      Some (ret, Some desc)
  end.

(** [GetDescRecInternal] *)
Definition GetDescRecInternal (c : CharType) (descriptor_handle : option OdbcHandleDesc) (rec_number : Z)
    (name : ptr) (buffer_length : Z) (string_length_ptr type_ptr sub_type_ptr length_ptr precision_ptr scale_ptr
    nullable_ptr : ptr) (m : mem) : option (Z * option OdbcHandleDesc * mem) :=
  match descriptor_handle with
  | None => Some (SQL_INVALID_HANDLE, None, m)
  | Some desc =>
      if rec_number <? 1 then Some (SQL_ERROR, Some desc, m)
      else if sql_desc_count (desc_header desc) <? rec_number then Some (SQL_NO_DATA, Some desc, m)
      else if IsIRD desc && match desc_stmt desc with Some s => is_prepared s | None => false end
      then Some (SQL_NO_DATA, Some desc, m)
      else
        let rec_idx := rec_number - 1 in
        let desc := GetDescRecord rec_idx desc in
        desc_record ← records desc !! Z.to_nat rec_idx;
        let sql_type := sql_desc_type desc_record in
        let '(ret, desc, m) := WriteStringDesc c 2 (B"SQLGetDescField") desc (sql_desc_name desc_record) name
                                 buffer_length string_length_ptr m in
        let m := store_opt 2 m type_ptr sql_type in
        let m := if (sql_type =? SQL_DATETIME) || (sql_type =? SQL_INTERVAL)
                 then store_opt 2 m sub_type_ptr (sql_desc_datetime_interval_code desc_record) else m in
        let m := store_opt 2 m length_ptr (sql_desc_octet_length desc_record) in
        let m := store_opt 2 m precision_ptr (sql_desc_precision desc_record) in
        let m := store_opt 2 m scale_ptr (sql_desc_scale desc_record) in
        let m := store_opt 2 m nullable_ptr (sql_desc_nullable desc_record) in
        Some (ret, Some desc, m)
  end.

Definition SQLGetDescRec := GetDescRecInternal SQLCHAR_T.
Definition SQLGetDescRecW := GetDescRecInternal SQLWCHAR_T.

(** The parameters of [SQLSetDescRec] live in its frame; the code hands their
    addresses to [SetDescField]. [fp] is where the compiler puts them, eight
    bytes for each. *)
Definition set_rec_frame (fp : ptr) (type sub_type length precision scale data_ptr string_length_ptr indicator_ptr : Z)
    (m : mem) : mem :=
  let m := store 2 m fp type in
  let m := store 2 m (fp + 8) sub_type in
  let m := store 8 m (fp + 16) length in
  let m := store 2 m (fp + 24) precision in
  let m := store 2 m (fp + 32) scale in
  let m := store 8 m (fp + 40) data_ptr in
  let m := store 8 m (fp + 48) string_length_ptr in
  store 8 m (fp + 56) indicator_ptr.

(** The sequence of [SetDescField] calls, up to the first that fails. *)
Fixpoint set_fields (fuel : nat) (m : mem) (rec_number : Z) (fields : list (Z * ptr)) (d : OdbcHandleDesc)
    : option (Z * OdbcHandleDesc) :=
  match fields with
  | [] => Some (SQL_SUCCESS, d)
  | (f, p) :: fields' =>
      '(ret, d) ← SetDescField fuel m rec_number f p 0 d;
      if negb (SQL_SUCCEEDED ret) then Some (ret, d)
      else match fields' with [] => Some (ret, d) | _ => set_fields fuel m rec_number fields' d end
  end.

Definition SQLSetDescRec (fuel : nat) (fp : ptr) (descriptor_handle : option OdbcHandleDesc) (rec_number type
    sub_type length precision scale : Z) (data_ptr string_length_ptr indicator_ptr : ptr) (m : mem)
    : option (Z * option OdbcHandleDesc) :=
  match descriptor_handle with
  | None => Some (SQL_INVALID_HANDLE, None)
  | Some desc =>
      let ret r := let '(ret, desc) := (r : Z * OdbcHandleDesc) in Some (ret, Some desc) in
      if IsIRD desc then
        ret (desc_error SQL_ERROR (B"SQLSetDescRec") (B"Cannot modify an implementation row descriptor") ST_HY016
               (desc_dsn desc) desc)
      else if rec_number <=? 0 then
        ret (desc_error SQL_ERROR (B"SQLSetDescRec") (B"Invalid descriptor index") ST_07009 (desc_dsn desc) desc)
      else
        let desc := if sql_desc_count (desc_header desc) <? rec_number then AddMoreRecords rec_number desc else desc in
        let m := set_rec_frame fp type sub_type length precision scale data_ptr string_length_ptr indicator_ptr m in
        r ← set_fields fuel m rec_number
              ([(SQL_DESC_TYPE, fp)]
               ++ (if (type =? SQL_DATETIME) || (type =? SQL_INTERVAL)
                   then [(SQL_DESC_DATETIME_INTERVAL_CODE, fp + 8)] else [])
               ++ [(SQL_DESC_OCTET_LENGTH, fp + 16); (SQL_DESC_PRECISION, fp + 24); (SQL_DESC_SCALE, fp + 32);
                   (SQL_DESC_DATA_PTR, fp + 40); (SQL_DESC_OCTET_LENGTH_PTR, fp + 48);
                   (SQL_DESC_INDICATOR_PTR, fp + 56)]) desc;
        ret r
  end.

(** [SQLCopyDesc]: [stmts] are the statements of the source's connection. The
    assignment [target_desc = source_desc] copies the pointer, so that the target
    object stays as it was. *)
Fixpoint copy_check (stmts : list stmt_ref) (source target : OdbcHandleDesc)
    : option (Z * OdbcHandleDesc * OdbcHandleDesc) :=
  match stmts with
  | [] => None
  | s :: stmts' =>
      if bool_decide (desc_id target = ird_id s) then
        let '(ret, target) := desc_error SQL_ERROR (B"SQLCopyDesc")
          (B"Cannot modify an implementation row descriptor.") ST_HY016 (desc_dsn target) target in
        Some (ret, source, target)
      else if bool_decide (desc_id source = ird_id s) && negb (is_prepared s) then
        let '(ret, source) := desc_error SQL_ERROR (B"SQLCopyDesc")
          (B"Associated statement is not prepared.") ST_HY007 (desc_dsn source) source in
        Some (ret, source, target)
      else copy_check stmts' source target
  end.

(** [CopyFieldByField] has an empty body. *)
Definition CopyFieldByField (other d : OdbcHandleDesc) : OdbcHandleDesc := d.

Definition SQLCopyDesc (stmts : list stmt_ref) (same_dbc same_env : bool)
    (source_desc_handle target_desc_handle : option OdbcHandleDesc)
    : Z * option OdbcHandleDesc * option OdbcHandleDesc :=
  match source_desc_handle, target_desc_handle with
  | Some source, Some target =>
      match copy_check stmts source target with
      | Some (ret, source, target) => (ret, Some source, Some target)
      | None =>
          if same_dbc then (SQL_SUCCESS, Some source, Some target)
          else if same_env then (SQL_SUCCESS, Some source, Some (CopyOnlyOdbcFields source target))
          else (SQL_SUCCESS, Some source, Some (CopyFieldByField source target))
      end
  | _, _ => (SQL_INVALID_HANDLE, source_desc_handle, target_desc_handle)
  end.

(** ** Setting and getting *)

(** The integer fields an application descriptor lets an application both write
    and read: identifier, width in bytes, signedness. *)
Definition rw_fields : list (Z * nat * bool) :=
  [(SQL_DESC_CONCISE_TYPE, 2%nat, true); (SQL_DESC_DATETIME_INTERVAL_PRECISION, 4%nat, true);
   (SQL_DESC_LENGTH, 8%nat, false); (SQL_DESC_NUM_PREC_RADIX, 4%nat, true); (SQL_DESC_OCTET_LENGTH, 8%nat, true);
   (SQL_DESC_PRECISION, 2%nat, true); (SQL_DESC_SCALE, 2%nat, true)].

Definition load_at (sg : bool) (n : nat) (m : mem) (p : ptr) : Z := if sg then load_s n m p else load_u n m p.
Definition in_range (sg : bool) (n : nat) (v : Z) : Prop :=
  if sg then in_s (8 * Z.of_nat n) v else in_u (8 * Z.of_nat n) v.

Lemma load_at_store sg n m p v : (0 < n)%nat -> in_range sg n v -> load_at sg n (store n m p v) p = v.
Proof. destruct sg; intros ? ?; [by apply load_s_store_in|by apply load_u_store_in]. Qed.



(** *** Setting a whole record *)
Lemma load_s_ext n m m' a :
  (forall a', a <= a' < a + Z.of_nat n -> m !! a' = m' !! a') -> load_s n m a = load_s n m' a.
Proof. intros H. unfold load_s. f_equal. by apply load_u_ext. Qed.

(** One step of the sequence on an application descriptor. *)
Lemma app_record_set fuel m rec_number f p d g :
  0 < rec_number -> desc_stmt d = None -> SetDescHeaderField m f p d = inr tt ->
  (forall d1, same_object d d1 -> (Z.to_nat (rec_number - 1) < length (records d1))%nat ->
     SetDescRecordField fuel m (rec_number - 1) f p 0 d1
     = Some (SQL_SUCCESS, d1 <| records ::= alter (g d1) (Z.to_nat (rec_number - 1)) |>)) ->
  exists d1 d', SetDescField fuel m rec_number f p 0 d = Some (SQL_SUCCESS, d')
    /\ desc_stmt d' = None
    /\ record_at d1 (Z.to_nat (rec_number - 1)) = record_at d (Z.to_nat (rec_number - 1))
    /\ record_at d' (Z.to_nat (rec_number - 1)) = g d1 (record_at d (Z.to_nat (rec_number - 1))).
Proof.
  intros Hrec Hs Hh Hset. unfold SetDescField. rewrite Hh, (proj2 (Z.leb_gt rec_number 0)) by lia.
  pose proof (GetDescRecord_spec (rec_number - 1) d ltac:(lia)) as (Ho & Hr & Hl & _).
  set (d1 := GetDescRecord (rec_number - 1) d) in *. cbv zeta.
  exists d1, (d1 <| records ::= alter (g d1) (Z.to_nat (rec_number - 1)) |>).
  split; [apply Hset; [done|lia]|]. split; [destruct Ho as (_ & _ & Ho), d1; cbn in *; congruence|].
  split; [done|]. rewrite record_at_alter, decide_True by (done || lia). by rewrite Hr.
Qed.

Lemma app_IsID d : desc_stmt d = None -> IsID d = false /\ IsIRD d = false.
Proof. intros H. unfold IsID, IsIRD. by rewrite H. Qed.

Lemma app_IsID_object d d1 : desc_stmt d = None -> same_object d d1 -> IsID d1 = false /\ IsIRD d1 = false.
Proof. intros H (_ & _ & Hs). apply app_IsID. congruence. Qed.

(** The fields whose value is the address itself, and those read through it. *)
Lemma app_set_int fuel m rec_number f n p d g v : 0 < rec_number -> desc_stmt d = None -> p <> 0 ->
  load_s n m p = v ->
  (f, n, g) ∈ [(SQL_DESC_OCTET_LENGTH, 8%nat, fun r => r <| sql_desc_octet_length := v |>);
               (SQL_DESC_PRECISION, 2%nat, fun r => r <| sql_desc_precision := v |>);
               (SQL_DESC_SCALE, 2%nat, fun r => r <| sql_desc_scale := v |>)] ->
  exists d', SetDescField fuel m rec_number f p 0 d = Some (SQL_SUCCESS, d') /\ desc_stmt d' = None
    /\ record_at d' (Z.to_nat (rec_number - 1)) = g (record_at d (Z.to_nat (rec_number - 1))).
Proof.
  intros Hrec Hs Hp Hload Hf.
  destruct (app_record_set fuel m rec_number f p d (fun _ => g)) as (d1 & d' & H & Hd & _ & Hr); try done.
  - repeat (apply elem_of_cons in Hf as [Hf|Hf]; [by injection Hf as -> -> ->|]). by apply not_elem_of_nil in Hf.
  - intros d1 Ho _. destruct (app_IsID_object d d1 Hs Ho) as [_ Hird].
    unfold SetDescRecordField, deref_s. rewrite Hird, (proj2 (Z.eqb_neq p nullptr) Hp).
    repeat (apply elem_of_cons in Hf as [Hf|Hf]; [injection Hf as -> -> ->; cbn -[load_s alter]; by rewrite Hload|]).
    by apply not_elem_of_nil in Hf.
  - by exists d'.
Qed.

Lemma app_set_ptr fuel m rec_number f p d g : 0 < rec_number -> desc_stmt d = None ->
  (f, g) ∈ [(SQL_DESC_DATA_PTR, fun r => r <| sql_desc_data_ptr := p |>);
            (SQL_DESC_OCTET_LENGTH_PTR, fun r => r <| sql_desc_octet_length_ptr := p |>);
            (SQL_DESC_INDICATOR_PTR, fun r => r <| sql_desc_indicator_ptr := p |>)] ->
  exists d', SetDescField fuel m rec_number f p 0 d = Some (SQL_SUCCESS, d') /\ desc_stmt d' = None
    /\ record_at d' (Z.to_nat (rec_number - 1)) = g (record_at d (Z.to_nat (rec_number - 1))).
Proof.
  intros Hrec Hs Hf.
  destruct (app_record_set fuel m rec_number f p d (fun _ => g)) as (d1 & d' & H & Hd & _ & Hr); try done.
  - repeat (apply elem_of_cons in Hf as [Hf|Hf]; [by injection Hf as -> ->|]). by apply not_elem_of_nil in Hf.
  - intros d1 Ho _. destruct (app_IsID_object d d1 Hs Ho) as [HID _].
    unfold SetDescRecordField. rewrite HID.
    repeat (apply elem_of_cons in Hf as [Hf|Hf]; [by injection Hf as -> ->|]). by apply not_elem_of_nil in Hf.
  - by exists d'.
Qed.

Lemma app_set_type fuel m rec_number p d : 0 < rec_number -> desc_stmt d = None -> p <> 0 ->
  load_s 2 m p ∈ ti_data_type <$> ODBC_SUPPORTED_SQL_TYPES ->
  exists d', SetDescField fuel m rec_number SQL_DESC_TYPE p 0 d = Some (SQL_SUCCESS, d') /\ desc_stmt d' = None.
Proof.
  intros Hrec Hs Hp Hin.
  destruct (app_record_set fuel m rec_number SQL_DESC_TYPE p d
    (fun d1 _ => (SetSqlDescType (load_s 2 m p) (record_at d1 (Z.to_nat (rec_number - 1)))).2))
    as (d1 & d' & H & Hd & _); [done..| |by exists d'].
  intros d1 Ho Hl. destruct (app_IsID_object d d1 Hs Ho) as [_ Hird].
  unfold SetDescRecordField. rewrite Hird. unfold deref_s. rewrite (proj2 (Z.eqb_neq p nullptr) Hp).
  cbn -[load_s SetSqlDescType alter]. destruct (lookup_lt_is_Some_2 _ _ Hl) as [r Hr]. rewrite Hr.
  cbn -[load_s SetSqlDescType alter]. unfold record_at. rewrite Hr.
  change (default default_DescRecord (Some r)) with r.
  destruct (SetSqlDescType_success (load_s 2 m p) r Hin) as [r' Hr']. by rewrite Hr'.
Qed.

Definition frame_ok (m : mem) (fp type length precision scale : Z) : Prop :=
  load_s 2 m fp = type /\ load_s 8 m (fp + 16) = length /\ load_s 2 m (fp + 24) = precision
  /\ load_s 2 m (fp + 32) = scale.

Lemma set_rec_frame_ok fp type sub_type length precision scale a b c m :
  in_s 16 type -> in_s 64 length -> in_s 16 precision -> in_s 16 scale ->
  frame_ok (set_rec_frame fp type sub_type length precision scale a b c m) fp type length precision scale.
Proof.
  intros. unfold frame_ok, set_rec_frame.
  repeat split; (erewrite load_s_ext; [|intros; rewrite ?store_outside by lia; reflexivity]); (apply load_s_store_in; [lia|done]).
Qed.

(** [SQLSetDescRec] on an application descriptor with a type of the driver's
    table stores the length, precision and scale it is given, but for the three
    pointers it stores the addresses of its own parameters: the record's data,
    length and indicator pointers designate the returned call's frame whatever
    the application passed. *)
Theorem SQLSetDescRec_record fuel fp rec_number type sub_type length precision scale data_ptr len_ptr ind_ptr d m :
  desc_stmt d = None -> 0 < rec_number <= 32767 -> 0 < fp ->
  type ∈ ti_data_type <$> ODBC_SUPPORTED_SQL_TYPES -> in_s 16 type ->
  in_s 64 length -> in_s 16 precision -> in_s 16 scale ->
  exists d', SQLSetDescRec fuel fp (Some d) rec_number type sub_type length precision scale data_ptr len_ptr ind_ptr m
             = Some (SQL_SUCCESS, Some d')
    /\ let r := record_at d' (Z.to_nat (rec_number - 1)) in
       sql_desc_octet_length r = length /\ sql_desc_precision r = precision /\ sql_desc_scale r = scale
       /\ sql_desc_data_ptr r = fp + 40 /\ sql_desc_octet_length_ptr r = fp + 48
       /\ sql_desc_indicator_ptr r = fp + 56.
Proof.
  intros Hs Hrec Hfp Htype Ht Hlen Hprec Hscale.
  unfold SQLSetDescRec. pose proof (app_IsID d Hs) as [_ ->]. rewrite (proj2 (Z.leb_gt rec_number 0)) by lia.
  set (d0 := if _ : bool then _ else d). assert (desc_stmt d0 = None) as Hs0.
  { subst d0. case_match; [|done]. by destruct d. }
  pose proof (set_rec_frame_ok fp type sub_type length precision scale data_ptr len_ptr ind_ptr m Ht Hlen Hprec Hscale)
    as (Htype' & Hlen' & Hprec' & Hscale').
  set (mf := set_rec_frame _ _ _ _ _ _ _ _ _ _) in *. clearbody mf d0.
  assert ((type =? SQL_DATETIME) = false /\ (type =? SQL_INTERVAL) = false) as [-> ->].
  { split; apply Z.eqb_neq; intros ->; revert Htype; apply (bool_decide_unpack _); by vm_compute. }
  assert (0 < rec_number) as Hpos by lia.
  destruct (app_set_type fuel mf rec_number fp d0) as (d1 & E1 & Hs1); [lia|done|lia|by rewrite Htype'|].
  destruct (app_set_int fuel mf rec_number _ _ (fp + 16) d1 _ length Hpos Hs1 ltac:(lia) Hlen'
    ltac:(apply elem_of_cons; left; reflexivity)) as (d2 & E2 & Hs2 & R2).
  destruct (app_set_int fuel mf rec_number _ _ (fp + 24) d2 _ precision Hpos Hs2 ltac:(lia) Hprec'
    ltac:(do 1 (apply elem_of_cons; right); apply elem_of_cons; left; reflexivity)) as (d3 & E3 & Hs3 & R3).
  destruct (app_set_int fuel mf rec_number _ _ (fp + 32) d3 _ scale Hpos Hs3 ltac:(lia) Hscale'
    ltac:(do 2 (apply elem_of_cons; right); apply elem_of_cons; left; reflexivity)) as (d4 & E4 & Hs4 & R4).
  destruct (app_set_ptr fuel mf rec_number _ (fp + 40) d4 _ Hpos Hs4
    ltac:(apply elem_of_cons; left; reflexivity)) as (d5 & E5 & Hs5 & R5).
  destruct (app_set_ptr fuel mf rec_number _ (fp + 48) d5 _ Hpos Hs5
    ltac:(do 1 (apply elem_of_cons; right); apply elem_of_cons; left; reflexivity)) as (d6 & E6 & Hs6 & R6).
  destruct (app_set_ptr fuel mf rec_number _ (fp + 56) d6 _ Hpos Hs6
    ltac:(do 2 (apply elem_of_cons; right); apply elem_of_cons; left; reflexivity)) as (d7 & E7 & Hs7 & R7).
  exists d7. split.
  - cbn [orb app set_fields]. rewrite E1. cbn -[set_fields SetDescField].
    do 6 (cbn [set_fields]; first [rewrite E2|rewrite E3|rewrite E4|rewrite E5|rewrite E6|rewrite E7]; cbn -[set_fields SetDescField]). done.
  - rewrite R7, R6, R5, R4, R3, R2. by destruct (record_at d1 _).
Qed.

Lemma SQLSetDescRec_record_witness :
  exists d', SQLSetDescRec 9 5000 (Some example_ard) 1 SQL_INTEGER 0 4 10 0 700 800 900 ∅ = Some (SQL_SUCCESS, Some d')
    /\ sql_desc_data_ptr (record_at d' 0) = 5040.
Proof.
  destruct (SQLSetDescRec_record 9 5000 1 SQL_INTEGER 0 4 10 0 700 800 900 example_ard ∅) as (d' & H & _ & _ & _ & Hp & _);
    try (by vm_compute); try lia; try (apply (bool_decide_unpack _); by vm_compute).
  exists d'. split; [exact H|]. exact Hp.
Defined.

(** ** Copying *)
Lemma copy_check_none stmts source target :
  copy_check stmts source target = None <->
  Forall (fun s => desc_id target <> ird_id s /\ (desc_id source <> ird_id s \/ is_prepared s = true)) stmts.
Proof.
  induction stmts as [|s stmts IH]; cbn [copy_check]; [by split|]. rewrite Forall_cons_iff, <- IH.
  destruct (decide (desc_id target = ird_id s)) as [Ht|Ht].
  - rewrite bool_decide_true by done. cbn. split; [done|]. naive_solver.
  - rewrite (bool_decide_false (desc_id target = _)) by done.
    destruct (decide (desc_id source = ird_id s)) as [Hs|Hs].
    + rewrite (bool_decide_true (desc_id source = _)) by done. destruct (is_prepared s); cbn; naive_solver.
    + rewrite (bool_decide_false (desc_id source = _)) by done. cbn. naive_solver.
Qed.

(** [SQLCopyDesc] between descriptors that may be copied leaves the source
    as it was; within one connection it leaves the target as it was too, although
    it reports success; across connections of one environment the target gets
    the source's header, allocation type included, and the source's records
    behind its own. *)
Theorem SQLCopyDesc_effect stmts same_dbc same_env source target :
  Forall (fun s => desc_id target <> ird_id s /\ (desc_id source <> ird_id s \/ is_prepared s = true)) stmts ->
  exists target', SQLCopyDesc stmts same_dbc same_env (Some source) (Some target)
                    = (SQL_SUCCESS, Some source, Some target')
    /\ (same_dbc = true -> target' = target)
    /\ (same_dbc = false -> same_env = true ->
          desc_header target' = desc_header source
          /\ forall i, record_at target' (length (records target) + i)
                       = copy_DescRecord (record_at source i)
                /\ (forall j, (j < length (records target))%nat -> record_at target' j = record_at target j)).
Proof.
  intros H%copy_check_none. unfold SQLCopyDesc. rewrite H. destruct same_dbc, same_env.
  1-2: by exists target.
  - exists (CopyOnlyOdbcFields source target). split; [done|]. split; [done|]. intros _ _.
    assert (records (CopyOnlyOdbcFields source target) = records target ++ (copy_DescRecord <$> records source)) as Hr
      by (by destruct target).
    split; [by destruct target|]. unfold record_at. rewrite Hr. intros i. split.
    + rewrite lookup_app_r by lia. replace (_ + i - _)%nat with i by lia. rewrite list_lookup_fmap.
      by destruct (records source !! i).
    + intros j Hj. by rewrite lookup_app_l.
  - by exists target.
Qed.

Lemma SQLCopyDesc_effect_witness :
  exists t', SQLCopyDesc [MkStmtRef 3 4 true] true true (Some example_ird) (Some example_ard)
             = (SQL_SUCCESS, Some example_ird, Some t') /\ t' = example_ard.
Proof.
  destruct (SQLCopyDesc_effect [MkStmtRef 3 4 true] true true example_ird example_ard) as (t' & H & Ht & _).
  - constructor; [|constructor]. split; [discriminate|by right].
  - exists t'. split; [exact H|by apply Ht].
Defined.

(** ** What [SQLGetDescField] writes *)
Lemma WriteStringDesc_outside name d str q n lp m a : 0 < n < 2 ^ 31 ->
  (a < q \/ q + n <= a) -> (a < lp \/ lp + 4 <= a) ->
  (WriteStringDesc SQLCHAR_T 4 name d str q n lp m).2 !! a = m !! a.
Proof.
  intros Hn Hq Hl. unfold WriteStringDesc. rewrite (proj2 (Z.ltb_ge n 0)) by lia.
  destruct (WriteStringUtf8 str q (u64 n) m) as [w m1] eqn:E. rewrite wrap_u_small in E by (unfold in_u; lia).
  assert ((store_opt 4 m1 lp (zlen str)) !! a = m !! a) as H.
  { rewrite store_opt_outside by lia. rewrite <- (WriteStringUtf8_outside str q n m a) by lia. by rewrite E. }
  by destruct (negb (q =? nullptr) && (w <? zlen str)).
Qed.

Lemma WriteStringDesc_desc c lw name d str q n lp m :
  exists diag, (WriteStringDesc c lw name d str q n lp m).1.2 = d <| desc_diagnostic := diag |>.
Proof.
  assert (forall ret msg st, exists diag, (desc_error ret name msg st [] d).2 = d <| desc_diagnostic := diag |>) as He.
  { intros. by eexists. }
  assert (exists diag, d = d <| desc_diagnostic := diag |>) as Hd by (exists (desc_diagnostic d); by destruct d).
  unfold WriteStringDesc. destruct (n <? 0); [apply He|]. destruct c.
  - destruct (WriteStringUtf8 str q (u64 n) m). destruct (_ && _); [apply He|exact Hd].
  - destruct (WriteStringUtf16 str q (u64 n) m) as [[? ?] ?]. destruct (_ && _); [apply He|exact Hd].
Qed.

Lemma field_width f h r g n v :
  desc_header_field f h = Some (g, FInt n v) \/ desc_record_field f r = Some (g, FInt n v) -> (n <= 8)%nat.
Proof.
  assert (desc_record_field_1 f r = Some (g, FInt n v) -> (n <= 8)%nat) as H1.
  { unfold desc_record_field_1. intros H. repeat (case_match; [simplify_eq; lia|]); done. }
  assert (desc_record_field_2 f r = Some (g, FInt n v) -> (n <= 8)%nat) as H2.
  { unfold desc_record_field_2. intros H. repeat (case_match; [simplify_eq; lia|]); done. }
  intros [H|H].
  - unfold desc_header_field in H. repeat (case_match; [simplify_eq; lia|]); done.
  - unfold desc_record_field in H. destruct (desc_record_field_1 f r); [simplify_eq|]; auto.
Qed.

(** [SQLGetDescField] stays inside the client's buffers: for every field and
    record number it writes at most the larger of eight bytes and the buffer
    length at the value pointer, and four bytes at the length pointer; the
    descriptor keeps its header, records and identity. *)
Theorem GetDescField_bounds d rec_number f q n lp m ret d' m' a :
  0 < n < 2 ^ 31 ->
  SQLGetDescField (Some d) rec_number f q n lp m = Some (ret, d', m') ->
  (a < q \/ q + Z.max 8 n <= a) -> (a < lp \/ lp + 4 <= a) ->
  m' !! a = m !! a /\ exists diag, d' = Some (d <| desc_diagnostic := diag |>).
Proof.
  intros Hn H Hq Hl. unfold SQLGetDescField, GetDescFieldInternal in H.
  assert (d = d <| desc_diagnostic := desc_diagnostic d |>) as Hd by (by destruct d).
  set (deliver := deliver_field _ _ _ _ _ _) in H.
  assert (forall g v, (forall k z, v = FInt k z -> (k <= 8)%nat) -> deliver (g, v) = Some (ret, d', m') ->
    m' !! a = m !! a /\ exists diag, d' = Some (d <| desc_diagnostic := diag |>)) as Hdel.
  { intros g v Hk E. subst deliver. unfold deliver_field in E.
    destruct (negb (guard_ok g d)); [injection E as <- <- <-; by split; [|eexists]|].
    destruct v as [k z|s|].
    - unfold Store in E. destruct (q =? nullptr); [done|]. injection E as <- <- <-.
      specialize (Hk k z eq_refl). split; [apply store_outside; lia|]. eexists. by f_equal.
    - pose proof (WriteStringDesc_outside (B"SQLGetDescField") d s q n lp m a Hn ltac:(lia) Hl) as Hw.
      assert (exists diag, (WriteStringDesc SQLCHAR_T 4 (B"SQLGetDescField") d s q n lp m).1.2
                = d <| desc_diagnostic := diag |>) as [diag Hdiag].
      { apply WriteStringDesc_desc. }
      destruct (WriteStringDesc _ _ _ _ _ _ _ _ _) as [[ret1 d1] m1]. injection E as <- <- <-. cbn in *.
      split; [done|]. exists diag. by rewrite Hdiag.
    - injection E as <- <- <-. split; [done|]. eexists. by f_equal. }
  destruct (_ && _); [injection H as <- <- <-; by split; [|eexists]|].
  destruct (desc_header_field f (desc_header d)) as [[g v]|] eqn:Eh.
  { apply (Hdel g v); [|done]. intros k z ->. eapply field_width with (r := default_DescRecord). by left. }
  destruct (_ || _); [injection H as <- <- <-; by split; [|eexists]|].
  destruct (records d !! _) as [r|]; [|done]. unfold mbind, option_bind in H. cbv beta iota in H.
  destruct (desc_record_field f r) as [[g v]|] eqn:Er; [|injection H as <- <- <-; by split; [|eexists]].
  apply (Hdel g v); [|done]. intros k z ->. eapply field_width with (h := new_DescHeader). by right.
Qed.

Lemma GetDescField_bounds_witness :
  exists ret d' m', SQLGetDescField (Some example_ard) 0 SQL_DESC_COUNT 100 2 0 (<[300 := 7]> ∅) = Some (ret, d', m')
  /\ m' !! 300 = Some 7.
Proof.
  eexists _, _, _. split; [reflexivity|].
  rewrite (proj1 (GetDescField_bounds example_ard 0 SQL_DESC_COUNT 100 2 0 (<[300 := 7]> ∅) _ _ _ 300
    ltac:(lia) eq_refl ltac:(lia) ltac:(lia))). done.
Defined.
