(* ===== verification/Params.v ===== *)
(** * Parameters of a statement ([odbc_driver/parameter_descriptor.cpp])

    The application binds buffers to the parameter markers of a statement; the
    driver reads one set of values out of them for each execution. The class
    keeps two descriptors (application and implementation), the position in the
    array of parameter sets and the values handed to the engine.

    Client buffers are addresses of the memory of [Memory]. [None] is undefined
    behaviour or an exception: a read through a null pointer, an index out of
    a vector. [fuel] bounds the length of NUL-terminated text. *)

From S2P Require Import Prelude OdbcConst Memory Utf8 Widechar OdbcUtils Diagnostic Descriptor.

(** The [duckdb::Value] constructors the driver calls, with the arguments it
    calls them with; a float or double is its bit pattern. Results hold such
    values too, and intervals, which the driver only reads. *)
Inductive Value :=
  | VNull
  | VVarchar (s : bytes)
  | VBlob (s : bytes)
  | VUTinyInt (z : Z) | VTinyInt (z : Z)
  | VUSmallInt (z : Z) | VSmallInt (z : Z)
  | VUInteger (z : Z) | VInteger (z : Z)
  | VUBigInt (z : Z) | VBigInt (z : Z)
  | VFloat (bits : Z) | VDouble (bits : Z)
  | VDecimal (value width scale : Z)
  | VTimestamp (year month day hour minute second micros : Z)
  | VDate (year month day : Z)
  | VTime (hour minute second micros : Z)
  | VInterval (months days micros : Z).

#[global] Instance Value_eq_dec : EqDecision Value.
Proof. solve_decision. Defined.

(** [ParameterDescriptor]. The pool keeps the addresses of the buffers the
    driver allocates for data at execution. *)
Record ParameterDescriptor := MkParameterDescriptor {
  apd : OdbcHandleDesc;
  ipd : OdbcHandleDesc;
  cur_explicit_apd : option OdbcHandleDesc;  (* [cur_apd], when it is not [apd] *)
  pool_allocated_ptr : list ptr;
  paramset_idx : Z;
  cur_paramset_idx : Z;
  cur_param_idx : Z;
  values : list Value
}.

Definition new_ParameterDescriptor (apd_id : nat) (dsn : bytes) (stmt : stmt_ref) : ParameterDescriptor :=
  MkParameterDescriptor (make_apd apd_id dsn) (make_ipd dsn stmt) None [] 0 0 0 [].

Definition GetIPD (pd : ParameterDescriptor) : OdbcHandleDesc := ipd pd.
(** [GetAPD]: the descriptor [cur_apd] points to. *)
Definition cur_apd (pd : ParameterDescriptor) : OdbcHandleDesc := default (apd pd) (cur_explicit_apd pd).

(** A write through [cur_apd]. *)
Definition update_cur_apd (f : OdbcHandleDesc -> OdbcHandleDesc) (pd : ParameterDescriptor) : ParameterDescriptor :=
  match cur_explicit_apd pd with
  | Some d => pd <| cur_explicit_apd := Some (f d) |>
  | None => pd <| apd ::= f |>
  end.

Definition Reset (pd : ParameterDescriptor) : ParameterDescriptor :=
  let pd := pd <| pool_allocated_ptr := [] |> in
  let pd := update_cur_apd set_count_0 (pd <| ipd ::= set_count_0 |>) in
  pd <| paramset_idx := 0 |> <| cur_paramset_idx := 0 |> <| cur_param_idx := 0 |>.

Definition Clear (pd : ParameterDescriptor) : ParameterDescriptor :=
  let pd := pd <| ipd ::= fun d => d <| records := [] |> |> in
  Reset (update_cur_apd (fun d => d <| records := [] |>) pd).

Definition SetCurrentAPD (new_apd : OdbcHandleDesc) (pd : ParameterDescriptor) : ParameterDescriptor :=
  let pd := pd <| cur_explicit_apd := if bool_decide (desc_id new_apd = desc_id (apd pd)) then None
                                      else Some new_apd |> in
  update_cur_apd (fun d => d <| desc_header ::= fun h => h <| sql_desc_alloc_type := SQL_DESC_ALLOC_USER |> |>) pd.

Definition ResetParams (count : Z) (pd : ParameterDescriptor) : ParameterDescriptor :=
  let resize d := AddMoreRecords count d in
  update_cur_apd resize (pd <| pool_allocated_ptr := [] |> <| ipd ::= resize |>).

Definition ResetCurrentAPD (pd : ParameterDescriptor) : ParameterDescriptor := pd <| cur_explicit_apd := None |>.

Definition SetParamProcessedPtr (value_ptr : ptr) (pd : ParameterDescriptor) (m : mem) : ParameterDescriptor * mem :=
  (pd <| ipd ::= fun d => d <| desc_header ::= fun h => h <| sql_desc_rows_processed_ptr := value_ptr |> |> |>,
   store_opt 8 m value_ptr 0).
Definition GetParamProcessedPtr (pd : ParameterDescriptor) : ptr := sql_desc_rows_processed_ptr (desc_header (ipd pd)).
Definition SetArrayStatusPtr (value_ptr : ptr) (pd : ParameterDescriptor) : ParameterDescriptor :=
  pd <| ipd ::= fun d => d <| desc_header ::= fun h => h <| sql_desc_array_status_ptr := value_ptr |> |> |>.
Definition SetBindOffesetPtr (value_ptr : ptr) (pd : ParameterDescriptor) : ParameterDescriptor :=
  pd <| apd ::= fun d => d <| desc_header ::= fun h => h <| sql_desc_bind_offset_ptr := value_ptr |> |> |>.
Definition GetBindOffesetPtr (pd : ParameterDescriptor) : ptr := sql_desc_bind_offset_ptr (desc_header (apd pd)).

(** The size of the array of parameter sets. *)
Definition array_size (pd : ParameterDescriptor) : Z := sql_desc_array_size (desc_header (cur_apd pd)).
Definition bind_offset_ptr (pd : ParameterDescriptor) : ptr := sql_desc_bind_offset_ptr (desc_header (cur_apd pd)).
Definition status_ptr (pd : ParameterDescriptor) : ptr := sql_desc_array_status_ptr (desc_header (ipd pd)).

Definition HasParamSetToProcess (pd : ParameterDescriptor) : bool :=
  (paramset_idx pd <? array_size pd) && negb (zlen (records (ipd pd)) =? 0).

(** ** Addresses of a parameter

    The bind offset is added in bytes to the data pointer and, as C pointer
    arithmetic on [SQLLEN *], in units of eight bytes to the indicator. *)
Definition GetSQLDescDataPtr (pd : ParameterDescriptor) (m : mem) (apd_record : DescRecord) : ptr :=
  if bind_offset_ptr pd =? nullptr then sql_desc_data_ptr apd_record
  else sql_desc_data_ptr apd_record + load_s 8 m (bind_offset_ptr pd).

Definition GetSQLDescIndicatorPtr (pd : ParameterDescriptor) (m : mem) (apd_record : DescRecord) (set_idx : Z) : ptr :=
  if bind_offset_ptr pd =? nullptr then sql_desc_indicator_ptr apd_record + 8 * set_idx
  else sql_desc_indicator_ptr apd_record + 8 * set_idx + 8 * load_s 8 m (bind_offset_ptr pd).

Definition GetSQLDescOctetLengthPtr (pd : ParameterDescriptor) (m : mem) (apd_record : DescRecord) (set_idx : Z) : ptr :=
  if bind_offset_ptr pd =? nullptr then sql_desc_octet_length_ptr apd_record + 8 * set_idx
  else sql_desc_octet_length_ptr apd_record + 8 * set_idx + 8 * load_s 8 m (bind_offset_ptr pd).

(** [SetSQLDescDataPtr] moves the address of the record's field itself by the
    offset, so that only a zero offset writes the field. *)
Definition SetSQLDescDataPtr (rec_idx : Z) (data_ptr : ptr) (pd : ParameterDescriptor) (m : mem)
    : option ParameterDescriptor :=
  if (bind_offset_ptr pd =? nullptr) || (load_s 8 m (bind_offset_ptr pd) =? 0) then
    Some (update_cur_apd (fun d => d <| records ::=
      alter (fun r => r <| sql_desc_data_ptr := data_ptr |>) (Z.to_nat rec_idx) |>) pd)
  else None.

Definition SetSQLDescIndicatorPtr (pd : ParameterDescriptor) (apd_record : DescRecord) (value : Z) (m : mem)
    : option mem :=
  Store 8 value (GetSQLDescIndicatorPtr pd m apd_record 0) m.

(** ** Reading a value *)
Definition MAX_WIDTH_INT64 : Z := 18.
Definition MAX_WIDTH_DECIMAL : Z := 38.

Definition ValidateNumeric (precision scale : Z) : Z :=
  if (precision <? 1) || (MAX_WIDTH_DECIMAL <? precision) || (scale <? 0) || (MAX_WIDTH_DECIMAL <? scale)
     || (precision <? scale)
  then SQL_ERROR else SQL_SUCCESS.

(** [SetValue(Value &, idx_t)]: append, or replace the value of an earlier
    execution. *)
Definition SetValue_at (value : Value) (val_idx : Z) (pd : ParameterDescriptor) : ParameterDescriptor :=
  if zlen (values pd) <=? val_idx then pd <| values ::= fun l => l ++ [value] |>
  else pd <| values ::= <[Z.to_nat val_idx := value]> |>.

Definition GetNextValue (val_idx : Z) (pd : ParameterDescriptor) : option Value := values pd !! Z.to_nat val_idx.

(** [LoadFromSet<T>] for an integer or floating type of [n] bytes. *)
Definition LoadFromSet_s (n : nat) (m : mem) (dataptr set_idx : Z) : Z := load_s n m (dataptr + set_idx * Z.of_nat n).
Definition LoadFromSet_u (n : nat) (m : mem) (dataptr set_idx : Z) : Z := load_u n m (dataptr + set_idx * Z.of_nat n).

(** The size of one element of a text or binary array. The code takes the octet
    length from [apd], not from [cur_apd]. *)
Definition buff_size (pd : ParameterDescriptor) (rec_idx : Z) : option Z :=
  i ← records (ipd pd) !! Z.to_nat rec_idx;
  a ← records (apd pd) !! Z.to_nat rec_idx;
  Some (Z.max (s64 (sql_desc_length i)) (sql_desc_octet_length a)).

(** Narrow text at set [val_idx]; a length of [SQL_NTS] is replaced by the
    length found. *)
Definition char_value (fuel : nat) (sql_data_ptr ind val_idx size : Z) (m : mem) : Value * mem :=
  let str_data := sql_data_ptr + val_idx * size in
  let m := if load_s 8 m ind =? SQL_NTS then store 8 m ind (zlen (c_string m str_data fuel)) else m in
  (VVarchar (ConvertSQLCHARToString fuel m str_data (load_s 8 m ind)), m).

Definition wchar_value (fuel : nat) (sql_data_ptr ind val_idx size : Z) (m : mem) : Value * mem :=
  let utf16_data := sql_data_ptr + 2 * (val_idx * size) in
  let m := if load_s 8 m ind =? SQL_NTS then store 8 m ind (s64 (utf16_length fuel m utf16_data * 2)) else m in
  let utf16_len := u64 (load_s 8 m ind) / 2 in
  (VVarchar (utf16_to_utf8_lenient (read_words m utf16_data (Z.to_nat utf16_len))).1, m).

(** [SQL_NUMERIC_STRUCT]: precision, scale, sign, and sixteen bytes of value. *)
Definition numeric_value (m : mem) (numeric precision scale : Z) : option Value :=
  let sign := load_u 1 m (numeric + 2) in
  let dataptr := numeric + 3 in
  if precision <=? MAX_WIDTH_INT64 then
    let dec_val := load_s 8 m dataptr in
    let dec_val := if sign =? 0 then s64 (- dec_val) else dec_val in
    Some (VDecimal dec_val (u8 precision) (u8 scale))
  else
    let dec_value := load_s 16 m dataptr in
    if sign =? 0 then
      if dec_value =? - 2 ^ 127 then None  (* the engine's negation throws *)
      else Some (VDecimal (- dec_value) (u8 precision) (u8 scale))
    else Some (VDecimal dec_value (u8 precision) (u8 scale)).

(** The conversions of the switch over the SQL type; [inr ret] is a return from
    inside it. *)
Definition decode_value (fuel : nat) (pd : ParameterDescriptor) (rec_idx : Z) (sql_type c_type : Z)
    (sql_data_ptr ind : ptr) (m : mem) : option ((Value * mem) + Z) :=
  let val_idx := paramset_idx pd in
  let int (u : bool) (n : nat) (vu vs : Z -> Value) :=
    Some (inl (if u then vu (LoadFromSet_u n m sql_data_ptr val_idx) else vs (LoadFromSet_s n m sql_data_ptr val_idx), m)) in
  let field o n (sg : bool) p := if sg then load_s n m (p + o) else load_u n m (p + o) in
  if (sql_type =? SQL_CHAR) || (sql_type =? SQL_VARCHAR) || (sql_type =? SQL_LONGVARCHAR) then
    size ← buff_size pd rec_idx; Some (inl (char_value fuel sql_data_ptr ind val_idx size m))
  else if (sql_type =? SQL_WCHAR) || (sql_type =? SQL_WVARCHAR) || (sql_type =? SQL_WLONGVARCHAR) then
    size ← buff_size pd rec_idx; Some (inl (wchar_value fuel sql_data_ptr ind val_idx size m))
  else if (sql_type =? SQL_BINARY) || (sql_type =? SQL_VARBINARY) || (sql_type =? SQL_LONGVARBINARY) then
    size ← buff_size pd rec_idx;
    let blob_data := sql_data_ptr + val_idx * size in
    let blob_len := load_s 8 m ind in
    if blob_len <? 0 then None else Some (inl (VBlob (read_bytes m blob_data (Z.to_nat blob_len)), m))
  else if sql_type =? SQL_TINYINT then int (c_type =? SQL_C_UTINYINT) 1%nat VUTinyInt VTinyInt
  else if sql_type =? SQL_SMALLINT then int (c_type =? SQL_C_USHORT) 2%nat VUSmallInt VSmallInt
  else if sql_type =? SQL_INTEGER then int (c_type =? SQL_C_ULONG) 4%nat VUInteger VInteger
  else if sql_type =? SQL_BIGINT then int (c_type =? SQL_C_UBIGINT) 8%nat VUBigInt VBigInt
  else if sql_type =? SQL_FLOAT then Some (inl (VFloat (LoadFromSet_u 4 m sql_data_ptr val_idx), m))
  else if sql_type =? SQL_DOUBLE then Some (inl (VDouble (LoadFromSet_u 8 m sql_data_ptr val_idx), m))
  else if sql_type =? SQL_NUMERIC then
    i ← records (ipd pd) !! Z.to_nat rec_idx;
    let precision := sql_desc_precision i in
    let scale := sql_desc_scale i in
    if ValidateNumeric precision scale =? SQL_ERROR then Some (inr SQL_ERROR)
    else v ← numeric_value m (sql_data_ptr + 19 * val_idx) precision scale; Some (inl (v, m))
  else if sql_type =? SQL_TYPE_TIMESTAMP then
    let p := sql_data_ptr + val_idx * 16 in
    Some (inl (VTimestamp (field 0 2%nat true p) (field 2 2%nat false p) (field 4 2%nat false p) (field 6 2%nat false p)
                 (field 8 2%nat false p) (field 10 2%nat false p) (field 12 4%nat false p / 1000), m))
  else if sql_type =? SQL_TYPE_DATE then
    let p := sql_data_ptr + val_idx * 6 in
    Some (inl (VDate (field 0 2%nat true p) (field 2 2%nat false p) (field 4 2%nat false p), m))
  else if sql_type =? SQL_TYPE_TIME then
    let p := sql_data_ptr + val_idx * 6 in
    Some (inl (VTime (field 0 2%nat false p) (field 2 2%nat false p) (field 4 2%nat false p) 0, m))
  else Some (inr SQL_PARAM_ERROR).

(** [SetValue(idx_t)] *)
Definition SetValue (fuel : nat) (rec_idx : Z) (pd : ParameterDescriptor) (m : mem)
    : option (Z * ParameterDescriptor * mem) :=
  let val_idx := paramset_idx pd in
  apd_record ← records (cur_apd pd) !! Z.to_nat rec_idx;
  let sql_data_ptr := GetSQLDescDataPtr pd m apd_record in
  let sql_ind_ptr := GetSQLDescIndicatorPtr pd m apd_record 0 in
  if (sql_data_ptr =? nullptr) && (sql_ind_ptr =? nullptr) then Some (SQL_ERROR, pd, m)
  else
    let ind := GetSQLDescIndicatorPtr pd m apd_record val_idx in
    if (sql_data_ptr =? nullptr) || (sql_ind_ptr =? nullptr) || (load_s 8 m ind =? SQL_NULL_DATA) then
      Some (SQL_SUCCESS, SetValue_at VNull rec_idx pd, m)
    else
      ipd_record ← records (ipd pd) !! Z.to_nat rec_idx;
      if (load_s 8 m ind =? SQL_DATA_AT_EXEC)
         || (u64 (load_s 8 m ind) =? u64 (SQL_LEN_DATA_AT_EXEC (sql_desc_length ipd_record)))
      then Some (SQL_NEED_DATA, pd, m)
      else
        let sql_type := sql_desc_type ipd_record in
        let c_type := sql_desc_type apd_record in
        let binary_target :=
          (sql_type =? SQL_BINARY) || (sql_type =? SQL_VARBINARY) || (sql_type =? SQL_LONGVARBINARY) in
        if negb binary_target && ((c_type =? SQL_C_CHAR) || (c_type =? SQL_C_WCHAR)) then
          size ← buff_size pd rec_idx;
          let '(value, m) :=
            if c_type =? SQL_C_WCHAR then wchar_value fuel sql_data_ptr ind val_idx size m
            else char_value fuel sql_data_ptr ind val_idx size m in
          Some (SQL_PARAM_SUCCESS, SetValue_at value rec_idx pd, m)
        else
          r ← decode_value fuel pd rec_idx sql_type c_type sql_data_ptr ind m;
          match r with
          | inl (value, m) => Some (SQL_PARAM_SUCCESS, SetValue_at value rec_idx pd, m)
          | inr ret => Some (ret, pd, m)
          end.

(** ** One set of values *)
Definition SetParamIndex (pd : ParameterDescriptor) (m : mem) : Z * ParameterDescriptor * mem :=
  let pd := pd <| paramset_idx ::= fun i => u64 (i + 1) |> in
  let m := store_opt 8 m (GetParamProcessedPtr pd) (paramset_idx pd) in
  (if paramset_idx pd =? array_size pd then SQL_SUCCESS else SQL_STILL_EXECUTING, pd, m).

Definition param_diag (dsn : bytes) (diag : OdbcDiagnostic) : OdbcDiagnostic :=
  (SetDiagnosticRecord SQL_SUCCESS_WITH_INFO (B"GetParamValues") (B"Failed to set parameter value") ST_01000 dsn diag).2.

(** The loop of [GetParamValues] over the records from [rec_idx], [n] of them;
    [out] is the caller's vector. [diag] are the diagnostics of the statement. *)
Fixpoint GetParamValues_loop (fuel : nat) (dsn : bytes) (n : nat) (rec_idx : Z) (out : list Value)
    (pd : ParameterDescriptor) (diag : OdbcDiagnostic) (m : mem)
    : option (Z * list Value * ParameterDescriptor * OdbcDiagnostic * mem) :=
  match n with
  | O => let '(ret, pd, m) := SetParamIndex pd m in Some (ret, out, pd, diag, m)
  | S n' =>
      '(ret, pd, m) ← SetValue fuel rec_idx pd m;
      let m := if status_ptr pd =? nullptr then m else store 2 m (status_ptr pd + 2 * paramset_idx pd) ret in
      if ret =? SQL_NEED_DATA then Some (SQL_NEED_DATA, out, pd, diag, m)
      else
        let diag := if ret =? SQL_PARAM_SUCCESS then diag else param_diag dsn diag in
        if negb (ret =? SQL_PARAM_SUCCESS) && (status_ptr pd =? nullptr) then Some (SQL_ERROR, out, pd, diag, m)
        else
          value ← GetNextValue rec_idx pd;
          GetParamValues_loop fuel dsn n' (rec_idx + 1) (out ++ [value]) pd diag m
  end.

Definition GetParamValues (fuel : nat) (dsn : bytes) (pd : ParameterDescriptor) (diag : OdbcDiagnostic) (m : mem)
    : option (Z * list Value * ParameterDescriptor * OdbcDiagnostic * mem) :=
  if zlen (records (ipd pd)) =? 0 then Some (SQL_SUCCESS, [], pd, diag, m)
  else GetParamValues_loop fuel dsn (length (records (ipd pd))) 0 [] pd diag m.

(** ** Data at execution *)

(** [GetNextParam]: the pointer goes to [*param]. *)
Definition GetNextParam (param : ptr) (pd : ParameterDescriptor) (m : mem) : option (Z * mem) :=
  if sql_desc_count (desc_header (cur_apd pd)) <=? s16 (cur_param_idx pd) then Some (SQL_NO_DATA, m)
  else
    apd_record ← records (cur_apd pd) !! Z.to_nat (cur_param_idx pd);
    m ← Store 8 (GetSQLDescDataPtr pd m apd_record) param m;
    let processed := GetParamProcessedPtr pd in
    let m := store_opt 8 m processed (load_u 8 m processed + 1) in
    let ind := GetSQLDescIndicatorPtr pd m apd_record (cur_paramset_idx pd) in
    if ind =? nullptr then None
    else Some (if load_s 8 m ind =? SQL_DATA_AT_EXEC then SQL_NEED_DATA else SQL_SUCCESS, m).

Section PutData.
(** The allocator: the address of a new buffer of a given size. *)
Context (alloc : ParameterDescriptor -> mem -> Z -> ptr).

Definition FillParamCharDataBuffer (ipd_record : DescRecord) (data_ptr : ptr) (str_len_or_ind_ptr : Z)
    (pd : ParameterDescriptor) (m : mem) : option (Z * ParameterDescriptor * mem) :=
  apd_record ← records (cur_apd pd) !! Z.to_nat (cur_param_idx pd);
  let ind := GetSQLDescIndicatorPtr pd m apd_record 0 in
  if ind =? nullptr then None
  else
    let length := sql_desc_length ipd_record in
    '(offset, pd, m) ←
      (if load_s 8 m ind =? SQL_DATA_AT_EXEC then
         let p := alloc pd m length in
         pd ← SetSQLDescDataPtr (cur_param_idx pd) p (pd <| pool_allocated_ptr ::= fun l => l ++ [p] |>) m;
         Some (0, pd, store 8 m ind 0)
       else Some (u64 (load_s 8 m ind), pd, m));
    let size := u64 str_len_or_ind_ptr in
    let '(size, next) := if u64 (length - offset) <=? size then (u64 (length - offset), true) else (size, false) in
    apd_record ← records (cur_apd pd) !! Z.to_nat (cur_param_idx pd);
    let m := write_bytes m (GetSQLDescDataPtr pd m apd_record + offset) (read_bytes m data_ptr (Z.to_nat size)) in
    let m := store 8 m ind (load_s 8 m ind + size) in
    let pd := if next then pd <| cur_param_idx ::= fun i => i + 1 |> else pd in
    let m := if status_ptr pd =? nullptr then m
             else store 2 m (status_ptr pd + 2 * cur_param_idx pd) SQL_PARAM_SUCCESS in
    Some (SQL_PARAM_SUCCESS, pd, m).

Definition FillCurParamCharSet (ipd_record : DescRecord) (data_ptr : ptr) (str_len_or_ind_ptr : Z)
    (pd : ParameterDescriptor) (m : mem) : option (Z * ParameterDescriptor * mem) :=
  apd_record ← records (cur_apd pd) !! Z.to_nat (cur_param_idx pd);
  let len_ptr := GetSQLDescIndicatorPtr pd m apd_record (cur_paramset_idx pd) in
  if len_ptr =? nullptr then None
  else
    let col_size := sql_desc_length ipd_record in
    pd ←
      (if (load_s 8 m len_ptr =? SQL_DATA_AT_EXEC) && (zlen (pool_allocated_ptr pd) =? 0) then
         let p := alloc pd m (u64 (col_size * array_size pd)) in
         SetSQLDescDataPtr (cur_param_idx pd) p (pd <| pool_allocated_ptr ::= fun l => l ++ [p] |>) m
       else Some pd);
    apd_record ← records (cur_apd pd) !! Z.to_nat (cur_param_idx pd);
    let value_ptr := GetSQLDescDataPtr pd m apd_record + cur_paramset_idx pd * col_size in
    let size := u64 str_len_or_ind_ptr in
    let size := if sql_desc_length ipd_record <=? size then col_size else size in
    let m := write_bytes m value_ptr (read_bytes m data_ptr (Z.to_nat size)) in
    let m := store 8 m len_ptr size in
    let m := if status_ptr pd =? nullptr then m
             else store 2 m (status_ptr pd + 2 * cur_paramset_idx pd) SQL_PARAM_SUCCESS in
    let pd := pd <| cur_paramset_idx ::= fun i => i + 1 |> in
    let pd := if array_size pd <=? cur_paramset_idx pd
              then pd <| cur_paramset_idx := 0 |> <| cur_param_idx ::= fun i => i + 1 |> else pd in
    Some (SQL_PARAM_SUCCESS, pd, m).

Definition PutCharData (ipd_record : DescRecord) (data_ptr : ptr) (str_len_or_ind_ptr : Z)
    (pd : ParameterDescriptor) (m : mem) : option (Z * ParameterDescriptor * mem) :=
  if array_size pd =? 1 then FillParamCharDataBuffer ipd_record data_ptr str_len_or_ind_ptr pd m
  else FillCurParamCharSet ipd_record data_ptr str_len_or_ind_ptr pd m.

Definition PutData (data_ptr : ptr) (str_len_or_ind_ptr : Z) (pd : ParameterDescriptor) (m : mem)
    : option (Z * ParameterDescriptor * mem) :=
  if sql_desc_count (desc_header (cur_apd pd)) <=? s16 (cur_param_idx pd) then Some (SQL_ERROR, pd, m)
  else
    apd_record ← records (cur_apd pd) !! Z.to_nat (cur_param_idx pd);
    if (sql_desc_type apd_record =? SQL_C_CHAR) || (sql_desc_type apd_record =? SQL_C_BINARY) then
      ipd_record ← records (ipd pd) !! Z.to_nat (cur_param_idx pd);
      PutCharData ipd_record data_ptr str_len_or_ind_ptr pd m
    else
      let idx := cur_param_idx pd in
      let pd := pd <| cur_param_idx ::= fun i => i + 1 |> in
      if str_len_or_ind_ptr =? SQL_NULL_DATA then
        m ← SetSQLDescIndicatorPtr pd apd_record SQL_NULL_DATA m;
        Some (SQL_SUCCESS, pd, m)
      else
        pd ← SetSQLDescDataPtr idx data_ptr pd m;
        Some (SQL_SUCCESS, pd, m).
End PutData.

(** ** Progress through the parameter sets *)
Lemma SetValue_at_frame v i pd :
  paramset_idx (SetValue_at v i pd) = paramset_idx pd /\ cur_apd (SetValue_at v i pd) = cur_apd pd
  /\ apd (SetValue_at v i pd) = apd pd /\ ipd (SetValue_at v i pd) = ipd pd.
Proof. unfold SetValue_at. case_match; by destruct pd. Qed.

(** [SetValue] only touches the vector of values. *)
Lemma SetValue_frame fuel i pd m ret pd' m' : SetValue fuel i pd m = Some (ret, pd', m') ->
  paramset_idx pd' = paramset_idx pd /\ cur_apd pd' = cur_apd pd /\ apd pd' = apd pd /\ ipd pd' = ipd pd
  /\ ret <> SQL_STILL_EXECUTING.
Proof.
  unfold SetValue, mbind, option_bind. intros H.
  assert (forall v ret1 m1, ret1 <> SQL_STILL_EXECUTING -> Some (ret1, SetValue_at v i pd, m1) = Some (ret, pd', m') ->
    paramset_idx pd' = paramset_idx pd /\ cur_apd pd' = cur_apd pd /\ apd pd' = apd pd /\ ipd pd' = ipd pd
    /\ ret <> SQL_STILL_EXECUTING) as Hset.
  { intros v ret1 m1 Hne [= <- <- <-]. pose proof (SetValue_at_frame v i pd) as (?&?&?&?). auto. }
  destruct (records (cur_apd pd) !! Z.to_nat i) as [a|]; [|done].
  destruct (_ && _); [injection H as <- <- <-; repeat split; congruence|].
  destruct (_ || _); [by eapply Hset; [|exact H]|].
  destruct (records (ipd pd) !! Z.to_nat i) as [ir|]; [|done].
  destruct (_ || _); [injection H as <- <- <-; repeat split; congruence|].
  destruct (_ && _).
  - destruct (buff_size pd i); [|done]. destruct (if _ : bool then _ else _) as [v m1]. by eapply Hset; [|exact H].
  - destruct (decode_value _ _ _ _ _ _ _ _) as [[[v m1]|r]|] eqn:E; [by eapply Hset; [|exact H]| |done].
    injection H as <- <- <-. repeat split. intros ->. revert E. unfold decode_value, mbind, option_bind. clear.
    intros E. repeat case_match; simplify_eq.
Qed.

(** What [GetParamValues] leaves and returns, by its return code. *)
Definition progress (pd pd' : ParameterDescriptor) (ret : Z) (out : list Value) : Prop :=
  cur_apd pd' = cur_apd pd /\ ipd pd' = ipd pd
  /\ (ret = SQL_NEED_DATA \/ ret = SQL_ERROR \/ ret = SQL_SUCCESS \/ ret = SQL_STILL_EXECUTING)
  /\ (ret = SQL_NEED_DATA \/ ret = SQL_ERROR -> paramset_idx pd' = paramset_idx pd)
  /\ (ret = SQL_SUCCESS \/ ret = SQL_STILL_EXECUTING ->
        paramset_idx pd' = u64 (paramset_idx pd + 1) /\ length out = length (records (ipd pd))
        /\ (ret = SQL_SUCCESS <-> u64 (paramset_idx pd + 1) = array_size pd)).

Lemma GetParamValues_loop_progress fuel dsn n : forall i out pd diag m ret out' pd' diag' m',
  (length out + n = length (records (ipd pd)))%nat ->
  GetParamValues_loop fuel dsn n i out pd diag m = Some (ret, out', pd', diag', m') -> progress pd pd' ret out'.
Proof.
  induction n as [|n IH]; intros i out pd diag m ret out' pd' diag' m' Hlen H; cbn [GetParamValues_loop] in H.
  - destruct pd as [a i' c pl p cp cpi vs]. unfold SetParamIndex in H. cbn in H, Hlen. injection H as <- <- <- <- <-.
    unfold progress. cbn.
    assert (array_size (MkParameterDescriptor a i' c pl (u64 (p + 1)) cp cpi vs)
            = array_size (MkParameterDescriptor a i' c pl p cp cpi vs)) as -> by done.
    destruct (Z.eqb_spec (u64 (p + 1)) (array_size (MkParameterDescriptor a i' c pl p cp cpi vs))) as [E|E];
      (split; [done|]); (split; [done|]); (split; [tauto|]); (split; [intros [?|?]; done|]); intros _; (split; [done|]);
      (split; [lia|]); by split.
  - unfold mbind, option_bind in H. destruct (SetValue fuel i pd m) as [[[r pd1] m1]|] eqn:E; [|done].
    apply SetValue_frame in E as (Hp & Hc & Ha & Hi & Hr).
    destruct (r =? SQL_NEED_DATA).
    { injection H as <- <- <- <- <-. unfold progress. rewrite Hp, Hc, Hi.
      split; [done|]. split; [done|]. split; [tauto|]. split; [done|]. intros [?|?]; done. }
    destruct (_ && _).
    { injection H as <- <- <- <- <-. unfold progress. rewrite Hp, Hc, Hi.
      split; [done|]. split; [done|]. split; [tauto|]. split; [done|]. intros [?|?]; done. }
    destruct (GetNextValue i pd1) as [v|]; [|done].
    apply IH in H; [|rewrite length_app, Hi; cbn; lia].
    unfold progress in *. unfold array_size in *. rewrite Hp, Hc, Hi in H. exact H.
Qed.

Lemma GetParamValues_progress fuel dsn pd diag m ret out pd' diag' m' : records (ipd pd) <> [] ->
  GetParamValues fuel dsn pd diag m = Some (ret, out, pd', diag', m') -> progress pd pd' ret out.
Proof.
  intros Hne H. unfold GetParamValues in H. case_match; zbool.
  - destruct (records (ipd pd)); [done|]. unfold zlen in *. cbn in *. lia.
  - eapply GetParamValues_loop_progress; [|exact H]. done.
Qed.

(** ** Arrays of values in client memory *)
Definition write_array (n : nat) (m : mem) (p : ptr) (zs : list Z) : mem :=
  write_bytes m p (mjoin (le_split n <$> zs)).

Lemma zlen_array n zs : zlen (mjoin (le_split n <$> zs)) = Z.of_nat n * zlen zs.
Proof.
  induction zs as [|z zs IH]; [cbn; unfold zlen; cbn; lia|].
  cbn [fmap list_fmap]. change (mjoin (?a :: ?b)) with (a ++ mjoin b).
  rewrite zlen_app, zlen_cons, IH. unfold zlen at 1. rewrite length_le_split. lia.
Qed.

Lemma load_u_array n m p zs k z : zs !! k = Some z ->
  load_u n (write_array n m p zs) (p + Z.of_nat k * Z.of_nat n) = wrap_u (8 * Z.of_nat n) z.
Proof.
  unfold write_array. revert m p k. induction zs as [|z0 zs IH]; intros m p k Hk; [done|].
  cbn [fmap list_fmap]. change (mjoin (?a :: ?b)) with (a ++ mjoin b).
  destruct k as [|k]; cbn in Hk.
  - injection Hk as ->. replace (p + Z.of_nat 0 * Z.of_nat n) with p by lia. rewrite write_bytes_app.
    rewrite <- (load_u_store n (write_bytes m (p + zlen (le_split n z)) (mjoin (le_split n <$> zs))) p z). done.
  - rewrite write_bytes_app. erewrite <- IH by done. unfold load_u. f_equal.
    replace (p + Z.of_nat (S k) * Z.of_nat n) with (p + zlen (le_split n z0) + Z.of_nat k * Z.of_nat n)
      by (unfold zlen; rewrite length_le_split; lia).
    apply read_bytes_ext. intros a Ha. apply write_bytes_outside. right.
    unfold zlen in *. rewrite length_le_split in *. nia.
Qed.

Lemma load_s_array n m p zs k z : (0 < n)%nat -> zs !! k = Some z ->
  load_s n (write_array n m p zs) (p + Z.of_nat k * Z.of_nat n) = wrap_s (8 * Z.of_nat n) z.
Proof.
  intros Hn Hk. unfold load_s. rewrite (load_u_array n m p zs k z Hk). unfold wrap_s, wrap_u.
  by rewrite Zplus_mod_idemp_l.
Qed.

(** The integer parameters: SQL type, C type, width, signedness and the value
    the engine gets. *)
Definition int_params : list (Z * Z * nat * bool * (Z -> Value)) :=
  [(SQL_TINYINT, SQL_C_UTINYINT, 1%nat, false, VUTinyInt); (SQL_TINYINT, SQL_C_STINYINT, 1%nat, true, VTinyInt);
   (SQL_SMALLINT, SQL_C_USHORT, 2%nat, false, VUSmallInt); (SQL_SMALLINT, SQL_C_SSHORT, 2%nat, true, VSmallInt);
   (SQL_INTEGER, SQL_C_ULONG, 4%nat, false, VUInteger); (SQL_INTEGER, SQL_C_SLONG, 4%nat, true, VInteger);
   (SQL_BIGINT, SQL_C_UBIGINT, 8%nat, false, VUBigInt); (SQL_BIGINT, SQL_C_SBIGINT, 8%nat, true, VBigInt)].

Lemma decode_int fuel pd i sql_type c_type n (sg : bool) V p ind m m0 zs k z :
  (sql_type, c_type, n, sg, V) ∈ int_params -> m = write_array n m0 p zs -> paramset_idx pd = Z.of_nat k ->
  zs !! k = Some z -> (if sg then in_s (8 * Z.of_nat n) z else in_u (8 * Z.of_nat n) z) ->
  decode_value fuel pd i sql_type c_type p ind m = Some (inl (V z, m)).
Proof.
  intros Hin Hm Hk Hz Hr.
  assert (LoadFromSet_u n m p (paramset_idx pd) = wrap_u (8 * Z.of_nat n) z) as Hu.
  { unfold LoadFromSet_u. rewrite Hk, Hm. by apply load_u_array. }
  assert ((0 < n)%nat -> LoadFromSet_s n m p (paramset_idx pd) = wrap_s (8 * Z.of_nat n) z) as Hs.
  { intros Hn. unfold LoadFromSet_s. rewrite Hk, Hm. by apply load_s_array. }
  unfold int_params in Hin.
  repeat (apply elem_of_cons in Hin as [Hin|Hin];
    [injection Hin as -> -> -> -> ->; unfold decode_value; cbn -[LoadFromSet_u LoadFromSet_s];
     first [rewrite Hu, wrap_u_small by done; done | rewrite Hs by lia; rewrite wrap_s_small; [done|lia|done]]|]).
  by apply not_elem_of_nil in Hin.
Qed.

(** Reading one element of an integer array. *)
Lemma SetValue_int fuel pd i a ir sql_type c_type n (sg : bool) V zs m0 k z :
  let p := sql_desc_data_ptr a in
  let q := sql_desc_indicator_ptr a in
  let m := write_array n m0 p zs in
  (sql_type, c_type, n, sg, V) ∈ int_params ->
  records (cur_apd pd) !! Z.to_nat i = Some a -> records (ipd pd) !! Z.to_nat i = Some ir ->
  sql_desc_type a = c_type -> sql_desc_type ir = sql_type ->
  bind_offset_ptr pd = nullptr -> p <> nullptr -> q <> nullptr -> 0 <= sql_desc_length ir < 2 ^ 62 ->
  paramset_idx pd = Z.of_nat k -> zs !! k = Some z ->
  (if sg then in_s (8 * Z.of_nat n) z else in_u (8 * Z.of_nat n) z) ->
  0 <= load_s 8 m (q + 8 * Z.of_nat k) ->
  SetValue fuel i pd m = Some (SQL_PARAM_SUCCESS, SetValue_at (V z) i pd, m).
Proof.
  intros p q m Hin Ha Hir Hca Hsq Hb Hp Hq Hlen Hk Hz Hr Hind.
  pose proof (decode_int fuel pd i sql_type c_type n sg V p (q + 8 * Z.of_nat k) m m0 zs k z Hin eq_refl Hk Hz Hr) as Hd.
  unfold SetValue, mbind, option_bind, GetSQLDescDataPtr, GetSQLDescIndicatorPtr. rewrite Ha, Hb, Hk. cbn [Z.eqb].
  fold p q. rewrite Z.mul_0_r, Z.add_0_r, (proj2 (Z.eqb_neq p 0) Hp), (proj2 (Z.eqb_neq q 0) Hq).
  assert (load_s 8 m (q + 8 * Z.of_nat k) < 2 ^ 63) as Hup.
  { pose proof (wrap_s_range 64 (load_u 8 m (q + 8 * Z.of_nat k)) ltac:(lia)) as H. unfold in_s in H. apply H. }
  set (v := load_s 8 m (q + 8 * Z.of_nat k)) in *. cbn [orb andb].
  rewrite (proj2 (Z.eqb_neq v (-1))), (proj2 (Z.eqb_neq v (-2))) by lia. cbn [orb]. rewrite Hir.
  assert ((u64 v =? u64 (SQL_LEN_DATA_AT_EXEC (sql_desc_length ir))) = false) as ->.
  { apply Z.eqb_neq. rewrite (wrap_u_small 64 v) by (unfold in_u; lia). unfold SQL_LEN_DATA_AT_EXEC, wrap_u.
    rewrite <- (Z.mod_unique (- sql_desc_length ir + -100) (2 ^ 64) (-1) (- sql_desc_length ir - 100 + 2 ^ 64));
      lia. }
  rewrite Hca, Hsq, Hd.
  assert (((c_type =? SQL_C_CHAR) || (c_type =? SQL_C_WCHAR)) = false) as ->; [|by rewrite andb_false_r].
  clear - Hin. unfold int_params in Hin. repeat (apply elem_of_cons in Hin as [Hin|Hin];
    [by injection Hin as -> -> -> -> ->|]). by apply not_elem_of_nil in Hin.
Qed.

(** A column-wise array of integer parameters is decoded element by element:
    for every integer type, signed or unsigned, executing parameter set [k]
    hands the engine the [k]-th element the application stored, at its type, and
    reads nothing else. *)
Theorem param_array_values fuel pd i a ir sql_type c_type n (sg : bool) V zs m0 k z :
  let p := sql_desc_data_ptr a in
  let q := sql_desc_indicator_ptr a in
  let m := write_array n m0 p zs in
  (sql_type, c_type, n, sg, V) ∈ int_params ->
  records (cur_apd pd) !! Z.to_nat i = Some a -> records (ipd pd) !! Z.to_nat i = Some ir ->
  sql_desc_type a = c_type -> sql_desc_type ir = sql_type ->
  bind_offset_ptr pd = nullptr -> p <> nullptr -> q <> nullptr -> 0 <= sql_desc_length ir < 2 ^ 62 ->
  paramset_idx pd = Z.of_nat k -> zs !! k = Some z ->
  (if sg then in_s (8 * Z.of_nat n) z else in_u (8 * Z.of_nat n) z) ->
  0 <= load_s 8 m (q + 8 * Z.of_nat k) ->
  SetValue fuel i pd m = Some (SQL_PARAM_SUCCESS, SetValue_at (V z) i pd, m).
Proof. intros p q m. apply SetValue_int. Qed.

(** An integer parameter of two records bound as an array of three sets. *)
Definition example_record (type : Z) (p ind : ptr) : DescRecord :=
  default_DescRecord <| sql_desc_type := type |> <| sql_desc_data_ptr := p |> <| sql_desc_indicator_ptr := ind |>.
Definition example_params (c_type sql_type : Z) (p ind size set : Z) : ParameterDescriptor :=
  let pd := new_ParameterDescriptor 1 [] (MkStmtRef 3 4 true) in
  pd <| apd ::= fun d => d <| records := [example_record c_type p ind] |>
                     <| desc_header ::= fun h => h <| sql_desc_array_size := size |> <| sql_desc_count := 1 |> |> |>
     <| ipd ::= fun d => d <| records := [example_record sql_type 0 0] |>
                     <| desc_header ::= fun h => h <| sql_desc_count := 1 |> |> |>
     <| paramset_idx := set |>.

Lemma param_array_values_witness :
  let pd := example_params SQL_C_SLONG SQL_INTEGER 1000 2000 3 2 in
  let m := write_array 4 ∅ 1000 [7; -8; -9] in
  SetValue 10 0 pd m = Some (SQL_PARAM_SUCCESS, SetValue_at (VInteger (-9)) 0 pd, m).
Proof.
  apply (param_array_values 10 (example_params SQL_C_SLONG SQL_INTEGER 1000 2000 3 2) 0
    (example_record SQL_C_SLONG 1000 2000) (example_record SQL_INTEGER 0 0) SQL_INTEGER SQL_C_SLONG 4 true VInteger
    [7; -8; -9] ∅ 2 (-9)); try done.
  repeat (apply elem_of_cons; (by left) || right).
Defined.

(** A parameter is null when the indicator of its set says so, or when the
    application bound only one of the two pointers; then the engine gets NULL
    whatever the buffer holds, and with no pointer at all the value is an error. *)
Theorem param_null fuel pd i a m :
  records (cur_apd pd) !! Z.to_nat i = Some a -> bind_offset_ptr pd = nullptr ->
  (sql_desc_data_ptr a <> nullptr /\ sql_desc_indicator_ptr a <> nullptr
     /\ load_s 8 m (sql_desc_indicator_ptr a + 8 * paramset_idx pd) = SQL_NULL_DATA
   \/ (sql_desc_data_ptr a =? nullptr) <> (sql_desc_indicator_ptr a =? nullptr) ->
     SetValue fuel i pd m = Some (SQL_SUCCESS, SetValue_at VNull i pd, m))
  /\ (sql_desc_data_ptr a = nullptr -> sql_desc_indicator_ptr a = nullptr ->
        SetValue fuel i pd m = Some (SQL_ERROR, pd, m)).
Proof.
  intros Ha Hb. unfold SetValue, mbind, option_bind, GetSQLDescDataPtr, GetSQLDescIndicatorPtr. rewrite Ha, Hb.
  cbn [Z.eqb]. rewrite Z.mul_0_r, Z.add_0_r. split.
  - intros [(Hp & Hq & Hnull)|Hne].
    + rewrite (proj2 (Z.eqb_neq _ _) Hp), (proj2 (Z.eqb_neq _ _) Hq), Hnull. done.
    + by destruct (sql_desc_data_ptr a =? nullptr), (sql_desc_indicator_ptr a =? nullptr).
  - intros -> ->. done.
Qed.

Lemma param_null_witness :
  let pd := example_params SQL_C_SLONG SQL_INTEGER 1000 2000 3 1 in
  let m := store 8 ∅ 2008 SQL_NULL_DATA in
  SetValue 10 0 pd m = Some (SQL_SUCCESS, SetValue_at VNull 0 pd, m).
Proof.
  apply (param_null 10 (example_params SQL_C_SLONG SQL_INTEGER 1000 2000 3 1) 0 (example_record SQL_C_SLONG 1000 2000));
    [done|done|]. by left.
Defined.

(** *** Data at execution *)

(** The buffer of the current parameter holds [acc]: the driver has just asked
    for the data, or it has collected [acc] at the address of the record. *)
Definition collected (alloc : ParameterDescriptor -> mem -> Z -> ptr) (pd : ParameterDescriptor) (m : mem)
    (a ir : DescRecord) (b : ptr) (acc : bytes) : Prop :=
  let q := sql_desc_indicator_ptr a in
  (load_s 8 m q = SQL_DATA_AT_EXEC /\ acc = [] /\ alloc pd m (sql_desc_length ir) = b)
  \/ (load_s 8 m q = zlen acc /\ sql_desc_data_ptr a = b /\ read_bytes m b (length acc) = acc).

(** The first half of [FillParamCharDataBuffer]: the buffer and its indicator. *)
Definition fill_ready (pd0 : ParameterDescriptor) (m0 : mem) (a : DescRecord) (b : ptr) (acc : bytes)
    (pd : ParameterDescriptor) (m : mem) : Prop :=
  let q := sql_desc_indicator_ptr a in
  (exists a', records (cur_apd pd) !! Z.to_nat (cur_param_idx pd0) = Some a'
     /\ sql_desc_data_ptr a' = b /\ sql_desc_indicator_ptr a' = q)
  /\ bind_offset_ptr pd = bind_offset_ptr pd0 /\ status_ptr pd = status_ptr pd0
  /\ cur_param_idx pd = cur_param_idx pd0
  /\ load_s 8 m q = zlen acc /\ read_bytes m b (length acc) = acc
  /\ forall x, x < q \/ q + 8 <= x -> m !! x = m0 !! x.

Lemma fill_first alloc pd m a ir b acc :
  bind_offset_ptr pd = nullptr -> records (cur_apd pd) !! Z.to_nat (cur_param_idx pd) = Some a ->
  zlen acc < 2 ^ 62 -> collected alloc pd m a ir b acc ->
  exists pd1 m1,
    (if load_s 8 m (sql_desc_indicator_ptr a) =? SQL_DATA_AT_EXEC then
       let p := alloc pd m (sql_desc_length ir) in
       pd ← SetSQLDescDataPtr (cur_param_idx pd) p (pd <| pool_allocated_ptr ::= fun l => l ++ [p] |>) m;
       Some (0, pd, store 8 m (sql_desc_indicator_ptr a) 0)
     else Some (u64 (load_s 8 m (sql_desc_indicator_ptr a)), pd, m)) = Some (zlen acc, pd1, m1)
    /\ fill_ready pd m a b acc pd1 m1.
Proof.
  intros Hb Ha Hacc [(Hq & -> & Halloc)|(Hq & Hdp & Hacc')].
  - rewrite Hq. cbv zeta iota. cbn [Z.eqb Pos.eqb]. rewrite Halloc. unfold SetSQLDescDataPtr.
    assert (bind_offset_ptr (pd <| pool_allocated_ptr ::= fun l => l ++ [b] |>) = nullptr) as ->
      by (destruct pd; exact Hb).
    cbn [Z.eqb orb]. eexists _, _. split; [reflexivity|].
    unfold fill_ready. split; [|split; [|split; [|split; [|split; [|split]]]]].
    + destruct pd as [ap ip [ex|] pl p cp cpi vs]; cbn in *; [destruct ex|destruct ap]; cbn in *;
        (eexists; rewrite list_lookup_alter_eq, Ha; split; [reflexivity|]; by destruct a).
    + by destruct pd as [[] ip [[]|] pl p cp cpi vs].
    + by destruct pd as [[] ip [[]|] pl p cp cpi vs].
    + by destruct pd as [[] ip [[]|] pl p cp cpi vs].
    + by apply load_s_store_in; [lia|].
    + done.
    + intros x Hx. by apply store_outside.
  - rewrite Hq. pose proof (zlen_nonneg acc). rewrite (proj2 (Z.eqb_neq _ _)) by lia.
    rewrite wrap_u_small by (unfold in_u; lia). eexists _, _. split; [reflexivity|].
    unfold fill_ready. split; [by exists a|]. by repeat (split; [done|]).
Qed.

(** Data sent in pieces is appended: one [SQLPutData] on a character or
    binary parameter of a single parameter set adds the piece behind what was
    collected, cut at the parameter's length, keeps the indicator equal to the
    number of bytes collected, and moves on to the next parameter exactly when
    the length is reached. *)
Theorem PutData_appends alloc pd m a ir b acc src s :
  let q := sql_desc_indicator_ptr a in
  let L := sql_desc_length ir in
  let acc' := ztake L (acc ++ s) in
  array_size pd = 1 -> bind_offset_ptr pd = nullptr -> status_ptr pd = nullptr ->
  0 <= cur_param_idx pd < sql_desc_count (desc_header (cur_apd pd)) -> cur_param_idx pd < 2 ^ 15 ->
  records (cur_apd pd) !! Z.to_nat (cur_param_idx pd) = Some a ->
  records (ipd pd) !! Z.to_nat (cur_param_idx pd) = Some ir ->
  sql_desc_type a = SQL_C_CHAR \/ sql_desc_type a = SQL_C_BINARY ->
  q <> nullptr -> zlen acc < L < 2 ^ 62 -> zlen s < 2 ^ 62 ->
  collected alloc pd m a ir b acc ->
  (b + L <= q \/ q + 8 <= b) -> (src + zlen s <= q \/ q + 8 <= src) ->
  read_bytes m src (length s) = s ->
  exists pd' m' a', PutData alloc src (zlen s) pd m = Some (SQL_PARAM_SUCCESS, pd', m')
    /\ load_s 8 m' q = zlen acc' /\ read_bytes m' b (length acc') = acc'
    /\ records (cur_apd pd') !! Z.to_nat (cur_param_idx pd) = Some a' /\ sql_desc_data_ptr a' = b
    /\ sql_desc_indicator_ptr a' = q
    /\ cur_param_idx pd' = (if L <=? zlen (acc ++ s) then cur_param_idx pd + 1 else cur_param_idx pd).
Proof.
  intros q L acc' Hsize Hb Hst Hcur Hcur15 Ha Hir Hty Hq HL Hs Hcol Hbq Hsq Hsrc.
  pose proof (zlen_nonneg acc) as Hacc0. pose proof (zlen_nonneg s) as Hs0.
  destruct (fill_first alloc pd m a ir b acc Hb Ha ltac:(lia) Hcol) as (pd1 & m1 & Efill & Hready).
  destruct Hready as ((a1 & Ha1 & Hdp & Hq1) & Hb1 & Hst1 & Hcur1 & Hload & Hacc & Hout). fold q in Hq1, Hload, Hout.
  set (k := Z.min (L - zlen acc) (zlen s)).
  assert (exists pd', PutData alloc src (zlen s) pd m
            = Some (SQL_PARAM_SUCCESS, pd', store 8 (write_bytes m1 (b + zlen acc) (ztake k s)) q (zlen acc + k))
          /\ cur_apd pd' = cur_apd pd1
          /\ cur_param_idx pd' = if L <=? zlen (acc ++ s) then cur_param_idx pd + 1 else cur_param_idx pd)
    as (pd' & Eput & Hapd & Hidx).
  { unfold PutData, mbind, option_bind. rewrite wrap_s_small by (unfold in_s; lia).
    rewrite (proj2 (Z.leb_gt _ _)) by lia. rewrite Ha, Hir.
    assert ((sql_desc_type a =? SQL_C_CHAR) || (sql_desc_type a =? SQL_C_BINARY) = true) as ->
      by (by destruct Hty as [->| ->]).
    unfold PutCharData, FillParamCharDataBuffer, mbind, option_bind. rewrite Hsize. cbn [Z.eqb Pos.eqb]. rewrite Ha.
    assert (GetSQLDescIndicatorPtr pd m a 0 = q) as Hind
      by (unfold GetSQLDescIndicatorPtr; rewrite Hb; cbn [Z.eqb]; fold q; lia).
    rewrite !Hind. rewrite (proj2 (Z.eqb_neq q 0) Hq).
    unfold mbind, option_bind in Efill. cbv zeta in Efill. fold q L in Efill. fold L. rewrite Efill, Hcur1, Ha1.
    rewrite (wrap_u_small 64 (L - zlen acc)), (wrap_u_small 64 (zlen s)) by (unfold in_u; lia).
    assert (GetSQLDescDataPtr pd1 m1 a1 = b) as -> by (unfold GetSQLDescDataPtr; by rewrite Hb1, Hb).
    assert (forall n : Z, 0 <= n <= zlen s -> read_bytes m1 src (Z.to_nat n) = ztake n s) as Hread.
    { intros n Hn. rewrite (read_bytes_ext m1 m) by (intros x Hx; apply Hout; lia).
      unfold ztake, zlen in *. pose proof Hsrc as E.
      replace (length s) with (Z.to_nat n + (length s - Z.to_nat n))%nat in E by lia.
      rewrite read_bytes_app in E. rewrite <- E. rewrite take_app_length'; [done|]. by rewrite length_read_bytes. }
    assert (forall n : Z, 0 <= n <= L - zlen acc -> load_s 8 (write_bytes m1 (b + zlen acc) (ztake n s)) q = zlen acc) as Hkeep.
    { intros n Hn. transitivity (load_s 8 m1 q); [|exact Hload]. unfold load_s. f_equal. apply load_u_ext. intros x Hx. apply write_bytes_outside.
      rewrite zlen_ztake by lia. lia. }
    autorewrite with odbc.
    destruct (Z.leb_spec (L - zlen acc) (zlen s)) as [Hle|Hlt].
    - rewrite (proj2 (Z.leb_le L _)) by lia.
      assert (k = L - zlen acc) as -> by (subst k; lia). rewrite Hread, Hkeep by lia.
      exists (pd1 <| cur_param_idx ::= fun i => i + 1 |>).
      assert (status_ptr (pd1 <| cur_param_idx ::= fun i => i + 1 |>) = nullptr) as ->
        by (rewrite <- Hst, <- Hst1; by destruct pd1).
      split; [done|]. split; [by destruct pd1|]. destruct pd1; cbn in *; lia.
    - rewrite (proj2 (Z.leb_gt L _)) by lia.
      assert (k = zlen s) as -> by (subst k; lia). rewrite Hread, Hkeep by lia.
      exists pd1. rewrite Hst1, Hst. split; [done|]. by split. }
  exists pd', (store 8 (write_bytes m1 (b + zlen acc) (ztake k s)) q (zlen acc + k)), a1.
  assert (acc' = acc ++ ztake k s) as Eacc.
  { subst acc' k. unfold ztake. rewrite take_app. f_equal; [rewrite take_ge; [done|unfold zlen in *; lia]|].
    unfold zlen in *. destruct (decide (L - Z.of_nat (length acc) <= Z.of_nat (length s))).
    - f_equal. lia.
    - rewrite !take_ge by lia. done. }
  assert (zlen acc' = zlen acc + k) as Elen.
  { rewrite Eacc, zlen_app, zlen_ztake by (subst k; lia). subst k. lia. }
  split; [exact Eput|]. split; [|split; [|by rewrite Hapd]].
  - rewrite Elen. apply load_s_store_in; [lia|]. unfold in_s. subst k. lia.
  - rewrite Eacc, length_app, read_bytes_app. f_equal.
    + transitivity (read_bytes m1 b (length acc)); [|exact Hacc]. apply read_bytes_ext. intros x Hx. rewrite store_outside by (unfold zlen in *; lia).
      apply write_bytes_outside. unfold zlen. lia.
    + change (b + Z.of_nat (length acc)) with (b + zlen acc).
      transitivity (read_bytes (write_bytes m1 (b + zlen acc) (ztake k s)) (b + zlen acc) (length (ztake k s)));
        [|apply read_write_bytes]. apply read_bytes_ext.
      intros x Hx. apply store_outside. pose proof (zlen_ztake k s ltac:(subst k; lia)). subst k. unfold zlen in *. lia.
Qed.

Lemma PutData_appends_witness :
  let pd := example_params SQL_C_CHAR SQL_VARCHAR 1000 2000 1 0 in
  let pd := pd <| ipd ::= fun d => d <| records ::= fmap (fun r => r <| sql_desc_length := 5 |>) |> |> in
  let m := write_bytes (write_bytes (store 8 ∅ 2000 2) 1000 (B"ab")) 3000 (B"cd") in
  exists pd' m' a', PutData (fun _ _ _ => 5000) 3000 2 pd m = Some (SQL_PARAM_SUCCESS, pd', m')
    /\ load_s 8 m' 2000 = 4 /\ read_bytes m' 1000 4 = B"abcd"
    /\ records (cur_apd pd') !! 0%nat = Some a' /\ sql_desc_data_ptr a' = 1000
    /\ sql_desc_indicator_ptr a' = 2000 /\ cur_param_idx pd' = 0.
Proof.
  intros pd0 pd m.
  destruct (PutData_appends (fun _ _ _ => 5000) pd m (example_record SQL_C_CHAR 1000 2000)
    ((example_record SQL_VARCHAR 0 0) <| sql_desc_length := 5 |>) 1000 (B"ab") 3000 (B"cd")) as (pd' & m' & a' & H);
    [by vm_compute..|by left|done|by vm_compute|by vm_compute|right; by vm_compute|left; by vm_compute
    |right; by vm_compute|by vm_compute|].
  exists pd', m', a'. exact H.
Defined.
