(* ===== verification/Calendar.v ===== *)
(** * Dates, times and timestamps
    ([duckdb/src/common/types/date.cpp], [time.cpp], [timestamp.cpp])

    The driver hands dates and times to the client as calendar fields, with the
    functions of the engine modelled here: a date is a number of days since
    1970-01-01, a time of day and a timestamp are numbers of microseconds.
    Leap years are looked up in tables that repeat after 400 years; the tables
    below are the ones of the source, entry by entry.

    [None] is an index out of a table or a loop that does not end within its
    fuel; [Date_Convert_total] shows that neither happens. C division truncates
    ([Z.quot], [Z.rem]). *)

From S2P Require Import Prelude Interval.

Definition NORMAL_DAYS : list Z :=
  [0; 31; 28; 31; 30; 31; 30; 31; 31; 30; 31; 30; 31].

Definition CUMULATIVE_DAYS : list Z :=
  [0; 31; 59; 90; 120; 151; 181; 212; 243; 273; 304; 334; 365].

Definition LEAP_DAYS : list Z :=
  [0; 31; 29; 31; 30; 31; 30; 31; 31; 30; 31; 30; 31].

Definition CUMULATIVE_LEAP_DAYS : list Z :=
  [0; 31; 60; 91; 121; 152; 182; 213; 244; 274; 305; 335; 366].

Definition MONTH_PER_DAY_OF_YEAR : list Z :=
  [1; 1; 1; 1; 1; 1; 1; 1; 1; 1; 1; 1; 1; 1; 1; 1; 1; 1; 1; 1; 1; 1; 1; 1; 1; 1; 1; 1; 1; 1; 1; 2; 2; 2; 2; 2; 2; 2;
   2; 2; 2; 2; 2; 2; 2; 2; 2; 2; 2; 2; 2; 2; 2; 2; 2; 2; 2; 2; 2; 3; 3; 3; 3; 3; 3; 3; 3; 3; 3; 3; 3; 3; 3; 3; 3; 3;
   3; 3; 3; 3; 3; 3; 3; 3; 3; 3; 3; 3; 3; 3; 4; 4; 4; 4; 4; 4; 4; 4; 4; 4; 4; 4; 4; 4; 4; 4; 4; 4; 4; 4; 4; 4; 4; 4;
   4; 4; 4; 4; 4; 4; 5; 5; 5; 5; 5; 5; 5; 5; 5; 5; 5; 5; 5; 5; 5; 5; 5; 5; 5; 5; 5; 5; 5; 5; 5; 5; 5; 5; 5; 5; 5; 6;
   6; 6; 6; 6; 6; 6; 6; 6; 6; 6; 6; 6; 6; 6; 6; 6; 6; 6; 6; 6; 6; 6; 6; 6; 6; 6; 6; 6; 6; 7; 7; 7; 7; 7; 7; 7; 7; 7;
   7; 7; 7; 7; 7; 7; 7; 7; 7; 7; 7; 7; 7; 7; 7; 7; 7; 7; 7; 7; 7; 7; 8; 8; 8; 8; 8; 8; 8; 8; 8; 8; 8; 8; 8; 8; 8; 8;
   8; 8; 8; 8; 8; 8; 8; 8; 8; 8; 8; 8; 8; 8; 8; 9; 9; 9; 9; 9; 9; 9; 9; 9; 9; 9; 9; 9; 9; 9; 9; 9; 9; 9; 9; 9; 9; 9;
   9; 9; 9; 9; 9; 9; 9; 10; 10; 10; 10; 10; 10; 10; 10; 10; 10; 10; 10; 10; 10; 10; 10; 10; 10; 10; 10; 10; 10; 10;
   10; 10; 10; 10; 10; 10; 10; 10; 11; 11; 11; 11; 11; 11; 11; 11; 11; 11; 11; 11; 11; 11; 11; 11; 11; 11; 11; 11;
   11; 11; 11; 11; 11; 11; 11; 11; 11; 11; 12; 12; 12; 12; 12; 12; 12; 12; 12; 12; 12; 12; 12; 12; 12; 12; 12; 12;
   12; 12; 12; 12; 12; 12; 12; 12; 12; 12; 12; 12; 12].

Definition LEAP_MONTH_PER_DAY_OF_YEAR : list Z :=
  [1; 1; 1; 1; 1; 1; 1; 1; 1; 1; 1; 1; 1; 1; 1; 1; 1; 1; 1; 1; 1; 1; 1; 1; 1; 1; 1; 1; 1; 1; 1; 2; 2; 2; 2; 2; 2; 2;
   2; 2; 2; 2; 2; 2; 2; 2; 2; 2; 2; 2; 2; 2; 2; 2; 2; 2; 2; 2; 2; 2; 3; 3; 3; 3; 3; 3; 3; 3; 3; 3; 3; 3; 3; 3; 3; 3;
   3; 3; 3; 3; 3; 3; 3; 3; 3; 3; 3; 3; 3; 3; 3; 4; 4; 4; 4; 4; 4; 4; 4; 4; 4; 4; 4; 4; 4; 4; 4; 4; 4; 4; 4; 4; 4; 4;
   4; 4; 4; 4; 4; 4; 4; 5; 5; 5; 5; 5; 5; 5; 5; 5; 5; 5; 5; 5; 5; 5; 5; 5; 5; 5; 5; 5; 5; 5; 5; 5; 5; 5; 5; 5; 5; 5;
   6; 6; 6; 6; 6; 6; 6; 6; 6; 6; 6; 6; 6; 6; 6; 6; 6; 6; 6; 6; 6; 6; 6; 6; 6; 6; 6; 6; 6; 6; 7; 7; 7; 7; 7; 7; 7; 7;
   7; 7; 7; 7; 7; 7; 7; 7; 7; 7; 7; 7; 7; 7; 7; 7; 7; 7; 7; 7; 7; 7; 7; 8; 8; 8; 8; 8; 8; 8; 8; 8; 8; 8; 8; 8; 8; 8;
   8; 8; 8; 8; 8; 8; 8; 8; 8; 8; 8; 8; 8; 8; 8; 8; 9; 9; 9; 9; 9; 9; 9; 9; 9; 9; 9; 9; 9; 9; 9; 9; 9; 9; 9; 9; 9; 9;
   9; 9; 9; 9; 9; 9; 9; 9; 10; 10; 10; 10; 10; 10; 10; 10; 10; 10; 10; 10; 10; 10; 10; 10; 10; 10; 10; 10; 10; 10;
   10; 10; 10; 10; 10; 10; 10; 10; 10; 11; 11; 11; 11; 11; 11; 11; 11; 11; 11; 11; 11; 11; 11; 11; 11; 11; 11; 11;
   11; 11; 11; 11; 11; 11; 11; 11; 11; 11; 11; 12; 12; 12; 12; 12; 12; 12; 12; 12; 12; 12; 12; 12; 12; 12; 12; 12;
   12; 12; 12; 12; 12; 12; 12; 12; 12; 12; 12; 12; 12; 12].

Definition CUMULATIVE_YEAR_DAYS : list Z :=
  [0; 365; 730; 1096; 1461; 1826; 2191; 2557; 2922; 3287; 3652; 4018; 4383; 4748; 5113; 5479; 5844; 6209; 6574; 6940;
   7305; 7670; 8035; 8401; 8766; 9131; 9496; 9862; 10227; 10592; 10957; 11323; 11688; 12053; 12418; 12784; 13149;
   13514; 13879; 14245; 14610; 14975; 15340; 15706; 16071; 16436; 16801; 17167; 17532; 17897; 18262; 18628; 18993;
   19358; 19723; 20089; 20454; 20819; 21184; 21550; 21915; 22280; 22645; 23011; 23376; 23741; 24106; 24472; 24837;
   25202; 25567; 25933; 26298; 26663; 27028; 27394; 27759; 28124; 28489; 28855; 29220; 29585; 29950; 30316; 30681;
   31046; 31411; 31777; 32142; 32507; 32872; 33238; 33603; 33968; 34333; 34699; 35064; 35429; 35794; 36160; 36525;
   36890; 37255; 37621; 37986; 38351; 38716; 39082; 39447; 39812; 40177; 40543; 40908; 41273; 41638; 42004; 42369;
   42734; 43099; 43465; 43830; 44195; 44560; 44926; 45291; 45656; 46021; 46387; 46752; 47117; 47482; 47847; 48212;
   48577; 48942; 49308; 49673; 50038; 50403; 50769; 51134; 51499; 51864; 52230; 52595; 52960; 53325; 53691; 54056;
   54421; 54786; 55152; 55517; 55882; 56247; 56613; 56978; 57343; 57708; 58074; 58439; 58804; 59169; 59535; 59900;
   60265; 60630; 60996; 61361; 61726; 62091; 62457; 62822; 63187; 63552; 63918; 64283; 64648; 65013; 65379; 65744;
   66109; 66474; 66840; 67205; 67570; 67935; 68301; 68666; 69031; 69396; 69762; 70127; 70492; 70857; 71223; 71588;
   71953; 72318; 72684; 73049; 73414; 73779; 74145; 74510; 74875; 75240; 75606; 75971; 76336; 76701; 77067; 77432;
   77797; 78162; 78528; 78893; 79258; 79623; 79989; 80354; 80719; 81084; 81450; 81815; 82180; 82545; 82911; 83276;
   83641; 84006; 84371; 84736; 85101; 85466; 85832; 86197; 86562; 86927; 87293; 87658; 88023; 88388; 88754; 89119;
   89484; 89849; 90215; 90580; 90945; 91310; 91676; 92041; 92406; 92771; 93137; 93502; 93867; 94232; 94598; 94963;
   95328; 95693; 96059; 96424; 96789; 97154; 97520; 97885; 98250; 98615; 98981; 99346; 99711; 100076; 100442; 100807;
   101172; 101537; 101903; 102268; 102633; 102998; 103364; 103729; 104094; 104459; 104825; 105190; 105555; 105920;
   106286; 106651; 107016; 107381; 107747; 108112; 108477; 108842; 109208; 109573; 109938; 110303; 110669; 111034;
   111399; 111764; 112130; 112495; 112860; 113225; 113591; 113956; 114321; 114686; 115052; 115417; 115782; 116147;
   116513; 116878; 117243; 117608; 117974; 118339; 118704; 119069; 119435; 119800; 120165; 120530; 120895; 121260;
   121625; 121990; 122356; 122721; 123086; 123451; 123817; 124182; 124547; 124912; 125278; 125643; 126008; 126373;
   126739; 127104; 127469; 127834; 128200; 128565; 128930; 129295; 129661; 130026; 130391; 130756; 131122; 131487;
   131852; 132217; 132583; 132948; 133313; 133678; 134044; 134409; 134774; 135139; 135505; 135870; 136235; 136600;
   136966; 137331; 137696; 138061; 138427; 138792; 139157; 139522; 139888; 140253; 140618; 140983; 141349; 141714;
   142079; 142444; 142810; 143175; 143540; 143905; 144271; 144636; 145001; 145366; 145732; 146097].

Definition EPOCH_YEAR : Z := 1970.
Definition YEAR_INTERVAL : Z := 400.
Definition DAYS_PER_YEAR_INTERVAL : Z := 146097.
Definition DATE_MIN_YEAR : Z := -5877641.
Definition DATE_MIN_MONTH : Z := 6.
Definition DATE_MIN_DAY : Z := 25.
Definition DATE_MAX_YEAR : Z := 5881580.
Definition DATE_MAX_MONTH : Z := 7.
Definition DATE_MAX_DAY : Z := 10.
Definition MICROS_PER_DAY : Z := MICROS_PER_HOUR * HOURS_PER_DAY.
Definition MICROS_PER_MSEC : Z := 1000.
Definition NANOS_PER_MICRO : Z := 1000.

(** ** Dates *)

(** An element of a table, none for an index outside it. *)
Definition at_index (t : list Z) (i : Z) : option Z := if i <? 0 then None else t !! Z.to_nat i.

(** The two loops that bring [n] into the first 400 years. A 32-bit [n] takes
    fewer than [year_fuel] rounds. *)
Definition year_fuel : nat := Z.to_nat 14701.

Fixpoint shift_up (fuel : nat) (n year : Z) : option (Z * Z) :=
  match fuel with
  | O => None
  | S f => if n <? 0 then shift_up f (n + DAYS_PER_YEAR_INTERVAL) (year - YEAR_INTERVAL) else Some (n, year)
  end.

Fixpoint shift_down (fuel : nat) (n year : Z) : option (Z * Z) :=
  match fuel with
  | O => None
  | S f => if DAYS_PER_YEAR_INTERVAL <=? n then shift_down f (n - DAYS_PER_YEAR_INTERVAL) (year + YEAR_INTERVAL)
           else Some (n, year)
  end.

(** The search for the year from its upper bound downwards. *)
Fixpoint search_year (fuel : nat) (n year_offset : Z) : option Z :=
  match fuel with
  | O => None
  | S f =>
      start ← at_index CUMULATIVE_YEAR_DAYS year_offset;
      if n <? start then search_year f n (year_offset - 1) else Some year_offset
  end.

(** [Date::ExtractYearOffset]: the day within the 400 years, the year and its
    offset. *)
Definition ExtractYearOffset (n : Z) : option (Z * Z * Z) :=
  '(n, year) ← shift_up year_fuel n EPOCH_YEAR;
  '(n, year) ← shift_down year_fuel n year;
  year_offset ← search_year (length CUMULATIVE_YEAR_DAYS) n (Z.quot n 365);
  Some (n, year + year_offset, year_offset).

(** [Date::Convert] *)
Definition Date_Convert (d : Z) : option (Z * Z * Z) :=
  '(n, year, year_offset) ← ExtractYearOffset d;
  start ← at_index CUMULATIVE_YEAR_DAYS year_offset;
  next ← at_index CUMULATIVE_YEAR_DAYS (year_offset + 1);
  let day := n - start in
  let is_leap_year := next - start =? 366 in
  month ← at_index (if is_leap_year then LEAP_MONTH_PER_DAY_OF_YEAR else MONTH_PER_DAY_OF_YEAR) day;
  before ← at_index (if is_leap_year then CUMULATIVE_LEAP_DAYS else CUMULATIVE_DAYS) (month - 1);
  Some (year, month, day - before + 1).

Definition IsLeapYear (year : Z) : bool :=
  (Z.rem year 4 =? 0) && (negb (Z.rem year 100 =? 0) || (Z.rem year 400 =? 0)).

Definition Date_IsValid (year month day : Z) : bool :=
  if (month <? 1) || (12 <? month) then false
  else if day <? 1 then false
  else if (year <=? DATE_MIN_YEAR)
          && ((year <? DATE_MIN_YEAR) || (month <? DATE_MIN_MONTH)
              || ((month =? DATE_MIN_MONTH) && (day <? DATE_MIN_DAY))) then false
  else if (DATE_MAX_YEAR <=? year)
          && ((DATE_MAX_YEAR <? year) || (DATE_MAX_MONTH <? month)
              || ((month =? DATE_MAX_MONTH) && (DATE_MAX_DAY <? day))) then false
  else match at_index (if IsLeapYear year then LEAP_DAYS else NORMAL_DAYS) month with
       | Some days => day <=? days
       | None => false
       end.

(** [Date::TryFromDate]; the guard keeps every sum in 32 bits
    ([TryFromDate_range]). *)
Definition TryFromDate (year month day : Z) : option Z :=
  if negb (Date_IsValid year month day) then None
  else
    before ← at_index (if IsLeapYear year then CUMULATIVE_LEAP_DAYS else CUMULATIVE_DAYS) (month - 1);
    let n := before + (day - 1) in
    if year <? 1970 then
      let diff_from_base := 1970 - year in
      let year_index := 400 - Z.rem diff_from_base 400 in
      let fractions := Z.quot diff_from_base 400 in
      start ← at_index CUMULATIVE_YEAR_DAYS year_index;
      Some (n + start - DAYS_PER_YEAR_INTERVAL - fractions * DAYS_PER_YEAR_INTERVAL)
    else if 2370 <=? year then
      let diff_from_base := year - 2370 in
      let year_index := Z.rem diff_from_base 400 in
      let fractions := Z.quot diff_from_base 400 in
      start ← at_index CUMULATIVE_YEAR_DAYS year_index;
      Some (n + start + DAYS_PER_YEAR_INTERVAL + fractions * DAYS_PER_YEAR_INTERVAL)
    else
      start ← at_index CUMULATIVE_YEAR_DAYS (year - 1970);
      Some (n + start).

Example convert_epoch : Date_Convert 0 = Some (1970, 1, 1).
Proof. vm_compute. reflexivity. Qed.
Example convert_before_epoch : Date_Convert (-1) = Some (1969, 12, 31).
Proof. vm_compute. reflexivity. Qed.
Example convert_leap : Date_Convert 19782 = Some (2024, 2, 29).
Proof. vm_compute. reflexivity. Qed.
Example convert_max : Date_Convert (2 ^ 31 - 2) = Some (5881580, 7, 10).
Proof. vm_compute. reflexivity. Qed.

(** ** Times of day *)

(** [Time::FromTime] *)
Definition FromTime (hour minute second microseconds : Z) : Z :=
  ((hour * MINS_PER_HOUR + minute) * SECS_PER_MINUTE + second) * MICROS_PER_SEC + microseconds.

(** [Time::Convert] *)
Definition Time_Convert (dtime : Z) : Z * Z * Z * Z :=
  let time := dtime in
  let hour := s32 (Z.quot time MICROS_PER_HOUR) in
  let time := time - hour * MICROS_PER_HOUR in
  let min := s32 (Z.quot time MICROS_PER_MINUTE) in
  let time := time - min * MICROS_PER_MINUTE in
  let sec := s32 (Z.quot time MICROS_PER_SEC) in
  let time := time - sec * MICROS_PER_SEC in
  (hour, min, sec, s32 time).

(** ** Timestamps *)
Definition timestamp_infinity : Z := 2 ^ 63 - 1.
Definition timestamp_ninfinity : Z := - (2 ^ 63 - 1).
Definition date_infinity : Z := 2 ^ 31 - 1.
Definition date_ninfinity : Z := - (2 ^ 31 - 1).

(** [Timestamp::IsFinite] *)
Definition IsFinite (timestamp : Z) : bool :=
  negb (timestamp =? timestamp_infinity) && negb (timestamp =? timestamp_ninfinity).

(** [Timestamp::GetDate] *)
Definition GetDate (timestamp : Z) : Z :=
  if timestamp =? timestamp_infinity then date_infinity
  else if timestamp =? timestamp_ninfinity then date_ninfinity
  else
    let neg := if timestamp <? 0 then 1 else 0 in
    s32 (Z.quot (timestamp + neg) MICROS_PER_DAY - neg).

(** [Timestamp::GetTime] throws for an infinite timestamp. *)
Definition GetTime (timestamp : Z) : option Z :=
  if negb (IsFinite timestamp) then None
  else Some (s64 (timestamp - s64 (GetDate timestamp * MICROS_PER_DAY))).

(** [TryMultiplyOperator], [TryAddOperator] on [int64_t] *)
Definition try_s64 (z : Z) : option Z := if decide (in_s 64 z) then Some z else None.

Definition TryFromDatetime (date time : Z) : option Z :=
  days ← try_s64 (date * MICROS_PER_DAY);
  result ← try_s64 (days + time);
  if IsFinite result then Some result else None.

(** The conversions from other units; a product out of range throws. *)
Definition FromEpochSeconds (sec : Z) : option Z := try_s64 (sec * MICROS_PER_SEC).
Definition FromEpochMs (ms : Z) : option Z := try_s64 (ms * MICROS_PER_MSEC).
Definition FromEpochMicroSeconds (micros : Z) : option Z := Some micros.
Definition FromEpochNanoSeconds (ns : Z) : option Z := Some (Z.quot ns NANOS_PER_MICRO).

(** ** The tables *)

Definition year_start (k : Z) : Z := default 0 (at_index CUMULATIVE_YEAR_DAYS k).
Definition days_in (k : Z) : Z := if IsLeapYear (1970 + k) then 366 else 365.

Definition year_entry_ok (k : Z) : bool :=
  bool_decide (at_index CUMULATIVE_YEAR_DAYS k = Some (year_start k))
  && bool_decide (at_index CUMULATIVE_YEAR_DAYS (k + 1) = Some (year_start (k + 1)))
  && (365 * k <=? year_start k) && (year_start (k + 1) - year_start k =? days_in k).

Lemma year_table : forallb year_entry_ok (seqZ 0 400) = true.
Proof. vm_compute. reflexivity. Qed.

Lemma year_entry k : 0 <= k < 400 ->
  at_index CUMULATIVE_YEAR_DAYS k = Some (year_start k)
  /\ at_index CUMULATIVE_YEAR_DAYS (k + 1) = Some (year_start (k + 1))
  /\ 365 * k <= year_start k /\ year_start (k + 1) - year_start k = days_in k.
Proof.
  intros Hk. pose proof (forallb_seqZ _ _ _ k year_table ltac:(lia)) as H.
  unfold year_entry_ok in H. rewrite !andb_true_iff, !bool_decide_eq_true, Z.leb_le, Z.eqb_eq in H. tauto.
Qed.

Lemma days_in_range k : 365 <= days_in k <= 366.
Proof. unfold days_in. case_match; lia. Qed.

Lemma year_start_0 : year_start 0 = 0. Proof. reflexivity. Qed.
Lemma year_start_400 : year_start 400 = DAYS_PER_YEAR_INTERVAL. Proof. reflexivity. Qed.

Lemma year_start_index k : 0 <= k <= 400 -> at_index CUMULATIVE_YEAR_DAYS k = Some (year_start k).
Proof.
  intros Hk. destruct (decide (k = 400)) as [->|]; [reflexivity|]. apply year_entry. lia.
Qed.

Lemma year_start_le j k : 0 <= j <= k -> k <= 400 -> year_start j <= year_start k.
Proof.
  intros Hj Hk. replace k with (j + Z.of_nat (Z.to_nat (k - j))) in * by lia.
  set (d := Z.to_nat (k - j)) in *. clearbody d. induction d as [|d IH]; [rewrite Z.add_0_r; lia|].
  destruct (year_entry (j + Z.of_nat d)) as (_ & _ & _ & E); [lia|].
  pose proof (days_in_range (j + Z.of_nat d)).
  replace (j + Z.of_nat (S d)) with (j + Z.of_nat d + 1) by lia. lia.
Qed.

(** The year within the 400 is determined by the day. *)
Lemma year_unique j k x :
  0 <= j < 400 -> 0 <= k < 400 -> year_start j <= x < year_start (j + 1) -> year_start k <= x < year_start (k + 1) ->
  j = k.
Proof.
  intros Hj Hk Xj Xk. destruct (Z.lt_trichotomy j k) as [H|[H|H]]; [|done|].
  - pose proof (year_start_le (j + 1) k). lia.
  - pose proof (year_start_le (k + 1) j). lia.
Qed.

(** The month tables, for a leap year and for another. *)
Definition month_of (leap : bool) := at_index (if leap then LEAP_MONTH_PER_DAY_OF_YEAR else MONTH_PER_DAY_OF_YEAR).
Definition days_before (leap : bool) := at_index (if leap then CUMULATIVE_LEAP_DAYS else CUMULATIVE_DAYS).
Definition month_days (leap : bool) := at_index (if leap then LEAP_DAYS else NORMAL_DAYS).

Definition day_entry_ok (leap : bool) (d : Z) : bool :=
  match month_of leap d with
  | Some m =>
      match days_before leap (m - 1), month_days leap m with
      | Some a, Some c => (1 <=? m) && (m <=? 12) && (a <=? d) && (d <? a + c)
      | _, _ => false
      end
  | None => false
  end.

Definition month_entry_ok (leap : bool) (m : Z) : bool :=
  match days_before leap (m - 1), month_days leap m with
  | Some a, Some c =>
      (0 <=? a) && (a + c <=? if leap then 366 else 365)
      && forallb (fun d => bool_decide (month_of leap (a + d) = Some m)) (seqZ 0 c)
  | _, _ => false
  end.

Lemma day_table (leap : bool) : forallb (day_entry_ok leap) (seqZ 0 (if leap then 366 else 365)) = true.
Proof. destruct leap; vm_compute; reflexivity. Qed.
Lemma month_table (leap : bool) : forallb (month_entry_ok leap) (seqZ 1 12) = true.
Proof. destruct leap; vm_compute; reflexivity. Qed.

Lemma day_entry (leap : bool) d : 0 <= d < (if leap then 366 else 365) ->
  exists m a c, month_of leap d = Some m /\ days_before leap (m - 1) = Some a /\ month_days leap m = Some c
    /\ 1 <= m <= 12 /\ a <= d < a + c.
Proof.
  intros Hd. pose proof (forallb_seqZ _ _ _ d (day_table leap) ltac:(lia)) as H.
  unfold day_entry_ok in H. destruct (month_of leap d) as [m|]; [|done].
  destruct (days_before leap (m - 1)) as [a|] eqn:Ea; [|done].
  destruct (month_days leap m) as [c|] eqn:Ec; [|done]. exists m, a, c. zbool. repeat split; lia || done.
Qed.

Lemma month_entry (leap : bool) m : 1 <= m <= 12 ->
  exists a c, days_before leap (m - 1) = Some a /\ month_days leap m = Some c
    /\ 0 <= a /\ a + c <= (if leap then 366 else 365)
    /\ (forall d, 0 <= d < c -> month_of leap (a + d) = Some m).
Proof.
  intros Hm. pose proof (forallb_seqZ _ _ _ m (month_table leap) ltac:(lia)) as H.
  unfold month_entry_ok in H.
  destruct (days_before leap (m - 1)) as [a|]; [|done]. destruct (month_days leap m) as [c|]; [|done].
  apply andb_true_iff in H as [H H3]. exists a, c. zbool.
  repeat split; [lia|lia|]. intros d Hd. pose proof (forallb_seqZ _ _ _ d H3 ltac:(lia)) as E.
  by apply bool_decide_eq_true in E.
Qed.

(** ** Dates and calendar fields *)
Abbreviation I400 := DAYS_PER_YEAR_INTERVAL.

Lemma year_fuel_Z : Z.of_nat year_fuel = 14701.
Proof. unfold year_fuel. by rewrite Z2Nat.id. Qed.

Lemma div_mod_shift n : (n + I400) / I400 = n / I400 + 1 /\ (n + I400) mod I400 = n mod I400.
Proof.
  unfold I400. split.
  - replace (n + 146097) with (n + 1 * 146097) by lia. apply Z.div_add. lia.
  - replace (n + 146097) with (n + 1 * 146097) by lia. apply Z.mod_add. lia.
Qed.

Lemma shift_up_spec fuel n year : n < 0 -> 0 <= n + I400 * (Z.of_nat fuel - 1) ->
  shift_up fuel n year = Some (n mod I400, year + YEAR_INTERVAL * (n / I400)).
Proof.
  revert n year. induction fuel as [|fuel IH]; intros n year Hn Hf; [unfold I400 in *; lia|].
  cbn [shift_up]. rewrite (proj2 (Z.ltb_lt n 0)) by done. destruct (div_mod_shift n) as [Ed Em].
  destruct (decide (n + I400 < 0)) as [Hlt|Hge].
  - rewrite IH by (unfold I400 in *; lia). rewrite Em. do 2 f_equal. unfold YEAR_INTERVAL. lia.
  - assert (0 <= n + I400 < I400) as Hr by lia.
    destruct fuel as [|fuel]; [unfold I400 in *; lia|]. cbn [shift_up].
    rewrite (proj2 (Z.ltb_ge _ 0)) by lia. rewrite <- Em, Z.mod_small by done.
    do 2 f_equal. rewrite Z.div_small in Ed by done. unfold YEAR_INTERVAL. lia.
Qed.

Lemma shift_down_spec fuel n year : 0 <= n -> n < I400 * Z.of_nat fuel ->
  shift_down fuel n year = Some (n mod I400, year + YEAR_INTERVAL * (n / I400)).
Proof.
  revert n year. induction fuel as [|fuel IH]; intros n year Hn Hf; [unfold I400 in *; lia|].
  cbn [shift_down]. destruct (Z.leb_spec I400 n).
  - rewrite IH by (unfold I400 in *; lia). destruct (div_mod_shift (n - I400)) as [Ed Em].
    replace (n - I400 + I400) with n in * by lia. rewrite <- Em. do 2 f_equal. unfold YEAR_INTERVAL. lia.
  - rewrite Z.mod_small, Z.div_small by lia. do 2 f_equal. unfold YEAR_INTERVAL. lia.
Qed.

Lemma shifts n : in_s 32 n ->
  ('(n, year) ← shift_up year_fuel n EPOCH_YEAR; shift_down year_fuel n year)
  = Some (n mod I400, 1970 + 400 * (n / I400)).
Proof.
  intros Hn. pose proof year_fuel_Z as Hf. unfold in_s in Hn. change (2 ^ (32 - 1)) with 2147483648 in Hn.
  destruct (decide (n < 0)) as [H|H].
  - rewrite shift_up_spec by (unfold I400; lia). cbn [mbind option_bind].
    pose proof (Z.mod_pos_bound n I400 ltac:(unfold I400; lia)).
    rewrite shift_down_spec by (unfold I400 in *; lia).
    rewrite (Z.mod_small (n mod I400)), (Z.div_small (n mod I400)) by lia.
    do 2 f_equal. unfold YEAR_INTERVAL, EPOCH_YEAR. lia.
  - assert (shift_up year_fuel n EPOCH_YEAR = Some (n, EPOCH_YEAR)) as ->.
    { destruct year_fuel as [|f] eqn:E; [lia|]. cbn [shift_up]. by rewrite (proj2 (Z.ltb_ge n 0)) by lia. }
    cbn [mbind option_bind]. rewrite shift_down_spec by (unfold I400; lia). done.
Qed.

Lemma search_year_spec fuel x off :
  0 <= x < I400 -> 0 <= off <= 400 -> off < Z.of_nat fuel -> (off < 400 -> x < year_start (off + 1)) ->
  exists k, search_year fuel x off = Some k /\ 0 <= k < 400 /\ year_start k <= x < year_start (k + 1).
Proof.
  revert off. induction fuel as [|fuel IH]; intros off Hx Ho Hf Hup; [lia|].
  cbn [search_year]. rewrite (year_start_index off) by done. cbn [mbind option_bind].
  destruct (Z.ltb_spec x (year_start off)) as [Hlt|Hge].
  - assert (off <> 0) by (intros ->; rewrite year_start_0 in Hlt; lia).
    apply IH; [done|lia|lia|]. intros _. by replace (off - 1 + 1) with off by lia.
  - assert (off <> 400) by (intros ->; rewrite year_start_400 in Hge; unfold I400 in *; lia).
    exists off. split; [done|]. split; [lia|]. split; [done|]. apply Hup. lia.
Qed.

Lemma ExtractYearOffset_spec n : in_s 32 n ->
  exists k, 0 <= k < 400 /\ year_start k <= n mod I400 < year_start (k + 1)
    /\ ExtractYearOffset n = Some (n mod I400, 1970 + 400 * (n / I400) + k, k).
Proof.
  intros Hn. pose proof (shifts n Hn) as E.
  pose proof (Z.mod_pos_bound n I400 ltac:(unfold I400; lia)) as Hm.
  destruct (search_year_spec (length CUMULATIVE_YEAR_DAYS) (n mod I400) (Z.quot (n mod I400) 365))
    as (k & Es & Hk & Hy).
  - done.
  - unfold I400 in *. Z.to_euclidean_division_equations. lia.
  - change (Z.of_nat (length CUMULATIVE_YEAR_DAYS)) with 401. unfold I400 in *.
    Z.to_euclidean_division_equations. lia.
  - intros Ho. set (o := Z.quot (n mod I400) 365) in *.
    assert (0 <= o /\ n mod I400 < 365 * (o + 1)) as [? ?]
      by (subst o; set (z := n mod I400) in *; clearbody z; Z.to_euclidean_division_equations; lia).
    destruct (decide (o + 1 = 400)) as [e|]; [rewrite e, year_start_400; lia|].
    destruct (year_entry (o + 1)) as (_ & _ & ? & _); lia.
  - exists k. split; [done|]. split; [done|]. unfold ExtractYearOffset.
    destruct (shift_up year_fuel n EPOCH_YEAR) as [[n1 y1]|]; [|done]. cbn [mbind option_bind] in *.
    destruct (shift_down year_fuel n1 y1) as [[n2 y2]|]; [|done]. injection E as -> ->. cbn [mbind option_bind].
    by rewrite Es.
Qed.

Lemma IsLeapYear_period y q : IsLeapYear (y + 400 * q) = IsLeapYear y.
Proof.
  unfold IsLeapYear.
  assert (forall d, 0 < d -> 400 mod d = 0 -> (Z.rem (y + 400 * q) d =? 0) = (Z.rem y d =? 0)) as P.
  { intros d Hd Hm.
    assert (forall a, Z.rem a d = 0 <-> a mod d = 0) as Q
      by (intros a; rewrite Z.rem_divide, Z.mod_divide by lia; done).
    assert ((y + 400 * q) mod d = y mod d) as Em.
    { apply Z.mod_divide in Hm as [c Hc]; [|lia].
      replace (400 * q) with (c * q * d) by (rewrite Hc; ring). apply Z.mod_add. lia. }
    destruct (Z.eqb_spec (Z.rem (y + 400 * q) d) 0) as [e|e], (Z.eqb_spec (Z.rem y d) 0) as [e'|e']; try done;
      rewrite Q in e, e'; congruence. }
  by rewrite !P.
Qed.

(** The day a year starts on. *)
Definition year_base (y : Z) : Z := I400 * ((y - 1970) / 400) + year_start ((y - 1970) mod 400).
Definition year_days (y : Z) : Z := if IsLeapYear y then 366 else 365.

Lemma year_pos y : exists q k, y = 1970 + 400 * q + k /\ 0 <= k < 400 /\ (y - 1970) / 400 = q /\ (y - 1970) mod 400 = k.
Proof.
  exists ((y - 1970) / 400), ((y - 1970) mod 400).
  pose proof (Z.mod_pos_bound (y - 1970) 400 ltac:(lia)). pose proof (Z.div_mod (y - 1970) 400). lia.
Qed.

Lemma year_base_pos q k : 0 <= k < 400 -> year_base (1970 + 400 * q + k) = I400 * q + year_start k.
Proof.
  intros Hk. unfold year_base. replace (1970 + 400 * q + k - 1970) with (k + q * 400) by lia.
  rewrite Z.div_add, Z.mod_add, Z.div_small, Z.mod_small by lia. lia.
Qed.

Lemma year_days_pos q k : year_days (1970 + 400 * q + k) = days_in k.
Proof.
  unfold year_days, days_in. replace (1970 + 400 * q + k) with (1970 + k + 400 * q) by lia.
  by rewrite IsLeapYear_period.
Qed.

Lemma year_base_succ y : year_base (y + 1) = year_base y + year_days y.
Proof.
  destruct (year_pos y) as (q & k & -> & Hk & _ & _). rewrite year_base_pos, year_days_pos by done.
  destruct (year_entry k Hk) as (_ & _ & _ & E). destruct (decide (k = 399)) as [->|].
  - replace (1970 + 400 * q + 399 + 1) with (1970 + 400 * (q + 1) + 0) by lia. rewrite year_base_pos by lia.
    change (399 + 1) with 400 in E. rewrite year_start_400 in E. rewrite year_start_0. unfold I400 in *. lia.
  - replace (1970 + 400 * q + k + 1) with (1970 + 400 * q + (k + 1)) by lia. rewrite year_base_pos by lia. lia.
Qed.

Lemma year_days_range y : 365 <= year_days y <= 366.
Proof. unfold year_days. case_match; lia. Qed.

Lemma year_base_le y z : y <= z -> year_base y <= year_base z.
Proof.
  intros H. replace z with (y + Z.of_nat (Z.to_nat (z - y))) by lia.
  generalize (Z.to_nat (z - y)) as d. intros d. induction d as [|d IH]; [rewrite Z.add_0_r; lia|].
  replace (y + Z.of_nat (S d)) with (y + Z.of_nat d + 1) by lia. rewrite year_base_succ.
  pose proof (year_days_range (y + Z.of_nat d)). lia.
Qed.

(** A day of the calendar: the month exists and has the day. *)
Record civil (y m d a : Z) : Prop := {
  cv_month : 1 <= m <= 12;
  cv_before : days_before (IsLeapYear y) (m - 1) = Some a;
  cv_nonneg : 0 <= a;
  cv_days : exists c, month_days (IsLeapYear y) m = Some c /\ 1 <= d <= c /\ a + c <= year_days y
            /\ forall x, 0 <= x < c -> month_of (IsLeapYear y) (a + x) = Some m
}.

Lemma Date_Convert_civil y m d a : civil y m d a -> in_s 32 (year_base y + a + d - 1) ->
  Date_Convert (year_base y + a + d - 1) = Some (y, m, d).
Proof.
  intros [Hm Ha H0 (c & Hc & Hd & Hac & Hx)] Hn.
  destruct (ExtractYearOffset_spec _ Hn) as (k' & Hk' & Hy' & E). set (n := year_base y + a + d - 1) in *.
  pose proof (Hx (d - 1) ltac:(lia)) as Emonth. clear Hx.
  destruct (year_pos y) as (q & k & Ey & Hk & _ & _).
  assert (n = I400 * q + (year_start k + a + d - 1)) as En by (subst n; rewrite Ey, year_base_pos by done; lia).
  destruct (year_entry k Hk) as (I1 & I2 & _ & Ed).
  assert (year_days y = days_in k) as Eyd by (rewrite Ey; apply year_days_pos).
  assert (year_start k <= year_start k + a + d - 1 < year_start (k + 1)) as Hr by lia.
  pose proof (year_start_le 0 k). pose proof (year_start_le (k + 1) 400). rewrite year_start_0 in *.
  rewrite year_start_400 in *.
  assert (n / I400 = q /\ n mod I400 = year_start k + a + d - 1) as [Edv Emd].
  { rewrite En. replace (I400 * q + (year_start k + a + d - 1)) with (year_start k + a + d - 1 + q * I400) by lia.
    rewrite Z.div_add, Z.mod_add, Z.div_small, Z.mod_small by (unfold I400 in *; lia). lia. }
  assert (k' = k) as -> by (apply (year_unique k' k (n mod I400)); lia).
  unfold Date_Convert. rewrite E. cbn [mbind option_bind]. rewrite I1. cbn [mbind option_bind]. rewrite I2.
  cbn [mbind option_bind]. rewrite Ed, Edv, Emd, <- Ey.
  assert ((days_in k =? 366) = IsLeapYear y) as -> by (rewrite <- Eyd; unfold year_days; by case_match).
  replace (year_start k + a + d - 1 - year_start k) with (a + (d - 1)) by lia. unfold month_of in Emonth.
  rewrite Emonth. cbn [mbind option_bind]. unfold days_before in Ha. rewrite Ha. cbn [mbind option_bind].
  do 2 f_equal. lia.
Qed.

Lemma civil_of_day n : in_s 32 n ->
  exists y m d a, civil y m d a /\ n = year_base y + a + d - 1.
Proof.
  intros Hn. destruct (ExtractYearOffset_spec n Hn) as (k & Hk & Hy & _).
  set (y := 1970 + 400 * (n / I400) + k). pose proof (year_days_pos (n / I400) k) as Eyd. fold y in Eyd.
  destruct (year_entry k Hk) as (_ & _ & _ & Ed).
  destruct (day_entry (IsLeapYear y) (n mod I400 - year_start k)) as (m & a & c & _ & Ha & Hc & Hm & Hr).
  { unfold year_days in Eyd. case_match; lia. }
  destruct (month_entry (IsLeapYear y) m Hm) as (a' & c' & Ha' & Hc' & H0 & Hac & Hx).
  rewrite Ha in Ha'. rewrite Hc in Hc'. injection Ha' as <-. injection Hc' as <-.
  exists y, m, (n mod I400 - year_start k - a + 1), a. split.
  - split; [done..|]. exists c. split; [done|]. split; [lia|]. split; [|done]. unfold year_days. by case_match.
  - subst y. rewrite year_base_pos by done. pose proof (Z.div_mod n I400). unfold I400 in *. lia.
Qed.

Lemma year_of_day y m d a : civil y m d a -> year_base y <= year_base y + a + d - 1 < year_base (y + 1).
Proof. intros [_ _ H0 (c & _ & Hd & Hac & _)]. rewrite year_base_succ. lia. Qed.

(** The first and the last day the engine accepts. *)
Definition first_day : Z := - 2 ^ 31 + 2.
Definition last_day : Z := 2 ^ 31 - 2.

Lemma min_year_base : year_base DATE_MIN_YEAR = first_day - 175 /\ IsLeapYear DATE_MIN_YEAR = false.
Proof. split; vm_compute; reflexivity. Qed.
Lemma max_year_base : year_base DATE_MAX_YEAR = last_day - 191 /\ IsLeapYear DATE_MAX_YEAR = true.
Proof. split; vm_compute; reflexivity. Qed.

Ltac month_cases m :=
  let H := fresh in
  assert (m = 1 \/ m = 2 \/ m = 3 \/ m = 4 \/ m = 5 \/ m = 6 \/ m = 7 \/ m = 8 \/ m = 9 \/ m = 10 \/ m = 11 \/ m = 12)
    as H by lia; destruct_or! H; subst m.

(** In the first and the last year, the days before a month and the days of it. *)
Lemma min_month_days m d a : civil DATE_MIN_YEAR m d a ->
  175 <= a + d - 1 <-> ~ (m < 6 \/ (m = 6 /\ d < 25)).
Proof.
  intros [Hm Ha _ (c & Hc & Hd & _ & _)]. rewrite (proj2 min_year_base) in Ha, Hc.
  month_cases m; vm_compute in Ha, Hc; injection Ha as <-; injection Hc as <-; lia.
Qed.

Lemma max_month_days m d a : civil DATE_MAX_YEAR m d a ->
  a + d - 1 <= 191 <-> ~ (7 < m \/ (m = 7 /\ 10 < d)).
Proof.
  intros [Hm Ha _ (c & Hc & Hd & _ & _)]. rewrite (proj2 max_year_base) in Ha, Hc.
  month_cases m; vm_compute in Ha, Hc; injection Ha as <-; injection Hc as <-; lia.
Qed.

Lemma in_table_days y m d a : civil y m d a ->
  match at_index (if IsLeapYear y then LEAP_DAYS else NORMAL_DAYS) m with Some c => d <=? c | None => false end = true.
Proof. intros [_ _ _ (c & Hc & Hd & _)]. unfold month_days in Hc. rewrite Hc. apply Z.leb_le. lia. Qed.

(** The two guards of [Date::IsValid] on the first and the last year. *)
Lemma min_guard y m d a : civil y m d a ->
  (y <=? DATE_MIN_YEAR) && ((y <? DATE_MIN_YEAR) || (m <? DATE_MIN_MONTH) || ((m =? DATE_MIN_MONTH) && (d <? DATE_MIN_DAY)))
  = (year_base y + a + d - 1 <? first_day).
Proof.
  intros Hc. pose proof (year_of_day _ _ _ _ Hc) as Hy. rewrite year_base_succ in Hy.
  pose proof (proj1 min_year_base) as Hmin. unfold DATE_MIN_MONTH, DATE_MIN_DAY.
  destruct (Z.lt_trichotomy y DATE_MIN_YEAR) as [H|[->|H]].
  - pose proof (year_base_le (y + 1) DATE_MIN_YEAR ltac:(lia)) as Hb. rewrite year_base_succ in Hb. lia.
  - pose proof (min_month_days _ _ _ Hc). lia.
  - pose proof (year_base_le (DATE_MIN_YEAR + 1) y ltac:(lia)) as Hb. rewrite year_base_succ in Hb.
    assert (year_days DATE_MIN_YEAR = 365) by reflexivity. destruct Hc. lia.
Qed.

Lemma max_guard y m d a : civil y m d a ->
  (DATE_MAX_YEAR <=? y) && ((DATE_MAX_YEAR <? y) || (DATE_MAX_MONTH <? m) || ((m =? DATE_MAX_MONTH) && (DATE_MAX_DAY <? d)))
  = (last_day <? year_base y + a + d - 1).
Proof.
  intros Hc. pose proof (year_of_day _ _ _ _ Hc) as Hy. rewrite year_base_succ in Hy.
  pose proof (proj1 max_year_base) as Hmax. unfold DATE_MAX_MONTH, DATE_MAX_DAY.
  destruct (Z.lt_trichotomy y DATE_MAX_YEAR) as [H|[->|H]].
  - pose proof (year_base_le (y + 1) DATE_MAX_YEAR ltac:(lia)) as Hb. rewrite year_base_succ in Hb. lia.
  - pose proof (max_month_days _ _ _ Hc). lia.
  - pose proof (year_base_le (DATE_MAX_YEAR + 1) y ltac:(lia)) as Hb. rewrite year_base_succ in Hb.
    assert (year_days DATE_MAX_YEAR = 366) by reflexivity. destruct Hc. lia.
Qed.

(** [Date::IsValid] accepts exactly the days of the calendar in the range of a
    date. *)
Lemma civil_valid y m d a : civil y m d a ->
  Date_IsValid y m d = true <-> first_day <= year_base y + a + d - 1 <= last_day.
Proof.
  intros Hc. unfold Date_IsValid. rewrite (min_guard _ _ _ _ Hc), (max_guard _ _ _ _ Hc), (in_table_days _ _ _ _ Hc).
  destruct Hc as [Hm _ _ (c & _ & Hd & _)]. split; [|intros H].
  - repeat case_match; intros; zbool; lia || done.
  - repeat case_match; zbool; repeat match goal with E : (_ || _)%bool = true |- _ => apply orb_true_iff in E as [E|E] end;
      zbool; lia || done.
Qed.

Lemma valid_civil y m d : Date_IsValid y m d = true -> exists a, civil y m d a.
Proof.
  unfold Date_IsValid. intros H. do 4 (case_match; [done|]). zbool.
  destruct (month_entry (IsLeapYear y) m) as (a & c & Ha & Hc & Hnn & Hac & Hx); [lia|].
  unfold month_days in Hc. rewrite Hc in H. zbool. exists a. split; [lia|done|done|]. exists c.
  unfold month_days. split; [done|]. split; [lia|]. split; [|done]. unfold year_days. by case_match.
Qed.

Lemma valid_year y m d : Date_IsValid y m d = true -> DATE_MIN_YEAR <= y <= DATE_MAX_YEAR.
Proof.
  unfold Date_IsValid. intros H. do 2 (case_match; [done|]). destruct (Z.leb_spec y DATE_MIN_YEAR), (Z.leb_spec DATE_MAX_YEAR y);
    destruct (Z.ltb_spec y DATE_MIN_YEAR), (Z.ltb_spec DATE_MAX_YEAR y); cbn [andb orb] in H; try done; unfold DATE_MIN_YEAR, DATE_MAX_YEAR in *; lia.
Qed.

Lemma TryFromDate_civil y m d a : civil y m d a -> Date_IsValid y m d = true ->
  TryFromDate y m d = Some (year_base y + a + d - 1).
Proof.
  intros [_ Ha _ _] Hv. unfold TryFromDate. rewrite Hv. cbn [negb]. unfold days_before in Ha. rewrite Ha.
  cbn [mbind option_bind]. unfold year_base.
  destruct (Z.ltb_spec y 1970); [|destruct (Z.leb_spec 2370 y)].
  - rewrite Z.rem_mod_nonneg, Z.quot_div_nonneg by lia.
    destruct (decide ((1970 - y) mod 400 = 0)) as [E|E].
    + rewrite E, Z.sub_0_r. change (at_index CUMULATIVE_YEAR_DAYS 400) with (Some I400). cbn [mbind option_bind].
      assert ((y - 1970) mod 400 = 0 /\ (y - 1970) / 400 = - ((1970 - y) / 400)) as [-> ->] by dlia.
      rewrite year_start_0. f_equal. unfold I400. lia.
    + rewrite year_start_index by dlia. cbn [mbind option_bind].
      assert ((y - 1970) mod 400 = 400 - (1970 - y) mod 400 /\ (y - 1970) / 400 = - ((1970 - y) / 400) - 1)
        as [-> ->] by dlia.
      f_equal. unfold I400. lia.
  - rewrite Z.rem_mod_nonneg, Z.quot_div_nonneg by lia. rewrite year_start_index by dlia. cbn [mbind option_bind].
    assert ((y - 1970) mod 400 = (y - 2370) mod 400 /\ (y - 1970) / 400 = (y - 2370) / 400 + 1) as [-> ->] by dlia.
    f_equal. unfold I400. lia.
  - rewrite year_start_index by lia. cbn [mbind option_bind].
    rewrite Z.mod_small, Z.div_small by lia. f_equal. lia.
Qed.

Lemma day_fields_valid n : first_day <= n <= last_day ->
  exists y m d, Date_Convert n = Some (y, m, d) /\ Date_IsValid y m d = true /\ TryFromDate y m d = Some n.
Proof.
  intros Hn. assert (in_s 32 n) as Hs by (unfold first_day, last_day, in_s in *; lia).
  destruct (civil_of_day n Hs) as (y & m & d & a & Hc & ->). exists y, m, d.
  assert (Date_IsValid y m d = true) as Hv by (by apply (civil_valid _ _ _ _ Hc)).
  split; [|split; [done|by apply TryFromDate_civil]]. by apply Date_Convert_civil.
Qed.

(** Days and calendar fields correspond one to one: every day the engine
    accepts is converted to fields that are a valid date and give the day back,
    and every valid date is converted to a day of that range, which gives its
    fields back. Neither conversion leaves a table or runs out of its loops. *)
Theorem date_fields_bijection :
  (forall n, first_day <= n <= last_day ->
     exists y m d, Date_Convert n = Some (y, m, d) /\ Date_IsValid y m d = true /\ TryFromDate y m d = Some n)
  /\ (forall y m d, Date_IsValid y m d = true ->
     exists n, TryFromDate y m d = Some n /\ first_day <= n <= last_day /\ Date_Convert n = Some (y, m, d)).
Proof.
  assert (forall n, first_day <= n <= last_day -> in_s 32 n) as Hs by (unfold first_day, last_day, in_s; lia).
  split; [exact day_fields_valid|].
  intros y m d Hv. destruct (valid_civil y m d Hv) as [a Hc]. exists (year_base y + a + d - 1).
  pose proof (proj1 (civil_valid _ _ _ _ Hc) Hv). split; [by apply TryFromDate_civil|]. split; [done|].
  apply Date_Convert_civil; auto.
Qed.

(** The conversion is total on 32-bit days, the two infinities included. *)
Lemma Date_Convert_total n : in_s 32 n -> exists y m d, Date_Convert n = Some (y, m, d) /\ 1 <= m <= 12 /\ 1 <= d <= 31.
Proof.
  intros Hn. destruct (civil_of_day n Hn) as (y & m & d & a & Hc & ->). exists y, m, d.
  split; [by apply Date_Convert_civil|]. destruct Hc as [Hm Ha _ (c & Hc & Hd & _)]. split; [done|].
  destruct (IsLeapYear y); month_cases m; vm_compute in Hc; injection Hc as <-; lia.
Qed.

Lemma TryFromDate_range y m d n : TryFromDate y m d = Some n -> first_day <= n <= last_day.
Proof.
  intros H. destruct (Date_IsValid y m d) eqn:Hv; [|unfold TryFromDate in H; by rewrite Hv in H].
  destruct (valid_civil y m d Hv) as [a Hc]. rewrite (TryFromDate_civil _ _ _ _ Hc Hv) in H. injection H as <-.
  by apply (civil_valid _ _ _ _ Hc).
Qed.

(** ** Times of day and timestamps *)
Lemma Time_Convert_fields t : 0 <= t < MICROS_PER_DAY ->
  Time_Convert t = (t / MICROS_PER_HOUR, t / MICROS_PER_MINUTE mod 60, t / MICROS_PER_SEC mod 60, t mod MICROS_PER_SEC).
Proof.
  unfold Time_Convert, MICROS_PER_DAY, MICROS_PER_HOUR, MICROS_PER_MINUTE, MICROS_PER_SEC, HOURS_PER_DAY. intros Ht.
  rewrite Z.quot_div_nonneg by lia.
  rewrite (wrap_s_small 32 (t / 3600000000)) by (unfold in_s; dlia).
  rewrite Z.quot_div_nonneg by dlia.
  rewrite (wrap_s_small 32 ((t - t / 3600000000 * 3600000000) / 60000000)) by (unfold in_s; dlia).
  rewrite Z.quot_div_nonneg by dlia. rewrite !wrap_s_small by (unfold in_s; dlia).
  repeat apply (f_equal2 pair); dlia.
Qed.

Lemma Time_roundtrip t : 0 <= t < MICROS_PER_DAY ->
  let '(hour, min, sec, us) := Time_Convert t in
  FromTime hour min sec us = t /\ 0 <= hour < 24 /\ 0 <= min < 60 /\ 0 <= sec < 60 /\ 0 <= us < 1000000.
Proof.
  intros Ht. rewrite Time_Convert_fields by done.
  unfold FromTime, MICROS_PER_DAY, MICROS_PER_HOUR, MICROS_PER_MINUTE, MICROS_PER_SEC, HOURS_PER_DAY, MINS_PER_HOUR,
    SECS_PER_MINUTE in *.
  dlia.
Qed.

(** The division of [GetDate] rounds down, before the epoch as well. *)
Lemma GetDate_floor v : in_s 64 v -> IsFinite v = true -> GetDate v = v / MICROS_PER_DAY.
Proof.
  unfold IsFinite, GetDate, timestamp_infinity, timestamp_ninfinity, MICROS_PER_DAY, MICROS_PER_HOUR, HOURS_PER_DAY.
  intros Hv Hf. zbool. do 2 (case_match; zbool; [done|]). unfold in_s in Hv. change (2 ^ (64 - 1)) with 9223372036854775808 in Hv.
  assert (forall x, v / (3600000000 * 24) = x -> in_s 32 x) as Hr by (intros x <-; unfold in_s; dlia).
  case_match; zbool.
  - assert (Z.quot (v + 1) (3600000000 * 24) - 1 = v / (3600000000 * 24)) as E by dlia.
    rewrite E. apply wrap_s_small; [lia|]. by apply Hr.
  - rewrite Z.add_0_r, Z.sub_0_r, Z.quot_div_nonneg by lia. apply wrap_s_small; [lia|]. by apply Hr.
Qed.

Lemma wrap_s_sub_r w a b : 0 < w -> wrap_s w (a - wrap_s w b) = wrap_s w (a - b).
Proof.
  intros Hw. unfold wrap_s. set (h := 2 ^ (w - 1)). set (M := 2 ^ w).
  replace (a - ((b + h) mod M - h) + h) with (a + h + h - (b + h) mod M) by lia.
  rewrite Zminus_mod_idemp_r. do 2 f_equal. lia.
Qed.

Lemma GetTime_mod v : in_s 64 v -> IsFinite v = true -> GetTime v = Some (v mod MICROS_PER_DAY).
Proof.
  intros Hv Hf. unfold GetTime. rewrite Hf, GetDate_floor by done. cbn [negb]. f_equal.
  rewrite wrap_s_sub_r by lia. assert (0 < MICROS_PER_DAY < 2 ^ 63) as Hd by done.
  rewrite Z.mul_comm, <- Z.mod_eq by lia. pose proof (Z.mod_pos_bound v MICROS_PER_DAY). apply wrap_s_small; [lia|].
  unfold in_s. change (2 ^ (64 - 1)) with (2 ^ 63). lia.
Qed.

(** The fields of a finite timestamp rebuild it; the day the range of a
    timestamp starts in is excluded, its midnight is below the range. *)
Lemma timestamp_rebuilt v : in_s 64 v -> IsFinite v = true -> - 2 ^ 63 <= v / MICROS_PER_DAY * MICROS_PER_DAY ->
  TryFromDatetime (GetDate v) (v mod MICROS_PER_DAY) = Some v.
Proof.
  intros Hv Hf Hm. rewrite GetDate_floor by done. unfold TryFromDatetime, try_s64.
  assert (0 < MICROS_PER_DAY) by done. pose proof (Z.div_mod v MICROS_PER_DAY). pose proof (Z.mod_pos_bound v MICROS_PER_DAY).
  unfold in_s in *. change (2 ^ (64 - 1)) with (2 ^ 63) in *.
  rewrite decide_True by lia. cbn [mbind option_bind].
  replace (v / MICROS_PER_DAY * MICROS_PER_DAY + v mod MICROS_PER_DAY) with v by lia.
  rewrite decide_True by lia. cbn [mbind option_bind]. by rewrite Hf.
Qed.

Example before_the_epoch : (GetDate (-1), GetTime (-1)) = (-1, Some 86399999999).
Proof. vm_compute. reflexivity. Qed.
