(* ===== verification/DateText.v ===== *)
(** * Dates as text
    ([duckdb/src/common/types/date.cpp], [DateToStringCast] of [cast_helpers.hpp])

    The texts the engine prints dates as, and the ones it reads. A position in the text is
    what is left of it; reading at the end of the text would be a read past the end of the
    buffer, and the functions test for the end before. A date that is printed is read
    back, years before Christ and the infinities included. *)

From S2P Require Import Prelude Digits Interval Calendar.

(** ** Characters ([string_util.hpp]) *)
Definition CharacterIsSpace (c : Z) : bool :=
  (c =? chr " ") || (c =? 9) || (c =? 10) || (c =? 11) || (c =? 12) || (c =? 13).
Definition CharacterIsDigit (c : Z) : bool := (chr "0" <=? c) && (c <=? chr "9").
Definition CharacterToLower (c : Z) : Z := if (chr "A" <=? c) && (c <=? chr "Z") then c + 32 else c.

(** ** Reading *)
Inductive DateCastError := DATE_INCORRECT_FORMAT | DATE_RANGE.

#[export] Instance DateCastError_dec : EqDecision DateCastError.
Proof. solve_decision. Defined.

(** [DateSpecial]: a text and the length of its abbreviation. *)
Definition PINF : bytes * Z := (B"infinity", 3).
Definition NINF : bytes * Z := (B"-infinity", 4).
Definition EPOCH : bytes * Z := (B"epoch", 5).

Definition ParseDoubleDigit (buf : bytes) : option (Z * bytes) :=
  match buf with
  | c :: buf =>
      if CharacterIsDigit c then
        match buf with
        | d :: buf' => if CharacterIsDigit d then Some ((d - chr "0") + (c - chr "0") * 10, buf') else Some (c - chr "0", buf)
        | [] => Some (c - chr "0", buf)
        end
      else None
  | [] => None
  end.

(** The loop of [TryConvertDateSpecial]: what is left of the text and of the special. *)
Fixpoint match_special (buf special : bytes) : option (bytes * bytes) :=
  match buf, special with
  | c :: buf', s :: special' => if CharacterToLower c =? s then match_special buf' special' else None
  | _, _ => Some (buf, special)
  end.

Definition TryConvertDateSpecial (buf : bytes) (s : bytes * Z) : option bytes :=
  '(rest, special) ← match_special buf s.1;
  if negb (bool_decide (special = [])) && negb (zlen buf - zlen rest =? s.2) then None else Some rest.

(** The loop over the digits of the year, with the number of them; none when the year
    gets too large. *)
Fixpoint parse_year (buf : bytes) (year year_length : Z) : option (Z * Z * bytes) :=
  match buf with
  | c :: buf' =>
      if CharacterIsDigit c then
        if 100000000 <=? year then None else parse_year buf' ((c - chr "0") + year * 10) (year_length + 1)
      else Some (year, year_length, buf)
  | [] => Some (year, year_length, buf)
  end.

(** The optional trailing [" (BC)"]. *)
Definition parse_bc (buf : bytes) : option bytes :=
  match buf with
  | c0 :: c1 :: c2 :: c3 :: c4 :: buf' =>
      if CharacterIsSpace c0 && (c1 =? chr "(") && (CharacterToLower c2 =? chr "b") && (CharacterToLower c3 =? chr "c") && (c4 =? chr ")")
      then Some buf' else None
  | _ => None
  end.

Definition or_format {A C} (o : option A) (k : A -> DateCastError + C) : DateCastError + C :=
  match o with Some a => k a | None => inl DATE_INCORRECT_FORMAT end.

(** What a text that starts with no digit stands for: the date, whether it is special,
    and what is left of the text. *)
Definition convert_special (yearneg : bool) (buf : bytes) : DateCastError + (Z * bool * bytes) :=
  or_format
    (match TryConvertDateSpecial buf PINF with
     | Some buf => Some (if yearneg then date_ninfinity else date_infinity, buf)
     | None => buf ← TryConvertDateSpecial buf EPOCH; Some (0, buf)
     end)
    (fun '(result, buf) =>
       let buf := drop_while CharacterIsSpace buf in
       if bool_decide (buf = []) then inr (result, true, buf) else inl DATE_INCORRECT_FORMAT).

(** The checks behind the day. *)
Definition date_end_ok (strict : bool) (buf : bytes) : option bytes :=
  if strict then
    let buf := drop_while CharacterIsSpace buf in if bool_decide (buf = []) then Some buf else None
  else match buf with c :: _ => if CharacterIsDigit c then None else Some buf | [] => Some buf end.

(** From the first digit of the year. *)
Definition convert_fields (strict yearneg : bool) (buf : bytes) : DateCastError + (Z * bool * bytes) :=
  match parse_year buf 0 0 with
  | None => inl DATE_RANGE
  | Some (year, year_length, buf) =>
      if (year_length <? 2) && strict then inl DATE_INCORRECT_FORMAT
      else
        let year := if yearneg then - year else year in
        match buf with
        | [] => inl DATE_INCORRECT_FORMAT
        | sep :: buf =>
            if negb (sep =? chr " ") && negb (sep =? chr "-") && negb (sep =? chr "/") && negb (sep =? chr "\") then inl DATE_INCORRECT_FORMAT
            else or_format (ParseDoubleDigit buf) (fun '(month, buf) =>
              match buf with
              | [] => inl DATE_INCORRECT_FORMAT
              | c :: buf =>
                  if negb (c =? sep) then inl DATE_INCORRECT_FORMAT
                  else or_format (ParseDoubleDigit buf) (fun '(day, buf) =>
                    or_format
                      (match parse_bc buf with
                       | Some buf => if yearneg || (year =? 0) then None else Some (- year + 1, buf)
                       | None => Some (year, buf)
                       end)
                      (fun '(year, buf) => or_format (date_end_ok strict buf) (fun buf =>
                         match TryFromDate year month day with
                         | Some result => inr (result, false, buf)
                         | None => inl DATE_RANGE
                         end)))
              end)
        end
  end.

Definition TryConvertDate (strict : bool) (buf : bytes) : DateCastError + (Z * bool * bytes) :=
  let buf := drop_while CharacterIsSpace buf in
  match buf with
  | [] => inl DATE_INCORRECT_FORMAT
  | c :: rest =>
      let yearneg := c =? chr "-" in
      let buf := if yearneg then rest else buf in
      match buf with
      | [] => inl DATE_INCORRECT_FORMAT
      | c :: _ => if negb (CharacterIsDigit c) then convert_special yearneg buf else convert_fields strict yearneg buf
      end
  end.

(** [Date::FromCString]; what remains of the text is ignored, and an error is thrown. *)
Definition Date_FromCString (strict : bool) (buf : bytes) : DateCastError + Z :=
  match TryConvertDate strict buf with inr (result, _, _) => inr result | inl err => inl err end.

(** ** Printing *)

(** [DateToStringCast::YearLength]: the length of the text, the year to print, its
    digits, and whether it is before Christ. *)
Definition YearLength (year : Z) : Z * Z * Z * bool :=
  let add_bc := year <=? 0 in
  let length := if add_bc then 6 + 5 else 6 in
  let year := if add_bc then - year + 1 else year in
  let year_length := 4 + Z.b2z (10000 <=? year) + Z.b2z (100000 <=? year) + Z.b2z (1000000 <=? year) + Z.b2z (10000000 <=? year) in
  (length + year_length, year, year_length, add_bc).

Definition two_digits (number : Z) : option bytes :=
  if number <? 10 then Some [chr "0"; u8 (chr "0" + number)] else put_pair (number * 2) [].

Definition FormatComponent (number : Z) : option bytes := ds ← two_digits number; Some (chr "-" :: ds).

(** The year from the end of its digits, padded with zeros. *)
Definition format_year (year year_length : Z) : option bytes :=
  s ← FormatUnsigned year [];
  fill year_length (replicate (Z.to_nat (year_length - zlen s)) (chr "0") ++ s).

Definition Date_Format (year month day year_length : Z) (add_bc : bool) : option bytes :=
  y ← format_year year year_length;
  m ← FormatComponent month;
  d ← FormatComponent day;
  Some (y ++ m ++ d ++ if add_bc then B" (BC)" else []).

(** [Date::ToString] *)
Definition Date_ToString (date : Z) : option bytes :=
  if date =? date_infinity then Some PINF.1
  else if date =? date_ninfinity then Some NINF.1
  else
    '(year, month, day) ← Date_Convert date;
    let '(length, year, year_length, add_bc) := YearLength year in
    s ← Date_Format year month day year_length add_bc;
    fill length s.

Example date_text : Date_ToString 19782 = Some (B"2024-02-29").
Proof. vm_compute. reflexivity. Qed.
Example date_text_bc : Date_ToString (-735233) = Some (B"0044-01-01 (BC)").
Proof. vm_compute. reflexivity. Qed.
Example date_text_read : TryConvertDate true (B"  2024-2-29 ") = inr (19782, false, []).
Proof. vm_compute. reflexivity. Qed.
Example date_abbreviated : TryConvertDate false (B"-INF") = inr (date_ninfinity, true, []).
Proof. vm_compute. reflexivity. Qed.
Example date_negative_epoch : TryConvertDate false (B"-epoch") = inr (0, true, []).
Proof. vm_compute. reflexivity. Qed.
Example date_no_day : TryConvertDate false (B"2023-02-29") = inl DATE_RANGE.
Proof. vm_compute. reflexivity. Qed.

(** ** Characters and digits *)
Lemma CharacterIsDigit_spec c : CharacterIsDigit c = true <-> is_digit c.
Proof. unfold CharacterIsDigit, is_digit. change (chr "0") with 48. change (chr "9") with 57. rewrite andb_true_iff, !Z.leb_le. done. Qed.

Lemma digit_plain c : is_digit c -> CharacterIsDigit c = true /\ CharacterIsSpace c = false /\ (c =? chr "-") = false.
Proof.
  intros Hc. split; [by apply CharacterIsDigit_spec|]. unfold is_digit in Hc. unfold CharacterIsSpace. change (chr " ") with 32. change (chr "-") with 45.
  rewrite !orb_false_iff, !Z.eqb_neq. lia.
Qed.

(** What may stand behind a number: the end of the text, or no digit. *)
Definition no_digit_first (s : bytes) : Prop := forall c s', s = c :: s' -> CharacterIsDigit c = false.

Lemma parse_year_digits ds rest : Forall is_digit ds -> no_digit_first rest -> forall year n, 0 <= year -> year * 10 ^ zlen ds + digits_value ds < 10 ^ 9 ->
  parse_year (ds ++ rest) year n = Some (year * 10 ^ zlen ds + digits_value ds, n + zlen ds, rest).
Proof.
  intros Hd Hr. induction Hd as [|c ds Hc Hds IH]; intros year n Hy Hlt.
  - change (zlen (@nil Z)) with 0. change (digits_value []) with 0. cbn [app]. rewrite Z.mul_1_r, !Z.add_0_r.
    destruct rest as [|c rest]; [done|]. cbn [parse_year]. by rewrite (Hr c rest).
  - cbn [app parse_year]. rewrite (proj1 (digit_plain c Hc)). rewrite digits_value_cons, zlen_cons in *. pose proof (zlen_nonneg ds).
    pose proof (digits_value_range ds Hds) as R. rewrite Z.pow_add_r in * by lia. change (10 ^ 1) with 10 in *. unfold is_digit in Hc. change (chr "0") with 48.
    assert (1 <= 10 ^ zlen ds) by lia. rewrite (proj2 (Z.leb_gt 100000000 year)) by nia. rewrite IH by nia. do 2 f_equal. apply (f_equal2 pair); lia.
Qed.

Lemma two_digits_spec n : 0 <= n < 100 -> two_digits n = Some [48 + n / 10; 48 + n mod 10].
Proof.
  intros Hn. unfold two_digits. destruct (Z.ltb_spec n 10); [|by apply put_pair_spec]. change (chr "0") with 48. wrap_small.
  rewrite Z.div_small, Z.mod_small by lia. done.
Qed.

Lemma ParseDoubleDigit_two n rest : 0 <= n < 100 -> ParseDoubleDigit (48 + n / 10 :: 48 + n mod 10 :: rest) = Some (n, rest).
Proof.
  intros Hn. assert (is_digit (48 + n / 10) /\ is_digit (48 + n mod 10)) as [H1 H2] by (unfold is_digit; dlia). cbn [ParseDoubleDigit].
  rewrite (proj1 (digit_plain _ H1)), (proj1 (digit_plain _ H2)). change (chr "0") with 48. do 2 f_equal. dlia.
Qed.

Lemma YearLength_digits year : - 10 ^ 8 + 1 < year < 10 ^ 8 ->
  exists len year' n bc, YearLength year = (len, year', n, bc) /\ len = n + 6 + (if bc then 5 else 0) /\ 4 <= n
    /\ 0 < year' < 10 ^ 8 /\ year' < 10 ^ n /\ year = (if bc then - year' + 1 else year').
Proof.
  intros Hy. unfold YearLength. destruct (Z.leb_spec year 0); eexists _, _, _, _; (split; [reflexivity|]);
    (split; [lia|]); length_cases.
Qed.

Lemma format_year_digits year n : 0 < year < 10 ^ 8 -> 4 <= n -> year < 10 ^ n ->
  exists ds, format_year year n = Some ds /\ Forall is_digit ds /\ digits_value ds = year /\ zlen ds = n.
Proof.
  intros Hy Hn Hlt. unfold format_year. destruct (FormatUnsigned_prints year [] ltac:(lia)) as (s & E & P). rewrite app_nil_r in E. rewrite E.
  cbn [mbind option_bind]. destruct (padded_fraction year n s P ltac:(lia) Hlt) as (F1 & F2 & F3). change (chr "0") with 48.
  exists (replicate (Z.to_nat (n - zlen s)) 48 ++ s). split; [|done]. unfold fill. by rewrite F2, Z.eqb_refl.
Qed.

(** ** A date that is printed is read back *)

(** What may stand behind a date. *)
Definition date_ends (strict : bool) (rest : bytes) : Prop := no_digit_first rest /\ parse_bc rest = None /\ (strict = true -> rest = []).

Lemma date_ends_nil strict : date_ends strict [].
Proof. by split. Qed.

Lemma date_end_ok_ends strict rest : date_ends strict rest -> date_end_ok strict rest = Some rest.
Proof.
  intros (Hd & _ & Hs). unfold date_end_ok. destruct strict; [by rewrite (Hs eq_refl)|]. destruct rest as [|c rest]; [done|]. by rewrite (Hd c rest).
Qed.

Definition bc_text (bc : bool) : bytes := if bc then B" (BC)" else [].

(** The text of a year, a month and a day. *)
Definition fields_text (ds : bytes) (m d : Z) (bc : bool) : bytes :=
  ds ++ [45; 48 + m / 10; 48 + m mod 10] ++ [45; 48 + d / 10; 48 + d mod 10] ++ bc_text bc.

Lemma parse_bc_text (bc : bool) year' rest strict : 0 < year' -> date_ends strict rest ->
  match parse_bc (bc_text bc ++ rest) with
  | Some buf => if year' =? 0 then None else Some (- year' + 1, buf)
  | None => Some (year', bc_text bc ++ rest)
  end = Some (if bc then - year' + 1 else year', rest).
Proof.
  intros Hy (_ & Hbc & _). destruct bc; cbn [bc_text app].
  - change (parse_bc (B" (BC)" ++ rest)) with (Some rest). by rewrite (proj2 (Z.eqb_neq year' 0)) by lia.
  - by rewrite Hbc.
Qed.

Lemma convert_fields_text strict ds m d (bc : bool) rest n : Forall is_digit ds -> 4 <= zlen ds -> 0 < digits_value ds < 10 ^ 8 ->
  0 <= m < 100 -> 0 <= d < 100 -> date_ends strict rest -> TryFromDate (if bc then - digits_value ds + 1 else digits_value ds) m d = Some n ->
  convert_fields strict false (fields_text ds m d bc ++ rest) = inr (n, false, rest).
Proof.
  intros Hd Hl Hy Hm Hdd He Hn. unfold convert_fields, fields_text. rewrite <- !app_assoc.
  rewrite parse_year_digits; [|done|by intros c s [= <- _]|lia|lia]. rewrite Z.mul_0_l, !Z.add_0_l.
  rewrite (proj2 (Z.ltb_ge (zlen ds) 2)) by lia. cbn [app andb]. change (negb (45 =? chr " ") && negb (45 =? chr "-") && negb (45 =? chr "/") && negb (45 =? chr "\")) with false.
  cbv iota. rewrite ParseDoubleDigit_two by done. cbn [or_format]. rewrite Z.eqb_refl. cbn [negb]. rewrite ParseDoubleDigit_two by done. cbn [or_format orb].
  rewrite (parse_bc_text bc _ rest strict) by (done || lia). cbn [or_format]. rewrite (date_end_ok_ends strict rest He). cbn [or_format]. by rewrite Hn.
Qed.

(** A text that starts with a digit is read as fields. *)
Lemma TryConvertDate_digit strict c s : is_digit c -> TryConvertDate strict (c :: s) = convert_fields strict false (c :: s).
Proof.
  intros Hc. destruct (digit_plain c Hc) as (H1 & H2 & H3). unfold TryConvertDate. cbn [drop_while]. rewrite H2. cbv zeta. by rewrite H3, H1.
Qed.

Lemma TryConvertDate_text strict ds m d (bc : bool) rest n : Forall is_digit ds -> 4 <= zlen ds -> 0 < digits_value ds < 10 ^ 8 ->
  0 <= m < 100 -> 0 <= d < 100 -> date_ends strict rest -> TryFromDate (if bc then - digits_value ds + 1 else digits_value ds) m d = Some n ->
  TryConvertDate strict (fields_text ds m d bc ++ rest) = inr (n, false, rest).
Proof.
  intros Hd Hl ? ? ? ? ?. rewrite <- (convert_fields_text strict ds m d bc rest n) by done. destruct ds as [|c ds]; [by rewrite zlen_nil in Hl|].
  apply TryConvertDate_digit. by inversion Hd.
Qed.

(** What is printed for a day of the calendar. *)
Lemma Date_ToString_text n : first_day <= n <= last_day -> exists y m d ds (bc : bool), TryFromDate y m d = Some n /\ 0 <= m < 100 /\ 0 <= d < 100
  /\ Forall is_digit ds /\ 4 <= zlen ds /\ 0 < digits_value ds < 10 ^ 8 /\ y = (if bc then - digits_value ds + 1 else digits_value ds)
  /\ Date_ToString n = Some (fields_text ds m d bc).
Proof.
  intros Hn. destruct (day_fields_valid n Hn) as (y & m & d & Ec & Hv & Ef). exists y, m, d.
  assert (in_s 32 n) as Hs by (unfold first_day, last_day, in_s in *; lia). destruct (Date_Convert_total n Hs) as (y0 & m0 & d0 & E0 & Hm & Hd).
  rewrite Ec in E0. injection E0 as <- <- <-.
  assert (- 10 ^ 8 + 1 < y < 10 ^ 8) as Hy.
  { destruct (valid_year y m d Hv) as [H1 H2]. unfold DATE_MIN_YEAR, DATE_MAX_YEAR in *. lia. }
  destruct (YearLength_digits y Hy) as (len & y' & k & bc & EL & Hlen & Hk & Hy' & Hlt & Ey).
  destruct (format_year_digits y' k Hy' Hk Hlt) as (ds & Eds & F1 & F2 & F3). exists ds, bc. subst y' k. repeat (split; [done || lia|]).
  unfold Date_ToString. unfold first_day, last_day, date_infinity, date_ninfinity in *.
  rewrite !(proj2 (Z.eqb_neq _ _)) by lia. rewrite Ec. cbn [mbind option_bind]. rewrite EL. unfold Date_Format. rewrite Eds. cbn [mbind option_bind].
  unfold FormatComponent. rewrite !two_digits_spec by lia. cbn [mbind option_bind]. unfold fill.
  assert (zlen (fields_text ds m d bc) = len) as Hz.
  { unfold fields_text. rewrite !zlen_app. rewrite Hlen. destruct bc; change (zlen (bc_text true)) with 5 || change (zlen (bc_text false)) with 0;
      rewrite !zlen_cons, zlen_nil; lia. }
  change (ds ++ (chr "-" :: [48 + m / 10; 48 + m mod 10]) ++ (chr "-" :: [48 + d / 10; 48 + d mod 10]) ++ (if bc then B" (BC)" else [])) with (fields_text ds m d bc).
  by rewrite Hz, Z.eqb_refl.
Qed.

Lemma date_printed n : first_day <= n <= last_day -> exists s, Date_ToString n = Some s /\ forall strict, TryConvertDate strict s = inr (n, false, []).
Proof.
  intros Hn. destruct (Date_ToString_text n Hn) as (y & m & d & ds & bc & Ef & Hm & Hd & H1 & H2 & H3 & -> & E). exists (fields_text ds m d bc). split; [done|].
  intros strict. pose proof (TryConvertDate_text strict ds m d bc [] n H1 H2 H3 Hm Hd (date_ends_nil strict) Ef) as T. by rewrite app_nil_r in T.
Qed.

(** Every date of the engine survives its text: what the engine prints for a day of the
    calendar, years before Christ and of more than four digits included, or for an
    infinity, it reads back as the same date, to the end of the text, whether it reads
    strictly or not; and an infinity is reported as special and no other date is. *)
Theorem date_text_roundtrip strict n : first_day <= n <= last_day \/ n = date_infinity \/ n = date_ninfinity ->
  exists s, Date_ToString n = Some s /\ Date_FromCString strict s = inr n
    /\ TryConvertDate strict s = inr (n, bool_decide (n = date_infinity \/ n = date_ninfinity), []).
Proof.
  intros [Hn|[->| ->]].
  - destruct (date_printed n Hn) as (s & E & T). exists s. split; [done|]. unfold Date_FromCString. rewrite T. split; [done|]. do 3 f_equal. symmetry.
    apply bool_decide_eq_false_2. unfold first_day, last_day, date_infinity, date_ninfinity in *. lia.
  - exists PINF.1. by destruct strict.
  - exists NINF.1. by destruct strict.
Qed.

Lemma date_text_roundtrip_witness :
  exists s, Date_ToString (-735233) = Some s /\ Date_FromCString true s = inr (-735233) /\ TryConvertDate true s = inr (-735233, false, []).
Proof. apply (date_text_roundtrip true (-735233)). left. unfold first_day, last_day. lia. Defined.
