(* ===== verification/TimeText.v ===== *)
(** * Times and timestamps as text
    ([duckdb/src/common/types/time.cpp], [timestamp.cpp], [TimeToStringCast] of
    [cast_helpers.hpp])

    As in [DateText], a position in the text is what is left of it. The outer [None] of a
    reader is a read past the end of the text; the inner one, or an error, is a text that
    is refused. The pointer to the nanoseconds, which may be null, is an [option Z] with
    the number it points to. *)

From S2P Require Import Prelude Digits Interval Calendar DateText.

(** ** Times of day *)

(** Hours have at most nine digits, for the sake of intervals. *)
Fixpoint parse_hour (buf : bytes) (digits hour : Z) : option (Z * bytes) :=
  match buf with
  | c :: buf' =>
      if CharacterIsDigit c then if 0 <? digits then parse_hour buf' (digits - 1) (hour * 10 + (c - chr "0")) else None
      else Some (hour, buf)
  | [] => Some (hour, buf)
  end.

Fixpoint parse_micros (buf : bytes) (micros mult : Z) : Z * bytes :=
  match buf with
  | c :: buf' =>
      if CharacterIsDigit c then parse_micros buf' (if 0 <? mult then micros + (c - chr "0") * mult else micros) (Z.quot mult 10)
      else (micros, buf)
  | [] => (micros, buf)
  end.

(** A number of at most two digits below 60. *)
Definition parse_sixty (buf : bytes) : option (Z * bytes) :=
  '(n, buf) ← ParseDoubleDigit buf; if (n <? 0) || (60 <=? n) then None else Some (n, buf).

(** The minutes; [buf] is the text behind the separator. *)
Definition parse_minute (strict : bool) (buf : bytes) : option (Z * bytes) :=
  if bool_decide (buf = []) && negb strict then Some (0, buf) else parse_sixty buf.

(** The seconds: [buf] is what is left, [sep_pos] the text behind the first separator. *)
Definition parse_second (strict : bool) (sep_pos buf : bytes) : option (option (Z * bytes)) :=
  if bool_decide (buf = []) && (negb strict || (zlen sep_pos - zlen buf =? 2)) then Some (Some (0, buf))
  else match buf with
  | [] => None
  | c :: buf =>
      if negb (c =? chr ":") then Some None
      else if bool_decide (buf = []) && negb strict then Some (Some (0, buf)) else Some (parse_sixty buf)
  end.

(** The fraction, with the nanoseconds that are left. *)
Definition parse_fraction (nanos : option Z) (buf : bytes) : Z * option Z * bytes :=
  match buf with
  | c :: buf' =>
      if c =? chr "." then
        let mult := match nanos with Some _ => 100000 * NANOS_PER_MICRO | None => 100000 end in
        let '(micros, buf) := parse_micros buf' 0 mult in
        match nanos with
        | Some _ => (Z.quot micros NANOS_PER_MICRO, Some (Z.rem micros NANOS_PER_MICRO), buf)
        | None => (micros, None, buf)
        end
      else (0, nanos, buf)
  | [] => (0, nanos, buf)
  end.

Definition time_end (strict : bool) (buf : bytes) : option bytes :=
  if strict then let buf := drop_while CharacterIsSpace buf in if bool_decide (buf = []) then Some buf else None
  else Some buf.

Definition TryConvertInternal (strict : bool) (nanos : option Z) (buf : bytes) : option (option (Z * option Z * bytes)) :=
  let buf := drop_while CharacterIsSpace buf in
  match buf with
  | [] => Some None
  | c :: _ =>
      if negb (CharacterIsDigit c) then Some None
      else match parse_hour buf 9 0 with
      | None => Some None
      | Some (_, []) => Some None
      | Some (hour, sep :: buf) =>
          if negb (sep =? chr ":") then Some None
          else match parse_minute strict buf with
          | None => Some None
          | Some (min, rest) =>
              r ← parse_second strict buf rest;
              match r with
              | None => Some None
              | Some (sec, buf) =>
                  let '(micros, nanos, buf) := parse_fraction nanos buf in
                  match time_end strict buf with
                  | None => Some None
                  | Some buf => Some (Some (FromTime hour min sec micros, nanos, buf))
                  end
              end
          end
      end
  end.

Definition TryConvertInterval := TryConvertInternal.

(** ** Timestamps *)
Inductive TimestampCastError := TS_INCORRECT_FORMAT | TS_NON_UTC_TIMEZONE | TS_RANGE | TS_STRICT_UTC.

Definition CharacterIsAlpha (c : Z) : bool := ((chr "A" <=? c) && (c <=? chr "Z")) || ((chr "a" <=? c) && (c <=? chr "z")).
Definition CharacterIsTimeZone (c : Z) : bool :=
  CharacterIsAlpha c || CharacterIsDigit c || (c =? chr "_") || (c =? chr "/") || (c =? chr "+") || (c =? chr "-") || (c =? chr ":").

(** Two digits, as the parts of an offset have them. *)
Definition two_digit_number (buf : bytes) : option (Z * bytes) :=
  match buf with
  | a :: b :: buf => if CharacterIsDigit a && CharacterIsDigit b then Some ((a - chr "0") * 10 + (b - chr "0"), buf) else None
  | _ => None
  end.

(** [Timestamp::TryParseUTCOffset]: hours, minutes, seconds, and what is left. *)
Definition TryParseUTCOffset (str : bytes) : option (Z * Z * Z * bytes) :=
  match str with
  | [] => None
  | sign_char :: str =>
      if negb (sign_char =? chr "+") && negb (sign_char =? chr "-") then None
      else
        let signed z := if sign_char =? chr "-" then - z else z in
        '(hh, str) ← two_digit_number str;
        match str with
        | [] => Some (signed hh, 0, 0, str)
        | c :: str' =>
            let colons_used := c =? chr ":" in
            let str := if colons_used then str' else str in
            match two_digit_number str with
            | None => Some (signed hh, 0, 0, str)
            | Some (mm, str) =>
                match str with
                | [] => Some (signed hh, signed mm, 0, str)
                | c :: str' =>
                    if negb colons_used || negb (c =? chr ":") then Some (signed hh, signed mm, 0, str)
                    else match two_digit_number str' with
                    | None => Some (signed hh, signed mm, 0, str)
                    | Some (ss, str) => Some (signed hh, signed mm, signed ss, str)
                    end
                end
            end
        end
  end.

(** What reading a timestamp gives: the timestamp, whether there was an offset, the time
    zone, and the nanoseconds. *)
Record timestamp_text := MkTimestampText { tt_value : Z; tt_has_offset : bool; tt_tz : bytes; tt_nanos : option Z }.

Fixpoint take_while (p : Z -> bool) (s : bytes) : bytes :=
  match s with c :: s' => if p c then c :: take_while p s' else [] | [] => [] end.

(** The suffix of a timestamp; [None] in the sum is a subtraction out of range. *)
Definition convert_suffix (use_offset special : bool) (result : Z) (nanos : option Z) (str : bytes) : TimestampCastError + timestamp_text :=
  let finish t str := match drop_while CharacterIsSpace str with [] => inr t | _ => inl TS_INCORRECT_FORMAT end in
  match str with
  | [] => inr (MkTimestampText result special [] nanos)
  | c :: rest =>
      if c =? chr "Z" then finish (MkTimestampText result true [] nanos) rest
      else match TryParseUTCOffset str with
      | Some (hh, mm, ss, str) =>
          let delta := hh * MICROS_PER_HOUR + mm * MICROS_PER_MINUTE + ss * MICROS_PER_SEC in
          if use_offset then
            match try_s64 (result - delta) with
            | Some result => finish (MkTimestampText result true [] nanos) str
            | None => inl TS_RANGE
            end
          else finish (MkTimestampText result true [] nanos) str
      | None =>
          if negb (c =? chr " ") then inl TS_NON_UTC_TIMEZONE
          else finish (MkTimestampText result special (take_while CharacterIsTimeZone rest) nanos) (drop_while CharacterIsTimeZone rest)
      end
  end.

Definition TryConvertTimestampTZ (use_offset : bool) (nanos : option Z) (str : bytes) : option (TimestampCastError + timestamp_text) :=
  match TryConvertDate false str with
  | inl DATE_INCORRECT_FORMAT => Some (inl TS_INCORRECT_FORMAT)
  | inl DATE_RANGE => Some (inl TS_RANGE)
  | inr (date, special, []) =>
      let whole v := Some (inr (MkTimestampText v special [] nanos)) in
      if date =? date_infinity then whole timestamp_infinity
      else if date =? date_ninfinity then whole timestamp_ninfinity
      else match TryFromDatetime date 0 with Some v => whole v | None => Some (inl TS_RANGE) end
  | inr (date, special, (c :: str') as str) =>
      let str := if (c =? chr " ") || (c =? chr "T") then str' else str in
      r ← TryConvertInterval false nanos str;
      Some match r with
      | None => inl TS_INCORRECT_FORMAT
      | Some (time, nanos, str) =>
          if MICROS_PER_DAY <? time then inl TS_RANGE
          else match TryFromDatetime date time with
          | None => inl TS_RANGE
          | Some result => convert_suffix use_offset special result nanos str
          end
      end
  end.

Definition is_utc (tz : bytes) : bool :=
  match tz with
  | [u; t; c] => ((u =? chr "u") || (u =? chr "U")) && ((t =? chr "t") || (t =? chr "T")) && ((c =? chr "c") || (c =? chr "C"))
  | _ => false
  end.

Definition TryConvertTimestamp (use_offset : bool) (nanos : option Z) (strict : bool) (str : bytes) : option (TimestampCastError + timestamp_text) :=
  r ← TryConvertTimestampTZ use_offset nanos str;
  Some match r with
  | inl err => inl err
  | inr t =>
      if bool_decide (tt_tz t = []) || is_utc (tt_tz t) then if strict && tt_has_offset t then inl TS_STRICT_UTC else inr t
      else inl TS_NON_UTC_TIMEZONE
  end.

(** [Timestamp::TryFromTimestampNanos]; timestamps of nanoseconds are as many bits. *)
Definition TryFromTimestampNanos (input nanos : Z) : option Z :=
  if negb (IsFinite input) then Some input
  else
    result ← try_s64 (input * NANOS_PER_MICRO);
    result ← try_s64 (result + nanos);
    if IsFinite result then Some result else None.

Definition TryConvertTimestampNs (str : bytes) : option (TimestampCastError + Z) :=
  r ← TryConvertTimestamp true (Some 0) false str;
  Some match r with
  | inl err => inl err
  | inr t =>
      match TryFromTimestampNanos (tt_value t) (default 0 (tt_nanos t)) with
      | Some result => inr result
      | None => inl TS_INCORRECT_FORMAT
      end
  end.

Definition Timestamp_FromCString (use_offset : bool) (str : bytes) : option (TimestampCastError + Z) :=
  r ← TryConvertTimestamp use_offset None false str;
  Some match r with inr t => inr (tt_value t) | inl err => inl err end.

(** [Time::TryConvertTime]: the time, or that of a timestamp. *)
Definition TryConvertTime (strict : bool) (nanos : option Z) (buf : bytes) : option (option (Z * option Z)) :=
  r ← TryConvertInternal strict nanos buf;
  match r with
  | Some (result, nanos, _) => Some (if result <=? MICROS_PER_DAY then Some (result, nanos) else None)
  | None =>
      if strict then Some None
      else
        r ← TryConvertTimestamp false nanos false buf;
        match r with
        | inl _ => Some None
        | inr t => if negb (IsFinite (tt_value t)) then Some None else result ← GetTime (tt_value t); Some (Some (result, tt_nanos t))
        end
  end.

(** ** Times with an offset ([datetime.hpp]) *)
Definition MAX_OFFSET : Z := 16 * 60 * 60 - 1.
Definition MIN_OFFSET : Z := - MAX_OFFSET.
Definition OFFSET_BITS : Z := 24.
Definition OFFSET_MASK : Z := Z.shiftr (2 ^ 64 - 1) 40.

Definition encode_offset (offset : Z) : Z := u64 (MAX_OFFSET - offset).
Definition decode_offset (bits : Z) : Z := s32 (MAX_OFFSET - s32 (Z.land bits OFFSET_MASK)).
Definition encode_micros (micros : Z) : Z := u64 (Z.shiftl (u64 micros) OFFSET_BITS).
Definition decode_micros (bits : Z) : Z := s64 (Z.shiftr bits OFFSET_BITS).
Definition dtime_tz (t offset : Z) : Z := Z.lor (encode_micros t) (encode_offset offset).

(** The offset behind a time, and whether there is one. *)
Definition convert_offset (strict : bool) (time_part : Z) (buf : bytes) : option (Z * bool) :=
  if MICROS_PER_DAY <? time_part then None
  else
    let buf := drop_while CharacterIsSpace buf in
    let has_offset := negb (bool_decide (buf = [])) in
    '(hh, mm, ss, buf) ← (if has_offset then TryParseUTCOffset buf else Some (0, 0, 0, buf));
    let offset := (hh * MINS_PER_HOUR + mm) * SECS_PER_MINUTE + ss in
    if (offset <? MIN_OFFSET) || (MAX_OFFSET <? offset) then None
    else _ ← time_end strict buf; Some (dtime_tz time_part offset, has_offset).

(** [Time::TryConvertTimeTZ] *)
Definition TryConvertTimeTZ (strict : bool) (nanos : option Z) (buf : bytes) : option (option (Z * bool)) :=
  r ← TryConvertInternal false nanos buf;
  match r with
  | Some (time_part, _, rest) => Some (convert_offset strict time_part rest)
  | None =>
      if strict then Some None
      else
        r ← TryConvertTimestamp true nanos false buf;
        match r with
        | inl _ => Some None
        | inr t => if negb (IsFinite (tt_value t)) then Some None else result ← GetTime (tt_value t); Some (Some (dtime_tz result 0, false))
        end
  end.

(** ** Printing *)

(** The loop of [FormatMicros] over the trailing zeros, from the last of six digits to the
    second. *)
Fixpoint count_zeros (s : bytes) : Z := match s with c :: s' => if c =? chr "0" then 1 + count_zeros s' else 0 | [] => 0 end.

Definition FormatMicros (microseconds : Z) : option (bytes * Z) :=
  s ← FormatUnsigned microseconds [];
  micro_buffer ← fill 6 (replicate (Z.to_nat (6 - zlen s)) (chr "0") ++ s);
  Some (micro_buffer, count_zeros (take 5 (reverse micro_buffer))).

(** [MicrosLength], with the buffer it writes. *)
Definition MicrosLength (micros : Z) : option (Z * bytes) :=
  if micros =? 0 then Some (8, [])
  else '(micro_buffer, trailing_zeros) ← FormatMicros micros; Some (15 - trailing_zeros, micro_buffer).

Definition Time_Format (length hour minute second : Z) (micro_buffer : bytes) : option bytes :=
  h ← two_digits hour;
  m ← two_digits minute;
  s ← two_digits second;
  Some (h ++ chr ":" :: m ++ chr ":" :: s ++ if 8 <? length then chr "." :: ztake (length - 9) micro_buffer else []).

(** [Time::ToString] *)
Definition Time_ToString (time : Z) : option bytes :=
  let '(hour, minute, second, micros) := Time_Convert time in
  '(length, micro_buffer) ← MicrosLength micros;
  s ← Time_Format length hour minute second micro_buffer;
  fill length s.

(** [Time::ToUTCOffset] *)
Definition ToUTCOffset (hour_offset minute_offset : Z) : option bytes :=
  let micros := (hour_offset * MINS_PER_HOUR + minute_offset) * MICROS_PER_MINUTE in
  let '(hour, minute, _, _) := Time_Convert (Z.abs micros) in
  h ← two_digits hour;
  m ← (if minute =? 0 then Some [] else m ← two_digits minute; Some (chr ":" :: m));
  Some ((if micros <? 0 then chr "-" else chr "+") :: h ++ m).

(** [Timestamp::Convert]; a day out of range throws. *)
Definition Timestamp_Convert (timestamp : Z) : option (Z * Z) :=
  let out_date := GetDate timestamp in
  days_micros ← try_s64 (out_date * MICROS_PER_DAY);
  Some (out_date, s64 (timestamp - days_micros)).

(** [Timestamp::ToString] *)
Definition Timestamp_ToString (timestamp : Z) : option bytes :=
  if timestamp =? timestamp_infinity then Some PINF.1
  else if timestamp =? timestamp_ninfinity then Some NINF.1
  else
    '(date, time) ← Timestamp_Convert timestamp;
    d ← Date_ToString date;
    t ← Time_ToString time;
    Some (d ++ chr " " :: t).

Example time_text : Time_ToString 45296000100 = Some (B"12:34:56.0001").
Proof. vm_compute. reflexivity. Qed.
Example time_read : TryConvertTime true None (B" 12:34:56.0001 ") = Some (Some (45296000100, None)).
Proof. vm_compute. reflexivity. Qed.
Example time_no_seconds : TryConvertTime true None (B"12:34") = Some (Some (45240000000, None)).
Proof. vm_compute. reflexivity. Qed.
Example time_past_the_end : TryConvertTime true None (B"12:3") = None.
Proof. vm_compute. reflexivity. Qed.
Example timestamp_text_bc : Timestamp_ToString (- 10 ^ 17) = Some (B"1200-02-15 (BC) 14:13:20").
Proof. vm_compute. reflexivity. Qed.
Example timestamp_offset : TryConvertTimestamp true None false (B"2024-02-29T12:00:00+05:30")
  = Some (inr (MkTimestampText (19782 * MICROS_PER_DAY + 6 * MICROS_PER_HOUR + 30 * MICROS_PER_MINUTE) true [] None)).
Proof. vm_compute. reflexivity. Qed.
Example timestamp_zone : TryConvertTimestamp true None false (B"2024-02-29 12:00:00 Europe/Berlin") = Some (inl TS_NON_UTC_TIMEZONE).
Proof. vm_compute. reflexivity. Qed.
Example timetz_read : option_map (option_map (fun r => (decode_micros r.1, decode_offset r.1, r.2))) (TryConvertTimeTZ true None (B"12:00:00-08"))
  = Some (Some (43200000000, -28800, true)).
Proof. vm_compute. reflexivity. Qed.

(** ** Where a text is read past its end *)
Lemma parse_hour_digits ds : Forall is_digit ds -> forall rest n hour, no_digit_first rest -> zlen ds <= n ->
  parse_hour (ds ++ rest) n hour = Some (hour * 10 ^ zlen ds + digits_value ds, rest).
Proof.
  induction 1 as [|c ds Hc Hds IH]; intros rest n hour Hr Hn.
  - change (zlen (@nil Z)) with 0. change (digits_value []) with 0. cbn [app]. rewrite Z.mul_1_r, Z.add_0_r.
    destruct rest as [|c rest]; [done|]. cbn [parse_hour]. by rewrite (Hr c rest).
  - cbn [app parse_hour]. rewrite (proj1 (digit_plain c Hc)). rewrite digits_value_cons, zlen_cons in *. pose proof (zlen_nonneg ds).
    rewrite (proj2 (Z.ltb_lt 0 n)), IH by (done || lia). rewrite Z.pow_add_r by lia. change (chr "0") with 48. do 2 f_equal. lia.
Qed.

Lemma parse_hour_long ds : Forall is_digit ds -> forall rest n hour, 0 <= n < zlen ds -> parse_hour (ds ++ rest) n hour = None.
Proof.
  induction 1 as [|c ds Hc Hds IH]; intros rest n hour Hn; [unfold zlen in Hn; cbn in Hn; lia|]. cbn [app parse_hour]. rewrite (proj1 (digit_plain c Hc)). rewrite zlen_cons in Hn.
  destruct (Z.ltb_spec 0 n); [apply IH; lia|done].
Qed.

Lemma parse_hour_inv buf : forall n hour hour' rest, parse_hour buf n hour = Some (hour', rest) ->
  exists ds, buf = ds ++ rest /\ Forall is_digit ds /\ zlen ds <= Z.max 0 n /\ no_digit_first rest.
Proof.
  induction buf as [|c buf IH]; intros n hour hour' rest; cbn [parse_hour].
  - intros [= _ <-]. exists []. rewrite zlen_nil. split; [done|]. split; [constructor|]. split; [lia|]. intros ? ? [=].
  - destruct (CharacterIsDigit c) eqn:Ec.
    + destruct (Z.ltb_spec 0 n); [|done]. intros (ds & -> & Hd & Hl & Hr)%IH. exists (c :: ds). rewrite zlen_cons. split; [done|].
      split; [constructor; [by apply CharacterIsDigit_spec|done]|]. split; [lia|done].
    + intros [= _ <-]. exists []. rewrite zlen_nil. split; [done|]. split; [constructor|]. split; [lia|]. by intros ? ? [= <- _].
Qed.

Lemma parse_second_defined sep_pos buf : is_Some (parse_second false sep_pos buf).
Proof. unfold parse_second. destruct buf as [|c buf]; [by eexists|]. cbn. case_match; [by eexists|]. case_match; by eexists. Qed.

(** Reading that is not strict stays within the text. *)
Lemma TryConvertInternal_defined nanos buf : is_Some (TryConvertInternal false nanos buf).
Proof.
  unfold TryConvertInternal. destruct (drop_while CharacterIsSpace buf) as [|c s]; [by eexists|]. case_match; [by eexists|].
  destruct (parse_hour (c :: s) 9 0) as [[hour [|sep rest]]|]; [by eexists| |by eexists]. case_match; [by eexists|].
  destruct (parse_minute false rest) as [[min r]|]; [|by eexists]. destruct (parse_second_defined rest r) as [x ->]. cbn [mbind option_bind].
  destruct x as [[sec r']|]; [|by eexists]. destruct (parse_fraction nanos r') as [[micros nanos'] r'']. cbn [time_end]. by eexists.
Qed.

Lemma TryConvertTimestampTZ_defined use_offset nanos str : is_Some (TryConvertTimestampTZ use_offset nanos str).
Proof.
  unfold TryConvertTimestampTZ. destruct (TryConvertDate false str) as [[]|[[date special] [|c s]]]; [by eexists|by eexists| |].
  - do 2 (case_match; [by eexists|]). case_match; by eexists.
  - unfold TryConvertInterval. match goal with |- context [TryConvertInternal false nanos ?b] => destruct (TryConvertInternal_defined nanos b) as [x ->] end.
    by eexists.
Qed.

Lemma TryConvertTimestamp_defined use_offset nanos strict str : is_Some (TryConvertTimestamp use_offset nanos strict str).
Proof. unfold TryConvertTimestamp. destruct (TryConvertTimestampTZ_defined use_offset nanos str) as [x ->]. by eexists. Qed.

Lemma GetTime_defined v : IsFinite v = true -> is_Some (GetTime v).
Proof. intros Hv. unfold GetTime. rewrite Hv. by eexists. Qed.

(** What is read as a time when a text is no time of day. *)
Lemma as_timestamp_defined {A} use_offset nanos buf (f : Z -> option Z -> A) :
  is_Some (r ← TryConvertTimestamp use_offset nanos false buf;
    match r with
    | inl _ => Some None
    | inr t => if negb (IsFinite (tt_value t)) then Some None else result ← GetTime (tt_value t); Some (Some (f result (tt_nanos t)))
    end).
Proof.
  destruct (TryConvertTimestamp_defined use_offset nanos false buf) as [[e|t] ->]; cbn [mbind option_bind]; [by eexists|].
  destruct (IsFinite (tt_value t)) eqn:Ef; [|by eexists]. cbn [negb]. destruct (GetTime_defined _ Ef) as [x ->]. by eexists.
Qed.

(** The one shape of text that is read past its end. *)
Definition one_digit_minute (buf : bytes) : Prop :=
  exists hs d, drop_while CharacterIsSpace buf = hs ++ [chr ":"; d] /\ Forall is_digit hs /\ 1 <= zlen hs <= 9 /\ is_digit d.

Lemma parse_second_None sep_pos buf : parse_second true sep_pos buf = None <-> buf = [] /\ zlen sep_pos <> 2.
Proof.
  unfold parse_second. destruct buf as [|c buf]; cbn [negb orb andb].
  - rewrite bool_decide_eq_true_2 by done. rewrite zlen_nil, Z.sub_0_r. cbn [andb]. destruct (Z.eqb_spec (zlen sep_pos) 2); split; try done. by intros [_ ?].
  - rewrite bool_decide_eq_false_2 by done. cbn [andb]. split; [|by intros [? _]]. repeat case_match; done.
Qed.

Lemma parse_minute_short buf : (exists min, parse_minute true buf = Some (min, [])) /\ zlen buf <> 2 <-> exists d, buf = [d] /\ is_digit d.
Proof.
  unfold parse_minute, parse_sixty. rewrite andb_false_r. split.
  - intros [[min E] Hl]. destruct buf as [|c [|d [|x buf]]]; [done| |done|].
    + exists c. split; [done|]. cbn [ParseDoubleDigit] in E. destruct (CharacterIsDigit c) eqn:Ec; [by apply CharacterIsDigit_spec|done].
    + cbn [ParseDoubleDigit] in E. destruct (CharacterIsDigit c); [|done]. destruct (CharacterIsDigit d); cbn [mbind option_bind] in E; by case_match.
  - intros (d & -> & Hd). split; [|done]. exists (d - chr "0"). cbn [ParseDoubleDigit]. rewrite (proj1 (digit_plain d Hd)). cbn [mbind option_bind].
    unfold is_digit in Hd. change (chr "0") with 48. rewrite (proj2 (Z.ltb_ge _ 0)), (proj2 (Z.leb_gt 60 _)) by lia. done.
Qed.

Lemma strict_past_the_end nanos buf : TryConvertInternal true nanos buf = None <-> one_digit_minute buf.
Proof.
  unfold TryConvertInternal, one_digit_minute. destruct (drop_while CharacterIsSpace buf) as [|c s] eqn:Eb.
  { split; [done|]. intros (hs & d & E & _). by destruct hs. }
  split.
  - case_match eqn:Ec; [done|]. destruct (parse_hour (c :: s) 9 0) as [[hour [|sep rest]]|] eqn:Eh; [done| |done].
    case_match eqn:Esep; [done|]. destruct (parse_minute true rest) as [[min r]|] eqn:Em; [|done].
    destruct (parse_second true rest r) as [x|] eqn:Es.
    { cbn [mbind option_bind]. destruct x as [[sec r']|]; [|done]. destruct (parse_fraction nanos r') as [[micros nanos'] r'']. by case_match. }
    intros _. apply parse_second_None in Es as [-> Hl]. destruct (proj1 (parse_minute_short rest)) as (d & -> & Hd); [by eauto|].
    apply parse_hour_inv in Eh as (hs & E & Hhs & Hlen & _). apply negb_false_iff, Z.eqb_eq in Esep as ->. exists hs, d. split; [done|]. split; [done|].
    split; [|done]. destruct hs as [|x hs]; [injection E as -> _; done|]. rewrite zlen_cons in *. pose proof (zlen_nonneg hs). lia.
  - intros (hs & d & E & Hhs & Hlen & Hd). destruct hs as [|x hs]; [rewrite zlen_nil in Hlen; lia|]. injection E as -> ->.
    inversion Hhs as [|? ? Hx Hhs']; subst. rewrite (proj1 (digit_plain x Hx)). cbn [negb].
    change (x :: hs ++ [chr ":"; d]) with ((x :: hs) ++ [chr ":"; d]). rewrite parse_hour_digits by (done || lia || by intros ? ? [= <- _]).
    cbv beta iota. rewrite Z.eqb_refl. cbn [negb]. destruct (proj2 (parse_minute_short [d])) as [[min ->] Hl]; [by eauto|].
    by rewrite (proj2 (parse_second_None [d] [])).
Qed.


(** ** A time that is printed is read back *)
Lemma parse_micros_digits ds : Forall is_digit ds -> forall rest micros k, no_digit_first rest -> zlen ds <= k + 1 -> 0 <= k ->
  parse_micros (ds ++ rest) micros (10 ^ k) = (micros + digits_value ds * 10 ^ (k + 1 - zlen ds), rest).
Proof.
  intros Hds. assert (forall rest micros mult, no_digit_first rest -> parse_micros rest micros mult = (micros, rest)) as Hend.
  { intros rest micros mult Hr. destruct rest as [|c rest]; [done|]. cbn [parse_micros]. by rewrite (Hr c rest). }
  induction Hds as [|c ds Hc Hds IH]; intros rest micros k Hr Hl Hk.
  - change (digits_value []) with 0. cbn [app]. rewrite Hend by done. f_equal. lia.
  - cbn [app parse_micros]. rewrite (proj1 (digit_plain c Hc)), (proj2 (Z.ltb_lt 0 (10 ^ k))) by lia. change (chr "0") with 48.
    rewrite digits_value_cons, zlen_cons in *. pose proof (zlen_nonneg ds). rewrite Z.quot_div_nonneg by lia. destruct (decide (k = 0)) as [->|].
    + assert (ds = []) as -> by (destruct ds; [done|]; rewrite zlen_cons in *; pose proof (zlen_nonneg ds); lia). cbn [app]. rewrite Hend by done.
      change (zlen (@nil Z)) with 0. change (digits_value []) with 0. f_equal. lia.
    + replace (10 ^ k / 10) with (10 ^ (k - 1)) by (replace k with (k - 1 + 1) at 2 by lia; rewrite Z.pow_add_r, Z.div_mul by lia; done).
      rewrite IH by (done || lia). f_equal. replace (k - 1 + 1 - zlen ds) with (k - zlen ds) by lia. replace (k + 1 - (1 + zlen ds)) with (k - zlen ds) by lia.
      rewrite Z.mul_add_distr_r, <- Z.mul_assoc, <- Z.pow_add_r by lia. replace (zlen ds + (k - zlen ds)) with k by lia. lia.
Qed.

Lemma count_zeros_split s : exists n t, s = replicate n 48 ++ t /\ count_zeros s = Z.of_nat n.
Proof.
  induction s as [|c s (n & t & E & H)]; [by exists 0%nat, []|]. cbn [count_zeros]. destruct (Z.eqb_spec c (chr "0")) as [->|].
  - exists (S n), t. cbn [replicate app]. rewrite H. split; [by rewrite <- E|lia].
  - exists 0%nat, (c :: s). done.
Qed.

Lemma digits_value_trailing s n : digits_value (s ++ replicate n 48) = digits_value s * 10 ^ Z.of_nat n.
Proof.
  rewrite digits_value_app. rewrite <- (app_nil_r (replicate n 48)), digits_value_replicate, app_nil_r. change (digits_value []) with 0.
  unfold zlen. rewrite length_replicate. lia.
Qed.

(** The digits of the fraction that are printed. *)
Lemma FormatMicros_digits us : 0 < us < 1000000 -> exists b n, FormatMicros us = Some (b, Z.of_nat n) /\ (n <= 5)%nat /\ zlen b = 6
  /\ Forall is_digit (ztake (6 - Z.of_nat n) b) /\ digits_value (ztake (6 - Z.of_nat n) b) * 10 ^ Z.of_nat n = us.
Proof.
  intros Hu. unfold FormatMicros. destruct (FormatUnsigned_prints us [] ltac:(lia)) as (s & E & P). rewrite app_nil_r in E. rewrite E. cbn [mbind option_bind].
  change (chr "0") with 48. destruct (padded_fraction us 6 s P ltac:(lia) ltac:(lia)) as (F1 & F2 & F3).
  set (b := replicate (Z.to_nat (6 - zlen s)) 48 ++ s) in *. unfold fill. rewrite F2, Z.eqb_refl. cbn [mbind option_bind].
  destruct (count_zeros_split (take 5 (reverse b))) as (n & t & Et & Hc). exists b, n. rewrite Hc. split; [done|].
  assert (length b = 6%nat) as Hlen by (unfold zlen in F2; lia).
  assert (n <= 5)%nat as Hn by (apply (f_equal length) in Et; rewrite length_take, length_app, length_replicate in Et; lia).
  assert (b = ztake (6 - Z.of_nat n) b ++ replicate n 48) as Hb.
  { assert (take n (reverse b) = replicate n 48) as Ht.
    { apply (f_equal (take n)) in Et. rewrite take_take, Nat.min_l, take_app_length' in Et by (rewrite ?length_replicate; lia). done. }
    pose proof (take_drop n (reverse b)) as Hr. rewrite Ht in Hr. apply (f_equal reverse) in Hr. rewrite reverse_involutive, reverse_app, reverse_replicate in Hr.
    assert (length (reverse (drop n (reverse b))) = Z.to_nat (6 - Z.of_nat n)) as Hl by (rewrite length_reverse, length_drop, length_reverse; lia).
    set (u := reverse (drop n (reverse b))) in *. clearbody u. unfold ztake. rewrite <- Hr at 1 2. by rewrite take_app_length' by done. }
  split; [done|]. split; [done|]. split; [rewrite Hb in F1; by apply Forall_app in F1 as [? _]|]. rewrite <- digits_value_trailing. by rewrite <- Hb.
Qed.

Lemma pair_digits n : 0 <= n < 100 -> Forall is_digit [48 + n / 10; 48 + n mod 10] /\ digits_value [48 + n / 10; 48 + n mod 10] = n.
Proof.
  intros Hn. split; [repeat constructor; unfold is_digit; dlia|]. rewrite !digits_value_cons. change (digits_value []) with 0.
  change (zlen [48 + n mod 10]) with 1. change (zlen (@nil Z)) with 0. dlia.
Qed.

(** The text of the fraction. *)
Definition fraction_text (us : Z) (frac : bytes) : Prop :=
  (us = 0 /\ frac = []) \/ exists ds, frac = chr "." :: ds /\ Forall is_digit ds /\ zlen ds <= 6 /\ digits_value ds * 10 ^ (6 - zlen ds) = us.

Definition clock_text (h mi s : Z) (frac : bytes) : bytes :=
  [48 + h / 10; 48 + h mod 10; 58; 48 + mi / 10; 48 + mi mod 10; 58; 48 + s / 10; 48 + s mod 10] ++ frac.

Lemma Time_fields t : 0 <= t <= MICROS_PER_DAY -> exists h mi s us, Time_Convert t = (h, mi, s, us) /\ FromTime h mi s us = t
  /\ 0 <= h < 100 /\ 0 <= mi < 60 /\ 0 <= s < 60 /\ 0 <= us < 1000000.
Proof.
  intros Ht. destruct (decide (t = MICROS_PER_DAY)) as [->|].
  - exists 24, 0, 0, 0. split; [vm_compute; reflexivity|]. split; [reflexivity|]. lia.
  - pose proof (Time_roundtrip t ltac:(lia)) as R. destruct (Time_Convert t) as [[[h mi] s] us]. exists h, mi, s, us. split; [done|]. lia.
Qed.

Lemma fraction_printed us : 0 <= us < 1000000 -> exists len b frac, MicrosLength us = Some (len, b) /\ fraction_text us frac /\ len = 8 + zlen frac
  /\ (if 8 <? len then chr "." :: ztake (len - 9) b else []) = frac.
Proof.
  intros Hu. unfold MicrosLength. destruct (Z.eqb_spec us 0) as [->|Hne].
  - exists 8, [], []. split; [done|]. split; [by left|]. done.
  - destruct (FormatMicros_digits us ltac:(lia)) as (b & n & -> & Hn & Hb & Hd & Hv). cbn [mbind option_bind].
    assert (zlen (ztake (6 - Z.of_nat n) b) = 6 - Z.of_nat n) as Hz by (rewrite zlen_ztake; lia).
    exists (15 - Z.of_nat n), b, (chr "." :: ztake (6 - Z.of_nat n) b). split; [done|]. rewrite zlen_cons, Hz. split; [|split; [lia|]].
    + right. eexists. split; [done|]. split; [done|]. rewrite Hz. split; [lia|]. by replace (6 - (6 - Z.of_nat n)) with (Z.of_nat n) by lia.
    + rewrite (proj2 (Z.ltb_lt 8 _)) by lia. do 2 f_equal. lia.
Qed.

Lemma Time_ToString_text t : 0 <= t <= MICROS_PER_DAY -> exists h mi s us frac, FromTime h mi s us = t
  /\ 0 <= h < 100 /\ 0 <= mi < 60 /\ 0 <= s < 60 /\ fraction_text us frac /\ Time_ToString t = Some (clock_text h mi s frac).
Proof.
  intros Ht. destruct (Time_fields t Ht) as (h & mi & s & us & Ec & Ef & Hh & Hm & Hs & Hu).
  destruct (fraction_printed us Hu) as (len & b & frac & El & Hf & Hlen & Eb). exists h, mi, s, us, frac. do 4 (split; [done|]). split; [done|].
  unfold Time_ToString. rewrite Ec, El. cbn [mbind option_bind]. unfold Time_Format. rewrite !two_digits_spec by lia. cbn [mbind option_bind]. rewrite Eb.
  change ([48 + h / 10; 48 + h mod 10] ++ chr ":" :: [48 + mi / 10; 48 + mi mod 10] ++ chr ":" :: [48 + s / 10; 48 + s mod 10] ++ frac) with (clock_text h mi s frac).
  unfold fill. replace (zlen (clock_text h mi s frac)) with len; [by rewrite Z.eqb_refl|]. unfold clock_text. by rewrite zlen_app.
Qed.

Lemma parse_sixty_two n rest : 0 <= n < 60 -> parse_sixty (48 + n / 10 :: 48 + n mod 10 :: rest) = Some (n, rest).
Proof.
  intros Hn. unfold parse_sixty. rewrite ParseDoubleDigit_two by lia. cbn [mbind option_bind].
  by rewrite (proj2 (Z.ltb_ge n 0)), (proj2 (Z.leb_gt 60 n)) by lia.
Qed.

Lemma parse_fraction_text us frac : fraction_text us frac -> parse_fraction None frac = (us, None, []).
Proof.
  intros [[-> ->]|(ds & -> & Hd & Hl & Hv)]; [done|]. cbn [parse_fraction]. rewrite Z.eqb_refl. change 100000 with (10 ^ 5).
  rewrite <- (app_nil_r ds), parse_micros_digits by (done || lia). replace (5 + 1 - zlen ds) with (6 - zlen ds) by lia. by rewrite Hv.
Qed.

(** What stands behind the hours. *)
Definition clock_tail (mi s : Z) (frac : bytes) : bytes := [58; 48 + mi / 10; 48 + mi mod 10; 58; 48 + s / 10; 48 + s mod 10] ++ frac.

(** A clock is read whatever the number of digits of its hours, up to nine. *)
Lemma TryConvertInternal_hours strict ds mi s us frac : Forall is_digit ds -> ds <> [] -> zlen ds <= 9 -> 0 <= mi < 60 -> 0 <= s < 60 -> fraction_text us frac ->
  TryConvertInternal strict None (ds ++ clock_tail mi s frac) = Some (Some (FromTime (digits_value ds) mi s us, None, [])).
Proof.
  intros Hd Hn Hl Hm Hs Hf. pose proof (parse_hour_digits ds Hd (clock_tail mi s frac) 9 0 ltac:(by intros ? ? [= <- _]) Hl) as Hh. destruct Hd as [|c ds Hc Hd]; [done|].
  destruct (digit_plain _ Hc) as (C1 & C2 & _). unfold TryConvertInternal. cbn [app drop_while] in *. rewrite C2, C1. cbn [negb].
  rewrite Hh. cbv beta iota. rewrite Z.mul_0_l, Z.add_0_l. unfold clock_tail. cbn [app]. change (negb (58 =? chr ":")) with false. cbv iota.
  unfold parse_minute. rewrite bool_decide_eq_false_2 by done. cbn [andb]. rewrite parse_sixty_two by done.
  unfold parse_second. rewrite bool_decide_eq_false_2 by done. cbn [andb]. change (negb (58 =? chr ":")) with false. cbv iota.
  rewrite bool_decide_eq_false_2 by done. cbn [andb]. rewrite parse_sixty_two by done. cbn [mbind option_bind]. rewrite (parse_fraction_text us) by done.
  destruct strict; cbn [time_end drop_while]; rewrite ?bool_decide_eq_true_2 by done; done.
Qed.

(** Hours of more digits are refused. *)
Lemma TryConvertInternal_many_hours strict nanos ds rest : Forall is_digit ds -> 9 < zlen ds -> TryConvertInternal strict nanos (ds ++ rest) = Some None.
Proof.
  intros Hd Hl. pose proof (parse_hour_long ds Hd rest 9 0 ltac:(lia)) as Hh. destruct Hd as [|c ds Hc Hd]; [done|].
  destruct (digit_plain _ Hc) as (C1 & C2 & _). unfold TryConvertInternal. cbn [app drop_while] in *. by rewrite C2, C1, Hh.
Qed.

Lemma TryConvertInternal_clock strict h mi s us frac : 0 <= h < 100 -> 0 <= mi < 60 -> 0 <= s < 60 -> fraction_text us frac ->
  TryConvertInternal strict None (clock_text h mi s frac) = Some (Some (FromTime h mi s us, None, [])).
Proof.
  intros Hh Hm Hs Hf. destruct (pair_digits h Hh) as [Hd Hv].
  pose proof (TryConvertInternal_hours strict _ mi s us frac Hd ltac:(done) ltac:(done) Hm Hs Hf) as E. rewrite Hv in E. exact E.
Qed.

(** Every time of day survives its text, from midnight to 24:00:00 with all its
    microseconds: what the engine prints for it, without trailing zeros in the
    fraction, it reads back as the same time, strictly or not. *)
Lemma time_printed strict t : 0 <= t <= MICROS_PER_DAY ->
  exists s, Time_ToString t = Some s /\ TryConvertTime strict None s = Some (Some (t, None)).
Proof.
  intros Ht. destruct (Time_ToString_text t Ht) as (h & mi & s & us & frac & Ef & Hh & Hm & Hs & Hf & E). eexists. split; [exact E|].
  unfold TryConvertTime. rewrite (TryConvertInternal_clock strict h mi s us frac Hh Hm Hs Hf), Ef. cbn [mbind option_bind].
  by rewrite (proj2 (Z.leb_le t MICROS_PER_DAY)) by lia.
Qed.

(** ** A timestamp that is printed is read back *)
Lemma Timestamp_Convert_fields v : in_s 64 v -> IsFinite v = true -> - 2 ^ 63 <= v / MICROS_PER_DAY * MICROS_PER_DAY ->
  Timestamp_Convert v = Some (GetDate v, v mod MICROS_PER_DAY) /\ first_day <= GetDate v <= last_day.
Proof.
  intros Hv Hf Hm. unfold Timestamp_Convert. rewrite GetDate_floor by done. assert (0 < MICROS_PER_DAY < 2 ^ 40) as Hd by done.
  pose proof (Z.div_mod v MICROS_PER_DAY ltac:(lia)) as Hdm. pose proof (Z.mod_pos_bound v MICROS_PER_DAY ltac:(lia)) as Hmod.
  unfold in_s in Hv. change (2 ^ (64 - 1)) with (2 ^ 63) in Hv. unfold try_s64. rewrite decide_True by (unfold in_s; change (2 ^ (64 - 1)) with (2 ^ 63); lia).
  cbn [mbind option_bind]. split.
  - replace (v - v / MICROS_PER_DAY * MICROS_PER_DAY) with (v mod MICROS_PER_DAY) by lia. rewrite wrap_s_small; [done|lia|].
    unfold in_s. change (2 ^ (64 - 1)) with (2 ^ 63). lia.
  - unfold first_day, last_day, MICROS_PER_DAY, MICROS_PER_HOUR, HOURS_PER_DAY in *. clear - Hv. dlia.
Qed.

Lemma date_ends_clock h mi s frac : 0 <= h < 100 -> date_ends false (chr " " :: clock_text h mi s frac).
Proof.
  intros Hh. split; [by intros c t [= <- _]|]. split; [|done]. destruct (pair_digits h Hh) as [Hd _]. inversion Hd as [|? ? Hc _]; subst.
  unfold clock_text. cbn [app parse_bc]. rewrite (proj2 (Z.eqb_neq (48 + h / 10) (chr "("))); [by rewrite andb_false_r|].
  change (chr "(") with 40. unfold is_digit in Hc. lia.
Qed.

Lemma TryConvertTimestampTZ_text use_offset text date h mi s us frac v : TryConvertDate false (text ++ chr " " :: clock_text h mi s frac) = inr (date, false, chr " " :: clock_text h mi s frac) ->
  0 <= h < 100 -> 0 <= mi < 60 -> 0 <= s < 60 -> fraction_text us frac -> FromTime h mi s us <= MICROS_PER_DAY ->
  TryFromDatetime date (FromTime h mi s us) = Some v ->
  TryConvertTimestampTZ use_offset None (text ++ chr " " :: clock_text h mi s frac) = Some (inr (MkTimestampText v false [] None)).
Proof.
  intros E Hh Hm Hs Hf Ht Hv. unfold TryConvertTimestampTZ. rewrite E. change ((chr " " =? chr " ") || (chr " " =? chr "T")) with true. cbv iota.
  unfold TryConvertInterval. rewrite (TryConvertInternal_clock false h mi s us frac Hh Hm Hs Hf). cbn [mbind option_bind].
  by rewrite (proj2 (Z.ltb_ge MICROS_PER_DAY _)), Hv by lia.
Qed.

Lemma timestamp_printed v : in_s 64 v -> IsFinite v = true -> - 2 ^ 63 <= v / MICROS_PER_DAY * MICROS_PER_DAY ->
  exists s, Timestamp_ToString v = Some s /\ forall use_offset strict, TryConvertTimestamp use_offset None strict s = Some (inr (MkTimestampText v false [] None)).
Proof.
  intros Hv Hf Hm. destruct (Timestamp_Convert_fields v Hv Hf Hm) as [Ec Hd]. pose proof (timestamp_rebuilt v Hv Hf Hm) as Hr.
  assert (0 <= v mod MICROS_PER_DAY <= MICROS_PER_DAY) as Ht by (pose proof (Z.mod_pos_bound v MICROS_PER_DAY ltac:(done)); lia).
  destruct (Date_ToString_text (GetDate v) Hd) as (y & m & d & ds & bc & Ef & Hmo & Hda & H1 & H2 & H3 & -> & Ed).
  destruct (Time_ToString_text _ Ht) as (h & mi & s & us & frac & Et & Hh & Hmi & Hs & Hfr & Es).
  exists (fields_text ds m d bc ++ chr " " :: clock_text h mi s frac). split.
  - unfold Timestamp_ToString. unfold IsFinite in Hf. zbool. rewrite !(proj2 (Z.eqb_neq _ _)) by done. rewrite Ec. cbn [mbind option_bind].
    rewrite Ed. cbn [mbind option_bind]. by rewrite Es.
  - intros use_offset strict. unfold TryConvertTimestamp.
    rewrite (TryConvertTimestampTZ_text use_offset _ (GetDate v) h mi s us frac v); try done; [cbn; by rewrite andb_false_r| |lia|by rewrite Et].
    by apply TryConvertDate_text; [..|apply date_ends_clock|].
Qed.

(** C29: Every timestamp whose day the engine can print survives its text: it is read back as
    the same number of microseconds, without an offset, whether offsets count or not and
    strictly or not, before Christ as well. An infinite one is read back too, but not
    strictly: the flag of a special date is taken for the flag of an offset, and the text
    is refused as one with an offset. *)
Theorem timestamp_text_roundtrip use_offset strict v : in_s 64 v ->
  (IsFinite v = true -> - 2 ^ 63 <= v / MICROS_PER_DAY * MICROS_PER_DAY) ->
  exists s, Timestamp_ToString v = Some s /\ TryConvertTimestamp use_offset None strict s
    = Some (if IsFinite v then inr (MkTimestampText v false [] None) else if strict then inl TS_STRICT_UTC else inr (MkTimestampText v true [] None)).
Proof.
  intros Hv Hm. destruct (IsFinite v) eqn:Hf.
  - destruct (timestamp_printed v Hv Hf (Hm eq_refl)) as (s & E & R). exists s. by rewrite R.
  - unfold IsFinite in Hf. destruct (Z.eqb_spec v timestamp_infinity) as [->|]; [exists PINF.1; by destruct strict|].
    destruct (Z.eqb_spec v timestamp_ninfinity) as [->|]; [exists NINF.1; by destruct strict|done].
Qed.

(** ** Times with an offset *)

(** The time and the offset are read back from the bits. *)
Lemma dtime_tz_fields t offset : 0 <= t <= MICROS_PER_DAY -> MIN_OFFSET <= offset <= MAX_OFFSET ->
  decode_micros (dtime_tz t offset) = t /\ decode_offset (dtime_tz t offset) = offset.
Proof.
  intros Ht Ho. assert (t < 2 ^ 37) as Ht' by (assert (MICROS_PER_DAY < 2 ^ 37) by done; lia). unfold MIN_OFFSET, MAX_OFFSET in *.
  unfold decode_micros, decode_offset, dtime_tz, encode_micros, encode_offset, OFFSET_BITS, MAX_OFFSET.
  rewrite (wrap_u_small 64 t) by (unfold in_u; lia). rewrite Z.shiftl_mul_pow2, (wrap_u_small 64 (t * 2 ^ 24)) by (unfold in_u; lia || lia).
  set (x := u64 (16 * 60 * 60 - 1 - offset)). assert (x = 16 * 60 * 60 - 1 - offset) as Hx by (apply wrap_u_small; unfold in_u; lia).
  assert (0 <= x < 2 ^ 24) as Hr by lia. split.
  - rewrite Z.shiftr_lor, !Z.shiftr_div_pow2, Z.div_mul, (Z.div_small x) by lia. rewrite Z.lor_0_r. apply wrap_s_small; [lia|]. unfold in_s. lia.
  - change OFFSET_MASK with (Z.ones 24). rewrite Z.land_ones by lia.
    assert (Z.lor (t * 2 ^ 24) x mod 2 ^ 24 = x) as ->.
    { rewrite <- Z.land_ones, Z.land_lor_distr_l, !Z.land_ones, Z.mod_mul, (Z.mod_small x) by lia. done. }
    rewrite (wrap_s_small 32 x), wrap_s_small by (lia || unfold in_s; lia). lia.
Qed.

(** The offset of whole minutes that is printed is read back. *)
Lemma two_digit_number_two n rest : 0 <= n < 100 -> two_digit_number (48 + n / 10 :: 48 + n mod 10 :: rest) = Some (n, rest).
Proof.
  intros Hn. destruct (pair_digits n Hn) as [Hd _]. inversion Hd as [|? ? H1 Hd']; subst. inversion Hd' as [|? ? H2 _]; subst. cbn [two_digit_number].
  rewrite (proj1 (digit_plain _ H1)), (proj1 (digit_plain _ H2)). cbn [andb]. change (chr "0") with 48. do 2 f_equal. dlia.
Qed.

Lemma offset_text_roundtrip minutes : Z.abs minutes < 24 * 60 ->
  exists s, ToUTCOffset (Z.quot minutes 60) (Z.rem minutes 60) = Some s
    /\ TryParseUTCOffset s = Some (Z.quot minutes 60, Z.rem minutes 60, 0, []).
Proof.
  intros Hm. unfold ToUTCOffset, MINS_PER_HOUR. replace (Z.quot minutes 60 * 60 + Z.rem minutes 60) with minutes by (pose proof (Z.quot_rem' minutes 60); lia).
  assert (0 <= Z.abs (minutes * MICROS_PER_MINUTE) < MICROS_PER_DAY) as Ht by (unfold MICROS_PER_MINUTE, MICROS_PER_DAY, MICROS_PER_HOUR, HOURS_PER_DAY; lia).
  rewrite (Time_Convert_fields _ Ht). unfold MICROS_PER_HOUR, MICROS_PER_MINUTE.
  assert (Z.abs (minutes * 60000000) / 3600000000 = Z.abs minutes / 60 /\ Z.abs (minutes * 60000000) / 60000000 = Z.abs minutes) as [-> ->] by dlia.
  assert ((if minutes <? 0 then - (Z.abs minutes / 60) else Z.abs minutes / 60) = Z.quot minutes 60
    /\ (if minutes <? 0 then - (Z.abs minutes mod 60) else Z.abs minutes mod 60) = Z.rem minutes 60) as [Eq Er] by (destruct (Z.ltb_spec minutes 0); dlia).
  assert ((minutes * 60000000 <? 0) = (minutes <? 0)) as -> by (destruct (Z.ltb_spec minutes 0); [apply Z.ltb_lt|apply Z.ltb_ge]; lia).
  assert (0 <= Z.abs minutes / 60 < 100) as Hh by dlia. set (h := Z.abs minutes / 60) in *. set (mi := Z.abs minutes mod 60) in *.
  assert (0 <= mi < 60) as Hmi by (subst mi; dlia). clearbody h mi. rewrite <- Eq, <- Er, (two_digits_spec h) by done.
  cbn [mbind option_bind]. destruct (Z.eqb_spec mi 0) as [->|Hne].
  - eexists. split; [reflexivity|]. unfold TryParseUTCOffset. destruct (minutes <? 0); cbn [app]; cbv zeta; rewrite two_digit_number_two by done; done.
  - rewrite (two_digits_spec mi) by lia. cbn [mbind option_bind]. eexists. split; [reflexivity|]. unfold TryParseUTCOffset.
    destruct (minutes <? 0); cbn [app]; cbv zeta; rewrite two_digit_number_two by done; cbn [mbind option_bind]; change (chr ":" =? chr ":") with true; cbv iota;
      rewrite two_digit_number_two by lia; done.
Qed.

(** ** Witnesses *)
Lemma time_printed_witness :
  exists s, Time_ToString 45296000100 = Some s /\ TryConvertTime true None s = Some (Some (45296000100, None)).
Proof. apply (time_printed true 45296000100). unfold MICROS_PER_DAY, MICROS_PER_HOUR, HOURS_PER_DAY. lia. Defined.

Lemma timestamp_text_roundtrip_witness :
  exists s, Timestamp_ToString (- 10 ^ 17) = Some s
    /\ TryConvertTimestamp false None true s = Some (inr (MkTimestampText (- 10 ^ 17) false [] None)).
Proof. apply (timestamp_text_roundtrip false true (- 10 ^ 17)); [done|]. intros _. vm_compute. discriminate. Defined.
