(* ===== verification/IntegerText.v ===== *)
(** * Integers read from text
    ([duckdb/src/include/duckdb/common/operator/integer_cast_operator.hpp])

    The cast of a text to an integer, which tries to read a plain integer first, and if
    that fails reads again with a fraction and an exponent. A position in the text is what is
    left of it. The functions that may refuse a text have an [option]; the outer one
    of two is signed overflow. *)

From S2P Require Import Prelude Digits DateText.

(** ** Integer types *)
Record int_type := IntType { it_width : Z; is_signed : bool }.

Definition Minimum (t : int_type) : Z := if is_signed t then - 2 ^ (it_width t - 1) else 0.
Definition Maximum (t : int_type) : Z := if is_signed t then 2 ^ (it_width t - 1) - 1 else 2 ^ it_width t - 1.

(** [NumericLimits::Digits] *)
Definition limit_digits (t : int_type) : Z :=
  if it_width t =? 8 then 3 else if it_width t =? 16 then 5 else if it_width t =? 32 then 10 else if is_signed t then 19 else 20.

(** A result that has to fit: a cast between integers, or checked arithmetic. *)
Definition try_int (t : int_type) (z : Z) : option Z := if (Minimum t <=? z) && (z <=? Maximum t) then Some z else None.

(** ** What is done with a digit *)

(** [IntegerCastData], [IntegerDecimalCastData]: the first only has the result. *)
Record cast_data := MkCastData { cd_result : Z; cd_decimal : Z; cd_digits : Z }.
Definition zero_data : cast_data := MkCastData 0 0 0.
Definition with_result (state : cast_data) (r : Z) : cast_data := MkCastData r (cd_decimal state) (cd_digits state).

Definition HandleDigit (store : int_type) (negative : bool) (digit : Z) (state : cast_data) : option cast_data :=
  if negative then
    if cd_result state <? Z.quot (Minimum store + digit) 10 then None else Some (with_result state (cd_result state * 10 - digit))
  else if Z.quot (Maximum store - digit) 10 <? cd_result state then None else Some (with_result state (cd_result state * 10 + digit)).

Definition HandleHexDigit (store : int_type) (digit : Z) (state : cast_data) : option cast_data :=
  if Z.quot (Maximum store - digit) 16 <? cd_result state then None else Some (with_result state (cd_result state * 16 + digit)).

Definition HandleBinaryDigit (store : int_type) (digit : Z) (state : cast_data) : option cast_data :=
  if Z.quot (Maximum store - digit) 2 <? cd_result state then None else Some (with_result state (cd_result state * 2 + digit)).

(** The template parameter [OP] over the template parameter [T], the state of reading. *)
Record cast_op (T : Type) := CastOp {
  OnDigit : bool -> Z -> T -> option T;
  OnHexDigit : Z -> T -> option T;
  OnBinaryDigit : Z -> T -> option T;
  HandleDecimal : Z -> T -> option T;
  HandleExponent : bool -> Z -> T -> option (option T);
  Finalize : bool -> T -> option T
}.
#[global] Arguments CastOp {T} _ _ _ _ _ _.
#[global] Arguments OnDigit {T} _ _ _ _ : assert.
#[global] Arguments OnHexDigit {T} _ _ _ : assert.
#[global] Arguments OnBinaryDigit {T} _ _ _ : assert.
#[global] Arguments HandleDecimal {T} _ _ _ : assert.
#[global] Arguments HandleExponent {T} _ _ _ _ : assert.
#[global] Arguments Finalize {T} _ _ _ : assert.

(** Numbers stored in the type [store]. *)
Definition stored_in (store : int_type) := CastOp (HandleDigit store) (HandleHexDigit store) (HandleBinaryDigit store).

(** Simple integers have neither a fraction nor an exponent. *)
Definition IntegerCastOperation (t : int_type) : cast_op cast_data := stored_in t (fun _ _ => None) (fun _ _ _ => Some None) (fun _ => Some).

(** [IntegerDecimalCastOperation]: the numbers are stored in 64 bits. *)
Definition store_type (t : int_type) : int_type := IntType 64 (is_signed t || negb (it_width t =? 64)).

Definition decimal_HandleDecimal (store : int_type) (digit : Z) (state : cast_data) : option cast_data :=
  if Z.quot (Maximum store - digit) 10 <? cd_decimal state then Some state
  else Some (MkCastData (cd_result state) (cd_decimal state * 10 + digit) (u16 (cd_digits state + 1))).

(** The loop of [Finalize] over the fraction, of at most 20 digits. *)
Fixpoint shrink (fuel : nat) (decimal digits : Z) : Z * Z :=
  match fuel with
  | O => (decimal, digits)
  | S f => if 10 <? decimal then shrink f (Z.quot decimal 10) (u16 (digits - 1)) else (decimal, digits)
  end.

Definition decimal_Finalize (t : int_type) (negative : bool) (state : cast_data) : option cast_data :=
  tmp ← try_int t (cd_result state);
  let '(decimal, digits) := shrink 20 (cd_decimal state) (cd_digits state) in
  tmp ← (if (digits =? 1) && (5 <=? decimal) then try_int t (if negative then tmp - 1 else tmp + 1) else Some tmp);
  Some (MkCastData tmp decimal digits).

(** Dividing by ten, for a negative exponent. *)
Fixpoint scale_down (n : nat) (result decimal : Z) : Z * Z :=
  match n with
  | O => (result, decimal)
  | S n' =>
      let decimal := Z.rem result 10 in
      let result := Z.quot result 10 in
      if (result =? 0) && (decimal =? 0) then (result, decimal) else scale_down n' result decimal
  end.

(** Multiplying by ten until the number is 0. *)
Fixpoint scale_up (store : int_type) (n : nat) (z : Z) : option Z :=
  match n with
  | O => Some z
  | S n' => if z =? 0 then Some z else z ← try_int store (z * 10); scale_up store n' z
  end.

(** [power *= 10], [n] times: an overflow is undefined when the type is signed. *)
Definition power_of_ten (store : int_type) (n : Z) : option Z :=
  if is_signed store then if 10 ^ n <=? Maximum store then Some (10 ^ n) else None else Some (wrap_u (it_width store) (10 ^ n)).

Definition decimal_HandleExponent (t : int_type) (negative : bool) (exponent : Z) (state : cast_data) : option (option cast_data) :=
  let store := store_type t in
  if exponent <? 0 then
    let '(result, decimal) := scale_down (Z.to_nat (- exponent)) (cd_result state) (cd_decimal state) in
    Some (decimal_Finalize t negative (MkCastData result (Z.abs decimal) 1))
  else match scale_up store (Z.to_nat exponent) (cd_result state) with
  | None => Some None
  | Some result =>
      if cd_decimal state =? 0 then Some (decimal_Finalize t negative (MkCastData result 0 (cd_digits state)))
      else
        let e := s16 (exponent - cd_digits state) in
        scaled ← (if e <? 0 then
                    if u16 (- e) <=? limit_digits store then
                      power ← power_of_ten store (- e);
                      Some (Some (Z.rem (cd_decimal state) power, Z.quot (cd_decimal state) power))
                    else Some (Some (0, 0))
                  else Some (decimal ← scale_up store (Z.to_nat e) (cd_decimal state); Some (0, decimal)));
        Some ('(remainder, decimal) ← scaled;
              result ← try_int store (if negative then result - decimal else result + decimal);
              decimal_Finalize t negative (MkCastData result remainder (u16 (cd_digits state - exponent))))
  end.

Definition IntegerDecimalCastOperation (t : int_type) : cast_op cast_data :=
  stored_in (store_type t) (decimal_HandleDecimal (store_type t)) (decimal_HandleExponent t) (decimal_Finalize t).

(** ** The loops *)
Section Loop.
Context {T : Type} (op : cast_op T).

(** An underscore between digits is skipped; one that is not followed by a digit refuses
    the text. *)
Fixpoint decimal_loop (buf : bytes) (state : T) : option (T * bytes) :=
  match buf with
  | c :: buf' =>
      if CharacterIsDigit c then
        state ← HandleDecimal op (c - chr "0") state;
        match buf' with
        | u :: buf'' =>
            if u =? chr "_" then
              match buf'' with d :: _ => if CharacterIsDigit d then decimal_loop buf'' state else None | [] => None end
            else decimal_loop buf' state
        | [] => Some (state, [])
        end
      else Some (state, buf)
  | [] => Some (state, [])
  end.

(** Behind the digits: trailing spaces or an exponent. *)
Definition cast_tail (exponent : option (bytes -> option Z)) (negative strict at_start : bool) (c : Z) (rest : bytes) (state : T)
  : option (option T) :=
  if CharacterIsSpace c then Some (if forallb CharacterIsSpace rest then Finalize op negative state else None)
  else match exponent with
  | None => Some None
  | Some read =>
      if (c =? chr "e") || (c =? chr "E") then
        if strict || at_start || bool_decide (rest = []) then Some None
        else match read rest with Some e => HandleExponent op negative e state | None => Some None end
      else Some None
  end.

(** [IntegerCastLoop] behind the sign; [at_start] is [pos == start_pos]. *)
Fixpoint cast_loop (exponent : option (bytes -> option Z)) (negative strict at_start : bool) (buf : bytes) (state : T)
  : option (option T) :=
  match buf with
  | [] => Some (state ← Finalize op negative state; if at_start then None else Some state)
  | c :: buf' =>
      if negb (CharacterIsDigit c) then
        if c =? chr "." then
          if strict then Some None
          else match decimal_loop buf' state with
          | None => Some None
          | Some (state, rest) =>
              if at_start && (zlen rest =? zlen buf') then Some None
              else match rest with [] => Some (Finalize op negative state) | d :: rest' => cast_tail exponent negative strict false d rest' state end
          end
        else cast_tail exponent negative strict at_start c buf' state
      else match OnDigit op negative (c - chr "0") state with
      | None => Some None
      | Some state =>
          match buf' with
          | u :: buf'' =>
              if (u =? chr "_") && negb strict then
                match buf'' with
                | d :: _ => if CharacterIsDigit d then cast_loop exponent negative strict false buf'' state else Some None
                | [] => Some None
                end
              else cast_loop exponent negative strict false buf' state
          | [] => cast_loop exponent negative strict false buf' state
          end
      end
  end.

(** [buf] is not empty. *)
Definition IntegerCastLoop (exponent : option (bytes -> option Z)) (negative strict : bool) (buf : bytes) (state : T)
  : option (option T) :=
  if negative then cast_loop exponent negative strict true (tail buf) state
  else match buf with
  | c :: rest =>
      if c =? chr "+" then if strict then Some None else cast_loop exponent negative strict true rest state
      else cast_loop exponent negative strict true buf state
  | [] => None
  end.

Definition CharacterIsHex (c : Z) : bool :=
  ((chr "0" <=? c) && (c <=? chr "9")) || ((chr "a" <=? c) && (c <=? chr "f")) || ((chr "A" <=? c) && (c <=? chr "F")).

Definition hex_digit (c : Z) : Z := if chr "a" <=? c then c - chr "a" + 10 else c - chr "0".

Fixpoint hex_loop (at_start : bool) (buf : bytes) (state : T) : option T :=
  match buf with
  | [] => state ← Finalize op false state; if at_start then None else Some state
  | c :: buf' =>
      let current_char := CharacterToLower c in
      if negb (CharacterIsHex current_char) then None
      else match buf' with
      | u :: buf'' =>
          if u =? chr "_" then
            match buf'' with
            | d :: _ => if CharacterIsHex d then state ← OnHexDigit op (hex_digit current_char) state; hex_loop false buf'' state else None
            | [] => None
            end
          else state ← OnHexDigit op (hex_digit current_char) state; hex_loop false buf' state
      | [] => state ← OnHexDigit op (hex_digit current_char) state; hex_loop false buf' state
      end
  end.

Definition is_bit (c : Z) : bool := (c =? chr "0") || (c =? chr "1").

Fixpoint binary_loop (at_start : bool) (buf : bytes) (state : T) : option T :=
  match buf with
  | [] => state ← Finalize op false state; if at_start then None else Some state
  | c :: buf' =>
      if negb (is_bit c) then None
      else match buf' with
      | u :: buf'' =>
          if u =? chr "_" then
            match buf'' with
            | d :: _ => if is_bit d then state ← OnBinaryDigit op (c - chr "0") state; binary_loop false buf'' state else None
            | [] => None
            end
          else state ← OnBinaryDigit op (c - chr "0") state; binary_loop false buf' state
      | [] => state ← OnBinaryDigit op (c - chr "0") state; binary_loop false buf' state
      end
  end.
End Loop.

(** The exponent is a plain integer of 16 bits. *)
Definition read_exponent (strict : bool) (buf : bytes) : option Z :=
  match IntegerCastLoop (IntegerCastOperation (IntType 16 true)) None (bool_decide (head buf = Some (chr "-"))) strict buf zero_data with
  | Some (Some exponent) => Some (cd_result exponent)
  | _ => None
  end.

(** [TryIntegerCast] for the operation [op] and a type that is signed or not; [zero] is the state
    it starts with. *)
Definition TryIntegerCast {T} (op : cast_op T) (zero : T) (signed allow_exponent strict : bool) (buf : bytes) : option (option T) :=
  let exponent := if allow_exponent then Some (read_exponent strict) else None in
  let loop negative buf := IntegerCastLoop op exponent negative strict buf zero in
  match drop_while CharacterIsSpace buf with
  | [] => Some None
  | c :: rest =>
      if c =? chr "-" then
        if negb signed && negb (forallb (fun c => c =? chr "0") rest) then Some None else loop true (c :: rest)
      else match rest with
      | x :: rest' =>
          if c =? chr "0" then
            if (x =? chr "x") || (x =? chr "X") then Some (hex_loop op true rest' zero)
            else if (x =? chr "b") || (x =? chr "B") then Some (binary_loop op true rest' zero)
            else if strict && CharacterIsDigit x then Some None
            else loop false (c :: rest)
          else loop false (c :: rest)
      | [] => loop false (c :: rest)
      end
  end.

(** [TrySimpleIntegerCast], which is [TryCast::Operation] from a text to an integer. *)
Definition TrySimpleIntegerCast (t : int_type) (strict : bool) (buf : bytes) : option (option Z) :=
  simple ← TryIntegerCast (IntegerCastOperation t) zero_data (is_signed t) false strict buf;
  match simple with
  | Some data => Some (Some (cd_result data))
  | None => data ← TryIntegerCast (IntegerDecimalCastOperation t) zero_data (is_signed t) true strict buf; Some (option_map cd_result data)
  end.

Definition int32 : int_type := IntType 32 true.
Definition int64 : int_type := IntType 64 true.

Example read_plain : TrySimpleIntegerCast int32 false (B" -1_000 ") = Some (Some (-1000)).
Proof. vm_compute. reflexivity. Qed.
Example read_rounded : (TrySimpleIntegerCast int32 false (B"-2.5"), TrySimpleIntegerCast int32 true (B"-2.5")) = (Some (Some (-3)), Some None).
Proof. vm_compute. reflexivity. Qed.
Example read_exponents : (TrySimpleIntegerCast int32 false (B"1.25e1"), TrySimpleIntegerCast int32 false (B"15e-1"), TrySimpleIntegerCast int32 false (B"1e10"))
  = (Some (Some 13), Some (Some 2), Some None).
Proof. vm_compute. reflexivity. Qed.
Example read_hex : TrySimpleIntegerCast int32 true (B"0xFf") = Some (Some 255).
Proof. vm_compute. reflexivity. Qed.
(** A sign alone is refused, a sign and a space is 0. *)
Example read_sign : (TrySimpleIntegerCast int32 true (B"-"), TrySimpleIntegerCast int32 true (B"- ")) = (Some None, Some (Some 0)).
Proof. vm_compute. reflexivity. Qed.
(** Nineteen digits of a fraction with an exponent: the power of ten overflows. *)
Example read_overflow : TrySimpleIntegerCast int64 false (B"0.0000000000000000001e0") = None.
Proof. vm_compute. reflexivity. Qed.

(** ** Digits *)
Definition signed_by (negative : bool) (z : Z) : Z := if negative then - z else z.

(** The largest magnitude of a sign. *)
Definition limit (t : int_type) (negative : bool) : Z := if negative then - Minimum t else Maximum t.

(** The types the cast is used for; what is negative is signed. *)
Definition castable (t : int_type) (negative : bool) : Prop := int_width (it_width t) /\ (negative = true -> is_signed t = true).

Lemma castable_limit t negative : castable t negative -> 127 <= limit t negative /\ Minimum t <= 0 <= Maximum t.
Proof.
  intros [Hw Hs]. assert (128 <= 2 ^ (it_width t - 1) /\ 128 <= 2 ^ it_width t) as Hp by (destruct Hw as [->|[->|[->| ->]]]; by vm_compute).
  unfold limit, Minimum, Maximum. destruct negative; [rewrite (Hs eq_refl)|destruct (is_signed t)]; lia.
Qed.

Lemma try_int_signed t negative z : castable t negative -> 0 <= z ->
  try_int t (signed_by negative z) = if z <=? limit t negative then Some (signed_by negative z) else None.
Proof.
  intros Hc%castable_limit Hz. unfold try_int, signed_by, limit in *.
  destruct negative; repeat match goal with |- context [?a <=? ?b] => destruct (Z.leb_spec a b) end; cbn [andb]; first [done|exfalso; lia].
Qed.

Lemma HandleDigit_spec t negative d state acc : castable t negative -> 0 <= d <= 9 -> 0 <= acc -> cd_result state = signed_by negative acc ->
  HandleDigit t negative d state = if acc * 10 + d <=? limit t negative then Some (with_result state (signed_by negative (acc * 10 + d))) else None.
Proof.
  intros Hc%castable_limit Hd Ha E. unfold HandleDigit, limit in *. rewrite E. unfold signed_by in *. destruct negative.
  - destruct (Z.leb_spec (acc * 10 + d) (- Minimum t)), (Z.ltb_spec (- acc) (Z.quot (Minimum t + d) 10)); try dlia; [|done]. do 2 f_equal. lia.
  - destruct (Z.leb_spec (acc * 10 + d) (Maximum t)), (Z.ltb_spec (Z.quot (Maximum t - d) 10) acc); try dlia; done.
Qed.

Lemma digit_is c : is_digit c -> CharacterIsDigit c = true /\ (c =? chr "_") = false /\ 0 <= c - chr "0" <= 9.
Proof. unfold is_digit, CharacterIsDigit. change (chr "0") with 48. change (chr "9") with 57. change (chr "_") with 95. intros H. zbool. lia. Qed.

(** Reading digits, from a number that has been read. *)
Lemma cast_loop_digits op store exponent negative strict ds rest : OnDigit op = HandleDigit store -> castable store negative -> Forall is_digit ds -> head rest <> Some (chr "_") ->
  forall at_start state acc, 0 <= acc <= limit store negative -> cd_result state = signed_by negative acc ->
  let z := acc * 10 ^ zlen ds + digits_value ds in
  cast_loop op exponent negative strict at_start (ds ++ rest) state
  = if z <=? limit store negative
    then cast_loop op exponent negative strict (at_start && bool_decide (ds = [])) rest (with_result state (signed_by negative z)) else Some None.
Proof.
  intros Ho Hc Hds Hr. induction Hds as [|c ds Hcd Hds IH]; intros at_start state acc Ha E z; subst z.
  - cbn [app]. change (digits_value []) with 0. rewrite zlen_nil, Z.pow_0_r, Z.mul_1_r, Z.add_0_r, (proj2 (Z.leb_le _ _)), andb_true_r by lia.
    rewrite <- E. by destruct state.
  - destruct (digit_is c Hcd) as (H1 & H2 & H3). rewrite digits_value_cons. change (c - 48) with (c - chr "0"). set (d := c - chr "0") in *.
    replace (acc * 10 ^ zlen (c :: ds) + (d * 10 ^ zlen ds + digits_value ds)) with ((acc * 10 + d) * 10 ^ zlen ds + digits_value ds)
      by (rewrite zlen_cons, Z.pow_add_r by (lia || apply zlen_nonneg); lia).
    cbn [app cast_loop]. rewrite H1. cbn [negb]. fold d. rewrite Ho, (HandleDigit_spec _ _ _ _ acc) by (done || lia).
    pose proof (digits_value_range ds Hds) as Hv. assert (1 <= 10 ^ zlen ds) as Hp by lia.
    destruct (Z.leb_spec (acc * 10 + d) (limit store negative)) as [Hle|Hgt]; [|by rewrite (proj2 (Z.leb_gt _ _)) by nia].
    set (state' := with_result state _). rewrite andb_false_r.
    assert (match ds ++ rest with
      | u :: buf'' =>
          if (u =? chr "_") && negb strict then
            match buf'' with d :: _ => if CharacterIsDigit d then cast_loop op exponent negative strict false buf'' state' else Some None | [] => Some None end
          else cast_loop op exponent negative strict false (ds ++ rest) state'
      | [] => cast_loop op exponent negative strict false (ds ++ rest) state' end
      = cast_loop op exponent negative strict false (ds ++ rest) state') as ->.
    { destruct Hds as [|u ds Hu _]; cbn [app].
      - destruct rest as [|u rest]; [done|]. rewrite (proj2 (Z.eqb_neq u _)) by (intros ->; by apply Hr). done.
      - by rewrite (proj1 (proj2 (digit_is u Hu))). }
    rewrite (IH false state' (acc * 10 + d)) by (done || lia). cbn [andb]. case_match; [|done]. by destruct state.
Qed.

(** ** The fraction *)

(** A fraction of a half or more. *)
Definition round_up (fp : bytes) : bool := match fp with c :: _ => 53 <=? c | [] => false end.

(** What [HandleDecimal] has kept of the digits: none when they are zeros, or the first
    other one and some digits behind it, and how many places that makes. *)
Definition kept (fp : bytes) (decimal digits : Z) : Prop :=
  (fp = replicate (length fp) 48 /\ decimal = 0 /\ digits = zlen fp)
  \/ exists k d m r rest, fp = replicate k 48 ++ (48 + d) :: rest /\ 1 <= d <= 9 /\ 0 <= r < 10 ^ Z.of_nat m
       /\ decimal = d * 10 ^ Z.of_nat m + r /\ digits = Z.of_nat k + 1 + Z.of_nat m /\ (k + 1 + m <= length fp)%nat.

Lemma replicate_snoc n (x : Z) : replicate n x ++ [x] = replicate (S n) x.
Proof. by rewrite <- replicate_cons_app. Qed.

Lemma HandleDecimal_kept t fp c state : 255 <= Maximum t -> is_digit c -> zlen fp + 1 < 65536 ->
  kept fp (cd_decimal state) (cd_digits state) -> cd_decimal state <= Maximum t ->
  exists state', decimal_HandleDecimal t (c - chr "0") state = Some state' /\ cd_result state' = cd_result state
    /\ kept (fp ++ [c]) (cd_decimal state') (cd_digits state') /\ cd_decimal state' <= Maximum t.
Proof.
  intros Ht Hc Hl K Hmax. change (chr "0") with 48. unfold is_digit in Hc. pose proof (zlen_nonneg fp). unfold decimal_HandleDecimal.
  destruct K as [(E & E0 & Ed)|(k & d & m & r & rest & E & Hd & Hr & E0 & Ed & Hk)]; rewrite E0, Ed.
  - rewrite (proj2 (Z.ltb_ge _ _)) by dlia. eexists. split; [reflexivity|]. split; [done|]. split; [|cbn [cd_decimal]; lia]. cbn [cd_decimal cd_digits]. rewrite wrap_u_small by (unfold in_u; lia).
    destruct (decide (c = 48)) as [->|Hne].
    + left. rewrite length_app, zlen_app. split; [|split; [lia|done]]. rewrite E at 1. rewrite Nat.add_1_r. apply replicate_snoc.
    + right. exists (length fp), (c - 48), 0%nat, 0, []. rewrite length_app, <- E, Z.pow_0_r. unfold zlen. cbn [length].
      replace (48 + (c - 48)) with c by lia. repeat split; lia.
  - pose proof (Z.pow_pos_nonneg 10 (Z.of_nat m) ltac:(lia) ltac:(lia)) as Hp. destruct (Z.ltb_spec (Z.quot (Maximum t - (c - 48)) 10) (d * 10 ^ Z.of_nat m + r)) as [_|Hle].
    + eexists. split; [reflexivity|]. split; [done|]. split; [|done]. right. exists k, d, m, r, (rest ++ [c]). split; [by rewrite E, <- app_assoc|].
      rewrite length_app. repeat split; (done || lia).
    + eexists. split; [reflexivity|]. split; [done|]. cbn [cd_decimal cd_digits]. split; [|dlia]. unfold zlen in Hl. rewrite wrap_u_small by (unfold in_u; change (2 ^ 16) with 65536; lia).
      right. exists k, d, (S m), (r * 10 + (c - 48)), (rest ++ [c]). split; [by rewrite E, <- app_assoc|].
      rewrite length_app, Nat2Z.inj_succ, Z.pow_succ_r by lia. cbn [length]. repeat split; lia.
Qed.

Lemma decimal_loop_kept op t fp : HandleDecimal op = decimal_HandleDecimal t -> 255 <= Maximum t -> Forall is_digit fp -> forall before state,
  zlen (before ++ fp) < 65536 -> kept before (cd_decimal state) (cd_digits state) -> cd_decimal state <= Maximum t ->
  exists state', decimal_loop op fp state = Some (state', []) /\ cd_result state' = cd_result state
    /\ kept (before ++ fp) (cd_decimal state') (cd_digits state') /\ cd_decimal state' <= Maximum t.
Proof.
  intros Ho Ht. induction 1 as [|c fp Hc Hfp IH]; intros before state Hl K Hmax; [exists state; by rewrite app_nil_r|].
  change (before ++ c :: fp) with (before ++ [c] ++ fp) in *. rewrite app_assoc in *.
  destruct (HandleDecimal_kept t before c state Ht Hc) as (state1 & E1 & R1 & K1 & M1); [rewrite !zlen_app in Hl; pose proof (zlen_nonneg fp); change (zlen [c]) with 1 in Hl; lia|done|done|].
  destruct (IH _ _ Hl K1 M1) as (state2 & E2 & R2 & K2). exists state2. split; [|split; [congruence|done]].
  cbn [decimal_loop]. rewrite (proj1 (digit_is c Hc)), Ho, E1. cbn [mbind option_bind].
  destruct Hfp as [|u fp Hu _]; [exact E2|]. by rewrite (proj1 (proj2 (digit_is u Hu))).
Qed.

(** [Finalize] finds the first digit of the fraction. *)
Lemma shrink_leading d m r k : 1 <= d <= 9 -> 0 <= r < 10 ^ Z.of_nat m -> forall fuel, (m < fuel)%nat -> 0 <= k < 65536 - 1 - Z.of_nat m ->
  let '(decimal, digits) := shrink fuel (d * 10 ^ Z.of_nat m + r) (k + 1 + Z.of_nat m) in (digits =? 1) && (5 <=? decimal) = (k =? 0) && (5 <=? d).
Proof.
  revert r. induction m as [|m IH]; intros r Hd Hr fuel Hf Hk; (destruct fuel as [|fuel]; [lia|]); cbn [shrink].
  - change (10 ^ Z.of_nat 0) with 1 in *. rewrite (proj2 (Z.ltb_ge _ _)) by lia. f_equal; [|f_equal; lia]. destruct (Z.eqb_spec (k + 1 + Z.of_nat 0) 1), (Z.eqb_spec k 0); lia.
  - rewrite Nat2Z.inj_succ, Z.pow_succ_r in * by lia. pose proof (Z.pow_pos_nonneg 10 (Z.of_nat m) ltac:(lia) ltac:(lia)) as Hp. destruct (Z.ltb_spec 10 (d * (10 * 10 ^ Z.of_nat m) + r)) as [_|Hle].
    + rewrite Z.quot_div_nonneg by lia. replace (d * (10 * 10 ^ Z.of_nat m) + r) with (r + d * 10 ^ Z.of_nat m * 10) by lia. rewrite Z.div_add by lia.
      rewrite wrap_u_small by (unfold in_u; change (2 ^ 16) with 65536; lia).
      replace (k + 1 + Z.succ (Z.of_nat m) - 1) with (k + 1 + Z.of_nat m) by lia. rewrite Z.add_comm. apply IH; [done|dlia|lia|lia].
    + assert (d = 1) as -> by nia. rewrite (proj2 (Z.eqb_neq _ 1)) by lia. by rewrite andb_false_r.
Qed.

Lemma shrink_kept fp decimal digits : kept fp decimal digits -> decimal < 2 ^ 64 -> zlen fp < 65536 ->
  let '(decimal, digits) := shrink 20 decimal digits in (digits =? 1) && (5 <=? decimal) = round_up fp.
Proof.
  intros [(E & -> & ->)|(k & d & m & r & rest & E & Hd & Hr & -> & -> & Hk)] Hs Hl.
  - cbn [shrink]. change (10 <? 0) with false. cbn iota. rewrite andb_false_r. rewrite E. by destruct fp.
  - assert (m < 20)%nat as Hm.
    { destruct (le_lt_dec 20 m) as [Hge|]; [|done]. pose proof (Z.pow_le_mono_r 10 20 (Z.of_nat m) ltac:(lia) ltac:(lia)). change (10 ^ 20) with 100000000000000000000 in *.
      change (2 ^ 64) with 18446744073709551616 in Hs. nia. }
    unfold zlen in Hl. pose proof (shrink_leading d m r (Z.of_nat k) Hd Hr 20 Hm ltac:(lia)) as S. destruct (shrink 20 _ _) as [dec dig]. rewrite S, E.
    destruct k as [|k]; [|done]. cbn [replicate app round_up]. destruct (Z.leb_spec 5 d), (Z.leb_spec 53 (48 + d)); (done || lia).
Qed.

(** ** What a text is read as *)
Definition sign_of (negative : bool) : bytes := if negative then [chr "-"] else [].

(** A type, and the type the decimal operation stores its numbers in. *)
Lemma store_castable t negative : castable t negative -> castable (store_type t) negative /\ limit t negative <= limit (store_type t) negative
  /\ 255 <= Maximum (store_type t) < 2 ^ 64.
Proof.
  intros [Hw Hs]. unfold castable, limit, Minimum, Maximum, store_type, int_width. cbn [it_width is_signed].
  assert (negb (it_width t =? 64) = true -> 2 ^ it_width t <= 2 ^ 32 /\ 2 ^ (it_width t - 1) <= 2 ^ 31) as Hp by (destruct Hw as [->|[->|[->| ->]]]; by vm_compute).
  change (2 ^ 32) with 4294967296 in Hp. change (2 ^ 31) with 2147483648 in Hp. change (2 ^ (64 - 1)) with 9223372036854775808. change (2 ^ 64) with 18446744073709551616.
  split; [split; [by right; right; right|intros ->; by rewrite (Hs eq_refl)]|].
  destruct negative; [rewrite (Hs eq_refl)|]; cbn [orb]; destruct (Z.eqb_spec (it_width t) 64) as [E|]; try (specialize (Hp eq_refl)); rewrite ?E;
    destruct (is_signed t); cbn [orb negb]; change (2 ^ (64 - 1)) with 9223372036854775808; change (2 ^ 64) with 18446744073709551616; lia.
Qed.

Lemma decimal_Finalize_spec t negative fp state acc : castable t negative -> 0 <= acc -> cd_result state = signed_by negative acc ->
  kept fp (cd_decimal state) (cd_digits state) -> cd_decimal state < 2 ^ 64 -> zlen fp < 65536 ->
  option_map cd_result (decimal_Finalize t negative state) = try_int t (signed_by negative (acc + Z.b2z (round_up fp))).
Proof.
  intros Hc Ha E K Hs Hl. unfold decimal_Finalize. pose proof (shrink_kept _ _ _ K Hs Hl) as S. destruct (shrink 20 _ _) as [dec dig]. rewrite S, E.
  rewrite (try_int_signed t negative acc Hc Ha). destruct (round_up fp); cbn [Z.b2z].
  - rewrite (try_int_signed t negative (acc + 1) Hc ltac:(lia)). destruct (Z.leb_spec acc (limit t negative)) as [H1|H1]; cbn [mbind option_bind].
    + replace (if negative then signed_by negative acc - 1 else signed_by negative acc + 1) with (signed_by negative (acc + 1)) by (destruct negative; cbn; lia).
      rewrite (try_int_signed t negative (acc + 1) Hc ltac:(lia)). by case_match.
    + by rewrite (proj2 (Z.leb_gt _ _)) by lia.
  - rewrite Z.add_0_r, (try_int_signed t negative acc Hc Ha). by case_match.
Qed.

(** Behind a sign the digits are read; in strict mode a number has no zero in front. *)
Lemma TryIntegerCast_text {T} (op : cast_op T) zero signed allow_exponent strict negative ip rest : (negative = true -> signed = true) -> Forall is_digit ip ->
  head rest = Some (chr ".") \/ (rest = [] /\ ip <> []) -> (strict = true -> negative = false -> head ip = Some 48 -> ip = [48]) ->
  TryIntegerCast op zero signed allow_exponent strict (sign_of negative ++ ip ++ rest)
  = cast_loop op (if allow_exponent then Some (read_exponent strict) else None) negative strict true (ip ++ rest) zero.
Proof.
  intros Hs Hd Hr Hz. unfold TryIntegerCast. destruct negative; cbn [sign_of app].
  - change (drop_while CharacterIsSpace (chr "-" :: ip ++ rest)) with (chr "-" :: ip ++ rest). cbn iota. rewrite Z.eqb_refl, (Hs eq_refl). done.
  - destruct Hd as [|c ip Hc Hd]; cbn [app].
    + destruct Hr as [Hr|[_ Hr]]; [|done]. destruct rest as [|x rest]; [done|]. injection Hr as ->. by destruct rest.
    + assert (CharacterIsSpace c = false /\ (c =? chr "-") = false /\ (c =? chr "+") = false) as (H1 & H2 & H3).
      { unfold CharacterIsSpace, is_digit in *. change (chr " ") with 32. change (chr "-") with 45. change (chr "+") with 43. zbool. lia. }
      cbn [drop_while]. rewrite H1, H2. unfold IntegerCastLoop. rewrite H3.
      destruct (ip ++ rest) as [|x s] eqn:Es; [done|]. destruct (Z.eqb_spec c (chr "0")) as [E0|]; [|done].
      assert ((x =? chr "x") || (x =? chr "X") = false /\ (x =? chr "b") || (x =? chr "B") = false /\ strict && CharacterIsDigit x = false) as (-> & -> & ->); [|done].
      destruct Hd as [|d ip Hd _].
      * cbn [app] in Es. rewrite Es in Hr. destruct Hr as [[= ->]|[? _]]; [|done]. by destruct strict.
      * injection Es as <- _. unfold is_digit in Hd. change (chr "x") with 120. change (chr "X") with 88. change (chr "b") with 98. change (chr "B") with 66.
        split; [zbool; lia|]. split; [zbool; lia|]. destruct strict; [|done]. specialize (Hz eq_refl eq_refl). rewrite E0 in Hz. discriminate (Hz eq_refl).
Qed.

Lemma cast_loop_text op store t allow_exponent strict negative ip rest : OnDigit op = HandleDigit store -> castable t negative -> castable store negative -> Forall is_digit ip ->
  head rest = Some (chr ".") \/ (rest = [] /\ ip <> []) -> (strict = true -> negative = false -> head ip = Some 48 -> ip = [48]) ->
  TryIntegerCast op zero_data (is_signed t) allow_exponent strict (sign_of negative ++ ip ++ rest)
  = if digits_value ip <=? limit store negative
    then cast_loop op (if allow_exponent then Some (read_exponent strict) else None) negative strict (bool_decide (ip = [])) rest
           (with_result zero_data (signed_by negative (digits_value ip)))
    else Some None.
Proof.
  intros Hop Hc Ho Hd Hr Hz. rewrite TryIntegerCast_text by (done || apply Hc). rewrite (cast_loop_digits _ store _ _ _ ip rest Hop Ho Hd) with (acc := 0).
  - cbn [andb]. by rewrite Z.mul_0_l, Z.add_0_l.
  - by destruct Hr as [->|[-> _]].
  - pose proof (castable_limit _ _ Ho). lia.
  - by destruct negative.
Qed.

(** Digits are read as their number, when it fits. *)
Lemma cast_digits t strict negative ds : castable t negative -> Forall is_digit ds -> ds <> [] ->
  (strict = true -> negative = false -> head ds = Some 48 -> ds = [48]) ->
  TrySimpleIntegerCast t strict (sign_of negative ++ ds) = Some (try_int t (signed_by negative (digits_value ds))).
Proof.
  intros Hc Hd Hn Hz. destruct (store_castable t negative Hc) as (Hs & Hl & Hm). pose proof (digits_value_range ds Hd) as Hv.
  assert (forall op store ae, OnDigit op = HandleDigit store -> castable store negative -> TryIntegerCast op zero_data (is_signed t) ae strict (sign_of negative ++ ds)
    = if digits_value ds <=? limit store negative then Some (Finalize op negative (with_result zero_data (signed_by negative (digits_value ds)))) else Some None) as C.
  { intros op store ae Hop Ho. pose proof (cast_loop_text op store t ae strict negative ds [] Hop Hc Ho Hd (or_intror (conj eq_refl Hn)) Hz) as E. rewrite app_nil_r in E. rewrite E.
    rewrite bool_decide_eq_false_2 by done. cbn [cast_loop]. by destruct (Finalize op negative _). }
  unfold TrySimpleIntegerCast. rewrite (C (IntegerCastOperation t) t false eq_refl Hc). cbn [Finalize IntegerCastOperation stored_in].
  rewrite try_int_signed by (done || lia). destruct (Z.leb_spec (digits_value ds) (limit t negative)) as [H|H]; [done|]. cbn [mbind option_bind].
  rewrite (C (IntegerDecimalCastOperation t) (store_type t) true eq_refl Hs). cbn [Finalize IntegerDecimalCastOperation stored_in].
  destruct (digits_value ds <=? limit (store_type t) negative); [|done]. cbn [mbind option_bind].
  rewrite (decimal_Finalize_spec t negative [] _ (digits_value ds)); [|done|lia|done|by left|reflexivity|reflexivity].
  cbn [round_up Z.b2z]. rewrite Z.add_0_r, try_int_signed by (done || lia). by rewrite (proj2 (Z.leb_gt _ _)) by lia.
Qed.

(** A number that is printed has no zero in front. *)
Lemma prints_no_zero v s : prints v s -> head s = Some 48 -> s = [48].
Proof.
  intros P. pose proof (prints_nonneg _ _ P) as H0. destruct P as [Hd Hv Hz Hl]. destruct s as [|c s]; [done|]. intros [= ->].
  inversion Hd as [|? ? _ Hd']; subst. rewrite zlen_cons in *. rewrite digits_value_cons in *. pose proof (digits_value_range s Hd') as Hr.
  destruct (decide (digits_value s = 0)) as [E|E].
  - specialize (Hz ltac:(lia)). destruct s as [|d s]; [done|]. rewrite zlen_cons in Hz. pose proof (zlen_nonneg s). lia.
  - destruct (Hl ltac:(lia)) as [_ Hp]. replace (1 + zlen s - 1) with (zlen s) in Hp by lia. lia.
Qed.

(** Every integer of 8 to 64 bits survives its text: what the engine prints for it, it casts back
    to the same integer, strictly or not, the smallest integer of the type included. *)
Theorem integer_text_roundtrip w v strict : int_width w -> in_s w v ->
  exists s, FormatSigned w v = Some s /\ TrySimpleIntegerCast (IntType w true) strict s = Some (Some v).
Proof.
  intros Hw Hv. destruct (FormatSigned_prints w v Hw Hv) as (ds & E & P). exists (sign_text v ++ ds). split; [done|].
  assert (castable (IntType w true) (v <? 0)) as Hc by (split; [done|done]). pose proof (prints_pos _ _ P) as Hp.
  change (sign_text v) with (sign_of (v <? 0)). rewrite (cast_digits _ _ _ _ Hc (prints_digits _ _ P)).
  - rewrite (prints_value _ _ P), try_int_signed by (done || lia). unfold in_s in Hv. unfold limit, signed_by, Minimum, Maximum. cbn [is_signed it_width].
    destruct (Z.ltb_spec v 0); (rewrite (proj2 (Z.leb_le _ _)) by lia); do 2 f_equal; lia.
  - intros ->. done.
  - intros _ _. by apply (prints_no_zero _ _ P).
Qed.

Lemma integer_text_roundtrip_witness : exists s, FormatSigned 64 (- 2 ^ 63) = Some s /\ TrySimpleIntegerCast (IntType 64 true) true s = Some (Some (- 2 ^ 63)).
Proof. apply (integer_text_roundtrip 64 (- 2 ^ 63) true); [by right; right; right|]. unfold in_s. by vm_compute. Defined.

(** ** Rounding *)
Lemma round_half ip fp : Forall is_digit fp ->
  (2 * digits_value (ip ++ fp) + 10 ^ zlen fp) / (2 * 10 ^ zlen fp) = digits_value ip + Z.b2z (round_up fp).
Proof.
  intros Hf. rewrite digits_value_app. set (i := digits_value ip). destruct Hf as [|c fp Hc Hf].
  - change (digits_value []) with 0. rewrite zlen_nil. change (10 ^ 0) with 1. cbn [round_up Z.b2z]. dlia.
  - pose proof (digits_value_range fp Hf) as Hr. rewrite digits_value_cons, zlen_cons, Z.pow_add_r by (lia || apply zlen_nonneg). change (10 ^ 1) with 10.
    set (p := 10 ^ zlen fp) in *. set (r := digits_value fp) in *. unfold is_digit in Hc. cbn [round_up].
    symmetry. destruct (Z.leb_spec 53 c); cbn [Z.b2z].
    + apply (Z.div_unique _ _ _ (2 * ((c - 48) * p + r) - 10 * p)); [left; nia|nia].
    + apply (Z.div_unique _ _ _ (2 * ((c - 48) * p + r) + 10 * p)); [left; nia|nia].
Qed.

(** The simple cast accepts a text with a point when there is no digit behind it. *)
Lemma simple_cast_point t negative ip fp : castable t negative -> Forall is_digit ip -> Forall is_digit fp -> ip ++ fp <> [] ->
  TryIntegerCast (IntegerCastOperation t) zero_data (is_signed t) false false (decimal_text negative ip fp)
  = Some (if bool_decide (fp = []) && (digits_value ip <=? limit t negative) then Some (with_result zero_data (signed_by negative (digits_value ip))) else None).
Proof.
  intros Hc Hi Hf Hn. unfold decimal_text. change (if negative then [chr "-"] else []) with (sign_of negative).
  rewrite (cast_loop_text (IntegerCastOperation t) t t false false negative ip (chr "." :: fp) eq_refl Hc Hc Hi (or_introl eq_refl)) by done.
  rewrite andb_comm. destruct (digits_value ip <=? limit t negative); [|done]. cbn [andb].
  destruct Hf as [|c fp Hcd Hf].
  - rewrite app_nil_r in Hn. rewrite (bool_decide_eq_true_2 ([] = [])), (bool_decide_eq_false_2 (ip = [])) by done. done.
  - rewrite (bool_decide_eq_false_2 (c :: fp = [])) by done. cbn [cast_loop decimal_loop]. change (CharacterIsDigit (chr ".")) with false. cbn [negb].
    rewrite Z.eqb_refl, (proj1 (digit_is c Hcd)). done.
Qed.


