(* ===== verification/Hugeint.v ===== *)
(** * 128-bit integers ([duckdb/src/common/types/hugeint.cpp], [include/duckdb/common/types/hugeint.hpp])

    HUGEINT, which also holds the decimals of more than 18 digits, is two words with an
    arithmetic of its own. The functions here work on the words as the code does; the
    theorems say which integers the words stand for. Of two nested [option]s the outer one is signed
    overflow, the inner one a refusal. The checked product is that of
    compilers with 128-bit integers and that of the portable branch, the unchecked one only the
    first. Casts to and from floating point are left out. *)

From S2P Require Import Prelude Digits IntegerText.

(** ** The words *)
Record hugeint_t := MkHuge { lower : Z; upper : Z }.

#[export] Instance hugeint_dec : EqDecision hugeint_t.
Proof. solve_decision. Defined.

Definition uint64 : int_type := IntType 64 false.

(** [HugeintConvertInteger], which is [Hugeint::Convert] of a smaller integer. *)
Definition HugeintConvertInteger (input : Z) : hugeint_t := MkHuge (u64 input) (Z.b2z (input <? 0) * -1).

Definition huge_Minimum : hugeint_t := MkHuge 0 (Minimum int64).

(** ** Comparisons *)
Definition Equals (lhs rhs : hugeint_t) : bool := (lower lhs =? lower rhs) && (upper lhs =? upper rhs).
Definition NotEquals (lhs rhs : hugeint_t) : bool := negb (Equals lhs rhs).
Definition GreaterThan (lhs rhs : hugeint_t) : bool := (upper rhs <? upper lhs) || ((upper lhs =? upper rhs) && (lower rhs <? lower lhs)).
Definition GreaterThanEquals (lhs rhs : hugeint_t) : bool := (upper rhs <? upper lhs) || ((upper lhs =? upper rhs) && (lower rhs <=? lower lhs)).
Definition LessThan (lhs rhs : hugeint_t) : bool := (upper lhs <? upper rhs) || ((upper lhs =? upper rhs) && (lower lhs <? lower rhs)).
Definition LessThanEquals (lhs rhs : hugeint_t) : bool := (upper lhs <? upper rhs) || ((upper lhs =? upper rhs) && (lower lhs <=? lower rhs)).

(** ** Negation *)

(** [NegateInPlace<false>] *)
Definition NegateInPlace_unchecked (input : hugeint_t) : option hugeint_t :=
  let low := u64 (u64 (Maximum uint64 - lower input) + 1) in
  high ← try_int int64 (-1 - upper input);
  high ← try_int int64 (high + Z.b2z (low =? 0));
  Some (MkHuge low high).

Definition TryNegate (input : hugeint_t) : option (option hugeint_t) :=
  if (upper input =? Minimum int64) && (lower input =? 0) then Some None
  else result ← NegateInPlace_unchecked input; Some (Some result).

(** ** Addition and subtraction *)
Definition TryAddInPlace (lhs rhs : hugeint_t) : option (option hugeint_t) :=
  let overflow := Z.b2z (u64 (lower lhs + lower rhs) <? lower lhs) in
  if 0 <=? upper rhs then
    bound ← try_int int64 (Maximum int64 - upper rhs - overflow);
    if bound <? upper lhs then Some None
    else
      high ← try_int int64 (upper lhs + overflow);
      high ← try_int int64 (high + upper rhs);
      Some (Some (MkHuge (u64 (lower lhs + lower rhs)) high))
  else
    bound ← try_int int64 (Minimum int64 - upper rhs);
    bound ← try_int int64 (bound - overflow);
    if upper lhs <? bound then Some None
    else
      high ← try_int int64 (upper lhs + (overflow + upper rhs));
      Some (Some (MkHuge (u64 (lower lhs + lower rhs)) high)).

Definition TrySubtractInPlace (lhs rhs : hugeint_t) : option (option hugeint_t) :=
  let underflow := Z.b2z (lower lhs <? u64 (lower lhs - lower rhs)) in
  if 0 <=? upper rhs then
    bound ← try_int int64 (Minimum int64 + upper rhs + underflow);
    if upper lhs <? bound then Some None
    else
      high ← try_int int64 (upper lhs - upper rhs);
      high ← try_int int64 (high - underflow);
      Some (Some (MkHuge (u64 (lower lhs - lower rhs)) high))
  else
    refused ← (if Minimum int64 <? upper lhs then
                 bound ← try_int int64 (Maximum int64 + upper rhs + underflow); Some (bound <=? upper lhs - 1)
               else Some false);
    if refused : bool then Some None
    else
      high ← try_int int64 (upper lhs - (upper rhs + underflow));
      Some (Some (MkHuge (u64 (lower lhs - lower rhs)) high)).

(** [operator+], [operator-], without a test for overflow; the sums of the upper words are
    signed. *)
Definition huge_add (lhs rhs : hugeint_t) : option hugeint_t :=
  high ← try_int int64 (upper lhs + upper rhs);
  high ← try_int int64 (high + Z.b2z (u64 (lower lhs + lower rhs) <? lower lhs));
  Some (MkHuge (u64 (lower lhs + lower rhs)) high).

Definition huge_sub (lhs rhs : hugeint_t) : option hugeint_t :=
  high ← try_int int64 (upper lhs - upper rhs);
  high ← try_int int64 (high - Z.b2z (lower lhs <? u64 (lower lhs - lower rhs)));
  Some (MkHuge (u64 (lower lhs - lower rhs)) high).

(** ** Multiplication *)

(** The words as one of 128 bits, without a sign. *)
Definition uint128 (h : hugeint_t) : Z := wrap_u 128 (lower h + wrap_u 128 (Z.shiftl (wrap_u 128 (upper h)) 64)).

(** The product of two numbers that are not negative, with 128-bit integers. *)
Definition multiply_i128 (lhs rhs : hugeint_t) : option hugeint_t :=
  let product := uint128 lhs * uint128 rhs in
  if 2 ^ 128 <=? product then None
  else
    let high := u64 (Z.shiftr product 64) in
    if negb (Z.land high 0x8000000000000000 =? 0) then None
    else Some (MkHuge (Z.land product 0xffffffffffffffff) (s64 high)).

(** The same in four parts of 32 bits; [products x y] is the product of the parts. *)
Definition part (h : hugeint_t) (x : nat) : Z :=
  match x with
  | 0%nat => Z.shiftr (u64 (upper h)) 32
  | 1%nat => Z.land (u64 (upper h)) 0xffffffff
  | 2%nat => Z.shiftr (lower h) 32
  | _ => Z.land (lower h) 0xffffffff
  end.

Definition low32 (z : Z) : Z := Z.land z 0xffffffff.
Definition high32 (z : Z) : Z := Z.shiftr z 32.

(** The rows of products added up, most significant first, and the carries moved. *)
Definition merge_products (products : nat -> nat -> Z) : Z * Z * Z * Z :=
  let fourth32 := low32 (products 3%nat 3%nat) in
  let third32 := u64 (low32 (products 3%nat 2%nat) + high32 (products 3%nat 3%nat)) in
  let second32 := u64 (low32 (products 3%nat 1%nat) + high32 (products 3%nat 2%nat)) in
  let first32 := u64 (low32 (products 3%nat 0%nat) + high32 (products 3%nat 1%nat)) in
  let third32 := u64 (third32 + low32 (products 2%nat 3%nat)) in
  let second32 := u64 (second32 + (low32 (products 2%nat 2%nat) + high32 (products 2%nat 3%nat))) in
  let first32 := u64 (first32 + (low32 (products 2%nat 1%nat) + high32 (products 2%nat 2%nat))) in
  let second32 := u64 (second32 + low32 (products 1%nat 3%nat)) in
  let first32 := u64 (first32 + (low32 (products 1%nat 2%nat) + high32 (products 1%nat 3%nat))) in
  let first32 := u64 (first32 + low32 (products 0%nat 3%nat)) in
  let third32 := u64 (third32 + high32 fourth32) in
  let second32 := u64 (second32 + high32 third32) in
  let first32 := u64 (first32 + high32 second32) in
  (first32, second32, third32, fourth32).

Definition combine_parts (first32 second32 third32 fourth32 : Z) : hugeint_t :=
  MkHuge (Z.lor (u64 (Z.shiftl (low32 third32) 32)) (low32 fourth32)) (s64 (Z.lor (u64 (Z.shiftl (low32 first32) 32)) (low32 second32))).

Definition multiply_parts (lhs rhs : hugeint_t) : option hugeint_t :=
  let products x y := u64 (part lhs x * part rhs y) in
  let set z := negb (z =? 0) in
  if set (products 0 0)%nat || set (products 0 1)%nat || set (products 0 2)%nat || set (products 1 0)%nat || set (products 2 0)%nat || set (products 1 1)%nat
  then None
  else
    let high z := negb (Z.land z 0xffffffff80000000 =? 0) in
    if high (products 0 3)%nat || high (products 1 2)%nat || high (products 2 1)%nat || high (products 3 0)%nat then None
    else
      let '(first32, second32, third32, fourth32) := merge_products products in
      if negb (Z.land first32 0xffffff80000000 =? 0) then None
      else Some (combine_parts first32 second32 third32 fourth32).

(** [TryMultiply], over the product of the magnitudes. *)
Definition TryMultiply_by (multiply : hugeint_t -> hugeint_t -> option hugeint_t) (lhs rhs : hugeint_t) : option (option hugeint_t) :=
  let zero := HugeintConvertInteger 0 in
  let one := HugeintConvertInteger 1 in
  if Equals lhs huge_Minimum || Equals rhs huge_Minimum then
    if Equals lhs zero || Equals rhs zero then Some (Some zero)
    else if Equals lhs one || Equals rhs one then Some (Some huge_Minimum)
    else Some None
  else
    let lhs_negative := upper lhs <? 0 in
    let rhs_negative := upper rhs <? 0 in
    l ← (if lhs_negative then TryNegate lhs else Some (Some lhs));
    match l with
    | None => Some None
    | Some lhs =>
        r ← (if rhs_negative then TryNegate rhs else Some (Some rhs));
        match r with
        | None => Some None
        | Some rhs =>
            match multiply lhs rhs with
            | None => Some None
            | Some result =>
                result ← (if xorb lhs_negative rhs_negative then NegateInPlace_unchecked result else Some result);
                Some (Some result)
            end
        end
    end.

Definition TryMultiply : hugeint_t -> hugeint_t -> option (option hugeint_t) := TryMultiply_by multiply_i128.

(** [Multiply<false>] *)
Definition Multiply_unchecked (lhs rhs : hugeint_t) : option hugeint_t :=
  let lhs_negative := upper lhs <? 0 in
  let rhs_negative := upper rhs <? 0 in
  lhs ← (if lhs_negative then NegateInPlace_unchecked lhs else Some lhs);
  rhs ← (if rhs_negative then NegateInPlace_unchecked rhs else Some rhs);
  let product := wrap_u 128 (uint128 lhs * uint128 rhs) in
  let result := MkHuge (Z.land product 0xffffffffffffffff) (s64 (u64 (Z.shiftr product 64))) in
  if xorb lhs_negative rhs_negative then NegateInPlace_unchecked result else Some result.

(** ** Division *)

(** The number of bits up to the highest one that is set; 64 rounds are enough. *)
Fixpoint count_bits (fuel : nat) (n : Z) : Z :=
  match fuel with
  | O => 0
  | S fuel => if n =? 0 then 0 else 1 + count_bits fuel (Z.shiftr n 1)
  end.

Definition PositiveHugeintHighestBit (bits : hugeint_t) : Z :=
  if negb (upper bits =? 0) then u8 (64 + count_bits 64 (u64 (upper bits))) else count_bits 64 (lower bits).

Definition PositiveHugeintIsBitSet (lhs : hugeint_t) (bit_position : Z) : bool :=
  if bit_position <? 64 then negb (Z.land (lower lhs) (Z.shiftl 1 bit_position) =? 0)
  else negb (Z.land (u64 (upper lhs)) (Z.shiftl 1 (bit_position - 64)) =? 0).

Definition PositiveHugeintLeftShift (lhs : hugeint_t) (amount : Z) : hugeint_t :=
  MkHuge (u64 (Z.shiftl (lower lhs) amount))
    (s64 (u64 (u64 (Z.shiftl (u64 (upper lhs)) amount) + Z.shiftr (lower lhs) (64 - amount)))).

(** [DivModPositive]: quotient and remainder bit by bit; the remainder is one word. *)
Fixpoint divmod_positive_loop (x : nat) (lhs : hugeint_t) (rhs : Z) (div_result : hugeint_t) (remainder : Z) : option (hugeint_t * Z) :=
  match x with
  | O => Some (div_result, remainder)
  | S x =>
      let div_result := PositiveHugeintLeftShift div_result 1 in
      let remainder := u64 (Z.shiftl remainder 1) in
      let remainder := if PositiveHugeintIsBitSet lhs (Z.of_nat x) then u64 (remainder + 1) else remainder in
      if rhs <=? remainder then
        let low := u64 (lower div_result + 1) in
        high ← (if low =? 0 then try_int int64 (upper div_result + 1) else Some (upper div_result));
        divmod_positive_loop x lhs rhs (MkHuge low high) (u64 (remainder - rhs))
      else divmod_positive_loop x lhs rhs div_result remainder
  end.

Definition DivModPositive (lhs : hugeint_t) (rhs : Z) : option (hugeint_t * Z) :=
  divmod_positive_loop (Z.to_nat (PositiveHugeintHighestBit lhs)) lhs rhs (MkHuge 0 0) 0.

(** The loop of [DivMod], over magnitudes. *)
Fixpoint divmod_loop (x : nat) (lhs rhs div_result remainder : hugeint_t) : option (hugeint_t * hugeint_t) :=
  match x with
  | O => Some (div_result, remainder)
  | S x =>
      let div_result := PositiveHugeintLeftShift div_result 1 in
      let remainder := PositiveHugeintLeftShift remainder 1 in
      remainder ← (if PositiveHugeintIsBitSet lhs (Z.of_nat x) then huge_add remainder (HugeintConvertInteger 1) else Some remainder);
      if GreaterThanEquals remainder rhs then
        remainder ← huge_sub remainder rhs;
        div_result ← huge_add div_result (HugeintConvertInteger 1);
        divmod_loop x lhs rhs div_result remainder
      else divmod_loop x lhs rhs div_result remainder
  end.

(** [DivMod] when neither side is the minimum. *)
Definition divmod_signed (lhs rhs : hugeint_t) : option (hugeint_t * hugeint_t) :=
  let lhs_negative := upper lhs <? 0 in
  let rhs_negative := upper rhs <? 0 in
  lhs ← (if lhs_negative then NegateInPlace_unchecked lhs else Some lhs);
  rhs ← (if rhs_negative then NegateInPlace_unchecked rhs else Some rhs);
  '(div_result, remainder) ← divmod_loop (Z.to_nat (PositiveHugeintHighestBit lhs)) lhs rhs (MkHuge 0 0) (MkHuge 0 0);
  div_result ← (if xorb lhs_negative rhs_negative then NegateInPlace_unchecked div_result else Some div_result);
  remainder ← (if lhs_negative then NegateInPlace_unchecked remainder else Some remainder);
  Some (div_result, remainder).

(** [Sign], [Abs] *)
Definition Sign (n : hugeint_t) : Z :=
  Z.b2z (GreaterThan n (HugeintConvertInteger 0)) - Z.b2z (LessThan n (HugeintConvertInteger 0)).
Definition Abs (n : hugeint_t) : option hugeint_t := Multiply_unchecked n (HugeintConvertInteger (Sign n)).

Definition DivModMinimum (lhs rhs : hugeint_t) : option (hugeint_t * hugeint_t) :=
  if Equals rhs huge_Minimum then
    if Equals lhs huge_Minimum then Some (HugeintConvertInteger 1, HugeintConvertInteger 0)
    else Some (HugeintConvertInteger 0, lhs)
  else
    lhs ← huge_add huge_Minimum (HugeintConvertInteger 1);
    '(result, remainder) ← (if Equals rhs (HugeintConvertInteger 0) then Some (HugeintConvertInteger 0, lhs) else divmod_signed lhs rhs);
    a ← Abs remainder;
    a ← huge_add a (HugeintConvertInteger 1);
    b ← Abs rhs;
    if Equals a b then
      result ← huge_sub result (HugeintConvertInteger (Sign rhs));
      Some (result, HugeintConvertInteger 0)
    else
      remainder ← huge_sub remainder (HugeintConvertInteger 1);
      Some (result, remainder).

Definition DivMod (lhs rhs : hugeint_t) : option (hugeint_t * hugeint_t) :=
  if Equals rhs (HugeintConvertInteger 0) then Some (HugeintConvertInteger 0, lhs)
  else if Equals lhs huge_Minimum || Equals rhs huge_Minimum then DivModMinimum lhs rhs
  else divmod_signed lhs rhs.

Definition TryDivMod (lhs rhs : hugeint_t) : option (option (hugeint_t * hugeint_t)) :=
  if Equals rhs (HugeintConvertInteger 0) then Some None
  else if Equals lhs huge_Minimum && Equals rhs (HugeintConvertInteger (-1)) then Some None
  else r ← DivMod lhs rhs; Some (Some r).

(** ** Casts *)

(** [HugeintTryCastInteger] to a smaller type. *)
Definition HugeintTryCastInteger (t : int_type) (input : hugeint_t) : option Z :=
  if upper input =? 0 then if lower input <=? Maximum t then Some (lower input) else None
  else if upper input =? -1 then
    if negb (is_signed t) then None
    else if Maximum uint64 - Maximum t <=? lower input then Some (- (Maximum uint64 - lower input) - 1) else None
  else None.

(** [NarrowCast], which truncates. *)
Definition NarrowCast (t : int_type) (input : hugeint_t) : Z :=
  if is_signed t then wrap_s (it_width t) (lower input) else wrap_u (it_width t) (lower input).

(** ** Shifts and bits *)
Definition huge_shiftr (n rhs : hugeint_t) : hugeint_t :=
  let shift := lower rhs in
  let sign := if upper n <? 0 then -1 else 0 in
  if negb (upper rhs =? 0) || (128 <=? shift) then HugeintConvertInteger 0
  else if shift =? 0 then n
  else if shift =? 64 then MkHuge (u64 (upper n)) sign
  else if shift <? 64 then
    MkHuge (Z.lor (u64 (Z.shiftl (u64 (upper n)) (64 - shift))) (Z.shiftr (lower n) shift)) (Z.shiftr (upper n) shift)
  else MkHuge (u64 (Z.shiftr (upper n) (shift - 64))) sign.

Definition huge_shiftl (n rhs : hugeint_t) : hugeint_t :=
  let shift := lower rhs in
  if upper n <? 0 then HugeintConvertInteger 0
  else if negb (upper rhs =? 0) || (128 <=? shift) then HugeintConvertInteger 0
  else if shift =? 64 then MkHuge 0 (s64 (lower n))
  else if shift =? 0 then n
  else if shift <? 64 then
    let upper_shift := Z.land (u64 (u64 (Z.shiftl (u64 (upper n)) shift) + Z.shiftr (lower n) (64 - shift))) 0x7fffffffffffffff in
    MkHuge (u64 (Z.shiftl (lower n) shift)) (s64 upper_shift)
  else MkHuge 0 (s64 (Z.land (u64 (Z.shiftl (lower n) (shift - 64))) 0x7fffffffffffffff)).

Definition huge_and (n rhs : hugeint_t) : hugeint_t := MkHuge (Z.land (lower n) (lower rhs)) (Z.land (upper n) (upper rhs)).
Definition huge_or (n rhs : hugeint_t) : hugeint_t := MkHuge (Z.lor (lower n) (lower rhs)) (Z.lor (upper n) (upper rhs)).
Definition huge_xor (n rhs : hugeint_t) : hugeint_t := MkHuge (Z.lxor (lower n) (lower rhs)) (Z.lxor (upper n) (upper rhs)).
Definition huge_not (n : hugeint_t) : hugeint_t := MkHuge (u64 (Z.lnot (lower n))) (Z.lnot (upper n)).

(** ** Printing *)
Definition HUGEINT_MINIMUM_STRING : bytes := B"-170141183460469231731687303715884105728".

(** The digits from the last one; 39 are enough. *)
Fixpoint huge_digits (fuel : nat) (input : hugeint_t) (result : bytes) : option bytes :=
  if (lower input =? 0) && (upper input =? 0) then Some result
  else match fuel with
  | O => None
  | S fuel => '(input, remainder) ← DivModPositive input 10; huge_digits fuel input (chr "0" + remainder :: result)
  end.

Definition Hugeint_ToString (input : hugeint_t) : option bytes :=
  if Equals input huge_Minimum then Some HUGEINT_MINIMUM_STRING
  else
    let negative := upper input <? 0 in
    input ← (if negative then n ← TryNegate input; n else Some input);
    result ← huge_digits 39 input [];
    if bool_decide (result = []) then Some (B"0") else Some (if negative then chr "-" :: result else result).

(** ** The integers the words stand for *)

(** The two words of an integer. *)
Definition of_Z (z : Z) : hugeint_t := MkHuge (z mod 2 ^ 64) (z / 2 ^ 64).

Definition int128 : int_type := IntType 128 true.

Example huge_text : Hugeint_ToString (of_Z (-12345678901234567890123456789)) = Some (B"-12345678901234567890123456789").
Proof. vm_compute. reflexivity. Qed.
Example huge_products : (TryMultiply (of_Z (10 ^ 19)) (of_Z (- 10 ^ 19)), TryMultiply_by multiply_parts (of_Z (10 ^ 19)) (of_Z (- 10 ^ 19)))
  = (Some (Some (of_Z (- 10 ^ 38))), Some (Some (of_Z (- 10 ^ 38)))).
Proof. vm_compute. reflexivity. Qed.
(** The product that is the minimum is refused. *)
Example huge_minimum_refused : TryMultiply (of_Z (- 2 ^ 126)) (of_Z 2) = Some None.
Proof. vm_compute. reflexivity. Qed.
(** The sum is the minimum, but the sum of the upper words overflows on the way. *)
Example huge_sum_undefined : huge_add (of_Z (- 2 ^ 127 + 1)) (of_Z (-1)) = None.
Proof. vm_compute. reflexivity. Qed.
Example huge_divisions : map (fun '(a, b) => TryDivMod (of_Z a) (of_Z b)) [(- 2 ^ 127, 3); (- 2 ^ 127, -1); (2 ^ 127 - 1, - 2 ^ 127); (7, -2); (- 2 ^ 127, 2 ^ 126); (5, 0)]
  = [Some (Some (of_Z (Z.quot (- 2 ^ 127) 3), of_Z (Z.rem (- 2 ^ 127) 3))); Some None; Some (Some (of_Z 0, of_Z (2 ^ 127 - 1))); Some (Some (of_Z (-3), of_Z 1));
     Some (Some (of_Z (-2), of_Z 0)); Some None].
Proof. vm_compute. reflexivity. Qed.

Lemma words_of l u z : 0 <= l < 2 ^ 64 -> u * 2 ^ 64 + l = z -> MkHuge l u = of_Z z.
Proof.
  intros Hl <-. unfold of_Z. f_equal.
  - rewrite Z.add_comm, Z.mod_add, Z.mod_small; lia.
  - rewrite Z.div_add_l, Z.div_small; lia.
Qed.

Lemma of_Z_words z : in_s 128 z ->
  exists l u, of_Z z = MkHuge l u /\ 0 <= l < 2 ^ 64 /\ - 2 ^ 63 <= u < 2 ^ 63 /\ z = u * 2 ^ 64 + l.
Proof. unfold in_s. intros Hz. exists (z mod 2 ^ 64), (z / 2 ^ 64). split; [done|]. dlia. Qed.

Lemma try_int_ok t z : Minimum t <= z <= Maximum t -> try_int t z = Some z.
Proof. intros H. unfold try_int. by rewrite !(proj2 (Z.leb_le _ _)) by lia. Qed.

Lemma try_int64_ok z : - 2 ^ 63 <= z < 2 ^ 63 -> try_int int64 z = Some z.
Proof. intros H. apply try_int_ok. change (Minimum int64) with (- 2 ^ 63). change (Maximum int64) with (2 ^ 63 - 1). lia. Qed.

Ltac max64 := change (Minimum int64) with (-9223372036854775808) in *; change (Maximum int64) with 9223372036854775807 in *;
  change (Maximum uint64) with 18446744073709551615 in *; change (2 ^ 64) with 18446744073709551616 in *; change (2 ^ 63) with 9223372036854775808 in *.

(** The carry of a sum of words, and the borrow of a difference. *)
Lemma u64_carry a b : 0 <= a < 2 ^ 64 -> 0 <= b < 2 ^ 64 ->
  let c := Z.b2z (u64 (a + b) <? a) in 0 <= c <= 1 /\ 0 <= u64 (a + b) < 2 ^ 64 /\ u64 (a + b) + c * 2 ^ 64 = a + b.
Proof. intros Ha Hb. unfold wrap_u. max64. destruct (Z.ltb_spec ((a + b) mod 18446744073709551616) a); cbn; dlia. Qed.

Lemma u64_borrow a b : 0 <= a < 2 ^ 64 -> 0 <= b < 2 ^ 64 ->
  let c := Z.b2z (a <? u64 (a - b)) in 0 <= c <= 1 /\ 0 <= u64 (a - b) < 2 ^ 64 /\ u64 (a - b) - c * 2 ^ 64 = a - b.
Proof. intros Ha Hb. unfold wrap_u. max64. destruct (Z.ltb_spec a ((a - b) mod 18446744073709551616)); cbn; dlia. Qed.

(** Both operands as words. *)
Ltac words x := let l := fresh "l" in let u := fresh "u" in let E := fresh "E" in let Hl := fresh "Hl" in let Hu := fresh "Hu" in let Ez := fresh "Ez" in
  match goal with H : in_s 128 x |- _ => destruct (of_Z_words x H) as (l & u & E & Hl & Hu & Ez); rewrite ?E end.

(** ** Comparisons *)
Lemma Equals_spec x y : Equals (of_Z x) (of_Z y) = (x =? y).
Proof.
  unfold Equals, of_Z. cbn [lower upper]. max64. destruct (Z.eqb_spec x y) as [->|]; [by rewrite !Z.eqb_refl|].
  apply not_true_is_false. intros [?%Z.eqb_eq ?%Z.eqb_eq]%andb_prop. dlia.
Qed.

Lemma compare_words x y : (x / 2 ^ 64 <? y / 2 ^ 64) || ((x / 2 ^ 64 =? y / 2 ^ 64) && (x mod 2 ^ 64 <? y mod 2 ^ 64)) = (x <? y)
  /\ (x / 2 ^ 64 <? y / 2 ^ 64) || ((x / 2 ^ 64 =? y / 2 ^ 64) && (x mod 2 ^ 64 <=? y mod 2 ^ 64)) = (x <=? y).
Proof.
  max64. destruct (Z.ltb_spec (x / 18446744073709551616) (y / 18446744073709551616)), (Z.eqb_spec (x / 18446744073709551616) (y / 18446744073709551616)),
    (Z.ltb_spec (x mod 18446744073709551616) (y mod 18446744073709551616)), (Z.leb_spec (x mod 18446744073709551616) (y mod 18446744073709551616)),
    (Z.ltb_spec x y), (Z.leb_spec x y); cbn; split; try done; exfalso; dlia.
Qed.

(** The comparisons of the words are those of the integers. *)
Lemma huge_comparisons x y :
  LessThan (of_Z x) (of_Z y) = (x <? y) /\ LessThanEquals (of_Z x) (of_Z y) = (x <=? y)
  /\ GreaterThan (of_Z x) (of_Z y) = (y <? x) /\ GreaterThanEquals (of_Z x) (of_Z y) = (y <=? x).
Proof.
  unfold LessThan, LessThanEquals, GreaterThan, GreaterThanEquals, of_Z. cbn [lower upper].
  rewrite (Z.eqb_sym (x / 2 ^ 64)). destruct (compare_words x y) as [E1 E2]. destruct (compare_words y x) as [E3 E4].
  rewrite (Z.eqb_sym (x / 2 ^ 64)) in E1, E2. by rewrite E1, E2, E3, E4.
Qed.

Lemma HugeintConvertInteger_spec z : - 2 ^ 64 <= z < 2 ^ 64 -> HugeintConvertInteger z = of_Z z.
Proof.
  intros Hz. unfold HugeintConvertInteger, wrap_u. apply words_of; max64; [dlia|]. destruct (Z.ltb_spec z 0); cbn [Z.b2z]; dlia.
Qed.

Lemma huge_Minimum_spec : huge_Minimum = of_Z (- 2 ^ 127).
Proof. reflexivity. Qed.

Lemma upper_sign x : (upper (of_Z x) <? 0) = (x <? 0).
Proof. unfold of_Z. cbn [upper]. max64. destruct (Z.ltb_spec x 0), (Z.ltb_spec (x / 18446744073709551616) 0); try done; dlia. Qed.

(** ** Sums *)
Lemma NegateInPlace_spec x : in_s 128 x -> x <> - 2 ^ 127 -> NegateInPlace_unchecked (of_Z x) = Some (of_Z (- x)).
Proof.
  intros Hx Hm. words x. unfold NegateInPlace_unchecked. cbn [lower upper]. rewrite try_int64_ok by lia. cbn [mbind option_bind].
  change (2 ^ 127) with 170141183460469231731687303715884105728 in *.
  assert (u64 (u64 (Maximum uint64 - l) + 1) = (- l) mod 2 ^ 64) as ->.
  { unfold wrap_u. max64. dlia. }
  destruct (Z.eqb_spec ((- l) mod 2 ^ 64) 0); cbn [Z.b2z]; (rewrite try_int64_ok by (max64; dlia)); cbn [mbind option_bind]; f_equal; apply words_of; max64; dlia.
Qed.

Lemma TryNegate_spec x : in_s 128 x -> TryNegate (of_Z x) = Some (option_map of_Z (try_int int128 (- x))).
Proof.
  intros Hx. unfold TryNegate.
  assert ((upper (of_Z x) =? Minimum int64) && (lower (of_Z x) =? 0) = (x =? - 2 ^ 127)) as ->.
  { rewrite andb_comm. exact (Equals_spec x (- 2 ^ 127)). }
  unfold try_int. change (Minimum int128) with (- 2 ^ 127). change (Maximum int128) with (2 ^ 127 - 1). unfold in_s in Hx. change (2 ^ (128 - 1)) with (2 ^ 127) in Hx.
  destruct (Z.eqb_spec x (- 2 ^ 127)) as [->|Hn]; [done|]. rewrite NegateInPlace_spec by done. cbn [mbind option_bind].
  by rewrite !(proj2 (Z.leb_le _ _)) by lia.
Qed.

(** A number of two words fits when the upper one does. *)
Lemma try_int128_words s h z : 0 <= s < 2 ^ 64 -> h * 2 ^ 64 + s = z ->
  option_map of_Z (try_int int128 z) = option_map (MkHuge s) (try_int int64 h).
Proof.
  intros Hs E. rewrite <- E. unfold try_int. change (Minimum int128) with (-170141183460469231731687303715884105728).
  change (Maximum int128) with 170141183460469231731687303715884105727. max64.
  destruct (Z.leb_spec (-9223372036854775808) h), (Z.leb_spec h 9223372036854775807), (Z.leb_spec (-170141183460469231731687303715884105728) (h * 18446744073709551616 + s)),
    (Z.leb_spec (h * 18446744073709551616 + s) 170141183460469231731687303715884105727); try (exfalso; lia); cbn [andb option_map]; try done.
  f_equal. symmetry. by apply words_of.
Qed.

Lemma try_int64_high h : 2 ^ 63 <= h -> try_int int64 h = None.
Proof. intros H. unfold try_int. max64. rewrite (proj2 (Z.leb_gt h _)), andb_false_r by lia. done. Qed.
Lemma try_int64_low h : h < - 2 ^ 63 -> try_int int64 h = None.
Proof. intros H. unfold try_int. max64. rewrite (proj2 (Z.leb_gt _ h)) by lia. done. Qed.

(** The next checked word, in range or not. *)
Ltac checked := match goal with
  | |- context [try_int int64 ?h] => first [rewrite (try_int64_ok h) by (max64; lia) | rewrite (try_int64_high h) by (max64; lia) | rewrite (try_int64_low h) by (max64; lia)]
  end; cbn [mbind option_bind option_map].
Ltac compare := match goal with
  | |- context [(?a <? ?b)%Z] => destruct (Z.ltb_spec a b)
  | |- context [(?a <=? ?b)%Z] => destruct (Z.leb_spec a b)
  end.

Lemma TryAddInPlace_spec x y : in_s 128 x -> in_s 128 y -> TryAddInPlace (of_Z x) (of_Z y) = Some (option_map of_Z (try_int int128 (x + y))).
Proof.
  intros Hx Hy. words x. words y. unfold TryAddInPlace. cbn [lower upper]. destruct (u64_carry l l0 Hl Hl0) as (Hc & Hr & Es). cbv zeta.
  set (c := Z.b2z _) in *. set (s := u64 (l + l0)) in *. clearbody c s. rewrite (try_int128_words s (u + u0 + c)) by lia.
  compare; repeat checked; max64; compare; repeat checked; try done; do 3 f_equal; lia.
Qed.

Lemma TrySubtractInPlace_spec x y : in_s 128 x -> in_s 128 y -> TrySubtractInPlace (of_Z x) (of_Z y) = Some (option_map of_Z (try_int int128 (x - y))).
Proof.
  intros Hx Hy. words x. words y. unfold TrySubtractInPlace. cbn [lower upper]. destruct (u64_borrow l l0 Hl Hl0) as (Hc & Hr & Es). cbv zeta.
  set (c := Z.b2z _) in *. set (s := u64 (l - l0)) in *. clearbody c s. rewrite (try_int128_words s (u - u0 - c)) by lia.
  compare; repeat checked; max64; compare; repeat checked; max64; repeat (compare; repeat checked; max64); cbn iota; repeat checked; try done; do 3 f_equal; lia.
Qed.

(** The sum without a test, for numbers that are not too far apart from zero. *)
Lemma huge_add_spec x y : in_s 128 x -> in_s 128 y -> in_s 128 (x + y) -> 0 <= y -> huge_add (of_Z x) (of_Z y) = Some (of_Z (x + y)).
Proof.
  intros Hx Hy Hz Hp. unfold in_s in Hz. change (2 ^ (128 - 1)) with 170141183460469231731687303715884105728 in Hz. words x. words y. unfold huge_add. cbn [lower upper].
  destruct (u64_carry l l0 Hl Hl0) as (Hc & Hr & Es). set (c := Z.b2z _) in *. set (s := u64 (l + l0)) in *. clearbody c s. max64. do 2 checked. f_equal. apply words_of; max64; lia.
Qed.

Lemma huge_sub_spec x y : in_s 128 x -> in_s 128 y -> in_s 128 (x - y) -> 0 <= y \/ (y = -1 /\ x < 2 ^ 126) -> huge_sub (of_Z x) (of_Z y) = Some (of_Z (x - y)).
Proof.
  intros Hx Hy Hz Hp. unfold in_s in Hz. change (2 ^ (128 - 1)) with 170141183460469231731687303715884105728 in Hz. words x. words y. unfold huge_sub. cbn [lower upper].
  destruct (u64_borrow l l0 Hl Hl0) as (Hc & Hr & Es). set (c := Z.b2z _) in *. set (s := u64 (l - l0)) in *. clearbody c s.
  change (2 ^ 126) with 85070591730234615865843651857942052864 in Hp. max64. do 2 checked. f_equal. apply words_of; max64; lia.
Qed.

(** ** Products *)

(** The bits from [k] up to [m]. *)
Lemma land_high h m k : 0 <= k <= m -> Z.land h (2 ^ m - 2 ^ k) = (h / 2 ^ k) mod 2 ^ (m - k) * 2 ^ k.
Proof.
  intros Hk. replace (2 ^ m - 2 ^ k) with (Z.shiftl (Z.ones (m - k)) k).
  - rewrite <- Z.shiftl_mul_pow2, <- Z.land_ones, <- Z.shiftr_div_pow2 by lia.
    apply Z.bits_inj'. intros n Hn. rewrite Z.land_spec. destruct (Z.lt_ge_cases n k).
    + rewrite !Z.shiftl_spec_low by lia. apply andb_false_r.
    + rewrite !Z.shiftl_spec_high, Z.land_spec, Z.shiftr_spec by lia. f_equal. f_equal. lia.
  - rewrite Z.shiftl_mul_pow2, Z.ones_equiv by lia. unfold Z.pred. rewrite Z.mul_add_distr_r, <- Z.pow_add_r by lia. replace (m - k + k) with m by lia. lia.
Qed.

Lemma land_high_zero h m k : 0 <= k <= m -> 0 <= h < 2 ^ m -> (Z.land h (2 ^ m - 2 ^ k) =? 0) = (h <? 2 ^ k).
Proof.
  intros Hk Hh. rewrite land_high by done. pose proof (Z.pow_pos_nonneg 2 k ltac:(lia) ltac:(lia)) as Hp.
  assert (0 <= h / 2 ^ k < 2 ^ (m - k)) as Hd.
  { split; [apply Z.div_pos; lia|]. apply Z.div_lt_upper_bound; [lia|]. rewrite <- Z.pow_add_r by lia. replace (k + (m - k)) with m by lia. apply Hh. }
  rewrite Z.mod_small by done. destruct (Z.ltb_spec h (2 ^ k)) as [Hlt|Hge]; [by rewrite Z.div_small by lia|].
  apply Z.eqb_neq. pose proof (Z.div_le_mono (2 ^ k) h (2 ^ k) ltac:(lia) Hge). rewrite Z.div_same in * by lia. nia.
Qed.

Lemma land_ones_64 z : Z.land z 0xffffffffffffffff = z mod 2 ^ 64.
Proof. change 0xffffffffffffffff with (Z.ones 64). by apply Z.land_ones. Qed.

Lemma uint128_spec x : 0 <= x < 2 ^ 127 -> uint128 (of_Z x) = x.
Proof.
  intros Hx. unfold uint128, of_Z. cbn [lower upper]. change (2 ^ 127) with 170141183460469231731687303715884105728 in *. max64.
  rewrite Z.shiftl_mul_pow2 by lia. max64. assert (0 <= x / 18446744073709551616 < 18446744073709551616) by dlia. unfold wrap_u. change (2 ^ 128) with 340282366920938463463374607431768211456.
  rewrite (Z.mod_small (x / _)), (Z.mod_small (_ * _)) by lia. rewrite Z.mod_small by dlia. dlia.
Qed.

(** The product of two magnitudes, refused from 2^127 on. *)
Definition product_of (x y : Z) : option hugeint_t := if x * y <? 2 ^ 127 then Some (of_Z (x * y)) else None.

Lemma multiply_i128_spec x y : 0 <= x < 2 ^ 127 -> 0 <= y < 2 ^ 127 -> multiply_i128 (of_Z x) (of_Z y) = product_of x y.
Proof.
  intros Hx Hy. unfold multiply_i128, product_of. rewrite !uint128_spec by done. assert (0 <= x * y) as H0 by nia. set (p := x * y) in *. clearbody p.
  change (2 ^ 128) with 340282366920938463463374607431768211456. change (2 ^ 127) with 170141183460469231731687303715884105728.
  destruct (Z.leb_spec 340282366920938463463374607431768211456 p); [by rewrite (proj2 (Z.ltb_ge _ _)) by lia|].
  rewrite Z.shiftr_div_pow2 by lia. unfold wrap_u. rewrite (Z.mod_small (p / 2 ^ 64)) by (max64; dlia).
  change 0x8000000000000000 with (2 ^ 64 - 2 ^ 63). rewrite land_high_zero by (max64; dlia). max64.
  destruct (Z.ltb_spec (p / 18446744073709551616) 9223372036854775808); cbn [negb].
  - rewrite (proj2 (Z.ltb_lt _ _)) by dlia. rewrite land_ones_64, wrap_s_small by (unfold in_s; change (2 ^ (64 - 1)) with 9223372036854775808; dlia). done.
  - by rewrite (proj2 (Z.ltb_ge _ _)) by dlia.
Qed.

Lemma low32_spec z : low32 z = z mod 2 ^ 32.
Proof. unfold low32. change 0xffffffff with (Z.ones 32). by apply Z.land_ones. Qed.
Lemma high32_spec z : high32 z = z / 2 ^ 32.
Proof. unfold high32. by apply Z.shiftr_div_pow2. Qed.

Definition max_product : Z := 18446744065119617025.

Lemma split32 z : 0 <= z <= max_product -> 0 <= z / 2 ^ 32 < 2 ^ 32 /\ 0 <= z mod 2 ^ 32 < 2 ^ 32 /\ z = z / 2 ^ 32 * 2 ^ 32 + z mod 2 ^ 32.
Proof. unfold max_product. change (2 ^ 32) with 4294967296. dlia. Qed.

(** The carries add up to the sum of the products, and the first part is small. *)
Lemma merge_products_spec p : (forall x y, 0 <= p x y <= max_product) ->
  p 0%nat 3%nat < 2 ^ 31 -> p 1%nat 2%nat < 2 ^ 31 -> p 2%nat 1%nat < 2 ^ 31 -> p 3%nat 0%nat < 2 ^ 31 ->
  let '(first, second, third, fourth) := merge_products p in
  0 <= first < 2 ^ 36 /\ 0 <= second /\ 0 <= third /\ 0 <= fourth
  /\ first * 2 ^ 96 + second mod 2 ^ 32 * 2 ^ 64 + third mod 2 ^ 32 * 2 ^ 32 + fourth mod 2 ^ 32
     = p 3%nat 3%nat + (p 3%nat 2%nat + p 2%nat 3%nat) * 2 ^ 32 + (p 3%nat 1%nat + p 2%nat 2%nat + p 1%nat 3%nat) * 2 ^ 64
       + (p 3%nat 0%nat + p 2%nat 1%nat + p 1%nat 2%nat + p 0%nat 3%nat) * 2 ^ 96.
Proof.
  intros Hp H1 H2 H3 H4. unfold merge_products. rewrite !low32_spec, !high32_spec.
  pose proof (split32 _ (Hp 3 3)%nat). pose proof (split32 _ (Hp 3 2)%nat). pose proof (split32 _ (Hp 2 3)%nat). pose proof (split32 _ (Hp 3 1)%nat).
  pose proof (split32 _ (Hp 2 2)%nat). pose proof (split32 _ (Hp 1 3)%nat).
  rewrite (Z.mod_small (p 3 0)%nat), (Z.mod_small (p 2 1)%nat), (Z.mod_small (p 1 2)%nat), (Z.mod_small (p 0 3)%nat) by (split; [apply Hp|change (2 ^ 31) with 2147483648 in *; lia]).
  pose proof (proj1 (Hp 3 0)%nat). pose proof (proj1 (Hp 2 1)%nat). pose proof (proj1 (Hp 1 2)%nat). pose proof (proj1 (Hp 0 3)%nat).
  rewrite (Z.div_small ((p 3 3)%nat mod 2 ^ 32)) by lia.
  repeat match goal with
  | |- context [(p ?x ?y / 2 ^ 32)%Z] => generalize dependent (p x y / 2 ^ 32)%Z; intros
  | |- context [(p ?x ?y mod 2 ^ 32)%Z] => generalize dependent (p x y mod 2 ^ 32)%Z; intros
  end.
  change (2 ^ 31) with 2147483648 in *. change (2 ^ 32) with 4294967296 in *. change (2 ^ 36) with 68719476736. change (2 ^ 96) with 79228162514264337593543950336.
  destruct_and?. max64.
  repeat match goal with |- context [wrap_u 64 ?z] =>
    lazymatch z with context [wrap_u] => fail | _ => rewrite (wrap_u_small 64 z) by (unfold in_u; change (2 ^ 64) with 18446744073709551616; dlia) end
  end.
  repeat split; dlia.
Qed.

Lemma parts_spec x : 0 <= x < 2 ^ 127 -> exists a0 a1 a2 a3,
  part (of_Z x) 0 = a0 /\ part (of_Z x) 1 = a1 /\ part (of_Z x) 2 = a2 /\ part (of_Z x) 3 = a3
  /\ 0 <= a0 < 2 ^ 31 /\ 0 <= a1 < 2 ^ 32 /\ 0 <= a2 < 2 ^ 32 /\ 0 <= a3 < 2 ^ 32 /\ x = a0 * 2 ^ 96 + a1 * 2 ^ 64 + a2 * 2 ^ 32 + a3.
Proof.
  intros Hx. exists (x / 2 ^ 96), (x / 2 ^ 64 mod 2 ^ 32), (x mod 2 ^ 64 / 2 ^ 32), (x mod 2 ^ 64 mod 2 ^ 32).
  unfold part, of_Z. cbn [lower upper]. change 0xffffffff with (Z.ones 32). rewrite !Z.land_ones, !Z.shiftr_div_pow2 by lia.
  change (2 ^ 127) with 170141183460469231731687303715884105728 in *. change (2 ^ 31) with 2147483648. change (2 ^ 32) with 4294967296. change (2 ^ 96) with 79228162514264337593543950336. max64.
  rewrite !wrap_u_small by (unfold in_u; change (2 ^ 64) with 18446744073709551616; dlia). repeat split; dlia.
Qed.

Lemma product_range a b : 0 <= a < 2 ^ 32 -> 0 <= b < 2 ^ 32 -> 0 <= a * b <= max_product.
Proof. unfold max_product. change (2 ^ 32) with 4294967296. nia. Qed.

Lemma part_range x i : 0 <= x < 2 ^ 127 -> 0 <= part (of_Z x) i < 2 ^ 32.
Proof.
  intros Hx. destruct (parts_spec x Hx) as (a0 & a1 & a2 & a3 & E0 & E1 & E2 & E3 & H0 & H1 & H2 & H3 & _).
  destruct i as [|[|[|i]]]; [rewrite E0|rewrite E1|rewrite E2|change (part (of_Z x) (S (S (S i)))) with (part (of_Z x) 3); rewrite E3]; change (2 ^ 31) with 2147483648 in *; lia.
Qed.

Lemma combine_parts_spec first second third fourth : 0 <= first < 2 ^ 31 -> 0 <= second -> 0 <= third -> 0 <= fourth ->
  combine_parts first second third fourth = of_Z (first * 2 ^ 96 + second mod 2 ^ 32 * 2 ^ 64 + third mod 2 ^ 32 * 2 ^ 32 + fourth mod 2 ^ 32).
Proof.
  intros H1 H2 H3 H4. unfold combine_parts. rewrite !low32_spec, (Z.mod_small first) by (change (2 ^ 31) with 2147483648 in *; change (2 ^ 32) with 4294967296; lia).
  assert (forall a b, 0 <= a < 2 ^ 32 -> 0 <= b < 2 ^ 32 -> Z.lor (u64 (Z.shiftl a 32)) b = a * 2 ^ 32 + b) as Hlor.
  { intros a b Ha Hb. unfold wrap_u. rewrite Z.shiftl_mul_pow2, Z.mod_small by (max64; change (2 ^ 32) with 4294967296 in *; lia).
    rewrite <- Z.lxor_lor, <- Z.add_nocarry_lxor; [done| |]; apply Z.bits_inj'; intros n Hn; rewrite Z.land_spec, Z.bits_0; destruct (Z.lt_ge_cases n 32).
    1,3: by rewrite Z.mul_pow2_bits_low by lia. all: rewrite (Z.bits_above_log2 b n); [by rewrite andb_false_r|lia|]; destruct (decide (b = 0)) as [->|]; [cbn; lia|]; apply Z.log2_lt_pow2; [lia|]; pose proof (Z.pow_le_mono_r 2 32 n ltac:(lia) ltac:(lia)); lia. }
  pose proof (Z.mod_pos_bound second (2 ^ 32) ltac:(lia)). pose proof (Z.mod_pos_bound third (2 ^ 32) ltac:(lia)). pose proof (Z.mod_pos_bound fourth (2 ^ 32) ltac:(lia)).
  change (2 ^ 31) with 2147483648 in *. rewrite !Hlor by (done || (change (2 ^ 32) with 4294967296; lia)).
  rewrite wrap_s_small by (unfold in_s; change (2 ^ (64 - 1)) with 9223372036854775808; change (2 ^ 32) with 4294967296 in *; lia).
  apply words_of; change (2 ^ 32) with 4294967296 in *; change (2 ^ 96) with 79228162514264337593543950336; max64; lia.
Qed.

(** The portable product is the same. *)
Lemma multiply_parts_spec x y : 0 <= x < 2 ^ 127 -> 0 <= y < 2 ^ 127 -> multiply_parts (of_Z x) (of_Z y) = product_of x y.
Proof.
  intros Hx Hy. destruct (parts_spec x Hx) as (a0 & a1 & a2 & a3 & A0 & A1 & A2 & A3 & _ & _ & _ & _ & Ex).
  destruct (parts_spec y Hy) as (b0 & b1 & b2 & b3 & B0 & B1 & B2 & B3 & _ & _ & _ & _ & Ey).
  unfold multiply_parts. cbv zeta. set (products := fun i j => u64 (part (of_Z x) i * part (of_Z y) j)).
  repeat match goal with |- context [u64 (part (of_Z x) ?i * part (of_Z y) ?j)] => change (u64 (part (of_Z x) i * part (of_Z y) j)) with (products i j) end.
  assert (forall i j, products i j = part (of_Z x) i * part (of_Z y) j /\ 0 <= products i j <= max_product) as HP.
  { intros i j. unfold products. pose proof (product_range _ _ (part_range x i Hx) (part_range y j Hy)) as R. rewrite wrap_u_small by (unfold in_u, max_product in *; max64; lia). done. }
  clearbody products. pose proof (fun i j => proj2 (HP i j)) as HR.
  assert (x * y = products 0%nat 0%nat * 2 ^ 192 + (products 0%nat 1%nat + products 1%nat 0%nat) * 2 ^ 160 + (products 0%nat 2%nat + products 1%nat 1%nat + products 2%nat 0%nat) * 2 ^ 128
    + (products 3%nat 3%nat + (products 3%nat 2%nat + products 2%nat 3%nat) * 2 ^ 32 + (products 3%nat 1%nat + products 2%nat 2%nat + products 1%nat 3%nat) * 2 ^ 64 + (products 3%nat 0%nat + products 2%nat 1%nat + products 1%nat 2%nat + products 0%nat 3%nat) * 2 ^ 96)) as Exy.
  { rewrite !(fun i j => proj1 (HP i j)), A0, A1, A2, A3, B0, B1, B2, B3. rewrite Ex, Ey. change (2 ^ 192) with (2 ^ 96 * 2 ^ 96). change (2 ^ 160) with (2 ^ 96 * 2 ^ 64). change (2 ^ 128) with (2 ^ 64 * 2 ^ 64). ring. }
  clear Ex Ey A0 A1 A2 A3 B0 B1 B2 B3.
  change (2 ^ 192) with 6277101735386680763835789423207666416102355444464034512896 in Exy. change (2 ^ 160) with 1461501637330902918203684832716283019655932542976 in Exy.
  unfold product_of. change (2 ^ 127) with 170141183460469231731687303715884105728.
  pose proof (HR 0 0)%nat. pose proof (HR 0 1)%nat. pose proof (HR 0 2)%nat. pose proof (HR 0 3)%nat. pose proof (HR 1 0)%nat. pose proof (HR 1 1)%nat.
  pose proof (HR 1 2)%nat. pose proof (HR 1 3)%nat. pose proof (HR 2 0)%nat. pose proof (HR 2 1)%nat. pose proof (HR 2 2)%nat. pose proof (HR 2 3)%nat.
  pose proof (HR 3 0)%nat. pose proof (HR 3 1)%nat. pose proof (HR 3 2)%nat. pose proof (HR 3 3)%nat. unfold max_product in *.
  match goal with |- (if ?b then _ else _) = _ => destruct b eqn:E0 end.
  { rewrite !orb_true_iff, !negb_true_iff, !Z.eqb_neq in E0. rewrite (proj2 (Z.ltb_ge _ _)); [done|]. lia. }
  change 0xffffffff80000000 with (2 ^ 64 - 2 ^ 31). rewrite !land_high_zero by (max64; lia). zbool.
  match goal with |- (if ?b then _ else _) = _ => destruct b eqn:E1 end.
  { rewrite !orb_true_iff, !negb_true_iff, !Z.ltb_ge in E1. change (2 ^ 31) with 2147483648 in *. rewrite (proj2 (Z.ltb_ge _ _)); [done|]. lia. }
  zbool. pose proof (merge_products_spec products HR) as M. destruct (merge_products products) as [[[first second] third] fourth].
  destruct M as (F & S & T & R & M); try done. change 0xffffff80000000 with (2 ^ 56 - 2 ^ 31). change (2 ^ 36) with 68719476736 in F.
  rewrite land_high_zero by (change (2 ^ 56) with 72057594037927936; lia).
  pose proof (Z.mod_pos_bound second (2 ^ 32) ltac:(lia)). pose proof (Z.mod_pos_bound third (2 ^ 32) ltac:(lia)). pose proof (Z.mod_pos_bound fourth (2 ^ 32) ltac:(lia)).
  change (2 ^ 96) with 79228162514264337593543950336 in *. change (2 ^ 31) with 2147483648 in *. change (2 ^ 32) with 4294967296 in *. max64.
  destruct (Z.ltb_spec first 2147483648); cbn [negb].
  - rewrite (proj2 (Z.ltb_lt _ _)) by lia. rewrite combine_parts_spec by (done || (change (2 ^ 31) with 2147483648; lia)). do 2 f_equal.
    change (2 ^ 96) with 79228162514264337593543950336. change (2 ^ 32) with 4294967296. max64. lia.
  - by rewrite (proj2 (Z.ltb_ge _ _)) by lia.
Qed.

(** What a multiplication is for two numbers of 128 bits: the product, but the least number
    only as a product with itself. *)
Definition mul128 (x y : Z) : option Z :=
  if (x * y =? - 2 ^ 127) && negb ((x =? - 2 ^ 127) || (y =? - 2 ^ 127)) then None else try_int int128 (x * y).

Lemma try_int128 z : try_int int128 z = if (- 2 ^ 127 <=? z) && (z <? 2 ^ 127) then Some z else None.
Proof.
  unfold try_int. change (Minimum int128) with (- 2 ^ 127). change (Maximum int128) with (2 ^ 127 - 1). change (2 ^ 127) with 170141183460469231731687303715884105728.
  destruct (Z.leb_spec z (170141183460469231731687303715884105728 - 1)), (Z.ltb_spec z 170141183460469231731687303715884105728); (done || lia).
Qed.

Ltac max128 := change (2 ^ (128 - 1)) with 170141183460469231731687303715884105728 in *; change (2 ^ 127) with 170141183460469231731687303715884105728 in *.

(** The magnitude of a number and its sign. *)
Lemma signed_magnitude x : x = if x <? 0 then - Z.abs x else Z.abs x.
Proof. destruct (Z.ltb_spec x 0); lia. Qed.

Lemma magnitude_negate x : in_s 128 x -> x <> - 2 ^ 127 ->
  (if upper (of_Z x) <? 0 then TryNegate (of_Z x) else Some (Some (of_Z x))) = Some (Some (of_Z (Z.abs x)))
  /\ (if upper (of_Z x) <? 0 then NegateInPlace_unchecked (of_Z x) else Some (of_Z x)) = Some (of_Z (Z.abs x)) /\ 0 <= Z.abs x < 2 ^ 127.
Proof.
  intros Hx Hm. rewrite upper_sign, TryNegate_spec, NegateInPlace_spec, try_int128 by done. unfold in_s in Hx. max128.
  destruct (Z.ltb_spec x 0); [|rewrite Z.abs_eq by lia; repeat split; lia].
  rewrite (proj2 (Z.leb_le _ _)), (proj2 (Z.ltb_lt _ _)), Z.abs_neq by lia. repeat split; lia.
Qed.

(** The sign of a result. *)
Lemma sign_result (s : bool) z : 0 <= z < 2 ^ 127 -> (if s then NegateInPlace_unchecked (of_Z z) else Some (of_Z z)) = Some (of_Z (if s then - z else z)).
Proof. intros Hz. destruct s; [|done]. max128. apply NegateInPlace_spec; unfold in_s; max128; lia. Qed.

Lemma abs_product x y : x * y = if xorb (x <? 0) (y <? 0) then - (Z.abs x * Z.abs y) else Z.abs x * Z.abs y.
Proof. destruct (Z.ltb_spec x 0), (Z.ltb_spec y 0); cbn [xorb]; rewrite ?Z.abs_neq, ?Z.abs_eq by lia; lia. Qed.

Lemma mul128_min y : in_s 128 y -> mul128 (- 2 ^ 127) y = if y =? 0 then Some 0 else if y =? 1 then Some (- 2 ^ 127) else None.
Proof.
  intros Hy. unfold mul128, in_s in *. rewrite Z.eqb_refl, andb_false_r, try_int128. max128.
  destruct (Z.eqb_spec y 0) as [->|]; [done|]. destruct (Z.eqb_spec y 1) as [->|]; [done|].
  repeat (compare; cbn [andb]); (done || lia).
Qed.

Lemma mul128_comm x y : mul128 x y = mul128 y x.
Proof. unfold mul128. by rewrite (Z.mul_comm x y), (orb_comm (x =? _)). Qed.

Lemma TryMultiply_by_spec multiply x y :
  (forall a b, 0 <= a < 2 ^ 127 -> 0 <= b < 2 ^ 127 -> multiply (of_Z a) (of_Z b) = product_of a b) ->
  in_s 128 x -> in_s 128 y -> TryMultiply_by multiply (of_Z x) (of_Z y) = Some (option_map of_Z (mul128 x y)).
Proof.
  intros Hm Hx Hy. unfold TryMultiply_by. rewrite huge_Minimum_spec, !HugeintConvertInteger_spec, !Equals_spec by lia.
  destruct (Z.eqb_spec x (- 2 ^ 127)) as [->|Hx']; cbn [orb].
  { rewrite mul128_min by done. change (- 2 ^ 127 =? 0) with false. change (- 2 ^ 127 =? 1) with false. cbn [orb]. by destruct (y =? 0), (y =? 1). }
  destruct (Z.eqb_spec y (- 2 ^ 127)) as [->|Hy'].
  { rewrite mul128_comm, mul128_min by done. change (- 2 ^ 127 =? 0) with false. change (- 2 ^ 127 =? 1) with false. rewrite !orb_false_r. by destruct (x =? 0), (x =? 1). }
  destruct (magnitude_negate x Hx Hx') as (-> & _ & Ha). destruct (magnitude_negate y Hy Hy') as (-> & _ & Hb). cbn [mbind option_bind].
  rewrite !upper_sign, Hm by done. unfold mul128, product_of. rewrite (abs_product x y), try_int128.
  rewrite (proj2 (Z.eqb_neq x _)), (proj2 (Z.eqb_neq y _)) by done. cbn [orb negb]. rewrite andb_true_r.
  assert (0 <= Z.abs x * Z.abs y) as H0 by nia. set (p := Z.abs x * Z.abs y) in *. clearbody p. max128.
  destruct (Z.ltb_spec p 170141183460469231731687303715884105728) as [Hlt|Hge].
  - rewrite sign_result by (max128; lia). cbn [mbind option_bind]. destruct (xorb _ _).
    + rewrite (proj2 (Z.eqb_neq _ _)), (proj2 (Z.leb_le _ _)), (proj2 (Z.ltb_lt _ _)) by lia. done.
    + rewrite (proj2 (Z.eqb_neq _ _)), (proj2 (Z.leb_le _ _)), (proj2 (Z.ltb_lt _ _)) by lia. done.
  - destruct (xorb _ _).
    + destruct (- p =? _) eqn:Ep; [done|]. apply Z.eqb_neq in Ep. by rewrite (proj2 (Z.leb_gt _ _)) by lia.
    + rewrite (proj2 (Z.eqb_neq _ _)), (proj2 (Z.ltb_ge _ _)), andb_false_r by lia. done.
Qed.

(** Multiplying the sign out, as [Abs] does. *)
Lemma Multiply_unchecked_spec x y : in_s 128 x -> in_s 128 y -> x <> - 2 ^ 127 -> y <> - 2 ^ 127 -> Z.abs (x * y) < 2 ^ 127 ->
  Multiply_unchecked (of_Z x) (of_Z y) = Some (of_Z (x * y)).
Proof.
  intros Hx Hy Hx' Hy' Hp. unfold Multiply_unchecked.
  destruct (magnitude_negate x Hx Hx') as (_ & -> & Ha). destruct (magnitude_negate y Hy Hy') as (_ & -> & Hb). cbn [mbind option_bind].
  rewrite !upper_sign, !uint128_spec by done. rewrite <- Z.abs_mul. set (p := Z.abs (x * y)) in *.
  assert (0 <= p) as H0 by (subst p; lia). rewrite wrap_u_small by (unfold in_u; change (2 ^ 128) with 340282366920938463463374607431768211456; max128; lia).
  rewrite land_ones_64, Z.shiftr_div_pow2 by lia. assert (MkHuge (p mod 2 ^ 64) (s64 (u64 (p / 2 ^ 64))) = of_Z p) as ->.
  { unfold of_Z. f_equal. max128. rewrite wrap_u_small by (unfold in_u; max64; dlia). apply wrap_s_small; [lia|]. unfold in_s. change (2 ^ (64 - 1)) with 9223372036854775808. max64. dlia. }
  rewrite sign_result by done. do 2 f_equal. subst p. rewrite Z.abs_mul. symmetry. apply abs_product.
Qed.

(** ** Division *)

Lemma count_bits_spec fuel n : 0 <= n < 2 ^ Z.of_nat fuel -> 0 <= count_bits fuel n <= Z.of_nat fuel /\ 0 <= n < 2 ^ count_bits fuel n.
Proof.
  revert n. induction fuel as [|fuel IH]; intros n Hn; cbn [count_bits]; [split; [lia|done]|].
  destruct (Z.eqb_spec n 0) as [->|Hz]; [split; [lia|done]|]. rewrite Z.shiftr_div_pow2 by lia. change (2 ^ 1) with 2.
  rewrite Nat2Z.inj_succ, Z.pow_succ_r in Hn by lia. destruct (IH (n / 2) ltac:(dlia)) as [Hc Hl]. split; [lia|].
  rewrite Z.pow_add_r by lia. change (2 ^ 1) with 2. dlia.
Qed.

(** No bit above the highest one. *)
Lemma highest_bit x : 0 <= x < 2 ^ 127 -> 0 <= PositiveHugeintHighestBit (of_Z x) <= 128 /\ x < 2 ^ PositiveHugeintHighestBit (of_Z x).
Proof.
  intros Hx. unfold PositiveHugeintHighestBit, of_Z. cbn [lower upper]. max128.
  rewrite (wrap_u_small 64 (x / _)) by (unfold in_u; max64; dlia).
  destruct (count_bits_spec 64 (x / 2 ^ 64)) as [Hu1 Hu2]; [change (Z.of_nat 64) with 64; max64; dlia|].
  destruct (count_bits_spec 64 (x mod 2 ^ 64)) as [Hl1 Hl2]; [apply Z.mod_pos_bound; lia|]. change (Z.of_nat 64) with 64 in *.
  destruct (Z.eqb_spec (x / 2 ^ 64) 0) as [E|E]; cbn [negb].
  - split; [lia|]. apply Z.le_lt_trans with (x mod 2 ^ 64); [max64; dlia|apply Hl2].
  - rewrite wrap_u_small by (unfold in_u; lia). split; [lia|]. rewrite Z.pow_add_r by lia. revert Hu2. generalize (2 ^ count_bits 64 (x / 2 ^ 64)). intros c Hc. max64. dlia.
Qed.

Lemma testbit_land a i : 0 <= i -> negb (Z.land a (Z.shiftl 1 i) =? 0) = Z.testbit a i.
Proof.
  intros Hi. rewrite Z.shiftl_1_l. destruct (Z.testbit a i) eqn:E.
  - rewrite (proj2 (Z.eqb_neq _ _)); [done|]. intros H0. assert (Z.testbit (Z.land a (2 ^ i)) i = false) as H1 by (rewrite H0; apply Z.bits_0).
    rewrite Z.land_spec, E, Z.pow2_bits_true in H1 by done. done.
  - assert (Z.land a (2 ^ i) = 0) as ->; [|done]. apply Z.bits_inj'. intros n Hn. rewrite Z.land_spec, Z.bits_0.
    destruct (decide (n = i)) as [->|]; [by rewrite E|]. by rewrite Z.pow2_bits_false, andb_false_r by lia.
Qed.

Lemma is_bit_set x i : 0 <= x < 2 ^ 127 -> 0 <= i < 128 -> PositiveHugeintIsBitSet (of_Z x) i = Z.testbit x i.
Proof.
  intros Hx Hi. unfold PositiveHugeintIsBitSet, of_Z. cbn [lower upper]. max128. rewrite wrap_u_small by (unfold in_u; max64; dlia).
  destruct (Z.ltb_spec i 64); rewrite testbit_land by lia.
  - by rewrite Z.mod_pow2_bits_low by lia.
  - rewrite Z.div_pow2_bits by lia. f_equal. lia.
Qed.

(** One bit more of a number. *)
Lemma next_bit x n : 0 <= x -> x / 2 ^ Z.of_nat n = 2 * (x / 2 ^ Z.of_nat (S n)) + Z.b2z (Z.testbit x (Z.of_nat n)).
Proof.
  intros Hx. rewrite Z.testbit_spec', Nat2Z.inj_succ, Z.pow_succ_r by lia. rewrite (Z.mul_comm 2 (2 ^ _)), <- Z.div_div by lia.
  generalize (x / 2 ^ Z.of_nat n). intros z. dlia.
Qed.

Lemma shift_left_1 x : 0 <= x < 2 ^ 126 -> PositiveHugeintLeftShift (of_Z x) 1 = of_Z (2 * x).
Proof.
  intros Hx. change (2 ^ 126) with 85070591730234615865843651857942052864 in Hx. unfold PositiveHugeintLeftShift, of_Z. cbn [lower upper].
  rewrite !Z.shiftl_mul_pow2, Z.shiftr_div_pow2 by lia. change (2 ^ 1) with 2. change (2 ^ (64 - 1)) with 9223372036854775808. unfold wrap_u. max64. f_equal; [dlia|].
  rewrite (Z.mod_small (x / _)), (Z.mod_small (_ * 2)) by dlia. rewrite Z.mod_small by dlia.
  rewrite wrap_s_small by (unfold in_s; change (2 ^ (64 - 1)) with 9223372036854775808; dlia). dlia.
Qed.

(** One bit more of the dividend, for the quotient [q] and the remainder [m]. *)
Lemma division_step p r b : 0 <= p -> 0 < r -> 0 <= b <= 1 ->
  let q := p / r in let m := p mod r in
  0 <= m < r /\ 0 <= q <= p /\ (if r <=? 2 * m + b then (2 * p + b) / r = 2 * q + 1 /\ (2 * p + b) mod r = 2 * m + b - r
    else (2 * p + b) / r = 2 * q /\ (2 * p + b) mod r = 2 * m + b).
Proof.
  intros Hp Hr Hb q m. pose proof (Z.mod_pos_bound p r Hr) as Hm. pose proof (Z.div_mod p r ltac:(lia)) as E. fold q m in E, Hm.
  split; [done|]. split; [split; [apply Z.div_pos; lia|apply Z.div_le_upper_bound; nia]|].
  destruct (Z.leb_spec r (2 * m + b)).
  - split; [symmetry; apply (Z.div_unique_pos _ _ _ (2 * m + b - r))|symmetry; apply (Z.mod_unique_pos _ _ (2 * q + 1))]; lia.
  - split; [symmetry; apply (Z.div_unique_pos _ _ _ (2 * m + b))|symmetry; apply (Z.mod_unique_pos _ _ (2 * q))]; lia.
Qed.

Lemma half_bound x n : 0 <= x < 2 ^ 127 -> 0 <= x / 2 ^ Z.of_nat (S n) < 2 ^ 126.
Proof.
  intros Hx. split; [apply Z.div_pos; lia|]. rewrite Nat2Z.inj_succ, Z.pow_succ_r by lia. apply Z.div_lt_upper_bound; [lia|].
  pose proof (Z.pow_pos_nonneg 2 (Z.of_nat n) ltac:(lia) ltac:(lia)). change (2 ^ 126) with 85070591730234615865843651857942052864. max128. nia.
Qed.

Lemma of_Z_succ z : 0 <= z < 2 ^ 127 - 1 ->
  (high ← (if u64 (lower (of_Z z) + 1) =? 0 then try_int int64 (upper (of_Z z) + 1) else Some (upper (of_Z z))); Some (MkHuge (u64 (lower (of_Z z) + 1)) high))
  = Some (of_Z (z + 1)).
Proof.
  intros Hz. max128. unfold of_Z at 1 2 3 4. cbn [lower upper]. unfold wrap_u. max64. destruct (Z.eqb_spec ((z mod 18446744073709551616 + 1) mod 18446744073709551616) 0).
  - rewrite try_int64_ok by (max64; dlia). cbn [mbind option_bind]. f_equal. apply words_of; max64; dlia.
  - cbn [mbind option_bind]. f_equal. apply words_of; max64; dlia.
Qed.

Lemma divmod_positive_loop_spec x r n : 0 <= x < 2 ^ 127 -> 0 < r <= 2 ^ 63 -> (n <= 128)%nat ->
  let p := x / 2 ^ Z.of_nat n in divmod_positive_loop n (of_Z x) r (of_Z (p / r)) (p mod r) = Some (of_Z (x / r), x mod r).
Proof.
  intros Hx Hr. induction n as [|n IH]; intros Hn p; subst p; cbn [divmod_positive_loop]; [by rewrite Z.div_1_r|].
  pose proof (half_bound x n Hx) as Hp. rewrite is_bit_set by (done || lia). specialize (IH ltac:(lia)). cbv zeta in IH. rewrite (next_bit x n) in IH by lia.
  set (p := x / 2 ^ Z.of_nat (S n)) in *. set (b := Z.testbit x (Z.of_nat n)) in *.
  destruct (division_step p r (Z.b2z b)) as (Hm & Hq & St); [lia|lia|destruct b; cbn; lia|]. set (q := p / r) in *. set (m := p mod r) in *. clearbody p q m b.
  assert (u64 (Z.shiftl m 1) = 2 * m) as ->.
  { rewrite Z.shiftl_mul_pow2 by lia. change (2 ^ 1) with 2. rewrite wrap_u_small by (unfold in_u; max64; lia). lia. }
  assert ((if b then u64 (2 * m + 1) else 2 * m) = 2 * m + Z.b2z b) as ->.
  { destruct b; cbn [Z.b2z]; [|lia]. apply wrap_u_small. unfold in_u. max64. lia. }
  rewrite shift_left_1 by lia. destruct (r <=? 2 * m + Z.b2z b); destruct St as [Eq Em]; rewrite Eq, Em in IH; [|exact IH].
  pose proof (of_Z_succ (2 * q) ltac:(change (2 ^ 126) with 85070591730234615865843651857942052864 in *; max128; lia)) as Es.
  destruct (if u64 _ =? 0 then _ else _) as [high|]; [|done]. cbn [mbind option_bind] in *. apply (inj Some) in Es as ->.
  rewrite wrap_u_small; [exact IH|]. unfold in_u. rewrite <- Em. pose proof (Z.mod_pos_bound (2 * p + Z.b2z b) r ltac:(lia)). max64. lia.
Qed.

(** The division by a word of at most 63 bits is exact. *)
Lemma DivModPositive_spec x r : 0 <= x < 2 ^ 127 -> 0 < r <= 2 ^ 63 -> DivModPositive (of_Z x) r = Some (of_Z (x / r), x mod r).
Proof.
  intros Hx Hr. unfold DivModPositive. destruct (highest_bit x Hx) as [Hb Hl]. set (n := PositiveHugeintHighestBit (of_Z x)) in *.
  pose proof (divmod_positive_loop_spec x r (Z.to_nat n) Hx Hr ltac:(lia)) as E. cbv zeta in E. rewrite Z2Nat.id in E by lia.
  by rewrite (Z.div_small x (2 ^ n)), Z.div_0_l, Z.mod_0_l in E by lia.
Qed.

Lemma divmod_loop_spec x r n : 0 <= x < 2 ^ 127 -> 0 < r < 2 ^ 127 -> (n <= 128)%nat ->
  let p := x / 2 ^ Z.of_nat n in divmod_loop n (of_Z x) (of_Z r) (of_Z (p / r)) (of_Z (p mod r)) = Some (of_Z (x / r), of_Z (x mod r)).
Proof.
  intros Hx Hr. induction n as [|n IH]; intros Hn p; subst p; cbn [divmod_loop]; [by rewrite Z.div_1_r|].
  pose proof (half_bound x n Hx) as Hp. rewrite is_bit_set by (done || lia). specialize (IH ltac:(lia)). cbv zeta in IH. rewrite (next_bit x n) in IH by lia.
  set (p := x / 2 ^ Z.of_nat (S n)) in *. set (b := Z.testbit x (Z.of_nat n)) in *.
  destruct (division_step p r (Z.b2z b)) as (Hm & Hq & St); [lia|lia|destruct b; cbn; lia|].
  assert (p mod r <= p) as Hmp by (apply Z.mod_le; lia). set (q := p / r) in *. set (m := p mod r) in *. clearbody p q m b.
  change (2 ^ 126) with 85070591730234615865843651857942052864 in *. max128.
  rewrite !shift_left_1 by (change (2 ^ 126) with 85070591730234615865843651857942052864; lia). rewrite HugeintConvertInteger_spec by (max64; lia).
  assert ((if b then huge_add (of_Z (2 * m)) (of_Z 1) else Some (of_Z (2 * m))) = Some (of_Z (2 * m + Z.b2z b))) as ->.
  { destruct b; cbn [Z.b2z]; [|by rewrite Z.add_0_r]. apply huge_add_spec; unfold in_s; max128; lia. }
  cbn [mbind option_bind]. rewrite (proj2 (proj2 (proj2 (huge_comparisons _ _)))). assert (0 <= Z.b2z b <= 1) as Hb by (destruct b; cbn; lia).
  destruct (Z.leb_spec r (2 * m + Z.b2z b)); destruct St as [Eq Em]; rewrite Eq, Em in IH; [|exact IH].
  rewrite huge_sub_spec by (unfold in_s; max128; lia). cbn [mbind option_bind].
  rewrite huge_add_spec by (unfold in_s; max128; lia). exact IH.
Qed.

Lemma divmod_loop_total x r : 0 <= x < 2 ^ 127 -> 0 < r < 2 ^ 127 ->
  divmod_loop (Z.to_nat (PositiveHugeintHighestBit (of_Z x))) (of_Z x) (of_Z r) (MkHuge 0 0) (MkHuge 0 0) = Some (of_Z (x / r), of_Z (x mod r)).
Proof.
  intros Hx Hr. destruct (highest_bit x Hx) as [Hb Hl]. set (n := PositiveHugeintHighestBit (of_Z x)) in *.
  pose proof (divmod_loop_spec x r (Z.to_nat n) Hx Hr ltac:(lia)) as E. cbv zeta in E. rewrite Z2Nat.id in E by lia.
  by rewrite (Z.div_small x (2 ^ n)), Z.div_0_l, Z.mod_0_l in E by lia.
Qed.

Lemma divmod_signed_spec x y : in_s 128 x -> in_s 128 y -> x <> - 2 ^ 127 -> y <> - 2 ^ 127 -> y <> 0 ->
  divmod_signed (of_Z x) (of_Z y) = Some (of_Z (Z.quot x y), of_Z (Z.rem x y)).
Proof.
  intros Hx Hy Hx' Hy' H0. unfold divmod_signed. destruct (magnitude_negate x Hx Hx') as (_ & -> & Ha). destruct (magnitude_negate y Hy Hy') as (_ & -> & Hb).
  cbn [mbind option_bind]. rewrite divmod_loop_total by lia. cbn [mbind option_bind]. rewrite !upper_sign.
  pose proof (Z.mod_pos_bound (Z.abs x) (Z.abs y) ltac:(lia)) as Hm. assert (0 <= Z.abs x / Z.abs y < 2 ^ 127) as Hq.
  { split; [apply Z.div_pos; lia|]. apply Z.div_lt_upper_bound; nia. }
  rewrite !sign_result by lia. cbn [mbind option_bind]. do 2 f_equal; f_equal.
  - rewrite Z.quot_div by done. destruct (Z.ltb_spec x 0), (Z.ltb_spec y 0); cbn [xorb]; rewrite ?(Z.sgn_neg x), ?(Z.sgn_neg y), ?(Z.sgn_pos y) by lia;
      (destruct (decide (x = 0)) as [->|]; [by rewrite ?Z.mul_0_l|rewrite ?(Z.sgn_pos x) by lia; lia]).
  - rewrite Z.rem_mod by done. destruct (Z.ltb_spec x 0); [rewrite (Z.sgn_neg x) by lia; lia|].
    destruct (decide (x = 0)) as [->|]; [by rewrite Z.mod_0_l by lia|rewrite (Z.sgn_pos x) by lia; lia].
Qed.

Lemma Sign_spec x : Sign (of_Z x) = Z.sgn x.
Proof.
  unfold Sign. rewrite HugeintConvertInteger_spec by lia. destruct (huge_comparisons x 0) as (-> & _ & -> & _). destruct x; done.
Qed.

Lemma Abs_spec x : in_s 128 x -> x <> - 2 ^ 127 -> Abs (of_Z x) = Some (of_Z (Z.abs x)).
Proof.
  intros Hx Hn. unfold Abs. rewrite Sign_spec, HugeintConvertInteger_spec by (max64; destruct x; cbn; lia).
  assert (x * Z.sgn x = Z.abs x) as E by (destruct x; cbn; lia). unfold in_s in Hx. max128.
  rewrite Multiply_unchecked_spec; [by rewrite E|unfold in_s; max128; lia|unfold in_s; max128; destruct x; cbn; lia|max128; lia|max128; destruct x; cbn; lia|].
  rewrite E. max128. lia.
Qed.

(** One more than a number that has been divided. *)
Lemma quot_next z y : 0 <= z -> y <> 0 ->
  if Z.abs (Z.rem (- z) y) + 1 =? Z.abs y
  then Z.quot (- (z + 1)) y = Z.quot (- z) y - Z.sgn y /\ Z.rem (- (z + 1)) y = 0
  else Z.quot (- (z + 1)) y = Z.quot (- z) y /\ Z.rem (- (z + 1)) y = Z.rem (- z) y - 1.
Proof.
  intros Hz Hy. rewrite !Z.quot_opp_l, !Z.rem_opp_l, Z.abs_opp by done. rewrite !Z.quot_div, !Z.rem_mod, (Z.sgn_pos (z + 1)), (Z.abs_eq (z + 1)), (Z.abs_eq z) by lia.
  destruct (decide (z = 0)) as [->|]; [|rewrite (Z.sgn_pos z) by lia].
  - change (Z.sgn 0) with 0. change (0 + 1) with 1. rewrite !Z.mul_0_l. change (Z.abs 0 + 1) with 1. change (0 + 1) with 1. destruct (Z.eqb_spec 1 (Z.abs y)) as [<-|].
    + rewrite Z.div_1_r, Z.mod_1_r. lia.
    + rewrite Z.div_small, Z.mod_small by lia. lia.
  - rewrite !Z.mul_1_l. pose proof (Z.mod_pos_bound z (Z.abs y) ltac:(lia)) as Hm. pose proof (Z.div_mod z (Z.abs y) ltac:(lia)) as E. rewrite Z.abs_eq by lia.
    set (q := z / Z.abs y) in *. set (m := z mod Z.abs y) in *. destruct (Z.eqb_spec (m + 1) (Z.abs y)) as [Em|Em].
    + rewrite <- (Z.div_unique_pos (z + 1) (Z.abs y) (q + 1) 0), <- (Z.mod_unique_pos (z + 1) (Z.abs y) (q + 1) 0) by lia. lia.
    + rewrite <- (Z.div_unique_pos (z + 1) (Z.abs y) q (m + 1)), <- (Z.mod_unique_pos (z + 1) (Z.abs y) q (m + 1)) by lia. lia.
Qed.

Lemma DivModMinimum_spec y : in_s 128 y -> y <> - 2 ^ 127 -> y <> 0 -> y <> -1 ->
  DivModMinimum (of_Z (- 2 ^ 127)) (of_Z y) = Some (of_Z (Z.quot (- 2 ^ 127) y), of_Z (Z.rem (- 2 ^ 127) y)).
Proof.
  intros Hy Hm H0 H1. unfold DivModMinimum. rewrite huge_Minimum_spec, !HugeintConvertInteger_spec, !Equals_spec by lia.
  rewrite (proj2 (Z.eqb_neq y _)) by done. rewrite huge_add_spec by (unfold in_s; max128; lia). cbn [mbind option_bind].
  rewrite (proj2 (Z.eqb_neq y 0)) by done. replace (- 2 ^ 127 + 1) with (- (2 ^ 127 - 1)) by lia.
  rewrite divmod_signed_spec by (done || (unfold in_s; max128; lia)). cbn [mbind option_bind].
  pose proof (quot_next (2 ^ 127 - 1) y ltac:(max128; lia) H0) as Q. replace (2 ^ 127 - 1 + 1) with (2 ^ 127) in Q by lia.
  assert (Z.abs (Z.rem (- (2 ^ 127 - 1)) y) < Z.abs y) as Hr.
  { rewrite Z.rem_opp_l, Z.abs_opp by done. apply Z.rem_bound_abs. done. }
  assert (Z.abs (Z.quot (- (2 ^ 127 - 1)) y) <= 2 ^ 127 - 1 /\ (y < 0 -> Z.quot (- (2 ^ 127 - 1)) y < 2 ^ 126)) as [Hq Hq'].
  { rewrite Z.quot_opp_l, Z.abs_opp by done. rewrite Z.quot_div by done. rewrite (Z.sgn_pos (2 ^ 127 - 1)), (Z.abs_eq (2 ^ 127 - 1)) by (max128; lia).
    assert (0 <= (2 ^ 127 - 1) / Z.abs y <= 2 ^ 127 - 1) as Hd by (split; [apply Z.div_pos; max128; lia|apply Z.div_le_upper_bound; max128; nia]).
    split; [destruct (Z.lt_trichotomy y 0) as [|[|]]; [rewrite Z.sgn_neg by lia|done|rewrite Z.sgn_pos by lia]; lia|]. intros Hn. rewrite Z.sgn_neg by lia.
    apply Z.le_lt_trans with ((2 ^ 127 - 1) / Z.abs y); [lia|]. apply Z.div_lt_upper_bound; [lia|]. change (2 ^ 126) with 85070591730234615865843651857942052864. max128. nia. }
  set (q := Z.quot (- (2 ^ 127 - 1)) y) in *. set (r := Z.rem (- (2 ^ 127 - 1)) y) in *. clearbody q r. unfold in_s in Hy. max128.
  rewrite (Abs_spec r) by (unfold in_s; max128; lia). cbn [mbind option_bind]. rewrite huge_add_spec by (unfold in_s; max128; lia). cbn [mbind option_bind].
  rewrite (Abs_spec y) by (unfold in_s; max128; lia). cbn [mbind option_bind]. rewrite Equals_spec, Sign_spec.
  destruct (Z.abs r + 1 =? Z.abs y); destruct Q as [-> ->].
  - assert (-1 <= Z.sgn y <= 1) as Hs by (destruct y; cbn; lia). rewrite HugeintConvertInteger_spec by (max64; lia).
    rewrite huge_sub_spec; [done|unfold in_s; max128; lia|unfold in_s; max128; lia| |].
    + unfold in_s. max128. change (2 ^ 126) with 85070591730234615865843651857942052864 in *. destruct y; cbn [Z.sgn] in *; lia.
    + destruct (Z.lt_trichotomy y 0) as [Hn|[|]]; [right|done|left; destruct y; cbn; lia]. rewrite Z.sgn_neg by lia. split; [done|]. by apply Hq'.
  - rewrite huge_sub_spec; [done|unfold in_s; max128; lia|unfold in_s; max128; lia| |lia]. unfold in_s. max128. lia.
Qed.

(** Division truncates towards zero, as Z.quot; by zero it is 0 with the dividend left. *)
Lemma DivMod_spec x y : in_s 128 x -> in_s 128 y -> ~ (x = - 2 ^ 127 /\ y = -1) ->
  DivMod (of_Z x) (of_Z y) = Some (of_Z (Z.quot x y), of_Z (Z.rem x y)).
Proof.
  intros Hx Hy Hn. unfold DivMod. rewrite huge_Minimum_spec, HugeintConvertInteger_spec, !Equals_spec by lia.
  destruct (Z.eqb_spec y 0) as [->|H0]; [by rewrite Z.quot_0_r_ext, Z.rem_0_r_ext|].
  destruct (Z.eqb_spec y (- 2 ^ 127)) as [->|Hy'].
  - rewrite orb_true_r. unfold DivModMinimum. rewrite huge_Minimum_spec, !HugeintConvertInteger_spec, !Equals_spec, Z.eqb_refl by lia.
    destruct (Z.eqb_spec x (- 2 ^ 127)) as [->|Hx']; [by rewrite Z.quot_same, Z.rem_same|].
    destruct (magnitude_negate x Hx Hx') as (_ & _ & Ha).
    assert (Z.abs x < Z.abs (- 2 ^ 127)) as Hlt by (rewrite Z.abs_opp, (Z.abs_eq (2 ^ 127)) by (max128; lia); lia).
    rewrite Z.quot_div, Z.rem_mod, Z.div_small, Z.mod_small, Z.mul_0_r by (lia || done). by rewrite Z.mul_comm, Z.abs_sgn.
  - destruct (Z.eqb_spec x (- 2 ^ 127)) as [->|Hx']; cbn [orb]; [|by apply divmod_signed_spec].
    apply DivModMinimum_spec; [done..|]. intros ->. by apply Hn.
Qed.

Lemma TryDivMod_spec x y : in_s 128 x -> in_s 128 y ->
  TryDivMod (of_Z x) (of_Z y) = Some (if (y =? 0) || ((x =? - 2 ^ 127) && (y =? -1)) then None else Some (of_Z (Z.quot x y), of_Z (Z.rem x y))).
Proof.
  intros Hx Hy. unfold TryDivMod. rewrite huge_Minimum_spec, !HugeintConvertInteger_spec, !Equals_spec by lia.
  destruct (Z.eqb_spec y 0) as [|H0]; [done|]. cbn [orb].
  destruct ((x =? - 2 ^ 127) && (y =? -1)) eqn:E; [done|]. rewrite DivMod_spec; [done..|]. intros [-> ->]. done.
Qed.

(** ** Casts *)
Lemma HugeintTryCastInteger_spec t x : int_width (it_width t) -> in_s 128 x -> HugeintTryCastInteger t (of_Z x) = try_int t x.
Proof.
  intros Hw Hx. words x. unfold HugeintTryCastInteger, try_int. cbn [lower upper].
  assert (Minimum t = (if is_signed t then - Maximum t - 1 else 0) /\ 127 <= Maximum t < 2 ^ 64) as [-> Hm].
  { unfold Minimum, Maximum. destruct Hw as [->|[->|[->| ->]]]; destruct (is_signed t); (split; [by vm_compute|split; by vm_compute]). }
  max64. destruct (Z.eqb_spec u 0) as [->|H0]; [|destruct (Z.eqb_spec u (-1)) as [->|H1]].
  - replace x with l by lia. rewrite (proj2 (Z.leb_le (if is_signed t then _ else _) l)) by (destruct (is_signed t); lia). done.
  - destruct (is_signed t); cbn [negb].
    + replace (- (18446744073709551615 - l) - 1) with x by lia. rewrite (proj2 (Z.leb_le x _)), andb_true_r by lia.
      destruct (Z.leb_spec (18446744073709551615 - Maximum t) l), (Z.leb_spec (- Maximum t - 1) x); (done || lia).
    + by rewrite (proj2 (Z.leb_gt 0 x)) by lia.
  - destruct (is_signed t); repeat (compare; cbn [andb]); (done || lia).
Qed.

(** ** Printing *)
Lemma huge_digits_spec fuel : forall x result, 0 <= x < 10 ^ Z.of_nat fuel -> x < 2 ^ 127 ->
  exists s, huge_digits fuel (of_Z x) result = Some (s ++ result) /\ (0 < x -> prints x s) /\ (x = 0 -> s = []).
Proof.
  induction fuel as [|fuel IH]; intros x result Hx Hl.
  - assert (x = 0) as -> by (change (10 ^ Z.of_nat 0) with 1 in Hx; lia). exists []. done.
  - cbn [huge_digits]. assert ((lower (of_Z x) =? 0) && (upper (of_Z x) =? 0) = (x =? 0)) as -> by exact (Equals_spec x 0).
    destruct (Z.eqb_spec x 0) as [->|Hn]; [exists []; split; [done|]; split; [lia|done]|].
    rewrite DivModPositive_spec by (max64; lia). cbn [mbind option_bind]. rewrite Nat2Z.inj_succ, Z.pow_succ_r in Hx by lia.
    destruct (IH (x / 10) (chr "0" + x mod 10 :: result)) as (s & E & P & Z0); [dlia|max128; dlia|]. rewrite E.
    exists (s ++ [48 + x mod 10]). split; [by rewrite <- app_assoc|]. split; [intros _|done].
    pose proof (digit_prints (x mod 10) ltac:(dlia)) as D. destruct (decide (x / 10 = 0)) as [E0|E0].
    + rewrite (Z0 E0). replace x with (x mod 10) at 1 by dlia. exact D.
    + specialize (P ltac:(dlia)). destruct P as [Pd Pv Pz Pl]. destruct (Pl ltac:(dlia)) as [L1 L2]. split.
      * apply Forall_app. split; [done|]. apply D.
      * rewrite digits_value_app, Pv, (prints_value _ _ D). change (zlen [48 + x mod 10]) with 1. change (10 ^ 1) with 10. dlia.
      * lia.
      * intros _. rewrite zlen_app. change (zlen [48 + x mod 10]) with 1. split; [lia|]. replace (zlen s + 1 - 1) with (Z.succ (zlen s - 1)) by lia.
        rewrite Z.pow_succ_r by lia. dlia.
Qed.

(** Every integer of 128 bits is printed as its digits, after a sign when it is negative. *)
Lemma Hugeint_ToString_prints x : in_s 128 x -> exists s, Hugeint_ToString (of_Z x) = Some (sign_text x ++ s) /\ prints (Z.abs x) s.
Proof.
  intros Hx. unfold Hugeint_ToString. rewrite huge_Minimum_spec, Equals_spec. destruct (Z.eqb_spec x (- 2 ^ 127)) as [->|Hn].
  - exists (tail HUGEINT_MINIMUM_STRING). split; [done|]. split; [|done|done|intros _; split; by vm_compute].
    assert (forallb (fun c => (48 <=? c) && (c <=? 57)) (tail HUGEINT_MINIMUM_STRING) = true) as H by done. rewrite list.Forall_forall. intros c Hc.
    rewrite forallb_forall in H. specialize (H c (proj1 (list_elem_of_In _ _) Hc)). unfold is_digit. zbool. lia.
  - destruct (magnitude_negate x Hx Hn) as (E & _ & Ha). rewrite upper_sign in *.
    assert ((if x <? 0 then n ← TryNegate (of_Z x); n else Some (of_Z x)) = Some (of_Z (Z.abs x))) as ->.
    { destruct (x <? 0); [by rewrite E|]. do 2 apply (inj Some) in E. by rewrite E. }
    cbn [mbind option_bind]. destruct (huge_digits_spec 39 (Z.abs x) []) as (s & -> & P & Z0); [|lia|].
    { change (10 ^ Z.of_nat 39) with 1000000000000000000000000000000000000000. max128. lia. }
    rewrite app_nil_r. cbn [mbind option_bind]. unfold sign_text. destruct (decide (x = 0)) as [->|H0].
    + rewrite Z0 by done. exists (B"0"). split; [done|]. apply (digit_prints 0). lia.
    + specialize (P ltac:(lia)). pose proof (prints_pos _ _ P). rewrite bool_decide_eq_false_2 by (intros ->; done). exists s. split; [|done]. by destruct (x <? 0).
Qed.

(** ** Shifts and bits *)
Lemma of_Z_bits z : of_Z z = MkHuge (Z.land z (Z.ones 64)) (Z.shiftr z 64).
Proof. unfold of_Z. by rewrite Z.land_ones, Z.shiftr_div_pow2 by lia. Qed.

Lemma u64_bits z : u64 z = Z.land z (Z.ones 64).
Proof. unfold wrap_u. by rewrite Z.land_ones by lia. Qed.

(** Bits of masks and shifts, where the bit asked for is known to be one of the number. *)
Ltac push_bits := repeat first
  [ rewrite Z.land_spec | rewrite Z.lor_spec | rewrite Z.lxor_spec | rewrite Z.lnot_spec by lia
  | match goal with
    | |- context [Z.testbit (Z.shiftr ?a ?n) ?i] => rewrite (Z.shiftr_spec a n i) by lia
    | |- context [Z.testbit (Z.shiftl ?a ?n) ?i] => rewrite (Z.shiftl_spec a n i) by lia
    | |- context [Z.testbit (Z.ones ?n) ?i] => rewrite (Z.testbit_ones_nonneg n i) by lia
    | |- context [Z.testbit ?a ?i] => rewrite (Z.testbit_neg_r a i) by lia
    end ].

(** Equality of numbers bit by bit, for bits below [s] and for the others. *)
Ltac bitwise s :=
  apply Z.bits_inj'; let i := fresh "i" in intros i ?; destruct (Z.lt_ge_cases i s); push_bits; rewrite ?Z.bits_0;
  repeat match goal with |- context [(?a <? ?b)%Z] => destruct (Z.ltb_spec a b) end;
  rewrite ?andb_true_r, ?andb_false_r, ?orb_false_r, ?orb_true_r; cbn [orb andb]; try done; try lia; try (f_equal; lia).

Lemma huge_bits x y :
  huge_and (of_Z x) (of_Z y) = of_Z (Z.land x y) /\ huge_or (of_Z x) (of_Z y) = of_Z (Z.lor x y)
  /\ huge_xor (of_Z x) (of_Z y) = of_Z (Z.lxor x y) /\ huge_not (of_Z x) = of_Z (Z.lnot x).
Proof.
  unfold huge_and, huge_or, huge_xor, huge_not. rewrite !of_Z_bits. cbn [lower upper]. rewrite u64_bits.
  rewrite Z.shiftr_land, Z.shiftr_lor, Z.shiftr_lxor. repeat split; f_equal; bitwise 64.
Qed.

(** Shifting to the right divides, rounding down, for fewer than 128 places. *)
Lemma huge_shiftr_spec x s : in_s 128 x -> 0 <= s < 128 -> huge_shiftr (of_Z x) (of_Z s) = of_Z (Z.shiftr x s).
Proof.
  intros Hx Hs. unfold huge_shiftr. assert (of_Z s = MkHuge s 0) as -> by (symmetry; apply words_of; lia). cbn [lower upper]. rewrite upper_sign. change (negb (0 =? 0)) with false.
  rewrite (proj2 (Z.leb_gt 128 s)) by lia. cbn [orb].
  assert (64 <= s -> Z.shiftr (Z.shiftr x s) 64 = if x <? 0 then -1 else 0) as Hsign.
  { intros H64. rewrite Z.shiftr_shiftr, Z.shiftr_div_pow2 by lia. unfold in_s in Hx. change (128 - 1) with 127 in Hx.
    pose proof (Z.pow_le_mono_r 2 127 (s + 64) ltac:(lia) ltac:(lia)). destruct (Z.ltb_spec x 0); [|apply Z.div_small; lia].
    symmetry. apply (Z.div_unique_pos _ _ _ (x + 2 ^ (s + 64))); lia. }
  destruct (Z.eqb_spec s 0) as [->|H0]; [by rewrite Z.shiftr_0_r|]. rewrite (of_Z_bits (Z.shiftr x s)). destruct (Z.eqb_spec s 64) as [->|H64].
  - rewrite Hsign by lia. rewrite of_Z_bits. cbn [upper]. by rewrite u64_bits.
  - destruct (Z.ltb_spec s 64).
    + rewrite of_Z_bits. cbn [lower upper]. rewrite !u64_bits. f_equal.
      * bitwise (64 - s).
      * rewrite !Z.shiftr_shiftr by lia. f_equal. lia.
    + rewrite Hsign, of_Z_bits by lia. cbn [upper]. rewrite u64_bits, Z.shiftr_shiftr by lia. do 2 f_equal. f_equal. lia.
Qed.

Lemma lor_disjoint a b : Z.land a b = 0 -> a + b = Z.lor a b.
Proof. intros H. rewrite <- Z.lxor_lor, Z.add_nocarry_lxor by done. done. Qed.

(** Shifting a number that is not negative to the left loses the bits from 2^127 on, but by
    64 places: there the last bit that is left is a sign. *)
Lemma huge_shiftl_spec x s : 0 <= x < 2 ^ 127 -> 0 <= s < 128 ->
  huge_shiftl (of_Z x) (of_Z s) = of_Z (if s =? 64 then wrap_s 128 (Z.shiftl x 64) else Z.shiftl x s mod 2 ^ 127).
Proof.
  intros Hx Hs. unfold huge_shiftl. assert (of_Z s = MkHuge s 0) as -> by (symmetry; apply words_of; lia). cbn [lower upper]. rewrite upper_sign. change (negb (0 =? 0)) with false.
  rewrite (proj2 (Z.leb_gt 128 s)), (proj2 (Z.ltb_ge x 0)) by lia. cbn [orb]. change 0x7fffffffffffffff with (Z.ones 63).
  assert (forall z, s64 (Z.land z (Z.ones 63)) = Z.land z (Z.ones 63)) as Hs64.
  { intros z. apply wrap_s_small; [lia|]. rewrite Z.land_ones by lia. pose proof (Z.mod_pos_bound z (2 ^ 63) ltac:(lia)). unfold in_s. change (64 - 1) with 63. lia. }
  destruct (Z.eqb_spec s 64) as [->|H64]; [|destruct (Z.eqb_spec s 0) as [->|H0]; [by rewrite Z.shiftl_0_r, Z.mod_small|]].
  - apply words_of; [lia|]. unfold of_Z. cbn [lower]. rewrite Z.shiftl_mul_pow2 by lia. unfold wrap_s. change (2 ^ (64 - 1)) with 9223372036854775808.
    change (2 ^ 128) with 340282366920938463463374607431768211456. max128. max64. dlia.
  - rewrite of_Z_bits, (of_Z_bits (_ mod _)), <- Z.land_ones by lia. cbn [lower upper]. rewrite !u64_bits. destruct (Z.ltb_spec s 64).
    + rewrite lor_disjoint.
      * rewrite Hs64. f_equal; bitwise s.
      * bitwise s.
    + rewrite Hs64. f_equal; [bitwise s|bitwise (s - 64)].
Qed.

(** C32: The arithmetic on two words is the arithmetic of integers of 128 bits. Negation,
    addition, subtraction and division compute the exact result, and refuse exactly when it
    does not fit or the divisor is 0; so does the product, by 128-bit integers as well as by
    parts of 32 bits, but that a product that is the least number is refused unless the least
    number is one of the factors. Comparing
    the words compares the integers, and no signed overflow is undefined on the way. *)
Theorem huge_arithmetic_exact x y : in_s 128 x -> in_s 128 y ->
  TryNegate (of_Z x) = Some (option_map of_Z (try_int int128 (- x)))
  /\ TryAddInPlace (of_Z x) (of_Z y) = Some (option_map of_Z (try_int int128 (x + y)))
  /\ TrySubtractInPlace (of_Z x) (of_Z y) = Some (option_map of_Z (try_int int128 (x - y)))
  /\ TryMultiply (of_Z x) (of_Z y) = Some (option_map of_Z (mul128 x y))
  /\ TryMultiply_by multiply_parts (of_Z x) (of_Z y) = Some (option_map of_Z (mul128 x y))
  /\ TryDivMod (of_Z x) (of_Z y)
     = Some (if (y =? 0) || ((x =? - 2 ^ 127) && (y =? -1)) then None else Some (of_Z (Z.quot x y), of_Z (Z.rem x y)))
  /\ LessThan (of_Z x) (of_Z y) = (x <? y) /\ Equals (of_Z x) (of_Z y) = (x =? y).
Proof.
  intros Hx Hy. split; [by apply TryNegate_spec|]. split; [by apply TryAddInPlace_spec|]. split; [by apply TrySubtractInPlace_spec|].
  split; [apply TryMultiply_by_spec; [apply multiply_i128_spec|done..]|]. split; [apply TryMultiply_by_spec; [apply multiply_parts_spec|done..]|].
  split; [by apply TryDivMod_spec|]. split; [apply huge_comparisons|apply Equals_spec].
Qed.

Lemma huge_arithmetic_exact_witness :
  TryMultiply (of_Z (10 ^ 30)) (of_Z (- 10 ^ 8)) = Some (Some (of_Z (- 10 ^ 38)))
  /\ TryDivMod (of_Z (- 2 ^ 127)) (of_Z (10 ^ 20)) = Some (Some (of_Z (-1701411834604692317), of_Z (-31687303715884105728))).
Proof.
  split.
  - destruct (huge_arithmetic_exact (10 ^ 30) (- 10 ^ 8)) as (_ & _ & _ & H & _); [split; by vm_compute|split; by vm_compute|]. exact H.
  - destruct (huge_arithmetic_exact (- 2 ^ 127) (10 ^ 20)) as (_ & _ & _ & _ & _ & H & _); [split; by vm_compute|split; by vm_compute|]. exact H.
Defined.
