(* ===== verification/HugeText.v ===== *)
(** * 128-bit integers and decimals as text
    ([cast_helpers.cpp], [decimal.cpp], [operator/cast_operators.cpp] under [duckdb/src/common])

    A HUGEINT and a DECIMAL of up to 38 digits are printed seventeen digits at a time, and
    read through a 64-bit number that is flushed into the large one when it is full. *)

From S2P Require Import Prelude Digits DateText IntegerText Hugeint.

(** ** Powers of ten *)

(** The unchecked product of two entries of the table, which fit. *)
Definition huge_product (lhs rhs : hugeint_t) : hugeint_t := default (MkHuge 0 0) (Multiply_unchecked lhs rhs).

(** [Hugeint::POWERS_OF_TEN] *)
Definition HUGE_POWERS_OF_TEN : list hugeint_t :=
  let small := HugeintConvertInteger <$> POWERS_OF_TEN in
  let e18 := HugeintConvertInteger 1000000000000000000 in
  small ++ (huge_product e18 <$> tail small)
  ++ [huge_product (huge_product e18 e18) (HugeintConvertInteger 10); huge_product (huge_product e18 e18) (HugeintConvertInteger 100)].

(** ** Printing *)

(** [NumericHelper::UnsignedLength] *)
Definition at_least (value : hugeint_t) (k : nat) : bool :=
  match HUGE_POWERS_OF_TEN !! k with Some power => GreaterThanEquals value power | None => false end.

Definition UnsignedLength_huge (value : hugeint_t) : Z :=
  let plus k := Z.b2z (at_least value k) in
  if upper value =? 0 then UnsignedLength64 (lower value)
  else if at_least value 27 then
    if at_least value 32 then
      if at_least value 36 then 37 + plus 37%nat + plus 38%nat else 33 + plus 33%nat + plus 34%nat + plus 35%nat
    else if at_least value 30 then 31 + plus 31%nat + plus 32%nat else 28 + plus 28%nat + plus 29%nat
  else if at_least value 22 then
    if at_least value 25 then 26 + plus 26%nat else 23 + plus 23%nat + plus 24%nat
  else if at_least value 20 then 21 + plus 21%nat else 18 + plus 18%nat + plus 19%nat.

(** [NumericHelper::FormatUnsigned]; after two divisions the number is one word. *)
Fixpoint format_unsigned_huge (fuel : nat) (value : hugeint_t) (ptr : bytes) : option bytes :=
  if 0 <? upper value then
    match fuel with
    | O => None
    | S fuel =>
        '(value, remainder) ← DivModPositive value 100000000000000000;
        s ← FormatUnsigned remainder [];
        format_unsigned_huge fuel value (replicate (Z.to_nat (17 - zlen s)) (chr "0") ++ s ++ ptr)
    end
  else FormatUnsigned (lower value) ptr.

Definition FormatUnsigned_huge (value : hugeint_t) (ptr : bytes) : option bytes := format_unsigned_huge 2 value ptr.

(** [NumericHelper::FormatSigned] *)
Definition FormatSigned_huge (value : hugeint_t) : option bytes :=
  let negative := upper value <? 0 in
  if negative && Equals value huge_Minimum then Some HUGEINT_MINIMUM_STRING
  else
    value ← (if negative then n ← TryNegate value; n else Some value);
    let length := UnsignedLength_huge value + Z.b2z negative in
    s ← (if upper value =? 0 then FormatUnsigned (lower value) [] else FormatUnsigned_huge value []);
    fill length (if negative then chr "-" :: s else s).

Definition DecimalLength_huge (value : hugeint_t) (width scale : Z) : option Z :=
  let negative := upper value <? 0 in
  value ← (if negative then n ← TryNegate value; n else Some value);
  if scale =? 0 then Some (UnsignedLength_huge value + Z.b2z negative)
  else
    let extra_numbers := if scale <? width then 2 else 1 in
    Some (Z.max (scale + extra_numbers) (UnsignedLength_huge value + 1) + Z.b2z negative).

(** [DecimalToString::FormatDecimal] *)
Definition FormatDecimal_huge (value : hugeint_t) (width scale len : Z) : option bytes :=
  let negative := upper value <? 0 in
  value ← (if negative then n ← TryNegate value; n else Some value);
  let sign := if negative then [chr "-"] else [] in
  if scale =? 0 then s ← FormatUnsigned_huge value []; fill len (sign ++ s)
  else
    power ← HUGE_POWERS_OF_TEN !! Z.to_nat scale;
    '(major, minor) ← DivMod value power;
    dst ← FormatUnsigned_huge minor [];
    let dst := chr "." :: replicate (Z.to_nat (scale - zlen dst)) (chr "0") ++ dst in
    dst ← (if scale <? width then FormatUnsigned_huge major dst else Some dst);
    fill len (sign ++ dst).

Definition Decimal_ToString_huge (value : hugeint_t) (width scale : Z) : option bytes :=
  len ← DecimalLength_huge value width scale; FormatDecimal_huge value width scale len.

(** A decimal is held in the smallest integer that has room for its digits
    ([LogicalType::GetInternalType]), and printed from there. *)
Definition Decimal_text (value width scale : Z) : option bytes :=
  if width <=? 4 then Decimal_ToString 16 value width scale
  else if width <=? 9 then Decimal_ToString 32 value width scale
  else if width <=? 18 then Decimal_ToString 64 value width scale
  else if width <=? 38 then Decimal_ToString_huge (of_Z value) width scale
  else None.

Example huge_decimal : Decimal_text (-12345678901234567890123) 38 20 = Some (B"-123.45678901234567890123").
Proof. vm_compute. reflexivity. Qed.
Example huge_decimal_small : (Decimal_text 5 30 20, Decimal_text 5 20 20) = (Some (B"0.00000000000000000005"), Some (B".00000000000000000005")).
Proof. vm_compute. reflexivity. Qed.
Example huge_signed : (FormatSigned_huge (of_Z (- 10 ^ 20)), FormatSigned_huge (of_Z (2 ^ 127 - 1))) = (Some (B"-100000000000000000000"), Some (B"170141183460469231731687303715884105727")).
Proof. vm_compute. reflexivity. Qed.

(** ** Reading *)

(** [HugeIntCastData] *)
Record huge_data := MkHugeData {
  hd_result : hugeint_t;
  hd_intermediate : Z;
  hd_digits : Z;
  hd_decimal : hugeint_t;
  hd_total_digits : Z;
  hd_decimal_intermediate : hugeint_t;
  hd_decimal_digits : Z
}.

Definition huge_zero : hugeint_t := HugeintConvertInteger 0.
Definition zero_huge_data : huge_data := MkHugeData (MkHuge 0 0) 0 0 (MkHuge 0 0) 0 (MkHuge 0 0) 0.

(** A number scaled by a power of ten and increased, if it is not 0; a refusal and a signed
    overflow are both [None], but the words of numbers have no overflow here. *)
Definition scaled_sum (result : hugeint_t) (digits : Z) (increment : hugeint_t) : option hugeint_t :=
  result ← (if negb (lower result =? 0) || negb (upper result =? 0) then
              if 38 <? digits then None
              else power ← HUGE_POWERS_OF_TEN !! Z.to_nat digits; mjoin (TryMultiply result power)
            else Some result);
  mjoin (TryAddInPlace result increment).

Definition Flush (s : huge_data) : option huge_data :=
  if (hd_digits s =? 0) && (hd_intermediate s =? 0) then Some s
  else
    result ← scaled_sum (hd_result s) (hd_digits s) (HugeintConvertInteger (hd_intermediate s));
    Some (MkHugeData result 0 0 (hd_decimal s) (hd_total_digits s) (hd_decimal_intermediate s) (hd_decimal_digits s)).

Definition FlushDecimal (s : huge_data) : option huge_data :=
  if (hd_decimal_digits s =? 0) && Equals (hd_decimal_intermediate s) huge_zero then Some s
  else
    decimal ← scaled_sum (hd_decimal s) (hd_decimal_digits s) (hd_decimal_intermediate s);
    Some (MkHugeData (hd_result s) (hd_intermediate s) (hd_digits s) decimal (u16 (hd_total_digits s + hd_decimal_digits s)) huge_zero 0).

Definition set_intermediate (s : huge_data) (intermediate : Z) : huge_data :=
  MkHugeData (hd_result s) intermediate (u64 (hd_digits s + 1)) (hd_decimal s) (hd_total_digits s) (hd_decimal_intermediate s) (hd_decimal_digits s).

Definition huge_HandleDigit (negative : bool) (digit : Z) (s : huge_data) : option huge_data :=
  if negative then
    s ← (if hd_intermediate s <? Z.quot (Minimum int64 + digit) 10 then Flush s else Some s);
    i ← try_int int64 (hd_intermediate s * 10 - digit);
    Some (set_intermediate s i)
  else
    s ← (if Z.quot (Maximum int64 - digit) 10 <? hd_intermediate s then Flush s else Some s);
    i ← try_int int64 (hd_intermediate s * 10 + digit);
    Some (set_intermediate s i).

Definition huge_HandleDecimal (digit : Z) (s : huge_data) : option huge_data :=
  s ← Flush s;
  s ← (if GreaterThan (hd_decimal_intermediate s) (HugeintConvertInteger (Z.quot (Maximum int64 - digit) 10)) then FlushDecimal s else Some s);
  tenfold ← Multiply_unchecked (hd_decimal_intermediate s) (HugeintConvertInteger 10);
  intermediate ← huge_add tenfold (HugeintConvertInteger digit);
  Some (MkHugeData (hd_result s) (hd_intermediate s) (hd_digits s) (hd_decimal s) (hd_total_digits s) intermediate (u16 (hd_decimal_digits s + 1))).

Definition with_decimal (s : huge_data) (result decimal : hugeint_t) (total : Z) : huge_data :=
  MkHugeData result (hd_intermediate s) (hd_digits s) decimal total (hd_decimal_intermediate s) (hd_decimal_digits s).

(** The first digit of the fraction: 38 places are cut off at a time. *)
Fixpoint first_places (fuel : nat) (decimal : hugeint_t) (total : Z) : option (hugeint_t * Z) :=
  if 38 <? total then
    match fuel with
    | O => None
    | S fuel => power ← HUGE_POWERS_OF_TEN !! 38%nat; '(decimal, _) ← DivMod decimal power; first_places fuel decimal (u16 (total - 38))
    end
  else Some (decimal, total).

Definition huge_Finalize (negative : bool) (s : huge_data) : option huge_data :=
  s ← Flush s;
  s ← FlushDecimal s;
  if Equals (hd_decimal s) huge_zero || (hd_total_digits s =? 0) then Some s
  else
    '(decimal, total) ← first_places (Z.to_nat (hd_total_digits s)) (hd_decimal s) (hd_total_digits s);
    power ← HUGE_POWERS_OF_TEN !! Z.to_nat (total - 1);
    '(decimal, _) ← DivMod decimal power;
    result ← (if GreaterThanEquals decimal (HugeintConvertInteger 5) then
                mjoin ((if negative then TrySubtractInPlace else TryAddInPlace) (hd_result s) (HugeintConvertInteger 1))
              else Some (hd_result s));
    Some (with_decimal s result decimal total).

(** [HandleExponent] *)
Definition huge_HandleExponent (negative : bool) (exponent : Z) (s : huge_data) : option (option huge_data) :=
  Some (
  s ← Flush s;
  if exponent <? -38 then Some (with_decimal s huge_zero (hd_decimal s) (hd_total_digits s))
  else if exponent <? 0 then
    power ← HUGE_POWERS_OF_TEN !! Z.to_nat (- exponent);
    '(result, remainder) ← DivMod (hd_result s) power;
    remainder ← (if LessThan remainder huge_zero then mjoin (TryNegate remainder) else Some remainder);
    huge_Finalize negative (MkHugeData result (hd_intermediate s) (hd_digits s) remainder (u16 (- exponent)) huge_zero 0)
  else
    result ← (if NotEquals (hd_result s) huge_zero then
                if 38 <? exponent then None
                else power ← HUGE_POWERS_OF_TEN !! Z.to_nat exponent; mjoin (TryMultiply (hd_result s) power)
              else Some (hd_result s));
    s ← FlushDecimal (with_decimal s result (hd_decimal s) (hd_total_digits s));
    if Equals (hd_decimal s) huge_zero then huge_Finalize negative s
    else
      let e := exponent - hd_total_digits s in
      '(decimal, remainder, total) ← (if e <? 0 then
          if e <? -38 then None
          else power ← HUGE_POWERS_OF_TEN !! Z.to_nat (- e); '(decimal, remainder) ← DivMod (hd_decimal s) power;
               Some (decimal, remainder, u16 (hd_total_digits s - exponent))
        else if 38 <? e then None
        else power ← HUGE_POWERS_OF_TEN !! Z.to_nat e; decimal ← mjoin (TryMultiply (hd_decimal s) power); Some (decimal, huge_zero, hd_total_digits s));
      result ← mjoin ((if negative then TrySubtractInPlace else TryAddInPlace) (hd_result s) decimal);
      huge_Finalize negative (with_decimal s result remainder total)).

(** Hexadecimal and binary digits are refused. *)
Definition HugeIntegerCastOperation : cast_op huge_data :=
  CastOp huge_HandleDigit (fun _ _ => None) (fun _ _ => None) huge_HandleDecimal huge_HandleExponent huge_Finalize.

(** [TryCast::Operation] from a text to a HUGEINT *)
Definition TryCast_hugeint (strict : bool) (buf : bytes) : option (option hugeint_t) :=
  r ← TryIntegerCast HugeIntegerCastOperation zero_huge_data true true strict buf; Some (option_map hd_result r).

Example read_huge : map (TryCast_hugeint false) [B"-170141183460469231731687303715884105728"; B"170141183460469231731687303715884105728"; B"1.5"; B"-25e-1"; B"1e38"; B"1e39"; B"0x1"]
  = [Some (Some huge_Minimum); Some None; Some (Some (of_Z 2)); Some (Some (of_Z (-3))); Some (Some (of_Z (10 ^ 38))); Some None; Some None].
Proof. vm_compute. reflexivity. Qed.
(** A fraction of more than 38 digits is refused although only its first digit matters. *)
Example read_long_fraction : (TryCast_hugeint false (B"0.111111111111111111111111111111111111111111111"), TrySimpleIntegerCast int64 false (B"0.111111111111111111111111111111111111111111111"))
  = (Some None, Some (Some 0)).
Proof. vm_compute. reflexivity. Qed.

(** ** What is printed *)
Lemma HUGE_POWERS_OF_TEN_power k : 0 <= k <= 38 -> HUGE_POWERS_OF_TEN !! Z.to_nat k = Some (of_Z (10 ^ k)).
Proof.
  intros Hk. assert (forallb (fun i => bool_decide (HUGE_POWERS_OF_TEN !! Z.to_nat i = Some (of_Z (10 ^ i)))) (seqZ 0 39) = true) as H by (vm_compute; reflexivity).
  apply (bool_decide_unpack _). by rewrite (forallb_seqZ _ _ _ k H) by lia.
Qed.

Lemma at_least_spec x k : (k <= 38)%nat -> at_least (of_Z x) k = (10 ^ Z.of_nat k <=? x).
Proof.
  intros Hk. unfold at_least. rewrite <- (Nat2Z.id k) at 1. rewrite HUGE_POWERS_OF_TEN_power by lia. apply huge_comparisons.
Qed.

Lemma UnsignedLength_huge_length x : 0 <= x < 2 ^ 127 -> length_of x (UnsignedLength_huge (of_Z x)).
Proof.
  intros Hx. max128. unfold UnsignedLength_huge. rewrite !at_least_spec by lia.
  destruct (Z.eqb_spec (upper (of_Z x)) 0) as [E|E]; unfold of_Z in *; cbn [lower upper] in *; max64.
  - replace (x mod 18446744073709551616) with x by dlia. apply UnsignedLength64_length. max64. dlia.
  - assert (18446744073709551616 <= x) as Hl by dlia. clear E. eval_pow. unfold length_of. length_cases.
Qed.

(** A number in front of a block of digits. *)
Lemma prints_block v s r fp : prints v s -> 0 < v -> Forall is_digit fp -> digits_value fp = r -> prints (v * 10 ^ zlen fp + r) (s ++ fp).
Proof.
  intros [Hd Hv _ Hl] Hp Hf <-. specialize (Hl Hp) as [Hz Hl]. pose proof (zlen_nonneg fp). pose proof (digits_value_range fp Hf) as Hr.
  split; [by apply Forall_app|by rewrite digits_value_app, Hv|nia|]. intros _. rewrite zlen_app. split; [lia|].
  replace (zlen s + zlen fp - 1) with (zlen s - 1 + zlen fp) by lia. rewrite Z.pow_add_r by lia. nia.
Qed.

Lemma upper_positive x : 0 <= x -> (0 <? upper (of_Z x)) = (2 ^ 64 <=? x).
Proof. intros Hx. unfold of_Z. cbn [upper]. max64. destruct (Z.leb_spec 18446744073709551616 x), (Z.ltb_spec 0 (x / 18446744073709551616)); (done || dlia). Qed.

Lemma format_unsigned_huge_prints fuel : forall x ptr, 0 <= x < 2 ^ 64 * (10 ^ 17) ^ Z.of_nat fuel -> x < 2 ^ 127 ->
  exists s, format_unsigned_huge fuel (of_Z x) ptr = Some (s ++ ptr) /\ prints x s.
Proof.
  induction fuel as [|fuel IH]; intros x ptr Hx Hl; cbn [format_unsigned_huge]; rewrite upper_positive by lia.
  - change ((10 ^ 17) ^ Z.of_nat 0) with 1 in Hx. rewrite (proj2 (Z.leb_gt _ x)) by lia. unfold of_Z. cbn [lower]. rewrite Z.mod_small by lia. apply FormatUnsigned_prints. lia.
  - destruct (Z.leb_spec (2 ^ 64) x) as [H64|H64].
    + rewrite DivModPositive_spec by (max64; lia). cbn [mbind option_bind]. rewrite Nat2Z.inj_succ, Z.pow_succ_r in Hx by lia.
      change 100000000000000000 with (10 ^ 17) in *. pose proof (Z.mod_pos_bound x (10 ^ 17) ltac:(lia)) as Hm.
      destruct (FormatUnsigned_prints (x mod 10 ^ 17) [] ltac:(max64; change (10 ^ 17) with 100000000000000000 in *; lia)) as (r & E & P). rewrite app_nil_r in E. rewrite E. cbn [mbind option_bind].
      destruct (padded_fraction _ 17 r P ltac:(lia) ltac:(lia)) as (F1 & F2 & F3). change (chr "0") with 48. rewrite app_assoc. set (fp := replicate _ 48 ++ r) in *.
      assert (0 < x / 10 ^ 17 < 2 ^ 64 * (10 ^ 17) ^ Z.of_nat fuel) as Hq.
      { split; [apply Z.div_str_pos; max64; change (10 ^ 17) with 100000000000000000; lia|]. apply Z.div_lt_upper_bound; lia. }
      destruct (IH (x / 10 ^ 17) (fp ++ ptr) ltac:(lia)) as (s & E2 & P2); [max128; change (10 ^ 17) with 100000000000000000; dlia|]. rewrite E2.
      exists (s ++ fp). rewrite <- app_assoc. split; [done|]. pose proof (prints_block _ _ _ fp P2 ltac:(lia) F1 F3) as Pb. rewrite F2 in Pb.
      replace x with (x / 10 ^ 17 * 10 ^ 17 + x mod 10 ^ 17) at 1 by (pose proof (Z.div_mod x (10 ^ 17) ltac:(lia)); lia). exact Pb.
    + unfold of_Z. cbn [lower]. rewrite Z.mod_small by lia. apply FormatUnsigned_prints. lia.
Qed.

Lemma FormatUnsigned_huge_prints x ptr : 0 <= x < 2 ^ 127 -> exists s, FormatUnsigned_huge (of_Z x) ptr = Some (s ++ ptr) /\ prints x s.
Proof. intros Hx. apply format_unsigned_huge_prints; [|lia]. change (2 ^ 64 * (10 ^ 17) ^ Z.of_nat 2) with 184467440737095516160000000000000000000000000000000000. max128. lia. Qed.

(** The magnitude that the printing functions start with. *)
Lemma printed_magnitude x : in_s 128 x -> x <> - 2 ^ 127 ->
  (if upper (of_Z x) <? 0 then n ← TryNegate (of_Z x); n else Some (of_Z x)) = Some (of_Z (Z.abs x)) /\ 0 <= Z.abs x < 2 ^ 127.
Proof.
  intros Hx Hn. destruct (magnitude_negate x Hx Hn) as (E & _ & Ha). split; [|done]. rewrite upper_sign in *. destruct (x <? 0); [by rewrite E|]. do 2 apply (inj Some) in E. by rewrite E.
Qed.

Lemma FormatSigned_huge_prints x : in_s 128 x -> exists s, FormatSigned_huge (of_Z x) = Some (sign_text x ++ s) /\ prints (Z.abs x) s.
Proof.
  intros Hx. unfold FormatSigned_huge. rewrite huge_Minimum_spec, Equals_spec. destruct (Z.eqb_spec x (- 2 ^ 127)) as [->|Hn].
  - destruct (Hugeint_ToString_prints (- 2 ^ 127) Hx) as (s & E & P). exists s. split; [|done]. by rewrite <- E.
  - rewrite andb_false_r. destruct (printed_magnitude x Hx Hn) as (-> & Ha). cbn [mbind option_bind]. rewrite upper_sign.
    assert (exists s, (if upper (of_Z (Z.abs x)) =? 0 then FormatUnsigned (lower (of_Z (Z.abs x))) [] else FormatUnsigned_huge (of_Z (Z.abs x)) []) = Some s /\ prints (Z.abs x) s) as (s & -> & P).
    { destruct (Z.eqb_spec (upper (of_Z (Z.abs x))) 0) as [E0|E0]; [|destruct (FormatUnsigned_huge_prints (Z.abs x) [] Ha) as (s & E & P); rewrite app_nil_r in E; by exists s].
      unfold of_Z in *. cbn [lower upper] in *. assert (0 <= Z.abs x < 2 ^ 64) as Hs by (max64; dlia). rewrite Z.mod_small by done.
      destruct (FormatUnsigned_prints (Z.abs x) [] Hs) as (s & E & P). rewrite app_nil_r in E. by exists s. }
    cbn [mbind option_bind]. exists s. split; [|done]. unfold sign_text, fill.
    destruct (x <? 0); cbn [Z.b2z app]; rewrite ?zlen_cons; rewrite ?(length_of_prints _ _ _ (UnsignedLength_huge_length _ Ha) P); by rewrite (proj2 (Z.eqb_eq _ _)) by lia.
Qed.

(** A DECIMAL of more than 18 digits is printed like the smaller ones. *)
Lemma Decimal_ToString_huge_prints v width scale : 0 < scale < width -> width <= 38 -> Z.abs v < 10 ^ width ->
  exists ip fp, Decimal_ToString_huge (of_Z v) width scale = Some (decimal_text (v <? 0) ip fp) /\ prints (Z.abs v / 10 ^ scale) ip
    /\ Forall is_digit fp /\ zlen fp = scale /\ digits_value fp = Z.abs v mod 10 ^ scale.
Proof.
  intros Hs Hw Hv. pose proof (Z.pow_le_mono_r 10 width 38 ltac:(lia) Hw) as H38. change (10 ^ 38) with 100000000000000000000000000000000000000 in H38.
  assert (in_s 128 v /\ v <> - 2 ^ 127) as [Hin Hn] by (unfold in_s; max128; lia).
  pose proof (Z.pow_pos_nonneg 10 scale ltac:(lia) ltac:(lia)) as Hp. pose proof (Z.pow_lt_mono_r 10 scale width ltac:(lia) ltac:(lia) ltac:(lia)) as Hlt.
  destruct (printed_magnitude v Hin Hn) as (E & Ha). pose proof (UnsignedLength_huge_length _ Ha) as Hl.
  unfold Decimal_ToString_huge, DecimalLength_huge, FormatDecimal_huge. rewrite E, upper_sign. cbn [mbind option_bind].
  rewrite (proj2 (Z.eqb_neq scale 0)), (proj2 (Z.ltb_lt scale width)) by lia. cbn [mbind option_bind]. rewrite HUGE_POWERS_OF_TEN_power by lia. cbn [mbind option_bind].
  set (a := Z.abs v) in *. rewrite DivMod_spec by (unfold in_s; max128; lia). cbn [mbind option_bind]. rewrite Z.quot_div_nonneg, Z.rem_mod_nonneg by lia.
  pose proof (Z.mod_pos_bound a (10 ^ scale) Hp) as Hm. assert (0 <= a / 10 ^ scale < 2 ^ 127) as Hq by (split; [apply Z.div_pos; lia|apply Z.div_lt_upper_bound; nia]).
  destruct (FormatUnsigned_huge_prints (a mod 10 ^ scale) []) as (s & Es & P); [max128; lia|]. rewrite app_nil_r in Es. rewrite Es. cbn [mbind option_bind].
  destruct (padded_fraction _ scale s P ltac:(lia) ltac:(lia)) as (F1 & F2 & F3). change (chr "0") with 48. set (fp := replicate _ 48 ++ s) in *.
  destruct (FormatUnsigned_huge_prints (a / 10 ^ scale) (chr "." :: fp) Hq) as (ip & E2 & P2). rewrite E2. cbn [mbind option_bind].
  exists ip, fp. split; [|by split]. destruct (whole_length a _ scale Hl ltac:(lia) ltac:(lia)) as [Hwl Hc].
  pose proof (length_of_prints _ _ _ Hwl P2) as Hip. unfold fill, decimal_text. rewrite !zlen_app, zlen_cons, F2, Hip.
  rewrite (proj2 (Z.eqb_eq _ _)); [done|]. destruct (v <? 0), (a <? 10 ^ scale); cbn [Z.b2z]; rewrite ?zlen_cons, ?zlen_nil; lia.
Qed.

(** A DECIMAL of up to 38 digits is printed with exactly as many digits after the point as its
    scale, whatever integer it is held in. *)
Lemma Decimal_text_prints v width scale : 0 < scale < width -> width <= 38 -> Z.abs v < 10 ^ width ->
  exists ip fp, Decimal_text v width scale = Some (decimal_text (v <? 0) ip fp) /\ prints (Z.abs v / 10 ^ scale) ip
    /\ Forall is_digit fp /\ zlen fp = scale /\ digits_value fp = Z.abs v mod 10 ^ scale.
Proof.
  intros Hs Hw Hv. unfold Decimal_text.
  destruct (Z.leb_spec width 4); [apply Decimal_ToString_prints; try done; by left|]. destruct (Z.leb_spec width 9); [apply Decimal_ToString_prints; try done; by right; left|].
  destruct (Z.leb_spec width 18); [apply Decimal_ToString_prints; try done; by right; right|]. rewrite (proj2 (Z.leb_le width 38)) by lia. by apply Decimal_ToString_huge_prints.
Qed.

(** ** What a text is read as *)

(** The state behind digits: a large number [r], and [d] digits that make [i]. *)
Definition read_so_far (r i d : Z) : huge_data := MkHugeData (of_Z r) i d (MkHuge 0 0) 0 (MkHuge 0 0) 0.

(** Such a state for the number [acc] with a sign. *)
Record reading (negative : bool) (acc r i d : Z) : Prop := {
  reading_large : in_s 128 r /\ 0 <= signed_by negative r;
  reading_small : in_s 64 i /\ 0 <= signed_by negative i;
  reading_digits : 0 <= d /\ (d = 0 -> i = 0);
  reading_value : signed_by negative acc = r * 10 ^ d + i
}.

(** A magnitude that does not fit has none above it that does. *)
Lemma signed_out_of_range negative a b : 0 <= a <= b -> try_int int128 (signed_by negative a) = None -> try_int int128 (signed_by negative b) = None.
Proof.
  rewrite !try_int128. unfold signed_by. max128. intros Hab. destruct negative; repeat (compare; cbn [andb]); try done; lia.
Qed.

Lemma scaled_sum_zero i : in_s 64 i -> forall d, scaled_sum (of_Z 0) d (HugeintConvertInteger i) = Some (of_Z i).
Proof.
  intros Hi d. unfold scaled_sum. change (negb (lower (of_Z 0) =? 0) || negb (upper (of_Z 0) =? 0)) with false. cbn [mbind option_bind]. unfold in_s in Hi. change (2 ^ (64 - 1)) with 9223372036854775808 in Hi.
  rewrite HugeintConvertInteger_spec by (max64; lia). rewrite TryAddInPlace_spec by (unfold in_s; max128; lia). rewrite try_int128, Z.add_0_l. max128.
  by rewrite (proj2 (Z.leb_le _ _)), (proj2 (Z.ltb_lt _ _)) by lia.
Qed.

Lemma Flush_spec negative acc r i d : 0 <= acc -> reading negative acc r i d ->
  Flush (read_so_far r i d) = option_map (fun v => read_so_far v 0 0) (try_int int128 (signed_by negative acc)).
Proof.
  intros Ha [[Hr Hrs] [Hi His] [Hd Hd0] E]. unfold Flush, read_so_far. cbn [hd_result hd_intermediate hd_digits hd_decimal hd_total_digits hd_decimal_intermediate hd_decimal_digits].
  rewrite E, try_int128. destruct (Z.eqb_spec d 0) as [->|Hdz]; [rewrite Hd0 by done|]; cbn [andb Z.eqb].
  { change (10 ^ 0) with 1. replace (r * 1 + 0) with r by lia. unfold in_s in Hr. max128. by rewrite (proj2 (Z.leb_le _ _)), (proj2 (Z.ltb_lt _ _)) by lia. }
  destruct (decide (r = 0)) as [->|Hr0].
  { rewrite scaled_sum_zero by done. rewrite Z.mul_0_l, Z.add_0_l. unfold in_s in Hi. change (2 ^ (64 - 1)) with 9223372036854775808 in Hi. max128.
    by rewrite (proj2 (Z.leb_le _ _)), (proj2 (Z.ltb_lt _ _)) by lia. }
  unfold scaled_sum. rewrite <- negb_andb. assert ((lower (of_Z r) =? 0) && (upper (of_Z r) =? 0) = (r =? 0)) as -> by exact (Equals_spec r 0).
  rewrite (proj2 (Z.eqb_neq r 0)) by done. cbn [negb]. assert (1 <= signed_by negative r) as Hr1 by (unfold signed_by in *; destruct negative; lia).
  replace (10 ^ d) with (10 * 10 ^ (d - 1)) in * by (rewrite <- Z.pow_succ_r by lia; f_equal; lia).
  pose proof (Z.pow_pos_nonneg 10 (d - 1) ltac:(lia) ltac:(lia)) as Hp.
  destruct (Z.ltb_spec 38 d) as [H38|H38]; cbn [mbind option_bind].
  { pose proof (Z.pow_le_mono_r 10 38 (d - 1) ltac:(lia) ltac:(lia)) as Hp38. change (10 ^ 38) with 100000000000000000000000000000000000000 in Hp38. max128. unfold signed_by in *.
    destruct negative; repeat (compare; cbn [andb]); (done || nia). }
  rewrite HUGE_POWERS_OF_TEN_power by lia. cbn [mbind option_bind]. pose proof (Z.pow_le_mono_r 10 d 38 ltac:(lia) ltac:(lia)) as Hp38. change (10 ^ 38) with 100000000000000000000000000000000000000 in Hp38.
  replace (10 ^ d) with (10 * 10 ^ (d - 1)) in * by (rewrite <- Z.pow_succ_r by lia; f_equal; lia). set (p := 10 ^ (d - 1)) in *. clearbody p.
  unfold TryMultiply. rewrite (TryMultiply_by_spec _ r (10 * p) multiply_i128_spec Hr) by (unfold in_s; max128; lia). cbn [mjoin option_join].
  unfold in_s in Hi, Hr. change (2 ^ (64 - 1)) with 9223372036854775808 in Hi. unfold mul128. rewrite try_int128. max128.
  destruct (r * (10 * p) =? _) eqn:Em; [apply Z.eqb_eq in Em; lia|]. cbn [andb].
  match goal with |- context [(?a <=? r * (10 * p))%Z] => destruct (Z.leb_spec a (r * (10 * p))) end; cbn [andb]; [destruct (Z.ltb_spec (r * (10 * p)) 170141183460469231731687303715884105728); cbn [option_map mbind option_bind]|].
  - rewrite HugeintConvertInteger_spec by (max64; lia). rewrite TryAddInPlace_spec by (unfold in_s; max128; lia). cbn [mjoin option_join]. rewrite try_int128. max128. by case_match.
  - unfold signed_by in *. destruct negative; [nia|]. repeat (compare; cbn [andb]); (done || lia).
  - unfold signed_by in *. destruct negative; [|nia]. repeat (compare; cbn [andb]); (done || lia).
Qed.

(** One digit more: read, or refused because the number before it does not fit. *)
Lemma huge_digit_step negative acc r i d c : 0 <= acc -> 0 <= c <= 9 -> d + 1 < 2 ^ 64 -> reading negative acc r i d ->
  (exists r' i' d', huge_HandleDigit negative c (read_so_far r i d) = Some (read_so_far r' i' d') /\ reading negative (acc * 10 + c) r' i' d' /\ d' <= d + 1)
  \/ (huge_HandleDigit negative c (read_so_far r i d) = None /\ try_int int128 (signed_by negative acc) = None).
Proof.
  intros Ha Hc Hd64 Rd.
  assert (forall r i d, reading negative acc r i d -> d + 1 < 2 ^ 64 -> 0 <= signed_by negative (i * 10) + c < 2 ^ 63 + Z.b2z negative ->
    let i' := if negative then i * 10 - c else i * 10 + c in
    try_int int64 i' = Some i' /\ set_intermediate (read_so_far r i d) i' = read_so_far r i' (d + 1) /\ reading negative (acc * 10 + c) r i' (d + 1)) as Next.
  { clear. intros r i d [[Hr Hrs] [Hi His] [Hd Hd0] E] Hd64 Hc i'. assert (- 2 ^ 63 <= i' < 2 ^ 63) as Hi'.
    { subst i'. unfold signed_by in Hc. change (2 ^ 63) with 9223372036854775808 in *. destruct negative; cbn [Z.b2z] in Hc; lia. }
    split; [by apply try_int64_ok|]. split; [unfold set_intermediate, read_so_far; cbn; by rewrite wrap_u_small by (unfold in_u; lia)|].
    split; [done| |split; [lia|]; intros; lia|].
    - split; [exact Hi'|]. subst i'. unfold signed_by in *. destruct negative; lia.
    - rewrite Z.pow_add_r by lia. change (10 ^ 1) with 10. subst i'. unfold signed_by in *. destruct negative; lia. }
  pose proof (Flush_spec negative acc r i d Ha Rd) as F. destruct Rd as [[Hr Hrs] [Hi His] [Hd Hd0] E] eqn:HRd. clear HRd.
  assert (forall v, try_int int128 (signed_by negative acc) = Some v -> reading negative acc v 0 0) as Full.
  { intros v Hv. rewrite try_int128 in Hv. destruct (_ && _) eqn:Hb in Hv; [|done]. injection Hv as <-. zbool. split.
    - split; [unfold in_s; max128; lia|]. unfold signed_by. destruct negative; lia.
    - split; [done|]. by destruct negative.
    - done.
    - change (10 ^ 0) with 1. lia. }
  assert (huge_HandleDigit negative c (read_so_far r i d) =
    (s ← (if 2 ^ 63 + Z.b2z negative <=? signed_by negative (i * 10) + c then Flush (read_so_far r i d) else Some (read_so_far r i d));
     let i' := if negative then hd_intermediate s * 10 - c else hd_intermediate s * 10 + c in i' ← try_int int64 i'; Some (set_intermediate s i'))) as ->.
  { unfold huge_HandleDigit, signed_by in *. change (2 ^ 63) with 9223372036854775808. max64. destruct negative; cbn [Z.b2z hd_intermediate read_so_far].
    - replace (i <? Z.quot (-9223372036854775808 + c) 10) with (9223372036854775808 + 1 <=? - (i * 10) + c); [done|].
      destruct (Z.leb_spec (9223372036854775808 + 1) (- (i * 10) + c)), (Z.ltb_spec i (Z.quot (-9223372036854775808 + c) 10)); (done || dlia).
    - replace (Z.quot (9223372036854775807 - c) 10 <? i) with (9223372036854775808 + 0 <=? i * 10 + c); [done|].
      destruct (Z.leb_spec (9223372036854775808 + 0) (i * 10 + c)), (Z.ltb_spec (Z.quot (9223372036854775807 - c) 10) i); (done || dlia). }
  destruct (Z.leb_spec (2 ^ 63 + Z.b2z negative) (signed_by negative (i * 10) + c)) as [Hfull|Hroom].
  - rewrite F. destruct (try_int int128 (signed_by negative acc)) as [v|]; cbn [option_map mbind option_bind]; [left|by right].
    destruct (Next v 0 0 (Full v eq_refl) ltac:(lia)) as (N1 & N2 & N3); [unfold signed_by; destruct negative; cbn; lia|]. cbv zeta in *.
    cbn [hd_intermediate read_so_far] in *. rewrite N1. cbn [mbind option_bind]. eexists _, _, (0 + 1). split; [rewrite N2; reflexivity|]. split; [exact N3|lia].
  - left. cbn [mbind option_bind]. destruct (Next r i d Rd Hd64) as (N1 & N2 & N3); [split; [|done]; unfold signed_by in *; destruct negative; lia|]. cbv zeta in *.
    cbn [hd_intermediate read_so_far] in *. rewrite N1. cbn [mbind option_bind]. eexists _, _, (d + 1). split; [rewrite N2; reflexivity|]. split; [exact N3|lia].
Qed.

Lemma huge_Finalize_spec negative acc r i d : 0 <= acc -> reading negative acc r i d ->
  option_map hd_result (huge_Finalize negative (read_so_far r i d)) = option_map of_Z (try_int int128 (signed_by negative acc)).
Proof. intros Ha Rd. unfold huge_Finalize. rewrite (Flush_spec negative acc) by done. by destruct (try_int _ _). Qed.

(** The digits to the end of the text. *)
Lemma huge_loop_digits exponent negative strict ds : Forall is_digit ds -> forall at_start acc r i d,
  0 <= acc -> d + zlen ds < 2 ^ 64 -> reading negative acc r i d ->
  option_map (option_map hd_result) (cast_loop HugeIntegerCastOperation exponent negative strict at_start ds (read_so_far r i d))
  = Some (if at_start && bool_decide (ds = []) then None
          else option_map of_Z (try_int int128 (signed_by negative (acc * 10 ^ zlen ds + digits_value ds)))).
Proof.
  induction 1 as [|c ds Hc Hds IH]; intros at_start acc r i d Ha Hd Rd; cbn [cast_loop].
  - rewrite bool_decide_eq_true_2, andb_true_r by done. change (digits_value []) with 0. rewrite zlen_nil, Z.pow_0_r, Z.mul_1_r, Z.add_0_r.
    cbn [option_map]. f_equal. rewrite <- (huge_Finalize_spec negative acc r i d Ha Rd). cbn [Finalize HugeIntegerCastOperation].
    destruct (huge_Finalize negative _), at_start; cbn [mbind option_bind option_map]; try done.
  - destruct (digit_is c Hc) as (H1 & H2 & H3). rewrite H1. cbn [negb OnDigit HugeIntegerCastOperation]. rewrite (bool_decide_eq_false_2 (c :: ds = [])), andb_false_r by done.
    rewrite zlen_cons in Hd. pose proof (zlen_nonneg ds). pose proof (digits_value_range ds Hds) as Hv.
    rewrite digits_value_cons, zlen_cons, Z.pow_add_r by lia. change (10 ^ 1) with 10. change (c - 48) with (c - chr "0").
    replace (acc * (10 * 10 ^ zlen ds) + ((c - chr "0") * 10 ^ zlen ds + digits_value ds)) with ((acc * 10 + (c - chr "0")) * 10 ^ zlen ds + digits_value ds) by lia.
    destruct (huge_digit_step negative acc r i d (c - chr "0") Ha H3 ltac:(lia) Rd) as [(r' & i' & d' & -> & Rd' & Hd')|[-> Hout]].
    + specialize (IH false (acc * 10 + (c - chr "0")) r' i' d' ltac:(lia) ltac:(lia) Rd'). cbn [andb] in IH. rewrite <- IH.
      destruct Hds as [|u ds' Hu _]; [done|]. by rewrite (proj1 (proj2 (digit_is u Hu))).
    + cbn [option_map]. f_equal. assert (1 <= 10 ^ zlen ds) as Hp by lia. rewrite (signed_out_of_range negative acc ((acc * 10 + (c - chr "0")) * 10 ^ zlen ds + digits_value ds)); [done|nia|done].
Qed.

(** Digits are read as their number, when it has 128 bits. *)
Lemma huge_digits_read strict negative ds : Forall is_digit ds -> ds <> [] -> zlen ds < 2 ^ 64 ->
  (strict = true -> negative = false -> head ds = Some 48 -> ds = [48]) ->
  TryCast_hugeint strict (sign_of negative ++ ds) = Some (option_map of_Z (try_int int128 (signed_by negative (digits_value ds)))).
Proof.
  intros Hd Hn Hl Hz. unfold TryCast_hugeint. pose proof (TryIntegerCast_text HugeIntegerCastOperation zero_huge_data true true strict negative ds [] (fun _ => eq_refl) Hd (or_intror (conj eq_refl Hn)) Hz) as E.
  rewrite app_nil_r in E. rewrite E.
  assert (reading negative 0 0 0 0) as Rd by (by destruct negative).
  pose proof (huge_loop_digits (Some (read_exponent strict)) negative strict ds Hd true 0 0 0 0 ltac:(lia) ltac:(lia) Rd) as L.
  rewrite (bool_decide_eq_false_2 (ds = [])), Z.mul_0_l, Z.add_0_l in L by done. change (read_so_far 0 0 0) with zero_huge_data in L. cbn [andb] in L.
  destruct (cast_loop _ _ _ _ _ _ _) as [result|]; [|done]. cbn [option_map mbind option_bind] in *. done.
Qed.

(** A number has one text. *)
Lemma digits_value_inj s : Forall is_digit s -> forall t, Forall is_digit t -> length s = length t -> digits_value s = digits_value t -> s = t.
Proof.
  induction 1 as [|c s Hc Hs IH]; intros t Ht Hl E; destruct Ht as [|d t Hd Ht]; try done. rewrite !digits_value_cons in E. injection Hl as Hl.
  assert (zlen s = zlen t) as Hz by (unfold zlen; lia). rewrite Hz in E. pose proof (digits_value_range s Hs) as R1. pose proof (digits_value_range t Ht) as R2.
  rewrite Hz in R1. unfold is_digit in *. assert (c = d) as -> by nia. f_equal. apply IH; [done..|lia].
Qed.

Lemma prints_unique v s t : prints v s -> prints v t -> s = t.
Proof.
  intros P Q. pose proof (prints_nonneg _ _ P). assert (zlen s = zlen t) as Hz.
  { pose proof (digits_value_range _ (prints_digits _ _ Q)) as R. rewrite (prints_value _ _ Q) in R. apply (prints_length v s); [done|by apply (prints_pos _ _ Q)|apply Q|intros Hv; by apply Q|apply R]. }
  apply digits_value_inj; [apply P|apply Q|unfold zlen in Hz; lia|]. by rewrite (prints_value _ _ P), (prints_value _ _ Q).
Qed.

(** Digits of a number of 128 bits. *)
Lemma prints_short_huge x s : in_s 128 x -> prints (Z.abs x) s -> zlen s <= 39.
Proof.
  intros Hx P. apply (prints_short _ _ 39 P); [lia|]. unfold in_s in Hx. max128. change (10 ^ 39) with 1000000000000000000000000000000000000000. lia.
Qed.

(** C33: Every integer of 128 bits survives its text: the engine prints it the same way from
    its words one digit at a time and in a buffer whose size it has computed, seventeen
    digits at a time, and casts the text back to the same words, strictly or not, the least
    number included. *)
Theorem huge_text_roundtrip x strict : in_s 128 x ->
  exists s, Hugeint_ToString (of_Z x) = Some s /\ FormatSigned_huge (of_Z x) = Some s /\ TryCast_hugeint strict s = Some (Some (of_Z x)).
Proof.
  intros Hx. destruct (Hugeint_ToString_prints x Hx) as (s & E & P). destruct (FormatSigned_huge_prints x Hx) as (s' & E' & P').
  rewrite (prints_unique _ _ _ P' P) in E'. exists (sign_text x ++ s). split; [done|]. split; [done|].
  change (sign_text x) with (sign_of (x <? 0)). pose proof (prints_short_huge x s Hx P). pose proof (prints_pos _ _ P).
  rewrite huge_digits_read; [|apply P|by intros ->|max64; lia|intros _ _; by apply (prints_no_zero _ _ P)].
  rewrite (prints_value _ _ P). assert (signed_by (x <? 0) (Z.abs x) = x) as -> by (unfold signed_by; destruct (Z.ltb_spec x 0); lia).
  rewrite try_int128. unfold in_s in Hx. max128. by rewrite (proj2 (Z.leb_le _ _)), (proj2 (Z.ltb_lt _ _)) by lia.
Qed.

Lemma huge_text_roundtrip_witness : TryCast_hugeint true (B"-170141183460469231731687303715884105728") = Some (Some huge_Minimum).
Proof.
  destruct (huge_text_roundtrip (- 2 ^ 127) true) as (s & E & _ & R); [split; by vm_compute|].
  vm_compute in E. injection E as <-. exact R.
Defined.
