(* ===== verification/IntervalText.v ===== *)
(** * Intervals as text
    ([duckdb/src/common/types/interval.cpp], [IntervalToStringCast] of [cast_helpers.hpp],
    [duckdb/src/common/enums/date_part_specifier.cpp])

    An interval is a number of months, of days and of microseconds. As in [DateText] a
    position in the text is what is left of it. The outer [None] of the reader is signed
    overflow, an exception, or fuel that ran out; the inner one is a text that is refused, with a
    message that the driver replaces by its own. *)

From S2P Require Import Prelude Digits Interval Calendar DateText TimeText IntegerText.

(** ** Units ([date_part_specifier.cpp]) *)
Inductive DatePartSpecifier :=
  YEAR | MONTH | DAY | DECADE | CENTURY | MILLENNIUM | MICROSECONDS | MILLISECONDS | SECOND | MINUTE | HOUR | DOW | ISODOW | WEEK | ISOYEAR
| QUARTER | DOY | YEARWEEK | ERA | TIMEZONE | TIMEZONE_HOUR | TIMEZONE_MINUTE | DP_EPOCH | JULIAN_DAY.

#[export] Instance DatePartSpecifier_dec : EqDecision DatePartSpecifier.
Proof. solve_decision. Defined.

(** The names of a specifier, in the order of the source. *)
Definition specifier_names : list (list bytes * DatePartSpecifier) :=
  [([B"year"; B"yr"; B"y"; B"years"; B"yrs"], YEAR);
   ([B"month"; B"mon"; B"months"; B"mons"], MONTH);
   ([B"day"; B"days"; B"d"; B"dayofmonth"], DAY);
   ([B"decade"; B"dec"; B"decades"; B"decs"], DECADE);
   ([B"century"; B"cent"; B"centuries"; B"c"], CENTURY);
   ([B"millennium"; B"mil"; B"millenniums"; B"millennia"; B"mils"; B"millenium"], MILLENNIUM);
   ([B"microseconds"; B"microsecond"; B"us"; B"usec"; B"usecs"; B"usecond"; B"useconds"], MICROSECONDS);
   ([B"milliseconds"; B"millisecond"; B"ms"; B"msec"; B"msecs"; B"msecond"; B"mseconds"], MILLISECONDS);
   ([B"second"; B"sec"; B"seconds"; B"secs"; B"s"], SECOND);
   ([B"minute"; B"min"; B"minutes"; B"mins"; B"m"], MINUTE);
   ([B"hour"; B"hr"; B"hours"; B"hrs"; B"h"], HOUR);
   ([B"epoch"], DP_EPOCH);
   ([B"dow"; B"dayofweek"; B"weekday"], DOW);
   ([B"isodow"], ISODOW);
   ([B"week"; B"weeks"; B"w"; B"weekofyear"], WEEK);
   ([B"doy"; B"dayofyear"], DOY);
   ([B"quarter"; B"quarters"], QUARTER);
   ([B"yearweek"], YEARWEEK);
   ([B"isoyear"], ISOYEAR);
   ([B"era"], ERA);
   ([B"timezone"], TIMEZONE);
   ([B"timezone_hour"], TIMEZONE_HOUR);
   ([B"timezone_minute"], TIMEZONE_MINUTE);
   ([B"julian"; B"jd"], JULIAN_DAY)].

Definition TryGetDatePartSpecifier (specifier_p : bytes) : option DatePartSpecifier :=
  let specifier := CharacterToLower <$> specifier_p in
  '(_, (_, result)) ← list_find (fun '(names, _) => specifier ∈ names) specifier_names;
  Some result.

Definition MONTHS_PER_MILLENIUM : Z := 12000.
Definition MONTHS_PER_CENTURY : Z := 1200.
Definition MONTHS_PER_DECADE : Z := 120.
Definition MONTHS_PER_QUARTER : Z := 3.
Definition DAYS_PER_WEEK : Z := 7.

(** ** Reading *)

(** [IntervalTryAddition] to a field of the type [t]. *)
Definition IntervalTryAddition (t : int_type) (target input multiplier fraction : Z) : option Z :=
  addition ← try_int int64 (input * multiplier);
  addition_base ← try_int t addition;
  target ← try_int t (target + addition_base);
  if fraction =? 0 then Some target
  else
    addition_base ← try_int t (Z.quot (fraction * multiplier) MICROS_PER_SEC);
    try_int t (target + addition_base).

Definition add_months (r : interval_t) (number multiplier fraction : Z) : option interval_t :=
  months' ← IntervalTryAddition int32 (months r) number multiplier fraction; Some (MkInterval months' (days r) (micros r)).
Definition add_days (r : interval_t) (number multiplier fraction : Z) : option interval_t :=
  days' ← IntervalTryAddition int32 (days r) number multiplier fraction; Some (MkInterval (months r) days' (micros r)).
Definition add_micros (r : interval_t) (number multiplier fraction : Z) : option interval_t :=
  micros' ← IntervalTryAddition int64 (micros r) number multiplier fraction; Some (MkInterval (months r) (days r) micros').

(** The switch over the specifier; the number of microseconds may overflow when its fraction
    is rounded. *)
Definition add_specifier (specifier : DatePartSpecifier) (number fraction : Z) (r : interval_t) : option (option interval_t) :=
  match specifier with
  | MILLENNIUM => Some (add_months r number MONTHS_PER_MILLENIUM fraction)
  | CENTURY => Some (add_months r number MONTHS_PER_CENTURY fraction)
  | DECADE => Some (add_months r number MONTHS_PER_DECADE fraction)
  | YEAR => Some (add_months r number MONTHS_PER_YEAR fraction)
  | QUARTER =>
      Some (r ← add_months r number MONTHS_PER_QUARTER fraction;
            add_days r 0 DAYS_PER_MONTH (Z.rem (fraction * MONTHS_PER_QUARTER) MICROS_PER_SEC))
  | MONTH => Some (r ← add_months r number 1 0; add_days r 0 DAYS_PER_MONTH fraction)
  | DAY => Some (r ← add_days r number 1 0; add_micros r 0 MICROS_PER_DAY fraction)
  | WEEK =>
      Some (r ← add_days r number DAYS_PER_WEEK fraction;
            add_micros r 0 MICROS_PER_DAY (Z.rem (fraction * DAYS_PER_WEEK) MICROS_PER_SEC))
  | MICROSECONDS =>
      number ← try_int int64 (number + Z.quot (fraction * 2) MICROS_PER_SEC);
      Some (add_micros r number 1 0)
  | MILLISECONDS => Some (add_micros r number MICROS_PER_MSEC fraction)
  | SECOND => Some (add_micros r number MICROS_PER_SEC fraction)
  | MINUTE => Some (add_micros r number MICROS_PER_MINUTE fraction)
  | HOUR => Some (add_micros r number MICROS_PER_HOUR fraction)
  | _ => Some None
  end.

Definition is_blank (c : Z) : bool := (c =? chr " ") || (c =? 9) || (c =? 10).

(** [interval_parse_ago], behind the first letter. *)
Definition parse_ago (buf : bytes) (r : interval_t) (found_any : bool) : option (option interval_t) :=
  match buf with
  | g :: o :: buf =>
      if ((g =? chr "g") || (g =? chr "G")) && ((o =? chr "o") || (o =? chr "O")) && forallb is_blank buf then
        if (months r =? Minimum int32) || (days r =? Minimum int32) || (micros r =? Minimum int64) then None
        else Some (if found_any then Some (MkInterval (- months r) (- days r) (- micros r)) else None)
      else Some None
  | _ => Some None
  end.

(** [interval_parse_time], from the first digit to the end of the text; the sign is for all
    microseconds that have been read, and what is behind the time is not looked at. *)
Definition parse_time (negative : bool) (buf : bytes) (r : interval_t) : option (option interval_t) :=
  t ← TryConvertInterval false None buf;
  match t with
  | None => Some None
  | Some (time, _, _) =>
      sum ← try_int int64 (micros r + time);
      total ← (if negative then try_int int64 (- sum) else Some sum);
      Some (Some (MkInterval (months r) (days r) total))
  end.

(** The fraction behind a number, in millionths. *)
Definition number_fraction (buf : bytes) : Z * bytes :=
  match buf with c :: buf' => if c =? chr "." then parse_micros buf' 0 100000 else (0, buf) | [] => (0, []) end.

(** [interval_parse_identifier] behind a number: the interval with the unit added, and
    the text behind it. A number without a unit that comes first is in seconds, and
    nothing but blanks may follow it. *)
Definition parse_unit (negative : bool) (nr_string buf : bytes) (r : interval_t) (found_any : bool) : option (option (interval_t * bytes)) :=
  if bool_decide (nr_string = []) then Some None
  else
    n ← TrySimpleIntegerCast int64 false nr_string;
    match n with
    | None => Some None
    | Some number =>
        let '(fraction, buf) := number_fraction buf in
        let number := if negative then - number else number in
        let fraction := if negative then - fraction else fraction in
        let buf := drop_while is_blank buf in
        let specifier_str := take_while CharacterIsAlpha buf in
        let buf := drop_while CharacterIsAlpha buf in
        if bool_decide (specifier_str = []) && negb found_any then
          Some (r ← add_micros r number MICROS_PER_SEC 0;
                r ← add_micros r fraction 1 0;
                if forallb is_blank buf then Some (r, []) else None)
        else match TryGetDatePartSpecifier specifier_str with
        | None => Some None
        | Some specifier => r ← add_specifier specifier number fraction r; Some (r ← r; Some (r, buf))
        end
    end.

(** [standard_interval], from one number to the next. *)
Fixpoint parse_intervals (fuel : nat) (buf : bytes) (r : interval_t) (found_any : bool) : option (option interval_t) :=
  match fuel with
  | O => None
  | S fuel =>
      match drop_while is_blank buf with
      | [] => Some (if found_any then Some r else None)
      | c :: rest =>
          if CharacterIsDigit c || (c =? chr "-") then
            let negative := c =? chr "-" in
            let start := if negative then rest else c :: rest in
            let buf := drop_while CharacterIsDigit start in
            if bool_decide (head buf = Some (chr ":")) then parse_time negative start r
            else
              u ← parse_unit negative (take_while CharacterIsDigit start) buf r found_any;
              match u with Some (r, buf) => parse_intervals fuel buf r true | None => Some None end
          else if (c =? chr "a") || (c =? chr "A") then parse_ago rest r found_any
          else Some None
      end
  end.

(** [Interval::FromCString]; a text that starts with P is not read. A round takes at least
    one character. *)
Definition Interval_FromCString (str : bytes) : option (option interval_t) :=
  match str with
  | [] => Some None
  | c :: rest =>
      if c =? chr "@" then parse_intervals (4 + length rest) rest (MkInterval 0 0 0) false
      else if (c =? chr "P") || (c =? chr "p") then Some None
      else parse_intervals (4 + length str) str (MkInterval 0 0 0) false
  end.

(** ** Printing *)

(** [FormatSignedNumber], for a number of fewer than 64 bits. *)
Definition FormatSignedNumber (value : Z) : option bytes :=
  let sign := if value <? 0 then -1 else 0 in
  let unsigned_value := Z.lxor value sign - sign in
  s ← FormatUnsigned unsigned_value [];
  fill (UnsignedLength64 unsigned_value - sign) (if sign =? 0 then s else chr "-" :: s).

Definition FormatIntervalValue (value : Z) (buffer name : bytes) : option bytes :=
  if value =? 0 then Some buffer
  else
    let buffer := if bool_decide (buffer = []) then buffer else buffer ++ [chr " "] in
    n ← FormatSignedNumber value;
    Some (buffer ++ n ++ name ++ if negb (value =? 1) && negb (value =? -1) then [chr "s"] else []).

(** The time, from the negative of the microseconds, which has no overflow. *)
Definition format_clock (micros : Z) : option bytes :=
  let sign := if micros <? 0 then [chr "-"] else [] in
  let micros := if micros <? 0 then micros else - micros in
  let hour := - Z.quot micros MICROS_PER_HOUR in
  let micros := micros + hour * MICROS_PER_HOUR in
  let min := - Z.quot micros MICROS_PER_MINUTE in
  let micros := micros + min * MICROS_PER_MINUTE in
  let sec := - Z.quot micros MICROS_PER_SEC in
  let micros := - (micros + sec * MICROS_PER_SEC) in
  h ← FormatSignedNumber hour;
  m ← two_digits min;
  s ← two_digits sec;
  f ← (if micros =? 0 then Some [] else '(buffer, trailing_zeros) ← FormatMicros micros; Some (chr "." :: ztake (6 - trailing_zeros) buffer));
  Some (sign ++ (if hour <? 10 then [chr "0"] else []) ++ h ++ chr ":" :: m ++ chr ":" :: s ++ f).

Definition Interval_Format (interval : interval_t) : option bytes :=
  buffer ← (if months interval =? 0 then Some []
            else
              let years := Z.quot (months interval) 12 in
              buffer ← FormatIntervalValue years [] (B" year");
              FormatIntervalValue (months interval - years * 12) buffer (B" month"));
  buffer ← (if days interval =? 0 then Some buffer else FormatIntervalValue (days interval) buffer (B" day"));
  if micros interval =? 0 then Some (if bool_decide (buffer = []) then B"00:00:00" else buffer)
  else
    let buffer := if bool_decide (buffer = []) then buffer else buffer ++ [chr " "] in
    c ← format_clock (micros interval);
    Some (buffer ++ c).

(** [Interval::ToString]; the text has at most 70 characters. *)
Definition Interval_ToString (interval : interval_t) : option bytes :=
  s ← Interval_Format interval; if zlen s <=? 70 then Some s else None.

Example interval_text : Interval_ToString (MkInterval 14 (-1) (-3723000100)) = Some (B"1 year 2 months -1 day -01:02:03.0001").
Proof. vm_compute. reflexivity. Qed.
Example interval_read : Interval_FromCString (B"1 year 2 months -1 day -01:02:03.0001") = Some (Some (MkInterval 14 (-1) (-3723000100))).
Proof. vm_compute. reflexivity. Qed.
Example interval_fractions : Interval_FromCString (B"1.5 quarters 2 weeks ago") = Some (Some (MkInterval (-4) (-29) 0)).
Proof. vm_compute. reflexivity. Qed.
(** The sign of a time is applied to the hours that came before it too. *)
Example interval_sign : Interval_FromCString (B"1 hour -1:00") = Some (Some (MkInterval 0 0 (-7200000000))).
Proof. vm_compute. reflexivity. Qed.
(** Nothing behind a time is looked at. *)
Example interval_rest : Interval_FromCString (B"1:00:00 and more") = Some (Some (MkInterval 0 0 3600000000)).
Proof. vm_compute. reflexivity. Qed.

(** ** Scanning *)
Lemma while_app (p : Z -> bool) a b : Forall (fun c => p c = true) a -> match b with c :: _ => p c = false | [] => True end ->
  take_while p (a ++ b) = a /\ drop_while p (a ++ b) = b.
Proof.
  intros Ha Hb. induction Ha as [|c a Hc _ [IH1 IH2]]; cbn [app take_while drop_while]; [|by rewrite Hc, IH1, IH2].
  destruct b as [|c b]; [done|]. cbn [take_while drop_while]. by rewrite Hb.
Qed.

Lemma digits_scanned ds tail : Forall is_digit ds -> no_digit_first tail ->
  take_while CharacterIsDigit (ds ++ tail) = ds /\ drop_while CharacterIsDigit (ds ++ tail) = tail.
Proof.
  intros Hd Ht. apply while_app; [|destruct tail as [|c tail]; [done|by apply (Ht c tail)]].
  rewrite list.Forall_forall in *. intros c Hc. by apply digit_plain, Hd.
Qed.

(** The loop has found a sign and digits. *)
Lemma parse_number_text fuel (sep negative : bool) ds tail r found_any : Forall is_digit ds -> ds <> [] -> no_digit_first tail ->
  parse_intervals (S fuel) ((if sep then [chr " "] else []) ++ sign_of negative ++ ds ++ tail) r found_any
  = if bool_decide (head tail = Some (chr ":")) then parse_time negative (ds ++ tail) r
    else u ← parse_unit negative ds tail r found_any; match u with Some (r, buf) => parse_intervals fuel buf r true | None => Some None end.
Proof.
  intros Hd Hn Ht. destruct (digits_scanned ds tail Hd Ht) as [E1 E2].
  assert (forall s, match s with c :: _ => is_blank c = false | [] => False end -> drop_while is_blank ((if sep then [chr " "] else []) ++ s) = s) as Hb.
  { intros [|c s] Hs; [done|]. by destruct sep; cbn; rewrite Hs. }
  cbn [parse_intervals]. destruct negative; cbn [sign_of app].
  - rewrite (Hb (chr "-" :: ds ++ tail)) by done. change (CharacterIsDigit (chr "-")) with false. rewrite Z.eqb_refl. cbn [orb]. by rewrite E1, E2.
  - destruct Hd as [|c ds Hc Hd]; [done|]. cbn [app] in *. destruct (digit_plain c Hc) as (C1 & C2 & C3).
    rewrite (Hb (c :: ds ++ tail)) by (unfold is_digit in Hc; unfold is_blank; change (chr " ") with 32; zbool; lia). rewrite C1, C3. cbn [orb]. by rewrite E1, E2.
Qed.

(** More fuel does not change the outcome. *)
Lemma parse_intervals_mono fuel fuel' : (fuel <= fuel')%nat -> forall buf r found_any x, parse_intervals fuel buf r found_any = Some x -> parse_intervals fuel' buf r found_any = Some x.
Proof.
  revert fuel'. induction fuel as [|fuel IH]; intros fuel' Hf buf r found_any x; [done|]. destruct fuel' as [|fuel']; [lia|]. cbn [parse_intervals].
  destruct (drop_while is_blank buf) as [|c rest]; [done|]. destruct (CharacterIsDigit c || (c =? chr "-")); [|done].
  case_bool_decide; [done|]. destruct (parse_unit _ _ _ _ _) as [[[r' buf']|]|]; cbn [mbind option_bind]; [|done|done]. apply IH. lia.
Qed.

(** ** One number and its unit *)
Record unit_named (name : bytes) (specifier : DatePartSpecifier) : Prop := {
  unit_alpha : Forall (fun c => CharacterIsAlpha c = true) name;
  unit_some : name <> [];
  unit_one : TryGetDatePartSpecifier name = Some specifier;
  unit_many : TryGetDatePartSpecifier (name ++ [chr "s"]) = Some specifier
}.

Lemma year_named : unit_named (B"year") YEAR.
Proof. split; [by repeat constructor|done|by vm_compute|by vm_compute]. Qed.
Lemma month_named : unit_named (B"month") MONTH.
Proof. split; [by repeat constructor|done|by vm_compute|by vm_compute]. Qed.
Lemma day_named : unit_named (B"day") DAY.
Proof. split; [by repeat constructor|done|by vm_compute|by vm_compute]. Qed.

Definition plural (v : Z) : bytes := if negb (v =? 1) && negb (v =? -1) then [chr "s"] else [].

(** What may stand behind a unit. *)
Definition blank_first (s : bytes) : Prop := s = [] \/ head s = Some (chr " ").

Lemma blank_first_app s t : blank_first s -> blank_first t -> blank_first (s ++ t).
Proof. intros [->|Hs] Ht; [done|]. right. by destruct s. Qed.

Lemma parse_unit_text v ds name specifier rest r found_any r' : prints (Z.abs v) ds -> Z.abs v < 2 ^ 63 -> unit_named name specifier -> blank_first rest ->
  add_specifier specifier v 0 r = Some (Some r') ->
  parse_unit (v <? 0) ds ((chr " " :: name) ++ plural v ++ rest) r found_any = Some (Some (r', rest)).
Proof.
  intros P Hv U Hr Ha. unfold parse_unit. pose proof (prints_pos _ _ P) as Hp. rewrite bool_decide_eq_false_2 by (intros ->; done).
  change ds with (sign_of false ++ ds) at 1. rewrite cast_digits; [|split; [by right; right; right|done]|apply P|by intros ->|done]. rewrite (prints_value _ _ P).
  rewrite try_int_signed by ((split; [by right; right; right|done]) || lia). rewrite (proj2 (Z.leb_le _ _)) by (change (limit int64 false) with (2 ^ 63 - 1); lia).
  cbn [mbind option_bind signed_by]. change (number_fraction ((chr " " :: name) ++ plural v ++ rest)) with (0, (chr " " :: name) ++ plural v ++ rest). cbv beta iota.
  replace (if v <? 0 then - Z.abs v else Z.abs v) with v by (destruct (Z.ltb_spec v 0); lia). replace (if v <? 0 then - 0 else 0) with 0 by (by destruct (v <? 0)).
  assert (drop_while is_blank ((chr " " :: name) ++ plural v ++ rest) = (name ++ plural v) ++ rest) as ->.
  { cbn [app drop_while]. change (is_blank (chr " ")) with true. cbv iota. rewrite <- app_assoc. pose proof (unit_some _ _ U) as Hn. pose proof (unit_alpha _ _ U) as Hal.
    destruct Hal as [|c name' Hc _]; [done|]. cbn [app drop_while]. assert (is_blank c = false) as ->; [|done].
    unfold CharacterIsAlpha, is_blank in *. change (chr "A") with 65 in Hc. change (chr "Z") with 90 in Hc. change (chr "a") with 97 in Hc. change (chr "z") with 122 in Hc.
    change (chr " ") with 32. zbool. lia. }
  destruct (while_app CharacterIsAlpha (name ++ plural v) rest) as [-> ->].
  { apply Forall_app. split; [apply U|]. unfold plural. case_match; by repeat constructor. }
  { destruct Hr as [->|Hr]; [done|]. destruct rest as [|c rest]; [done|]. by injection Hr as ->. }
  rewrite bool_decide_eq_false_2 by (pose proof (unit_some _ _ U); by destruct name). cbn [andb].
  assert (TryGetDatePartSpecifier (name ++ plural v) = Some specifier) as -> by (unfold plural; case_match; [apply U|rewrite app_nil_r; apply U]).
  by rewrite Ha.
Qed.

(** ** What is printed *)
Lemma FormatSignedNumber_text v : Z.abs v < 2 ^ 63 -> exists ds, FormatSignedNumber v = Some (sign_text v ++ ds) /\ prints (Z.abs v) ds.
Proof.
  intros Hv. unfold FormatSignedNumber, sign_text.
  assert (Z.lxor v (if v <? 0 then -1 else 0) - (if v <? 0 then -1 else 0) = Z.abs v) as -> by (destruct (Z.ltb_spec v 0); rewrite ?complement, ?Z.lxor_0_r; lia).
  destruct (FormatUnsigned_prints (Z.abs v) [] ltac:(lia)) as (s & E & P). rewrite app_nil_r in E. rewrite E. cbn [mbind option_bind].
  pose proof (length_of_prints _ _ _ (UnsignedLength64_length (Z.abs v) ltac:(lia)) P) as Hl. exists s. split; [|done]. unfold fill.
  destruct (v <? 0); cbn [Z.eqb app]; rewrite ?zlen_cons, Hl; by rewrite (proj2 (Z.eqb_eq _ _)) by lia.
Qed.

(** The text of a number and its unit, behind a blank unless it comes first. *)
Definition unit_text (first : bool) (v : Z) (name u : bytes) : Prop :=
  (v = 0 /\ u = []) \/ (v <> 0 /\ exists ds, prints (Z.abs v) ds /\ u = (if first then [] else [chr " "]) ++ sign_text v ++ ds ++ (chr " " :: name) ++ plural v).

Lemma FormatIntervalValue_text v buffer name : Z.abs v < 2 ^ 63 ->
  exists u, FormatIntervalValue v buffer (chr " " :: name) = Some (buffer ++ u) /\ unit_text (bool_decide (buffer = [])) v name u.
Proof.
  intros Hv. unfold FormatIntervalValue. destruct (Z.eqb_spec v 0) as [->|Hn]; [exists []; rewrite app_nil_r; split; [done|by left]|].
  destruct (FormatSignedNumber_text v Hv) as (ds & -> & P). cbn [mbind option_bind]. eexists. split; [|right; split; [done|]; exists ds; split; [done|reflexivity]].
  unfold plural. case_bool_decide as Hb; [subst buffer|]; cbn [app]; rewrite <- !app_assoc; done.
Qed.

Lemma unit_text_blank v name u : unit_text false v name u -> blank_first u.
Proof. intros [[_ ->]|(_ & ds & _ & ->)]; [by left|by right]. Qed.

Lemma unit_text_nonempty first v name u : unit_text first v name u -> v <> 0 -> u <> [].
Proof.
  intros [[-> _]|(_ & ds & P & ->)] Hv; [done|]. pose proof (prints_pos _ _ P) as Hp. destruct ds as [|c ds]; [done|].
  by destruct first, (sign_text v).
Qed.

Lemma unit_text_length first v name u n : unit_text first v name u -> Z.abs v < 10 ^ n -> 0 < n -> zlen u <= n + zlen name + 4.
Proof.
  intros [[_ ->]|(_ & ds & P & ->)] Hv Hn; [change (zlen (@nil Z)) with 0; pose proof (zlen_nonneg name); lia|].
  pose proof (prints_short _ _ _ P Hn Hv). unfold sign_text, plural. rewrite !zlen_app, zlen_cons. destruct first, (v <? 0), (negb (v =? 1) && negb (v =? -1)); rewrite ?zlen_cons, ?zlen_nil; lia.
Qed.

(** A unit that has been printed is added. *)
Lemma parse_unit_printed fuel first v name specifier u rest r found_any r' x : unit_text first v name u -> Z.abs v < 2 ^ 63 -> unit_named name specifier ->
  add_specifier specifier v 0 r = Some (Some r') -> (v = 0 -> r' = r) -> (v <> 0 -> blank_first rest) ->
  parse_intervals fuel rest r' (found_any || negb (v =? 0)) = Some x -> parse_intervals (S fuel) (u ++ rest) r found_any = Some x.
Proof.
  intros [[-> ->]|(Hn & ds & P & ->)] Hv U Ha H0 Hr E.
  - rewrite H0, orb_false_r in E by done. cbn [app]. apply (parse_intervals_mono fuel (S fuel)); [lia|done].
  - rewrite (proj2 (Z.eqb_neq v 0)), orb_true_r in E by done. change (sign_text v) with (sign_of (v <? 0)). rewrite <- !app_assoc.
    replace (if first then [] else [chr " "]) with (if negb first then [chr " "] else []) by (by destruct first).
    pose proof (prints_pos _ _ P) as Hp. rewrite parse_number_text; [|apply P|by intros ->|by intros ? ? [= <- _]].
    rewrite bool_decide_eq_false_2 by done. rewrite (parse_unit_text v ds name specifier rest r found_any r' P Hv U) by auto. done.
Qed.

(** ** The time *)
Definition hours_of (a : Z) : Z := a / MICROS_PER_HOUR.

Lemma clock_fields a : 0 <= a -> exists h mi s us, h = hours_of a /\ a = FromTime h mi s us /\ 0 <= h /\ 0 <= mi < 60 /\ 0 <= s < 60 /\ 0 <= us < 1000000
  /\ (let m := - a in let hour := - Z.quot m MICROS_PER_HOUR in let m := m + hour * MICROS_PER_HOUR in
      let min := - Z.quot m MICROS_PER_MINUTE in let m := m + min * MICROS_PER_MINUTE in
      let sec := - Z.quot m MICROS_PER_SEC in (hour, min, sec, - (m + sec * MICROS_PER_SEC)) = (h, mi, s, us)).
Proof.
  intros Ha. unfold hours_of, FromTime, MINS_PER_HOUR, SECS_PER_MINUTE, MICROS_PER_HOUR, MICROS_PER_MINUTE, MICROS_PER_SEC.
  exists (a / 3600000000), (a mod 3600000000 / 60000000), (a mod 60000000 / 1000000), (a mod 1000000).
  repeat (split; [first [done|dlia]|]). cbv zeta. rewrite !Z.quot_opp_l by lia.
  rewrite (Z.quot_div_nonneg a) by lia. replace (- a + - - (a / 3600000000) * 3600000000) with (- (a mod 3600000000)) by dlia.
  rewrite Z.quot_opp_l, Z.quot_div_nonneg by dlia. replace (- (a mod 3600000000) + - - (a mod 3600000000 / 60000000) * 60000000) with (- (a mod 60000000)) by dlia.
  rewrite Z.quot_opp_l, Z.quot_div_nonneg by dlia. f_equal; [f_equal; [f_equal|]|]; dlia.
Qed.

(** The clock is printed with as many digits for the hours as they need, but two at least. *)
Lemma format_clock_text v : in_s 64 v -> exists hd mi s us frac, format_clock v = Some (sign_text v ++ hd ++ clock_tail mi s frac)
  /\ Forall is_digit hd /\ digits_value hd = hours_of (Z.abs v) /\ hd <> [] /\ (zlen hd <= 9 <-> hours_of (Z.abs v) < 10 ^ 9) /\ zlen hd <= 10
  /\ 0 <= mi < 60 /\ 0 <= s < 60 /\ fraction_text us frac /\ zlen frac <= 7 /\ FromTime (digits_value hd) mi s us = Z.abs v.
Proof.
  intros Hv. destruct (clock_fields (Z.abs v) ltac:(lia)) as (h & mi & s & us & Eh & Ea & H0 & Hmi & Hs & Hus & E). cbv zeta in E.
  unfold format_clock, sign_text. replace (if v <? 0 then v else - v) with (- Z.abs v) by (destruct (Z.ltb_spec v 0); lia). cbv zeta.
  injection E as -> -> -> ->. assert (h < 10 ^ 10) as Hh.
  { rewrite Eh. unfold hours_of, in_s, MICROS_PER_HOUR in *. change (2 ^ (64 - 1)) with 9223372036854775808 in Hv. change (10 ^ 10) with 10000000000. dlia. }
  change (10 ^ 10) with 10000000000 in Hh. destruct (FormatSignedNumber_text h) as (ds & -> & P); [change (2 ^ 63) with 9223372036854775808; lia|]. cbn [mbind option_bind].
  rewrite !two_digits_spec by lia. cbn [mbind option_bind]. rewrite Z.abs_eq in P by done. unfold sign_text. rewrite (proj2 (Z.ltb_ge h 0)) by done. cbn [app].
  assert (exists frac, (if us =? 0 then Some [] else '(buffer, trailing_zeros) ← FormatMicros us; Some (chr "." :: ztake (6 - trailing_zeros) buffer)) = Some frac
    /\ fraction_text us frac /\ zlen frac <= 7) as (frac & -> & Hfr & Hfl).
  { destruct (Z.eqb_spec us 0) as [->|Hne]; [exists []; split; [done|]; split; [by left|done]|].
    destruct (FormatMicros_digits us ltac:(lia)) as (b & n & -> & Hn & Hb & Hd & Hval). cbn [mbind option_bind].
    assert (zlen (ztake (6 - Z.of_nat n) b) = 6 - Z.of_nat n) as Hz by (rewrite zlen_ztake; lia). eexists. split; [reflexivity|]. rewrite zlen_cons, Hz. split; [|lia].
    right. eexists. split; [reflexivity|]. split; [done|]. rewrite Hz. split; [lia|]. by replace (6 - (6 - Z.of_nat n)) with (Z.of_nat n) by lia. }
  cbn [mbind option_bind]. pose proof (prints_pos _ _ P) as Hp. pose proof (prints_short _ _ 10 P ltac:(lia) ltac:(change (10 ^ 10) with 10000000000; lia)) as Hl.
  exists ((if h <? 10 then [chr "0"] else []) ++ ds), mi, s, us, frac.
  assert (digits_value ((if h <? 10 then [chr "0"] else []) ++ ds) = h) as Hval.
  { destruct (h <? 10); cbn [app]; [|apply P]. change (chr "0" :: ds) with (replicate 1 48 ++ ds). rewrite digits_value_replicate. apply P. }
  rewrite Hval, <- Eh. split; [by rewrite <- !app_assoc|]. split; [apply Forall_app; split; [destruct (h <? 10); by repeat constructor|apply P]|]. split; [done|].
  split; [by destruct (h <? 10), ds|]. change (10 ^ 9) with 1000000000. rewrite zlen_app. destruct (Z.ltb_spec h 10) as [Hsm|Hbig].
  - pose proof (prints_short _ _ 1 P ltac:(lia) Hsm). change (zlen [chr "0"]) with 1. repeat (split; [lia|]). split; [done|]. by split.
  - change (zlen (@nil Z)) with 0. assert (zlen ds <= 9 <-> h < 1000000000) as Hiff.
    { split; [|intros Hlt; by apply (prints_short _ _ 9 P)]. intros Hle. pose proof (digits_value_range ds (prints_digits _ _ P)) as R. rewrite (prints_value _ _ P) in R.
      pose proof (Z.pow_le_mono_r 10 (zlen ds) 9 ltac:(lia) Hle). change (10 ^ 9) with 1000000000 in *. lia. }
    split; [lia|]. split; [lia|]. split; [done|]. split; [done|]. split; [done|]. by split.
Qed.

Lemma parse_clock negative hd mi s us frac r : Forall is_digit hd -> hd <> [] -> 0 <= mi < 60 -> 0 <= s < 60 -> fraction_text us frac ->
  micros r = 0 -> let a := FromTime (digits_value hd) mi s us in (zlen hd <= 9 -> 0 <= a < 2 ^ 63) ->
  parse_time negative (hd ++ clock_tail mi s frac) r = Some (if zlen hd <=? 9 then Some (MkInterval (months r) (days r) (signed_by negative a)) else None).
Proof.
  intros Hd Hn Hm Hs Hf Hr a Ha. unfold parse_time, TryConvertInterval. destruct (Z.leb_spec (zlen hd) 9) as [Hl|Hl].
  - specialize (Ha Hl). rewrite (TryConvertInternal_hours false hd mi s us frac) by done. cbn [mbind option_bind]. rewrite Hr, Z.add_0_l. fold a. assert (castable int64 negative) as Hc by (split; [by right; right; right|done]).
    change a with (signed_by false a) at 1. rewrite try_int_signed by ((split; [by right; right; right|done]) || lia).
    rewrite (proj2 (Z.leb_le _ _)) by (change (limit int64 false) with (2 ^ 63 - 1); lia). cbn [mbind option_bind signed_by]. destruct negative; [|done].
    change (- a) with (signed_by true a). rewrite try_int_signed by (done || lia). by rewrite (proj2 (Z.leb_le _ _)) by (change (limit int64 true) with (2 ^ 63); lia).
  - by rewrite TryConvertInternal_many_hours.
Qed.

(** Adding to the fields. *)
Lemma try_int_in t z : Minimum t <= z <= Maximum t -> try_int t z = Some z.
Proof. intros Hz. unfold try_int. by rewrite !(proj2 (Z.leb_le _ _)) by lia. Qed.

Lemma IntervalTryAddition_in t target input multiplier : in_s 64 (input * multiplier) -> Minimum t <= input * multiplier <= Maximum t ->
  Minimum t <= target + input * multiplier <= Maximum t -> IntervalTryAddition t target input multiplier 0 = Some (target + input * multiplier).
Proof.
  intros H1 H2 H3. unfold IntervalTryAddition. rewrite (try_int_in int64) by (unfold in_s in H1; change (Minimum int64) with (- 2 ^ (64 - 1)); change (Maximum int64) with (2 ^ (64 - 1) - 1); lia).
  cbn [mbind option_bind]. rewrite (try_int_in t _ H2). cbn [mbind option_bind]. by rewrite (try_int_in t _ H3).
Qed.

(** The three numbers of an interval, added to one without them. *)
Lemma add_printed_units i (years := Z.quot (months i) 12) : in_s 32 (months i) -> in_s 32 (days i) ->
  add_specifier YEAR years 0 (MkInterval 0 0 0) = Some (Some (MkInterval (years * 12) 0 0))
  /\ add_specifier MONTH (months i - years * 12) 0 (MkInterval (years * 12) 0 0) = Some (Some (MkInterval (months i) 0 0))
  /\ add_specifier DAY (days i) 0 (MkInterval (months i) 0 0) = Some (Some (MkInterval (months i) (days i) 0)).
Proof.
  unfold in_s. intros Hm Hd. change (2 ^ (32 - 1)) with 2147483648 in *. assert (Z.abs (years * 12) <= Z.abs (months i) /\ Z.abs (months i - years * 12) < 12) as [Hy Hr] by (subst years; dlia).
  assert (Minimum int32 = -2147483648 /\ Maximum int32 = 2147483647) as [M1 M2] by done. assert (Minimum int64 = -9223372036854775808 /\ Maximum int64 = 9223372036854775807) as [M3 M4] by done.
  assert (forall z, -2147483648 <= z <= 2147483647 -> in_s 64 z) as Hin by (intros z Hz; unfold in_s; change (2 ^ (64 - 1)) with 9223372036854775808; lia).
  unfold add_specifier, add_months, add_days, add_micros, MONTHS_PER_YEAR. cbn [months days micros]. split; [|split].
  - by rewrite IntervalTryAddition_in by (apply Hin || rewrite M1, M2; lia).
  - rewrite IntervalTryAddition_in by (apply Hin || rewrite M1, M2; lia). cbn [mbind option_bind months days micros]. rewrite IntervalTryAddition_in by (apply Hin || rewrite M1, M2; lia).
    cbn [mbind option_bind]. do 3 f_equal; lia.
  - rewrite IntervalTryAddition_in by (apply Hin || rewrite M1, M2; lia). cbn [mbind option_bind months days micros]. rewrite IntervalTryAddition_in by (apply Hin || rewrite M3, M4; lia).
    cbn [mbind option_bind]. do 3 f_equal; lia.
Qed.

(** The units of an interval, as they are printed. *)
Record printed_units (i : interval_t) (y m d : bytes) : Prop := {
  printed_years : unit_text true (Z.quot (months i) 12) (B"year") y;
  printed_months : unit_text (bool_decide (y = [])) (months i - Z.quot (months i) 12 * 12) (B"month") m;
  printed_days : unit_text (bool_decide (y ++ m = [])) (days i) (B"day") d
}.

Lemma unit_none first v name u : v = 0 -> unit_text first v name u -> u = [].
Proof. intros -> [[_ ->]|[? _]]; done. Qed.

(** They are read back, whatever is behind them. *)
Lemma parse_printed_units i y m d rest x : in_s 32 (months i) -> in_s 32 (days i) -> printed_units i y m d -> (y ++ m ++ d <> [] -> blank_first rest) ->
  parse_intervals 1 rest (MkInterval (months i) (days i) 0) (negb (bool_decide (y ++ m ++ d = []))) = Some x ->
  parse_intervals 4 (y ++ m ++ d ++ rest) (MkInterval 0 0 0) false = Some x.
Proof.
  intros Hm Hd [Uy Um Ud] Hr E. destruct (add_printed_units i Hm Hd) as (Ay & Am & Ad). set (years := Z.quot (months i) 12) in *. set (mo := months i - years * 12) in *.
  unfold in_s in Hm, Hd. change (2 ^ (32 - 1)) with 2147483648 in *. change (2 ^ 63) with 9223372036854775808 in *.
  assert (Z.abs years < 9223372036854775808 /\ Z.abs mo < 9223372036854775808 /\ Z.abs (days i) < 9223372036854775808) as (B1 & B2 & B3) by (subst years mo; dlia).
  assert (years <> 0 -> y <> []) as Ny by (by eapply unit_text_nonempty). assert (mo <> 0 -> m <> []) as Nm by (by eapply unit_text_nonempty).
  assert (days i <> 0 -> d <> []) as Nd by (by eapply unit_text_nonempty).
  assert (y <> [] -> blank_first m) as Bm by (intros Hy; rewrite bool_decide_eq_false_2 in Um by done; by eapply unit_text_blank).
  assert (y ++ m <> [] -> blank_first d) as Bd by (intros Hy; rewrite bool_decide_eq_false_2 in Ud by done; by eapply unit_text_blank).
  assert (forall a b : bytes, a <> [] -> a ++ b <> []) as Hne by (by intros [|??]). assert (forall a b : bytes, b <> [] -> a ++ b <> []) as Hne' by (by intros [|??] [|??]).
  eapply (parse_unit_printed 3 _ _ _ _ _ _ _ _ _ _ Uy B1 year_named Ay).
  { intros ->. by rewrite Z.mul_0_l. } { intros Hy. apply Ny in Hy. apply blank_first_app; [by apply Bm|]. apply blank_first_app; [apply Bd|apply Hr]; by apply Hne. }
  eapply (parse_unit_printed 2 _ _ _ _ _ _ _ _ _ _ Um B2 month_named Am).
  { intros E0. f_equal. subst mo. lia. } { intros Hy. apply Nm in Hy. apply blank_first_app; [by apply Bd, Hne'|]. apply Hr. apply Hne'. by apply Hne. }
  eapply (parse_unit_printed 1 _ _ _ _ _ _ _ _ _ _ Ud B3 day_named Ad).
  { by intros ->. } { intros Hy. apply Nd in Hy. apply Hr. by apply Hne', Hne'. }
  cbn [orb]. replace (negb (years =? 0) || negb (mo =? 0) || negb (days i =? 0)) with (negb (bool_decide (y ++ m ++ d = []))); [done|].
  destruct (Z.eqb_spec years 0) as [Ey|Ey]; [rewrite (unit_none _ _ _ _ Ey Uy)|rewrite bool_decide_eq_false_2 by (by apply Hne, Ny); done].
  destruct (Z.eqb_spec mo 0) as [Em|Em]; [rewrite (unit_none _ _ _ _ Em Um)|rewrite bool_decide_eq_false_2 by (by apply Hne', Hne, Nm); done].
  destruct (Z.eqb_spec (days i) 0) as [Ed|Ed]; [by rewrite (unit_none _ _ _ _ Ed Ud)|by rewrite bool_decide_eq_false_2 by (by apply Hne', Hne', Nd)].
Qed.

Definition starts_number (s : bytes) : Prop := exists c rest, s = c :: rest /\ (is_digit c \/ c = chr "-").

Lemma signed_starts v ds tail : Forall is_digit ds -> ds <> [] -> starts_number (sign_text v ++ ds ++ tail).
Proof.
  intros Hd Hn. unfold sign_text. destruct (v <? 0); [by exists (chr "-"), (ds ++ tail); split; [|right]|]. destruct Hd as [|c ds Hc _]; [done|].
  exists c, (ds ++ tail). split; [done|by left].
Qed.

Lemma unit_text_starts v name u rest : unit_text true v name u -> u <> [] -> starts_number (u ++ rest).
Proof.
  intros [[_ ->]|(_ & ds & P & ->)] Hn; [done|]. cbn [app]. rewrite <- !app_assoc. apply signed_starts; [apply P|]. intros ->. by apply prints_pos in P.
Qed.

Lemma FromCString_number s x : starts_number s -> parse_intervals 4 s (MkInterval 0 0 0) false = Some x -> Interval_FromCString s = Some x.
Proof.
  intros (c & rest & -> & Hc) E. unfold Interval_FromCString.
  assert ((c =? chr "@") = false /\ (c =? chr "P") || (c =? chr "p") = false) as [-> ->]
    by (change (chr "@") with 64; change (chr "P") with 80; change (chr "p") with 112; change (chr "-") with 45 in Hc; unfold is_digit in Hc; zbool; lia).
  apply (parse_intervals_mono 4); [lia|done].
Qed.

Lemma Interval_Format_units i : in_s 32 (months i) -> in_s 32 (days i) -> exists y m d, printed_units i y m d /\ zlen (y ++ m ++ d) <= 45
  /\ Interval_Format i = if micros i =? 0 then Some (if bool_decide (y ++ m ++ d = []) then B"00:00:00" else y ++ m ++ d)
                         else c ← format_clock (micros i); Some (y ++ m ++ d ++ (if bool_decide (y ++ m ++ d = []) then [] else [chr " "]) ++ c).
Proof.
  unfold in_s. intros Hm Hd. change (2 ^ (32 - 1)) with 2147483648 in *. set (years := Z.quot (months i) 12). set (mo := months i - years * 12).
  assert (Z.abs years < 10 ^ 9 /\ Z.abs mo < 10 ^ 2 /\ Z.abs (days i) < 10 ^ 10) as (B1 & B2 & B3).
  { change (10 ^ 9) with 1000000000. change (10 ^ 2) with 100. change (10 ^ 10) with 10000000000. subst years mo. dlia. }
  change (10 ^ 9) with 1000000000 in B1. change (10 ^ 2) with 100 in B2. change (10 ^ 10) with 10000000000 in B3.
  destruct (FormatIntervalValue_text years [] (B"year") ltac:(lia)) as (y & Ey & Uy). rewrite bool_decide_eq_true_2 in Uy by done. cbn [app] in Ey.
  destruct (FormatIntervalValue_text mo y (B"month") ltac:(lia)) as (m & Em & Um). destruct (FormatIntervalValue_text (days i) (y ++ m) (B"day") ltac:(lia)) as (d & Ed & Ud).
  assert ((if months i =? 0 then Some [] else buffer ← FormatIntervalValue years [] (B" year"); FormatIntervalValue mo buffer (B" month")) = Some (y ++ m)) as Eb.
  { destruct (Z.eqb_spec (months i) 0) as [E0|_].
    - assert (years = 0 /\ mo = 0) as [E1 E2] by (subst years mo; rewrite E0; done). by rewrite (unit_none _ _ _ _ E1 Uy), (unit_none _ _ _ _ E2 Um).
    - change (B" year") with (chr " " :: B"year"). rewrite Ey. cbn [mbind option_bind]. change (B" month") with (chr " " :: B"month"). exact Em. }
  assert ((if days i =? 0 then Some (y ++ m) else FormatIntervalValue (days i) (y ++ m) (B" day")) = Some (y ++ m ++ d)) as Ec.
  { destruct (Z.eqb_spec (days i) 0) as [E0|_]; [by rewrite (unit_none _ _ _ _ E0 Ud), app_nil_r|]. change (B" day") with (chr " " :: B"day"). by rewrite Ed, <- app_assoc. }
  exists y, m, d. split; [by split|]. split.
  - pose proof (unit_text_length _ _ _ _ 9 Uy B1 ltac:(lia)) as L1. pose proof (unit_text_length _ _ _ _ 2 Um B2 ltac:(lia)) as L2.
    pose proof (unit_text_length _ _ _ _ 10 Ud B3 ltac:(lia)) as L3. change (zlen (B"year")) with 4 in L1. change (zlen (B"month")) with 5 in L2. change (zlen (B"day")) with 3 in L3.
    rewrite !zlen_app. lia.
  - unfold Interval_Format. cbv zeta. fold years. fold mo. rewrite Eb. cbn [mbind option_bind]. rewrite Ec. cbn [mbind option_bind].
    destruct (micros i =? 0); [done|]. destruct (format_clock (micros i)); [|done]. cbn [mbind option_bind]. 
    destruct (decide (y ++ m ++ d = [])) as [Hb|Hb]; [rewrite !bool_decide_eq_true_2 by done; rewrite Hb; cbn [app]; by apply app_eq_nil in Hb as [-> [-> ->]%app_eq_nil]|]. rewrite !bool_decide_eq_false_2 by done. by rewrite <- !app_assoc.
Qed.

(** C30: An interval survives its text: the engine prints every interval within the 70
    characters of its buffer, years, months, days and a time, each with its own sign, and
    reads back the same interval, as long as the time has fewer than a billion hours; of
    more hours it refuses the text it has printed itself. *)
Theorem interval_text_roundtrip i : in_s 32 (months i) -> in_s 32 (days i) -> in_s 64 (micros i) ->
  exists s, Interval_ToString i = Some s
    /\ Interval_FromCString s = Some (if hours_of (Z.abs (micros i)) <? 10 ^ 9 then Some i else None).
Proof.
  intros Hm Hd Hu. destruct (Interval_Format_units i Hm Hd) as (y & m & d & U & Hl & E). unfold Interval_ToString. rewrite E.
  pose proof (fun tail => unit_text_starts _ _ _ tail (printed_years _ _ _ _ U)) as Sy. pose proof (printed_months _ _ _ _ U) as Um. pose proof (printed_days _ _ _ _ U) as Ud.
  assert (forall tail, y ++ m ++ d <> [] -> starts_number (y ++ m ++ d ++ tail)) as St.
  { intros tail Hne. destruct y as [|a y]; [|by apply Sy]. cbn [app] in *. rewrite bool_decide_eq_true_2 in Um by done. destruct m as [|b m]; [|by apply (unit_text_starts _ _ _ _ Um)].
    cbn [app] in *. rewrite bool_decide_eq_true_2 in Ud by done. by apply (unit_text_starts _ _ _ _ Ud). }
  destruct (Z.eqb_spec (micros i) 0) as [E0|Hn].
  - cbn [mbind option_bind]. rewrite E0. change (hours_of (Z.abs 0) <? 10 ^ 9) with true. destruct (decide (y ++ m ++ d = [])) as [Hz|Hz].
    + rewrite bool_decide_eq_true_2 by done. exists (B"00:00:00"). split; [done|]. destruct (app_eq_nil _ _ Hz) as [-> [-> ->]%app_eq_nil].
      assert (i = MkInterval 0 0 0) as ->; [|by vm_compute]. destruct U as [V1 V2 V3].
      assert (forall f v name, unit_text f v name [] -> v = 0) as Hz0 by (intros f v name V; destruct (decide (v = 0)); [done|by apply (unit_text_nonempty _ _ _ _ V) in n]).
      apply Hz0 in V1, V2, V3. rewrite V1 in V2. destruct i; cbn in *. f_equal; lia.
    + rewrite bool_decide_eq_false_2 by done. exists (y ++ m ++ d). rewrite (proj2 (Z.leb_le _ _)) by lia. split; [done|].
      apply FromCString_number; [rewrite <- (app_nil_r d); by apply St|]. rewrite <- (app_nil_r d) at 1. apply parse_printed_units with (i := i); [done|done|done|by left|].
      rewrite bool_decide_eq_false_2 by done. cbn. rewrite <- E0. by destruct i.
  - destruct (format_clock_text (micros i) Hu) as (hd & mi & s & us & frac & -> & Hhd & Hv & Hne & H9 & H10 & Hmi & Hs & Hf & Hfl & Ha). cbn [mbind option_bind].
    eexists. rewrite (proj2 (Z.leb_le _ _)).
    2: { rewrite !app_assoc, <- (app_assoc y), !zlen_app in *. unfold clock_tail, sign_text. destruct (bool_decide _), (micros i <? 0); rewrite ?zlen_app, ?zlen_cons, ?zlen_nil; lia. }
    split; [reflexivity|]. set (first := bool_decide (y ++ m ++ d = [])). set (clock := sign_text (micros i) ++ hd ++ clock_tail mi s frac).
    apply FromCString_number.
    { subst first. destruct (decide (y ++ m ++ d = [])) as [Hz|Hz]; [|exact (St _ Hz)]. rewrite bool_decide_eq_true_2 by done. destruct (app_eq_nil _ _ Hz) as [-> [-> ->]%app_eq_nil]. by apply signed_starts. }
    apply parse_printed_units with (i := i); [done|done|done|intros Hne'; subst first; rewrite bool_decide_eq_false_2 by done; by right|].
    subst clock. change (sign_text (micros i)) with (sign_of (micros i <? 0)). replace (if first then [] else [chr " "]) with (if negb first then [chr " "] else []) by (by destruct first).
    rewrite parse_number_text by (done || (by intros ? ? [= <- _])). rewrite bool_decide_eq_true_2 by done.
    rewrite (parse_clock _ hd mi s us frac); [|done..|intros H; rewrite Ha; apply H9 in H; unfold hours_of, MICROS_PER_HOUR in H; change (10 ^ 9) with 1000000000 in H;
      change (2 ^ 63) with 9223372036854775808; dlia].
    f_equal. destruct (Z.leb_spec (zlen hd) 9), (Z.ltb_spec (hours_of (Z.abs (micros i))) (10 ^ 9)); try lia; [|done]. f_equal. rewrite Ha. cbn [months days].
    destruct i as [mo da mu]. cbn [months days micros] in *. f_equal. unfold signed_by. destruct (Z.ltb_spec mu 0); lia.
Qed.

Lemma interval_text_roundtrip_witness : exists s, Interval_ToString (MkInterval (-25) 3 (- 2 ^ 63)) = Some s /\ Interval_FromCString s = Some None.
Proof. apply (interval_text_roundtrip (MkInterval (-25) 3 (- 2 ^ 63))); unfold in_s; by vm_compute. Defined.
