(* ===== verification/Weeks.v ===== *)
(** * Parts of a date ([duckdb/src/common/types/date.cpp])

    The epochs, the days of the year and of the week, and the weeks of a year. A date is a
    number of days in 32 bits; [None] is a sum that does not fit, an index out of a
    table, or a conversion that throws. *)

From S2P Require Import Prelude Interval Calendar.

(** Arithmetic on [date_t]; a sum out of range is undefined. *)
Definition days32 (z : Z) : option Z := if decide (in_s 32 z) then Some z else None.

Definition SECS_PER_DAY : Z := 60 * 60 * 24.

Definition MonthDays (year month : Z) : option Z := at_index (if IsLeapYear year then LEAP_DAYS else NORMAL_DAYS) month.

(** ** Epochs *)
Definition EpochToDate (epoch : Z) : Z := s32 (Z.quot epoch SECS_PER_DAY).
Definition Epoch (date : Z) : Z := date * SECS_PER_DAY.
Definition EpochNanoseconds (date : Z) : option Z := try_s64 (date * (MICROS_PER_DAY * 1000)).
Definition EpochMicroseconds (date : Z) : option Z := try_s64 (date * MICROS_PER_DAY).
Definition EpochMilliseconds (date : Z) : option Z := try_s64 (date * Z.quot MICROS_PER_DAY MICROS_PER_MSEC).

(** ** Fields *)
Definition ExtractYear (d : Z) : option Z := '(_, year, _) ← ExtractYearOffset d; Some year.
Definition ExtractMonth (date : Z) : option Z := '(_, month, _) ← Date_Convert date; Some month.
Definition ExtractDay (date : Z) : option Z := '(_, _, day) ← Date_Convert date; Some day.

Definition ExtractDayOfTheYear (date : Z) : option Z :=
  '(days, _, year_offset) ← ExtractYearOffset date;
  start ← at_index CUMULATIVE_YEAR_DAYS year_offset;
  Some (days - start + 1).

Definition JULIAN_EPOCH : Z := -2440588.
Definition ExtractJulianDay (date : Z) : Z := date - JULIAN_EPOCH.

(** 1 is Monday. *)
Definition ExtractISODayOfTheWeek (date : Z) : Z :=
  if date <? 0 then 7 - Z.rem (- date + 3) 7 else Z.rem (date + 3) 7 + 1.

(** ** Weeks *)
Definition PythonDivMod (x y : Z) : Z * Z :=
  let quo := Z.quot x y in
  let r := x - quo * y in
  if r <? 0 then (quo - 1, r + y) else (quo, r).

Definition GetISOWeekOne (year : Z) : option Z :=
  first_day ← TryFromDate year 1 1;
  let first_weekday := ExtractISODayOfTheWeek first_day - 1 in
  week1_monday ← days32 (first_day - first_weekday);
  if 3 <? first_weekday then days32 (week1_monday + 7) else Some week1_monday.

(** The year and the week within it. *)
Definition GetISOYearWeek (date : Z) : option (Z * Z) :=
  '(year, _, _) ← Date_Convert date;
  week1_monday ← GetISOWeekOne year;
  let week := (PythonDivMod (date - week1_monday) 7).1 in
  if week <? 0 then
    week1_monday ← GetISOWeekOne (year - 1);
    let week := (PythonDivMod (date - week1_monday) 7).1 in
    Some (year - 1, week + 1)
  else if 52 <=? week then
    next ← GetISOWeekOne (year + 1);
    if next <=? date then Some (year + 1, 0 + 1) else Some (year, week + 1)
  else Some (year, week + 1).

Definition ExtractISOYearWeek (date : Z) : option (Z * Z) := GetISOYearWeek date.
Definition ExtractISOWeekNumber (date : Z) : option Z := '(_, week) ← ExtractISOYearWeek date; Some week.
Definition ExtractISOYearNumber (date : Z) : option Z := '(year, _) ← ExtractISOYearWeek date; Some year.

Definition ExtractWeekNumberRegular (date : Z) (monday_first : bool) : option Z :=
  '(year, month, day) ← Date_Convert date;
  before ← at_index (if IsLeapYear year then CUMULATIVE_LEAP_DAYS else CUMULATIVE_DAYS) (month - 1);
  let day_of_the_year := before + (day - 1) in
  jan_first ← TryFromDate year 1 1;
  let day_of_jan_first := ExtractISODayOfTheWeek jan_first in
  let first_week_start :=
    if monday_first then if day_of_jan_first =? 1 then 0 else 8 - day_of_jan_first else 7 - day_of_jan_first in
  if day_of_the_year <? first_week_start then Some 0 else Some (Z.quot (day_of_the_year - first_week_start) 7 + 1).

Definition GetMondayOfCurrentWeek (date : Z) : option Z := days32 (date - (ExtractISODayOfTheWeek date - 1)).

Example iso_week_before : ExtractISOYearWeek 18628 = Some (2020, 53).
Proof. vm_compute. reflexivity. Qed.
Example iso_week_after : ExtractISOYearWeek 20088 = Some (2025, 1).
Proof. vm_compute. reflexivity. Qed.
Example week_regular : ExtractWeekNumberRegular 19782 true = Some 9.
Proof. vm_compute. reflexivity. Qed.

(** ** Years and days of the week *)
Lemma day_of_week n : ExtractISODayOfTheWeek n = (n + 3) mod 7 + 1.
Proof. unfold ExtractISODayOfTheWeek. destruct (Z.ltb_spec n 0); dlia. Qed.

Lemma Date_Convert_year n : in_s 32 n -> exists y m d a, Date_Convert n = Some (y, m, d) /\ civil y m d a /\ n = year_base y + a + d - 1
  /\ year_base y <= n < year_base (y + 1).
Proof.
  intros Hn. destruct (civil_of_day n Hn) as (y & m & d & a & Hc & ->). exists y, m, d, a. split; [by apply Date_Convert_civil|].
  split; [done|]. split; [done|]. by apply (year_of_day y m d a).
Qed.

Lemma year_of_range n y lo hi : year_base lo <= n -> n < year_base (hi + 1) -> year_base y <= n < year_base (y + 1) -> lo <= y <= hi.
Proof.
  intros Hlo Hhi Hy. split.
  - destruct (Z.le_gt_cases lo y); [done|]. pose proof (year_base_le (y + 1) lo ltac:(lia)). lia.
  - destruct (Z.le_gt_cases y hi); [done|]. pose proof (year_base_le (hi + 1) y ltac:(lia)). lia.
Qed.

Lemma January_first y : civil y 1 1 0.
Proof.
  destruct (month_entry (IsLeapYear y) 1 ltac:(lia)) as (a & c & Ha & Hc & H0 & Hac & Hx).
  assert (a = 0 /\ c = 31) as [-> ->] by (destruct (IsLeapYear y); vm_compute in Ha, Hc; split; congruence).
  split; [lia|done|lia|]. exists 31. split; [done|]. split; [lia|]. split; [|done]. unfold year_days. by case_match.
Qed.

Lemma year_first_day y : DATE_MIN_YEAR < y <= DATE_MAX_YEAR -> first_day <= year_base y <= last_day /\ TryFromDate y 1 1 = Some (year_base y).
Proof.
  intros Hy. pose proof (year_base_le (DATE_MIN_YEAR + 1) y ltac:(lia)) as Hlo. pose proof (year_base_le y DATE_MAX_YEAR ltac:(lia)) as Hhi.
  rewrite year_base_succ in Hlo. pose proof (year_days_range DATE_MIN_YEAR). pose proof min_year_base as [Hmin _]. pose proof max_year_base as [Hmax _].
  assert (first_day <= year_base y + 0 + 1 - 1 <= last_day) as Hr by lia. split; [lia|].
  rewrite (TryFromDate_civil y 1 1 0 (January_first y)); [f_equal; lia|]. by apply (civil_valid y 1 1 0 (January_first y)).
Qed.

(** ** The first week of a year *)

(** The Monday of the week with the fourth of January. *)
Definition week_one (y : Z) : Z := year_base y + 3 - (year_base y + 6) mod 7.

Lemma week_one_range y : year_base y - 3 <= week_one y <= year_base y + 3 /\ (week_one y + 3) mod 7 = 0.
Proof. unfold week_one. dlia. Qed.

Lemma GetISOWeekOne_spec y : DATE_MIN_YEAR < y <= DATE_MAX_YEAR -> GetISOWeekOne y = Some (week_one y).
Proof.
  intros Hy. destruct (year_first_day y Hy) as [Hr E]. pose proof (year_base_le (DATE_MIN_YEAR + 1) y ltac:(lia)) as Hlo.
  rewrite year_base_succ in Hlo. pose proof (year_days_range DATE_MIN_YEAR). pose proof min_year_base as [Hmin _].
  pose proof (year_base_le y DATE_MAX_YEAR ltac:(lia)) as Hhi. pose proof max_year_base as [Hmax _].
  unfold GetISOWeekOne. rewrite E. cbn [mbind option_bind]. rewrite day_of_week. unfold first_day, last_day, days32, week_one in *.
  rewrite decide_True by (unfold in_s; dlia). cbn [mbind option_bind]. destruct (Z.ltb_spec 3 ((year_base y + 3) mod 7 + 1 - 1)).
  - rewrite decide_True by (unfold in_s; dlia). f_equal. dlia.
  - f_equal. dlia.
Qed.

Lemma PythonDivMod_div x : (PythonDivMod x 7).1 = x / 7.
Proof. unfold PythonDivMod. destruct (Z.ltb_spec (x - Z.quot x 7 * 7) 0); cbn [fst]; dlia. Qed.

(** The Thursday of the week of a day. *)
Definition thursday (n : Z) : Z := n - (n + 3) mod 7 + 3.

(** A day is in the year its Thursday is in. *)
Lemma week_one_thursday n y : week_one y <= n <-> year_base y <= thursday n.
Proof. pose proof (week_one_range y) as [H1 H2]. unfold thursday. split; intros H; dlia. Qed.

Lemma week_number n y : week_one y <= n -> (n - week_one y) / 7 = (thursday n - year_base y) / 7.
Proof. intros H. pose proof (week_one_range y) as [H1 H2]. unfold thursday. dlia. Qed.

(** The years whose first week the engine can compute around a date. *)
Lemma year_of_date n : year_base (DATE_MIN_YEAR + 2) <= n <= last_day -> exists y m d a, Date_Convert n = Some (y, m, d) /\ civil y m d a
  /\ n = year_base y + a + d - 1 /\ year_base y <= n < year_base (y + 1) /\ DATE_MIN_YEAR + 2 <= y <= DATE_MAX_YEAR.
Proof.
  intros [Hlo Hhi]. pose proof (year_base_le (DATE_MIN_YEAR + 1) (DATE_MIN_YEAR + 2) ltac:(lia)) as Hb. rewrite year_base_succ in Hb.
  pose proof (year_days_range DATE_MIN_YEAR). pose proof min_year_base as [Hmin _]. pose proof max_year_base as [Hmax Hleap].
  pose proof (year_base_succ DATE_MAX_YEAR) as Hms. pose proof (year_days_range DATE_MAX_YEAR).
  assert (in_s 32 n) as Hs by (unfold first_day, last_day, in_s in *; lia).
  destruct (Date_Convert_year n Hs) as (y & m & d & a & Ec & Hc & En & Hy). exists y, m, d, a. do 4 (split; [done|]).
  apply (year_of_range n y (DATE_MIN_YEAR + 2) DATE_MAX_YEAR Hlo ltac:(lia) Hy).
Qed.

(** No date of the last year is in its last weeks. *)
Lemma last_year_short n : n <= last_day -> (n - week_one DATE_MAX_YEAR) / 7 < 52.
Proof. intros Hn. pose proof (week_one_range DATE_MAX_YEAR). pose proof max_year_base as [Hmax _]. dlia. Qed.

(** Which year's weeks a date is counted in. *)
Lemma GetISOYearWeek_cases n : year_base (DATE_MIN_YEAR + 2) <= n <= last_day ->
  exists y, GetISOYearWeek n = Some (y, (n - week_one y) / 7 + 1) /\ week_one y <= n < week_one (y + 1).
Proof.
  intros Hn. destruct (year_of_date n Hn) as (y & m & d & a & Ec & _ & _ & Hy & Hr).
  pose proof (week_one_range y) as [Hw1 Hm1]. pose proof (week_one_range (y + 1)) as [Hw2 Hm2]. pose proof (week_one_range (y - 1)) as [Hw0 Hm0].
  pose proof (year_base_succ y) as Hys. pose proof (year_days_range y) as Hd1. pose proof (year_base_succ (y - 1)) as Hyp. pose proof (year_days_range (y - 1)) as Hd0.
  replace (y - 1 + 1) with y in Hyp by lia. unfold GetISOYearWeek. rewrite Ec. cbn [mbind option_bind]. rewrite (GetISOWeekOne_spec y) by lia.
  cbn [mbind option_bind]. rewrite PythonDivMod_div. destruct (Z.ltb_spec ((n - week_one y) / 7) 0) as [Hs|Hs].
  - rewrite (GetISOWeekOne_spec (y - 1)) by lia. cbn [mbind option_bind]. rewrite PythonDivMod_div. exists (y - 1). split; [done|]. replace (y - 1 + 1) with y by lia.
    clear - Hw0 Hyp Hd0 Hy Hs. split; [lia|dlia].
  - assert (week_one y <= n) as Hge by (clear - Hs; dlia). destruct (Z.leb_spec 52 ((n - week_one y) / 7)) as [Hl|Hl].
    + assert (y + 1 <= DATE_MAX_YEAR) as Hmy.
      { destruct (Z.le_gt_cases (y + 1) DATE_MAX_YEAR); [done|]. assert (y = DATE_MAX_YEAR) as -> by lia. pose proof (last_year_short n ltac:(lia)). lia. }
      rewrite GetISOWeekOne_spec by lia. cbn [mbind option_bind]. destruct (Z.leb_spec (week_one (y + 1)) n).
      * exists (y + 1). pose proof (week_one_range (y + 1 + 1)) as [Hw3 _]. pose proof (year_base_succ (y + 1)). pose proof (year_days_range (y + 1)).
        split; [|lia]. do 2 f_equal. assert ((n - week_one (y + 1)) / 7 = 0) as -> by (apply Z.div_small; lia). done.
      * exists y. done.
    + exists y. split; [done|]. split; [done|]. clear - Hl Hw1 Hw2 Hys Hd1 Hm1 Hm2. dlia.
Qed.

(** C35: The week of a date is the one of ISO 8601: the year is the one the Thursday of the week
    lies in, which may be the year before or after the date's, and the week is the number of
    that Thursday in it, from 1 to 53. This holds for every date of the engine but the first
    two years, whose first of January is no date. *)
Theorem iso_week_is_thursdays n : year_base (DATE_MIN_YEAR + 2) <= n <= last_day ->
  exists y w, ExtractISOYearWeek n = Some (y, w) /\ year_base y <= thursday n < year_base (y + 1)
    /\ w = (thursday n - year_base y) / 7 + 1 /\ 1 <= w <= 53.
Proof.
  intros Hn. destruct (GetISOYearWeek_cases n Hn) as (y & E & Hw). exists y, ((n - week_one y) / 7 + 1). split; [exact E|].
  pose proof (proj1 (week_one_thursday n y) ltac:(lia)) as H1.
  assert (thursday n < year_base (y + 1)) as H2
    by (destruct (Z.lt_ge_cases (thursday n) (year_base (y + 1))) as [|Hge]; [done|apply week_one_thursday in Hge; lia]).
  split; [done|]. rewrite week_number by lia. split; [done|]. rewrite year_base_succ in H2. pose proof (year_days_range y). dlia.
Qed.

(** ** Days of the year, and weeks counted from its first Monday or Sunday *)
Lemma ExtractYear_of_day n : in_s 32 n -> exists y, ExtractYear n = Some y /\ ExtractDayOfTheYear n = Some (n - year_base y + 1) /\ year_base y <= n < year_base (y + 1).
Proof.
  intros Hn. destruct (ExtractYearOffset_spec n Hn) as (k & Hk & Hy & E). exists (1970 + 400 * (n / I400) + k). unfold ExtractYear, ExtractDayOfTheYear.
  rewrite E. cbn [mbind option_bind]. rewrite (year_start_index k) by lia. cbn [mbind option_bind].
  pose proof (year_base_pos (n / I400) k Hk) as Eb. pose proof (Z.div_mod n I400 ltac:(done)) as Hd. split; [done|]. split; [f_equal; lia|].
  rewrite year_base_succ, year_days_pos, Eb by done. destruct (year_entry k Hk) as (_ & _ & _ & Ed). lia.
Qed.

Lemma ExtractWeekNumberRegular_spec n (monday_first : bool) : year_base (DATE_MIN_YEAR + 2) <= n <= last_day ->
  exists y first, year_base y <= n < year_base (y + 1) /\ year_base y <= first < year_base y + 7
    /\ ExtractISODayOfTheWeek first = (if monday_first then 1 else 7)
    /\ ExtractWeekNumberRegular n monday_first = Some (if n <? first then 0 else (n - first) / 7 + 1).
Proof.
  intros Hn. destruct (year_of_date n Hn) as (y & m & d & a & Ec & [_ Ha _ _] & En & Hy & Hr). destruct (year_first_day y ltac:(lia)) as [_ Ef].
  set (b := year_base y) in *. exists y, (b + (if monday_first then - (b + 3) mod 7 else 6 - (b + 3) mod 7)). split; [done|]. split; [destruct monday_first; dlia|].
  rewrite day_of_week. split; [destruct monday_first; dlia|]. unfold ExtractWeekNumberRegular. rewrite Ec. cbn [mbind option_bind]. unfold days_before in Ha. rewrite Ha.
  cbn [mbind option_bind]. rewrite Ef. cbn [mbind option_bind]. rewrite day_of_week.
  set (start := if monday_first then if (b + 3) mod 7 + 1 =? 1 then 0 else 8 - ((b + 3) mod 7 + 1) else 7 - ((b + 3) mod 7 + 1)).
  assert (start = if monday_first then - (b + 3) mod 7 else 6 - (b + 3) mod 7) as Hst.
  { subst start. destruct monday_first; [|lia]. destruct (Z.eqb_spec ((b + 3) mod 7 + 1) 1); dlia. }
  rewrite <- Hst. clearbody start. destruct (Z.ltb_spec (a + (d - 1)) start), (Z.ltb_spec n (b + start)); try lia; [done|].
  rewrite Z.quot_div_nonneg by lia. do 2 f_equal. f_equal. lia.
Qed.

Lemma GetMondayOfCurrentWeek_spec n : first_day + 7 <= n <= last_day -> exists d, GetMondayOfCurrentWeek n = Some d /\ ExtractISODayOfTheWeek d = 1 /\ d <= n < d + 7.
Proof.
  intros Hn. unfold GetMondayOfCurrentWeek, days32, first_day, last_day in *. rewrite day_of_week. rewrite decide_True by (unfold in_s; dlia).
  eexists. split; [done|]. rewrite day_of_week. dlia.
Qed.

(** ** Epochs *)
Lemma epoch_roundtrip n : in_s 32 n -> EpochToDate (Epoch n) = n.
Proof. intros Hn. unfold EpochToDate, Epoch. rewrite Z.quot_mul by done. by apply wrap_s_small. Qed.

(** The midnight of a day is on that day. *)
Lemma EpochMicroseconds_date n v : EpochMicroseconds n = Some v -> IsFinite v = true /\ GetDate v = n /\ GetTime v = Some 0.
Proof.
  unfold EpochMicroseconds, try_s64. case_decide as Hv; [|done]. intros [= <-].
  assert (IsFinite (n * MICROS_PER_DAY) = true) as Hf.
  { unfold IsFinite, timestamp_infinity, timestamp_ninfinity, MICROS_PER_DAY, MICROS_PER_HOUR, HOURS_PER_DAY.
    rewrite !(proj2 (Z.eqb_neq _ _)) by (clear; dlia). done. }
  rewrite GetTime_mod, GetDate_floor by done. rewrite Z.div_mul, Z.mod_mul by done. done.
Qed.

(** New Year's Eve of 2024 is in the first week of 2025. *)
Lemma iso_week_is_thursdays_witness : exists y w, ExtractISOYearWeek 20088 = Some (y, w) /\ year_base y <= thursday 20088 < year_base (y + 1)
  /\ w = (thursday 20088 - year_base y) / 7 + 1 /\ 1 <= w <= 53.
Proof. apply (iso_week_is_thursdays 20088). vm_compute. split; discriminate. Defined.
