(* ===== verification/Precision.v ===== *)
(** * Timestamps of other precisions
    ([duckdb/src/common/types/timestamp.cpp], [time.cpp], and the casts between timestamps of
    [duckdb/src/common/operator/cast_operators.cpp])

    The engine has timestamps in seconds, milliseconds, microseconds and nanoseconds, all
    as 64-bit integers, with the same two values as infinities. [None] is an overflow, on
    which the functions throw. C division truncates. *)

From S2P Require Import Prelude Interval Calendar.

Definition NANOS_PER_MSEC : Z := NANOS_PER_MICRO * MICROS_PER_MSEC.
Definition NANOS_PER_SEC : Z := NANOS_PER_MSEC * 1000.
Definition NANOS_PER_DAY : Z := NANOS_PER_SEC * 60 * 60 * HOURS_PER_DAY.

(** ** Parts of a timestamp *)

(** Division that rounds down, from one that truncates. *)
Definition TemporalRound (value scale : Z) : Z :=
  let negative := if value <? 0 then 1 else 0 in
  Z.quot (value + negative) scale - negative.

(** The time of day of a timestamp in nanoseconds. *)
Definition GetTimeNs (input : Z) : option Z :=
  if negb (IsFinite input) then None
  else
    let negative := if input <? 0 then 1 else 0 in
    let date := s32 (Z.quot (input + negative) NANOS_PER_DAY - negative) in
    nanos ← try_s64 (date * NANOS_PER_DAY);
    Some (s64 (input - nanos)).

Definition FromDatetime (date time : Z) : option Z := TryFromDatetime date time.

(** [Timestamp::Convert] for nanoseconds: date, microseconds of the day, nanoseconds. *)
Definition Timestamp_Convert_ns (input : Z) : option (Z * Z * Z) :=
  let ms := TemporalRound input NANOS_PER_MICRO in
  let out_date := GetDate ms in
  days_nanos ← try_s64 (out_date * NANOS_PER_DAY);
  let rest := s64 (input - days_nanos) in
  Some (out_date, Z.quot rest NANOS_PER_MICRO, s32 (Z.rem rest NANOS_PER_MICRO)).

(** [Timestamp::GetComponents] *)
Definition GetComponents (timestamp : Z) : option (Z * Z * Z * (Z * Z * Z * Z)) :=
  let date := GetDate timestamp in
  days_micros ← try_s64 (date * MICROS_PER_DAY);
  fields ← Date_Convert date;
  Some (fields, Time_Convert (s64 (timestamp - days_micros))).

Definition IsValidTime (hour minute second microseconds : Z) : bool :=
  if (hour <? 0) || (24 <=? hour) then (hour =? 24) && (minute =? 0) && (second =? 0) && (microseconds =? 0)
  else if (minute <? 0) || (60 <=? minute) then false
  else if (second <? 0) || (60 <? second) then false
  else if (microseconds <? 0) || (1000000 <? microseconds) then false
  else true.

Definition ToNanoTime (hour minute second nanoseconds : Z) : Z :=
  ((hour * MINS_PER_HOUR + minute) * SECS_PER_MINUTE + second) * NANOS_PER_SEC + nanoseconds.

Definition FromTimeMs (time_ms : Z) : option Z := try_s64 (time_ms * MICROS_PER_MSEC).
Definition FromTimeNs (time_ns : Z) : Z := Z.quot time_ns NANOS_PER_MICRO.

(** ** From and to epochs *)
Definition TimestampNsFromEpochMillis (millis : Z) : option Z := try_s64 (millis * NANOS_PER_MICRO).
Definition TimestampNsFromEpochMicros (micros : Z) : option Z := try_s64 (micros * NANOS_PER_MSEC).
Definition GetEpochSeconds (timestamp : Z) : Z := Z.quot timestamp MICROS_PER_SEC.
Definition GetEpochMs (timestamp : Z) : Z := Z.quot timestamp MICROS_PER_MSEC.
Definition GetEpochMicroSeconds (timestamp : Z) : Z := timestamp.
Definition TryGetEpochNanoSeconds (timestamp : Z) : option Z := try_s64 (timestamp * NANOS_PER_MICRO).
Definition GetEpochNanoSeconds (timestamp : Z) : option Z := TryGetEpochNanoSeconds timestamp.

(** Rounding away from the epoch. *)
Definition GetEpochRounded (input power_of_ten : Z) : Z :=
  let scaling := Z.quot power_of_ten 2 in
  let value := Z.quot input scaling in
  let value := if value <? 0 then value - 1 else value + 1 in
  Z.quot value 2.

(** ** Casts; an infinity stays what it is *)
Definition CastTimestampUsToMs (input : Z) : Z := if negb (IsFinite input) then input else GetEpochRounded input MICROS_PER_MSEC.
Definition CastTimestampUsToNs (input : Z) : option Z := if negb (IsFinite input) then Some input else GetEpochNanoSeconds input.
Definition CastTimestampUsToSec (input : Z) : Z := if negb (IsFinite input) then input else GetEpochRounded input MICROS_PER_SEC.
Definition CastTimestampMsToUs (input : Z) : option Z := if negb (IsFinite input) then Some input else FromEpochMs input.
Definition CastTimestampSecToUs (input : Z) : option Z := if negb (IsFinite input) then Some input else FromEpochSeconds input.
Definition CastTimestampNsToUs (input : Z) : option Z := if negb (IsFinite input) then Some input else FromEpochNanoSeconds input.
Definition CastTimestampMsToNs (input : Z) : option Z :=
  if negb (IsFinite input) then Some input else us ← CastTimestampMsToUs input; CastTimestampUsToNs us.
Definition CastTimestampSecToMs (input : Z) : option Z :=
  if negb (IsFinite input) then Some input else us ← CastTimestampSecToUs input; Some (CastTimestampUsToMs us).
Definition CastTimestampSecToNs (input : Z) : option Z :=
  if negb (IsFinite input) then Some input else us ← CastTimestampSecToUs input; CastTimestampUsToNs us.

Definition CastTimestampMsToDate (input : Z) : option Z := us ← FromEpochMs input; Some (GetDate us).
Definition CastTimestampMsToTime (input : Z) : option Z := us ← FromEpochMs input; GetTime us.
Definition CastTimestampSecToDate (input : Z) : option Z := us ← CastTimestampSecToUs input; Some (GetDate us).
Definition CastTimestampSecToTime (input : Z) : option Z := us ← CastTimestampSecToUs input; GetTime us.
Definition CastTimestampNsToTimeNs (input : Z) : option Z := GetTimeNs input.
Definition CastTimestampNsToTime (input : Z) : option Z := us ← CastTimestampNsToUs input; GetTime us.
Definition CastTimestampNsToDate (input : Z) : option Z :=
  if input =? timestamp_infinity then Some date_infinity
  else if input =? timestamp_ninfinity then Some date_ninfinity
  else us ← CastTimestampNsToUs input; Some (GetDate us).

Example rounded_away : (CastTimestampUsToMs 1500, CastTimestampUsToMs (-1500), CastTimestampUsToMs 1499) = (2, -2, 1).
Proof. vm_compute. reflexivity. Qed.

(** One nanosecond before the epoch: the parts say 1969, the casts 1970. *)
Example before_epoch_parts : Timestamp_Convert_ns (-1) = Some (-1, 86399999999, 999).
Proof. vm_compute. reflexivity. Qed.
Example before_epoch_casts : (CastTimestampNsToDate (-1), CastTimestampNsToTime (-1), CastTimestampNsToTimeNs (-1)) = (Some 0, Some 0, Some 86399999999999).
Proof. vm_compute. reflexivity. Qed.

(** A second after the epoch in milliseconds is a microsecond in nanoseconds. *)
Example epoch_millis : TimestampNsFromEpochMillis 1000 = Some 1000000.
Proof. vm_compute. reflexivity. Qed.

(** ** The parts of a timestamp in nanoseconds *)
Lemma TemporalRound_floor v s : 0 < s -> TemporalRound v s = v / s.
Proof.
  intros Hs. unfold TemporalRound. destruct (Z.ltb_spec v 0) as [H|H].
  - assert (v / s = - ((- v - 1) / s) - 1) as ->.
    { symmetry. apply (Z.div_unique_pos v s _ (s - 1 - (- v - 1) mod s)).
      - pose proof (Z.mod_pos_bound (- v - 1) s Hs). lia.
      - pose proof (Z.div_mod (- v - 1) s ltac:(lia)). nia. }
    replace (v + 1) with (- (- v - 1)) by lia. rewrite Z.quot_opp_l, Z.quot_div_nonneg by lia. lia.
  - rewrite Z.add_0_r, Z.sub_0_r. apply Z.quot_div_nonneg; lia.
Qed.

Lemma GetTimeNs_mod v : in_s 64 v -> IsFinite v = true -> - 2 ^ 63 <= v / NANOS_PER_DAY * NANOS_PER_DAY -> GetTimeNs v = Some (v mod NANOS_PER_DAY).
Proof.
  intros Hv Hf Hm. unfold GetTimeNs. rewrite Hf. cbn [negb]. change (Z.quot (v + (if v <? 0 then 1 else 0)) NANOS_PER_DAY - (if v <? 0 then 1 else 0)) with (TemporalRound v NANOS_PER_DAY).
  rewrite TemporalRound_floor by done. assert (NANOS_PER_DAY = 86400000000000) as E by done. rewrite E in *.
  unfold in_s in Hv. change (2 ^ (64 - 1)) with 9223372036854775808 in *. change (2 ^ 63) with 9223372036854775808 in *.
  rewrite (wrap_s_small 32) by (lia || (unfold in_s; clear - Hv; dlia)). unfold try_s64.
  rewrite decide_True by (unfold in_s; change (2 ^ (64 - 1)) with 9223372036854775808; clear - Hv Hm; dlia). cbn [mbind option_bind]. f_equal.
  replace (v - v / 86400000000000 * 86400000000000) with (v mod 86400000000000) by (clear; dlia). apply wrap_s_small; [lia|].
  unfold in_s. change (2 ^ (64 - 1)) with 9223372036854775808. clear. dlia.
Qed.

(** The parts of a timestamp in nanoseconds are those of its number, before the epoch as
    well: its day counts whole days, rounded down, its time the microseconds since that midnight,
    and the rest, from 0 to 999 nanoseconds, is what a microsecond leaves; together they
    are the timestamp. *)
Theorem nanosecond_parts v : in_s 64 v -> IsFinite v = true -> - 2 ^ 63 <= v / NANOS_PER_DAY * NANOS_PER_DAY ->
  exists date time nanos, Timestamp_Convert_ns v = Some (date, time, nanos) /\ 0 <= time < MICROS_PER_DAY /\ 0 <= nanos < NANOS_PER_MICRO
    /\ v = date * NANOS_PER_DAY + time * NANOS_PER_MICRO + nanos.
Proof.
  intros Hv Hf Hm. unfold Timestamp_Convert_ns. rewrite TemporalRound_floor by done.
  assert (NANOS_PER_DAY = 86400000000000 /\ MICROS_PER_DAY = 86400000000 /\ NANOS_PER_MICRO = 1000) as (E1 & E2 & E3) by done. rewrite E1, E2, E3 in *.
  unfold in_s in Hv. change (2 ^ (64 - 1)) with 9223372036854775808 in *. change (2 ^ 63) with 9223372036854775808 in *.
  assert (in_s 64 (v / 1000)) as Hs by (unfold in_s; change (2 ^ (64 - 1)) with 9223372036854775808; clear - Hv; dlia).
  assert (IsFinite (v / 1000) = true) as Hfs.
  { unfold IsFinite, timestamp_infinity, timestamp_ninfinity. rewrite !(proj2 (Z.eqb_neq _ _)) by (clear - Hv; dlia). done. }
  rewrite GetDate_floor, E2 by done. rewrite Z.div_div by done. change (1000 * 86400000000) with 86400000000000. unfold try_s64.
  rewrite decide_True by (unfold in_s; change (2 ^ (64 - 1)) with 9223372036854775808; clear - Hv Hm; dlia). cbn [mbind option_bind].
  replace (v - v / 86400000000000 * 86400000000000) with (v mod 86400000000000) by (clear; dlia).
  rewrite (wrap_s_small 64) by (lia || (unfold in_s; change (2 ^ (64 - 1)) with 9223372036854775808; clear; dlia)).
  rewrite Z.quot_div_nonneg, Z.rem_mod_nonneg by (lia || (clear; dlia)). rewrite wrap_s_small by (lia || (unfold in_s; clear; dlia)).
  eexists _, _, _. split; [reflexivity|]. clear. dlia.
Qed.

(** ** Rounding *)
Lemma GetEpochRounded_half_away v p : 0 < p -> Z.even p = true ->
  GetEpochRounded v p = Z.sgn v * ((2 * Z.abs v + p) / (2 * p)).
Proof.
  intros Hp He. apply Z.even_spec in He as [h ->]. unfold GetEpochRounded. replace (Z.quot (2 * h) 2) with h by (rewrite Z.mul_comm, Z.quot_mul; lia).
  assert (0 < h) as Hh by lia. assert (forall x, 0 <= x -> (x / h + 1) / 2 = (2 * x + 2 * h) / (2 * (2 * h))) as Hx.
  { intros x Hx. replace (2 * x + 2 * h) with (2 * (x + h)) by lia. rewrite Z.div_mul_cancel_l by lia.
    replace (x / h + 1) with ((x + h) / h) by (replace (x + h) with (x + 1 * h) by lia; rewrite Z.div_add; lia). rewrite Z.div_div by lia. f_equal. lia. }
  destruct (Z.lt_trichotomy v 0) as [Hv|[->|Hv]].
  - assert (exists a, v = - a /\ 0 < a) as (a & -> & Ha) by (exists (- v); lia). rewrite Z.abs_opp, Z.abs_eq, Z.sgn_neg, <- Hx by lia.
    rewrite (Z.quot_opp_l a h), (Z.quot_div_nonneg a h) by lia. pose proof (Z.div_pos a h ltac:(lia) Hh). destruct (Z.ltb_spec (- (a / h)) 0).
    + replace (- (a / h) - 1) with (- (a / h + 1)) by lia. rewrite Z.quot_opp_l, Z.quot_div_nonneg by lia. lia.
    + assert (a / h = 0) as -> by lia. done.
  - rewrite Z.quot_0_l by lia. done.
  - rewrite <- Hx by lia. rewrite (Z.quot_div_nonneg v h), Z.sgn_pos, Z.abs_eq by lia. pose proof (Z.div_pos v h ltac:(lia) Hh).
    rewrite (proj2 (Z.ltb_ge _ 0)) by lia. rewrite Z.quot_div_nonneg by lia. lia.
Qed.

Lemma GetEpochRounded_multiple v p : 0 < p -> Z.even p = true -> GetEpochRounded (v * p) p = v.
Proof.
  intros Hp He. rewrite GetEpochRounded_half_away by done. rewrite Z.abs_mul, Z.sgn_mul, (Z.abs_eq p), (Z.sgn_pos p) by lia.
  replace (2 * (Z.abs v * p) + p) with (p + Z.abs v * (2 * p)) by lia. rewrite Z.div_add, Z.div_small by lia. lia.
Qed.

(** ** Finer, and back *)
Lemma multiple_finite v p : p = 1000 \/ p = 1000000 -> IsFinite (v * p) = true.
Proof.
  intros Hp. unfold IsFinite, timestamp_infinity, timestamp_ninfinity. rewrite !(proj2 (Z.eqb_neq _ _)); [done| |]; destruct Hp as [-> | ->]; clear; dlia.
Qed.

Lemma try_s64_Some z x : try_s64 z = Some x -> x = z.
Proof. unfold try_s64. case_decide; [|done]. by intros [= <-]. Qed.

(** A timestamp that is cast to a finer precision, and back, is what it was, at every
    precision and for the infinities too; casting it down alone is rounding half away from
    the epoch. *)
Theorem precision_roundtrip v :
  (forall us, CastTimestampMsToUs v = Some us -> CastTimestampUsToMs us = v)
  /\ (forall us, CastTimestampSecToUs v = Some us -> CastTimestampUsToSec us = v)
  /\ (forall ns, CastTimestampUsToNs v = Some ns -> CastTimestampNsToUs ns = Some v)
  /\ (IsFinite v = true -> CastTimestampUsToSec v = Z.sgn v * ((2 * Z.abs v + 1000000) / 2000000)).
Proof.
  unfold CastTimestampMsToUs, CastTimestampSecToUs, CastTimestampUsToNs, CastTimestampUsToMs, CastTimestampUsToSec, CastTimestampNsToUs.
  assert (forall p x, p = 1000 \/ p = 1000000 -> try_s64 (v * p) = Some x -> x = v * p /\ negb (IsFinite x) = false) as Hx.
  { intros p x Hp ->%try_s64_Some. by rewrite multiple_finite. }
  destruct (IsFinite v) eqn:Ef; cbn [negb].
  2: { split; [|split; [|split; [|done]]]; intros x [= <-]; by rewrite Ef. }
  split; [|split; [|split]].
  - intros us [-> ->]%Hx; [|by left]. by apply GetEpochRounded_multiple.
  - intros us [-> ->]%Hx; [|by right]. by apply GetEpochRounded_multiple.
  - intros ns [-> ->]%Hx; [|by left]. unfold FromEpochNanoSeconds. by rewrite Z.quot_mul.
  - intros _. by rewrite GetEpochRounded_half_away.
Qed.

(** A Parquet column in milliseconds is read a thousand times too small. *)
Lemma TimestampNsFromEpochMillis_wrong v ns : TimestampNsFromEpochMillis v = Some ns -> ns * 1000 = v * NANOS_PER_MSEC.
Proof. intros ->%try_s64_Some. unfold NANOS_PER_MSEC, NANOS_PER_MICRO, MICROS_PER_MSEC. lia. Qed.

Lemma nanosecond_parts_witness : exists date time nanos, Timestamp_Convert_ns (-1) = Some (date, time, nanos) /\ 0 <= time < MICROS_PER_DAY
  /\ 0 <= nanos < NANOS_PER_MICRO /\ -1 = date * NANOS_PER_DAY + time * NANOS_PER_MICRO + nanos.
Proof. apply (nanosecond_parts (-1)); [by unfold in_s|done|by vm_compute]. Defined.
