(* ===== verification/Fetch.v ===== *)
(** * Statements and their cursor ([odbc_driver/common/odbc_fetch.cpp])

    The state of a statement handle ([OdbcHandleStmt]) and the cursor over its
    result ([OdbcFetch]): the engine delivers the result in chunks, the cursor
    keeps the chunk it is on and a row within it. Chunks are heap objects the
    cursor points into; they have an identity here, so that a pointer to a chunk
    that was freed is a pointer to no chunk.

    [None] is undefined behaviour or an exception (a null or dangling pointer, an
    index out of a vector). The conversion of one value for the client,
    [GetDataStmtResult], is the interface [GetDataOp]. *)

From S2P Require Import Prelude OdbcConst Memory OdbcUtils Diagnostic Interval ApiInfo Descriptor Params.

Abbreviation row := (list Value).
Abbreviation chunk := (list row).

(** What one call of the engine's [Fetch] gives: a chunk (the end of the result
    is an empty one), or an error, reported by the result or thrown. *)
Inductive fetch_outcome := FChunk (c : chunk) | FError (msg : bytes).

(** Of the engine: what a statement is and what its result is. *)
Inductive StatementReturnType := QUERY_RESULT | CHANGED_ROWS | NOTHING.
Inductive StatementType :=
  | INVALID_STATEMENT | SELECT_STATEMENT | INSERT_STATEMENT | UPDATE_STATEMENT | CREATE_STATEMENT
  | DELETE_STATEMENT | PREPARE_STATEMENT | EXECUTE_STATEMENT | ALTER_STATEMENT | TRANSACTION_STATEMENT
  | COPY_STATEMENT | ANALYZE_STATEMENT | VARIABLE_SET_STATEMENT | CREATE_FUNC_STATEMENT
  | EXPLAIN_STATEMENT | DROP_STATEMENT | EXPORT_STATEMENT | PRAGMA_STATEMENT | VACUUM_STATEMENT
  | CALL_STATEMENT | SET_STATEMENT | LOAD_STATEMENT | RELATION_STATEMENT | EXTENSION_STATEMENT
  | LOGICAL_PLAN_STATEMENT | ATTACH_STATEMENT | DETACH_STATEMENT | MULTI_STATEMENT
  | COPY_DATABASE_STATEMENT | UPDATE_EXTENSIONS_STATEMENT | MERGE_INTO_STATEMENT.

Record QueryResult := MkQueryResult {
  res_error : option bytes;
  res_stream : list fetch_outcome;
  res_types : list LogicalType;
  res_names : list bytes;
  return_type : StatementReturnType  (* properties.return_type *)
}.

Definition QueryResult_HasError (r : QueryResult) : bool := bool_decide (is_Some (res_error r)).
Definition QueryResult_GetError (r : QueryResult) : bytes := default [] (res_error r).

Definition QueryResult_Fetch (r : QueryResult) : chunk * QueryResult :=
  match res_stream r with
  | [] => ([], r)
  | FChunk c :: s => (c, r <| res_stream := s |>)
  | FError msg :: s => ([], r <| res_stream := s |> <| res_error := Some msg |>)
  end.

(** A prepared statement of the engine. *)
Record PreparedStatement := MkPreparedStatement {
  ps_error : option bytes;
  ps_success : bool;
  bound_all_parameters : bool;
  named_param_count : Z;
  ps_types : list LogicalType;
  ps_names : list bytes;
  statement_type : StatementType
}.

Definition PreparedStatement_HasError (s : PreparedStatement) : bool := bool_decide (is_Some (ps_error s)).
Definition ColumnCount (s : PreparedStatement) : Z := zlen (ps_types s).

Record OdbcBoundCol := MkOdbcBoundCol {
  bound_type : Z;
  bound_ptr : ptr;
  bound_len : Z;
  strlen_or_ind : ptr
}.

Definition new_OdbcBoundCol : OdbcBoundCol := MkOdbcBoundCol SQL_UNKNOWN_TYPE nullptr 0 nullptr.
Definition IsBound (c : OdbcBoundCol) : bool := negb (bound_ptr c =? nullptr).
Definition IsVarcharBound (c : OdbcBoundCol) : bool :=
  if IsCharType (bound_type c) then negb (strlen_or_ind c =? nullptr) else false.

(** [last_fetched_variable_val] *)
Record LastFetched := MkLastFetched { lf_col_idx : Z; lf_row_idx : Z; lf_length : Z }.

Record OdbcFetch := MkOdbcFetch {
  cursor_type : Z;
  cursor_scrollable : Z;
  row_count : Z;
  last_fetched_variable_val : LastFetched;
  chunks : list (nat * chunk);
  current_chunk_idx : Z;
  current_chunk : option nat;
  chunk_row : Z;
  prior_chunk_row : Z;
  resultset_end : bool;
  next_chunk : nat  (* the identity of the next chunk *)
}.

(** The constructor leaves the position indeterminate; [ClearChunks] sets it
    before any use but for [current_chunk_idx], taken as 0. *)
Definition new_OdbcFetch : OdbcFetch :=
  MkOdbcFetch SQL_CURSOR_FORWARD_ONLY SQL_NONSCROLLABLE 0 (MkLastFetched (-1) (-1) 0) [] 0 None (-1) (-1) false 0.

Record OdbcHandleStmt := MkOdbcHandleStmt {
  stmt_dsn : bytes;                       (* dbc->GetDataSourceName() *)
  stmt_diagnostic : OdbcDiagnostic;
  stmt : option PreparedStatement;
  res : option QueryResult;
  bound_cols : list OdbcBoundCol;
  is_open : bool;                         (* open *)
  retrieve_data : Z;
  rows_fetched_ptr : ptr;
  max_len : Z;                            (* client_attrs.max_len *)
  odbc_fetcher : OdbcFetch;
  param_desc : ParameterDescriptor;
  row_desc : RowDescriptor
}.

Definition stmt_error (ret : Z) (component msg : bytes) (state : SQLStateType) (h : OdbcHandleStmt)
    : Z * OdbcHandleStmt :=
  let '(ret, diag) := SetDiagnosticRecord ret component msg state (stmt_dsn h) (stmt_diagnostic h) in
  (ret, h <| stmt_diagnostic := diag |>).

(** The rowset size: [row_desc->ard->header.sql_desc_array_size]. *)
Definition rowset_size (h : OdbcHandleStmt) : Z := sql_desc_array_size (desc_header (ard (row_desc h))).
Definition row_status_ptr (h : OdbcHandleStmt) : ptr := sql_desc_array_status_ptr (desc_header (ird (row_desc h))).
Definition bind_type (h : OdbcHandleStmt) : Z := sql_desc_bind_type (desc_header (ard (row_desc h))).

(** ** The cursor *)

(** The chunk [current_chunk] points to, if it is still allocated. *)
Definition find_chunk (i : nat) (cs : list (nat * chunk)) : option chunk :=
  snd <$> head (filter (fun c => c.1 = i) cs).
Definition the_chunk (f : OdbcFetch) : option chunk := i ← current_chunk f; find_chunk i (chunks f).
Definition chunk_ref (c : nat * chunk) : option nat := Some c.1.

Definition ResetLastFetchedVariableVal (f : OdbcFetch) : OdbcFetch :=
  f <| last_fetched_variable_val := MkLastFetched (-1) (-1) 0 |>.

Definition SetLastFetchedVariableVal (col_idx : Z) (f : OdbcFetch) : OdbcFetch :=
  let last := last_fetched_variable_val f in
  let length := if (lf_col_idx last =? col_idx) && (lf_row_idx last =? chunk_row f) then lf_length last else 0 in
  f <| last_fetched_variable_val := MkLastFetched col_idx (chunk_row f) length |>.

Definition SetLastFetchedLength (new_len : Z) (f : OdbcFetch) : OdbcFetch :=
  f <| last_fetched_variable_val ::= fun l => l <| lf_length := new_len |> |>.
Definition GetLastFetchedLength (f : OdbcFetch) : Z := lf_length (last_fetched_variable_val f).

Definition ClearChunks (f : OdbcFetch) : OdbcFetch :=
  f <| chunks := [] |> <| current_chunk := None |> <| chunk_row := -1 |> <| prior_chunk_row := -1 |>
    <| row_count := 0 |> <| resultset_end := false |>.

Definition IsInExecutionState (f : OdbcFetch) : bool :=
  negb (zlen (chunks f) =? 0) && bool_decide (is_Some (current_chunk f)).

Definition GetRowCount (f : OdbcFetch) : option Z :=
  match current_chunk f with
  | Some _ => c ← the_chunk f; Some (Z.max (row_count f) (zlen c))
  | None => Some (row_count f)
  end.

Definition RequireFetch (f : OdbcFetch) : bool :=
  match list.last (chunks f) with None => true | Some c => zlen c.2 - 1 <=? chunk_row f end.

Definition at_chunk (c : nat * chunk) (idx : Z) (f : OdbcFetch) : OdbcFetch :=
  f <| current_chunk := chunk_ref c |> <| current_chunk_idx := idx |> <| chunk_row := -1 |> <| prior_chunk_row := -1 |>.

Definition SetCurrentChunk (f : OdbcFetch) : Z * OdbcFetch :=
  match list.last (chunks f) with
  | None => (SQL_NO_DATA, f)
  | Some back =>
      let next := current_chunk_idx f + 1 in
      if negb (cursor_type f =? SQL_CURSOR_FORWARD_ONLY) && (current_chunk_idx f <? zlen (chunks f) - 1) then
        (SQL_SUCCESS, at_chunk (default back (chunks f !! Z.to_nat next)) next f)
      else (SQL_SUCCESS, at_chunk back (zlen (chunks f) - 1) f)
  end.

(** [FetchNext]: [None] is a fetch from a null result. *)
Definition FetchNext (h : OdbcHandleStmt) : option (Z * OdbcHandleStmt) :=
  let current h :=
    let '(ret, f) := SetCurrentChunk (odbc_fetcher h) in Some (ret, h <| odbc_fetcher := f |>) in
  if resultset_end (odbc_fetcher h) then current h
  else
    let h := h <| odbc_fetcher ::= ResetLastFetchedVariableVal |> in
    r ← res h;
    let '(c, r) := QueryResult_Fetch r in
    let h := h <| res := Some r |> in
    if QueryResult_HasError r then
      Some (stmt_error SQL_ERROR (B"FetchNext") (QueryResult_GetError r) ST_HY000 (h <| is_open := false |>))
    else if zlen c =? 0 then Some (SQL_NO_DATA, h <| odbc_fetcher ::= fun f => f <| resultset_end := true |> |>)
    else
      let push f :=
        let old := if cursor_type f =? SQL_CURSOR_FORWARD_ONLY then [] else chunks f in
        f <| chunks := old ++ [(next_chunk f, c)] |> <| next_chunk ::= S |> in
      current (h <| odbc_fetcher ::= push |>).

Definition IncreaseRowCount (h : OdbcHandleStmt) : option OdbcHandleStmt :=
  let f := odbc_fetcher h in
  c ← the_chunk f;
  let more := if u64 (chunk_row f + rowset_size h) <? zlen c then rowset_size h else zlen c - chunk_row f in
  Some (h <| odbc_fetcher ::= fun f => f <| row_count ::= fun n => s64 (n + more) |> |>).

Definition BeforeStart_pos (f : OdbcFetch) : OdbcFetch :=
  f <| current_chunk ::= fun cur => match chunks f with [] => cur | c :: _ => chunk_ref c end |>
    <| current_chunk_idx := 0 |> <| chunk_row := -1 |> <| prior_chunk_row := -1 |>.
Definition RETURN_FETCH_BEFORE_START : Z := 999.
Definition BeforeStart (f : OdbcFetch) : Z * OdbcFetch := (RETURN_FETCH_BEFORE_START, BeforeStart_pos f).

(** The loop of [Materialize]; the outer [None] is that the fuel ran out. *)
Fixpoint Materialize_loop (fuel : nat) (h : OdbcHandleStmt) : option (option (Z * OdbcHandleStmt)) :=
  match fuel with
  | O => None
  | S fuel' =>
      match FetchNext h with
      | None => Some None
      | Some (ret, h) => if SQL_SUCCEEDED ret then Materialize_loop fuel' h else Some (Some (ret, h))
      end
  end.

Definition Materialize (fuel : nat) (h : OdbcHandleStmt) : option (option (Z * OdbcHandleStmt)) :=
  let before := odbc_fetcher h in
  match Materialize_loop fuel h with
  | Some (Some (ret, h)) =>
      let restore f :=
        match current_chunk before with
        | Some i =>
            f <| current_chunk := Some i |> <| current_chunk_idx := current_chunk_idx before |>
              <| chunk_row := chunk_row before |> <| prior_chunk_row := prior_chunk_row before |>
        | None => BeforeStart_pos f
        end in
      let h := h <| odbc_fetcher ::= restore |> in
      Some (Some (if (ret =? SQL_NO_DATA) || (ret =? SQL_SUCCESS) then SQL_SUCCESS else ret, h))
  | r => r
  end.

(** ** Scrolling *)
Definition SetPriorCurrentChunk (h : OdbcHandleStmt) : option (Z * OdbcHandleStmt) :=
  let n := rowset_size h in
  let f := (odbc_fetcher h) <| prior_chunk_row ::= fun p => s64 (p - n) |> in
  if (current_chunk_idx f =? 0) && (prior_chunk_row f <? -1) then
    Some (SQL_NO_DATA, h <| odbc_fetcher := f <| chunk_row := -1 |> |>)
  else
    f ← (if prior_chunk_row f <? -1 then
           let idx := current_chunk_idx f - 1 in
           c ← chunks f !! Z.to_nat idx;
           let prior := s64 (zlen c.2 - n - 1) in
           Some (f <| current_chunk_idx := idx |> <| current_chunk := chunk_ref c |>
                   <| prior_chunk_row := if prior <? 0 then -1 else prior |>)
         else Some f);
    Some (SQL_SUCCESS, h <| odbc_fetcher := f <| chunk_row := prior_chunk_row f |> |>).

(** [SetAbsoluteCurrentChunk]; the recursion is on the rows past the chunk. *)
Fixpoint SetAbsoluteCurrentChunk (fuel : nat) (fetch_offset : Z) (h : OdbcHandleStmt)
    : option (option (Z * OdbcHandleStmt)) :=
  match fuel with
  | O => None
  | S fuel' =>
      let h0 :=
        match current_chunk (odbc_fetcher h), chunks (odbc_fetcher h) with
        | Some _, _ :: _ => Some h
        | _, _ => r ← FetchNext h; Some r.2
        end in
      match h0 with
      | None => Some None
      | Some h =>
          let f := odbc_fetcher h in
          let pos r chunk_row' := Some (Some (r, h <| odbc_fetcher ::= fun f =>
            f <| chunk_row := chunk_row' |> <| prior_chunk_row := chunk_row' |> |>)) in
          let before := let '(ret, f) := BeforeStart f in Some (Some (ret, h <| odbc_fetcher := f |>)) in
          match the_chunk f with
          | None => Some None
          | Some c =>
              if (zlen c <? fetch_offset) && resultset_end f then Some (Some (SQL_NO_DATA, h))
              else if (fetch_offset <? 0) && (Z.abs fetch_offset <=? zlen c) then
                pos SQL_SUCCESS (Z.max (-1) (chunk_row f + fetch_offset + 1))
              else if (fetch_offset <? 0) && (chunk_row f <? Z.abs fetch_offset)
                      && (rowset_size h <? Z.abs fetch_offset) then before
              else if (fetch_offset <? 0) && (chunk_row f <? Z.abs fetch_offset)
                      && (Z.abs fetch_offset <=? rowset_size h) then pos SQL_SUCCESS 0
              else if fetch_offset =? 0 then before
              else if (0 <=? fetch_offset) && (fetch_offset <? zlen c) then pos SQL_SUCCESS (fetch_offset - 1)
              else if zlen c <=? fetch_offset then
                match FetchNext h with
                | None => Some None
                | Some (ret, h) =>
                    if negb (ret =? SQL_SUCCESS) then
                      Some (Some (ret, h <| odbc_fetcher ::= fun f => f <| current_chunk_idx := 0 |> |>))
                    else match the_chunk (odbc_fetcher h) with
                         | None => Some None
                         | Some c => SetAbsoluteCurrentChunk fuel' (fetch_offset - zlen c) h
                         end
                end
              else Some (Some (SQL_ERROR, h))
          end
      end
  end.

Definition SetFirstCurrentChunk (h : OdbcHandleStmt) : option (Z * OdbcHandleStmt) :=
  let h := h <| odbc_fetcher ::= BeforeStart_pos |> in
  match current_chunk (odbc_fetcher h) with
  | None => FetchNext h
  | Some _ => Some (SQL_SUCCESS, h)
  end.

Definition FetchNextChunk (fuel : nat) (fetch_orientation fetch_offset : Z) (h : OdbcHandleStmt)
    : option (option (Z * OdbcHandleStmt)) :=
  if (cursor_type (odbc_fetcher h) =? SQL_CURSOR_FORWARD_ONLY) && negb (fetch_orientation =? SQL_FETCH_NEXT) then
    Some (Some (stmt_error SQL_ERROR (B"FetchNextChunk")
      (B"Incorrect fetch orientation for cursor type: SQL_CURSOR_FORWARD_ONLY.") ST_24000 h))
  else if fetch_orientation =? SQL_FETCH_NEXT then
    let h := h <| odbc_fetcher ::= fun f => f <| prior_chunk_row := chunk_row f |> |> in
    let f := odbc_fetcher h in
    if RequireFetch f then
      if resultset_end f && (current_chunk_idx f =? u64 (zlen (chunks f) - 1)) then Some (Some (SQL_NO_DATA, h))
      else Some (FetchNext h)
    else Some (Some (SQL_SUCCESS, h))
  else if fetch_orientation =? SQL_FETCH_PRIOR then Some (SetPriorCurrentChunk h)
  else if fetch_orientation =? SQL_FETCH_ABSOLUTE then SetAbsoluteCurrentChunk fuel fetch_offset h
  else if fetch_orientation =? SQL_FETCH_FIRST then Some (SetFirstCurrentChunk h)
  else Some (Some (SQL_SUCCESS, h)).

(** [FetchFirst], with the cursor type set to dynamic for the time of the call;
    no recursion is involved in fetching the first chunk. *)
Definition FetchFirst (h : OdbcHandleStmt) : option (Z * OdbcHandleStmt) :=
  let cursor_type_before := cursor_type (odbc_fetcher h) in
  let h := h <| odbc_fetcher ::= fun f => f <| cursor_type := SQL_CURSOR_DYNAMIC |> |> in
  r ← default None (FetchNextChunk 1 SQL_FETCH_FIRST 0 h);
  let '(ret, h) := r in
  Some (ret, h <| odbc_fetcher ::= fun f => f <| cursor_type := cursor_type_before |> |>).

Definition GetValue (col_idx : Z) (f : OdbcFetch) : option (Z * option Value) :=
  match current_chunk f with
  | None => Some (SQL_ERROR, None)
  | Some _ =>
      c ← the_chunk f;
      if chunk_row f <? 0 then None
      else
        r ← c !! Z.to_nat (chunk_row f);
        v ← r !! Z.to_nat col_idx;
        Some (SQL_SUCCESS, Some v)
  end.

(** ** Filling the client's arrays *)
Definition SetRowStatus (h : OdbcHandleStmt) (row_idx status : Z) (m : mem) : mem :=
  if row_status_ptr h =? nullptr then m else store 2 m (row_status_ptr h + 2 * row_idx) status.

Fixpoint set_statuses (h : OdbcHandleStmt) (n : nat) (row_idx status : Z) (m : mem) : mem :=
  match n with O => m | S n' => set_statuses h n' (row_idx + 1) status (SetRowStatus h row_idx status m) end.

Definition DummyFetch (h : OdbcHandleStmt) (m : mem) : Z * mem :=
  if retrieve_data h =? SQL_RD_OFF then
    let f := odbc_fetcher h in
    let row_set_size := s64 (rowset_size h) in
    let row_set_size := if row_count f <? chunk_row f + row_set_size then row_count f - chunk_row f else row_set_size in
    if row_set_size <=? 0 then (SQL_NO_DATA, m)
    else
      let m := set_statuses h (Z.to_nat row_set_size) 0 SQL_ROW_SUCCESS m in
      (SQL_SUCCESS, set_statuses h (Z.to_nat (rowset_size h - row_set_size)) row_set_size SQL_ROW_NOROW m)
  else (SQL_NEED_DATA, m).

(** The interface of the value conversion: column number from 1, C type, target,
    buffer length, length pointer. Whatever it delivers, it leaves the cursor
    where it is, but for what it remembers of the last value. *)
Definition same_cursor (h h' : OdbcHandleStmt) : Prop :=
  exists last diag, h' = h <| odbc_fetcher ::= fun f => f <| last_fetched_variable_val := last |> |>
                           <| stmt_diagnostic := diag |>.

Class GetDataOp := {
  get_data : OdbcHandleStmt -> Z -> Z -> ptr -> Z -> ptr -> mem -> option (Z * OdbcHandleStmt * mem);
  get_data_cursor : forall h col type p len ind m ret h' m',
    get_data h col type p len ind m = Some (ret, h', m') -> same_cursor h h'
}.

Section Fill.
Context `{GetDataOp}.

(** The addresses of a bound column at a row, column-wise and row-wise. *)
Definition SINGLE_VALUE_FETCH : Z := 1.
Definition column_target (n row_idx : Z) (c : OdbcBoundCol) : ptr * ptr :=
  if n =? SINGLE_VALUE_FETCH then (bound_ptr c, strlen_or_ind c)
  else
    let pointer_size := PointerSizeOf (bound_type c) in
    let pointer_size := if pointer_size <? 0 then bound_len c else pointer_size in
    (bound_ptr c + row_idx * pointer_size, strlen_or_ind c + 8 * row_idx).
Definition row_target (row_size row_idx : Z) (c : OdbcBoundCol) : ptr * ptr :=
  (bound_ptr c + row_size * row_idx, strlen_or_ind c + row_size * row_idx).

(** The inner loop over [n] columns from [col_idx]. *)
Fixpoint fill_row (skip : OdbcBoundCol -> bool) (target : OdbcBoundCol -> ptr * ptr) (row_idx : Z) (n : nat)
    (col_idx : Z) (ret : Z) (h : OdbcHandleStmt) (m : mem) : option (Z * OdbcHandleStmt * mem) :=
  match n with
  | O => Some (ret, h, m)
  | S n' =>
      bound_col ← bound_cols h !! Z.to_nat col_idx;
      if skip bound_col then fill_row skip target row_idx n' (col_idx + 1) ret h m
      else
        let '(target_val_addr, target_len_addr) := target bound_col in
        '(ret, h, m) ← get_data h (u16 (col_idx + 1)) (bound_type bound_col) target_val_addr (bound_len bound_col)
                         target_len_addr m;
        let m := if SQL_SUCCEEDED ret then m else SetRowStatus h row_idx SQL_ROW_ERROR m in
        fill_row skip target row_idx n' (col_idx + 1) ret h m
  end.

(** The outer loop over [n] rows from [row_idx]. *)
Fixpoint fill_rows (skip : OdbcBoundCol -> bool) (target : Z -> OdbcBoundCol -> ptr * ptr) (n : nat) (row_idx : Z)
    (ret : Z) (h : OdbcHandleStmt) (m : mem) : option (Z * OdbcHandleStmt * mem) :=
  match n with
  | O => Some (ret, h, m)
  | S n' =>
      let h := h <| odbc_fetcher ::= fun f => f <| chunk_row ::= Z.succ |> |> in
      let m := SetRowStatus h row_idx SQL_SUCCESS m in
      s ← stmt h;
      '(ret, h, m) ← fill_row skip (target row_idx) row_idx (Z.to_nat (ColumnCount s)) 0 ret h m;
      fill_rows skip target n' (row_idx + 1) ret h m
  end.

(** The rows of the current chunk a fetch covers: first and one past last. *)
Definition rows_to_fetch (h : OdbcHandleStmt) : option (Z * Z) :=
  c ← the_chunk (odbc_fetcher h);
  let first_row_to_fetch := chunk_row (odbc_fetcher h) + 1 in
  Some (first_row_to_fetch, Z.min (u64 (first_row_to_fetch + rowset_size h)) (zlen c)).

Definition ColumnWise (h : OdbcHandleStmt) (m : mem) : option (Z * OdbcHandleStmt * mem) :=
  '(first, last) ← rows_to_fetch h;
  '(ret, h, m) ← fill_rows (fun c => negb (IsBound c) && negb (IsVarcharBound c)) (column_target (rowset_size h))
                   (Z.to_nat (last - first)) first SQL_SUCCESS h m;
  Some (ret, h, store_opt 8 m (rows_fetched_ptr h) (last - first)).

Definition RowWise (h : OdbcHandleStmt) (m : mem) : option (Z * OdbcHandleStmt * mem) :=
  '(first, last) ← rows_to_fetch h;
  let rows := Z.to_nat (last - first) in
  '(ret, h, m) ← fill_rows (fun c => negb (IsBound c)) (row_target (u64 (bind_type h))) rows first SQL_SUCCESS h m;
  Some (ret, h, store_opt 8 m (rows_fetched_ptr h) (Z.of_nat rows)).

Definition Fetch (fuel : nat) (fetch_orientation fetch_offset : Z) (h : OdbcHandleStmt) (m : mem)
    : option (option (Z * OdbcHandleStmt * mem)) :=
  match FetchNextChunk fuel fetch_orientation fetch_offset h with
  | None => None
  | Some None => Some None
  | Some (Some (ret, h)) => Some (
      if negb (ret =? SQL_SUCCESS) then
        Some (if ret =? RETURN_FETCH_BEFORE_START then SQL_SUCCESS else ret, h, m)
      else if zlen (bound_cols h) =? 0 then
        let h := h <| odbc_fetcher ::= fun f => f <| chunk_row ::= fun r => s64 (r + rowset_size h) |> |> in
        let m := store_opt 8 m (rows_fetched_ptr h) 1 in
        h ← IncreaseRowCount h; Some (SQL_SUCCESS, h, m)
      else
        '(ret, h, m) ← (if bind_type h =? SQL_BIND_BY_COLUMN then ColumnWise h m else RowWise h m);
        if negb (SQL_SUCCEEDED ret) then Some (ret, h, m)
        else h ← IncreaseRowCount h; Some (ret, h, m))
  end.

(** [FetchStmtResult] *)
Definition FetchStmtResult (fuel : nat) (fetch_orientation fetch_offset : Z) (h : OdbcHandleStmt) (m : mem)
    : option (option (Z * OdbcHandleStmt * mem)) :=
  if negb (is_open h) then Some (Some (SQL_NO_DATA, h, m)) else Fetch fuel fetch_orientation fetch_offset h m.
End Fill.

(** ** A forward-only cursor

    The abstract view of a cursor is the list of rows the application has not
    got yet. [forward h c pos s e]: a forward-only cursor on row [pos] of the
    chunk [c], with the stream [s] of non-empty chunks to come, [e] telling
    whether the end was seen. *)
Definition chunk_of (o : fetch_outcome) : chunk := match o with FChunk c => c | FError _ => [] end.
Definition stream_rows (s : list fetch_outcome) : list row := mjoin (chunk_of <$> s).
Definition good_outcome (o : fetch_outcome) : Prop :=
  exists c, o = FChunk c /\ c <> [] /\ zlen c < 2 ^ 31.

Record forward (h : OdbcHandleStmt) (c : chunk) (pos : Z) (s : list fetch_outcome) (e : bool) : Prop := {
  fw_type : cursor_type (odbc_fetcher h) = SQL_CURSOR_FORWARD_ONLY;
  fw_res : exists r, res h = Some r /\ res_error r = None /\ res_stream r = s;
  fw_chunk : exists i, chunks (odbc_fetcher h) = [(i, c)] /\ current_chunk (odbc_fetcher h) = Some i;
  fw_idx : current_chunk_idx (odbc_fetcher h) = 0;
  fw_pos : chunk_row (odbc_fetcher h) = pos;
  fw_pos_range : -1 <= pos < 2 ^ 62;
  fw_len : c <> [] /\ zlen c < 2 ^ 31;
  fw_stream : Forall good_outcome s;
  fw_end : resultset_end (odbc_fetcher h) = e;
  fw_end_stream : e = true -> s = []
}.

Definition pending (c : chunk) (pos : Z) (s : list fetch_outcome) : list row := zdrop (pos + 1) c ++ stream_rows s.

(** What a fetch leaves alone. *)
Definition same_env (h h' : OdbcHandleStmt) : Prop :=
  stmt h' = stmt h /\ bound_cols h' = bound_cols h /\ row_desc h' = row_desc h
  /\ rows_fetched_ptr h' = rows_fetched_ptr h /\ is_open h' = is_open h /\ retrieve_data h' = retrieve_data h.

#[global] Instance same_env_refl : Reflexive same_env.
Proof. by repeat split. Qed.
#[global] Instance same_env_trans : Transitive same_env.
Proof. intros h h' h'' (?&?&?&?&?&?) (?&?&?&?&?&?). repeat split; congruence. Qed.

Lemma same_env_rowset h h' : same_env h h' -> rowset_size h' = rowset_size h /\ bind_type h' = bind_type h.
Proof. intros (_&_&Hr&_). unfold rowset_size, bind_type. by rewrite Hr. Qed.

Lemma find_chunk_one i c : find_chunk i [(i, c)] = Some c.
Proof. unfold find_chunk. by rewrite filter_cons_True by done. Qed.

Lemma forward_chunk h c pos s e : forward h c pos s e -> the_chunk (odbc_fetcher h) = Some c.
Proof.
  intros F. destruct (fw_chunk _ _ _ _ _ F) as (i & Hc & Hi). unfold the_chunk. rewrite Hi, Hc. cbn.
  apply find_chunk_one.
Qed.

Lemma zlen_pos {A} (l : list A) : l <> [] -> 0 < zlen l.
Proof. destruct l; [done|]. unfold zlen. cbn. lia. Qed.

(** The next chunk of a forward-only cursor replaces the current one. *)
Lemma FetchNext_chunk h c pos c' s : forward h c pos (FChunk c' :: s) false ->
  exists h', FetchNext h = Some (SQL_SUCCESS, h') /\ forward h' c' (-1) s false /\ same_env h h'.
Proof.
  intros [Ht (r & Hr & He & Hs) Hc Hi Hp Hpr Hl Hst Hend _]. inversion Hst as [|? ? (c0 & Hc0 & Hne & Hlen) Hst']; subst. injection Hc0 as <-.
  pose proof (zlen_pos c' Hne) as Hpos.
  destruct h as [dsn diag st rs bc op rd rf ml f pd rwd], f as [ct cs rc lf ch ci cc cr pr re nc]. cbn in *. subst.
  unfold FetchNext. cbn. unfold QueryResult_Fetch. rewrite Hs. cbn.
  unfold QueryResult_HasError. rewrite (bool_decide_false (is_Some _)).
  2: { destruct r. cbn in *. subst. apply is_Some_None. }
  rewrite (proj2 (Z.eqb_neq (zlen c') 0)) by lia. cbn.
  eexists. split; [reflexivity|]. split; [|done]. split; cbn; try done.
  - eexists. split; [reflexivity|]. by destruct r.
  - by exists nc.
Qed.

Lemma FetchNext_end h c pos : forward h c pos [] false ->
  exists h', FetchNext h = Some (SQL_NO_DATA, h') /\ forward h' c pos [] true /\ same_env h h'.
Proof.
  intros [Ht (r & Hr & He & Hs) Hc Hi Hp Hpr Hl Hst Hend _].
  destruct h as [dsn diag st rs bc op rd rf ml f pd rwd], f as [ct cs rc lf ch ci cc cr pr re nc]. cbn in *. subst.
  unfold FetchNext. cbn. unfold QueryResult_Fetch. rewrite Hs. cbn.
  unfold QueryResult_HasError. rewrite He. cbn.
  eexists. split; [reflexivity|]. split; [|done]. split; cbn; try done. by exists r.
Qed.

(** Moving within the chunk. *)
Lemma forward_move h c pos s e pos' lf diag rc pr : forward h c pos s e -> -1 <= pos' < 2 ^ 62 ->
  let h' := h <| odbc_fetcher ::= fun f => f <| chunk_row := pos' |> <| last_fetched_variable_val := lf |>
                                             <| row_count := rc |> <| prior_chunk_row := pr |> |>
              <| stmt_diagnostic := diag |> in
  forward h' c pos' s e /\ same_env h h'.
Proof.
  intros [Ht Hr Hc Hi Hp Hpr Hl Hst Hend Hes] Hpos h'. split; [|done].
  destruct h as [dsn dg st rs bc op rd rf ml f pd rwd], f as [ct cs rc' lf' ch ci cc cr pr' re nc]. by split.
Qed.

Lemma same_cursor_forward h h' c pos s e : same_cursor h h' -> forward h c pos s e -> forward h' c pos s e /\ same_env h h'.
Proof.
  intros (lf & diag & ->) F. pose proof (fw_pos _ _ _ _ _ F) as Hp.
  pose proof (forward_move h c pos s e pos lf diag (row_count (odbc_fetcher h)) (prior_chunk_row (odbc_fetcher h)) F
    (fw_pos_range _ _ _ _ _ F)) as H.
  destruct h as [dsn dg st rs bc op rd rf ml f pd rwd], f as [ct cs rc' lf' ch ci cc cr pr' re nc]. cbn in *. by subst.
Qed.

(** [FetchNextChunk] for the next rowset: the end, or a position with rows. *)
Lemma FetchNextChunk_forward fuel off h c pos s e : forward h c pos s e ->
  (pending c pos s = [] /\ exists h', FetchNextChunk fuel SQL_FETCH_NEXT off h = Some (Some (SQL_NO_DATA, h'))
     /\ forward h' c pos [] true /\ same_env h h')
  \/ (exists h' c' pos' s', FetchNextChunk fuel SQL_FETCH_NEXT off h = Some (Some (SQL_SUCCESS, h'))
     /\ forward h' c' pos' s' e /\ pending c' pos' s' = pending c pos s /\ pos' + 1 < zlen c' /\ same_env h h').
Proof.
  intros F. unfold FetchNextChunk. rewrite (fw_type _ _ _ _ _ F). cbn [Z.eqb negb andb].
  set (h1 := h <| odbc_fetcher ::= _ |>).
  assert (forward h1 c pos s e /\ same_env h h1) as [F1 Henv].
  { pose proof (forward_move h c pos s e pos (last_fetched_variable_val (odbc_fetcher h)) (stmt_diagnostic h)
      (row_count (odbc_fetcher h)) (chunk_row (odbc_fetcher h)) F (fw_pos_range _ _ _ _ _ F)) as H.
    pose proof (fw_pos _ _ _ _ _ F) as Hp. subst h1.
    destruct h as [dsn dg st rs bc op rd rf ml f pd rwd], f as [ct cs rc' lf' ch ci cc cr pr' re nc]. cbn in *. by subst. }
  destruct (fw_chunk _ _ _ _ _ F1) as (i & Hc & Hi). unfold RequireFetch. rewrite Hc, (fw_pos _ _ _ _ _ F1). cbn [list.last snd].
  destruct (Z.leb_spec (zlen c - 1) pos) as [Hle|Hlt].
  - rewrite (fw_end _ _ _ _ _ F1), (fw_idx _ _ _ _ _ F1). change (u64 (zlen [(i, c)] - 1)) with 0. rewrite andb_true_r.
    assert (zdrop (pos + 1) c = []) as Hdrop by (apply zdrop_ge; lia).
    destruct e.
    + left. pose proof (fw_end_stream _ _ _ _ _ F1 eq_refl) as ->. split; [unfold pending; by rewrite Hdrop|].
      by exists h1.
    + destruct s as [|o s].
      * left. split; [unfold pending; by rewrite Hdrop|].
        destruct (FetchNext_end h1 c pos F1) as (h2 & -> & F2 & E2). exists h2. split; [done|]. split; [done|]. by etrans.
      * pose proof (fw_stream _ _ _ _ _ F1) as Hst. inversion Hst as [|? ? (c' & -> & Hne & Hlen) Hst']; subst.
        right. destruct (FetchNext_chunk h1 c pos c' s F1) as (h2 & -> & F2 & E2). exists h2, c', (-1), s.
        split; [done|]. split; [done|]. split; [unfold pending; by rewrite Hdrop|]. split; [apply zlen_pos in Hne; lia|].
        by etrans.
  - right. exists h1, c, pos, s. split; [done|]. split; [done|]. split; [done|]. split; [lia|done].
Qed.

Section Refinement.
Context {G : GetDataOp}.
(** Every conversion returns, with whatever code. *)
Hypothesis get_data_total : forall h col type p len ind m, is_Some (get_data h col type p len ind m).

Lemma fill_row_forward skip target row_idx n : forall col ret h m c pos s e,
  forward h c pos s e -> 0 <= col -> col + Z.of_nat n <= zlen (bound_cols h) ->
  exists ret' h' m', fill_row skip target row_idx n col ret h m = Some (ret', h', m')
    /\ forward h' c pos s e /\ same_env h h'.
Proof.
  induction n as [|n IH]; intros col ret h m c pos s e F Hcol Hn; cbn [fill_row]; [by exists ret, h, m|].
  destruct (lookup_lt_is_Some_2 (bound_cols h) (Z.to_nat col)) as [b Hb]; [unfold zlen in *; lia|].
  rewrite Hb. cbn [mbind option_bind]. destruct (skip b); [apply IH; [done|lia|lia]|].
  destruct (target b) as [va la]. destruct (get_data_total h (u16 (col + 1)) (bound_type b) va (bound_len b) la m) as [[[r h1] m1] E].
  rewrite E. cbn [mbind option_bind]. apply get_data_cursor in E. destruct (same_cursor_forward _ _ _ _ _ _ E F) as [F1 E1].
  assert (bound_cols h1 = bound_cols h) as Hbc by apply E1.
  edestruct (IH (col + 1) r h1) as (ret' & h' & m' & -> & F' & E'); [exact F1|lia|rewrite Hbc; lia|].
  eexists _, _, _. split; [reflexivity|]. split; [exact F'|]. by etrans.
Qed.

Lemma fill_rows_forward skip target n : forall row_idx ret h m c pos s e st,
  forward h c pos s e -> stmt h = Some st -> ColumnCount st <= zlen (bound_cols h) -> pos + Z.of_nat n < 2 ^ 62 ->
  exists ret' h' m', fill_rows skip target n row_idx ret h m = Some (ret', h', m')
    /\ forward h' c (pos + Z.of_nat n) s e /\ same_env h h'.
Proof.
  induction n as [|n IH]; intros row_idx ret h m c pos s e st F Hst Hcc Hpos; cbn [fill_rows].
  - exists ret, h, m. by rewrite Z.add_0_r.
  - pose proof (fw_pos_range _ _ _ _ _ F) as Hr.
    set (h1 := h <| odbc_fetcher ::= _ |>). assert (forward h1 c (pos + 1) s e /\ same_env h h1) as [F1 E1].
    { pose proof (forward_move h c pos s e (pos + 1) (last_fetched_variable_val (odbc_fetcher h)) (stmt_diagnostic h)
        (row_count (odbc_fetcher h)) (prior_chunk_row (odbc_fetcher h)) F ltac:(lia)) as H.
      pose proof (fw_pos _ _ _ _ _ F) as Hp. subst h1.
      destruct h as [dsn dg st' rs bc op rd rf ml f pd rwd], f as [ct cs rc' lf' ch ci cc cr pr' re nc]. cbn in *. by subst. }
    assert (stmt h1 = Some st) as -> by (by destruct E1 as (-> & _)). cbn [mbind option_bind].
    assert (bound_cols h1 = bound_cols h) as Hbc by apply E1. pose proof (zlen_nonneg (ps_types st)) as Hc0.
    edestruct (fill_row_forward skip (target row_idx) row_idx (Z.to_nat (ColumnCount st)) 0 ret h1) as (r2 & h2 & m2 & -> & F2 & E2);
      [exact F1|lia|rewrite Hbc; unfold ColumnCount in *; lia|]. cbn [mbind option_bind].
    assert (same_env h h2) as E02 by (by etrans).
    edestruct (IH (row_idx + 1) r2 h2 m2) as (r3 & h3 & m3 & -> & F3 & E3); [exact F2| | |lia|].
    + destruct E02 as (-> & _). exact Hst.
    + destruct E02 as (_ & -> & _). exact Hcc.
    + eexists _, _, _. split; [reflexivity|]. split; [|by etrans].
      by replace (pos + Z.of_nat (S n)) with (pos + 1 + Z.of_nat n) by lia.
Qed.

Lemma rows_to_fetch_forward h c pos s e : forward h c pos s e -> 1 <= rowset_size h < 2 ^ 31 -> pos + 1 < zlen c ->
  rows_to_fetch h = Some (pos + 1, Z.min (pos + 1 + rowset_size h) (zlen c)).
Proof.
  intros F Hn Hp. pose proof (fw_pos_range _ _ _ _ _ F). pose proof (proj2 (fw_len _ _ _ _ _ F)).
  unfold rows_to_fetch. rewrite (forward_chunk _ _ _ _ _ F). cbn [mbind option_bind]. rewrite (fw_pos _ _ _ _ _ F).
  rewrite wrap_u_small by (unfold in_u; lia). done.
Qed.

Lemma IncreaseRowCount_forward h c pos s e : forward h c pos s e ->
  exists h', IncreaseRowCount h = Some h' /\ forward h' c pos s e /\ same_env h h'.
Proof.
  intros F. unfold IncreaseRowCount. rewrite (forward_chunk _ _ _ _ _ F). cbn [mbind option_bind].
  set (more := if _ : bool then _ else _). eexists. split; [reflexivity|].
  pose proof (forward_move h c pos s e pos (last_fetched_variable_val (odbc_fetcher h)) (stmt_diagnostic h)
    (s64 (row_count (odbc_fetcher h) + more)) (prior_chunk_row (odbc_fetcher h)) F (fw_pos_range _ _ _ _ _ F)) as H.
  pose proof (fw_pos _ _ _ _ _ F) as Hp. clearbody more.
  destruct h as [dsn dg st' rs bc op rd rf ml f pd rwd], f as [ct cs rc' lf' ch ci cc cr pr' re nc]. cbn in *. by subst.
Qed.

Lemma fill_forward h m c pos s e st : forward h c pos s e -> stmt h = Some st -> ColumnCount st <= zlen (bound_cols h) ->
  1 <= rowset_size h < 2 ^ 31 -> pos + 1 < zlen c ->
  exists ret h' m', (if bind_type h =? SQL_BIND_BY_COLUMN then ColumnWise h m else RowWise h m) = Some (ret, h', m')
    /\ forward h' c (pos + Z.min (rowset_size h) (zlen c - (pos + 1))) s e /\ same_env h h'.
Proof.
  intros F Hst Hcc Hn Hp. pose proof (fw_pos_range _ _ _ _ _ F). pose proof (proj2 (fw_len _ _ _ _ _ F)).
  assert (forall skip target, exists ret h' m',
    fill_rows skip target (Z.to_nat (Z.min (pos + 1 + rowset_size h) (zlen c) - (pos + 1))) (pos + 1) SQL_SUCCESS h m
      = Some (ret, h', m')
    /\ forward h' c (pos + Z.min (rowset_size h) (zlen c - (pos + 1))) s e /\ same_env h h') as Hfill.
  { intros skip target.
    edestruct (fill_rows_forward skip target (Z.to_nat (Z.min (pos + 1 + rowset_size h) (zlen c) - (pos + 1))) (pos + 1)
      SQL_SUCCESS h m c pos s e st) as (r & h' & m' & E & F' & E'); [done|done|done|lia|].
    exists r, h', m'. split; [exact E|]. split; [|done].
    replace (Z.min (rowset_size h) (zlen c - (pos + 1)))
      with (Z.of_nat (Z.to_nat (Z.min (pos + 1 + rowset_size h) (zlen c) - (pos + 1)))) by lia. done. }
  unfold ColumnWise, RowWise. rewrite (rows_to_fetch_forward _ _ _ _ _ F Hn Hp). cbn [mbind option_bind].
  destruct (bind_type h =? SQL_BIND_BY_COLUMN).
  - edestruct Hfill as (r & h' & m' & -> & F' & E'). eexists _, _, _. split; [reflexivity|]. by split.
  - edestruct Hfill as (r & h' & m' & -> & F' & E'). eexists _, _, _. split; [reflexivity|]. by split.
Qed.

(** One fetch of the next rowset, on the abstract list of rows to come. *)
Lemma Fetch_next fuel off h m c pos s e st :
  forward h c pos s e -> stmt h = Some st -> ColumnCount st <= zlen (bound_cols h) -> 1 <= rowset_size h < 2 ^ 31 ->
  (pending c pos s = [] ->
     exists h', Fetch fuel SQL_FETCH_NEXT off h m = Some (Some (SQL_NO_DATA, h', m)) /\ forward h' c pos [] true
       /\ same_env h h')
  /\ (pending c pos s <> [] ->
     exists ret h' m' c' pos0 pos' s' k, Fetch fuel SQL_FETCH_NEXT off h m = Some (Some (ret, h', m'))
       /\ forward h' c' pos' s' e /\ same_env h h' /\ 1 <= k <= rowset_size h
       /\ ztake k (pending c pos s) = ztake k (zdrop (pos0 + 1) c')
       /\ zlen (ztake k (pending c pos s)) = k
       /\ (pos' = pos0 + k \/ pos' = pos0 + rowset_size h)
       /\ pending c' pos' s' = zdrop k (pending c pos s) /\ -1 <= pos0).
Proof.
  intros F Hst Hcc Hn. unfold Fetch.
  destruct (FetchNextChunk_forward fuel off h c pos s e F)
    as [(Hnil & h1 & -> & F1 & E1)|(h1 & c1 & pos1 & s1 & -> & F1 & Hpend & Hlt & E1)].
  { split; [|done]. intros _. exists h1. cbn [Z.eqb Pos.eqb negb]. by split. }
  split; [intros Hnil; exfalso|intros _].
  { rewrite <- Hpend in Hnil. unfold pending in Hnil. apply app_eq_nil in Hnil as [Hnil _].
    pose proof (zlen_zdrop (pos1 + 1) c1 ltac:(pose proof (fw_pos_range _ _ _ _ _ F1); lia)) as Hz.
    rewrite Hnil in Hz. unfold zlen at 1 in Hz. cbn in Hz. lia. }
  pose proof (fw_pos_range _ _ _ _ _ F1) as Hpr. pose proof (proj2 (fw_len _ _ _ _ _ F1)) as Hl1.
  destruct (same_env_rowset _ _ E1) as [Hrs Hbt].
  set (k := Z.min (rowset_size h) (zlen c1 - (pos1 + 1))).
  assert (forall pos', (pos' = pos1 + k \/ pos' = pos1 + rowset_size h) ->
    ztake k (pending c pos s) = ztake k (zdrop (pos1 + 1) c1) /\ zlen (ztake k (pending c pos s)) = k
    /\ pending c1 pos' s1 = zdrop k (pending c pos s)) as Hk.
  { intros pos' Hpos'. rewrite <- Hpend. unfold pending.
    assert (zlen (zdrop (pos1 + 1) c1) = zlen c1 - (pos1 + 1)) as Hz by (rewrite zlen_zdrop; lia).
    assert (ztake k (zdrop (pos1 + 1) c1 ++ stream_rows s1) = ztake k (zdrop (pos1 + 1) c1)) as Et.
    { unfold ztake. rewrite take_app_le; [done|]. unfold zlen in *. lia. }
    split; [exact Et|]. split; [rewrite Et, zlen_ztake by lia; lia|].
    unfold zdrop at 2. rewrite drop_app_le by (unfold zlen in *; lia).
    change (drop (Z.to_nat k) (zdrop (pos1 + 1) c1)) with (zdrop k (zdrop (pos1 + 1) c1)). rewrite zdrop_zdrop by lia. f_equal.
    destruct (decide (pos' = pos1 + k)) as [->|]; [f_equal; lia|].
    rewrite !zdrop_ge by lia. done. }
  cbn [Z.eqb negb]. destruct (zlen (bound_cols h1) =? 0).
  - set (h2 := h1 <| odbc_fetcher ::= _ |>). assert (forward h2 c1 (pos1 + rowset_size h) s1 e /\ same_env h1 h2) as [F2 E2].
    { pose proof (forward_move h1 c1 pos1 s1 e (pos1 + rowset_size h) (last_fetched_variable_val (odbc_fetcher h1))
        (stmt_diagnostic h1) (row_count (odbc_fetcher h1)) (prior_chunk_row (odbc_fetcher h1)) F1 ltac:(lia)) as H.
      pose proof (fw_pos _ _ _ _ _ F1) as Hp. subst h2. rewrite Hrs.
      assert (s64 (pos1 + rowset_size h) = pos1 + rowset_size h) as Hs by (apply wrap_s_small; [lia|unfold in_s; lia]).
      generalize dependent (rowset_size h). intros n. intros.
      destruct h1 as [dsn dg st' rs bc op rd rf ml f pd rwd], f as [ct cs rc' lf' ch ci cc cr pr' re nc].
      cbn -[wrap_s] in *. subst. by rewrite Hs. }
    destruct (IncreaseRowCount_forward _ _ _ _ _ F2) as (h3 & -> & F3 & E3). cbn [mbind option_bind].
    destruct (Hk (pos1 + rowset_size h)) as (H1 & H2 & H3); [by right|].
    exists SQL_SUCCESS, h3. do 2 eexists. exists pos1, (pos1 + rowset_size h), s1, k. split; [reflexivity|].
    split; [exact F3|]. split; [by do 2 (etrans; [eassumption|])|]. split; [subst k; lia|].
    split; [exact H1|]. split; [exact H2|]. split; [by right|]. split; [exact H3|lia].
  - destruct (fill_forward h1 m c1 pos1 s1 e st F1) as (r & h2 & m2 & -> & F2 & E2);
      [by destruct E1 as (-> & _)|by destruct E1 as (_ & -> & _)|by rewrite Hrs|done|]. cbn [mbind option_bind].
    rewrite Hrs in F2. fold k in F2. destruct (Hk (pos1 + k)) as (H1 & H2 & H3); [by left|].
    destruct (negb (SQL_SUCCEEDED r)).
    + exists r, h2, m2, c1, pos1, (pos1 + k), s1, k. split; [reflexivity|]. split; [exact F2|].
      split; [by etrans|]. split; [subst k; lia|]. split; [exact H1|]. split; [exact H2|]. split; [by left|]. split; [exact H3|lia].
    + destruct (IncreaseRowCount_forward _ _ _ _ _ F2) as (h3 & -> & F3 & E3). cbn [mbind option_bind].
      exists r, h3, m2, c1, pos1, (pos1 + k), s1, k. split; [reflexivity|]. split; [exact F3|].
      split; [by do 2 (etrans; [eassumption|])|]. split; [subst k; lia|]. split; [exact H1|]. split; [exact H2|].
      split; [by left|]. split; [exact H3|lia].
Qed.
End Refinement.

(** [k] fetches of the next rowset. *)
Fixpoint fetch_times `{GetDataOp} (k fuel : nat) (h : OdbcHandleStmt) (m : mem)
    : option (option (Z * OdbcHandleStmt * mem)) :=
  match k with
  | O => Some (Some (SQL_SUCCESS, h, m))
  | S k' =>
      match Fetch fuel SQL_FETCH_NEXT 0 h m with
      | Some (Some (ret, h', m')) =>
          match k' with O => Some (Some (ret, h', m')) | S _ => fetch_times k' fuel h' m' end
      | r => r
      end
  end.

(** The row [SQLGetData] reads. *)
Definition the_row (h : OdbcHandleStmt) : option row :=
  c ← the_chunk (odbc_fetcher h);
  if chunk_row (odbc_fetcher h) <? 0 then None else c !! Z.to_nat (chunk_row (odbc_fetcher h)).

Lemma fetch_times_S `{GetDataOp} k fuel h m ret h' m' :
  (0 < k)%nat -> Fetch fuel SQL_FETCH_NEXT 0 h m = Some (Some (ret, h', m')) ->
  fetch_times (S k) fuel h m = fetch_times k fuel h' m'.
Proof. intros Hk E. cbn [fetch_times]. rewrite E. destruct k; [lia|done]. Qed.

Section Fetching.
Context {G : GetDataOp}.
Context (get_data_total : forall h col type p len ind m, is_Some (get_data h col type p len ind m)).


Lemma fetch_one fuel h m c pos s e st :
  forward h c pos s e -> stmt h = Some st -> ColumnCount st <= zlen (bound_cols h) -> rowset_size h = 1 ->
  forall r l, pending c pos s = r :: l ->
  exists ret h' m' c' pos' s', Fetch fuel SQL_FETCH_NEXT 0 h m = Some (Some (ret, h', m'))
    /\ forward h' c' pos' s' e /\ same_env h h' /\ the_row h' = Some r /\ pending c' pos' s' = l.
Proof.
  intros F Hst Hcc Hn r l Hp.
  destruct (Fetch_next get_data_total fuel 0 h m c pos s e st F Hst Hcc ltac:(lia)) as [_ Hnext].
  destruct Hnext as (ret & h' & m' & c' & pos0 & pos' & s' & k & E & F' & Env & Hk & Hrows & Hlen & Hpos & Hrest & Hpos0);
    [by rewrite Hp|].
  assert (k = 1) as -> by lia. rewrite Hp in Hrows, Hrest. assert (pos' = pos0 + 1) as -> by lia.
  exists ret, h', m', c', (pos0 + 1), s'. split; [exact E|]. split; [exact F'|]. split; [exact Env|]. split; [|exact Hrest].
  pose proof (fw_pos_range _ _ _ _ _ F') as Hpr.
  unfold the_row. rewrite (forward_chunk _ _ _ _ _ F'), (fw_pos _ _ _ _ _ F'). cbn [mbind option_bind].
  assert (zdrop (pos0 + 1) c' !! 0%nat = Some r) as Hr.
  { destruct (zdrop (pos0 + 1) c'); [done|]. unfold ztake in Hrows. cbn in Hrows. by injection Hrows as ->. }
  rewrite (proj2 (Z.ltb_ge (pos0 + 1) 0)).
  - unfold zdrop in Hr. rewrite lookup_drop in Hr. rewrite <- Hr. f_equal. lia.
  - lia.
Qed.

(** Fetching one row at a time visits every row of the result once and in
    order: after the [i]-th fetch the current row is the [i]-th row to come, and
    the fetch after the last row reports the end of the data. *)
Theorem fetch_delivers_in_order fuel h m c pos s e st :
  forward h c pos s e -> stmt h = Some st -> ColumnCount st <= zlen (bound_cols h) -> rowset_size h = 1 ->
  (forall i r, pending c pos s !! i = Some r ->
     exists ret h' m', fetch_times (S i) fuel h m = Some (Some (ret, h', m')) /\ the_row h' = Some r)
  /\ (exists h' m', fetch_times (S (length (pending c pos s))) fuel h m = Some (Some (SQL_NO_DATA, h', m'))).
Proof.
  intros F Hst Hcc Hn. remember (pending c pos s) as l eqn:Hl. symmetry in Hl.
  revert h m c pos s F Hst Hcc Hn Hl. induction l as [|r0 l IH]; intros h m c pos s F Hst Hcc Hn Hl.
  - split; [done|].
    destruct (Fetch_next get_data_total fuel 0 h m c pos s e st F Hst Hcc ltac:(lia)) as [Hend _].
    destruct (Hend Hl) as (h' & E & _). exists h', m. cbn [fetch_times length]. by rewrite E.
  - destruct (fetch_one fuel h m c pos s e st F Hst Hcc Hn r0 l Hl)
      as (ret & h1 & m1 & c1 & pos1 & s1 & E & F1 & Env & Hrow & Hl1).
    destruct (same_env_rowset _ _ Env) as [Hrs _]. destruct Env as (Hst1 & Hbc1 & _).
    destruct (IH h1 m1 c1 pos1 s1 F1) as [IHrows IHend]; [congruence|congruence|congruence|done|]. split.
    + intros [|i] r Hi; cbn in Hi.
      * injection Hi as <-. exists ret, h1, m1. cbn [fetch_times]. by rewrite E.
      * destruct (IHrows i r Hi) as (ret' & h' & m' & E' & Hr'). exists ret', h', m'.
        by rewrite (fetch_times_S (S i) fuel h m ret h1 m1) by (lia || done).
    + destruct IHend as (h' & m' & E'). exists h', m'. cbn [length].
      by rewrite (fetch_times_S (S (length l)) fuel h m ret h1 m1) by (lia || done).
Qed.
End Fetching.

(** ** Starting, and materialising *)

(** The fetch the driver does right after an execution loads the first chunk
    and stays in front of its first row, so that the rows to come are the whole
    result; an empty result is reported as no data. It leaves the application's
    cursor type as it was. *)
Theorem FetchFirst_starts h r c s :
  res h = Some r -> res_error r = None -> cursor_type (odbc_fetcher h) = SQL_CURSOR_FORWARD_ONLY ->
  Forall good_outcome (res_stream r) ->
  let h0 := h <| odbc_fetcher ::= ClearChunks |> in
  (res_stream r = FChunk c :: s ->
     exists h', FetchFirst h0 = Some (SQL_SUCCESS, h') /\ forward h' c (-1) s false /\ same_env h h'
       /\ pending c (-1) s = stream_rows (res_stream r))
  /\ (res_stream r = [] -> exists h', FetchFirst h0 = Some (SQL_NO_DATA, h') /\ same_env h h').
Proof.
  intros Hr He Ht Hgood h0. unfold FetchFirst, FetchNextChunk, SetFirstCurrentChunk, FetchNext, QueryResult_Fetch, QueryResult_HasError.
  destruct h as [dsn diag st rs bc op rd rf ml f pd rwd], f as [ct cs rc lf ch ci cc cr pr re nc].
  destruct r as [er str ty nm]. cbn in *. subst. split.
  - intros ->. inversion Hgood as [|? ? (c0 & Hc0 & Hne & Hlen) Hst']; subst. injection Hc0 as <-.
    cbn. rewrite (proj2 (Z.eqb_neq (zlen c) 0)) by (apply zlen_pos in Hne; lia). cbn.
    eexists. split; [reflexivity|]. split; [|split; [done|]].
    + split; cbn; try done; [by eexists|by exists nc].
    + done.
  - intros ->. cbn. eexists. by split.
Qed.

Lemma find_chunk_app i cs ds c : find_chunk i cs = Some c -> find_chunk i (cs ++ ds) = Some c.
Proof.
  unfold find_chunk. intros H. rewrite list.filter_app. by destruct (filter _ cs).
Qed.

(** One step of the loop, for any cursor: the chunks and what is left. *)
Lemma FetchNext_step h r c s :
  res h = Some r -> res_error r = None -> res_stream r = FChunk c :: s -> c <> [] ->
  resultset_end (odbc_fetcher h) = false ->
  exists h' r', FetchNext h = Some (SQL_SUCCESS, h') /\ res h' = Some r' /\ res_error r' = None /\ res_stream r' = s
    /\ cursor_type (odbc_fetcher h') = cursor_type (odbc_fetcher h) /\ resultset_end (odbc_fetcher h') = false
    /\ next_chunk (odbc_fetcher h') = S (next_chunk (odbc_fetcher h))
    /\ chunks (odbc_fetcher h') = (if cursor_type (odbc_fetcher h) =? SQL_CURSOR_FORWARD_ONLY then [] else chunks (odbc_fetcher h))
                                   ++ [(next_chunk (odbc_fetcher h), c)].
Proof.
  intros Hr Her Hs Hne Hend. apply zlen_pos in Hne.
  destruct h as [dsn diag st rs bc op rd rf ml f pd rwd], f as [ct cs rc lf ch ci cc cr pr re nc], r as [er str ty nm].
  cbn in *. subst. unfold FetchNext. cbn. rewrite (proj2 (Z.eqb_neq (zlen c) 0)) by lia. cbn.
  unfold SetCurrentChunk. cbn. rewrite last_snoc.
  destruct (_ && _); (eexists _, _; split; [reflexivity|]; by repeat split).
Qed.

Lemma FetchNext_finish h r :
  res h = Some r -> res_error r = None -> res_stream r = [] -> resultset_end (odbc_fetcher h) = false ->
  exists h', FetchNext h = Some (SQL_NO_DATA, h') /\ chunks (odbc_fetcher h') = chunks (odbc_fetcher h)
    /\ resultset_end (odbc_fetcher h') = true.
Proof.
  intros Hr Her Hs Hend.
  destruct h as [dsn diag st rs bc op rd rf ml f pd rwd], f as [ct cs rc lf ch ci cc cr pr re nc], r as [er str ty nm].
  cbn in *. subst. eexists. by split.
Qed.

Lemma Materialize_loop_reads s : forall fuel h r,
  res h = Some r -> res_error r = None -> res_stream r = s -> Forall good_outcome s ->
  resultset_end (odbc_fetcher h) = false -> (length s < fuel)%nat ->
  exists h', Materialize_loop fuel h = Some (Some (SQL_NO_DATA, h')) /\ resultset_end (odbc_fetcher h') = true
    /\ (cursor_type (odbc_fetcher h) <> SQL_CURSOR_FORWARD_ONLY ->
          (snd <$> chunks (odbc_fetcher h')) = (snd <$> chunks (odbc_fetcher h)) ++ (chunk_of <$> s)
          /\ forall i c, find_chunk i (chunks (odbc_fetcher h)) = Some c -> find_chunk i (chunks (odbc_fetcher h')) = Some c)
    /\ (cursor_type (odbc_fetcher h) = SQL_CURSOR_FORWARD_ONLY ->
          chunks (odbc_fetcher h') = chunks (odbc_fetcher h) /\ s = []
          \/ exists n c, chunks (odbc_fetcher h') = [(n, c)] /\ (next_chunk (odbc_fetcher h) <= n)%nat).
Proof.
  induction s as [|o s IH]; intros fuel h r Hr Her Hs Hg Hend Hf; (destruct fuel as [|fuel]; [cbn in Hf; lia|]);
    cbn [Materialize_loop].
  - destruct (FetchNext_finish h r Hr Her Hs Hend) as (h' & -> & Hc & He). exists h'. rewrite Hc. cbn.
    split; [done|]. split; [done|]. split; [intros _; split; [by rewrite app_nil_r|done]|]. intros _. by left.
  - inversion Hg as [|? ? (c & -> & Hne & _) Hg']; subst.
    destruct (FetchNext_step h r c s Hr Her Hs Hne Hend) as (h1 & r1 & -> & Hr1 & Her1 & Hs1 & Ht1 & He1 & Hn1 & Hc1).
    cbn [SQL_SUCCEEDED]. 
    destruct (IH fuel h1 r1 Hr1 Her1 Hs1 Hg' He1 ltac:(cbn in Hf; lia)) as (h' & E & He' & Hscroll & Hfwd).
    exists h'. split; [exact E|]. split; [done|]. rewrite Ht1, Hc1 in *. split.
    + intros Ht. rewrite (proj2 (Z.eqb_neq _ _) Ht) in *. destruct (Hscroll Ht) as [Hsn Hfind]. split.
      * rewrite Hsn, fmap_app, <- app_assoc. done.
      * intros i c0 Hi. apply Hfind. by apply find_chunk_app.
    + intros Ht. rewrite Ht in *. cbn [Z.eqb app] in *. right.
      destruct (Hfwd eq_refl) as [[-> _]|(n & c0 & -> & Hle)]; eexists _, _; (split; [reflexivity|]); lia.
Qed.

(** Materialising the result of a scrollable cursor before a commit reads the
    stream to its end, keeps every chunk loaded before and adds those to come in
    order, and leaves the cursor on the same chunk and row. *)
Theorem Materialize_scrollable fuel h r i c :
  res h = Some r -> res_error r = None -> Forall good_outcome (res_stream r) ->
  let f := odbc_fetcher h in
  cursor_type f <> SQL_CURSOR_FORWARD_ONLY -> resultset_end f = false ->
  current_chunk f = Some i -> find_chunk i (chunks f) = Some c ->
  (length (res_stream r) < fuel)%nat ->
  exists h', Materialize fuel h = Some (Some (SQL_SUCCESS, h'))
    /\ snd <$> chunks (odbc_fetcher h') = (snd <$> chunks f) ++ (chunk_of <$> res_stream r)
    /\ the_chunk (odbc_fetcher h') = Some c /\ chunk_row (odbc_fetcher h') = chunk_row f
    /\ resultset_end (odbc_fetcher h') = true.
Proof.
  intros Hr Her Hg f Hct Hend Hcur Hfind Hfuel.
  destruct (Materialize_loop_reads (res_stream r) fuel h r Hr Her eq_refl Hg Hend Hfuel) as (h' & E & He & Hscroll & _).
  destruct (Hscroll Hct) as [Hsn Hf]. unfold Materialize. rewrite E. subst f. rewrite Hcur. cbn [Z.eqb Pos.eqb orb].
  eexists. split; [reflexivity|].
  apply Hf in Hfind. destruct h' as [dsn diag st rs bc op rd rf ml f' pd rwd], f' as [ct cs rc lf ch ci cc cr pr re nc].
  cbn in *. by repeat split.
Qed.


(** Once the end of a result was seen and a chunk of it is still held,
    materialising never returns, for no bound on the number of fetches. *)
Lemma Materialize_diverges fuel h :
  resultset_end (odbc_fetcher h) = true -> chunks (odbc_fetcher h) <> [] -> Materialize fuel h = None.
Proof.
  intros He Hne. unfold Materialize.
  assert (Materialize_loop fuel h = None) as ->; [|done].
  revert h He Hne. induction fuel as [|fuel IH]; intros h He Hne; [done|]. cbn [Materialize_loop].
  assert (exists h', FetchNext h = Some (SQL_SUCCESS, h') /\ resultset_end (odbc_fetcher h') = true
            /\ chunks (odbc_fetcher h') <> []) as (h' & -> & He' & Hne').
  { unfold FetchNext, SetCurrentChunk. rewrite He.
    destruct (list.last (chunks (odbc_fetcher h))) as [back|] eqn:Hl; [|by apply last_None in Hl].
    destruct (_ && _); (eexists; split; [reflexivity|]);
      by destruct h as [dsn diag st rs bc op rd rf ml f pd rwd], f as [ct cs rc lf ch ci cc cr pr re nc]. }
  by apply IH.
Qed.

(** Materialising a forward-only cursor in the middle of a result frees the
    chunk the cursor is on: the call succeeds, but the cursor keeps a pointer to
    a chunk that is gone, and the chunks in between are lost. *)
Theorem Materialize_forward_dangles fuel h c pos c' s i :
  forward h c pos (FChunk c' :: s) false -> current_chunk (odbc_fetcher h) = Some i ->
  (i < next_chunk (odbc_fetcher h))%nat -> (S (length s) < fuel)%nat ->
  exists h', Materialize fuel h = Some (Some (SQL_SUCCESS, h'))
    /\ current_chunk (odbc_fetcher h') = Some i /\ the_chunk (odbc_fetcher h') = None
    /\ length (chunks (odbc_fetcher h')) = 1%nat.
Proof.
  intros F Hcur Hi Hfuel. destruct (fw_res _ _ _ _ _ F) as (r & Hr & Her & Hs).
  destruct (Materialize_loop_reads _ fuel h r Hr Her Hs (fw_stream _ _ _ _ _ F) (fw_end _ _ _ _ _ F) Hfuel)
    as (h' & E & He & _ & Hfwd).
  destruct (Hfwd (fw_type _ _ _ _ _ F)) as [[_ ?]|(n & c0 & Hc & Hn)]; [done|].
  unfold Materialize. rewrite E, Hcur. cbn [Z.eqb Pos.eqb orb]. eexists. split; [reflexivity|].
  destruct h' as [dsn diag st rs bc op rd rf ml f' pd rwd], f' as [ct cs rc lf ch ci cc cr pr re nc].
  cbn in *. subst ch. split; [done|]. split; [|done]. unfold the_chunk, find_chunk. cbn.
  rewrite decide_False by lia. done.
Qed.

(** On a scrollable cursor the next rowset is taken from the following chunk
    as soon as the row index passes the size of the last chunk loaded, not of the
    current one: the remaining rows of the current chunk are skipped. *)
Theorem scrollable_next_skips fuel off h i c back idx :
  let f := odbc_fetcher h in
  cursor_type f <> SQL_CURSOR_FORWARD_ONLY -> resultset_end f = true ->
  chunks f !! idx = Some (i, c) -> current_chunk_idx f = Z.of_nat idx -> (S idx < length (chunks f))%nat ->
  list.last (chunks f) = Some back -> zlen back.2 <= chunk_row f + 1 < zlen c -> zlen (chunks f) < 2 ^ 62 ->
  exists h' next, FetchNextChunk fuel SQL_FETCH_NEXT off h = Some (Some (SQL_SUCCESS, h'))
    /\ chunks f !! S idx = Some next /\ current_chunk (odbc_fetcher h') = Some next.1
    /\ chunk_row (odbc_fetcher h') = -1.
Proof.
  intros f Ht He Hi Hidx Hlt Hback Hrow Hlen. subst f.
  destruct (lookup_lt_is_Some_2 (chunks (odbc_fetcher h)) (S idx) Hlt) as [next Hnext].
  unfold FetchNextChunk. rewrite (proj2 (Z.eqb_neq _ _) Ht). cbn [andb]. cbn [Z.eqb Pos.eqb].
  destruct h as [dsn diag st rs bc op rd rf ml f pd rwd], f as [ct cs rc lf ch ci cc cr pr re nc]. cbn in *. subst.
  unfold RequireFetch. cbn [chunks chunk_row]. rewrite Hback, (proj2 (Z.leb_le _ _)) by lia.
  rewrite wrap_u_small by (unfold in_u, zlen in *; lia).
  rewrite (proj2 (Z.eqb_neq _ _)) by (unfold zlen; lia). cbn [andb].
  unfold FetchNext, SetCurrentChunk. cbn. rewrite Hback, (proj2 (Z.eqb_neq _ _) Ht). cbn [negb andb].
  rewrite (proj2 (Z.ltb_lt _ _)) by (unfold zlen; lia).
  replace (Z.to_nat (Z.of_nat idx + 1)) with (S idx) by lia. rewrite Hnext.
  eexists _, next. split; [reflexivity|]. by split.
Qed.

(** ** Concrete statements *)
Definition example_prepared : PreparedStatement :=
  MkPreparedStatement None true true 0 [MkLogicalType LT_INTEGER 0 0] [B"i"] SELECT_STATEMENT.
Definition example_row (z : Z) : row := [VInteger z].
Definition example_stmt (ct : Z) (n : Z) (cs : list (nat * chunk)) (cur : option nat) (idx pos : Z) (e : bool)
    (s : list fetch_outcome) : OdbcHandleStmt :=
  MkOdbcHandleStmt [] new_OdbcDiagnostic (Some example_prepared) (Some (MkQueryResult None s [] [] QUERY_RESULT)) [new_OdbcBoundCol]
    true SQL_RD_ON nullptr 0
    (MkOdbcFetch ct SQL_NONSCROLLABLE 0 (MkLastFetched (-1) (-1) 0) cs idx cur pos pos e (length cs))
    (new_ParameterDescriptor 1 [] (MkStmtRef 3 4 true))
    ((make_RowDescriptor 5 [] (MkStmtRef 3 4 true))
       <| ard ::= fun d => d <| desc_header ::= fun h => h <| sql_desc_array_size := n |> |> |>).

(** A conversion that delivers nothing. *)
#[export] Program Instance no_conversion : GetDataOp | 100 := {|
  get_data := fun h _ _ _ _ _ m => Some (SQL_SUCCESS, h, m)
|}.
Next Obligation.
  intros h col type p len ind m ret h' m' [= <- <- <-].
  exists (last_fetched_variable_val (odbc_fetcher h)), (stmt_diagnostic h). by destruct h as [? ? ? ? ? ? ? ? ? [] ? ?].
Qed.

Lemma no_conversion_total h col type p len ind m : is_Some (@get_data no_conversion h col type p len ind m).
Proof. by eexists. Qed.

(** Two chunks of two rows and one, the first loaded. *)
Definition example_stream : list fetch_outcome := [FChunk [example_row 3]].
Definition example_chunk : chunk := [example_row 1; example_row 2].
Definition example_cursor (n pos : Z) : OdbcHandleStmt :=
  example_stmt SQL_CURSOR_FORWARD_ONLY n [(0%nat, example_chunk)] (Some 0%nat) 0 pos false example_stream.

Lemma good_example : Forall good_outcome example_stream.
Proof. constructor; [|constructor]. by eexists. Qed.

Lemma example_forward n pos : -1 <= pos < 2 ^ 62 -> forward (example_cursor n pos) example_chunk pos example_stream false.
Proof.
  intros Hp. split; try done; [by eexists|by exists 0%nat|apply good_example].
Qed.


Lemma fetch_delivers_in_order_witness :
  exists ret h' m', fetch_times 3 1 (example_cursor 1 (-1)) ∅ = Some (Some (ret, h', m')) /\ the_row h' = Some (example_row 3).
Proof.
  eapply (fetch_delivers_in_order no_conversion_total 1 (example_cursor 1 (-1)) ∅ example_chunk (-1) example_stream false example_prepared);
    [by apply example_forward|done|by vm_compute|done|reflexivity].
Defined.

Lemma FetchFirst_starts_witness :
  let h := example_stmt SQL_CURSOR_FORWARD_ONLY 1 [] None 0 (-1) false (FChunk example_chunk :: example_stream) in
  exists h', FetchFirst (h <| odbc_fetcher ::= ClearChunks |>) = Some (SQL_SUCCESS, h')
    /\ forward h' example_chunk (-1) example_stream false /\ same_env h h'
    /\ pending example_chunk (-1) example_stream = [example_row 1; example_row 2; example_row 3].
Proof.
  intros h.
  apply (FetchFirst_starts h (MkQueryResult None (FChunk example_chunk :: example_stream) [] [] QUERY_RESULT) example_chunk example_stream);
    [done|done|done| |done].
  constructor; [by eexists|apply good_example].
Defined.

Lemma Materialize_scrollable_witness :
  let h := example_stmt SQL_CURSOR_STATIC 1 [(0%nat, example_chunk)] (Some 0%nat) 0 0 false example_stream in
  exists h', Materialize 5 h = Some (Some (SQL_SUCCESS, h'))
    /\ the_chunk (odbc_fetcher h') = Some example_chunk /\ chunk_row (odbc_fetcher h') = 0.
Proof.
  intros h. destruct (Materialize_scrollable 5 h (MkQueryResult None example_stream [] [] QUERY_RESULT) 0 example_chunk)
    as (h' & E & _ & Hc & Hp & _); [done|done|apply good_example|done|done|done|done|by cbn; lia|].
  by exists h'.
Defined.

Lemma Materialize_forward_dangles_witness :
  exists h', Materialize 5 (example_cursor 1 0) = Some (Some (SQL_SUCCESS, h'))
    /\ current_chunk (odbc_fetcher h') = Some 0%nat /\ the_chunk (odbc_fetcher h') = None
    /\ length (chunks (odbc_fetcher h')) = 1%nat.
Proof.
  apply (Materialize_forward_dangles 5 (example_cursor 1 0) example_chunk 0 [example_row 3] [] 0%nat);
    [by apply example_forward|done|cbn; lia|cbn; lia].
Defined.

Lemma scrollable_next_skips_witness :
  let h := example_stmt SQL_CURSOR_STATIC 1 [(0%nat, example_chunk); (1%nat, [example_row 3])] (Some 0%nat) 0 0 true [] in
  exists h' next, FetchNextChunk 1 SQL_FETCH_NEXT 0 h = Some (Some (SQL_SUCCESS, h'))
    /\ Some next = Some (1%nat, [example_row 3]) /\ current_chunk (odbc_fetcher h') = Some next.1
    /\ chunk_row (odbc_fetcher h') = -1.
Proof.
  intros h. destruct (scrollable_next_skips 1 0 h 0 example_chunk (1%nat, [example_row 3]) 0%nat) as (h' & next & E & Hn & Hc & Hp);
    [done|done|done|done|cbn; lia|done|by vm_compute|by vm_compute|].
  exists h', next. split; [exact E|]. split; [by rewrite <- Hn|]. by split.
Defined.

(** The second rowset of two rows writes the row statuses behind the client's
    array of two and counts from the start of the chunk, not of the rowset. *)
Lemma second_rowset_outside :
  let h := (example_stmt SQL_CURSOR_FORWARD_ONLY 2
              [(0%nat, [example_row 1; example_row 2; example_row 3; example_row 4])] (Some 0%nat) 0 1 false [])
             <| row_desc ::= fun rd => rd <| ird ::= fun d =>
                  d <| desc_header ::= fun h => h <| sql_desc_array_status_ptr := 100 |> |> |> |> in
  exists h' m', Fetch 1 SQL_FETCH_NEXT 0 h ∅ = Some (Some (SQL_SUCCESS, h', m'))
    /\ m' !! 100 = None /\ m' !! 104 = Some 0.
Proof. do 2 eexists. split; [reflexivity|]. by vm_compute. Qed.

(** With a rowset of more than one row, an absent length pointer becomes the
    address 8 for the second row. *)
Lemma absent_length_pointer : (column_target 2 1 (MkOdbcBoundCol SQL_C_SLONG 1000 4 nullptr)).2 = 8.
Proof. done. Qed.

(** Fetching four rows with a rowset of four counts one row. *)
Lemma block_row_count :
  let h := example_stmt SQL_CURSOR_FORWARD_ONLY 4
             [(0%nat, [example_row 1; example_row 2; example_row 3; example_row 4])] (Some 0%nat) 0 (-1) false [] in
  exists h' m', Fetch 1 SQL_FETCH_NEXT 0 h ∅ = Some (Some (SQL_SUCCESS, h', m')) /\ row_count (odbc_fetcher h') = 1.
Proof. do 2 eexists. by split. Qed.
