(* ===== verification/GetData.v ===== *)
(** * Delivering one value
    ([odbc_driver/statement/statement_functions.cpp], [GetDataStmtResult])

    A value of the result is converted to the C type the client asks for and
    written to its buffer: fixed-size numbers, text and binary data (in pieces
    when the buffer is small), decimals, dates, times, timestamps, intervals.

    The engine's view of a value and its conversions of values are the class [CellOps];
    what it reads from a text is the functions of [DateText], [TimeText], [IntegerText],
    [HugeText] and [IntervalText]. The C library's time zone functions are the class [TimeZone].
    [None] is undefined behaviour or an exception that leaves the driver. *)

From S2P Require Import Prelude Digits Calendar DateText TimeText IntegerText IntervalText Hugeint HugeText OdbcConst Memory Widechar OdbcUtils Diagnostic Interval ApiInfo Descriptor Params Fetch.

(** ** What the engine and the C library provide

    A conversion that can fail returns its error text on the left. *)
Class CellOps := {
  cell_type : Value -> LogicalTypeId;                (* val.type().id() *)
  cell_type_text : Value -> bytes;                   (* val.type().ToString() *)
  type_text : LogicalTypeId -> bytes;                (* EnumUtil::ToString, LogicalType::ToString *)
  cell_text : Value -> bytes;                        (* val.GetValue<string>(), val.ToString() *)
  cell_int64 : Value -> option Z;                    (* val.GetValue<int64_t>(), which may throw *)
  cell_date : Value -> Z;                            (* val.GetValue<date_t>() *)
  cell_time : Value -> Z;                            (* val.GetValue<dtime_t>() *)
  cell_interval : Value -> interval_t;               (* IntervalValue::Get *)
  cell_cast : LogicalTypeId -> Value -> bytes + Z;   (* val.CastAs(type).GetValue<T>() *)
  make_timestamp : Z -> Value;                       (* Value::TIMESTAMP *)
  cast_exception_text : LogicalTypeId -> bytes -> bytes;   (* CastExceptionText<string_t, T> *)
  date_error_text : Z -> bytes;                      (* CastExceptionText<date_t, timestamp_t> *)
  text_to_blob : bytes -> option bytes;              (* Blob::ToBlob, which may throw *)
  make_timestamp_type : forall z, cell_type (make_timestamp z) = LT_TIMESTAMP;
  make_timestamp_int64 : forall z, cell_int64 (make_timestamp z) = Some z
}.

(** [gmtime_r], [localtime_r], the write [tm_isdst = 0], [mktime], [errno]. *)
Class TimeZone := {
  tm : Type;
  gmtime_r : Z -> option tm;
  localtime_r : Z -> option tm;
  clear_isdst : tm -> tm;
  mktime : tm -> Z;
  errno : Z
}.

Abbreviation outcome := (option (Z * OdbcHandleStmt * mem)).

(** [SetDiagnosticRecord] as the last call of a branch. *)
Definition fail (ret : Z) (component msg : bytes) (state : SQLStateType) (h : OdbcHandleStmt) (m : mem) : outcome :=
  let '(ret, h) := stmt_error ret component msg state h in Some (ret, h, m).

Section GetData.
Context `{CellOps} `{TimeZone}.

(** [OdbcUtils::GetUTCOffsetMicrosFromOS], on a system that is not Windows. *)
Definition GetUTCOffsetMicrosFromOS (utc_micros : Z) (h : OdbcHandleStmt) : Z * OdbcHandleStmt :=
  let failed what := (0, (stmt_error SQL_ERROR (B"timezone")
    (what ++ B" failed, input value: " ++ to_string utc_micros ++ B", error code: " ++ to_string errno) ST_HY000 h).2) in
  let utc_seconds_since_epoch := Z.quot utc_micros 1000000 in
  match gmtime_r utc_seconds_since_epoch with
  | None => failed (B"gmtime_r")
  | Some utc_time_struct =>
      match localtime_r utc_seconds_since_epoch with
      | None => failed (B"localtime_r")
      | Some local_time_struct =>
          let local_time := mktime (clear_isdst local_time_struct) in
          let utc_time := mktime utc_time_struct in
          if local_time =? -1 then failed (B"mktime local")
          else if utc_time =? -1 then failed (B"mktime utc")
          else (s64 ((local_time - utc_time) * 1000000), h)
      end
  end.

Definition ValidateType (input expected : LogicalTypeId) (h : OdbcHandleStmt) : Z * OdbcHandleStmt :=
  if bool_decide (input = expected) then (SQL_SUCCESS, h)
  else stmt_error SQL_ERROR (B"ValidateType")
         (B"Type mismatch error: received " ++ type_text input ++ B", but expected " ++ type_text expected) ST_07006 h.

Definition ThrowInvalidCast (component from_type to_type : bytes) (h : OdbcHandleStmt) (m : mem) : outcome :=
  fail SQL_ERROR component
    (B"Not implemented Error: Unimplemented type for cast (" ++ from_type ++ B" -> " ++ to_type ++ B")") ST_22007 h m.

(** [GetInternalValue<SRC, DEST>]; both types have [size] bytes. *)
Definition GetInternalValue (h : OdbcHandleStmt) (val : Value) (type : LogicalTypeId) (size : nat)
    (target_value_ptr str_len_or_ind_ptr : ptr) (m : mem) : outcome :=
  match cell_cast type val with
  | inr casted_value =>
      Some (SQL_SUCCESS, h, store_opt 8 (store size m target_value_ptr casted_value) str_len_or_ind_ptr (Z.of_nat size))
  | inl msg => fail SQL_ERROR (B"GetInternalValue") msg ST_07006 h m
  end.

Definition truncated_message : bytes :=
  B"Not all the data for the specified column could be retrieved, the length of the data remaining in the " ++
  B"specific column prior to the current call to SQLGetData is returned in *StrLen_or_IndPtr.".

(** ** Text and binary data, in pieces

    [cs] is [sizeof(CHAR_TYPE)]; the data is the bytes of [val_buf]. *)
Definition GetVariableValue (cs col_idx : Z) (h : OdbcHandleStmt) (target_value_ptr : ptr) (buffer_length : Z)
    (str_len_or_ind_ptr : ptr) (val_buf : bytes) (null_terminate : bool) (m : mem) : outcome :=
  let h := h <| odbc_fetcher ::= SetLastFetchedVariableVal col_idx |> in
  let last_len := GetLastFetchedLength (odbc_fetcher h) in
  let val_buf_len_bytes := zlen val_buf in
  if (0 <? val_buf_len_bytes) && (val_buf_len_bytes <=? last_len) then Some (SQL_NO_DATA, h, m)
  else if null_terminate && (u64 buffer_length <? cs) then
    fail SQL_ERROR (B"SQLGetData") (B"TargetValuePtr size is insufficient") ST_HY090 h m
  else
    let buffer_effective_size := u64 (u64 buffer_length - if null_terminate then cs else 0) in
    let remaining_len := u64 (val_buf_len_bytes - last_len) in
    if target_value_ptr =? nullptr then
      if negb (str_len_or_ind_ptr =? nullptr) then Some (SQL_SUCCESS, h, store 8 m str_len_or_ind_ptr remaining_len)
      else fail SQL_ERROR (B"SQLGetData") (B"Could not set StrLen_or_IndPtr") ST_HY090 h m
    else
      let '(ret, h, out_len) :=
        if buffer_effective_size <? remaining_len then
          (stmt_error SQL_SUCCESS_WITH_INFO (B"SQLGetData") truncated_message ST_01004 h, buffer_effective_size)
        else (SQL_SUCCESS, h, remaining_len) in
      if val_buf_len_bytes <? last_len + out_len then None  (* memcpy past the data *)
      else
        let m := write_bytes m target_value_ptr (ztake out_len (zdrop last_len val_buf)) in
        let m := if null_terminate then write_bytes m (target_value_ptr + out_len) (replicate (Z.to_nat cs) 0) else m in
        let m := store_opt 8 m str_len_or_ind_ptr remaining_len in
        Some (ret, h <| odbc_fetcher ::= SetLastFetchedLength (last_len + out_len) |>, m).

(** [resolve_default_type] *)
Definition resolve_default_type (typeId : LogicalTypeId) (max_len : Z) : Z :=
  match typeId with
  | LT_BOOLEAN => SQL_C_BIT
  | LT_TINYINT => SQL_C_TINYINT
  | LT_UTINYINT => SQL_C_UTINYINT
  | LT_SMALLINT => if max_len <? 2 then SQL_C_TINYINT else SQL_C_SHORT
  | LT_USMALLINT => if max_len <? 2 then SQL_C_UTINYINT else SQL_C_USHORT
  | LT_INTEGER => if max_len <? 2 then SQL_C_TINYINT else if max_len <? 4 then SQL_C_SHORT else SQL_C_LONG
  | LT_UINTEGER => if max_len <? 2 then SQL_C_UTINYINT else if max_len <? 4 then SQL_C_USHORT else SQL_C_ULONG
  | LT_BIGINT => if max_len <? 2 then SQL_C_TINYINT else if max_len <? 4 then SQL_C_SHORT
                 else if max_len <? 8 then SQL_C_LONG else SQL_C_SBIGINT
  | LT_UBIGINT => if max_len <? 2 then SQL_C_UTINYINT else if max_len <? 4 then SQL_C_USHORT
                  else if max_len <? 8 then SQL_C_ULONG else SQL_C_UBIGINT
  | LT_FLOAT => SQL_C_FLOAT
  | LT_DOUBLE => if max_len <? 8 then SQL_C_FLOAT else SQL_C_DOUBLE
  | _ => SQL_C_CHAR
  end.

(** ** Decimals *)
Definition SQL_MAX_NUMERIC_LEN : nat := 16.

(** The text of a decimal without sign and point: digits, width, sign, scale. *)
Definition numeric_digits (str_val : bytes) : bytes * Z * Z * Z :=
  let width := zlen str_val in
  let '(str_val, width, sign) :=
    if default 0 (head str_val) =? chr "-" then (filter (fun c => c <> chr "-") str_val, width - 1, 0)
    else (str_val, width, 1) in
  match list_find (fun c => c = chr ".") str_val with
  | None => (str_val, width, sign, 0)
  | Some (pos_dot, _) =>
      let str_val := filter (fun c => c <> chr ".") str_val in
      let scale := s8 (zlen str_val - Z.of_nat pos_dot) in
      let str_fraction := drop pos_dot str_val in
      let str_val := if negb (bool_decide (str_fraction = [])) && forallb (fun c => c =? chr "0") str_fraction
                     then take pos_dot str_val else str_val in
      (str_val, zlen str_val, sign, scale)
  end.

(** The case [SQL_C_NUMERIC]: a [SQL_NUMERIC_STRUCT] has the precision at 0, the
    scale at 1, the sign at 2 and sixteen bytes of value from 3. *)
Definition GetNumeric (h : OdbcHandleStmt) (val : Value) (numeric str_len_or_ind_ptr : ptr) (m : mem) : outcome :=
  let '(ret, h) := ValidateType (cell_type val) LT_DECIMAL h in
  if negb (ret =? SQL_SUCCESS) then Some (SQL_ERROR, h, m)
  else
    let m := write_bytes m (numeric + 3) (replicate SQL_MAX_NUMERIC_LEN 0) in
    let '(str_val, width, sign, scale) := numeric_digits (cell_text val) in
    let m := store 1 (store 1 (store 1 m (numeric + 2) sign) numeric (u8 width)) (numeric + 1) scale in
    let str_t := ztake width str_val in
    r ← (if u8 width <=? MAX_WIDTH_INT64 then val_i64 ← TrySimpleIntegerCast int64 false str_t; Some (option_map (store 8 m (numeric + 3)) val_i64)
         else huge_int ← TryCast_hugeint false str_t;
              Some (option_map (fun n => store 8 (store 8 m (numeric + 3) (Hugeint.lower n)) (numeric + 11) (Hugeint.upper n)) huge_int));
    match r with
    | None => Some (SQL_ERROR, h, m)
    | Some m => Some (SQL_SUCCESS, h, store_opt 8 m str_len_or_ind_ptr 19)
    end.

(** ** Dates, times, timestamps *)

(** The unit of a timestamp type, and its conversion to microseconds. *)
Definition from_epoch (t : LogicalTypeId) : option (Z -> option Z) :=
  match t with
  | LT_TIMESTAMP_SEC => Some FromEpochSeconds
  | LT_TIMESTAMP_MS => Some FromEpochMs
  | LT_TIMESTAMP => Some FromEpochMicroSeconds
  | LT_TIMESTAMP_NS => Some FromEpochNanoSeconds
  | _ => None
  end.

(** [Cast::Operation<timestamp_t, date_t>], [<timestamp_t, dtime_t>]; the second
    throws for an infinite timestamp. *)
Definition timestamp_to_date (timestamp : Z) : option Z := Some (GetDate timestamp).
Definition timestamp_to_time (timestamp : Z) : option Z := if IsFinite timestamp then GetTime timestamp else None.

(** [CastTimestampValue]: the handler of an exception returns [SQL_ERROR], which
    the [bool] result turns into [true]; the callers then read a target that was
    not assigned, which is the [None] here. *)
Definition CastTimestampValue (cast cast_timestamp_fun : Z -> option Z) (val : Value) : option Z :=
  input ← cell_int64 val;
  timestamp ← (if IsFinite input then cast_timestamp_fun input else Some input);
  cast timestamp.

(** [TryCast::Operation] from a text, which is not strict. *)
Definition text_to_date (s : bytes) : option (option Z) := Some match TryConvertDate false s with inr (date, _, _) => Some date | inl _ => None end.
Definition text_to_time (s : bytes) : option (option Z) := r ← TryConvertTime false None s; Some (option_map fst r).
Definition text_to_timestamp (s : bytes) : option (option Z) :=
  r ← TryConvertTimestamp false None false s; Some match r with inr t => Some (tt_value t) | inl _ => None end.

Definition cast_text (type : LogicalTypeId) (cast : bytes -> option (option Z)) (val : Value) (h : OdbcHandleStmt) (m : mem) (deliver : Z -> outcome) : outcome :=
  r ← cast (cell_text val);
  match r with
  | Some z => deliver z
  | None => fail SQL_ERROR (B"GetDataStmtResult") (cast_exception_text type (cell_text val)) ST_07006 h m
  end.

(** [SQL_DATE_STRUCT] is three 16-bit fields, [SQL_TIME_STRUCT] three more. *)
Definition deliver_date (h : OdbcHandleStmt) (target ind : ptr) (m : mem) (date : Z) : outcome :=
  '(year, month, day) ← Date_Convert date;
  let m := store 2 (store 2 (store 2 m target year) (target + 2) month) (target + 4) day in
  Some (SQL_SUCCESS, h, store_opt 8 m ind 6).

Definition GetTypeDate (h : OdbcHandleStmt) (val : Value) (target ind : ptr) (m : mem) : outcome :=
  let deliver := deliver_date h target ind m in
  match cell_type val with
  | LT_DATE => deliver (cell_date val)
  | LT_VARCHAR => cast_text LT_DATE text_to_date val h m deliver
  | t =>
      match from_epoch t with
      | Some f => date ← CastTimestampValue timestamp_to_date f val; deliver date
      | None => ThrowInvalidCast (B"GetDataStmtResult") (cell_type_text val) (type_text LT_DATE) h m
      end
  end.

Definition deliver_time (h : OdbcHandleStmt) (target ind : ptr) (m : mem) (time : Z) : outcome :=
  let '(hour, minute, second, _) := Time_Convert time in
  let m := store 2 (store 2 (store 2 m target hour) (target + 2) minute) (target + 4) second in
  Some (SQL_SUCCESS, h, store_opt 8 m ind 6).

Definition GetTypeTime (h : OdbcHandleStmt) (val : Value) (target ind : ptr) (m : mem) : outcome :=
  let deliver := deliver_time h target ind m in
  match cell_type val with
  | LT_TIME => deliver (cell_time val)
  | LT_VARCHAR => cast_text LT_TIME text_to_time val h m deliver
  | t =>
      match from_epoch t with
      | Some f => time ← CastTimestampValue timestamp_to_time f val; deliver time
      | None => ThrowInvalidCast (B"GetDataStmtResult") (cell_type_text val) (type_text LT_TIME) h m
      end
  end.

(** [TryCast::Operation<date_t, timestamp_t>] *)
Definition date_to_timestamp (date : Z) : option Z :=
  if date =? date_infinity then Some timestamp_infinity
  else if date =? date_ninfinity then Some timestamp_ninfinity
  else TryFromDatetime date (FromTime 0 0 0 0).

(** A [SQL_TIMESTAMP_STRUCT]: six 16-bit fields and 32 bits of nanoseconds. *)
Definition write_timestamp (target year month day hour minute second fraction : Z) (m : mem) : mem :=
  let m := store 2 (store 2 (store 2 m target year) (target + 2) month) (target + 4) day in
  let m := store 2 (store 2 (store 2 m (target + 6) hour) (target + 8) minute) (target + 10) second in
  store 4 m (target + 12) fraction.

Definition deliver_timestamp (h : OdbcHandleStmt) (target ind : ptr) (m : mem) (timestamp : Z) : outcome :=
  '(year, month, day) ← Date_Convert (GetDate timestamp);
  time ← GetTime timestamp;
  let '(hour, minute, second, micros) := Time_Convert time in
  Some (SQL_SUCCESS, h,
        store_opt 8 (write_timestamp target year month day hour minute second (micros * 1000) m) ind 16).

(** Infinite values keep their number whatever the unit, but for [TIMESTAMP],
    where the conversion changes nothing. *)
Definition GetTypeTimestamp (h : OdbcHandleStmt) (val : Value) (target ind : ptr) (m : mem) : outcome :=
  let deliver := deliver_timestamp h target ind m in
  match cell_type val with
  | LT_TIMESTAMP => input ← cell_int64 val; timestamp ← FromEpochMicroSeconds input; deliver timestamp
  | LT_DATE =>
      match date_to_timestamp (cell_date val) with
      | Some timestamp => deliver timestamp
      | None => fail SQL_ERROR (B"GetDataStmtResult") (date_error_text (cell_date val)) ST_07006 h m
      end
  | LT_TIME => deliver (cell_time val)
  | LT_VARCHAR => cast_text LT_TIMESTAMP text_to_timestamp val h m deliver
  | t =>
      match from_epoch t with
      | Some f =>
          input ← cell_int64 val;
          timestamp ← (if IsFinite input then f input else Some input);
          deliver timestamp
      | None => ThrowInvalidCast (B"GetDataStmtResult") (cell_type_text val) (type_text LT_TIMESTAMP) h m
      end
  end.

(** ** Intervals *)

(** [OdbcInterval::GetInterval] *)
Definition GetInterval (val : Value) (h : OdbcHandleStmt) : option (option interval_t * OdbcHandleStmt) :=
  match cell_type val with
  | LT_INTERVAL => Some (Some (cell_interval val), h)
  | LT_VARCHAR =>
      r ← Interval_FromCString (cell_text val);
      Some match r with
      | Some i => (Some i, h)
      | None => (None, (stmt_error SQL_ERROR (B"OdbcInterval::GetInterval") (cast_exception_text LT_INTERVAL (cell_text val)) ST_22007 h).2)
      end
  | _ => Some (None, h)
  end.

(** A [SQL_INTERVAL_STRUCT]: the type, the sign, two bytes of padding and the
    five words. The decomposition sets some of the fields; the others are
    written back as they are. *)
Definition load_interval (m : mem) (a : ptr) : SQL_INTERVAL_STRUCT :=
  MkIntervalStruct (load_u 4 m a) (load_s 2 m (a + 4)) (load_u 4 m (a + 8)) (load_u 4 m (a + 12)) (load_u 4 m (a + 16))
    (load_u 4 m (a + 20)) (load_u 4 m (a + 24)).
Definition store_interval (m : mem) (a : ptr) (s : SQL_INTERVAL_STRUCT) : mem :=
  let m := store 2 (store 4 m a (interval_type s)) (a + 4) (interval_sign s) in
  let m := store 4 (store 4 m (a + 8) (day s)) (a + 12) (hour s) in
  store 4 (store 4 (store 4 m (a + 16) (minute s)) (a + 20) (second s)) (a + 24) (fraction s).

Definition GetTypeInterval (target_type : Z) (h : OdbcHandleStmt) (val : Value) (target ind : ptr) (m : mem) : outcome :=
  '(interval, h) ← GetInterval val h;
  match interval with
  | None => ThrowInvalidCast (B"GetDataStmtResult") (cell_type_text val) (type_text LT_INTERVAL) h m
  | Some interval =>
      s ← decompose target_type interval (load_interval m target);
      Some (SQL_SUCCESS, h, store_opt 8 (store_interval m target s) ind 28)
  end.

(** ** The switch over the C type *)
(** The C types of numbers: the type to cast to and the size. *)
Definition number_type (target_type : Z) : option (LogicalTypeId * nat) :=
  let to t := target_type =? t in
  if to SQL_C_SHORT || to SQL_C_SSHORT then Some (LT_SMALLINT, 2%nat)
  else if to SQL_C_USHORT then Some (LT_USMALLINT, 2%nat)
  else if to SQL_C_LONG || to SQL_C_SLONG then Some (LT_INTEGER, 4%nat)
  else if to SQL_C_ULONG then Some (LT_UINTEGER, 4%nat)
  else if to SQL_C_FLOAT then Some (LT_FLOAT, 4%nat)
  else if to SQL_C_DOUBLE then Some (LT_DOUBLE, 8%nat)
  else if to SQL_C_BIT then Some (LT_CHAR, 1%nat)
  else if to SQL_C_TINYINT || to SQL_C_STINYINT then Some (LT_TINYINT, 1%nat)
  else if to SQL_C_UTINYINT then Some (LT_UTINYINT, 1%nat)
  else if to SQL_C_SBIGINT then Some (LT_BIGINT, 8%nat)
  else if to SQL_C_UBIGINT then Some (LT_UBIGINT, 8%nat)
  else None.

(** The C types of variable length: the size of a unit, the bytes of the value
    and whether they are terminated. *)
Definition variable_data (target_type : Z) (val : Value) : option (Z * bytes * bool) :=
  if target_type =? SQL_C_WCHAR then Some (2, words_to_bytes (utf8_to_utf16_lenient (cell_text val)), true)
  else if target_type =? SQL_C_BINARY then blob ← text_to_blob (until_nul (cell_text val)); Some (1, blob, false)
  else if target_type =? SQL_C_CHAR then Some (1, cell_text val, true)
  else None.

Definition is_variable (target_type : Z) : bool :=
  (target_type =? SQL_C_WCHAR) || (target_type =? SQL_C_BINARY) || (target_type =? SQL_C_CHAR).

Definition convert_value (col : Z) (h : OdbcHandleStmt) (val : Value) (target_type : Z) (target : ptr) (buffer_length : Z)
    (ind : ptr) (m : mem) : outcome :=
  match number_type target_type with
  | Some (type, size) => GetInternalValue h val type size target ind m
  | None =>
      if is_variable target_type then
        '(cs, data, nul) ← variable_data target_type val;
        GetVariableValue cs col h target buffer_length ind data nul m
      else if target_type =? SQL_C_NUMERIC then GetNumeric h val target ind m
      else if target_type =? SQL_C_TYPE_DATE then GetTypeDate h val target ind m
      else if target_type =? SQL_C_TYPE_TIME then GetTypeTime h val target ind m
      else if target_type =? SQL_C_TYPE_TIMESTAMP then GetTypeTimestamp h val target ind m
      else if IsIntervalType target_type then GetTypeInterval target_type h val target ind m
      else fail SQL_ERROR (B"GetDataStmtResult") (B"Data type not supported") ST_HY004 h m
  end.

(** A timestamp with time zone is shifted to the local time of the client. *)
Definition local_value (val : Value) (h : OdbcHandleStmt) : option (Value * OdbcHandleStmt) :=
  if bool_decide (cell_type val = LT_TIMESTAMP_TZ) then
    utc_micros ← cell_int64 val;
    let '(utc_offset_micros, h) := GetUTCOffsetMicrosFromOS utc_micros h in
    Some (make_timestamp (s64 (utc_micros + utc_offset_micros)), h)
  else Some (val, h).

Definition GetDataStmtResult (h : OdbcHandleStmt) (col_or_param_num target_type : Z) (target_value_ptr : ptr)
    (buffer_length : Z) (str_len_or_ind_ptr : ptr) (m : mem) : outcome :=
  if (target_value_ptr =? nullptr) && negb (IsCharType target_type) then Some (SQL_ERROR, h, m)
  else
    let col := if 0 <? col_or_param_num then col_or_param_num - 1 else col_or_param_num in
    '(_, val) ← GetValue col (odbc_fetcher h);
    let val := default VNull val in
    if bool_decide (val = VNull) then
      if str_len_or_ind_ptr =? nullptr then Some (SQL_ERROR, h, m)
      else Some (SQL_SUCCESS, h, store 8 m str_len_or_ind_ptr SQL_NULL_DATA)
    else
      '(val, h) ← local_value val h;
      let target_type_resolved :=
        if target_type =? SQL_C_DEFAULT then resolve_default_type (cell_type val) buffer_length else target_type in
      convert_value col h val target_type_resolved target_value_ptr buffer_length str_len_or_ind_ptr m.
End GetData.

(** ** The conversion leaves the cursor where it is *)
Lemma same_cursor_refl h : same_cursor h h.
Proof. exists (last_fetched_variable_val (odbc_fetcher h)), (stmt_diagnostic h). by destruct h as [? ? ? ? ? ? ? ? ? [] ? ?]. Qed.

Lemma same_cursor_trans h1 h2 h3 : same_cursor h1 h2 -> same_cursor h2 h3 -> same_cursor h1 h3.
Proof. intros (l & d & ->) (l' & d' & ->). exists l', d'. by destruct h1 as [? ? ? ? ? ? ? ? ? [] ? ?]. Qed.

#[export] Instance same_cursor_preorder : PreOrder same_cursor.
Proof. split; [exact same_cursor_refl|exact same_cursor_trans]. Qed.

Lemma same_cursor_error ret component msg state h : same_cursor h (stmt_error ret component msg state h).2.
Proof.
  exists (last_fetched_variable_val (odbc_fetcher h)), (SetDiagnosticRecord ret component msg state (stmt_dsn h) (stmt_diagnostic h)).2.
  unfold stmt_error. destruct (SetDiagnosticRecord _ _ _ _ _ _) as [r d]. by destruct h as [? ? ? ? ? ? ? ? ? [] ? ?].
Qed.

Lemma stmt_error_facts ret component msg state h :
  exists h', stmt_error ret component msg state h = (ret, h') /\ same_cursor h h' /\ odbc_fetcher h' = odbc_fetcher h.
Proof.
  exists (stmt_error ret component msg state h).2. pose proof (same_cursor_error ret component msg state h).
  unfold stmt_error in *. by destruct (SetDiagnosticRecord ret component msg state (stmt_dsn h) (stmt_diagnostic h)) eqn:E;
    injection E as <- <-.
Qed.

Lemma stmt_error_code ret component msg state h : (stmt_error ret component msg state h).1 = ret.
Proof. done. Qed.

Lemma same_cursor_last h last : same_cursor h (h <| odbc_fetcher ::= fun f => f <| last_fetched_variable_val := last |> |>).
Proof. exists last, (stmt_diagnostic h). by destruct h as [? ? ? ? ? ? ? ? ? [] ? ?]. Qed.

Lemma same_cursor_set_col h col : same_cursor h (h <| odbc_fetcher ::= SetLastFetchedVariableVal col |>).
Proof.
  exists (last_fetched_variable_val (SetLastFetchedVariableVal col (odbc_fetcher h))), (stmt_diagnostic h).
  by destruct h as [? ? ? ? ? ? ? ? ? [] ? ?].
Qed.

Lemma same_cursor_set_len h n : same_cursor h (h <| odbc_fetcher ::= SetLastFetchedLength n |>).
Proof.
  exists (last_fetched_variable_val (SetLastFetchedLength n (odbc_fetcher h))), (stmt_diagnostic h).
  by destruct h as [? ? ? ? ? ? ? ? ? [] ? ?].
Qed.

(** What a result that exists says about the handle. *)
Definition keeps (h : OdbcHandleStmt) (o : outcome) : Prop :=
  match o with Some (_, h', _) => same_cursor h h' | None => True end.

Lemma keeps_some h ret h' m : same_cursor h h' -> keeps h (Some (ret, h', m)).
Proof. done. Qed.
Lemma keeps_weaken h h1 o : same_cursor h h1 -> keeps h1 o -> keeps h o.
Proof. intros H. destruct o as [[[? ?] ?]|]; cbn; [|done]. by apply same_cursor_trans. Qed.
Lemma keeps_fail h ret component msg state m : keeps h (fail ret component msg state h m).
Proof.
  unfold fail. pose proof (same_cursor_error ret component msg state h) as H.
  destruct (stmt_error ret component msg state h). exact H.
Qed.
Create HintDb cursor.
#[local] Hint Resolve same_cursor_refl keeps_some keeps_fail same_cursor_error same_cursor_set_col same_cursor_set_len : cursor.

Section Cursor.
Context `{CellOps} `{TimeZone}.

Lemma GetVariableValue_keeps cs col h target len ind buf nul m : keeps h (GetVariableValue cs col h target len ind buf nul m).
Proof.
  unfold GetVariableValue. apply (keeps_weaken h (h <| odbc_fetcher ::= SetLastFetchedVariableVal col |>)); [auto with cursor|].
  set (h1 := h <| odbc_fetcher ::= SetLastFetchedVariableVal col |>). clearbody h1.
  destruct (_ && _); [auto with cursor|]. destruct (_ && _); [auto with cursor|].
  destruct (target =? nullptr); [destruct (negb _); auto with cursor|].
  destruct (_ <? _).
  - destruct (stmt_error_facts SQL_SUCCESS_WITH_INFO (B"SQLGetData") truncated_message ST_01004 h1) as (h2 & -> & E & _).
    case_match; [done|]. cbn [keeps]. etrans; [exact E|auto with cursor].
  - case_match; [done|]. cbn [keeps]. auto with cursor.
Qed.

Lemma keeps_bind {A} h (o : option A) (f : A -> outcome) : (forall a, keeps h (f a)) -> keeps h (a ← o; f a).
Proof. intros Hf. destruct o; [apply Hf|done]. Qed.

Lemma cast_text_keeps type cast val h m deliver :
  (forall z, keeps h (deliver z)) -> keeps h (cast_text type cast val h m deliver).
Proof. intros Hd. apply keeps_bind. intros [z|]; [apply Hd|apply keeps_fail]. Qed.

Lemma deliver_date_keeps h target ind m z : keeps h (deliver_date h target ind m z).
Proof. apply keeps_bind. intros [[? ?] ?]. apply keeps_some. auto with cursor. Qed.
Lemma deliver_time_keeps h target ind m z : keeps h (deliver_time h target ind m z).
Proof. unfold deliver_time. destruct (Time_Convert z) as [[[? ?] ?] ?]. apply keeps_some. auto with cursor. Qed.
Lemma deliver_timestamp_keeps h target ind m z : keeps h (deliver_timestamp h target ind m z).
Proof.
  apply keeps_bind; intros [[? ?] ?]; apply keeps_bind; intros t; destruct (Time_Convert t) as [[[? ?] ?] ?].
  apply keeps_some. auto with cursor.
Qed.

(** The conversions that go through one delivery function. *)
Ltac keeps_by Hd :=
  repeat first [apply cast_text_keeps; exact Hd | exact (Hd _) | apply keeps_bind; intros ? | apply keeps_fail].

Lemma GetTypeDate_keeps h val target ind m : keeps h (GetTypeDate h val target ind m).
Proof.
  unfold GetTypeDate, ThrowInvalidCast.
  destruct (cell_type val); cbn [from_epoch]; keeps_by (deliver_date_keeps h target ind m).
Qed.
Lemma GetTypeTime_keeps h val target ind m : keeps h (GetTypeTime h val target ind m).
Proof.
  unfold GetTypeTime, ThrowInvalidCast.
  destruct (cell_type val); cbn [from_epoch]; keeps_by (deliver_time_keeps h target ind m).
Qed.
Lemma GetTypeTimestamp_keeps h val target ind m : keeps h (GetTypeTimestamp h val target ind m).
Proof.
  unfold GetTypeTimestamp, ThrowInvalidCast.
  destruct (cell_type val); cbn [from_epoch]; keeps_by (deliver_timestamp_keeps h target ind m).
  destruct (date_to_timestamp _); [apply deliver_timestamp_keeps|apply keeps_fail].
Qed.

Lemma GetInterval_keeps val h o h1 : GetInterval val h = Some (o, h1) -> same_cursor h h1.
Proof.
  pose proof (same_cursor_error SQL_ERROR (B"OdbcInterval::GetInterval") (cast_exception_text LT_INTERVAL (cell_text val)) ST_22007 h) as K. unfold GetInterval.
  set (h' := (stmt_error _ _ _ _ h).2) in *. clearbody h'. destruct (cell_type val); try by intros [= _ <-].
  destruct (Interval_FromCString _) as [[i|]|]; cbn [mbind option_bind]; by intros [= _ <-].
Qed.

Lemma GetTypeInterval_keeps type h val target ind m : keeps h (GetTypeInterval type h val target ind m).
Proof.
  unfold GetTypeInterval. destruct (GetInterval val h) as [[[i|] h1]|] eqn:E; [| |done]; apply GetInterval_keeps in E; cbn [mbind option_bind].
  - apply keeps_bind. intros s. exact E.
  - eapply keeps_weaken; [exact E|]. apply keeps_fail.
Qed.

Lemma GetNumeric_keeps h val target ind m : keeps h (GetNumeric h val target ind m).
Proof.
  unfold GetNumeric, ValidateType. case_bool_decide.
  - destruct (numeric_digits _) as [[[? ?] ?] ?]. cbn [Z.eqb negb]. apply keeps_bind. intros [?|]; apply keeps_some; reflexivity.
  - set (msg := _ ++ _). clearbody msg.
    pose proof (same_cursor_error SQL_ERROR (B"ValidateType") msg ST_07006 h) as E.
    pose proof (stmt_error_code SQL_ERROR (B"ValidateType") msg ST_07006 h) as C.
    destruct (stmt_error _ _ _ _ h) as [r h1]. cbn in C, E. subst r. exact E.
Qed.

Lemma convert_value_keeps col h val type target len ind m : keeps h (convert_value col h val type target len ind m).
Proof.
  unfold convert_value. destruct (number_type type) as [[t n]|].
  { unfold GetInternalValue. destruct (cell_cast t val); [apply keeps_fail|apply keeps_some; reflexivity]. }
  destruct (is_variable type); [apply keeps_bind; intros [[? ?] ?]; apply GetVariableValue_keeps|].
  destruct (_ =? _); [apply GetNumeric_keeps|]. destruct (_ =? _); [apply GetTypeDate_keeps|].
  destruct (_ =? _); [apply GetTypeTime_keeps|]. destruct (_ =? _); [apply GetTypeTimestamp_keeps|].
  destruct (IsIntervalType type); [apply GetTypeInterval_keeps|apply keeps_fail].
Qed.

Lemma local_value_keeps val h val' h' : local_value val h = Some (val', h') -> same_cursor h h'.
Proof.
  unfold local_value. case_bool_decide; [|by intros [= <- <-]].
  destruct (cell_int64 val) as [z|]; [|done]. cbn [mbind option_bind].
  assert (same_cursor h (GetUTCOffsetMicrosFromOS z h).2) as E
    by (unfold GetUTCOffsetMicrosFromOS; repeat case_match; (apply same_cursor_error || reflexivity)).
  destruct (GetUTCOffsetMicrosFromOS z h) as [o h1]. intros [= <- <-]. exact E.
Qed.

Lemma GetDataStmtResult_keeps h col type target len ind m : keeps h (GetDataStmtResult h col type target len ind m).
Proof.
  unfold GetDataStmtResult. destruct (_ && _); [apply keeps_some; reflexivity|]. apply keeps_bind. intros [r v].
  case_bool_decide; [destruct (ind =? nullptr); apply keeps_some; reflexivity|].
  destruct (local_value _ h) as [[v' h1]|] eqn:E; [|done]. cbn [mbind option_bind].
  eapply keeps_weaken; [exact (local_value_keeps _ _ _ _ E)|apply convert_value_keeps].
Qed.

(** The conversion the fetch of the development is parametrised by. *)
#[export] Program Instance driver_conversion : GetDataOp | 50 := {| get_data := GetDataStmtResult |}.
Next Obligation.
  intros h col type p len ind m ret h' m' E. pose proof (GetDataStmtResult_keeps h col type p len ind m) as K.
  rewrite E in K. exact K.
Qed.
End Cursor.

(** ** Retrieval in pieces *)

(** [n] bytes of the column were delivered by the calls before. *)
Definition delivered (h : OdbcHandleStmt) (col n : Z) : Prop :=
  GetLastFetchedLength (SetLastFetchedVariableVal col (odbc_fetcher h)) = n.

Lemma last_length_kept col n f f0 :
  last_fetched_variable_val f = last_fetched_variable_val (SetLastFetchedVariableVal col f0) -> chunk_row f = chunk_row f0 ->
  GetLastFetchedLength (SetLastFetchedVariableVal col (SetLastFetchedLength n f)) = n.
Proof.
  destruct f, f0. unfold SetLastFetchedVariableVal, SetLastFetchedLength, GetLastFetchedLength. cbn. intros -> ->. cbn.
  by rewrite !Z.eqb_refl.
Qed.

(** Delivering a piece: the room for data is what the terminator leaves. *)
Lemma GetVariableValue_piece `{CellOps} cs col h target blen ind data (nul : bool) m k room :
  delivered h col k -> 0 <= k -> k < zlen data -> zlen data < 2 ^ 63 -> 0 < cs ->
  room = blen - (if nul then cs else 0) -> 0 < room -> 0 <= blen < 2 ^ 63 ->
  target <> nullptr -> ind <> nullptr -> ind + 8 <= target \/ target + blen <= ind ->
  let n := Z.min room (zlen data - k) in
  exists h' m', GetVariableValue cs col h target blen ind data nul m
                = Some (if room <? zlen data - k then SQL_SUCCESS_WITH_INFO else SQL_SUCCESS, h', m')
    /\ delivered h' col (k + n) /\ same_cursor h h'
    /\ read_bytes m' target (Z.to_nat n) = ztake n (zdrop k data)
    /\ load_s 8 m' ind = zlen data - k
    /\ (forall a, (a < target \/ target + blen <= a) -> (a < ind \/ ind + 8 <= a) -> m' !! a = m !! a).
Proof.
  intros Hk Hk0 Hkl Hlen Hcs -> Hroom Hblen Ht Hi Hdis n.
  pose proof (GetVariableValue_keeps cs col h target blen ind data nul m) as K. revert K.
  unfold GetVariableValue, delivered in *.
  set (h1 := h <| odbc_fetcher ::= SetLastFetchedVariableVal col |>).
  assert (odbc_fetcher h1 = SetLastFetchedVariableVal col (odbc_fetcher h)) as -> by done. rewrite Hk.
  rewrite (wrap_u_small 64 blen) by (unfold in_u; lia).
  rewrite (wrap_u_small 64 (blen - _)) by (unfold in_u; destruct nul; lia).
  rewrite (wrap_u_small 64 (zlen data - k)) by (unfold in_u; lia).
  assert ((0 <? zlen data) && (zlen data <=? k) = false) as -> by lia.
  assert (nul && (blen <? cs) = false) as -> by (destruct nul; cbn [andb]; lia).
  rewrite (proj2 (Z.eqb_neq target nullptr)) by done.
  set (r := blen - (if nul then cs else 0)) in *.
  destruct (if r <? zlen data - k then _ else _) as [[ret h2] out] eqn:E.
  assert (ret = (if r <? zlen data - k then SQL_SUCCESS_WITH_INFO else SQL_SUCCESS) /\ out = n
          /\ same_cursor h1 h2 /\ last_fetched_variable_val (odbc_fetcher h2) = last_fetched_variable_val (odbc_fetcher h1)
          /\ chunk_row (odbc_fetcher h2) = chunk_row (odbc_fetcher h1)) as (-> & -> & C2 & L2 & R2).
  { destruct (Z.ltb_spec r (zlen data - k)).
    - destruct (stmt_error_facts SQL_SUCCESS_WITH_INFO (B"SQLGetData") truncated_message ST_01004 h1) as (h3 & Eh & C3 & F3).
      rewrite Eh in E. injection E as <- <- <-. rewrite F3. split; [done|]. split; [subst n; lia|done].
    - injection E as <- <- <-. split; [done|]. split; [subst n; lia|]. done. }
  clear E. rewrite (proj2 (Z.ltb_ge (zlen data) (k + n))) by (subst n; lia). intros K. cbn [keeps] in K.
  eexists _, _. split; [reflexivity|]. split; [|split; [exact K|]].
  { by apply (last_length_kept col (k + n) _ (odbc_fetcher h)). }
  assert (zlen (ztake n (zdrop k data)) = n) as Ez
    by (rewrite zlen_ztake, zlen_zdrop by (subst n; lia); subst n; lia).
  unfold store_opt. rewrite (proj2 (Z.eqb_neq ind nullptr)) by done.
  set (m1 := write_bytes m target (ztake n (zdrop k data))).
  set (m2 := if nul then write_bytes m1 (target + n) (replicate (Z.to_nat cs) 0) else m1).
  assert (forall a, a < target \/ target + blen <= a -> m2 !! a = m !! a) as Fr.
  { intros a Ha. transitivity (m1 !! a); [|subst m1; apply write_bytes_outside; subst n r; destruct nul; lia].
    subst m2. destruct nul; [|done]. apply write_bytes_outside. unfold zlen. rewrite length_replicate. subst n r. lia. }
  split; [|split].
  - transitivity (read_bytes m1 target (Z.to_nat n)); [|by apply read_write_prefix].
    transitivity (read_bytes m2 target (Z.to_nat n)).
    + apply read_bytes_ext. intros a Ha. apply store_outside. subst n r. destruct nul; lia.
    + subst m2. destruct nul; [|done]. apply read_write_bytes_outside. subst n. lia.
  - apply load_s_store_in; [lia|]. unfold in_s. change (8 * Z.of_nat 8 - 1) with 63. lia.
  - intros a Ha Hai. rewrite store_outside by lia. by apply Fr.
Qed.

Section Retrieve.
Context `{CellOps} `{TimeZone}.

(** The application's loop: call until the value is complete and put the
    pieces together, [room] bytes from every call but the last. *)
Fixpoint retrieve (fuel : nat) (get : OdbcHandleStmt -> mem -> outcome) (target room ind : Z) (h : OdbcHandleStmt) (m : mem)
    : option (bytes * OdbcHandleStmt * mem) :=
  match fuel with
  | O => None
  | S fuel' =>
      '(ret, h, m) ← get h m;
      if ret =? SQL_SUCCESS then Some (read_bytes m target (Z.to_nat (load_s 8 m ind)), h, m)
      else if ret =? SQL_SUCCESS_WITH_INFO then
        '(rest, h', m') ← retrieve fuel' get target room ind h m;
        Some (read_bytes m target (Z.to_nat room) ++ rest, h', m')
      else None
  end.

(** A cell of variable length under the cursor. *)
Record variable_cell (h : OdbcHandleStmt) (col type : Z) (v : Value) (cs : Z) (data : bytes) (nul : bool) : Prop := {
  vc_value : exists r, GetValue col (odbc_fetcher h) = Some (r, Some v);
  vc_type : is_variable type = true;
  vc_notnull : v <> VNull;
  vc_notz : cell_type v <> LT_TIMESTAMP_TZ;
  vc_data : variable_data type v = Some (cs, data, nul)
}.

Lemma variable_data_cs type v cs data nul : variable_data type v = Some (cs, data, nul) -> 0 < cs.
Proof.
  unfold variable_data. repeat case_match; try done; try (intros [= <- <- <-]; lia).
  destruct (text_to_blob _); [|done]. intros [= <- <- <-]. lia.
Qed.

Lemma get_variable h col type v cs data nul target blen ind m :
  variable_cell h col type v cs data nul -> 0 <= col -> target <> nullptr ->
  GetDataStmtResult h (col + 1) type target blen ind m = GetVariableValue cs col h target blen ind data nul m.
Proof.
  intros [[r Hv] Ht Hn Hz Hd] Hc Hp. unfold GetDataStmtResult. rewrite (proj2 (Z.eqb_neq target nullptr)) by done.
  cbn [andb]. rewrite (proj2 (Z.ltb_lt 0 (col + 1))) by lia. replace (col + 1 - 1) with col by lia. rewrite Hv.
  cbn [mbind option_bind]. change (default VNull (Some v)) with v. rewrite bool_decide_eq_false_2 by done. unfold local_value.
  rewrite bool_decide_eq_false_2 by done. cbn [mbind option_bind]. unfold convert_value.
  assert (number_type type = None /\ (type =? SQL_C_DEFAULT) = false) as [Hnt ->].
  { unfold is_variable in Ht. rewrite !orb_true_iff, !Z.eqb_eq in Ht. destruct Ht as [[->| ->]| ->]; done. }
  by rewrite Hnt, Ht, Hd.
Qed.

Lemma variable_cell_cursor h h' col type v cs data nul :
  same_cursor h h' -> variable_cell h col type v cs data nul -> variable_cell h' col type v cs data nul.
Proof. intros (l & d & ->) [[r Hv] ? ? ? ?]. split; try done. by exists r. Qed.

Lemma retrieve_from fuel h col type v cs data (nul : bool) target blen ind m k room :
  variable_cell h col type v cs data nul -> delivered h col k -> 0 <= k < zlen data -> zlen data < 2 ^ 63 ->
  0 <= col -> room = blen - (if nul then cs else 0) -> 0 < room -> 0 <= blen < 2 ^ 63 ->
  target <> nullptr -> ind <> nullptr -> ind + 8 <= target \/ target + blen <= ind ->
  zlen data - k <= room * Z.of_nat fuel ->
  exists h' m',
    retrieve fuel (fun h m => GetDataStmtResult h (col + 1) type target blen ind m) target room ind h m
      = Some (zdrop k data, h', m')
    /\ variable_cell h' col type v cs data nul /\ delivered h' col (zlen data).
Proof.
  intros Hcell. revert h m k Hcell. induction fuel as [|fuel IH]; intros h m k Hcell Hk Hkr Hlen Hc Er Hroom Hblen Ht Hi Hdis Hf;
    [lia|].
  pose proof (variable_data_cs _ _ _ _ _ (vc_data _ _ _ _ _ _ _ Hcell)) as Hcs.
  cbn [retrieve]. rewrite (get_variable _ _ _ _ _ _ _ _ _ _ _ Hcell) by done.
  destruct (GetVariableValue_piece cs col h target blen ind data nul m k room) as (h1 & m1 & E & D & C & R & L & _);
    [done|lia|lia|done|done|done|done|done|done|done|done|].
  rewrite E. cbn [mbind option_bind]. pose proof (variable_cell_cursor _ _ _ _ _ _ _ _ C Hcell) as Hcell1.
  destruct (Z.ltb_spec room (zlen data - k)) as [Hlt|Hge].
  - rewrite (proj2 (Z.eqb_neq SQL_SUCCESS_WITH_INFO SQL_SUCCESS)), Z.eqb_refl by lia.
    rewrite Z.min_l in * by lia.
    destruct (IH h1 m1 (k + room)) as (h2 & m2 & E2 & Hcell2 & D2); [done|done|lia|done|done|done|done|done|done|done|done|lia|].
    exists h2, m2. rewrite E2. cbn [mbind option_bind]. split; [|done]. rewrite R.
    replace (zdrop (k + room) data) with (zdrop room (zdrop k data)) by (rewrite zdrop_zdrop by lia; done).
    by rewrite ztake_zdrop.
  - rewrite Z.eqb_refl. rewrite Z.min_r in * by lia. exists h1, m1. rewrite L, R.
    rewrite ztake_ge by (rewrite zlen_zdrop by lia; lia). split; [done|]. split; [done|].
    by replace (k + (zlen data - k)) with (zlen data) in D by lia.
Qed.


(** With room for the terminator only, a call delivers nothing and the loop of
    the application does not advance. *)
Lemma no_room_no_progress cs col h target ind data m :
  delivered h col 0 -> 0 < zlen data < 2 ^ 63 -> 0 < cs < 2 ^ 63 -> target <> nullptr ->
  exists h' m', GetVariableValue cs col h target cs ind data true m = Some (SQL_SUCCESS_WITH_INFO, h', m')
    /\ delivered h' col 0.
Proof.
  intros Hd Hl Hcs Ht. unfold GetVariableValue, delivered in *.
  set (h1 := h <| odbc_fetcher ::= SetLastFetchedVariableVal col |>).
  assert (odbc_fetcher h1 = SetLastFetchedVariableVal col (odbc_fetcher h)) as F by done. rewrite F, Hd.
  rewrite (wrap_u_small 64 cs), (wrap_u_small 64 (cs - cs)), (wrap_u_small 64 (zlen data - 0)) by (unfold in_u; lia).
  assert ((0 <? zlen data) && (zlen data <=? 0) = false) as -> by lia.
  assert (true && (cs <? cs) = false) as -> by lia. rewrite (proj2 (Z.eqb_neq target nullptr)) by done.
  rewrite Z.sub_diag, Z.sub_0_r, (proj2 (Z.ltb_lt 0 (zlen data))) by lia.
  destruct (stmt_error_facts SQL_SUCCESS_WITH_INFO (B"SQLGetData") truncated_message ST_01004 h1) as (h2 & -> & _ & F2).
  rewrite (proj2 (Z.ltb_ge (zlen data) (0 + 0))) by lia.
  eexists _, _. split; [reflexivity|]. apply (last_length_kept col 0 (odbc_fetcher h2) (odbc_fetcher h)); by rewrite F2, F.
Qed.
End Retrieve.

(** ** Timestamps *)

(** Reading past a store elsewhere. *)
Lemma load_u_store_ne n k m a b z : b + Z.of_nat k <= a \/ a + Z.of_nat n <= b -> load_u k (store n m a z) b = load_u k m b.
Proof. intros Hd. apply load_u_ext. intros. apply store_outside. lia. Qed.
Lemma load_s_store_ne n k m a b z : b + Z.of_nat k <= a \/ a + Z.of_nat n <= b -> load_s k (store n m a z) b = load_s k m b.
Proof. intros Hd. unfold load_s. by rewrite load_u_store_ne. Qed.
Lemma load_u_store_opt_ne n k m a b z :
  a = nullptr \/ b + Z.of_nat k <= a \/ a + Z.of_nat n <= b -> load_u k (store_opt n m a z) b = load_u k m b.
Proof. unfold store_opt. case_match; zbool; [done|]. intros [?|?]; [done|]. by apply load_u_store_ne. Qed.
Lemma load_s_store_opt_ne n k m a b z :
  a = nullptr \/ b + Z.of_nat k <= a \/ a + Z.of_nat n <= b -> load_s k (store_opt n m a z) b = load_s k m b.
Proof. intros Hd. unfold load_s. by rewrite load_u_store_opt_ne. Qed.

(** The fields of the structure as the client reads them. *)
Definition read_timestamp (m : mem) (a : ptr) : Z * Z * Z * Z * Z * Z * Z :=
  (load_s 2 m a, load_u 2 m (a + 2), load_u 2 m (a + 4), load_u 2 m (a + 6), load_u 2 m (a + 8), load_u 2 m (a + 10),
   load_u 4 m (a + 12)).

Lemma read_write_timestamp m a ind z y mo d h mi s f :
  in_s 16 y -> in_u 16 mo -> in_u 16 d -> in_u 16 h -> in_u 16 mi -> in_u 16 s -> in_u 32 f ->
  ind = nullptr \/ ind + 8 <= a \/ a + 16 <= ind ->
  read_timestamp (store_opt 8 (write_timestamp a y mo d h mi s f m) ind z) a = (y, mo, d, h, mi, s, f).
Proof.
  intros Hy Hmo Hd Hh Hmi Hs Hf Hi. unfold read_timestamp.
  rewrite load_s_store_opt_ne, !load_u_store_opt_ne by lia. unfold write_timestamp.
  rewrite !load_s_store_ne by lia. rewrite (load_s_store_in 2) by (done || lia).
  rewrite !(load_u_store_ne _ _ _ (a + 12)) by lia. rewrite (load_u_store_in 4) by done.
  rewrite !(load_u_store_ne _ _ _ (a + 10)) by lia. rewrite (load_u_store_in 2 _ (a + 10)) by done.
  rewrite !(load_u_store_ne _ _ _ (a + 8)) by lia. rewrite (load_u_store_in 2 _ (a + 8)) by done.
  rewrite !(load_u_store_ne _ _ _ (a + 6)) by lia. rewrite (load_u_store_in 2 _ (a + 6)) by done.
  rewrite !(load_u_store_ne _ _ _ (a + 4)) by lia. rewrite (load_u_store_in 2 _ (a + 4)) by done.
  rewrite (load_u_store_in 2 _ (a + 2)) by done. done.
Qed.

(** The instant the fields stand for. *)
Definition instant_of (fields : Z * Z * Z * Z * Z * Z * Z) : option Z :=
  let '(year, month, day, hour, minute, second, fraction) := fields in
  date ← TryFromDate year month day;
  TryFromDatetime date (FromTime hour minute second (fraction / 1000)).

Lemma deliver_timestamp_exact h target ind m ts :
  in_s 64 ts -> IsFinite ts = true -> - 2 ^ 63 <= ts / MICROS_PER_DAY * MICROS_PER_DAY ->
  (exists y mo d, Date_Convert (GetDate ts) = Some (y, mo, d) /\ in_s 16 y) ->
  ind = nullptr \/ ind + 8 <= target \/ target + 16 <= ind ->
  exists m', deliver_timestamp h target ind m ts = Some (SQL_SUCCESS, h, m')
    /\ instant_of (read_timestamp m' target) = Some ts.
Proof.
  intros Hts Hf Hmid (y & mo & d & Ed & Hy) Hi. unfold deliver_timestamp. rewrite Ed. cbn [mbind option_bind].
  rewrite GetTime_mod by done. cbn [mbind option_bind].
  pose proof (Z.mod_pos_bound ts MICROS_PER_DAY ltac:(done)) as Hm.
  pose proof (Time_roundtrip _ Hm) as Ht. destruct (Time_Convert (ts mod MICROS_PER_DAY)) as [[[hh mi] ss] us] eqn:Et.
  destruct Ht as (Eback & Hh & Hmi & Hs & Hus). eexists. split; [reflexivity|].
  assert (first_day <= GetDate ts <= last_day) as Hday.
  { rewrite GetDate_floor by done. unfold in_s in Hts. change (2 ^ (64 - 1)) with 9223372036854775808 in Hts.
    unfold first_day, last_day, MICROS_PER_DAY, MICROS_PER_HOUR, HOURS_PER_DAY. dlia. }
  destruct (day_fields_valid (GetDate ts) Hday) as (y' & mo' & d' & Ed' & Hv & Eback').
  rewrite Ed in Ed'. injection Ed' as <- <- <-.
  destruct (Date_Convert_total (GetDate ts)) as (y1 & mo1 & d1 & E1 & Hmo & Hd).
  { unfold first_day, last_day in Hday. unfold in_s. lia. }
  rewrite Ed in E1. injection E1 as <- <- <-.
  rewrite read_write_timestamp; [|done|unfold in_u; lia..|done].
  unfold instant_of. rewrite Eback'. cbn [mbind option_bind]. rewrite Z.div_mul, Eback by lia.
  by apply timestamp_rebuilt.
Qed.

(** C18: A timestamp is delivered exactly: from the seven fields the client
    finds in its SQL_TIMESTAMP_STRUCT the instant is computed back to the
    microsecond, before 1970 as well as after, as long as the year fits the
    16-bit field. *)
Theorem timestamp_delivered_exact `{CellOps} h val target ind m ts :
  cell_type val = LT_TIMESTAMP -> cell_int64 val = Some ts ->
  in_s 64 ts -> IsFinite ts = true -> - 2 ^ 63 <= ts / MICROS_PER_DAY * MICROS_PER_DAY ->
  (exists y mo d, Date_Convert (GetDate ts) = Some (y, mo, d) /\ in_s 16 y) ->
  ind = nullptr \/ ind + 8 <= target \/ target + 16 <= ind ->
  exists m', GetTypeTimestamp h val target ind m = Some (SQL_SUCCESS, h, m')
    /\ instant_of (read_timestamp m' target) = Some ts.
Proof.
  intros Et Ev. unfold GetTypeTimestamp. rewrite Et, Ev. cbn [mbind option_bind]. apply deliver_timestamp_exact.
Qed.

(** ** Texts of dates and times *)

(** C19: A VARCHAR that holds the text of a date, a time or a timestamp, as the engine prints it,
    is delivered as SQL_C_TYPE_DATE, SQL_C_TYPE_TIME or SQL_C_TYPE_TIMESTAMP exactly as the value
    itself is: same return code, same statement, same memory, for every day of the
    calendar, every time of day and every finite timestamp whose day is in range. *)
Theorem text_cells_delivered `{CellOps} h text value target ind m : cell_type text = LT_VARCHAR ->
  (cell_type value = LT_DATE -> first_day <= cell_date value <= last_day -> Date_ToString (cell_date value) = Some (cell_text text) ->
   GetTypeDate h text target ind m = GetTypeDate h value target ind m)
  /\ (cell_type value = LT_TIME -> 0 <= cell_time value <= MICROS_PER_DAY -> Time_ToString (cell_time value) = Some (cell_text text) ->
      GetTypeTime h text target ind m = GetTypeTime h value target ind m)
  /\ (forall ts, cell_type value = LT_TIMESTAMP -> cell_int64 value = Some ts -> in_s 64 ts -> IsFinite ts = true ->
      - 2 ^ 63 <= ts / MICROS_PER_DAY * MICROS_PER_DAY -> Timestamp_ToString ts = Some (cell_text text) ->
      GetTypeTimestamp h text target ind m = GetTypeTimestamp h value target ind m).
Proof.
  intros Et. unfold GetTypeDate, GetTypeTime, GetTypeTimestamp, cast_text. rewrite Et. split; [|split].
  - intros -> Hn E. destruct (date_printed _ Hn) as (s & Es & R). rewrite E in Es. injection Es as Es. unfold text_to_date. by rewrite Es, R.
  - intros -> Ht E. destruct (time_printed false _ Ht) as (s & Es & R). rewrite E in Es. injection Es as Es. unfold text_to_time. by rewrite Es, R.
  - intros ts -> -> Hv Hf Hd E. destruct (timestamp_printed _ Hv Hf Hd) as (s & Es & R). rewrite E in Es. injection Es as Es. unfold text_to_timestamp. by rewrite Es, R.
Qed.

(** ** Decimals *)
Lemma filter_digits c s : ~ is_digit c -> Forall is_digit s -> filter (fun x => x <> c) s = s.
Proof.
  intros Hc. induction 1 as [|x s Hx _ IH]; [done|]. rewrite filter_cons_True, IH; [done|]. intros ->. done.
Qed.

Lemma find_point s t : Forall is_digit s -> list_find (fun c => c = chr ".") (s ++ chr "." :: t) = Some (length s, chr ".").
Proof.
  induction 1 as [|x s Hx _ IH]; cbn [app list_find length].
  - by rewrite decide_True.
  - rewrite decide_False; [by rewrite IH|]. intros ->. unfold is_digit in Hx. vm_compute in Hx. destruct Hx. done.
Qed.

Lemma point_not_digit : ~ is_digit (chr "."). Proof. intros [H _]. by apply H. Qed.
Lemma minus_not_digit : ~ is_digit (chr "-"). Proof. intros [H _]. by apply H. Qed.

Lemma numeric_digits_decimal negative ip fp :
  Forall is_digit ip -> Forall is_digit fp -> ip <> [] -> fp <> [] -> zlen fp < 128 ->
  numeric_digits (decimal_text negative ip fp)
  = let digits := if forallb (fun c => c =? chr "0") fp then ip else ip ++ fp in
    (digits, zlen digits, if negative then 0 else 1, zlen fp).
Proof.
  intros Hip Hfp Hi Hf Hs.
  assert (filter (fun c => c <> chr ".") (ip ++ chr "." :: fp) = ip ++ fp) as F1.
  { rewrite list.filter_app, filter_cons_False by (intros E; by apply E).
    by rewrite (filter_digits _ ip), (filter_digits _ fp) by (done || apply point_not_digit). }
  assert (filter (fun c => c <> chr "-") (ip ++ chr "." :: fp) = ip ++ chr "." :: fp) as F2.
  { rewrite list.filter_app, filter_cons_True by done. by rewrite (filter_digits _ ip), (filter_digits _ fp) by (done || apply minus_not_digit). }
  assert (forall w sg : Z, (match list_find (fun c => c = chr ".") (ip ++ chr "." :: fp) with
    | None => (ip ++ chr "." :: fp, w, sg, 0)
    | Some (pos_dot, _) =>
        let str_val := filter (fun c => c <> chr ".") (ip ++ chr "." :: fp) in
        let scale := s8 (zlen str_val - Z.of_nat pos_dot) in
        let str_fraction := drop pos_dot str_val in
        let str_val := if negb (bool_decide (str_fraction = [])) && forallb (fun c => c =? chr "0") str_fraction
                       then take pos_dot str_val else str_val in
        (str_val, zlen str_val, sg, scale) end)
    = (let digits := if forallb (fun c => c =? chr "0") fp then ip else ip ++ fp in (digits, zlen digits, sg, zlen fp))) as Main.
  { intros w sg. rewrite find_point, F1 by done. cbv zeta. rewrite drop_app_length, take_app_length, zlen_app.
    rewrite bool_decide_eq_false_2 by done. cbn [negb andb].
    replace (zlen ip + zlen fp - Z.of_nat (length ip)) with (zlen fp) by (unfold zlen; lia).
    rewrite wrap_s_small by (unfold in_s; pose proof (zlen_nonneg fp); lia). done. }
  unfold numeric_digits, decimal_text. destruct negative.
  - cbn [app head default]. change (default 0 (Some (chr "-")) =? chr "-") with true. cbn iota.
    rewrite filter_cons_False by (intros E; by apply E). rewrite F2. apply Main.
  - cbn [app]. destruct ip as [|c ip]; [done|]. cbn [app head]. change (default 0 (Some c)) with c.
    assert ((c =? chr "-") = false) as ->; [|apply Main].
    apply Z.eqb_neq. intros ->. apply minus_not_digit. by inversion Hip.
Qed.

(** The bytes of a [SQL_NUMERIC_STRUCT] as the client reads them: scale, sign
    (1 for positive) and value, which is little-endian. *)
Definition read_numeric (m : mem) (a : ptr) : Z * Z * Z := (load_s 1 m (a + 1), load_u 1 m (a + 2), load_u 8 m (a + 3) + 2 ^ 64 * load_u 8 m (a + 11)).

Lemma load_u_zeros n m a : (forall i, 0 <= i < Z.of_nat n -> m !! (a + i) = Some 0) -> load_u n m a = 0.
Proof.
  unfold load_u. revert a. induction n as [|n IH]; intros a Hz; cbn [read_bytes le_combine]; [done|].
  unfold read_byte. pose proof (Hz 0 ltac:(lia)) as H0. rewrite Z.add_0_r in H0. rewrite H0, IH; [done|].
  intros i Hi. replace (a + 1 + i) with (a + (1 + i)) by lia. apply Hz. lia.
Qed.

(** Up to 18 digits are an integer of 64 bits. *)
Lemma text_to_int64 s : s <> [] -> Forall is_digit s -> zlen s <= 18 -> TrySimpleIntegerCast int64 false s = Some (Some (digits_value s)).
Proof.
  intros Hn Hd Hl. pose proof (digits_value_range s Hd) as Hv. pose proof (Z.pow_le_mono_r 10 (zlen s) 18 ltac:(lia) Hl) as Hp.
  change (10 ^ 18) with 1000000000000000000 in Hp. change s with (sign_of false ++ s) at 1. rewrite cast_digits; [|split; [by right; right; right|done]|done|done|done].
  rewrite try_int_signed by ((split; [by right; right; right|done]) || lia). by rewrite (proj2 (Z.leb_le _ _)) by (change (limit int64 false) with 9223372036854775807; lia).
Qed.

(** Up to 38 are one of 128 bits. *)
Lemma text_to_hugeint s : s <> [] -> Forall is_digit s -> zlen s <= 38 -> TryCast_hugeint false s = Some (Some (of_Z (digits_value s))).
Proof.
  intros Hn Hd Hl. pose proof (digits_value_range s Hd) as Hv. pose proof (Z.pow_le_mono_r 10 (zlen s) 38 ltac:(lia) Hl) as Hp.
  change (10 ^ 38) with 100000000000000000000000000000000000000 in Hp. change s with (sign_of false ++ s) at 1.
  rewrite huge_digits_read by (done || lia). cbn [signed_by]. rewrite try_int128. max128. by rewrite (proj2 (Z.leb_le _ _)), (proj2 (Z.ltb_lt _ _)) by lia.
Qed.

(** The value of the struct behind the digits: a number of 64 bits with the bytes above it
    cleared, or the two words of a larger one. *)
Lemma store_digits m0 numeric digits : digits <> [] -> Forall is_digit digits -> zlen digits <= 38 ->
  (forall i, 8 <= i < 16 -> m0 !! (numeric + 3 + i) = Some 0) ->
  exists m1, (if zlen digits <=? MAX_WIDTH_INT64
              then val_i64 ← TrySimpleIntegerCast int64 false digits; Some (option_map (store 8 m0 (numeric + 3)) val_i64)
              else huge_int ← TryCast_hugeint false digits;
                   Some (option_map (fun n => store 8 (store 8 m0 (numeric + 3) (Hugeint.lower n)) (numeric + 11) (Hugeint.upper n)) huge_int))
             = Some (Some m1)
    /\ load_u 8 m1 (numeric + 3) + 2 ^ 64 * load_u 8 m1 (numeric + 11) = digits_value digits
    /\ (forall a, a < numeric + 3 -> m1 !! a = m0 !! a).
Proof.
  intros Hn Hd Hl Hz. pose proof (digits_value_range digits Hd) as Hv. unfold MAX_WIDTH_INT64. destruct (Z.leb_spec (zlen digits) 18) as [H18|H18].
  - rewrite text_to_int64 by done. cbn [mbind option_bind option_map]. eexists. split; [reflexivity|]. split; [|intros a Ha; apply store_outside; lia].
    pose proof (Z.pow_le_mono_r 10 (zlen digits) 18 ltac:(lia) H18) as Hp. change (10 ^ 18) with 1000000000000000000 in Hp.
    rewrite (load_u_store_in 8) by (unfold in_u; change (8 * Z.of_nat 8) with 64; max64; lia).
    rewrite (load_u_zeros 8 _ (numeric + 11)); [lia|]. intros i Hi. change (Z.of_nat 8) with 8 in Hi. rewrite store_outside by lia.
    replace (numeric + 11 + i) with (numeric + 3 + (8 + i)) by lia. apply Hz. lia.
  - rewrite text_to_hugeint by done. cbn [mbind option_bind option_map]. eexists. split; [reflexivity|]. split; [|intros a Ha; rewrite !store_outside by lia; done].
    pose proof (Z.pow_le_mono_r 10 (zlen digits) 38 ltac:(lia) Hl) as Hp. change (10 ^ 38) with 100000000000000000000000000000000000000 in Hp.
    unfold of_Z. cbn [Hugeint.lower Hugeint.upper]. rewrite load_u_store_ne by lia.
    rewrite !(load_u_store_in 8) by (unfold in_u; change (8 * Z.of_nat 8) with 64; max64; dlia). max64. dlia.
Qed.

Lemma GetNumeric_fields `{CellOps} h val numeric ind m (negative : bool) ip fp :
  cell_type val = LT_DECIMAL -> cell_text val = decimal_text negative ip fp ->
  Forall is_digit ip -> Forall is_digit fp -> ip <> [] -> fp <> [] -> zlen ip + zlen fp <= 38 ->
  ind = nullptr \/ ind + 8 <= numeric \/ numeric + 19 <= ind ->
  exists m', GetNumeric h val numeric ind m = Some (SQL_SUCCESS, h, m')
    /\ read_numeric m' numeric
       = (zlen fp, if negative then 0 else 1,
          digits_value (if forallb (fun c => c =? chr "0") fp then ip else ip ++ fp)).
Proof.
  intros Ht Hx Hip Hfp Hi Hf Hl Hind. pose proof (zlen_nonneg ip) as Zi. pose proof (zlen_nonneg fp) as Zf.
  unfold GetNumeric, ValidateType. rewrite Ht, bool_decide_eq_true_2 by done.
  cbn [Z.eqb negb]. rewrite Hx, numeric_digits_decimal by (done || lia). cbv zeta.
  set (digits := if forallb _ fp then ip else ip ++ fp).
  assert (digits <> [] /\ Forall is_digit digits /\ zlen digits <= 38) as (Dn & Dd & Dl).
  { subst digits. case_match; [split; [done|]; split; [done|lia]|]. split; [by destruct ip|].
    split; [by apply Forall_app|rewrite zlen_app; lia]. }
  pose proof (zlen_nonneg digits). rewrite (wrap_u_small 8) by (unfold in_u; lia). rewrite ztake_ge by lia.
  set (m0 := store 1 _ (numeric + 1) _).
  destruct (store_digits m0 numeric digits Dn Dd Dl) as (m1 & -> & Ev & Hout).
  { intros i Hi'. subst m0. rewrite !store_outside by lia. rewrite <- (Z2Nat.id i) by lia. rewrite write_bytes_inside by (rewrite length_replicate; unfold SQL_MAX_NUMERIC_LEN; lia).
    apply lookup_replicate_2. unfold SQL_MAX_NUMERIC_LEN. lia. }
  cbn [mbind option_bind]. eexists. split; [reflexivity|]. unfold read_numeric.
  rewrite load_s_store_opt_ne, !load_u_store_opt_ne by lia. rewrite Ev. f_equal.
  unfold load_s. rewrite !(fun n a H => load_u_ext n m1 m0 a H) by (intros a Ha; apply Hout; lia). subst m0. f_equal.
  - fold (load_s 1 (store 1 (store 1 (store 1 (write_bytes m (numeric + 3) (replicate SQL_MAX_NUMERIC_LEN 0)) (numeric + 2) (if negative then 0 else 1)) numeric (zlen digits)) (numeric + 1) (zlen fp)) (numeric + 1)).
    apply load_s_store_in; [lia|]. unfold in_s. change (8 * Z.of_nat 1 - 1) with 7. lia.
  - rewrite !load_u_store_ne by lia. apply load_u_store_in. unfold in_u. change (8 * Z.of_nat 1) with 8. destruct negative; lia.
Qed.

(** A decimal with at most 38 digits arrives with its scale and sign, and
    its value is the number without the point exactly when the fraction has a
    digit other than 0 or the whole part is 0: for a whole number such as 1.00
    the zeros are dropped and the scale is not, so the client reads 0.01. *)
Theorem numeric_exact_iff_fraction `{CellOps} h val numeric ind m (negative : bool) ip fp :
  cell_type val = LT_DECIMAL -> cell_text val = decimal_text negative ip fp ->
  Forall is_digit ip -> Forall is_digit fp -> ip <> [] -> fp <> [] -> zlen ip + zlen fp <= 38 ->
  ind = nullptr \/ ind + 8 <= numeric \/ numeric + 19 <= ind ->
  exists m' value, GetNumeric h val numeric ind m = Some (SQL_SUCCESS, h, m')
    /\ read_numeric m' numeric = (zlen fp, if negative then 0 else 1, value)
    /\ (value = digits_value (ip ++ fp) <-> digits_value fp <> 0 \/ digits_value ip = 0).
Proof.
  intros Ht Hx Hip Hfp Hi Hf Hl Hind.
  destruct (GetNumeric_fields h val numeric ind m negative ip fp) as (m' & E & R); try done.
  exists m', (digits_value (if forallb (fun c => c =? chr "0") fp then ip else ip ++ fp)). split; [done|]. split; [done|].
  pose proof (digits_value_app ip fp) as A. pose proof (digits_value_range ip Hip).
  assert (0 < zlen fp) by (destruct fp; [done|rewrite zlen_cons; pose proof (zlen_nonneg fp); lia]).
  destruct (forallb (fun c => c =? chr "0") fp) eqn:Ez.
  - change (chr "0") with 48 in Ez. pose proof (digits_value_zeros fp Ez) as Hz0. rewrite A, Hz0.
    assert (1 < 10 ^ zlen fp) by (apply Z.pow_gt_1; lia). split; [intros; right; nia|]. intros [?|E0]; [lia|]. rewrite E0. lia.
  - split; [|done]. intros _. left. change (chr "0") with 48 in Ez.
    assert (forallb (fun c => c =? 48) fp = false -> Forall is_digit fp -> digits_value fp <> 0) as P; [|auto].
    clear. induction fp as [|c fp IH]; [done|]. cbn [forallb]. intros Ez Hd. inversion Hd as [|? ? Hc Hd']; subst.
    change (c :: fp) with ([c] ++ fp). rewrite digits_value_app. change (digits_value [c]) with (10 * 0 + (c - 48)).
    pose proof (digits_value_range fp Hd'). pose proof (zlen_nonneg fp). unfold is_digit in Hc.
    assert (0 < 10 ^ zlen fp) by lia. destruct (Z.eqb_spec c 48) as [->|]; [specialize (IH Ez Hd'); lia|nia].
Qed.


(** ** A concrete engine for examples *)
Definition plain_type (v : Value) : LogicalTypeId :=
  match v with
  | VNull => LT_SQLNULL | VVarchar _ => LT_VARCHAR | VBlob _ => LT_BLOB
  | VUTinyInt _ => LT_UTINYINT | VTinyInt _ => LT_TINYINT | VUSmallInt _ => LT_USMALLINT | VSmallInt _ => LT_SMALLINT
  | VUInteger _ => LT_UINTEGER | VInteger _ => LT_INTEGER | VUBigInt _ => LT_UBIGINT | VBigInt _ => LT_BIGINT
  | VFloat _ => LT_FLOAT | VDouble _ => LT_DOUBLE | VDecimal _ _ _ => LT_DECIMAL | VTimestamp _ _ _ _ _ _ _ => LT_TIMESTAMP
  | VDate _ _ _ => LT_DATE | VTime _ _ _ _ => LT_TIME | VInterval _ _ _ => LT_INTERVAL
  end.

Definition plain_int64 (v : Value) : option Z :=
  match v with
  | VInteger z | VBigInt z | VSmallInt z | VTinyInt z => Some z
  | VTimestamp y mo d h mi s us => date ← TryFromDate y mo d; Some (date * MICROS_PER_DAY + FromTime h mi s us)
  | _ => None
  end.

(** A decimal as text, with the digits after the point the scale asks for. *)
Definition plain_text (v : Value) : bytes :=
  match v with
  | VVarchar s | VBlob s => s
  | VDecimal value _ scale =>
      let n := Z.abs value in
      let fp := to_string (n mod 10 ^ scale) in
      decimal_text (value <? 0) (to_string (n / 10 ^ scale)) (replicate (Z.to_nat scale - length fp) 48 ++ fp)
  | _ => []
  end.

Definition plain_date (v : Value) : Z := match v with VDate y mo d => default 0 (TryFromDate y mo d) | _ => 0 end.
Definition plain_time (v : Value) : Z := match v with VTime h mi s us => FromTime h mi s us | _ => 0 end.
Definition plain_interval (v : Value) : interval_t :=
  match v with VInterval mo d us => MkInterval mo d us | _ => MkInterval 0 0 0 end.
Definition plain_cast (v : Value) : bytes + Z :=
  match plain_int64 v with Some z => inr z | None => inl (B"Could not cast") end.
Definition plain_timestamp (z : Z) : Value := VTimestamp 1970 1 1 0 0 0 z.

Lemma plain_timestamp_type z : plain_type (plain_timestamp z) = LT_TIMESTAMP.
Proof. done. Qed.
Lemma plain_timestamp_int64 z : plain_int64 (plain_timestamp z) = Some z.
Proof. reflexivity. Qed.

Definition plain_engine : CellOps := {|
  cell_type := plain_type; cell_type_text := fun _ => []; type_text := fun _ => []; cell_text := plain_text;
  cell_int64 := plain_int64; cell_date := plain_date; cell_time := plain_time; cell_interval := plain_interval;
  cell_cast := fun _ => plain_cast; make_timestamp := plain_timestamp;
  cast_exception_text := fun _ _ => []; date_error_text := fun _ => [];
  text_to_blob := Some;
  make_timestamp_type := plain_timestamp_type; make_timestamp_int64 := plain_timestamp_int64
|}.

Definition utc_zone : TimeZone := {|
  tm := Z; gmtime_r := Some; localtime_r := Some; clear_isdst := fun t => t; mktime := fun t => t; errno := 0
|}.

(** A result of one row with the cell [v], loaded. *)
Definition one_cell (v : Value) : OdbcHandleStmt :=
  example_stmt SQL_CURSOR_FORWARD_ONLY 1 [(0%nat, [[v]])] (Some 0%nat) 0 0 false [].


Lemma timestamp_delivered_exact_witness :
  let v := VTimestamp 1969 7 20 20 17 40 0 in
  exists m', @GetTypeTimestamp plain_engine (one_cell v) v 100 0 ∅ = Some (SQL_SUCCESS, one_cell v, m')
    /\ instant_of (read_timestamp m' 100) = Some (-14182940000000).
Proof.
  intros v. apply (@timestamp_delivered_exact plain_engine (one_cell v) v 100 0 ∅ (-14182940000000));
    [reflexivity|by vm_compute|by vm_compute|reflexivity|by vm_compute| |by left].
  eexists _, _, _. split; [vm_compute; reflexivity|by vm_compute].
Defined.

Lemma text_cells_delivered_witness :
  @GetTypeDate plain_engine (one_cell (VVarchar (B"2024-02-29"))) (VVarchar (B"2024-02-29")) 100 0 ∅
  = @GetTypeDate plain_engine (one_cell (VVarchar (B"2024-02-29"))) (VDate 2024 2 29) 100 0 ∅.
Proof.
  destruct (@text_cells_delivered plain_engine (one_cell (VVarchar (B"2024-02-29"))) (VVarchar (B"2024-02-29"))
    (VDate 2024 2 29) 100 0 ∅ eq_refl) as (H & _ & _).
  apply H; [reflexivity|split; vm_compute; congruence|vm_compute; reflexivity].
Defined.

