(* ===== verification/Stmt.v ===== *)
(** * Executing statements ([odbc_driver/statement/statement_functions.cpp],
    [common/duckdb_odbc.cpp], [common/handle_functions.cpp] and the entry points
    of [odbc_api/statement_api.cpp], [result_api.cpp], [parameter_api.cpp],
    [binding_api.cpp], [cursor_api.cpp], [handle_api.cpp], [transaction_api.cpp])

    A statement is prepared, executed once for each set of parameters, and read
    through its cursor. The engine is not part of the driver: its operations are
    the class [EngineOps], over a state of the engine. Operations return
    [option (option _)]: the outer [None] is that the fuel ran out (of a loop, or
    of the length of a text), the inner one is undefined behaviour. *)

From S2P Require Import Prelude OdbcConst Memory Utf8 Widechar OdbcUtils Diagnostic Interval ApiInfo Descriptor Params Fetch.

(** The engine: preparing a query text, splitting a text into statements (or an
    error), preparing one of them, executing, and the name of a type. *)
Class EngineOps (Engine SQLStatement : Type) := {
  engine_prepare : bytes -> Engine -> PreparedStatement * Engine;
  engine_extract : bytes -> Engine -> (list SQLStatement + bytes) * Engine;
  engine_prepare_statement : SQLStatement -> Engine -> PreparedStatement * Engine;
  engine_execute : PreparedStatement -> list Value -> Engine -> QueryResult * Engine;
  engine_is_autocommit : Engine -> bool;
  engine_set_autocommit : bool -> Engine -> Engine;
  engine_commit : Engine -> Engine;
  engine_rollback : Engine -> option bytes * Engine;
  physical_type_name : LogicalTypeId -> bytes;
  varchar_type_name : bytes;
  system_catalog_name : bytes
}.

Definition run (Engine : Type) : Type := option (option (Z * OdbcHandleStmt * Engine * mem)).

(** ** Handles *)

(** [ConvertHSTMT] and its variants, on a valid pointer or none; [conn] is
    whether the statement's connection is open. *)
Definition Stmt_error_no_server (component msg : bytes) (state : SQLStateType) (h : OdbcHandleStmt)
    : Z * OdbcHandleStmt :=
  let '(ret, diag) := SetDiagnosticRecord SQL_ERROR component msg state [] (stmt_diagnostic h) in
  (ret, h <| stmt_diagnostic := diag |>).

Definition ConvertHSTMT (conn : bool) (h : OdbcHandleStmt) : Z * OdbcHandleStmt :=
  if negb conn then Stmt_error_no_server (B"dbc") (B"No database connection found") ST_08003 h
  else (SQL_SUCCESS, h <| stmt_diagnostic ::= Clean |>).

Definition ConvertHSTMTPrepared (conn : bool) (h : OdbcHandleStmt) : Z * OdbcHandleStmt :=
  let '(ret, h) := ConvertHSTMT conn h in
  if negb (ret =? SQL_SUCCESS) then (ret, h)
  else match stmt h with
       | None => Stmt_error_no_server (B"stmt") (B"No statement found") ST_HY000 h
       | Some s =>
           match ps_error s with
           | Some msg => stmt_error SQL_ERROR (B"stmt") msg ST_HY000 h
           | None => (SQL_SUCCESS, h)
           end
       end.

(** The message of a failed result is taken from the statement. *)
Definition ConvertHSTMTResult (conn : bool) (h : OdbcHandleStmt) : option (Z * OdbcHandleStmt) :=
  let '(ret, h) := ConvertHSTMT conn h in
  if negb (ret =? SQL_SUCCESS) then Some (ret, h)
  else match res h with
       | None => Some (stmt_error SQL_ERROR (B"stmt") (B"No result set found") ST_HY000 h)
       | Some r =>
           if QueryResult_HasError r then
             s ← stmt h; Some (stmt_error SQL_ERROR (B"stmt") (default [] (ps_error s)) ST_HY000 h)
           else Some (SQL_SUCCESS, h)
       end.

(** ** Preparing *)
Definition PrepareQuery (h : OdbcHandleStmt) : OdbcHandleStmt :=
  h <| stmt := None |> <| res := None |> <| odbc_fetcher ::= ClearChunks |>.

Section Stmt.
Context {Engine SQLStatement : Type} `{EngineOps Engine SQLStatement} `{GetDataOp}.

(** One record of the implementation row descriptor: its names, its type, its
    precision, and the rest. *)
Definition ird_named (name : bytes) : DescRecord :=
  default_DescRecord <| sql_desc_base_column_name := name |> <| sql_desc_name := name |>
    <| sql_desc_label := name |> <| sql_desc_length := zlen name |>
    <| sql_desc_unnamed := if zlen name =? 0 then SQL_UNNAMED else SQL_NAMED |>.

Definition ird_typed (sql_type : Z) (col_type : LogicalType) (r : DescRecord) : DescRecord :=
  let r := (SetSqlDescType (if sql_type =? SQL_INTERVAL then SQL_INTERVAL_DAY_TO_SECOND else sql_type) r).2 in
  r <| sql_desc_type_name :=
    if sql_type =? SQL_UNKNOWN_TYPE then varchar_type_name else physical_type_name (id col_type) |>.

Definition ird_precision (sql_type : Z) (col_type : LogicalType) (r : DescRecord) : DescRecord :=
  if (sql_type =? SQL_DECIMAL) || (sql_type =? SQL_NUMERIC) then
    match id col_type with
    | LT_DECIMAL => r <| sql_desc_precision := GetWidth col_type |> <| sql_desc_scale := GetScale col_type |>
    | _ => r
    end
  else if (sql_type =? SQL_TYPE_TIME) || (sql_type =? SQL_TYPE_TIMESTAMP) then
    let precision := GetTemporalPrecision (id col_type) in
    r <| sql_desc_precision := precision |> <| sql_desc_scale := precision |>
  else r.

Definition ird_record (name : bytes) (col_type : LogicalType) : DescRecord :=
  let sql_type := FindRelatedSQLType (id col_type) in
  let r := ird_precision sql_type col_type (ird_typed sql_type col_type (ird_named name)) in
  let r := r <| sql_desc_display_size := s32 (GetDisplaySize col_type) |> in
  let r := SetDescUnsignedField (id col_type) r in
  r <| sql_desc_catalog_name := system_catalog_name |> <| sql_desc_schema_name := [] |>.

Definition FillIRD (h : OdbcHandleStmt) : option OdbcHandleStmt :=
  s ← stmt h;
  let new_records := zip_with ird_record (ps_names s) (ps_types s) in
  if zlen (ps_names s) <? ColumnCount s then None
  else Some (h <| row_desc ::= fun rd => rd <| ird ::= fun d =>
    set_count_0 (OdbcHandleDesc_Reset d) <| records := new_records |> |> |>).

(** The bound columns and the descriptor follow the columns of the statement. *)
Definition resize_columns (s : PreparedStatement) (h : OdbcHandleStmt) : OdbcHandleStmt :=
  h <| bound_cols ::= vec_resize (Z.to_nat (ColumnCount s)) new_OdbcBoundCol |>.

Definition FinalizeStmt (h : OdbcHandleStmt) : option (Z * OdbcHandleStmt) :=
  s ← stmt h;
  match ps_error s with
  | Some msg => Some (stmt_error SQL_ERROR (B"PrepareStmt") msg ST_42000 h)
  | None =>
      let '(ret, s, h) :=
        if negb (bound_all_parameters s) then
          let s := s <| ps_types := [] |> <| ps_names := [] |> in
          let '(ret, h) := stmt_error SQL_SUCCESS_WITH_INFO (B"PrepareStmt") (B"Not all parameters are bound") ST_01000 h in
          (ret, s, h <| stmt := Some s |>)
        else (SQL_SUCCESS, s, h) in
      let h := h <| param_desc ::= ResetParams (s16 (named_param_count s)) |> in
      h ← FillIRD (resize_columns s h);
      Some (ret, h)
  end.

(** ** Executing *)
Definition SingleExecuteStmt (fuel : nat) (h : OdbcHandleStmt) (e : Engine) (m : mem)
    : option (Z * OdbcHandleStmt * Engine * mem) :=
  let h := h <| res := None |> <| odbc_fetcher ::= ClearChunks |> <| is_open := false |> in
  let m := store_opt 8 m (rows_fetched_ptr h) 0 in
  '(ret, vs, pd, diag, m) ← GetParamValues fuel (stmt_dsn h) (param_desc h) (stmt_diagnostic h) m;
  let h := h <| param_desc := pd |> <| stmt_diagnostic := diag |> in
  if (ret =? SQL_NEED_DATA) || (ret =? SQL_ERROR) then Some (ret, h, e, m)
  else
    s ← stmt h;
    let '(r, e) := engine_execute s vs e in
    let h := h <| res := Some r |> in
    if QueryResult_HasError r then
      let '(ret, h) := stmt_error SQL_ERROR (B"SingleExecuteStmt") (QueryResult_GetError r) ST_HY000 h in
      Some (ret, h, e, m)
    else
      let h := h <| is_open := true |> in
      Some (if ret =? SQL_STILL_EXECUTING then SQL_STILL_EXECUTING else SQL_SUCCESS, h, e, m).

(** The loop of [BatchExecuteStmt]: [n] bounds the number of executions. *)
Fixpoint execute_loop (fuel n : nat) (h : OdbcHandleStmt) (e : Engine) (m : mem) : run Engine :=
  match n with
  | O => None
  | S n' =>
      match SingleExecuteStmt fuel h e m with
      | None => Some None
      | Some (ret, h, e, m) =>
          if ret =? SQL_STILL_EXECUTING then execute_loop fuel n' h e m else Some (Some (ret, h, e, m))
      end
  end.

(** What follows the executions: the first fetch, and the columns of a statement
    that could not be planned before. *)
Definition after_execution (ret : Z) (h : OdbcHandleStmt) : option (Z * OdbcHandleStmt) :=
  if negb (SQL_SUCCEEDED ret) then Some (ret, h)
  else
    '(fetch_ret, h) ← FetchFirst h;
    if fetch_ret =? SQL_ERROR then Some (fetch_ret, h)
    else
      s ← stmt h;
      if negb (bound_all_parameters s) then
        r ← res h;
        let s := s <| ps_types := res_types r |> <| ps_names := res_names r |> in
        h ← FillIRD (resize_columns s (h <| stmt := Some s |>));
        Some (ret, h)
      else Some (ret, h).

Definition BatchExecuteStmt (fuel n : nat) (h : OdbcHandleStmt) (e : Engine) (m : mem) : run Engine :=
  match execute_loop fuel n h e m with
  | Some (Some (ret, h, e, m)) =>
      Some ('(ret, h) ← after_execution ret h; Some (ret, h, e, m))
  | r => r
  end.

(** The loop of [ExecDirectStmt] over the statements of the text. *)
Fixpoint exec_statements (fuel n : nat) (statements : list SQLStatement) (ret : Z) (success_with_info : bool)
    (h : OdbcHandleStmt) (e : Engine) (m : mem) : run Engine :=
  match statements with
  | [] => Some (Some (if success_with_info then SQL_SUCCESS_WITH_INFO else ret, h, e, m))
  | statement :: statements' =>
      let '(s, e) := engine_prepare_statement statement e in
      match FinalizeStmt (h <| stmt := Some s |>) with
      | None => Some None
      | Some (ret, h) =>
          if negb (ps_success s) || negb (SQL_SUCCEEDED ret) then Some (Some (ret, h, e, m))
          else
            let info := success_with_info || (ret =? SQL_SUCCESS_WITH_INFO) in
            match BatchExecuteStmt fuel n h e m with
            | Some (Some (ret, h, e, m)) =>
                if negb (SQL_SUCCEEDED ret) then Some (Some (ret, h, e, m))
                else exec_statements fuel n statements' ret (info || (ret =? SQL_SUCCESS_WITH_INFO)) h e m
            | r => r
            end
      end
  end.

Definition ExecDirectStmt (fuel n : nat) (query : bytes) (h : OdbcHandleStmt) (e : Engine) (m : mem) : run Engine :=
  let h := PrepareQuery h in
  let '(statements, e) := engine_extract query e in
  match statements with
  | inr what =>
      let '(ret, h) := stmt_error SQL_ERROR (B"SQLExecDirect") what ST_42000 h in Some (Some (ret, h, e, m))
  | inl statements => exec_statements fuel n statements SQL_SUCCESS false h e m
  end.

(** ** Binding *)
Definition BindParameterStmt (parameter_number input_output_type value_type parameter_type column_size
    decimal_digits : Z) (parameter_value_ptr : ptr) (buffer_length : Z) (str_len_or_ind_ptr : ptr)
    (h : OdbcHandleStmt) : Z * OdbcHandleStmt :=
  if negb (input_output_type =? SQL_PARAM_INPUT) then
    stmt_error SQL_ERROR (B"SQLBindParameter") (B"Only SQL_PARAM_INPUT is supported.") ST_HYC00 h
  else if parameter_number <? 1 then
    stmt_error SQL_ERROR (B"SQLBindParameter") (B"Invalid descriptor index.") ST_07009 h
  else
    let param_idx := parameter_number - 1 in
    let update (f : DescRecord -> DescRecord) (d : OdbcHandleDesc) :=
      d <| records ::= alter f (Z.to_nat param_idx) |> in
    let h := h <| param_desc ::= fun pd => pd <| ipd ::= GetDescRecord param_idx |> <| apd ::= GetDescRecord param_idx |> |> in
    let set_ipd r := r <| sql_desc_parameter_type := input_output_type |> <| sql_desc_length := column_size |>
                       <| sql_desc_precision := s16 column_size |> <| sql_desc_scale := decimal_digits |> in
    let h := h <| param_desc ::= fun pd => pd <| ipd ::= update set_ipd |> |> in
    let ipd_ret := (SetSqlDataType parameter_type default_DescRecord).1 in
    let h := h <| param_desc ::= fun pd => pd <| ipd ::= update (fun r => (SetSqlDataType parameter_type r).2) |> |> in
    let invalid h := stmt_error SQL_ERROR (B"SQLBindParameter") (B"Invalid data type.") ST_HY004 h in
    if ipd_ret =? SQL_ERROR then invalid h
    else
      let apd_ret := (SetSqlDataType value_type default_DescRecord).1 in
      let h := h <| param_desc ::= fun pd => pd <| apd ::= update (fun r => (SetSqlDataType value_type r).2) |> |> in
      if apd_ret =? SQL_ERROR then invalid h
      else
        let set_apd r := r <| sql_desc_data_ptr := parameter_value_ptr |> <| sql_desc_octet_length := buffer_length |>
                           <| sql_desc_indicator_ptr := str_len_or_ind_ptr |>
                           <| sql_desc_octet_length_ptr := str_len_or_ind_ptr |> in
        (SQL_SUCCESS, h <| param_desc ::= fun pd => pd <| apd ::= update set_apd |> |>).

(** ** Closing and materialising *)
Definition OdbcHandleStmt_Close (h : OdbcHandleStmt) : OdbcHandleStmt :=
  h <| is_open := false |> <| res := None |> <| odbc_fetcher ::= ClearChunks |> <| param_desc ::= Reset |>.

Definition CloseStmt (h : OdbcHandleStmt) : Z * OdbcHandleStmt := (SQL_SUCCESS, OdbcHandleStmt_Close h).

Definition OdbcHandleStmt_MaterializeResult (n : nat) (h : OdbcHandleStmt) : option (option (Z * OdbcHandleStmt)) :=
  match stmt h with
  | None => Some (Some (SQL_SUCCESS, h))
  | Some s =>
      if PreparedStatement_HasError s then Some (Some (SQL_SUCCESS, h))
      else match res h with
           | None => Some (Some (SQL_SUCCESS, h))
           | Some r => if QueryResult_HasError r then Some (Some (SQL_SUCCESS, h)) else Materialize n h
           end
  end.

Definition SetARD (new_ard : OdbcHandleDesc) (h : OdbcHandleStmt) : OdbcHandleStmt :=
  h <| row_desc ::= SetCurrentARD new_ard |>.
Definition SetAPD (new_apd : OdbcHandleDesc) (h : OdbcHandleStmt) : OdbcHandleStmt :=
  h <| param_desc ::= SetCurrentAPD new_apd |>.

(** ** Entry points on a valid statement handle *)
Definition lift (e : Engine) (m : mem) (r : option (Z * OdbcHandleStmt)) : run Engine :=
  Some ('(ret, h) ← r; Some (ret, h, e, m)).

Definition PrepareText (conn : bool) (query : bytes) (h : OdbcHandleStmt) (e : Engine) (m : mem) : run Engine :=
  let '(ret, h) := ConvertHSTMT conn h in
  if negb (ret =? SQL_SUCCESS) then Some (Some (ret, h, e, m))
  else
    let h := PrepareQuery h in
    let '(s, e) := engine_prepare query e in
    lift e m (FinalizeStmt (h <| stmt := Some s |>)).

Definition SQLPrepare (fuel : nat) (conn : bool) (statement_text : ptr) (text_length : Z) (h : OdbcHandleStmt)
    (e : Engine) (m : mem) : run Engine :=
  PrepareText conn (ConvertSQLCHARToString fuel m statement_text text_length) h e m.

(** The converted text of a wide argument, with its length as an [int]. *)
Definition wide_text (fuel : nat) (m : mem) (statement_text : ptr) (text_length : Z) : bytes :=
  let conv := make_utf16_conv fuel m statement_text text_length in
  if statement_text =? nullptr then [] else ztake (utf8_len_int conv) (utf8_vec conv).

Definition SQLPrepareW (fuel : nat) (conn : bool) (statement_text : ptr) (text_length : Z) (h : OdbcHandleStmt)
    (e : Engine) (m : mem) : run Engine :=
  PrepareText conn (wide_text fuel m statement_text text_length) h e m.

Definition SQLExecute (fuel n : nat) (conn : bool) (h : OdbcHandleStmt) (e : Engine) (m : mem) : run Engine :=
  let '(ret, h) := ConvertHSTMT conn h in
  if negb (ret =? SQL_SUCCESS) then Some (Some (ret, h, e, m)) else BatchExecuteStmt fuel n h e m.

Definition ExecDirectText (fuel n : nat) (conn : bool) (query : bytes) (h : OdbcHandleStmt) (e : Engine) (m : mem)
    : run Engine :=
  let '(ret, h) := ConvertHSTMT conn h in
  if negb (ret =? SQL_SUCCESS) then Some (Some (ret, h, e, m)) else ExecDirectStmt fuel n query h e m.

Definition SQLExecDirect (fuel n : nat) (conn : bool) (statement_text : ptr) (text_length : Z) (h : OdbcHandleStmt)
    (e : Engine) (m : mem) : run Engine :=
  ExecDirectText fuel n conn (ConvertSQLCHARToString fuel m statement_text text_length) h e m.

Definition SQLExecDirectW (fuel n : nat) (conn : bool) (statement_text : ptr) (text_length : Z) (h : OdbcHandleStmt)
    (e : Engine) (m : mem) : run Engine :=
  ExecDirectText fuel n conn (wide_text fuel m statement_text text_length) h e m.

Definition ExecuteBeforeFetch (fuel : nat) (conn : bool) (h : OdbcHandleStmt) (e : Engine) (m : mem) : run Engine :=
  let '(ret, h) := ConvertHSTMTPrepared conn h in
  if negb (ret =? SQL_SUCCESS) then Some (Some (ret, h, e, m))
  else if match res h with Some r => negb (QueryResult_HasError r) | None => false end then
    Some (Some (SQL_SUCCESS, h, e, m))
  else if HasParamSetToProcess (param_desc h) then
    Some ('(rc, h, e, m) ← SingleExecuteStmt fuel h e m;
          Some (if (rc =? SQL_SUCCESS) || (rc =? SQL_STILL_EXECUTING) then SQL_SUCCESS else rc, h, e, m))
  else Some (Some (SQL_SUCCESS, h, e, m)).

Definition SQLFetch (fuel : nat) (conn : bool) (h : OdbcHandleStmt) (e : Engine) (m : mem) : run Engine :=
  let '(ret, h) := ConvertHSTMTPrepared conn h in
  if negb (ret =? SQL_SUCCESS) then Some (Some (ret, h, e, m))
  else
    let '(ret, m) := DummyFetch h m in
    if negb (ret =? SQL_NEED_DATA) then Some (Some (ret, h, e, m))
    else
      match ExecuteBeforeFetch fuel conn h e m with
      | Some (Some (ret, h, e, m)) =>
          if negb (ret =? SQL_SUCCESS) then Some (Some (ret, h, e, m))
          else match FetchStmtResult fuel SQL_FETCH_NEXT 0 h m with
               | None => None
               | Some r => Some ('(ret, h, m) ← r; Some (ret, h, e, m))
               end
      | r => r
      end.

(** A handle converted for a result, then an operation on it. *)
Definition with_result (conn : bool) (h : OdbcHandleStmt) (e : Engine) (m : mem)
    (f : OdbcHandleStmt -> option (option (Z * OdbcHandleStmt * mem))) : run Engine :=
  match ConvertHSTMTResult conn h with
  | None => Some None
  | Some (ret, h) =>
      if negb (ret =? SQL_SUCCESS) then Some (Some (ret, h, e, m))
      else match f h with
           | None => None
           | Some r => Some ('(ret, h, m) ← r; Some (ret, h, e, m))
           end
  end.

Definition SQLFetchScroll (fuel : nat) (conn : bool) (fetch_orientation fetch_offset : Z) (h : OdbcHandleStmt)
    (e : Engine) (m : mem) : run Engine :=
  if bool_decide (fetch_orientation ∈ [SQL_FETCH_FIRST; SQL_FETCH_ABSOLUTE; SQL_FETCH_PRIOR; SQL_FETCH_NEXT]) then
    with_result conn h e m (fun h => FetchStmtResult fuel fetch_orientation (fetch_offset - 1) h m)
  else Some (Some (SQL_ERROR, h, e, m)).

Definition SQLGetData (conn : bool) (col_or_param_num target_type : Z) (target_value_ptr : ptr) (buffer_length : Z)
    (str_len_or_ind_ptr : ptr) (h : OdbcHandleStmt) (e : Engine) (m : mem) : run Engine :=
  with_result conn h e m (fun h =>
    Some (get_data h col_or_param_num target_type target_value_ptr buffer_length str_len_or_ind_ptr m)).

Definition SQLMoreResults (fuel : nat) (conn : bool) (h : OdbcHandleStmt) (e : Engine) (m : mem) : run Engine :=
  let '(ret, h) := ConvertHSTMT conn h in
  if negb (ret =? SQL_SUCCESS) then Some (Some (ret, h, e, m))
  else if negb (HasParamSetToProcess (param_desc h)) then Some (Some (SQL_NO_DATA, h, e, m))
  else Some (SingleExecuteStmt fuel h e m).

Definition SQLRowCount (conn : bool) (row_count_ptr : ptr) (h : OdbcHandleStmt) (e : Engine) (m : mem) : run Engine :=
  with_result conn h e m (fun h => Some (
    if row_count_ptr =? nullptr then Some (SQL_ERROR, h, m)
    else
      n ← GetRowCount (odbc_fetcher h);
      let m := store 8 m row_count_ptr n in
      s ← stmt h;
      Some (SQL_SUCCESS, h, match statement_type s with
                            | INSERT_STATEMENT | UPDATE_STATEMENT | DELETE_STATEMENT => m
                            | _ => store 8 m row_count_ptr (-1)
                            end))).

(** The entry points that only change the handle. *)
Definition on_handle (conn : bool) (h : OdbcHandleStmt) (f : OdbcHandleStmt -> Z * OdbcHandleStmt) : Z * OdbcHandleStmt :=
  let '(ret, h) := ConvertHSTMT conn h in
  if negb (ret =? SQL_SUCCESS) then (ret, h) else f h.

(** [SQLBindCol]; a column number of 0 is an index below the vector. *)
Definition SQLBindCol (conn : bool) (column_number target_type : Z) (target_value_ptr : ptr) (buffer_length : Z)
    (str_len_or_ind_ptr : ptr) (h : OdbcHandleStmt) : option (Z * OdbcHandleStmt) :=
  if column_number <=? 0 then None
  else Some (on_handle conn h (fun h =>
    let h := if zlen (bound_cols h) <? column_number
             then h <| bound_cols ::= vec_resize (Z.to_nat column_number) new_OdbcBoundCol |> else h in
    (SQL_SUCCESS, h <| bound_cols ::= <[Z.to_nat (column_number - 1) :=
       MkOdbcBoundCol target_type target_value_ptr buffer_length str_len_or_ind_ptr]> |>))).

Definition SQLBindParameter (conn : bool) (parameter_number input_output_type value_type parameter_type column_size
    decimal_digits : Z) (parameter_value_ptr : ptr) (buffer_length : Z) (str_len_or_ind_ptr : ptr)
    (h : OdbcHandleStmt) : Z * OdbcHandleStmt :=
  on_handle conn h (BindParameterStmt parameter_number input_output_type value_type parameter_type column_size
    decimal_digits parameter_value_ptr buffer_length str_len_or_ind_ptr).

Definition SQLCloseCursor (conn : bool) (h : OdbcHandleStmt) : Z * OdbcHandleStmt := on_handle conn h CloseStmt.

(** [SQLFreeStmt]; dropping the handle is left to [FreeHandle]. *)
Definition SQLFreeStmt (conn : bool) (option : Z) (h : OdbcHandleStmt) : Z * OdbcHandleStmt :=
  on_handle conn h (fun h =>
    if option =? SQL_DROP then (SQL_SUCCESS, h)
    else if option =? SQL_UNBIND then (SQL_SUCCESS, h <| bound_cols := [] |>)
    else if option =? SQL_RESET_PARAMS then (SQL_SUCCESS, h <| param_desc ::= Clear |>)
    else if option =? SQL_CLOSE then CloseStmt h
    else (SQL_ERROR, h)).

Definition SQLNumParams (conn : bool) (parameter_count_ptr : ptr) (h : OdbcHandleStmt) (m : mem)
    : option (Z * OdbcHandleStmt * mem) :=
  let '(ret, h) := ConvertHSTMTPrepared conn h in
  if negb (ret =? SQL_SUCCESS) then Some (ret, h, m)
  else if parameter_count_ptr =? nullptr then Some (SQL_ERROR, h, m)
  else s ← stmt h; Some (SQL_SUCCESS, h, store 2 m parameter_count_ptr (s16 (named_param_count s))).

Definition SQLParamData (conn : bool) (value_ptr_ptr : ptr) (h : OdbcHandleStmt) (m : mem)
    : option (Z * OdbcHandleStmt * mem) :=
  let '(ret, h) := ConvertHSTMTPrepared conn h in
  if negb (ret =? SQL_SUCCESS) then Some (ret, h, m)
  else
    '(ret, m) ← GetNextParam value_ptr_ptr (param_desc h) m;
    Some (if negb (ret =? SQL_NO_DATA) then ret else SQL_SUCCESS, h, m).

(** [SQLPutData] reports success whatever [PutData] returned. *)
Definition SQLPutData (alloc : ParameterDescriptor -> mem -> Z -> ptr) (conn : bool) (data_ptr : ptr)
    (str_len_or_ind_ptr : Z) (h : OdbcHandleStmt) (m : mem) : option (Z * OdbcHandleStmt * mem) :=
  let '(ret, h) := ConvertHSTMTPrepared conn h in
  if negb (ret =? SQL_SUCCESS) then Some (ret, h, m)
  else
    '(ret, pd, m) ← PutData alloc data_ptr str_len_or_ind_ptr (param_desc h) m;
    Some (SQL_SUCCESS, h <| param_desc := pd |>, m).
End Stmt.

(** ** The connection *)
Record OdbcHandleDbc := MkOdbcHandleDbc {
  dbc_diagnostic : OdbcDiagnostic;
  dbc_dsn : bytes;                          (* dsn *)
  sql_attr_current_catalog : bytes;
  vec_stmt_ref : list (nat * OdbcHandleStmt); (* the open statements, with an identity *)
  conn : bool;                              (* whether there is a connection of the engine *)
  autocommit : bool;
  sql_attr_metadata_id : Z;
  sql_attr_access_mode : Z
}.

(** The constructor leaves [sql_attr_metadata_id] indeterminate, taken as 0. *)
Definition new_OdbcHandleDbc : OdbcHandleDbc := MkOdbcHandleDbc new_OdbcDiagnostic [] [] [] false true 0 SQL_MODE_READ_WRITE.

Definition SetDatabaseName (db_name : bytes) (d : OdbcHandleDbc) : OdbcHandleDbc :=
  if zlen db_name =? 0 then d else d <| sql_attr_current_catalog := db_name |>.
Definition GetDatabaseName (d : OdbcHandleDbc) : bytes := sql_attr_current_catalog d.

Fixpoint erase_first (i : nat) (l : list (nat * OdbcHandleStmt)) : list (nat * OdbcHandleStmt) :=
  match l with
  | [] => []
  | s :: l' => if bool_decide (s.1 = i) then l' else s :: erase_first i l'
  end.
Definition EraseStmtRef (i : nat) (d : OdbcHandleDbc) : OdbcHandleDbc := d <| vec_stmt_ref ::= erase_first i |>.

(** Only the result of the last statement is materialised. *)
Definition Dbc_MaterializeResult (n : nat) (d : OdbcHandleDbc) : option (option (Z * OdbcHandleDbc)) :=
  match list.last (vec_stmt_ref d) with
  | None => Some (Some (SQL_SUCCESS, d))
  | Some (i, h) =>
      match OdbcHandleStmt_MaterializeResult n h with
      | None => None
      | Some None => Some None
      | Some (Some (ret, h)) =>
          Some (Some (ret, d <| vec_stmt_ref ::= fun l => <[(length l - 1)%nat := (i, h)]> l |>))
      end
  end.

Definition ResetStmtDescriptors (old_desc : nat) (d : OdbcHandleDbc) : OdbcHandleDbc :=
  let reset (s : nat * OdbcHandleStmt) :=
    let h := s.2 in
    let h := if bool_decide (desc_id (cur_apd (param_desc h)) = old_desc) then h <| param_desc ::= ResetCurrentAPD |> else h in
    let h := if bool_decide (desc_id (Descriptor.GetARD (row_desc h)) = old_desc) then h <| row_desc ::= ResetCurrentARD |> else h in
    (s.1, h) in
  d <| vec_stmt_ref ::= fmap reset |>.

Definition dbc_error (msg : bytes) (state : SQLStateType) (d : OdbcHandleDbc) : Z * OdbcHandleDbc :=
  let '(ret, diag) := SetDiagnosticRecord SQL_ERROR (B"SQLEndTran") msg state (dbc_dsn d) (dbc_diagnostic d) in
  (ret, d <| dbc_diagnostic := diag |>).

(** [SQLEndTran] on an open connection handle. *)
Definition SQLEndTran `{EngineOps Engine SQLStatement} (n : nat) (completion_type : Z) (d : OdbcHandleDbc) (e : Engine)
    : option (option (Z * OdbcHandleDbc * Engine)) :=
  let d := d <| dbc_diagnostic ::= Clean |> in
  if completion_type =? SQL_COMMIT then
    match Dbc_MaterializeResult n d with
    | None => None
    | Some None => Some None
    | Some (Some (ret, d)) => Some (Some (
        if negb (ret =? SQL_SUCCESS) then (SQL_ERROR, d, e)
        else if engine_is_autocommit e then (SQL_SUCCESS, d, e)
        else (SQL_SUCCESS, d, engine_commit e)))
    end
  else if completion_type =? SQL_ROLLBACK then
    let '(err, e) := engine_rollback e in
    match err with
    | None => Some (Some (SQL_SUCCESS, d, e))
    | Some what => let '(ret, d) := dbc_error what ST_HY115 d in Some (Some (ret, d, e))
    end
  else let '(ret, d) := dbc_error (B"Invalid completion type.") ST_HY012 d in Some (Some (ret, d, e)).

(** [SQLDescribeParam]: [GetType] of the parameter is given. *)
Definition describe_type (t : LogicalTypeId) : option (Z * Z) :=
  match t with
  | LT_VARCHAR => Some (SQL_VARCHAR, SQL_NO_TOTAL)
  | LT_FLOAT => Some (SQL_FLOAT, 4)
  | LT_DOUBLE => Some (SQL_DOUBLE, 8)
  | LT_SMALLINT => Some (SQL_SMALLINT, 2)
  | LT_INTEGER => Some (SQL_INTEGER, 4)
  | _ => None
  end.

Definition SQLDescribeParam (param_type : Z -> LogicalTypeId) (conn : bool) (parameter_number : Z)
    (data_type_ptr parameter_size_ptr nullable_ptr : ptr) (h : OdbcHandleStmt) (m : mem)
    : option (Z * OdbcHandleStmt * mem) :=
  let '(ret, h) := ConvertHSTMTPrepared conn h in
  if negb (ret =? SQL_SUCCESS) then Some (ret, h, m)
  else
    s ← stmt h;
    if (parameter_number <=? 0) || (named_param_count s <? parameter_number) then Some (SQL_ERROR, h, m)
    else match describe_type (param_type parameter_number) with
         | None => Some (SQL_ERROR, h, m)
         | Some (odbc_type, odbc_size) =>
             let m := store_opt 2 m data_type_ptr odbc_type in
             let m := store_opt 8 m parameter_size_ptr odbc_size in
             Some (SQL_SUCCESS, h, store_opt 2 m nullable_ptr SQL_NULLABLE_UNKNOWN)
         end.

(** ** Executing every set of parameters *)
Section Batch.
Context {Engine SQLStatement : Type} `{EO : EngineOps Engine SQLStatement} `{GD : GetDataOp}.

(** The engine after executing [s] on each vector of values. *)
Definition execute_all (s : PreparedStatement) (e : Engine) (outs : list (list Value)) : Engine :=
  foldl (fun e vs => (engine_execute s vs e).2) e outs.

Lemma SingleExecute_progress fuel h e m s ret h' e' m' :
  stmt h = Some s -> records (ipd (param_desc h)) <> [] ->
  SingleExecuteStmt fuel h e m = Some (ret, h', e', m') ->
  exists out, stmt h' = Some s /\ ipd (param_desc h') = ipd (param_desc h)
    /\ cur_apd (param_desc h') = cur_apd (param_desc h)
    /\ (ret = SQL_NEED_DATA \/ ret = SQL_ERROR \/ ret = SQL_SUCCESS \/ ret = SQL_STILL_EXECUTING)
    /\ (ret = SQL_SUCCESS \/ ret = SQL_STILL_EXECUTING ->
          e' = (engine_execute s out e).2 /\ length out = length (records (ipd (param_desc h)))
          /\ paramset_idx (param_desc h') = u64 (paramset_idx (param_desc h) + 1)
          /\ (ret = SQL_SUCCESS <-> u64 (paramset_idx (param_desc h) + 1) = array_size (param_desc h))).
Proof.
  intros Hs Hne H. unfold SingleExecuteStmt, mbind, option_bind in H. cbn in H.
  destruct h as [dsn diag st rs bc op rd rf ml f pd rwd]. cbn in *. subst st.
  destruct (GetParamValues fuel dsn pd diag (store_opt 8 m rf 0)) as [[[[[r vs] pd1] diag1] m1]|] eqn:E; [|done].
  apply GetParamValues_progress in E as (Hc & Hi & Hret & Hstop & Hgo); [|done].
  destruct ((r =? SQL_NEED_DATA) || (r =? SQL_ERROR)) eqn:Er.
  { injection H as <- <- <- <-. exists []. cbn. split; [done|]. split; [done|]. split; [done|]. split; [tauto|].
    apply orb_prop in Er as [Er|Er]; zbool; subst; intros [?|?]; done. }
  zbool. destruct Hgo as (Hidx & Hlen & Hiff); [tauto|].
  destruct (engine_execute s vs e) as [q e1] eqn:Ee. destruct (QueryResult_HasError q).
  { injection H as <- <- <- <-. exists vs. cbn. split; [done|]. split; [done|]. split; [done|]. split; [tauto|].
    intros [?|?]; done. }
  injection H as <- <- <- <-. exists vs. cbn. split; [done|]. split; [done|]. split; [done|].
  split; [case_match; tauto|]. intros _. rewrite Ee. split; [done|]. split; [done|]. split; [done|].
  destruct Hret as [?|[?|[->| ->]]]; [done|done| |]; cbn; tauto.
Qed.


(** Executing again without closing the cursor in between never completes:
    the position is behind the last parameter set and is not reset, so that each
    of the following executions, for as long as the position does not wrap, ends
    in an error, asks for data, or calls for yet another execution with values
    read past the application's arrays. *)
Theorem reexecution_never_succeeds fuel n h e m s ret h' e' m' :
  let pd := param_desc h in
  stmt h = Some s -> records (ipd pd) <> [] -> 0 <= array_size pd <= paramset_idx pd ->
  paramset_idx pd + Z.of_nat n < 2 ^ 64 ->
  execute_loop fuel n h e m = Some (Some (ret, h', e', m')) -> ret = SQL_ERROR \/ ret = SQL_NEED_DATA.
Proof.
  revert h e m. induction n as [|n IH]; intros h e m pd Hs Hne Hidx Hn H; [done|]. cbn [execute_loop] in H.
  destruct (SingleExecuteStmt fuel h e m) as [[[[ret1 h1] e1] m1]|] eqn:E; [|done].
  apply (SingleExecute_progress _ _ _ _ s) in E as (out & Hs1 & Hi1 & Hc1 & Hret & Hgo); [|done|done]. fold pd in Hi1, Hc1, Hgo.
  assert (array_size (param_desc h1) = array_size pd) as Ha1 by (unfold array_size; by rewrite Hc1).
  assert (u64 (paramset_idx pd + 1) = paramset_idx pd + 1) as Hu by (apply wrap_u_small; unfold in_u; lia).
  rewrite Hu in Hgo. destruct (Z.eqb_spec ret1 SQL_STILL_EXECUTING) as [->|Hst].
  - destruct Hgo as (_ & _ & Hidx1 & _); [by right|].
    eapply (IH h1 e1 m1); [done|by rewrite Hi1|lia|lia|exact H].
  - injection H as <- <- <- <-. destruct Hret as [?|[?|[->|?]]]; [by right|by left| |done].
    destruct Hgo as (_ & _ & _ & Hiff); [by left|]. pose proof (proj1 Hiff eq_refl). lia.
Qed.
End Batch.

(** ** Binding, then reading *)
Lemma SetSqlDataType_plain type r : IsIntervalType type = false ->
  SetSqlDataType type r = (SQL_SUCCESS, r <| sql_desc_concise_type := type |> <| sql_desc_type := type |>).
Proof. intros Hi. unfold SetSqlDataType. by rewrite Hi. Qed.

Lemma record_alter_lookup d g n r : records d !! n = Some r ->
  records (d <| records ::= alter g n |>) !! n = Some (g r).
Proof. intros Hr. destruct d; cbn in *. by rewrite list_lookup_alter_eq, Hr. Qed.

(** The records [SQLBindParameter] leaves for the parameter, on statements whose
    application descriptor is the implicit one. *)
Lemma BindParameterStmt_records number c_type sql_type size digits p len ind h :
  1 <= number -> IsIntervalType c_type = false -> IsIntervalType sql_type = false ->
  cur_explicit_apd (param_desc h) = None ->
  exists h' a i, BindParameterStmt number SQL_PARAM_INPUT c_type sql_type size digits p len ind h = (SQL_SUCCESS, h')
    /\ records (cur_apd (param_desc h')) !! Z.to_nat (number - 1) = Some a
    /\ records (ipd (param_desc h')) !! Z.to_nat (number - 1) = Some i
    /\ sql_desc_type a = c_type /\ sql_desc_data_ptr a = p /\ sql_desc_octet_length a = len
    /\ sql_desc_indicator_ptr a = ind /\ sql_desc_octet_length_ptr a = ind
    /\ sql_desc_type i = sql_type /\ sql_desc_length i = size /\ sql_desc_scale i = digits
    /\ sql_desc_precision i = s16 size
    /\ bind_offset_ptr (param_desc h') = bind_offset_ptr (param_desc h)
    /\ paramset_idx (param_desc h') = paramset_idx (param_desc h)
    /\ array_size (param_desc h') = array_size (param_desc h).
Proof.
  intros Hn Hc Hs Hcur. unfold BindParameterStmt. cbn [Z.eqb Pos.eqb negb].
  rewrite (proj2 (Z.ltb_ge number 1)) by lia.
  rewrite !(SetSqlDataType_plain _ _ Hc), !(SetSqlDataType_plain _ _ Hs). cbn [fst Z.eqb].
  destruct h as [dsn diag st rs bc op rd rf ml f [ap ip ex pl ps cp cpi vs] rwd]. cbn in Hcur. subst ex.
  pose proof (GetDescRecord_spec (number - 1) ip ltac:(lia)) as (_ & _ & Hli & _ & _).
  pose proof (GetDescRecord_spec (number - 1) ap ltac:(lia)) as (_ & _ & Hla & _ & Hha).
  destruct (lookup_lt_is_Some_2 (records (GetDescRecord (number - 1) ip)) (Z.to_nat (number - 1))) as [ri Hri]; [lia|].
  destruct (lookup_lt_is_Some_2 (records (GetDescRecord (number - 1) ap)) (Z.to_nat (number - 1))) as [ra Hra]; [lia|].
  unfold cur_apd, bind_offset_ptr, array_size. cbn -[GetDescRecord alter SetSqlDataType wrap_s desc_header].
  destruct (GetDescRecord (number - 1) ip) as [i1 i2 i3 irs i5 i6], (GetDescRecord (number - 1) ap) as [a1 a2 a3 ars a5 a6].
  destruct ap as [b1 b2 b3 brs b5 b6].
  cbn -[alter SetSqlDataType wrap_s] in *. subst a3.
  eexists _, _, _. split; [reflexivity|]. cbn -[alter SetSqlDataType wrap_s].
  rewrite !list_lookup_alter_eq, Hri, Hra. cbn -[alter SetSqlDataType wrap_s].
  split; [reflexivity|]. split; [reflexivity|].
  destruct ra, ri, b3. cbn. unfold SetSqlDataType. rewrite Hc, Hs. cbn. by repeat split.
Qed.

(** What an application binds is what the engine gets: after
    [SQLBindParameter] of an integer parameter, reading the parameter for the
    current set yields, at the type of the SQL type and signedness of the C type,
    the integer in the application's buffer, for every integer type pair. *)
Theorem bound_integer_reaches_engine fuel number sql_type c_type n (sg : bool) V size digits p len ind h m0 z :
  let m := write_array n m0 p [z] in
  1 <= number -> (sql_type, c_type, n, sg, V) ∈ int_params -> 0 <= size < 2 ^ 62 ->
  cur_explicit_apd (param_desc h) = None -> bind_offset_ptr (param_desc h) = nullptr ->
  paramset_idx (param_desc h) = 0 -> p <> nullptr -> ind <> nullptr -> 0 <= load_s 8 m ind ->
  (if sg then in_s (8 * Z.of_nat n) z else in_u (8 * Z.of_nat n) z) ->
  exists h', BindParameterStmt number SQL_PARAM_INPUT c_type sql_type size digits p len ind h = (SQL_SUCCESS, h')
    /\ SetValue fuel (number - 1) (param_desc h') m
       = Some (SQL_PARAM_SUCCESS, SetValue_at (V z) (number - 1) (param_desc h'), m).
Proof.
  intros m Hn Hin Hsize Hcur Hoff Hidx Hp Hq Hind Hz.
  assert (IsIntervalType c_type = false /\ IsIntervalType sql_type = false) as [Hc Hs].
  { clear - Hin. unfold int_params in Hin. repeat (apply elem_of_cons in Hin as [Hin|Hin];
    [by injection Hin as -> -> -> -> ->|]). by apply not_elem_of_nil in Hin. }
  destruct (BindParameterStmt_records number c_type sql_type size digits p len ind h Hn Hc Hs Hcur)
    as (h' & a & i & E & Ha & Hi & Hta & Hpa & _ & Hqa & _ & Hti & Hli & _ & _ & Hb & Hx & _).
  exists h'. split; [exact E|]. subst p ind.
  apply (SetValue_int fuel (param_desc h') (number - 1) a i sql_type c_type n sg V [z] m0 0%nat z);
    try done; try congruence. 
  - by rewrite Hx, Hidx.
  - change (Z.of_nat 0) with 0. by rewrite Z.mul_0_r, Z.add_0_r.
Qed.

(** An engine without state whose every execution gives an empty result. *)
#[export] Instance null_engine : EngineOps nat unit | 100 := {|
  engine_prepare := fun _ e => (example_prepared, e);
  engine_extract := fun _ e => (inl [tt], e);
  engine_prepare_statement := fun _ e => (example_prepared, e);
  engine_execute := fun _ _ e => (MkQueryResult None [] [] [] QUERY_RESULT, S e);
  engine_is_autocommit := fun _ => true;
  engine_set_autocommit := fun _ e => e;
  engine_commit := fun e => e;
  engine_rollback := fun e => (None, e);
  physical_type_name := fun _ => B"INT32";
  varchar_type_name := B"VARCHAR";
  system_catalog_name := B"system"
|}.

Lemma bound_integer_reaches_engine_witness :
  let h := example_stmt SQL_CURSOR_FORWARD_ONLY 1 [] None 0 (-1) false [] in
  let m := write_array 4 ∅ 1000 [-5] in
  exists h', BindParameterStmt 1 SQL_PARAM_INPUT SQL_C_SLONG SQL_INTEGER 10 0 1000 4 2000 h = (SQL_SUCCESS, h')
    /\ SetValue 9 0 (param_desc h') m = Some (SQL_PARAM_SUCCESS, SetValue_at (VInteger (-5)) 0 (param_desc h'), m).
Proof.
  intros h m. apply (bound_integer_reaches_engine 9 1 SQL_INTEGER SQL_C_SLONG 4 true VInteger 10 0 1000 4 2000 h ∅ (-5));
    try done. repeat (apply elem_of_cons; (by left) || right).
Defined.

(** A statement with one integer parameter bound as an array of three sets. *)
Definition example_batch (set : Z) : OdbcHandleStmt :=
  (example_stmt SQL_CURSOR_FORWARD_ONLY 1 [] None 0 (-1) false [])
    <| param_desc := example_params SQL_C_SLONG SQL_INTEGER 1000 2000 3 set |>.
Definition example_buffers : mem := write_array 8 (write_array 4 ∅ 1000 [7; -8; -9]) 2000 [0; 0; 0].


(** After the last set, the fourth indicator the driver reads is not the
    application's; here it asks for data. *)
Lemma reexecution_never_succeeds_witness :
  let m := write_array 8 ∅ 2000 [0; 0; 0; SQL_DATA_AT_EXEC] in
  exists h' e' m', execute_loop 9 5 (example_batch 3) 0%nat m = Some (Some (SQL_NEED_DATA, h', e', m'))
    /\ (SQL_NEED_DATA = SQL_ERROR \/ SQL_NEED_DATA = SQL_NEED_DATA).
Proof.
  intros m. eexists _, _, _. split; [vm_compute; reflexivity|].
  eapply (reexecution_never_succeeds 9 5 (example_batch 3) 0%nat m example_prepared);
    [done|done|by vm_compute|by vm_compute|vm_compute; reflexivity].
Defined.

(** ** Columns, and misuse of the sequence *)
Section Sequence.
Context {Engine SQLStatement : Type} `{EO : EngineOps Engine SQLStatement} `{GD : GetDataOp}.

Lemma SetSqlDescType_label type r : sql_desc_label (SetSqlDescType type r).2 = sql_desc_label r.
Proof.
  unfold SetSqlDescType, SetSqlDataType. destruct (FindDataType type); [done|].
  destruct (IsIntervalType _); [destruct (GetIntervalCode _ =? _)|]; by destruct r.
Qed.

Lemma ird_record_label name t : sql_desc_label (ird_record name t) = name.
Proof.
  assert (forall sql_type r, sql_desc_label (ird_precision sql_type t r) = sql_desc_label r) as Hp.
  { intros. unfold ird_precision. destruct (_ || _); [destruct (id t)|destruct (_ || _)]; by destruct r. }
  assert (forall sql_type r, sql_desc_label (ird_typed sql_type t r) = sql_desc_label r) as Ht.
  { intros. unfold ird_typed. rewrite <- (SetSqlDescType_label (if sql_type =? SQL_INTERVAL then SQL_INTERVAL_DAY_TO_SECOND else sql_type) r).
    by destruct (SetSqlDescType _ r). }
  assert (forall lt r, sql_desc_label (SetDescUnsignedField lt r) = sql_desc_label r) as Hu.
  { intros. unfold SetDescUnsignedField. destruct (_ || _); by destruct r. }
  unfold ird_record. cbv zeta. set (st := FindRelatedSQLType (id t)).
  assert (sql_desc_label (ird_precision st t (ird_typed st t (ird_named name))) = name) as E by (by rewrite Hp, Ht).
  generalize dependent (ird_precision st t (ird_typed st t (ird_named name))). intros r0 E.
  set (r1 := SetDescUnsignedField _ _). assert (sql_desc_label r1 = name) as E1 by (subst r1; rewrite Hu; by destruct r0).
  clearbody r1. by destruct r1.
Qed.

(** Preparing a statement whose parameters could all be typed makes the bound
    columns and the implementation row descriptor follow its result: as many
    records as columns, labelled with the column names in order; the descriptor's
    record count stays 0. *)
Theorem FinalizeStmt_columns h s :
  stmt h = Some s -> ps_error s = None -> bound_all_parameters s = true -> length (ps_names s) = length (ps_types s) ->
  exists h', FinalizeStmt h = Some (SQL_SUCCESS, h')
    /\ length (bound_cols h') = length (ps_types s)
    /\ (sql_desc_label <$> records (ird (row_desc h'))) = ps_names s
    /\ sql_desc_count (desc_header (ird (row_desc h'))) = 0
    /\ length (records (ipd (param_desc h'))) = Z.to_nat (s16 (named_param_count s)).
Proof.
  intros Hs He Hb Hn. unfold FinalizeStmt. rewrite Hs. cbn [mbind option_bind]. rewrite He, Hb. cbn [negb].
  assert (forall names types, length names = length types ->
    sql_desc_label <$> zip_with ird_record names types = names) as Hlab.
  { intros names. induction names as [|x names IH]; intros [|t types] Hl; try done. cbn [zip_with fmap list_fmap].
    f_equal; [apply ird_record_label|apply IH; by injection Hl]. }
  destruct h as [dsn diag st rs bc op rd rf ml f pd rwd]. cbn in Hs. subst st.
  unfold FillIRD, resize_columns. cbn -[ird_record ResetParams vec_resize].
  rewrite (proj2 (Z.ltb_ge _ _)) by (unfold ColumnCount, zlen; lia).
  eexists. split; [reflexivity|]. destruct rwd as [ad [] ex]. cbn -[ird_record ResetParams vec_resize].
  split; [|split; [|split; [done|]]].
  - rewrite length_vec_resize. unfold ColumnCount, zlen. lia.
  - by apply Hlab.
  - unfold ResetParams. destruct pd as [[] [] [[]|] pl p cp cpi vs]; cbn; by rewrite length_vec_resize.
Qed.

Lemma ConvertHSTMTPrepared_ok h s : stmt h = Some s -> ps_error s = None ->
  ConvertHSTMTPrepared true h = (SQL_SUCCESS, h <| stmt_diagnostic ::= Clean |>).
Proof.
  intros Hs He. destruct h as [dsn diag st rs bc op rd rf ml f pd rwd]. cbn in Hs. subst st.
  unfold ConvertHSTMTPrepared, ConvertHSTMT. cbn -[Clean]. by rewrite He.
Qed.

Lemma DummyFetch_on h m : retrieve_data h <> SQL_RD_OFF -> DummyFetch h m = (SQL_NEED_DATA, m).
Proof. intros Hr. unfold DummyFetch. by rewrite (proj2 (Z.eqb_neq _ _) Hr). Qed.

(** Preparing a new query keeps the handle marked open: a fetch before the
    new query is executed goes on to the result that was just released, through
    a null pointer. *)
Theorem fetch_after_prepare_undefined fuel h s e m :
  is_open h = true -> ps_error s = None -> retrieve_data h <> SQL_RD_OFF -> records (ipd (param_desc h)) = [] ->
  SQLFetch fuel true ((PrepareQuery h) <| stmt := Some s |>) e m = Some None.
Proof.
  intros Ho He Hr Hp. set (h1 := (PrepareQuery h) <| stmt := Some s |>).
  assert (stmt h1 = Some s /\ res h1 = None /\ retrieve_data h1 = retrieve_data h /\ param_desc h1 = param_desc h
    /\ is_open h1 = true /\ odbc_fetcher h1 = ClearChunks (odbc_fetcher h)) as (Hs & Hres & Hrd & Hpd & Hop & Hf)
    by (subst h1; by destruct h).
  clearbody h1.
  assert (forall h2, h2 = h1 <| stmt_diagnostic ::= Clean |> -> stmt h2 = Some s /\ res h2 = None
    /\ retrieve_data h2 = retrieve_data h /\ param_desc h2 = param_desc h
    /\ is_open h2 = true /\ odbc_fetcher h2 = ClearChunks (odbc_fetcher h)) as Hclean by (intros h2 ->; by destruct h1).
  unfold SQLFetch. rewrite (ConvertHSTMTPrepared_ok h1 s Hs He). remember (h1 <| stmt_diagnostic ::= Clean |>) as h2 eqn:E2.
  destruct (Hclean h2 eq_refl) as (Hs2 & Hres2 & Hrd2 & Hpd2 & Hop2 & Hf2). change (negb (SQL_SUCCESS =? SQL_SUCCESS)) with false. cbv iota.
  rewrite DummyFetch_on by congruence. change (negb (SQL_NEED_DATA =? SQL_NEED_DATA)) with false. cbv iota.
  unfold ExecuteBeforeFetch. rewrite (ConvertHSTMTPrepared_ok h2 s Hs2 He).
  assert (res (h2 <| stmt_diagnostic ::= Clean |>) = None /\ param_desc (h2 <| stmt_diagnostic ::= Clean |>) = param_desc h
    /\ is_open (h2 <| stmt_diagnostic ::= Clean |>) = true
    /\ odbc_fetcher (h2 <| stmt_diagnostic ::= Clean |>) = ClearChunks (odbc_fetcher h)) as (Hres3 & Hpd3 & Hop3 & Hf3)
    by (by destruct h2).
  generalize dependent (h2 <| stmt_diagnostic ::= Clean |>). intros h3 Hres3 Hpd3 Hop3 Hf3.
  change (negb (SQL_SUCCESS =? SQL_SUCCESS)) with false. cbv iota. rewrite Hres3, Hpd3.
  assert (HasParamSetToProcess (param_desc h) = false) as ->.
  { unfold HasParamSetToProcess. rewrite Hp. apply andb_false_r. }
  change (negb (SQL_SUCCESS =? SQL_SUCCESS)) with false. cbv iota.
  unfold FetchStmtResult. rewrite Hop3. cbn [negb]. unfold Fetch, FetchNextChunk.
  destruct h3 as [dsn diag st rs bc op rd rf ml f pd rwd], (odbc_fetcher h) as [ct cs rc lf ch ci cc cr pr re nc].
  cbn in Hres3, Hf3. subst. cbn. by rewrite andb_false_r.
Qed.

(** Committing a second time while the result of the last statement, read to
    its end, was not closed never returns: no bound on the number of fetches is
    enough. *)
Theorem second_commit_hangs n d e i h s r :
  list.last (vec_stmt_ref d) = Some (i, h) -> stmt h = Some s -> ps_error s = None ->
  res h = Some r -> res_error r = None ->
  resultset_end (odbc_fetcher h) = true -> chunks (odbc_fetcher h) <> [] ->
  SQLEndTran n SQL_COMMIT d e = None.
Proof.
  intros Hl Hs He Hr Her Hend Hne. unfold SQLEndTran. cbn [Z.eqb].
  unfold Dbc_MaterializeResult. replace (vec_stmt_ref (d <| dbc_diagnostic ::= Clean |>)) with (vec_stmt_ref d) by (by destruct d).
  rewrite Hl. unfold OdbcHandleStmt_MaterializeResult, PreparedStatement_HasError, QueryResult_HasError.
  rewrite Hs, He, Hr, Her. rewrite !bool_decide_false by apply is_Some_None.
  by rewrite Materialize_diverges.
Qed.
End Sequence.

Lemma FinalizeStmt_columns_witness :
  exists h', FinalizeStmt (example_batch 0) = Some (SQL_SUCCESS, h')
    /\ length (bound_cols h') = 1%nat /\ (sql_desc_label <$> records (ird (row_desc h'))) = [B"i"]
    /\ sql_desc_count (desc_header (ird (row_desc h'))) = 0
    /\ length (records (ipd (param_desc h'))) = 0%nat.
Proof. by apply (FinalizeStmt_columns (example_batch 0) example_prepared). Defined.

Lemma fetch_after_prepare_undefined_witness :
  SQLFetch 9 true ((PrepareQuery (example_cursor 1 0)) <| stmt := Some example_prepared |>) 0%nat ∅ = Some None.
Proof. by apply (fetch_after_prepare_undefined 9 (example_cursor 1 0) example_prepared 0%nat ∅). Defined.

Lemma second_commit_hangs_witness :
  let h := example_stmt SQL_CURSOR_FORWARD_ONLY 1 [(0%nat, example_chunk)] (Some 0%nat) 0 1 true [] in
  SQLEndTran 1000 SQL_COMMIT (new_OdbcHandleDbc <| vec_stmt_ref := [(0%nat, h)] |>) 0%nat = None.
Proof.
  intros h. apply (second_commit_hangs 1000 (new_OdbcHandleDbc <| vec_stmt_ref := [(0%nat, h)] |>) 0%nat 0%nat h
    example_prepared (MkQueryResult None [] [] [] QUERY_RESULT)); done.
Defined.

(** Fetching from a closed statement with parameters runs it again. *)
Lemma fetch_after_close_reexecutes :
  match SQLFetch 9 true (CloseStmt (example_batch 3)).2 0%nat example_buffers with
  | Some (Some (_, _, e, _)) => e = 1%nat
  | _ => False
  end.
Proof. by vm_compute. Qed.
