(* ===== verification/Sha256.v ===== *)
(** * SHA-256 ([third_party/picosha2.h])

    The driver checks the digest of the session start-up script. The header
    library hashes a message in blocks of 64 bytes: [process] consumes whole
    blocks and keeps the rest, [finish] pads it with a 1 bit, zeros and the length
    in bits. A [word_t] has 64 bits and holds 32-bit values: the sums of a round
    have at most seven terms and do not reach 64 bits, and the shifts to the left
    are masked. *)

From S2P Require Import Prelude Memory.

(** The table of the source, four words to a row. *)
Definition add_constant : list Z :=
  [0x428a2f98; 0x71374491; 0xb5c0fbcf; 0xe9b5dba5]
  ++ [0x3956c25b; 0x59f111f1; 0x923f82a4; 0xab1c5ed5]
  ++ [0xd807aa98; 0x12835b01; 0x243185be; 0x550c7dc3]
  ++ [0x72be5d74; 0x80deb1fe; 0x9bdc06a7; 0xc19bf174]
  ++ [0xe49b69c1; 0xefbe4786; 0x0fc19dc6; 0x240ca1cc]
  ++ [0x2de92c6f; 0x4a7484aa; 0x5cb0a9dc; 0x76f988da]
  ++ [0x983e5152; 0xa831c66d; 0xb00327c8; 0xbf597fc7]
  ++ [0xc6e00bf3; 0xd5a79147; 0x06ca6351; 0x14292967]
  ++ [0x27b70a85; 0x2e1b2138; 0x4d2c6dfc; 0x53380d13]
  ++ [0x650a7354; 0x766a0abb; 0x81c2c92e; 0x92722c85]
  ++ [0xa2bfe8a1; 0xa81a664b; 0xc24b8b70; 0xc76c51a3]
  ++ [0xd192e819; 0xd6990624; 0xf40e3585; 0x106aa070]
  ++ [0x19a4c116; 0x1e376c08; 0x2748774c; 0x34b0bcb5]
  ++ [0x391c0cb3; 0x4ed8aa4a; 0x5b9cca4f; 0x682e6ff3]
  ++ [0x748f82ee; 0x78a5636f; 0x84c87814; 0x8cc70208]
  ++ [0x90befffa; 0xa4506ceb; 0xbef9a3f7; 0xc67178f2].

Definition initial_message_digest : list Z :=
  [0x6a09e667; 0xbb67ae85; 0x3c6ef372; 0xa54ff53a; 0x510e527f; 0x9b05688c; 0x1f83d9ab; 0x5be0cd19].

Definition k_digest_size : nat := 32.

Definition mask_8bit (x : Z) : Z := Z.land x 0xff.
Definition mask_32bit (x : Z) : Z := Z.land x 0xffffffff.
Definition ch (x y z : Z) : Z := Z.lxor (Z.land x y) (Z.land (Z.lnot x) z).
Definition maj (x y z : Z) : Z := Z.lxor (Z.lxor (Z.land x y) (Z.land x z)) (Z.land y z).
Definition rotr (x n : Z) : Z := mask_32bit (Z.lor (Z.shiftr x n) (Z.shiftl x (32 - n))).
Definition bsig0 (x : Z) : Z := Z.lxor (Z.lxor (rotr x 2) (rotr x 13)) (rotr x 22).
Definition bsig1 (x : Z) : Z := Z.lxor (Z.lxor (rotr x 6) (rotr x 11)) (rotr x 25).
Definition shr (x n : Z) : Z := Z.shiftr x n.
Definition ssig0 (x : Z) : Z := Z.lxor (Z.lxor (rotr x 7) (rotr x 18)) (shr x 3).
Definition ssig1 (x : Z) : Z := Z.lxor (Z.lxor (rotr x 17) (rotr x 19)) (shr x 10).

(** An element of an array of bytes or words. *)
Definition elem (l : list Z) (i : nat) : Z := nth i l 0.

(** The first sixteen words of the schedule, big-endian, and the others. *)
Definition block_word (block : bytes) (i : nat) : Z :=
  let byte j := mask_8bit (elem block (i * 4 + j)) in
  Z.lor (Z.lor (Z.lor (Z.shiftl (byte 0%nat) 24) (Z.shiftl (byte 1%nat) 16)) (Z.shiftl (byte 2%nat) 8)) (byte 3%nat).

Fixpoint extend_schedule (n : nat) (w : list Z) : list Z :=
  match n with
  | O => w
  | S n' =>
      let i := length w in
      extend_schedule n' (w ++ [mask_32bit (ssig1 (elem w (i - 2)) + elem w (i - 7) + ssig0 (elem w (i - 15)) + elem w (i - 16))])
  end.

Definition schedule (block : bytes) : list Z := extend_schedule 48 (block_word block <$> seq 0 16).

Definition round (s : Z * Z * Z * Z * Z * Z * Z * Z) (kw : Z * Z) : Z * Z * Z * Z * Z * Z * Z * Z :=
  let '(a, b, c, d, e, f, g, h) := s in
  let temp1 := h + bsig1 e + ch e f g + kw.1 + kw.2 in
  let temp2 := bsig0 a + maj a b c in
  (mask_32bit (temp1 + temp2), a, b, c, mask_32bit (d + temp1), e, f, g).

Definition hash256_block (md : list Z) (block : bytes) : list Z :=
  let md_word := elem md in
  let '(a, b, c, d, e, f, g, h) :=
    fold_left round (zip add_constant (schedule block))
      (md_word 0%nat, md_word 1%nat, md_word 2%nat, md_word 3%nat, md_word 4%nat, md_word 5%nat, md_word 6%nat, md_word 7%nat) in
  mask_32bit <$> zip_with Z.add md [a; b; c; d; e; f; g; h].

(** ** Hashing a message *)
Record hash256_one_by_one := MkHash { buffer_ : bytes; data_length_digits_ : list Z; h_ : list Z }.

Definition init : hash256_one_by_one := MkHash [] [0; 0; 0; 0] initial_message_digest.

(** The digits of the length, base 65536, lowest first; a carry out of the last
    is lost. *)
Fixpoint carry_digits (carry : Z) (digits : list Z) : list Z :=
  match digits with
  | [] => []
  | d :: digits' =>
      let d := u64 (d + carry) in
      if 65536 <=? d then Z.land d 65535 :: carry_digits (Z.shiftr d 16) digits' else d :: digits'
  end.

Definition add_to_data_length (n : Z) (digits : list Z) : list Z :=
  match digits with [] => [] | d :: digits' => carry_digits 0 (u64 (d + n) :: digits') end.

(** The whole blocks of the buffer; each round takes 64 bytes. *)
Fixpoint process_blocks (fuel : nat) (h : list Z) (buffer : bytes) : list Z * bytes :=
  match fuel with
  | O => (h, buffer)
  | S fuel' =>
      if (64 <=? length buffer)%nat then process_blocks fuel' (hash256_block h (take 64 buffer)) (drop 64 buffer)
      else (h, buffer)
  end.

Definition process (message : bytes) (s : hash256_one_by_one) : hash256_one_by_one :=
  let buffer := buffer_ s ++ message in
  let '(h, rest) := process_blocks (length buffer) (h_ s) buffer in
  MkHash rest (add_to_data_length (zlen message) (data_length_digits_ s)) h.

(** The length in bits: the digits shifted by three with their carries. *)
Fixpoint bit_length_digits (carry : Z) (digits : list Z) : list Z :=
  match digits with
  | [] => []
  | before_val :: digits' =>
      Z.land (Z.lor (u64 (Z.shiftl before_val 3)) carry) 65535
      :: bit_length_digits (Z.land (Z.shiftr before_val (16 - 3)) 65535) digits'
  end.

Definition write_data_bit_length (digits : list Z) : bytes :=
  d ← reverse (bit_length_digits 0 digits); [u8 (Z.shiftr d 8); u8 d].

Definition finish (s : hash256_one_by_one) : hash256_one_by_one :=
  let remains := length (buffer_ s) in
  let length_bytes := write_data_bit_length (data_length_digits_ s) in
  let temp := buffer_ s ++ [0x80] in
  if (55 <? remains)%nat then
    let h := hash256_block (h_ s) (temp ++ replicate (64 - remains - 1) 0) in
    s <| h_ := hash256_block h (replicate 56 0 ++ length_bytes) |>
  else s <| h_ := hash256_block (h_ s) (temp ++ replicate (56 - remains - 1) 0 ++ length_bytes) |>.

Definition get_hash_bytes (s : hash256_one_by_one) : bytes :=
  take k_digest_size (w ← h_ s; (fun i => mask_8bit (u8 (Z.shiftr w (24 - 8 * i)))) <$> [0; 1; 2; 3]).

Definition hash256 (message : bytes) : bytes := get_hash_bytes (finish (process message init)).

(** The message as an input stream, [buffer_size] bytes at a time; with a buffer of no
    bytes the loop does not end. *)
Fixpoint process_input (fuel buffer_size : nat) (input : bytes) (hasher : hash256_one_by_one) : option hash256_one_by_one :=
  match fuel with
  | O => None
  | S fuel' =>
      match input with
      | [] => Some hasher
      | _ => process_input fuel' buffer_size (drop buffer_size input) (process (take buffer_size input) hasher)
      end
  end.

Definition hash256_input (fuel buffer_size : nat) (input : bytes) : option bytes :=
  hasher ← process_input fuel buffer_size input init;
  Some (get_hash_bytes (finish hasher)).

Definition hex_digit (d : Z) : Z := if d <? 10 then 48 + d else 87 + d.
Definition bytes_to_hex_string (l : bytes) : bytes := b ← l; [hex_digit (b / 16); hex_digit (b mod 16)].

Example sha256_abc :
  bytes_to_hex_string (hash256 (B"abc")) = B"ba7816bf8f01cfea414140de5dae2223b00361a396177a9cb410ff61f20015ad".
Proof. vm_compute. reflexivity. Qed.

Example sha256_two_blocks :
  bytes_to_hex_string (hash256 (B"abcdbcdecdefdefgefghfghighijhijkijkljklmklmnlmnomnopnopq"))
  = B"248d6a61d20638b8e5c026930c3e6039a33ce45964ff2167f6ecedd419db06c1".
Proof. vm_compute. reflexivity. Qed.

(** ** The standard

    FIPS 180-4: the message, a 1 bit, the zeros that leave 64 bits in the last
    block, and the length in bits; the blocks are hashed one after the other. *)
Definition be64 (z : Z) : bytes := reverse (le_split 8 z).

Definition padding (n : Z) : bytes := 0x80 :: replicate (Z.to_nat ((55 - n) mod 64)) 0 ++ be64 (8 * n).

Definition block_at (p : bytes) (i : nat) : bytes := take 64 (drop (64 * i) p).

Definition sha256_standard (message : bytes) : bytes :=
  let padded := message ++ padding (zlen message) in
  let h := fold_left hash256_block (block_at padded <$> seq 0 (length padded / 64)) initial_message_digest in
  take k_digest_size (w ← h; reverse (le_split 4 w)).

(** ** The length of the message *)
Fixpoint base_digits (n : nat) (c : Z) : list Z :=
  match n with O => [] | S n' => c mod 65536 :: base_digits n' (c / 65536) end.

Lemma land_ones_mod x n m : m = Z.ones n -> 0 <= n -> Z.land x m = x mod 2 ^ n.
Proof. intros -> Hn. by apply Z.land_ones. Qed.
Lemma land_65535 x : Z.land x 65535 = x mod 65536.
Proof. by apply (land_ones_mod x 16). Qed.
Lemma land_255 x : Z.land x 255 = x mod 256.
Proof. by apply (land_ones_mod x 8). Qed.
Lemma shiftr_quot x n m : 0 <= n -> m = 2 ^ n -> Z.shiftr x n = x / m.
Proof. intros Hn ->. by apply Z.shiftr_div_pow2. Qed.

Lemma base_digits_0 n : base_digits n 0 = replicate n 0.
Proof. induction n as [|n IH]; [done|]. cbn [base_digits replicate]. rewrite Z.mod_0_l, Z.div_0_l by lia. by rewrite IH. Qed.

Lemma carry_zeros n c : 0 <= c < 2 ^ 64 -> carry_digits c (replicate n 0) = base_digits n c.
Proof.
  revert c. induction n as [|n IH]; intros c Hc; [done|]. cbn [replicate carry_digits base_digits].
  rewrite Z.add_0_l, (wrap_u_small 64 c) by (unfold in_u; lia).
  destruct (Z.leb_spec 65536 c).
  - rewrite land_65535, (shiftr_quot c 16 65536), IH by (done || dlia). done.
  - rewrite Z.mod_small, Z.div_small by lia. by rewrite base_digits_0.
Qed.

Lemma add_length n : 0 <= n < 2 ^ 64 -> add_to_data_length n [0; 0; 0; 0] = base_digits 4 n.
Proof.
  intros Hn. rewrite <- carry_zeros by done. unfold add_to_data_length. cbn [replicate carry_digits].
  rewrite !Z.add_0_l, Z.add_0_r, !(wrap_u_small 64 n) by (unfold in_u; lia).
  done.
Qed.

Lemma lor_shift3 d c : 0 <= c < 8 -> Z.lor (8 * d) c = 8 * d + c.
Proof.
  intros Hc. rewrite Z.add_comm, Z.lor_comm. change 8 with (2 ^ 3). rewrite Z.mul_comm, <- Z.shiftl_mul_pow2 by lia.
  symmetry. apply Z.add_nocarry_lor. apply Z.bits_inj'. intros n Hn. rewrite Z.land_spec, Z.bits_0.
  destruct (Z.lt_ge_cases n 3).
  - rewrite Z.shiftl_spec_low by lia. apply andb_false_r.
  - destruct (decide (c = 0)) as [->|]; [by rewrite Z.bits_0|].
    rewrite (Z.bits_above_log2 c n); [done|lia|]. apply Z.lt_le_trans with 3; [|done]. apply Z.log2_lt_pow2; lia.
Qed.

Lemma bit_length_base n c k : 0 <= k < 8 -> 0 <= c -> bit_length_digits k (base_digits n c) = base_digits n (8 * c + k).
Proof.
  revert c k. induction n as [|n IH]; intros c k Hk Hc; [done|]. cbn [base_digits bit_length_digits].
  pose proof (Z.mod_pos_bound c 65536 ltac:(lia)). rewrite Z.shiftl_mul_pow2 by lia. change (2 ^ 3) with 8.
  rewrite (Z.mul_comm _ 8), wrap_u_small by (unfold in_u; lia). rewrite lor_shift3, land_65535 by done.
  change (16 - 3) with 13. rewrite (shiftr_quot _ 13 8192), land_65535 by done. rewrite IH by dlia.
  f_equal; [dlia|]. f_equal. dlia.
Qed.

Lemma le_split_base n x : le_split (2 * n) x = (d ← base_digits n x; [u8 d; u8 (Z.shiftr d 8)]).
Proof.
  revert x. induction n as [|n IH]; intros x; [done|]. replace (2 * S n)%nat with (S (S (2 * n)))%nat by lia.
  cbn [le_split base_digits mbind list_bind]. unfold mbind in IH. rewrite IH, (shiftr_quot _ 8 256) by done.
  cbn [app]. rewrite Z.div_div by lia. change (256 * 256) with 65536. unfold wrap_u. change (2 ^ 8) with 256.
  f_equal; [dlia|]. f_equal. dlia.
Qed.

Lemma bind_reverse (f g : Z -> Z) l : (d ← reverse l; [g d; f d]) = reverse (d ← l; [f d; g d]).
Proof.
  induction l as [|d l IH]; [done|]. rewrite reverse_cons, bind_app, IH. cbn [mbind list_bind app].
  by rewrite !reverse_cons, <- (assoc_L app).
Qed.

Lemma length_bytes n : 0 <= n < 2 ^ 61 -> write_data_bit_length (add_to_data_length n [0; 0; 0; 0]) = be64 (8 * n).
Proof.
  intros Hn. unfold write_data_bit_length. rewrite add_length, bit_length_base by lia. rewrite Z.add_0_r.
  rewrite (bind_reverse u8 (fun d => u8 (Z.shiftr d 8))). unfold be64. change 8%nat with (2 * 4)%nat. by rewrite le_split_base.
Qed.

(** ** Whole blocks *)
Lemma process_blocks_fuel f g h l : (length l <= f)%nat -> (length l <= g)%nat -> process_blocks f h l = process_blocks g h l.
Proof.
  revert g h l. induction f as [|f IH]; intros [|g] h l Hf Hg; cbn [process_blocks]; try done.
  - destruct l; [done|cbn in Hf; lia].
  - destruct l; [done|cbn in Hg; lia].
  - destruct (Nat.leb_spec 64 (length l)); [|done]. apply IH; rewrite length_drop; lia.
Qed.

Lemma process_blocks_rest f h l : (length (process_blocks f h l).2 <= length l)%nat.
Proof.
  revert h l. induction f as [|f IH]; intros h l; cbn [process_blocks]; [done|].
  case_match; [|done]. etrans; [apply IH|]. rewrite length_drop. lia.
Qed.

(** What is left after the whole blocks is hashed in front of what follows. *)
Lemma process_blocks_app f g h l p : (length l <= f)%nat -> (length (l ++ p) <= g)%nat ->
  process_blocks g h (l ++ p) = (let '(h', rest) := process_blocks f h l in process_blocks g h' (rest ++ p)).
Proof.
  revert g h l. induction f as [|f IH]; intros g h l Hf Hg; [done|].
  assert (process_blocks (S f) h l = if (64 <=? length l)%nat then process_blocks f (hash256_block h (take 64 l)) (drop 64 l)
          else (h, l)) as -> by done.
  destruct (Nat.leb_spec 64 (length l)) as [Hl|Hl]; [|done].
  destruct g as [|g]; [rewrite length_app in Hg; lia|].
  assert (process_blocks (S g) h (l ++ p) = process_blocks g (hash256_block h (take 64 l)) (drop 64 l ++ p)) as ->.
  { cbn [process_blocks]. rewrite (proj2 (Nat.leb_le 64 (length (l ++ p)))) by (rewrite length_app; lia).
    by rewrite take_app_le, drop_app_le by lia. }
  rewrite (IH g) by (rewrite ?length_app, ?length_drop in *; lia).
  pose proof (process_blocks_rest f (hash256_block h (take 64 l)) (drop 64 l)) as R.
  destruct (process_blocks f _ (drop 64 l)) as [h' rest]. rewrite length_drop in R. cbn in R.
  rewrite length_app in Hg. apply process_blocks_fuel; rewrite length_app; lia.
Qed.

Lemma div_mod_64 n : (64 <= n)%nat -> (n / 64 = S ((n - 64) / 64) /\ n mod 64 = (n - 64) mod 64)%nat.
Proof.
  intros Hn. replace n with (n - 64 + 1 * 64)%nat at 1 3 by lia. rewrite Nat.div_add, Nat.Div0.mod_add by lia. lia.
Qed.

Lemma blocks_step {A} (f : A -> bytes -> A) l h n :
  fold_left f (block_at l <$> seq 0 (S n)) h = fold_left f (block_at (drop 64 l) <$> seq 0 n) (f h (take 64 l)).
Proof.
  rewrite <- cons_seq, <- fmap_S_seq. rewrite fmap_cons. cbn [fold_left]. rewrite <- list_fmap_compose.
  assert (block_at l 0 = take 64 l) as -> by (unfold block_at; rewrite Nat.mul_0_r; reflexivity).
  f_equal. apply list_fmap_ext. intros i x _. unfold block_at, compose. rewrite drop_drop. do 2 f_equal. lia.
Qed.

Lemma process_blocks_blocks f h l : (length l <= f)%nat ->
  (process_blocks f h l).1 = fold_left hash256_block (block_at l <$> seq 0 (length l / 64)) h
  /\ length (process_blocks f h l).2 = (length l mod 64)%nat.
Proof.
  revert h l. induction f as [|f IH]; intros h l Hf.
  - destruct l; [done|cbn in Hf; lia].
  - cbn [process_blocks]. destruct (Nat.leb_spec 64 (length l)) as [Hl|Hl].
    + destruct (IH (hash256_block h (take 64 l)) (drop 64 l)) as [E1 E2]; [rewrite length_drop; lia|].
      rewrite E1, E2, length_drop.
      destruct (div_mod_64 (length l) Hl) as [-> ->]. split; [|reflexivity]. symmetry. exact (blocks_step hash256_block l h _).
    + rewrite Nat.div_small, Nat.mod_small by lia. done.
Qed.

(** The last one or two blocks. *)
Lemma process_one g h p q : length p = 64%nat -> (64 < g)%nat -> (length q < 64)%nat ->
  (process_blocks g h (p ++ q)).1 = hash256_block h p.
Proof.
  intros Hp Hg Hq. destruct g as [|[|g]]; [lia|lia|]. cbn [process_blocks].
  rewrite (proj2 (Nat.leb_le 64 (length (p ++ q)))) by (rewrite length_app; lia).
  rewrite take_app_length', drop_app_length' by done. by rewrite (proj2 (Nat.leb_gt 64 (length q))) by lia.
Qed.

Lemma process_first g h p q : length p = 64%nat -> process_blocks (S g) h (p ++ q) = process_blocks g (hash256_block h p) q.
Proof.
  intros Hp. cbn [process_blocks].
  rewrite (proj2 (Nat.leb_le 64 (length (p ++ q)))) by (rewrite length_app; lia).
  by rewrite take_app_length', drop_app_length' by done.
Qed.

Lemma length_be64 z : length (be64 z) = 8%nat.
Proof. unfold be64. by rewrite length_reverse, length_le_split. Qed.

Lemma length_padding n : length (padding n) = (9 + Z.to_nat ((55 - n) mod 64))%nat.
Proof. unfold padding. cbn [length]. rewrite length_app, length_replicate, length_be64. lia. Qed.

Lemma pad_short n r : 0 <= n -> (r <= 55)%nat -> Z.of_nat r = n mod 64 -> Z.to_nat ((55 - n) mod 64) = (55 - r)%nat.
Proof. intros Hn Hr E. apply Nat2Z.inj. rewrite Z2Nat.id by dlia. rewrite Nat2Z.inj_sub by lia. dlia. Qed.
Lemma pad_long n r : 0 <= n -> (55 < r < 64)%nat -> Z.of_nat r = n mod 64 -> Z.to_nat ((55 - n) mod 64) = (63 - r + 56)%nat.
Proof. intros Hn Hr E. apply Nat2Z.inj. rewrite Z2Nat.id by dlia. rewrite Nat2Z.inj_add, Nat2Z.inj_sub by lia. dlia. Qed.

(** [finish] hashes the rest and the padding. *)
Lemma finish_blocks rest n h g : 0 <= n < 2 ^ 61 -> Z.of_nat (length rest) = n mod 64 -> (200 < g)%nat ->
  h_ (finish (MkHash rest (add_to_data_length n [0; 0; 0; 0]) h)) = (process_blocks g h (rest ++ padding n)).1.
Proof.
  intros Hn Hr Hg. assert (length rest < 64)%nat by (pose proof (Z.mod_pos_bound n 64); lia).
  unfold finish, padding. cbn [buffer_ data_length_digits_ h_]. rewrite length_bytes by done.
  destruct (Nat.ltb_spec 55 (length rest)).
  - rewrite (pad_long n (length rest)), replicate_add by lia.
    replace (rest ++ 128 :: (replicate (63 - length rest) 0 ++ replicate 56 0) ++ be64 (8 * n))
      with (((rest ++ [0x80]) ++ replicate (64 - length rest - 1) 0) ++ (replicate 56 0 ++ be64 (8 * n)) ++ []).
    2: { rewrite app_nil_r, <- !(assoc_L app). cbn [app]. by replace (64 - length rest - 1)%nat with (63 - length rest)%nat by lia. }
    destruct g as [|g]; [lia|]. rewrite process_first by (rewrite !length_app, length_replicate; cbn; lia).
    rewrite process_one; [done|by rewrite length_app, length_be64|lia|cbn; lia].
  - rewrite (pad_short n (length rest)) by lia.
    replace (rest ++ 128 :: replicate (55 - length rest) 0 ++ be64 (8 * n))
      with (((rest ++ [0x80]) ++ replicate (56 - length rest - 1) 0 ++ be64 (8 * n)) ++ []).
    2: { rewrite app_nil_r, <- !(assoc_L app). cbn [app]. by replace (56 - length rest - 1)%nat with (55 - length rest)%nat by lia. }
    rewrite process_one; [done| |lia|cbn; lia].
    rewrite !length_app, length_replicate, length_be64. cbn. lia.
Qed.

Lemma digest_word w : (fun i => mask_8bit (u8 (Z.shiftr w (24 - 8 * i)))) <$> [0; 1; 2; 3] = reverse (le_split 4 w).
Proof.
  cbn [fmap list_fmap le_split]. unfold mask_8bit. rewrite !land_255. unfold wrap_u. change (2 ^ 8) with 256.
  rewrite !Z.mod_mod by lia.
  change (24 - 8 * 0) with 24. change (24 - 8 * 1) with 16. change (24 - 8 * 2) with 8. change (24 - 8 * 3) with 0.
  rewrite (shiftr_quot w 24 16777216), (shiftr_quot w 16 65536), (shiftr_quot w 8 256), (shiftr_quot w 0 1) by done.
  rewrite !Z.div_div, Z.div_1_r by lia. reflexivity.
Qed.

Lemma hash256_pads message : zlen message < 2 ^ 61 -> hash256 message = sha256_standard message.
Proof.
  intros Hl. pose proof (zlen_nonneg message) as H0. unfold hash256, sha256_standard, get_hash_bytes, process, init.
  cbn [buffer_ data_length_digits_ h_ app].
  set (p := message ++ padding (zlen message)). set (g := (length p + 201)%nat).
  destruct (process_blocks_blocks g initial_message_digest p) as [E _]; [lia|]. rewrite <- E.
  destruct (process_blocks_blocks (length message) initial_message_digest message) as [_ Hrest]; [done|].
  subst p. rewrite (process_blocks_app (length message) g) by lia.
  destruct (process_blocks (length message) initial_message_digest message) as [h rest]. cbn [snd] in Hrest.
  rewrite (finish_blocks rest (zlen message) h g); [|done| |lia].
  - f_equal. unfold mbind. apply list_bind_ext; [|done]. intros w. apply digest_word.
  - rewrite Hrest. unfold zlen. by rewrite Nat2Z.inj_mod.
Qed.

(** ** A message in pieces *)
Lemma carry_base k : forall c n, 0 <= c -> 0 <= n -> n + c < 2 ^ 64 -> carry_digits c (base_digits k n) = base_digits k (n + c).
Proof.
  induction k as [|k IH]; intros c n Hc Hn Hl; [done|]. cbn [base_digits carry_digits]. rewrite (wrap_u_small 64) by (unfold in_u; dlia).
  destruct (Z.leb_spec 65536 (n mod 65536 + c)).
  - rewrite land_65535, (shiftr_quot _ 16 65536) by done. rewrite IH by dlia. f_equal; [dlia|]. f_equal. dlia.
  - f_equal; [dlia|]. f_equal. dlia.
Qed.

Lemma add_base n m : 0 <= n -> 0 <= m -> n + m < 2 ^ 64 -> add_to_data_length m (base_digits 4 n) = base_digits 4 (n + m).
Proof.
  intros Hn Hm Hl. rewrite <- carry_base by done. cbn [base_digits add_to_data_length carry_digits]. rewrite Z.add_0_r.
  by rewrite (wrap_u_small 64 (u64 _)) by (apply wrap_u_range; lia).
Qed.

(** Two pieces are hashed as one. *)
Lemma process_app a b s n : 0 <= n -> data_length_digits_ s = base_digits 4 n -> n + zlen a + zlen b < 2 ^ 64 ->
  process (a ++ b) s = process b (process a s) /\ data_length_digits_ (process a s) = base_digits 4 (n + zlen a).
Proof.
  intros Hn Hd Hl. pose proof (zlen_nonneg a). pose proof (zlen_nonneg b). unfold process. rewrite Hd, app_assoc.
  rewrite (process_blocks_app (length (buffer_ s ++ a))) by lia. pose proof (process_blocks_rest (length (buffer_ s ++ a)) (h_ s) (buffer_ s ++ a)) as Hr.
  destruct (process_blocks (length (buffer_ s ++ a)) (h_ s) (buffer_ s ++ a)) as [h rest]. cbn [snd] in Hr. cbn [buffer_ h_ data_length_digits_].
  rewrite (process_blocks_fuel _ (length (rest ++ b))) by (rewrite !length_app in *; lia).
  rewrite !(add_base n) by (rewrite ?zlen_app; lia). split; [|done]. destruct (process_blocks (length (rest ++ b)) h (rest ++ b)) as [h' rest'].
  f_equal. rewrite add_base, zlen_app by lia. f_equal. lia.
Qed.

Lemma process_input_whole buffer_size : (0 < buffer_size)%nat -> forall fuel input s n, (length input < fuel)%nat -> 0 <= n ->
  data_length_digits_ s = base_digits 4 n -> n + zlen input < 2 ^ 64 -> input <> [] ->
  process_input fuel buffer_size input s = Some (process input s).
Proof.
  intros Hb. induction fuel as [|fuel IH]; intros input s n Hf Hn Hd Hl Hne; [lia|]. cbn [process_input]. destruct input as [|x input]; [done|].
  set (m := x :: input) in *. assert (zlen (take buffer_size m) + zlen (drop buffer_size m) = zlen m) as Hz by (rewrite <- zlen_app, take_drop; done).
  pose proof (zlen_nonneg (take buffer_size m)). destruct (process_app (take buffer_size m) (drop buffer_size m) s n Hn Hd ltac:(lia)) as [E Hd'].
  rewrite take_drop in E. destruct (decide (drop buffer_size m = [])) as [Ed|Hdne].
  - pose proof (take_drop buffer_size m) as Et. rewrite Ed in *. rewrite app_nil_r in Et. rewrite Et. destruct fuel as [|fuel]; [subst m; cbn in Hf; lia|done].
  - rewrite E. apply (IH _ _ (n + zlen (take buffer_size m))); [|lia|done|lia|done]. rewrite length_drop. change (length m) with (S (length input)) in *. lia.
Qed.

Lemma hash256_input_whole fuel buffer_size message : (0 < buffer_size)%nat -> (length message < fuel)%nat -> zlen message < 2 ^ 61 ->
  hash256_input fuel buffer_size message = Some (hash256 message).
Proof.
  intros Hb Hf Hl. unfold hash256_input, hash256. destruct message as [|x message].
  - destruct fuel as [|fuel]; [cbn in Hf; lia|]. reflexivity.
  - rewrite (process_input_whole buffer_size Hb fuel _ init 0); [done|done|done|done|lia|done].
Qed.



(** ** The digest as text *)
Definition is_lower_hex (c : Z) : bool := ((48 <=? c) && (c <=? 57)) || ((97 <=? c) && (c <=? 102)).

Lemma hex_digit_lower d : 0 <= d < 16 -> is_lower_hex (hex_digit d) = true.
Proof. intros Hd. unfold hex_digit, is_lower_hex. destruct (Z.ltb_spec d 10); lia. Qed.

Lemma hex_string_lower l : Forall is_byte l -> Forall (fun c => is_lower_hex c = true) (bytes_to_hex_string l).
Proof.
  induction 1 as [|b l Hb _ IH]; [constructor|]. unfold is_byte in Hb.
  repeat constructor; [apply hex_digit_lower; dlia|apply hex_digit_lower; dlia|exact IH].
Qed.

Lemma hash256_bytes message : Forall is_byte (hash256 message).
Proof.
  unfold hash256, get_hash_bytes. apply Forall_take. generalize (h_ (finish (process message init))) as l.
  induction l as [|w l IH]; [constructor|]. cbn [mbind list_bind]. apply Forall_app. split; [|exact IH].
  rewrite digest_word. apply Forall_reverse, le_split_bytes.
Qed.
