(* ===== verification/SessionInit.v ===== *)
(** * The session start-up script ([odbc_driver/connect/session_init.cpp],
    [common/file_io.cpp])

    A data source can name a file of SQL to run when a session starts: the text
    before a marker once for a database, the text after it for every connection.
    The file can be pinned by its SHA-256 digest.

    The file system is the class [FileOps], running a query on a new statement
    handle the class [QueryOps]. An exception is its message, on the left. *)

From S2P Require Import Prelude OdbcConst OdbcUtils Diagnostic ApiInfo Stmt Sha256.

(** [access], [stat], and the read of a whole file; [None] when the call fails. *)
Class FileOps := {
  file_access : bytes -> bool;
  file_stat_size : bytes -> option Z;
  file_read : bytes -> Z -> bytes + bytes;   (* the failure's text, or at most so many bytes *)
  file_read_bound : forall path n text, file_read path n = inr text -> zlen text <= Z.max 0 n
}.

Record SessionInitSQLFile := MkSessionInitSQLFile {
  db_init_sql : bytes;
  conn_init_sql : bytes;
  orig_file_text : bytes
}.

Definition SQL_FILE_MAX_SIZE_BYTES : Z := 2 ^ 20.
Definition CONN_INIT_MARKER : bytes := B"/\*\s*DUCKDB_CONNECTION_INIT_BELOW_MARKER\s*\*/".
Definition SQL_FILE_OPTION : bytes := B"session_init_sql_file".
Definition SQL_FILE_SHA256_OPTION : bytes := B"session_init_sql_file_sha256".

Definition no_session_file : SessionInitSQLFile := MkSessionInitSQLFile [] [] [].
Definition IsEmpty (f : SessionInitSQLFile) : bool :=
  bool_decide (db_init_sql f = []) && bool_decide (conn_init_sql f = []) && bool_decide (orig_file_text f = []).

(** ** The marker *)
Fixpoint strip_prefix (p s : bytes) : option bytes :=
  match p, s with
  | [], _ => Some s
  | x :: p', y :: s' => if x =? y then strip_prefix p' s' else None
  | _ :: _, [] => None
  end.

Definition marker_word : bytes := B"DUCKDB_CONNECTION_INIT_BELOW_MARKER".

(** A match of the regular expression at the start of the text: the rest after
    it. The blanks are followed by a character that is not a blank, so that the
    match is the only one. *)
Definition match_marker (s : bytes) : option bytes :=
  s ← strip_prefix (B"/*") s;
  s ← strip_prefix marker_word (drop_while IsSpace s);
  strip_prefix (B"*/") (drop_while IsSpace s).

(** The leftmost match: what is before it and after it. *)
Fixpoint find_marker (s : bytes) : option (bytes * bytes) :=
  match match_marker s with
  | Some rest => Some ([], rest)
  | None => match s with [] => None | c :: s' => '(a, b) ← find_marker s'; Some (c :: a, b) end
  end.

(** The parts between the matches. As [std::sregex_token_iterator] does, an
    empty text after the last match is not a part. *)
Fixpoint split_parts (fuel : nat) (first : bool) (s : bytes) : list bytes :=
  match fuel with
  | O => []
  | S fuel' =>
      match find_marker s with
      | Some (a, b) => a :: split_parts fuel' false b
      | None => if negb first && bool_decide (s = []) then [] else [s]
      end
  end.

(** Every match is at least four characters long. *)
Definition SplitByMarker (s : bytes) : list bytes := split_parts (S (length s)) true s.

(** ** Reading the file *)
Section Read.
Context `{FileOps}.

Definition FileExists (path : bytes) : bool := file_access path.
Definition FileSizeBytes (path : bytes) : bytes + Z :=
  match file_stat_size path with
  | None => inl (B"Cannot get file size, path: " ++ path)
  | Some n => inr n
  end.
Definition FileReadToString (path : bytes) (max_size_bytes : Z) : bytes + bytes :=
  match file_read path max_size_bytes with
  | inl what => inl (B"File read error, path: " ++ path ++ B", message: " ++ what)
  | inr text => inr text
  end.

Definition sha256_of (text : bytes) : bytes := bytes_to_hex_string (hash256 text).

Definition check_sha256 (orig_file_text session_init_sql_file_sha256 : bytes) : option bytes :=
  if bool_decide (session_init_sql_file_sha256 = []) then None
  else
    let expected_sha256 := ascii_lower <$> session_init_sql_file_sha256 in
    let actual_sha256 := sha256_of orig_file_text in
    if bool_decide (actual_sha256 = session_init_sql_file_sha256) then None
    else Some (B"Session init SQL file SHA-256 mismatch, expected: " ++ expected_sha256 ++ B", actual: " ++ actual_sha256).

Definition ReadSQLFile (session_init_sql_file session_init_sql_file_sha256 : bytes) : bytes + SessionInitSQLFile :=
  if bool_decide (session_init_sql_file = []) then inr no_session_file
  else if negb (FileExists session_init_sql_file) then
    inl (B"Specified session init SQL file not found, path: " ++ session_init_sql_file)
  else match FileSizeBytes session_init_sql_file with
  | inl e => inl e
  | inr file_size =>
      if SQL_FILE_MAX_SIZE_BYTES <? file_size then
        inl (B"Specified session init SQL file size: " ++ to_string file_size ++ B" exceeds max allowed size: "
             ++ to_string SQL_FILE_MAX_SIZE_BYTES)
      else match FileReadToString session_init_sql_file file_size with
      | inl e => inl e
      | inr orig_file_text =>
          match check_sha256 orig_file_text session_init_sql_file_sha256 with
          | Some e => inl e
          | None =>
              match SplitByMarker orig_file_text with
              | [a] => inr (MkSessionInitSQLFile (TrimString a) [] orig_file_text)
              | [a; b] => inr (MkSessionInitSQLFile (TrimString a) (TrimString b) orig_file_text)
              | [] => inl (B"vector::at")
              | _ => inl (B"Connection init marker: '" ++ CONN_INIT_MARKER ++ B"' can only be specified once")
              end
          end
      end
  end.
End Read.

(** ** Running it *)

(** Allocating a statement, executing a text on it, and the state and message
    [SQLGetDiagRec] then finds; the handle is freed after. *)
Class QueryOps (Engine : Type) := {
  alloc_stmt : Engine -> Z;
  exec_direct : bytes -> Engine -> Z * option (bytes * bytes) * Engine
}.

Section Run.
Context {Engine : Type} `{QueryOps Engine}.

(** A record about the connection handle. *)
Definition dbc_record (ret : Z) (component msg : bytes) (state : SQLStateType) (server : bytes) (d : OdbcHandleDbc)
    : Z * OdbcHandleDbc :=
  let '(ret, diag) := SetDiagnosticRecord ret component msg state server (dbc_diagnostic d) in
  (ret, d <| dbc_diagnostic := diag |>).

(** The text [SQLExecDirect] takes from the query: its length is cast to
    [SQLSMALLINT], and a length that is neither positive nor [SQL_NTS] is 0. *)
Definition executed_text (query : bytes) : bytes :=
  let n := s16 (zlen query) in
  if n =? SQL_NTS then until_nul query else ztake (Z.max 0 n) query.

Definition RunQueryWithStmt (query : bytes) (d : OdbcHandleDbc) (e : Engine) : Z * OdbcHandleDbc * Engine :=
  let alloc_ret := alloc_stmt e in
  if negb (SQL_SUCCEEDED alloc_ret) then
    (dbc_record alloc_ret (B"SQLDriverConnect") (B"Connection init error: cannot allocate statement handle, SQL:" ++ [10] ++ query)
       ST_HY000 [] d, e)
  else
    let '(exec_ret, diag, e) := exec_direct (executed_text query) e in
    if negb (SQL_SUCCEEDED exec_ret) then
      let message := match diag with Some (sqlstate, msg) => sqlstate ++ B": " ++ msg | None => B"N/A" end in
      (dbc_record exec_ret (B"SQLDriverConnect") (B"Connection init error:" ++ [10] ++ message ++ [10] ++ query) ST_42000 [] d, e)
    else (exec_ret, d, e).

Definition Run (sql_file : SessionInitSQLFile) (db_created : bool) (d : OdbcHandleDbc) (e : Engine)
    : Z * OdbcHandleDbc * Engine :=
  let '(ret, d, e) :=
    if db_created && negb (bool_decide (db_init_sql sql_file = [])) then RunQueryWithStmt (db_init_sql sql_file) d e
    else (SQL_SUCCESS, d, e) in
  if negb (SQL_SUCCEEDED ret) then (ret, d, e)
  else
    let '(ret, d, e) :=
      if negb (bool_decide (conn_init_sql sql_file = [])) then RunQueryWithStmt (conn_init_sql sql_file) d e
      else (SQL_SUCCESS, d, e) in
    if negb (SQL_SUCCEEDED ret) then (ret, d, e)
    else
      (dbc_record SQL_SUCCESS_WITH_INFO (B"SQLDriverConnect") (B"Session init SQL:" ++ [10] ++ orig_file_text sql_file)
         ST_01000 [] d, e).
End Run.

(** ** The parts of a script *)

(** A text of the marker's form. *)
Definition marker (ws1 ws2 : bytes) : bytes := B"/*" ++ ws1 ++ marker_word ++ ws2 ++ B"*/".
Definition blanks (ws : bytes) : Prop := Forall (fun c => IsSpace c = true) ws.
Definition slash : Z := 47.

Lemma strip_prefix_app p s t : strip_prefix p s = Some t -> forall u, strip_prefix p (s ++ u) = Some (t ++ u).
Proof.
  revert s. induction p as [|x p IH]; intros s E u; cbn [strip_prefix] in *; [by injection E as ->|].
  destruct s as [|y s]; [done|]. cbn [app strip_prefix]. destruct (x =? y); [by apply IH|done].
Qed.

Lemma strip_prefix_self p s : strip_prefix p (p ++ s) = Some s.
Proof. induction p as [|x p IH]; [done|]. cbn [app strip_prefix]. by rewrite Z.eqb_refl. Qed.

(** A prefix without a slash is found before a slash or not at all. *)
Lemma strip_prefix_slash p s t : Forall (fun x => x <> slash) p ->
  strip_prefix p (s ++ slash :: t) = (fun r => r ++ slash :: t) <$> strip_prefix p s.
Proof.
  intros Hp. revert s. induction Hp as [|x p Hx _ IH]; intros s; [done|]. destruct s as [|y s]; cbn [app strip_prefix].
  - by rewrite (proj2 (Z.eqb_neq x slash)).
  - destruct (x =? y); [apply IH|done].
Qed.

Lemma drop_while_blanks ws s : blanks ws -> drop_while IsSpace (ws ++ s) = drop_while IsSpace s.
Proof. induction 1 as [|c ws Hc _ IH]; [done|]. cbn [app drop_while]. by rewrite Hc. Qed.

Lemma drop_while_slash s t : drop_while IsSpace (s ++ slash :: t) = drop_while IsSpace s ++ slash :: t.
Proof. induction s as [|c s IH]; [done|]. cbn [app drop_while]. by destruct (IsSpace c). Qed.

Lemma match_marker_marker ws1 ws2 s : blanks ws1 -> blanks ws2 -> match_marker (marker ws1 ws2 ++ s) = Some s.
Proof.
  intros H1 H2. unfold match_marker, marker. rewrite <- !(assoc_L app), strip_prefix_self. cbn [mbind option_bind].
  rewrite drop_while_blanks by done. change (drop_while IsSpace (marker_word ++ ws2 ++ B"*/" ++ s)) with (marker_word ++ ws2 ++ B"*/" ++ s).
  rewrite strip_prefix_self. cbn [mbind option_bind]. rewrite drop_while_blanks by done.
  change (drop_while IsSpace (B"*/" ++ s)) with (B"*/" ++ s). apply strip_prefix_self.
Qed.

(** No match that starts before a marker reaches into it, but for one that ends
    with its slash. *)
Lemma match_marker_before x t : x <> [] -> match_marker (x ++ [slash]) = None -> match_marker (x ++ slash :: 42 :: t) = None.
Proof.
  intros Hx. unfold match_marker. change (B"/*") with [slash; 42]. destruct x as [|c [|c2 x]]; [done|..].
  { cbn [app strip_prefix]. by destruct (slash =? c). }
  cbn [app strip_prefix]. destruct (slash =? c); [|done]. destruct (42 =? c2); [|done]. cbn [strip_prefix mbind option_bind].
  rewrite !drop_while_slash. assert (Forall (fun x => x <> slash) marker_word) as Hw.
  { change (Forall (fun x => x <> slash) marker_word) with (Forall (fun x => x <> 47) marker_word).
    apply (bool_decide_unpack _). vm_compute. done. }
  rewrite !strip_prefix_slash by done. destruct (strip_prefix marker_word (drop_while IsSpace x)) as [y|]; [|done].
  cbn [fmap option_fmap option_map mbind option_bind]. rewrite !drop_while_slash. change (B"*/") with [42; slash].
  destruct (drop_while IsSpace y) as [|d [|d2 z]]; cbn [app strip_prefix]; [done| |].
  - destruct (42 =? d); [by rewrite Z.eqb_refl|done].
  - destruct (42 =? d); [|done]. by destruct (slash =? d2).
Qed.

Lemma find_marker_cons c s : find_marker (c :: s) = match match_marker (c :: s) with
  | Some rest => Some ([], rest) | None => '(a, b) ← find_marker s; Some (c :: a, b) end.
Proof. done. Qed.

Lemma find_marker_first a ws1 ws2 b : blanks ws1 -> blanks ws2 -> find_marker (a ++ [slash]) = None ->
  find_marker (a ++ marker ws1 ws2 ++ b) = Some (a, b).
Proof.
  intros H1 H2. induction a as [|c a IH]; intros Ha.
  - cbn [app]. pose proof (match_marker_marker ws1 ws2 b H1 H2) as E.
    assert (exists t, marker ws1 ws2 ++ b = slash :: t) as [t Et] by (by eexists).
    rewrite Et in *. rewrite find_marker_cons. by rewrite E.
  - cbn [app] in Ha. rewrite find_marker_cons in Ha. cbn [app]. rewrite find_marker_cons.
    destruct (match_marker (c :: a ++ [slash])) eqn:Em; [done|].
    assert (exists t, marker ws1 ws2 ++ b = slash :: 42 :: t) as [t Et] by (by eexists).
    rewrite Et. change (c :: a ++ slash :: 42 :: t) with ((c :: a) ++ slash :: 42 :: t).
    rewrite match_marker_before by done. rewrite <- Et.
    destruct (find_marker (a ++ [slash])) as [[? ?]|]; [done|]. by rewrite IH.
Qed.

Lemma length_marker ws1 ws2 : (0 < length (marker ws1 ws2))%nat.
Proof. unfold marker. rewrite length_app. cbn. lia. Qed.

Lemma SplitByMarker_two a ws1 ws2 b : blanks ws1 -> blanks ws2 -> find_marker (a ++ [slash]) = None -> find_marker b = None ->
  SplitByMarker (a ++ marker ws1 ws2 ++ b) = if bool_decide (b = []) then [a] else [a; b].
Proof.
  intros H1 H2 Ha Hb. unfold SplitByMarker. pose proof (length_marker ws1 ws2).
  destruct (length (a ++ marker ws1 ws2 ++ b)) as [|n] eqn:El; [rewrite !length_app in El; lia|].
  cbn [split_parts]. rewrite find_marker_first, Hb by done. cbn [negb andb]. by case_bool_decide.
Qed.

Lemma SplitByMarker_one a : find_marker a = None -> SplitByMarker a = [a].
Proof. intros Ha. unfold SplitByMarker. cbn [split_parts]. by rewrite Ha. Qed.

(** A second marker is reported only when text follows it. *)
Example trailing_marker :
  SplitByMarker (B"SET a=1; " ++ marker [] [] ++ B" SET b=2;" ++ marker [32] [9]) = [B"SET a=1; "; B" SET b=2;"].
Proof. vm_compute. reflexivity. Qed.

Lemma ReadSQLFile_text `{FileOps} path sha size text :
  path <> [] -> file_access path = true -> file_stat_size path = Some size -> size <= SQL_FILE_MAX_SIZE_BYTES ->
  file_read path size = inr text -> check_sha256 text sha = None ->
  ReadSQLFile path sha =
    match SplitByMarker text with
    | [a] => inr (MkSessionInitSQLFile (TrimString a) [] text)
    | [a; b] => inr (MkSessionInitSQLFile (TrimString a) (TrimString b) text)
    | [] => inl (B"vector::at")
    | _ => inl (B"Connection init marker: '" ++ CONN_INIT_MARKER ++ B"' can only be specified once")
    end.
Proof.
  intros Hp Ha Hs Hsz Hr Hc. unfold ReadSQLFile, FileExists, FileSizeBytes, FileReadToString.
  rewrite bool_decide_eq_false_2 by done. rewrite Ha, Hs, (proj2 (Z.ltb_ge _ _)), Hr, Hc by done. done.
Qed.

(** The script is split at its marker: the database part is what precedes
    the marker and the connection part what follows it, both without the blanks
    around them, whatever blanks the marker has inside; a script without a
    marker is all database part. *)
Theorem session_script_parts `{FileOps} path size a ws1 ws2 b :
  path <> [] -> file_access path = true -> file_stat_size path = Some size -> size <= SQL_FILE_MAX_SIZE_BYTES ->
  blanks ws1 -> blanks ws2 -> find_marker (a ++ [slash]) = None -> find_marker b = None ->
  (file_read path size = inr (a ++ marker ws1 ws2 ++ b) ->
     ReadSQLFile path [] = inr (MkSessionInitSQLFile (TrimString a) (TrimString b) (a ++ marker ws1 ws2 ++ b)))
  /\ (file_read path size = inr b -> ReadSQLFile path [] = inr (MkSessionInitSQLFile (TrimString b) [] b)).
Proof.
  intros Hp Ha Hs Hsz H1 H2 Fa Fb. split; intros Hr; rewrite (ReadSQLFile_text path [] size _ Hp Ha Hs Hsz Hr eq_refl).
  - rewrite SplitByMarker_two by done. case_bool_decide as Eb; [|done]. by subst b.
  - by rewrite SplitByMarker_one.
Qed.

(** C21: A digest pins the script: when the data source gives one, a script is
    accepted only if the digest is, character for character, the lower-case
    hexadecimal text of the standard's SHA-256 of the script; a digest with a
    letter in upper case is refused whatever the script. *)
Theorem digest_pins_script `{FileOps} path sha script :
  path <> [] -> sha <> [] -> ReadSQLFile path sha = inr script ->
  sha = bytes_to_hex_string (sha256_standard (orig_file_text script))
  /\ Forall (fun c => is_lower_hex c = true) sha.
Proof.
  intros Hp Hsha. unfold ReadSQLFile, FileExists, FileSizeBytes, FileReadToString.
  rewrite bool_decide_eq_false_2 by done. destruct (file_access path); [|done]. cbn [negb].
  destruct (file_stat_size path) as [size|]; [|done]. destruct (Z.ltb_spec SQL_FILE_MAX_SIZE_BYTES size) as [|Hsz]; [done|].
  destruct (file_read path size) as [|text] eqn:Hr; [done|].
  destruct (check_sha256 text sha) eqn:Hc; [done|]. unfold check_sha256 in Hc.
  rewrite bool_decide_eq_false_2 in Hc by done. case_bool_decide as Es; [|done]. intros E.
  assert (orig_file_text script = text) as ->.
  { destruct (SplitByMarker text) as [|a [|b [|c l]]]; [done| | |done]; by injection E as <-. }
  pose proof (file_read_bound path size text Hr) as Hb. unfold SQL_FILE_MAX_SIZE_BYTES in Hsz.
  rewrite <- Es. unfold sha256_of. split; [|apply hex_string_lower, hash256_bytes].
  f_equal. apply hash256_pads. lia.
Qed.

Lemma until_nul_id q : Forall (fun c => c <> 0) q <-> until_nul q = q.
Proof.
  induction q as [|c q IH]; cbn; [done|]. destruct (Z.eqb_spec c 0) as [->|Hc].
  - split; [|done]. by inversion 1.
  - split; [inversion 1; subst; f_equal; by apply IH|]. intros [= E]. constructor; [done|by apply IH].
Qed.

(** How much of a start-up script runs: the whole text exactly when it is
    shorter than 32768 bytes, or when its length cast to 16 bits happens to be
    SQL_NTS and it has no NUL. A script of 32768 to 65532 bytes is passed to the
    engine as the empty text, although the file may have a megabyte. *)
Theorem script_length_limit query :
  (executed_text query = query
   <-> zlen query < 32768 \/ (zlen query mod 65536 = 65533 /\ Forall (fun c => c <> 0) query))
  /\ (32768 <= zlen query <= 65532 -> executed_text query = []).
Proof.
  pose proof (zlen_nonneg query) as H0. unfold executed_text.
  assert (s16 (zlen query) = (zlen query + 32768) mod 65536 - 32768) as -> by done.
  set (n := (zlen query + 32768) mod 65536 - 32768).
  assert (n = -3 <-> zlen query mod 65536 = 65533) as Hn by (subst n; dlia).
  assert (zlen query < 32768 -> n = zlen query) as Hs by (subst n; dlia).
  assert (32768 <= zlen query -> n < zlen query) as Hb by (subst n; dlia).
  assert (32768 <= zlen query <= 65532 -> n < -3) as Hm by (subst n; dlia).
  clearbody n. split.
  - destruct (Z.eqb_spec n (-3)) as [En|En].
    + rewrite <- until_nul_id. split; [intros; right; tauto|]. intros [?|[_ ?]]; [lia|done].
    + split.
      * intros E. left. destruct (Z.lt_ge_cases (zlen query) 32768) as [|Hge]; [done|]. specialize (Hb Hge).
        pose proof (zlen_ztake (Z.max 0 n) query ltac:(lia)) as L. rewrite E in L. lia.
      * intros [Hlt|[? _]]; [|tauto]. rewrite (Hs Hlt), Z.max_r by lia. by apply ztake_ge.
  - intros Hr. specialize (Hm Hr). rewrite (proj2 (Z.eqb_neq n (-3))) by lia. rewrite Z.max_l by lia. done.
Qed.

(** ** A file system with one file, for examples *)
Definition one_file_read (text path : bytes) (n : Z) : bytes + bytes := inr (ztake n text).

Lemma one_file_bound text path n t : one_file_read text path n = inr t -> zlen t <= Z.max 0 n.
Proof.
  intros [= <-]. unfold ztake. pose proof (length_take text (Z.to_nat n)). unfold zlen. lia.
Qed.

Definition one_file (text : bytes) : FileOps := {|
  file_access := fun _ => true; file_stat_size := fun _ => Some (zlen text);
  file_read := one_file_read text; file_read_bound := one_file_bound text
|}.

Lemma session_script_parts_witness :
  let text := B"CREATE TABLE t(i INT); " ++ marker [32] [32] ++ B" SET x=1" in
  @ReadSQLFile (one_file text) (B"init.sql") []
  = inr (MkSessionInitSQLFile (B"CREATE TABLE t(i INT);") (B"SET x=1") text).
Proof.
  intros text.
  destruct (@session_script_parts (one_file text) (B"init.sql") (zlen text) (B"CREATE TABLE t(i INT); ") [32] [32] (B" SET x=1"))
    as [E _]; [done|reflexivity|reflexivity|by vm_compute|by repeat constructor|by repeat constructor|reflexivity|reflexivity|].
  apply E. vm_compute. reflexivity.
Defined.

Lemma digest_pins_script_witness :
  let sha := B"ba7816bf8f01cfea414140de5dae2223b00361a396177a9cb410ff61f20015ad" in
  sha = bytes_to_hex_string (sha256_standard (B"abc")) /\ Forall (fun c => is_lower_hex c = true) sha.
Proof.
  intros sha.
  apply (@digest_pins_script (one_file (B"abc")) (B"init.sql") sha (MkSessionInitSQLFile (B"abc") [] (B"abc")));
    [done|done|vm_compute; reflexivity].
Defined.
