(* ===== verification/Connect.v ===== *)
(** * Connecting ([odbc_driver/connect/connect.cpp], [odbc_api/connection_api.cpp])

    The connection string is split into keys and values, the options of the data
    source are read, the database is opened and the session's script runs.

    The engine's list of options, the opening of a database and the Cupola
    connection are the class [OpenOps]; [profile_string] is
    [SQLGetPrivateProfileString] on [odbc.ini] with an empty default and a buffer
    of 256 bytes. [isspace] is the one of the "C" locale. The texts are valid
    UTF-8: a [Value] of any other text throws. *)

From S2P Require Import Prelude OdbcConst Memory Widechar OdbcUtils Diagnostic Stmt SessionInit.

(** What the database is opened with: its name, the options set before the
    client's, the client's, the ones set after, and whether the instance is shared. *)
Record OpenArguments := MkOpenArguments {
  database : bytes;
  driver_options : list (bytes * bytes);
  client_options : gmap bytes bytes;
  last_options : list (bytes * bytes);
  cache_instance : bool
}.

Class OpenOps (Engine : Type) := {
  option_names : list bytes;                        (* DBConfig::GetOptionNames *)
  candidates_message : bytes -> bytes;              (* StringUtil::CandidatesErrorMessage *)
  odbc_link_odbcinst : bool;                        (* whether ReadFromIniFile is compiled *)
  profile_string : bytes -> bytes -> Z * bytes;
  (* SetOptionByName and SetOptionsByName, then GetOrCreateInstance: the text of an
     exception, or whether the database was created. *)
  open_instance : OpenArguments -> Engine -> (bytes + bool) * Engine;
  new_connection : bool -> Engine -> Engine;        (* make_uniq<Connection>, SetAutoCommit *)
  attach_cupola : bytes -> Engine -> option bytes * Engine
}.

Definition ROW_DEL : Z := chr ";".
Definition KEY_VAL_DEL : Z := chr "=".
Definition IN_MEMORY_PATH : bytes := B":memory:".
Definition IGNORE_KEYS : list bytes := [B"driver"; B"trusted_connection"; B"uid"; B"pwd"].
Definition cupolaconnection : bytes := B"cupolaconnection".

(** ** The options seen: a [std::map], ordered by key *)
Fixpoint bytes_ltb (a b : bytes) : bool :=
  match a, b with
  | [], _ :: _ => true
  | x :: a', y :: b' => (x <? y) || ((x =? y) && bytes_ltb a' b')
  | _, [] => false
  end.

Fixpoint seen_get (key : bytes) (l : list (bytes * bool)) : option bool :=
  match l with
  | [] => None
  | (k, v) :: l' => if bool_decide (k = key) then Some v else seen_get key l'
  end.

Fixpoint seen_set (key : bytes) (v : bool) (l : list (bytes * bool)) : list (bytes * bool) :=
  match l with
  | [] => [(key, v)]
  | (k, w) :: l' =>
      if bool_decide (k = key) then (k, v) :: l'
      else if bytes_ltb key k then (key, v) :: l else (k, w) :: seen_set key v l'
  end.

(** [Connect]. The keys of [config_map] compare without case; every key the code
    inserts or looks up is in lower case. *)
Record Connect := MkConnect {
  c_dbc : OdbcHandleDbc;
  input_str : bytes;
  success_with_info : bool;
  seen_config_options : list (bytes * bool);
  config_map : gmap bytes bytes
}.

Definition seen (key : bytes) (c : Connect) : bool := default false (seen_get key (seen_config_options c)).
Definition is_option (key : bytes) (c : Connect) : bool := bool_decide (is_Some (seen_get key (seen_config_options c))).

Definition set_option (key value : bytes) (c : Connect) : Connect :=
  c <| config_map ::= fun m => <[key := value]> m |> <| seen_config_options ::= seen_set key true |>.

Definition Lower (s : bytes) : bytes := ascii_lower <$> s.

(** The registration of the options. *)
Definition unset_all (keys : list bytes) (l : list (bytes * bool)) : list (bytes * bool) :=
  fold_left (fun l k => seen_set k false l) keys l.

Section Connect.
Context {Engine : Type} `{OpenOps Engine}.

Definition new_Connect (dbc : OdbcHandleDbc) (input : bytes) : Connect :=
  let local := [cupolaconnection; B"database"; B"dsn"; SQL_FILE_OPTION; SQL_FILE_SHA256_OPTION] in
  MkConnect dbc input false (unset_all (option_names ++ local) []) ∅.

Definition connect_record (ret : Z) (msg : bytes) (state : SQLStateType) (c : Connect) : Z * Connect :=
  let '(ret, d) := dbc_record ret (B"SQLDriverConnect") msg state [] (c_dbc c) in (ret, c <| c_dbc := d |>).

(** Whether to go on, with the flag. *)
Definition SetSuccessWithInfo (ret : Z) (c : Connect) : bool * Connect :=
  if negb (SQL_SUCCEEDED ret) then (false, c)
  else (true, if ret =? SQL_SUCCESS_WITH_INFO then c <| success_with_info := true |> else c).

(** ** Reading the connection string *)

(** [FindMatchingKey], with the key it finds. *)
Definition FindMatchingKey (input : bytes) (c : Connect) : Z * option bytes * Connect :=
  if is_option input c then (SQL_SUCCESS, Some input, c)
  else
    let '(ret, c) := connect_record SQL_SUCCESS_WITH_INFO
      (B"Invalid keyword: '" ++ input ++ B"'. " ++ candidates_message input) ST_01S09 c in
    (ret, None, c).

Definition FindKeyValPair (row : bytes) (c : Connect) : Z * Connect :=
  let '(before, from) := split_at_byte KEY_VAL_DEL row in
  match from with
  | [] => connect_record SQL_ERROR (B"Invalid connection string") ST_HY000 c
  | _ :: after =>
      let key_candidate := TrimString (Lower before) in
      if bool_decide (key_candidate ∈ IGNORE_KEYS) then (SQL_SUCCESS, c)
      else
        let '(ret, key, c) := FindMatchingKey key_candidate c in
        match key with
        | None => (ret, c)
        | Some key =>
            if bool_decide (key = SQL_FILE_OPTION) || bool_decide (key = SQL_FILE_SHA256_OPTION) then
              connect_record SQL_ERROR
                (B"Options '" ++ SQL_FILE_OPTION ++ B"' and '" ++ SQL_FILE_SHA256_OPTION
                 ++ B"' can only be specified in DSN configuration in a file or registry.") ST_01S09 c
            else (SQL_SUCCESS, set_option key (TrimString after) c)
        end
  end.

(** A value in braces, after the opening one: the value, the rest and whether it
    was closed; a doubled brace stands for one. *)
Fixpoint read_braced (s : bytes) : bytes * bytes * bool :=
  match s with
  | [] => ([], [], false)
  | c :: s' =>
      if c =? chr "}" then
        match s' with
        | c' :: s'' =>
            if c' =? chr "}" then let '(v, rest, closed) := read_braced s'' in (c :: v, rest, closed)
            else ([], s', true)
        | [] => ([], [], true)
        end
      else let '(v, rest, closed) := read_braced s' in (c :: v, rest, closed)
  end.

(** The value at the start of the text and the rest; none when a brace is not
    closed or is followed by something else than a separator. *)
Definition read_value (s : bytes) : option (bytes * bytes) :=
  let s := drop_while IsSpace s in
  match s with
  | c :: body =>
      if c =? chr "{" then
        let '(value, rest, closed) := read_braced body in
        let rest := drop_while IsSpace rest in
        if negb closed || (negb (bool_decide (rest = [])) && negb (default 0 (head rest) =? ROW_DEL)) then None
        else Some (value, rest)
      else let '(v, rest) := split_at_byte ROW_DEL s in Some (TrimString v, rest)
  | [] => Some ([], [])
  end.

(** The loop over the text from [pos] on. [Some (inl _)] is a return from it,
    [Some (inr _)] its end with the flags [duplicate] and [unexpected]. *)
Definition unexpected_key (key value : bytes) : bool :=
  negb (bool_decide (key = B"driver")) && negb (bool_decide (key = cupolaconnection))
  && negb ((bool_decide (key = B"uid") || bool_decide (key = B"pwd") || bool_decide (key = B"trusted_connection"))
           && bool_decide (value = [])).

Fixpoint parse_loop (fuel : nat) (rest : bytes) (supplied : list bytes) (duplicate unexpected : bool) (c : Connect)
    : option (Z * Connect + bool * bool * Connect) :=
  match fuel with
  | O => None
  | S fuel' =>
      let rest := drop_while (fun ch => (ch =? ROW_DEL) || IsSpace ch) rest in
      if bool_decide (rest = []) then Some (inr (duplicate, unexpected, c))
      else
        let '(before, from) := split_at_byte KEY_VAL_DEL rest in
        match from with
        | [] => Some (inl (connect_record SQL_ERROR (B"Invalid ODBC connection string") ST_HY000 c))
        | _ :: after =>
            let key := Lower (TrimString before) in
            let duplicate := duplicate || bool_decide (key ∈ supplied) in
            match read_value after with
            | None => Some (inl (connect_record SQL_ERROR (B"Invalid ODBC braced value") ST_HY000 c))
            | Some (value, rest) =>
                let unexpected := unexpected || unexpected_key key value in
                if bool_decide (key = cupolaconnection) then
                  parse_loop fuel' rest (key :: supplied) duplicate unexpected (set_option key value c)
                else
                  let '(ret, c) := FindKeyValPair (key ++ KEY_VAL_DEL :: value) c in
                  let '(ok, c) := SetSuccessWithInfo ret c in
                  if negb ok then Some (inl (ret, c))
                  else parse_loop fuel' rest (key :: supplied) duplicate unexpected c
            end
        end
  end.

Definition GetOptionFromConfigMap (name default_val : bytes) (c : Connect) : bytes :=
  if seen name c then default [] (config_map c !! name) else default_val.

(** Every round of the loop takes a character at least. *)
Definition ParseInputStr (c : Connect) : option (Z * Connect) :=
  match parse_loop (S (length (input_str c))) (input_str c) [] false false c with
  | None => None
  | Some (inl r) => Some r
  | Some (inr (duplicate, unexpected, c)) => Some (
      if seen cupolaconnection c && (duplicate || unexpected) then
        connect_record SQL_ERROR
          (B"CupolaConnection cannot be combined with a DSN, database, credentials, duplicate "
           ++ B"keys, or other connection options.") ST_HY000 c
      else
        let c := c <| c_dbc ::= fun d => d <| dbc_dsn := GetOptionFromConfigMap (B"dsn") [] c |> |> in
        (if success_with_info c then SQL_SUCCESS_WITH_INFO else SQL_SUCCESS, c))
  end.

(** ** The options of the data source

    [ReadFromIniFile] asks for every option not seen yet, in the order of the
    keys; the first error ends it. *)
Definition ini_option (dsn : bytes) (key : bytes * bool) (acc : bool * Connect) : bool * Connect :=
  let '(failed, c) := acc in
  if failed || key.2 then (failed, c)
  else
    let '(read_size, char_val) := profile_string dsn key.1 in
    if read_size =? 0 then (false, c)
    else if read_size <? 0 then
      (true, (connect_record SQL_ERROR (B"Error reading from .odbc.ini") ST_01S09 c).2)
    else (false, set_option key.1 char_val c).

Definition ReadFromIniFile (c : Connect) : Z * Connect :=
  if negb odbc_link_odbcinst then (SQL_SUCCESS, c)
  else
    let dsn := dbc_dsn (c_dbc c) in
    if bool_decide (dsn = []) then (SQL_SUCCESS, c)
    else
      let '(failed, c) := fold_left (fun acc key => ini_option dsn key acc) (seen_config_options c) (false, c) in
      (if failed then SQL_ERROR else SQL_SUCCESS, c).

(** ** Opening the database *)

Definition open_arguments (c : Connect) : OpenArguments :=
  let cupola := GetOptionFromConfigMap cupolaconnection [] c in
  let m := delete cupolaconnection (config_map c) in
  let db := GetOptionFromConfigMap (B"database") IN_MEMORY_PATH c in
  let enable_external_access := GetOptionFromConfigMap (B"enable_external_access") [] c in
  let m := delete (B"database") m in
  let m := delete (B"dsn") m in
  let m := delete SQL_FILE_OPTION m in
  let m := delete SQL_FILE_SHA256_OPTION m in
  let m := delete (B"enable_external_access") m in
  {| database := db;
     driver_options := (if bool_decide (cupola = []) then [] else [(B"allow_unsigned_extensions", B"false")])
       ++ [(B"duckdb_api", B"odbc")];
     client_options := m;
     last_options := if bool_decide (enable_external_access = []) then []
                     else [(B"enable_external_access", enable_external_access)];
     cache_instance := negb (bool_decide (db = IN_MEMORY_PATH)) |}.

(** A failure to open leaves the connection as it was; a script or a Cupola
    connection that fails closes it. *)
Definition SetConnection `{FileOps} `{QueryOps Engine} (c : Connect) (e : Engine) : Z * Connect * Engine :=
  let c := (ReadFromIniFile c).2 in
  let cupola := GetOptionFromConfigMap cupolaconnection [] c in
  if seen cupolaconnection c && bool_decide (cupola = []) then
    (connect_record SQL_ERROR (B"CupolaConnection must name an existing connection.") ST_HY000 c, e)
  else
    let args := open_arguments c in
    let c := c <| c_dbc ::= SetDatabaseName (database args) |> in
    let session_init_sql_file := GetOptionFromConfigMap SQL_FILE_OPTION [] c in
    let session_init_sql_file_sha256 := GetOptionFromConfigMap SQL_FILE_SHA256_OPTION [] c in
    let c := c <| config_map := client_options args |> in
    match ReadSQLFile session_init_sql_file session_init_sql_file_sha256 with
    | inl what => (connect_record SQL_ERROR what ST_IM003 c, e)
    | inr session_init_content =>
        let '(opened, e) := open_instance args e in
        match opened with
        | inl what => (connect_record SQL_ERROR what ST_IM003 c, e)
        | inr db_created =>
            let e := if conn (c_dbc c) then e else new_connection (autocommit (c_dbc c)) e in
            let c := c <| c_dbc ::= fun d => d <| conn := true |> |> in
            let '(ret, c, e) :=
              if negb (IsEmpty session_init_content) then
                let '(ret, d, e) := Run session_init_content db_created (c_dbc c) e in
                (ret, c <| c_dbc := if SQL_SUCCEEDED ret then d else d <| conn := false |> |>, e)
              else (SQL_SUCCESS, c, e) in
            if negb (bool_decide (cupola = [])) && SQL_SUCCEEDED ret then
              let '(err, e) := attach_cupola cupola e in
              match err with
              | None => (ret, c, e)
              | Some what =>
                  (connect_record SQL_ERROR what ST_HY000 (c <| c_dbc ::= fun d => d <| conn := false |> |>), e)
              end
            else (ret, c, e)
        end
    end.

(** ** The entry points, on a connection handle *)
Definition ConvertConnection (d : OdbcHandleDbc) : Z * OdbcHandleDbc :=
  if negb (conn d) then dbc_record SQL_ERROR (B"dbc") (B"No database connection found") ST_08003 [] d
  else (SQL_SUCCESS, d <| dbc_diagnostic ::= Clean |>).

Definition ConnectInternal `{FileOps} `{QueryOps Engine} (server_name : bytes) (d : OdbcHandleDbc) (e : Engine)
    : Z * OdbcHandleDbc * Engine :=
  let '(ret, c, e) := SetConnection (new_Connect (d <| dbc_dsn := server_name |>) server_name) e in
  (ret, c_dbc c, e).

(** [snprintf(out, n, "%s", s)]: the memory after, and the length returned. *)
Definition snprintf_s (out : ptr) (n : Z) (s : bytes) (m : mem) : Z * mem :=
  let s := until_nul s in
  (zlen s, if n =? 0 then m else write_bytes m out (ztake (n - 1) s ++ [0])).

(** [None]: the loop of [ParseInputStr] does not end. *)
Definition DriverConnectInternal `{FileOps} `{QueryOps Engine} (in_conn_str : bytes) (out_connection_string : ptr)
    (buffer_length : Z) (string_length2_ptr : ptr) (d : OdbcHandleDbc) (e : Engine) (m : mem)
    : option (Z * OdbcHandleDbc * Engine * mem) :=
  '(ret, c) ← ParseInputStr (new_Connect d in_conn_str);
  let '(ok, c) := SetSuccessWithInfo ret c in
  if negb ok then Some (ret, c_dbc c, e, m)
  else
    let '(ret, c, e) := SetConnection c e in
    let '(ok, c) := SetSuccessWithInfo ret c in
    if negb ok then Some (ret, c_dbc c, e, m)
    else
      let m :=
        if negb (out_connection_string =? nullptr) then
          let '(available, m) := snprintf_s out_connection_string (u64 buffer_length) in_conn_str m in
          store_opt 2 m string_length2_ptr (s16 available)
        else store_opt 2 m string_length2_ptr (s16 (zlen in_conn_str)) in
      Some (if success_with_info c then SQL_SUCCESS_WITH_INFO else ret, c_dbc c, e, m).

Definition SQLConnect `{FileOps} `{QueryOps Engine} (fuel : nat) (server_name : ptr) (name_length1 : Z)
    (d : OdbcHandleDbc) (e : Engine) (m : mem) : Z * OdbcHandleDbc * Engine :=
  ConnectInternal (ConvertSQLCHARToString fuel m server_name name_length1) d e.

Definition SQLConnectW `{FileOps} `{QueryOps Engine} (fuel : nat) (server_name : ptr) (name_length1 : Z)
    (d : OdbcHandleDbc) (e : Engine) (m : mem) : Z * OdbcHandleDbc * Engine :=
  ConnectInternal (conv_text (make_utf16_conv fuel m server_name name_length1)) d e.

Definition SQLDriverConnect `{FileOps} `{QueryOps Engine} (fuel : nat) (in_connection_string : ptr) (string_length1 : Z)
    (out_connection_string : ptr) (buffer_length : Z) (string_length2_ptr : ptr)
    (d : OdbcHandleDbc) (e : Engine) (m : mem) : option (Z * OdbcHandleDbc * Engine * mem) :=
  DriverConnectInternal (ConvertSQLCHARToString fuel m in_connection_string string_length1)
    out_connection_string buffer_length string_length2_ptr d e m.

(** Disconnecting closes the connection. *)
Definition SQLDisconnect (d : OdbcHandleDbc) : Z * OdbcHandleDbc :=
  let '(ret, d) := ConvertConnection d in
  if negb (ret =? SQL_SUCCESS) then (ret, d) else (SQL_SUCCESS, d <| conn := false |>).

(** The vector [snprintf] has written into. *)
Definition snprintf_vec (vec s : bytes) : bytes :=
  if zlen vec =? 0 then vec
  else let t := ztake (zlen vec - 1) (until_nul s) ++ [0] in t ++ zdrop (zlen t) vec.

Definition SQLDriverConnectW `{FileOps} `{QueryOps Engine} (fuel : nat) (in_connection_string : ptr) (string_length1 : Z)
    (out_connection_string : ptr) (buffer_length : Z) (string_length2_ptr : ptr)
    (d : OdbcHandleDbc) (e : Engine) (m : mem) : option (Z * OdbcHandleDbc * Engine * mem) :=
  let in_conn_str := conv_text (make_utf16_conv fuel m in_connection_string string_length1) in
  '(ret, d, e, m) ← DriverConnectInternal in_conn_str nullptr 0 nullptr d e m;
  '(written, m) ← utf16_write_str ret (snprintf_vec (utf8_alloc_out_vec buffer_length) in_conn_str) m
                    out_connection_string buffer_length;
  Some (ret, d, e, store_opt 2 m string_length2_ptr (s16 written)).
End Connect.

(** ** The loop over the text *)
Lemma seen_get_set_eq k v l : seen_get k (seen_set k v l) = Some v.
Proof.
  induction l as [|[k' w] l IH]; cbn [seen_set seen_get]; [by rewrite bool_decide_eq_true_2|].
  case_bool_decide as E; cbn [seen_get]; [by rewrite bool_decide_eq_true_2|].
  destruct (bytes_ltb k k'); cbn [seen_get]; [by rewrite bool_decide_eq_true_2|]. by rewrite bool_decide_eq_false_2.
Qed.

Lemma seen_get_set_ne k k' v l : k' <> k -> seen_get k' (seen_set k v l) = seen_get k' l.
Proof.
  intros Hne. induction l as [|[k1 w] l IH]; cbn [seen_set seen_get].
  - by rewrite bool_decide_eq_false_2 by congruence.
  - case_bool_decide as E; cbn [seen_get]; subst.
    + by rewrite bool_decide_eq_false_2 by congruence.
    + destruct (bytes_ltb k k1); cbn [seen_get]; [|by rewrite IH].
      by rewrite bool_decide_eq_false_2 by congruence.
Qed.

Lemma length_split_at_byte c s : (length (split_at_byte c s).1 + length (split_at_byte c s).2 = length s)%nat.
Proof. rewrite <- length_app. by rewrite split_at_byte_app. Qed.

Lemma read_braced_length n s : (length s <= n)%nat -> (length (read_braced s).1.2 <= length s)%nat.
Proof.
  revert s. induction n as [|n IH]; intros [|c s] Hn; cbn [length] in *; try lia; cbn [read_braced]; [cbn; lia..|].
  destruct (c =? chr "}").
  - destruct s as [|c' s]; [cbn; lia|]. cbn [length] in *. destruct (c' =? chr "}"); [|cbn; lia].
    pose proof (IH s ltac:(lia)). destruct (read_braced s) as [[v rest] closed]. cbn in *. lia.
  - pose proof (IH s ltac:(lia)). destruct (read_braced s) as [[v rest] closed]. cbn in *. lia.
Qed.

Lemma read_value_length s v rest : read_value s = Some (v, rest) -> (length rest <= length s)%nat.
Proof.
  unfold read_value. pose proof (length_drop_while IsSpace s) as Hd.
  destruct (drop_while IsSpace s) as [|c body] eqn:E; [intros [= <- <-]; cbn; lia|].
  destruct (c =? chr "{").
  - pose proof (read_braced_length _ body (le_n _)) as Hb. destruct (read_braced body) as [[value r] closed].
    pose proof (length_drop_while IsSpace r). cbn in *. case_match; [done|]. intros [= <- <-]. lia.
  - pose proof (length_split_at_byte ROW_DEL (c :: body)) as Hb. destruct (split_at_byte ROW_DEL (c :: body)) as [a r].
    cbn in *. intros [= <- <-]. lia.
Qed.

(** A record changes the diagnostics of the handle and nothing else. *)
Lemma dbc_record_facts ret comp msg st server d :
  exists diag, dbc_record ret comp msg st server d = (ret, d <| dbc_diagnostic := diag |>).
Proof. by eexists. Qed.

Lemma connect_record_facts ret msg st c :
  exists diag, connect_record ret msg st c = (ret, c <| c_dbc ::= fun d => d <| dbc_diagnostic := diag |> |>).
Proof. by eexists. Qed.
#[global] Opaque connect_record.

Ltac use_record := match goal with
  | |- context [connect_record ?r ?m ?s ?c] => destruct (connect_record_facts r m s c) as [? ->]
  | H : context [connect_record ?r ?m ?s ?c] |- _ => let E := fresh "E" in destruct (connect_record_facts r m s c) as [? E]; rewrite E in H; clear E
  end.

Section Parse.
Context {Engine : Type} `{OpenOps Engine}.

(** What [FindKeyValPair] does, by what the key is. *)
Variant pair_result (c : Connect) : Z -> Connect -> Prop :=
| pair_kept ret diag : pair_result c ret (c <| c_dbc ::= fun d => d <| dbc_diagnostic := diag |> |>)
| pair_ignored : pair_result c SQL_SUCCESS c
| pair_set key v : key <> SQL_FILE_OPTION -> key <> SQL_FILE_SHA256_OPTION -> pair_result c SQL_SUCCESS (set_option key v c).

Lemma FindKeyValPair_result row c : pair_result c (FindKeyValPair row c).1 (FindKeyValPair row c).2.
Proof.
  unfold FindKeyValPair. destruct (split_at_byte KEY_VAL_DEL row) as [before [|x after]]; [use_record; constructor|].
  case_bool_decide; [constructor|]. unfold FindMatchingKey. destruct (is_option _ c); [|use_record; constructor].
  case_bool_decide; cbn [orb]; [use_record; constructor|]. case_bool_decide; cbn [orb]; [use_record; constructor|].
  by constructor.
Qed.

(** What every record, option and flag keeps, the loop keeps. *)
Lemma parse_loop_inv (P : Connect -> Prop) :
  (forall c diag, P c -> P (c <| c_dbc ::= fun d => d <| dbc_diagnostic := diag |> |>)) ->
  (forall c, P c -> P (c <| success_with_info := true |>)) ->
  (forall key v c, key <> SQL_FILE_OPTION -> key <> SQL_FILE_SHA256_OPTION -> P c -> P (set_option key v c)) ->
  forall fuel rest supplied dup unx c r, P c -> parse_loop fuel rest supplied dup unx c = Some r ->
    match r with inl (ret, c') => P c' /\ SQL_SUCCEEDED ret = false | inr (_, _, c') => P c' end.
Proof.
  intros Hrec Hflag Hset. induction fuel as [|fuel IH]; intros rest supplied dup unx c r HP; cbn [parse_loop]; [done|].
  set (rest' := drop_while _ rest). case_bool_decide; [by intros [= <-]|].
  destruct (split_at_byte KEY_VAL_DEL rest') as [before [|x after]]; [intros [= <-]; use_record; by split; [apply Hrec|]|].
  destruct (read_value after) as [[value rest2]|]; [|intros [= <-]; use_record; by split; [apply Hrec|]].
  case_bool_decide as Ek; [rewrite Ek; by apply IH, Hset|].
  pose proof (FindKeyValPair_result (Lower (TrimString before) ++ KEY_VAL_DEL :: value) c) as Hr.
  destruct (FindKeyValPair _ c) as [ret' c']. cbn [fst snd] in Hr.
  assert (P c') as HP' by (destruct Hr; auto).
  unfold SetSuccessWithInfo. destruct (SQL_SUCCEEDED ret') eqn:Es; cbn [negb]; [|by intros [= <-]].
  apply IH. destruct (ret' =? SQL_SUCCESS_WITH_INFO); auto.
Qed.

(** ** A Cupola connection stands alone *)

(** Nothing but the Cupola connection has been taken from the text. *)
Definition cupola_only (c : Connect) : Prop :=
  (forall k, k <> cupolaconnection -> seen k c = false)
  /\ (if seen cupolaconnection c then exists v, config_map c = {[ cupolaconnection := v ]} else config_map c = ∅).

Lemma seen_set_option k k' v c : seen k' (set_option k v c) = bool_decide (k' = k) || seen k' c.
Proof.
  unfold seen, set_option. cbn. case_bool_decide as E; [subst; by rewrite seen_get_set_eq|].
  by rewrite seen_get_set_ne.
Qed.

Lemma cupola_only_set v c : cupola_only c -> cupola_only (set_option cupolaconnection v c).
Proof.
  intros [Hs Hm]. split.
  - intros k Hk. rewrite seen_set_option, bool_decide_eq_false_2 by done. by apply Hs.
  - rewrite seen_set_option, bool_decide_eq_true_2 by done. cbn [orb]. exists v.
    change (config_map (set_option cupolaconnection v c)) with (<[cupolaconnection := v]> (config_map c)).
    destruct (seen cupolaconnection c); [destruct Hm as [v' ->]; apply insert_singleton_eq|by rewrite Hm].
Qed.

Lemma cupola_only_ext c c' : config_map c' = config_map c -> seen_config_options c' = seen_config_options c ->
  cupola_only c -> cupola_only c'.
Proof. unfold cupola_only, seen. intros -> ->. done. Qed.

Lemma ignored_key key value c : key ∈ IGNORE_KEYS -> FindKeyValPair (key ++ KEY_VAL_DEL :: value) c = (SQL_SUCCESS, c).
Proof.
  intros Hk. unfold FindKeyValPair.
  assert (Forall (fun k => Forall (fun x => x <> KEY_VAL_DEL) k /\ TrimString (Lower k) = k) IGNORE_KEYS) as Hall.
  { repeat constructor; vm_compute; congruence. }
  rewrite Forall_forall in Hall. destruct (Hall key (proj1 (list_elem_of_In _ _) Hk)) as [H1 H2].
  rewrite split_at_byte_found by done. by rewrite H2, bool_decide_eq_true_2.
Qed.

Lemma expected_key key value : unexpected_key key value = false -> key = cupolaconnection \/ key ∈ IGNORE_KEYS.
Proof.
  unfold unexpected_key, IGNORE_KEYS. rewrite !elem_of_cons. intros E.
  repeat (case_bool_decide; [tauto|]). done.
Qed.

(** An unexpected key stays one. *)
Lemma parse_loop_unexpected fuel : forall rest supplied dup c dup' u c',
  parse_loop fuel rest supplied dup true c = Some (inr (dup', u, c')) -> u = true.
Proof.
  induction fuel as [|fuel IH]; intros rest supplied dup c dup' u c'; cbn [parse_loop]; [done|].
  set (rest' := drop_while _ rest). case_bool_decide; [by intros [= _ <- _]|].
  destruct (split_at_byte KEY_VAL_DEL rest') as [before [|x after]]; [done|].
  destruct (read_value after) as [[value rest2]|]; [|done]. cbn [orb].
  case_bool_decide; [apply IH|].
  destruct (FindKeyValPair _ c) as [ret c1]. destruct (SetSuccessWithInfo ret c1) as [[|] c2]; [apply IH|done].
Qed.

Lemma parse_loop_cupola fuel : forall rest supplied dup c c' dup',
  cupola_only c -> parse_loop fuel rest supplied dup false c = Some (inr (dup', false, c')) -> cupola_only c'.
Proof.
  induction fuel as [|fuel IH]; intros rest supplied dup c c' dup' Hc; cbn [parse_loop]; [done|].
  set (rest' := drop_while _ rest). case_bool_decide; [by intros [= <- <-]|].
  destruct (split_at_byte KEY_VAL_DEL rest') as [before [|x after]]; [done|].
  destruct (read_value after) as [[value rest2]|]; [|done]. cbn [orb].
  destruct (unexpected_key _ value) eqn:Eu.
  - intros Hr. exfalso. case_bool_decide; [by apply parse_loop_unexpected in Hr|].
    destruct (FindKeyValPair _ c) as [ret c1]. destruct (SetSuccessWithInfo ret c1) as [[|] c2]; [|done].
    by apply parse_loop_unexpected in Hr.
  - apply expected_key in Eu. case_bool_decide as Ek; [apply IH; rewrite Ek; by apply cupola_only_set|].
    destruct Eu as [?|Eu]; [done|]. rewrite ignored_key by done. by apply IH.
Qed.
End Parse.

Section ConnectFacts.
Context {Engine : Type} `{OpenOps Engine}.

Lemma seen_get_fold ks : forall l k, (seen_get k l = None \/ seen_get k l = Some false) ->
  (seen_get k (unset_all ks l) = None \/ seen_get k (unset_all ks l) = Some false)
  /\ (k ∈ ks \/ seen_get k l = Some false -> seen_get k (unset_all ks l) = Some false).
Proof.
  induction ks as [|k0 ks IH]; intros l k Hl; unfold unset_all in *; cbn [fold_left].
  - split; [done|]. intros [Hin|?]; [by apply not_elem_of_nil in Hin|done].
  - destruct (decide (k = k0)) as [->|Hne].
    + destruct (IH (seen_set k0 false l) k0) as [I1 I2]; [rewrite seen_get_set_eq; by right|].
      split; [done|]. intros _. apply I2. right. apply seen_get_set_eq.
    + destruct (IH (seen_set k0 false l) k) as [I1 I2]; rewrite seen_get_set_ne in * by done; [done|].
      split; [done|]. rewrite elem_of_cons. intros [[?|?]|?]; [done|apply I2; by left|apply I2; by right].
Qed.

(** The keys a client can give. *)
Definition known_keys : list bytes :=
  option_names ++ [cupolaconnection; B"database"; B"dsn"; SQL_FILE_OPTION; SQL_FILE_SHA256_OPTION].

Lemma seen_new k d input : seen k (new_Connect d input) = false.
Proof.
  unfold seen. change (seen_config_options (new_Connect d input)) with (unset_all known_keys []).
  destruct (seen_get_fold known_keys [] k) as [[->| ->] _]; [by left|done..].
Qed.

Lemma is_option_new k d input : k ∈ known_keys -> is_option k (new_Connect d input) = true.
Proof.
  intros Hk. unfold is_option. change (seen_config_options (new_Connect d input)) with (unset_all known_keys []).
  destruct (seen_get_fold known_keys [] k) as [_ E]; [by left|]. rewrite E by by left.
  by rewrite bool_decide_eq_true_2 by by eexists.
Qed.

Lemma cupola_only_new d input : cupola_only (new_Connect d input).
Proof. split; [intros; apply seen_new|]. by rewrite seen_new. Qed.

(** Each round takes a character, so the loop ends. *)
Lemma parse_loop_total fuel : forall rest supplied dup unx c, (length rest < fuel)%nat ->
  is_Some (parse_loop fuel rest supplied dup unx c).
Proof.
  induction fuel as [|fuel IH]; intros rest supplied dup unx c Hl; [lia|]. cbn [parse_loop].
  pose proof (length_drop_while (fun ch => (ch =? ROW_DEL) || IsSpace ch) rest) as Hd.
  set (rest' := drop_while _ rest) in *. case_bool_decide; [by eexists|].
  pose proof (length_split_at_byte KEY_VAL_DEL rest') as Hs.
  destruct (split_at_byte KEY_VAL_DEL rest') as [before [|x after]]; [by eexists|].
  destruct (read_value after) as [[value rest2]|] eqn:Ev; [|by eexists].
  apply read_value_length in Ev. cbn in Hs. case_bool_decide; [apply IH; lia|].
  destruct (FindKeyValPair _ c) as [ret c1]. destruct (SetSuccessWithInfo ret c1) as [[|] c2]; [apply IH; lia|by eexists].
Qed.

Lemma ParseInputStr_some c : is_Some (ParseInputStr c).
Proof.
  unfold ParseInputStr. destruct (parse_loop_total (S (length (input_str c))) (input_str c) [] false false c) as [r ->]; [lia|].
  destruct r as [[]|[[]]]; by eexists.
Qed.

(** The text accepted: how the loop ended. *)
Lemma ParseInputStr_accepted c ret c' : ParseInputStr c = Some (ret, c') -> SQL_SUCCEEDED ret = true ->
  exists dup unx c1, parse_loop (S (length (input_str c))) (input_str c) [] false false c = Some (inr (dup, unx, c1))
    /\ seen cupolaconnection c1 && (dup || unx) = false
    /\ c' = c1 <| c_dbc ::= fun d => d <| dbc_dsn := GetOptionFromConfigMap (B"dsn") [] c1 |> |>.
Proof.
  unfold ParseInputStr. destruct (parse_loop _ _ _ _ _ c) as [[[ret1 c1]|[[dup unx] c1]]|] eqn:E; [..|done].
  - intros [= -> ->] Hs. apply (parse_loop_inv (fun _ => True)) in E as [_ ?]; [congruence|done..].
  - destruct (seen cupolaconnection c1 && (dup || unx)) eqn:Ef.
    + intros Er. apply (inj Some) in Er. use_record. by injection Er as <- _.
    + intros [= <- <-] _. by exists dup, unx, c1.
Qed.

Lemma connect_dsn f c k : seen k (c <| c_dbc ::= f |>) = seen k c
  /\ config_map (c <| c_dbc ::= f |>) = config_map c.
Proof. done. Qed.

Lemma unseen_default k v c : seen k c = false -> GetOptionFromConfigMap k v c = v.
Proof. intros E. unfold GetOptionFromConfigMap. by rewrite E. Qed.

Lemma accepted_cupola d input ret c :
  ParseInputStr (new_Connect d input) = Some (ret, c) -> SQL_SUCCEEDED ret = true -> seen cupolaconnection c = true ->
  cupola_only c /\ dbc_dsn (c_dbc c) = [].
Proof.
  intros Hp Hs Hc. apply ParseInputStr_accepted in Hp as (dup & unx & c1 & Hl & Hf & ->); [|done].
  destruct (connect_dsn (fun d => d <| dbc_dsn := GetOptionFromConfigMap (B"dsn") [] c1 |>) c1 cupolaconnection) as [E _].
  rewrite E in Hc. rewrite Hc in Hf. cbn in Hf. apply orb_false_elim in Hf as [-> ->].
  apply parse_loop_cupola in Hl; [|apply cupola_only_new]. split; [by apply (cupola_only_ext c1)|].
  cbn. apply unseen_default. by apply Hl.
Qed.

Lemma ReadFromIniFile_no_dsn c : dbc_dsn (c_dbc c) = [] -> ReadFromIniFile c = (SQL_SUCCESS, c).
Proof. intros E. unfold ReadFromIniFile. rewrite E. by destruct (negb _). Qed.
(** What the database is opened with for a Cupola connection. *)
Definition cupola_arguments : OpenArguments := {|
  database := IN_MEMORY_PATH;
  driver_options := [(B"allow_unsigned_extensions", B"false"); (B"duckdb_api", B"odbc")];
  client_options := ∅; last_options := []; cache_instance := false |}.

Lemma cupola_open_arguments c : cupola_only c -> seen cupolaconnection c = true ->
  exists name, config_map c = {[ cupolaconnection := name ]}
    /\ GetOptionFromConfigMap cupolaconnection [] c = name
    /\ (name <> [] -> open_arguments c = cupola_arguments).
Proof.
  intros [Hk Hm] Hc. rewrite Hc in Hm. destruct Hm as [name Hm]. exists name. split; [done|].
  assert (GetOptionFromConfigMap cupolaconnection [] c = name) as En.
  { unfold GetOptionFromConfigMap. by rewrite Hc, Hm, lookup_singleton_eq. }
  split; [done|]. intros Hne. unfold open_arguments.
  rewrite (bool_decide_eq_false_2 (GetOptionFromConfigMap cupolaconnection [] c = [])) by congruence.
  rewrite !unseen_default by by apply Hk. by rewrite Hm, delete_singleton_eq, !delete_empty.
Qed.
End ConnectFacts.

(** ** Writing a connection string *)
Definition escape (v : bytes) : bytes := v ≫= fun c => if c =? chr "}" then [c; c] else [c].
Definition print_item (kv : bytes * bytes) : bytes :=
  kv.1 ++ KEY_VAL_DEL :: chr "{" :: escape kv.2 ++ [chr "}"; ROW_DEL].
Definition print_items (items : list (bytes * bytes)) : bytes := items ≫= print_item.

(** The options an accepted text sets, in the order of the items. *)
Definition apply_items (items : list (bytes * bytes)) (c : Connect) : Connect :=
  fold_left (fun c kv => set_option kv.1 (TrimString kv.2) c) items c.

Definition key_char (ch : Z) : Prop :=
  ch <> KEY_VAL_DEL /\ (ch =? ROW_DEL) || IsSpace ch = false /\ ascii_lower ch = ch.

Section RoundTrip.
Context {Engine : Type} `{OpenOps Engine}.

(** A key that can be given in a string and that the driver keeps. *)
Record client_key (k : bytes) : Prop := {
  key_known : k ∈ known_keys;
  key_kept : k ∉ cupolaconnection :: SQL_FILE_OPTION :: SQL_FILE_SHA256_OPTION :: IGNORE_KEYS;
  key_chars : k <> [] /\ Forall key_char k
}.

Lemma read_braced_escape v rest : head rest <> Some (chr "}") ->
  read_braced (escape v ++ chr "}" :: rest) = (v, rest, true).
Proof.
  intros Hr. induction v as [|c v IH].
  - cbn [escape mbind list_bind app read_braced]. rewrite Z.eqb_refl. destruct rest as [|r rest]; [done|].
    rewrite (proj2 (Z.eqb_neq r _)); [done|]. intros ->. done.
  - change (escape (c :: v)) with ((if c =? chr "}" then [c; c] else [c]) ++ escape v). rewrite <- app_assoc.
    destruct (c =? chr "}") eqn:E; cbn [app read_braced]; rewrite ?E, IH; done.
Qed.

Lemma key_trim k : Forall key_char k -> TrimString k = k.
Proof.
  intros Hk. rewrite <- (app_nil_r k) at 1. rewrite <- (app_nil_l (k ++ [])).
  assert (forall l ch, Forall key_char l -> head l = Some ch -> IsSpace ch = false) as Hh.
  { intros [|x l] ch Hl [= ->]. apply Forall_cons_1 in Hl as [(_ & E & _) _]. by apply orb_false_elim in E as [_ ?]. }
  apply TrimString_core; [done..| |]; intros ch; apply Hh; [done|by apply Forall_reverse].
Qed.

Lemma key_no_equals k : Forall key_char k -> Forall (fun ch => ch <> KEY_VAL_DEL) k.
Proof. induction 1 as [|ch k [? _] _ IH]; by constructor. Qed.

Lemma key_lower k : Forall key_char k -> Lower k = k.
Proof. induction 1 as [|ch k (_ & _ & E) _ IH]; [done|]. unfold Lower in *. cbn. by rewrite E, IH. Qed.

Lemma read_value_braced v rest : head rest = Some ROW_DEL ->
  read_value (chr "{" :: escape v ++ chr "}" :: rest) = Some (v, rest).
Proof.
  intros Hr. unfold read_value. change (drop_while IsSpace (chr "{" :: ?x)) with (chr "{" :: x). cbn match.
  rewrite Z.eqb_refl, read_braced_escape by by rewrite Hr.
  destruct rest as [|r rest]; [done|]. cbn in Hr. injection Hr as ->. done.
Qed.

Lemma FindKeyValPair_client k v c : client_key k -> is_option k c = true ->
  FindKeyValPair (k ++ KEY_VAL_DEL :: v) c = (SQL_SUCCESS, set_option k (TrimString v) c).
Proof.
  intros [_ Hk [_ Hc]] Ho. unfold FindKeyValPair. rewrite split_at_byte_found by by apply key_no_equals.
  rewrite key_lower, key_trim by done. rewrite !not_elem_of_cons in Hk. destruct Hk as (_ & H1 & H2 & H3).
  rewrite bool_decide_eq_false_2 by done. unfold FindMatchingKey. rewrite Ho.
  by rewrite !bool_decide_eq_false_2 by done.
Qed.

Lemma is_option_set k k' v c : is_option k c = true -> is_option k (set_option k' v c) = true.
Proof.
  unfold is_option, set_option. cbn. intros Hk. destruct (decide (k = k')) as [->|Hne].
  - rewrite seen_get_set_eq. by rewrite bool_decide_eq_true_2 by by eexists.
  - by rewrite seen_get_set_ne.
Qed.

Lemma parse_printed items : forall fuel rest supplied dup unx c, (length rest < fuel)%nat ->
  drop_while (fun ch => (ch =? ROW_DEL) || IsSpace ch) rest = print_items items ->
  Forall (fun kv => client_key kv.1 /\ is_option kv.1 c = true) items ->
  exists dup' unx', parse_loop fuel rest supplied dup unx c = Some (inr (dup', unx', apply_items items c)).
Proof.
  induction items as [|[k v] items IH]; intros [|fuel] rest supplied dup unx c Hl Hr Hi; try lia; cbn [parse_loop].
  - rewrite Hr. cbn. by eexists _, _.
  - pose proof (length_drop_while (fun ch => (ch =? ROW_DEL) || IsSpace ch) rest) as Hd. rewrite Hr in Hd.
    apply Forall_cons_1 in Hi as [[Hk Ho] Hi]. cbn [fst] in *. pose proof (key_chars k Hk) as [Hne Hc].
    assert (print_items ((k, v) :: items) = k ++ KEY_VAL_DEL :: chr "{" :: escape v ++ chr "}" :: ROW_DEL :: print_items items) as Ep.
    { unfold print_items. cbn [mbind list_bind]. unfold print_item. cbn [fst snd]. rewrite <- !app_assoc. cbn [app].
      by rewrite <- app_assoc. }
    rewrite Hr, Ep in *. rewrite bool_decide_eq_false_2 by (by destruct k).
    rewrite split_at_byte_found by by apply key_no_equals.
    rewrite read_value_braced by done. rewrite key_trim, key_lower by done.
    pose proof (key_kept k Hk) as Hkept. rewrite !not_elem_of_cons in Hkept.
    rewrite bool_decide_eq_false_2 by tauto. rewrite FindKeyValPair_client by done. cbn [SetSuccessWithInfo].
    change (SQL_SUCCEEDED SQL_SUCCESS) with true. cbn [negb].
    apply IH; [rewrite !length_app in Hd; cbn [length] in *; rewrite length_app in Hd; cbn [length] in *; lia| |].
    + cbn [drop_while]. rewrite Z.eqb_refl. cbn [orb]. destruct items as [|[k2 v2] items]; [done|].
      apply Forall_cons_1 in Hi as [[Hk2 _] _]. destruct (key_chars k2 Hk2) as [Hne2 Hc2]. cbn [fst] in *.
      destruct k2 as [|x k2]; [done|]. apply Forall_cons_1 in Hc2 as [(_ & E & _) _].
      unfold print_items. cbn [mbind list_bind]. unfold print_item. cbn [fst app drop_while]. by rewrite E.
    + clear -Hi. induction Hi as [|kv l [? ?] _ IHl]; constructor; [|done]. split; [done|]. by apply is_option_set.
Qed.
End RoundTrip.

(** ** The properties *)
Section ConnectProperties.
Context {Engine : Type} `{OpenOps Engine}.

(** Reading a connection string ends for every text and every state of the
    handle. *)
Theorem ParseInputStr_total c : is_Some (ParseInputStr c).
Proof. apply ParseInputStr_some. Qed.

Lemma config_map_apply items : forall c,
  config_map (apply_items items c) = fold_left (fun m kv => <[kv.1 := TrimString kv.2]> m) items (config_map c).
Proof. induction items as [|kv items IH]; intros c; [done|]. unfold apply_items in *. cbn [fold_left]. by rewrite IH. Qed.

(** The options seen are the ones that have a value. *)
Definition seen_valued (c : Connect) : Prop := forall k, seen k c = bool_decide (is_Some (config_map c !! k)).

Lemma seen_valued_set k v c : seen_valued c -> seen_valued (set_option k v c).
Proof.
  intros Hc k'. rewrite seen_set_option.
  change (config_map (set_option k v c)) with (<[k := v]> (config_map c)). case_bool_decide as E; cbn [orb].
  - subst. rewrite lookup_insert_eq. by rewrite bool_decide_eq_true_2 by by eexists.
  - rewrite lookup_insert_ne by done. apply Hc.
Qed.

Lemma seen_valued_apply items : forall c, seen_valued c -> seen_valued (apply_items items c).
Proof. induction items as [|kv items IH]; intros c Hc; [done|]. apply IH. by apply seen_valued_set. Qed.

Lemma seen_valued_new d input : seen_valued (new_Connect d input).
Proof. intros k. by rewrite seen_new. Qed.

Lemma option_value k c : seen_valued c -> GetOptionFromConfigMap k [] c = default [] (config_map c !! k).
Proof.
  intros Hc. unfold GetOptionFromConfigMap. rewrite Hc. case_bool_decide as E; [done|].
  by destruct (config_map c !! k); [destruct E; eexists|].
Qed.

Lemma seen_apply_ne k items : forall c, Forall (fun kv => kv.1 <> k) items -> seen k (apply_items items c) = seen k c.
Proof.
  induction items as [|kv items IH]; intros c Hi; [done|]. apply Forall_cons_1 in Hi as [Hk Hi].
  unfold apply_items in *. cbn [fold_left]. rewrite IH by done. rewrite seen_set_option.
  by rewrite bool_decide_eq_false_2 by congruence.
Qed.

Lemma flag_apply items : forall c, success_with_info (apply_items items c) = success_with_info c.
Proof. induction items as [|kv items IH]; intros c; [done|]. unfold apply_items in *. cbn [fold_left]. by rewrite IH. Qed.

(** C16: What is written as [key={value};], with the closing braces of the values
    doubled, is read back: the options the client gives are the trimmed values,
    the last one of a key that is repeated, whatever characters they contain,
    and the data source is the value of its key. *)
Theorem connection_string_roundtrip d items : Forall (fun kv => client_key kv.1) items ->
  exists c, ParseInputStr (new_Connect d (print_items items)) = Some (SQL_SUCCESS, c)
    /\ config_map c = fold_left (fun m kv => <[kv.1 := TrimString kv.2]> m) items ∅
    /\ dbc_dsn (c_dbc c) = default [] (config_map c !! B"dsn").
Proof.
  intros Hi. set (c0 := new_Connect d (print_items items)).
  destruct (parse_printed items (S (length (input_str c0))) (input_str c0) [] false false c0) as (dup & unx & E);
    [lia| | |].
  - destruct items as [|[k v] items]; [done|]. apply Forall_cons_1 in Hi as [Hk _].
    destruct (key_chars k Hk) as [Hne Hc]. destruct k as [|x k]; [done|]. apply Forall_cons_1 in Hc as [(_ & Ex & _) _].
    unfold c0. cbn [new_Connect input_str]. unfold print_items. cbn [mbind list_bind]. unfold print_item.
    cbn [fst app drop_while]. by rewrite Ex.
  - clear -Hi. induction Hi as [|kv l Hk _ IH]; constructor; [|done]. split; [done|]. apply is_option_new, Hk.
  - pose proof (seen_valued_apply items c0 (seen_valued_new _ _)) as Hv.
    assert (seen cupolaconnection (apply_items items c0) = false) as Es.
    { rewrite seen_apply_ne; [apply seen_new|]. clear -Hi. induction Hi as [|kv l Hk _ IH]; constructor; [|done].
      pose proof (key_kept _ Hk) as Hkk. rewrite !not_elem_of_cons in Hkk. tauto. }
    exists ((apply_items items c0) <| c_dbc ::= fun d => d <| dbc_dsn := GetOptionFromConfigMap (B"dsn") [] (apply_items items c0) |> |>).
    unfold ParseInputStr. fold c0 in E |- *. rewrite E, Es. cbn [andb]. split_and!.
    + change (success_with_info (?x <| c_dbc ::= _ |>)) with (success_with_info x). by rewrite flag_apply.
    + apply config_map_apply.
    + cbn. by rewrite option_value.
Qed.

(** C15: An accepted text that names a Cupola connection leaves the client no
    say in anything else: no data source is read, and the database is opened in
    memory, unshared, with unsigned extensions refused, no option of the client
    and no script. *)
Theorem cupola_stands_alone d input ret c :
  ParseInputStr (new_Connect d input) = Some (ret, c) -> SQL_SUCCEEDED ret = true -> seen cupolaconnection c = true ->
  ReadFromIniFile c = (SQL_SUCCESS, c)
  /\ GetOptionFromConfigMap SQL_FILE_OPTION [] c = []
  /\ exists name, config_map c = {[ cupolaconnection := name ]}
     /\ (name <> [] -> open_arguments c = {|
           database := IN_MEMORY_PATH;
           driver_options := [(B"allow_unsigned_extensions", B"false"); (B"duckdb_api", B"odbc")];
           client_options := ∅; last_options := []; cache_instance := false |}).
Proof.
  intros Hp Hs Hc. destruct (accepted_cupola d input ret c Hp Hs Hc) as [Ho Hd].
  split; [by apply ReadFromIniFile_no_dsn|]. split; [by apply unseen_default, Ho|].
  destruct (cupola_open_arguments c Ho Hc) as (name & Hm & _ & Ha). by exists name.
Qed.

(** C20: A connection string cannot name a script: neither the script nor its
    digest is taken from the text, so without a data source none is run. *)
Theorem script_not_from_string d input ret c : ParseInputStr (new_Connect d input) = Some (ret, c) ->
  seen SQL_FILE_OPTION c = false /\ seen SQL_FILE_SHA256_OPTION c = false
  /\ (odbc_link_odbcinst = false \/ dbc_dsn (c_dbc c) = [] ->
        GetOptionFromConfigMap SQL_FILE_OPTION [] (ReadFromIniFile c).2 = []).
Proof.
  set (P c := seen SQL_FILE_OPTION c = false /\ seen SQL_FILE_SHA256_OPTION c = false). intros Hp.
  assert (P c) as [H1 H2].
  { unfold ParseInputStr in Hp. destruct (parse_loop _ _ _ _ _ _) as [r|] eqn:E; [|done].
    apply (parse_loop_inv P) in E; [| | |intros key v c1 Hk1 Hk2 [? ?]|by split; apply seen_new].
    - destruct r as [[ret1 c1]|[[dup unx] c1]]; [by injection Hp as -> ->; apply E|].
      destruct (seen cupolaconnection c1 && (dup || unx)); apply (inj Some) in Hp; [use_record|]; by injection Hp as _ <-.
    - done.
    - done.
    - unfold P. rewrite !seen_set_option, !bool_decide_eq_false_2 by congruence. done. }
  split; [done|]. split; [done|]. intros Hd. assert (ReadFromIniFile c = (SQL_SUCCESS, c)) as ->.
  { destruct Hd as [Hd|Hd]; [|by apply ReadFromIniFile_no_dsn]. unfold ReadFromIniFile. by rewrite Hd. }
  by apply unseen_default.
Qed.
End ConnectProperties.

Section Connected.
Context {Engine : Type} `{OpenOps Engine} `{FileOps} `{QueryOps Engine}.

Lemma dbc_record_conn ret comp msg st server d : conn (dbc_record ret comp msg st server d).2 = conn d.
Proof. by destruct (dbc_record_facts ret comp msg st server d) as [? ->]. Qed.

Lemma connect_record_conn ret msg st c : conn (c_dbc (connect_record ret msg st c).2) = conn (c_dbc c).
Proof. by use_record. Qed.

Lemma RunQueryWithStmt_conn query d e : conn (RunQueryWithStmt query d e).1.2 = conn d.
Proof.
  unfold RunQueryWithStmt. destruct (negb _); [cbn [fst snd]; apply dbc_record_conn|].
  destruct (exec_direct _ e) as [[ret diag] e1]. destruct (negb _); [cbn [fst snd]; apply dbc_record_conn|done].
Qed.

Lemma Run_conn f created d e : conn (Run f created d e).1.2 = conn d.
Proof.
  unfold Run. set (r1 := if _ && _ then _ else _).
  assert (conn r1.1.2 = conn d) as E1 by (subst r1; destruct (_ && _); [apply RunQueryWithStmt_conn|done]).
  destruct r1 as [[ret1 d1] e1]. cbn [fst snd] in E1. destruct (negb (SQL_SUCCEEDED ret1)); [done|].
  set (r2 := if negb _ then _ else _).
  assert (conn r2.1.2 = conn d1) as E2 by (subst r2; destruct (negb _); [apply RunQueryWithStmt_conn|done]).
  destruct r2 as [[ret2 d2] e2]. cbn [fst snd] in E2. destruct (negb (SQL_SUCCEEDED ret2)); [cbn; congruence|].
  cbn [fst snd]. rewrite dbc_record_conn. congruence.
Qed.

Lemma ini_options_conn dsn keys : forall acc,
  conn (c_dbc (fold_left (fun acc key => ini_option dsn key acc) keys acc).2) = conn (c_dbc acc.2).
Proof.
  induction keys as [|key keys IH]; intros [failed c]; [done|]. cbn [fold_left]. rewrite IH. unfold ini_option.
  destruct (failed || key.2); [done|]. destruct (profile_string dsn key.1) as [n v].
  destruct (n =? 0); [done|]. destruct (n <? 0); [apply connect_record_conn|done].
Qed.

Lemma ReadFromIniFile_conn c : conn (c_dbc (ReadFromIniFile c).2) = conn (c_dbc c).
Proof.
  unfold ReadFromIniFile. destruct (negb _); [done|]. case_bool_decide; [done|].
  pose proof (ini_options_conn (dbc_dsn (c_dbc c)) (seen_config_options c) (false, c)) as E.
  by destruct (fold_left _ _ _) as [failed c'].
Qed.

Lemma SetDatabaseName_conn name d : conn (SetDatabaseName name d) = conn d.
Proof. unfold SetDatabaseName. by destruct (zlen name =? 0). Qed.

(** The connection is there exactly when it has succeeded. *)
Lemma SetConnection_conn c e : conn (c_dbc c) = false ->
  conn (c_dbc (SetConnection c e).1.2) = SQL_SUCCEEDED (SetConnection c e).1.1.
Proof.
  intros Hc. unfold SetConnection. rewrite <- ReadFromIniFile_conn in Hc. set (c1 := (ReadFromIniFile c).2) in *.
  destruct (seen cupolaconnection c1 && _); [use_record; by apply Hc|]. generalize (open_arguments c1) as args. intros args.
  destruct (ReadSQLFile _ _) as [what|f]; [use_record; exact (eq_trans (SetDatabaseName_conn (database args) (c_dbc c1)) Hc)|].
  destruct (open_instance args e) as [[what|created] e1]; [use_record; exact (eq_trans (SetDatabaseName_conn (database args) (c_dbc c1)) Hc)|].
  set (r := if negb (IsEmpty f) then _ else _).
  assert (conn (c_dbc r.1.2) = SQL_SUCCEEDED r.1.1) as Er.
  { subst r. destruct (negb (IsEmpty f)); [|done]. match goal with |- context [Run f created ?d ?e] => pose proof (Run_conn f created d e) as Hr end.
    destruct (Run f created _ _) as [[ret d] e2]. cbn [fst snd] in *. cbn. destruct (SQL_SUCCEEDED ret) eqn:Es; [by rewrite Hr|done]. }
  clearbody r. destruct r as [[ret c2] e2]. cbn [fst snd] in *. destruct (negb _); cbn [andb]; [|done].
  destruct (SQL_SUCCEEDED ret) eqn:Es; [|cbn; congruence].
  destruct (attach_cupola _ e2) as [[what|] e3]; [by use_record|cbn; congruence].
Qed.

Lemma ParseInputStr_conn c ret c' : ParseInputStr c = Some (ret, c') -> conn (c_dbc c') = conn (c_dbc c).
Proof.
  intros Hp. unfold ParseInputStr in Hp. destruct (parse_loop _ _ _ _ _ _) as [r|] eqn:E; [|done].
  apply (parse_loop_inv (fun c' => conn (c_dbc c') = conn (c_dbc c))) in E; [| done..].
  destruct r as [[ret1 c1]|[[dup unx] c1]]; [by injection Hp as -> ->; apply E|].
  destruct (seen cupolaconnection c1 && (dup || unx)); apply (inj Some) in Hp; [use_record|]; by injection Hp as _ <-.
Qed.

End Connected.

(** ** An engine with three options *)
Definition three_options : OpenOps (list bytes) := {|
  option_names := [B"threads"; B"memory_limit"; B"enable_external_access"];
  candidates_message := fun k => B"Did you mean: threads";
  odbc_link_odbcinst := true;
  profile_string := fun dsn key => (0, []);
  open_instance := fun args e => if bool_decide (database args = B"missing") then (inl (B"no such file"), e) else (inr true, database args :: e);
  new_connection := fun _ e => e;
  attach_cupola := fun name e => (None, name :: e)
|}.

#[local] Existing Instance three_options.

Lemma connection_string_roundtrip_witness :
  let items := [(B"threads", B"4"); (B"database", B" a;b}c "); (B"dsn", B"Duck"); (B"threads", B"8")] in
  print_items items = B"threads={4};database={ a;b}}c };dsn={Duck};threads={8};"
  /\ exists c, ParseInputStr (new_Connect new_OdbcHandleDbc (print_items items)) = Some (SQL_SUCCESS, c)
       /\ config_map c = fold_left (fun m kv => <[kv.1 := TrimString kv.2]> m) items ∅
       /\ dbc_dsn (c_dbc c) = default [] (config_map c !! B"dsn").
Proof.
  intros items. split; [reflexivity|]. apply (@connection_string_roundtrip _ three_options new_OdbcHandleDbc items).
  repeat constructor; cbn [fst]; try (apply (bool_decide_unpack _); vm_compute; exact I); vm_compute; congruence.
Defined.

Lemma cupola_stands_alone_witness :
  let input := B"Driver={Haybarn}; UID=; CupolaConnection={shop}}1}" in
  exists c, ParseInputStr (new_Connect new_OdbcHandleDbc input) = Some (SQL_SUCCESS, c)
    /\ ReadFromIniFile c = (SQL_SUCCESS, c)
    /\ exists name, config_map c = {[ cupolaconnection := name ]}.
Proof.
  intros input. destruct (ParseInputStr (new_Connect new_OdbcHandleDbc input)) as [[ret c]|] eqn:E;
    [|vm_compute in E; discriminate].
  assert (ret = SQL_SUCCESS) as -> by (vm_compute in E; congruence).
  assert (seen cupolaconnection c = true) as Es by (vm_compute in E; injection E as <-; reflexivity).
  destruct (@cupola_stands_alone _ three_options new_OdbcHandleDbc input SQL_SUCCESS c E eq_refl Es) as (H1 & _ & name & H2 & _).
  exists c. split; [done|]. split; [done|]. by exists name.
Defined.

Lemma script_not_from_string_witness :
  let input := B"threads=4;session_init_sql_file=/tmp/a.sql" in
  exists c, ParseInputStr (new_Connect new_OdbcHandleDbc input) = Some (SQL_ERROR, c)
    /\ seen SQL_FILE_OPTION c = false.
Proof.
  intros input. destruct (ParseInputStr (new_Connect new_OdbcHandleDbc input)) as [[ret c]|] eqn:E;
    [|vm_compute in E; discriminate].
  assert (ret = SQL_ERROR) as -> by (vm_compute in E; congruence).
  exists c. split; [done|]. apply (@script_not_from_string _ three_options new_OdbcHandleDbc input SQL_ERROR c E).
Defined.

Definition idle_queries : QueryOps (list bytes) := {|
  alloc_stmt := fun _ => SQL_SUCCESS;
  exec_direct := fun text e => (SQL_SUCCESS, None, text :: e)
|}.

