(* ===== verification/Attributes.v ===== *)
(** * The attributes of handles ([odbc_api/attribute_api.cpp])

    A pointer argument carries a number or an address, as the attribute says; it
    is a [Z] either way. [None] stands for a write through a null pointer that
    the code does not guard. *)

From S2P Require Import Prelude OdbcConst Memory Widechar OdbcUtils Diagnostic Descriptor Params Fetch Stmt SessionInit Connect.

(** ** The environment *)

(** The engine of an environment is always there. The constructor leaves the
    attributes indeterminate, taken as 0. *)
Record OdbcHandleEnv := MkOdbcHandleEnv {
  env_diagnostic : OdbcDiagnostic;
  odbc_version : Z;
  connection_pooling : Z;
  cp_match : Z;
  output_nts : Z
}.

Definition new_OdbcHandleEnv : OdbcHandleEnv := MkOdbcHandleEnv new_OdbcDiagnostic 0 0 0 0.

Definition env_record (ret : Z) (component msg : bytes) (state : SQLStateType) (v : OdbcHandleEnv) : Z * OdbcHandleEnv :=
  let '(ret, diag) := SetDiagnosticRecord ret component msg state [] (env_diagnostic v) in
  (ret, v <| env_diagnostic := diag |>).

Definition SQLGetEnvAttr (attribute : Z) (value_ptr : ptr) (v : OdbcHandleEnv) (m : mem) : Z * OdbcHandleEnv * mem :=
  if value_ptr =? nullptr then (SQL_SUCCESS, v, m)
  else if attribute =? SQL_ATTR_ODBC_VERSION then (SQL_SUCCESS, v, store 4 m value_ptr (odbc_version v))
  else if attribute =? SQL_ATTR_CONNECTION_POOLING then (SQL_SUCCESS, v, store 4 m value_ptr (connection_pooling v))
  else if attribute =? SQL_ATTR_OUTPUT_NTS then (SQL_SUCCESS, v, store 4 m value_ptr (output_nts v))
  else if attribute =? SQL_ATTR_CP_MATCH then
    (env_record SQL_SUCCESS_WITH_INFO (B"SQLGetEnvAttr") (B"Optional feature not implemented.") ST_HYC00 v, m)
  else (SQL_SUCCESS, v, m).

(** Values like 380 stand for version 3.8. *)
Definition ExtractMajorVersion (value_ptr : ptr) : Z :=
  let full_version := u32 value_ptr in
  if 100 <? full_version then full_version / 100
  else if 10 <? full_version then full_version / 10
  else full_version.

Definition SQLSetEnvAttr (attribute : Z) (value_ptr : ptr) (v : OdbcHandleEnv) : Z * OdbcHandleEnv :=
  if attribute =? SQL_ATTR_ODBC_VERSION then
    let major_version := ExtractMajorVersion value_ptr in
    if (major_version =? SQL_OV_ODBC3) || (major_version =? SQL_OV_ODBC2) then
      (SQL_SUCCESS, v <| odbc_version := major_version |>)
    else env_record SQL_SUCCESS_WITH_INFO (B"SQLSetEnvAttr")
           (B"ODBC version not supported: " ++ to_string major_version) ST_HY092 v
  else if attribute =? SQL_ATTR_CONNECTION_POOLING then
    let pooling := s32 value_ptr in
    if (pooling =? SQL_CP_OFF) || (pooling =? SQL_CP_ONE_PER_DRIVER) || (pooling =? SQL_CP_ONE_PER_HENV) then
      (SQL_SUCCESS, v <| connection_pooling := pooling |>)
    else env_record SQL_SUCCESS_WITH_INFO (B"SQLSetConnectAttr")
           (B"Connection pooling not supported: " ++ to_string attribute) ST_HY092 v
  else if attribute =? SQL_ATTR_CP_MATCH then
    env_record SQL_SUCCESS_WITH_INFO (B"SQLSetConnectAttr") (B"Optional feature not implemented.") ST_HY092 v
  else if attribute =? SQL_ATTR_OUTPUT_NTS then
    if s32 value_ptr =? SQL_TRUE then (SQL_SUCCESS, v <| output_nts := SQL_TRUE |>)
    else env_record SQL_SUCCESS_WITH_INFO (B"SQLSetConnectAttr")
           (B"Optional feature not implemented.  SQL_ATTR_OUTPUT_NTS must be SQL_TRUE") ST_HY092 v
  else env_record SQL_SUCCESS_WITH_INFO (B"SQLSetEnvAttr") (B"Invalid attribute value") ST_HY024 v.

(** ** The connection *)
Definition VENDOR_MSJET : Z := 30002.

Definition attr_record (ret : Z) (component msg : bytes) (state : SQLStateType) (d : OdbcHandleDbc) : Z * OdbcHandleDbc :=
  dbc_record ret component msg state (dbc_dsn d) d.

(** The overloads of [WriteStringConnAttr]; the length is in bytes for the narrow
    one and in units for the wide one. *)
Definition WriteStringConnAttr (c : CharType) (str : bytes) (out : ptr) (buffer_length : Z) (string_length : ptr)
    (d : OdbcHandleDbc) (m : mem) : Z * OdbcHandleDbc * mem :=
  if buffer_length <? 0 then
    (attr_record SQL_ERROR (B"SQLGetConnectAttr") (B"Invalid string or buffer length") ST_HY090 d, m)
  else
    let '(written, total, m) :=
      match c with
      | SQLCHAR_T => let '(written, m) := WriteStringUtf8 str out buffer_length m in (written, zlen str, m)
      | SQLWCHAR_T => let '(written, utf16_vec, m) := WriteStringUtf16 str out buffer_length m in (written, zlen utf16_vec, m)
      end in
    let m := store_opt 4 m string_length total in
    if negb (out =? nullptr) && (written <? total) then
      (attr_record SQL_SUCCESS_WITH_INFO (B"SQLGetConnectAttr") (B"String data, right truncated") ST_01004 d, m)
    else (SQL_SUCCESS, d, m).

(** The attributes [GetConnectAttrInternal] answers with [SQL_NO_DATA]; the
    asynchronous ones and the token exist in the headers. *)
Definition no_data_attrs : list Z :=
  [SQL_ATTR_ASYNC_DBC_EVENT; SQL_ATTR_ASYNC_DBC_FUNCTIONS_ENABLE; SQL_ATTR_ASYNC_DBC_PCALLBACK; SQL_ATTR_ASYNC_DBC_PCONTEXT;
   SQL_ATTR_ASYNC_ENABLE; SQL_ATTR_AUTO_IPD; SQL_ATTR_CONNECTION_DEAD; SQL_ATTR_CONNECTION_TIMEOUT;
   SQL_ATTR_DBC_INFO_TOKEN; SQL_ATTR_ENLIST_IN_DTC; SQL_ATTR_LOGIN_TIMEOUT; SQL_ATTR_METADATA_ID;
   SQL_ATTR_ODBC_CURSORS; SQL_ATTR_PACKET_SIZE; SQL_ATTR_QUIET_MODE; SQL_ATTR_TRACE; SQL_ATTR_TRACEFILE;
   SQL_ATTR_TRANSLATE_LIB; SQL_ATTR_TRANSLATE_OPTION].

Definition GetConnectAttrInternal (c : CharType) (attribute : Z) (value_ptr : ptr) (buffer_length : Z)
    (string_length_ptr : ptr) (d : OdbcHandleDbc) (m : mem) : Z * OdbcHandleDbc * mem :=
  let '(ret, d) := ConvertConnection d in
  if negb (ret =? SQL_SUCCESS) then (ret, d, m)
  else if attribute =? SQL_ATTR_AUTOCOMMIT then
    (SQL_SUCCESS, d, StoreWithLength 4 4 (Z.b2z (autocommit d)) value_ptr string_length_ptr m)
  else if attribute =? SQL_ATTR_ACCESS_MODE then
    (SQL_SUCCESS, d, StoreWithLength 4 4 (sql_attr_access_mode d) value_ptr string_length_ptr m)
  else if attribute =? SQL_ATTR_CURRENT_CATALOG then
    WriteStringConnAttr c (sql_attr_current_catalog d) value_ptr buffer_length string_length_ptr d m
  else if bool_decide (attribute ∈ no_data_attrs) then (SQL_NO_DATA, d, m)
  else if attribute =? SQL_ATTR_QUERY_TIMEOUT then
    (SQL_SUCCESS, d, StoreWithLength 4 4 0 value_ptr string_length_ptr m)
  else if attribute =? SQL_ATTR_TXN_ISOLATION then
    (SQL_SUCCESS, d, StoreWithLength 4 4 SQL_TXN_SERIALIZABLE value_ptr string_length_ptr m)
  else (attr_record SQL_ERROR (B"SQLGetConnectAttr") (B"Attribute not supported.") ST_HY092 d, m).

(** The wide entry point doubles the length whatever the attribute. *)
Definition SQLGetConnectAttr (attribute : Z) (value_ptr : ptr) (buffer_length : Z) (string_length_ptr : ptr)
    (d : OdbcHandleDbc) (m : mem) : Z * OdbcHandleDbc * mem :=
  GetConnectAttrInternal SQLCHAR_T attribute value_ptr buffer_length string_length_ptr d m.
Definition SQLGetConnectAttrW (attribute : Z) (value_ptr : ptr) (buffer_length : Z) (string_length_ptr : ptr)
    (d : OdbcHandleDbc) (m : mem) : Z * OdbcHandleDbc * mem :=
  let '(ret, d, m) := GetConnectAttrInternal SQLWCHAR_T attribute value_ptr buffer_length string_length_ptr d m in
  (ret, d, if SQL_SUCCEEDED ret && negb (string_length_ptr =? nullptr)
           then store 4 m string_length_ptr (s32 (load_s 4 m string_length_ptr * 2)) else m).

(** The overloads of [SetCurrentCatalog]. *)
Definition SetCurrentCatalog (c : CharType) (fuel : nat) (value : ptr) (length : Z) (m : mem) (d : OdbcHandleDbc) : OdbcHandleDbc :=
  d <| sql_attr_current_catalog :=
    match c with
    | SQLCHAR_T => if negb (length =? SQL_NTS) then read_bytes m value (Z.to_nat (u64 length)) else c_string m value fuel
    | SQLWCHAR_T => to_utf8_str (make_utf16_conv fuel m value length)
    end |>.

Section ConnectAttr.
Context {Engine SQLStatement : Type} `{EngineOps Engine SQLStatement}.

(** The inner [switch] of [SQL_ATTR_AUTOCOMMIT]: a case of the outer one,
    [SQL_ATTR_METADATA_ID], is inside it. *)
Definition set_autocommit (value_ptr : ptr) (d : OdbcHandleDbc) (e : Engine) : Z * OdbcHandleDbc * Engine :=
  if value_ptr =? SQL_AUTOCOMMIT_ON then (SQL_SUCCESS, d <| autocommit := true |>, engine_set_autocommit true e)
  else if value_ptr =? SQL_AUTOCOMMIT_OFF then (SQL_SUCCESS, d <| autocommit := false |>, engine_set_autocommit false e)
  else if value_ptr =? SQL_ATTR_METADATA_ID then
    (SQL_SUCCESS, if negb (value_ptr =? nullptr) then d <| sql_attr_metadata_id := SQLPointerToSQLUInteger value_ptr |> else d, e)
  else (SQL_SUCCESS, d, e).

Definition before_connection (attribute : Z) : bool :=
  (attribute =? SQL_ATTR_LOGIN_TIMEOUT) || (attribute =? SQL_ATTR_ODBC_CURSORS) || (attribute =? SQL_ATTR_PACKET_SIZE)
  || (attribute =? VENDOR_MSJET).

Definition async_attrs : list Z :=
  [SQL_ATTR_ASYNC_DBC_EVENT; SQL_ATTR_ASYNC_DBC_FUNCTIONS_ENABLE; SQL_ATTR_ASYNC_DBC_PCALLBACK; SQL_ATTR_ASYNC_DBC_PCONTEXT;
   SQL_ATTR_ASYNC_ENABLE].
Definition accepted_attrs : list Z :=
  [SQL_ATTR_DBC_INFO_TOKEN; SQL_ATTR_ENLIST_IN_DTC; SQL_ATTR_METADATA_ID; SQL_ATTR_QUIET_MODE; SQL_ATTR_TRACE;
   SQL_ATTR_TRACEFILE; SQL_ATTR_TRANSLATE_LIB; SQL_ATTR_TRANSLATE_OPTION; SQL_ATTR_TXN_ISOLATION].

Definition SetConnectAttrInternal (c : CharType) (fuel : nat) (attribute : Z) (value_ptr : ptr) (string_length : Z)
    (d : OdbcHandleDbc) (e : Engine) (m : mem) : Z * OdbcHandleDbc * Engine :=
  let fail ret msg state d := (attr_record ret (B"SQLSetConnectAttr") msg state d, e) in
  if before_connection attribute then (SQL_SUCCESS, d, e)
  else
    let '(ret, d) := ConvertConnection d in
    if negb (ret =? SQL_SUCCESS) then (ret, d, e)
    else if attribute =? SQL_ATTR_AUTOCOMMIT then set_autocommit value_ptr d e
    else if attribute =? SQL_ATTR_ACCESS_MODE then
      let access_mode := SQLPointerToSQLUInteger value_ptr in
      if access_mode =? SQL_MODE_READ_WRITE then (SQL_SUCCESS, d <| sql_attr_access_mode := SQL_MODE_READ_WRITE |>, e)
      else if access_mode =? SQL_MODE_READ_ONLY then (SQL_SUCCESS, d <| sql_attr_access_mode := SQL_MODE_READ_ONLY |>, e)
      else fail SQL_ERROR (B"Invalid access mode.") ST_HY024 d
    else if bool_decide (attribute ∈ async_attrs) then
      fail SQL_ERROR (B"DuckDB does not support asynchronous events.") ST_HY024 d
    else if (attribute =? SQL_ATTR_AUTO_IPD) || (attribute =? SQL_ATTR_CONNECTION_DEAD) then
      fail SQL_ERROR (B"Read-only attribute.") ST_HY092 d
    else if attribute =? SQL_ATTR_CONNECTION_TIMEOUT then (SQL_SUCCESS, d, e)
    else if attribute =? SQL_ATTR_CURRENT_CATALOG then
      if conn d then fail SQL_ERROR (B"Connection already established, the database name could not be set.") ST_01S00 d
      else (SQL_SUCCESS, SetCurrentCatalog c fuel value_ptr string_length m d, e)
    else if bool_decide (attribute ∈ accepted_attrs) then (SQL_SUCCESS, d, e)
    else fail SQL_SUCCESS_WITH_INFO (B"Option value changed:" ++ to_string attribute) ST_01S02 d.

Definition SQLSetConnectAttr (fuel : nat) (attribute : Z) (value_ptr : ptr) (string_length : Z)
    (d : OdbcHandleDbc) (e : Engine) (m : mem) : Z * OdbcHandleDbc * Engine :=
  SetConnectAttrInternal SQLCHAR_T fuel attribute value_ptr string_length d e m.
Definition SQLSetConnectAttrW (fuel : nat) (attribute : Z) (value_ptr : ptr) (string_length : Z)
    (d : OdbcHandleDbc) (e : Engine) (m : mem) : Z * OdbcHandleDbc * Engine :=
  SetConnectAttrInternal SQLWCHAR_T fuel attribute value_ptr string_length d e m.
End ConnectAttr.

(** ** The statement *)

(** A write through a pointer the code does not test. *)
Definition store_deref (n : nat) (m : mem) (p : ptr) (z : Z) : option mem :=
  if p =? nullptr then None else Some (store n m p z).

Definition header_of (h : OdbcHandleStmt) : DescHeader := desc_header (apd (param_desc h)).
Definition ard_header (h : OdbcHandleStmt) : DescHeader := desc_header (ard (row_desc h)).

Section StmtAttr.

(** The address of the descriptor with an identity, and the descriptor at one;
    there is none at the null pointer, which the code does not test. *)
Context (handle_of : nat -> ptr) (object_at : ptr -> option OdbcHandleDesc).

(** The attributes read through a pointer that is tested, with their widths. *)
Definition guarded_attr (attribute : Z) (h : OdbcHandleStmt) : option (nat * Z) :=
  if attribute =? SQL_ATTR_PARAM_BIND_OFFSET_PTR then Some (8%nat, GetBindOffesetPtr (param_desc h))
  else if attribute =? SQL_ATTR_PARAM_BIND_TYPE then Some (4%nat, sql_desc_bind_type (header_of h))
  else if attribute =? SQL_ATTR_PARAMS_PROCESSED_PTR then Some (8%nat, GetParamProcessedPtr (param_desc h))
  else if attribute =? SQL_ATTR_PARAMSET_SIZE then Some (8%nat, sql_desc_array_size (header_of h))
  else if attribute =? SQL_ATTR_ROW_ARRAY_SIZE then Some (8%nat, sql_desc_array_size (ard_header h))
  else if attribute =? SQL_ATTR_ROWS_FETCHED_PTR then Some (8%nat, rows_fetched_ptr h)
  else if attribute =? SQL_ATTR_ROW_BIND_TYPE then Some (8%nat, u64 (sql_desc_bind_type (ard_header h)))
  else if attribute =? SQL_ATTR_ROW_STATUS_PTR then Some (8%nat, row_status_ptr h)
  else if attribute =? SQL_ATTR_CURSOR_TYPE then Some (8%nat, cursor_type (odbc_fetcher h))
  else None.

(** The ones read through a pointer that is not. *)
Definition unguarded_attr (attribute : Z) (h : OdbcHandleStmt) : option (nat * Z) :=
  if attribute =? SQL_ATTR_CONCURRENCY then Some (8%nat, SQL_CONCUR_LOCK)
  else if attribute =? SQL_ATTR_QUERY_TIMEOUT then Some (4%nat, 0)
  else if attribute =? SQL_ATTR_RETRIEVE_DATA then Some (8%nat, retrieve_data h)
  else if attribute =? SQL_ATTR_CURSOR_SCROLLABLE then Some (8%nat, cursor_scrollable (odbc_fetcher h))
  else if attribute =? SQL_ATTR_MAX_LENGTH then Some (8%nat, max_len h)
  else None.

Definition desc_attr (attribute : Z) (h : OdbcHandleStmt) : option ptr :=
  if attribute =? SQL_ATTR_APP_PARAM_DESC then Some (handle_of (desc_id (cur_apd (param_desc h))))
  else if attribute =? SQL_ATTR_IMP_PARAM_DESC then Some (handle_of (desc_id (GetIPD (param_desc h))))
  else if attribute =? SQL_ATTR_APP_ROW_DESC then Some (handle_of (desc_id (Descriptor.GetARD (row_desc h))))
  else if attribute =? SQL_ATTR_IMP_ROW_DESC then Some (handle_of (desc_id (GetIRD (row_desc h))))
  else None.

Definition GetStmtAttrInternal (conn : bool) (attribute : Z) (value_ptr string_length_ptr : ptr) (h : OdbcHandleStmt) (m : mem)
    : option (Z * OdbcHandleStmt * mem) :=
  let '(ret, h) := ConvertHSTMT conn h in
  if negb (ret =? SQL_SUCCESS) then Some (ret, h, m)
  else match desc_attr attribute h with
  | Some desc_handle => m ← store_deref 8 (store_opt 4 m string_length_ptr SQL_IS_POINTER) value_ptr desc_handle; Some (SQL_SUCCESS, h, m)
  | None =>
      match guarded_attr attribute h with
      | Some (w, val) => if value_ptr =? nullptr then Some (SQL_ERROR, h, m) else Some (SQL_SUCCESS, h, store w m value_ptr val)
      | None =>
          match unguarded_attr attribute h with
          | Some (w, val) => m ← store_deref w m value_ptr val; Some (SQL_SUCCESS, h, m)
          | None => Some (stmt_error SQL_ERROR (B"SQLGetStmtAttr") (B"Unsupported attribute type:" ++ to_string attribute) ST_HY092 h, m)
          end
      end
  end.

Definition on_apd_header (f : DescHeader -> DescHeader) (h : OdbcHandleStmt) : OdbcHandleStmt :=
  h <| param_desc ::= fun pd => pd <| apd ::= fun a => a <| desc_header ::= f |> |> |>.
Definition on_ard_header (f : DescHeader -> DescHeader) (h : OdbcHandleStmt) : OdbcHandleStmt :=
  h <| row_desc ::= fun rd => rd <| ard ::= fun a => a <| desc_header ::= f |> |> |>.
Definition on_ird_header (f : DescHeader -> DescHeader) (h : OdbcHandleStmt) : OdbcHandleStmt :=
  h <| row_desc ::= fun rd => rd <| ird ::= fun a => a <| desc_header ::= f |> |> |>.

Definition set_scrollable (attribute value : Z) (h : OdbcHandleStmt) : Z * OdbcHandleStmt :=
  if value =? SQL_NONSCROLLABLE then
    (SQL_SUCCESS, h <| odbc_fetcher ::= fun f => f <| cursor_type := SQL_CURSOR_FORWARD_ONLY |> <| cursor_scrollable := value |> |>)
  else if value =? SQL_SCROLLABLE then
    (SQL_SUCCESS, h <| odbc_fetcher ::= fun f => f <| cursor_type := SQL_CURSOR_STATIC |> <| cursor_scrollable := value |> |>)
  else stmt_error SQL_ERROR (B"SQLSetStmtAttr") (B"Invalid attribute value:" ++ to_string attribute) ST_HY024 h.

(** The attributes but for the two application descriptors. *)
Definition set_plain_attr (attribute : Z) (value_ptr : ptr) (h : OdbcHandleStmt) (m : mem) : Z * OdbcHandleStmt * mem :=
  let value := u64 value_ptr in
  let changed h := stmt_error SQL_SUCCESS_WITH_INFO (B"SQLSetStmtAttr") (B"Option value changed:" ++ to_string attribute) ST_01S02 h in
  if attribute =? SQL_ATTR_PARAMSET_SIZE then
    (SQL_SUCCESS, on_apd_header (fun x => x <| sql_desc_array_size := value |>) h, m)
  else if attribute =? SQL_ATTR_PARAM_BIND_TYPE then
    (SQL_SUCCESS, if negb (value_ptr =? nullptr) then on_apd_header (fun x => x <| sql_desc_bind_type := s32 value |>) h else h, m)
  else if attribute =? SQL_ATTR_PARAMS_PROCESSED_PTR then
    let '(pd, m) := SetParamProcessedPtr value_ptr (param_desc h) m in (SQL_SUCCESS, h <| param_desc := pd |>, m)
  else if attribute =? SQL_ATTR_PARAM_STATUS_PTR then (SQL_SUCCESS, h <| param_desc ::= SetArrayStatusPtr value_ptr |>, m)
  else if attribute =? SQL_ATTR_ROW_ARRAY_SIZE then
    if negb (value_ptr =? nullptr) then
      if value <? 1 then (SQL_ERROR, h, m)
      else (SQL_SUCCESS, on_ard_header (fun x => x <| sql_desc_array_size := value |>) h, m)
    else (SQL_SUCCESS, h, m)
  else if attribute =? SQL_ATTR_ROWS_FETCHED_PTR then
    (SQL_SUCCESS, on_ird_header (fun x => x <| sql_desc_rows_processed_ptr := value_ptr |>) (h <| rows_fetched_ptr := value_ptr |>), m)
  else if attribute =? SQL_ATTR_ROW_BIND_TYPE then
    if value_ptr =? nullptr then (SQL_ERROR, h, m)
    else (SQL_SUCCESS, on_ard_header (fun x => x <| sql_desc_bind_type := s32 value |>) h, m)
  else if attribute =? SQL_ATTR_ROW_STATUS_PTR then
    (SQL_SUCCESS, on_ird_header (fun x => x <| sql_desc_array_status_ptr := value_ptr |>) h, m)
  else if attribute =? SQL_ATTR_CURSOR_TYPE then
    (SQL_SUCCESS, h <| odbc_fetcher ::= fun f => f <| cursor_type := value |> |>, m)
  else if (attribute =? SQL_ATTR_IMP_PARAM_DESC) || (attribute =? SQL_ATTR_IMP_ROW_DESC) then
    (stmt_error SQL_ERROR (B"SQLSetStmtAttr") (B"Option value changed:" ++ to_string attribute) ST_HY017 h, m)
  else if attribute =? SQL_ATTR_PARAM_BIND_OFFSET_PTR then (SQL_SUCCESS, h <| param_desc ::= SetBindOffesetPtr value_ptr |>, m)
  else if attribute =? SQL_ATTR_CONCURRENCY then
    if negb (value =? SQL_CONCUR_LOCK) then (changed h, m) else (SQL_SUCCESS, h, m)
  else if attribute =? SQL_ATTR_QUERY_TIMEOUT then (SQL_SUCCESS, h, m)
  else if attribute =? SQL_ATTR_RETRIEVE_DATA then
    if (value =? SQL_RD_ON) || (value =? SQL_RD_OFF) then (SQL_SUCCESS, h <| retrieve_data := value |>, m)
    else (stmt_error SQL_ERROR (B"SQLSetStmtAttr") (B"Invalid attribute value: " ++ to_string attribute) ST_HY024 h, m)
  else if attribute =? SQL_ATTR_CURSOR_SCROLLABLE then (set_scrollable attribute value h, m)
  else if attribute =? SQL_ATTR_MAX_LENGTH then (SQL_SUCCESS, h <| max_len := value |>, m)
  else (changed h, m).

Definition SetStmtAttrInternal (conn : bool) (attribute : Z) (value_ptr : ptr) (h : OdbcHandleStmt) (m : mem)
    : option (Z * OdbcHandleStmt * mem) :=
  let '(ret, h) := ConvertHSTMT conn h in
  if negb (ret =? SQL_SUCCESS) then Some (ret, h, m)
  else if attribute =? SQL_ATTR_APP_ROW_DESC then new_ard ← object_at value_ptr; Some (SQL_SUCCESS, SetARD new_ard h, m)
  else if attribute =? SQL_ATTR_APP_PARAM_DESC then new_apd ← object_at value_ptr; Some (SQL_SUCCESS, SetAPD new_apd h, m)
  else Some (set_plain_attr attribute value_ptr h m).

(** The narrow and the wide entry points are the same. *)
Definition SQLGetStmtAttr := GetStmtAttrInternal.
Definition SQLSetStmtAttr := SetStmtAttrInternal.
End StmtAttr.

(** ** Statement attributes are read back *)
Definition read_attr (attribute : Z) (h : OdbcHandleStmt) : option (nat * Z) :=
  match guarded_attr attribute h with Some r => Some r | None => unguarded_attr attribute h end.

Definition stored_attrs : list Z :=
  [SQL_ATTR_PARAMSET_SIZE; SQL_ATTR_PARAM_BIND_TYPE; SQL_ATTR_PARAMS_PROCESSED_PTR; SQL_ATTR_ROW_ARRAY_SIZE;
   SQL_ATTR_ROWS_FETCHED_PTR; SQL_ATTR_ROW_BIND_TYPE; SQL_ATTR_ROW_STATUS_PTR; SQL_ATTR_CURSOR_TYPE;
   SQL_ATTR_PARAM_BIND_OFFSET_PTR; SQL_ATTR_RETRIEVE_DATA; SQL_ATTR_CURSOR_SCROLLABLE; SQL_ATTR_MAX_LENGTH].

(** The values an attribute keeps. *)
Definition storable (attribute v : Z) : Prop :=
  if (attribute =? SQL_ATTR_PARAM_BIND_TYPE) || (attribute =? SQL_ATTR_ROW_BIND_TYPE) then 0 < v < 2 ^ 31
  else if (attribute =? SQL_ATTR_RETRIEVE_DATA) || (attribute =? SQL_ATTR_CURSOR_SCROLLABLE) then 0 <= v <= 1
  else if attribute =? SQL_ATTR_ROW_ARRAY_SIZE then 0 < v < 2 ^ 64
  else 0 <= v < 2 ^ 64.

Ltac each_stored H := repeat (apply elem_of_cons in H as [->|H]); [..|by apply not_elem_of_nil in H].

(** What setting an attribute that keeps its value does: it is read back, and
    the others are read as before; a cursor that is made scrollable has its type
    changed. *)
Definition stored_attr (attribute v : Z) (h : OdbcHandleStmt) (r : Z * OdbcHandleStmt * mem) (m : mem) : Prop :=
  exists h', r = (SQL_SUCCESS, h', if attribute =? SQL_ATTR_PARAMS_PROCESSED_PTR then store_opt 8 m v 0 else m)
    /\ (exists w, read_attr attribute h' = Some (w, v) /\ 0 <= v < 256 ^ Z.of_nat w)
    /\ (forall b, b ∈ stored_attrs -> b <> attribute ->
          (attribute = SQL_ATTR_CURSOR_SCROLLABLE -> b <> SQL_ATTR_CURSOR_TYPE) -> read_attr b h' = read_attr b h).

Lemma set_plain_stored attribute v h m : attribute ∈ stored_attrs -> storable attribute v ->
  stored_attr attribute v h (set_plain_attr attribute v h m) m.
Proof.
  intros Ha Hv. unfold stored_attrs in Ha. each_stored Ha; unfold storable in Hv; cbn in Hv; unfold set_plain_attr;
    rewrite ?(wrap_u_small 64 v) by (unfold in_u; lia); rewrite ?(wrap_s_small 32 v) by (unfold in_s; lia);
    first [assert (v = 0 \/ v = 1) as [->| ->] by lia | idtac];
    try rewrite (proj2 (Z.eqb_neq v nullptr)) by lia; try rewrite (proj2 (Z.ltb_ge v 1)) by lia.
  all: eexists; split; [reflexivity|]; split;
    [eexists; split; [try reflexivity; cbn; by rewrite (wrap_u_small 64 v) by (unfold in_u; lia)|cbn; lia]
    |intros b Hb Hne Hs; unfold stored_attrs in Hb; each_stored Hb; try done; try (by destruct Hne); by destruct (Hs eq_refl)].
Qed.

Lemma ConvertHSTMT_open h : ConvertHSTMT true h = (SQL_SUCCESS, h <| stmt_diagnostic ::= Clean |>).
Proof. done. Qed.

Lemma read_attr_clean attribute h : read_attr attribute (h <| stmt_diagnostic ::= Clean |>) = read_attr attribute h.
Proof. done. Qed.

Lemma stored_not_desc attribute : attribute ∈ stored_attrs ->
  (attribute =? SQL_ATTR_APP_ROW_DESC) = false /\ (attribute =? SQL_ATTR_APP_PARAM_DESC) = false
  /\ (forall handle_of h, desc_attr handle_of attribute h = None).
Proof. intros Ha. unfold stored_attrs in Ha. by each_stored Ha. Qed.

Lemma get_stored handle_of attribute out len h m w v : attribute ∈ stored_attrs -> out <> nullptr ->
  read_attr attribute h = Some (w, v) ->
  GetStmtAttrInternal handle_of true attribute out len h m
  = Some (SQL_SUCCESS, h <| stmt_diagnostic ::= Clean |>, store w m out v).
Proof.
  intros Ha Ho Hr. unfold GetStmtAttrInternal. rewrite ConvertHSTMT_open. cbn [Z.eqb negb].
  destruct (stored_not_desc attribute Ha) as (_ & _ & ->). rewrite <- read_attr_clean in Hr. unfold read_attr in Hr.
  rewrite (proj2 (Z.eqb_neq out 0)) by done.
  destruct (guarded_attr attribute _) as [[w' v']|]; [by injection Hr as -> ->|]. rewrite Hr.
  unfold store_deref. by rewrite (proj2 (Z.eqb_neq out 0)).
Qed.

(** C23: A statement attribute that is set to a value it keeps is read back as
    that value, in the width of the attribute, and setting it leaves every other
    attribute as it was; only making the cursor scrollable changes its type. *)
Theorem stmt_attr_roundtrip handle_of object_at attribute v out len h m :
  attribute ∈ stored_attrs -> storable attribute v -> out <> nullptr ->
  exists h' m' w, SQLSetStmtAttr object_at true attribute v h m = Some (SQL_SUCCESS, h', m')
    /\ (exists h'', SQLGetStmtAttr handle_of true attribute out len h' m' = Some (SQL_SUCCESS, h'', store w m' out v)
          /\ load_u w (store w m' out v) out = v)
    /\ (forall b, b ∈ stored_attrs -> b <> attribute ->
          (attribute = SQL_ATTR_CURSOR_SCROLLABLE -> b <> SQL_ATTR_CURSOR_TYPE) ->
          exists w' z h1 h2,
            SQLGetStmtAttr handle_of true b out len h m = Some (SQL_SUCCESS, h1, store w' m out z)
            /\ SQLGetStmtAttr handle_of true b out len h' m' = Some (SQL_SUCCESS, h2, store w' m' out z)).
Proof.
  intros Ha Hv Ho. destruct (set_plain_stored attribute v (h <| stmt_diagnostic ::= Clean |>) m Ha Hv)
    as (h' & Hset & (w & Hr & Hw) & Hother).
  unfold SQLSetStmtAttr, SetStmtAttrInternal. rewrite ConvertHSTMT_open. cbn [Z.eqb negb].
  destruct (stored_not_desc attribute Ha) as (-> & -> & _). rewrite Hset.
  eexists h', _, w. split; [reflexivity|]. split.
  - eexists. unfold SQLGetStmtAttr. rewrite (get_stored _ _ _ _ _ _ w v) by done. split; [reflexivity|].
    rewrite load_u_store. unfold wrap_u. rewrite <- pow256. by apply Z.mod_small.
  - intros b Hb Hne Hs. specialize (Hother b Hb Hne Hs). rewrite read_attr_clean in Hother.
    assert (exists w' z, read_attr b h = Some (w', z)) as (w' & z & Ez) by (unfold stored_attrs in Hb; each_stored Hb; by eexists _, _).
    rewrite Ez in Hother. exists w', z. eexists _, _. unfold SQLGetStmtAttr.
    rewrite !(get_stored _ b _ _ _ _ w' z) by done. done.
Qed.

(** ** What the attributes of a connection can do *)
Section ConnectAttrFacts.
Context {Engine SQLStatement : Type} `{EngineOps Engine SQLStatement}.

(** The fields an attribute is about, apart from the diagnostics. *)
Definition attr_state (d : OdbcHandleDbc) : bool * Z * Z := (autocommit d, sql_attr_access_mode d, sql_attr_metadata_id d).

Lemma attr_record_facts ret comp msg st d :
  exists diag, attr_record ret comp msg st d = (ret, d <| dbc_diagnostic := diag |>).
Proof. unfold attr_record. apply dbc_record_facts. Qed.

Lemma ConvertConnection_facts d : exists diag, ConvertConnection d =
  (if conn d then SQL_SUCCESS else SQL_ERROR, d <| dbc_diagnostic := diag |>).
Proof. unfold ConvertConnection. destruct (conn d); cbn [negb]; [by eexists|apply dbc_record_facts]. Qed.

(** How the state of the connection and the engine can change. *)
Variant attr_change (attribute v : Z) (d : OdbcHandleDbc) (e : Engine) : bool * Z * Z -> Engine -> Prop :=
| attrs_kept : attr_change attribute v d e (attr_state d) e
| autocommit_set (on : bool) : attribute = SQL_ATTR_AUTOCOMMIT -> v = Z.b2z on ->
    attr_change attribute v d e (on, sql_attr_access_mode d, sql_attr_metadata_id d) (engine_set_autocommit on e)
| access_mode_set mode : attribute = SQL_ATTR_ACCESS_MODE -> mode = SQL_MODE_READ_WRITE \/ mode = SQL_MODE_READ_ONLY ->
    u32 (u64 v) = mode -> attr_change attribute v d e (autocommit d, mode, sql_attr_metadata_id d) e
| metadata_id_set : attribute = SQL_ATTR_AUTOCOMMIT -> v = SQL_ATTR_METADATA_ID ->
    attr_change attribute v d e (autocommit d, sql_attr_access_mode d, SQL_ATTR_METADATA_ID) e.

(** The rest of the connection, and the result. *)
Definition attr_frame (attribute v : Z) (d : OdbcHandleDbc) (e : Engine) (r : Z * OdbcHandleDbc * Engine) : Prop :=
  let '(ret, d', e') := r in
  conn d' = conn d /\ dbc_dsn d' = dbc_dsn d /\ vec_stmt_ref d' = vec_stmt_ref d
  /\ sql_attr_current_catalog d' = sql_attr_current_catalog d
  /\ (attribute = SQL_ATTR_CURRENT_CATALOG -> ret = SQL_ERROR)
  /\ attr_change attribute v d e (attr_state d') e'.

Lemma attr_frame_record ret comp msg st attribute v d e diag :
  (attribute = SQL_ATTR_CURRENT_CATALOG -> ret = SQL_ERROR) ->
  attr_frame attribute v d e (attr_record ret comp msg st (d <| dbc_diagnostic := diag |>), e).
Proof.
  intros Hr. destruct (attr_record_facts ret comp msg st (d <| dbc_diagnostic := diag |>)) as [diag' ->].
  split_and!; try done. exact (attrs_kept _ _ d e).
Qed.

Lemma attr_frame_done attribute v d e d' e' : attribute <> SQL_ATTR_CURRENT_CATALOG ->
  conn d' = conn d -> dbc_dsn d' = dbc_dsn d -> vec_stmt_ref d' = vec_stmt_ref d ->
  sql_attr_current_catalog d' = sql_attr_current_catalog d -> attr_change attribute v d e (attr_state d') e' ->
  attr_frame attribute v d e (SQL_SUCCESS, d', e').
Proof. intros. by split_and!. Qed.

(** C22: Setting a connection attribute changes the connection in three ways
    only: the autocommit mode, together with the engine's, the access mode, to
    one of its two values, and the identifier mode, which is set by the value
    10014 of the autocommit attribute and by nothing else. The current catalogue
    is never changed, and setting it never succeeds. *)
Theorem SetConnectAttr_state c fuel attribute v len d e m :
  attr_frame attribute v d e (SetConnectAttrInternal c fuel attribute v len d e m).
Proof.
  unfold SetConnectAttrInternal. destruct (before_connection attribute) eqn:Eb.
  { apply attr_frame_done; try done; [by intros ->|exact (attrs_kept _ _ d e)]. }
  destruct (ConvertConnection_facts d) as [diag ->]. destruct (conn d) eqn:Ec; cbn [negb Z.eqb].
  2: { split_and!; try done. exact (attrs_kept _ _ d e). }
  destruct (Z.eqb_spec attribute SQL_ATTR_AUTOCOMMIT) as [Ea|Ea].
  { unfold set_autocommit. repeat case_match; zbool; subst; apply attr_frame_done; try done;
      [exact (autocommit_set _ _ d e true eq_refl eq_refl)|exact (autocommit_set _ _ d e false eq_refl eq_refl)
      |exact (metadata_id_set _ _ d e eq_refl eq_refl)|exact (attrs_kept _ _ d e)]. }
  destruct (Z.eqb_spec attribute SQL_ATTR_ACCESS_MODE) as [Em|Em].
  { destruct (SQLPointerToSQLUInteger v =? SQL_MODE_READ_WRITE) eqn:E0; [|destruct (SQLPointerToSQLUInteger v =? SQL_MODE_READ_ONLY) eqn:E1].
    - zbool. subst. apply attr_frame_done; try done. exact (access_mode_set _ _ d e _ eq_refl (or_introl eq_refl) E0).
    - zbool. subst. apply attr_frame_done; try done. exact (access_mode_set _ _ d e _ eq_refl (or_intror eq_refl) E1).
    - by apply attr_frame_record. }
  case_bool_decide as E1; [apply attr_frame_record; by intros ->|].
  destruct ((attribute =? SQL_ATTR_AUTO_IPD) || _); [by apply attr_frame_record|].
  destruct (Z.eqb_spec attribute SQL_ATTR_CONNECTION_TIMEOUT) as [->|_]; [by apply attr_frame_done; try done; exact (attrs_kept _ _ d e)|].
  destruct (Z.eqb_spec attribute SQL_ATTR_CURRENT_CATALOG) as [->|Hc].
  { change (conn (d <| dbc_diagnostic := diag |>)) with (conn d). rewrite Ec. by apply attr_frame_record. }
  case_bool_decide; [by apply attr_frame_done; try done; exact (attrs_kept _ _ d e)|]. by apply attr_frame_record.
Qed.
End ConnectAttrFacts.

(** ** Reading the catalogue, and the version of the environment *)

(** The bytes of a text that [WriteStringUtf8] delivers. *)
Definition delivered (s : bytes) (n : Z) : Z := if n =? 0 then zlen s else Z.min (zlen s) (n - 1).

Lemma catalog_read out n len d m : conn d = true -> out <> nullptr -> 0 <= n < 2 ^ 31 ->
  zlen (sql_attr_current_catalog d) < 2 ^ 31 ->
  let s := sql_attr_current_catalog d in let k := delivered s n in
  exists d', SQLGetConnectAttr SQL_ATTR_CURRENT_CATALOG out n len d m =
    (if k <? zlen s then SQL_SUCCESS_WITH_INFO else SQL_SUCCESS, d',
     store_opt 4 (store 1 (write_bytes m out (ztake k s)) (out + k) 0) len (zlen s)).
Proof.
  intros Hc Ho Hn Hs s k. unfold SQLGetConnectAttr, GetConnectAttrInternal.
  destruct (ConvertConnection_facts d) as [diag ->]. rewrite Hc. cbn [negb Z.eqb Pos.eqb].
  change (sql_attr_current_catalog (d <| dbc_diagnostic := diag |>)) with s.
  unfold WriteStringConnAttr, WriteStringUtf8. rewrite (proj2 (Z.ltb_ge n 0)) by lia.
  rewrite (proj2 (Z.eqb_neq out nullptr)) by done. cbn [negb andb].
  assert (Z.min (zlen s) (u64 (n - 1)) = k) as ->.
  { unfold k, delivered. destruct (Z.eqb_spec n 0) as [->|]; [change (u64 (0 - 1)) with (2 ^ 64 - 1); fold s in Hs; lia|].
    by rewrite wrap_u_small by (unfold in_u; lia). }
  destruct (k <? zlen s); [|by eexists]. match goal with |- context [attr_record ?r ?c ?m ?s ?d] => destruct (attr_record_facts r c m s d) as [? ->] end.
  by eexists.
Qed.

(** The current catalogue is delivered whole, with its length, when the
    buffer has room for it and its terminator; a shorter buffer gets what fits,
    terminated, with a warning and the whole length; nothing but the buffer and
    the length changes. A buffer of length 0 gets all of it, past its end. *)
Theorem catalog_delivered out n len d m ret d' m' : conn d = true -> out <> nullptr -> 0 <= n < 2 ^ 31 ->
  zlen (sql_attr_current_catalog d) < 2 ^ 31 ->
  let s := sql_attr_current_catalog d in let k := delivered s n in
  (len = nullptr \/ len + 4 <= out \/ out + k < len) ->
  SQLGetConnectAttr SQL_ATTR_CURRENT_CATALOG out n len d m = (ret, d', m') ->
  read_bytes m' out (Z.to_nat k) = ztake k s /\ read_byte m' (out + k) = 0
  /\ (ret = SQL_SUCCESS <-> n = 0 \/ zlen s < n) /\ (ret = SQL_SUCCESS_WITH_INFO <-> 0 < n <= zlen s)
  /\ (len <> nullptr -> load_s 4 m' len = zlen s)
  /\ (forall a, a < out \/ out + k < a -> a < len \/ len + 4 <= a -> m' !! a = m !! a).
Proof.
  intros Hc Ho Hn Hs s k Hlen E. destruct (catalog_read out n len d m Hc Ho Hn Hs) as [d1 E1]. fold s k in E1.
  rewrite E1 in E. injection E as <- <- <-. pose proof (zlen_nonneg s) as Hz. fold s in Hs.
  assert (0 <= k <= zlen s) as Hk by (unfold k, delivered; destruct (Z.eqb_spec n 0); lia).
  set (m1 := store 1 (write_bytes m out (ztake k s)) (out + k) 0).
  assert (forall a, a < len \/ len + 4 <= a -> store_opt 4 m1 len (zlen s) !! a = m1 !! a) as Hout.
  { intros a Ha. apply store_opt_outside. lia. }
  assert (forall a, out <= a <= out + k -> store_opt 4 m1 len (zlen s) !! a = m1 !! a) as Hin.
  { intros a Ha. destruct (decide (len = nullptr)) as [->|]; [by rewrite store_opt_null|]. apply Hout. lia. }
  split_and!.
  - rewrite (read_bytes_ext _ m1) by (intros; apply Hin; lia). unfold m1. rewrite read_bytes_store_after by lia.
    apply read_write_prefix. rewrite zlen_ztake; lia.
  - unfold read_byte. rewrite Hin by lia. apply (read_byte_store1 _ _ 0).
  - unfold k, delivered. destruct (Z.eqb_spec n 0); [rewrite Z.ltb_irrefl; lia|].
    destruct (Z.ltb_spec (Z.min (zlen s) (n - 1)) (zlen s)); lia.
  - unfold k, delivered. destruct (Z.eqb_spec n 0); [rewrite Z.ltb_irrefl; lia|].
    destruct (Z.ltb_spec (Z.min (zlen s) (n - 1)) (zlen s)); lia.
  - intros Hl. unfold store_opt. rewrite (proj2 (Z.eqb_neq len nullptr)) by done. apply load_s_store_in; [lia|].
    unfold in_s. cbn. lia.
  - intros a Ha1 Ha2. rewrite Hout by done. unfold m1. rewrite store_outside by lia.
    apply write_bytes_outside. rewrite zlen_ztake by lia. lia.
Qed.

(** The version given to an environment is accepted exactly when its leading
    digits are 2 or 3 (2, 3, 20 to 39 and 200 to 399), and it is the leading
    digit that is kept and read back. *)
Theorem env_version v env out m : in_u 32 v ->
  let accepted := 2 <= v <= 3 \/ 20 <= v <= 39 \/ 200 <= v <= 399 in
  ((SQLSetEnvAttr SQL_ATTR_ODBC_VERSION v env).1 = SQL_SUCCESS <-> accepted)
  /\ (accepted -> out <> nullptr ->
        let env' := (SQLSetEnvAttr SQL_ATTR_ODBC_VERSION v env).2 in
        exists d, d = (if v <=? 10 then v else if v <=? 100 then v / 10 else v / 100)
          /\ SQLGetEnvAttr SQL_ATTR_ODBC_VERSION out env' m = (SQL_SUCCESS, env', store 4 m out d)).
Proof.
  intros Hv accepted. unfold SQLSetEnvAttr. cbn [Z.eqb Pos.eqb]. unfold ExtractMajorVersion.
  rewrite (wrap_u_small 32 v) by done. unfold in_u in Hv.
  set (d := if 100 <? v then v / 100 else if 10 <? v then v / 10 else v).
  assert (((d =? SQL_OV_ODBC3) || (d =? SQL_OV_ODBC2) = true) <-> accepted) as Hd.
  { unfold d, accepted. destruct (Z.ltb_spec 100 v); [|destruct (Z.ltb_spec 10 v)]; rewrite orb_true_iff, !Z.eqb_eq; dlia. }
  destruct ((d =? SQL_OV_ODBC3) || (d =? SQL_OV_ODBC2)) eqn:E.
  - split; [split; [intros _; by apply Hd|done]|]. intros _ Ho. cbn zeta. cbn [snd]. exists d. split.
    + unfold d. destruct (Z.ltb_spec 100 v), (Z.ltb_spec 10 v), (Z.leb_spec v 10), (Z.leb_spec v 100); lia.
    + unfold SQLGetEnvAttr. by rewrite (proj2 (Z.eqb_neq out nullptr)).
  - split; [|intros Ha; apply Hd in Ha; done]. split; [|intros Ha; apply Hd in Ha; done]. done.
Qed.

Definition a_statement : OdbcHandleStmt := example_stmt SQL_CURSOR_FORWARD_ONLY 1 [] None 0 (-1) false [].

Lemma stmt_attr_roundtrip_witness :
  exists h' m' w, SQLSetStmtAttr (fun _ => None) true SQL_ATTR_CURSOR_SCROLLABLE SQL_SCROLLABLE a_statement ∅ = Some (SQL_SUCCESS, h', m')
    /\ load_u w (store w m' 100 1) 100 = 1 /\ cursor_type (odbc_fetcher h') = SQL_CURSOR_STATIC.
Proof.
  destruct (stmt_attr_roundtrip Z.of_nat (fun _ => None) SQL_ATTR_CURSOR_SCROLLABLE SQL_SCROLLABLE 100 nullptr a_statement ∅)
    as (h' & m' & w & Hset & (h'' & _ & Hload) & _); [apply (bool_decide_unpack _); vm_compute; exact I|split; discriminate|done|].
  exists h', m', w. split; [exact Hset|]. split; [exact Hload|]. vm_compute in Hset. injection Hset as <- _. reflexivity.
Defined.

Lemma catalog_delivered_witness :
  let d := new_OdbcHandleDbc <| conn := true |> <| sql_attr_current_catalog := B"duckdb" |> in
  let '(ret, _, m') := SQLGetConnectAttr SQL_ATTR_CURRENT_CATALOG 100 4 200 d ∅ in
  ret = SQL_SUCCESS_WITH_INFO /\ read_bytes m' 100 3 = B"duc" /\ load_s 4 m' 200 = 6.
Proof.
  intros d. destruct (SQLGetConnectAttr SQL_ATTR_CURRENT_CATALOG 100 4 200 d ∅) as [[ret d'] m'] eqn:E.
  destruct (catalog_delivered 100 4 200 d ∅ ret d' m') as (H1 & _ & _ & Hr & Hl & _);
    [reflexivity|done|lia|vm_compute; reflexivity|right; right; vm_compute; reflexivity|exact E|].
  split; [apply Hr; vm_compute; split; congruence|]. split; [exact H1|]. apply Hl. done.
Defined.

Lemma env_version_witness : in_u 32 380
  /\ (SQLSetEnvAttr SQL_ATTR_ODBC_VERSION 380 new_OdbcHandleEnv).1 = SQL_SUCCESS
  /\ SQLGetEnvAttr SQL_ATTR_ODBC_VERSION 100 ((SQLSetEnvAttr SQL_ATTR_ODBC_VERSION 380 new_OdbcHandleEnv).2) ∅
     = (SQL_SUCCESS, (SQLSetEnvAttr SQL_ATTR_ODBC_VERSION 380 new_OdbcHandleEnv).2, store 4 ∅ 100 3).
Proof.
  split; [unfold in_u; lia|]. destruct (env_version 380 new_OdbcHandleEnv 100 ∅) as [H1 H2]; [unfold in_u; lia|].
  split; [apply H1; lia|]. destruct H2 as (d & -> & H2); [lia|done|]. exact H2.
Defined.
