(* ===== verification/ColumnInfo.v ===== *)
(** * The columns of a result ([odbc_api/column_info_api.cpp])

    [SQLDescribeCol], [SQLColAttribute], [SQLNumResultCols]. They read the
    prepared statement and the implementation row descriptor that [FillIRD] made
    from it. [None] is an index out of a vector, which throws out of the
    driver, and a write through a null pointer. *)

From S2P Require Import Prelude OdbcConst Memory Utf8 Widechar OdbcUtils Diagnostic Interval ApiInfo Descriptor Params Fetch Stmt.

(** The overloads of [WriteStringCol]. The wide one gives no server name with its
    truncation record. *)
Definition WriteStringCol (c : CharType) (caller_name : bytes) (h : OdbcHandleStmt) (str : bytes)
    (character_attribute_ptr : ptr) (buffer_length : Z) (string_length : ptr) (m : mem) : Z * OdbcHandleStmt * mem :=
  if buffer_length <? 0 then
    (stmt_error SQL_ERROR caller_name (B"Invalid string or buffer length") ST_HY090 h, m)
  else
    match c with
    | SQLCHAR_T =>
        let '(written, m) := WriteStringUtf8 str character_attribute_ptr buffer_length m in
        let m := store_opt 2 m string_length (zlen str) in
        if negb (character_attribute_ptr =? nullptr) && (written <? zlen str) then
          (stmt_error SQL_SUCCESS_WITH_INFO caller_name (B"String data, right truncated") ST_01004 h, m)
        else (SQL_SUCCESS, h, m)
    | SQLWCHAR_T =>
        let '(written, utf16_vec, m) := WriteStringUtf16 str character_attribute_ptr buffer_length m in
        let m := store_opt 2 m string_length (zlen utf16_vec) in
        if negb (character_attribute_ptr =? nullptr) && (written <? zlen utf16_vec) then
          let '(ret, diag) := SetDiagnosticRecord SQL_SUCCESS_WITH_INFO caller_name
                                (B"String data, right truncated") ST_01004 [] (stmt_diagnostic h) in
          (ret, h <| stmt_diagnostic := diag |>, m)
        else (SQL_SUCCESS, h, m)
    end.

(** ** Describing a column *)
Definition decimal_digits (t : LogicalType) : Z :=
  match id t with
  | LT_DECIMAL => GetScale t
  | _ =>
      let sql_type := FindRelatedSQLType (id t) in
      if (sql_type =? SQL_TYPE_TIME) || (sql_type =? SQL_TYPE_TIMESTAMP) then GetTemporalPrecision (id t) else 0
  end.

(** The index of column 0 wraps around to one behind every column. *)
Definition DescribeColInternal (c : CharType) (conn : bool) (column_number : Z) (column_name : ptr) (buffer_length : Z)
    (name_length_ptr data_type_ptr column_size_ptr decimal_digits_ptr nullable_ptr : ptr) (h : OdbcHandleStmt) (m : mem)
    : option (Z * OdbcHandleStmt * mem) :=
  let '(ret, h) := ConvertHSTMTPrepared conn h in
  if negb (ret =? SQL_SUCCESS) then Some (ret, h, m)
  else
    s ← stmt h;
    if ColumnCount s <? column_number then Some (SQL_ERROR, h, m)
    else
      let col_idx := u64 (column_number - 1) in
      name ← ps_names s !! Z.to_nat col_idx;
      let '(ret, h, m) := WriteStringCol c (B"SQLDescribeCol") h name column_name buffer_length name_length_ptr m in
      col_type ← ps_types s !! Z.to_nat col_idx;
      let m := store_opt 2 m data_type_ptr (FindRelatedSQLType (id col_type)) in
      let m := store_opt 8 m column_size_ptr (GetColumnSize col_type) in
      let m := store_opt 2 m decimal_digits_ptr (decimal_digits col_type) in
      let m := store_opt 2 m nullable_ptr SQL_NULLABLE_UNKNOWN in
      Some (ret, h, m).

Definition SQLDescribeCol := DescribeColInternal SQLCHAR_T.

(** The length of the wide buffer is doubled in the 16 bits of [SQLSMALLINT]. *)
Definition SQLDescribeColW (conn : bool) (column_number : Z) (column_name : ptr) (buffer_length : Z)
    (name_length_ptr data_type_ptr column_size_ptr decimal_digits_ptr nullable_ptr : ptr) (h : OdbcHandleStmt) (m : mem)
    : option (Z * OdbcHandleStmt * mem) :=
  DescribeColInternal SQLWCHAR_T conn column_number column_name (s16 (buffer_length * 2)) name_length_ptr data_type_ptr
    column_size_ptr decimal_digits_ptr nullable_ptr h m.

(** ** The attributes of a column *)
Definition SetNumericAttributePtr (val : Z) (numeric_attribute_ptr : ptr) (h : OdbcHandleStmt) (m : mem)
    : Z * OdbcHandleStmt * mem :=
  if negb (numeric_attribute_ptr =? nullptr) then (SQL_SUCCESS, h, store 8 m numeric_attribute_ptr val)
  else (stmt_error SQL_ERROR (B"SQLColAttribute(s)") (B"Memory management error; numeric attribute pointer is null")
          ST_HY013 h, m).

(** The cases of the [switch] that only deliver a value of the record: a number or
    a text. *)
Definition column_number_field (f : Z) (d : OdbcHandleDesc) (r : DescRecord) : option Z :=
  if f =? SQL_DESC_CASE_SENSITIVE then Some (sql_desc_case_sensitive r)
  else if f =? SQL_DESC_CONCISE_TYPE then Some (sql_desc_concise_type r)
  else if (f =? SQL_COLUMN_COUNT) || (f =? SQL_DESC_COUNT) then Some (zlen (records d))
  else if f =? SQL_DESC_FIXED_PREC_SCALE then Some (sql_desc_fixed_prec_scale r)
  else if (f =? SQL_COLUMN_LENGTH) || (f =? SQL_DESC_LENGTH) then Some (sql_desc_length r)
  else if (f =? SQL_COLUMN_NULLABLE) || (f =? SQL_DESC_NULLABLE) then Some (sql_desc_nullable r)
  else if f =? SQL_DESC_NUM_PREC_RADIX then Some (sql_desc_num_prec_radix r)
  else if f =? SQL_DESC_OCTET_LENGTH then Some (sql_desc_octet_length r)
  else if (f =? SQL_COLUMN_PRECISION) || (f =? SQL_DESC_PRECISION) then Some (sql_desc_precision r)
  else if f =? SQL_DESC_SEARCHABLE then Some (sql_desc_searchable r)
  else if f =? SQL_DESC_TYPE then Some (sql_desc_type r)
  else if f =? SQL_DESC_UNNAMED then Some (sql_desc_unnamed r)
  else if f =? SQL_DESC_UNSIGNED then Some (sql_desc_unsigned r)
  else if f =? SQL_DESC_UPDATABLE then Some (sql_desc_updatable r)
  else None.

Definition column_text_field (f : Z) (r : DescRecord) : option bytes :=
  if f =? SQL_DESC_BASE_COLUMN_NAME then Some (sql_desc_base_column_name r)
  else if f =? SQL_DESC_CATALOG_NAME then Some (sql_desc_catalog_name r)
  else if f =? SQL_DESC_LABEL then Some (sql_desc_label r)
  else if f =? SQL_DESC_LITERAL_PREFIX then Some (sql_desc_literal_prefix r)
  else if f =? SQL_DESC_LITERAL_SUFFIX then Some (sql_desc_literal_suffix r)
  else if f =? SQL_DESC_LOCAL_TYPE_NAME then Some (sql_desc_local_type_name r)
  else if (f =? SQL_COLUMN_NAME) || (f =? SQL_DESC_NAME) then Some (sql_desc_name r)
  else if f =? SQL_DESC_SCHEMA_NAME then Some (sql_desc_schema_name r)
  else if f =? SQL_DESC_TYPE_NAME then Some (sql_desc_type_name r)
  else None.

Definition column_record (ret : Z) (msg : bytes) (state : SQLStateType) (h : OdbcHandleStmt) : Z * OdbcHandleStmt :=
  stmt_error ret (B"SQLColAttribute(s)") msg state h.

(** The [switch] of [ColAttributeInternal] on the record of the column. *)
Definition column_attribute (c : CharType) (f : Z) (d : OdbcHandleDesc) (r : DescRecord) (character_attribute_ptr : ptr)
    (buffer_length : Z) (string_length_ptr numeric_attribute_ptr : ptr) (h : OdbcHandleStmt) (m : mem)
    : Z * OdbcHandleStmt * mem :=
  match column_number_field f d r, column_text_field f r with
  | Some val, _ => SetNumericAttributePtr val numeric_attribute_ptr h m
  | None, Some str =>
      WriteStringCol c (B"SQLColAttribute(s)") h str character_attribute_ptr buffer_length string_length_ptr m
  | None, None =>
      if f =? SQL_DESC_AUTO_UNIQUE_VALUE then
        let '(ret, h, m) := SetNumericAttributePtr (sql_desc_auto_unique_value r) numeric_attribute_ptr h m in
        if ret =? SQL_ERROR then (ret, h, m)
        else (column_record SQL_SUCCESS_WITH_INFO (B"DuckDB does not support autoincrementing columns") ST_HYC00 h, m)
      else if (f =? SQL_DESC_TABLE_NAME) || (f =? SQL_DESC_BASE_TABLE_NAME) then
        (column_record SQL_ERROR (B"Driver not capable") ST_HYC00 h, m)
      else if f =? SQL_DESC_DISPLAY_SIZE then
        let '(ret, h, m) := SetNumericAttributePtr (sql_desc_display_size r) numeric_attribute_ptr h m in
        if sql_desc_display_size r =? 0 then
          (column_record SQL_SUCCESS_WITH_INFO (B"Cannot determine the column or parameter length of variable types")
             ST_01000 h, m)
        else (ret, h, m)
      else if (f =? SQL_COLUMN_SCALE) || (f =? SQL_DESC_SCALE) then
        if sql_desc_scale r =? -1 then
          let '(ret, h, m) := SetNumericAttributePtr SQL_NO_TOTAL numeric_attribute_ptr h m in
          if SQL_SUCCEEDED ret then
            (column_record SQL_SUCCESS_WITH_INFO (B"SQL_NO_TOTAL: Scale is undefined for this column data type") ST_01000 h, m)
          else (ret, h, m)
        else SetNumericAttributePtr (sql_desc_scale r) numeric_attribute_ptr h m
      else (column_record SQL_ERROR (B"Invalid descriptor field identifier") ST_HY091 h, m)
  end.

Definition no_columns (h : OdbcHandleStmt) : bool :=
  match res h with Some r => match return_type r with NOTHING => true | _ => false end | None => false end.

Definition ColAttributeInternal (c : CharType) (conn : bool) (column_number field_identifier : Z)
    (character_attribute_ptr : ptr) (buffer_length : Z) (string_length_ptr numeric_attribute_ptr : ptr)
    (h : OdbcHandleStmt) (m : mem) : option (Z * OdbcHandleStmt * mem) :=
  let '(ret, h) := ConvertHSTMTPrepared conn h in
  if negb (ret =? SQL_SUCCESS) then Some (ret, h, m)
  else if negb (field_identifier =? SQL_DESC_COUNT) && no_columns h then
    Some (column_record SQL_ERROR (B"Prepared statement not a cursor-specification") ST_07005 h, m)
  else
    s ← stmt h;
    if (column_number <? 1) || (zlen (ps_types s) <? column_number) then
      Some (column_record SQL_ERROR (B"Invalid descriptor index") ST_07009 h, m)
    else
      let col_idx := column_number - 1 in
      let h := h <| row_desc ::= fun rd => rd <| ird ::= GetDescRecord col_idx |> |> in
      let d := GetIRD (row_desc h) in
      r ← records d !! Z.to_nat col_idx;
      Some (column_attribute c field_identifier d r character_attribute_ptr buffer_length string_length_ptr
              numeric_attribute_ptr h m).

Definition SQLColAttribute := ColAttributeInternal SQLCHAR_T.

(** The wide entry point doubles the length, of numbers too. *)
Definition SQLColAttributeW (conn : bool) (column_number field_identifier : Z) (character_attribute_ptr : ptr)
    (buffer_length : Z) (string_length_ptr numeric_attribute_ptr : ptr) (h : OdbcHandleStmt) (m : mem)
    : option (Z * OdbcHandleStmt * mem) :=
  '(ret, h, m) ← ColAttributeInternal SQLWCHAR_T conn column_number field_identifier character_attribute_ptr buffer_length
                   string_length_ptr numeric_attribute_ptr h m;
  if SQL_SUCCEEDED ret && negb (string_length_ptr =? nullptr) then
    Some (ret, h, store 2 m string_length_ptr (s16 (load_s 2 m string_length_ptr * 2)))
  else Some (ret, h, m).

Definition SQLColAttributes := ColAttributeInternal SQLCHAR_T.

(** ** The number of columns *)
Definition has_result_columns (t : StatementType) : bool :=
  match t with
  | CALL_STATEMENT | EXECUTE_STATEMENT | EXPLAIN_STATEMENT | EXTENSION_STATEMENT | SELECT_STATEMENT => true
  | _ => false
  end.

Definition SQLNumResultCols (conn : bool) (column_count_ptr : ptr) (h : OdbcHandleStmt) (m : mem)
    : option (Z * OdbcHandleStmt * mem) :=
  let '(ret, h) := ConvertHSTMTPrepared conn h in
  if negb (ret =? SQL_SUCCESS) then Some (ret, h, m)
  else if column_count_ptr =? nullptr then Some (SQL_ERROR, h, m)
  else
    s ← stmt h;
    let m := store 2 m column_count_ptr (s16 (ColumnCount s)) in
    Some (SQL_SUCCESS, h, if has_result_columns (statement_type s) then m else store 2 m column_count_ptr 0).

(** ** What is said of a column *)

(** The descriptor of a statement follows its columns, as [FillIRD] leaves it. *)
Definition described (h : OdbcHandleStmt) (s : PreparedStatement) `{EngineOps Engine SQLStatement} : Prop :=
  stmt h = Some s /\ ps_error s = None /\ length (ps_names s) = length (ps_types s)
  /\ records (ird (row_desc h)) = zip_with ird_record (ps_names s) (ps_types s).

(** The type a descriptor record has for the SQL type of a column. *)
Definition record_type (sql_type : Z) : Z :=
  if (sql_type =? SQL_INTERVAL) || (sql_type =? SQL_UNKNOWN_TYPE) then SQL_VARCHAR else sql_type.

Definition has_scale (t : LogicalTypeId) : bool :=
  let sql_type := FindRelatedSQLType t in
  negb (bool_decide (sql_type ∈ [SQL_CHAR; SQL_VARCHAR; SQL_VARBINARY; SQL_BIT; SQL_TYPE_DATE; SQL_UNKNOWN_TYPE])).

Section Columns.
Context {Engine SQLStatement : Type} `{EO : EngineOps Engine SQLStatement}.

Lemma ird_record_type name t : sql_desc_concise_type (ird_record name t) = record_type (FindRelatedSQLType (id t)).
Proof. by destruct t as [[] w sc]; vm_compute. Qed.

Lemma ird_record_scale name t :
  sql_desc_scale (ird_record name t) = if has_scale (id t) then decimal_digits t else -1.
Proof. by destruct t as [[] w sc]; vm_compute. Qed.

Lemma ird_record_name name t : sql_desc_name (ird_record name t) = name.
Proof. by destruct t as [[] w sc]; vm_compute. Qed.

Lemma FinalizeStmt_described h s h' :
  stmt h = Some s -> bound_all_parameters s = true -> length (ps_names s) = length (ps_types s) ->
  FinalizeStmt h = Some (SQL_SUCCESS, h') -> described h' s.
Proof.
  intros Hs Hb Hn. unfold FinalizeStmt. rewrite Hs. cbn [mbind option_bind]. rewrite Hb. cbn [negb].
  destruct (ps_error s) as [msg|] eqn:He; [intros H; apply (inj Some), (f_equal fst) in H; discriminate H|].
  destruct h as [dsn diag st rs bc op rd rf ml f pd rwd]. cbn in Hs. subst st.
  unfold FillIRD, resize_columns. cbn -[ird_record ResetParams vec_resize].
  rewrite (proj2 (Z.ltb_ge _ _)) by (unfold ColumnCount, zlen; lia). intros [= <-].
  split; [done|]. split; [done|]. split; [done|]. by destruct rwd as [ad [] ex].
Qed.

Lemma described_clean h s : described h s -> described (h <| stmt_diagnostic ::= Clean |>) s.
Proof. by destruct h. Qed.

Lemma no_columns_clean h : no_columns (h <| stmt_diagnostic ::= Clean |>) = no_columns h.
Proof. by destruct h. Qed.

(** The entry points on a column there is. *)
Lemma describe_column c h s col name t out len nl tp sp dp np m :
  described h s -> zlen (ps_types s) < 2 ^ 64 -> 1 <= col ->
  ps_names s !! Z.to_nat (col - 1) = Some name -> ps_types s !! Z.to_nat (col - 1) = Some t ->
  DescribeColInternal c true col out len nl tp sp dp np h m =
    let '(ret, h, m) := WriteStringCol c (B"SQLDescribeCol") (h <| stmt_diagnostic ::= Clean |>) name out len nl m in
    Some (ret, h, store_opt 2 (store_opt 2 (store_opt 8 (store_opt 2 m tp (FindRelatedSQLType (id t))) sp (GetColumnSize t))
                    dp (decimal_digits t)) np SQL_NULLABLE_UNKNOWN).
Proof.
  intros (Hs & He & Hl & Hr) Hz Hc Hn Ht. unfold DescribeColInternal. rewrite (ConvertHSTMTPrepared_ok h s Hs He).
  change (negb (SQL_SUCCESS =? SQL_SUCCESS)) with false. cbv iota.
  replace (stmt (h <| stmt_diagnostic ::= Clean |>)) with (stmt h) by (by destruct h). rewrite Hs. cbn [mbind option_bind].
  pose proof (lookup_lt_Some _ _ _ Ht). rewrite (proj2 (Z.ltb_ge _ _)) by (unfold ColumnCount, zlen; lia).
  rewrite wrap_u_small by (unfold in_u, zlen in *; lia). rewrite Hn. cbn [mbind option_bind].
  destruct (WriteStringCol c (B"SQLDescribeCol") _ name out len nl m) as [[ret h1] m1]. by rewrite Ht.
Qed.

Lemma attribute_of_column c h s col f name t out len nl q m :
  described h s -> no_columns h = false -> 1 <= col ->
  ps_names s !! Z.to_nat (col - 1) = Some name -> ps_types s !! Z.to_nat (col - 1) = Some t ->
  ColAttributeInternal c true col f out len nl q h m =
    Some (column_attribute c f (GetIRD (row_desc h)) (ird_record name t) out len nl q (h <| stmt_diagnostic ::= Clean |>) m).
Proof.
  intros (Hs & He & Hl & Hr) Hq Hc Hn Ht. unfold ColAttributeInternal. rewrite (ConvertHSTMTPrepared_ok h s Hs He).
  change (negb (SQL_SUCCESS =? SQL_SUCCESS)) with false. cbv iota. rewrite no_columns_clean, Hq, andb_false_r.
  replace (stmt (h <| stmt_diagnostic ::= Clean |>)) with (stmt h) by (by destruct h). rewrite Hs. cbn [mbind option_bind].
  pose proof (lookup_lt_Some _ _ _ Ht). rewrite (proj2 (Z.ltb_ge col 1)), (proj2 (Z.ltb_ge _ _)) by (unfold zlen; lia). cbn [orb].
  assert (records (ird (row_desc h)) !! Z.to_nat (col - 1) = Some (ird_record name t)) as Hrec.
  { rewrite Hr, lookup_zip_with, Hn, Ht. reflexivity. }
  pose proof (lookup_lt_Some _ _ _ Hrec) as Hlt.
  assert (GetDescRecord (col - 1) (ird (row_desc h)) = ird (row_desc h)) as Hg.
  { unfold GetDescRecord. by rewrite (proj2 (Z.leb_gt _ _)) by (unfold zlen; lia). }
  destruct h as [dsn diag st rs bc op rd rf ml g pd [ad i ex]]. cbn -[column_attribute GetDescRecord ird_record Clean] in *.
  rewrite Hg. unfold GetIRD. cbn -[column_attribute ird_record Clean]. by rewrite Hrec.
Qed.


(** Describing a column is defined exactly for column numbers other than 0: a
    number behind the last column is an error that changes nothing, and column 0,
    the bookmark column, indexes the names behind their end. *)
Theorem describe_defined_iff c h s col out len nl tp sp dp np m :
  described h s -> zlen (ps_types s) < 2 ^ 64 - 1 -> 0 <= col < 2 ^ 16 ->
  (is_Some (DescribeColInternal c true col out len nl tp sp dp np h m) <-> col <> 0)
  /\ (zlen (ps_types s) < col ->
        DescribeColInternal c true col out len nl tp sp dp np h m
        = Some (SQL_ERROR, h <| stmt_diagnostic ::= Clean |>, m)).
Proof.
  intros Hd Hz Hc. pose proof Hd as (Hs & He & Hl & _).
  assert (forall r, DescribeColInternal c true col out len nl tp sp dp np h m = r ->
    (zlen (ps_types s) < col -> r = Some (SQL_ERROR, h <| stmt_diagnostic ::= Clean |>, m))
    /\ (col = 0 -> r = None)) as Hcases.
  { intros r <-. unfold DescribeColInternal. rewrite (ConvertHSTMTPrepared_ok h s Hs He).
    change (negb (SQL_SUCCESS =? SQL_SUCCESS)) with false. cbv iota.
    replace (stmt (h <| stmt_diagnostic ::= Clean |>)) with (stmt h) by (by destruct h). rewrite Hs. cbn [mbind option_bind].
    unfold ColumnCount. split; [intros Hb; by rewrite (proj2 (Z.ltb_lt _ _) Hb)|].
    intros ->. rewrite (proj2 (Z.ltb_ge _ _)) by (unfold zlen; lia).
    rewrite (lookup_ge_None_2 (ps_names s)); [done|]. change (u64 (0 - 1)) with (2 ^ 64 - 1). unfold zlen in *. lia. }
  specialize (Hcases _ eq_refl) as [Hbig H0]. split; [|exact Hbig]. split.
  - intros [x Hx] ->. rewrite H0 in Hx; done.
  - intros Hne. destruct (Z.lt_ge_cases (zlen (ps_types s)) col) as [Hb|Hb]; [by rewrite (Hbig Hb)|].
    destruct (lookup_lt_is_Some_2 (ps_types s) (Z.to_nat (col - 1))) as [t Ht]; [unfold zlen in *; lia|].
    destruct (lookup_lt_is_Some_2 (ps_names s) (Z.to_nat (col - 1))) as [name Hn]; [unfold zlen in *; lia|].
    rewrite (describe_column c h s col name t) by (done || lia).
    by destruct (WriteStringCol c (B"SQLDescribeCol") _ name out len nl m) as [[ret h1] m1].
Qed.

(** A wide buffer of 16384 characters and more is taken for one of a negative
    length. *)
Lemma wide_name_buffer_limit h s col name t out len nl tp sp dp np m :
  described h s -> zlen (ps_types s) < 2 ^ 64 -> 1 <= col ->
  ps_names s !! Z.to_nat (col - 1) = Some name -> ps_types s !! Z.to_nat (col - 1) = Some t ->
  16384 <= len < 32768 ->
  exists h' m', SQLDescribeColW true col out len nl tp sp dp np h m = Some (SQL_ERROR, h', m').
Proof.
  intros Hd Hz Hc Hn Ht Hl. unfold SQLDescribeColW. rewrite (describe_column SQLWCHAR_T h s col name t) by done.
  unfold WriteStringCol. rewrite (proj2 (Z.ltb_lt _ _)); [by eexists _, _|]. unfold wrap_s.
  rewrite <- (Zmod_unique (len * 2 + 2 ^ (16 - 1)) (2 ^ 16) 1 (len * 2 - 32768)) by lia. lia.
Qed.
End Columns.

Definition example_described : OdbcHandleStmt :=
  match FinalizeStmt (example_batch 0) with Some (_, h) => h | None => example_batch 0 end.


Lemma describe_defined_iff_witness :
  is_Some (SQLDescribeCol true 0 nullptr 0 nullptr nullptr nullptr nullptr nullptr example_described ∅) <-> 0 <> 0.
Proof.
  apply (describe_defined_iff SQLCHAR_T example_described example_prepared 0 nullptr 0 nullptr nullptr nullptr nullptr nullptr ∅);
    [by vm_compute|done|done].
Defined.
