(* ===== verification/MetadataApi.v ===== *)
(** * The catalogue functions ([odbc_api/metadata_api.cpp])

    [SQLTables] and [SQLColumns] turn their arguments into a query and execute it
    on the statement. [metadata_id] is the connection's SQL_ATTR_METADATA_ID.
    [Some None] is an exception out of the driver: an argument in quotes when it is
    to be taken as an identifier. *)

From S2P Require Import Prelude OdbcConst Memory Utf8 Widechar OdbcUtils Diagnostic Descriptor Params Fetch Stmt.

(** ** Regular expressions

    [std::regex_replace] over the expressions of the source, which are
    alternatives of literals, and [,\s*,]. A matcher gives the length of the match
    at the head of a text; the scan is from the left and goes on behind a match. *)
Definition matcher : Type := bytes -> option nat.

Fixpoint starts_with (p s : bytes) : bool :=
  match p, s with
  | [], _ => true
  | c :: p', d :: s' => (c =? d) && starts_with p' s'
  | _ :: _, [] => false
  end.

Fixpoint literals (alternatives : list bytes) : matcher :=
  fun s => match alternatives with
           | [] => None
           | p :: ps => if starts_with p s then Some (length p) else literals ps s
           end.

(** [\s] of the C locale. *)
Definition two_commas : matcher :=
  fun s => match s with
           | 44 :: s' =>
               let n := count_while IsSpace s' in
               match drop n s' with 44 :: _ => Some (n + 2)%nat | _ => None end
           | _ => None
           end.

(** [skip] counts what is left of the last match. *)
Fixpoint replace_from (mt : matcher) (format : bytes) (skip : nat) (s : bytes) : bytes :=
  match s with
  | [] => []
  | c :: s' =>
      match skip with
      | S k => replace_from mt format k s'
      | O => match mt s with
             | Some n => format ++ replace_from mt format (Nat.pred n) s'
             | None => c :: replace_from mt format 0 s'
             end
      end
  end.
Definition regex_replace (s : bytes) (mt : matcher) (format : bytes) : bytes := replace_from mt format 0 s.

(** The rewriting of the table types of [SQLTables]. *)
Definition rewrite_table_types (table_tp : bytes) : bytes :=
  let table_tp := regex_replace table_tp (literals [B"'SYSTEM TABLE'"; B"SYSTEM TABLE"]) [] in
  let table_tp := regex_replace table_tp two_commas (B",") in
  let table_tp := regex_replace table_tp (literals [B"'TABLE'"; B"TABLE"]) (B"'BASE TABLE'") in
  let table_tp := regex_replace table_tp (literals [B"'VIEW'"; B"VIEW"]) (B"'VIEW'") in
  regex_replace table_tp (literals [B"'%'"; B"%"]) (B"'%'").

(** ** Tables *)
Definition all_catalogs_query : bytes := sql_text "
SELECT DISTINCT
	CAST(catalog_name AS VARCHAR) AS `TABLE_CAT`,
	CAST(NULL         AS VARCHAR) AS `TABLE_SCHEM`,
	CAST(NULL         AS VARCHAR) AS `TABLE_NAME`,
	CAST(NULL         AS VARCHAR) AS `TABLE_TYPE`,
	CAST(NULL         AS VARCHAR) AS `REMARKS`
FROM information_schema.schemata
WHERE catalog_name NOT IN (
	'system',
	'temp')
AND catalog_name NOT LIKE '__ducklake_%'
ORDER BY `TABLE_CAT`
".

Definition all_schemas_query : bytes := sql_text "
SELECT
	CAST(NULL        AS VARCHAR) AS `TABLE_CAT`,
	CAST(schema_name AS VARCHAR) AS `TABLE_SCHEM`,
	CAST(NULL        AS VARCHAR) AS `TABLE_NAME`,
	CAST(NULL        AS VARCHAR) AS `TABLE_TYPE`,
	CAST(NULL        AS VARCHAR) AS `REMARKS`
FROM information_schema.schemata
WHERE catalog_name NOT IN (
	'system',
	'temp')
AND catalog_name NOT LIKE '__ducklake_%'
ORDER BY `TABLE_SCHEM`
".

Definition all_table_types_query : bytes := sql_text "
SELECT
	CAST(NULL AS VARCHAR) AS `TABLE_CAT`,
	CAST(NULL AS VARCHAR) AS `TABLE_SCHEM`,
	CAST(NULL AS VARCHAR) AS `TABLE_NAME`,
	UNNEST([
		CAST('TABLE' AS VARCHAR),
		CAST('VIEW'  AS VARCHAR)
	]) AS `TABLE_TYPE`,
	CAST(NULL AS VARCHAR) AS `REMARKS`
".

(** [SQL_ALL_CATALOGS], [SQL_ALL_SCHEMAS] and [SQL_ALL_TABLE_TYPES] are one text. *)
Definition SQL_ALL_CATALOGS : bytes := B"%".
Definition SQL_ALL_SCHEMAS : bytes := B"%".
Definition SQL_ALL_TABLE_TYPES : bytes := B"%".

Definition is_empty (s : bytes) : bool := bool_decide (s = []).

(** The query of [TablesInternal]. *)
Definition tables_query (metadata_id : Z) (catalog_n schema_n table_n table_tp : bytes) : option bytes :=
  catalog_filter ← ParseStringFilter (sql_text "`TABLE_CAT`") catalog_n metadata_id [];
  schema_filter ← ParseStringFilter (sql_text "`TABLE_SCHEM`") schema_n metadata_id [];
  table_filter ← ParseStringFilter (sql_text "`TABLE_NAME`") table_n metadata_id [];
  Some (
    if bool_decide (catalog_n = SQL_ALL_CATALOGS) && is_empty schema_n && is_empty table_n && is_empty table_tp then
      all_catalogs_query
    else if bool_decide (schema_n = SQL_ALL_SCHEMAS) && is_empty catalog_n && is_empty table_n && is_empty table_tp then
      all_schemas_query
    else if bool_decide (table_tp = SQL_ALL_TABLE_TYPES) && is_empty catalog_n && is_empty schema_n && is_empty table_n then
      all_table_types_query
    else GetQueryDuckdbTables catalog_filter schema_filter table_filter (rewrite_table_types table_tp)).

Section Catalogue.
Context {Engine SQLStatement : Type} `{EngineOps Engine SQLStatement} `{GetDataOp}.

Definition TablesInternal (fuel n : nat) (conn : bool) (metadata_id : Z) (catalog_name schema_name table_name table_type : bytes)
    (h : OdbcHandleStmt) (e : Engine) (m : mem) : run Engine :=
  let '(ret, h) := ConvertHSTMT conn h in
  if negb (SQL_SUCCEEDED ret) then Some (Some (ret, h, e, m))
  else match tables_query metadata_id catalog_name schema_name table_name table_type with
       | None => Some None
       | Some query => ExecDirectStmt fuel n query h e m
       end.

(** The arguments of the narrow and of the wide entry point, as texts. *)
Definition narrow_arg (fuel : nat) (m : mem) (str : ptr) (str_len : Z) : bytes := ConvertSQLCHARToString fuel m str str_len.
Definition wide_arg (fuel : nat) (m : mem) (str : ptr) (str_len : Z) : bytes := conv_text (make_utf16_conv fuel m str str_len).

Definition SQLTables (fuel n : nat) (conn : bool) (metadata_id : Z) (catalog_name : ptr) (name_length1 : Z) (schema_name : ptr)
    (name_length2 : Z) (table_name : ptr) (name_length3 : Z) (table_type : ptr) (name_length4 : Z)
    (h : OdbcHandleStmt) (e : Engine) (m : mem) : run Engine :=
  TablesInternal fuel n conn metadata_id (narrow_arg fuel m catalog_name name_length1) (narrow_arg fuel m schema_name name_length2)
    (narrow_arg fuel m table_name name_length3) (narrow_arg fuel m table_type name_length4) h e m.
Definition SQLTablesW (fuel n : nat) (conn : bool) (metadata_id : Z) (catalog_name : ptr) (name_length1 : Z) (schema_name : ptr)
    (name_length2 : Z) (table_name : ptr) (name_length3 : Z) (table_type : ptr) (name_length4 : Z)
    (h : OdbcHandleStmt) (e : Engine) (m : mem) : run Engine :=
  TablesInternal fuel n conn metadata_id (wide_arg fuel m catalog_name name_length1) (wide_arg fuel m schema_name name_length2)
    (wide_arg fuel m table_name name_length3) (wide_arg fuel m table_type name_length4) h e m.

(** ** Columns *)
Definition DEFAULT_SCHEMA : bytes := B"main".

(** A catalogue that is given takes part only as an identifier. *)
Definition columns_query (metadata_id : Z) (catalog_n schema_n table_n column_n : bytes) : option bytes :=
  catalog_filter ←
    (if is_empty catalog_n then Some (sql_text "`TABLE_CAT` IS NULL")
     else if metadata_id =? SQL_TRUE then
       ident ← GetStringAsIdentifier catalog_n; Some (sql_text "`TABLE_CAT`=" ++ ident)
     else Some []);
  schema_filter ← ParseStringFilter (sql_text "`TABLE_SCHEM`") schema_n metadata_id DEFAULT_SCHEMA;
  table_filter ← ParseStringFilter (sql_text "`TABLE_NAME`") table_n metadata_id [];
  column_filter ← ParseStringFilter (sql_text "`COLUMN_NAME`") column_n metadata_id [];
  Some (GetQueryDuckdbColumns catalog_filter schema_filter table_filter column_filter).

Definition ColumnsInternal (fuel n : nat) (conn : bool) (metadata_id : Z) (catalog_name schema_name table_name column_name : bytes)
    (h : OdbcHandleStmt) (e : Engine) (m : mem) : run Engine :=
  let '(ret, h) := ConvertHSTMT conn h in
  if negb (ret =? SQL_SUCCESS) then Some (Some (ret, h, e, m))
  else match columns_query metadata_id catalog_name schema_name table_name column_name with
       | None => Some None
       | Some sql_columns =>
           match ExecDirectStmt fuel n sql_columns h e m with
           | Some (Some (ret, h, e, m)) =>
               Some (Some (if negb (SQL_SUCCEEDED ret) then ret else SQL_SUCCESS, h, e, m))
           | r => r
           end
       end.

Definition SQLColumns (fuel n : nat) (conn : bool) (metadata_id : Z) (catalog_name : ptr) (name_length1 : Z) (schema_name : ptr)
    (name_length2 : Z) (table_name : ptr) (name_length3 : Z) (column_name : ptr) (name_length4 : Z)
    (h : OdbcHandleStmt) (e : Engine) (m : mem) : run Engine :=
  ColumnsInternal fuel n conn metadata_id (narrow_arg fuel m catalog_name name_length1) (narrow_arg fuel m schema_name name_length2)
    (narrow_arg fuel m table_name name_length3) (narrow_arg fuel m column_name name_length4) h e m.
Definition SQLColumnsW (fuel n : nat) (conn : bool) (metadata_id : Z) (catalog_name : ptr) (name_length1 : Z) (schema_name : ptr)
    (name_length2 : Z) (table_name : ptr) (name_length3 : Z) (column_name : ptr) (name_length4 : Z)
    (h : OdbcHandleStmt) (e : Engine) (m : mem) : run Engine :=
  ColumnsInternal fuel n conn metadata_id (wide_arg fuel m catalog_name name_length1) (wide_arg fuel m schema_name name_length2)
    (wide_arg fuel m table_name name_length3) (wide_arg fuel m column_name name_length4) h e m.
End Catalogue.

(** ** The table types of a request *)

(** An entry of the list of types, in quotes or not. *)
Inductive table_type := TABLE (quoted : bool) | VIEW (quoted : bool) | SYSTEM_TABLE (quoted : bool).

Definition quote (q : bool) (s : bytes) : bytes := if q then B"'" ++ s ++ B"'" else s.
Definition print_type (t : table_type) : bytes :=
  match t with
  | TABLE q => quote q (B"TABLE")
  | VIEW q => quote q (B"VIEW")
  | SYSTEM_TABLE q => quote q (B"SYSTEM TABLE")
  end.
Definition is_system (t : table_type) : bool := match t with SYSTEM_TABLE _ => true | _ => false end.

(** The type the engine has for it in [information_schema.tables]. *)
Definition engine_type (t : table_type) : bytes :=
  match t with TABLE _ => B"'BASE TABLE'" | VIEW _ => B"'VIEW'" | SYSTEM_TABLE _ => [] end.

(** Entries with a comma between any two. *)
Fixpoint commas (l : list bytes) : bytes :=
  match l with
  | [] => []
  | [x] => x
  | x :: l' => x ++ 44 :: commas l'
  end.

Lemma commas_cons x y l : commas (x :: y :: l) = x ++ 44 :: commas (y :: l).
Proof. done. Qed.

(** Replacing works entry by entry when it does so for an entry at the end and for
    one before a comma. *)
Lemma replace_commas {A} (mt : matcher) fmt (f g : A -> bytes) (l : list A) :
  (forall x, x ∈ l -> replace_from mt fmt 0 (f x) = g x) ->
  (forall x s, x ∈ l -> replace_from mt fmt 0 (f x ++ 44 :: s) = g x ++ 44 :: replace_from mt fmt 0 s) ->
  replace_from mt fmt 0 (commas (f <$> l)) = commas (g <$> l).
Proof.
  induction l as [|x [|y l] IH]; intros Hend Hmid; [done|apply Hend, list_elem_of_here|].
  rewrite !fmap_cons, !commas_cons, Hmid by apply list_elem_of_here.
  rewrite <- !fmap_cons, IH; [done| |]; intros; [apply Hend|apply Hmid]; by apply list_elem_of_further.
Qed.

Definition drop_system (t : table_type) : bytes := if is_system t then [] else print_type t.

(** The first expression empties the entries of system tables. *)
Lemma system_tables_emptied l :
  regex_replace (commas (print_type <$> l)) (literals [B"'SYSTEM TABLE'"; B"SYSTEM TABLE"]) [] = commas (drop_system <$> l).
Proof. apply replace_commas; intros [[]|[]|[]]; by intros. Qed.

(** System tables among the others, one at a time and neither first nor last. *)
Inductive isolated : list table_type -> Prop :=
  | isolated_last x : is_system x = false -> isolated [x]
  | isolated_next x l : is_system x = false -> isolated l -> isolated (x :: l)
  | isolated_skip x q l : is_system x = false -> isolated l -> isolated (x :: SYSTEM_TABLE q :: l).

Definition listed (l : list table_type) : list table_type := filter (fun t => is_system t = false) l.

Lemma listed_types l : Forall (fun t => is_system t = false) (listed l).
Proof. apply Forall_forall. intros t. rewrite <- list_elem_of_In. unfold listed. by intros [? _]%list_elem_of_filter. Qed.

Lemma isolated_listed l : isolated l ->
  exists x l', listed l = x :: l' /\ Forall (fun t => is_system t = false) (x :: l')
    /\ head (commas (drop_system <$> l)) = head (drop_system x) /\ drop_system <$> l <> [].
Proof.
  intros Hl. assert (Forall (fun t => is_system t = false) (listed l)) as Hf by apply listed_types.
  destruct Hl as [x Hx|x l Hx Hl|x q l Hx Hl]; unfold listed in *; rewrite filter_cons_True in * by done;
    (eexists _, _; split; [reflexivity|]; split; [exact Hf|]; split; [|done]).
  - by destruct x as [[]|[]|[]].
  - rewrite fmap_cons. destruct (drop_system <$> l); by destruct x as [[]|[]|[]].
  - by destruct x as [[]|[]|[]].
Qed.

Lemma two_commas_entry x s : replace_from two_commas (B",") 0 (drop_system x ++ s)
  = drop_system x ++ replace_from two_commas (B",") 0 s.
Proof. by destruct x as [[]|[]|[]]. Qed.

(** The second expression drops the empty entries. *)
Lemma empty_entries_dropped l : isolated l ->
  regex_replace (commas (drop_system <$> l)) two_commas (B",") = commas (print_type <$> listed l).
Proof.
  unfold regex_replace. induction 1 as [x Hx|x l Hx Hl IH|x q l Hx Hl IH].
  - by destruct x as [[]|[]|[]].
  - pose proof (isolated_listed l Hl) as (y & l' & E & Hy & Hh & Hn).
    unfold listed in *. rewrite filter_cons_True, E in * by done. rewrite !fmap_cons in *.
    destruct (drop_system <$> l) as [|z zs]; [done|]. rewrite !commas_cons, two_commas_entry.
    replace (drop_system x) with (print_type x) by (by destruct x). f_equal.
    inversion Hy; subst. rewrite <- IH. destruct (commas (z :: zs)) as [|c s]; [by destruct y as [[]|[]|[]]|].
    destruct y as [[]|[]|[]]; try done; vm_compute in Hh; by injection Hh as ->.
  - pose proof (isolated_listed l Hl) as (y & l' & E & Hy & Hh & Hn).
    unfold listed in *. rewrite filter_cons_True, filter_cons_False, E in * by done. rewrite !fmap_cons in *.
    change (drop_system (SYSTEM_TABLE q)) with (@nil Z).
    destruct (drop_system <$> l) as [|z zs]; [done|]. rewrite !commas_cons, two_commas_entry.
    replace (drop_system x) with (print_type x) by (by destruct x). f_equal.
    inversion Hy; subst. rewrite <- IH. destruct (commas (z :: zs)) as [|c s]; [by destruct y as [[]|[]|[]]|].
    destruct y as [[]|[]|[]]; try done; vm_compute in Hh; by injection Hh as ->.
Qed.


(** The other expressions name each type as the engine does. *)
Lemma types_renamed l : Forall (fun t => is_system t = false) l ->
  let s := regex_replace (commas (print_type <$> l)) (literals [B"'TABLE'"; B"TABLE"]) (B"'BASE TABLE'") in
  let s := regex_replace s (literals [B"'VIEW'"; B"VIEW"]) (B"'VIEW'") in
  regex_replace s (literals [B"'%'"; B"%"]) (B"'%'") = commas (engine_type <$> l).
Proof.
  intros Hl. cbv zeta. assert (forall x, x ∈ l -> is_system x = false) as Hx.
  { intros x Hin. by apply (proj1 (Forall_forall _ l) Hl), list_elem_of_In. }
  assert (forall x, x ∈ l -> exists q, x = TABLE q \/ x = VIEW q) as Hcase.
  { intros x Hin%Hx. destruct x as [q|q|]; [exists q; by left|exists q; by right|done]. }
  unfold regex_replace.
  rewrite (replace_commas _ _ print_type (fun t => if decide (engine_type t = B"'BASE TABLE'") then engine_type t else print_type t)),
    (replace_commas _ _ _ engine_type), (replace_commas _ _ engine_type engine_type); [done|..];
    intros x ?; try intros Hin; destruct (Hcase x) as ([] & [-> | ->]); done.
Qed.

Lemma table_types_normalised l : isolated l ->
  rewrite_table_types (commas (print_type <$> l)) = commas (engine_type <$> listed l).
Proof.
  intros Hl. unfold rewrite_table_types. rewrite system_tables_emptied, empty_entries_dropped by done.
  apply types_renamed, listed_types.
Qed.

Lemma requested_types_head l : isolated l ->
  exists c s, commas (print_type <$> l) = c :: s /\ c <> 37.
Proof.
  intros Hl. assert (exists x l', l = x :: l' /\ is_system x = false) as (x & l' & -> & Hx).
  { destruct Hl; by eexists _, _. }
  rewrite fmap_cons. destruct (print_type <$> l') as [|y ys]; [|rewrite commas_cons];
    destruct x as [[]|[]|[]]; try done; eexists _, _; (split; [reflexivity|done]).
Qed.

Lemma ParseStringFilter_pattern name v id dflt : id <> SQL_TRUE -> is_Some (ParseStringFilter name v id dflt).
Proof.
  intros Hid. unfold ParseStringFilter. rewrite (proj2 (Z.eqb_neq id SQL_TRUE) Hid).
  destruct (bool_decide (v = [])), (bool_decide (dflt = [])); by eexists.
Qed.


(** [SQLColumns] does not look at the catalogue it is given: unless the
    connection takes arguments as identifiers, requests that differ in the name of
    a catalogue only run the same query. *)
Theorem columns_ignore_catalogue `{EngineOps Engine SQLStatement} `{GetDataOp} fuel n conn metadata_id catalog catalog'
    schema table column h (e : Engine) m :
  metadata_id <> SQL_TRUE -> catalog <> [] -> catalog' <> [] ->
  ColumnsInternal fuel n conn metadata_id catalog schema table column h e m
  = ColumnsInternal fuel n conn metadata_id catalog' schema table column h e m.
Proof.
  intros Hid Hc Hc'. unfold ColumnsInternal, columns_query, is_empty.
  by rewrite (bool_decide_eq_false_2 (catalog = [])), (bool_decide_eq_false_2 (catalog' = [])), (proj2 (Z.eqb_neq metadata_id SQL_TRUE) Hid).
Qed.

(** A system table at an end of the list leaves an empty entry in the query, as do
    two in a row. *)
Example system_table_first : rewrite_table_types (B"'SYSTEM TABLE','TABLE'") = B",'BASE TABLE'".
Proof. by vm_compute. Qed.
Example two_system_tables : rewrite_table_types (B"TABLE,SYSTEM TABLE,SYSTEM TABLE,VIEW") = B"'BASE TABLE',,'VIEW'".
Proof. by vm_compute. Qed.


Lemma columns_ignore_catalogue_witness :
  let h := example_stmt SQL_CURSOR_FORWARD_ONLY 1 [] None 0 (-1) false [] in
  ColumnsInternal 9 9 true 0 (B"memory") [] (B"t") [] h 0%nat ∅ = ColumnsInternal 9 9 true 0 (B"other") [] (B"t") [] h 0%nat ∅.
Proof. intros h. by apply (columns_ignore_catalogue 9 9 true 0 (B"memory") (B"other")). Defined.
