(* ===== verification/InfoConst.v ===== *)
(** * The constants of [SQLGetInfo]

    The information types and the values and flags of the ODBC standard, as in the
    headers [sql.h] and [sqlext.h]; two information types are defined by
    [info_api.cpp] itself. *)

From S2P Require Import Prelude.

Abbreviation SQL_DTC_TRANSACTION_COST := 1750.
Abbreviation SQL_RETURN_ESCAPE_CLAUSE := 180.
Abbreviation SQL_ACCESSIBLE_PROCEDURES := 20.
Abbreviation SQL_ACCESSIBLE_TABLES := 19.
Abbreviation SQL_ACTIVE_ENVIRONMENTS := 116.
Abbreviation SQL_AGGREGATE_FUNCTIONS := 169.
Abbreviation SQL_AF_ALL := 0x40.
Abbreviation SQL_AF_AVG := 0x1.
Abbreviation SQL_AF_COUNT := 0x2.
Abbreviation SQL_AF_DISTINCT := 0x20.
Abbreviation SQL_AF_MAX := 0x4.
Abbreviation SQL_AF_MIN := 0x8.
Abbreviation SQL_AF_SUM := 0x10.
Abbreviation SQL_ALTER_DOMAIN := 117.
Abbreviation SQL_ALTER_TABLE := 86.
Abbreviation SQL_AT_ADD_COLUMN_COLLATION := 0x80.
Abbreviation SQL_AT_ADD_COLUMN_DEFAULT := 0x40.
Abbreviation SQL_AT_ADD_COLUMN_SINGLE := 0x20.
Abbreviation SQL_AT_ADD_CONSTRAINT := 0x8.
Abbreviation SQL_AT_ADD_TABLE_CONSTRAINT := 0x1000.
Abbreviation SQL_AT_DROP_COLUMN_DEFAULT := 0x200.
Abbreviation SQL_AT_SET_COLUMN_DEFAULT := 0x100.
Abbreviation SQL_ASYNC_DBC_FUNCTIONS := 10023.
Abbreviation SQL_ASYNC_DBC_NOT_CAPABLE := 0.
Abbreviation SQL_ASYNC_MODE := 10021.
Abbreviation SQL_AM_NONE := 0.
Abbreviation SQL_ASYNC_NOTIFICATION := 10025.
Abbreviation SQL_ASYNC_NOTIFICATION_NOT_CAPABLE := 0.
Abbreviation SQL_BATCH_ROW_COUNT := 120.
Abbreviation SQL_BRC_EXPLICIT := 0x2.
Abbreviation SQL_BATCH_SUPPORT := 121.
Abbreviation SQL_BS_SELECT_EXPLICIT := 0x1.
Abbreviation SQL_BS_ROW_COUNT_EXPLICIT := 0x2.
Abbreviation SQL_BOOKMARK_PERSISTENCE := 82.
Abbreviation SQL_CATALOG_LOCATION := 114.
Abbreviation SQL_CL_START := 1.
Abbreviation SQL_CATALOG_NAME := 10003.
Abbreviation SQL_CATALOG_NAME_SEPARATOR := 41.
Abbreviation SQL_CATALOG_TERM := 42.
Abbreviation SQL_CATALOG_USAGE := 92.
Abbreviation SQL_CU_DML_STATEMENTS := 0x1.
Abbreviation SQL_CU_TABLE_DEFINITION := 0x4.
Abbreviation SQL_COLLATION_SEQ := 10004.
Abbreviation SQL_COLUMN_ALIAS := 87.
Abbreviation SQL_CONCAT_NULL_BEHAVIOR := 22.
Abbreviation SQL_CB_NON_NULL := 1.
Abbreviation SQL_CONVERT_TINYINT := 68.
Abbreviation SQL_CONVERT_SMALLINT := 65.
Abbreviation SQL_CONVERT_INTEGER := 61.
Abbreviation SQL_CONVERT_BIGINT := 53.
Abbreviation SQL_CVT_BIGINT := 0x4000.
Abbreviation SQL_CVT_BIT := 0x1000.
Abbreviation SQL_CVT_CHAR := 0x1.
Abbreviation SQL_CVT_DECIMAL := 0x4.
Abbreviation SQL_CVT_DOUBLE := 0x80.
Abbreviation SQL_CVT_FLOAT := 0x20.
Abbreviation SQL_CVT_INTEGER := 0x8.
Abbreviation SQL_CVT_LONGVARCHAR := 0x200.
Abbreviation SQL_CVT_NUMERIC := 0x2.
Abbreviation SQL_CVT_REAL := 0x40.
Abbreviation SQL_CVT_SMALLINT := 0x10.
Abbreviation SQL_CVT_TINYINT := 0x2000.
Abbreviation SQL_CVT_VARCHAR := 0x100.
Abbreviation SQL_CONVERT_BINARY := 54.
Abbreviation SQL_CONVERT_LONGVARBINARY := 71.
Abbreviation SQL_CONVERT_VARBINARY := 69.
Abbreviation SQL_CVT_BINARY := 0x400.
Abbreviation SQL_CVT_LONGVARBINARY := 0x40000.
Abbreviation SQL_CVT_VARBINARY := 0x800.
Abbreviation SQL_CONVERT_BIT := 55.
Abbreviation SQL_CONVERT_CHAR := 56.
Abbreviation SQL_CONVERT_VARCHAR := 70.
Abbreviation SQL_CONVERT_LONGVARCHAR := 62.
Abbreviation SQL_CVT_DATE := 0x8000.
Abbreviation SQL_CVT_INTERVAL_DAY_TIME := 0x100000.
Abbreviation SQL_CVT_INTERVAL_YEAR_MONTH := 0x80000.
Abbreviation SQL_CVT_TIME := 0x10000.
Abbreviation SQL_CVT_TIMESTAMP := 0x20000.
Abbreviation SQL_CONVERT_GUID := 173.
Abbreviation SQL_CONVERT_DATE := 57.
Abbreviation SQL_CONVERT_DECIMAL := 58.
Abbreviation SQL_CONVERT_NUMERIC := 63.
Abbreviation SQL_CONVERT_DOUBLE := 59.
Abbreviation SQL_CONVERT_REAL := 64.
Abbreviation SQL_CONVERT_FLOAT := 60.
Abbreviation SQL_CONVERT_INTERVAL_DAY_TIME := 123.
Abbreviation SQL_CONVERT_INTERVAL_YEAR_MONTH := 124.
Abbreviation SQL_CONVERT_TIME := 66.
Abbreviation SQL_CONVERT_TIMESTAMP := 67.
Abbreviation SQL_CONVERT_FUNCTIONS := 48.
Abbreviation SQL_FN_CVT_CAST := 0x2.
Abbreviation SQL_CORRELATION_NAME := 74.
Abbreviation SQL_CN_ANY := 2.
Abbreviation SQL_CONVERT_WCHAR := 122.
Abbreviation SQL_CONVERT_WLONGVARCHAR := 125.
Abbreviation SQL_CONVERT_WVARCHAR := 126.
Abbreviation SQL_CREATE_ASSERTION := 127.
Abbreviation SQL_CREATE_CHARACTER_SET := 128.
Abbreviation SQL_CREATE_COLLATION := 129.
Abbreviation SQL_CREATE_DOMAIN := 130.
Abbreviation SQL_CREATE_TRANSLATION := 133.
Abbreviation SQL_CREATE_SCHEMA := 131.
Abbreviation SQL_CS_CREATE_SCHEMA := 0x1.
Abbreviation SQL_CREATE_TABLE := 132.
Abbreviation SQL_CT_COLUMN_CONSTRAINT := 0x200.
Abbreviation SQL_CT_COLUMN_DEFAULT := 0x400.
Abbreviation SQL_CT_CONSTRAINT_NAME_DEFINITION := 0x2000.
Abbreviation SQL_CT_CREATE_TABLE := 0x1.
Abbreviation SQL_CT_LOCAL_TEMPORARY := 0x10.
Abbreviation SQL_CT_TABLE_CONSTRAINT := 0x1000.
Abbreviation SQL_CT_COLUMN_COLLATION := 0x800.
Abbreviation SQL_CREATE_VIEW := 134.
Abbreviation SQL_CV_CREATE_VIEW := 0x1.
Abbreviation SQL_CV_CHECK_OPTION := 0x2.
Abbreviation SQL_CURSOR_COMMIT_BEHAVIOR := 23.
Abbreviation SQL_CB_PRESERVE := 2.
Abbreviation SQL_CURSOR_ROLLBACK_BEHAVIOR := 24.
Abbreviation SQL_CB_CLOSE := 1.
Abbreviation SQL_CURSOR_SENSITIVITY := 10001.
Abbreviation SQL_INSENSITIVE := 1.
Abbreviation SQL_DATA_SOURCE_NAME := 2.
Abbreviation SQL_DATA_SOURCE_READ_ONLY := 25.
Abbreviation SQL_DATABASE_NAME := 16.
Abbreviation SQL_DATETIME_LITERALS := 119.
Abbreviation SQL_DL_SQL92_DATE := 0x1.
Abbreviation SQL_DL_SQL92_TIME := 0x2.
Abbreviation SQL_DL_SQL92_TIMESTAMP := 0x4.
Abbreviation SQL_DL_SQL92_INTERVAL_YEAR := 0x8.
Abbreviation SQL_DL_SQL92_INTERVAL_MONTH := 0x10.
Abbreviation SQL_DL_SQL92_INTERVAL_DAY := 0x20.
Abbreviation SQL_DL_SQL92_INTERVAL_HOUR := 0x40.
Abbreviation SQL_DL_SQL92_INTERVAL_MINUTE := 0x80.
Abbreviation SQL_DL_SQL92_INTERVAL_SECOND := 0x100.
Abbreviation SQL_DL_SQL92_INTERVAL_YEAR_TO_MONTH := 0x200.
Abbreviation SQL_DL_SQL92_INTERVAL_DAY_TO_HOUR := 0x400.
Abbreviation SQL_DL_SQL92_INTERVAL_DAY_TO_MINUTE := 0x800.
Abbreviation SQL_DL_SQL92_INTERVAL_DAY_TO_SECOND := 0x1000.
Abbreviation SQL_DL_SQL92_INTERVAL_HOUR_TO_MINUTE := 0x2000.
Abbreviation SQL_DL_SQL92_INTERVAL_HOUR_TO_SECOND := 0x4000.
Abbreviation SQL_DL_SQL92_INTERVAL_MINUTE_TO_SECOND := 0x8000.
Abbreviation SQL_DRIVER_NAME := 6.
Abbreviation SQL_DBMS_NAME := 17.
Abbreviation SQL_DBMS_VER := 18.
Abbreviation SQL_DDL_INDEX := 170.
Abbreviation SQL_DEFAULT_TXN_ISOLATION := 26.
Abbreviation SQL_DESCRIBE_PARAMETER := 10002.
Abbreviation SQL_DM_VER := 171.
Abbreviation SQL_SPEC_MAJOR := 3.
Abbreviation SQL_SPEC_MINOR := 52.
Abbreviation SQL_DRIVER_AWARE_POOLING_SUPPORTED := 10024.
Abbreviation SQL_DRIVER_AWARE_POOLING_NOT_CAPABLE := 0.
Abbreviation SQL_DRIVER_ODBC_VER := 77.
Abbreviation SQL_DRIVER_VER := 7.
Abbreviation SQL_DROP_ASSERTION := 136.
Abbreviation SQL_DROP_CHARACTER_SET := 137.
Abbreviation SQL_DROP_COLLATION := 138.
Abbreviation SQL_DROP_DOMAIN := 139.
Abbreviation SQL_DROP_SCHEMA := 140.
Abbreviation SQL_DS_DROP_SCHEMA := 0x1.
Abbreviation SQL_DS_CASCADE := 0x4.
Abbreviation SQL_DS_RESTRICT := 0x2.
Abbreviation SQL_DROP_TABLE := 141.
Abbreviation SQL_DT_DROP_TABLE := 0x1.
Abbreviation SQL_DT_CASCADE := 0x4.
Abbreviation SQL_DT_RESTRICT := 0x2.
Abbreviation SQL_DROP_TRANSLATION := 142.
Abbreviation SQL_DROP_VIEW := 143.
Abbreviation SQL_DV_DROP_VIEW := 0x1.
Abbreviation SQL_DV_CASCADE := 0x4.
Abbreviation SQL_DV_RESTRICT := 0x2.
Abbreviation SQL_DYNAMIC_CURSOR_ATTRIBUTES1 := 144.
Abbreviation SQL_CA1_ABSOLUTE := 0x2.
Abbreviation SQL_CA1_NEXT := 0x1.
Abbreviation SQL_CA1_RELATIVE := 0x4.
Abbreviation SQL_DYNAMIC_CURSOR_ATTRIBUTES2 := 145.
Abbreviation SQL_EXPRESSIONS_IN_ORDERBY := 27.
Abbreviation SQL_FILE_USAGE := 84.
Abbreviation SQL_FILE_NOT_SUPPORTED := 0.
Abbreviation SQL_FORWARD_ONLY_CURSOR_ATTRIBUTES1 := 146.
Abbreviation SQL_FORWARD_ONLY_CURSOR_ATTRIBUTES2 := 147.
Abbreviation SQL_GETDATA_EXTENSIONS := 81.
Abbreviation SQL_GD_ANY_COLUMN := 0x1.
Abbreviation SQL_GD_ANY_ORDER := 0x2.
Abbreviation SQL_GD_BOUND := 0x8.
Abbreviation SQL_GD_BLOCK := 0x4.
Abbreviation SQL_GROUP_BY := 88.
Abbreviation SQL_GB_NO_RELATION := 3.
Abbreviation SQL_IDENTIFIER_CASE := 28.
Abbreviation SQL_IC_LOWER := 2.
Abbreviation SQL_IDENTIFIER_QUOTE_CHAR := 29.
Abbreviation SQL_INDEX_KEYWORDS := 148.
Abbreviation SQL_IK_NONE := 0.
Abbreviation SQL_INFO_SCHEMA_VIEWS := 149.
Abbreviation SQL_INSERT_STATEMENT := 172.
Abbreviation SQL_IS_INSERT_LITERALS := 0x1.
Abbreviation SQL_INTEGRITY := 73.
Abbreviation SQL_KEYSET_CURSOR_ATTRIBUTES1 := 150.
Abbreviation SQL_KEYSET_CURSOR_ATTRIBUTES2 := 151.
Abbreviation SQL_KEYWORDS := 89.
Abbreviation SQL_LIKE_ESCAPE_CLAUSE := 113.
Abbreviation SQL_MAX_ASYNC_CONCURRENT_STATEMENTS := 10022.
Abbreviation SQL_MAX_BINARY_LITERAL_LEN := 112.
Abbreviation SQL_MAX_CHAR_LITERAL_LEN := 108.
Abbreviation SQL_MAX_INDEX_SIZE := 102.
Abbreviation SQL_MAX_ROW_SIZE := 104.
Abbreviation SQL_MAX_STATEMENT_LEN := 105.
Abbreviation SQL_MAX_CATALOG_NAME_LEN := 34.
Abbreviation SQL_MAX_COLUMN_NAME_LEN := 30.
Abbreviation SQL_MAX_COLUMNS_IN_GROUP_BY := 97.
Abbreviation SQL_MAX_COLUMNS_IN_INDEX := 98.
Abbreviation SQL_MAX_COLUMNS_IN_ORDER_BY := 99.
Abbreviation SQL_MAX_COLUMNS_IN_SELECT := 100.
Abbreviation SQL_MAX_COLUMNS_IN_TABLE := 101.
Abbreviation SQL_MAX_CONCURRENT_ACTIVITIES := 1.
Abbreviation SQL_MAX_CURSOR_NAME_LEN := 31.
Abbreviation SQL_MAX_IDENTIFIER_LEN := 10005.
Abbreviation SQL_MAX_PROCEDURE_NAME_LEN := 33.
Abbreviation SQL_MAX_SCHEMA_NAME_LEN := 32.
Abbreviation SQL_MAX_TABLE_NAME_LEN := 35.
Abbreviation SQL_MAX_TABLES_IN_SELECT := 106.
Abbreviation SQL_MAX_USER_NAME_LEN := 107.
Abbreviation SQL_MAX_DRIVER_CONNECTIONS := 0.
Abbreviation SQL_MAX_ROW_SIZE_INCLUDES_LONG := 103.
Abbreviation SQL_MULT_RESULT_SETS := 36.
Abbreviation SQL_MULTIPLE_ACTIVE_TXN := 37.
Abbreviation SQL_NEED_LONG_DATA_LEN := 111.
Abbreviation SQL_NON_NULLABLE_COLUMNS := 75.
Abbreviation SQL_NNC_NON_NULL := 1.
Abbreviation SQL_NULL_COLLATION := 85.
Abbreviation SQL_NC_START := 2.
Abbreviation SQL_NUMERIC_FUNCTIONS := 49.
Abbreviation SQL_FN_NUM_ABS := 0x1.
Abbreviation SQL_FN_NUM_ACOS := 0x2.
Abbreviation SQL_FN_NUM_ASIN := 0x4.
Abbreviation SQL_FN_NUM_ATAN := 0x8.
Abbreviation SQL_FN_NUM_ATAN2 := 0x10.
Abbreviation SQL_FN_NUM_CEILING := 0x20.
Abbreviation SQL_FN_NUM_COS := 0x40.
Abbreviation SQL_FN_NUM_COT := 0x80.
Abbreviation SQL_FN_NUM_DEGREES := 0x40000.
Abbreviation SQL_FN_NUM_EXP := 0x100.
Abbreviation SQL_FN_NUM_FLOOR := 0x200.
Abbreviation SQL_FN_NUM_LOG := 0x400.
Abbreviation SQL_FN_NUM_LOG10 := 0x80000.
Abbreviation SQL_FN_NUM_MOD := 0x800.
Abbreviation SQL_FN_NUM_PI := 0x10000.
Abbreviation SQL_FN_NUM_POWER := 0x100000.
Abbreviation SQL_FN_NUM_RADIANS := 0x200000.
Abbreviation SQL_FN_NUM_ROUND := 0x400000.
Abbreviation SQL_FN_NUM_SIGN := 0x1000.
Abbreviation SQL_FN_NUM_SIN := 0x2000.
Abbreviation SQL_FN_NUM_SQRT := 0x4000.
Abbreviation SQL_FN_NUM_TAN := 0x8000.
Abbreviation SQL_ODBC_INTERFACE_CONFORMANCE := 152.
Abbreviation SQL_OIC_CORE := 1.
Abbreviation SQL_ODBC_API_CONFORMANCE := 9.
Abbreviation SQL_OAC_LEVEL1 := 1.
Abbreviation SQL_OJ_CAPABILITIES := 115.
Abbreviation SQL_OJ_LEFT := 0x1.
Abbreviation SQL_OJ_RIGHT := 0x2.
Abbreviation SQL_OJ_FULL := 0x4.
Abbreviation SQL_OJ_INNER := 0x20.
Abbreviation SQL_OJ_ALL_COMPARISON_OPS := 0x40.
Abbreviation SQL_ORDER_BY_COLUMNS_IN_SELECT := 90.
Abbreviation SQL_PARAM_ARRAY_ROW_COUNTS := 153.
Abbreviation SQL_PARC_BATCH := 1.
Abbreviation SQL_PARAM_ARRAY_SELECTS := 154.
Abbreviation SQL_PAS_BATCH := 1.
Abbreviation SQL_POS_OPERATIONS := 79.
Abbreviation SQL_PROCEDURE_TERM := 40.
Abbreviation SQL_PROCEDURES := 21.
Abbreviation SQL_QUOTED_IDENTIFIER_CASE := 93.
Abbreviation SQL_IC_SENSITIVE := 3.
Abbreviation SQL_ROW_UPDATES := 11.
Abbreviation SQL_SCHEMA_TERM := 39.
Abbreviation SQL_SCHEMA_USAGE := 91.
Abbreviation SQL_SU_DML_STATEMENTS := 0x1.
Abbreviation SQL_SU_TABLE_DEFINITION := 0x4.
Abbreviation SQL_SCROLL_OPTIONS := 44.
Abbreviation SQL_SEARCH_PATTERN_ESCAPE := 14.
Abbreviation SQL_SERVER_NAME := 13.
Abbreviation SQL_SPECIAL_CHARACTERS := 94.
Abbreviation SQL_SQL_CONFORMANCE := 118.
Abbreviation SQL_SC_SQL92_ENTRY := 0x1.
Abbreviation SQL_SQL92_DATETIME_FUNCTIONS := 155.
Abbreviation SQL_SDF_CURRENT_DATE := 0x1.
Abbreviation SQL_SDF_CURRENT_TIME := 0x2.
Abbreviation SQL_SDF_CURRENT_TIMESTAMP := 0x4.
Abbreviation SQL_SQL92_FOREIGN_KEY_DELETE_RULE := 156.
Abbreviation SQL_SQL92_FOREIGN_KEY_UPDATE_RULE := 157.
Abbreviation SQL_SQL92_GRANT := 158.
Abbreviation SQL_SQL92_NUMERIC_VALUE_FUNCTIONS := 159.
Abbreviation SQL_SNVF_BIT_LENGTH := 0x1.
Abbreviation SQL_SNVF_EXTRACT := 0x8.
Abbreviation SQL_SNVF_OCTET_LENGTH := 0x10.
Abbreviation SQL_SNVF_POSITION := 0x20.
Abbreviation SQL_SQL92_PREDICATES := 160.
Abbreviation SQL_SP_BETWEEN := 0x800.
Abbreviation SQL_SP_COMPARISON := 0x1000.
Abbreviation SQL_SP_EXISTS := 0x1.
Abbreviation SQL_SP_IN := 0x400.
Abbreviation SQL_SP_ISNOTNULL := 0x2.
Abbreviation SQL_SP_ISNULL := 0x4.
Abbreviation SQL_SP_LIKE := 0x200.
Abbreviation SQL_SQL92_RELATIONAL_JOIN_OPERATORS := 161.
Abbreviation SQL_SRJO_CROSS_JOIN := 0x2.
Abbreviation SQL_SRJO_FULL_OUTER_JOIN := 0x8.
Abbreviation SQL_SRJO_INNER_JOIN := 0x10.
Abbreviation SQL_SRJO_LEFT_OUTER_JOIN := 0x40.
Abbreviation SQL_SRJO_NATURAL_JOIN := 0x80.
Abbreviation SQL_SRJO_RIGHT_OUTER_JOIN := 0x100.
Abbreviation SQL_SQL92_REVOKE := 162.
Abbreviation SQL_SQL92_ROW_VALUE_CONSTRUCTOR := 163.
Abbreviation SQL_SRVC_VALUE_EXPRESSION := 0x1.
Abbreviation SQL_SRVC_NULL := 0x2.
Abbreviation SQL_SRVC_DEFAULT := 0x4.
Abbreviation SQL_SRVC_ROW_SUBQUERY := 0x8.
Abbreviation SQL_SQL92_STRING_FUNCTIONS := 164.
Abbreviation SQL_SSF_CONVERT := 0x1.
Abbreviation SQL_SSF_LOWER := 0x2.
Abbreviation SQL_SSF_UPPER := 0x4.
Abbreviation SQL_SSF_SUBSTRING := 0x8.
Abbreviation SQL_SSF_TRIM_BOTH := 0x20.
Abbreviation SQL_SSF_TRIM_LEADING := 0x40.
Abbreviation SQL_SSF_TRIM_TRAILING := 0x80.
Abbreviation SQL_SQL92_VALUE_EXPRESSIONS := 165.
Abbreviation SQL_SVE_CASE := 0x1.
Abbreviation SQL_SVE_CAST := 0x2.
Abbreviation SQL_SVE_COALESCE := 0x4.
Abbreviation SQL_SVE_NULLIF := 0x8.
Abbreviation SQL_STANDARD_CLI_CONFORMANCE := 166.
Abbreviation SQL_STATIC_CURSOR_ATTRIBUTES1 := 167.
Abbreviation SQL_STATIC_CURSOR_ATTRIBUTES2 := 168.
Abbreviation SQL_STRING_FUNCTIONS := 50.
Abbreviation SQL_FN_STR_ASCII := 0x2000.
Abbreviation SQL_FN_STR_BIT_LENGTH := 0x80000.
Abbreviation SQL_FN_STR_CONCAT := 0x1.
Abbreviation SQL_FN_STR_LCASE := 0x40.
Abbreviation SQL_FN_STR_LEFT := 0x4.
Abbreviation SQL_FN_STR_LENGTH := 0x10.
Abbreviation SQL_FN_STR_LOCATE := 0x20.
Abbreviation SQL_FN_STR_LTRIM := 0x8.
Abbreviation SQL_FN_STR_REPEAT := 0x80.
Abbreviation SQL_FN_STR_REPLACE := 0x100.
Abbreviation SQL_FN_STR_RIGHT := 0x200.
Abbreviation SQL_FN_STR_RTRIM := 0x400.
Abbreviation SQL_FN_STR_SUBSTRING := 0x800.
Abbreviation SQL_FN_STR_UCASE := 0x1000.
Abbreviation SQL_SUBQUERIES := 95.
Abbreviation SQL_SQ_CORRELATED_SUBQUERIES := 0x10.
Abbreviation SQL_SQ_COMPARISON := 0x1.
Abbreviation SQL_SQ_EXISTS := 0x2.
Abbreviation SQL_SQ_IN := 0x4.
Abbreviation SQL_SQ_QUANTIFIED := 0x8.
Abbreviation SQL_SYSTEM_FUNCTIONS := 51.
Abbreviation SQL_TABLE_TERM := 45.
Abbreviation SQL_TIMEDATE_ADD_INTERVALS := 109.
Abbreviation SQL_TIMEDATE_DIFF_INTERVALS := 110.
Abbreviation SQL_FN_TSI_FRAC_SECOND := 0x1.
Abbreviation SQL_FN_TSI_SECOND := 0x2.
Abbreviation SQL_FN_TSI_MINUTE := 0x4.
Abbreviation SQL_FN_TSI_HOUR := 0x8.
Abbreviation SQL_FN_TSI_DAY := 0x10.
Abbreviation SQL_FN_TSI_WEEK := 0x20.
Abbreviation SQL_FN_TSI_MONTH := 0x40.
Abbreviation SQL_FN_TSI_QUARTER := 0x80.
Abbreviation SQL_FN_TSI_YEAR := 0x100.
Abbreviation SQL_TIMEDATE_FUNCTIONS := 52.
Abbreviation SQL_FN_TD_CURRENT_DATE := 0x20000.
Abbreviation SQL_FN_TD_CURRENT_TIME := 0x40000.
Abbreviation SQL_FN_TD_CURRENT_TIMESTAMP := 0x80000.
Abbreviation SQL_FN_TD_DAYNAME := 0x8000.
Abbreviation SQL_FN_TD_DAYOFMONTH := 0x4.
Abbreviation SQL_FN_TD_DAYOFWEEK := 0x8.
Abbreviation SQL_FN_TD_DAYOFYEAR := 0x10.
Abbreviation SQL_FN_TD_EXTRACT := 0x100000.
Abbreviation SQL_FN_TD_HOUR := 0x400.
Abbreviation SQL_FN_TD_MINUTE := 0x800.
Abbreviation SQL_FN_TD_MONTH := 0x20.
Abbreviation SQL_FN_TD_MONTHNAME := 0x10000.
Abbreviation SQL_FN_TD_NOW := 0x1.
Abbreviation SQL_FN_TD_QUARTER := 0x40.
Abbreviation SQL_FN_TD_SECOND := 0x1000.
Abbreviation SQL_FN_TD_WEEK := 0x80.
Abbreviation SQL_FN_TD_YEAR := 0x100.
Abbreviation SQL_TXN_CAPABLE := 46.
Abbreviation SQL_TC_ALL := 2.
Abbreviation SQL_TXN_ISOLATION_OPTION := 72.
Abbreviation SQL_UNION := 96.
Abbreviation SQL_U_UNION := 0x1.
Abbreviation SQL_U_UNION_ALL := 0x2.
Abbreviation SQL_USER_NAME := 47.
Abbreviation SQL_XOPEN_CLI_YEAR := 10000.
Abbreviation SQL_ALL_TYPES := 0.
Abbreviation SQL_DRIVER_HDESC := 135.
Abbreviation SQL_DRIVER_HSTMT := 5.
