(* ===== verification/InfoApi.v ===== *)
(** * Information on the driver ([odbc_api/info_api.cpp], [ApiInfo::IsNumericInfoType])

    [SQLGetInfo], [SQLGetFunctions], [SQLGetTypeInfo], [SQLDataSources] and
    [SQLDrivers]. The big [switch] of [SQLGetInfo] is a table from information types
    to what is delivered; the cases that look at the connection or run a statement
    are constructors of their own. The tables divide the switch in order. *)

From S2P Require Import Prelude OdbcConst InfoConst Memory Utf8 Widechar OdbcUtils Diagnostic ApiInfo Descriptor Params Fetch Stmt SessionInit Connect Attributes.

(** What a case delivers: an integer of the named C type, a text, or a value of
    its own. *)
Inductive InfoValue :=
  | USmallInt (val : Z)
  | SmallInt (val : Z)
  | UInteger (val : Z)
  | Text (str : bytes)
  | Nothing
  | DataSourceName
  | DatabaseName
  | EngineVersion
  | Keywords.

(** A mask, [a | b | ...]. *)
Definition flags (l : list Z) : Z := foldr Z.lor 0 l.

(** From [SQL_ACCESSIBLE_PROCEDURES] to [SQL_CONVERT_LONGVARCHAR]. *)
Definition info_types_1 : list (list Z * InfoValue) :=
  [([SQL_ACCESSIBLE_PROCEDURES], Text (B"N"));
   ([SQL_ACCESSIBLE_TABLES], Text (B"Y"));
   ([SQL_ACTIVE_ENVIRONMENTS], USmallInt 0);
   ([SQL_AGGREGATE_FUNCTIONS], UInteger (flags [SQL_AF_ALL; SQL_AF_AVG; SQL_AF_COUNT; SQL_AF_DISTINCT; SQL_AF_MAX;
     SQL_AF_MIN; SQL_AF_SUM]));
   ([SQL_ALTER_DOMAIN], UInteger 0);
   ([SQL_ALTER_TABLE], UInteger (flags [SQL_AT_ADD_COLUMN_COLLATION; SQL_AT_ADD_COLUMN_DEFAULT; SQL_AT_ADD_COLUMN_SINGLE;
     SQL_AT_ADD_CONSTRAINT; SQL_AT_ADD_TABLE_CONSTRAINT; SQL_AT_DROP_COLUMN_DEFAULT; SQL_AT_SET_COLUMN_DEFAULT]));
   ([SQL_ASYNC_DBC_FUNCTIONS], UInteger SQL_ASYNC_DBC_NOT_CAPABLE);
   ([SQL_ASYNC_MODE], UInteger SQL_AM_NONE);
   ([SQL_ASYNC_NOTIFICATION], UInteger SQL_ASYNC_NOTIFICATION_NOT_CAPABLE);
   ([SQL_BATCH_ROW_COUNT], UInteger SQL_BRC_EXPLICIT);
   ([SQL_BATCH_SUPPORT], UInteger (flags [SQL_BS_SELECT_EXPLICIT; SQL_BS_ROW_COUNT_EXPLICIT]));
   ([SQL_BOOKMARK_PERSISTENCE], Nothing);
   ([SQL_CATALOG_LOCATION], USmallInt SQL_CL_START);
   ([SQL_CATALOG_NAME], Text (B"Y"));
   ([SQL_CATALOG_NAME_SEPARATOR], Text (B"."));
   ([SQL_CATALOG_TERM], Text []);
   ([SQL_CATALOG_USAGE], UInteger (flags [SQL_CU_DML_STATEMENTS; SQL_CU_TABLE_DEFINITION]));
   ([SQL_COLLATION_SEQ], Text (B"UTF-8"));
   ([SQL_COLUMN_ALIAS], Text (B"Y"));
   ([SQL_CONCAT_NULL_BEHAVIOR], USmallInt SQL_CB_NON_NULL);
   ([SQL_CONVERT_TINYINT; SQL_CONVERT_SMALLINT; SQL_CONVERT_INTEGER; SQL_CONVERT_BIGINT], UInteger (flags
     [SQL_CVT_BIGINT; SQL_CVT_BIT; SQL_CVT_CHAR; SQL_CVT_DECIMAL; SQL_CVT_DOUBLE; SQL_CVT_FLOAT; SQL_CVT_INTEGER;
     SQL_CVT_LONGVARCHAR; SQL_CVT_NUMERIC; SQL_CVT_REAL; SQL_CVT_SMALLINT; SQL_CVT_TINYINT; SQL_CVT_VARCHAR]));
   ([SQL_CONVERT_BINARY; SQL_CONVERT_LONGVARBINARY; SQL_CONVERT_VARBINARY], UInteger (flags [SQL_CVT_BINARY;
     SQL_CVT_CHAR; SQL_CVT_LONGVARBINARY; SQL_CVT_LONGVARCHAR; SQL_CVT_VARBINARY; SQL_CVT_VARCHAR]));
   ([SQL_CONVERT_BIT], UInteger (flags [SQL_CVT_BIGINT; SQL_CVT_BIT; SQL_CVT_CHAR; SQL_CVT_INTEGER; SQL_CVT_LONGVARCHAR;
     SQL_CVT_SMALLINT; SQL_CVT_TINYINT; SQL_CVT_VARCHAR]));
   ([SQL_CONVERT_CHAR; SQL_CONVERT_VARCHAR; SQL_CONVERT_LONGVARCHAR], UInteger (flags [SQL_CVT_BIGINT; SQL_CVT_BINARY;
     SQL_CVT_BIT; SQL_CVT_CHAR; SQL_CVT_DATE; SQL_CVT_DECIMAL; SQL_CVT_DOUBLE; SQL_CVT_FLOAT; SQL_CVT_INTEGER;
     SQL_CVT_INTERVAL_DAY_TIME; SQL_CVT_INTERVAL_YEAR_MONTH; SQL_CVT_LONGVARBINARY; SQL_CVT_LONGVARCHAR; SQL_CVT_NUMERIC;
     SQL_CVT_REAL; SQL_CVT_SMALLINT; SQL_CVT_TIME; SQL_CVT_TIMESTAMP; SQL_CVT_TINYINT; SQL_CVT_VARBINARY;
     SQL_CVT_VARCHAR]))].

(** From [SQL_CONVERT_GUID] to [SQL_DATETIME_LITERALS]. *)
Definition info_types_2 : list (list Z * InfoValue) :=
  [([SQL_CONVERT_GUID], UInteger 0);
   ([SQL_CONVERT_DATE], UInteger (flags [SQL_CVT_CHAR; SQL_CVT_DATE; SQL_CVT_LONGVARCHAR; SQL_CVT_TIMESTAMP;
     SQL_CVT_VARCHAR]));
   ([SQL_CONVERT_DECIMAL; SQL_CONVERT_NUMERIC], UInteger (flags [SQL_CVT_BIGINT; SQL_CVT_CHAR; SQL_CVT_DECIMAL;
     SQL_CVT_DOUBLE; SQL_CVT_FLOAT; SQL_CVT_INTEGER; SQL_CVT_INTERVAL_DAY_TIME; SQL_CVT_LONGVARCHAR; SQL_CVT_NUMERIC;
     SQL_CVT_REAL; SQL_CVT_SMALLINT; SQL_CVT_TINYINT; SQL_CVT_VARCHAR]));
   ([SQL_CONVERT_DOUBLE; SQL_CONVERT_REAL; SQL_CONVERT_FLOAT], UInteger (flags [SQL_CVT_BIGINT; SQL_CVT_CHAR;
     SQL_CVT_DECIMAL; SQL_CVT_DOUBLE; SQL_CVT_FLOAT; SQL_CVT_INTEGER; SQL_CVT_LONGVARCHAR; SQL_CVT_NUMERIC; SQL_CVT_REAL;
     SQL_CVT_SMALLINT; SQL_CVT_TINYINT; SQL_CVT_VARCHAR]));
   ([SQL_CONVERT_INTERVAL_DAY_TIME], UInteger (flags [SQL_CVT_BIGINT; SQL_CVT_CHAR; SQL_CVT_INTEGER;
     SQL_CVT_INTERVAL_DAY_TIME; SQL_CVT_LONGVARCHAR; SQL_CVT_SMALLINT; SQL_CVT_TIME; SQL_CVT_TINYINT; SQL_CVT_VARCHAR]));
   ([SQL_CONVERT_INTERVAL_YEAR_MONTH], UInteger (flags [SQL_CVT_BIGINT; SQL_CVT_CHAR; SQL_CVT_INTEGER;
     SQL_CVT_INTERVAL_YEAR_MONTH; SQL_CVT_LONGVARCHAR; SQL_CVT_SMALLINT; SQL_CVT_TINYINT; SQL_CVT_VARCHAR]));
   ([SQL_CONVERT_TIME], UInteger (flags [SQL_CVT_CHAR; SQL_CVT_INTERVAL_DAY_TIME; SQL_CVT_LONGVARCHAR; SQL_CVT_TIME;
     SQL_CVT_VARCHAR]));
   ([SQL_CONVERT_TIMESTAMP], UInteger (flags [SQL_CVT_CHAR; SQL_CVT_DATE; SQL_CVT_LONGVARCHAR; SQL_CVT_TIME;
     SQL_CVT_TIMESTAMP; SQL_CVT_VARCHAR]));
   ([SQL_CONVERT_FUNCTIONS], UInteger SQL_FN_CVT_CAST);
   ([SQL_CORRELATION_NAME], USmallInt SQL_CN_ANY);
   ([SQL_CONVERT_WCHAR; SQL_CONVERT_WLONGVARCHAR; SQL_CONVERT_WVARCHAR; SQL_CREATE_ASSERTION; SQL_CREATE_CHARACTER_SET;
     SQL_CREATE_COLLATION; SQL_CREATE_DOMAIN; SQL_CREATE_TRANSLATION], UInteger 0);
   ([SQL_CREATE_SCHEMA], UInteger SQL_CS_CREATE_SCHEMA);
   ([SQL_CREATE_TABLE], UInteger (flags [SQL_CT_COLUMN_CONSTRAINT; SQL_CT_COLUMN_DEFAULT;
     SQL_CT_CONSTRAINT_NAME_DEFINITION; SQL_CT_CREATE_TABLE; SQL_CT_LOCAL_TEMPORARY; SQL_CT_TABLE_CONSTRAINT;
     SQL_CT_COLUMN_COLLATION]));
   ([SQL_CREATE_VIEW], UInteger (flags [SQL_CV_CREATE_VIEW; SQL_CV_CHECK_OPTION]));
   ([SQL_CURSOR_COMMIT_BEHAVIOR], USmallInt SQL_CB_PRESERVE);
   ([SQL_CURSOR_ROLLBACK_BEHAVIOR], USmallInt SQL_CB_CLOSE);
   ([SQL_CURSOR_SENSITIVITY], UInteger SQL_INSENSITIVE);
   ([SQL_DATA_SOURCE_NAME], DataSourceName);
   ([SQL_DATA_SOURCE_READ_ONLY], Text (B"N"));
   ([SQL_DATABASE_NAME], DatabaseName);
   ([SQL_DATETIME_LITERALS], UInteger (flags [SQL_DL_SQL92_DATE; SQL_DL_SQL92_TIME; SQL_DL_SQL92_TIMESTAMP;
     SQL_DL_SQL92_INTERVAL_YEAR; SQL_DL_SQL92_INTERVAL_MONTH; SQL_DL_SQL92_INTERVAL_DAY; SQL_DL_SQL92_INTERVAL_HOUR;
     SQL_DL_SQL92_INTERVAL_MINUTE; SQL_DL_SQL92_INTERVAL_SECOND; SQL_DL_SQL92_INTERVAL_YEAR_TO_MONTH;
     SQL_DL_SQL92_INTERVAL_DAY_TO_HOUR; SQL_DL_SQL92_INTERVAL_DAY_TO_MINUTE; SQL_DL_SQL92_INTERVAL_DAY_TO_SECOND;
     SQL_DL_SQL92_INTERVAL_HOUR_TO_MINUTE; SQL_DL_SQL92_INTERVAL_HOUR_TO_SECOND;
     SQL_DL_SQL92_INTERVAL_MINUTE_TO_SECOND]))].

(** From [SQL_DRIVER_NAME] to [SQL_INFO_SCHEMA_VIEWS]. *)
Definition info_types_3 : list (list Z * InfoValue) :=
  [([SQL_DRIVER_NAME; SQL_DBMS_NAME], Text (B"Haybarn"));
   ([SQL_DBMS_VER], EngineVersion);
   ([SQL_DDL_INDEX], UInteger 0);
   ([SQL_DEFAULT_TXN_ISOLATION], UInteger SQL_TXN_SERIALIZABLE);
   ([SQL_DESCRIBE_PARAMETER], Text (B"Y"));
   ([SQL_DM_VER], Text (to_string SQL_SPEC_MAJOR ++ B"." ++ to_string SQL_SPEC_MINOR ++ B".####.####"));
   ([SQL_DRIVER_AWARE_POOLING_SUPPORTED], UInteger SQL_DRIVER_AWARE_POOLING_NOT_CAPABLE);
   ([SQL_DRIVER_ODBC_VER], Text (B"03.51"));
   ([SQL_DRIVER_VER], Text (B"03.51.0000"));
   ([SQL_DROP_ASSERTION], UInteger 0);
   ([SQL_DROP_CHARACTER_SET], UInteger 0);
   ([SQL_DROP_COLLATION], UInteger 0);
   ([SQL_DROP_DOMAIN], UInteger 0);
   ([SQL_DROP_SCHEMA], UInteger (flags [SQL_DS_DROP_SCHEMA; SQL_DS_CASCADE; SQL_DS_RESTRICT]));
   ([SQL_DROP_TABLE], UInteger (flags [SQL_DT_DROP_TABLE; SQL_DT_CASCADE; SQL_DT_RESTRICT]));
   ([SQL_DROP_TRANSLATION], UInteger 0);
   ([SQL_DROP_VIEW], UInteger (flags [SQL_DV_DROP_VIEW; SQL_DV_CASCADE; SQL_DV_RESTRICT]));
   ([SQL_DYNAMIC_CURSOR_ATTRIBUTES1], UInteger (flags [SQL_CA1_ABSOLUTE; SQL_CA1_NEXT; SQL_CA1_RELATIVE]));
   ([SQL_DYNAMIC_CURSOR_ATTRIBUTES2], UInteger 0);
   ([SQL_EXPRESSIONS_IN_ORDERBY], Text (B"Y"));
   ([SQL_FILE_USAGE], USmallInt SQL_FILE_NOT_SUPPORTED);
   ([SQL_FORWARD_ONLY_CURSOR_ATTRIBUTES1], UInteger SQL_CA1_NEXT);
   ([SQL_FORWARD_ONLY_CURSOR_ATTRIBUTES2], UInteger 0);
   ([SQL_GETDATA_EXTENSIONS], UInteger (flags [SQL_GD_ANY_COLUMN; SQL_GD_ANY_ORDER; SQL_GD_BOUND; SQL_GD_BLOCK]));
   ([SQL_GROUP_BY], USmallInt SQL_GB_NO_RELATION);
   ([SQL_IDENTIFIER_CASE], USmallInt SQL_IC_LOWER);
   ([SQL_IDENTIFIER_QUOTE_CHAR], Text (sql_text "`"));
   ([SQL_INDEX_KEYWORDS], UInteger SQL_IK_NONE);
   ([SQL_INFO_SCHEMA_VIEWS], UInteger 0)].

(** From [SQL_INSERT_STATEMENT] to [SQL_OJ_CAPABILITIES]. *)
Definition info_types_4 : list (list Z * InfoValue) :=
  [([SQL_INSERT_STATEMENT], UInteger SQL_IS_INSERT_LITERALS);
   ([SQL_INTEGRITY], Text (B"N"));
   ([SQL_KEYSET_CURSOR_ATTRIBUTES1], UInteger (flags [SQL_CA1_ABSOLUTE; SQL_CA1_NEXT; SQL_CA1_RELATIVE]));
   ([SQL_KEYSET_CURSOR_ATTRIBUTES2], UInteger 0);
   ([SQL_KEYWORDS], Keywords);
   ([SQL_LIKE_ESCAPE_CLAUSE], Text (B"Y"));
   ([SQL_MAX_ASYNC_CONCURRENT_STATEMENTS; SQL_MAX_BINARY_LITERAL_LEN; SQL_MAX_CHAR_LITERAL_LEN; SQL_MAX_INDEX_SIZE;
     SQL_MAX_ROW_SIZE; SQL_MAX_STATEMENT_LEN], UInteger 0);
   ([SQL_MAX_CATALOG_NAME_LEN; SQL_MAX_COLUMN_NAME_LEN; SQL_MAX_COLUMNS_IN_GROUP_BY; SQL_MAX_COLUMNS_IN_INDEX;
     SQL_MAX_COLUMNS_IN_ORDER_BY; SQL_MAX_COLUMNS_IN_SELECT; SQL_MAX_COLUMNS_IN_TABLE; SQL_MAX_CONCURRENT_ACTIVITIES;
     SQL_MAX_CURSOR_NAME_LEN; SQL_MAX_IDENTIFIER_LEN; SQL_MAX_PROCEDURE_NAME_LEN; SQL_MAX_SCHEMA_NAME_LEN;
     SQL_MAX_TABLE_NAME_LEN; SQL_MAX_TABLES_IN_SELECT; SQL_MAX_USER_NAME_LEN], USmallInt 0);
   ([SQL_MAX_DRIVER_CONNECTIONS], USmallInt 1);
   ([SQL_MAX_ROW_SIZE_INCLUDES_LONG], Text (B"Y"));
   ([SQL_MULT_RESULT_SETS], Text (B"N"));
   ([SQL_MULTIPLE_ACTIVE_TXN], Text (B"Y"));
   ([SQL_NEED_LONG_DATA_LEN], Text (B"N"));
   ([SQL_NON_NULLABLE_COLUMNS], USmallInt SQL_NNC_NON_NULL);
   ([SQL_NULL_COLLATION], USmallInt SQL_NC_START);
   ([SQL_NUMERIC_FUNCTIONS], UInteger (flags [SQL_FN_NUM_ABS; SQL_FN_NUM_ACOS; SQL_FN_NUM_ASIN; SQL_FN_NUM_ATAN;
     SQL_FN_NUM_ATAN2; SQL_FN_NUM_CEILING; SQL_FN_NUM_COS; SQL_FN_NUM_COT; SQL_FN_NUM_DEGREES; SQL_FN_NUM_EXP;
     SQL_FN_NUM_FLOOR; SQL_FN_NUM_LOG; SQL_FN_NUM_LOG10; SQL_FN_NUM_MOD; SQL_FN_NUM_PI; SQL_FN_NUM_POWER;
     SQL_FN_NUM_RADIANS; SQL_FN_NUM_ROUND; SQL_FN_NUM_SIGN; SQL_FN_NUM_SIN; SQL_FN_NUM_SQRT; SQL_FN_NUM_TAN]));
   ([SQL_ODBC_INTERFACE_CONFORMANCE], UInteger SQL_OIC_CORE);
   ([SQL_ODBC_API_CONFORMANCE], SmallInt SQL_OAC_LEVEL1);
   ([SQL_OJ_CAPABILITIES], UInteger (flags [SQL_OJ_LEFT; SQL_OJ_RIGHT; SQL_OJ_FULL; SQL_OJ_INNER;
     SQL_OJ_ALL_COMPARISON_OPS]))].

(** From [SQL_ORDER_BY_COLUMNS_IN_SELECT] to [SQL_TABLE_TERM]. *)
Definition info_types_5 : list (list Z * InfoValue) :=
  [([SQL_ORDER_BY_COLUMNS_IN_SELECT], Text (B"Y"));
   ([SQL_PARAM_ARRAY_ROW_COUNTS], UInteger SQL_PARC_BATCH);
   ([SQL_PARAM_ARRAY_SELECTS], UInteger SQL_PAS_BATCH);
   ([SQL_POS_OPERATIONS], UInteger 0);
   ([SQL_PROCEDURE_TERM], Text []);
   ([SQL_PROCEDURES], Text (B"N"));
   ([SQL_QUOTED_IDENTIFIER_CASE], USmallInt SQL_IC_SENSITIVE);
   ([SQL_ROW_UPDATES], Text (B"N"));
   ([SQL_SCHEMA_TERM], Text (B"schema"));
   ([SQL_SCHEMA_USAGE], UInteger (flags [SQL_SU_DML_STATEMENTS; SQL_SU_TABLE_DEFINITION]));
   ([SQL_SCROLL_OPTIONS], UInteger SQL_SCROLL_OPTIONS);
   ([SQL_SEARCH_PATTERN_ESCAPE], Text (B"\"));
   ([SQL_SERVER_NAME], Text []);
   ([SQL_SPECIAL_CHARACTERS], Text (B"!%&'()*+,-./;:<=>?@[]^{}|~"));
   ([SQL_SQL_CONFORMANCE], UInteger SQL_SC_SQL92_ENTRY);
   ([SQL_SQL92_DATETIME_FUNCTIONS], UInteger (flags [SQL_SDF_CURRENT_DATE; SQL_SDF_CURRENT_TIME;
     SQL_SDF_CURRENT_TIMESTAMP]));
   ([SQL_SQL92_FOREIGN_KEY_DELETE_RULE; SQL_SQL92_FOREIGN_KEY_UPDATE_RULE; SQL_SQL92_GRANT], UInteger 0);
   ([SQL_SQL92_NUMERIC_VALUE_FUNCTIONS], UInteger (flags [SQL_SNVF_BIT_LENGTH; SQL_SNVF_EXTRACT; SQL_SNVF_OCTET_LENGTH;
     SQL_SNVF_POSITION]));
   ([SQL_SQL92_PREDICATES], UInteger (flags [SQL_SP_BETWEEN; SQL_SP_COMPARISON; SQL_SP_EXISTS; SQL_SP_IN;
     SQL_SP_ISNOTNULL; SQL_SP_ISNULL; SQL_SP_LIKE]));
   ([SQL_SQL92_RELATIONAL_JOIN_OPERATORS], UInteger (flags [SQL_SRJO_CROSS_JOIN; SQL_SRJO_FULL_OUTER_JOIN;
     SQL_SRJO_INNER_JOIN; SQL_SRJO_LEFT_OUTER_JOIN; SQL_SRJO_NATURAL_JOIN; SQL_SRJO_RIGHT_OUTER_JOIN]));
   ([SQL_SQL92_REVOKE], UInteger 0);
   ([SQL_SQL92_ROW_VALUE_CONSTRUCTOR], UInteger (flags [SQL_SRVC_VALUE_EXPRESSION; SQL_SRVC_NULL; SQL_SRVC_DEFAULT;
     SQL_SRVC_ROW_SUBQUERY]));
   ([SQL_SQL92_STRING_FUNCTIONS], UInteger (flags [SQL_SSF_CONVERT; SQL_SSF_LOWER; SQL_SSF_UPPER; SQL_SSF_SUBSTRING;
     SQL_SSF_TRIM_BOTH; SQL_SSF_TRIM_LEADING; SQL_SSF_TRIM_TRAILING]));
   ([SQL_SQL92_VALUE_EXPRESSIONS], UInteger (flags [SQL_SVE_CASE; SQL_SVE_CAST; SQL_SVE_COALESCE; SQL_SVE_NULLIF]));
   ([SQL_STANDARD_CLI_CONFORMANCE], UInteger 0);
   ([SQL_STATIC_CURSOR_ATTRIBUTES1], UInteger (flags [SQL_CA1_NEXT; SQL_CA1_ABSOLUTE; SQL_CA1_RELATIVE]));
   ([SQL_STATIC_CURSOR_ATTRIBUTES2], UInteger 0);
   ([SQL_STRING_FUNCTIONS], UInteger (flags [SQL_FN_STR_ASCII; SQL_FN_STR_BIT_LENGTH; SQL_FN_STR_CONCAT;
     SQL_FN_STR_LCASE; SQL_FN_STR_LEFT; SQL_FN_STR_LENGTH; SQL_FN_STR_LOCATE; SQL_FN_STR_LTRIM; SQL_FN_STR_REPEAT;
     SQL_FN_STR_REPLACE; SQL_FN_STR_RIGHT; SQL_FN_STR_RTRIM; SQL_FN_STR_SUBSTRING; SQL_FN_STR_UCASE]));
   ([SQL_SUBQUERIES], UInteger (flags [SQL_SQ_CORRELATED_SUBQUERIES; SQL_SQ_COMPARISON; SQL_SQ_EXISTS; SQL_SQ_IN;
     SQL_SQ_QUANTIFIED]));
   ([SQL_SYSTEM_FUNCTIONS], UInteger 0);
   ([SQL_TABLE_TERM], Text (B"table"))].

(** From [SQL_TIMEDATE_ADD_INTERVALS] to [SQL_RETURN_ESCAPE_CLAUSE]. *)
Definition info_types_6 : list (list Z * InfoValue) :=
  [([SQL_TIMEDATE_ADD_INTERVALS; SQL_TIMEDATE_DIFF_INTERVALS], UInteger (flags [SQL_FN_TSI_FRAC_SECOND;
     SQL_FN_TSI_SECOND; SQL_FN_TSI_MINUTE; SQL_FN_TSI_HOUR; SQL_FN_TSI_DAY; SQL_FN_TSI_WEEK; SQL_FN_TSI_MONTH;
     SQL_FN_TSI_QUARTER; SQL_FN_TSI_YEAR]));
   ([SQL_TIMEDATE_FUNCTIONS], UInteger (flags [SQL_FN_TD_CURRENT_DATE; SQL_FN_TD_CURRENT_TIME;
     SQL_FN_TD_CURRENT_TIMESTAMP; SQL_FN_TD_DAYNAME; SQL_FN_TD_DAYOFMONTH; SQL_FN_TD_DAYOFWEEK; SQL_FN_TD_DAYOFYEAR;
     SQL_FN_TD_EXTRACT; SQL_FN_TD_HOUR; SQL_FN_TD_MINUTE; SQL_FN_TD_MONTH; SQL_FN_TD_MONTHNAME; SQL_FN_TD_NOW;
     SQL_FN_TD_QUARTER; SQL_FN_TD_SECOND; SQL_FN_TD_WEEK; SQL_FN_TD_YEAR]));
   ([SQL_TXN_CAPABLE], USmallInt SQL_TC_ALL);
   ([SQL_TXN_ISOLATION_OPTION], UInteger SQL_TXN_SERIALIZABLE);
   ([SQL_UNION], UInteger (flags [SQL_U_UNION; SQL_U_UNION_ALL]));
   ([SQL_USER_NAME; SQL_XOPEN_CLI_YEAR], Text []);
   ([SQL_DTC_TRANSACTION_COST], UInteger 0);
   ([SQL_RETURN_ESCAPE_CLAUSE], UInteger 0)].

Definition info_types : list (list Z * InfoValue) :=
  info_types_1 ++ info_types_2 ++ info_types_3 ++ info_types_4 ++ info_types_5 ++ info_types_6.

Fixpoint find_info (info_type : Z) (table : list (list Z * InfoValue)) : option InfoValue :=
  match table with
  | [] => None
  | (labels, v) :: table' => if bool_decide (info_type ∈ labels) then Some v else find_info info_type table'
  end.

(** [IsNumericInfoType] *)
Definition numeric_info_types : list Z :=
  [SQL_ACTIVE_ENVIRONMENTS; SQL_AGGREGATE_FUNCTIONS; SQL_ALTER_DOMAIN; SQL_ALTER_TABLE; SQL_ASYNC_DBC_FUNCTIONS;
    SQL_ASYNC_MODE; SQL_ASYNC_NOTIFICATION; SQL_BATCH_ROW_COUNT; SQL_BOOKMARK_PERSISTENCE; SQL_CATALOG_LOCATION;
    SQL_CATALOG_USAGE; SQL_CONCAT_NULL_BEHAVIOR; SQL_CONVERT_BIGINT; SQL_CONVERT_BINARY; SQL_CONVERT_BIT;
    SQL_CONVERT_CHAR; SQL_CONVERT_DATE; SQL_CONVERT_DECIMAL; SQL_CONVERT_DOUBLE; SQL_CONVERT_FLOAT; SQL_CONVERT_INTEGER;
    SQL_CONVERT_INTERVAL_YEAR_MONTH; SQL_CONVERT_INTERVAL_DAY_TIME; SQL_CONVERT_LONGVARBINARY; SQL_CONVERT_LONGVARCHAR;
    SQL_CONVERT_NUMERIC; SQL_CONVERT_REAL; SQL_CONVERT_SMALLINT; SQL_CONVERT_TIME; SQL_CONVERT_TIMESTAMP;
    SQL_CONVERT_TINYINT; SQL_CONVERT_VARBINARY; SQL_CONVERT_VARCHAR; SQL_CONVERT_FUNCTIONS; SQL_CORRELATION_NAME;
    SQL_CREATE_ASSERTION; SQL_CREATE_CHARACTER_SET; SQL_CREATE_COLLATION; SQL_CREATE_DOMAIN; SQL_CREATE_SCHEMA;
    SQL_CREATE_TABLE; SQL_CREATE_TRANSLATION; SQL_CREATE_VIEW; SQL_CURSOR_COMMIT_BEHAVIOR; SQL_CURSOR_ROLLBACK_BEHAVIOR;
    SQL_CURSOR_SENSITIVITY; SQL_DATETIME_LITERALS; SQL_DDL_INDEX; SQL_DEFAULT_TXN_ISOLATION;
    SQL_DRIVER_AWARE_POOLING_SUPPORTED; SQL_DRIVER_HDESC; SQL_DRIVER_HSTMT; SQL_DROP_ASSERTION; SQL_DROP_CHARACTER_SET;
    SQL_DROP_COLLATION; SQL_DROP_DOMAIN; SQL_DROP_SCHEMA; SQL_DROP_TABLE; SQL_DROP_TRANSLATION; SQL_DROP_VIEW;
    SQL_DYNAMIC_CURSOR_ATTRIBUTES1; SQL_DYNAMIC_CURSOR_ATTRIBUTES2; SQL_FILE_USAGE; SQL_FORWARD_ONLY_CURSOR_ATTRIBUTES1;
    SQL_FORWARD_ONLY_CURSOR_ATTRIBUTES2; SQL_GETDATA_EXTENSIONS; SQL_GROUP_BY; SQL_IDENTIFIER_CASE; SQL_INDEX_KEYWORDS;
    SQL_INFO_SCHEMA_VIEWS; SQL_INSERT_STATEMENT; SQL_KEYSET_CURSOR_ATTRIBUTES1; SQL_KEYSET_CURSOR_ATTRIBUTES2;
    SQL_MAX_ASYNC_CONCURRENT_STATEMENTS; SQL_MAX_BINARY_LITERAL_LEN; SQL_MAX_CATALOG_NAME_LEN; SQL_MAX_CHAR_LITERAL_LEN;
    SQL_MAX_COLUMN_NAME_LEN; SQL_MAX_COLUMNS_IN_GROUP_BY; SQL_MAX_COLUMNS_IN_INDEX; SQL_MAX_COLUMNS_IN_ORDER_BY;
    SQL_MAX_COLUMNS_IN_SELECT; SQL_MAX_COLUMNS_IN_TABLE; SQL_MAX_CONCURRENT_ACTIVITIES; SQL_MAX_CURSOR_NAME_LEN;
    SQL_MAX_DRIVER_CONNECTIONS; SQL_MAX_IDENTIFIER_LEN; SQL_MAX_INDEX_SIZE; SQL_MAX_PROCEDURE_NAME_LEN;
    SQL_MAX_SCHEMA_NAME_LEN; SQL_MAX_STATEMENT_LEN; SQL_MAX_TABLE_NAME_LEN; SQL_MAX_TABLES_IN_SELECT;
    SQL_MAX_USER_NAME_LEN; SQL_NON_NULLABLE_COLUMNS; SQL_NULL_COLLATION; SQL_NUMERIC_FUNCTIONS; SQL_OJ_CAPABILITIES;
    SQL_PARAM_ARRAY_ROW_COUNTS; SQL_PARAM_ARRAY_SELECTS; SQL_POS_OPERATIONS; SQL_QUOTED_IDENTIFIER_CASE;
    SQL_SCHEMA_USAGE; SQL_SCROLL_OPTIONS; SQL_SQL_CONFORMANCE; SQL_SQL92_FOREIGN_KEY_DELETE_RULE;
    SQL_SQL92_FOREIGN_KEY_UPDATE_RULE; SQL_SQL92_GRANT; SQL_SQL92_NUMERIC_VALUE_FUNCTIONS; SQL_SQL92_PREDICATES;
    SQL_SQL92_RELATIONAL_JOIN_OPERATORS; SQL_SQL92_REVOKE; SQL_SQL92_STRING_FUNCTIONS; SQL_SQL92_VALUE_EXPRESSIONS;
    SQL_STATIC_CURSOR_ATTRIBUTES1; SQL_STATIC_CURSOR_ATTRIBUTES2; SQL_STRING_FUNCTIONS; SQL_SUBQUERIES;
    SQL_SYSTEM_FUNCTIONS; SQL_TIMEDATE_ADD_INTERVALS; SQL_TIMEDATE_DIFF_INTERVALS; SQL_TIMEDATE_FUNCTIONS;
    SQL_TXN_CAPABLE; SQL_TXN_ISOLATION_OPTION; SQL_UNION].

Definition IsNumericInfoType (info_type : Z) : bool := bool_decide (info_type ∈ numeric_info_types).

(** ** Delivering a text *)
Definition info_record (ret : Z) (msg : bytes) (state : SQLStateType) (d : OdbcHandleDbc) : Z * OdbcHandleDbc :=
  dbc_record ret (B"SQLGetInfo") msg state (dbc_dsn d) d.

Definition SetDiagError (has_valid_handle : bool) (d : OdbcHandleDbc) : Z * OdbcHandleDbc :=
  if has_valid_handle then info_record SQL_ERROR (B"Invalid string or buffer length") ST_HY090 d else (SQL_ERROR, d).

(** The overloads of [WriteStringInfo]. A handle without a connection is no
    obstacle; the narrow one reports a truncation on it too. *)
Definition WriteStringInfo (c : CharType) (str : bytes) (character_attribute_ptr : ptr) (buffer_length : Z)
    (string_length : ptr) (d : OdbcHandleDbc) (m : mem) : Z * OdbcHandleDbc * mem :=
  let '(ret, d) := ConvertConnection d in
  let has_valid_handle := SQL_SUCCEEDED ret in
  if buffer_length <? 0 then (SetDiagError has_valid_handle d, m)
  else
    let truncated d := info_record SQL_SUCCESS_WITH_INFO (B"String data, right truncated") ST_01004 d in
    match c with
    | SQLCHAR_T =>
        let '(written, m) := WriteStringUtf8 str character_attribute_ptr buffer_length m in
        let m := store_opt 2 m string_length (zlen str) in
        if negb (character_attribute_ptr =? nullptr) && (written <? zlen str) then (truncated d, m) else (SQL_SUCCESS, d, m)
    | SQLWCHAR_T =>
        let '(written, utf16_vec, m) := WriteStringUtf16 str character_attribute_ptr buffer_length m in
        let m := store_opt 2 m string_length (zlen utf16_vec) in
        if has_valid_handle && negb (character_attribute_ptr =? nullptr) && (written <? zlen utf16_vec) then (truncated d, m)
        else (SQL_SUCCESS, d, m)
    end.

(** ** The reserved keywords *)

(** A statement handle as [SQLAllocHandle] makes it. *)
Definition new_OdbcHandleStmt (i : nat) (d : OdbcHandleDbc) : OdbcHandleStmt :=
  let ref := MkStmtRef i (i + 1) false in
  MkOdbcHandleStmt (dbc_dsn d) new_OdbcDiagnostic None None [] false SQL_RD_ON nullptr 0 new_OdbcFetch
    (new_ParameterDescriptor (i + 2) (dbc_dsn d) ref) (make_RowDescriptor (i + 3) (dbc_dsn d) ref).

Definition keyword_size : Z := 100.
Definition keywords_query : bytes := B"SELECT keyword_name FROM duckdb_keywords() WHERE keyword_category='reserved'".

Section Info.
Context {Engine SQLStatement : Type} `{EngineOps Engine SQLStatement} `{GetDataOp}.

(** The version of the engine, where the C library puts the buffer for a keyword,
    and an identity for the descriptors of the statement. *)
Context (LibraryVersion : bytes) (keyword : ptr) (fresh : nat).

(** The loop over the rows, [n] of them at most. The result is the text so far, or
    a return code that ends the call. *)
Fixpoint read_keywords (fuel n : nat) (conn : bool) (reserved_keywords : bytes) (h : OdbcHandleStmt) (e : Engine) (m : mem)
    : option (option ((bytes + Z) * Engine * mem)) :=
  match n with
  | O => None
  | S n' =>
      match SQLFetch fuel conn h e m with
      | None => None
      | Some None => Some None
      | Some (Some (ret, h, e, m)) =>
          if ret =? SQL_NO_DATA then Some (Some (inl reserved_keywords, e, m))
          else if negb (SQL_SUCCEEDED ret) then Some (Some (inr ret, e, m))
          else match SQLGetData conn 1 SQL_C_CHAR keyword keyword_size nullptr h e m with
               | None => None
               | Some None => Some None
               | Some (Some (ret, h, e, m)) =>
                   if negb (SQL_SUCCEEDED ret) then Some (Some (inr ret, e, m))
                   else read_keywords fuel n' conn (reserved_keywords ++ c_string m keyword fuel ++ B",") h e m
               end
      end
  end.

(** The last comma stays, and [pop_back] of an empty text is undefined. *)
Definition get_keywords (fuel n : nat) (d : OdbcHandleDbc) (e : Engine) (m : mem)
    : option (option ((bytes + Z) * Engine * mem)) :=
  let h := new_OdbcHandleStmt fresh d in
  match ExecDirectText fuel n (conn d) keywords_query h e m with
  | None => None
  | Some None => Some None
  | Some (Some (ret, h, e, m)) =>
      if negb (SQL_SUCCEEDED ret) then Some (Some (inr ret, e, m))
      else match read_keywords fuel n (conn d) [] h e m with
           | Some (Some (inl [], _, _)) => Some None
           | r => r
           end
  end.

(** ** [SQLGetInfo] *)
Definition GetInfoInternal (c : CharType) (fuel n : nat) (info_type : Z) (info_value_ptr : ptr) (buffer_length : Z)
    (string_length_ptr : ptr) (d : OdbcHandleDbc) (e : Engine) (m : mem)
    : option (option (Z * OdbcHandleDbc * Engine * mem)) :=
  let ret r := let '(code, d) := (r : Z * OdbcHandleDbc) in Some (Some (code, d, e, m)) in
  let integer w val := Some (Some (SQL_SUCCESS, d, e, StoreWithLength w 2 val info_value_ptr string_length_ptr m)) in
  let text str d := let '(code, d, m) := WriteStringInfo c str info_value_ptr buffer_length string_length_ptr d m in
                    Some (Some (code, d, e, m)) in
  let with_connection k := let '(code, d) := ConvertConnection d in
                           if negb (code =? SQL_SUCCESS) then ret (code, d) else k d in
  if IsNumericInfoType info_type && (info_value_ptr =? nullptr) then
    with_connection (fun d =>
      ret (info_record SQL_ERROR (B"Invalid null value pointer for numeric info type.") ST_HY024 d))
  else match find_info info_type info_types with
  | Some (USmallInt val) => integer 2%nat val
  | Some (SmallInt val) => integer 2%nat val
  | Some (UInteger val) => integer 4%nat val
  | Some (Text str) => text str d
  | Some Nothing => Some (Some (SQL_SUCCESS, d, e, m))
  | Some DataSourceName => with_connection (fun d => text (dbc_dsn d) d)
  | Some DatabaseName =>
      with_connection (fun d =>
        let db_name := GetDatabaseName d in
        text (if bool_decide (db_name = IN_MEMORY_PATH) then [] else db_name) d)
  | Some EngineVersion => text LibraryVersion d
  | Some Keywords =>
      match get_keywords fuel n d e m with
      | None => None
      | Some None => Some None
      | Some (Some (inr code, e, m)) => Some (Some (code, d, e, m))
      | Some (Some (inl reserved_keywords, e, m)) =>
          let '(code, d, m) := WriteStringInfo c reserved_keywords info_value_ptr buffer_length string_length_ptr d m in
          Some (Some (code, d, e, m))
      end
  | None =>
      with_connection (fun d => ret (info_record SQL_SUCCESS (B"Unrecognized attribute: " ++ to_string info_type) ST_HY092 d))
  end.

Definition SQLGetInfo := GetInfoInternal SQLCHAR_T.

(** The wide entry point doubles the length, of integers too. *)
Definition SQLGetInfoW (fuel n : nat) (info_type : Z) (info_value_ptr : ptr) (buffer_length : Z) (string_length_ptr : ptr)
    (d : OdbcHandleDbc) (e : Engine) (m : mem) : option (option (Z * OdbcHandleDbc * Engine * mem)) :=
  match GetInfoInternal SQLWCHAR_T fuel n info_type info_value_ptr buffer_length string_length_ptr d e m with
  | Some (Some (ret, d, e, m)) =>
      Some (Some (ret, d, e, if SQL_SUCCEEDED ret && negb (string_length_ptr =? nullptr)
                             then store 2 m string_length_ptr (s16 (load_s 2 m string_length_ptr * 2)) else m))
  | r => r
  end.

(** ** The other functions *)
Definition SQLGetFunctions (function_id : Z) (supported_ptr : ptr) (m : mem) : Z * mem :=
  (SQL_SUCCESS, if function_id =? SQL_API_ODBC3_ALL_FUNCTIONS then GetFunctions30 supported_ptr m
                else GetFunctions function_id supported_ptr m).

Definition type_info_columns : bytes := sql_text "
	) AS odbc_types (
		`TYPE_NAME`,
		`DATA_TYPE`,
		`COLUMN_SIZE`,
		`LITERAL_PREFIX`,
		`LITERAL_SUFFIX`,
		`CREATE_PARAMS`,
		`NULLABLE`,
		`CASE_SENSITIVE`,
		`SEARCHABLE`,
		`UNSIGNED_ATTRIBUTE`,
		`FIXED_PREC_SCALE`,
		`AUTO_UNIQUE_VALUE`,
		`LOCAL_TYPE_NAME`,
		`MINIMUM_SCALE`,
		`MAXIMUM_SCALE`,
		`SQL_DATA_TYPE`,
		`SQL_DATETIME_SUB`,
		`NUM_PREC_RADIX`,
		`INTERVAL_PRECISION`
	)".

Definition type_info_query (data_type : Z) : bytes :=
  WriteInfoTypesToQueryString (if data_type =? SQL_ALL_TYPES then ODBC_SUPPORTED_SQL_TYPES else FindDataType data_type)
    (B"SELECT * FROM (VALUES ") ++ type_info_columns.

(** Narrow and wide alike. *)
Definition SQLGetTypeInfo (fuel n : nat) (conn : bool) (data_type : Z) (h : OdbcHandleStmt) (e : Engine) (m : mem) : run Engine :=
  ExecDirectText fuel n conn (type_info_query data_type) h e m.

Definition SQLDataSources (v : OdbcHandleEnv) : Z * OdbcHandleEnv :=
  env_record SQL_ERROR (B"SQLDataSources") (B"Driver Manager only function") ST_HY000 v.
Definition SQLDrivers (v : OdbcHandleEnv) : Z * OdbcHandleEnv :=
  env_record SQL_ERROR (B"SQLDrivers") (B"Driver Manager only function") ST_HY000 v.
End Info.

(** ** The tables *)

(** The cases of the switch are different. *)
Lemma info_types_distinct : NoDup (concat (fst <$> info_types)).
Proof. apply (bool_decide_unpack _). by vm_compute. Qed.

(** The width and the value of an integer result. *)
Definition integer_result (v : InfoValue) : option (nat * Z) :=
  match v with
  | USmallInt z | SmallInt z => Some (2%nat, z)
  | UInteger z => Some (4%nat, z)
  | _ => None
  end.

Definition in_width (v : InfoValue) : bool :=
  match integer_result v with Some (w, z) => (0 <=? z) && (z <? 2 ^ (8 * Z.of_nat w)) | None => true end.

Lemma find_info_In t table v : find_info t table = Some v -> exists labels, (labels, v) ∈ table /\ t ∈ labels.
Proof.
  induction table as [|[ls w] table IH]; [done|]. cbn. case_bool_decide as Hin.
  - intros [= <-]. exists ls. split; [apply list_elem_of_here|done].
  - intros (ls' & ? & ?)%IH. exists ls'. split; [by apply list_elem_of_further|done].
Qed.

(** A check of every entry of the tables. *)
Lemma info_types_all (P : list Z * InfoValue -> bool) t v :
  forallb P info_types = true -> find_info t info_types = Some v -> exists labels, P (labels, v) = true /\ t ∈ labels.
Proof.
  intros Hall (ls & Hin & Ht)%find_info_In. exists ls. split; [|done].
  apply (proj1 (forallb_forall _ _) Hall), list_elem_of_In, Hin.
Qed.

Lemma integer_in_width t v w z :
  find_info t info_types = Some v -> integer_result v = Some (w, z) -> in_u (8 * Z.of_nat w) z.
Proof.
  intros Hf Hr. destruct (info_types_all (fun lv => in_width lv.2) t v) as (ls & H & _); [by vm_compute|done|].
  unfold in_width in H. cbn in H. rewrite Hr in H. apply andb_prop in H as [H1 H2]. zbool. unfold in_u. lia.
Qed.

(** No text is announced as an integer, so that a null pointer is refused for
    integers only. *)
Lemma texts_not_numeric t v : find_info t info_types = Some v -> IsNumericInfoType t = true -> t <> SQL_BOOKMARK_PERSISTENCE ->
  is_Some (integer_result v).
Proof.
  intros Hf Hn Ht.
  destruct (info_types_all (fun lv => match integer_result lv.2 with
              | Some _ => true
              | None => forallb (fun l => negb (IsNumericInfoType l) || (l =? SQL_BOOKMARK_PERSISTENCE)) lv.1
              end) t v) as (ls & H & Hl); [by vm_compute|done|].
  cbn in H. destruct (integer_result v); [by eexists|]. apply (proj1 (forallb_forall _ _)) with (x := t) in H; [|by apply list_elem_of_In].
  rewrite Hn in H. cbn in H. zbool. done.
Qed.

(** ** What [SQLGetInfo] delivers *)
Lemma WriteStringUtf16_outside str out n m a :
  0 <= n < 2 ^ 64 -> a < out \/ out + n <= a -> (WriteStringUtf16 str out n m).2 !! a = m !! a.
Proof.
  intros Hn Ha. unfold WriteStringUtf16. destruct (out =? nullptr); [done|]. cbn [negb].
  set (ws := utf8_to_utf16_lenient str). pose proof (zlen_nonneg ws).
  set (even := if negb (n mod 2 =? 0) then u64 (n - 1) else n).
  assert (even <= n) as He.
  { unfold even. destruct (Z.eqb_spec (n mod 2) 0); cbn [negb]; [lia|].
    assert (n <> 0) by (intros ->; done). rewrite wrap_u_small by (unfold in_u; lia). lia. }
  clearbody even. destruct (Z.leb_spec even 2).
  - destruct (Z.eqb_spec even 2); [cbn [snd]; apply store_outside; lia|done].
  - cbn [snd]. set (k := Z.min (zlen ws * 2) (even - 2) / 2).
    assert (0 <= k /\ 2 * k <= even - 2 /\ k <= zlen ws) as (Hk & Hk2 & Hk3).
    { subst k. pose proof (Z.mul_div_le (Z.min (zlen ws * 2) (even - 2)) 2 ltac:(lia)).
      pose proof (Z.div_pos (Z.min (zlen ws * 2) (even - 2)) 2 ltac:(lia) ltac:(lia)). lia. }
    rewrite store_outside by lia. apply write_bytes_outside. rewrite words_to_bytes_length, zlen_ztake by lia. lia.
Qed.

Lemma WriteStringInfo_result c str p len slp d m : conn d = true -> 0 < len < 2 ^ 15 ->
  exists ret d' m', WriteStringInfo c str p len slp d m = (ret, d', m') /\ SQL_SUCCEEDED ret = true
    /\ forall a, a < p \/ p + len <= a -> a < slp \/ slp + 2 <= a -> m' !! a = m !! a.
Proof.
  intros Hc Hl. unfold WriteStringInfo. destruct (ConvertConnection_facts d) as [diag ->]. rewrite Hc.
  change (SQL_SUCCEEDED SQL_SUCCESS) with true. rewrite (proj2 (Z.ltb_ge len 0)) by lia.
  destruct c.
  - pose proof (WriteStringUtf8_outside str p len m) as Ho. destruct (WriteStringUtf8 str p len m) as [wr m1]. cbn [snd] in Ho.
    destruct (negb (p =? nullptr) && (wr <? zlen str)); unfold info_record;
      [match goal with |- context [dbc_record ?r ?c ?m ?s ?x ?d] => destruct (dbc_record_facts r c m s x d) as [? ->] end|];
      eexists _, _, _; (split; [reflexivity|]); (split; [done|]); intros a Ha Hs;
      rewrite store_opt_outside by lia; apply Ho; lia.
  - pose proof (WriteStringUtf16_outside str p len m) as Ho. destruct (WriteStringUtf16 str p len m) as [[wr vec] m1]. cbn [snd] in Ho.
    destruct (true && negb (p =? nullptr) && (wr <? zlen vec)); unfold info_record;
      [match goal with |- context [dbc_record ?r ?c ?m ?s ?x ?d] => destruct (dbc_record_facts r c m s x d) as [? ->] end|];
      eexists _, _, _; (split; [reflexivity|]); (split; [done|]); intros a Ha Hs;
      rewrite store_opt_outside by lia; apply Ho; lia.
Qed.

Section GetInfo.
Context {Engine SQLStatement : Type} `{EO : EngineOps Engine SQLStatement} `{GD : GetDataOp}.

End GetInfo.

(** The list of keywords is never without its last comma. *)
Lemma read_keywords_comma `{EngineOps Engine SQLStatement} `{GetDataOp} keyword fuel n conn acc h (e : Engine) m s e' m' :
  read_keywords keyword fuel n conn acc h e m = Some (Some (inl s, e', m')) -> s = acc \/ exists s', s = s' ++ B",".
Proof.
  revert acc h e m. induction n as [|n IH]; intros acc h e m Hr; [done|]. cbn [read_keywords] in Hr.
  destruct (SQLFetch fuel conn h e m) as [[[[[ret h1] e1] m1]|]|]; try done.
  destruct (ret =? SQL_NO_DATA); [injection Hr as <- _ _; by left|]. destruct (negb (SQL_SUCCEEDED ret)); [done|].
  destruct (SQLGetData conn 1 SQL_C_CHAR keyword keyword_size nullptr h1 e1 m1) as [[[[[ret2 h2] e2] m2]|]|]; try done.
  destruct (negb (SQL_SUCCEEDED ret2)); [done|]. apply IH in Hr as [->|Hr]; [|by right]. right. eexists. by rewrite (assoc_L (++)).
Qed.

Lemma get_keywords_comma `{EngineOps Engine SQLStatement} `{GetDataOp} keyword fresh fuel n d (e : Engine) m s e' m' :
  get_keywords keyword fresh fuel n d e m = Some (Some (inl s, e', m')) -> exists s', s = s' ++ B",".
Proof.
  unfold get_keywords. destruct (ExecDirectText _ _ _ _ _ _ _) as [[[[[ret h1] e1] m1]|]|]; try done.
  destruct (negb (SQL_SUCCEEDED ret)); [done|].
  destruct (read_keywords keyword fuel n (conn d) [] h1 e1 m1) as [[[[[s1|] e2] m2]|]|] eqn:Er; try done.
  - destruct (read_keywords_comma _ _ _ _ _ _ _ _ _ _ _ Er) as [->|[s2 ->]]; [done|].
    destruct (s2 ++ B",") eqn:E; [by destruct s2|]. intros [= <- _ _]. by exists s2.
Qed.

(** The wide entry point doubles the length of an integer. *)
Lemma wide_integer_length version keyword fresh fuel n d (e : nat) m :
  exists m', SQLGetInfoW version keyword fresh fuel n SQL_TXN_CAPABLE 100 0 200 d e m = Some (Some (SQL_SUCCESS, d, e, m'))
    /\ load_u 2 m' 200 = 4.
Proof.
  eexists. split; [reflexivity|]. cbn -[load_u load_s store]. rewrite (load_u_store 2), load_s_store_in; [by vm_compute|lia|by vm_compute].
Qed.

(** The scroll options are the number of their own information type, without the
    flag of forward-only cursors. *)
Example scroll_options : find_info SQL_SCROLL_OPTIONS info_types = Some (UInteger SQL_SCROLL_OPTIONS).
Proof. by vm_compute. Qed.

