(* ===== verification/DescTypes.v ===== *)
(** * The types of descriptor fields

    A descriptor is a set of C integers and pointers; the model has a [Z] for each.
    This file states that every field has a value of its C type and that the
    operations that write descriptors keep it so: [SetDescField]
    ([odbc_driver/descriptor.cpp]), [BindParameterStmt] and [FillIRD]. *)

From S2P Require Import Prelude OdbcConst Memory OdbcUtils Diagnostic Interval ApiInfo Descriptor Params Fetch Stmt.

Definition record_typed (r : DescRecord) : Prop :=
  (in_s 16 (sql_desc_auto_unique_value r) /\ in_s 16 (sql_desc_concise_type r)
   /\ in_s 16 (sql_desc_datetime_interval_code r) /\ in_s 16 (sql_desc_fixed_prec_scale r)
   /\ in_s 16 (sql_desc_nullable r) /\ in_s 16 (sql_desc_parameter_type r) /\ in_s 16 (sql_desc_precision r)
   /\ in_s 16 (sql_desc_rowver r) /\ in_s 16 (sql_desc_scale r) /\ in_s 16 (sql_desc_searchable r)
   /\ in_s 16 (sql_desc_type r) /\ in_s 16 (sql_desc_unnamed r) /\ in_s 16 (sql_desc_unsigned r)
   /\ in_s 16 (sql_desc_updatable r))
  /\ (in_s 32 (sql_desc_case_sensitive r) /\ in_s 32 (sql_desc_datetime_interval_precision r)
      /\ in_s 32 (sql_desc_display_size r) /\ in_s 32 (sql_desc_num_prec_radix r))
  /\ (in_u 64 (sql_desc_length r) /\ in_s 64 (sql_desc_octet_length r) /\ in_u 64 (sql_desc_data_ptr r)
      /\ in_u 64 (sql_desc_indicator_ptr r) /\ in_u 64 (sql_desc_octet_length_ptr r)).

Definition header_typed (h : DescHeader) : Prop :=
  in_s 16 (sql_desc_alloc_type h) /\ in_u 64 (sql_desc_array_size h) /\ in_u 64 (sql_desc_array_status_ptr h)
  /\ in_u 64 (sql_desc_bind_offset_ptr h) /\ in_s 32 (sql_desc_bind_type h) /\ in_s 16 (sql_desc_count h)
  /\ in_u 64 (sql_desc_rows_processed_ptr h).

Definition desc_typed (d : OdbcHandleDesc) : Prop := header_typed (desc_header d) /\ Forall record_typed (records d).

(** The memory of the client holds bytes. *)
Definition byte_memory (m : mem) : Prop := forall a, is_byte (read_byte m a).

Lemma read_bytes_are_bytes m a n : byte_memory m -> Forall is_byte (read_bytes m a n).
Proof. intros Hm. revert a. induction n as [|n IH]; intros a; cbn [read_bytes]; constructor; [apply Hm|apply IH]. Qed.

Lemma le_combine_range l : Forall is_byte l -> in_u (8 * Z.of_nat (length l)) (le_combine l).
Proof.
  unfold in_u. induction 1 as [|b l Hb _ IH]; cbn [le_combine length]; [done|]. unfold is_byte in Hb.
  rewrite Nat2Z.inj_succ. replace (8 * Z.succ (Z.of_nat (length l))) with (8 + 8 * Z.of_nat (length l)) by lia.
  rewrite Z.pow_add_r by lia. change (2 ^ 8) with 256. lia.
Qed.

Lemma load_u_range n m p : byte_memory m -> in_u (8 * Z.of_nat n) (load_u n m p).
Proof.
  intros Hm. unfold load_u. rewrite <- (length_read_bytes m p n) at 1. by apply le_combine_range, read_bytes_are_bytes.
Qed.

Lemma load_s_range n m p : (0 < n)%nat -> in_s (8 * Z.of_nat n) (load_s n m p).
Proof. intros. apply wrap_s_range. lia. Qed.

Lemma s16_range z : in_s 16 (s16 z).
Proof. by apply wrap_s_range. Qed.

Lemma default_record_typed : record_typed default_DescRecord.
Proof. repeat split; by vm_compute. Qed.

Create HintDb typed.
#[export] Hint Resolve s16_range default_record_typed : typed.

(** An update of one field keeps the others. *)
Ltac typed_record := intros r (?&?&?); destruct r; unfold record_typed; cbn in *; intuition (eauto with typed).

Lemma GetIntervalCode_range t : in_s 16 (GetIntervalCode t).
Proof. unfold GetIntervalCode, switch. repeat case_match; by vm_compute. Qed.

Lemma SetSqlDataType_typed type r : in_s 16 type -> record_typed r -> record_typed (SetSqlDataType type r).2.
Proof.
  intros Ht. revert r. assert (in_s 16 SQL_INTERVAL) by (by vm_compute). pose proof (GetIntervalCode_range type).
  unfold SetSqlDataType. destruct (IsIntervalType type); [destruct (GetIntervalCode type =? SQL_ERROR)|]; typed_record.
Qed.

(** ** The type table *)
Definition type_info_typed (t : OdbcTypeInfo) : bool :=
  let i32 z := (- 2 ^ 31 <=? z) && (z <? 2 ^ 31) in
  i32 (ti_interval_precision t) && i32 (ti_case_sensitive t) && i32 (ti_num_prec_radix t).

Lemma FindDataType_typed type t ts : FindDataType type = t :: ts ->
  in_s 32 (ti_interval_precision t) /\ in_s 32 (ti_case_sensitive t) /\ in_s 32 (ti_num_prec_radix t).
Proof.
  intros E. assert (t ∈ ODBC_SUPPORTED_SQL_TYPES) as Hin.
  { rewrite FindDataType_rows in E. assert (t ∈ filter (fun r => ti_data_type r = type) ODBC_SUPPORTED_SQL_TYPES) as Ht
      by (rewrite E; apply list_elem_of_here). by apply list_elem_of_filter in Ht as [_ ?]. }
  assert (forallb type_info_typed ODBC_SUPPORTED_SQL_TYPES = true) as Hall by (by vm_compute).
  apply (proj1 (forallb_forall _ _)) with (x := t) in Hall; [|by apply list_elem_of_In].
  unfold type_info_typed in Hall. rewrite !andb_true_iff in Hall. destruct Hall as [[[? ?] [? ?]] [? ?]]. zbool.
  unfold in_s. cbn. lia.
Qed.

Lemma SetSqlDescType_typed type r : in_s 16 type -> record_typed r -> record_typed (SetSqlDescType type r).2.
Proof.
  intros Ht Hr. unfold SetSqlDescType. destruct (FindDataType type) as [|t ts] eqn:E; [done|].
  apply FindDataType_typed in E as (H1 & H2 & H3).
  pose proof (SetSqlDataType_typed (s16 (ti_sql_data_type t)) r (s16_range _) Hr) as Hr'.
  generalize dependent (SetSqlDataType (s16 (ti_sql_data_type t)) r).2. clear Hr r. cbn [snd].
  assert (in_u 64 (u64 (ti_column_size t))) by (by apply wrap_u_range).
  assert (in_s 32 (if ti_num_prec_radix t =? -1 then 0 else ti_num_prec_radix t)) by (case_match; [by vm_compute|done]).
  typed_record.
Qed.

(** ** Writing a field *)
Lemma record_alter_typed g i d : (forall r, record_typed r -> record_typed (g r)) ->
  desc_typed d -> desc_typed (d <| records ::= alter g i |>).
Proof.
  intros Hg [Hh Hr]. destruct d as [? ? h rs ? ?]. split; [done|]. cbn in *.
  apply Forall_alter; [done|]. intros r _. apply Hg.
Qed.

Lemma desc_error_typed ret c msg st srv d : desc_typed d -> desc_typed (desc_error ret c msg st srv d).2.
Proof. by destruct d. Qed.

Lemma readonly_typed b d : desc_typed d -> desc_typed (ReturnInvalidFieldIdentifier b d).2.
Proof. apply desc_error_typed. Qed.

Lemma vec_resize_typed n rs : Forall record_typed rs -> Forall record_typed (vec_resize n default_DescRecord rs).
Proof.
  intros H. unfold vec_resize. apply Forall_app. split; [by apply Forall_take|].
  apply Forall_replicate, default_record_typed.
Qed.

Lemma GetDescRecord_typed idx d : desc_typed d -> desc_typed (GetDescRecord idx d).
Proof.
  intros [Hh Hr]. unfold GetDescRecord. case_match; [|done]. destruct d as [? ? [] rs ? ?].
  split; [|cbn in *; by apply vec_resize_typed]. unfold header_typed in *. cbn in *. intuition (auto with typed).
Qed.

Lemma header_typed_set f d : (forall h, header_typed h -> header_typed (f h)) -> desc_typed d ->
  desc_typed (d <| desc_header ::= f |>).
Proof. intros Hf [Hh Hr]. destruct d. split; [by apply Hf|done]. Qed.

Ltac typed_header := apply header_typed_set; [|done]; intros [] ?; unfold header_typed in *; cbn -[load_u load_s] in *; intuition.

Lemma SetDescHeaderField_typed m f p d r : byte_memory m -> in_u 64 p -> desc_typed d ->
  SetDescHeaderField m f p d = inl (Some r) -> desc_typed r.2.
Proof.
  intros Hm Hp Hd H. pose proof (load_u_range 8 m p Hm) as H8. pose proof (load_s_range 4 m p ltac:(lia)) as H4.
  pose proof (load_s_range 2 m p ltac:(lia)) as H2.
  change (8 * Z.of_nat 8) with 64 in H8. change (8 * Z.of_nat 4) with 32 in H4. change (8 * Z.of_nat 2) with 16 in H2.
  unfold SetDescHeaderField, deref_s, deref_u in H.
  repeat case_match; try discriminate H; cbn [mbind option_bind] in H; repeat case_match; apply (inj inl) in H; try discriminate H;
    apply (inj Some) in H; subst r; cbn [snd];
    match goal with
    | |- desc_typed (ReturnInvalidFieldIdentifier _ _).2 => by apply readonly_typed
    | |- desc_typed (desc_error _ _ _ _ _ _).2 => by apply desc_error_typed
    | |- _ => idtac
    end.
  all: try done.
  all: typed_header.
Qed.

(** Altering a record by a function with the types of the fields. *)
Ltac typed_alter := apply record_alter_typed; [|done]; intros [] (?&?&?); unfold record_typed; cbn -[load_u load_s] in *; intuition.

Lemma SetDescRecordField_typed fuel m idx f p n d r : byte_memory m -> in_u 64 p -> desc_typed d ->
  SetDescRecordField fuel m idx f p n d = Some r -> desc_typed r.2.
Proof.
  intros Hm Hp Hd H. pose proof (load_u_range 8 m p Hm) as H8. pose proof (load_s_range 4 m p ltac:(lia)) as H4.
  pose proof (load_s_range 2 m p ltac:(lia)) as H2. pose proof (load_s_range 8 m p ltac:(lia)) as H8s.
  change (8 * Z.of_nat 8) with 64 in *. change (8 * Z.of_nat 4) with 32 in H4. change (8 * Z.of_nat 2) with 16 in H2.
  assert (forall type r1, in_s 16 type \/ type = sql_desc_type r1 -> records d !! Z.to_nat idx = Some r1 ->
    desc_typed (d <| records ::= alter (fun _ => (SetSqlDescType type r1).2) (Z.to_nat idx) |>)) as Hset.
  { intros type r1 Ht Hr1. apply record_alter_typed; [|done]. intros _ _.
    assert (record_typed r1) as Hr by (by apply (proj1 (Forall_lookup record_typed (records d)) (proj2 Hd) (Z.to_nat idx))).
    apply SetSqlDescType_typed; [|done]. destruct Ht as [?| ->]; [done|]. unfold record_typed in Hr. tauto. }
  unfold SetDescRecordField, deref_s, deref_u in H. cbv zeta in H.
  repeat case_match; try discriminate H; cbn [mbind option_bind] in H; try discriminate H;
    try (destruct (records d !! Z.to_nat idx) as [r1|] eqn:Hr1; [|discriminate H]; cbn [mbind option_bind] in H);
    repeat match type of H with context [SetSqlDescType ?t ?r1] =>
      specialize (Hset t r1); destruct (SetSqlDescType t r1) as [code r2]; cbn [snd] in Hset; destruct (negb (code =? 0)) end;
    apply (inj Some) in H; subst r; cbn [snd];
    match goal with
    | |- desc_typed (ReturnInvalidFieldIdentifier _ _).2 => by apply readonly_typed
    | |- desc_typed (desc_error _ _ _ _ _ _).2 => apply desc_error_typed
    | |- _ => idtac
    end.
  all: try (by apply Hset; first [by left|by right|done]).
  all: typed_alter.
Qed.


Lemma byte_memory_empty : byte_memory ∅.
Proof. intros a. unfold read_byte. rewrite lookup_empty. by vm_compute. Qed.


(** ** The records of a statement's columns *)
Lemma ird_record_typed `{EngineOps Engine SQLStatement} name t :
  zlen name < 2 ^ 64 -> in_u 8 (GetWidth t) -> in_u 8 (GetScale t) -> record_typed (ird_record name t).
Proof.
  intros Hn Hw Hs. pose proof (zlen_nonneg name).
  assert (in_u 64 (zlen name)) as Hz by (unfold in_u; lia).
  assert (in_s 16 (GetWidth t) /\ in_s 16 (GetScale t)) as [Hw16 Hs16] by (unfold in_u, in_s in *; lia).
  assert (record_typed (ird_named name)) as H1.
  { unfold ird_named. generalize default_record_typed. generalize default_DescRecord.
    assert (in_s 16 (if zlen name =? 0 then SQL_UNNAMED else SQL_NAMED)) by (case_match; by vm_compute). typed_record. }
  set (st := FindRelatedSQLType (id t)).
  assert (in_s 16 st) as Hst by (subst st; destruct (id t); by vm_compute).
  assert (record_typed (ird_typed st t (ird_named name))) as H2.
  { unfold ird_typed. pose proof (SetSqlDescType_typed (if st =? SQL_INTERVAL then SQL_INTERVAL_DAY_TO_SECOND else st) _
      ltac:(case_match; [by vm_compute|done]) H1) as H2. revert H2. generalize (SetSqlDescType (if st =? SQL_INTERVAL then SQL_INTERVAL_DAY_TO_SECOND else st) (ird_named name)).2. typed_record. }
  assert (record_typed (ird_precision st t (ird_typed st t (ird_named name)))) as H3.
  { revert H2. generalize (ird_typed st t (ird_named name)).
    assert (in_s 16 (GetTemporalPrecision (id t))) by (destruct (id t); by vm_compute).
    unfold ird_precision. destruct (_ || _); [destruct (id t); try done|destruct (_ || _); [|done]]; typed_record. }
  unfold ird_record. fold st. cbv zeta. revert H3. generalize (ird_precision st t (ird_typed st t (ird_named name))).
  assert (in_s 32 (s32 (GetDisplaySize t))) by (by apply wrap_s_range).
  assert (in_s 16 SQL_TRUE) by (by vm_compute).
  unfold SetDescUnsignedField. intros r Hr. destruct (_ || _); revert r Hr; typed_record.
Qed.

Lemma FillIRD_typed `{EngineOps Engine SQLStatement} h s h' :
  stmt h = Some s -> Forall (fun name => zlen name < 2 ^ 64) (ps_names s) ->
  Forall (fun t => in_u 8 (GetWidth t) /\ in_u 8 (GetScale t)) (ps_types s) ->
  FillIRD h = Some h' -> Forall record_typed (records (ird (row_desc h'))).
Proof.
  intros Hs Hn Ht. unfold FillIRD. rewrite Hs. cbn [mbind option_bind]. destruct (_ <? _); [done|].
  intros E. apply (inj Some) in E. subst h'. destruct h as [? ? ? ? ? ? ? ? ? ? ? [? [] ?]]. change (Forall record_typed (zip_with ird_record (ps_names s) (ps_types s))).
  apply (proj2 (Forall_lookup _ _)). intros i r (name & t & -> & E1 & E2)%lookup_zip_with_Some.
  apply (proj1 (Forall_lookup _ _)) with (i := i) (x := name) in Hn; [|done].
  apply (proj1 (Forall_lookup _ _)) with (i := i) (x := t) in Ht as [? ?]; [|done]. by apply ird_record_typed.
Qed.
