(* ===== verification/Cupola.v ===== *)
(** * The Cupola connection ([odbc_driver/connect/cupola_connection.cpp])

    A name of the connection string selects a row of the user's registry, a JSON
    file. The row is checked, its OAuth session is decrypted, and the catalog it
    describes is attached; a macro then tells the client what was attached.

    The system and the libraries are the class [CupolaOps]: conversions of text,
    the environment, files, hashing, decryption, the clock, the JSON library and the
    statements of the engine. Wide text is a list of 16-bit units. An exception is
    its message on the left of a sum; [Secret], which erases its memory, is its
    text. *)

From S2P Require Import Prelude OdbcConst Memory OdbcUtils Diagnostic Widechar Sha256 Stmt SessionInit Connect.

(** ** Results, and programs over an engine *)
Definition result (A : Type) : Type := bytes + A.
Definition M (Engine A : Type) : Type := Engine -> result A * Engine.

#[export] Instance result_ret : MRet result := fun A a => inr a.
#[export] Instance result_bind : MBind result := fun A C f r =>
  match r with inl what => inl what | inr a => f a end.
#[export] Instance M_ret {Engine} : MRet (M Engine) := fun A a e => (inr a, e).
#[export] Instance M_bind {Engine} : MBind (M Engine) := fun A C f m e =>
  match m e with (inl what, e) => (inl what, e) | (inr a, e) => f a e end.

Definition throw {A} (what : bytes) : result A := inl what.
Definition lift {Engine A} (r : result A) : M Engine A := fun e => (r, e).

(** [if (!ok) throw std::runtime_error(what)]. *)
Definition require (ok : bool) (what : bytes) : result () := if ok then inr () else throw what.

(** ** JSON, as the library gives it; a number is its text *)
Abbreviation wide := (list Z).

Inductive yyjson_val :=
  | yyjson_null
  | yyjson_bool (b : bool)
  | yyjson_num (text : bytes)
  | yyjson_str (s : bytes)
  | yyjson_arr (l : list yyjson_val)
  | yyjson_obj (l : list (bytes * yyjson_val)).

Fixpoint first_member (key : bytes) (l : list (bytes * yyjson_val)) : option yyjson_val :=
  match l with
  | [] => None
  | (k, v) :: l' => if bool_decide (k = key) then Some v else first_member key l'
  end.

(** The first member of the name; none in what is not an object. *)
Definition yyjson_obj_get (o : yyjson_val) (key : bytes) : option yyjson_val :=
  match o with yyjson_obj l => first_member key l | _ => None end.

(** What [WinHttpCrackUrl] finds. *)
Record URL_COMPONENTS := MkURL {
  nScheme : Z;
  HostName : wide;
  nPort : Z;
  UserName : wide;
  Password : wide;
  UrlPath : wide
}.

Definition INTERNET_SCHEME_HTTPS : Z := 2.

(** [windows] is whether [_WIN32] is defined. [open_file] gives what [tellg] says
    at the end of a file that opens, and its bytes when they can be read. *)
Class CupolaOps (Engine : Type) := {
  windows : bool;
  MultiByteToWideChar : bytes -> option wide;
  WideCharToMultiByte : wide -> bytes;
  GetEnvironmentVariableW : bytes -> wide;
  SHGetKnownFolderPath : option wide;
  open_file : wide -> option (Z * option bytes);
  CompareStringOrdinal : wide -> wide -> bool;
  WinHttpCrackUrl : wide -> option URL_COMPONENTS;
  CryptAcquireContextW : bool;
  CryptHash : bytes -> option bytes;
  CryptUnprotectData : bytes -> bytes -> option bytes;
  GetSystemTime : Z * Z * Z * Z * Z * Z;
  GetModuleFileNameW : wide;
  file_exists : wide -> bool;
  yyjson_read : bytes -> option yyjson_val;
  yyjson_val_write : yyjson_val -> option bytes;
  Query : bytes -> Engine -> bool * Engine
}.

(** ** Helpers *)
Section Cupola.
Context {Engine : Type} `{CupolaOps Engine}.

Definition BOM : bytes := [0xEF; 0xBB; 0xBF].

Definition Json (text : bytes) : result yyjson_val :=
  match yyjson_read (if bool_decide (take 3 text = BOM) then drop 3 text else text) with
  | None => throw (B"Cupola store contains invalid JSON.")
  | Some doc => mret doc
  end.

Definition Wide (s : bytes) : result wide :=
  if bool_decide (s = []) then mret []
  else
    match MultiByteToWideChar s with
    | None => throw (B"Invalid Cupola text encoding.")
    | Some out => mret out
    end.

Definition Utf8 (s : wide) : bytes := if bool_decide (s = []) then [] else WideCharToMultiByte s.

(** Empty when the variable is not set. *)
Definition Env (key : bytes) : wide := GetEnvironmentVariableW key.

Definition Root : result wide :=
  let override_path := Env (B"VGI_EXCEL_CONFIG_HOME") in
  if negb (bool_decide (override_path = [])) then mret override_path
  else
    match SHGetKnownFolderPath with
    | None => throw (B"Cupola user store is unavailable.")
    | Some path => mret (path ++ B"\QueryFarm\VgiExcel")
    end.

Definition Read (path : wide) (limit : Z) : result bytes :=
  match open_file path with
  | None => throw (B"Cupola connection or OAuth session was not found. Open Cupola Connections and sign in if required.")
  | Some (size, data) =>
      if (size <? 0) || (limit <? size) then throw (B"Cupola store exceeds its size limit.")
      else if size =? 0 then mret []
      else match data with None => throw (B"Cupola store could not be read.") | Some data => mret data end
  end.

Definition Field (o : yyjson_val) (key : bytes) : result bytes :=
  match yyjson_obj_get o key with
  | Some (yyjson_str s) => mret s
  | _ => throw (B"Cupola connection fields are invalid.")
  end.

Definition Optional (o : yyjson_val) (key : bytes) : bytes :=
  match yyjson_obj_get o key with Some (yyjson_str s) => s | _ => [] end.

(** The text between the marks: a mark inside is doubled. *)
Fixpoint quote_body (mark : Z) (s : bytes) : result bytes :=
  match s with
  | [] => mret [mark]
  | c :: s' =>
      if c =? 0 then throw (B"Cupola fields must not contain NUL.")
      else v ← quote_body mark s'; mret (c :: (if c =? mark then c :: v else v))
  end.

Definition Quote (s : bytes) (mark : Z) : result bytes := v ← quote_body mark s; mret (mark :: v).
Definition apostrophe : Z := chr "'".
Definition double_quote : Z := 34.

Definition Dump (v : yyjson_val) : result bytes :=
  match yyjson_val_write v with None => throw (B"Invalid Cupola option.") | Some s => mret s end.

Definition hex : bytes := B"0123456789ABCDEF".
Definition hex_byte (b : Z) : bytes := [nth (Z.to_nat (Z.shiftr b 4)) hex 0; nth (Z.to_nat (Z.land b 15)) hex 0].

Definition Hash (s : bytes) : result bytes :=
  if negb CryptAcquireContextW then throw (B"Cupola hash provider unavailable.")
  else match CryptHash s with None => throw (B"Cupola hash failed.") | Some value => mret (b ← value; hex_byte b) end.

(** [while (!key.empty() && key.back() == c) key.pop_back()]. *)
Definition trim_back (c : Z) (s : bytes) : bytes := reverse (drop_while (Z.eqb c) (reverse s)).

Definition OAuthKey (location : bytes) : result bytes :=
  url ← Wide location;
  let refuse := throw (B"Cupola requires an HTTPS endpoint without embedded credentials.") in
  match WinHttpCrackUrl url with
  | None => refuse
  | Some parts =>
      if negb (nScheme parts =? INTERNET_SCHEME_HTTPS) || (zlen (HostName parts) =? 0)
         || negb (zlen (UserName parts) =? 0) || negb (zlen (Password parts) =? 0) then refuse
      else
        let host := Lower (Utf8 (HostName parts)) in
        let key := B"https://" ++ host in
        let key := if nPort parts =? 443 then key else key ++ B":" ++ to_string (nPort parts) in
        let key := if zlen (UrlPath parts) =? 0 then key else key ++ Utf8 (UrlPath parts) in
        mret (trim_back (chr "/") key)
  end.

(** [%0nu]. *)
Definition pad_u (n : nat) (z : Z) : bytes :=
  let s := to_string z in replicate (n - length s) (chr "0") ++ s.

Definition iso_time (t : Z * Z * Z * Z * Z * Z) : bytes :=
  let '(wYear, wMonth, wDay, wHour, wMinute, wSecond) := t in
  pad_u 4 wYear ++ B"-" ++ pad_u 2 wMonth ++ B"-" ++ pad_u 2 wDay ++ B"T" ++ pad_u 2 wHour ++ B":"
  ++ pad_u 2 wMinute ++ B":" ++ pad_u 2 wSecond.

(** [expiry.size() < 19 || expiry.substr(0, 19) <= stamp]; the buffer of [stamp]
    has 32 bytes. *)
Definition expired (expiry : bytes) (now : Z * Z * Z * Z * Z * Z) : bool :=
  (zlen expiry <? 19) || negb (bytes_ltb (take 31 (iso_time now)) (take 19 expiry)).

Definition Credential (root : wide) (key : bytes) : result bytes :=
  inner ← Hash key;
  name ← Hash (B"QueryFarm/VgiExcel/OAuth/" ++ inner);
  wname ← Wide name;
  encrypted ← Read (root ++ B"\oauth-sessions\" ++ wname ++ B".bin") (1024 * 1024);
  match CryptUnprotectData encrypted (B"QueryFarm.CupolaForExcel.OAuth.v1") with
  | None => throw (B"Cupola OAuth session cannot be decrypted for this Windows user. Sign in again in Cupola.")
  | Some clear =>
      tokens ← Json clear;
      let token := Optional tokens (B"refresh_token") in
      if negb (bool_decide (token = [])) then q ← Quote token apostrophe; mret (B"oauth_refresh_token " ++ q)
      else if expired (Optional tokens (B"ExpiresAtUtc")) GetSystemTime then
        throw (B"Cupola OAuth session has expired. Sign in again in Cupola.")
      else
        let id := match yyjson_obj_get tokens (B"UseIdToken") with Some (yyjson_bool true) => true | _ => false end in
        let token := Optional tokens (if id then B"id_token" else B"access_token") in
        if bool_decide (token = []) then
          throw (B"Cupola OAuth session has no usable credential. Sign in again in Cupola.")
        else q ← Quote token apostrophe; mret (B"bearer_token " ++ q)
  end.

(** Whatever fails is the text given. *)
Definition Run (sql error : bytes) : M Engine () := fun e =>
  let '(ok, e) := Query sql e in (if ok then inr () else inl error, e).

(** ** Attaching *)

(** The loop over the rows of the registry. *)
Fixpoint select_row (rows : list yyjson_val) (wanted : wide) (selected : option yyjson_val) : result (option yyjson_val) :=
  match rows with
  | [] => mret selected
  | row :: rows' =>
      name ← Field row (B"Name");
      candidate ← Wide name;
      if CompareStringOrdinal candidate wanted then
        match selected with
        | Some _ => throw (B"Cupola connection name is ambiguous.")
        | None => select_row rows' wanted (Some row)
        end
      else select_row rows' wanted selected
  end.

(** The fields of the selected row. *)
Record CupolaRow := MkCupolaRow {
  row_name : bytes;
  row_catalog : bytes;
  row_location : bytes;
  row_auth : bytes;
  row_options : option yyjson_val
}.

(** The row, with the key of its OAuth session. *)
Definition read_row (selected : yyjson_val) : result (CupolaRow * bytes) :=
  name ← Field selected (B"Name");
  catalog ← Field selected (B"Catalog");
  location ← Field selected (B"Location");
  auth ← Field selected (B"Authentication");
  _ ← require (negb (bool_decide (catalog = []))) (B"Cupola catalog alias is missing.");
  oauth_key ← OAuthKey location;
  _ ← require (bool_decide (auth = B"anonymous") || bool_decide (auth = B"oauth"))
        (B"Cupola authentication mode is invalid.");
  let options := yyjson_obj_get selected (B"AttachOptions") in
  _ ← require (match options with None | Some yyjson_null | Some (yyjson_obj _) => true | _ => false end)
        (B"Cupola ATTACH options must be an object.");
  mret (MkCupolaRow name catalog location auth options, oauth_key).

Definition forbidden : list bytes :=
  [B"type"; B"location"; B"access_token"; B"api_key"; B"authorization"; B"bearer_token";
   B"client_secret"; B"id_token"; B"oauth_refresh_token"; B"password"; B"refresh_token"; B"secret"].

(** [[A-Za-z_][A-Za-z0-9_]*]. *)
Definition letter_or_underscore (c : Z) : bool :=
  (chr "A" <=? c) && (c <=? chr "Z") || (chr "a" <=? c) && (c <=? chr "z") || (c =? chr "_").
Definition digit (c : Z) : bool := (chr "0" <=? c) && (c <=? chr "9").
Definition identifier (s : bytes) : bool :=
  match s with
  | [] => false
  | c :: s' => letter_or_underscore c && forallb (fun c => letter_or_underscore c || digit c) s'
  end.

Definition is_scalar (v : yyjson_val) : bool :=
  match v with yyjson_arr _ | yyjson_obj _ => false | _ => true end.

(** One option; its name is read as a C string. *)
Definition attach_option (k : bytes) (v : yyjson_val) : result bytes :=
  let key := until_nul k in
  _ ← require (identifier key && negb (bool_decide (Lower key ∈ forbidden)))
        (B"Cupola ATTACH options contain an invalid or reserved name.");
  _ ← require (is_scalar v) (B"Cupola ATTACH options must be scalar values.");
  text ← match v with yyjson_str s => Quote s apostrophe | _ => Dump v end;
  mret (B", " ++ key ++ B" " ++ text).

Fixpoint attach_options (l : list (bytes * yyjson_val)) : result bytes :=
  match l with
  | [] => mret []
  | (k, v) :: l' => option ← attach_option k v; rest ← attach_options l'; mret (option ++ rest)
  end.

Definition object_members (options : option yyjson_val) : list (bytes * yyjson_val) :=
  match options with Some (yyjson_obj l) => l | _ => [] end.

Definition attach_value (root : wide) (row : CupolaRow) (oauth_key : bytes) : result bytes :=
  catalog ← Quote (row_catalog row) apostrophe;
  alias ← Quote (row_catalog row) double_quote;
  location ← Quote (row_location row) apostrophe;
  credential ← (if bool_decide (row_auth row = B"oauth") then c ← Credential root oauth_key; mret (B", " ++ c) else mret []);
  options ← attach_options (object_members (row_options row));
  mret (B"ATTACH " ++ catalog ++ B" AS " ++ alias ++ B" (TYPE vgi, LOCATION " ++ location ++ credential ++ options ++ B")").

(** [find_last_of] and [substr]: what is before the last separator, everything
    when there is none. *)
Definition is_separator (c : Z) : bool := (c =? 92) || (c =? chr "/").

Definition directory (path : wide) : wide :=
  if existsb is_separator path then
    reverse (tail (drop_while (fun c => negb (is_separator c)) (reverse path)))
  else path.

Definition extension_path : result wide :=
  let n := zlen GetModuleFileNameW in
  if (n =? 0) || (32768 <=? n) then throw (B"Cupola driver directory is unavailable.")
  else mret (directory GetModuleFileNameW ++ B"\vgi.duckdb_extension").

Definition load_extension (extension : wide) : M Engine () :=
  if file_exists extension then
    path ← lift (Quote (Utf8 extension) apostrophe);
    Run (B"LOAD " ++ path) (B"Cupola VGI extension could not be loaded.")
  else
    Run (B"INSTALL vgi FROM community") (B"Cupola VGI extension could not be installed.");;
    Run (B"LOAD vgi") (B"Cupola VGI extension could not be loaded.").

(** The contract with the client. *)
Definition identity_statement (row : CupolaRow) : result bytes :=
  option_json ← match row_options row with Some (yyjson_obj l) => Dump (yyjson_obj l) | _ => mret (B"{}") end;
  name ← Quote (row_name row) apostrophe;
  catalog ← Quote (row_catalog row) apostrophe;
  location ← Quote (row_location row) apostrophe;
  auth ← Quote (row_auth row) apostrophe;
  options ← Quote option_json apostrophe;
  mret (B"CREATE TEMP MACRO cupola_connection_info() AS TABLE SELECT 1 AS contract_version, " ++ name
        ++ B" AS connection_name, " ++ catalog ++ B" AS catalog_alias, " ++ location ++ B" AS location, "
        ++ auth ++ B" AS authentication, " ++ options ++ B" AS attach_options").

(** What is checked before any statement runs: the row, the [ATTACH] statement and
    the path of the extension. *)
Definition prepare_attach (requested : bytes) : result (CupolaRow * bytes * wide) :=
  root ← Root;
  text ← Read (root ++ B"\desktop-connections.json") (8 * 1024 * 1024);
  registry ← Json text;
  match registry with
  | yyjson_arr rows =>
      _ ← require (negb (bool_decide (requested = []))) (B"A valid Cupola connection name is required.");
      wanted ← Wide requested;
      selected ← select_row rows wanted None;
      match selected with
      | None => throw (B"The named Cupola connection does not exist. Select an existing connection in Cupola.")
      | Some selected =>
          '(row, oauth_key) ← read_row selected;
          attach ← attach_value root row oauth_key;
          extension ← extension_path;
          mret (row, attach, extension)
      end
  | _ => throw (B"A valid Cupola connection name is required.")
  end.

Definition AttachCupolaConnection (requested : bytes) : M Engine () :=
  if negb windows then lift (throw (B"Cupola connections require the Windows per-user connection store."))
  else
    '(row, attach, extension) ← lift (prepare_attach requested);
    load_extension extension;;
    Run attach (B"Cupola could not attach the HTTPS catalog. Check the connection and sign-in in Cupola.");;
    use ← lift (Quote (row_catalog row) double_quote);
    Run (B"USE " ++ use) (B"Cupola could not select its attached catalog.");;
    identity ← lift (identity_statement row);
    Run identity (B"Cupola connection identity could not be initialized.").
End Cupola.

(** ** The messages

    Every message the code can throw is one of these, whatever the registry, the
    session, the connection string and the engine hold. *)
Definition cupola_errors : list bytes :=
  [B"Cupola connections require the Windows per-user connection store.";
   B"Cupola store contains invalid JSON."; B"Invalid Cupola text encoding."; B"Cupola user store is unavailable.";
   B"Cupola connection or OAuth session was not found. Open Cupola Connections and sign in if required.";
   B"Cupola store exceeds its size limit."; B"Cupola store could not be read.";
   B"Cupola connection fields are invalid."; B"Cupola fields must not contain NUL."; B"Invalid Cupola option.";
   B"Cupola hash provider unavailable."; B"Cupola hash failed.";
   B"Cupola requires an HTTPS endpoint without embedded credentials.";
   B"Cupola OAuth session cannot be decrypted for this Windows user. Sign in again in Cupola.";
   B"Cupola OAuth session has expired. Sign in again in Cupola.";
   B"Cupola OAuth session has no usable credential. Sign in again in Cupola.";
   B"A valid Cupola connection name is required."; B"Cupola connection name is ambiguous.";
   B"The named Cupola connection does not exist. Select an existing connection in Cupola.";
   B"Cupola catalog alias is missing."; B"Cupola authentication mode is invalid.";
   B"Cupola ATTACH options must be an object.";
   B"Cupola ATTACH options contain an invalid or reserved name."; B"Cupola ATTACH options must be scalar values.";
   B"Cupola driver directory is unavailable."; B"Cupola VGI extension could not be loaded.";
   B"Cupola VGI extension could not be installed.";
   B"Cupola could not attach the HTTPS catalog. Check the connection and sign-in in Cupola.";
   B"Cupola could not select its attached catalog."; B"Cupola connection identity could not be initialized."].

Definition fixed_error {A} (r : result A) : Prop :=
  match r with inl what => what ∈ cupola_errors | inr _ => True end.
Definition fixed_errors {Engine A} (m : M Engine A) : Prop := forall e, fixed_error (m e).1.

Lemma fixed_bind {A C} (r : result A) (f : A -> result C) :
  fixed_error r -> (forall a, fixed_error (f a)) -> fixed_error (r ≫= f).
Proof. destruct r as [what|a]; cbn; [done|auto]. Qed.
Lemma fixed_bindM {Engine A C} (m : M Engine A) (f : A -> M Engine C) :
  fixed_errors m -> (forall a, fixed_errors (f a)) -> fixed_errors (m ≫= f).
Proof.
  intros Hm Hf e. specialize (Hm e). unfold mbind, M_bind.
  destruct (m e) as [[what|a] e']; [done|apply Hf].
Qed.
Lemma fixed_lift {Engine A} (r : result A) : fixed_error r -> fixed_errors (Engine := Engine) (lift r).
Proof. by intros Hr e. Qed.

Lemma fixed_require ok what : what ∈ cupola_errors -> fixed_error (require ok what).
Proof. intros Hw. by destruct ok. Qed.

Create HintDb cupola.
Ltac in_errors := cbn [fixed_error throw]; apply (bool_decide_unpack _); vm_compute; exact I.
Ltac fixed :=
  repeat first
    [ progress eauto with cupola nocore
    | apply fixed_bindM; [|intros []] | apply fixed_bindM; [|intros ?]
    | apply fixed_require; in_errors
    | apply fixed_bind; [|intros []] | apply fixed_bind; [|intros ?]
    | apply fixed_lift
    | match goal with
      | |- fixed_error (throw _) => in_errors
      | |- fixed_error (inr _) => exact I
      | |- fixed_error (mret _) => exact I
      | |- fixed_error (match ?x with _ => _ end) => destruct x
      | |- fixed_errors (match ?x with _ => _ end) => destruct x
      end ].

Section Messages.
Context {Engine : Type} `{CupolaOps Engine}.

Lemma fixed_Json text : fixed_error (Json text).
Proof. unfold Json. fixed. Qed.
Lemma fixed_Wide s : fixed_error (Wide s).
Proof. unfold Wide. fixed. Qed.
Lemma fixed_Root : fixed_error Root.
Proof. unfold Root. fixed. Qed.
Lemma fixed_Read path limit : fixed_error (Read path limit).
Proof. unfold Read. fixed. Qed.
Lemma fixed_Field o key : fixed_error (Field o key).
Proof. unfold Field. fixed. Qed.
Lemma fixed_quote_body mark s : fixed_error (quote_body mark s).
Proof. induction s; cbn [quote_body]; fixed. Qed.
Lemma fixed_Dump v : fixed_error (Dump v).
Proof. unfold Dump. fixed. Qed.
Lemma fixed_Hash s : fixed_error (Hash s).
Proof. unfold Hash. fixed. Qed.
Hint Resolve fixed_Json fixed_Wide fixed_Root fixed_Read fixed_Field fixed_quote_body fixed_Dump fixed_Hash : cupola.
Lemma fixed_Quote s mark : fixed_error (Quote s mark).
Proof. unfold Quote. fixed. Qed.
Lemma fixed_OAuthKey location : fixed_error (OAuthKey location).
Proof. unfold OAuthKey. fixed. Qed.
Hint Resolve fixed_Quote fixed_OAuthKey : cupola.
Lemma fixed_Credential root key : fixed_error (Credential root key).
Proof. unfold Credential. fixed. Qed.
Hint Resolve fixed_Credential : cupola.

Lemma fixed_select_row rows wanted selected : fixed_error (select_row rows wanted selected).
Proof. revert selected. induction rows; intros selected; cbn [select_row]; fixed. Qed.
Lemma fixed_read_row selected : fixed_error (read_row selected).
Proof. unfold read_row. fixed. Qed.
Lemma fixed_attach_option k v : fixed_error (attach_option k v).
Proof. unfold attach_option. fixed. Qed.
Hint Resolve fixed_select_row fixed_read_row fixed_attach_option : cupola.
Lemma fixed_attach_options l : fixed_error (attach_options l).
Proof. induction l as [|[k v] l IH]; cbn [attach_options]; fixed. Qed.
Hint Resolve fixed_attach_options : cupola.
Lemma fixed_attach_value root row key : fixed_error (attach_value root row key).
Proof. unfold attach_value. fixed. Qed.
Lemma fixed_extension_path : fixed_error extension_path.
Proof. unfold extension_path. fixed. Qed.
Lemma fixed_identity row : fixed_error (identity_statement row).
Proof. unfold identity_statement. fixed. Qed.
Hint Resolve fixed_attach_value fixed_extension_path fixed_identity : cupola.
Lemma fixed_prepare requested : fixed_error (prepare_attach requested).
Proof. unfold prepare_attach. fixed. Qed.
Hint Resolve fixed_prepare : cupola.

Lemma fixed_Run sql error : error ∈ cupola_errors -> fixed_errors (Run sql error).
Proof. intros He e. unfold Run. destruct (Query sql e) as [[] e']; [exact I|exact He]. Qed.
Lemma fixed_load_extension extension : fixed_errors (load_extension extension).
Proof. unfold load_extension. fixed; apply fixed_Run; in_errors. Qed.
Hint Resolve fixed_load_extension : cupola.

(** C14: Attaching a Cupola connection reveals nothing in its errors: whatever the
    registry, the OAuth session, the name asked for and the engine hold, a message
    that is thrown is one of a fixed list of texts, so that no field, no credential
    and no message of the engine reaches the diagnostics. *)
Theorem cupola_errors_fixed requested e what e' :
  AttachCupolaConnection requested e = (inl what, e') -> what ∈ cupola_errors.
Proof.
  intros E. assert (fixed_errors (AttachCupolaConnection requested)) as Hf.
  { unfold AttachCupolaConnection. fixed; apply fixed_Run; in_errors. }
  specialize (Hf e). by rewrite E in Hf.
Qed.
End Messages.

(** ** Reading a statement back

    A lexer of SQL, coarser than the engine's: words, texts between marks where a
    doubled mark stands for one, and other characters; blanks separate. *)
Inductive token := Word (s : bytes) | Quoted (mark : Z) (s : bytes) | Punct (c : Z).
Inductive lex_state := Between | InWord (w : bytes) | InQuote (mark : Z) (w : bytes) | AfterMark (mark : Z) (w : bytes).

Definition word_char (c : Z) : bool :=
  letter_or_underscore c || digit c || (c =? chr "+") || (c =? chr "-") || (c =? chr ".").
Definition is_mark (c : Z) : bool := (c =? apostrophe) || (c =? double_quote).

(** A character outside of a word and of quotes. *)
Definition lex_outside (c : Z) : lex_state * list token :=
  if is_mark c then (InQuote c [], [])
  else if word_char c then (InWord [c], [])
  else if IsSpace c then (Between, [])
  else (Between, [Punct c]).

Definition lex_step (st : lex_state) (c : Z) : lex_state * list token :=
  match st with
  | Between => lex_outside c
  | InWord w =>
      if word_char c then (InWord (w ++ [c]), []) else let '(st, out) := lex_outside c in (st, Word w :: out)
  | InQuote mark w => if c =? mark then (AfterMark mark w, []) else (InQuote mark (w ++ [c]), [])
  | AfterMark mark w =>
      if c =? mark then (InQuote mark (w ++ [c]), []) else let '(st, out) := lex_outside c in (st, Quoted mark w :: out)
  end.

Fixpoint lex (st : lex_state) (s : bytes) : lex_state * list token :=
  match s with
  | [] => (st, [])
  | c :: s' => let '(st, out) := lex_step st c in let '(st, rest) := lex st s' in (st, out ++ rest)
  end.

(** None for a text that ends inside quotes. *)
Definition tokens (s : bytes) : option (list token) :=
  let '(st, out) := lex Between s in
  match st with
  | Between => Some out
  | InWord w => Some (out ++ [Word w])
  | AfterMark mark w => Some (out ++ [Quoted mark w])
  | InQuote _ _ => None
  end.

Lemma lex_app s t : forall st, lex st (s ++ t) = ((lex (lex st s).1 t).1, (lex st s).2 ++ (lex (lex st s).1 t).2).
Proof.
  induction s as [|c s IH]; intros st; cbn [app lex fst snd]; [by destruct (lex st t)|].
  destruct (lex_step st c) as [st1 out]. rewrite IH. destruct (lex st1 s) as [st2 out2]. cbn. by rewrite app_assoc.
Qed.

(** A quoted text, up to its closing mark. *)
Lemma lex_quote_body mark s q w : quote_body mark s = inr q ->
  lex (InQuote mark w) q = (AfterMark mark (w ++ s), []).
Proof.
  revert q w. induction s as [|c s IH]; intros q w E; cbn [quote_body] in E; cbv [mret result_ret mbind result_bind] in E.
  { injection E as <-. cbn [lex lex_step]. by rewrite Z.eqb_refl, (app_nil_r w). }
  destruct (c =? 0); [done|]. destruct (quote_body mark s) as [|v] eqn:Eb; [done|]. injection E as <-.
  destruct (c =? mark) eqn:Ec; cbn [lex lex_step]; rewrite Ec.
  - cbn [lex_step]. rewrite Ec. erewrite IH by done. cbn. by rewrite <- app_assoc.
  - erewrite IH by done. cbn. by rewrite <- app_assoc.
Qed.

(** What follows a token and does not extend it. *)
Definition ends (c : Z) : Prop := is_mark c = false /\ word_char c = false.

Lemma lex_quoted s mark q c t : Quote s mark = inr q -> is_mark mark = true -> ends c ->
  lex Between (q ++ c :: t) = ((lex Between (c :: t)).1, Quoted mark s :: (lex Between (c :: t)).2).
Proof.
  unfold Quote, mret, mbind, result_ret, result_bind. destruct (quote_body mark s) as [|v] eqn:E; [done|]. intros [= <-] Hm [Hc Hw].
  rewrite <- app_comm_cons. cbn [lex lex_step]. unfold lex_outside at 1. rewrite Hm. cbn [app].
  rewrite lex_app, (lex_quote_body _ _ _ _ E). cbn [fst snd app]. cbn [lex lex_step].
  assert ((c =? mark) = false) as Hne by (destruct (Z.eqb_spec c mark); [congruence|done]). rewrite Hne. cbn [app].
  destruct (lex_outside c) as [st out]. cbn [fst snd]. destruct (lex st t) as [st' out']. done.
Qed.

Lemma lex_word_run w u : Forall (fun c => word_char c = true) u -> lex (InWord w) u = (InWord (w ++ u), []).
Proof.
  intros Hu. revert w. induction Hu as [|c u Hc _ IH]; intros w; [by rewrite app_nil_r|].
  cbn [lex lex_step]. rewrite Hc, IH. cbn. by rewrite <- app_assoc.
Qed.

Lemma word_not_mark c : word_char c = true -> is_mark c = false.
Proof.
  intros Hw. unfold is_mark. destruct (Z.eqb_spec c apostrophe) as [->|]; [done|].
  by destruct (Z.eqb_spec c double_quote) as [->|].
Qed.

Lemma lex_word u c t : u <> [] -> Forall (fun c => word_char c = true) u -> ends c ->
  lex Between (u ++ c :: t) = ((lex Between (c :: t)).1, Word u :: (lex Between (c :: t)).2).
Proof.
  intros Hn Hu [Hm Hc]. destruct Hu as [|x u Hx Hu]; [done|]. cbn [app lex lex_step].
  unfold lex_outside at 1. rewrite (word_not_mark x Hx), Hx. cbn [app].
  rewrite lex_app, lex_word_run by done. cbn [fst snd app lex lex_step]. rewrite Hc.
  destruct (lex_outside c) as [st out]. cbn. by destruct (lex st t).
Qed.

(** ** The statements *)

(** A literal that ends between tokens. *)
Lemma lex_literal lit out t : lex Between lit = (Between, out) ->
  lex Between (lit ++ t) = ((lex Between t).1, out ++ (lex Between t).2).
Proof. intros E. by rewrite lex_app, E. Qed.

Ltac lex_lit := erewrite lex_literal; [|vm_compute; reflexivity].

(** A text that does not continue the token before it. *)
Definition fresh (t : bytes) : Prop := match t with [] => False | c :: _ => ends c end.

Lemma lex_quoted_fresh s mark q t : Quote s mark = inr q -> is_mark mark = true -> fresh t ->
  lex Between (q ++ t) = ((lex Between t).1, Quoted mark s :: (lex Between t).2).
Proof. intros. destruct t as [|c t]; [done|]. by apply lex_quoted. Qed.

Lemma lex_word_fresh u t : u <> [] -> Forall (fun c => word_char c = true) u -> fresh t ->
  lex Between (u ++ t) = ((lex Between t).1, Word u :: (lex Between t).2).
Proof. intros. destruct t as [|c t]; [done|]. by apply lex_word. Qed.

Lemma lex_comma t : lex Between (B", " ++ t) = ((lex Between t).1, Punct (chr ",") :: (lex Between t).2).
Proof. lex_lit. done. Qed.
Lemma lex_space t : lex Between (B" " ++ t) = lex Between t.
Proof. lex_lit. cbn [app]. by destruct (lex Between t). Qed.

Lemma fresh_comma t : fresh (B", " ++ t).
Proof. by split. Qed.
Lemma fresh_space t : fresh (B" " ++ t).
Proof. by split. Qed.

Lemma identifier_word s : identifier s = true -> s <> [] /\ Forall (fun c => word_char c = true) s.
Proof.
  destruct s as [|c s]; cbn [identifier]; [done|]. intros [Hc Hs]%andb_prop. split; [done|].
  constructor; [unfold word_char; by rewrite Hc|].
  clear Hc. induction s as [|x s IH]; [constructor|]. apply andb_prop in Hs as [Hx Hs].
  constructor; [unfold word_char; by rewrite Hx|by apply IH].
Qed.

Section Statements.
Context {Engine : Type} `{CupolaOps Engine}.

(** What the JSON library documents of a scalar that is not a text. *)
Hypothesis scalar_written : forall v text, is_scalar v = true -> (forall s, v <> yyjson_str s) ->
  yyjson_val_write v = Some text -> text <> [] /\ Forall (fun c => word_char c = true) text.

(** One option, as its name and its value. *)
Definition option_tokens (kv : bytes * yyjson_val) : list token :=
  [Punct (chr ","); Word (until_nul kv.1);
   match kv.2 with yyjson_str s => Quoted apostrophe s | v => Word (default [] (yyjson_val_write v)) end].

Definition option_allowed (kv : bytes * yyjson_val) : Prop :=
  identifier (until_nul kv.1) = true /\ (Lower (until_nul kv.1) ∉ forbidden) /\ is_scalar kv.2 = true.

Lemma Dump_word v text t : is_scalar v = true -> (forall s, v <> yyjson_str s) -> Dump v = inr text -> fresh t ->
  lex Between (text ++ t) = ((lex Between t).1, Word (default [] (yyjson_val_write v)) :: (lex Between t).2).
Proof.
  intros Hs Hn E Ht. unfold Dump in E. destruct (yyjson_val_write v) as [w|] eqn:Ew; [|done]. cbv in E.
  apply (inj inr) in E as ->. destruct (scalar_written v text Hs Hn Ew). by apply lex_word_fresh.
Qed.

Lemma require_ok ok what : require ok what = inr tt -> ok = true.
Proof. by destruct ok. Qed.

Lemma attach_option_tokens k v o t : attach_option k v = inr o -> fresh t ->
  option_allowed (k, v) /\ fresh (o ++ t)
  /\ lex Between (o ++ t) = ((lex Between t).1, option_tokens (k, v) ++ (lex Between t).2).
Proof.
  unfold attach_option, option_allowed, option_tokens. cbn [fst snd].
  destruct (identifier (until_nul k)) eqn:Hi; [|done]. case_bool_decide as Hf; [done|].
  destruct (is_scalar v) eqn:Hs; [|done].
  change (andb true (negb false)) with true. unfold require, mbind, result_bind, mret, result_ret.
  set (val := match v with yyjson_str s => Quote s apostrophe | _ => Dump v end).
  destruct val as [|text] eqn:Ev; [done|]. intros E Ht. apply (inj inr) in E as <-.
  split; [done|]. destruct (identifier_word _ Hi) as [Hn Hw]. rewrite <- !app_assoc. split; [apply fresh_comma|].
  rewrite lex_comma, lex_word_fresh, lex_space by (done || apply fresh_space). cbn [fst snd app].
  subst val. destruct v; try done; [| | |by rewrite (lex_quoted_fresh s apostrophe text t)];
    by rewrite (Dump_word _ text t Hs ltac:(done) Ev Ht).
Qed.

Lemma attach_options_tokens l : forall o t, attach_options l = inr o -> fresh t ->
  Forall option_allowed l /\ fresh (o ++ t)
  /\ lex Between (o ++ t) = ((lex Between t).1, concat (option_tokens <$> l) ++ (lex Between t).2).
Proof.
  induction l as [|[k v] l IH]; intros o t E Ht; cbn [attach_options] in E.
  { apply (inj inr) in E as <-. cbn. split; [constructor|]. split; [done|]. by destruct (lex Between t). }
  destruct (attach_option k v) as [|o1] eqn:E1; [done|]. destruct (attach_options l) as [|o2] eqn:E2; [done|].
  apply (inj inr) in E as <-. destruct (IH o2 t eq_refl Ht) as (Hl & Hf & El).
  destruct (attach_option_tokens k v o1 (o2 ++ t) E1 Hf) as (Hk & Hf1 & Ek).
  rewrite <- app_assoc, Ek, El. cbn [fst snd]. split; [by constructor|]. split; [done|].
  cbn [fmap list_fmap concat]. by rewrite app_assoc.
Qed.

(** The credential of an OAuth session, as the option it becomes. *)
Definition credential_tokens (ts : list token) : Prop :=
  exists option token, option ∈ [B"oauth_refresh_token"; B"bearer_token"] /\ token <> []
    /\ ts = [Punct (chr ","); Word option; Quoted apostrophe token].

Lemma credential_literal option token q t : option ∈ [B"oauth_refresh_token"; B"bearer_token"] ->
  Quote token apostrophe = inr q -> fresh t ->
  lex Between ((B", " ++ option ++ B" " ++ q) ++ t)
    = ((lex Between t).1, [Punct (chr ","); Word option; Quoted apostrophe token] ++ (lex Between t).2).
Proof.
  intros Ho Eq Ht. assert (identifier option = true) as Hi by (by set_unfold in Ho; destruct Ho as [->|[->|[]]]).
  destruct (identifier_word _ Hi). rewrite <- !app_assoc, lex_comma, lex_word_fresh, lex_space by (done || apply fresh_space).
  by rewrite (lex_quoted_fresh token apostrophe q t).
Qed.

Lemma Credential_shape root key c : Credential root key = inr c ->
  exists option token q, option ∈ [B"oauth_refresh_token"; B"bearer_token"] /\ token <> []
    /\ Quote token apostrophe = inr q /\ c = option ++ B" " ++ q.
Proof.
  unfold Credential. destruct (Hash key) as [|inner]; [done|]. cbn [mbind result_bind].
  destruct (Hash _) as [|name]; [done|]. cbn [mbind result_bind]. destruct (Wide name) as [|wname]; [done|].
  cbn [mbind result_bind]. destruct (Read _ _) as [|encrypted]; [done|]. cbn [mbind result_bind].
  destruct (CryptUnprotectData _ _) as [clear|]; [|done]. destruct (Json clear) as [|ts]; [done|]. cbn [mbind result_bind].
  case_bool_decide as Hr; cbn [negb].
  - destruct (expired _ _); [done|]. set (token := Optional ts _). clearbody token.
    case_bool_decide as Ha; [done|]. destruct (Quote token apostrophe) as [|q] eqn:Eq; [done|]. intros E.
    apply (inj inr) in E as <-. exists (B"bearer_token"), token, q. split; [apply (bool_decide_unpack _); vm_compute; exact I|done].
  - destruct (Quote _ _) as [|q] eqn:Eq; [done|]. intros E. apply (inj inr) in E as <-.
    eexists (B"oauth_refresh_token"), _, q. split; [apply (bool_decide_unpack _); vm_compute; exact I|done].
Qed.

(** C13: The ATTACH statement cannot be escaped from. Read back, it is exactly the
    catalog, its alias, the location, one credential when the row asks for OAuth
    (and none otherwise) and the options of the row in order, whatever
    characters they hold; and every option has an identifier for a name, one that
    is not reserved in any case, and a scalar for a value. *)
Theorem attach_statement_reads_back root row key sql : attach_value root row key = inr sql ->
  let members := object_members (row_options row) in
  Forall option_allowed members
  /\ exists credential,
       (if decide (row_auth row = B"oauth") then credential_tokens credential else credential = [])
       /\ tokens sql = Some
            ([Word (B"ATTACH"); Quoted apostrophe (row_catalog row); Word (B"AS");
              Quoted double_quote (row_catalog row); Punct (chr "("); Word (B"TYPE"); Word (B"vgi");
              Punct (chr ","); Word (B"LOCATION"); Quoted apostrophe (row_location row)]
             ++ credential ++ concat (option_tokens <$> members) ++ [Punct (chr ")")]).
Proof.
  unfold attach_value. destruct (Quote (row_catalog row) apostrophe) as [|catalog] eqn:Ec; [done|]. cbn [mbind result_bind].
  destruct (Quote (row_catalog row) double_quote) as [|alias] eqn:Ea; [done|]. cbn [mbind result_bind].
  destruct (Quote (row_location row) apostrophe) as [|location] eqn:El; [done|]. cbn [mbind result_bind].
  set (cr := if bool_decide (row_auth row = B"oauth") then _ else _).
  destruct cr as [|credential] eqn:Ecr; [done|]. cbn [mbind result_bind].
  destruct (attach_options _) as [|options] eqn:Eo; [done|]. cbn [mbind result_bind]. intros E.
  apply (inj inr) in E as <-.
  destruct (attach_options_tokens _ options (B")") Eo ltac:(by split)) as (Hall & Hfo & Elo).
  split; [done|].
  assert (exists ts, (if decide (row_auth row = B"oauth") then credential_tokens ts else ts = [])
    /\ fresh (credential ++ options ++ B")")
    /\ lex Between (credential ++ options ++ B")") = ((lex Between (options ++ B")")).1, ts ++ (lex Between (options ++ B")")).2))
    as (ts & Hts & Hfc & Elc).
  { subst cr. destruct (decide (row_auth row = B"oauth")) as [Hd|Hd].
    - rewrite (bool_decide_eq_true_2 _ Hd) in Ecr. destruct (Credential root key) as [|c] eqn:Ecd; [done|].
      apply (inj inr) in Ecr as <-. destruct (Credential_shape root key c Ecd) as (option & token & q & Ho & Hn & Eq & ->).
      eexists. split; [by exists option, token|]. split; [rewrite <- app_assoc; apply fresh_comma|]. by apply credential_literal.
    - rewrite (bool_decide_eq_false_2 _ Hd) in Ecr. apply (inj inr) in Ecr as <-. exists []. split; [done|].
      split; [done|]. cbn [app]. by destruct (lex Between _). }
  exists ts. split; [exact Hts|]. unfold tokens. lex_lit.
  rewrite (lex_quoted_fresh _ _ _ _ Ec) by by split. lex_lit. rewrite (lex_quoted_fresh _ _ _ _ Ea) by by split. lex_lit.
  rewrite (lex_quoted_fresh _ _ _ _ El) by done. rewrite Elc, Elo. cbn [fst snd].
  change (lex Between (B")")) with (Between, [Punct (chr ")")]). cbn [fst snd app]. done.
Qed.
End Statements.

(** ** Which row, and which statements

    A row of the name asked for, and a row of another; the names compare as the
    system compares them. *)
Section Plan.
Context {Engine : Type} `{CupolaOps Engine}.

Definition row_matches (wanted : wide) (found : bool) (row : yyjson_val) : Prop :=
  exists name candidate, Field row (B"Name") = inr name /\ Wide name = inr candidate
    /\ CompareStringOrdinal candidate wanted = found.

Lemma bind_inr {A C} (r : result A) (f : A -> result C) b : (r ≫= f) = inr b <-> exists a, r = inr a /\ f a = inr b.
Proof. destruct r; cbn; naive_solver. Qed.

Lemma select_row_cons row rows wanted selected r : select_row (row :: rows) wanted selected = inr r <->
  (row_matches wanted true row /\ selected = None /\ select_row rows wanted (Some row) = inr r)
  \/ (row_matches wanted false row /\ select_row rows wanted selected = inr r).
Proof.
  cbn [select_row]. rewrite bind_inr. setoid_rewrite bind_inr. unfold row_matches. split.
  - intros (name & Hn & candidate & Hc & E). destruct (CompareStringOrdinal candidate wanted) eqn:Eo; [|naive_solver].
    destruct selected; [done|]. naive_solver.
  - intros [[(name & candidate & Hn & Hc & Eo) [-> E]]|[(name & candidate & Hn & Hc & Eo) E]];
      exists name; split; try done; exists candidate; by rewrite Eo.
Qed.

Lemma select_row_some rows wanted v r : select_row rows wanted (Some v) = inr r <->
  r = Some v /\ Forall (row_matches wanted false) rows.
Proof.
  induction rows as [|row rows IH].
  { cbn. split; [intros E; by apply (inj inr) in E as <-|by intros [-> _]]. }
  rewrite select_row_cons, IH, Forall_cons_iff. naive_solver.
Qed.

(** The row selected is the only one of the name. *)
Lemma select_row_unique rows wanted v : select_row rows wanted None = inr (Some v) <->
  exists before after, rows = before ++ v :: after /\ row_matches wanted true v
    /\ Forall (row_matches wanted false) before /\ Forall (row_matches wanted false) after.
Proof.
  induction rows as [|row rows IH].
  { split; [done|]. intros ([|] & after & E & _); done. }
  rewrite select_row_cons, select_row_some, IH. split.
  - intros [(Hm & _ & E & Hf)|(Hm & before & after & -> & Hv & Hb & Ha)].
    + apply (inj Some) in E as <-. by exists [], rows.
    + exists (row :: before), after. by repeat split; try constructor.
  - intros ([|row' before] & after & E & Hv & Hb & Ha); injection E as -> ->; [by left|].
    right. inversion Hb; subst. naive_solver.
Qed.

Definition load_statements (extension : wide) : result (list bytes) :=
  if file_exists extension then path ← Quote (Utf8 extension) apostrophe; mret [B"LOAD " ++ path]
  else mret [B"INSTALL vgi FROM community"; B"LOAD vgi"].

(** What attaching a name is to do, as a relation: the row and the statements. *)
Inductive cupola_plan (requested : bytes) : CupolaRow -> list bytes -> Prop :=
  | cupola_plan_of root text before v after wanted row key attach extension load use identity :
      windows = true -> requested <> [] ->
      Root = inr root -> Read (root ++ B"\desktop-connections.json") (8 * 1024 * 1024) = inr text ->
      Json text = inr (yyjson_arr (before ++ v :: after)) -> Wide requested = inr wanted ->
      row_matches wanted true v -> Forall (row_matches wanted false) (before ++ after) ->
      read_row v = inr (row, key) -> attach_value root row key = inr attach ->
      extension_path = inr extension -> load_statements extension = inr load ->
      Quote (row_catalog row) double_quote = inr use -> identity_statement row = inr identity ->
      cupola_plan requested row (load ++ [attach; B"USE " ++ use; identity]).

(** The statements one after the other, while they succeed. *)
Fixpoint run_all (stmts : list bytes) (e : Engine) : bool * Engine :=
  match stmts with
  | [] => (true, e)
  | sql :: stmts' => let '(ok, e) := Query sql e in if ok then run_all stmts' e else (false, e)
  end.

Lemma run_all_app l k e : run_all (l ++ k) e = let '(ok, e) := run_all l e in if ok then run_all k e else (false, e).
Proof.
  revert e. induction l as [|sql l IH]; intros e; [done|]. cbn [app run_all].
  destruct (Query sql e) as [[] e']; [apply IH|done].
Qed.

(** Running and going on, in the program and in the list of statements. *)
Lemma Run_bind {A} sql error (f : () -> M Engine A) e a e' : (Run sql error ≫= f) e = (inr a, e') <->
  exists e1, Query sql e = (true, e1) /\ f tt e1 = (inr a, e').
Proof. unfold mbind, M_bind, Run. destruct (Query sql e) as [[] e1]; naive_solver. Qed.

Lemma lift_bind {A C} (r : result A) (f : A -> M Engine C) e c e' : (lift r ≫= f) e = (inr c, e') <->
  exists a, r = inr a /\ f a e = (inr c, e').
Proof. unfold mbind, M_bind, lift. destruct r; naive_solver. Qed.

Lemma Run_ok sql error e e' : Run sql error e = (inr tt, e') <-> Query sql e = (true, e').
Proof. unfold Run. destruct (Query sql e) as [[] e1]; naive_solver. Qed.

Lemma prepare_attach_iff requested row attach extension : prepare_attach requested = inr (row, attach, extension) <->
  exists root text before v after wanted key, requested <> [] /\ Root = inr root
    /\ Read (root ++ B"\desktop-connections.json") (8 * 1024 * 1024) = inr text
    /\ Json text = inr (yyjson_arr (before ++ v :: after)) /\ Wide requested = inr wanted
    /\ row_matches wanted true v /\ Forall (row_matches wanted false) (before ++ after)
    /\ read_row v = inr (row, key) /\ attach_value root row key = inr attach /\ extension_path = inr extension.
Proof.
  unfold prepare_attach. split.
  - intros E. apply bind_inr in E as (root & Hroot & E). apply bind_inr in E as (text & Htext & E).
    apply bind_inr in E as (json & Hjson & E). destruct json as [| | | |rows|]; try done.
    apply bind_inr in E as ([] & Hr & E). apply require_ok, negb_true_iff, bool_decide_eq_false_1 in Hr.
    apply bind_inr in E as (wanted & Hw & E). apply bind_inr in E as (selected & Hsel & E).
    destruct selected as [v|]; [|done]. apply select_row_unique in Hsel as (before & after & -> & Hv & Hb & Ha).
    apply bind_inr in E as ([row' key] & Hrow & E). apply bind_inr in E as (attach' & Hatt & E).
    apply bind_inr in E as (ext' & Hext & E). apply (inj inr) in E. injection E as -> -> ->.
    exists root, text, before, v, after, wanted, key. split_and!; try done. by apply Forall_app.
  - intros (root & text & before & v & after & wanted & key & Hr & Hroot & Htext & Hjson & Hw & Hv & Ho & Hrow & Hatt & Hext).
    rewrite Hroot. unfold mbind, result_bind. rewrite Htext, Hjson, bool_decide_eq_false_2 by done. cbn [negb require].
    rewrite Hw.
    apply Forall_app in Ho as [Hb Ha].
    rewrite (proj2 (select_row_unique (before ++ v :: after) wanted v)) by by exists before, after.
    by rewrite Hrow, Hatt, Hext.
Qed.

Lemma load_extension_bind {A} extension (f : () -> M Engine A) e a e' : (load_extension extension ≫= f) e = (inr a, e') <->
  exists load e1, load_statements extension = inr load /\ run_all load e = (true, e1) /\ f tt e1 = (inr a, e').
Proof.
  unfold load_extension, load_statements. destruct (file_exists extension).
  - destruct (Quote (Utf8 extension) apostrophe) as [what|path]; [split; [done|naive_solver]|].
    change (lift (inr path) ≫= ?g) with (g path). rewrite Run_bind. split.
    + intros (e1 & Hq & E). exists [B"LOAD " ++ path], e1. cbn [run_all]. by rewrite Hq.
    + intros (load & e1 & El & Hq & E). apply (inj inr) in El as <-. cbn [run_all] in Hq.
      destruct (Query (B"LOAD " ++ path) e) as [[] e2] eqn:Eq; [|done]. injection Hq as ->. by exists e1.
  - split.
    + intros E. unfold mbind, M_bind, Run in E. destruct (Query (B"INSTALL vgi FROM community") e) as [[] e1] eqn:E1; [|done].
      destruct (Query (B"LOAD vgi") e1) as [[] e2] eqn:E2; [|done]. exists [B"INSTALL vgi FROM community"; B"LOAD vgi"], e2.
      cbn [run_all]. by rewrite E1, E2.
    + intros (load & e1 & El & Hq & E). apply (inj inr) in El as <-. cbn [run_all] in Hq. unfold mbind, M_bind, Run.
      destruct (Query (B"INSTALL vgi FROM community") e) as [[] e2] eqn:E1; [|done].
      destruct (Query (B"LOAD vgi") e2) as [[] e3] eqn:E2; [|done]. by injection Hq as ->.
Qed.

(** The program is its plan, then the statements. *)
Lemma attach_plan requested e e' : AttachCupolaConnection requested e = (inr tt, e') <->
  exists row stmts, cupola_plan requested row stmts /\ run_all stmts e = (true, e').
Proof.
  unfold AttachCupolaConnection. destruct windows eqn:Ewin; cbn [negb].
  2: { split; [done|]. intros (row & stmts & Hp & _). by inversion Hp; congruence. }
  rewrite lift_bind. split.
  - intros ([[row attach] extension] & Hp & E).
    apply prepare_attach_iff in Hp as (root & text & before & v & after & wanted & key & Hp).
    apply load_extension_bind in E as (load & e1 & Hload & Hrun & E). apply Run_bind in E as (e2 & Hq2 & E).
    apply lift_bind in E as (use & Huse & E). apply Run_bind in E as (e3 & Hq3 & E).
    apply lift_bind in E as (identity & Hid & E). apply Run_ok in E. exists row. eexists. split.
    + destruct_and!. by eapply (cupola_plan_of requested root text before v after wanted row key attach extension load use identity).
    + rewrite run_all_app, Hrun. cbn [run_all]. by rewrite Hq2, Hq3, E.
  - intros (row & stmts & Hp & Hrun). destruct Hp as [root text before v after wanted row key attach extension load use identity].
    exists (row, attach, extension). split.
    { apply prepare_attach_iff. by exists root, text, before, v, after, wanted, key. }
    rewrite run_all_app in Hrun. destruct (run_all load e) as [[] e1] eqn:El; [|done]. cbn [run_all] in Hrun.
    destruct (Query attach e1) as [[] e2] eqn:E2; [|done]. destruct (Query (B"USE " ++ use) e2) as [[] e3] eqn:E3; [|done].
    destruct (Query identity e3) as [[] e4] eqn:E4; [|done]. injection Hrun as <-.
    apply load_extension_bind. exists load, e1. split; [done|]. split; [done|]. apply Run_bind. exists e2. split; [done|].
    apply lift_bind. exists use. split; [done|]. apply Run_bind. exists e3. split; [done|].
    apply lift_bind. exists identity. split; [done|]. by apply Run_ok.
Qed.
End Plan.

(** ** From the connection string to the attached catalog *)

(** The Cupola connection behind the interface of [Connect]. *)
Definition with_cupola {Engine : Type} `{CupolaOps Engine} (base : OpenOps Engine) : OpenOps Engine := {|
  option_names := @option_names Engine base;
  candidates_message := @candidates_message Engine base;
  odbc_link_odbcinst := @odbc_link_odbcinst Engine base;
  profile_string := @profile_string Engine base;
  open_instance := @open_instance Engine base;
  new_connection := @new_connection Engine base;
  attach_cupola := fun name e =>
    let '(r, e) := AttachCupolaConnection name e in
    (match r with inl what => Some what | inr _ => None end, e)
|}.

Section CupolaConnects.
Context {Engine : Type} `{CupolaOps Engine} `{FileOps} `{QueryOps Engine}.

(** [SetConnection] on a text that is only a Cupola connection. *)
Lemma SetConnection_cupola `{OpenOps Engine} c e name : cupola_only c -> dbc_dsn (c_dbc c) = [] -> conn (c_dbc c) = false ->
  seen cupolaconnection c = true -> GetOptionFromConfigMap cupolaconnection [] c = name ->
  (name <> [] -> open_arguments c = cupola_arguments) -> forall e',
  (SQL_SUCCEEDED (SetConnection c e).1.1 = true /\ (SetConnection c e).2 = e') <->
  (name <> [] /\ exists created e1, open_instance cupola_arguments e = (inr created, e1)
    /\ attach_cupola name (new_connection (autocommit (c_dbc c)) e1) = (None, e')).
Proof.
  intros Ho Hd Hc Hs Hn Ha e'. unfold SetConnection. rewrite (ReadFromIniFile_no_dsn c Hd). cbn [snd]. rewrite Hs, Hn.
  case_bool_decide as Hne; cbn [andb]; [use_record; cbn; naive_solver|]. rewrite (Ha Hne).
  change (GetOptionFromConfigMap ?k ?v (c <| c_dbc ::= ?f |>)) with (GetOptionFromConfigMap k v c).
  rewrite (unseen_default SQL_FILE_OPTION [] c), (unseen_default SQL_FILE_SHA256_OPTION [] c) by by apply Ho.
  change (ReadSQLFile [] []) with (inr no_session_file : bytes + SessionInitSQLFile). cbn iota.
  destruct (open_instance cupola_arguments e) as [[what|created] e1]; [use_record; cbn; naive_solver|].
  set (c1 := c <| c_dbc ::= SetDatabaseName (database cupola_arguments) |>).
  assert (conn (c_dbc c1) = false /\ autocommit (c_dbc c1) = autocommit (c_dbc c)) as [Hc1 Hac].
  { split; [exact (eq_trans (SetDatabaseName_conn _ (c_dbc c)) Hc)|]. subst c1. cbn -[database cupola_arguments].
    unfold SetDatabaseName. by case_match. }
  clearbody c1. change (negb (IsEmpty no_session_file)) with false. cbn match.
  change (conn (c_dbc (c1 <| config_map := ?m |>))) with (conn (c_dbc c1)).
  change (autocommit (c_dbc (c1 <| config_map := ?m |>))) with (autocommit (c_dbc c1)). rewrite Hc1, Hac.
  change (negb false && SQL_SUCCEEDED SQL_SUCCESS) with true. cbn match.
  destruct (attach_cupola name _) as [[what|] e2] eqn:Eatt; [use_record|]; cbn; split;
    first [intros (_ & created' & e3 & E & Ea); injection E as <- <-; rewrite Eatt in Ea; naive_solver|naive_solver].
Qed.

(** C12: From the connection string to the catalog. A text that names a Cupola
    connection, and is accepted, connects exactly when the name is not empty, the
    database opens in memory with the arguments of a Cupola connection, and the
    plan of the name exists (one row of the registry of that name, whose fields,
    credential and options pass the checks) and every one of its statements runs:
    loading the extension, the ATTACH, the USE and the macro, in this order and
    with no other. *)
Theorem cupola_connects_iff (base : OpenOps Engine) d input ret c e :
  conn d = false -> @ParseInputStr _ (with_cupola base) (@new_Connect _ (with_cupola base) d input) = Some (ret, c) ->
  SQL_SUCCEEDED ret = true -> seen cupolaconnection c = true ->
  exists name, config_map c = {[ cupolaconnection := name ]} /\ forall e',
    (SQL_SUCCEEDED (@SetConnection _ (with_cupola base) _ _ c e).1.1 = true
     /\ (@SetConnection _ (with_cupola base) _ _ c e).2 = e') <->
    (name <> [] /\ exists created e1 row stmts, open_instance cupola_arguments e = (inr created, e1)
       /\ cupola_plan name row stmts
       /\ run_all stmts (new_connection (autocommit (c_dbc c)) e1) = (true, e')).
Proof.
  set (ops := with_cupola base). intros Hc Hp Hs Hseen. destruct (accepted_cupola d input ret c Hp Hs Hseen) as [Ho Hd].
  destruct (cupola_open_arguments c Ho Hseen) as (name & Hm & Hn & Ha). exists name. split; [done|]. intros e'.
  apply ParseInputStr_conn in Hp. cbn in Hp. rewrite Hc in Hp.
  rewrite (SetConnection_cupola c e name Ho Hd Hp Hseen Hn Ha e'). apply and_iff_compat_l.
  assert (forall e0, attach_cupola name e0 = (None, e') <-> exists row stmts, cupola_plan name row stmts /\ run_all stmts e0 = (true, e')) as Hplan.
  { intros e0. rewrite <- attach_plan. cbn. destruct (AttachCupolaConnection name e0) as [[what|[]] e1]; naive_solver. }
  setoid_rewrite Hplan. naive_solver.
Qed.
End CupolaConnects.

(** ** The expiry of a session is read in the order of time *)

Fixpoint text_value (l : bytes) : Z :=
  match l with [] => 0 | d :: l' => (d - 48) * 10 ^ zlen l' + text_value l' end.

Lemma text_value_range l : Forall (fun d => 48 <= d < 58) l -> 0 <= text_value l < 10 ^ zlen l.
Proof.
  induction 1 as [|d l Hd _ IH]; cbn [text_value]; [by cbn|]. rewrite zlen_cons, Z.pow_add_r by (auto using zlen_nonneg; lia).
  nia.
Qed.

Lemma bytes_ltb_refl l : bytes_ltb l l = false.
Proof. induction l as [|x l IH]; [done|]. cbn [bytes_ltb]. by rewrite Z.ltb_irrefl, Z.eqb_refl, IH. Qed.

(** Texts of digits of one length compare as their numbers. *)
Lemma digits_ltb a : forall b x y, length a = length b -> Forall (fun d => 48 <= d < 58) a -> Forall (fun d => 48 <= d < 58) b ->
  bytes_ltb (a ++ x) (b ++ y) = (text_value a <? text_value b) || ((text_value a =? text_value b) && bytes_ltb x y).
Proof.
  induction a as [|c a IH]; intros [|d b] x y Hl Ha Hb; try done. inversion Ha; inversion Hb; subst.
  cbn [app bytes_ltb text_value]. rewrite IH by (done || (cbn in Hl; lia)).
  assert (zlen b = zlen a) as -> by (cbn in Hl; unfold zlen; lia).
  pose proof (text_value_range a ltac:(done)) as Ra. pose proof (text_value_range b ltac:(done)) as Rb.
  assert (zlen b = zlen a) as E by (cbn in Hl; unfold zlen; lia). rewrite E in Rb. generalize dependent (10 ^ zlen a). intros p Ra Rb.
  destruct (Z.ltb_spec c d).
  { rewrite (proj2 (Z.ltb_lt ((c - 48) * p + text_value a) _)) by nia. done. }
  destruct (Z.eqb_spec c d) as [->|]; cbn [orb andb].
  { f_equal; [|f_equal]; apply Bool.eq_iff_eq_true; rewrite ?Z.ltb_lt, ?Z.eqb_eq; lia. }
  rewrite (proj2 (Z.ltb_ge _ _)), (proj2 (Z.eqb_neq _ _)) by nia. done.
Qed.

(** A field of a time, printed. *)
Definition prints (n : nat) (z : Z) : bool :=
  (length (pad_u n z) =? n)%nat && forallb (fun d => (48 <=? d) && (d <? 58)) (pad_u n z) && (text_value (pad_u n z) =? z).

Lemma prints_2 z : 0 <= z < 100 -> prints 2 z = true.
Proof.
  intros Hz. assert (forallb (prints 2) (seqZ 0 100) = true) as E by (vm_compute; reflexivity).
  apply (proj1 (forallb_forall _ _) E). apply list_elem_of_In, elem_of_seqZ. lia.
Qed.
Lemma prints_4 z : 0 <= z < 10000 -> prints 4 z = true.
Proof.
  intros Hz. assert (forallb (prints 4) (seqZ 0 10000) = true) as E by (vm_compute; reflexivity).
  apply (proj1 (forallb_forall _ _) E). apply list_elem_of_In, elem_of_seqZ. lia.
Qed.

Lemma prints_facts n z : prints n z = true ->
  length (pad_u n z) = n /\ Forall (fun d => 48 <= d < 58) (pad_u n z) /\ text_value (pad_u n z) = z.
Proof.
  unfold prints. intros [[Hl Hd]%andb_prop Hv]%andb_prop. apply Nat.eqb_eq in Hl. apply Z.eqb_eq in Hv.
  split; [done|]. split; [|done]. clear Hl Hv. induction (pad_u n z) as [|d l IH]; [constructor|].
  apply andb_prop in Hd as [Hd Hr]. constructor; [zbool; lia|by apply IH].
Qed.

Lemma pad_ltb n a b x y : prints n a = true -> prints n b = true ->
  bytes_ltb (pad_u n a ++ x) (pad_u n b ++ y) = (a <? b) || ((a =? b) && bytes_ltb x y).
Proof.
  intros (La & Da & Va)%prints_facts (Lb & Db & Vb)%prints_facts. rewrite digits_ltb by (done || congruence).
  by rewrite Va, Vb.
Qed.

Lemma char_ltb c x y : bytes_ltb (c :: x) (c :: y) = bytes_ltb x y.
Proof. cbn [bytes_ltb]. by rewrite Z.ltb_irrefl, Z.eqb_refl. Qed.

(** The times that are printed in 19 characters, and their order. *)
Definition time_fields (t : Z * Z * Z * Z * Z * Z) : list Z :=
  let '(wYear, wMonth, wDay, wHour, wMinute, wSecond) := t in [wYear; wMonth; wDay; wHour; wMinute; wSecond].

Definition valid_time (t : Z * Z * Z * Z * Z * Z) : Prop :=
  match time_fields t with
  | wYear :: rest => 0 <= wYear < 10000 /\ Forall (fun z => 0 <= z < 100) rest
  | [] => False
  end.

Lemma iso_time_length t : valid_time t -> length (iso_time t) = 19%nat.
Proof.
  destruct t as [[[[[y mo] d] h] mi] s]. unfold valid_time, iso_time. cbn. intros [Hy Hr].
  repeat match goal with H : Forall _ (_ :: _) |- _ => apply Forall_cons_iff in H as [? H] end.
  repeat (rewrite length_app || cbn [length]). rewrite !(fun z H => proj1 (prints_facts 2 z (prints_2 z H))) by done.
  by rewrite (proj1 (prints_facts 4 y (prints_4 y Hy))).
Qed.

(** A session without a refresh token is used exactly until its expiry: the
    comparison of texts the code makes orders times to the second as their year,
    month, day, hour, minute and second do, whatever follows the seconds. *)
Theorem expiry_is_chronological now expiry rest : valid_time now -> valid_time expiry ->
  expired (iso_time expiry ++ rest) now = negb (bytes_ltb (time_fields now) (time_fields expiry)).
Proof.
  intros Hn He. unfold expired. rewrite (proj2 (Z.ltb_ge _ _)), (take_app_length' (iso_time expiry)), (take_ge (iso_time now)).
  2-4: unfold zlen; rewrite ?length_app, ?iso_time_length by done; lia.
  cbn [orb]. f_equal. destruct now as [[[[[y mo] d] h] mi] s], expiry as [[[[[y' mo'] d'] h'] mi'] s'].
  destruct Hn as [Hy Hr], He as [Hy' Hr']. cbn [time_fields] in *.
  repeat match goal with H : Forall _ (_ :: _) |- _ => apply Forall_cons_iff in H as [? H] end.
  unfold iso_time. change (B"-") with [chr "-"]. change (B"T") with [chr "T"]. change (B":") with [chr ":"]. cbn [app].
  rewrite pad_ltb, char_ltb by by apply prints_4. do 4 (rewrite pad_ltb, char_ltb by by apply prints_2).
  rewrite <- (app_nil_r (pad_u 2 s)), <- (app_nil_r (pad_u 2 s')), pad_ltb by by apply prints_2. done.
Qed.

(** ** A user with one connection

    The registry and the session are the texts [R] and [T] of the store; the
    engine logs its statements. *)
Definition sample_row (name : bytes) : yyjson_val := yyjson_obj
  [(B"Name", yyjson_str name); (B"Catalog", yyjson_str (B"o'neil")); (B"Location", yyjson_str (B"https://Db.example/x/"));
   (B"Authentication", yyjson_str (B"oauth")); (B"AttachOptions", yyjson_obj [(B"retries", yyjson_num (B"3"))])].

Definition sample_ops : CupolaOps (list bytes) := {|
  windows := true;
  MultiByteToWideChar := fun s => Some s;
  WideCharToMultiByte := fun s => s;
  GetEnvironmentVariableW := fun _ => B"C:\store";
  SHGetKnownFolderPath := None;
  open_file := fun path => if bool_decide (path = B"C:\store\desktop-connections.json") then Some (1, Some (B"R")) else Some (1, Some (B"T"));
  CompareStringOrdinal := fun a b => bool_decide (Lower a = Lower b);
  WinHttpCrackUrl := fun _ => Some (MkURL 2 (B"Db.example") 443 [] [] (B"/x/"));
  CryptAcquireContextW := true;
  CryptHash := fun s => Some (hash256 s);
  CryptUnprotectData := fun s _ => Some s;
  GetSystemTime := (2026, 7, 1, 12, 0, 0);
  GetModuleFileNameW := B"C:\driver\haybarn.dll";
  file_exists := fun _ => true;
  yyjson_read := fun s =>
    if bool_decide (s = B"R") then Some (yyjson_arr [sample_row (B"Books"); sample_row (B"Shop")])
    else if bool_decide (s = B"T") then Some (yyjson_obj [(B"refresh_token", yyjson_str (B"tok"))]) else None;
  yyjson_val_write := fun v => match v with yyjson_num t => Some t | yyjson_obj _ => Some (B"{}") | _ => None end;
  Query := fun sql e => (true, e ++ [sql])
|}.
#[local] Existing Instance sample_ops.

Definition sample_statements : list bytes :=
  [B"LOAD 'C:\driver\vgi.duckdb_extension'";
   B"ATTACH 'o''neil' AS " ++ [34] ++ B"o'neil" ++ [34]
     ++ B" (TYPE vgi, LOCATION 'https://Db.example/x/', oauth_refresh_token 'tok', retries 3)";
   B"USE " ++ [34] ++ B"o'neil" ++ [34];
   B"CREATE TEMP MACRO cupola_connection_info() AS TABLE SELECT 1 AS contract_version, 'Shop' AS connection_name, "
     ++ B"'o''neil' AS catalog_alias, 'https://Db.example/x/' AS location, 'oauth' AS authentication, '{}' AS attach_options"].

Example sample_attach : AttachCupolaConnection (B"shop") [] = (inr tt, sample_statements).
Proof. vm_compute. reflexivity. Qed.

Example sample_key : OAuthKey (B"https://Db.example/x/") = inr (B"https://db.example/x").
Proof. vm_compute. reflexivity. Qed.

Lemma cupola_errors_fixed_witness :
  AttachCupolaConnection (B"till") [] = (inl (B"The named Cupola connection does not exist. Select an existing connection in Cupola."), [])
  /\ B"The named Cupola connection does not exist. Select an existing connection in Cupola." ∈ cupola_errors.
Proof.
  assert (AttachCupolaConnection (B"till") [] = (inl (B"The named Cupola connection does not exist. Select an existing connection in Cupola."), [])) as E
    by (vm_compute; reflexivity).
  split; [exact E|]. exact (cupola_errors_fixed _ _ _ _ E).
Defined.

Definition sample_fields : CupolaRow :=
  MkCupolaRow (B"Shop") (B"o'neil") (B"https://Db.example/x/") (B"oauth") (Some (yyjson_obj [(B"retries", yyjson_num (B"3"))])).

(** The writer of the sample on the number of its options. *)
Definition plain_ops : CupolaOps (list bytes) := {|
  windows := true; MultiByteToWideChar := fun s => Some s; WideCharToMultiByte := fun s => s;
  GetEnvironmentVariableW := fun _ => B"C:\store"; SHGetKnownFolderPath := None;
  open_file := fun _ => Some (1, Some (B"T")); CompareStringOrdinal := fun a b => bool_decide (a = b);
  WinHttpCrackUrl := fun _ => None; CryptAcquireContextW := true; CryptHash := fun s => Some (take 32 s);
  CryptUnprotectData := fun s _ => Some s; GetSystemTime := (2026, 7, 1, 12, 0, 0);
  GetModuleFileNameW := []; file_exists := fun _ => true;
  yyjson_read := fun s => Some (yyjson_obj [(B"refresh_token", yyjson_str (B"tok"))]);
  yyjson_val_write := fun v => match v with yyjson_null => Some (B"null") | yyjson_bool true => Some (B"true")
    | yyjson_bool false => Some (B"false") | yyjson_num _ => Some (B"3") | _ => None end;
  Query := fun sql e => (true, e ++ [sql])
|}.

Lemma attach_statement_reads_back_witness :
  exists sql, @attach_value _ plain_ops [] sample_fields (B"k") = inr sql
    /\ exists credential, credential_tokens credential
       /\ tokens sql = Some
            ([Word (B"ATTACH"); Quoted apostrophe (B"o'neil"); Word (B"AS"); Quoted double_quote (B"o'neil"); Punct (chr "(");
              Word (B"TYPE"); Word (B"vgi"); Punct (chr ","); Word (B"LOCATION"); Quoted apostrophe (B"https://Db.example/x/")]
             ++ credential ++ [Punct (chr ","); Word (B"retries"); Word (B"3"); Punct (chr ")")]).
Proof.
  destruct (@attach_value _ plain_ops [] sample_fields (B"k")) as [|sql] eqn:E; [vm_compute in E; discriminate|].
  exists sql. split; [done|].
  assert (forall v text, is_scalar v = true -> (forall s, v <> yyjson_str s) -> @yyjson_val_write _ plain_ops v = Some text ->
    text <> [] /\ Forall (fun c => word_char c = true) text) as Hw.
  { assert (forall t : bytes, bool_decide (t <> [] /\ Forall (fun c => word_char c = true) t) = true ->
      forall text, Some t = Some text -> text <> [] /\ Forall (fun c => word_char c = true) text) as Ht.
    { intros t Hb text E2. apply (inj Some) in E2 as <-. exact (bool_decide_eq_true_1 _ Hb). }
    intros v text Hs Hn. destruct v as [|[]|t|s|l|l]; [| | | | |discriminate Hs..].
    - apply (Ht (B"null")). vm_compute. reflexivity.
    - apply (Ht (B"true")). vm_compute. reflexivity.
    - apply (Ht (B"false")). vm_compute. reflexivity.
    - apply (Ht (B"3")). vm_compute. reflexivity.
    - destruct (Hn s eq_refl). }
  exact (proj2 (@attach_statement_reads_back _ plain_ops Hw [] sample_fields (B"k") sql E)).
Defined.

Lemma expiry_is_chronological_witness :
  valid_time (2026, 7, 1, 12, 0, 0) /\ valid_time (2026, 10, 1, 0, 0, 0)
  /\ expired (iso_time (2026, 10, 1, 0, 0, 0) ++ B".000Z") (2026, 7, 1, 12, 0, 0) = false.
Proof.
  assert (valid_time (2026, 7, 1, 12, 0, 0)) as H1 by (split; [lia|repeat constructor; lia]).
  assert (valid_time (2026, 10, 1, 0, 0, 0)) as H2 by (split; [lia|repeat constructor; lia]).
  split; [done|]. split; [done|]. rewrite (expiry_is_chronological (2026, 7, 1, 12, 0, 0) (2026, 10, 1, 0, 0, 0) (B".000Z") H1 H2). reflexivity.
Defined.

Lemma cupola_connects_iff_witness :
  let input := B"Driver={Cupola for Excel};CupolaConnection={shop}" in
  exists c, @ParseInputStr _ (with_cupola three_options) (@new_Connect _ (with_cupola three_options) new_OdbcHandleDbc input) = Some (SQL_SUCCESS, c)
    /\ exists name, config_map c = {[ cupolaconnection := name ]}.
Proof.
  intros input.
  destruct (@ParseInputStr _ (with_cupola three_options) (@new_Connect _ (with_cupola three_options) new_OdbcHandleDbc input)) as [[ret c]|] eqn:E;
    [|vm_compute in E; discriminate].
  assert (ret = SQL_SUCCESS) as -> by (vm_compute in E; congruence).
  assert (seen cupolaconnection c = true) as Es by (vm_compute in E; injection E as <-; reflexivity).
  destruct (@cupola_connects_iff _ sample_ops (one_file []) idle_queries three_options new_OdbcHandleDbc input SQL_SUCCESS c []
    eq_refl E eq_refl Es) as (name & Hm & _).
  exists c. split; [done|]. by exists name.
Defined.
