(* ===== verification/Handles.v ===== *)
(** * The handles and what they share ([odbc_api/handle_api.cpp],
    [odbc_driver/driver.cpp], [common/duckdb_odbc.cpp], [include/duckdb_odbc.hpp])

    The objects behind the handles live in a heap, a finite map from addresses.
    They point to each other: a connection to its environment and its statements,
    a statement to its connection, to the four descriptors it owns and to the two
    current ones, a descriptor to its connection and to a statement. An explicit
    descriptor can be the current one of several statements, which then share it.

    The other files work on one statement with its descriptors inside: [load_stmt]
    assembles it from the heap and [store_stmt] writes it back. [None] is undefined
    behaviour: a pointer to an object that is gone, or to one of another class. *)

From S2P Require Import Prelude OdbcConst Memory Diagnostic Descriptor Params Fetch Stmt Connect DescApi Attributes InfoApi.

(** ** Objects

    The parts that are pointers are fields of their own; the ones inside of a
    [rest] are not read. *)
Record DescObject := MkDescObject {
  de_dbc : nat;
  de_stmt : option nat;
  de_rest : OdbcHandleDesc
}.

Record StmtObject := MkStmtObject {
  so_dbc : nat;
  so_apd : nat;                 (* param_desc->apd, owned *)
  so_ipd : nat;                 (* param_desc->ipd, owned *)
  so_ard : nat;                 (* row_desc->ard, owned *)
  so_ird : nat;                 (* row_desc->ird, owned *)
  so_cur_apd : nat;             (* param_desc->cur_apd *)
  so_cur_ard : nat;             (* row_desc->cur_ard *)
  so_rest : OdbcHandleStmt
}.

Record DbcObject := MkDbcObject {
  do_env : nat;
  do_stmts : list nat;          (* vec_stmt_ref *)
  do_rest : OdbcHandleDbc
}.

Inductive object := OEnv (v : OdbcHandleEnv) | ODbc (d : DbcObject) | OStmt (o : StmtObject) | ODesc (x : DescObject).
Abbreviation heap := (gmap nat object).

Definition find_env (h : heap) (p : nat) : option OdbcHandleEnv := match h !! p with Some (OEnv v) => Some v | _ => None end.
Definition find_dbc (h : heap) (p : nat) : option DbcObject := match h !! p with Some (ODbc d) => Some d | _ => None end.
Definition find_stmt (h : heap) (p : nat) : option StmtObject := match h !! p with Some (OStmt o) => Some o | _ => None end.
Definition find_desc (h : heap) (p : nat) : option DescObject := match h !! p with Some (ODesc x) => Some x | _ => None end.

(** Where [new] puts an object: anywhere that is free, and not at null. *)
Class Allocator := {
  new_address : heap -> nat;
  new_address_free : forall h, h !! new_address h = None;
  new_address_not_null : forall h, new_address h <> 0%nat
}.

(** The descriptors a statement owns. *)
Definition implicit (o : StmtObject) : list nat := [so_apd o; so_ipd o; so_ard o; so_ird o].

(** ** Reading and writing whole objects *)

(** A descriptor, with what it reads through its pointers. *)
Definition load_desc (h : heap) (p : nat) : option OdbcHandleDesc :=
  x ← find_desc h p;
  d ← find_dbc h (de_dbc x);
  ref ← match de_stmt x with
        | None => Some None
        | Some s => o ← find_stmt h s; Some (Some (MkStmtRef (so_ird o) (so_ipd o) (bool_decide (is_Some (stmt (so_rest o))))))
        end;
  Some ((de_rest x) <| desc_id := p |> <| desc_dsn := dbc_dsn (do_rest d) |> <| desc_stmt := ref |>).

Definition load_current (h : heap) (own cur : nat) : option (option OdbcHandleDesc) :=
  if bool_decide (cur = own) then Some None else d ← load_desc h cur; Some (Some d).

Definition load_stmt (h : heap) (s : nat) : option OdbcHandleStmt :=
  o ← find_stmt h s;
  d ← find_dbc h (so_dbc o);
  a ← load_desc h (so_apd o);
  i ← load_desc h (so_ipd o);
  r ← load_desc h (so_ard o);
  ir ← load_desc h (so_ird o);
  ca ← load_current h (so_apd o) (so_cur_apd o);
  cr ← load_current h (so_ard o) (so_cur_ard o);
  Some ((so_rest o) <| stmt_dsn := dbc_dsn (do_rest d) |>
          <| param_desc ::= fun pd => pd <| apd := a |> <| ipd := i |> <| cur_explicit_apd := ca |> |>
          <| row_desc := MkRowDescriptor r ir cr |>).

Definition store_desc (d : OdbcHandleDesc) (h : heap) : heap :=
  match find_desc h (desc_id d) with
  | Some x => <[desc_id d := ODesc (x <| de_rest := d |>)]> h
  | None => h
  end.

Definition store_descs (l : list OdbcHandleDesc) (h : heap) : heap := foldr store_desc h l.

(** The descriptors inside of a statement; the current ones when they are explicit. *)
Definition descriptors_of (hs : OdbcHandleStmt) : list OdbcHandleDesc :=
  let pd := param_desc hs in
  let rd := row_desc hs in
  [apd pd; ipd pd; ard rd; ird rd] ++ option_list (cur_explicit_apd pd) ++ option_list (cur_explicit_ard rd).

Definition store_stmt (s : nat) (hs : OdbcHandleStmt) (h : heap) : heap :=
  match find_stmt h s with
  | None => h
  | Some o =>
      <[s := OStmt (o <| so_cur_apd := desc_id (cur_apd (param_desc hs)) |>
                      <| so_cur_ard := desc_id (Descriptor.GetARD (row_desc hs)) |> <| so_rest := hs |>)]>
        (store_descs (descriptors_of hs) h)
  end.

(** ** Allocating *)
Section Handles.
Context `{Allocator}.

Definition allocate (o : object) (h : heap) : nat * heap := let p := new_address h in (p, <[p := o]> h).

(** [OdbcHandleDesc(dbc, stmt)]. *)
Definition new_desc (dbc : nat) (s : option nat) : object :=
  ODesc (MkDescObject dbc s (new_OdbcHandleDesc 0 [] None false)).

(** [dbc->vec_stmt_ref.emplace_back(this)]. *)
Definition add_stmt_ref (s : nat) (d : DbcObject) : DbcObject := d <| do_stmts ::= fun l => l ++ [s] |>.

(** [OdbcHandleStmt(dbc)]: the statement, its reference in the connection, and its
    four descriptors. *)
Definition new_stmt (dbc : nat) (d : DbcObject) (h : heap) : nat * heap :=
  let rest := new_OdbcHandleStmt 0 (do_rest d) in
  let '(s, h) := allocate (OStmt (MkStmtObject dbc 0 0 0 0 0 0 rest)) h in
  let h := <[dbc := ODbc (add_stmt_ref s d)]> h in
  let '(a, h) := allocate (new_desc dbc None) h in
  let '(i, h) := allocate (new_desc dbc None) h in
  let '(r, h) := allocate (new_desc dbc None) h in
  let '(ir, h) := allocate (new_desc dbc (Some s)) h in
  (s, <[s := OStmt (MkStmtObject dbc a i r ir a r rest)]> h).

(** The result and what is written to [*output_handle_ptr], if anything. A
    connection and a descriptor keep the pointer they are given without looking. *)
Definition SQLAllocHandle (handle_type : Z) (input_handle : nat) (h : heap) : option (Z * option nat * heap) :=
  if handle_type =? SQL_HANDLE_DBC then
    let '(p, h) := allocate (ODbc (MkDbcObject input_handle [] new_OdbcHandleDbc)) h in
    Some (SQL_SUCCESS, Some p, h)
  else if handle_type =? SQL_HANDLE_DESC then
    let '(p, h) := allocate (new_desc input_handle None) h in
    Some (SQL_SUCCESS, Some p, h)
  else if handle_type =? SQL_HANDLE_ENV then
    let '(p, h) := allocate (OEnv new_OdbcHandleEnv) h in
    Some (SQL_SUCCESS, Some p, h)
  else if handle_type =? SQL_HANDLE_STMT then
    d ← find_dbc h input_handle;
    let '(s, h) := new_stmt input_handle d h in
    Some (SQL_SUCCESS, Some s, h)
  else Some (SQL_INVALID_HANDLE, None, h).
End Handles.

(** ** Freeing *)
Definition delete_desc (p : nat) (h : heap) : option heap := _ ← find_desc h p; Some (delete p h).

(** The destructor of a statement frees the descriptors it owns. *)
Definition delete_stmt (s : nat) (h : heap) : option heap :=
  o ← find_stmt h s;
  h ← delete_desc (so_ird o) h;
  h ← delete_desc (so_ard o) h;
  h ← delete_desc (so_ipd o) h;
  h ← delete_desc (so_apd o) h;
  Some (delete s h).

Fixpoint delete_stmts (l : list nat) (h : heap) : option heap :=
  match l with [] => Some h | s :: l' => h ← delete_stmt s h; delete_stmts l' h end.

Fixpoint erase_ref (s : nat) (l : list nat) : list nat :=
  match l with [] => [] | x :: l' => if bool_decide (x = s) then l' else x :: erase_ref s l' end.

(** [ResetStmtDescriptors] on the pointers of a statement. *)
Definition reset_current (old_desc : nat) (o : StmtObject) : StmtObject :=
  let o := if bool_decide (so_cur_apd o = old_desc) then o <| so_cur_apd := so_apd o |> else o in
  if bool_decide (so_cur_ard o = old_desc) then o <| so_cur_ard := so_ard o |> else o.

Fixpoint reset_descriptors (old_desc : nat) (l : list nat) (h : heap) : option heap :=
  match l with
  | [] => Some h
  | s :: l' => o ← find_stmt h s; reset_descriptors old_desc l' (<[s := OStmt (reset_current old_desc o)]> h)
  end.

Definition FreeHandle (handle_type : Z) (handle : nat) (h : heap) : option (Z * heap) :=
  if bool_decide (handle = 0%nat) then Some (SQL_INVALID_HANDLE, h)
  else if handle_type =? SQL_HANDLE_DBC then
    d ← find_dbc h handle;
    h ← delete_stmts (do_stmts d) h;
    Some (SQL_SUCCESS, delete handle h)
  else if handle_type =? SQL_HANDLE_DESC then
    x ← find_desc h handle;
    d ← find_dbc h (de_dbc x);
    h ← reset_descriptors handle (do_stmts d) h;
    Some (SQL_SUCCESS, delete handle h)
  else if handle_type =? SQL_HANDLE_ENV then
    _ ← find_env h handle;
    Some (SQL_SUCCESS, delete handle h)
  else if handle_type =? SQL_HANDLE_STMT then
    o ← find_stmt h handle;
    d ← find_dbc h (so_dbc o);
    h ← delete_stmt handle (<[so_dbc o := ODbc (d <| do_stmts ::= erase_ref handle |>)]> h);
    Some (SQL_SUCCESS, h)
  else Some (SQL_INVALID_HANDLE, h).

Definition SQLFreeHandle := FreeHandle.

(** ** Calls on a handle

    The test of the class is the one of [ConvertHSTMT], [ConvertConnection] and
    [ConvertDescriptor]; the operation is the one of the component. *)

(** The row descriptor reads through its pointer whether the statement is prepared. *)
Definition refresh (hs : OdbcHandleStmt) : OdbcHandleStmt :=
  hs <| row_desc ::= fun rd => rd <| ird ::= fun d =>
    d <| desc_stmt ::= fmap (fun r => r <| is_prepared := bool_decide (is_Some (stmt hs)) |>) |> |> |>.

Definition call_stmt (f : bool -> OdbcHandleStmt -> option (Z * OdbcHandleStmt)) (s : nat) (h : heap) : option (Z * heap) :=
  if bool_decide (s = 0%nat) then Some (SQL_INVALID_HANDLE, h)
  else match h !! s with
  | None => None
  | Some (OStmt o) =>
      d ← find_dbc h (so_dbc o);
      hs ← load_stmt h s;
      '(ret, hs) ← f (conn (do_rest d)) hs;
      Some (ret, store_stmt s (refresh hs) h)
  | Some _ => Some (SQL_INVALID_HANDLE, h)
  end.

Definition call_desc (f : OdbcHandleDesc -> option (Z * OdbcHandleDesc)) (p : nat) (h : heap) : option (Z * heap) :=
  if bool_decide (p = 0%nat) then Some (SQL_INVALID_HANDLE, h)
  else match h !! p with
  | None => None
  | Some (ODesc _) => d ← load_desc h p; '(ret, d) ← f d; Some (ret, store_desc d h)
  | Some _ => Some (SQL_INVALID_HANDLE, h)
  end.

(** A connection with its statements. The operations on a connection change its
    last statement at most ([SQLEndTran]). *)
Definition load_dbc (h : heap) (p : nat) : option OdbcHandleDbc :=
  d ← find_dbc h p;
  l ← mapM (fun s => hs ← load_stmt h s; Some (s, hs)) (do_stmts d);
  Some ((do_rest d) <| vec_stmt_ref := l |>).

Definition store_dbc (p : nat) (d : OdbcHandleDbc) (h : heap) : heap :=
  match find_dbc h p with
  | None => h
  | Some x =>
      let h := <[p := ODbc (x <| do_rest := d <| vec_stmt_ref := [] |> |>)]> h in
      match list.last (vec_stmt_ref d) with Some (s, hs) => store_stmt s (refresh hs) h | None => h end
  end.

Definition call_dbc (f : OdbcHandleDbc -> option (Z * OdbcHandleDbc)) (p : nat) (h : heap) : option (Z * heap) :=
  if bool_decide (p = 0%nat) then Some (SQL_INVALID_HANDLE, h)
  else match h !! p with
  | None => None
  | Some (ODbc _) => d ← load_dbc h p; '(ret, d) ← f d; Some (ret, store_dbc p d h)
  | Some _ => Some (SQL_INVALID_HANDLE, h)
  end.

(** [SQLFreeStmt], the drop included. *)
Definition heap_SQLFreeStmt (option : Z) (s : nat) (h : heap) : Datatypes.option (Z * heap) :=
  '(ret, h) ← call_stmt (fun conn hs => Some (SQLFreeStmt conn option hs)) s h;
  if (ret =? SQL_SUCCESS) && (option =? SQL_DROP) then FreeHandle SQL_HANDLE_STMT s h else Some (ret, h).

(** [SQLSetStmtAttr] for the two application descriptors: the value is a handle. *)
Definition set_descriptor (attribute : Z) (s value : nat) (h : heap) : option (Z * heap) :=
  call_stmt (fun conn hs =>
    '(ret, hs, _) ← SQLSetStmtAttr (fun v => load_desc h (Z.to_nat v)) conn attribute (Z.of_nat value) hs ∅;
    Some (ret, hs)) s h.

(** ** Well-formed heaps

    Every pointer of an object goes to a live object of the right class; a
    connection lists exactly its statements; a statement owns its four descriptors
    alone, and its current ones are its own or explicit ones of its connection. *)
Definition explicit (h : heap) (q : nat) : Prop := forall s o, h !! s = Some (OStmt o) -> q ∉ implicit o.

Definition current_ok (h : heap) (o : StmtObject) (own cur : nat) : Prop :=
  cur = own \/ (explicit h cur /\ exists x, h !! cur = Some (ODesc x) /\ de_dbc x = so_dbc o).

Definition owned_desc (s : nat) (o : StmtObject) (q : nat) (x : DescObject) : Prop :=
  de_dbc x = so_dbc o /\ de_stmt x = if decide (q = so_ird o) then Some s else None.

Record wf_stmt_object (h : heap) (s : nat) (o : StmtObject) : Prop := {
  stmt_listed : exists d, h !! so_dbc o = Some (ODbc d) /\ s ∈ do_stmts d;
  stmt_implicit : NoDup (implicit o);
  stmt_owns : forall q, q ∈ implicit o -> exists x, h !! q = Some (ODesc x) /\ owned_desc s o q x;
  stmt_apd : current_ok h o (so_apd o) (so_cur_apd o);
  stmt_ard : current_ok h o (so_ard o) (so_cur_ard o);
  stmt_currents : so_cur_apd o <> so_cur_ard o
}.

Record wf (h : heap) : Prop := {
  wf_null : h !! 0%nat = None;
  wf_dbc : forall p d, h !! p = Some (ODbc d) ->
    (exists v, h !! do_env d = Some (OEnv v)) /\ NoDup (do_stmts d)
    /\ forall s, s ∈ do_stmts d -> exists o, h !! s = Some (OStmt o) /\ so_dbc o = p;
  wf_stmt : forall s o, h !! s = Some (OStmt o) -> wf_stmt_object h s o;
  wf_owner : forall s1 s2 o1 o2 q, h !! s1 = Some (OStmt o1) -> h !! s2 = Some (OStmt o2) ->
    q ∈ implicit o1 -> q ∈ implicit o2 -> s1 = s2;
  wf_desc : forall q x, h !! q = Some (ODesc x) ->
    (exists d, h !! de_dbc x = Some (ODbc d))
    /\ forall s, de_stmt x = Some s -> exists o, h !! s = Some (OStmt o) /\ so_ird o = q
}.

Lemma find_env_Some h p v : find_env h p = Some v <-> h !! p = Some (OEnv v).
Proof. unfold find_env. destruct (h !! p) as [[]|]; naive_solver. Qed.
Lemma find_dbc_Some h p d : find_dbc h p = Some d <-> h !! p = Some (ODbc d).
Proof. unfold find_dbc. destruct (h !! p) as [[]|]; naive_solver. Qed.
Lemma find_stmt_Some h p o : find_stmt h p = Some o <-> h !! p = Some (OStmt o).
Proof. unfold find_stmt. destruct (h !! p) as [[]|]; naive_solver. Qed.
Lemma find_desc_Some h p x : find_desc h p = Some x <-> h !! p = Some (ODesc x).
Proof. unfold find_desc. destruct (h !! p) as [[]|]; naive_solver. Qed.

(** *** Changes of the contents only

    Heaps whose objects point the same way are equivalent, and well-formedness
    does not tell them apart. *)
Definition shape (y : object) : object :=
  match y with
  | OEnv _ => OEnv new_OdbcHandleEnv
  | ODbc d => ODbc (d <| do_rest := new_OdbcHandleDbc |>)
  | OStmt o => OStmt (o <| so_rest := new_OdbcHandleStmt 0 new_OdbcHandleDbc |>)
  | ODesc x => ODesc (x <| de_rest := new_OdbcHandleDesc 0 [] None false |>)
  end.

Definition same_shape (h h' : heap) : Prop := shape <$> h = shape <$> h'.
#[local] Infix "≃" := same_shape (at level 70).

#[export] Instance same_shape_equivalence : Equivalence same_shape.
Proof. split; unfold same_shape; [done|by intros ? ? ->|by intros ? ? ? -> ->]. Qed.

Lemma same_shape_lookup (h h' : heap) : h ≃ h' <-> forall p, shape <$> h !! p = shape <$> h' !! p.
Proof. unfold same_shape. rewrite map_eq_iff. by setoid_rewrite lookup_fmap. Qed.

Lemma shape_env h h' p v : h ≃ h' -> h !! p = Some (OEnv v) -> exists v', h' !! p = Some (OEnv v').
Proof. intros E Hp. apply same_shape_lookup with (p := p) in E. rewrite Hp in E. destruct (h' !! p) as [[]|]; naive_solver. Qed.
Lemma shape_dbc h h' p d : h ≃ h' -> h !! p = Some (ODbc d) ->
  exists d', h' !! p = Some (ODbc d') /\ do_env d' = do_env d /\ do_stmts d' = do_stmts d.
Proof.
  intros E Hp. apply same_shape_lookup with (p := p) in E. rewrite Hp in E.
  destruct (h' !! p) as [[|[]| |]|]; try done. destruct d. cbn in E. injection E as -> ->. by eexists.
Qed.
Lemma shape_stmt h h' p o : h ≃ h' -> h !! p = Some (OStmt o) ->
  exists r, h' !! p = Some (OStmt (o <| so_rest := r |>)).
Proof.
  intros E Hp. apply same_shape_lookup with (p := p) in E. rewrite Hp in E.
  destruct (h' !! p) as [[| |o'|]|]; try done. exists (so_rest o'). destruct o, o'. cbn in *. by simplify_eq.
Qed.
Lemma shape_desc h h' p x : h ≃ h' -> h !! p = Some (ODesc x) ->
  exists x', h' !! p = Some (ODesc x') /\ de_dbc x' = de_dbc x /\ de_stmt x' = de_stmt x.
Proof.
  intros E Hp. apply same_shape_lookup with (p := p) in E. rewrite Hp in E.
  destruct (h' !! p) as [[| | |[]]|]; try done. destruct x. cbn in E. injection E as -> ->. by eexists.
Qed.

#[export] Instance explicit_proper : Proper (same_shape ==> (=) ==> iff) explicit.
Proof.
  assert (forall h h' q, h ≃ h' -> explicit h q -> explicit h' q) as Hp.
  { intros h h' q E Hq s o' Ho. symmetry in E. destruct (shape_stmt _ _ _ _ E Ho) as [r Hs]. exact (Hq _ _ Hs). }
  intros h h' E q q' <-. split; [by apply Hp|apply Hp; by symmetry].
Qed.

Lemma current_ok_shape h h' o o' own cur : h ≃ h' -> so_dbc o' = so_dbc o -> current_ok h o own cur -> current_ok h' o' own cur.
Proof.
  intros E Hd [->|[Hx (x & Hq & Hb)]]; [by left|right]. split; [by rewrite <- E|].
  destruct (shape_desc _ _ _ _ E Hq) as (x' & Hq' & Hb' & _). exists x'. split; [done|]. congruence.
Qed.

Lemma wf_same_shape h h' : h ≃ h' -> wf h -> wf h'.
Proof.
  intros E W. assert (h' ≃ h) as E' by by symmetry. split.
  - destruct (h' !! 0%nat) as [y|] eqn:Ey; [|done]. apply same_shape_lookup with (p := 0%nat) in E.
    rewrite Ey, (wf_null _ W) in E. done.
  - intros p d' Hp. destruct (shape_dbc _ _ _ _ E' Hp) as (d & Hd & Ee & Es).
    destruct (wf_dbc _ W _ _ Hd) as ((v & Hv) & Hn & Hall). rewrite <- Ee, <- Es. split; [by destruct (shape_env _ _ _ _ E Hv) as [v' Hv']; exists v'|].
    split; [done|]. intros s Hs. destruct (Hall s Hs) as (o & Ho & Hb).
    destruct (shape_stmt _ _ _ _ E Ho) as [r Hr]. by eexists.
  - intros s o' Ho'. destruct (shape_stmt _ _ _ _ E' Ho') as [r Ho]. destruct (wf_stmt _ W _ _ Ho) as [H1 H2 H3 H4 H5 H6].
    split; [|done| | | |done].
    + destruct H1 as (d & Hd & Hin). destruct (shape_dbc _ _ _ _ E Hd) as (d' & Hd' & _ & Es). exists d'. by rewrite Es.
    + intros q Hq. destruct (H3 q Hq) as (x & Hx & Hb & Hst). destruct (shape_desc _ _ _ _ E Hx) as (x' & Hx' & Eb & Es).
      exists x'. split; [done|]. split; [by rewrite Eb|by rewrite Es].
    + by eapply (current_ok_shape h h' _ o'); [exact E|..|exact H4].
    + by eapply (current_ok_shape h h' _ o'); [exact E|..|exact H5].
  - intros s1 s2 o1 o2 q H1 H2 Hq1 Hq2. destruct (shape_stmt _ _ _ _ E' H1) as [r1 H1']. destruct (shape_stmt _ _ _ _ E' H2) as [r2 H2'].
    exact (wf_owner _ W _ _ _ _ q H1' H2' Hq1 Hq2).
  - intros q x' Hx'. destruct (shape_desc _ _ _ _ E' Hx') as (x & Hx & Eb & Es). rewrite <- Eb, <- Es.
    destruct (wf_desc _ W _ _ Hx) as [(d & Hd) Hst]. split.
    + destruct (shape_dbc _ _ _ _ E Hd) as (d' & Hd' & _). by eexists.
    + intros s Hs. destruct (Hst s Hs) as (o & Ho & Hi). destruct (shape_stmt _ _ _ _ E Ho) as [r Hr]. by eexists.
Qed.

#[export] Instance wf_proper : Proper (same_shape ==> iff) wf.
Proof. intros h h' E. split; apply wf_same_shape; [done|by symmetry]. Qed.

Lemma same_shape_insert h p y y' : h !! p = Some y -> shape y' = shape y -> <[p := y']> h ≃ h.
Proof.
  intros Hp Hy. apply same_shape_lookup. intros q. destruct (decide (p = q)) as [<-|Hne].
  - rewrite lookup_insert_eq, Hp. cbn. by rewrite Hy.
  - by rewrite lookup_insert_ne.
Qed.

Lemma store_desc_shape d h : store_desc d h ≃ h.
Proof.
  unfold store_desc. destruct (find_desc h (desc_id d)) as [x|] eqn:E; [|done]. apply find_desc_Some in E.
  by apply (same_shape_insert h _ (ODesc x)).
Qed.

Lemma store_descs_shape l h : store_descs l h ≃ h.
Proof. induction l as [|d l IH]; cbn [store_descs foldr]; [done|]. rewrite store_desc_shape. exact IH. Qed.

(** Writing a statement back changes its current descriptors at most. *)
Lemma store_stmt_shape s hs h o : find_stmt h s = Some o ->
  store_stmt s hs h ≃ <[s := OStmt (o <| so_cur_apd := desc_id (cur_apd (param_desc hs)) |>
                                      <| so_cur_ard := desc_id (Descriptor.GetARD (row_desc hs)) |>)]> h.
Proof.
  intros Ho. unfold store_stmt. rewrite Ho. pose proof (store_descs_shape (descriptors_of hs) h) as E.
  unfold same_shape in *. by rewrite !fmap_insert, E.
Qed.

(** *** A statement gets other current descriptors *)
Lemma wf_set_current h s o ca cr : wf h -> h !! s = Some (OStmt o) ->
  current_ok h o (so_apd o) ca -> current_ok h o (so_ard o) cr -> ca <> cr ->
  wf (<[s := OStmt (o <| so_cur_apd := ca |> <| so_cur_ard := cr |>)]> h).
Proof.
  intros W Hs Ha Hr Hne. set (o' := o <| so_cur_apd := ca |> <| so_cur_ard := cr |>). set (h' := <[s := OStmt o']> h).
  assert (forall t, h' !! t = if decide (s = t) then Some (OStmt o') else h !! t) as Hl.
  { intros t. subst h'. destruct (decide (s = t)) as [<-|]; [apply lookup_insert_eq|by apply lookup_insert_ne]. }
  clearbody h'.
  assert (forall t u, h' !! t = Some (OStmt u) -> exists u0, h !! t = Some (OStmt u0) /\ implicit u = implicit u0 /\ so_ird u = so_ird u0
    /\ so_dbc u = so_dbc u0) as Hback.
  { intros t u Ht. rewrite Hl in Ht. destruct (decide (s = t)) as [<-|]; [injection Ht as <-; by exists o|by exists u]. }
  assert (forall t y, h !! t = Some y -> (forall u, y <> OStmt u) -> h' !! t = Some y) as Hkeep.
  { intros t y Ht Hy. rewrite Hl. destruct (decide (s = t)) as [<-|]; [|done]. rewrite Hs in Ht. injection Ht as <-. by destruct (Hy o). }
  assert (forall t u, h !! t = Some (OStmt u) -> exists u', h' !! t = Some (OStmt u') /\ so_dbc u' = so_dbc u /\ so_ird u' = so_ird u) as Hforth.
  { intros t u Ht. rewrite Hl. destruct (decide (s = t)) as [<-|]; [|by exists u]. rewrite Hs in Ht. injection Ht as <-. by exists o'. }
  assert (forall q, explicit h q -> explicit h' q) as Hex.
  { intros q Hq t u Ht. destruct (Hback t u Ht) as (u0 & Hu0 & -> & _). by apply (Hq t). }
  assert (forall u own cur, current_ok h u own cur -> current_ok h' u own cur) as Hcur.
  { intros u own cur [->|[Hx (x & Hq & Hb)]]; [by left|right]. split; [by apply Hex|]. exists x. by rewrite (Hkeep _ (ODesc x)). }
  assert (forall t u u0, h !! t = Some (OStmt u0) -> implicit u = implicit u0 -> so_dbc u = so_dbc u0 -> so_ird u = so_ird u0 ->
    current_ok h' u (so_apd u) (so_cur_apd u) -> current_ok h' u (so_ard u) (so_cur_ard u) -> so_cur_apd u <> so_cur_ard u ->
    wf_stmt_object h' t u) as Hstmt.
  { intros t u u0 Hu0 Ei Ed Eird Hca Hcr Hd. destruct (wf_stmt _ W _ _ Hu0) as [H1 H2 H3 _ _ _]. split; try done.
    - destruct H1 as (d & Hdb & Hin). exists d. rewrite Ed. by rewrite (Hkeep _ (ODbc d)).
    - by rewrite Ei.
    - intros q Hq. rewrite Ei in Hq. destruct (H3 q Hq) as (x & Hx & Hown). exists x. rewrite (Hkeep _ (ODesc x)) by done.
      split; [done|]. unfold owned_desc in *. by rewrite Ed, Eird. }
  split.
  - rewrite Hl. destruct (decide (s = 0%nat)) as [->|]; [by rewrite (wf_null _ W) in Hs|apply W].
  - intros p d Hp. assert (h !! p = Some (ODbc d)) as Hp0.
    { rewrite Hl in Hp. by destruct (decide (s = p)). }
    destruct (wf_dbc _ W _ _ Hp0) as ((v & Hv) & Hn & Hall). split; [exists v; by rewrite (Hkeep _ (OEnv v))|]. split; [done|].
    intros t Ht. destruct (Hall t Ht) as (u & Hu & Eu). destruct (Hforth t u Hu) as (u' & Hu' & Ed & _). exists u'. by rewrite Ed.
  - intros t u Ht. destruct (decide (s = t)) as [<-|Hst].
    + rewrite Hl, decide_True in Ht by done. injection Ht as <-. by apply (Hstmt s o' o Hs); try done; apply Hcur.
    + rewrite Hl, decide_False in Ht by done. destruct (wf_stmt _ W _ _ Ht) as [_ _ _ H4 H5 H6].
      by apply (Hstmt t u u Ht); try done; apply Hcur.
  - intros s1 s2 o1 o2 q H1 H2 Hq1 Hq2. destruct (Hback _ _ H1) as (u1 & Hu1 & E1 & _). destruct (Hback _ _ H2) as (u2 & Hu2 & E2 & _).
    apply (wf_owner _ W s1 s2 u1 u2 q); congruence.
  - intros q x Hq. assert (h !! q = Some (ODesc x)) as Hq0.
    { rewrite Hl in Hq. by destruct (decide (s = q)). }
    destruct (wf_desc _ W _ _ Hq0) as [(d & Hd) Hst]. split; [exists d; by rewrite (Hkeep _ (ODbc d))|].
    intros t Ht. destruct (Hst t Ht) as (u & Hu & Ei). destruct (Hforth t u Hu) as (u' & Hu' & _ & Ei'). exists u'. by rewrite Ei'.
Qed.

(** *** Objects are removed

    [prune]: a connection without the statements that are gone. *)
Definition prune (gone : list nat) (y : object) : object :=
  match y with ODbc d => ODbc (d <| do_stmts ::= filter (fun s => s ∉ gone) |>) | _ => y end.

Record closed (h : heap) (gone : list nat) : Prop := {
  closed_stmt : forall s o q, h !! s = Some (OStmt o) -> q ∈ implicit o -> s ∈ gone <-> q ∈ gone;
  closed_dbc_stmt : forall s o, h !! s = Some (OStmt o) -> so_dbc o ∈ gone -> s ∈ gone;
  closed_dbc_desc : forall q x, h !! q = Some (ODesc x) -> de_dbc x ∈ gone -> q ∈ gone;
  closed_env : forall p d, h !! p = Some (ODbc d) -> do_env d ∈ gone -> p ∈ gone;
  closed_current : forall s o, h !! s = Some (OStmt o) -> s ∉ gone -> (so_cur_apd o ∉ gone) /\ (so_cur_ard o ∉ gone)
}.

Lemma wf_prune h h' gone : wf h -> closed h gone ->
  (forall p, h' !! p = if decide (p ∈ gone) then None else prune gone <$> h !! p) -> wf h'.
Proof.
  intros W C Hl.
  assert (forall p y, h' !! p = Some y -> (p ∉ gone) /\ exists y0, h !! p = Some y0 /\ y = prune gone y0) as Hback.
  { intros p y Hp. rewrite Hl in Hp. destruct (decide (p ∈ gone)); [done|]. split; [done|].
    destruct (h !! p) as [y0|]; [|done]. exists y0. cbn in Hp. by injection Hp as <-. }
  assert (forall p y, p ∉ gone -> h !! p = Some y -> h' !! p = Some (prune gone y)) as Hforth.
  { intros p y Hp Hy. rewrite Hl. rewrite decide_False by done. by rewrite Hy. }
  assert (forall s o, h' !! s = Some (OStmt o) -> (s ∉ gone) /\ h !! s = Some (OStmt o)) as Hs.
  { intros s o Ho. destruct (Hback _ _ Ho) as (Hg & [] & Hy & E); naive_solver. }
  assert (forall q x, h' !! q = Some (ODesc x) -> (q ∉ gone) /\ h !! q = Some (ODesc x)) as Hq.
  { intros q x Ho. destruct (Hback _ _ Ho) as (Hg & [] & Hy & E); naive_solver. }
  assert (forall q, explicit h q -> explicit h' q) as Hex.
  { intros q Hx s o Ho. destruct (Hs _ _ Ho) as [_ Ho']. by apply (Hx s). }
  assert (forall s o own cur, current_ok h o own cur -> s ∉ gone -> h !! s = Some (OStmt o) -> cur ∉ gone -> current_ok h' o own cur) as Hcur.
  { intros s o own cur [->|[Hx (x & Hc & Hb)]] Hg Ho Hc'; [by left|right]. split; [by apply Hex|]. exists x. split; [|done].
    exact (Hforth _ _ Hc' Hc). }
  split.
  - rewrite Hl. destruct (decide _); [done|]. by rewrite (wf_null _ W).
  - intros p d' Hp. destruct (Hback _ _ Hp) as (Hg & y & Hy & E). destruct y as [|d| |]; try done. injection E as ->.
    destruct (wf_dbc _ W _ _ Hy) as ((v & Hv) & Hn & Hall). cbn. split; [|split].
    + exists v. apply (Hforth _ (OEnv v)); [|done]. intros Hin. apply Hg. by apply (closed_env _ _ C p d).
    + by apply list.NoDup_filter.
    + intros s Hin. apply list_elem_of_filter in Hin as [Hng Hin]. destruct (Hall s Hin) as (o & Ho & Eo).
      exists o. split; [|done]. exact (Hforth _ _ Hng Ho).
  - intros s o Ho. destruct (Hs _ _ Ho) as [Hg Ho0]. destruct (wf_stmt _ W _ _ Ho0) as [H1 H2 H3 H4 H5 H6].
    destruct (closed_current _ _ C _ _ Ho0 Hg) as [Hca Hcr]. split; [|done| | | |done].
    + destruct H1 as (d & Hd & Hin). exists (d <| do_stmts ::= filter (fun s => s ∉ gone) |>). split.
      * apply (Hforth _ (ODbc d)); [|done]. intros Hin'. by apply Hg, (closed_dbc_stmt _ _ C s o).
      * cbn. by apply list_elem_of_filter.
    + intros q Hin. destruct (H3 q Hin) as (x & Hx & Hown). exists x. split; [|done]. apply (Hforth _ (ODesc x)); [|done].
      by rewrite <- (closed_stmt _ _ C s o q).
    + by apply (Hcur s).
    + by apply (Hcur s).
  - intros s1 s2 o1 o2 q H1 H2. destruct (Hs _ _ H1), (Hs _ _ H2). by apply (wf_owner _ W s1 s2 o1 o2 q).
  - intros q x Hx. destruct (Hq _ _ Hx) as [Hg Hx0]. destruct (wf_desc _ W _ _ Hx0) as [(d & Hd) Hst]. split.
    + exists (d <| do_stmts ::= filter (fun s => s ∉ gone) |>). apply (Hforth _ (ODbc d)); [|done].
      intros Hin. by apply Hg, (closed_dbc_desc _ _ C q x).
    + intros s Es. destruct (Hst s Es) as (o & Ho & Ei). exists o. split; [|done]. apply (Hforth _ (OStmt o)); [|done].
      rewrite (closed_stmt _ _ C s o q Ho); [done|]. subst q. unfold implicit. set_solver.
Qed.

(** *** What the destructors remove *)
Definition remove_all (gone : list nat) (h : heap) : heap := foldr (fun p h => delete p h) h gone.

Lemma lookup_remove_all gone h p : remove_all gone h !! p = if decide (p ∈ gone) then None else h !! p.
Proof.
  induction gone as [|q gone IH]; cbn [remove_all foldr]; [by rewrite decide_False by set_solver|].
  fold (remove_all gone h). destruct (decide (q = p)) as [->|Hne].
  - rewrite lookup_delete_eq, decide_True by set_solver. done.
  - rewrite lookup_delete_ne, IH by done. destruct (decide (p ∈ gone)), (decide (p ∈ q :: gone)); set_solver.
Qed.

Lemma delete_desc_Some p h x : h !! p = Some (ODesc x) -> delete_desc p h = Some (delete p h).
Proof. intros Hp. unfold delete_desc, find_desc. by rewrite Hp. Qed.

(** A statement and what it owns. *)
Definition owns_well (h : heap) (s : nat) (o : StmtObject) : Prop :=
  h !! s = Some (OStmt o) /\ NoDup (implicit o) /\ forall q, q ∈ implicit o -> exists x, h !! q = Some (ODesc x).

Definition footprint (s : nat) (o : StmtObject) : list nat := s :: implicit o.

Lemma delete_stmt_spec h s o : owns_well h s o -> exists h', delete_stmt s h = Some h' /\ h' = remove_all (footprint s o) h.
Proof.
  intros (Ho & Hn & Hq). unfold delete_stmt, find_stmt. rewrite Ho. cbn [mbind option_bind].
  unfold implicit in Hn. rewrite !list.NoDup_cons in Hn. destruct Hn as (N1 & N2 & N3 & _). set_unfold in N1. set_unfold in N2. set_unfold in N3.
  destruct (Hq (so_ird o)) as (x1 & E1); [unfold implicit; set_solver|]. destruct (Hq (so_ard o)) as (x2 & E2); [unfold implicit; set_solver|].
  destruct (Hq (so_ipd o)) as (x3 & E3); [unfold implicit; set_solver|]. destruct (Hq (so_apd o)) as (x4 & E4); [unfold implicit; set_solver|].
  assert (forall a b : nat, a <> b -> b <> a) as Hsym by congruence.
  rewrite (delete_desc_Some _ _ x1) by done. cbn [mbind option_bind].
  rewrite (delete_desc_Some _ _ x2) by (rewrite lookup_delete_ne; naive_solver). cbn [mbind option_bind].
  rewrite (delete_desc_Some _ _ x3) by (rewrite !lookup_delete_ne; naive_solver). cbn [mbind option_bind].
  rewrite (delete_desc_Some _ _ x4) by (rewrite !lookup_delete_ne; naive_solver). cbn [mbind option_bind].
  eexists. split; [done|]. done.
Qed.

(** Membership in a list that is written out. *)
Ltac in_list := unfold footprint, implicit in *; rewrite ?elem_of_app, ?elem_of_cons in *; naive_solver.

Lemma decide_or {A} (P Q R : Prop) `{!Decision P} `{!Decision Q} `{!Decision R} (a b : A) : (R <-> P \/ Q) ->
  (if decide P then a else if decide Q then a else b) = if decide R then a else b.
Proof. intros E. destruct (decide P), (decide Q), (decide R); tauto. Qed.

Lemma filter_all {A} (P : A -> Prop) `{!forall x, Decision (P x)} (l : list A) : (forall x, x ∈ l -> P x) -> filter P l = l.
Proof.
  induction l as [|x l IH]; intros Hl; [done|].
  rewrite filter_cons_True by (apply Hl, elem_of_cons; by left). f_equal. apply IH. intros y Hy. apply Hl, elem_of_cons. by right.
Qed.

Lemma list_filter_iff' {A} (P Q : A -> Prop) `{!forall x, Decision (P x)} `{!forall x, Decision (Q x)} (l : list A) :
  (forall x, x ∈ l -> P x <-> Q x) -> filter P l = filter Q l.
Proof.
  induction l as [|x l IH]; intros Hl; [done|]. assert (filter P l = filter Q l) as E.
  { apply IH. intros y Hy. apply Hl, elem_of_cons. by right. }
  assert (P x <-> Q x) as Hx by (apply Hl, elem_of_cons; by left). destruct (decide (P x)).
  - rewrite !filter_cons_True by tauto. by rewrite E.
  - rewrite !filter_cons_False by tauto. done.
Qed.

(** The statements of a connection, one after the other. *)
Fixpoint footprints (h : heap) (l : list nat) : list nat :=
  match l with
  | [] => []
  | s :: l' => match find_stmt h s with Some o => footprint s o | None => [] end ++ footprints h l'
  end.

Lemma elem_of_footprints h l p : p ∈ footprints h l <-> exists s o, s ∈ l /\ h !! s = Some (OStmt o) /\ p ∈ footprint s o.
Proof.
  induction l as [|s l IH]; cbn [footprints]; [set_solver|]. rewrite elem_of_app, IH. split.
  - intros [Hp|(t & o & Ht & Ho & Hp)]; [|exists t, o; set_solver].
    destruct (find_stmt h s) as [o|] eqn:E; [|set_solver]. exists s, o. apply find_stmt_Some in E. set_solver.
  - intros (t & o & [->|Ht]%elem_of_cons & Ho & Hp); [left|right; by exists t, o].
    by rewrite (proj2 (find_stmt_Some _ _ _) Ho).
Qed.

Lemma footprints_ext h h' l : (forall s, s ∈ l -> h' !! s = h !! s) -> footprints h' l = footprints h l.
Proof.
  induction l as [|s l IH]; intros E; [done|]. cbn [footprints]. rewrite IH by set_solver.
  unfold find_stmt. by rewrite E by set_solver.
Qed.

(** Statements that own their descriptors apart from each other. *)
Definition apart (h : heap) (l : list nat) : Prop := NoDup l /\ (forall s, s ∈ l -> exists o, owns_well h s o)
  /\ forall s t o u q, s ∈ l -> t ∈ l -> h !! s = Some (OStmt o) -> h !! t = Some (OStmt u) -> q ∈ implicit o -> q ∈ implicit u -> s = t.

Lemma delete_stmts_spec l : forall h, apart h l -> exists h', delete_stmts l h = Some h' /\
  forall p, h' !! p = if decide (p ∈ footprints h l) then None else h !! p.
Proof.
  induction l as [|s l IH]; intros h (Hn & Hall & Hdis); cbn [delete_stmts].
  { exists h. split; [done|]. intros p. by rewrite decide_False by (cbn; set_solver). }
  apply list.NoDup_cons in Hn as [Hs Hn]. destruct (Hall s) as (o & Ho); [in_list|].
  destruct (delete_stmt_spec h s o Ho) as (h1 & E1 & ->). rewrite E1. cbn [mbind option_bind].
  assert (forall t u, t ∈ l -> h !! t = Some (OStmt u) -> t ∉ footprint s o) as Hout.
  { intros t u Ht Hu Hin. unfold footprint in Hin. apply elem_of_cons in Hin as [->|Hin]; [done|].
    destruct Ho as (_ & _ & Hq). destruct (Hq t Hin) as (x & Hx). congruence. }
  assert (forall t, t ∈ l -> remove_all (footprint s o) h !! t = h !! t) as Hsame.
  { intros t Ht. destruct (Hall t) as (u & Hu & _); [in_list|]. by rewrite lookup_remove_all, decide_False by by apply (Hout t u). }
  destruct (IH (remove_all (footprint s o) h)) as (h' & E' & Hl).
  { split; [done|]. split.
    - intros t Ht. destruct (Hall t) as (u & Hu & Hnu & Hqu); [in_list|]. exists u. split; [by rewrite Hsame|]. split; [done|].
      intros q Hq. destruct (Hqu q Hq) as (x & Hx). exists x. rewrite lookup_remove_all, decide_False; [done|].
      intros [->|Hin]%elem_of_cons; [destruct Ho as (Ho & _); congruence|].
      assert (s = t) as -> by (apply (Hdis s t o u q); [in_list|in_list|apply Ho|done|done|done]). done.
    - intros t1 t2 o1 o2 q H1 H2. rewrite !Hsame by done. apply Hdis; in_list. }
  exists h'. split; [done|]. intros p. rewrite Hl, (footprints_ext h) by done. cbn [footprints].
  rewrite (proj2 (find_stmt_Some _ _ _) (proj1 Ho)), lookup_remove_all.
  apply decide_or. rewrite elem_of_app. tauto.
Qed.

Lemma wf_apart h p d l : wf h -> h !! p = Some (ODbc d) -> NoDup l -> (forall s, s ∈ l -> s ∈ do_stmts d) -> apart h l.
Proof.
  intros W Hp Hn Hin. destruct (wf_dbc _ W _ _ Hp) as (_ & _ & Hall). split; [done|]. split.
  - intros s Hs. destruct (Hall s (Hin s Hs)) as (o & Ho & _). exists o. destruct (wf_stmt _ W _ _ Ho) as [_ H2 H3 _ _ _].
    split; [done|]. split; [done|]. intros q Hq. destruct (H3 q Hq) as (x & Hx & _). by exists x.
  - intros s t o u q _ _ Ho Hu. by apply (wf_owner _ W).
Qed.

(** A descriptor that no statement owns is in no footprint. *)
Lemma explicit_outside h l q x : h !! q = Some (ODesc x) -> explicit h q -> q ∉ footprints h l.
Proof.
  intros Hq Hx (s & o & _ & Ho & Hin)%elem_of_footprints. apply elem_of_cons in Hin as [->|Hin]; [congruence|].
  by apply (Hx s o).
Qed.

(** ** The calls that keep a heap well-formed *)
(** Freeing a connection takes its statements and their descriptors with it, and
    touches nothing else; the client has freed the explicit descriptors. *)
Section FreeDbc.
Context (h : heap) (p : nat) (d : DbcObject) (W : wf h) (Hp : h !! p = Some (ODbc d)).
Let gone := p :: footprints h (do_stmts d).

Lemma footprint_dbc s o q : h !! s = Some (OStmt o) -> so_dbc o = p -> q ∈ footprint s o -> q ∈ gone.
Proof.
  intros Ho Eo Hq. apply elem_of_cons. right. apply elem_of_footprints. exists s, o. split; [|by split].
  destruct (stmt_listed _ _ _ (wf_stmt _ W _ _ Ho)) as (d' & Hd' & Hin). rewrite Eo in Hd'. congruence.
Qed.

(** What is gone is the connection, one of its statements, or a descriptor of one. *)
Lemma gone_cases q : q ∈ gone -> q = p
  \/ (exists o, h !! q = Some (OStmt o) /\ so_dbc o = p)
  \/ (exists s o x, h !! s = Some (OStmt o) /\ so_dbc o = p /\ q ∈ implicit o /\ h !! q = Some (ODesc x)).
Proof.
  destruct (wf_dbc _ W _ _ Hp) as (_ & _ & Hall). intros [->|(t & u & Ht & Hu & Hin)%elem_of_footprints]%elem_of_cons; [by left|right].
  destruct (Hall t Ht) as (u' & Hu' & Eu). assert (u' = u) as -> by congruence.
  apply elem_of_cons in Hin as [->|Hin]; [left; by exists u|right].
  destruct (stmt_owns _ _ _ (wf_stmt _ W _ _ Hu) q Hin) as (x & Hx & _). by exists t, u, x.
Qed.

Lemma gone_stmt s o : h !! s = Some (OStmt o) -> s ∈ gone <-> so_dbc o = p.
Proof.
  intros Ho. split; [|intros E; apply (footprint_dbc s o); [done|done|apply elem_of_cons; by left]].
  intros [->|[(u & Hu & Eu)|(t & u & x & _ & _ & _ & Hx)]]%gone_cases; congruence.
Qed.

Lemma gone_implicit s o q : h !! s = Some (OStmt o) -> q ∈ implicit o -> s ∈ gone <-> q ∈ gone.
Proof.
  intros Ho Hi. rewrite (gone_stmt s o Ho). split; [intros E; apply (footprint_dbc s o); [done|done|apply elem_of_cons; by right]|].
  destruct (stmt_owns _ _ _ (wf_stmt _ W _ _ Ho) q Hi) as (x & Hx & _).
  intros [->|[(u & Hu & Eu)|(t & u & y & Hu & Eu & Hq & _)]]%gone_cases; [congruence..|].
  assert (s = t) as -> by by apply (wf_owner _ W s t o u q). congruence.
Qed.

Lemma gone_dbc q e : h !! q = Some (ODbc e) -> q ∈ gone -> q = p.
Proof. intros He [->|[(u & Hu & _)|(t & u & y & _ & _ & _ & Hy)]]%gone_cases; [done|congruence..]. Qed.

Lemma gone_env q v : h !! q = Some (OEnv v) -> q ∉ gone.
Proof. intros He [->|[(u & Hu & _)|(t & u & y & _ & _ & _ & Hy)]]%gone_cases; congruence. Qed.

Lemma gone_closed : (forall q x, h !! q = Some (ODesc x) -> de_dbc x = p -> ~ explicit h q) -> closed h gone.
Proof.
  intros Hdesc. split; [exact gone_implicit| | | |].
  - intros s o Ho Hin. apply (gone_stmt s o Ho). destruct (stmt_listed _ _ _ (wf_stmt _ W _ _ Ho)) as (d' & Hd' & _). by apply (gone_dbc _ d').
  - intros q x Hx Hin. destruct (wf_desc _ W _ _ Hx) as [(d' & Hd') _]. assert (de_dbc x = p) as Ex by by apply (gone_dbc _ d').
    destruct (decide (q ∈ gone)) as [|Hng]; [done|]. destruct (Hdesc q x Hx Ex). intros s o Ho Hi.
    destruct (stmt_owns _ _ _ (wf_stmt _ W _ _ Ho) q Hi) as (x' & Hx' & Eb & _). apply Hng.
    rewrite <- (gone_implicit s o q Ho Hi), (gone_stmt s o Ho). congruence.
  - intros q d' Hd' Hin. destruct (wf_dbc _ W _ _ Hd') as ((v & Hv) & _). by destruct (gone_env _ v Hv).
  - intros s o Ho Hng. destruct (wf_stmt _ W _ _ Ho) as [_ _ _ H4 H5 _].
    assert (forall own cur, own ∈ implicit o -> current_ok h o own cur -> cur ∉ gone) as Hc.
    { intros own cur Hown [->|[Hx (x & Hxq & Eb)]]; [by rewrite <- (gone_implicit s o own)|].
      intros [->|Hin]%elem_of_cons; [congruence|]. by apply (explicit_outside h (do_stmts d) cur x) in Hin. }
    split; [apply (Hc (so_apd o))|apply (Hc (so_ard o))]; try done; unfold implicit; rewrite !elem_of_cons; tauto.
Qed.

Lemma free_dbc : (forall q x, h !! q = Some (ODesc x) -> de_dbc x = p -> ~ explicit h q) ->
  exists h', FreeHandle SQL_HANDLE_DBC p h = Some (SQL_SUCCESS, h') /\ wf h'
    /\ forall q, h' !! q = if decide (q ∈ p :: footprints h (do_stmts d)) then None else h !! q.
Proof.
  intros Hdesc. assert (p <> 0%nat) as Hp0 by (intros ->; by rewrite (wf_null _ W) in Hp).
  unfold FreeHandle. rewrite bool_decide_eq_false_2 by done. cbn [Z.eqb Pos.eqb].
  rewrite (proj2 (find_dbc_Some _ _ _) Hp). cbn [mbind option_bind]. destruct (wf_dbc _ W _ _ Hp) as (_ & Hn & _).
  destruct (delete_stmts_spec (do_stmts d) h) as (h1 & -> & Hl); [by apply (wf_apart h p d)|]. cbn [mbind option_bind].
  eexists. split; [done|]. fold gone. assert (forall q, delete p h1 !! q = if decide (q ∈ gone) then None else h !! q) as Hq.
  { intros q. subst gone. destruct (decide (p = q)) as [<-|Hne].
    - rewrite lookup_delete_eq, decide_True by in_list. done.
    - rewrite lookup_delete_ne, Hl by done. apply decide_ext. rewrite elem_of_cons. naive_solver. }
  split; [|exact Hq]. apply (wf_prune h _ gone W (gone_closed Hdesc)). intros q. rewrite Hq.
  destruct (decide (q ∈ gone)) as [|Hng]; [done|]. destruct (h !! q) as [[|d'| |]|] eqn:Eq; try done. cbn. do 2 f_equal.
  destruct d' as [env l rest]. cbn. f_equal. symmetry. apply filter_all. intros s Hs Hin.
  destruct (wf_dbc _ W _ _ Eq) as (_ & _ & Hall'). destruct (Hall' s Hs) as (o & Ho & Eo). apply Hng. apply (gone_stmt s o Ho) in Hin.
  apply elem_of_cons. left. congruence.
Qed.
End FreeDbc.

Lemma free_env h p v : wf h -> h !! p = Some (OEnv v) -> (forall q d, h !! q = Some (ODbc d) -> do_env d <> p) ->
  FreeHandle SQL_HANDLE_ENV p h = Some (SQL_SUCCESS, delete p h) /\ wf (delete p h).
Proof.
  intros W Hp Hd. assert (p <> 0%nat) as Hp0 by (intros ->; by rewrite (wf_null _ W) in Hp). split.
  - unfold FreeHandle. rewrite bool_decide_eq_false_2 by done. cbn [Z.eqb Pos.eqb]. by rewrite (proj2 (find_env_Some _ _ _) Hp).
  - apply (wf_prune h _ [p] W).
    + split.
      * intros s o q Ho Hq. destruct (stmt_owns _ _ _ (wf_stmt _ W _ _ Ho) q Hq) as (x & Hx & _). rewrite !list_elem_of_singleton.
        split; intros ->; congruence.
      * intros s o Ho Hin. apply list_elem_of_singleton in Hin. destruct (stmt_listed _ _ _ (wf_stmt _ W _ _ Ho)) as (d & Hdb & _). congruence.
      * intros q x Hx Hin. apply list_elem_of_singleton in Hin. destruct (wf_desc _ W _ _ Hx) as [(d & Hdb) _]. congruence.
      * intros q d Hq Hin. apply list_elem_of_singleton in Hin. by destruct (Hd q d Hq).
      * intros s o Ho _. destruct (wf_stmt _ W _ _ Ho) as [_ _ H3 H4 H5 _].
        assert (forall own cur, own ∈ implicit o -> current_ok h o own cur -> cur ∉ [p]) as Hc.
        { intros own cur Hown Hok Hin. apply list_elem_of_singleton in Hin as ->.
          destruct Hok as [->|[_ (x & Hx & _)]]; [destruct (H3 own Hown) as (x & Hx & _)|]; congruence. }
        split; [apply (Hc (so_apd o))|apply (Hc (so_ard o))]; try done; unfold implicit; rewrite !elem_of_cons; tauto.
    + intros q. destruct (decide (q ∈ [p])) as [->%list_elem_of_singleton|Hng]; [by rewrite lookup_delete_eq|].
      rewrite list_elem_of_singleton in Hng. rewrite lookup_delete_ne by congruence.
      destruct (h !! q) as [[|d'| |]|] eqn:Eq; try done. cbn. do 2 f_equal. destruct d' as [env l rest]. cbn. f_equal. symmetry.
      apply filter_all. intros s Hs ->%list_elem_of_singleton. destruct (wf_dbc _ W _ _ Eq) as (_ & _ & Hall).
      destruct (Hall p Hs) as (o & Ho & _). congruence.
Qed.

Lemma erase_ref_filter s l : NoDup l -> erase_ref s l = filter (fun x => x ∉ [s]) l.
Proof.
  induction l as [|x l IH]; intros Hn; [done|]. apply list.NoDup_cons in Hn as [Hx Hn]. cbn [erase_ref]. case_bool_decide as E.
  - subst x. rewrite filter_cons_False by (rewrite list_elem_of_singleton; tauto). symmetry. apply filter_all.
    intros y Hy ->%list_elem_of_singleton. done.
  - rewrite filter_cons_True by (by rewrite list_elem_of_singleton). by rewrite IH.
Qed.

(** Freeing a statement takes its descriptors with it. *)
Section FreeStmt.
Context (h : heap) (s : nat) (o : StmtObject) (W : wf h) (Hs : h !! s = Some (OStmt o)).

Lemma footprint_cases q : q ∈ footprint s o -> q = s \/ (q ∈ implicit o /\ exists x, h !! q = Some (ODesc x)).
Proof.
  intros [->|Hi]%elem_of_cons; [by left|right]. split; [done|].
  destruct (stmt_owns _ _ _ (wf_stmt _ W _ _ Hs) q Hi) as (x & Hx & _). by exists x.
Qed.

Lemma footprint_stmt t u : h !! t = Some (OStmt u) -> t ∈ footprint s o -> t = s.
Proof. intros Hu [->|[_ (x & Hx)]]%footprint_cases; [done|congruence]. Qed.

Lemma footprint_closed : closed h (footprint s o).
Proof.
  split.
  - intros t u q Hu Hi. split.
    + intros Ht. rewrite (footprint_stmt t u Hu Ht) in Hu. assert (u = o) as -> by congruence. apply elem_of_cons. by right.
    + intros [->|[Hg _]]%footprint_cases; [destruct (stmt_owns _ _ _ (wf_stmt _ W _ _ Hu) s Hi) as (x & Hx & _); congruence|].
      rewrite (wf_owner _ W t s u o q Hu Hs Hi Hg). apply elem_of_cons. by left.
  - intros t u Hu Hin. exfalso. destruct (stmt_listed _ _ _ (wf_stmt _ W _ _ Hu)) as (d' & Hd' & _).
    apply footprint_cases in Hin as [E|[_ (x & Hx)]]; congruence.
  - intros q x Hx Hin. exfalso. destruct (wf_desc _ W _ _ Hx) as [(d' & Hd') _]. apply footprint_cases in Hin as [E|[_ (y & Hy)]]; congruence.
  - intros q d' Hd' Hin. exfalso. destruct (wf_dbc _ W _ _ Hd') as ((v & Hv) & _). apply footprint_cases in Hin as [E|[_ (y & Hy)]]; congruence.
  - intros t u Hu Hng. destruct (wf_stmt _ W _ _ Hu) as [_ _ H3 H4 H5 _].
    assert (forall own cur, own ∈ implicit u -> current_ok h u own cur -> cur ∉ footprint s o) as Hc.
    { intros own cur Hi [->|[Hx (x & Hxq & _)]] [E|[Hg _]]%footprint_cases.
      - destruct (H3 own Hi) as (x & Hx & _). congruence.
      - apply Hng. rewrite (wf_owner _ W t s u o own Hu Hs Hi Hg). apply elem_of_cons. by left.
      - congruence.
      - by apply (Hx s o). }
    split; [apply (Hc (so_apd u))|apply (Hc (so_ard u))]; try done; unfold implicit; rewrite !elem_of_cons; tauto.
Qed.

(** The reference of a statement is erased where it is listed, and nowhere else. *)
Lemma erased_reference d q : h !! so_dbc o = Some (ODbc d) -> q ∉ footprint s o ->
  <[so_dbc o := ODbc (d <| do_stmts ::= erase_ref s |>)]> h !! q = prune (footprint s o) <$> h !! q.
Proof.
  intros Hd Hng.
  assert (forall p e t, h !! p = Some (ODbc e) -> t ∈ do_stmts e -> t ∈ footprint s o -> t = s /\ p = so_dbc o) as Honly.
  { intros p e t He Ht Hin. destruct (wf_dbc _ W _ _ He) as (_ & _ & Hall). destruct (Hall t Ht) as (u & Hu & Eu).
    pose proof (footprint_stmt t u Hu Hin) as ->. split; [done|]. congruence. }
  destruct (decide (q = so_dbc o)) as [->|Hne].
  - rewrite lookup_insert_eq, Hd. cbn. do 2 f_equal. destruct (wf_dbc _ W _ _ Hd) as (_ & Hn & _). destruct d as [env l rest]. cbn in *. f_equal.
    rewrite erase_ref_filter by done. apply list_filter_iff'. intros t Ht. rewrite list_elem_of_singleton. split.
    + intros Hts Hg. by apply Hts, (Honly _ _ t Hd).
    + intros Hg ->. apply Hg. apply elem_of_cons. by left.
  - rewrite lookup_insert_ne by congruence. destruct (h !! q) as [[|e| |]|] eqn:Eq; try done. cbn. do 2 f_equal. destruct e as [env l rest]. cbn. f_equal.
    symmetry. apply filter_all. intros t Ht Hg. by destruct (Honly _ _ t Eq Ht Hg).
Qed.

Lemma free_stmt : exists h', FreeHandle SQL_HANDLE_STMT s h = Some (SQL_SUCCESS, h') /\ wf h'
  /\ forall q, h' !! q = if decide (q ∈ footprint s o) then None else prune (footprint s o) <$> h !! q.
Proof.
  assert (s <> 0%nat) as Hs0 by (intros ->; by rewrite (wf_null _ W) in Hs).
  destruct (wf_stmt _ W _ _ Hs) as [(d & Hd & _) Hn Hown _ _ _].
  unfold FreeHandle. rewrite bool_decide_eq_false_2 by done. cbn [Z.eqb Pos.eqb].
  rewrite (proj2 (find_stmt_Some _ _ _) Hs). cbn [mbind option_bind]. rewrite (proj2 (find_dbc_Some _ _ _) Hd). cbn [mbind option_bind].
  set (h0 := <[so_dbc o := _]> h).
  assert (forall q, q <> so_dbc o -> h0 !! q = h !! q) as H0 by (intros q Hne; apply lookup_insert_ne; congruence).
  destruct (delete_stmt_spec h0 s o) as (h' & -> & ->).
  { split; [rewrite H0 by congruence; done|]. split; [done|]. intros q Hi. destruct (Hown q Hi) as (x & Hx & _). exists x. by rewrite H0 by congruence. }
  cbn [mbind option_bind]. eexists. split; [done|].
  assert (forall q, remove_all (footprint s o) h0 !! q = if decide (q ∈ footprint s o) then None else prune (footprint s o) <$> h !! q) as Hl.
  { intros q. rewrite lookup_remove_all. destruct (decide (q ∈ footprint s o)); [done|]. by apply erased_reference. }
  split; [|exact Hl]. exact (wf_prune h _ _ W footprint_closed Hl).
Qed.
End FreeStmt.

(** *** Freeing an explicit descriptor *)
Definition reset_object (p : nat) (y : object) : object := match y with OStmt o => OStmt (reset_current p o) | _ => y end.

Lemma reset_current_eq p o : reset_current p o =
  o <| so_cur_apd := if decide (so_cur_apd o = p) then so_apd o else so_cur_apd o |>
    <| so_cur_ard := if decide (so_cur_ard o = p) then so_ard o else so_cur_ard o |>.
Proof.
  unfold reset_current. destruct o as [b a i r ir ca cr rest]. cbn. repeat case_bool_decide; repeat case_decide; done.
Qed.

Lemma reset_current_id p o : so_cur_apd o <> p -> so_cur_ard o <> p -> reset_current p o = o.
Proof. intros Ha Hr. rewrite reset_current_eq, !decide_False by done. by destruct o. Qed.

Lemma wf_reset h p s o : wf h -> explicit h p -> h !! s = Some (OStmt o) -> wf (<[s := OStmt (reset_current p o)]> h).
Proof.
  intros W Hp Ho. rewrite reset_current_eq. destruct (wf_stmt _ W _ _ Ho) as [_ Hn _ Ha Hr Hne].
  assert (forall own cur, current_ok h o own cur -> current_ok h o own (if decide (cur = p) then own else cur)) as Hok.
  { intros own cur Hc. case_decide; [by left|done]. }
  apply wf_set_current; [done|done|by apply Hok|by apply Hok|].
  assert (so_apd o <> so_ard o) as Hown.
  { unfold implicit in Hn. rewrite !list.NoDup_cons in Hn. destruct Hn as (N1 & _). intros E. apply N1. rewrite E, !elem_of_cons. tauto. }
  assert (so_apd o ∈ implicit o /\ so_ard o ∈ implicit o) as [Ia Ir] by (unfold implicit; split; rewrite !elem_of_cons; tauto).
  repeat case_decide; try done.
  - intros E. destruct Hr as [Er|[Hx _]]; [congruence|]. apply (Hx s o); [done|]. by rewrite <- E.
  - intros E. destruct Ha as [Er|[Hx _]]; [congruence|]. apply (Hx s o); [done|]. by rewrite E.
Qed.

Lemma reset_descriptors_spec p l : forall h, wf h -> explicit h p -> NoDup l -> (forall s, s ∈ l -> exists o, h !! s = Some (OStmt o)) ->
  exists h', reset_descriptors p l h = Some h' /\ wf h'
    /\ forall q, h' !! q = if decide (q ∈ l) then reset_object p <$> h !! q else h !! q.
Proof.
  induction l as [|s l IH]; intros h W Hp Hn Hl; cbn [reset_descriptors].
  { exists h. split; [done|]. split; [done|]. intros q. by rewrite decide_False by apply not_elem_of_nil. }
  apply list.NoDup_cons in Hn as [Hs Hn]. destruct (Hl s) as (o & Ho); [apply elem_of_cons; by left|].
  rewrite (proj2 (find_stmt_Some _ _ _) Ho). cbn [mbind option_bind]. set (h1 := <[s := OStmt (reset_current p o)]> h).
  assert (forall t, t <> s -> h1 !! t = h !! t) as H1 by (intros t Ht; apply lookup_insert_ne; congruence).
  destruct (IH h1) as (h' & E & W' & Hq); [by apply wf_reset| |done| |].
  - intros t u Hu. destruct (decide (t = s)) as [->|Hne]; [|rewrite H1 in Hu by done; by apply (Hp t)].
    subst h1. rewrite lookup_insert_eq in Hu. injection Hu as <-. rewrite reset_current_eq. by apply (Hp s o).
  - intros t Ht. rewrite H1 by congruence. apply Hl. apply elem_of_cons. by right.
  - exists h'. split; [done|]. split; [done|]. intros q. rewrite Hq. destruct (decide (q = s)) as [->|Hne].
    + rewrite decide_False by done. rewrite decide_True by (apply elem_of_cons; by left). subst h1. by rewrite lookup_insert_eq, Ho.
    + rewrite H1 by done. apply decide_ext. rewrite elem_of_cons. tauto.
Qed.

Lemma current_elsewhere h p x s o own cur : h !! p = Some (ODesc x) -> explicit h p -> h !! s = Some (OStmt o) -> own ∈ implicit o ->
  so_dbc o <> de_dbc x -> current_ok h o own cur -> cur <> p.
Proof.
  intros Hp Hx Ho Hown Hd [->|[_ (y & Hy & Ey)]] ->; [by apply (Hx s o)|]. congruence.
Qed.

Lemma free_desc h p x : wf h -> h !! p = Some (ODesc x) -> explicit h p ->
  exists h', FreeHandle SQL_HANDLE_DESC p h = Some (SQL_SUCCESS, h') /\ wf h'
    /\ forall q, h' !! q = if decide (q = p) then None else reset_object p <$> h !! q.
Proof.
  intros W Hp Hx. assert (p <> 0%nat) as Hp0 by (intros ->; by rewrite (wf_null _ W) in Hp).
  destruct (wf_desc _ W _ _ Hp) as [(d & Hd) Hst]. destruct (wf_dbc _ W _ _ Hd) as (_ & Hn & Hall).
  unfold FreeHandle. rewrite bool_decide_eq_false_2 by done. cbn [Z.eqb Pos.eqb].
  rewrite (proj2 (find_desc_Some _ _ _) Hp). cbn [mbind option_bind]. rewrite (proj2 (find_dbc_Some _ _ _) Hd). cbn [mbind option_bind].
  destruct (reset_descriptors_spec p (do_stmts d) h W Hx Hn) as (h1 & -> & W1 & Hq).
  { intros s Hs. destruct (Hall s Hs) as (o & Ho & _). by exists o. }
  cbn [mbind option_bind]. eexists. split; [done|].
  assert (forall s o, h !! s = Some (OStmt o) -> s ∉ do_stmts d -> so_cur_apd o <> p /\ so_cur_ard o <> p) as Helse.
  { intros s o Ho Hs. destruct (wf_stmt _ W _ _ Ho) as [(d' & Hd' & Hin) _ _ Ha Hr _].
    assert (so_dbc o <> de_dbc x) as Hne by congruence.
    split; [apply (current_elsewhere h p x s o (so_apd o))|apply (current_elsewhere h p x s o (so_ard o))]; try done;
      unfold implicit; rewrite !elem_of_cons; tauto. }
  assert (forall q, h1 !! q = reset_object p <$> h !! q) as Hq'.
  { intros q. rewrite Hq. destruct (decide (q ∈ do_stmts d)) as [|Hng]; [done|]. destruct (h !! q) as [[| |o|]|] eqn:Eq; try done.
    destruct (Helse q o Eq Hng). cbn. by rewrite reset_current_id. }
  assert (forall s o, h1 !! s = Some (OStmt o) -> exists o0, h !! s = Some (OStmt o0) /\ o = reset_current p o0) as Hs.
  { intros s o Ho. rewrite Hq' in Ho. destruct (h !! s) as [[| |o0|]|]; try done. cbn in Ho. injection Ho as <-. by exists o0. }
  assert (h1 !! p = Some (ODesc x)) as Hp1 by by rewrite Hq', Hp.
  assert (forall s o, h1 !! s = Some (OStmt o) -> p ∉ implicit o) as Hx1.
  { intros s o Ho. destruct (Hs _ _ Ho) as (o0 & Ho0 & ->). rewrite reset_current_eq. by apply (Hx s o0). }
  split; [|intros q; destruct (decide (q = p)) as [->|]; [apply lookup_delete_eq|rewrite lookup_delete_ne by congruence; apply Hq']].
  apply (wf_prune h1 _ [p] W1).
  - split.
    + intros s o q Ho Hi. rewrite !list_elem_of_singleton. split; intros ->; [congruence|]. by destruct (Hx1 s o).
    + intros s o Ho Hin. apply list_elem_of_singleton in Hin. destruct (stmt_listed _ _ _ (wf_stmt _ W1 _ _ Ho)) as (d' & Hd' & _). congruence.
    + intros q y Hy Hin. apply list_elem_of_singleton in Hin. destruct (wf_desc _ W1 _ _ Hy) as [(d' & Hd') _]. congruence.
    + intros q d' Hd' Hin. apply list_elem_of_singleton in Hin. destruct (wf_dbc _ W1 _ _ Hd') as ((v & Hv) & _). congruence.
    + intros s o Ho _. rewrite !list_elem_of_singleton. destruct (Hs _ _ Ho) as (o0 & Ho0 & ->). rewrite reset_current_eq. cbn.
      assert (so_apd o0 <> p /\ so_ard o0 <> p) as [Na Nr].
      { split; intros E; apply (Hx s o0 Ho0); rewrite <- E; unfold implicit; rewrite !elem_of_cons; tauto. }
      repeat case_decide; tauto.
  - intros q. destruct (decide (q ∈ [p])) as [->%list_elem_of_singleton|Hng]; [by rewrite lookup_delete_eq|].
    rewrite list_elem_of_singleton in Hng. rewrite lookup_delete_ne by congruence.
    destruct (h1 !! q) as [[|d'| |]|] eqn:Eq; try done. cbn. do 2 f_equal. destruct d' as [env l rest]. cbn. f_equal. symmetry.
    apply filter_all. intros s Hin ->%list_elem_of_singleton. destruct (wf_dbc _ W1 _ _ Eq) as (_ & _ & Hall').
    destruct (Hall' p Hin) as (o & Ho & _). congruence.
Qed.

(** *** Allocating *)
Definition may_be_added (h : heap) (y : object) : Prop :=
  match y with
  | OEnv _ => True
  | ODbc d => do_stmts d = [] /\ exists v, h !! do_env d = Some (OEnv v)
  | OStmt _ => False
  | ODesc x => de_stmt x = None /\ exists d, h !! de_dbc x = Some (ODbc d)
  end.

Lemma wf_new h p y : wf h -> h !! p = None -> p <> 0%nat -> may_be_added h y -> wf (<[p := y]> h).
Proof.
  intros W Hp Hp0 Hy.
  assert (forall q, <[p := y]> h !! q = if decide (q = p) then Some y else h !! q) as Hl.
  { intros q. destruct (decide (q = p)) as [->|]; [apply lookup_insert_eq|by apply lookup_insert_ne]. }
  assert (forall q z, h !! q = Some z -> <[p := y]> h !! q = Some z) as Hforth.
  { intros q z Hq. rewrite Hl, decide_False; [done|]. congruence. }
  assert (forall s o, <[p := y]> h !! s = Some (OStmt o) -> h !! s = Some (OStmt o)) as Hs.
  { intros s o Ho. rewrite Hl in Ho. case_decide; [|done]. injection Ho as ->. done. }
  generalize dependent (<[p := y]> h). intros h' Hl Hforth Hs.
  assert (forall o own cur, current_ok h o own cur -> current_ok h' o own cur) as Hcur.
  { intros o own cur [->|[Hx (x & Hc & Hb)]]; [by left|right]. split; [intros s u Hu; by apply (Hx s), Hs|]. exists x. auto. }
  split.
  - rewrite Hl, decide_False by done. apply W.
  - intros q d Hq. rewrite Hl in Hq. case_decide as E.
    + injection Hq as ->. destruct Hy as [-> (v & Hv)]. split; [exists v; auto|]. split; [constructor|]. intros s Hin. by apply not_elem_of_nil in Hin.
    + destruct (wf_dbc _ W _ _ Hq) as ((v & Hv) & Hn & Hall). split; [exists v; auto|]. split; [done|]. intros s Hin.
      destruct (Hall s Hin) as (o & Ho & Eo). exists o. auto.
  - intros s o Ho. apply Hs in Ho. destruct (wf_stmt _ W _ _ Ho) as [(d & Hd & Hin) H2 H3 H4 H5 H6]. split; auto.
    + exists d. auto.
    + intros q Hq. destruct (H3 q Hq) as (x & Hx & Hown). exists x. auto.
  - intros s1 s2 o1 o2 q H1 H2. apply (wf_owner _ W); auto.
  - intros q x Hq. rewrite Hl in Hq. case_decide as E.
    + injection Hq as ->. destruct Hy as [-> (d & Hd)]. split; [exists d; auto|done].
    + destruct (wf_desc _ W _ _ Hq) as [(d & Hd) Hst]. split; [exists d; auto|]. intros s Es. destruct (Hst s Es) as (o & Ho & Ei). exists o. auto.
Qed.

Section Calls.
Context `{Allocator}.

(** What a new statement adds. *)
Lemma new_stmt_spec h dbc d s h' : h !! dbc = Some (ODbc d) -> new_stmt dbc d h = (s, h') ->
  exists a i r ir, Forall (fun q => h !! q = None /\ q <> 0%nat) [s; a; i; r; ir] /\ NoDup [s; a; i; r; ir]
    /\ forall q, h' !! q =
       if decide (q = s) then Some (OStmt (MkStmtObject dbc a i r ir a r (new_OdbcHandleStmt 0 (do_rest d))))
       else if decide (q ∈ [a; i; r]) then Some (new_desc dbc None)
       else if decide (q = ir) then Some (new_desc dbc (Some s))
       else if decide (q = dbc) then Some (ODbc (add_stmt_ref s d))
       else h !! q.
Proof.
  intros Hd. unfold new_stmt, allocate. set (s' := new_address h).
  set (h1 := <[s' := OStmt _]> h). set (h2 := <[dbc := ODbc _]> h1). set (a := new_address h2). set (h3 := <[a := new_desc dbc None]> h2).
  set (i := new_address h3). set (h4 := <[i := new_desc dbc None]> h3). set (r := new_address h4). set (h5 := <[r := new_desc dbc None]> h4).
  set (ir := new_address h5). intros [= <- <-]. exists a, i, r, ir.
  assert (forall (h : heap) p y q, <[p := y]> h !! q = if decide (q = p) then Some y else h !! q) as Hl.
  { clear. intros h p y q. destruct (decide (q = p)) as [->|]; [apply lookup_insert_eq|by apply lookup_insert_ne]. }
  pose proof (new_address_free h) as F1. fold s' in F1. pose proof (new_address_free h2) as F2. fold a in F2.
  pose proof (new_address_free h3) as F3. fold i in F3. pose proof (new_address_free h4) as F4. fold r in F4.
  pose proof (new_address_free h5) as F5. fold ir in F5.
  pose proof (new_address_not_null h) as Z1. fold s' in Z1. pose proof (new_address_not_null h2) as Z2. fold a in Z2.
  pose proof (new_address_not_null h3) as Z3. fold i in Z3. pose proof (new_address_not_null h4) as Z4. fold r in Z4.
  pose proof (new_address_not_null h5) as Z5. fold ir in Z5.
  subst h5 h4 h3 h2 h1. clearbody s' a i r ir. 
  repeat match goal with F : <[_ := _]> _ !! _ = None |- _ => apply lookup_insert_None in F as [F ?] end.
  split; [repeat constructor; done|]. split.
  - repeat (apply list.NoDup_cons; split; [rewrite ?elem_of_cons, elem_of_nil; intros Hin; destruct_or?; congruence|]). apply NoDup_nil_2.
  - intros q. rewrite Hl. destruct (decide (q = s')) as [|Ns]; [done|]. rewrite Hl. destruct (decide (q = ir)) as [->|Nir].
    { rewrite decide_False; [done|]. rewrite !elem_of_cons, elem_of_nil. intros Hin; destruct_or?; congruence. }
    rewrite Hl. destruct (decide (q = r)) as [->|Nr]; [rewrite decide_True; [done|rewrite !elem_of_cons; tauto]|].
    rewrite Hl. destruct (decide (q = i)) as [->|Ni]; [rewrite decide_True; [done|rewrite !elem_of_cons; tauto]|].
    rewrite Hl. destruct (decide (q = a)) as [->|Na]; [rewrite decide_True; [done|rewrite !elem_of_cons; tauto]|].
    rewrite (decide_False (P := q ∈ [a; i; r])) by (rewrite !elem_of_cons, elem_of_nil; tauto).
    rewrite Hl. destruct (decide (q = dbc)) as [|Nd]; [done|]. by rewrite Hl, decide_False.
Qed.
End Calls.

(** *** A new statement keeps the heap well-formed *)
Section NewStmt.
Context (h h' : heap) (dbc s a i r ir : nat) (d : DbcObject) (rest : OdbcHandleStmt) (W : wf h) (Hd : h !! dbc = Some (ODbc d)).
Let o := MkStmtObject dbc a i r ir a r rest.
Let d' := add_stmt_ref s d.
Context (HF : Forall (fun q => h !! q = None /\ q <> 0%nat) [s; a; i; r; ir]) (Hn : NoDup [s; a; i; r; ir])
  (Hl : forall q, h' !! q =
     if decide (q = s) then Some (OStmt o)
     else if decide (q ∈ [a; i; r]) then Some (new_desc dbc None)
     else if decide (q = ir) then Some (new_desc dbc (Some s))
     else if decide (q = dbc) then Some (ODbc d')
     else h !! q).

Lemma ns_new q : q ∈ s :: implicit o -> h !! q = None /\ q <> 0%nat /\ q <> dbc.
Proof.
  intros Hq. rewrite Forall_forall in HF. destruct (HF q (proj1 (list_elem_of_In _ _) Hq)). split; [done|]. split; [done|]. congruence.
Qed.

Lemma ns_old q y : h !! q = Some y -> q ∉ s :: implicit o.
Proof. intros Hq Hin. destruct (ns_new q Hin). congruence. Qed.

Lemma ns_back q y : h' !! q = Some y -> (q = s /\ y = OStmt o) \/ (q ∈ [a; i; r] /\ y = new_desc dbc None)
  \/ (q = ir /\ y = new_desc dbc (Some s)) \/ (q = dbc /\ y = ODbc d') \/ (q <> dbc /\ h !! q = Some y).
Proof.
  intros Hq. rewrite Hl in Hq. repeat case_decide; [left|right; left|do 2 right; left|do 3 right; left|do 4 right]; split; congruence.
Qed.

Lemma ns_forth q y : h !! q = Some y -> q <> dbc -> h' !! q = Some y.
Proof.
  intros Hq Hne. pose proof (ns_old q y Hq) as Ho. unfold implicit in Ho. cbn in Ho. rewrite !elem_of_cons in Ho. rewrite Hl.
  rewrite decide_False by tauto. rewrite decide_False by (rewrite !elem_of_cons; tauto). by rewrite !decide_False by tauto.
Qed.

Lemma ns_dbc : h' !! dbc = Some (ODbc d').
Proof.
  pose proof (ns_old dbc _ Hd) as Ho. unfold implicit in Ho. cbn in Ho. rewrite !elem_of_cons in Ho. rewrite Hl.
  rewrite decide_False by tauto. rewrite decide_False by (rewrite !elem_of_cons; tauto). rewrite decide_False by tauto. by rewrite decide_True.
Qed.

Lemma ns_stmts : do_stmts d' = do_stmts d ++ [s] /\ do_env d' = do_env d.
Proof. by subst d'. Qed.

Lemma ns_self : h' !! s = Some (OStmt o).
Proof. by rewrite Hl, decide_True. Qed.

Lemma ns_owned q : q ∈ implicit o -> h' !! q = Some (new_desc dbc (if decide (q = ir) then Some s else None)).
Proof.
  intros Hq. pose proof Hn as [Hs Hn']%list.NoDup_cons. rewrite Hl, decide_False by (intros ->; done).
  change (a :: i :: r :: [ir]) with ([a; i; r] ++ [ir]) in Hn'. apply list.NoDup_app in Hn' as (_ & Hdis & _).
  assert (ir ∉ [a; i; r]) as Hir by (intros Hin; apply (Hdis ir Hin), elem_of_cons; by left).
  destruct (decide (q = ir)) as [->|Hne]; [by rewrite decide_False|]. rewrite decide_True; [done|].
  unfold implicit in Hq. cbn in Hq. rewrite !elem_of_cons in Hq. rewrite !elem_of_cons. tauto.
Qed.

Lemma ns_is_stmt t u : h' !! t = Some (OStmt u) -> (t = s /\ u = o) \/ h !! t = Some (OStmt u).
Proof.
  intros Hu. destruct (ns_back _ _ Hu) as [[-> E]|[[_ E]|[[_ E]|[[_ E]|[_ E]]]]]; try done; [left; by injection E as ->|by right].
Qed.

Lemma ns_is_desc q x : h' !! q = Some (ODesc x) ->
  (q ∈ implicit o /\ ODesc x = new_desc dbc (if decide (q = ir) then Some s else None)) \/ h !! q = Some (ODesc x).
Proof.
  intros Hx. destruct (decide (q ∈ implicit o)) as [Hi|Hi]; [left; split; [done|]; rewrite (ns_owned q Hi) in Hx; congruence|right].
  unfold implicit in Hi. cbn in Hi. rewrite !elem_of_cons in Hi. destruct (ns_back _ _ Hx) as [[_ E]|[[Hq E]|[[-> E]|[[_ E]|[_ E]]]]]; try done;
    [rewrite !elem_of_cons in Hq; tauto|tauto].
Qed.

Lemma ns_implicit_new q : q ∈ implicit o -> q ∈ s :: implicit o.
Proof. intros Hq. apply elem_of_cons. by right. Qed.

Lemma ns_current u own cur : current_ok h u own cur -> current_ok h' u own cur.
Proof.
  intros [->|[Hx (x & Hc & Hb)]]; [by left|right]. split.
  - intros t v Hv Hin. destruct (ns_is_stmt t v Hv) as [[-> ->]|Ht]; [|by apply (Hx t v)]. by apply (ns_old cur _ Hc), ns_implicit_new.
  - exists x. split; [|done]. apply ns_forth; [done|]. congruence.
Qed.

Lemma ns_wf_null : h' !! 0%nat = None.
Proof.
  assert (0%nat ∉ s :: implicit o) as H0 by (intros Hin; by destruct (ns_new 0 Hin) as (_ & ? & _)).
  unfold implicit in H0. cbn in H0. rewrite !elem_of_cons in H0. rewrite Hl, decide_False by tauto.
  rewrite decide_False by (rewrite !elem_of_cons; tauto). rewrite decide_False by tauto.
  rewrite decide_False by (intros <-; by rewrite (wf_null _ W) in Hd). apply W.
Qed.

Lemma ns_wf_dbc p e : h' !! p = Some (ODbc e) -> (exists v, h' !! do_env e = Some (OEnv v)) /\ NoDup (do_stmts e)
  /\ forall t, t ∈ do_stmts e -> exists u, h' !! t = Some (OStmt u) /\ so_dbc u = p.
Proof.
  intros Hp. destruct ns_stmts as [Es Ee]. destruct (wf_dbc _ W _ _ Hd) as ((v & Hv) & Hnd & Hall). destruct (decide (p = dbc)) as [->|Hne].
  - assert (e = d') as -> by (rewrite ns_dbc in Hp; congruence). rewrite Es, Ee. split; [exists v; apply ns_forth; [done|congruence]|]. split.
    + apply list.NoDup_app. split; [done|]. split; [|apply NoDup_singleton]. intros t Ht ->%list_elem_of_singleton.
      destruct (Hall s Ht) as (u & Hu & _). apply (ns_old s _ Hu). apply elem_of_cons; by left.
    + intros t [Ht| ->%list_elem_of_singleton]%elem_of_app; [|exists o; split; [apply ns_self|done]].
      destruct (Hall t Ht) as (u & Hu & Eu). exists u. split; [|done]. apply ns_forth; [done|congruence].
  - assert (h !! p = Some (ODbc e)) as Hp0 by (destruct (ns_back _ _ Hp) as [[_ E]|[[_ E]|[[_ E]|[[E _]|[_ E]]]]]; done).
    destruct (wf_dbc _ W _ _ Hp0) as ((w & Hw) & Hne' & Hall'). split; [exists w; apply ns_forth; [done|congruence]|]. split; [done|].
    intros t Ht. destruct (Hall' t Ht) as (u & Hu & Eu). exists u. split; [|done]. apply ns_forth; [done|congruence].
Qed.

Lemma ns_wf_stmt t u : h' !! t = Some (OStmt u) -> wf_stmt_object h' t u.
Proof.
  intros Hu. destruct ns_stmts as [Es _]. destruct (ns_is_stmt t u Hu) as [[-> ->]|Ht].
  - pose proof Hn as [_ Hn']%list.NoDup_cons. split; [|exact Hn'| |by left|by left|].
    + exists d'. split; [exact ns_dbc|]. rewrite Es. apply elem_of_app. right. by apply list_elem_of_singleton.
    + intros q Hq. eexists. split; [exact (ns_owned q Hq)|]. by split.
    + cbn. intros E. apply list.NoDup_cons in Hn' as [Hn' _]. apply Hn'. rewrite E, !elem_of_cons. tauto.
  - destruct (wf_stmt _ W _ _ Ht) as [(e & He & Hin) H2 H3 H4 H5 H6]. split; [|done| |by apply ns_current|by apply ns_current|done].
    + destruct (decide (so_dbc u = dbc)) as [Eb|Hne].
      * exists d'. rewrite Eb, Es. split; [exact ns_dbc|]. apply elem_of_app. left. congruence.
      * exists e. split; [by apply ns_forth|done].
    + intros q Hq. destruct (H3 q Hq) as (x & Hx & Hown). exists x. split; [|done]. apply ns_forth; [done|congruence].
Qed.

Lemma ns_wf_owner s1 s2 o1 o2 q : h' !! s1 = Some (OStmt o1) -> h' !! s2 = Some (OStmt o2) -> q ∈ implicit o1 -> q ∈ implicit o2 -> s1 = s2.
Proof.
  intros H1 H2 Hq1 Hq2.
  assert (Hmixed : forall t u, h !! t = Some (OStmt u) -> q ∈ implicit u -> q ∉ implicit o).
  { intros t u Ht Hq Hi. destruct (stmt_owns _ _ _ (wf_stmt _ W _ _ Ht) q Hq) as (x & Hx & _). by apply (ns_old q _ Hx), ns_implicit_new. }
  destruct (ns_is_stmt _ _ H1) as [[-> ->]|H1'], (ns_is_stmt _ _ H2) as [[-> ->]|H2']; [done| | |by apply (wf_owner _ W s1 s2 o1 o2 q)].
  - by destruct (Hmixed _ _ H2' Hq2).
  - by destruct (Hmixed _ _ H1' Hq1).
Qed.

Lemma ns_wf_desc q x : h' !! q = Some (ODesc x) -> (exists e, h' !! de_dbc x = Some (ODbc e))
  /\ forall t, de_stmt x = Some t -> exists u, h' !! t = Some (OStmt u) /\ so_ird u = q.
Proof.
  intros Hx. destruct (ns_is_desc q x Hx) as [[Hi E]|Hq].
  - injection E as ->. cbn. split; [exists d'; exact ns_dbc|]. intros t Et. case_decide as Eir; [|done]. injection Et as <-. subst q. exists o.
    split; [apply ns_self|done].
  - destruct (wf_desc _ W _ _ Hq) as [(e & He) Hsd]. split.
    + destruct (decide (de_dbc x = dbc)) as [->|Hne]; [exists d'; exact ns_dbc|]. exists e. by apply ns_forth.
    + intros t Et. destruct (Hsd t Et) as (u & Hu & Ei). exists u. split; [|done]. apply ns_forth; [done|congruence].
Qed.
End NewStmt.

Lemma alloc_stmt `{Allocator} h dbc d : wf h -> h !! dbc = Some (ODbc d) -> wf (new_stmt dbc d h).2.
Proof.
  intros W Hd. destruct (new_stmt dbc d h) as [s h'] eqn:E. cbn [snd].
  destruct (new_stmt_spec h dbc d s h' Hd E) as (a & i & r & ir & HF & Hn & Hl). split.
  - by apply (ns_wf_null h h' dbc s a i r ir d (new_OdbcHandleStmt 0 (do_rest d))).
  - by apply (ns_wf_dbc h h' dbc s a i r ir d (new_OdbcHandleStmt 0 (do_rest d))).
  - by apply (ns_wf_stmt h h' dbc s a i r ir d (new_OdbcHandleStmt 0 (do_rest d))).
  - by apply (ns_wf_owner h h' dbc s a i r ir d (new_OdbcHandleStmt 0 (do_rest d))).
  - by apply (ns_wf_desc h h' dbc s a i r ir d (new_OdbcHandleStmt 0 (do_rest d))).
Qed.
