(* ===== verification/HandleCalls.v ===== *)
(** * Calls on handles ([odbc_api/handle_api.cpp], [common/handle_functions.cpp])

    Sequences of calls on the heap of [Handles]: what a statement loads and stores,
    the calls a driver manager lets through ([legal]), the heaps they lead to
    ([reachable]), what they share through explicit descriptors, and what is freed. *)

From S2P Require Import Prelude OdbcConst Memory Diagnostic Descriptor Params Fetch Stmt Connect DescApi Attributes InfoApi Handles.

(** ** Loading and storing *)

(** What a descriptor reads through its pointers. *)
Definition desc_refs (h : heap) (x : DescObject) : option (bytes * option stmt_ref) :=
  d ← find_dbc h (de_dbc x);
  ref ← match de_stmt x with
        | None => Some None
        | Some s => o ← find_stmt h s; Some (Some (MkStmtRef (so_ird o) (so_ipd o) (bool_decide (is_Some (stmt (so_rest o))))))
        end;
  Some (dbc_dsn (do_rest d), ref).

Lemma load_desc_refs h p : load_desc h p =
  x ← find_desc h p; '(dsn, ref) ← desc_refs h x;
  Some ((de_rest x) <| desc_id := p |> <| desc_dsn := dsn |> <| desc_stmt := ref |>).
Proof.
  unfold load_desc, desc_refs. destruct (find_desc h p) as [x|]; [|done]. cbn [mbind option_bind].
  destruct (find_dbc h (de_dbc x)) as [d|]; [|done]. cbn [mbind option_bind].
  destruct (de_stmt x) as [s|]; [|done]. by destruct (find_stmt h s).
Qed.

Lemma lookup_store_desc d h q : store_desc d h !! q =
  if decide (q = desc_id d) then match h !! q with Some (ODesc x) => Some (ODesc (x <| de_rest := d |>)) | y => y end else h !! q.
Proof.
  unfold store_desc, find_desc. destruct (decide (q = desc_id d)) as [->|Hne].
  - destruct (h !! desc_id d) as [[| | |x]|] eqn:E; rewrite ?E; try done. apply lookup_insert_eq.
  - destruct (h !! desc_id d) as [[| | |x]|]; try done. by apply lookup_insert_ne.
Qed.

Lemma store_desc_others d h q : (forall x, h !! q <> Some (ODesc x)) -> store_desc d h !! q = h !! q.
Proof. intros Hq. rewrite lookup_store_desc. case_decide; [|done]. destruct (h !! q) as [[| | |x]|]; try done. by destruct (Hq x). Qed.

Lemma store_descs_others l h q : (forall x, h !! q <> Some (ODesc x)) -> store_descs l h !! q = h !! q.
Proof.
  intros Hq. induction l as [|d l IH]; cbn [store_descs foldr]; [done|]. fold (store_descs l h). rewrite store_desc_others; [done|].
  intros x. by rewrite IH.
Qed.

Lemma store_descs_outside l h q : q ∉ (desc_id <$> l) -> store_descs l h !! q = h !! q.
Proof.
  induction l as [|d l IH]; cbn [store_descs foldr fmap list_fmap]; [done|]. rewrite not_elem_of_cons. intros [Hne Hq].
  fold (store_descs l h). rewrite lookup_store_desc, decide_False by done. by apply IH.
Qed.

Lemma store_descs_inside l h d x : NoDup (desc_id <$> l) -> d ∈ l -> h !! desc_id d = Some (ODesc x) ->
  store_descs l h !! desc_id d = Some (ODesc (x <| de_rest := d |>)).
Proof.
  induction l as [|d' l IH]; cbn [store_descs foldr fmap list_fmap]; [by intros _ ?%not_elem_of_nil|].
  intros [Hd Hn]%list.NoDup_cons [->|Hin]%elem_of_cons Hx; fold (store_descs l h); rewrite lookup_store_desc.
  - rewrite decide_True by done. by rewrite store_descs_outside, Hx.
  - rewrite decide_False; [by apply IH|]. intros E. apply Hd. rewrite <- E. by apply list_elem_of_fmap_2.
Qed.

(** A statement as the heap has it, whatever its contents. *)
Record represents (h : heap) (s : nat) (o : StmtObject) (hs : OdbcHandleStmt) : Prop := {
  rep_apd : desc_id (apd (param_desc hs)) = so_apd o /\ desc_stmt (apd (param_desc hs)) = None;
  rep_ipd : desc_id (ipd (param_desc hs)) = so_ipd o /\ desc_stmt (ipd (param_desc hs)) = None;
  rep_ard : desc_id (ard (row_desc hs)) = so_ard o /\ desc_stmt (ard (row_desc hs)) = None;
  rep_ird : desc_id (ird (row_desc hs)) = so_ird o
    /\ desc_stmt (ird (row_desc hs)) = Some (MkStmtRef (so_ird o) (so_ipd o) (bool_decide (is_Some (stmt hs))));
  rep_cur_apd : match cur_explicit_apd (param_desc hs) with
    | Some d => desc_id d = so_cur_apd o /\ desc_stmt d = None | None => so_cur_apd o = so_apd o end;
  rep_cur_ard : match cur_explicit_ard (row_desc hs) with
    | Some d => desc_id d = so_cur_ard o /\ desc_stmt d = None | None => so_cur_ard o = so_ard o end;
  rep_explicit : (is_Some (cur_explicit_apd (param_desc hs)) <-> so_cur_apd o <> so_apd o)
    /\ (is_Some (cur_explicit_ard (row_desc hs)) <-> so_cur_ard o <> so_ard o);
  rep_dsn : forall d, h !! so_dbc o = Some (ODbc d) ->
    stmt_dsn hs = dbc_dsn (do_rest d) /\ Forall (fun x => desc_dsn x = dbc_dsn (do_rest d)) (descriptors_of hs)
}.

Lemma explicit_no_stmt h q x : wf h -> explicit h q -> h !! q = Some (ODesc x) -> de_stmt x = None.
Proof.
  intros W Hx Hq. destruct (de_stmt x) as [s|] eqn:E; [|done]. destruct (wf_desc _ W _ _ Hq) as [_ Hs].
  destruct (Hs s E) as (o & Ho & <-). destruct (Hx s o Ho). unfold implicit. rewrite !elem_of_cons. tauto.
Qed.

(** A descriptor of a statement, loaded. *)
Lemma load_desc_plain h q x d : h !! q = Some (ODesc x) -> h !! de_dbc x = Some (ODbc d) -> de_stmt x = None ->
  load_desc h q = Some ((de_rest x) <| desc_id := q |> <| desc_dsn := dbc_dsn (do_rest d) |> <| desc_stmt := None |>).
Proof.
  intros Hq Hd Es. unfold load_desc. rewrite (proj2 (find_desc_Some _ _ _) Hq). cbn [mbind option_bind].
  rewrite (proj2 (find_dbc_Some _ _ _) Hd). cbn [mbind option_bind]. by rewrite Es.
Qed.

Lemma load_current_wf h s o d own cur : wf h -> h !! s = Some (OStmt o) -> h !! so_dbc o = Some (ODbc d) -> current_ok h o own cur ->
  exists c, load_current h own cur = Some c /\ (is_Some c <-> cur <> own)
    /\ match c with Some x => desc_id x = cur /\ desc_stmt x = None /\ desc_dsn x = dbc_dsn (do_rest d) /\ load_desc h cur = Some x | None => cur = own end.
Proof.
  intros W Ho Hd Hc. unfold load_current. case_bool_decide as E.
  - exists None. split; [done|]. split; [|done]. split; [by intros []|done].
  - destruct Hc as [?|[Hx (x & Hq & Eb)]]; [done|].
    rewrite (load_desc_plain h cur x d) by (done || by rewrite ?Eb || by apply (explicit_no_stmt h cur)).
    eexists. split; [done|]. split; [by split|]. done.
Qed.

Lemma load_owned h s o q : wf h -> h !! s = Some (OStmt o) -> q ∈ implicit o -> exists x d, h !! q = Some (ODesc x)
  /\ h !! so_dbc o = Some (ODbc d)
  /\ load_desc h q = Some ((de_rest x) <| desc_id := q |> <| desc_dsn := dbc_dsn (do_rest d) |>
       <| desc_stmt := if decide (q = so_ird o) then Some (MkStmtRef (so_ird o) (so_ipd o) (bool_decide (is_Some (stmt (so_rest o))))) else None |>).
Proof.
  intros W Ho Hq. destruct (wf_stmt _ W _ _ Ho) as [(d & Hd & _) _ H3 _ _ _]. destruct (H3 q Hq) as (x & Hx & Eb & Es).
  exists x, d. split; [done|]. split; [done|]. unfold load_desc. rewrite (proj2 (find_desc_Some _ _ _) Hx). cbn [mbind option_bind].
  rewrite Eb, (proj2 (find_dbc_Some _ _ _) Hd). cbn [mbind option_bind]. rewrite Es. case_decide; [|done].
  rewrite (proj2 (find_stmt_Some _ _ _) Ho). done.
Qed.

Lemma load_stmt_wf h s o : wf h -> h !! s = Some (OStmt o) -> exists hs, load_stmt h s = Some hs /\ represents h s o hs.
Proof.
  intros W Ho. assert (so_apd o ∈ implicit o /\ so_ipd o ∈ implicit o /\ so_ard o ∈ implicit o /\ so_ird o ∈ implicit o) as (I1 & I2 & I3 & I4).
  { unfold implicit. rewrite !elem_of_cons. tauto. }
  destruct (wf_stmt _ W _ _ Ho) as [(d & Hd & _) Hn _ Ha Hr _]. unfold load_stmt.
  rewrite (proj2 (find_stmt_Some _ _ _) Ho). cbn [mbind option_bind]. rewrite (proj2 (find_dbc_Some _ _ _) Hd). cbn [mbind option_bind].
  destruct (load_owned h s o _ W Ho I1) as (x1 & d1 & _ & E1 & ->). destruct (load_owned h s o _ W Ho I2) as (x2 & d2 & _ & E2 & ->).
  destruct (load_owned h s o _ W Ho I3) as (x3 & d3 & _ & E3 & ->). destruct (load_owned h s o _ W Ho I4) as (x4 & d4 & _ & E4 & ->).
  assert (d1 = d /\ d2 = d /\ d3 = d /\ d4 = d) as (-> & -> & -> & ->) by (repeat split; congruence). cbn [mbind option_bind].
  destruct (load_current_wf h s o d _ _ W Ho Hd Ha) as (ca & -> & Hca & Hca'). destruct (load_current_wf h s o d _ _ W Ho Hd Hr) as (cr & -> & Hcr & Hcr').
  cbn [mbind option_bind]. eexists. split; [done|].
  unfold implicit in Hn. rewrite !list.NoDup_cons, !elem_of_cons in Hn. destruct Hn as (N1 & N2 & N3 & _).
  rewrite (decide_False (P := so_apd o = so_ird o)), (decide_False (P := so_ipd o = so_ird o)), (decide_False (P := so_ard o = so_ird o)), decide_True by tauto.
  split; cbn; try done; try (split; done).
  - destruct ca as [y|]; [destruct Hca' as (Y1 & Y2 & _); split; [exact Y1|exact Y2]|exact Hca'].
  - destruct cr as [y|]; [destruct Hcr' as (Y1 & Y2 & _); split; [exact Y1|exact Y2]|exact Hcr'].
  - intros d' Hd'. assert (d' = d) as -> by congruence. split; [done|]. unfold descriptors_of. cbn.
    repeat apply List.Forall_cons; try done. apply List.Forall_app. split.
    + destruct ca as [y|]; constructor; [exact (proj1 (proj2 (proj2 Hca')))|constructor].
    + destruct cr as [y|]; constructor; [exact (proj1 (proj2 (proj2 Hcr')))|constructor].
Qed.

Lemma descriptors_nodup h s o hs : wf h -> h !! s = Some (OStmt o) -> represents h s o hs -> NoDup (desc_id <$> descriptors_of hs).
Proof.
  intros W Ho [[A1 _] [A2 _] [A3 _] [A4 _] A5 A6 [A7 A8] _]. destruct (wf_stmt _ W _ _ Ho) as [_ Hn _ Ha Hr Hne].
  unfold descriptors_of. rewrite fmap_app. cbn [fmap list_fmap]. rewrite A1, A2, A3, A4. apply list.NoDup_app.
  split; [exact Hn|]. rewrite fmap_app.
  assert (forall own cur, own ∈ implicit o -> current_ok h o own cur -> cur <> own -> cur ∉ implicit o) as Hex.
  { intros own cur Hi [?|[Hx _]] N; [done|by apply (Hx s o)]. }
  assert (forall q, q ∈ desc_id <$> option_list (cur_explicit_apd (param_desc hs)) -> q = so_cur_apd o /\ q ∉ implicit o) as Q1.
  { intros q Hq. destruct (cur_explicit_apd (param_desc hs)) as [c|]; [|by apply not_elem_of_nil in Hq].
    apply list_elem_of_singleton in Hq as ->. destruct A5 as [-> _]. split; [done|].
    apply (Hex (so_apd o)); [unfold implicit; rewrite !elem_of_cons; tauto|done|]. apply A7. by eexists. }
  assert (forall q, q ∈ desc_id <$> option_list (cur_explicit_ard (row_desc hs)) -> q = so_cur_ard o /\ q ∉ implicit o) as Q2.
  { intros q Hq. destruct (cur_explicit_ard (row_desc hs)) as [c|]; [|by apply not_elem_of_nil in Hq].
    apply list_elem_of_singleton in Hq as ->. destruct A6 as [-> _]. split; [done|].
    apply (Hex (so_ard o)); [unfold implicit; rewrite !elem_of_cons; tauto|done|]. apply A8. by eexists. }
  split.
  - intros q Hi [Hq|Hq]%elem_of_app; [by destruct (Q1 q Hq)|by destruct (Q2 q Hq)].
  - apply list.NoDup_app. split; [destruct (cur_explicit_apd _); cbn; [apply NoDup_singleton|constructor]|].
    split; [|destruct (cur_explicit_ard _); cbn; [apply NoDup_singleton|constructor]].
    intros q H1 H2. destruct (Q1 q H1), (Q2 q H2). congruence.
Qed.

(** *** Storing a statement *)
Lemma rep_currents h s o hs : represents h s o hs ->
  desc_id (cur_apd (param_desc hs)) = so_cur_apd o /\ desc_id (Descriptor.GetARD (row_desc hs)) = so_cur_ard o.
Proof.
  intros [[A1 _] _ [A3 _] _ A5 A6 _ _]. unfold cur_apd, Descriptor.GetARD. split.
  - destruct (cur_explicit_apd _) as [d|]; cbn [default option.default from_option]; [by destruct A5|]. by rewrite A5.
  - destruct (cur_explicit_ard _) as [d|]; cbn [default option.default from_option]; [by destruct A6|]. by rewrite A6.
Qed.

Section Store.
Context (h : heap) (s : nat) (o : StmtObject) (hs : OdbcHandleStmt) (W : wf h) (Ho : h !! s = Some (OStmt o)) (R : represents h s o hs).

Lemma store_stmt_eq : store_stmt s hs h = <[s := OStmt (o <| so_rest := hs |>)]> (store_descs (descriptors_of hs) h).
Proof.
  unfold store_stmt. rewrite (proj2 (find_stmt_Some _ _ _) Ho). destruct (rep_currents h s o hs R) as [-> ->]. by destruct o.
Qed.

Lemma stored_wf : wf (store_stmt s hs h).
Proof.
  apply (wf_same_shape h); [|done]. rewrite store_stmt_eq. symmetry.
  transitivity (<[s := OStmt (o <| so_rest := hs |>)]> h); [|by apply (same_shape_insert h s (OStmt o))].
  pose proof (store_descs_shape (descriptors_of hs) h) as E. unfold same_shape in *. by rewrite !fmap_insert, E.
Qed.

(** What is not a descriptor stays, but for the statement itself. *)
Lemma stored_others q : q <> s -> (forall x, h !! q <> Some (ODesc x)) -> store_stmt s hs h !! q = h !! q.
Proof. intros Hq Hx. rewrite store_stmt_eq, lookup_insert_ne by done. by apply store_descs_others. Qed.

Lemma stored_self : store_stmt s hs h !! s = Some (OStmt (o <| so_rest := hs |>)).
Proof. rewrite store_stmt_eq. apply lookup_insert_eq. Qed.

Lemma stored_desc d x : d ∈ descriptors_of hs -> h !! desc_id d = Some (ODesc x) ->
  store_stmt s hs h !! desc_id d = Some (ODesc (x <| de_rest := d |>)).
Proof.
  intros Hd Hx. rewrite store_stmt_eq, lookup_insert_ne by congruence.
  apply store_descs_inside; [by apply (descriptors_nodup h s o)|done|done].
Qed.

Lemma stored_unshared q x : q ∉ (desc_id <$> descriptors_of hs) -> h !! q = Some (ODesc x) -> store_stmt s hs h !! q = Some (ODesc x).
Proof. intros Hq Hx. rewrite store_stmt_eq, lookup_insert_ne by congruence. by rewrite store_descs_outside. Qed.

(** Every descriptor of the statement is in the heap, for its connection. *)
Lemma represented_desc d : d ∈ descriptors_of hs -> exists x b, h !! desc_id d = Some (ODesc x) /\ h !! so_dbc o = Some (ODbc b)
  /\ de_dbc x = so_dbc o /\ desc_dsn d = dbc_dsn (do_rest b)
  /\ ((de_stmt x = None /\ desc_stmt d = None)
      \/ (de_stmt x = Some s /\ desc_stmt d = Some (MkStmtRef (so_ird o) (so_ipd o) (bool_decide (is_Some (stmt hs)))))).
Proof.
  intros Hd. destruct (wf_stmt _ W _ _ Ho) as [(b & Hb & _) Hn H3 Ha Hr _].
  destruct R as [[A1 B1] [A2 B2] [A3 B3] [A4 B4] A5 A6 [A7 A8] Hdsn]. destruct (Hdsn b Hb) as [_ Hall].
  rewrite Forall_forall in Hall. specialize (Hall d (proj1 (list_elem_of_In _ _) Hd)).
  assert (forall q, q ∈ implicit o -> exists x, h !! q = Some (ODesc x) /\ de_dbc x = so_dbc o
    /\ de_stmt x = if decide (q = so_ird o) then Some s else None) as Hown.
  { intros q Hq. destruct (H3 q Hq) as (x & Hx & Eb & Es). by exists x. }
  unfold implicit in Hn. rewrite !list.NoDup_cons, !elem_of_cons in Hn. destruct Hn as (N1 & N2 & N3 & _).
  assert (forall own cur, current_ok h o own cur -> cur <> own -> exists x, h !! cur = Some (ODesc x) /\ de_dbc x = so_dbc o /\ de_stmt x = None) as Hex.
  { intros own cur [?|[Hx (x & Hc & Eb)]] Hne; [done|]. exists x. split; [done|]. split; [done|]. by apply (explicit_no_stmt h cur). }
  unfold descriptors_of in Hd. rewrite elem_of_app, !elem_of_cons in Hd.
  destruct Hd as [[->|[->|[->|[->|Hd]]]]|Hd]; [| | | |by apply not_elem_of_nil in Hd|].
  - rewrite A1. destruct (Hown (so_apd o)) as (x & Hx & Eb & Es); [unfold implicit; rewrite !elem_of_cons; tauto|].
    rewrite decide_False in Es by tauto. exists x, b. auto 10.
  - rewrite A2. destruct (Hown (so_ipd o)) as (x & Hx & Eb & Es); [unfold implicit; rewrite !elem_of_cons; tauto|].
    rewrite decide_False in Es by tauto. exists x, b. auto 10.
  - rewrite A3. destruct (Hown (so_ard o)) as (x & Hx & Eb & Es); [unfold implicit; rewrite !elem_of_cons; tauto|].
    rewrite decide_False in Es by tauto. exists x, b. auto 10.
  - rewrite A4. destruct (Hown (so_ird o)) as (x & Hx & Eb & Es); [unfold implicit; rewrite !elem_of_cons; tauto|].
    rewrite decide_True in Es by done. exists x, b. auto 10.
  - apply elem_of_app in Hd as [Hd|Hd].
    + destruct (cur_explicit_apd (param_desc hs)) as [c|]; [|by apply not_elem_of_nil in Hd]. apply list_elem_of_singleton in Hd as ->.
      destruct A5 as [A5 B5]. rewrite A5. destruct (Hex _ _ Ha) as (x & Hx & Eb & Es); [by apply A7; eexists|]. exists x, b. auto 10.
    + destruct (cur_explicit_ard (row_desc hs)) as [c|]; [|by apply not_elem_of_nil in Hd]. apply list_elem_of_singleton in Hd as ->.
      destruct A6 as [A6 B6]. rewrite A6. destruct (Hex _ _ Hr) as (x & Hx & Eb & Es); [by apply A8; eexists|]. exists x, b. auto 10.
Qed.

Lemma load_stored_desc d : d ∈ descriptors_of hs -> load_desc (store_stmt s hs h) (desc_id d) = Some d.
Proof.
  intros Hd. destruct (represented_desc d Hd) as (x & b & Hx & Hb & Eb & Edsn & Eref).
  rewrite load_desc_refs. rewrite (proj2 (find_desc_Some _ _ _) (stored_desc d x Hd Hx)). cbn [mbind option_bind].
  unfold desc_refs. change (de_dbc (x <| de_rest := d |>)) with (de_dbc x). change (de_stmt (x <| de_rest := d |>)) with (de_stmt x).
  assert (find_dbc (store_stmt s hs h) (de_dbc x) = Some b) as ->.
  { apply find_dbc_Some. rewrite Eb, stored_others by congruence. done. }
  cbn [mbind option_bind]. destruct Eref as [[-> Er]|[-> Er]].
  - cbn [mbind option_bind]. rewrite <- Edsn. destruct d as [? ? ? ? ? st]. cbn in Er. by rewrite Er.
  - rewrite (proj2 (find_stmt_Some _ _ _) stored_self). cbn [mbind option_bind]. rewrite <- Edsn.
    destruct d as [? ? ? ? ? st]. cbn in Er. rewrite Er. by destruct o.
Qed.

(** What is stored is loaded back. *)
Lemma load_store : load_stmt (store_stmt s hs h) s = Some hs.
Proof.
  assert (forall d, d ∈ descriptors_of hs -> load_desc (store_stmt s hs h) (desc_id d) = Some d) as Hload by apply load_stored_desc.
  destruct (rep_currents h s o hs R) as [C1 C2]. destruct (wf_stmt _ W _ _ Ho) as [(b & Hb & _) _ _ _ _ _].
  pose proof R as [[A1 _] [A2 _] [A3 _] [A4 _] A5 A6 [A7 A8] Hdsn]. destruct (Hdsn b Hb) as [Es _].
  assert (apd (param_desc hs) ∈ descriptors_of hs /\ ipd (param_desc hs) ∈ descriptors_of hs /\ ard (row_desc hs) ∈ descriptors_of hs
    /\ ird (row_desc hs) ∈ descriptors_of hs) as (I1 & I2 & I3 & I4).
  { unfold descriptors_of. cbn [app]. rewrite !elem_of_cons. tauto. }
  unfold load_stmt. rewrite (proj2 (find_stmt_Some _ _ _) stored_self). cbn [mbind option_bind].
  change (so_dbc (o <| so_rest := hs |>)) with (so_dbc o). change (so_apd (o <| so_rest := hs |>)) with (so_apd o).
  change (so_ipd (o <| so_rest := hs |>)) with (so_ipd o). change (so_ard (o <| so_rest := hs |>)) with (so_ard o).
  change (so_ird (o <| so_rest := hs |>)) with (so_ird o). change (so_cur_apd (o <| so_rest := hs |>)) with (so_cur_apd o).
  change (so_cur_ard (o <| so_rest := hs |>)) with (so_cur_ard o). change (so_rest (o <| so_rest := hs |>)) with hs.
  assert (find_dbc (store_stmt s hs h) (so_dbc o) = Some b) as ->.
  { apply find_dbc_Some. rewrite stored_others by congruence. done. }
  cbn [mbind option_bind]. rewrite <- A1, (Hload _ I1), <- A2, (Hload _ I2), <- A3, (Hload _ I3), <- A4, (Hload _ I4). cbn [mbind option_bind].
  assert (load_current (store_stmt s hs h) (desc_id (apd (param_desc hs))) (so_cur_apd o) = Some (cur_explicit_apd (param_desc hs))) as ->.
  { unfold load_current. rewrite A1. destruct (cur_explicit_apd (param_desc hs)) as [c|] eqn:Ec; [|by rewrite A5, bool_decide_eq_true_2].
    rewrite bool_decide_eq_false_2 by (apply A7; by eexists). destruct A5 as [<- _]. rewrite Hload; [done|].
    unfold descriptors_of. rewrite Ec. rewrite !elem_of_app. right; left. by apply list_elem_of_singleton. }
  assert (load_current (store_stmt s hs h) (desc_id (ard (row_desc hs))) (so_cur_ard o) = Some (cur_explicit_ard (row_desc hs))) as ->.
  { unfold load_current. rewrite A3. destruct (cur_explicit_ard (row_desc hs)) as [c|] eqn:Ec; [|by rewrite A6, bool_decide_eq_true_2].
    rewrite bool_decide_eq_false_2 by (apply A8; by eexists). destruct A6 as [<- _]. rewrite Hload; [done|].
    unfold descriptors_of. rewrite Ec. rewrite !elem_of_app. right; right. by apply list_elem_of_singleton. }
  cbn [mbind option_bind]. rewrite <- Es. f_equal. by destruct hs as [? ? ? ? ? ? ? ? ? ? [] []].
Qed.
End Store.

(** ** Sequences of calls *)

(** What is read through the pointers of the statement, and its own. *)
Definition object_of (d : OdbcHandleDesc) : nat * bytes * option stmt_ref := (desc_id d, desc_dsn d, desc_stmt d).

Definition pointers (hs : OdbcHandleStmt) :=
  let pd := param_desc hs in
  let rd := row_desc hs in
  (stmt_dsn hs, map object_of [apd pd; ipd pd; ard rd; ird rd],
   object_of <$> cur_explicit_apd pd, object_of <$> cur_explicit_ard rd).

Lemma refresh_pointers h s o hs hs' : represents h s o hs -> pointers hs' = pointers hs -> represents h s o (refresh hs').
Proof.
  intros [[A1 B1] [A2 B2] [A3 B3] [A4 B4] A5 A6 A7 A8] E. unfold pointers, object_of in E. cbn [map] in E.
  injection E as Es E1 E2 E3 E4 E5 E6 E7 E8 E9 E10 E11 E12 Ea Er.
  change (object_of <$> cur_explicit_apd (param_desc hs') = object_of <$> cur_explicit_apd (param_desc hs)) in Ea.
  change (object_of <$> cur_explicit_ard (row_desc hs') = object_of <$> cur_explicit_ard (row_desc hs)) in Er.
  assert (exists x, desc_stmt (ird (row_desc hs')) = Some (MkStmtRef (so_ird o) (so_ipd o) x)) as [x Hx].
  { rewrite E12, B4. by eexists. }
  assert (Hr1 : param_desc (refresh hs') = param_desc hs') by done. assert (Hr2 : stmt_dsn (refresh hs') = stmt_dsn hs') by done.
  assert (Hr3 : ard (row_desc (refresh hs')) = ard (row_desc hs')) by done.
  assert (Hr4 : cur_explicit_ard (row_desc (refresh hs')) = cur_explicit_ard (row_desc hs')) by done.
  assert (Hr5 : desc_id (ird (row_desc (refresh hs'))) = desc_id (ird (row_desc hs'))) by done.
  assert (Hr6 : desc_dsn (ird (row_desc (refresh hs'))) = desc_dsn (ird (row_desc hs'))) by done.
  assert (Hr7 : desc_stmt (ird (row_desc (refresh hs')))
      = (fun r => r <| is_prepared := bool_decide (is_Some (stmt hs')) |>) <$> desc_stmt (ird (row_desc hs'))) by done.
  rewrite Hx in Hr7. assert (Hr8 : stmt (refresh hs') = stmt hs') by done. generalize dependent (refresh hs'). intros r Hr1 Hr2 Hr3 Hr4 Hr5 Hr6 Hr7 Hr8.
  split; rewrite ?Hr1, ?Hr3, ?Hr4, ?Hr8; try (split; congruence).
  - split; [congruence|]. exact Hr7.
  - destruct (cur_explicit_apd (param_desc hs')) as [y|], (cur_explicit_apd (param_desc hs)) as [z|]; try done.
    cbn in Ea. injection Ea as Ei _ Et. rewrite Ei, Et. done.
  - destruct (cur_explicit_ard (row_desc hs')) as [y|], (cur_explicit_ard (row_desc hs)) as [z|]; try done.
    cbn in Er. injection Er as Ei _ Et. rewrite Ei, Et. done.
  - destruct A7 as [A7 A7']. rewrite <- A7, <- A7'. rewrite <- !(fmap_is_Some object_of), Ea, Er. done.
  - intros d Hd. destruct (A8 d Hd) as [Hs Hall]. split; [congruence|]. unfold descriptors_of in *. cbn [app] in *. rewrite Hr1, Hr3, Hr4.
    rewrite !Forall_cons_iff in *. destruct Hall as (H1 & H2 & H3 & H4 & Hall). repeat (split; [congruence|]).
    apply List.Forall_app in Hall as [Hall1 Hall2]. apply List.Forall_app. split.
    + destruct (cur_explicit_apd (param_desc hs')) as [y|], (cur_explicit_apd (param_desc hs)) as [z|]; try done.
      cbn [option_list] in *. injection Ea as _ Ey _. apply List.Forall_inv in Hall1. apply List.Forall_cons; [|apply List.Forall_nil]. rewrite <- Hall1. exact Ey.
    + destruct (cur_explicit_ard (row_desc hs')) as [y|], (cur_explicit_ard (row_desc hs)) as [z|]; try done.
      cbn [option_list] in *. injection Er as _ Ey _. apply List.Forall_inv in Hall2. apply List.Forall_cons; [|apply List.Forall_nil]. rewrite <- Hall2. exact Ey.
Qed.

Inductive call :=
| AllocCall (handle_type : Z) (input_handle : nat)
| FreeCall (handle_type : Z) (handle : nat)
| SetDescriptorCall (attribute : Z) (s value : nat)
| StmtCall (f : bool -> OdbcHandleStmt -> option (Z * OdbcHandleStmt)) (s : nat)
| DescCall (f : OdbcHandleDesc -> option (Z * OdbcHandleDesc)) (p : nat)
| DbcCall (f : OdbcHandleDbc -> option (Z * OdbcHandleDbc)) (p : nat).

Definition perform `{Allocator} (c : call) (h : heap) : option (Z * heap) :=
  match c with
  | AllocCall t i => '(ret, _, h) ← SQLAllocHandle t i h; Some (ret, h)
  | FreeCall t p => FreeHandle t p h
  | SetDescriptorCall a s v => set_descriptor a s v h
  | StmtCall f s => call_stmt f s h
  | DescCall f p => call_desc f p h
  | DbcCall f p => call_dbc f p h
  end.

Definition live (h : heap) (p : nat) : Prop := p <> 0%nat -> is_Some (h !! p).

(** What the driver leaves to the application and the driver manager. *)
Definition legal (h : heap) (c : call) : Prop :=
  match c with
  | AllocCall t i =>
      (t = SQL_HANDLE_DBC -> exists v, h !! i = Some (OEnv v))
      /\ (t = SQL_HANDLE_DESC \/ t = SQL_HANDLE_STMT -> exists d, h !! i = Some (ODbc d))
  | FreeCall t p => p <> 0%nat ->
      (t = SQL_HANDLE_ENV -> (exists v, h !! p = Some (OEnv v)) /\ forall q d, h !! q = Some (ODbc d) -> do_env d <> p)
      /\ (t = SQL_HANDLE_DBC -> (exists d, h !! p = Some (ODbc d))
            /\ forall q x, h !! q = Some (ODesc x) -> de_dbc x = p -> ~ explicit h q)
      /\ (t = SQL_HANDLE_DESC -> (exists x, h !! p = Some (ODesc x)) /\ explicit h p)
      /\ (t = SQL_HANDLE_STMT -> exists o, h !! p = Some (OStmt o))
  | SetDescriptorCall a s v => live h s /\ forall o, h !! s = Some (OStmt o) ->
      (a = SQL_ATTR_APP_ROW_DESC /\ current_ok h o (so_ard o) v /\ v <> so_cur_apd o)
      \/ (a = SQL_ATTR_APP_PARAM_DESC /\ current_ok h o (so_apd o) v /\ v <> so_cur_ard o)
  | StmtCall f s => live h s /\ forall o d hs, h !! s = Some (OStmt o) -> h !! so_dbc o = Some (ODbc d) -> load_stmt h s = Some hs ->
      exists ret hs', f (conn (do_rest d)) hs = Some (ret, hs') /\ pointers hs' = pointers hs
  | DescCall f p => live h p /\ forall d, load_desc h p = Some d ->
      exists ret d', f d = Some (ret, d') /\ object_of d' = object_of d
  | DbcCall f p => live h p /\ forall d, load_dbc h p = Some d ->
      exists ret d', f d = Some (ret, d') /\ option_map (prod_map id pointers) (list.last (vec_stmt_ref d'))
                                             = option_map (prod_map id pointers) (list.last (vec_stmt_ref d))
  end.

Lemma load_desc_wf h p x : wf h -> h !! p = Some (ODesc x) -> exists d, load_desc h p = Some d /\ desc_id d = p.
Proof.
  intros W Hp. destruct (wf_desc _ W _ _ Hp) as [(d & Hd) Hs]. unfold load_desc.
  rewrite (proj2 (find_desc_Some _ _ _) Hp). cbn [mbind option_bind]. rewrite (proj2 (find_dbc_Some _ _ _) Hd). cbn [mbind option_bind].
  destruct (de_stmt x) as [s|]; [|by eexists]. destruct (Hs s eq_refl) as (o & Ho & _).
  rewrite (proj2 (find_stmt_Some _ _ _) Ho). by eexists.
Qed.

Lemma current_ok_desc h s o own v : wf h -> h !! s = Some (OStmt o) -> own ∈ implicit o -> current_ok h o own v -> exists x, h !! v = Some (ODesc x).
Proof.
  intros W Ho Hi [->|[_ (x & Hx & _)]]; [|by exists x]. destruct (stmt_owns _ _ _ (wf_stmt _ W _ _ Ho) _ Hi) as (x & Hx & _). by exists x.
Qed.

Lemma own_descs o : so_apd o ∈ implicit o /\ so_ipd o ∈ implicit o /\ so_ard o ∈ implicit o /\ so_ird o ∈ implicit o.
Proof. unfold implicit. rewrite !elem_of_cons. tauto. Qed.

Lemma load_dbc_wf h p d : wf h -> h !! p = Some (ODbc d) -> exists l, load_dbc h p = Some ((do_rest d) <| vec_stmt_ref := l |>)
  /\ Forall (fun y => load_stmt h y.1 = Some y.2) l /\ l.*1 = do_stmts d.
Proof.
  intros W Hp. unfold load_dbc. rewrite (proj2 (find_dbc_Some _ _ _) Hp). cbn [mbind option_bind].
  destruct (wf_dbc _ W _ _ Hp) as (_ & _ & Hall). revert Hall. induction (do_stmts d) as [|s l IH]; intros Hall.
  - exists []. by split.
  - destruct IH as (l' & E & HF & Hl); [intros t Ht; apply Hall; apply elem_of_cons; by right|].
    destruct (Hall s) as (o & Ho & _); [apply elem_of_cons; by left|]. destruct (load_stmt_wf h s o W Ho) as (hs & Hs & _).
    exists ((s, hs) :: l'). cbn [mapM]. rewrite Hs. cbn [mbind option_bind mret option_ret].
    destruct (mapM _ l) as [l0|]; [|done]. cbn [mbind option_bind] in *. injection E as E. assert (l0 = l') as -> by congruence.
    split; [done|]. split; [by constructor|]. by rewrite fmap_cons, Hl.
Qed.

(** *** Every call on a handle keeps the heap well-formed *)
Section Calls.
Context (h : heap) (W : wf h).

Lemma wf_same_currents h' s o hs : wf h' -> h' !! s = Some (OStmt o) ->
  desc_id (cur_apd (param_desc hs)) = so_cur_apd o -> desc_id (Descriptor.GetARD (row_desc hs)) = so_cur_ard o -> wf (store_stmt s hs h').
Proof.
  intros W' Ho E1 E2. destruct (wf_stmt _ W' _ _ Ho) as [_ _ _ Ha Hr Hne].
  rewrite (store_stmt_shape s hs h' o) by by apply find_stmt_Some. rewrite E1, E2. by apply wf_set_current.
Qed.

Lemma stmt_call_ok f s : legal h (StmtCall f s) -> exists ret h', call_stmt f s h = Some (ret, h') /\ wf h'.
Proof.
  intros [Hl Hf]. unfold call_stmt. case_bool_decide as Hs0; [by do 2 eexists|]. destruct (Hl Hs0) as [y Hy]. rewrite Hy.
  destruct y as [| |o|]; try (by do 2 eexists). destruct (wf_stmt _ W _ _ Hy) as [(d & Hd & _) _ _ _ _ _].
  rewrite (proj2 (find_dbc_Some _ _ _) Hd). cbn [mbind option_bind]. destruct (load_stmt_wf h s o W Hy) as (hs & Hhs & R).
  rewrite Hhs. cbn [mbind option_bind]. destruct (Hf o d hs Hy Hd Hhs) as (ret & hs' & -> & Hp). cbn [mbind option_bind].
  do 2 eexists. split; [done|]. by apply (stored_wf h s o), (refresh_pointers h s o hs).
Qed.

Lemma desc_call_ok f p : legal h (DescCall f p) -> exists ret h', call_desc f p h = Some (ret, h') /\ wf h'.
Proof.
  intros [Hl Hf]. unfold call_desc. case_bool_decide as Hp0; [by do 2 eexists|]. destruct (Hl Hp0) as [y Hy]. rewrite Hy.
  destruct y as [| | |x]; try (by do 2 eexists). destruct (load_desc_wf h p x W Hy) as (d & Hd & _). rewrite Hd. cbn [mbind option_bind].
  destruct (Hf d Hd) as (ret & d' & -> & _). cbn [mbind option_bind]. do 2 eexists. split; [done|]. by rewrite store_desc_shape.
Qed.

Lemma dbc_call_ok f p : legal h (DbcCall f p) -> exists ret h', call_dbc f p h = Some (ret, h') /\ wf h'.
Proof.
  intros [Hl Hf]. unfold call_dbc. case_bool_decide as Hp0; [by do 2 eexists|]. destruct (Hl Hp0) as [y Hy]. rewrite Hy.
  destruct y as [|x| |]; try (by do 2 eexists). destruct (load_dbc_wf h p x W Hy) as (l & Hd & HF & Hl'). rewrite Hd. cbn [mbind option_bind].
  destruct (Hf _ Hd) as (ret & d' & -> & Hlast). cbn [mbind option_bind]. do 2 eexists. split; [done|].
  unfold store_dbc. rewrite (proj2 (find_dbc_Some _ _ _) Hy). set (h1 := <[p := _]> h).
  assert (W1 : wf h1) by (apply (wf_same_shape h); [symmetry; by apply (same_shape_insert h p (ODbc x))|done]).
  destruct (list.last (vec_stmt_ref d')) as [[s hs']|] eqn:E'; [|done].
  change (vec_stmt_ref ((do_rest x) <| vec_stmt_ref := l |>)) with l in Hlast.
  destruct (list.last l) as [[s0 hs]|] eqn:E; [|done]. cbn [option_map prod_map] in Hlast.
  assert (s = s0) as -> by exact (f_equal (fun z => default s0 (fst <$> z)) Hlast).
  assert (Hpt : pointers hs' = pointers hs) by exact (f_equal (fun z => default (pointers hs) (snd <$> z)) Hlast).
  apply last_Some_elem_of in E. rewrite Forall_forall in HF. specialize (HF _ (proj1 (list_elem_of_In _ _) E)). cbn in HF.
  apply (list_elem_of_fmap_2 fst) in E. cbn in E. rewrite Hl' in E. destruct (wf_dbc _ W _ _ Hy) as (_ & _ & Hall).
  destruct (Hall s0 E) as (o & Ho & _). destruct (load_stmt_wf h s0 o W Ho) as (hs0 & Hhs0 & R). assert (hs0 = hs) as -> by congruence.
  assert (R' : represents h s0 o (refresh hs')).
  { by apply (refresh_pointers h s0 o hs). }
  destruct (rep_currents h s0 o _ R') as [C1 C2]. apply (wf_same_currents h1 s0 o); try done.
  subst h1. rewrite lookup_insert_ne; [done|]. congruence.
Qed.

Lemma set_descriptor_ok a s v : legal h (SetDescriptorCall a s v) -> exists ret h', set_descriptor a s v h = Some (ret, h') /\ wf h'.
Proof.
  intros [Hl Hf]. unfold set_descriptor, call_stmt. case_bool_decide as Hs0; [by do 2 eexists|]. destruct (Hl Hs0) as [y Hy]. rewrite Hy.
  destruct y as [| |o|]; try (by do 2 eexists). destruct (wf_stmt _ W _ _ Hy) as [(d & Hd & _) _ _ Ha Hr Hne].
  rewrite (proj2 (find_dbc_Some _ _ _) Hd). cbn [mbind option_bind]. destruct (load_stmt_wf h s o W Hy) as (hs & Hhs & R).
  rewrite Hhs. cbn [mbind option_bind]. unfold SQLSetStmtAttr, SetStmtAttrInternal, ConvertHSTMT. destruct (own_descs o) as (I1 & _ & I3 & _).
  destruct (conn (do_rest d)); cbn [negb].
  2: { unfold Stmt_error_no_server. destruct (SetDiagnosticRecord _ _ _ _ _ _) as [ret diag] eqn:Ed. 
       assert (ret = SQL_ERROR) as -> by (unfold SetDiagnosticRecord in Ed; congruence). cbn [Z.eqb negb mbind option_bind].
       do 2 eexists. split; [done|]. by apply (stored_wf h s o), (refresh_pointers h s o hs). }
  rewrite Z.eqb_refl. cbn [negb]. rewrite Nat2Z.id. destruct (rep_currents h s o hs R) as [C1 C2]. destruct (Hf o Hy) as [(-> & Hv & Hvne)|(-> & Hv & Hvne)].
  - rewrite Z.eqb_refl. destruct (current_ok_desc h s o _ v W Hy I3 Hv) as (x & Hx). destruct (load_desc_wf h v x W Hx) as (dv & -> & Eid).
    cbn [mbind option_bind]. do 2 eexists. split; [done|]. rewrite (store_stmt_shape _ _ h o) by by apply find_stmt_Some.
    match goal with |- wf (<[s := OStmt (o <| so_cur_apd := ?a |> <| so_cur_ard := ?b |>)]> h) =>
      assert (a = so_cur_apd o) as -> by exact C1; assert (b = v) as ->; [|by apply wf_set_current] end.
    unfold SetARD, SetCurrentARD, refresh. cbn. case_bool_decide as E; cbn; [|done]. exact (eq_trans (eq_sym E) Eid).
  - cbn [Z.eqb Pos.eqb]. destruct (current_ok_desc h s o _ v W Hy I1 Hv) as (x & Hx). destruct (load_desc_wf h v x W Hx) as (dv & -> & Eid).
    cbn [mbind option_bind]. do 2 eexists. split; [done|]. rewrite (store_stmt_shape _ _ h o) by by apply find_stmt_Some.
    match goal with |- wf (<[s := OStmt (o <| so_cur_apd := ?a |> <| so_cur_ard := ?b |>)]> h) =>
      assert (b = so_cur_ard o) as -> by exact C2; assert (a = v) as ->; [|apply wf_set_current; congruence] end.
    unfold SetAPD, SetCurrentAPD, refresh. cbn. case_bool_decide as E; cbn; [|done]. exact (eq_trans (eq_sym E) Eid).
Qed.
End Calls.

Section Safety.
Context `{Allocator}.

Lemma alloc_call_ok h t i : wf h -> legal h (AllocCall t i) -> exists ret h', perform (AllocCall t i) h = Some (ret, h') /\ wf h'.
Proof.
  intros W [Hdbc Hstmt]. unfold perform, SQLAllocHandle, allocate.
  assert (Hnew : forall y, may_be_added h y -> wf (<[new_address h := y]> h)).
  { intros y Hy. apply wf_new; [done|apply new_address_free|apply new_address_not_null|done]. }
  destruct (Z.eqb_spec t SQL_HANDLE_DBC) as [E|_]; [by do 2 eexists; split; [done|]; apply Hnew; split; [done|]; apply Hdbc|].
  destruct (Z.eqb_spec t SQL_HANDLE_DESC) as [E|_]; [by do 2 eexists; split; [done|]; apply Hnew; split; [done|]; apply Hstmt; left|].
  destruct (Z.eqb_spec t SQL_HANDLE_ENV) as [E|_]; [by do 2 eexists; split; [done|]; apply Hnew|].
  destruct (Z.eqb_spec t SQL_HANDLE_STMT) as [E|_]; [|by do 2 eexists].
  destruct (Hstmt (or_intror E)) as (d & Hd). rewrite (proj2 (find_dbc_Some _ _ _) Hd). cbn [mbind option_bind].
  pose proof (alloc_stmt h i d W Hd) as W'. destruct (new_stmt i d h) as [s h']. by do 2 eexists.
Qed.

Lemma free_call_ok h t p : wf h -> legal h (FreeCall t p) -> exists ret h', FreeHandle t p h = Some (ret, h') /\ wf h'.
Proof.
  intros W Hl. destruct (decide (p = 0%nat)) as [->|Hp]; [by do 2 eexists|]. destruct (Hl Hp) as (Henv & Hdbc & Hdesc & Hstmt).
  destruct (decide (t = SQL_HANDLE_DBC)) as [->|N1].
  { destruct Hdbc as [(d & Hd) Hx]; [done|]. destruct (free_dbc h p d W Hd Hx) as (h' & -> & W' & _). by do 2 eexists. }
  destruct (decide (t = SQL_HANDLE_DESC)) as [->|N2].
  { destruct Hdesc as [(x & Hx) Hex]; [done|]. destruct (free_desc h p x W Hx Hex) as (h' & -> & W' & _). by do 2 eexists. }
  destruct (decide (t = SQL_HANDLE_ENV)) as [->|N3].
  { destruct Henv as [(v & Hv) Hx]; [done|]. destruct (free_env h p v W Hv Hx) as [-> W']. by do 2 eexists. }
  destruct (decide (t = SQL_HANDLE_STMT)) as [->|N4].
  { destruct Hstmt as (o & Ho); [done|]. destruct (free_stmt h p o W Ho) as (h' & -> & W' & _). by do 2 eexists. }
  unfold FreeHandle. rewrite bool_decide_eq_false_2 by done. rewrite !(proj2 (Z.eqb_neq _ _)) by done. by do 2 eexists.
Qed.

Lemma legal_call_ok h c : wf h -> legal h c -> exists ret h', perform c h = Some (ret, h') /\ wf h'.
Proof.
  intros W Hc. destruct c as [t i|t p|a s v|f s|f p|f p].
  - by apply alloc_call_ok.
  - by apply free_call_ok.
  - by apply set_descriptor_ok.
  - by apply stmt_call_ok.
  - by apply desc_call_ok.
  - by apply dbc_call_ok.
Qed.

(** The heaps that sequences of such calls lead to. *)
Inductive reachable : heap -> Prop :=
| reachable_empty : reachable ∅
| reachable_step h c ret h' : reachable h -> legal h c -> perform c h = Some (ret, h') -> reachable h'.

Lemma wf_empty : wf ∅.
Proof. split; intros *; rewrite ?lookup_empty; done. Qed.

Lemma reachable_wf h : reachable h -> wf h.
Proof.
  induction 1 as [|h c ret h' _ IH Hl E]; [apply wf_empty|]. destruct (legal_call_ok h c IH Hl) as (ret' & h'' & E' & W). congruence.
Qed.
End Safety.

(** *** What freeing a descriptor does to the statements *)
Section FreeDesc.
Context (h h' : heap) (p : nat) (x : DescObject) (W : wf h) (Hp : h !! p = Some (ODesc x)) (Hex : explicit h p)
  (Hh' : forall q, h' !! q = if decide (q = p) then None else reset_object p <$> h !! q).

Lemma reset_find_dbc q : find_dbc h' q = find_dbc h q.
Proof. unfold find_dbc. rewrite Hh'. destruct (decide (q = p)) as [->|]; [by rewrite Hp|]. by destruct (h !! q) as [[]|]. Qed.

Lemma reset_find_stmt q : find_stmt h' q = reset_current p <$> find_stmt h q.
Proof. unfold find_stmt. rewrite Hh'. destruct (decide (q = p)) as [->|]; [by rewrite Hp|]. by destruct (h !! q) as [[]|]. Qed.

Lemma reset_load_desc q : q <> p -> load_desc h' q = load_desc h q.
Proof.
  intros Hq. unfold load_desc.
  assert (find_desc h' q = find_desc h q) as -> by (unfold find_desc; rewrite Hh', decide_False by done; by destruct (h !! q) as [[]|]).
  destruct (find_desc h q) as [y|]; [|done]. cbn [mbind option_bind]. rewrite reset_find_dbc.
  destruct (find_dbc h (de_dbc y)); [|done]. cbn [mbind option_bind]. destruct (de_stmt y) as [s|]; [|done].
  rewrite reset_find_stmt. destruct (find_stmt h s) as [o|]; [|done]. cbn [fmap option_fmap option_map mbind option_bind].
  by rewrite reset_current_eq.
Qed.

(** [ResetStmtDescriptors] on one statement. *)
Definition reset_stmt (hs : OdbcHandleStmt) : OdbcHandleStmt :=
  let hs := if bool_decide (desc_id (cur_apd (param_desc hs)) = p) then hs <| param_desc ::= ResetCurrentAPD |> else hs in
  if bool_decide (desc_id (Descriptor.GetARD (row_desc hs)) = p) then hs <| row_desc ::= ResetCurrentARD |> else hs.

Lemma reset_load_current own cur c : own <> p -> load_current h own cur = Some c ->
  load_current h' own (if decide (cur = p) then own else cur) = Some (if decide (cur = p) then None else c).
Proof.
  intros Ho Hc. unfold load_current in *. destruct (decide (cur = p)) as [E|E]; [by rewrite bool_decide_eq_true_2|].
  case_bool_decide; [done|]. by rewrite reset_load_desc.
Qed.

Lemma reset_load_stmt s o : h !! s = Some (OStmt o) -> load_stmt h' s = reset_stmt <$> load_stmt h s.
Proof.
  intros Ho. destruct (load_stmt_wf h s o W Ho) as (hs & Hhs & R). destruct (rep_currents h s o hs R) as [C1 C2].
  assert (so_apd o <> p /\ so_ipd o <> p /\ so_ard o <> p /\ so_ird o <> p) as (N1 & N2 & N3 & N4).
  { pose proof (Hex s o Ho) as N. unfold implicit in N. rewrite !elem_of_cons in N. repeat split; intros <-; tauto. }
  rewrite Hhs. cbn [fmap option_fmap option_map]. unfold reset_stmt. rewrite C1.
  assert (forall b : bool, desc_id (Descriptor.GetARD (row_desc (if b then hs <| param_desc ::= ResetCurrentAPD |> else hs))) = so_cur_ard o) as C2'
    by by intros [].
  rewrite C2'. clear C2'.
  unfold load_stmt in *. rewrite reset_find_stmt. rewrite (proj2 (find_stmt_Some _ _ _) Ho) in *. cbn [fmap option_fmap option_map mbind option_bind] in *.
  rewrite reset_current_eq. clear Ho R C1 C2. destruct o as [b qa qi qr qir qca qcr rest]. cbn in N1, N2, N3, N4, Hhs |- *. rewrite reset_find_dbc.
  destruct (find_dbc h b) as [d|]; [|done]. cbn [mbind option_bind] in *. rewrite !reset_load_desc by done.
  destruct (load_desc h qa) as [a|]; [|done]. destruct (load_desc h qi) as [i|]; [|done].
  destruct (load_desc h qr) as [r|]; [|done]. destruct (load_desc h qir) as [ir|]; [|done]. cbn [mbind option_bind] in *.
  destruct (load_current h qa qca) as [ca|] eqn:Ea; [|done]. destruct (load_current h qr qcr) as [cr|] eqn:Er; [|done].
  cbn [mbind option_bind] in *. rewrite (reset_load_current _ _ _ N1 Ea), (reset_load_current _ _ _ N3 Er). cbn [mbind option_bind].
  injection Hhs as <-. f_equal. rewrite !bool_decide_decide.
  destruct (decide (qca = p)), (decide (qcr = p)); done.
Qed.

Lemma reset_load_dbc c d : h !! c = Some (ODbc d) -> load_dbc h' c = ResetStmtDescriptors p <$> load_dbc h c.
Proof.
  intros Hc. destruct (wf_dbc _ W _ _ Hc) as (_ & _ & Hall). unfold load_dbc. rewrite reset_find_dbc, (proj2 (find_dbc_Some _ _ _) Hc). cbn [mbind option_bind].
  assert (mapM (fun s => hs ← load_stmt h' s; Some (s, hs)) (do_stmts d)
    = fmap (M := list) (fun y => (y.1, reset_stmt y.2)) <$> mapM (fun s => hs ← load_stmt h s; Some (s, hs)) (do_stmts d)) as ->.
  { revert Hall. induction (do_stmts d) as [|s l IH]; intros Hall; [done|]. cbn [mapM].
    destruct (Hall s) as (o & Ho & _); [apply elem_of_cons; by left|]. rewrite (reset_load_stmt s o Ho).
    rewrite IH by (intros t Ht; apply Hall; apply elem_of_cons; by right).
    destruct (load_stmt h s) as [hs|]; [|done]. cbn [fmap option_fmap option_map mbind option_bind mret option_ret].
    clear IH. by destruct (mapM _ l) as [l0|]. }
  by destruct (mapM _ (do_stmts d)) as [l|].
Qed.
End FreeDesc.

(** *** What a call on a statement does to the others *)

(** The descriptor of the list with the same address, if there is one. *)
Definition rewritten (l : list OdbcHandleDesc) (d : OdbcHandleDesc) : OdbcHandleDesc :=
  default d (List.find (fun x => Nat.eqb (desc_id x) (desc_id d)) l).

Lemma rewritten_outside l d : desc_id d ∉ (desc_id <$> l) -> rewritten l d = d.
Proof.
  unfold rewritten. induction l as [|x l IH]; intros Hd; [done|]. rewrite fmap_cons, not_elem_of_cons in Hd. cbn [List.find].
  destruct (Nat.eqb_spec (desc_id x) (desc_id d)) as [E|]; [destruct Hd; congruence|]. apply IH, Hd.
Qed.

Lemma rewritten_inside l d : desc_id d ∈ (desc_id <$> l) -> rewritten l d ∈ l /\ desc_id (rewritten l d) = desc_id d.
Proof.
  unfold rewritten. induction l as [|x l IH]; intros Hd; [by apply not_elem_of_nil in Hd|]. rewrite fmap_cons, elem_of_cons in Hd. cbn [List.find].
  destruct (Nat.eqb_spec (desc_id x) (desc_id d)) as [E|N]; [by split; [apply elem_of_cons; left|]|].
  destruct Hd as [E|Hd]; [by symmetry in E|]. destruct (IH Hd) as [H1 H2]. split; [|done]. apply elem_of_cons. by right.
Qed.

Section Shared.
Context (h : heap) (s : nat) (o : StmtObject) (hs : OdbcHandleStmt) (W : wf h) (Ho : h !! s = Some (OStmt o)) (R : represents h s o hs).
Let h' := store_stmt s hs h.
Let l := descriptors_of hs.

Lemma descriptors_split q : q ∈ (desc_id <$> l) -> q ∈ implicit o \/ explicit h q.
Proof.
  destruct R as [[A1 _] [A2 _] [A3 _] [A4 _] A5 A6 [A7 A8] _]. destruct (wf_stmt _ W _ _ Ho) as [_ _ _ Ha Hr _].
  subst l. unfold descriptors_of. rewrite !fmap_app, !elem_of_app. cbn [fmap list_fmap]. rewrite A1, A2, A3, A4. fold (implicit o).
  intros [Hq|[Hq|Hq]]; [by left|right|right].
  - destruct (cur_explicit_apd (param_desc hs)) as [c|]; [|by apply not_elem_of_nil in Hq]. apply list_elem_of_singleton in Hq as ->.
    destruct A5 as [-> _]. destruct Ha as [E|[Hx _]]; [|done]. by destruct (proj1 A7).
  - destruct (cur_explicit_ard (row_desc hs)) as [c|]; [|by apply not_elem_of_nil in Hq]. apply list_elem_of_singleton in Hq as ->.
    destruct A6 as [-> _]. destruct Hr as [E|[Hx _]]; [|done]. by destruct (proj1 A8).
Qed.

Lemma implicit_listed q : q ∈ implicit o -> q ∈ (desc_id <$> l).
Proof.
  destruct R as [[A1 _] [A2 _] [A3 _] [A4 _] _ _ _ _]. subst l. unfold descriptors_of. rewrite fmap_app, elem_of_app. cbn [fmap list_fmap].
  rewrite A1, A2, A3, A4. by left.
Qed.

Lemma stored_find_dbc q : find_dbc h' q = find_dbc h q.
Proof.
  subst h'. unfold find_dbc. destruct (decide (q = s)) as [->|Hq]; [by rewrite (stored_self h s o hs Ho R), Ho|].
  destruct (h !! q) as [[| | |x]|] eqn:E; try (by rewrite (stored_others h s o hs Ho R), E by (done || by rewrite E)).
  destruct (decide (q ∈ (desc_id <$> l))) as [(d & -> & Hd)%list_elem_of_fmap|Hn].
  - by rewrite (stored_desc h s o hs W Ho R d x Hd E).
  - by rewrite (stored_unshared h s o hs Ho R q x Hn E).
Qed.

Lemma stored_load_desc q x : h !! q = Some (ODesc x) -> load_desc h' q = rewritten l <$> load_desc h q.
Proof.
  intros Hq. destruct (load_desc_wf h q x W Hq) as (d & Hd & Ed). rewrite Hd. cbn [fmap option_fmap option_map].
  destruct (decide (q ∈ (desc_id <$> l))) as [Hin|Hn].
  - rewrite <- Ed in Hin. destruct (rewritten_inside l d Hin) as [Hr Er]. rewrite <- Ed, <- Er. subst h' l. by apply (load_stored_desc h s o).
  - rewrite rewritten_outside by by rewrite Ed. rewrite <- Hd. unfold load_desc.
    assert (find_desc h' q = Some x) as -> by (apply find_desc_Some; exact (stored_unshared h s o hs Ho R q x Hn Hq)).
    rewrite (proj2 (find_desc_Some _ _ _) Hq). cbn [mbind option_bind]. rewrite stored_find_dbc. destruct (find_dbc h (de_dbc x)); [|done]. cbn [mbind option_bind].
    destruct (de_stmt x) as [t|] eqn:Et; [|done]. destruct (wf_desc _ W _ _ Hq) as [_ Hs]. destruct (Hs t Et) as (u & Hu & Ei).
    assert (t <> s) as Hts.
    { intros ->. apply Hn, implicit_listed. assert (u = o) as -> by congruence. rewrite <- Ei. apply own_descs. }
    assert (find_stmt h' t = find_stmt h t) as ->; [|done]. unfold find_stmt. subst h'.
    by rewrite (stored_others h s o hs Ho R) by (done || by rewrite Hu).
Qed.

(** The other statement, with the descriptors it shares. *)
Definition with_shared (ht : OdbcHandleStmt) : OdbcHandleStmt :=
  ht <| param_desc ::= fun pd => pd <| cur_explicit_apd ::= fmap (rewritten l) |> |>
     <| row_desc ::= fun rd => rd <| cur_explicit_ard ::= fmap (rewritten l) |> |>.

Lemma stored_other_stmt t u : t <> s -> h !! t = Some (OStmt u) -> load_stmt h' t = with_shared <$> load_stmt h t.
Proof.
  intros Hts Hu. destruct (wf_stmt _ W _ _ Hu) as [_ _ Hown Ha Hr _].
  assert (forall q, q ∈ implicit u -> load_desc h' q = load_desc h q) as Hload.
  { intros q Hq. destruct (Hown q Hq) as (x & Hx & _). rewrite (stored_load_desc q x Hx). destruct (load_desc_wf h q x W Hx) as (d & -> & Ed).
    cbn [fmap option_fmap option_map]. rewrite rewritten_outside; [done|]. rewrite Ed. intros [Hi|Hx']%descriptors_split; [|by apply (Hx' t u)].
    apply Hts. by apply (wf_owner _ W t s u o q). }
  assert (forall own cur, own ∈ implicit u -> current_ok h u own cur ->
    load_current h' own cur = fmap (M := option) (rewritten l) <$> load_current h own cur) as Hcur.
  { intros own cur Hi Hc. unfold load_current. case_bool_decide; [done|]. destruct (current_ok_desc h t u own cur W Hu Hi Hc) as (x & Hx).
    rewrite (stored_load_desc cur x Hx). by destruct (load_desc h cur). }
  destruct (own_descs u) as (I1 & I2 & I3 & I4). unfold load_stmt.
  assert (find_stmt h' t = Some u) as ->.
  { apply find_stmt_Some. subst h'. by rewrite (stored_others h s o hs Ho R) by (done || by rewrite Hu). }
  rewrite (proj2 (find_stmt_Some _ _ _) Hu). cbn [mbind option_bind]. rewrite stored_find_dbc.
  rewrite !Hload, (Hcur _ _ I1 Ha), (Hcur _ _ I3 Hr) by done.
  destruct (find_dbc h (so_dbc u)); [|done]. cbn [mbind option_bind].
  destruct (load_desc h (so_apd u)); [|done]. destruct (load_desc h (so_ipd u)); [|done]. destruct (load_desc h (so_ard u)); [|done].
  destruct (load_desc h (so_ird u)); [|done]. cbn [mbind option_bind]. destruct (load_current h (so_apd u) (so_cur_apd u)); [|done].
  destruct (load_current h (so_ard u) (so_cur_ard u)); done.
Qed.
End Shared.

(** *** Operations that leave the pointers alone *)
Lemma pointers_on_handle conn h f : (forall h, pointers (f h).2 = pointers h) -> pointers (on_handle conn h f).2 = pointers h.
Proof. intros Hf. unfold on_handle, ConvertHSTMT. destruct conn; [|done]. cbn [negb]. rewrite Z.eqb_refl. cbn [negb]. by rewrite Hf. Qed.

Lemma pointers_error ret c msg st h : pointers (stmt_error ret c msg st h).2 = pointers h.
Proof. by unfold stmt_error, SetDiagnosticRecord. Qed.

Lemma pointers_param hs f : (forall pd, object_of (apd (f pd)) = object_of (apd pd) /\ object_of (ipd (f pd)) = object_of (ipd pd)
    /\ object_of <$> cur_explicit_apd (f pd) = object_of <$> cur_explicit_apd pd) -> pointers (hs <| param_desc ::= f |>) = pointers hs.
Proof.
  intros Hf. destruct (Hf (param_desc hs)) as (E1 & E2 & E3). unfold pointers. cbn [map].
  change (param_desc (hs <| param_desc ::= f |>)) with (f (param_desc hs)). by rewrite E1, E2, E3.
Qed.

Lemma pointers_Clear hs : pointers (hs <| param_desc ::= Clear |>) = pointers hs.
Proof.
  apply pointers_param. intros pd. unfold Clear, Reset, update_cur_apd. by destruct pd as [a i [c|] ? ? ? ? ?].
Qed.

Lemma pointers_Close hs : pointers (OdbcHandleStmt_Close hs) = pointers hs.
Proof.
  unfold OdbcHandleStmt_Close. rewrite pointers_param; [done|]. intros pd. unfold Reset, update_cur_apd. by destruct pd as [a i [c|] ? ? ? ? ?].
Qed.

Lemma pointers_SQLFreeStmt conn option hs : pointers (SQLFreeStmt conn option hs).2 = pointers hs.
Proof.
  apply pointers_on_handle. clear hs. intros hs. repeat (destruct (option =? _)); try done.
  - apply pointers_Clear.
  - apply pointers_Close.
Qed.

Lemma pointers_BindParameter n io vt pt cs dd p len ind hs : pointers (BindParameterStmt n io vt pt cs dd p len ind hs).2 = pointers hs.
Proof.
  unfold BindParameterStmt. repeat (case_match; [by rewrite pointers_error|]). cbn zeta. case_match; [|case_match].
  all: rewrite ?pointers_error; cbn [snd].
  all: repeat (rewrite pointers_param; [|intros pd; repeat split; unfold GetDescRecord, AddMoreRecords; cbn; repeat case_match; reflexivity]); done.
Qed.

Lemma pointers_set_plain_attr a v hs m : pointers (set_plain_attr a v hs m).1.2 = pointers hs.
Proof.
  unfold set_plain_attr, set_scrollable, on_apd_header, SetParamProcessedPtr. repeat (case_match; cbn [fst snd]; try done).
  all: try (injection H0 as <- <-); cbn [fst snd].
  all: try done.
Qed.

Lemma legal_stmt h s f : live h s ->
  (forall conn hs, exists ret hs', f conn hs = Some (ret, hs') /\ pointers hs' = pointers hs) -> legal h (StmtCall f s).
Proof. intros Hl Hf. split; [done|]. intros o d hs _ _ _. apply Hf. Qed.

(** Freeing what is bound, binding a parameter and setting an attribute that is not a
    descriptor are legal on every live statement. *)
Lemma legal_statement_calls h s option a n io vt pt cs dd p len ind v m : live h s ->
  a <> SQL_ATTR_APP_ROW_DESC -> a <> SQL_ATTR_APP_PARAM_DESC ->
  legal h (StmtCall (fun conn hs => Some (SQLFreeStmt conn option hs)) s)
  /\ legal h (StmtCall (fun conn hs => Some (SQLBindParameter conn n io vt pt cs dd p len ind hs)) s)
  /\ legal h (StmtCall (fun conn hs => '(ret, hs, _) ← SQLSetStmtAttr (fun _ => None) conn a v hs m; Some (ret, hs)) s).
Proof.
  intros Hl Ha1 Ha2. split; [|split]; apply legal_stmt; try done; intros conn hs.
  - rewrite (surjective_pairing (SQLFreeStmt conn option hs)). do 2 eexists. split; [done|]. apply pointers_SQLFreeStmt.
  - rewrite (surjective_pairing (SQLBindParameter conn n io vt pt cs dd p len ind hs)). do 2 eexists. split; [done|].
    apply pointers_on_handle. intros hs'. apply pointers_BindParameter.
  - unfold SQLSetStmtAttr, SetStmtAttrInternal, ConvertHSTMT. destruct conn; cbn [negb].
    2: { unfold Stmt_error_no_server, SetDiagnosticRecord. cbn [Z.eqb negb mbind option_bind]. by do 2 eexists. }
    rewrite Z.eqb_refl. cbn [negb]. rewrite (proj2 (Z.eqb_neq _ _) Ha1), (proj2 (Z.eqb_neq _ _) Ha2).
    pose proof (pointers_set_plain_attr a v (hs <| stmt_diagnostic ::= Clean |>) m) as Hp.
    destruct (set_plain_attr a v (hs <| stmt_diagnostic ::= Clean |>) m) as [[ret hs'] m']. cbn [mbind option_bind].
    do 2 eexists. split; [done|]. exact Hp.
Qed.

(** ** Properties *)

(** Whether an object belongs to a connection. *)
Definition of_connection (h : heap) (p q : nat) : bool :=
  Nat.eqb q p || match h !! q with Some (OStmt o) => Nat.eqb (so_dbc o) p | Some (ODesc x) => Nat.eqb (de_dbc x) p | _ => false end.

Section Theorems.
Context `{Allocator}.



(** C9: Freeing an explicit descriptor does to the statements what
    [ResetStmtDescriptors] says: each one of each connection that had it as a current
    descriptor is back to its own, nothing else of it changes, and no other
    descriptor does. *)
Theorem free_descriptor_resets h p x : wf h -> h !! p = Some (ODesc x) -> explicit h p ->
  exists h', FreeHandle SQL_HANDLE_DESC p h = Some (SQL_SUCCESS, h') /\ wf h' /\ h' !! p = None
    /\ (forall c d, h !! c = Some (ODbc d) -> load_dbc h' c = ResetStmtDescriptors p <$> load_dbc h c)
    /\ (forall q, q <> p -> load_desc h' q = load_desc h q).
Proof.
  intros W Hp Hx. destruct (free_desc h p x W Hp Hx) as (h' & E & W' & Hl). exists h'. split; [done|]. split; [done|].
  split; [by rewrite Hl, decide_True|]. split.
  - intros c d Hc. by apply (reset_load_dbc h h' p x W Hp Hx Hl c d).
  - intros q Hq. by apply (reset_load_desc h h' p x Hp Hl).
Qed.

Lemma not_explicit_owned h q : ~ explicit h q -> exists s o, h !! s = Some (OStmt o) /\ q ∈ implicit o.
Proof.
  intros Hx. set (owns := fun z : nat * object => match z.2 with OStmt o => bool_decide (q ∈ implicit o) | _ => false end).
  destruct (List.existsb owns (map_to_list h)) eqn:He.
  - apply List.existsb_exists in He as ([s z] & Hin & Hz). apply list_elem_of_In, elem_of_map_to_list in Hin. destruct z; try done.
    apply bool_decide_eq_true in Hz. by do 2 eexists.
  - destruct Hx. intros s o Ho Hi. assert (List.existsb owns (map_to_list h) = true); [|congruence]. apply List.existsb_exists.
    exists (s, OStmt o). split; [by apply list_elem_of_In, elem_of_map_to_list|]. by apply bool_decide_eq_true.
Qed.

(** Freeing a connection frees exactly what belongs to it, and leaves every other
    object as it was: the connection, its statements, and the descriptors they own.
    The explicit descriptors of the connection are freed before. *)
Theorem free_connection h p d : wf h -> h !! p = Some (ODbc d) ->
  (forall q x, h !! q = Some (ODesc x) -> de_dbc x = p -> ~ explicit h q) ->
  exists h', FreeHandle SQL_HANDLE_DBC p h = Some (SQL_SUCCESS, h') /\ wf h'
    /\ forall q, h' !! q = if of_connection h p q then None else h !! q.
Proof.
  intros W Hp Hx. destruct (free_dbc h p d W Hp Hx) as (h' & E & W' & Hl). exists h'. split; [done|]. split; [done|]. intros q. rewrite Hl.
  destruct (wf_dbc _ W _ _ Hp) as (_ & _ & Hall).
  assert (of_connection h p q = true <-> q ∈ p :: footprints h (do_stmts d)) as Hiff.
  { unfold of_connection. rewrite orb_true_iff, Nat.eqb_eq, elem_of_cons, elem_of_footprints. split.
    - intros [->|Hq]; [tauto|right]. destruct (h !! q) as [[| |o|y]|] eqn:Eq; try done; apply Nat.eqb_eq in Hq.
      + destruct (wf_stmt _ W _ _ Eq) as [(d' & Hd' & Hin) _ _ _ _ _]. assert (d' = d) as -> by congruence. exists q, o. split; [done|]. split; [done|].
        apply elem_of_cons. by left.
      + destruct (not_explicit_owned h q (Hx q y Eq Hq)) as (s & o & Ho & Hi).
        destruct (wf_stmt _ W _ _ Ho) as [(d' & Hd' & Hin) _ Hown _ _ _]. destruct (Hown q Hi) as (y' & Hy' & Eb & _).
        assert (d' = d) as -> by congruence. exists s, o. split; [done|]. split; [done|]. apply elem_of_cons. by right.
    - intros [->|(s & o & Hs & Ho & Hq)]; [by left|right]. destruct (Hall s Hs) as (o' & Ho' & Eo). assert (o' = o) as -> by congruence.
      apply elem_of_cons in Hq as [->|Hi]; [rewrite Ho; by apply Nat.eqb_eq|]. destruct (stmt_owns _ _ _ (wf_stmt _ W _ _ Ho) q Hi) as (y & Hy & Eb & _).
      rewrite Hy. apply Nat.eqb_eq. congruence. }
  destruct (of_connection h p q) eqn:Eq; [by rewrite decide_True by by apply Hiff|].
  rewrite decide_False; [done|]. intros Hin. by apply Hiff in Hin.
Qed.

(** A statement that is allocated and freed leaves no trace: what the constructor
    adds, the destructor takes away, and nothing else is touched. *)
Theorem alloc_free_stmt h dbc d : wf h -> h !! dbc = Some (ODbc d) ->
  exists s h1, SQLAllocHandle SQL_HANDLE_STMT dbc h = Some (SQL_SUCCESS, Some s, h1)
    /\ h !! s = None /\ FreeHandle SQL_HANDLE_STMT s h1 = Some (SQL_SUCCESS, h).
Proof.
  intros W Hd. unfold SQLAllocHandle. cbn [Z.eqb Pos.eqb]. rewrite (proj2 (find_dbc_Some _ _ _) Hd). cbn [mbind option_bind].
  pose proof (alloc_stmt h dbc d W Hd) as W1. destruct (new_stmt dbc d h) as [s h1] eqn:E. cbn [snd] in W1. exists s, h1. split; [done|].
  destruct (new_stmt_spec h dbc d s h1 Hd E) as (a & i & r & ir & HF & _ & Hl).
  set (o := MkStmtObject dbc a i r ir a r (new_OdbcHandleStmt 0 (do_rest d))) in Hl.
  assert (Hnew : forall q, q ∈ [s; a; i; r; ir] -> h !! q = None).
  { intros q Hq. rewrite Forall_forall in HF. by destruct (HF q (proj1 (list_elem_of_In _ _) Hq)). }
  split; [apply Hnew, elem_of_cons; by left|].
  assert (Hs : h1 !! s = Some (OStmt o)) by by rewrite Hl, decide_True. destruct (free_stmt h1 s o W1 Hs) as (h' & -> & _ & Hl').
  do 2 f_equal. apply map_eq. intros q. rewrite Hl'. change (footprint s o) with [s; a; i; r; ir].
  destruct (decide (q ∈ [s; a; i; r; ir])) as [Hq|Hq]; [by rewrite Hnew|]. rewrite Hl. rewrite !elem_of_cons in Hq.
  rewrite decide_False by tauto. rewrite decide_False by (rewrite !elem_of_cons; tauto). rewrite decide_False by tauto.
  destruct (wf_dbc _ W _ _ Hd) as (_ & _ & Hall).
  assert (Hold : forall p d' t, h !! p = Some (ODbc d') -> t ∈ do_stmts d' -> t ∉ [s; a; i; r; ir]).
  { intros p d' t Hp Ht Hin. destruct (wf_dbc _ W _ _ Hp) as (_ & _ & Hall'). destruct (Hall' t Ht) as (u & Hu & _). by rewrite (Hnew t Hin) in Hu. }
  destruct (decide (q = dbc)) as [->|Hne].
  - rewrite Hd. cbn [fmap option_fmap option_map prune]. do 2 f_equal. destruct d as [env l rest]. cbn. f_equal.
    rewrite list.filter_app, filter_all by (intros t Ht; exact (Hold dbc _ t Hd Ht)).
    rewrite filter_cons_False by (intros Hin; apply Hin, elem_of_cons; by left). by rewrite app_nil_r.
  - destruct (h !! q) as [[|d'| |]|] eqn:Eq; try done. cbn [fmap option_fmap option_map prune]. do 2 f_equal. destruct d' as [env l rest]. cbn. f_equal.
    apply filter_all. intros t Ht. exact (Hold q _ t Eq Ht).
Qed.

Lemma reset_descriptors_keeps p l : forall h, (forall s, s ∈ l -> exists o, h !! s = Some (OStmt o)) ->
  exists h', reset_descriptors p l h = Some h'
    /\ forall s o, h !! s = Some (OStmt o) -> exists o', h' !! s = Some (OStmt o') /\ implicit o' = implicit o.
Proof.
  induction l as [|s l IH]; intros h Hl; cbn [reset_descriptors]; [by exists h; split; [|intros t u Hu; exists u]|].
  destruct (Hl s) as (o & Ho); [apply elem_of_cons; by left|]. rewrite (proj2 (find_stmt_Some _ _ _) Ho). cbn [mbind option_bind].
  set (h1 := <[s := OStmt (reset_current p o)]> h).
  assert (H1 : forall t u, h !! t = Some (OStmt u) -> exists u', h1 !! t = Some (OStmt u') /\ implicit u' = implicit u).
  { intros t u Hu. subst h1. destruct (decide (t = s)) as [->|Hne]; [|rewrite lookup_insert_ne by congruence; by exists u].
    rewrite lookup_insert_eq. exists (reset_current p o). split; [done|]. rewrite reset_current_eq. assert (u = o) as -> by congruence. done. }
  destruct (IH h1) as (h' & E & Hk).
  { intros t Ht. destruct (Hl t) as (u & Hu); [apply elem_of_cons; by right|]. destruct (H1 t u Hu) as (u' & Hu' & _). by exists u'. }
  exists h'. split; [done|]. intros t u Hu. destruct (H1 t u Hu) as (u1 & Hu1 & E1). destruct (Hk t u1 Hu1) as (u2 & Hu2 & E2).
  exists u2. split; [done|]. congruence.
Qed.

Lemma delete_desc_missing p q h h' : delete_desc p h = Some h' -> find_desc h q = None -> find_desc h' q = None.
Proof.
  unfold delete_desc. destruct (find_desc h p); [|done]. intros [= <-]. unfold find_desc.
  destruct (decide (p = q)) as [->|]; [by rewrite lookup_delete_eq|by rewrite lookup_delete_ne].
Qed.

Lemma delete_desc_gone q h : find_desc h q = None -> delete_desc q h = None.
Proof. unfold delete_desc. by intros ->. Qed.

(** A statement is not freed when one of its descriptors is gone. *)
Lemma delete_stmt_missing s o q h : find_stmt h s = Some o -> q ∈ implicit o -> find_desc h q = None -> delete_stmt s h = None.
Proof.
  intros Ho Hq Hn. unfold delete_stmt. rewrite Ho. cbn [mbind option_bind].
  destruct (delete_desc (so_ird o) h) as [h1|] eqn:E1; [|done]. pose proof (delete_desc_missing _ q _ _ E1 Hn) as N1. cbn [mbind option_bind].
  destruct (delete_desc (so_ard o) h1) as [h2|] eqn:E2; [|done]. pose proof (delete_desc_missing _ q _ _ E2 N1) as N2. cbn [mbind option_bind].
  destruct (delete_desc (so_ipd o) h2) as [h3|] eqn:E3; [|done]. pose proof (delete_desc_missing _ q _ _ E3 N2) as N3. cbn [mbind option_bind].
  unfold implicit in Hq. rewrite !elem_of_cons in Hq. destruct Hq as [->|[->|[->|[->|Hq]]]]; [|..|by apply not_elem_of_nil in Hq].
  - by rewrite delete_desc_gone.
  - rewrite delete_desc_gone in E3; done.
  - rewrite delete_desc_gone in E2; done.
  - rewrite delete_desc_gone in E1; done.
Qed.

Lemma delete_stmts_lookup l q : forall h h', delete_stmts l h = Some h' -> h' !! q = h !! q \/ h' !! q = None.
Proof.
  assert (Hdesc : forall p h h', delete_desc p h = Some h' -> h' !! q = h !! q \/ h' !! q = None).
  { intros p h h'. unfold delete_desc. destruct (find_desc h p); [|done]. intros [= <-].
    destruct (decide (p = q)) as [->|]; [right; apply lookup_delete_eq|left; by apply lookup_delete_ne]. }
  induction l as [|s l IH]; intros h h'; cbn [delete_stmts]; [intros [= <-]; by left|].
  destruct (delete_stmt s h) as [h1|] eqn:E; [|done]. cbn [mbind option_bind]. intros E'.
  assert (h1 !! q = h !! q \/ h1 !! q = None) as H1; [|destruct (IH h1 h' E') as [-> | ->]; [done|by right]].
  unfold delete_stmt in E. destruct (find_stmt h s) as [o|]; [|done]. cbn [mbind option_bind] in E.
  destruct (delete_desc (so_ird o) h) as [ha|] eqn:Ea; [|done]. cbn [mbind option_bind] in E. destruct (delete_desc (so_ard o) ha) as [hb|] eqn:Eb; [|done]. cbn [mbind option_bind] in E.
  destruct (delete_desc (so_ipd o) hb) as [hc|] eqn:Ec; [|done]. cbn [mbind option_bind] in E.
  destruct (delete_desc (so_apd o) hc) as [hd|] eqn:Ed; [|done]. cbn [mbind option_bind] in E. injection E as <-.
  assert (delete s hd !! q = hd !! q \/ delete s hd !! q = None) as [-> | ->]; [|destruct (Hdesc _ _ _ Ed) as [-> | ->]|by right].
  { destruct (decide (s = q)) as [->|]; [right; apply lookup_delete_eq|left; by apply lookup_delete_ne]. }
  - destruct (Hdesc _ _ _ Ec) as [-> | ->]; [|by right]. destruct (Hdesc _ _ _ Eb) as [-> | ->]; [|by right]. by apply (Hdesc _ _ _ Ea).
  - by right.
Qed.

(** C11: What the driver leaves to its caller is needed: a descriptor that a statement
    owns is freed like an explicit one, and then freeing the statement is undefined
    (its destructor frees the descriptor again); and an explicit descriptor that is
    freed after its connection reads the connection. *)
Theorem freed_handles_undefined h : wf h ->
  (forall s o q, h !! s = Some (OStmt o) -> q ∈ implicit o ->
     exists h', FreeHandle SQL_HANDLE_DESC q h = Some (SQL_SUCCESS, h') /\ FreeHandle SQL_HANDLE_STMT s h' = None)
  /\ (forall p d q x h', h !! p = Some (ODbc d) -> h !! q = Some (ODesc x) -> de_dbc x = p ->
     FreeHandle SQL_HANDLE_DBC p h = Some (SQL_SUCCESS, h') -> FreeHandle SQL_HANDLE_DESC q h' = None).
Proof.
  intros W. split.
  - intros s o q Ho Hq. destruct (wf_stmt _ W _ _ Ho) as [(d & Hd & Hin) _ Hown _ _ _]. destruct (Hown q Hq) as (x & Hx & Eb & _).
    assert (Hq0 : q <> 0%nat) by (intros ->; by rewrite (wf_null _ W) in Hx). assert (Hs0 : s <> 0%nat) by (intros ->; by rewrite (wf_null _ W) in Ho).
    destruct (wf_dbc _ W _ _ Hd) as (_ & _ & Hall). destruct (reset_descriptors_keeps q (do_stmts d) h) as (h1 & E & Hk).
    { intros t Ht. destruct (Hall t Ht) as (u & Hu & _). by exists u. }
    exists (delete q h1). unfold FreeHandle. rewrite !bool_decide_eq_false_2 by done. cbn [Z.eqb Pos.eqb].
    rewrite (proj2 (find_desc_Some _ _ _) Hx). cbn [mbind option_bind]. rewrite Eb, (proj2 (find_dbc_Some _ _ _) Hd). cbn [mbind option_bind].
    rewrite E. split; [done|]. destruct (Hk s o Ho) as (o' & Ho' & Ei).
    assert (find_stmt (delete q h1) s = Some o') as Hf by (apply find_stmt_Some; rewrite lookup_delete_ne by congruence; done).
    rewrite Hf. cbn [mbind option_bind]. destruct (find_dbc (delete q h1) (so_dbc o')) as [d'|] eqn:Ed'; [|done]. cbn [mbind option_bind].
    apply find_dbc_Some in Ed'. apply find_stmt_Some in Hf. rewrite (delete_stmt_missing s o' q); [done| |by rewrite Ei|].
    + apply find_stmt_Some. rewrite lookup_insert_ne by congruence. done.
    + unfold find_desc. destruct (decide (so_dbc o' = q)) as [<-|]; [by rewrite lookup_insert_eq|]. by rewrite lookup_insert_ne, lookup_delete_eq.
  - intros p d q x h' Hp Hq Eb. assert (Hq0 : q <> 0%nat) by (intros ->; by rewrite (wf_null _ W) in Hq).
    assert (Hp0 : p <> 0%nat) by (intros ->; by rewrite (wf_null _ W) in Hp). unfold FreeHandle. rewrite !bool_decide_eq_false_2 by done. cbn [Z.eqb Pos.eqb].
    rewrite (proj2 (find_dbc_Some _ _ _) Hp). cbn [mbind option_bind]. destruct (delete_stmts (do_stmts d) h) as [h1|] eqn:E; [|done].
    cbn [mbind option_bind]. intros [= <-]. unfold find_desc. rewrite lookup_delete_ne by congruence.
    destruct (delete_stmts_lookup _ q _ _ E) as [-> | ->]; [|done]. rewrite Hq. cbn [mbind option_bind]. unfold find_dbc. by rewrite Eb, lookup_delete_eq.
Qed.
End Theorems.

(** ** Examples

    The objects one after the other. Below: an environment at 1, an open connection at 2,
    statements at 3 and 8, and a descriptor at 13 that holds one record and is the
    application parameter descriptor of both. *)
#[local] Instance at_the_end : Allocator.
Proof.
  refine {| new_address := fun h => S (list_max (map fst (map_to_list h))) |}; [|done].
  intros h. destruct (h !! S (list_max (map fst (map_to_list h)))) as [y|] eqn:E; [|done].
  apply elem_of_map_to_list in E. apply list_elem_of_In, (in_map fst) in E. cbn in E.
  pose proof (proj1 (list_max_le (map fst (map_to_list h)) _) (le_n _)) as Hm. rewrite Forall_forall in Hm. specialize (Hm _ E). lia.
Defined.

Definition after (c : call) (h : heap) : heap := match perform c h with Some (_, h') => h' | None => h end.

Lemma reachable_after c h : reachable h -> legal h c -> reachable (after c h).
Proof.
  intros Hr Hc. destruct (legal_call_ok h c (reachable_wf h Hr) Hc) as (ret & h' & E & _). unfold after. rewrite E.
  by apply (reachable_step h c ret).
Qed.

Definition connected : heap :=
  after (DbcCall (fun d => Some (SQL_SUCCESS, d <| conn := true |>)) 2)
    (after (AllocCall SQL_HANDLE_DBC 1) (after (AllocCall SQL_HANDLE_ENV 0) ∅)).
Definition with_statements : heap :=
  after (AllocCall SQL_HANDLE_DESC 2) (after (AllocCall SQL_HANDLE_STMT 2) (after (AllocCall SQL_HANDLE_STMT 2) connected)).
Definition sharing : heap :=
  after (DescCall (fun d => Some (SQL_SUCCESS, GetDescRecord 0 d)) 13)
    (after (SetDescriptorCall SQL_ATTR_APP_PARAM_DESC 8 13) (after (SetDescriptorCall SQL_ATTR_APP_PARAM_DESC 3 13) with_statements)).

Lemma legal_alloc h t i : match t, h !! i with 1, _ => True | 2, Some (OEnv _) => True | 3, Some (ODbc _) => True | 4, Some (ODbc _) => True | _, _ => False end ->
  legal h (AllocCall t i).
Proof.
  intros Ht. split.
  - intros ->. destruct (h !! i) as [[v|d| |]|]; try done. by exists v.
  - intros [-> | ->]; destruct (h !! i) as [[v|d| |]|]; try done; by exists d.
Qed.

Lemma connected_reachable : reachable connected.
Proof.
  unfold connected. apply reachable_after; [|split; [intros _; by eexists|intros d [= <-]; by do 2 eexists]].
  apply reachable_after; [|by apply legal_alloc]. apply reachable_after; [apply reachable_empty|by apply legal_alloc].
Qed.

Lemma with_statements_reachable : reachable with_statements.
Proof.
  unfold with_statements. apply reachable_after; [|by apply legal_alloc; vm_compute].
  apply reachable_after; [|by apply legal_alloc; vm_compute].
  apply reachable_after; [|by apply legal_alloc; vm_compute]. apply connected_reachable.
Qed.

(** Descriptors that no statement owns, by evaluation. *)
Lemma explicit_evaluated h q :
  forallb (fun z => match z.2 with OStmt o => negb (existsb (Nat.eqb q) (implicit o)) | _ => true end) (map_to_list h) = true -> explicit h q.
Proof.
  intros Hb s o Ho Hin. rewrite forallb_forall in Hb. specialize (Hb (s, OStmt o)). cbn in Hb.
  assert (existsb (Nat.eqb q) (implicit o) = true) as E; [apply existsb_exists; exists q; split; [by apply list_elem_of_In|apply Nat.eqb_refl]|].
  cbn in E. rewrite E in Hb. assert (false = true); [|done]. apply Hb. by apply list_elem_of_In, elem_of_map_to_list.
Qed.

Lemma legal_set_apd h s v o x : h !! s = Some (OStmt o) -> h !! v = Some (ODesc x) -> de_dbc x = so_dbc o -> explicit h v -> v <> so_cur_ard o ->
  legal h (SetDescriptorCall SQL_ATTR_APP_PARAM_DESC s v).
Proof.
  intros Ho Hx Eb He Hne. split; [intros _; by eexists|]. intros o' Ho'. assert (o' = o) as -> by congruence. right. split; [done|]. split; [|done].
  right. split; [done|]. by exists x.
Qed.

Lemma legal_desc_call h f p : bool_decide (is_Some (h !! p)) = true ->
  (forall d, exists ret d', f d = Some (ret, d') /\ object_of d' = object_of d) -> legal h (DescCall f p).
Proof. intros Hp Hf. split; [intros _; by apply bool_decide_eq_true in Hp|]. intros d _. apply Hf. Qed.

Definition stmt_at (h : heap) (s : nat) : StmtObject := default (MkStmtObject 0 0 0 0 0 0 0 (new_OdbcHandleStmt 0 new_OdbcHandleDbc)) (find_stmt h s).
Definition desc_at (h : heap) (p : nat) : DescObject := default (MkDescObject 0 None (new_OdbcHandleDesc 0 [] None false)) (find_desc h p).
Definition dbc_at (h : heap) (p : nat) : DbcObject := default (MkDbcObject 0 [] new_OdbcHandleDbc) (find_dbc h p).
Definition loaded (h : heap) (s : nat) : OdbcHandleStmt := default (new_OdbcHandleStmt 0 new_OdbcHandleDbc) (load_stmt h s).

Lemma sharing_reachable : reachable sharing.
Proof.
  unfold sharing. apply reachable_after; [|apply legal_desc_call; [vm_compute; reflexivity|]; intros d; do 2 eexists; split; [done|]; unfold GetDescRecord; by case_match].
  apply reachable_after.
  - apply reachable_after; [apply with_statements_reachable|].
    apply (legal_set_apd _ _ _ (stmt_at with_statements 3) (desc_at with_statements 13)); try (vm_compute; (reflexivity || discriminate)).
    apply explicit_evaluated. by vm_compute.
  - set (h := after _ with_statements).
    apply (legal_set_apd _ _ _ (stmt_at h 8) (desc_at h 13)); try (vm_compute; (reflexivity || discriminate)).
    apply explicit_evaluated. by vm_compute.
Qed.



Lemma free_descriptor_resets_witness : exists h' l, FreeHandle SQL_HANDLE_DESC 13 sharing = Some (SQL_SUCCESS, h')
  /\ load_dbc h' 2 = Some l /\ map (fun s => desc_id (cur_apd (param_desc s.2))) (vec_stmt_ref l) = [4; 9]%nat.
Proof.
  destruct (free_descriptor_resets sharing 13 (desc_at sharing 13) (reachable_wf _ sharing_reachable)) as (h' & E & _ & _ & Hl & _);
    [vm_compute; reflexivity|apply explicit_evaluated; vm_compute; reflexivity|].
  exists h'. eexists. split; [exact E|]. split; [rewrite (Hl 2%nat (dbc_at sharing 2)); [vm_compute; reflexivity|vm_compute; reflexivity]|].
  vm_compute. reflexivity.
Defined.

(** No explicit descriptors, by evaluation. *)
Lemma owned_evaluated h p :
  forallb (fun z => match z.2 with
    | ODesc x => negb (Nat.eqb (de_dbc x) p)
                 || existsb (fun y => match y.2 with OStmt o => existsb (Nat.eqb z.1) (implicit o) | _ => false end) (map_to_list h)
    | _ => true end) (map_to_list h) = true ->
  forall q x, h !! q = Some (ODesc x) -> de_dbc x = p -> ~ explicit h q.
Proof.
  intros Hb q x Hq Eb Hx. rewrite forallb_forall in Hb. specialize (Hb (q, ODesc x) (proj1 (list_elem_of_In _ _) (proj2 (elem_of_map_to_list _ _ _) Hq))).
  cbn beta iota delta [snd fst] in Hb. rewrite Eb, Nat.eqb_refl in Hb. cbn [negb orb] in Hb. apply existsb_exists in Hb as ([s y] & Hin & Hy).
  apply list_elem_of_In, elem_of_map_to_list in Hin. destruct y as [| |o|]; try done. apply (Hx s o Hin).
  apply existsb_exists in Hy as (r & Hr & E). apply Nat.eqb_eq in E. cbn in E. subst r. by apply list_elem_of_In.
Qed.

Lemma free_connection_witness : exists h', FreeHandle SQL_HANDLE_DBC 2 (after (AllocCall SQL_HANDLE_STMT 2) connected) = Some (SQL_SUCCESS, h')
  /\ bool_decide (is_Some (after (AllocCall SQL_HANDLE_STMT 2) connected !! 5%nat)) = true /\ h' !! 1%nat = connected !! 1%nat /\ h' !! 5%nat = None.
Proof.
  set (h := after (AllocCall SQL_HANDLE_STMT 2) connected).
  assert (wf h) as W by (apply reachable_wf, reachable_after; [exact connected_reachable|by apply legal_alloc; vm_compute]).
  destruct (free_connection h 2 (dbc_at h 2) W) as (h' & E & _ & Hl); [vm_compute; reflexivity|apply owned_evaluated; vm_compute; reflexivity|].
  exists h'. split; [exact E|]. split; [vm_compute; reflexivity|]. split; rewrite Hl; vm_compute; reflexivity.
Defined.

Lemma freed_handles_undefined_witness :
  (exists h', FreeHandle SQL_HANDLE_DESC 4 sharing = Some (SQL_SUCCESS, h') /\ FreeHandle SQL_HANDLE_STMT 3 h' = None)
  /\ exists h', FreeHandle SQL_HANDLE_DBC 2 sharing = Some (SQL_SUCCESS, h') /\ FreeHandle SQL_HANDLE_DESC 13 h' = None.
Proof.
  destruct (freed_handles_undefined sharing (reachable_wf _ sharing_reachable)) as [H1 H2]. split.
  - apply (H1 3%nat (stmt_at sharing 3)); [vm_compute; reflexivity|vm_compute; left].
  - destruct (FreeHandle SQL_HANDLE_DBC 2 sharing) as [[ret h']|] eqn:E; [|vm_compute in E; discriminate E].
    assert (ret = SQL_SUCCESS) as -> by (vm_compute in E; injection E as <- _; reflexivity).
    exists h'. split; [reflexivity|]. apply (H2 2%nat (dbc_at sharing 2) 13%nat (desc_at sharing 13)); [vm_compute; reflexivity..|exact E].
Defined.
