(* ===== verification/Stubs.v ===== *)
(** * The entry points that are not implemented ([odbc_api/empty_api_stubs.cpp])

    Eight catalogue functions execute a query without rows, whatever their arguments
    are; the wide ones convert their arguments for nothing. Six more report that they are
    not implemented. [SQLCancel] of [odbc_api/statement_api.cpp] is here as well. *)

From S2P Require Import Prelude OdbcConst Memory Utf8 Widechar OdbcUtils Diagnostic DiagApi Descriptor Params Fetch Stmt.

(** ** The queries *)
Definition primary_keys_query : bytes := sql_text "
SELECT
	CAST('' AS VARCHAR) AS `TABLE_CAT`,
	CAST('' AS VARCHAR) AS `TABLE_SCHEM`,
	CAST('' AS VARCHAR) AS `TABLE_NAME`,
	CAST('' AS VARCHAR) AS `COLUMN_NAME`,
	CAST(0 AS SMALLINT) AS `KEY_SEQ`,
	CAST('' AS VARCHAR) AS `PK_NAME`
WHERE 1 < 0
".

Definition foreign_keys_query : bytes := sql_text "
SELECT
	CAST('' AS VARCHAR) AS `PKTABLE_CAT`,
	CAST('' AS VARCHAR) AS `PKTABLE_SCHEM`,
	CAST('' AS VARCHAR) AS `PKTABLE_NAME`,
	CAST('' AS VARCHAR) AS `PKCOLUMN_NAME`,
	CAST('' AS VARCHAR) AS `FKTABLE_CAT`,
	CAST('' AS VARCHAR) AS `FKTABLE_SCHEM`,
	CAST('' AS VARCHAR) AS `FKTABLE_NAME`,
	CAST('' AS VARCHAR) AS `FKCOLUMN_NAME`,
	CAST(0 AS SMALLINT) AS `KEY_SEQ`,
	CAST(0 AS SMALLINT) AS `UPDATE_RULE`,
	CAST(0 AS SMALLINT) AS `DELETE_RULE`,
	CAST('' AS VARCHAR) AS `FK_NAME`,
	CAST('' AS VARCHAR) AS `PK_NAME`,
	CAST(0 AS SMALLINT) AS `DEFERRABILITY`
WHERE 1 < 0
".

Definition procedure_columns_query : bytes := sql_text "
SELECT
	CAST('' AS VARCHAR) AS `PROCEDURE_CAT`,
	CAST('' AS VARCHAR) AS `PROCEDURE_SCHEM`,
	CAST('' AS VARCHAR) AS `PROCEDURE_NAME`,
	CAST('' AS VARCHAR) AS `COLUMN_NAME`,
	CAST(0 AS SMALLINT) AS `COLUMN_TYPE`,
	CAST(0 AS SMALLINT) AS `DATA_TYPE`,
	CAST('' AS VARCHAR) AS `TYPE_NAME`,
	CAST(0 AS INT) AS `COLUMN_SIZE`,
	CAST(0 AS INT) AS `BUFFER_LENGTH`,
	CAST(0 AS SMALLINT) AS `DECIMAL_DIGITS`,
	CAST(0 AS SMALLINT) AS `NUM_PREC_RADIX`,
	CAST(0 AS SMALLINT) AS `NULLABLE`,
	CAST('' AS VARCHAR) AS `REMARKS`,
	CAST('' AS VARCHAR) AS `COLUMN_DEF`,
	CAST(0 AS SMALLINT) AS `SQL_DATA_TYPE`,
	CAST(0 AS SMALLINT) AS `SQL_DATETIME_SUB`,
	CAST(0 AS INT) AS `CHAR_OCTET_LENGTH`,
	CAST(0 AS INT) AS `ORDINAL_POSITION`,
	CAST('' AS VARCHAR) AS `IS_NULLABLE`
WHERE 1 < 0
".

Definition procedures_query : bytes := sql_text "
SELECT
	CAST('' AS VARCHAR) AS `PROCEDURE_CAT`,
	CAST('' AS VARCHAR) AS `PROCEDURE_SCHEM`,
	CAST('' AS VARCHAR) AS `PROCEDURE_NAME`,
	CAST(0 AS INT) AS `NUM_INPUT_PARAMS`,
	CAST(0 AS INT) AS `NUM_OUTPUT_PARAMS`,
	CAST(0 AS INT) AS `NUM_RESULT_SETS`,
	CAST('' AS VARCHAR) AS `REMARKS`,
	CAST(0 AS SMALLINT) AS `PROCEDURE_TYPE`
WHERE 1 < 0
".

Definition column_privileges_query : bytes := sql_text "
SELECT
	CAST('' AS VARCHAR) AS `TABLE_CAT`,
	CAST('' AS VARCHAR) AS `TABLE_SCHEM`,
	CAST('' AS VARCHAR) AS `TABLE_NAME`,
	CAST('' AS VARCHAR) AS `COLUMN_NAME`,
	CAST('' AS VARCHAR) AS `GRANTOR`,
	CAST('' AS VARCHAR) AS `GRANTEE`,
	CAST('' AS VARCHAR) AS `PRIVILEGE`,
	CAST('' AS VARCHAR) AS `IS_GRANTABLE`
WHERE 1 < 0
".

Definition table_privileges_query : bytes := sql_text "
SELECT
	CAST('' AS VARCHAR) AS `TABLE_CAT`,
	CAST('' AS VARCHAR) AS `TABLE_SCHEM`,
	CAST('' AS VARCHAR) AS `TABLE_NAME`,
	CAST('' AS VARCHAR) AS `GRANTOR`,
	CAST('' AS VARCHAR) AS `GRANTEE`,
	CAST('' AS VARCHAR) AS `PRIVILEGE`,
	CAST('' AS VARCHAR) AS `IS_GRANTABLE`
WHERE 1 < 0
".

Definition special_columns_query : bytes := sql_text "
SELECT
	CAST(0  AS SMALLINT) AS `SCOPE`,
	CAST('' AS VARCHAR ) AS `COLUMN_NAME`,
	CAST(0  AS SMALLINT) AS `DATA_TYPE`,
	CAST('' AS VARCHAR ) AS `TYPE_NAME`,
	CAST(0  AS INT     ) AS `COLUMN_SIZE`,
	CAST(0  AS INT     ) AS `BUFFER_LENGTH`,
	CAST(0  AS SMALLINT) AS `DECIMAL_DIGITS`,
	CAST(0  AS SMALLINT) AS `PSEUDO_COLUMN`
WHERE 1 < 0
".

Definition statistics_query : bytes := sql_text "
SELECT
	CAST('' AS VARCHAR ) AS `TABLE_CAT`,
	CAST('' AS VARCHAR ) AS `TABLE_SCHEM`,
	CAST('' AS VARCHAR ) AS `TABLE_NAME`,
	CAST(0  AS SMALLINT) AS `NON_UNIQUE`,
	CAST('' AS VARCHAR ) AS `INDEX_QUALIFIER`,
	CAST('' AS VARCHAR ) AS `INDEX_NAME`,
	CAST(0  AS SMALLINT) AS `TYPE`,
	CAST(0  AS SMALLINT) AS `ORDINAL_POSITION`,
	CAST('' AS VARCHAR ) AS `COLUMN_NAME`,
	CAST('' AS CHAR(1) ) AS `ASC_OR_DESC`,
	CAST(0  AS INT     ) AS `CARDINALITY`,
	CAST(0  AS INT     ) AS `PAGES`,
	CAST('' AS VARCHAR ) AS `FILTER_CONDITION`
WHERE 1 < 0
".

(** ** The catalogue functions *)
Section Stubs.
Context {Engine SQLStatement : Type} `{EngineOps Engine SQLStatement}.

(** What the eight bodies have in common. *)
Definition empty_result (query : bytes) (fuel n : nat) (conn : bool) (h : OdbcHandleStmt) (e : Engine) (m : mem) : run Engine :=
  let '(ret, h) := ConvertHSTMT conn h in
  if negb (ret =? SQL_SUCCESS) then Some (Some (ret, h, e, m)) else ExecDirectStmt fuel n query h e m.

Definition SQLPrimaryKeys := empty_result primary_keys_query.
Definition SQLPrimaryKeysW := empty_result primary_keys_query.
Definition SQLForeignKeys := empty_result foreign_keys_query.
Definition SQLForeignKeysW := empty_result foreign_keys_query.
Definition SQLProcedureColumns := empty_result procedure_columns_query.
Definition SQLProcedureColumnsW := empty_result procedure_columns_query.
Definition SQLProcedures := empty_result procedures_query.
Definition SQLProceduresW := empty_result procedures_query.
Definition SQLColumnPrivileges := empty_result column_privileges_query.
Definition SQLColumnPrivilegesW := empty_result column_privileges_query.
Definition SQLTablePrivileges := empty_result table_privileges_query.
Definition SQLTablePrivilegesW := empty_result table_privileges_query.
Definition SQLSpecialColumns := empty_result special_columns_query.
Definition SQLSpecialColumnsW := empty_result special_columns_query.
Definition SQLStatistics := empty_result statistics_query.
Definition SQLStatisticsW := empty_result statistics_query.

(** [SQLCancel]: the interrupt is the engine's. *)
Definition SQLCancel (interrupt : Engine -> Engine) (conn : bool) (h : OdbcHandleStmt) (e : Engine) : Z * OdbcHandleStmt * Engine :=
  let '(ret, h) := ConvertHSTMT conn h in
  if negb (ret =? SQL_SUCCESS) then (ret, h, e) else (SQL_SUCCESS, h, interrupt e).
End Stubs.

(** ** The functions that say so *)
Definition SetNotImplemented (hdl : OdbcHandle) (d : OdbcDiagnostic) (func_name : bytes) : Z * OdbcHandle :=
  let '(ret, d) := SetDiagnosticRecord SQL_ERROR func_name (func_name ++ B" is not implemented") ST_HYC00 [] d in
  (ret, hdl <| odbc_diagnostic := Some d |>).

(** [None] is the null handle. The diagnostics are not cleaned first. *)
Definition not_implemented (func_name : bytes) (handle : option OdbcHandle) : Z * option OdbcHandle :=
  match ConvertHandle handle with
  | inl ret => (ret, handle)
  | inr (hdl, d) => let '(ret, hdl) := SetNotImplemented hdl d func_name in (ret, Some hdl)
  end.

Definition SQLNativeSql := not_implemented (B"SQLNativeSql").
Definition SQLNativeSqlW := not_implemented (B"SQLNativeSql").
Definition SQLBrowseConnect := not_implemented (B"SQLBrowseConnect").
Definition SQLBrowseConnectW := not_implemented (B"SQLBrowseConnect").
Definition SQLBulkOperations := not_implemented (B"SQLBulkOperations").
Definition SQLSetPos := not_implemented (B"SQLSetPos").
Definition SQLSetCursorName := not_implemented (B"SQLSetCursorName").
Definition SQLSetCursorNameW := not_implemented (B"SQLSetCursorNameW").
Definition SQLGetCursorName := not_implemented (B"SQLGetCursorName").
Definition SQLGetCursorNameW := not_implemented (B"SQLGetCursorNameW").

(** ** The shape of the results

    [empty_query] prints a query for columns with their types, in columns [wv] and
    [wt] wide; a column has the empty text or zero. *)
Inductive column_type := CT_VARCHAR | CT_CHAR1 | CT_SMALLINT | CT_INT.

Definition print_column_type (t : column_type) : bytes :=
  match t with CT_VARCHAR => B"VARCHAR" | CT_CHAR1 => B"CHAR(1)" | CT_SMALLINT => B"SMALLINT" | CT_INT => B"INT" end.
Definition print_value (t : column_type) : bytes :=
  match t with CT_VARCHAR | CT_CHAR1 => B"''" | CT_SMALLINT | CT_INT => B"0" end.

Definition pad (w : nat) (s : bytes) : bytes := s ++ replicate (w - length s) 32.

Definition print_column (wv wt : nat) (c : string * column_type) : bytes :=
  [9] ++ B"CAST(" ++ pad wv (print_value c.2) ++ B" AS " ++ pad wt (print_column_type c.2) ++ B") AS "
  ++ [34] ++ bytes_of_string c.1 ++ [34].

Fixpoint print_columns (wv wt : nat) (l : list (string * column_type)) : bytes :=
  match l with
  | [] => []
  | [c] => print_column wv wt c ++ [10]
  | c :: l' => print_column wv wt c ++ B"," ++ [10] ++ print_columns wv wt l'
  end.

Definition empty_query (wv wt : nat) (l : list (string * column_type)) : bytes :=
  [10] ++ B"SELECT" ++ [10] ++ print_columns wv wt l ++ B"WHERE 1 < 0" ++ [10].

(** Each catalogue function has the columns of its specification, by name, type and
    position, and no rows. *)
Lemma stub_columns :
  primary_keys_query = empty_query 0 0
      [("TABLE_CAT"%string, CT_VARCHAR); ("TABLE_SCHEM"%string, CT_VARCHAR); ("TABLE_NAME"%string, CT_VARCHAR);
       ("COLUMN_NAME"%string, CT_VARCHAR); ("KEY_SEQ"%string, CT_SMALLINT); ("PK_NAME"%string, CT_VARCHAR)]
  /\ foreign_keys_query = empty_query 0 0
      [("PKTABLE_CAT"%string, CT_VARCHAR); ("PKTABLE_SCHEM"%string, CT_VARCHAR); ("PKTABLE_NAME"%string, CT_VARCHAR);
       ("PKCOLUMN_NAME"%string, CT_VARCHAR); ("FKTABLE_CAT"%string, CT_VARCHAR); ("FKTABLE_SCHEM"%string, CT_VARCHAR);
       ("FKTABLE_NAME"%string, CT_VARCHAR); ("FKCOLUMN_NAME"%string, CT_VARCHAR); ("KEY_SEQ"%string, CT_SMALLINT);
       ("UPDATE_RULE"%string, CT_SMALLINT); ("DELETE_RULE"%string, CT_SMALLINT); ("FK_NAME"%string, CT_VARCHAR);
       ("PK_NAME"%string, CT_VARCHAR); ("DEFERRABILITY"%string, CT_SMALLINT)]
  /\ procedure_columns_query = empty_query 0 0
      [("PROCEDURE_CAT"%string, CT_VARCHAR); ("PROCEDURE_SCHEM"%string, CT_VARCHAR);
       ("PROCEDURE_NAME"%string, CT_VARCHAR); ("COLUMN_NAME"%string, CT_VARCHAR); ("COLUMN_TYPE"%string, CT_SMALLINT);
       ("DATA_TYPE"%string, CT_SMALLINT); ("TYPE_NAME"%string, CT_VARCHAR); ("COLUMN_SIZE"%string, CT_INT);
       ("BUFFER_LENGTH"%string, CT_INT); ("DECIMAL_DIGITS"%string, CT_SMALLINT);
       ("NUM_PREC_RADIX"%string, CT_SMALLINT); ("NULLABLE"%string, CT_SMALLINT); ("REMARKS"%string, CT_VARCHAR);
       ("COLUMN_DEF"%string, CT_VARCHAR); ("SQL_DATA_TYPE"%string, CT_SMALLINT);
       ("SQL_DATETIME_SUB"%string, CT_SMALLINT); ("CHAR_OCTET_LENGTH"%string, CT_INT);
       ("ORDINAL_POSITION"%string, CT_INT); ("IS_NULLABLE"%string, CT_VARCHAR)]
  /\ procedures_query = empty_query 0 0
      [("PROCEDURE_CAT"%string, CT_VARCHAR); ("PROCEDURE_SCHEM"%string, CT_VARCHAR);
       ("PROCEDURE_NAME"%string, CT_VARCHAR); ("NUM_INPUT_PARAMS"%string, CT_INT);
       ("NUM_OUTPUT_PARAMS"%string, CT_INT); ("NUM_RESULT_SETS"%string, CT_INT); ("REMARKS"%string, CT_VARCHAR);
       ("PROCEDURE_TYPE"%string, CT_SMALLINT)]
  /\ column_privileges_query = empty_query 0 0
      [("TABLE_CAT"%string, CT_VARCHAR); ("TABLE_SCHEM"%string, CT_VARCHAR); ("TABLE_NAME"%string, CT_VARCHAR);
       ("COLUMN_NAME"%string, CT_VARCHAR); ("GRANTOR"%string, CT_VARCHAR); ("GRANTEE"%string, CT_VARCHAR);
       ("PRIVILEGE"%string, CT_VARCHAR); ("IS_GRANTABLE"%string, CT_VARCHAR)]
  /\ table_privileges_query = empty_query 0 0
      [("TABLE_CAT"%string, CT_VARCHAR); ("TABLE_SCHEM"%string, CT_VARCHAR); ("TABLE_NAME"%string, CT_VARCHAR);
       ("GRANTOR"%string, CT_VARCHAR); ("GRANTEE"%string, CT_VARCHAR); ("PRIVILEGE"%string, CT_VARCHAR);
       ("IS_GRANTABLE"%string, CT_VARCHAR)]
  /\ special_columns_query = empty_query 2 8
      [("SCOPE"%string, CT_SMALLINT); ("COLUMN_NAME"%string, CT_VARCHAR); ("DATA_TYPE"%string, CT_SMALLINT);
       ("TYPE_NAME"%string, CT_VARCHAR); ("COLUMN_SIZE"%string, CT_INT); ("BUFFER_LENGTH"%string, CT_INT);
       ("DECIMAL_DIGITS"%string, CT_SMALLINT); ("PSEUDO_COLUMN"%string, CT_SMALLINT)]
  /\ statistics_query = empty_query 2 8
      [("TABLE_CAT"%string, CT_VARCHAR); ("TABLE_SCHEM"%string, CT_VARCHAR); ("TABLE_NAME"%string, CT_VARCHAR);
       ("NON_UNIQUE"%string, CT_SMALLINT); ("INDEX_QUALIFIER"%string, CT_VARCHAR); ("INDEX_NAME"%string, CT_VARCHAR);
       ("TYPE"%string, CT_SMALLINT); ("ORDINAL_POSITION"%string, CT_SMALLINT); ("COLUMN_NAME"%string, CT_VARCHAR);
       ("ASC_OR_DESC"%string, CT_CHAR1); ("CARDINALITY"%string, CT_INT); ("PAGES"%string, CT_INT);
       ("FILTER_CONDITION"%string, CT_VARCHAR)].
Proof. repeat split; vm_compute; reflexivity. Qed.

(** The functions that are not implemented fail with HYC00 on every handle, and add
    a record behind the ones that are there. *)
Lemma not_implemented_reports func_name hdl d : odbc_diagnostic hdl = Some d ->
  exists r, not_implemented func_name (Some hdl) =
      (SQL_ERROR, Some (hdl <| odbc_diagnostic := Some (AddDiagRecord r d) |>))
    /\ sql_diag_sqlstate r = B"HYC00".
Proof. intros Hd. unfold not_implemented, ConvertHandle, SetNotImplemented. rewrite Hd. by eexists. Qed.
