(* ===== verification/Independent.v ===== *)
(** * Calls on different statements

    The order of two calls on different statements does not matter when the statements
    share no explicit descriptor: each one writes its own descriptors only. *)

From S2P Require Import Prelude OdbcConst Memory Diagnostic Descriptor Params Fetch Stmt Handles HandleCalls.

(** ** What a store writes *)
Definition descriptor_at (l : list OdbcHandleDesc) (q : nat) : option OdbcHandleDesc := List.find (fun x => Nat.eqb (desc_id x) q) l.

Lemma descriptor_at_Some l q d : descriptor_at l q = Some d -> d ∈ l /\ desc_id d = q.
Proof.
  intros E. apply List.find_some in E as [Hin E]. split; [by apply list_elem_of_In|]. by apply Nat.eqb_eq.
Qed.

Lemma descriptor_at_None l q : descriptor_at l q = None -> q ∉ (desc_id <$> l).
Proof.
  intros E Hq. apply list_elem_of_fmap in Hq as (d & -> & Hd). apply list_elem_of_In in Hd.
  pose proof (List.find_none _ _ E d Hd) as Hne. cbn in Hne. by rewrite Nat.eqb_refl in Hne.
Qed.

Lemma descriptor_at_outside l q : q ∉ (desc_id <$> l) -> descriptor_at l q = None.
Proof.
  intros Hq. destruct (descriptor_at l q) as [d|] eqn:E; [|done]. apply descriptor_at_Some in E as [Hd <-]. destruct Hq. by apply list_elem_of_fmap_2.
Qed.

Definition written (l : list OdbcHandleDesc) (q : nat) (y : object) : object :=
  match y with
  | ODesc x => match descriptor_at l q with Some d => ODesc (x <| de_rest := d |>) | None => ODesc x end
  | _ => y
  end.

Lemma store_lookup h s o hs q : wf h -> h !! s = Some (OStmt o) -> represents h s o hs ->
  store_stmt s hs h !! q = if decide (q = s) then Some (OStmt (o <| so_rest := hs |>)) else written (descriptors_of hs) q <$> h !! q.
Proof.
  intros W Ho R. destruct (decide (q = s)) as [->|Hq]; [by apply stored_self|].
  destruct (h !! q) as [[v|b|u|x]|] eqn:E; try (by rewrite (stored_others h s o hs Ho R), E by (done || by rewrite E)).
  cbn [fmap option_fmap option_map written]. destruct (descriptor_at (descriptors_of hs) q) as [d|] eqn:Ed.
  - apply descriptor_at_Some in Ed as [Hd <-]. by apply (stored_desc h s o hs W Ho R).
  - apply descriptor_at_None in Ed. by apply (stored_unshared h s o hs Ho R).
Qed.

(** ** Statements that share nothing *)
Definition share_nothing (h : heap) (o1 o2 : StmtObject) : Prop :=
  forall q, explicit h q -> q ∈ [so_cur_apd o1; so_cur_ard o1] -> q ∉ [so_cur_apd o2; so_cur_ard o2].

Lemma represented_ids h s o hs q : wf h -> h !! s = Some (OStmt o) -> represents h s o hs -> q ∈ (desc_id <$> descriptors_of hs) ->
  q ∈ implicit o \/ (explicit h q /\ q ∈ [so_cur_apd o; so_cur_ard o]).
Proof.
  intros W Ho R Hq. destruct (descriptors_split h s o hs W Ho R q Hq) as [Hi|Hx]; [by left|right; split; [done|]].
  destruct R as [[A1 _] [A2 _] [A3 _] [A4 _] A5 A6 _ _]. unfold descriptors_of in Hq. rewrite !fmap_app, !elem_of_app in Hq. cbn [fmap list_fmap] in Hq.
  rewrite A1, A2, A3, A4 in Hq. fold (implicit o) in Hq. destruct Hq as [Hq|[Hq|Hq]]; [by destruct (Hx s o Ho)| |].
  - destruct (cur_explicit_apd (param_desc hs)) as [c|]; [|by apply not_elem_of_nil in Hq]. apply list_elem_of_singleton in Hq as ->.
    destruct A5 as [-> _]. apply elem_of_cons. by left.
  - destruct (cur_explicit_ard (row_desc hs)) as [c|]; [|by apply not_elem_of_nil in Hq]. apply list_elem_of_singleton in Hq as ->.
    destruct A6 as [-> _]. rewrite !elem_of_cons. tauto.
Qed.

Section Pair.
Context (h : heap) (W : wf h) (s1 s2 : nat) (o1 o2 : StmtObject) (Hne : s1 <> s2).
Context (H1 : h !! s1 = Some (OStmt o1)) (H2 : h !! s2 = Some (OStmt o2)) (Hsh : share_nothing h o1 o2).

Lemma apart x1 x2 q : represents h s1 o1 x1 -> represents h s2 o2 x2 -> q ∈ (desc_id <$> descriptors_of x1) -> q ∉ (desc_id <$> descriptors_of x2).
Proof.
  intros R1 R2 Hq1 Hq2. destruct (represented_ids h s1 o1 x1 q W H1 R1 Hq1) as [I1|[X1 C1]], (represented_ids h s2 o2 x2 q W H2 R2 Hq2) as [I2|[X2 C2]].
  - apply Hne. by apply (wf_owner _ W s1 s2 o1 o2 q).
  - by apply (X2 s1 o1).
  - by apply (X1 s2 o2).
  - by apply (Hsh q).
Qed.

(** A call on the first statement does not show in the second. *)
Lemma other_unchanged x1 hs2 : represents h s1 o1 x1 -> load_stmt h s2 = Some hs2 -> represents h s2 o2 hs2 ->
  load_stmt (store_stmt s1 x1 h) s2 = Some hs2 /\ store_stmt s1 x1 h !! s2 = Some (OStmt o2)
  /\ find_dbc (store_stmt s1 x1 h) (so_dbc o2) = find_dbc h (so_dbc o2) /\ wf (store_stmt s1 x1 h).
Proof.
  intros R1 Hl R2. split; [|split; [|split; [by apply (stored_find_dbc h s1 o1)|by apply (stored_wf h s1 o1)]]].
  - rewrite (stored_other_stmt h s1 o1 x1 W H1 R1 s2 o2) by done. rewrite Hl. cbn [fmap option_fmap option_map]. f_equal.
    assert (forall d, d ∈ descriptors_of hs2 -> rewritten (descriptors_of x1) d = d) as Hid.
    { intros d Hd. apply rewritten_outside. intros Hq. apply (apart x1 hs2 (desc_id d) R1 R2 Hq). by apply list_elem_of_fmap_2. }
    unfold with_shared. unfold descriptors_of in Hid at 2. destruct hs2 as [? ? ? ? ? ? ? ? ? ? [a i ca ? ? ? ? ?] [r ir cr]]. cbn in Hid |- *. f_equal.
    + f_equal. destruct ca as [c|]; [|done]. cbn. f_equal. apply Hid. rewrite !elem_of_cons. cbn. rewrite ?elem_of_cons. tauto.
    + f_equal. destruct cr as [c|]; [|done]. cbn. f_equal. apply Hid. rewrite !elem_of_cons, elem_of_app. cbn. rewrite ?elem_of_cons. tauto.
  - rewrite (store_lookup h s1 o1 x1 s2 W H1 R1), decide_False by congruence. by rewrite H2.
Qed.
End Pair.

(** Two stores of statements that share nothing, in either order. *)
Lemma stores_commute h s1 s2 o1 o2 x1 x2 : wf h -> s1 <> s2 -> h !! s1 = Some (OStmt o1) -> h !! s2 = Some (OStmt o2) -> share_nothing h o1 o2 ->
  represents h s1 o1 x1 -> represents h s2 o2 x2 ->
  represents (store_stmt s1 x1 h) s2 o2 x2 -> represents (store_stmt s2 x2 h) s1 o1 x1 ->
  wf (store_stmt s1 x1 h) -> wf (store_stmt s2 x2 h) -> store_stmt s1 x1 h !! s2 = Some (OStmt o2) -> store_stmt s2 x2 h !! s1 = Some (OStmt o1) ->
  store_stmt s2 x2 (store_stmt s1 x1 h) = store_stmt s1 x1 (store_stmt s2 x2 h).
Proof.
  intros W Hne H1 H2 Hsh R1 R2 R2' R1' Wa Wb H2' H1'. apply map_eq. intros q.
  rewrite (store_lookup (store_stmt s1 x1 h) s2 o2 x2 q Wa H2' R2'), (store_lookup (store_stmt s2 x2 h) s1 o1 x1 q Wb H1' R1'),
    (store_lookup h s1 o1 x1 q W H1 R1), (store_lookup h s2 o2 x2 q W H2 R2).
  destruct (decide (q = s2)) as [->|N2]; [by rewrite decide_False by congruence|].
  destruct (decide (q = s1)) as [->|N1]; [done|].
  destruct (h !! q) as [[v|b|u|x]|]; try done. cbn [fmap option_fmap option_map written]. f_equal.
  destruct (descriptor_at (descriptors_of x1) q) as [d1|] eqn:E1; destruct (descriptor_at (descriptors_of x2) q) as [d2|] eqn:E2; cbn [written];
    rewrite ?E1, ?E2; try done.
  apply descriptor_at_Some in E1 as [Hd1 <-], E2 as [Hd2 E2]. destruct (apart h W s1 s2 o1 o2 Hne H1 H2 Hsh x1 x2 (desc_id d1) R1 R2).
  - by apply list_elem_of_fmap_2.
  - rewrite <- E2. by apply list_elem_of_fmap_2.
Qed.

Lemma call_stmt_ok h s o d f hs ret hs' : wf h -> h !! s = Some (OStmt o) -> find_dbc h (so_dbc o) = Some d -> load_stmt h s = Some hs ->
  f (conn (do_rest d)) hs = Some (ret, hs') -> call_stmt f s h = Some (ret, store_stmt s (refresh hs') h).
Proof.
  intros W Ho Hd Hhs Hf. unfold call_stmt. rewrite bool_decide_eq_false_2 by (intros ->; by rewrite (wf_null _ W) in Ho).
  rewrite Ho, Hd. cbn [mbind option_bind]. rewrite Hhs. cbn [mbind option_bind]. by rewrite Hf.
Qed.

(** The first call, then the second. *)
Lemma calls_in_order h s1 s2 o1 o2 d1 d2 f1 f2 hs1 hs2 r1 r2 hs1' hs2' : wf h -> s1 <> s2 ->
  h !! s1 = Some (OStmt o1) -> h !! s2 = Some (OStmt o2) -> share_nothing h o1 o2 ->
  h !! so_dbc o1 = Some (ODbc d1) -> h !! so_dbc o2 = Some (ODbc d2) -> load_stmt h s1 = Some hs1 -> load_stmt h s2 = Some hs2 ->
  f1 (conn (do_rest d1)) hs1 = Some (r1, hs1') -> f2 (conn (do_rest d2)) hs2 = Some (r2, hs2') ->
  pointers hs1' = pointers hs1 -> pointers hs2' = pointers hs2 ->
  let ha := store_stmt s1 (refresh hs1') h in
  call_stmt f1 s1 h = Some (r1, ha) /\ call_stmt f2 s2 ha = Some (r2, store_stmt s2 (refresh hs2') ha)
  /\ represents h s1 o1 (refresh hs1') /\ represents ha s2 o2 (refresh hs2') /\ wf ha /\ ha !! s2 = Some (OStmt o2).
Proof.
  intros W Hne H1 H2 Hsh D1 D2 L1 L2 F1 F2 P1 P2 ha. destruct (load_stmt_wf h s1 o1 W H1) as (x1 & E1 & R1). destruct (load_stmt_wf h s2 o2 W H2) as (x2 & E2 & R2).
  assert (x1 = hs1) as -> by congruence. assert (x2 = hs2) as -> by congruence. pose proof (refresh_pointers h s1 o1 hs1 hs1' R1 P1) as R1'.
  destruct (other_unchanged h W s1 s2 o1 o2 Hne H1 H2 Hsh (refresh hs1') hs2 R1' L2 R2) as (La & Ha2 & Da & Wa). fold ha in La, Ha2, Da, Wa.
  destruct (load_stmt_wf ha s2 o2 Wa Ha2) as (y2 & Ey & Ry). assert (y2 = hs2) as -> by congruence.
  split; [by apply (call_stmt_ok h s1 o1 d1 f1 hs1); try apply find_dbc_Some|]. split.
  { apply (call_stmt_ok ha s2 o2 d2 f2 hs2); try done. rewrite Da. by apply find_dbc_Some. }
  split; [done|]. split; [by apply (refresh_pointers ha s2 o2 hs2 hs2')|]. by split.
Qed.

Lemma share_nothing_sym h o1 o2 : share_nothing h o1 o2 -> share_nothing h o2 o1.
Proof. intros Hsh q Hx H2 H1. by apply (Hsh q). Qed.


(** ** An example *)
Lemma no_explicit_shares_nothing h s o1 o2 : h !! s = Some (OStmt o1) -> so_cur_apd o1 ∈ implicit o1 -> so_cur_ard o1 ∈ implicit o1 -> share_nothing h o1 o2.
Proof.
  intros Ho Ha Hr q Hx Hq. destruct (Hx s o1 Ho). rewrite !elem_of_cons in Hq. destruct Hq as [->|[->|Hq]]; [done|done|by apply not_elem_of_nil in Hq].
Qed.

