(* ===== verification/Frames.v ===== *)
(** * What the calls on a statement leave alone

    The descriptors of a statement are objects of the heap, and the operations work on
    copies of them. Here every entry point on a statement handle is shown to leave the
    identities of the descriptors, of the connection and of the statement behind them as
    they are, so that writing the copies back is what the code does in place. The rules
    are those of a logic of results: [leads P r] is that every statement in the result
    [r] of an operation has [P], whatever the shape of the result. *)

From S2P Require Import Prelude OdbcConst Memory Diagnostic Descriptor Params Fetch GetData Stmt Attributes ColumnInfo MetadataApi Handles HandleCalls Stubs.

(** ** Properties of results *)
Class Leads (T : Type) := {
  leads : (OdbcHandleStmt -> Prop) -> T -> Prop;
  leads_mono : forall P Q r, (forall h, P h -> Q h) -> leads P r -> leads Q r
}.

#[export] Program Instance leads_stmt : Leads OdbcHandleStmt := {| leads := fun P h => P h |}.
Next Obligation. intros P Q r HPQ. exact (HPQ r). Qed.
#[export] Program Instance leads_ret : Leads (Z * OdbcHandleStmt) | 1 := {| leads := fun P r => P r.2 |}.
Next Obligation. intros P Q r HPQ. exact (HPQ r.2). Qed.
#[export] Program Instance leads_with {A C} `{Leads A} : Leads (A * C) | 2 := {| leads := fun P r => leads P r.1 |}.
Next Obligation. intros A C ? P Q [a b] HPQ. exact (leads_mono P Q a HPQ). Qed.
#[export] Program Instance leads_option {A} `{Leads A} : Leads (option A) :=
  {| leads := fun P r => match r with Some a => leads P a | None => True end |}.
Next Obligation. intros A ? P Q [a|] HPQ; [exact (leads_mono P Q a HPQ)|done]. Qed.

Lemma leads_bind {A C} `{Leads A, Leads C} (P Q : OdbcHandleStmt -> Prop) (r : option A) (k : A -> option C) :
  leads Q r -> (forall a, leads Q a -> leads P (k a)) -> leads P (r ≫= k).
Proof. destruct r as [a|]; [intros Hr Hk; exact (Hk a Hr)|done]. Qed.

(** A value that holds no statement. *)
Lemma leads_bind_value {A C} `{Leads C} (P : OdbcHandleStmt -> Prop) (r : option A) (k : A -> option C) :
  (forall a, r = Some a -> leads P (k a)) -> leads P (r ≫= k).
Proof. destruct r as [a|]; [intros Hk; exact (Hk a eq_refl)|done]. Qed.

Lemma leads_Some {A} `{Leads A} (P : OdbcHandleStmt -> Prop) (r : option A) a : leads P r -> r = Some a -> leads P a.
Proof. by intros Hr ->. Qed.
Arguments leads_Some {A _ P r a}.

(** Case analysis along an operation, using what is known of the operations it calls. *)
Create HintDb frame.

Ltac simpl_leads_in H := cbn [leads leads_stmt leads_ret leads_with leads_option fst snd] in H.
Ltac simpl_leads := cbn [leads leads_stmt leads_ret leads_with leads_option fst snd].

Ltac frame_step :=
  lazymatch goal with
  | |- leads ?P (?r ≫= _) =>
      first [apply (leads_bind P P r); [solve [frame]|let a := fresh "a" in let H := fresh "Ha" in intros a H]
            |apply (leads_bind_value P r); let a := fresh "a" in intros a _]
  | |- leads ?P (match ?x with _ => _ end) =>
      first [let H := fresh "Hx" in assert (leads P x) as H by solve [frame]; destruct x; simpl_leads_in H
            |destruct x]
  | |- leads ?P (Some ?x) => change (leads P x)
  | |- leads ?P (let x := ?y in _) => cbv zeta
  end
with frame :=
  try solve [exact I|assumption|eauto 3 with frame]; repeat frame_step;
  try solve [exact I|assumption|eauto 3 with frame|simpl_leads; eauto 4 with frame].

(** ** Parameter descriptors *)
Definition same_objects (pd pd' : ParameterDescriptor) : Prop :=
  object_of (apd pd') = object_of (apd pd) /\ object_of (ipd pd') = object_of (ipd pd)
  /\ object_of <$> cur_explicit_apd pd' = object_of <$> cur_explicit_apd pd.

#[export] Instance same_objects_preorder : PreOrder same_objects.
Proof. split; [done|]. intros pd1 pd2 pd3 (A1 & A2 & A3) (B1 & B2 & B3). split; [congruence|]. split; congruence. Qed.

Lemma SetValue_values fuel i pd m ret pd' m' : SetValue fuel i pd m = Some (ret, pd', m') -> exists vs, pd' = pd <| values := vs |>.
Proof.
  assert (pd = pd <| values := values pd |>) as Hsame by by destruct pd.
  assert (forall v, exists vs, SetValue_at v i pd = pd <| values := vs |>) as Hset.
  { intros v. unfold SetValue_at. case_match; by eexists. }
  unfold SetValue, mbind, option_bind. intros H. repeat case_match; simplify_eq; eauto.
Qed.

Lemma GetParamValues_loop_objects fuel dsn n : forall i out pd diag m ret out' pd' diag' m',
  GetParamValues_loop fuel dsn n i out pd diag m = Some (ret, out', pd', diag', m') -> same_objects pd pd'.
Proof.
  induction n as [|n IH]; intros i out pd diag m ret out' pd' diag' m'; cbn [GetParamValues_loop]; [by intros [= <- <- <- <- <-]|].
  destruct (SetValue fuel i pd m) as [[[ret1 pd1] m1]|] eqn:E; [|done]. cbn [mbind option_bind].
  apply SetValue_values in E as [vs ->]. assert (same_objects pd (pd <| values := vs |>)) as H1 by done.
  destruct (_ =? SQL_NEED_DATA); [by intros [= <- <- <- <- <-]|]. destruct (_ && _); [by intros [= <- <- <- <- <-]|].
  destruct (GetNextValue _ _) as [v|]; [|done]. cbn [mbind option_bind]. intros E. etrans; [exact H1|]. by apply IH in E.
Qed.

Lemma GetParamValues_objects fuel dsn pd diag m ret out pd' diag' m' :
  GetParamValues fuel dsn pd diag m = Some (ret, out, pd', diag', m') -> same_objects pd pd'.
Proof.
  unfold GetParamValues. destruct (zlen _ =? 0); [by intros [= <- <- <- <- <-]|]. apply GetParamValues_loop_objects.
Qed.

Lemma SetSQLDescDataPtr_objects i q pd0 pd m pd' : same_objects pd0 pd -> SetSQLDescDataPtr i q pd m = Some pd' -> same_objects pd0 pd'.
Proof.
  intros H0. unfold SetSQLDescDataPtr. destruct (_ || _); [|done]. intros [= <-]. etrans; [exact H0|].
  unfold update_cur_apd. by destruct pd as [a j [c|] ? ? ? ? ?].
Qed.

Lemma PutData_objects alloc q n pd m ret pd' m' : PutData alloc q n pd m = Some (ret, pd', m') -> same_objects pd pd'.
Proof.
  assert (same_objects pd pd) as Hr by done.
  assert (forall l i q' m1 pd', SetSQLDescDataPtr i q' (pd <| pool_allocated_ptr ::= l |>) m1 = Some pd' -> same_objects pd pd') as Hpool.
  { intros l i q' m1 pd1. by apply SetSQLDescDataPtr_objects. }
  assert (forall l i q' m1 pd', SetSQLDescDataPtr i q' (pd <| cur_param_idx ::= l |>) m1 = Some pd' -> same_objects pd pd') as Hidx.
  { intros l i q' m1 pd1. by apply SetSQLDescDataPtr_objects. }
  unfold PutData, PutCharData, FillParamCharDataBuffer, FillCurParamCharSet, mbind, option_bind. intros H.
  repeat case_match; simplify_eq; try done;
    match goal with E : SetSQLDescDataPtr _ _ _ _ = Some _ |- _ => first [apply Hpool in E|apply Hidx in E]; exact E end.
Qed.

(** ** The statement's pointers are kept *)
Section Frame.
Context (p : bytes * list (nat * bytes * option stmt_ref) * option (nat * bytes * option stmt_ref) * option (nat * bytes * option stmt_ref)).

Definition points (h : OdbcHandleStmt) : Prop := pointers h = p.
#[local] Hint Extern 1 (points _) => assumption : frame.

Lemma points_error ret c msg st h : points h -> leads points (stmt_error ret c msg st h).
Proof. intros Hp. exact (eq_trans (pointers_error ret c msg st h) Hp). Qed.
#[local] Hint Resolve points_error : frame.

Lemma points_error_no_server c msg st h : points h -> leads points (Stmt_error_no_server c msg st h).
Proof. by intros Hp. Qed.
#[local] Hint Resolve points_error_no_server : frame.

Lemma points_params h pd : points h -> object_of (apd pd) = object_of (apd (param_desc h)) ->
  object_of (ipd pd) = object_of (ipd (param_desc h)) ->
  object_of <$> cur_explicit_apd pd = object_of <$> cur_explicit_apd (param_desc h) -> points (h <| param_desc := pd |>).
Proof.
  unfold points. intros <- E1 E2 E3. unfold pointers. cbn [map].
  change (param_desc (h <| param_desc := pd |>)) with pd. by rewrite E1, E2, E3.
Qed.

Lemma points_ird h f : points h -> (forall d, object_of (f d) = object_of d) ->
  points (h <| row_desc ::= fun rd => rd <| ird ::= f |> |>).
Proof.
  unfold points. intros <- Hf. unfold pointers. cbn [map].
  change (ird (row_desc (h <| row_desc ::= fun rd => rd <| ird ::= f |> |>))) with (f (ird (row_desc h))). by rewrite Hf.
Qed.

(** *** Converting the handle *)
Lemma points_ConvertHSTMT conn h : points h -> leads points (ConvertHSTMT conn h).
Proof. intros Hp. unfold ConvertHSTMT. frame. Qed.
#[local] Hint Resolve points_ConvertHSTMT : frame.

Lemma points_ConvertHSTMTPrepared conn h : points h -> leads points (ConvertHSTMTPrepared conn h).
Proof. intros Hp. unfold ConvertHSTMTPrepared. frame. Qed.
#[local] Hint Resolve points_ConvertHSTMTPrepared : frame.

Lemma points_ConvertHSTMTResult conn h : points h -> leads points (ConvertHSTMTResult conn h).
Proof. intros Hp. unfold ConvertHSTMTResult. frame. Qed.
#[local] Hint Resolve points_ConvertHSTMTResult : frame.

(** *** The cursor *)
Lemma points_FetchNext h : points h -> leads points (FetchNext h).
Proof. intros Hp. unfold FetchNext. frame. Qed.
#[local] Hint Resolve points_FetchNext : frame.

Lemma points_Materialize_loop fuel h : points h -> leads points (Materialize_loop fuel h).
Proof. revert h. induction fuel as [|fuel IH]; intros h Hp; cbn [Materialize_loop]; frame. Qed.
#[local] Hint Resolve points_Materialize_loop : frame.

Lemma points_Materialize fuel h : points h -> leads points (Materialize fuel h).
Proof. intros Hp. unfold Materialize. frame. Qed.

Lemma points_SetAbsoluteCurrentChunk fuel off h : points h -> leads points (SetAbsoluteCurrentChunk fuel off h).
Proof. revert off h. induction fuel as [|fuel IH]; intros off h Hp; cbn [SetAbsoluteCurrentChunk]; frame. Qed.
#[local] Hint Resolve points_SetAbsoluteCurrentChunk : frame.

Lemma points_SetPriorCurrentChunk h : points h -> leads points (SetPriorCurrentChunk h).
Proof. intros Hp. unfold SetPriorCurrentChunk. frame. Qed.
#[local] Hint Resolve points_SetPriorCurrentChunk : frame.

Lemma points_SetFirstCurrentChunk h : points h -> leads points (SetFirstCurrentChunk h).
Proof. intros Hp. unfold SetFirstCurrentChunk. frame. Qed.
#[local] Hint Resolve points_SetFirstCurrentChunk : frame.

Lemma points_FetchNextChunk fuel o off h : points h -> leads points (FetchNextChunk fuel o off h).
Proof. intros Hp. unfold FetchNextChunk. frame. Qed.
#[local] Hint Resolve points_FetchNextChunk : frame.

Lemma points_FetchFirst h : points h -> leads points (FetchFirst h).
Proof.
  intros Hp. unfold FetchFirst. set (h1 := h <| odbc_fetcher ::= _ |>).
  assert (leads points (FetchNextChunk 1 SQL_FETCH_FIRST 0 h1)) as H1 by by apply points_FetchNextChunk.
  destruct (FetchNextChunk 1 SQL_FETCH_FIRST 0 h1) as [[[ret h2]|]|]; [exact H1|done|done].
Qed.
#[local] Hint Resolve points_FetchFirst : frame.

Lemma points_IncreaseRowCount h : points h -> leads points (IncreaseRowCount h).
Proof. intros Hp. unfold IncreaseRowCount. frame. Qed.
#[local] Hint Resolve points_IncreaseRowCount : frame.

Section Fill.
Context `{GD : GetDataOp}.

Lemma points_get_data h col type q len ind m : points h -> leads points (get_data h col type q len ind m).
Proof.
  intros Hp. destruct (get_data h col type q len ind m) as [[[ret h'] m']|] eqn:E; [|exact I].
  apply get_data_cursor in E as (last & diag & ->). exact Hp.
Qed.
#[local] Hint Resolve points_get_data : frame.

Lemma points_fill_row skip target row_idx n col ret h m : points h -> leads points (fill_row skip target row_idx n col ret h m).
Proof. revert col ret h m. induction n as [|n IH]; intros col ret h m Hp; cbn [fill_row]; frame. Qed.
#[local] Hint Resolve points_fill_row : frame.

Lemma points_fill_rows skip target n row_idx ret h m : points h -> leads points (fill_rows skip target n row_idx ret h m).
Proof. revert row_idx ret h m. induction n as [|n IH]; intros row_idx ret h m Hp; cbn [fill_rows]; frame. Qed.
#[local] Hint Resolve points_fill_rows : frame.

Lemma points_ColumnWise h m : points h -> leads points (ColumnWise h m).
Proof. intros Hp. unfold ColumnWise. frame. Qed.
#[local] Hint Resolve points_ColumnWise : frame.

Lemma points_RowWise h m : points h -> leads points (RowWise h m).
Proof. intros Hp. unfold RowWise. frame. Qed.
#[local] Hint Resolve points_RowWise : frame.

Lemma points_FetchStmtResult fuel o off h m : points h -> leads points (FetchStmtResult fuel o off h m).
Proof. intros Hp. unfold FetchStmtResult, Fetch. frame. Qed.
End Fill.
#[local] Hint Resolve points_get_data points_FetchStmtResult : frame.

(** *** Parameters *)
Lemma points_GetParamValues fuel dsn h m : points h ->
  match GetParamValues fuel dsn (param_desc h) (stmt_diagnostic h) m with
  | Some (_, _, pd, diag, _) => points (h <| param_desc := pd |> <| stmt_diagnostic := diag |>)
  | None => True
  end.
Proof.
  intros Hp. destruct (GetParamValues _ _ _ _ _) as [[[[[ret vs] pd] diag] m']|] eqn:E; [|done].
  apply GetParamValues_objects in E as (E1 & E2 & E3). by apply points_params.
Qed.

Lemma points_SingleExecuteStmt `{EngineOps Engine SQLStatement} fuel h e m : points h -> leads points (SingleExecuteStmt fuel h e m).
Proof.
  intros Hp. unfold SingleExecuteStmt. set (h1 := h <| res := None |> <| odbc_fetcher ::= ClearChunks |> <| is_open := false |>).
  pose proof (points_GetParamValues fuel (stmt_dsn h1) h1 (store_opt 8 m (rows_fetched_ptr h1) 0) Hp) as H1.
  apply leads_bind_value. intros [[[[ret vs] pd] diag] m'] E. rewrite E in H1. frame.
Qed.
#[local] Hint Resolve points_SingleExecuteStmt : frame.

Lemma points_ResetParams n h : points h -> points (h <| param_desc ::= ResetParams n |>).
Proof. intros Hp. apply (points_params h (ResetParams n (param_desc h)) Hp); by destruct (param_desc h) as [a i [c|] ? ? ? ? ?]. Qed.

Section Engine.
Context {Engine SQLStatement : Type} `{EO : EngineOps Engine SQLStatement}.

Lemma points_FillIRD h : points h -> leads points (FillIRD h).
Proof.
  intros Hp. unfold FillIRD. apply leads_bind_value. intros s _. destruct (_ <? _); [exact I|]. by apply points_ird.
Qed.
#[local] Hint Resolve points_FillIRD : frame.

Lemma points_FinalizeStmt h : points h -> leads points (FinalizeStmt h).
Proof.
  intros Hp. unfold FinalizeStmt. apply leads_bind_value. intros s _. destruct (ps_error s); [frame|].
  destruct (negb (bound_all_parameters s)).
  - pose proof (points_error SQL_SUCCESS_WITH_INFO (B"PrepareStmt") (B"Not all parameters are bound") ST_01000 h Hp) as H1.
    destruct (stmt_error _ _ _ _ h) as [ret h1]. apply (leads_bind points points); [|intros a Ha; exact Ha].
    apply points_FillIRD. exact (points_ResetParams _ _ H1).
  - apply (leads_bind points points); [|intros a Ha; exact Ha]. apply points_FillIRD. exact (points_ResetParams _ _ Hp).
Qed.
#[local] Hint Resolve points_FinalizeStmt : frame.

Lemma points_execute_loop fuel n h e m : points h -> leads points (execute_loop fuel n h e m).
Proof. revert h e m. induction n as [|n IH]; intros h e m Hp; cbn [execute_loop]; frame. Qed.
#[local] Hint Resolve points_execute_loop : frame.

Lemma points_after_execution ret h : points h -> leads points (after_execution ret h).
Proof. intros Hp. unfold after_execution. frame. Qed.
#[local] Hint Resolve points_after_execution : frame.

Lemma points_BatchExecuteStmt fuel n h e m : points h -> leads points (BatchExecuteStmt fuel n h e m).
Proof. intros Hp. unfold BatchExecuteStmt. frame. Qed.
#[local] Hint Resolve points_BatchExecuteStmt : frame.

Lemma points_exec_statements fuel n l ret info h e m : points h -> leads points (exec_statements fuel n l ret info h e m).
Proof. revert ret info h e m. induction l as [|s l IH]; intros ret info h e m Hp; cbn [exec_statements]; frame. Qed.
#[local] Hint Resolve points_exec_statements : frame.

Lemma points_ExecDirectStmt fuel n q h e m : points h -> leads points (ExecDirectStmt fuel n q h e m).
Proof. intros Hp. unfold ExecDirectStmt. frame. Qed.
#[local] Hint Resolve points_ExecDirectStmt : frame.

(** *** The entry points *)
Context `{GD : GetDataOp}.

Lemma points_PrepareText conn q h e m : points h -> leads points (PrepareText conn q h e m).
Proof. intros Hp. unfold PrepareText, lift. frame. Qed.

Lemma points_SQLExecute fuel n conn h e m : points h -> leads points (SQLExecute fuel n conn h e m).
Proof. intros Hp. unfold SQLExecute. frame. Qed.

Lemma points_ExecDirectText fuel n conn q h e m : points h -> leads points (ExecDirectText fuel n conn q h e m).
Proof. intros Hp. unfold ExecDirectText. frame. Qed.

Lemma points_ExecuteBeforeFetch fuel conn h e m : points h -> leads points (ExecuteBeforeFetch fuel conn h e m).
Proof. intros Hp. unfold ExecuteBeforeFetch. frame. Qed.
#[local] Hint Resolve points_ExecuteBeforeFetch : frame.

Lemma points_SQLFetch fuel conn h e m : points h -> leads points (SQLFetch fuel conn h e m).
Proof. intros Hp. unfold SQLFetch. frame. Qed.

Lemma points_with_result conn h (e : Engine) m f : points h -> (forall h, points h -> leads points (f h)) -> leads points (with_result conn h e m f).
Proof. intros Hp Hf. unfold with_result. frame. Qed.

Lemma points_SQLFetchScroll fuel conn o off h (e : Engine) m : points h -> leads points (SQLFetchScroll fuel conn o off h e m).
Proof. intros Hp. unfold SQLFetchScroll. destruct (bool_decide _); [apply points_with_result; [done|intros h1 H1]|]; frame. Qed.

Lemma points_SQLGetData conn col type q len ind h (e : Engine) m : points h -> leads points (SQLGetData conn col type q len ind h e m).
Proof. intros Hp. apply points_with_result; [done|]. intros h1 H1. frame. Qed.

Lemma points_SQLRowCount conn q h (e : Engine) m : points h -> leads points (SQLRowCount conn q h e m).
Proof. intros Hp. apply points_with_result; [done|]. intros h1 H1. frame. Qed.

Lemma points_SQLMoreResults fuel conn h e m : points h -> leads points (SQLMoreResults fuel conn h e m).
Proof. intros Hp. unfold SQLMoreResults. frame. Qed.

Lemma points_on_handle conn h f : points h -> (forall h, points h -> leads points (f h)) -> leads points (on_handle conn h f).
Proof. intros Hp Hf. unfold on_handle. frame. Qed.

Lemma points_SQLBindCol conn col type q len ind h : points h -> leads points (SQLBindCol conn col type q len ind h).
Proof. intros Hp. unfold SQLBindCol. destruct (_ <=? 0); [exact I|]. apply points_on_handle; [done|]. intros h1 H1. cbv zeta. by destruct (_ <? _). Qed.

Lemma points_SQLBindParameter conn n io vt pt cs dd q len ind h : points h -> leads points (SQLBindParameter conn n io vt pt cs dd q len ind h).
Proof.
  intros Hp. apply points_on_handle; [done|]. intros h1 H1. exact (eq_trans (pointers_BindParameter _ _ _ _ _ _ _ _ _ h1) H1).
Qed.

Lemma points_SQLFreeStmt conn option h : points h -> leads points (SQLFreeStmt conn option h).
Proof. intros Hp. exact (eq_trans (pointers_SQLFreeStmt conn option h) Hp). Qed.

Lemma points_SQLCloseCursor conn h : points h -> leads points (SQLCloseCursor conn h).
Proof. intros Hp. apply points_on_handle; [done|]. intros h1 H1. exact (eq_trans (pointers_Close h1) H1). Qed.

Lemma points_SQLNumParams conn q h m : points h -> leads points (SQLNumParams conn q h m).
Proof. intros Hp. unfold SQLNumParams. frame. Qed.

Lemma points_SQLParamData conn q h m : points h -> leads points (SQLParamData conn q h m).
Proof. intros Hp. unfold SQLParamData. frame. Qed.

Lemma points_SQLDescribeParam param_type conn i q1 q2 q3 h m : points h -> leads points (SQLDescribeParam param_type conn i q1 q2 q3 h m).
Proof. intros Hp. unfold SQLDescribeParam. frame. Qed.

Lemma points_WriteStringCol c caller h str q len ind m : points h -> leads points (WriteStringCol c caller h str q len ind m).
Proof. intros Hp. unfold WriteStringCol. frame. Qed.
#[local] Hint Resolve points_WriteStringCol : frame.

Lemma points_DescribeCol c conn col q len ind q1 q2 q3 q4 h m : points h -> leads points (DescribeColInternal c conn col q len ind q1 q2 q3 q4 h m).
Proof. intros Hp. unfold DescribeColInternal. frame. Qed.

Lemma points_SetNumericAttributePtr val q h m : points h -> leads points (SetNumericAttributePtr val q h m).
Proof. intros Hp. unfold SetNumericAttributePtr. frame. Qed.
#[local] Hint Resolve points_SetNumericAttributePtr : frame.

Lemma points_column_record ret msg st h : points h -> leads points (column_record ret msg st h).
Proof. apply points_error. Qed.
#[local] Hint Resolve points_column_record : frame.

Lemma points_column_attribute c f d r q len ind q' h m : points h -> leads points (column_attribute c f d r q len ind q' h m).
Proof. intros Hp. unfold column_attribute. frame. Qed.
#[local] Hint Resolve points_column_attribute : frame.

Lemma points_GetDescRecord h i : points h -> points (h <| row_desc ::= fun rd => rd <| ird ::= GetDescRecord i |> |>).
Proof. intros Hp. apply points_ird; [done|]. intros d. unfold GetDescRecord. by destruct (_ <=? _). Qed.

Lemma points_ColAttribute c conn col f q len ind q' h m : points h -> leads points (ColAttributeInternal c conn col f q len ind q' h m).
Proof.
  intros Hp. unfold ColAttributeInternal. pose proof (points_ConvertHSTMTPrepared conn h Hp) as H1.
  destruct (ConvertHSTMTPrepared conn h) as [ret h1]. destruct (negb _); [exact H1|]. destruct (_ && _); [exact H1|].
  apply leads_bind_value. intros s _. destruct (_ || _); [exact H1|]. cbv zeta. apply leads_bind_value. intros r _.
  apply points_column_attribute. by apply points_GetDescRecord.
Qed.
#[local] Hint Resolve points_ColAttribute : frame.

Lemma points_ColAttributeW conn col f q len ind q' h m : points h -> leads points (SQLColAttributeW conn col f q len ind q' h m).
Proof. intros Hp. unfold SQLColAttributeW. frame. Qed.

Lemma points_SQLNumResultCols conn q h m : points h -> leads points (SQLNumResultCols conn q h m).
Proof. intros Hp. unfold SQLNumResultCols. frame. Qed.

Lemma points_TablesInternal fuel n conn mid a1 a2 a3 a4 h e m : points h -> leads points (TablesInternal fuel n conn mid a1 a2 a3 a4 h e m).
Proof. intros Hp. unfold TablesInternal. frame. Qed.

Lemma points_ColumnsInternal fuel n conn mid a1 a2 a3 a4 h e m : points h -> leads points (ColumnsInternal fuel n conn mid a1 a2 a3 a4 h e m).
Proof. intros Hp. unfold ColumnsInternal. frame. Qed.

Lemma points_empty_result q fuel n conn h e m : points h -> leads points (empty_result q fuel n conn h e m).
Proof. intros Hp. unfold empty_result. frame. Qed.

Lemma points_SQLCancel interrupt conn h (e : Engine) : points h -> leads points (SQLCancel interrupt conn h e).
Proof. intros Hp. unfold SQLCancel. frame. Qed.

Lemma points_SQLPutData alloc conn q n h m : points h -> leads points (SQLPutData alloc conn q n h m).
Proof.
  intros Hp. unfold SQLPutData. pose proof (points_ConvertHSTMTPrepared conn h Hp) as H1.
  destruct (ConvertHSTMTPrepared conn h) as [ret h1]. destruct (negb _); [exact H1|].
  apply leads_bind_value. intros [[ret' pd] m'] E. apply PutData_objects in E as (E1 & E2 & E3). by apply points_params.
Qed.

Lemma points_SQLSetStmtAttr at' conn a v h m : a <> SQL_ATTR_APP_ROW_DESC -> a <> SQL_ATTR_APP_PARAM_DESC ->
  points h -> leads points (SQLSetStmtAttr at' conn a v h m).
Proof.
  intros Ha1 Ha2 Hp. unfold SQLSetStmtAttr, SetStmtAttrInternal. pose proof (points_ConvertHSTMT conn h Hp) as H1.
  destruct (ConvertHSTMT conn h) as [ret h1]. destruct (negb _); [exact H1|].
  rewrite (proj2 (Z.eqb_neq _ _) Ha1), (proj2 (Z.eqb_neq _ _) Ha2). exact (eq_trans (pointers_set_plain_attr a v h1 m) H1).
Qed.

Lemma points_SQLGetStmtAttr handle_of conn a q len h m : points h -> leads points (SQLGetStmtAttr handle_of conn a q len h m).
Proof. intros Hp. unfold SQLGetStmtAttr, GetStmtAttrInternal. frame. Qed.
End Engine.
End Frame.

#[export] Hint Resolve points_PrepareText points_SQLExecute points_ExecDirectText points_SQLFetch points_SQLFetchScroll points_SQLGetData
  points_SQLRowCount points_SQLMoreResults points_SQLBindCol points_SQLBindParameter points_SQLFreeStmt points_SQLCloseCursor
  points_SQLNumParams points_SQLParamData points_SQLPutData points_SQLDescribeParam points_DescribeCol points_ColAttribute
  points_ColAttributeW points_SQLNumResultCols points_TablesInternal points_ColumnsInternal points_empty_result points_SQLCancel
  points_SQLGetStmtAttr : frame.
