(* ===== verification/Reading.v ===== *)
(** * Reading a result row by row

    A statement of an application that binds no columns: its cursor delivers one row at
    a time to [SQLGetData]. [reading h rows] is the abstract view of such a statement
    between two calls, with the rows to come; each entry point is a step on it. *)

From S2P Require Import Prelude OdbcConst Memory OdbcUtils Diagnostic Interval ApiInfo Descriptor Params Fetch GetData Stmt Handles.

Definition unbound (c : OdbcBoundCol) : Prop := IsBound c = false /\ IsVarcharBound c = false.

(** The settings of a statement the application has not changed. *)
Record plain (h : OdbcHandleStmt) : Prop := {
  pl_bound : Forall unbound (bound_cols h);
  pl_size : rowset_size h = 1;
  pl_bind : bind_type h = SQL_BIND_BY_COLUMN;
  pl_fetched : rows_fetched_ptr h = nullptr;
  pl_status : row_status_ptr h = nullptr;
  pl_retrieve : retrieve_data h = SQL_RD_ON
}.

(** An execution that gave no rows: the cursor has no chunk and saw the end. *)
Definition drained (h : OdbcHandleStmt) : Prop :=
  cursor_type (odbc_fetcher h) = SQL_CURSOR_FORWARD_ONLY /\ chunks (odbc_fetcher h) = [] /\ resultset_end (odbc_fetcher h) = true
  /\ exists r, res h = Some r /\ res_error r = None.

Definition rows_to_come (h : OdbcHandleStmt) (rows : list row) : Prop :=
  (exists c pos s e, forward h c pos s e /\ pending c pos s = rows) \/ (drained h /\ rows = []).

Record reading (h : OdbcHandleStmt) (rows : list row) : Prop := {
  rd_plain : plain h;
  rd_stmt : exists s, stmt h = Some s /\ ps_error s = None /\ ColumnCount s <= zlen (bound_cols h);
  rd_open : is_open h = true;
  rd_rows : rows_to_come h rows
}.

(** ** What keeps the view *)
Lemma plain_env h h' : same_env h h' -> plain h -> plain h'.
Proof.
  intros (E1 & E2 & E3 & E4 & E5 & E6) [P1 P2 P3 P4 P5 P6]. split; [by rewrite E2| | |congruence| |congruence].
  - unfold rowset_size in *. by rewrite E3.
  - unfold bind_type in *. by rewrite E3.
  - unfold row_status_ptr in *. by rewrite E3.
Qed.

Lemma rows_result h rows : rows_to_come h rows -> exists r, res h = Some r /\ res_error r = None.
Proof. intros [(c & pos & s & e & F & _)|[(_ & _ & _ & Hr) _]]; [destruct (fw_res _ _ _ _ _ F) as (r & H1 & H2 & _); by exists r|done]. Qed.

(** The diagnostics and what is remembered of the last value play no part, nor does the
    descriptor's view of whether the statement is prepared. *)
Lemma reading_diag h diag rows : reading h rows -> reading (h <| stmt_diagnostic := diag |>) rows.
Proof.
  intros [[P1 P2 P3 P4 P5 P6] Hs Ho Hr]. split; [by split|done|done|]. destruct Hr as [(c & pos & s & e & F & Hp)|Hr]; [left|by right].
  exists c, pos, s, e. split; [|done]. by destruct F.
Qed.

Lemma reading_cursor h h' rows : same_cursor h h' -> reading h rows -> reading h' rows /\ the_row h' = the_row h.
Proof.
  intros C R. pose proof R as [P Hs Ho Hr]. destruct C as (lf & diag & ->). split; [|done].
  destruct P as [P1 P2 P3 P4 P5 P6]. split; [by split|done|done|]. destruct Hr as [(c & pos & s & e & F & Hp)|Hr]; [left|by right].
  exists c, pos, s, e. split; [|done]. by destruct F.
Qed.

Lemma reading_refresh h rows : reading h rows -> reading (refresh h) rows.
Proof.
  intros [[P1 P2 P3 P4 P5 P6] Hs Ho Hr]. split; [by split|done|done|]. destruct Hr as [(c & pos & s & e & F & Hp)|Hr]; [left|by right].
  exists c, pos, s, e. split; [|done]. by destruct F.
Qed.

Lemma the_row_refresh h : the_row (refresh h) = the_row h.
Proof. done. Qed.

(** ** Fetching without bound columns

    Nothing is converted, so that the outcome is the same for every conversion. *)
Lemma fill_row_unbound target i n : forall col ret h m, Forall unbound (bound_cols h) -> 0 <= col ->
  col + Z.of_nat n <= zlen (bound_cols h) ->
  forall GD : GetDataOp, fill_row (fun c => negb (IsBound c) && negb (IsVarcharBound c)) target i n col ret h m = Some (ret, h, m).
Proof.
  induction n as [|n IH]; intros col ret h m Hu Hc Hn GD; cbn [fill_row]; [done|].
  destruct (lookup_lt_is_Some_2 (bound_cols h) (Z.to_nat col)) as [b Hb]; [unfold zlen in *; lia|].
  rewrite Hb. cbn [mbind option_bind]. pose proof Hu as Hu'. rewrite Forall_forall in Hu'.
  destruct (Hu' b) as [E1 E2]; [by apply list_elem_of_In, (list_elem_of_lookup_2 _ (Z.to_nat col))|].
  rewrite E1, E2. cbn [negb andb]. apply IH; [done|lia|lia].
Qed.

Lemma SetRowStatus_none h i z m : row_status_ptr h = nullptr -> SetRowStatus h i z m = m.
Proof. intros E. unfold SetRowStatus. by rewrite E. Qed.

Lemma plain_next_row h : plain h -> plain (h <| odbc_fetcher ::= fun f => f <| chunk_row ::= Z.succ |> |>).
Proof. by intros []. Qed.

Lemma fill_rows_unbound target n s : forall i h m, plain h -> stmt h = Some s -> ColumnCount s <= zlen (bound_cols h) ->
  exists h', plain h' /\ forall GD : GetDataOp,
    fill_rows (fun c => negb (IsBound c) && negb (IsVarcharBound c)) target n i SQL_SUCCESS h m = Some (SQL_SUCCESS, h', m).
Proof.
  induction n as [|n IH]; intros i h m P Hs Hc; cbn [fill_rows]; [by exists h|]. cbv zeta.
  pose proof (plain_next_row h P) as P1. set (h1 := h <| odbc_fetcher ::= _ |>) in *.
  destruct (IH (i + 1) h1 m P1 Hs Hc) as (h' & P' & E). exists h'. split; [done|]. intros GD.
  rewrite (SetRowStatus_none h1) by apply P1. change (stmt h1) with (stmt h). rewrite Hs. cbn [mbind option_bind].
  pose proof (zlen_nonneg (ps_types s)). unfold ColumnCount in *.
  rewrite fill_row_unbound; [|apply P1|lia|change (bound_cols h1) with (bound_cols h); lia]. cbn [mbind option_bind]. apply E.
Qed.

(** Counting the rows fails or not by the place of the cursor. *)
Lemma Fetch_unbound_result fuel h m c pos s e st : forward h c pos s e -> plain h -> stmt h = Some st -> ColumnCount st <= zlen (bound_cols h) ->
  exists r, (forall GD : GetDataOp, Fetch fuel SQL_FETCH_NEXT 0 h m = Some r)
    /\ forall ret h' m', r = Some (ret, h', m') -> m' = m /\ (ret = SQL_SUCCESS \/ ret = SQL_NO_DATA /\ pending c pos s = []).
Proof.
  intros F P Hs Hc. unfold Fetch.
  destruct (FetchNextChunk_forward fuel 0 h c pos s e F) as [(Hnil & h1 & -> & F1 & E1)|(h1 & c1 & pos1 & s1 & -> & F1 & Hpend & Hlt & E1)].
  { exists (Some (SQL_NO_DATA, h1, m)). split; [done|]. intros ret h' m' [= <- <- <-]. split; [done|by right]. }
  pose proof (plain_env _ _ E1 P) as P1. destruct E1 as (Es & Eb & _). change (negb (SQL_SUCCESS =? SQL_SUCCESS)) with false. cbv iota zeta.
  destruct (zlen (bound_cols h1) =? 0).
  - set (h2 := h1 <| odbc_fetcher ::= _ |>). assert (rows_fetched_ptr h2 = nullptr) as -> by exact (pl_fetched h1 P1).
    eexists. split; [done|]. intros ret h' m' E. destruct (IncreaseRowCount h2) as [h3|]; [|done]. injection E as <- <- <-. split; [done|by left].
  - destruct (rows_to_fetch h1) as [[first last]|] eqn:Er.
    2: { exists None. split; [|done]. intros GD. rewrite (pl_bind h1 P1), Z.eqb_refl. unfold ColumnWise. by rewrite Er. }
    destruct (fill_rows_unbound (column_target (rowset_size h1)) (Z.to_nat (last - first)) st first h1 m P1) as (h2 & P2 & Ef); [congruence|congruence|].
    exists (h3 ← IncreaseRowCount h2; Some (SQL_SUCCESS, h3, m)). split.
    + intros GD. rewrite (pl_bind h1 P1), Z.eqb_refl. unfold ColumnWise. rewrite Er. cbn [mbind option_bind]. rewrite Ef. cbn [mbind option_bind].
      by rewrite (pl_fetched h2 P2), store_opt_null.
    + intros ret h' m' E. destruct (IncreaseRowCount h2) as [h3|]; [|done]. injection E as <- <- <-. split; [done|by left].
Qed.

(** The rows of a cursor without bound columns, one at a time. *)
Lemma Fetch_unbound `{GD : GetDataOp} fuel h m c pos s e st : forward h c pos s e -> plain h -> stmt h = Some st ->
  ColumnCount st <= zlen (bound_cols h) ->
  match pending c pos s with
  | [] => exists h', Fetch fuel SQL_FETCH_NEXT 0 h m = Some (Some (SQL_NO_DATA, h', m)) /\ same_env h h' /\ rows_to_come h' []
  | r :: rows => exists h', Fetch fuel SQL_FETCH_NEXT 0 h m = Some (Some (SQL_SUCCESS, h', m)) /\ same_env h h'
      /\ rows_to_come h' rows /\ the_row h' = Some r
  end.
Proof.
  intros F P Hs Hc. destruct (Fetch_unbound_result fuel h m c pos s e st F P Hs Hc) as (r & Ef & Hr).
  rewrite (Ef GD). pose proof (Ef no_conversion) as E0. destruct (pending c pos s) as [|row rows] eqn:Hp.
  - destruct (Fetch_next (G := no_conversion) no_conversion_total fuel 0 h m c pos s e st F Hs Hc) as [Hend _]; [rewrite (pl_size h P); lia|].
    destruct (Hend Hp) as (h' & E & F' & Env). rewrite E0 in E. injection E as ->. exists h'. split; [done|]. split; [done|].
    left. exists c, pos, [], true. split; [done|]. revert Hp. unfold pending. intros [-> _]%app_eq_nil. done.
  - destruct (fetch_one (G := no_conversion) no_conversion_total fuel h m c pos s e st F Hs Hc (pl_size h P) row rows Hp)
      as (ret & h' & m' & c' & pos' & s' & E & F' & Env & Hrow & Hp'). rewrite E0 in E. injection E as ->.
    destruct (Hr _ _ _ eq_refl) as [-> [->|[_ Hnil]]]; [|done]. exists h'. split; [done|]. split; [done|].
    split; [left; by exists c', pos', s', e|done].
Qed.

Lemma Fetch_drained `{GD : GetDataOp} fuel h m : drained h ->
  exists h', Fetch fuel SQL_FETCH_NEXT 0 h m = Some (Some (SQL_NO_DATA, h', m)) /\ same_env h h' /\ rows_to_come h' [].
Proof.
  intros (Ht & Hc & He & Hr). unfold Fetch, FetchNextChunk, RequireFetch, FetchNext, SetCurrentChunk.
  destruct h as [dsn diag st rs bc op rd rf ml f pd rwd], f as [ct cs rc lf ch ci cc cr pr re nc]. cbn in Ht, Hc, He, Hr. subst.
  cbn -[u64 zlen]. destruct (ci =? _); (eexists; split; [reflexivity|]; split; [done|]; right; split; [by repeat split|done]).
Qed.

(** ** The entry points *)
Lemma reading_prepared h rows : reading h rows -> ConvertHSTMTPrepared true h = (SQL_SUCCESS, h <| stmt_diagnostic ::= Clean |>)
  /\ reading (h <| stmt_diagnostic ::= Clean |>) rows.
Proof.
  intros R. split; [|by apply reading_diag]. destruct (rd_stmt _ _ R) as (s & Hs & He & _).
  unfold ConvertHSTMTPrepared, ConvertHSTMT. cbn [negb]. rewrite Z.eqb_refl. cbn [negb].
  change (stmt (h <| stmt_diagnostic ::= Clean |>)) with (stmt h). by rewrite Hs, He.
Qed.

Lemma FetchStmtResult_reading `{GD : GetDataOp} fuel h m rows : reading h rows ->
  match rows with
  | [] => exists h', FetchStmtResult fuel SQL_FETCH_NEXT 0 h m = Some (Some (SQL_NO_DATA, h', m)) /\ reading h' []
  | r :: rows => exists h', FetchStmtResult fuel SQL_FETCH_NEXT 0 h m = Some (Some (SQL_SUCCESS, h', m)) /\ reading h' rows /\ the_row h' = Some r
  end.
Proof.
  intros [P (s & Hs & He & Hc) Ho Hr]. unfold FetchStmtResult. rewrite Ho. cbn [negb].
  assert (forall h' rows', same_env h h' -> rows_to_come h' rows' -> reading h' rows') as Hk.
  { intros h' rows' Env Hr'. split; [exact (plain_env h h' Env P)| | |exact Hr'].
    - exists s. destruct Env as (-> & -> & _). done.
    - destruct Env as (_ & _ & _ & _ & -> & _). done. }
  destruct Hr as [(c & pos & st & e & F & <-)|[D ->]].
  - pose proof (Fetch_unbound fuel h m c pos st e s F P Hs Hc) as H. destruct (pending c pos st) as [|r rows].
    + destruct H as (h' & -> & Env & Hr'). exists h'. split; [done|]. by apply Hk.
    + destruct H as (h' & -> & Env & Hr' & Hrow). exists h'. split; [done|]. split; [by apply Hk|done].
  - destruct (Fetch_drained fuel h m D) as (h' & -> & Env & Hr'). exists h'. split; [done|]. by apply Hk.
Qed.

Section Steps.
Context {Engine SQLStatement : Type} `{EO : EngineOps Engine SQLStatement}.

Lemma SQLFetch_reading `{GD : GetDataOp} fuel h (e : Engine) m rows : reading h rows ->
  match rows with
  | [] => exists h', SQLFetch fuel true h e m = Some (Some (SQL_NO_DATA, h', e, m)) /\ reading h' []
  | r :: rows => exists h', SQLFetch fuel true h e m = Some (Some (SQL_SUCCESS, h', e, m)) /\ reading h' rows /\ the_row h' = Some r
  end.
Proof.
  intros R. destruct (reading_prepared h rows R) as [E1 R1]. destruct (reading_prepared _ rows R1) as [E2 R2].
  unfold SQLFetch. rewrite E1. change (negb (SQL_SUCCESS =? SQL_SUCCESS)) with false. cbv iota. unfold DummyFetch.
  rewrite (pl_retrieve _ (rd_plain _ _ R1)). change (SQL_RD_ON =? SQL_RD_OFF) with false. cbv iota.
  change (negb (SQL_NEED_DATA =? SQL_NEED_DATA)) with false. cbv iota. unfold ExecuteBeforeFetch. rewrite E2.
  change (negb (SQL_SUCCESS =? SQL_SUCCESS)) with false. cbv iota.
  destruct (rows_result _ _ (rd_rows _ _ R2)) as (r & Hr & He). rewrite Hr. unfold QueryResult_HasError.
  rewrite (bool_decide_false (is_Some (res_error r))) by (rewrite He; apply is_Some_None). cbn [negb].
  change (negb (SQL_SUCCESS =? SQL_SUCCESS)) with false. cbv iota.
  pose proof (FetchStmtResult_reading fuel _ m rows R2) as H. destruct rows as [|row rows].
  - destruct H as (h' & -> & R'). by exists h'.
  - destruct H as (h' & -> & R' & Hrow). by exists h'.
Qed.
End Steps.

(** *** Numbers *)

(** What an application reads in its buffer, with the length beside it. *)
Definition read_cell (size : nat) (m : mem) (target ind : ptr) : option Z :=
  if load_s 8 m ind =? SQL_NULL_DATA then None else Some (load_s size m target).

Definition buffers_apart (size : nat) (target ind : ptr) : Prop :=
  target <> nullptr /\ ind <> nullptr /\ (target + Z.of_nat size <= ind \/ ind + 8 <= target).
Definition outside_buffers (size : nat) (target ind a : ptr) : Prop :=
  (a < target \/ target + Z.of_nat size <= a) /\ (a < ind \/ ind + 8 <= a).

Lemma number_type_size t ty size : number_type t = Some (ty, size) -> (0 < size <= 8)%nat /\ t <> SQL_C_DEFAULT.
Proof.
  intros E. split.
  - revert E. unfold number_type. cbv zeta. repeat (destruct (_ || _) || destruct (_ =? _)); intros [= <- <-]; lia.
  - intros ->. by vm_compute in E.
Qed.

Lemma GetValue_row h r col v : the_row h = Some r -> r !! Z.to_nat col = Some v -> GetValue col (odbc_fetcher h) = Some (SQL_SUCCESS, Some v).
Proof.
  unfold the_row, GetValue, the_chunk. destruct (current_chunk (odbc_fetcher h)) as [i|]; [|done]. cbn [mbind option_bind].
  destruct (find_chunk i _) as [c|]; [|done]. cbn [mbind option_bind]. destruct (_ <? 0); [done|]. intros -> Hv. cbn [mbind option_bind]. by rewrite Hv.
Qed.

Section Cells.
Context `{CO : CellOps} `{TZ : TimeZone}.

(** The cell that an application reads as [x]: a null, or a number of the C type. *)
Definition cell_reads (ty : LogicalTypeId) (size : nat) (v : Value) (x : option Z) : Prop :=
  match x with
  | None => v = VNull
  | Some z => v <> VNull /\ cell_type v <> LT_TIMESTAMP_TZ /\ cell_cast ty v = inr z /\ in_s (8 * Z.of_nat size) z
  end.

Lemma get_data_number h r col t ty size v x target len ind m : the_row h = Some r -> 1 <= col -> r !! Z.to_nat (col - 1) = Some v ->
  number_type t = Some (ty, size) -> cell_reads ty size v x -> buffers_apart size target ind ->
  exists m', GetDataStmtResult h col t target len ind m = Some (SQL_SUCCESS, h, m') /\ read_cell size m' target ind = x
    /\ forall a, outside_buffers size target ind a -> m' !! a = m !! a.
Proof.
  intros Hrow Hcol Hv Ht Hx (Hp & Hi & Hd). destruct (number_type_size _ _ _ Ht) as [Hsize Hdef]. unfold GetDataStmtResult.
  rewrite (proj2 (Z.eqb_neq target nullptr)) by done. cbn [andb]. rewrite (proj2 (Z.ltb_lt 0 col)) by lia.
  rewrite (GetValue_row h r (col - 1) v Hrow Hv). cbn [mbind option_bind]. change (default VNull (Some v)) with v. unfold read_cell. destruct x as [z|].
  - destruct Hx as (Hnn & Htz & Hc & Hz). rewrite bool_decide_eq_false_2 by done. unfold local_value.
    rewrite bool_decide_eq_false_2 by done. cbn [mbind option_bind]. rewrite (proj2 (Z.eqb_neq t SQL_C_DEFAULT)) by done.
    unfold convert_value, GetInternalValue. rewrite Ht. cbv iota beta. rewrite Hc. eexists. split; [done|]. unfold store_opt.
    rewrite (proj2 (Z.eqb_neq ind nullptr)) by done. set (m1 := store size m target z). split.
    + rewrite load_s_store_in; [|lia|unfold in_s; lia]. rewrite (proj2 (Z.eqb_neq _ SQL_NULL_DATA)) by lia. f_equal.
      rewrite load_s_store_ne by lia. subst m1. apply load_s_store_in; [lia|done].
    + intros a [Ha1 Ha2]. rewrite store_outside by lia. subst m1. apply store_outside. lia.
  - rewrite Hx, bool_decide_eq_true_2 by done. rewrite (proj2 (Z.eqb_neq ind nullptr)) by done. eexists. split; [done|]. split.
    + rewrite load_s_store_in; [done|lia|unfold in_s; lia].
    + intros a [_ Ha]. apply store_outside. lia.
Qed.

Lemma SQLGetData_reading {Engine} h r rows col t ty size v x target len ind (e : Engine) m : reading h rows -> the_row h = Some r -> 1 <= col ->
  r !! Z.to_nat (col - 1) = Some v -> number_type t = Some (ty, size) -> cell_reads ty size v x -> buffers_apart size target ind ->
  exists h' m', SQLGetData true col t target len ind h e m = Some (Some (SQL_SUCCESS, h', e, m'))
    /\ reading h' rows /\ the_row h' = Some r /\ read_cell size m' target ind = x
    /\ forall a, outside_buffers size target ind a -> m' !! a = m !! a.
Proof.
  intros R Hrow Hcol Hv Ht Hx Hb. unfold SQLGetData, with_result, ConvertHSTMTResult, ConvertHSTMT. cbn [negb].
  rewrite Z.eqb_refl. cbn [negb]. set (h1 := h <| stmt_diagnostic ::= Clean |>). assert (reading h1 rows) as R1 by by apply reading_diag.
  destruct (rows_result _ _ (rd_rows _ _ R1)) as (q & Hq & He). rewrite Hq. unfold QueryResult_HasError.
  rewrite (bool_decide_false (is_Some (res_error q))) by (rewrite He; apply is_Some_None).
  change (negb (SQL_SUCCESS =? SQL_SUCCESS)) with false. cbv iota.
  destruct (get_data_number h1 r col t ty size v x target len ind m Hrow Hcol Hv Ht Hx Hb) as (m' & E & Hx' & Ho).
  change (get_data h1 col t target len ind m) with (GetDataStmtResult h1 col t target len ind m). rewrite E. exists h1, m'. done.
Qed.
End Cells.

(** ** Preparing and executing *)
Record fresh_params (pd : ParameterDescriptor) : Prop := {
  fp_own : cur_explicit_apd pd = None;
  fp_idx : paramset_idx pd = 0;
  fp_offset : sql_desc_bind_offset_ptr (desc_header (apd pd)) = nullptr;
  fp_status : status_ptr pd = nullptr;
  fp_processed : GetParamProcessedPtr pd = nullptr;
  fp_values : values pd = []
}.

Record ready (h : OdbcHandleStmt) : Prop := {
  ry_plain : plain h;
  ry_cursor : cursor_type (odbc_fetcher h) = SQL_CURSOR_FORWARD_ONLY;
  ry_params : fresh_params (param_desc h)
}.

(** A statement the engine prepared without reserve. *)
Record simple_query (s : PreparedStatement) : Prop := {
  sq_error : ps_error s = None;
  sq_bound : bound_all_parameters s = true;
  sq_columns : length (ps_names s) = length (ps_types s)
}.

Record prepared (h : OdbcHandleStmt) (s : PreparedStatement) : Prop := {
  pp_ready : ready h;
  pp_query : simple_query s;
  pp_stmt : stmt h = Some s;
  pp_bound : ColumnCount s <= zlen (bound_cols h);
  pp_params : length (records (ipd (param_desc h))) = Z.to_nat (s16 (named_param_count s))
}.

Lemma prepared_refresh h s : prepared h s -> prepared (refresh h) s.
Proof. intros [[[P1 P2 P3 P4 P5 P6] Hc Hf] Hq Hs Hb Hp]. split; [split; [by split|exact Hc|exact Hf]|exact Hq|exact Hs|exact Hb|exact Hp]. Qed.

Lemma Forall_vec_resize {A} (P : A -> Prop) n d l : P d -> Forall P l -> Forall P (vec_resize n d l).
Proof.
  intros Hd Hl. unfold vec_resize. apply List.Forall_app. split.
  - rewrite Forall_forall in *. intros x Hx. apply Hl. rewrite <- (firstn_skipn n l). apply in_or_app. by left.
  - apply Forall_forall. intros x Hx. apply list_elem_of_In, elem_of_replicate in Hx as [-> _]. exact Hd.
Qed.

Section Running.
Context {Engine SQLStatement : Type} `{EO : EngineOps Engine SQLStatement}.

Lemma FinalizeStmt_prepared h s : ready h -> simple_query s -> stmt h = Some s ->
  exists h', FinalizeStmt h = Some (SQL_SUCCESS, h') /\ prepared h' s.
Proof.
  intros [[P1 P2 P3 P4 P5 P6] Hc [F1 F2 F3 F4 F5 F6]] Q Hs. pose proof Q as [Q1 Q2 Q3]. unfold FinalizeStmt. rewrite Hs. cbn [mbind option_bind]. rewrite Q1, Q2. cbn [negb]. cbv iota zeta.
  set (c := s16 (named_param_count s)).
  unfold FillIRD. change (stmt (resize_columns s (h <| param_desc ::= ResetParams c |>))) with (stmt h). rewrite Hs. cbn [mbind option_bind].
  rewrite (proj2 (Z.ltb_ge _ _)) by (unfold ColumnCount, zlen; lia). eexists. split; [reflexivity|].
  destruct h as [dsn diag st rs bc op rd rf ml f [[] [] ex pl p cp cpi vs] [[] [] ca]].
  cbn in Hs, P1, P2, P3, P4, P5, P6, Hc, F1, F2, F3, F4, F5, F6. subst st ex.
  split; [split; [split| |split]| | | |]; try done.
  - cbn -[vec_resize]. apply Forall_vec_resize; [by split|exact P1].
  - unfold ColumnCount, zlen; cbn -[vec_resize]; rewrite length_vec_resize; unfold ColumnCount, zlen; lia.
  - cbn -[vec_resize]. apply length_vec_resize.
Qed.

Lemma PrepareText_ready h q s e e' m : ready h -> engine_prepare q e = (s, e') -> simple_query s ->
  exists h', PrepareText true q h e m = Some (Some (SQL_SUCCESS, h', e', m)) /\ prepared h' s.
Proof.
  intros R Ep Q. unfold PrepareText, ConvertHSTMT. cbn [negb]. rewrite Z.eqb_refl. cbn [negb]. rewrite Ep.
  set (h1 := (PrepareQuery (h <| stmt_diagnostic ::= Clean |>)) <| stmt := Some s |>). assert (ready h1) as R1 by by destruct R as [[P1 P2 P3 P4 P5 P6] Hc Hf].
  destruct (FinalizeStmt_prepared h1 s R1 Q eq_refl) as (h' & E & P'). exists h'. unfold lift. by rewrite E.
Qed.

(** The first fetch of an empty result. *)
Lemma FetchFirst_empty h r : res h = Some r -> res_error r = None -> res_stream r = [] ->
  cursor_type (odbc_fetcher h) = SQL_CURSOR_FORWARD_ONLY ->
  exists h', FetchFirst (h <| odbc_fetcher ::= ClearChunks |>) = Some (SQL_NO_DATA, h') /\ drained h' /\ same_env h h'.
Proof.
  intros Hr He Hs Ht. unfold FetchFirst, FetchNextChunk, SetFirstCurrentChunk, FetchNext, QueryResult_Fetch, QueryResult_HasError.
  destruct h as [dsn diag st rs bc op rd rf ml f pd rwd], f as [ct cs rc lf ch ci cc cr pr re nc], r as [er str ty nm]. cbn in *. subst.
  cbn. eexists. split; [reflexivity|]. split; [|done]. repeat split. by eexists.
Qed.

Lemma SingleExecuteStmt_plain fuel h s r e e' m : stmt h = Some s -> records (ipd (param_desc h)) = [] -> rows_fetched_ptr h = nullptr ->
  engine_execute s [] e = (r, e') -> res_error r = None ->
  SingleExecuteStmt fuel h e m = Some (SQL_SUCCESS, h <| res := Some r |> <| is_open := true |> <| odbc_fetcher ::= ClearChunks |>, e', m).
Proof.
  intros Hs Hp Hf Ee He. unfold SingleExecuteStmt. set (h1 := h <| res := None |> <| odbc_fetcher ::= ClearChunks |> <| is_open := false |>).
  assert (rows_fetched_ptr h1 = nullptr) as -> by exact Hf. rewrite store_opt_null.
  assert (GetParamValues fuel (stmt_dsn h1) (param_desc h1) (stmt_diagnostic h1) m
          = Some (SQL_SUCCESS, [], param_desc h, stmt_diagnostic h, m)) as ->.
  { unfold GetParamValues. change (param_desc h1) with (param_desc h). by rewrite Hp. }
  cbn [mbind option_bind]. change (SQL_SUCCESS =? SQL_NEED_DATA) with false. change (SQL_SUCCESS =? SQL_ERROR) with false. cbn [orb]. cbv zeta.
  change (stmt (h1 <| param_desc := param_desc h |> <| stmt_diagnostic := stmt_diagnostic h |>)) with (stmt h). rewrite Hs. cbn [mbind option_bind].
  rewrite Ee. unfold QueryResult_HasError. rewrite (bool_decide_false (is_Some (res_error r))) by (rewrite He; apply is_Some_None).
  subst h1. by destruct h.
Qed.

(** What follows a successful execution: the first fetch. *)
Lemma after_execution_reading h s r : plain h -> cursor_type (odbc_fetcher h) = SQL_CURSOR_FORWARD_ONLY -> stmt h = Some s -> simple_query s -> ColumnCount s <= zlen (bound_cols h) ->
  res h = Some r -> res_error r = None -> Forall good_outcome (res_stream r) -> is_open h = true ->
  exists h', after_execution SQL_SUCCESS (h <| odbc_fetcher ::= ClearChunks |>) = Some (SQL_SUCCESS, h') /\ reading h' (stream_rows (res_stream r)).
Proof.
  intros P Hc Hs Q Hb Hr He Hg Ho. unfold after_execution. change (negb (SQL_SUCCEEDED SQL_SUCCESS)) with false. cbv iota.
  assert (exists ret h', FetchFirst (h <| odbc_fetcher ::= ClearChunks |>) = Some (ret, h') /\ ret <> SQL_ERROR /\ same_env h h'
    /\ rows_to_come h' (stream_rows (res_stream r))) as (ret & h' & -> & Hret & Env & Hrows).
  { destruct (res_stream r) as [|o str] eqn:Hstr.
    - destruct (FetchFirst_empty h r Hr He Hstr Hc) as (h' & E & D & Env). exists SQL_NO_DATA, h'. split; [exact E|]. split; [done|].
      split; [exact Env|right; by split].
    - inversion Hg as [|? ? (c & -> & _ & _) _]; subst. assert (Forall good_outcome (res_stream r)) as Hg' by (rewrite Hstr; exact Hg).
      destruct (FetchFirst_starts h r c str Hr He Hc Hg') as [Hstart _]. destruct (Hstart Hstr) as (h' & E & F & Env & Hpend).
      exists SQL_SUCCESS, h'. split; [exact E|]. split; [done|]. split; [exact Env|left]. exists c, (-1), str, false. by rewrite Hpend, Hstr. }
  exists h'. cbn [mbind option_bind]. rewrite (proj2 (Z.eqb_neq ret SQL_ERROR)) by done.
  pose proof Env as (Es & Eb & _ & _ & Eo & _). rewrite Es, Hs. cbn [mbind option_bind]. rewrite (sq_bound _ Q). cbn [negb].
  split; [done|]. split; [exact (plain_env h h' Env P)|exists s; rewrite Es, Eb; split; [done|split; [exact (sq_error _ Q)|done]]|by rewrite Eo|done].
Qed.

(** Executing without parameters. *)
Lemma SQLExecute_prepared fuel n h s r e e' m : (0 < n)%nat -> prepared h s -> named_param_count s = 0 ->
  engine_execute s [] e = (r, e') -> res_error r = None -> Forall good_outcome (res_stream r) ->
  exists h', SQLExecute fuel n true h e m = Some (Some (SQL_SUCCESS, h', e', m)) /\ reading h' (stream_rows (res_stream r)).
Proof.
  intros Hn [[P Hc Hf] Q Hs Hb Hp] H0 Ee He Hg. destruct n as [|n]; [lia|]. unfold SQLExecute, ConvertHSTMT. cbn [negb]. rewrite Z.eqb_refl. cbn [negb].
  unfold BatchExecuteStmt. cbn [execute_loop]. set (h1 := h <| stmt_diagnostic ::= Clean |>).
  assert (records (ipd (param_desc h1)) = []) as Hnil by (apply length_zero_iff_nil; change (param_desc h1) with (param_desc h); by rewrite Hp, H0).
  rewrite (SingleExecuteStmt_plain fuel h1 s r e e' m Hs Hnil (pl_fetched h P) Ee He). change (SQL_SUCCESS =? SQL_STILL_EXECUTING) with false. cbv iota.
  set (h2 := h1 <| res := Some r |> <| is_open := true |>).
  assert (plain h2) as P2 by by destruct P.
  destruct (after_execution_reading h2 s r P2 Hc Hs Q Hb eq_refl He Hg eq_refl) as (h' & -> & R'). by exists h'.
Qed.
End Running.
