(* ===== verification/Batch.v ===== *)
(** * Executing with an array of parameters

    A statement with one parameter marker, for which the application binds an array of
    integers: the executions of [BatchExecuteStmt] hand the engine the elements in
    order. *)

From S2P Require Import Prelude OdbcConst Memory OdbcUtils Diagnostic Interval ApiInfo Descriptor Params Fetch Stmt Attributes Handles Reading.

(** The one parameter, bound to the array at [p] with indicators at [q]. *)
Record bound_array (sql_type c_type p q size N : Z) (pd : ParameterDescriptor) : Prop := {
  ba_own : cur_explicit_apd pd = None;
  ba_offset : sql_desc_bind_offset_ptr (desc_header (apd pd)) = nullptr;
  ba_status : status_ptr pd = nullptr;
  ba_processed : GetParamProcessedPtr pd = nullptr;
  ba_array : sql_desc_array_size (desc_header (apd pd)) = N;
  ba_apd : exists a, records (apd pd) !! 0%nat = Some a /\ sql_desc_type a = c_type /\ sql_desc_data_ptr a = p /\ sql_desc_indicator_ptr a = q;
  ba_ipd : exists r, records (ipd pd) = [r] /\ sql_desc_type r = sql_type /\ sql_desc_length r = size
}.

Section Array.
Context (sql_type c_type : Z) (width : nat) (sg : bool) (V : Z -> Value) (Htype : (sql_type, c_type, width, sg, V) ∈ int_params).
Context (p q size : Z) (zs : list Z) (m0 : mem) (Hp : p <> nullptr) (Hq : q <> nullptr) (Hsize : 0 <= size < 2 ^ 62).
Let m := write_array width m0 p zs.
Let N := zlen zs.
Context (Hrange : Forall (fun z => if sg then in_s (8 * Z.of_nat width) z else in_u (8 * Z.of_nat width) z) zs).
Context (Hind : forall k, 0 <= k < N -> 0 <= load_s 8 m (q + 8 * k)) (Hcount : N < 2 ^ 62).

(** The executions so far: [k] sets, and the value of the last. *)
Definition at_set (k : nat) (pd : ParameterDescriptor) : Prop :=
  bound_array sql_type c_type p q size N pd /\ paramset_idx pd = Z.of_nat k /\ (length (values pd) <= 1)%nat.

Definition after_set (k : nat) (z : Z) (pd : ParameterDescriptor) : ParameterDescriptor :=
  pd <| values := [V z] |> <| paramset_idx := Z.of_nat (S k) |>.

Lemma at_set_next k z pd : at_set k pd -> at_set (S k) (after_set k z pd).
Proof. intros [[B1 B2 B3 B4 B5 B6 B7] _]. split; [by split|]. split; [done|]. cbn. lia. Qed.

Lemma SetValue_at_set k z pd fuel : at_set k pd -> zs !! k = Some z ->
  SetValue fuel 0 pd m = Some (SQL_PARAM_SUCCESS, pd <| values := [V z] |>, m).
Proof.
  intros [[B1 B2 B3 B4 B5 (a & Ha & Ta & Da & Ia) (r & Hr & Tr & Lr)] [Hk Hv]] Hz.
  assert (cur_apd pd = apd pd) as Hcur by (unfold cur_apd; by rewrite B1).
  assert (SetValue fuel 0 pd m = Some (SQL_PARAM_SUCCESS, SetValue_at (V z) 0 pd, m)) as ->.
  { subst m. rewrite <- Da. apply (SetValue_int fuel pd 0 a r sql_type c_type width sg V zs m0 k z); try congruence.
    - by rewrite Hcur.
    - by rewrite Hr.
    - unfold bind_offset_ptr. by rewrite Hcur.
    - rewrite Forall_forall in Hrange. apply Hrange. by apply list_elem_of_In, (list_elem_of_lookup_2 _ k).
    - rewrite Ia, Da. apply Hind. apply lookup_lt_Some in Hz. unfold N, zlen. lia. }
  do 3 f_equal. unfold SetValue_at. destruct pd as [ap ip ex pl ps cp cpi vs]. cbn in Hv |- *.
  destruct vs as [|v [|w vs]]; [done|done|cbn in Hv; lia].
Qed.

Lemma GetParamValues_at_set k z pd fuel dsn diag : at_set k pd -> zs !! k = Some z ->
  GetParamValues fuel dsn pd diag m
  = Some (if Z.of_nat (S k) =? N then SQL_SUCCESS else SQL_STILL_EXECUTING, [V z], after_set k z pd, diag, m).
Proof.
  intros A Hz. pose proof A as [[B1 B2 B3 B4 B5 _ (r & Hr & _ & _)] [Hk Hv]]. pose proof (SetValue_at_set k z pd fuel A Hz) as Es.
  unfold GetParamValues. rewrite Hr. change (zlen [r] =? 0) with false. cbv iota. change (length [r]) with 1%nat. cbn [GetParamValues_loop].
  rewrite Es. cbn [mbind option_bind]. change (status_ptr (pd <| values := [V z] |>)) with (status_ptr pd). rewrite B3, Z.eqb_refl.
  change (SQL_PARAM_SUCCESS =? SQL_NEED_DATA) with false. cbn [negb andb]. cbv iota.
  unfold GetNextValue. change (values (pd <| values := [V z] |>)) with [V z]. change (Z.to_nat 0) with 0%nat. cbn [lookup list_lookup mbind option_bind app].
  unfold SetParamIndex. change (GetParamProcessedPtr (pd <| values := [V z] |> <| paramset_idx ::= _ |>)) with (GetParamProcessedPtr pd).
  apply lookup_lt_Some in Hz.
  assert (u64 (Z.of_nat k + 1) = Z.of_nat (S k)) as Hu by (rewrite wrap_u_small; [lia|unfold in_u, N, zlen in *; lia]).
  destruct pd as [ap ip ex pl ps cp cpi vs]. cbn in B1, B4, B5, Hk. subst ex ps. unfold array_size, cur_apd, after_set. cbn -[wrap_u Z.of_nat].
  by rewrite Hu, B4, store_opt_null, B5.
Qed.

(** ** The executions *)
Section Executions.
Context {Engine SQLStatement : Type} `{EO : EngineOps Engine SQLStatement}.

(** A statement after an execution with the result [r]. *)
Definition executed (h : OdbcHandleStmt) (pd : ParameterDescriptor) (r : QueryResult) : OdbcHandleStmt :=
  h <| res := Some r |> <| is_open := true |> <| odbc_fetcher ::= ClearChunks |> <| param_desc := pd |>.

Lemma executed_again h pd r pd' r' : executed (executed h pd r) pd' r' = executed h pd' r'.
Proof. by destruct h as [? ? ? ? ? ? ? ? ? [] ? ?]. Qed.

Lemma SingleExecuteStmt_set fuel h s e k z r e' : stmt h = Some s -> rows_fetched_ptr h = nullptr -> at_set k (param_desc h) -> zs !! k = Some z ->
  engine_execute s [V z] e = (r, e') -> res_error r = None ->
  SingleExecuteStmt fuel h e m
  = Some (if Z.of_nat (S k) =? N then SQL_SUCCESS else SQL_STILL_EXECUTING, executed h (after_set k z (param_desc h)) r, e', m).
Proof.
  intros Hs Hf A Hz Ee He. unfold SingleExecuteStmt. set (h1 := h <| res := None |> <| odbc_fetcher ::= ClearChunks |> <| is_open := false |>).
  assert (rows_fetched_ptr h1 = nullptr) as -> by exact Hf. rewrite store_opt_null.
  rewrite (GetParamValues_at_set k z (param_desc h1) fuel _ _ A Hz). cbn [mbind option_bind]. cbv zeta. change (param_desc h1) with (param_desc h).
  set (ret := if _ =? N then SQL_SUCCESS else SQL_STILL_EXECUTING).
  assert ((ret =? SQL_NEED_DATA) || (ret =? SQL_ERROR) = false) as -> by (subst ret; by destruct (_ =? N)).
  change (stmt (h1 <| param_desc := after_set k z (param_desc h) |> <| stmt_diagnostic := stmt_diagnostic h1 |>)) with (stmt h). rewrite Hs. cbn [mbind option_bind].
  rewrite Ee. unfold QueryResult_HasError. rewrite (bool_decide_false (is_Some (res_error r))) by (rewrite He; apply is_Some_None).
  assert ((if ret =? SQL_STILL_EXECUTING then SQL_STILL_EXECUTING else SQL_SUCCESS) = ret) as -> by (subst ret; by destruct (_ =? N)).
  subst h1. by destruct h.
Qed.

(** No execution gives an error. *)
Definition never_fails (s : PreparedStatement) : Prop := forall vs e, res_error (engine_execute s vs e).1 = None.

Lemma execute_loop_sets s fuel : never_fails s -> forall l k n h e, stmt h = Some s -> rows_fetched_ptr h = nullptr -> at_set k (param_desc h) ->
  drop k zs = l -> l <> [] -> (length l <= n)%nat ->
  exists pd r, execute_loop fuel n h e m = Some (Some (SQL_SUCCESS, executed h pd r, execute_all s e (map (fun z => [V z]) l), m))
    /\ res_error r = None /\ exists vs e', r = (engine_execute s vs e').1.
Proof.
  intros Hnf. induction l as [|z l IH]; intros k n h e Hs Hf A Hl Hne Hn; [done|]. destruct n as [|n]; [cbn in Hn; lia|]. cbn [execute_loop].
  assert (zs !! k = Some z) as Hz by (rewrite <- (Nat.add_0_r k), <- lookup_drop, Hl; done).
  destruct (engine_execute s [V z] e) as [r e1] eqn:Ee. pose proof (Hnf [V z] e) as He. rewrite Ee in He. cbn [fst] in He.
  rewrite (SingleExecuteStmt_set fuel h s e k z r e1 Hs Hf A Hz Ee He).
  assert (drop (S k) zs = l) as Hl' by (rewrite <- Nat.add_1_r, <- drop_drop, Hl; done).
  assert (length zs = (k + S (length l))%nat) as Hlen.
  { apply lookup_lt_Some in Hz as Hlt. pose proof (length_drop zs k) as Hd. rewrite Hl in Hd. cbn in Hd. lia. }
  destruct l as [|z' l].
  - rewrite (proj2 (Z.eqb_eq (Z.of_nat (S k)) N)) by (unfold N, zlen; rewrite Hlen; cbn; lia). change (SQL_SUCCESS =? SQL_STILL_EXECUTING) with false. cbv iota.
    exists (after_set k z (param_desc h)), r. split; [|split; [done|exists [V z], e; by rewrite Ee]]. unfold execute_all. cbn [map foldl]. by rewrite Ee.
  - rewrite (proj2 (Z.eqb_neq (Z.of_nat (S k)) N)) by (unfold N, zlen; rewrite Hlen; cbn; lia). rewrite Z.eqb_refl.
    destruct (IH (S k) n (executed h (after_set k z (param_desc h)) r) e1) as (pd & r' & E & He' & Hr'); try done.
    + by apply at_set_next.
    + cbn in Hn |- *. lia.
    + rewrite E. exists pd, r'. split; [|done]. rewrite executed_again. unfold execute_all. cbn [map foldl]. by rewrite Ee.
Qed.
End Executions.

(** ** Binding the array *)
Lemma int_params_plain : IsIntervalType c_type = false /\ IsIntervalType sql_type = false.
Proof using Htype.
  clear - Htype. unfold int_params in Htype. repeat (apply elem_of_cons in Htype as [Htype|Htype]; [by injection Htype as -> -> -> -> ->|]). by apply not_elem_of_nil in Htype.
Qed.

Definition sized (s : PreparedStatement) (h : OdbcHandleStmt) : Prop :=
  prepared h s /\ sql_desc_array_size (desc_header (apd (param_desc h))) = N.

Record bound (s : PreparedStatement) (h : OdbcHandleStmt) : Prop := {
  bd_plain : plain h;
  bd_cursor : cursor_type (odbc_fetcher h) = SQL_CURSOR_FORWARD_ONLY;
  bd_query : simple_query s;
  bd_stmt : stmt h = Some s;
  bd_columns : ColumnCount s <= zlen (bound_cols h);
  bd_params : at_set 0 (param_desc h)
}.

Lemma sized_refresh s h : sized s h -> sized s (refresh h).
Proof. intros [P A]. split; [by apply prepared_refresh|exact A]. Qed.

Lemma bound_refresh s h : bound s h -> bound s (refresh h).
Proof. by intros [[P1 P2 P3 P4 P5 P6] Hc Q Hs Hb A]. Qed.

Lemma bound_diag s h diag : bound s h -> bound s (h <| stmt_diagnostic := diag |>).
Proof. by intros [[P1 P2 P3 P4 P5 P6] Hc Q Hs Hb A]. Qed.

Lemma set_paramset_size at' h s (m' : mem) : prepared h s ->
  exists h', SQLSetStmtAttr at' true SQL_ATTR_PARAMSET_SIZE N h m' = Some (SQL_SUCCESS, h', m') /\ sized s h'.
Proof.
  intros [[[P1 P2 P3 P4 P5 P6] Hc [F1 F2 F3 F4 F5 F6]] Q Hs Hb Hpar].
  unfold SQLSetStmtAttr, SetStmtAttrInternal, ConvertHSTMT. cbn [negb]. rewrite Z.eqb_refl. cbn [negb].
  change (SQL_ATTR_PARAMSET_SIZE =? SQL_ATTR_APP_ROW_DESC) with false. change (SQL_ATTR_PARAMSET_SIZE =? SQL_ATTR_APP_PARAM_DESC) with false. cbv iota.
  unfold set_plain_attr. rewrite Z.eqb_refl. cbv zeta iota.
  assert (u64 N = N) as -> by (apply wrap_u_small; unfold in_u, N; pose proof (zlen_nonneg zs); lia).
  eexists. split; [reflexivity|]. by split.
Qed.

Lemma BindParameter_array h s digits len : sized s h -> named_param_count s = 1 ->
  exists h', BindParameterStmt 1 SQL_PARAM_INPUT c_type sql_type size digits p len q h = (SQL_SUCCESS, h') /\ bound s h'.
Proof using Htype.
  clear Hind Hrange m.
  intros [[[[P1 P2 P3 P4 P5 P6] Hc [F1 F2 F3 F4 F5 F6]] Q Hs Hb Hpar] HN] H1. destruct int_params_plain as [Ic Is].
  rewrite H1 in Hpar. change (Z.to_nat (s16 1)) with 1%nat in Hpar. unfold BindParameterStmt. cbn [Z.eqb Pos.eqb negb].
  change (1 <? 1) with false. cbv iota zeta. rewrite !(SetSqlDataType_plain _ _ Ic), !(SetSqlDataType_plain _ _ Is). cbn [fst snd Z.eqb].
  change (1 - 1) with 0. eexists. split; [reflexivity|].
  destruct h as [dsn diag st rs bc op rd rf ml f [ap ip ex pl ps cp cpi vs] rwd]. cbn in P1, P2, P3, P4, P5, P6, Hc, F1, F2, F3, F4, F5, F6, Hs, Hb, Hpar, HN. subst ex vs ps st.
  destruct ip as [j1 j2 j3 [|r [|r' rs']] j5 j6]; [done| |done]. clear Hpar.
  pose proof (GetDescRecord_spec 0 ap ltac:(lia)) as (_ & _ & Hla & _ & _).
  destruct (lookup_lt_is_Some_2 (records (GetDescRecord 0 ap)) 0%nat) as [a Ea]; [lia|].
  assert (sql_desc_bind_offset_ptr (desc_header (GetDescRecord 0 ap)) = nullptr /\ sql_desc_array_size (desc_header (GetDescRecord 0 ap)) = N) as [Eo Es].
  { unfold GetDescRecord. destruct (_ <=? _); [|done]. by destruct ap as [? ? [] ? ? ?]. }
  split; try done. split; [|split; [done|cbn; lia]].
  split; try done; cbn -[GetDescRecord alter SetSqlDataType wrap_s];
    destruct (GetDescRecord 0 ap) as [b1 b2 b3 brs b5 b6]; cbn -[alter SetSqlDataType wrap_s] in *; try done.
  - destruct brs as [|a' brs]; [done|]. eexists. split; [reflexivity|]. unfold SetSqlDataType. rewrite Ic. by destruct a'.
  - eexists. split; [reflexivity|]. unfold SetSqlDataType. rewrite Is. by destruct r.
Qed.

(** Executing runs the engine on each element, and nothing in memory changes. *)
Lemma SQLExecute_array {Engine SQLStatement} `{EO : EngineOps Engine SQLStatement} fuel n h s (e : Engine) : bound s h -> never_fails s ->
  (forall vs e, Forall good_outcome (res_stream (engine_execute s vs e).1)) -> zs <> [] -> (length zs <= n)%nat ->
  exists h', SQLExecute fuel n true h e m = Some (Some (SQL_SUCCESS, h', execute_all s e (map (fun z => [V z]) zs), m)).
Proof.
  intros Hbd Hnf Hg Hne Hn. pose proof (bound_diag s h (Clean (stmt_diagnostic h)) Hbd) as [P Hc Q Hs Hb A]. unfold SQLExecute, ConvertHSTMT. cbn [negb].
  rewrite Z.eqb_refl. cbn [negb]. set (h1 := h <| stmt_diagnostic ::= Clean |>). change (h <| stmt_diagnostic := Clean (stmt_diagnostic h) |>) with h1 in *.
  unfold BatchExecuteStmt.
  destruct (execute_loop_sets s fuel Hnf zs 0 n h1 e Hs (pl_fetched h1 P) A) as (pd & r & -> & He & vs & e' & Er); [by rewrite drop_0|done|done|].
  set (h2 := h1 <| res := Some r |> <| is_open := true |> <| param_desc := pd |>).
  assert (executed h1 pd r = h2 <| odbc_fetcher ::= ClearChunks |>) as -> by by subst h2; destruct h1.
  assert (plain h2) as P2 by by destruct P. assert (Forall good_outcome (res_stream r)) as Hgr by (rewrite Er; apply Hg).
  destruct (after_execution_reading h2 s r P2 Hc Hs Q Hb eq_refl He Hgr eq_refl) as (h' & -> & _). by exists h'.
Qed.
End Array.
