(* ===== verification/Session.v ===== *)
(** * Sessions of an application

    The components put together: the heap of handles, the engine and the memory of the
    application are one state, and an entry point called on a statement handle takes the
    statement from the heap, runs the operation of its component, and writes the
    statement back. The first part is about arbitrary calls, the second about a query
    from [SQLAllocHandle] to [SQLFreeHandle]. *)

From S2P Require Import Prelude OdbcConst Memory OdbcUtils Diagnostic Interval ApiInfo Descriptor Params Fetch GetData Stmt Attributes ColumnInfo MetadataApi InfoApi Handles HandleCalls Stubs Frames Reading.

(** What the driver, the application and the engine share. *)
Record world (Engine : Type) := MkWorld { w_heap : heap; w_engine : Engine; w_mem : mem }.
Arguments MkWorld {Engine} _ _ _.
Arguments w_heap {Engine} _.
Arguments w_engine {Engine} _.
Arguments w_mem {Engine} _.

Definition statement_op (Engine : Type) : Type := nat -> OdbcHandleDbc -> OdbcHandleStmt -> Engine -> mem -> run Engine.

(** An operation on a statement handle, of a connection at an address: [call_stmt] with
    the engine and the memory. The outer [None] is that the fuel ran out. *)
Definition run_stmt {Engine} (f : statement_op Engine) (s : nat) (w : world Engine) : option (option (Z * world Engine)) :=
  if bool_decide (s = 0%nat) then Some (Some (SQL_INVALID_HANDLE, w))
  else match w_heap w !! s with
  | None => Some None
  | Some (OStmt o) =>
      match find_dbc (w_heap w) (so_dbc o), load_stmt (w_heap w) s with
      | Some d, Some hs =>
          match f (so_dbc o) (do_rest d) hs (w_engine w) (w_mem w) with
          | None => None
          | Some None => Some None
          | Some (Some (ret, hs, e, m)) => Some (Some (ret, MkWorld (store_stmt s (refresh hs) (w_heap w)) e m))
          end
      | _, _ => Some None
      end
  | Some _ => Some (Some (SQL_INVALID_HANDLE, w))
  end.

(** ** The entry points on a statement *)
Inductive stmt_entry :=
| CallPrepare (wide : bool) (text : ptr) (length : Z)
| CallExecute
| CallExecDirect (wide : bool) (text : ptr) (length : Z)
| CallFetch
| CallFetchScroll (orientation offset : Z)
| CallGetData (col type : Z) (target : ptr) (length : Z) (ind : ptr)
| CallMoreResults
| CallRowCount (count : ptr)
| CallBindCol (col type : Z) (target : ptr) (length : Z) (ind : ptr)
| CallBindParameter (number io c_type sql_type size digits : Z) (value : ptr) (length : Z) (ind : ptr)
| CallNumParams (count : ptr)
| CallDescribeParam (number : Z) (type size nullable : ptr)
| CallParamData (value : ptr)
| CallPutData (data : ptr) (ind : Z)
| CallCloseCursor
| CallFreeStmt (option : Z)
| CallDescribeCol (wide : bool) (col : Z) (name : ptr) (length : Z) (name_length type size digits nullable : ptr)
| CallColAttribute (wide : bool) (col field : Z) (text : ptr) (length : Z) (text_length number : ptr)
| CallNumResultCols (count : ptr)
| CallGetStmtAttr (attribute : Z) (value length : ptr)
| CallSetStmtAttr (attribute : Z) (value : ptr)
| CallTables (wide : bool) (a1 : ptr) (n1 : Z) (a2 : ptr) (n2 : Z) (a3 : ptr) (n3 : Z) (a4 : ptr) (n4 : Z)
| CallColumns (wide : bool) (a1 : ptr) (n1 : Z) (a2 : ptr) (n2 : Z) (a3 : ptr) (n3 : Z) (a4 : ptr) (n4 : Z)
| CallEmptyResult (query : bytes)
| CallGetTypeInfo (type : Z)
| CallCancel.

Section Calls.
Context {Engine SQLStatement : Type} `{EO : EngineOps Engine SQLStatement} `{GD : GetDataOp}.
Context (fuel n : nat) (alloc : ParameterDescriptor -> mem -> Z -> ptr) (interrupt : Engine -> Engine).
Context (param_type : option PreparedStatement -> Z -> LogicalTypeId) (handle_of : nat -> ptr).

Definition with_memory (e : Engine) (r : option (Z * OdbcHandleStmt * mem)) : run Engine :=
  Some ('(ret, h, m) ← r; Some (ret, h, e, m)).

(** Dropping a statement is [FreeHandle], and the two application descriptors are set by
    [set_descriptor], with the heap. *)
Definition stmt_op (c : stmt_entry) (d : OdbcHandleDbc) (h : OdbcHandleStmt) (e : Engine) (m : mem) : run Engine :=
  let handle r : run Engine := Some (Some (r.1, r.2, e, m)) in
  match c with
  | CallPrepare wide text length => if wide then SQLPrepareW fuel (conn d) text length h e m else SQLPrepare fuel (conn d) text length h e m
  | CallExecute => SQLExecute fuel n (conn d) h e m
  | CallExecDirect wide text length =>
      if wide then SQLExecDirectW fuel n (conn d) text length h e m else SQLExecDirect fuel n (conn d) text length h e m
  | CallFetch => SQLFetch fuel (conn d) h e m
  | CallFetchScroll orientation offset => SQLFetchScroll fuel (conn d) orientation offset h e m
  | CallGetData col type target length ind => SQLGetData (conn d) col type target length ind h e m
  | CallMoreResults => SQLMoreResults fuel (conn d) h e m
  | CallRowCount count => SQLRowCount (conn d) count h e m
  | CallBindCol col type target length ind => lift e m (SQLBindCol (conn d) col type target length ind h)
  | CallBindParameter number io c_type sql_type size digits value length ind =>
      handle (SQLBindParameter (conn d) number io c_type sql_type size digits value length ind h)
  | CallNumParams count => with_memory e (SQLNumParams (conn d) count h m)
  | CallDescribeParam number type size nullable =>
      with_memory e (SQLDescribeParam (param_type (stmt h)) (conn d) number type size nullable h m)
  | CallParamData value => with_memory e (SQLParamData (conn d) value h m)
  | CallPutData data ind => with_memory e (SQLPutData alloc (conn d) data ind h m)
  | CallCloseCursor => handle (SQLCloseCursor (conn d) h)
  | CallFreeStmt option => handle (SQLFreeStmt (conn d) option h)
  | CallDescribeCol wide col name length name_length type size digits nullable =>
      with_memory e ((if wide then SQLDescribeColW else SQLDescribeCol) (conn d) col name length name_length type size digits nullable h m)
  | CallColAttribute wide col field text length text_length number =>
      with_memory e ((if wide then SQLColAttributeW else SQLColAttribute) (conn d) col field text length text_length number h m)
  | CallNumResultCols count => with_memory e (SQLNumResultCols (conn d) count h m)
  | CallGetStmtAttr attribute value length => with_memory e (SQLGetStmtAttr handle_of (conn d) attribute value length h m)
  | CallSetStmtAttr attribute value => with_memory e (SQLSetStmtAttr (fun _ => None) (conn d) attribute value h m)
  | CallTables wide a1 n1 a2 n2 a3 n3 a4 n4 =>
      (if wide then SQLTablesW else SQLTables) fuel n (conn d) (sql_attr_metadata_id d) a1 n1 a2 n2 a3 n3 a4 n4 h e m
  | CallColumns wide a1 n1 a2 n2 a3 n3 a4 n4 =>
      (if wide then SQLColumnsW else SQLColumns) fuel n (conn d) (sql_attr_metadata_id d) a1 n1 a2 n2 a3 n3 a4 n4 h e m
  | CallEmptyResult query => empty_result query fuel n (conn d) h e m
  | CallGetTypeInfo type => SQLGetTypeInfo fuel n (conn d) type h e m
  | CallCancel => let '(ret, h, e) := SQLCancel interrupt (conn d) h e in Some (Some (ret, h, e, m))
  end.

(** No entry point changes what the statement's pointers point to. *)
Lemma stmt_op_pointers c d h e m ret h' e' m' :
  stmt_op c d h e m = Some (Some (ret, h', e', m')) -> pointers h' = pointers h.
Proof.
  intros E. cut (leads (points (pointers h)) (stmt_op c d h e m)); [by rewrite E|]. clear E. assert (points (pointers h) h) as Hp by done.
  set (P := points (pointers h)) in *.
  assert (forall r, leads P r -> leads P (with_memory e r)) as Hm by by intros [[[r h1] m1]|].
  assert (forall r, leads P r -> leads P (lift e m r)) as Hl by by intros [[r h1]|].
  assert (forall r : Z * OdbcHandleStmt, leads P r -> leads P (Some (Some (r.1, r.2, e, m)) : run Engine)) as Hh by done.
  assert (forall a v, leads P (SQLSetStmtAttr (fun _ => None) (conn d) a v h m)) as Hset.
  { intros a v. destruct (decide (a = SQL_ATTR_APP_ROW_DESC)) as [->|]; [|destruct (decide (a = SQL_ATTR_APP_PARAM_DESC)) as [->|]].
    - unfold SQLSetStmtAttr, SetStmtAttrInternal, ConvertHSTMT. by destruct (conn d).
    - unfold SQLSetStmtAttr, SetStmtAttrInternal, ConvertHSTMT. by destruct (conn d).
    - by apply points_SQLSetStmtAttr. }
  subst P. destruct c; cbn [stmt_op]; try (destruct wide);
    unfold SQLPrepare, SQLPrepareW, SQLExecDirect, SQLExecDirectW, SQLDescribeCol, SQLDescribeColW, SQLColAttribute,
      SQLTables, SQLTablesW, SQLColumns, SQLColumnsW, SQLGetTypeInfo;
    try apply Hm; try apply Hl; try apply Hh; eauto with frame.
  pose proof (points_SQLCancel (pointers h) interrupt (conn d) h e Hp) as H1. by destruct (SQLCancel interrupt (conn d) h e) as [[r h1] e1].
Qed.
End Calls.

(** ** A call on one statement of the heap *)
Lemma run_stmt_ok {Engine} (f : statement_op Engine) s w o d hs ret hs' e m : wf (w_heap w) ->
  w_heap w !! s = Some (OStmt o) -> w_heap w !! so_dbc o = Some (ODbc d) -> load_stmt (w_heap w) s = Some hs ->
  f (so_dbc o) (do_rest d) hs (w_engine w) (w_mem w) = Some (Some (ret, hs', e, m)) ->
  run_stmt f s w = Some (Some (ret, MkWorld (store_stmt s (refresh hs') (w_heap w)) e m)).
Proof.
  intros W Ho Hd Hhs Hf. unfold run_stmt. rewrite bool_decide_eq_false_2 by (intros ->; by rewrite (wf_null _ W) in Ho).
  by rewrite Ho, (proj2 (find_dbc_Some _ _ _) Hd), Hhs, Hf.
Qed.

Section Safety.
Context {Engine SQLStatement : Type} {engine_of : nat -> EngineOps Engine SQLStatement} `{GD : GetDataOp} `{Allocator}.
Context (fuel n : nat) (alloc : ParameterDescriptor -> mem -> Z -> ptr) (interrupt : Engine -> Engine).
Context (param_type : option PreparedStatement -> Z -> LogicalTypeId) (handle_of : nat -> ptr).

(** An entry point, with the engine as the connection of the statement sees it. *)
Definition entry (c : stmt_entry) : statement_op Engine :=
  fun p => stmt_op (EO := engine_of p) fuel n alloc interrupt param_type handle_of c.

End Safety.

(** ** The statement of a session

    A statement allocated on a heap and used until it is freed: the calls on it change
    nothing outside of it and its four descriptors. *)
Record in_session (h1 : heap) (s : nat) (o1 : StmtObject) (P : OdbcHandleStmt -> Prop) (h : heap) : Prop := {
  is_wf : wf h;
  is_stmt : exists r hs, h !! s = Some (OStmt (o1 <| so_rest := r |>)) /\ load_stmt h s = Some hs /\ P hs;
  is_rest : forall q, q ∉ footprint s o1 -> h !! q = h1 !! q
}.

Lemma in_session_mono h1 s o1 (P Q : OdbcHandleStmt -> Prop) h : (forall hs, P hs -> Q hs) -> in_session h1 s o1 P h -> in_session h1 s o1 Q h.
Proof. intros HPQ [W (r & hs & H1 & H2 & H3) Hr]. split; [done| |done]. exists r, hs. auto. Qed.

Section Statement.
Context (h1 : heap) (s : nat) (o1 : StmtObject) (d : DbcObject) (W1 : wf h1) (Ho1 : h1 !! s = Some (OStmt o1)).
Context (Hd : h1 !! so_dbc o1 = Some (ODbc d)) (Hown : so_cur_apd o1 = so_apd o1 /\ so_cur_ard o1 = so_ard o1).

Lemma session_dbc P h : in_session h1 s o1 P h -> h !! so_dbc o1 = Some (ODbc d).
Proof.
  intros [W (r & hs & H1 & _) Hr]. rewrite Hr; [done|]. intros Hin%elem_of_cons. destruct Hin as [E|Hi]; [congruence|].
  destruct (stmt_owns _ _ _ (wf_stmt _ W1 _ _ Ho1) _ Hi) as (x & Hx & _). congruence.
Qed.

(** What the statement of the session stores is its own. *)
Lemma session_descriptors h o hs : represents h s o hs -> so_cur_apd o = so_apd o -> so_cur_ard o = so_ard o ->
  desc_id <$> descriptors_of hs = implicit o.
Proof.
  intros [[A1 _] [A2 _] [A3 _] [A4 _] _ _ [A7 A8] _] E1 E2. unfold descriptors_of, implicit.
  destruct (cur_explicit_apd (param_desc hs)) as [c|]; [destruct (proj1 A7); [by eexists|done]|].
  destruct (cur_explicit_ard (row_desc hs)) as [c|]; [destruct (proj1 A8); [by eexists|done]|].
  cbn. by rewrite A1, A2, A3, A4.
Qed.

Lemma session_step {Engine} (f : statement_op Engine) P (R : Z -> OdbcHandleStmt -> Engine -> mem -> Prop) w : in_session h1 s o1 P (w_heap w) ->
  (forall hs, P hs -> exists ret hs' e m, f (so_dbc o1) (do_rest d) hs (w_engine w) (w_mem w) = Some (Some (ret, hs', e, m))
     /\ pointers hs' = pointers hs /\ R ret hs' e m) ->
  exists ret hs' w', run_stmt f s w = Some (Some (ret, w')) /\ R ret hs' (w_engine w') (w_mem w')
    /\ in_session h1 s o1 (fun x => x = refresh hs') (w_heap w').
Proof.
  intros S Hf. pose proof (session_dbc P _ S) as Hd'. destruct S as [W (r & hs & Ho & Hhs & HP) Hr].
  destruct (Hf hs HP) as (ret & hs' & e & m & E & Hp & HR). set (o := o1 <| so_rest := r |>) in *.
  destruct (load_stmt_wf _ s o W Ho) as (hs0 & E0 & R0). assert (hs0 = hs) as -> by congruence.
  pose proof (refresh_pointers _ s o hs hs' R0 Hp) as R'.
  exists ret, hs', (MkWorld (store_stmt s (refresh hs') (w_heap w)) e m). split; [by apply (run_stmt_ok f s w o d hs)|]. split; [exact HR|].
  cbn [w_heap]. split; [by apply (stored_wf _ s o)| |].
  - exists (refresh hs'), (refresh hs'). split; [rewrite (stored_self _ s o _ Ho R'); by destruct o1|]. split; [by apply (load_store _ s o)|done].
  - intros q Hq. rewrite <- Hr by done. pose proof Hq as Hq'. unfold footprint in Hq'. rewrite not_elem_of_cons in Hq'. destruct Hq' as [Hqs Hqi].
    pose proof (session_descriptors _ o _ R' (proj1 Hown) (proj2 Hown)) as Hids.
    destruct (w_heap w !! q) as [[v|b|u|x]|] eqn:Eq; try (by rewrite (stored_others _ s o _ Ho R'), Eq by (done || by rewrite Eq)).
    by rewrite (stored_unshared _ s o _ Ho R' q x) by (done || by rewrite Hids).
Qed.

(** Freeing it gives what freeing it at once would have given. *)
Lemma session_free P h : in_session h1 s o1 P h -> FreeHandle SQL_HANDLE_STMT s h = FreeHandle SQL_HANDLE_STMT s h1.
Proof.
  intros [W (r & hs & Ho & _) Hr]. destruct (free_stmt h s _ W Ho) as (ha & -> & _ & La). destruct (free_stmt h1 s o1 W1 Ho1) as (hb & -> & _ & Lb).
  do 2 f_equal. apply map_eq. intros q. rewrite La, Lb. change (footprint s (o1 <| so_rest := r |>)) with (footprint s o1).
  destruct (decide (q ∈ footprint s o1)); [done|]. by rewrite Hr.
Qed.
End Statement.

(** A new statement is ready. *)
Lemma new_stmt_session `{Allocator} h p d : wf h -> h !! p = Some (ODbc d) ->
  exists s h1 o1, SQLAllocHandle SQL_HANDLE_STMT p h = Some (SQL_SUCCESS, Some s, h1) /\ FreeHandle SQL_HANDLE_STMT s h1 = Some (SQL_SUCCESS, h)
    /\ wf h1 /\ h1 !! s = Some (OStmt o1) /\ so_dbc o1 = p /\ (so_cur_apd o1 = so_apd o1 /\ so_cur_ard o1 = so_ard o1)
    /\ h1 !! p = Some (ODbc (add_stmt_ref s d)) /\ in_session h1 s o1 ready h1.
Proof.
  intros W Hd. destruct (alloc_free_stmt h p d W Hd) as (s & h1 & Ea & _ & Ef). pose proof Ea as E. unfold SQLAllocHandle in E. cbn [Z.eqb Pos.eqb] in E.
  rewrite (proj2 (find_dbc_Some _ _ _) Hd) in E. cbn [mbind option_bind] in E. pose proof (alloc_stmt h p d W Hd) as W1.
  destruct (new_stmt p d h) as [s' h'] eqn:En. injection E as -> ->. cbn [snd] in W1.
  destruct (new_stmt_spec h p d s h1 Hd En) as (a & i & r & ir & HF & Hn & Hl).
  set (o1 := MkStmtObject p a i r ir a r (new_OdbcHandleStmt 0 (do_rest d))) in *.
  assert (h1 !! s = Some (OStmt o1)) as Ho by by rewrite Hl, decide_True.
  assert (h1 !! p = Some (ODbc (add_stmt_ref s d))) as Hd1 by exact (ns_dbc h h1 p s a i r ir d (so_rest o1) Hd HF Hl).
  assert (forall q, q ∈ implicit o1 -> exists ref, load_desc h1 q = Some ((new_OdbcHandleDesc 0 [] None false) <| desc_id := q |>
    <| desc_dsn := dbc_dsn (do_rest d) |> <| desc_stmt := ref |>)) as Hdesc.
  { intros q Hq. destruct (load_owned h1 s o1 q W1 Ho Hq) as (x & b & Hx & Hb & ->).
    pose proof (ns_owned h h1 p s a i r ir d (so_rest o1) Hn Hl q Hq) as Hx'. rewrite Hx in Hx'. injection Hx' as ->.
    change (so_dbc o1) with p in Hb. rewrite Hd1 in Hb. injection Hb as <-. by eexists. }
  destruct (own_descs o1) as (I1 & I2 & I3 & I4).
  destruct (Hdesc _ I1) as [r1 L1], (Hdesc _ I2) as [r2 L2], (Hdesc _ I3) as [r3 L3], (Hdesc _ I4) as [r4 L4].
  exists s, h1, o1. split; [done|]. split; [done|]. split; [done|]. split; [done|]. split; [done|]. split; [done|]. split; [done|].
  split; [done| |done]. exists (so_rest o1). eexists. split; [exact Ho|]. split.
  - unfold load_stmt. rewrite (proj2 (find_stmt_Some _ _ _) Ho). cbn [mbind option_bind]. change (so_dbc o1) with p. rewrite (proj2 (find_dbc_Some _ _ _) Hd1). cbn [mbind option_bind].
    rewrite L1, L2, L3, L4. cbn [mbind option_bind]. unfold load_current. rewrite !bool_decide_eq_true_2 by done. reflexivity.
  - split; [split| |split]; done.
Qed.

(** ** A query of one column

    What an application does to read a column of numbers: allocate a statement, prepare
    and execute the text, fetch the rows one by one until there are none and read the
    column of each into its buffer, and free the statement. A call that does not
    succeed ends it. *)
Definition succeed {Engine} (r : option (option (Z * world Engine))) : option (world Engine) :=
  match r with Some (Some (ret, w)) => if ret =? SQL_SUCCESS then Some w else None | _ => None end.

Lemma succeed_ok {Engine} (w : world Engine) : succeed (Some (Some (SQL_SUCCESS, w))) = Some w.
Proof. done. Qed.

Section Query.
Context {Engine SQLStatement : Type} {engine_of : nat -> EngineOps Engine SQLStatement} `{CO : CellOps} `{TZ : TimeZone} `{Allocator}.
Context (fuel n : nat) (alloc : ParameterDescriptor -> mem -> Z -> ptr) (interrupt : Engine -> Engine).
Context (param_type : option PreparedStatement -> Z -> LogicalTypeId) (handle_of : nat -> ptr).
Let call (c : stmt_entry) : nat -> world Engine -> option (option (Z * world Engine)) :=
  run_stmt (entry (engine_of := engine_of) fuel n alloc interrupt param_type handle_of c).

(** The buffer, the length beside it, and the column with its C type. *)
Context (target ind : ptr) (col type : Z) (size : nat).

Fixpoint read_column (k s : nat) (w : world Engine) : option (list (option Z) * world Engine) :=
  match k with
  | O => None
  | S k' =>
      match call CallFetch s w with
      | Some (Some (ret, w)) =>
          if ret =? SQL_NO_DATA then Some ([], w)
          else if ret =? SQL_SUCCESS then
            w ← succeed (call (CallGetData col type target (Z.of_nat size) ind) s w);
            '(l, w') ← read_column k' s w;
            Some (read_cell size (w_mem w) target ind :: l, w')
          else None
      | _ => None
      end
  end.

Definition query_column (k p : nat) (text : ptr) (length : Z) (w : world Engine) : option (list (option Z) * world Engine) :=
  match SQLAllocHandle SQL_HANDLE_STMT p (w_heap w) with
  | Some (_, Some s, h) =>
      w ← succeed (call (CallPrepare false text length) s (MkWorld h (w_engine w) (w_mem w)));
      w ← succeed (call CallExecute s w);
      '(l, w) ← read_column k s w;
      '(_, h) ← SQLFreeHandle SQL_HANDLE_STMT s (w_heap w);
      Some (l, MkWorld h (w_engine w) (w_mem w))
  | _ => None
  end.

(** The cells of the rows, as the application reads them. *)
Definition column_cells (ty : LogicalTypeId) (rows : list row) (xs : list (option Z)) : Prop :=
  Forall2 (fun r x => exists v, r !! Z.to_nat (col - 1) = Some v /\ cell_reads ty size v x) rows xs.

Definition same_outside (w w' : world Engine) : Prop := forall a, outside_buffers size target ind a -> w_mem w' !! a = w_mem w !! a.

Section Steps.
Context (ty : LogicalTypeId) (Hty : number_type type = Some (ty, size)) (Hcol : 1 <= col) (Hbuf : buffers_apart size target ind).
Context (h1 : heap) (s : nat) (o1 : StmtObject) (d : DbcObject) (W1 : wf h1) (Ho1 : h1 !! s = Some (OStmt o1)).
Context (Hd : h1 !! so_dbc o1 = Some (ODbc d)) (Hown : so_cur_apd o1 = so_apd o1 /\ so_cur_ard o1 = so_ard o1) (Hconn : conn (do_rest d) = true).

(** An entry point on the statement of the session. *)
Lemma entry_step c P (R : Z -> OdbcHandleStmt -> Engine -> mem -> Prop) w : in_session h1 s o1 P (w_heap w) ->
  (forall hs, P hs -> exists ret hs' e m,
     entry (engine_of := engine_of) fuel n alloc interrupt param_type handle_of c (so_dbc o1) (do_rest d) hs (w_engine w) (w_mem w)
       = Some (Some (ret, hs', e, m)) /\ R ret hs' e m) ->
  exists ret hs' w', call c s w = Some (Some (ret, w')) /\ R ret hs' (w_engine w') (w_mem w')
    /\ in_session h1 s o1 (fun x => x = refresh hs') (w_heap w').
Proof.
  intros S Hc. apply (session_step h1 s o1 d W1 Ho1 Hd Hown _ P R w S). intros hs HP. destruct (Hc hs HP) as (ret & hs' & e & m & E & HR).
  exists ret, hs', e, m. split; [exact E|]. split; [|exact HR]. exact (stmt_op_pointers _ _ _ _ _ _ _ _ _ _ _ _ _ _ _ E).
Qed.

Lemma fetch_step w rows : in_session h1 s o1 (fun hs => reading hs rows) (w_heap w) ->
  exists w', w_engine w' = w_engine w /\ w_mem w' = w_mem w /\
    match rows with
    | [] => call CallFetch s w = Some (Some (SQL_NO_DATA, w')) /\ in_session h1 s o1 (fun hs => reading hs []) (w_heap w')
    | r :: rows => call CallFetch s w = Some (Some (SQL_SUCCESS, w'))
        /\ in_session h1 s o1 (fun hs => reading hs rows /\ the_row hs = Some r) (w_heap w')
    end.
Proof.
  intros S.
  destruct (entry_step CallFetch _ (fun ret hs' e m => e = w_engine w /\ m = w_mem w /\
    match rows with [] => ret = SQL_NO_DATA /\ reading hs' [] | r :: rows => ret = SQL_SUCCESS /\ reading hs' rows /\ the_row hs' = Some r end) w S)
    as (ret & hs' & w' & E & (He & Hm & HR) & S').
  - intros hs R. unfold entry, stmt_op. rewrite Hconn. pose proof (SQLFetch_reading (EO := engine_of (so_dbc o1)) fuel hs (w_engine w) (w_mem w) rows R) as HF.
    destruct rows as [|r rows]; [destruct HF as (h' & -> & R')|destruct HF as (h' & -> & R' & Hrow)]; eauto 10.
  - exists w'. split; [done|]. split; [done|]. destruct rows as [|r rows].
    + destruct HR as [-> R']. split; [exact E|]. apply (in_session_mono _ _ _ _ _ _ (fun x Hx => eq_ind_r (fun x => reading x []) (reading_refresh _ _ R') Hx) S').
    + destruct HR as (-> & R' & Hrow). split; [exact E|]. refine (in_session_mono _ _ _ _ _ _ _ S'). intros x ->.
      split; [by apply reading_refresh|exact Hrow].
Qed.

Lemma get_data_step w rows r v x : in_session h1 s o1 (fun hs => reading hs rows /\ the_row hs = Some r) (w_heap w) ->
  r !! Z.to_nat (col - 1) = Some v -> cell_reads ty size v x ->
  exists w', call (CallGetData col type target (Z.of_nat size) ind) s w = Some (Some (SQL_SUCCESS, w'))
    /\ in_session h1 s o1 (fun hs => reading hs rows) (w_heap w') /\ w_engine w' = w_engine w
    /\ read_cell size (w_mem w') target ind = x /\ same_outside w w'.
Proof.
  intros S Hv Hx.
  destruct (entry_step (CallGetData col type target (Z.of_nat size) ind) _ (fun ret hs' e m => ret = SQL_SUCCESS /\ reading hs' rows /\ e = w_engine w
    /\ read_cell size m target ind = x /\ forall a, outside_buffers size target ind a -> m !! a = w_mem w !! a) w S)
    as (ret & hs' & w' & E & (-> & R' & He & Hread & Hout) & S').
  - intros hs [R Hrow]. unfold entry, stmt_op. rewrite Hconn.
    destruct (SQLGetData_reading hs r rows col type ty size v x target (Z.of_nat size) ind (w_engine w) (w_mem w) R Hrow Hcol Hv Hty Hx Hbuf)
      as (h' & m' & -> & R' & _ & Hread & Hout). eauto 10.
  - exists w'. split; [exact E|]. split; [|done]. refine (in_session_mono _ _ _ _ _ _ _ S'). intros y ->. by apply reading_refresh.
Qed.

(** The loop reads the rows to come, to the end. *)
Lemma read_column_session rows xs : column_cells ty rows xs -> forall k w, (length xs < k)%nat ->
  in_session h1 s o1 (fun hs => reading hs rows) (w_heap w) ->
  exists w', read_column k s w = Some (xs, w') /\ in_session h1 s o1 (fun hs => reading hs []) (w_heap w')
    /\ w_engine w' = w_engine w /\ same_outside w w'.
Proof.
  induction 1 as [|r x rows xs (v & Hv & Hx) _ IH]; intros k w Hk S; (destruct k as [|k]; [cbn in Hk; lia|]); cbn [read_column].
  - destruct (fetch_step w [] S) as (w' & He & Hm & -> & S'). rewrite Z.eqb_refl. exists w'. split; [done|]. split; [done|]. split; [done|].
    intros a _. by rewrite Hm.
  - destruct (fetch_step w (r :: rows) S) as (w1 & He1 & Hm1 & -> & S1). change (SQL_SUCCESS =? SQL_NO_DATA) with false. rewrite Z.eqb_refl. cbv iota.
    destruct (get_data_step w1 rows r v x S1 Hv Hx) as (w2 & -> & S2 & He2 & Hread & Hout). rewrite succeed_ok. cbn [mbind option_bind].
    destruct (IH k w2) as (w3 & -> & S3 & He3 & Hout3); [cbn in Hk; lia|done|]. cbn [mbind option_bind]. rewrite Hread.
    exists w3. split; [done|]. split; [done|]. split; [congruence|]. intros a Ha. by rewrite (Hout3 a Ha), (Hout a Ha), Hm1.
Qed.

Lemma prepare_step w text length st e1 : in_session h1 s o1 ready (w_heap w) -> simple_query st ->
  engine_prepare (EngineOps := engine_of (so_dbc o1)) (OdbcUtils.ConvertSQLCHARToString fuel (w_mem w) text length) (w_engine w) = (st, e1) ->
  exists w', call (CallPrepare false text length) s w = Some (Some (SQL_SUCCESS, w'))
    /\ in_session h1 s o1 (fun hs => prepared hs st) (w_heap w') /\ w_engine w' = e1 /\ w_mem w' = w_mem w.
Proof.
  intros S Q Hp. destruct (entry_step (CallPrepare false text length) _ (fun ret hs' e m => ret = SQL_SUCCESS /\ prepared hs' st /\ e = e1 /\ m = w_mem w) w S)
    as (ret & hs' & w' & E & (-> & P' & He & Hm) & S').
  - intros hs R. unfold entry, stmt_op. rewrite Hconn. unfold SQLPrepare.
    destruct (PrepareText_ready (EO := engine_of (so_dbc o1)) hs _ st (w_engine w) e1 (w_mem w) R Hp Q) as (h' & -> & P'). eauto 10.
  - exists w'. split; [exact E|]. split; [|done]. refine (in_session_mono _ _ _ _ _ _ _ S'). intros y ->. by apply prepared_refresh.
Qed.

Lemma execute_step w st r e2 : (0 < n)%nat -> in_session h1 s o1 (fun hs => prepared hs st) (w_heap w) -> named_param_count st = 0 ->
  engine_execute (EngineOps := engine_of (so_dbc o1)) st [] (w_engine w) = (r, e2) -> res_error r = None -> Forall good_outcome (res_stream r) ->
  exists w', call CallExecute s w = Some (Some (SQL_SUCCESS, w'))
    /\ in_session h1 s o1 (fun hs => reading hs (stream_rows (res_stream r))) (w_heap w') /\ w_engine w' = e2 /\ w_mem w' = w_mem w.
Proof.
  intros Hn S H0 Ex He Hg. destruct (entry_step CallExecute _ (fun ret hs' e m => ret = SQL_SUCCESS
    /\ reading hs' (stream_rows (res_stream r)) /\ e = e2 /\ m = w_mem w) w S) as (ret & hs' & w' & E & (-> & R' & He' & Hm) & S').
  - intros hs P. unfold entry, stmt_op. rewrite Hconn.
    destruct (SQLExecute_prepared (EO := engine_of (so_dbc o1)) fuel n hs st r (w_engine w) e2 (w_mem w) Hn P H0 Ex He Hg) as (h' & -> & R'). eauto 10.
  - exists w'. split; [exact E|]. split; [|done]. refine (in_session_mono _ _ _ _ _ _ _ S'). intros y ->. by apply reading_refresh.
Qed.
End Steps.

(** C1: A query, from allocating its statement to freeing it: on any well-formed heap with an
    open connection, whatever else is open on it, the application reads exactly the column
    of the rows the engine delivers, nulls and numbers, in order and to the end, however
    the engine cuts the rows into chunks, an empty result included; every handle is
    afterwards as it was before, the engine is in the state after one preparation and one
    execution, and no memory but the buffer and the length beside it is changed. *)
Theorem query_session k p d text length h e m st e1 r e2 ty xs :
  wf h -> h !! p = Some (ODbc d) -> conn (do_rest d) = true ->
  engine_prepare (EngineOps := engine_of p) (OdbcUtils.ConvertSQLCHARToString fuel m text length) e = (st, e1) -> simple_query st -> named_param_count st = 0 ->
  engine_execute (EngineOps := engine_of p) st [] e1 = (r, e2) -> res_error r = None -> Forall good_outcome (res_stream r) ->
  number_type type = Some (ty, size) -> 1 <= col -> buffers_apart size target ind ->
  column_cells ty (stream_rows (res_stream r)) xs -> (0 < n)%nat -> (List.length xs < k)%nat ->
  exists m', query_column k p text length (MkWorld h e m) = Some (xs, MkWorld h e2 m')
    /\ forall a, outside_buffers size target ind a -> m' !! a = m !! a.
Proof.
  intros W Hd Hconn Hp Q H0 Hx He Hg Hty Hcol Hbuf Hcells Hn Hk. unfold query_column. cbn [w_heap w_engine w_mem].
  destruct (new_stmt_session h p d W Hd) as (s & h1 & o1 & -> & Hfree & W1 & Ho1 & Eb & Hown & Hd1 & S0). subst p.
  assert (conn (do_rest (add_stmt_ref s d)) = true) as Hconn1 by done.
  destruct (prepare_step h1 s o1 _ W1 Ho1 Hd1 Hown Hconn1 (MkWorld h1 e m) text length st e1 S0 Q Hp) as (w1 & -> & S1 & He1 & Hm1).
  rewrite succeed_ok. cbn [mbind option_bind]. subst e1.
  destruct (execute_step h1 s o1 _ W1 Ho1 Hd1 Hown Hconn1 w1 st r e2 Hn S1 H0 Hx He Hg) as (w2 & -> & S2 & He2 & Hm2).
  rewrite succeed_ok. cbn [mbind option_bind].
  destruct (read_column_session ty Hty Hcol Hbuf h1 s o1 _ W1 Ho1 Hd1 Hown Hconn1 _ xs Hcells k w2 Hk S2) as (w3 & -> & S3 & He3 & Hout).
  cbn [mbind option_bind]. unfold SQLFreeHandle. rewrite (session_free h1 s o1 W1 Ho1 _ _ S3), Hfree. cbn [mbind option_bind].
  exists (w_mem w3). split; [congruence|]. intros a Ha. rewrite (Hout a Ha), Hm2, Hm1. done.
Qed.
End Query.

(** ** Examples *)

(** An engine whose every query delivers three rows of one column, in two chunks; its
    state counts the calls. *)
Definition three_rows : QueryResult :=
  MkQueryResult None [FChunk [[VInteger 5]; [VNull]]; FChunk [[VInteger (-7)]]] [MkLogicalType LT_INTEGER 0 0] [B"i"] QUERY_RESULT.

Definition counting_engine : EngineOps nat unit := {|
  engine_prepare := fun _ e => (example_prepared, S e);
  engine_extract := fun _ e => (inl [tt], e);
  engine_prepare_statement := fun _ e => (example_prepared, S e);
  engine_execute := fun _ _ e => (three_rows, S e);
  engine_is_autocommit := fun _ => true;
  engine_set_autocommit := fun _ e => e;
  engine_commit := fun e => e;
  engine_rollback := fun e => (None, e);
  physical_type_name := fun _ => B"INT32";
  varchar_type_name := B"VARCHAR";
  system_catalog_name := B"system"
|}.

Lemma query_session_witness :
  exists m', query_column (engine_of := fun _ => counting_engine) (CO := plain_engine) (TZ := utc_zone) (H := at_the_end)
      9 3 (fun _ _ _ => 0) (fun e => e) (fun _ _ => LT_INTEGER) Z.of_nat 100 200 1 SQL_C_SLONG 4 9 2 0 0 (MkWorld connected 0%nat ∅)
    = Some ([Some 5; None; Some (-7)], MkWorld connected 2%nat m')
    /\ forall a, outside_buffers 4 100 200 a -> m' !! a = (∅ : mem) !! a.
Proof.
  apply (query_session (engine_of := fun _ => counting_engine) (CO := plain_engine) (TZ := utc_zone) (H := at_the_end)
    9 3 (fun _ _ _ => 0) (fun e => e) (fun _ _ => LT_INTEGER) Z.of_nat 100 200 1 SQL_C_SLONG 4 9 2 (dbc_at connected 2) 0 0 connected 0%nat ∅
    example_prepared 1%nat three_rows 2%nat LT_INTEGER [Some 5; None; Some (-7)]).
  - exact (reachable_wf _ connected_reachable).
  - vm_compute. reflexivity.
  - vm_compute. reflexivity.
  - reflexivity.
  - by split.
  - reflexivity.
  - reflexivity.
  - reflexivity.
  - repeat constructor; by eexists.
  - reflexivity.
  - lia.
  - repeat split; [done|done|by left].
  - repeat constructor; eexists; (split; [reflexivity|]); try done; (split; [done|]); (split; [done|]); by split.
  - lia.
  - cbn. lia.
Defined.

