(* ===== verification/BatchSession.v ===== *)
(** * A session that executes with an array of parameters

    From [SQLAllocHandle] to [SQLFreeHandle]: the elements of the array an application
    binds are what the engine executes the statement with. *)

From S2P Require Import Prelude OdbcConst Memory OdbcUtils Diagnostic Interval ApiInfo Descriptor Params Fetch GetData Stmt Attributes Handles HandleCalls Frames Reading Batch Session.

Section Insert.
Context {Engine SQLStatement : Type} {engine_of : nat -> EngineOps Engine SQLStatement} `{CO : CellOps} `{TZ : TimeZone} `{Allocator}.
Context (fuel n : nat) (alloc : ParameterDescriptor -> mem -> Z -> ptr) (interrupt : Engine -> Engine).
Context (param_type : option PreparedStatement -> Z -> LogicalTypeId) (handle_of : nat -> ptr).
Let call (c : stmt_entry) : nat -> world Engine -> option (option (Z * world Engine)) :=
  run_stmt (entry (engine_of := engine_of) fuel n alloc interrupt param_type handle_of c).

(** The parameter: its types, its buffer and indicators, and the number of sets. *)
Context (sql_type c_type p q size digits len count : Z).

Definition insert_array (dbc : nat) (text : ptr) (length : Z) (w : world Engine) : option (world Engine) :=
  match SQLAllocHandle SQL_HANDLE_STMT dbc (w_heap w) with
  | Some (_, Some s, h) =>
      w ← succeed (call (CallPrepare false text length) s (MkWorld h (w_engine w) (w_mem w)));
      w ← succeed (call (CallSetStmtAttr SQL_ATTR_PARAMSET_SIZE count) s w);
      w ← succeed (call (CallBindParameter 1 SQL_PARAM_INPUT c_type sql_type size digits p len q) s w);
      w ← succeed (call CallExecute s w);
      '(_, h) ← SQLFreeHandle SQL_HANDLE_STMT s (w_heap w);
      Some (MkWorld h (w_engine w) (w_mem w))
  | _ => None
  end.

Section Steps.
Context (width : nat) (sg : bool) (V : Z -> Value) (Htype : (sql_type, c_type, width, sg, V) ∈ int_params) (zs : list Z) (m0 : mem).
Context (Hp : p <> nullptr) (Hq : q <> nullptr) (Hsize : 0 <= size < 2 ^ 62) (Hcount : count = zlen zs) (Hsmall : count < 2 ^ 62).
Context (Hrange : Forall (fun z => if sg then in_s (8 * Z.of_nat width) z else in_u (8 * Z.of_nat width) z) zs).
Context (Hind : forall k, 0 <= k < count -> 0 <= load_s 8 (write_array width m0 p zs) (q + 8 * k)).
Context (h1 : heap) (s : nat) (o1 : StmtObject) (d : DbcObject) (W1 : wf h1) (Ho1 : h1 !! s = Some (OStmt o1)).
Context (Hd : h1 !! so_dbc o1 = Some (ODbc d)) (Hown : so_cur_apd o1 = so_apd o1 /\ so_cur_ard o1 = so_ard o1) (Hconn : conn (do_rest d) = true).

(** A step that leaves the engine and the memory alone. *)
Lemma quiet_step c (P Q : OdbcHandleStmt -> Prop) w : in_session h1 s o1 P (w_heap w) -> (forall hs, Q hs -> Q (refresh hs)) ->
  (forall hs, P hs -> exists hs', entry (engine_of := engine_of) fuel n alloc interrupt param_type handle_of c (so_dbc o1) (do_rest d) hs (w_engine w) (w_mem w)
     = Some (Some (SQL_SUCCESS, hs', w_engine w, w_mem w)) /\ Q hs') ->
  exists w', call c s w = Some (Some (SQL_SUCCESS, w')) /\ in_session h1 s o1 Q (w_heap w') /\ w_engine w' = w_engine w /\ w_mem w' = w_mem w.
Proof.
  intros S Hr Hc. destruct (entry_step fuel n alloc interrupt param_type handle_of h1 s o1 d W1 Ho1 Hd Hown c P
    (fun ret hs' e m => ret = SQL_SUCCESS /\ Q hs' /\ e = w_engine w /\ m = w_mem w) w S) as (ret & hs' & w' & E & (-> & HQ & He & Hm) & S').
  - intros hs HP. destruct (Hc hs HP) as (hs' & -> & HQ). eauto 10.
  - exists w'. split; [exact E|]. split; [|done]. refine (in_session_mono _ _ _ _ _ _ _ S'). intros y ->. by apply Hr.
Qed.

Lemma size_step w st : in_session h1 s o1 (fun hs => prepared hs st) (w_heap w) ->
  exists w', call (CallSetStmtAttr SQL_ATTR_PARAMSET_SIZE count) s w = Some (Some (SQL_SUCCESS, w'))
    /\ in_session h1 s o1 (sized zs st) (w_heap w') /\ w_engine w' = w_engine w /\ w_mem w' = w_mem w.
Proof.
  intros S. apply (quiet_step _ _ (sized zs st) w S); [intros hs; by apply sized_refresh|]. intros hs P.
  destruct (set_paramset_size zs ltac:(lia) (fun _ => None) hs st (w_mem w) P) as (h' & E & P').
  exists h'. unfold entry, stmt_op. rewrite Hconn, Hcount, E. by split.
Qed.

Lemma bind_step w st : in_session h1 s o1 (sized zs st) (w_heap w) -> named_param_count st = 1 ->
  exists w', call (CallBindParameter 1 SQL_PARAM_INPUT c_type sql_type size digits p len q) s w = Some (Some (SQL_SUCCESS, w'))
    /\ in_session h1 s o1 (bound sql_type c_type p q size zs st) (w_heap w') /\ w_engine w' = w_engine w /\ w_mem w' = w_mem w.
Proof.
  intros S H1. apply (quiet_step _ _ (bound sql_type c_type p q size zs st) w S); [intros hs; by apply bound_refresh|]. intros hs P.
  assert (sized zs st (hs <| stmt_diagnostic ::= Clean |>)) as P1 by by destruct P as [[[[P1 P2 P3 P4 P5 P6] Hc [F1 F2 F3 F4 F5 F6]] Q Hs Hb Hpar] HN].
  destruct (BindParameter_array sql_type c_type width sg V Htype p q size zs _ st digits len P1 H1) as (h' & E & Hbd).
  exists h'. unfold entry, stmt_op, SQLBindParameter, on_handle, ConvertHSTMT. rewrite Hconn. cbn [negb]. rewrite Z.eqb_refl. cbn [negb]. rewrite E. by split.
Qed.

Lemma execute_array_step w st : in_session h1 s o1 (bound sql_type c_type p q size zs st) (w_heap w) -> w_mem w = write_array width m0 p zs ->
  let _ := engine_of (so_dbc o1) in
  never_fails st -> (forall vs e, Forall good_outcome (res_stream (engine_execute st vs e).1)) -> zs <> [] -> (List.length zs <= n)%nat ->
  exists w', call CallExecute s w = Some (Some (SQL_SUCCESS, w')) /\ in_session h1 s o1 (fun _ => True) (w_heap w')
    /\ w_engine w' = execute_all st (w_engine w) (map (fun z => [V z]) zs) /\ w_mem w' = w_mem w.
Proof.
  intros S Hm EO Hnf Hg Hne Hn.
  destruct (entry_step fuel n alloc interrupt param_type handle_of h1 s o1 d W1 Ho1 Hd Hown CallExecute _
    (fun ret hs' e m => ret = SQL_SUCCESS /\ e = execute_all st (w_engine w) (map (fun z => [V z]) zs) /\ m = w_mem w) w S)
    as (ret & hs' & w' & E & (-> & He & Hm') & S').
  - intros hs P. unfold entry, stmt_op. rewrite Hconn, Hm.
    assert (forall k, 0 <= k < zlen zs -> 0 <= load_s 8 (write_array width m0 p zs) (q + 8 * k)) as Hind' by (rewrite <- Hcount; exact Hind).
    destruct (SQLExecute_array sql_type c_type width sg V Htype p q size zs m0 Hp Hq Hsize Hrange Hind' ltac:(lia) (EO := EO) fuel n hs st (w_engine w) P Hnf Hg Hne Hn)
      as (h' & E).
    subst EO. rewrite E. eauto 10.
  - exists w'. split; [exact E|]. split; [|done]. by refine (in_session_mono _ _ _ _ _ _ _ S').
Qed.
End Steps.

(** C2: An execution with an array of parameters, from allocating the statement to freeing
    it: on any well-formed heap with an open connection, a statement with one parameter
    marker that the engine prepares and executes without error is executed once for each
    element of the array the application bound, in order and with that element at its type,
    for every pair of integer types; the handles are afterwards as they were and no memory
    is changed. *)
Theorem array_session dbc d text length h e st e1 width (sg : bool) (V : Z -> Value) (zs : list Z) (m0 : mem) :
  let m := write_array width m0 p zs in
  wf h -> h !! dbc = Some (ODbc d) -> conn (do_rest d) = true ->
  engine_prepare (EngineOps := engine_of dbc) (ConvertSQLCHARToString fuel m text length) e = (st, e1) -> simple_query st -> named_param_count st = 1 ->
  never_fails (EO := engine_of dbc) st -> (forall vs e, Forall good_outcome (res_stream (engine_execute (EngineOps := engine_of dbc) st vs e).1)) ->
  (sql_type, c_type, width, sg, V) ∈ int_params -> Forall (fun z => if sg then in_s (8 * Z.of_nat width) z else in_u (8 * Z.of_nat width) z) zs ->
  p <> nullptr -> q <> nullptr -> 0 <= size < 2 ^ 62 -> (forall k, 0 <= k < count -> 0 <= load_s 8 m (q + 8 * k)) ->
  count = zlen zs -> count < 2 ^ 62 -> zs <> [] -> (List.length zs <= n)%nat ->
  insert_array dbc text length (MkWorld h e m) = Some (MkWorld h (execute_all (EO := engine_of dbc) st e1 (map (fun z => [V z]) zs)) m).
Proof.
  intros m W Hd Hconn Hprep Q H1 Hnf Hg Htype Hrange Hp Hq Hsize Hind Hcount Hsmall Hne Hn. unfold insert_array. cbn [w_heap w_engine w_mem].
  destruct (new_stmt_session h dbc d W Hd) as (s & h1 & o1 & -> & Hfree & W1 & Ho1 & Eb & Hown & Hd1 & S0). subst dbc.
  assert (conn (do_rest (add_stmt_ref s d)) = true) as Hconn1 by done.
  destruct (prepare_step (engine_of := engine_of) fuel n alloc interrupt param_type handle_of h1 s o1 _ W1 Ho1 Hd1 Hown Hconn1 (MkWorld h1 e m) text length st e1 S0 Q Hprep)
    as (w1 & E & S1 & He1 & Hm1).
  change (call (CallPrepare false text length) s (MkWorld h1 e m) = Some (Some (SQL_SUCCESS, w1))) in E. rewrite E. clear E.
  rewrite succeed_ok. cbn [mbind option_bind].
  destruct (size_step zs Hcount Hsmall h1 s o1 _ W1 Ho1 Hd1 Hown Hconn1 w1 st S1) as (w2 & -> & S2 & He2 & Hm2).
  rewrite succeed_ok. cbn [mbind option_bind].
  destruct (bind_step width sg V Htype zs h1 s o1 _ W1 Ho1 Hd1 Hown Hconn1 w2 st S2 H1) as (w3 & -> & S3 & He3 & Hm3).
  rewrite succeed_ok. cbn [mbind option_bind].
  assert (w_mem w3 = m) as Hm by by rewrite Hm3, Hm2, Hm1.
  destruct (execute_array_step width sg V Htype zs m0 Hp Hq Hsize Hcount Hsmall Hrange Hind h1 s o1 _ W1 Ho1 Hd1 Hown Hconn1 w3 st S3 Hm Hnf Hg Hne Hn)
    as (w4 & -> & S4 & He4 & Hm4).
  rewrite succeed_ok. cbn [mbind option_bind]. unfold SQLFreeHandle.
  rewrite (session_free h1 s o1 W1 Ho1 _ _ S4), Hfree. cbn [mbind option_bind]. do 2 f_equal; [|by rewrite Hm4].
  rewrite He4, He3, He2, He1. done.
Qed.
End Insert.

(** ** Example *)

(** An engine whose every statement has one parameter marker; its state is what it was
    asked to execute. *)
Definition one_parameter : PreparedStatement := example_prepared <| named_param_count := 1 |>.

Definition listing_engine : EngineOps (list (list Value)) unit := {|
  engine_prepare := fun _ e => (one_parameter, e);
  engine_extract := fun _ e => (inl [tt], e);
  engine_prepare_statement := fun _ e => (one_parameter, e);
  engine_execute := fun _ vs e => (three_rows, e ++ [vs]);
  engine_is_autocommit := fun _ => true;
  engine_set_autocommit := fun _ e => e;
  engine_commit := fun e => e;
  engine_rollback := fun e => (None, e);
  physical_type_name := fun _ => B"INT32";
  varchar_type_name := B"VARCHAR";
  system_catalog_name := B"system"
|}.

(** Three numbers at address 1000; the indicators at 2000 are zero. *)
Definition three_numbers : mem := write_array 4 ∅ 1000 [7; -8; -9].

Lemma array_session_witness :
  insert_array (engine_of := fun _ => listing_engine) (CO := plain_engine) (TZ := utc_zone) (H := at_the_end)
      9 3 (fun _ _ _ => 0) (fun e => e) (fun _ _ => LT_INTEGER) Z.of_nat SQL_INTEGER SQL_C_SLONG 1000 2000 0 0 0 3 2 0 0
      (MkWorld connected [] three_numbers)
    = Some (MkWorld connected [[VInteger 7]; [VInteger (-8)]; [VInteger (-9)]] three_numbers).
Proof.
  apply (array_session (engine_of := fun _ => listing_engine) (CO := plain_engine) (TZ := utc_zone) (H := at_the_end)
    9 3 (fun _ _ _ => 0) (fun e => e) (fun _ _ => LT_INTEGER) Z.of_nat SQL_INTEGER SQL_C_SLONG 1000 2000 0 0 0 3 2 (dbc_at connected 2) 0 0
    connected [] one_parameter [] 4 true VInteger [7; -8; -9] ∅).
  - exact (reachable_wf _ connected_reachable).
  - vm_compute. reflexivity.
  - vm_compute. reflexivity.
  - reflexivity.
  - by split.
  - reflexivity.
  - intros vs e. reflexivity.
  - intros vs e. repeat constructor; by eexists.
  - unfold int_params. do 5 right. left.
  - repeat constructor; done.
  - done.
  - done.
  - lia.
  - intros k Hk. assert (k = 0 \/ k = 1 \/ k = 2) as [->|[->| ->]] by lia; vm_compute; discriminate.
  - reflexivity.
  - lia.
  - done.
  - cbn. lia.
Defined.
